(* ===== verification/_CoqProject ===== *)
-Q . S2P
Prelude.v
Text.v
Double.v
Calendar.v
Regex.v
RegexFacts.v
Models.v
Sanitizer.v
Classifier.v
Preprocessing.v
Relevance.v
Json.v
Loads.v
LoadsFacts.v
Evidence.v
EvidenceFacts.v
SoakEvidence.v
SoakEvidenceFacts.v
DrillEvidence.v
DrillEvidenceFacts.v
RotationEvidence.v
RotationEvidenceFacts.v
AlertEvidence.v
AlertEvidenceFacts.v
Url.v
GitHubAppEvidence.v
GitHubAppEvidenceFacts.v
HttpsEvidence.v
HttpsEvidenceFacts.v
Diagnosis.v
HttpRetry.v
Llm.v
Difflib.v
DifflibFacts.v
Patching.v
RenderFacts.v
Security.v
Publication.v
Store.v
StoreFacts.v
StoreQueries.v
Schema.v
SchemaFacts.v
Migrations.v
MigrationsFacts.v
Governance.v
Queue.v
QueueFacts.v
Metrics.v
GitHub.v
GitHubApi.v
GitHubApiFacts.v
Pipeline.v
PipelineFacts.v
PipelineEnding.v
PipelineHistory.v
Worker.v
WorkerFacts.v
Main.v
MainFacts.v
Config.v
ConfigFacts.v
Auth.v
AuthFacts.v
Api.v
ApiFacts.v
Evaluation.v
PatchEvaluation.v
EvaluationFacts.v
Bootstrap.v
Registry.v
Docker.v
DockerFacts.v
PostgresRestore.v
GrafanaRestore.v
ContainerSoak.v
ContainerSoakFacts.v
ContainerRuntime.v
ReplicaRecovery.v
Preflight.v
