(* ===== verification/Prelude.v ===== *)
(** * PipeLens: verification library (root file)

    PipeLens is a GitHub App that diagnoses failed GitHub Actions runs.  A webhook
    announces a failed run; the web process stores it and queues it; a worker reads the
    logs and the context of the run, classifies the failure with rules and, for trusted
    runs only, with a language model, verifies proposed fix diffs against the files at the
    failing commit, stores the diagnosis and publishes it as a check and a pull request
    comment.  Users read the analyses and rate them through an HTTP interface behind a
    GitHub login.  The program is src/src/pipelens/*.py (file names below are relative to
    it); src/ops holds scripts for operators.

    ** Conventions

    - A Python str is a list of code points ([str], literals [u "..."]); bytes are lists of
      octets.  int is [Z]; float is [Q], the exact value of a finite double, and floating
      sums are the exact sums (the orders that the program decides on were checked to be
      those of the doubles where a file says so); literals, conversions and round(x, 3) are
      rounded as the machine rounds them (Double).  NaN and infinities occur where JSON and
      command lines can bring them, as values of their own.  Instants
      and durations are microseconds in [Z].  Columns are not cut to their width in the
      database: integers are those the driver accepts.
    - Exceptions are the type [exn]; a function that can raise returns an [outcome], and code
      with effects is in the monad [M W] of this file: state passing over a world [W], the
      state being kept when an exception is raised, as Python keeps it.
    - What the program does not define is a parameter: a class where it has structure
      (the server behind Redis, the transport below the GitHub client, HMAC, Fernet, the
      document parsers, Unicode properties beyond ASCII), with documented laws as a second
      class of hypotheses where a theorem needs them; every theorem with such hypotheses has
      a [_witness] that applies it to a concrete instance.
    - Loops over data are structural.  [paged] and [find_comment] (GitHubApi) take the number
      of pages they may ask for as fuel, and [listing_complete] shows that a fuel above the
      number of pages suffices; [run], [processing] and [_maintain_queue] (Worker) are endless
      loops and give their first [n] iterations, for every [n], and [processing_drains] says
      after how many the queue is empty; [retry_loop] (HttpRetry) runs on
      the policy's own bound; [matching_blocks_from] (Difflib) and the loops of the regular
      expression engine run on the length of their text, and [mrun_ok] shows the engine
      complete with respect to the declarative meaning.  The polling loops of the operators'
      scripts run on the number of rounds that fit before their deadline on a clock that does
      not stand still ([ContainerSoak.rounds]); [watch], which samples while a container runs, has no
      bound in the script and takes its number of samples.

    ** The files, in dependency order

    Foundations.  Prelude: strings, sorting, dicts as association lists, exceptions, the
    monad and its rules ([Mbind_Ok]).  Text: UTF-8 and URL quoting.  Regex, RegexFacts: the
    subset of [re] that the program uses, parsed from the same pattern sources, as a
    backtracking matcher with its declarative meaning and what a match has read.  Double:
    rounding to doubles.  Calendar: dates, datetime.isoformat and
    fromisoformat.  Json: decoded JSON with Python's operations on it.  Loads, LoadsFacts:
    json.loads of bytes and text, and that what the program writes it reads back.  Url:
    urllib.parse.urlsplit and ipaddress.ip_address.  Difflib, DifflibFacts:
    difflib.unified_diff.

    The analysis.
    - Models = models.py: the records and enumerations.
    - Sanitizer = sanitizer.py: the redaction rules, applied to every text that leaves.
    - Classifier = classifier.py: [classify_log], the rules and [extract_error_context].
    - Preprocessing = preprocessing.py: chunks, sanitizing and selection of a long log.
    - Relevance = relevance.py: correlation of changed files.
    - Diagnosis = diagnosis.py: the rule diagnosis and the check of a diagnosis against its
      sources.
    - Llm = llm.py: the bounded context, the call of the Responses API, the check of its
      answer.
    - Patching, RenderFacts = patching.py: version bumps found in logs, rule diffs,
      application and verification of diffs; what is rendered applies.
    - Publication = publication.py: the Markdown of the check and of the comment.
    - Pipeline = pipeline.py: [analyze], the stages and their order; its theorems are in
      PipelineFacts (calls and trust), PipelineEnding (outcome) and PipelineHistory (stages).

    State and messages.
    - Store = store.py: the tables as finite maps, each method as a transaction; StoreFacts,
      StoreQueries.
    - Schema, SchemaFacts: database schemas, the operations of a migration on schemas and on
      rows; Migrations = migrations/env.py and migrations/versions: the ten revisions, their
      inverses, the runs over them, and the declared tables of store.py; MigrationsFacts.
    - Queue = queue.py: the in-memory and the Redis queue, both instances of the interface
      [AnalysisQueue]; QueueFacts has the contract [QueueContract] that the worker and the
      web application are proved against, and its two implementations.
    - Metrics = metrics.py: the registry as a sequence of updates.
    - Worker = worker.py: [process_next], and the endless loops by their iterations;
      WorkerFacts, with the history of a loop ([turns]).

    The outside.
    - HttpRetry = http_retry.py: retries over an arbitrary server.
    - GitHub, GitHubApi = github.py: the interface the pipeline uses, and the REST client that
      implements it over a transport; GitHubApiFacts.
    - Security = security.py: webhook signatures.
    - Main = main.py (webhook handler, start-up); MainFacts.
    - Auth = auth.py: OAuth states and sessions; AuthFacts.
    - Api = main.py (the handlers behind a session); ApiFacts.
    - Config = config.py: secrets from files and the validator; ConfigFacts.
    - Bootstrap = bootstrap.py and [run_worker]: which parts the settings make, what can fail on
      the way (the database, Redis and the port of the metrics are the class [Drivers]), and
      the parts put together (pipeline over client over transport, worker over pipeline).
    - Evaluation, PatchEvaluation = evaluation.py, patch_evaluation.py: the two evaluations;
      EvaluationFacts, which also runs a scenario of evaluation/patch_scenarios.json.
    - Registry = ops/ghcr/audit_retention.py: the audit of published images.
    - Governance = ops/governance/audit_repository.py: the audit of the settings of the
      repository against the declared policy.

    The evidence of operations.  Six scripts read what an operator observed of a run, check
    it and write a redacted document whose status decides a release.  They repeat the same
    checks of JSON values; Evidence has these once, with [main], the script from the bytes
    of its input to the document and the exit status; EvidenceFacts inverts them and says
    where in the input an accepted value stood ([moment_at], [count_at], ...).
    - SoakEvidence = ops/worker/verify_soak_evidence.py, DrillEvidence =
      ops/recovery/verify_drill_evidence.py, RotationEvidence =
      ops/secrets/verify_rotation_evidence.py, AlertEvidence =
      ops/alertmanager/verify_channel_evidence.py, GitHubAppEvidence and HttpsEvidence =
      ops/acceptance/verify_github_app_evidence.py and verify_https_e2e_evidence.py, each
      with its Facts.  In each, [observed] says that every value of the report was read in
      its place, [criteria] what a passed report has shown, and the theorem
      [..._evidence_sound] that a document written with status 0 has both; the example
      observation of the directory is run through the script.

    Docker.  Three scripts drive docker and check what it answers.  Docker has the machine
    they run on as a class of operations ([Machine]: processes, clocks, an HTTP client,
    files), what each command does to containers, volumes and networks ([effect]), the laws
    that docker documents ([DockerLaws]: a command changes only what it names, and with
    --volumes the anonymous volumes of what it removes; an inspection finds what is there; a
    removal with status 0 removes; a name that is taken is refused), and what both restore
    drills share.  DockerFacts has histories of commands ([steps], [within], [yields]), what they do
    to the objects, and the machine of the examples, which has the laws.
    - PostgresRestore, GrafanaRestore = ops/postgres/verify_restore.py and
      ops/grafana/verify_restore.py: the drills from their arguments to the document, with
      their theorems.
    - ContainerSoak = ops/worker/run_container_soak.py: the soak of four workers with a kill
      and a network cut, from its arguments to the verified evidence and the clean-up, which
      calls SoakEvidence; ContainerSoakFacts, which also runs it to the end on a machine with
      files.
    - ContainerRuntime = ops/worker/container_runtime.py: what runs inside its containers, as
      far as it computes: the synthetic provider under concurrent requests and its audit, the
      tracker of the workers, the coordinator's results and exit status.
    - ReplicaRecovery = ops/worker/verify_replica_recovery.py: the arguments, the records that
      the jobs make while replicas process them, and the verdict over the records.
    - Preflight = ops/acceptance/verify_https.py: the four requests to the public origin and the
      checks of what it answers, over an HTTP client.

    ** What the theorems show

    - Trust: only trusted runs reach the language model and get diffs
      ([analyze_trust_boundary]), what TRUSTED rests on ([repository_context_trust]), only
      verified diffs are published ([published_fixes_verified],
      [verify_patch_suggestions_spec], [render_github_diagnosis_safe]), the answers of the
      model are checked against the evidence ([validate_llm_analysis_spec]).
    - Nothing is lost or done twice: [webhook_loses_nothing], [startup_reconciles],
      [redis_no_loss_no_duplicate] under every interleaving of clients,
      [redis_queue_refines], [process_next_spec], [processing_drains],
      [superseded_attempt_powerless], [attempt_lifecycle], [analyze_outcome],
      [analyze_stage_history].  One failed run is dropped by the program: [webhook_loses_nothing]
      names the case, a delivery id that is already another run's.
    - Who may do what: [webhook_authentic], [api_isolation], [login_session_roundtrip],
      [comment_upsert_spec].
    - The database: [reachable_store_ok]; the migrations build the declared tables
      ([migrations_build_metadata]), are undone by their inverses ([migrations_roundtrip]) and
      keep the rows ([upgrade_keeps_rows]).
    - Diffs: [render_apply_roundtrip], [apply_unified_diff_spec].
    - Texts and transports: [classify_log_spec], [preprocess_logs_reference],
      [request_with_retry_spec].
    - Configuration and operation: [validated_settings_spec], [worker_starts],
      [governance_audit_spec].
    - Evidence: [soak_evidence_sound], [github_app_evidence_sound].
    - Docker: what a script leaves behind ([postgres_drill_isolated], [soak_touches_own]) and
      what its success has shown ([postgres_evidence_sound], [grafana_evidence_sound],
      [soak_finished_sound], which rests on [soak_passed_criteria]); what the status of the
      soak's coordinator says of the workers ([coordinator_exactly_once]).

    The files hold further theorems that are not among these: the evidence of the other
    scripts ([..._evidence_sound]; [rotation_evidence_redacts]: the document does not depend on
    the owners of the secrets; [origin_canonical]: what an accepted origin looks like),
    [grafana_drill_isolated], [recovery_verdict_sound], [preflight_sound], [nearest_rank_spec],
    [provider_audit_spec], [render_hides_unverified], [listing_complete], [list_pages_complete], [cursor_roundtrip],
    [record_followup_run_spec], [propose_version_patches_spec], [session_key_rotation],
    [validate_inventories_spec], the chunks of a log, the bounds of the model's context, the
    ranking of files, signatures, OAuth states, recovery of orphaned messages, the check of a
    diagnosis against its log.

    ** Not modelled

    - The frameworks: FastAPI's routing and parsing of parameters, pydantic's type checks
      (their results are the typed arguments of the definitions), SQLAlchemy and the SQL it
      emits (a method's statement is its effect on the tables; foreign keys do not cascade,
      as in SQLite without the pragma), httpx below [HttpEnv], PyJWT, cryptography, the ZIP
      reader, prometheus_client's exposition.
    - The interleaving of handlers inside the web process: a handler runs alone.  The
      pipeline is the exception: [others] changes the database between any two of its steps.
    - Cancellation, logging, the argument parsing and printing of command line programs.
    - frontend/ (TypeScript), tests/, docs/, the connection that migrations/env.py opens, and
      of ops/: the loops of container_runtime.py and verify_replica_recovery.py that feed and
      poll Redis (asyncio processes around the queue and the worker modelled here), the alert
      receivers and the browser test server, network I/O with a few comparisons, and the checks
      that continuous integration runs over the repository's own files.
      The maintenance task of the worker is modelled beside its processing loop, not between
      its steps.
    - Somebody else working on the objects of docker while a script runs, and a docker daemon
      that does not answer: a failing inspect means absence ([DockerLaws]), as the scripts
      take it.
    - 2.0 ** (attempt - 1) is exact: beyond 1,024 attempts of one request, which a setting may
      allow, the program ends with an OverflowError instead of waiting ([_backoff_delay]).
    - Config's [urlparse] has not CPython's refusals of bracketed hosts and of hosts whose
      compatibility form holds a separator (Url, which other parts use, has them).
    - RedisTracker.retry of container_runtime.py: after a lost reply it may apply a script
      twice; ContainerRuntime counts what the scripts recorded. *)

From Stdlib Require Import QArith DecimalN.
From stdpp Require Import base list gmap strings numbers sorting.

Open Scope Z_scope.
Set Default Proof Using "Type".

(** ** Python strings: sequences of Unicode code points *)

Abbreviation str := (list N).

(** Decoding of the UTF-8 bytes of a Rocq string literal, so that the texts of
    the program (Korean prose included) can be written as in the source. *)
Fixpoint utf8_decode (bs : list N) : str :=
  match bs with
  | [] => []
  | b0 :: r0 =>
    if (b0 <? 128)%N then b0 :: utf8_decode r0 else
    match r0 with
    | [] => []
    | b1 :: r1 =>
      if (b0 <? 224)%N
      then (N.land b0 31 * 64 + N.land b1 63)%N :: utf8_decode r1 else
      match r1 with
      | [] => []
      | b2 :: r2 =>
        if (b0 <? 240)%N
        then (N.land b0 15 * 4096 + N.land b1 63 * 64 + N.land b2 63)%N :: utf8_decode r2
        else
        match r2 with
        | [] => []
        | b3 :: r3 =>
          (N.land b0 7 * 262144 + N.land b1 63 * 4096 + N.land b2 63 * 64
             + N.land b3 63)%N :: utf8_decode r3
        end
      end
    end
  end.

Fixpoint string_codes (s : string) : list N :=
  match s with
  | EmptyString => []
  | String a s' => Ascii.N_of_ascii a :: string_codes s'
  end.

(** [u "..."] is the Python literal. *)
Definition u (s : string) : str := utf8_decode (string_codes s).
Arguments u s%_string_scope : simpl never.

Definition NL : N := 10%N.
Definition nl : str := [NL].

Example u_korean : u "a한" = [97; 54620]%N.
Proof. reflexivity. Qed.

(** ** Character classes

    ASCII is concrete.  Beyond ASCII Python consults the Unicode character
    database, which is data the program does not contain: the functions it
    calls are the fields of [UnicodeDb], used only on text that is not ASCII. *)
Class UnicodeDb := {
  uni_decimal : N -> option N;   (* value of a decimal digit (category Nd) *)
  uni_alnum : N -> bool;         (* str.isalnum *)
  uni_lower : str -> str;        (* str.lower *)
  uni_casefold : str -> str      (* str.casefold *)
}.

Definition in_range (lo hi c : N) : bool := ((lo <=? c) && (c <=? hi))%N.

(** str.isspace *)
Definition is_space (c : N) : bool :=
  in_range 9 13 c || in_range 28 32 c || (c =? 133)%N || (c =? 160)%N
  || (c =? 5760)%N || in_range 8192 8202 c || in_range 8232 8233 c
  || (c =? 8239)%N || (c =? 8287)%N || (c =? 12288)%N.

(** The line boundaries of str.splitlines. *)
Definition is_linebreak (c : N) : bool :=
  in_range 10 13 c || in_range 28 30 c || (c =? 133)%N || in_range 8232 8233 c.

Definition ascii_upper (c : N) : bool := in_range 65 90 c.
Definition ascii_lower (c : N) : bool := in_range 97 122 c.
Definition ascii_digit (c : N) : bool := in_range 48 57 c.
Definition is_ascii (c : N) : bool := (c <? 128)%N.

Section chars.
Context {U : UnicodeDb}.

Definition digit_value (c : N) : option N :=
  if is_ascii c then (if ascii_digit c then Some (c - 48)%N else None) else uni_decimal c.
Definition is_digit (c : N) : bool :=
  match digit_value c with Some _ => true | None => false end.
Definition is_alnum (c : N) : bool :=
  if is_ascii c then ascii_upper c || ascii_lower c || ascii_digit c else uni_alnum c.
(** [\w] *)
Definition is_word (c : N) : bool := is_alnum c || (c =? 95)%N.

Definition lower_char (c : N) : N := if ascii_upper c then (c + 32)%N else c.
(** str.lower and str.casefold: they agree on ASCII text. *)
Definition lower (s : str) : str :=
  if forallb is_ascii s then map lower_char s else uni_lower s.
Definition casefold (s : str) : str :=
  if forallb is_ascii s then map lower_char s else uni_casefold s.
End chars.

(** A database in which only ASCII text has classes; used by witnesses. *)
Definition ascii_db : UnicodeDb := {|
  uni_decimal := fun _ => None; uni_alnum := fun _ => false;
  uni_lower := fun s => map lower_char s; uni_casefold := fun s => map lower_char s |}.

(** ** String operations *)

Fixpoint str_eqb (a b : str) : bool :=
  match a, b with
  | [], [] => true
  | x :: a', y :: b' => (x =? y)%N && str_eqb a' b'
  | _, _ => false
  end.

Lemma str_eqb_eq a b : str_eqb a b = true <-> a = b.
Proof.
  revert b; induction a as [|x a IH]; intros [|y b]; simpl; try (split; congruence).
  rewrite andb_true_iff, N.eqb_eq, IH. split; [intros [-> ->]|intros [= -> ->]]; auto.
Qed.

Lemma str_eqb_refl a : str_eqb a a = true.
Proof. by apply str_eqb_eq. Qed.

Lemma str_eqb_neq a b : str_eqb a b = false <-> a <> b.
Proof. rewrite <- str_eqb_eq. destruct (str_eqb a b); split; congruence. Qed.

(** s.startswith(p) *)
Fixpoint starts_with (p s : str) : bool :=
  match p, s with
  | [], _ => true
  | x :: p', y :: s' => (x =? y)%N && starts_with p' s'
  | _ :: _, [] => false
  end.

Definition ends_with (p s : str) : bool := starts_with (rev p) (rev s).

(** needle in hay *)
Fixpoint contains (needle hay : str) : bool :=
  starts_with needle hay ||
  match hay with [] => false | _ :: hay' => contains needle hay' end.

Fixpoint drop_while (p : N -> bool) (s : str) : str :=
  match s with
  | [] => []
  | c :: s' => if p c then drop_while p s' else s
  end.

Definition lstrip_by (p : N -> bool) (s : str) : str := drop_while p s.
Definition rstrip_by (p : N -> bool) (s : str) : str := rev (drop_while p (rev s)).
Definition strip_by (p : N -> bool) (s : str) : str := lstrip_by p (rstrip_by p s).
Definition lstrip : str -> str := lstrip_by is_space.
Definition rstrip : str -> str := rstrip_by is_space.
Definition strip : str -> str := strip_by is_space.
(** s.strip(chars), s.rstrip(chars) *)
Definition in_chars (chars : str) (c : N) : bool := existsb (N.eqb c) chars.
Definition strip_chars (chars s : str) : str := strip_by (in_chars chars) s.
Definition rstrip_chars (chars s : str) : str := rstrip_by (in_chars chars) s.

(** The characters before the first [c]. *)
Fixpoint take_while_not (c : N) (s : str) : str :=
  match s with
  | [] => []
  | x :: s' => if (x =? c)%N then [] else x :: take_while_not c s'
  end.

Definition remove_prefix (p s : str) : str :=
  if starts_with p s then drop (length p) s else s.
Definition remove_suffix (p s : str) : str :=
  if ends_with p s then take (length s - length p) s else s.

(** s.splitlines(keepends=True): CR LF is one boundary. *)
Definition is_crlf (c : N) (s : str) : bool :=
  (c =? 13)%N && match s with d :: _ => (d =? 10)%N | [] => false end.

Fixpoint splitlines_keep (s : str) : list str :=
  match s with
  | [] => []
  | c :: s' =>
    if is_crlf c s' then
      match s' with
      | d :: s'' => [c; d] :: splitlines_keep s''
      | [] => []
      end
    else if is_linebreak c then [c] :: splitlines_keep s'
    else match splitlines_keep s' with
         | [] => [[c]]
         | l :: ls => (c :: l) :: ls
         end
  end.

Definition drop_eol (line : str) : str :=
  match rev line with
  | [] => []
  | c :: r =>
    if is_linebreak c then
      match r with
      | d :: r' => if ((c =? 10) && (d =? 13))%N then rev r' else rev r
      | [] => []
      end
    else line
  end.

(** s.splitlines() *)
Definition splitlines (s : str) : list str := map drop_eol (splitlines_keep s).

(** sep.join(parts) *)
Fixpoint str_join (sep : str) (parts : list str) : str :=
  match parts with
  | [] => []
  | [p] => p
  | p :: ps => p ++ sep ++ str_join sep ps
  end.

(** s.split(c) for a one-character separator *)
Fixpoint split_char (c : N) (s : str) : list str :=
  match s with
  | [] => [[]]
  | x :: s' =>
    if (x =? c)%N then [] :: split_char c s'
    else match split_char c s' with
         | [] => [[x]]
         | p :: ps => (x :: p) :: ps
         end
  end.

(** s.replace(old, new) for a one-character [old] *)
Definition replace_char (c : N) (new : str) (s : str) : str :=
  flat_map (fun x => if (x =? c)%N then new else [x]) s.

(** s.count(c) *)
Definition count_char (c : N) (s : str) : nat := length (filter (fun x => x = c) s).

(** str(n) *)
Fixpoint uint_codes (d : Decimal.uint) : str :=
  match d with
  | Decimal.Nil => []
  | Decimal.D0 d => 48%N :: uint_codes d | Decimal.D1 d => 49%N :: uint_codes d
  | Decimal.D2 d => 50%N :: uint_codes d | Decimal.D3 d => 51%N :: uint_codes d
  | Decimal.D4 d => 52%N :: uint_codes d | Decimal.D5 d => 53%N :: uint_codes d
  | Decimal.D6 d => 54%N :: uint_codes d | Decimal.D7 d => 55%N :: uint_codes d
  | Decimal.D8 d => 56%N :: uint_codes d | Decimal.D9 d => 57%N :: uint_codes d
  end.
Definition str_of_N (n : N) : str := uint_codes (N.to_uint n).
Definition str_of_Z (z : Z) : str :=
  match z with
  | Z0 => u "0"
  | Zpos p => str_of_N (Npos p)
  | Zneg p => u "-" ++ str_of_N (Npos p)
  end.

(** Decimal numbers are read back: str is injective on integers. *)
Lemma uint_codes_inj a b : uint_codes a = uint_codes b -> a = b.
Proof.
  revert b. induction a; intros []; cbn; try done; intros [= H]; f_equal; auto.
Qed.
Lemma str_of_N_inj a b : str_of_N a = str_of_N b -> a = b.
Proof. intros H%uint_codes_inj. by apply Unsigned.to_uint_inj. Qed.
Lemma uint_codes_digit d c r : uint_codes d = c :: r -> (48 <= c <= 57)%N.
Proof. destruct d; cbn; try done; intros [= <- _]; lia. Qed.
Lemma str_of_N_digits n : Forall (fun c => ascii_digit c = true) (str_of_N n).
Proof. unfold str_of_N. induction (N.to_uint n); cbn; repeat constructor; done. Qed.
Lemma str_of_N_nonempty n : str_of_N n <> [].
Proof.
  unfold str_of_N. assert (N.to_uint n <> Decimal.Nil) as H.
  { destruct n as [|p]; [done|]. apply DecimalPos.Unsigned.to_uint_nonnil. }
  by destruct (N.to_uint n).
Qed.
Lemma str_of_Z_inj a b : str_of_Z a = str_of_Z b -> a = b.
Proof.
  assert (H0 : u "0" = str_of_N 0) by reflexivity.
  assert (Hm : forall n p, str_of_N n <> u "-" ++ str_of_N p).
  { intros n p H. change (str_of_N n = 45%N :: str_of_N p) in H.
    apply uint_codes_digit in H. lia. }
  destruct a as [|a|a], b as [|b|b]; cbn [str_of_Z]; rewrite ?H0; intros H.
  - done.
  - apply str_of_N_inj in H. done.
  - by apply Hm in H.
  - apply str_of_N_inj in H. done.
  - apply str_of_N_inj in H. congruence.
  - by apply Hm in H.
  - symmetry in H. by apply Hm in H.
  - symmetry in H. by apply Hm in H.
  - apply app_inv_head, str_of_N_inj in H. congruence.
Qed.

Lemma Forall_weaken {A} (P Q : A -> Prop) l :
  Forall P l -> (forall x, P x -> Q x) -> Forall Q l.
Proof. intros H HPQ. induction H; constructor; auto. Qed.

(** Code-point order of strings, and stable sorting (Python's [sorted]). *)
Fixpoint str_leb (a b : str) : bool :=
  match a, b with
  | [], _ => true
  | _ :: _, [] => false
  | x :: a', y :: b' => (x <? y)%N || ((x =? y)%N && str_leb a' b')
  end.
Definition str_ltb (a b : str) : bool := str_leb a b && negb (str_eqb a b).

Section sorting.
Context {A : Type} (leb : A -> A -> bool).
Fixpoint insert_sorted (x : A) (l : list A) : list A :=
  match l with
  | [] => [x]
  | y :: l' => if leb x y then x :: l else y :: insert_sorted x l'
  end.
Definition py_sorted (l : list A) : list A := foldr insert_sorted [] l.

Lemma insert_sorted_perm x l : insert_sorted x l ≡ₚ x :: l.
Proof.
  induction l as [|y l IH]; simpl; [done|].
  destruct (leb x y); [done|]. rewrite IH. apply perm_swap.
Qed.
Lemma py_sorted_perm l : py_sorted l ≡ₚ l.
Proof. induction l as [|x l IH]; simpl; [done|]. by rewrite insert_sorted_perm, IH. Qed.

Definition le_rel (x y : A) : Prop := leb x y = true.
Context (Htot : forall x y, leb x y = false -> leb y x = true).
Context (Htrans : forall x y z, leb x y = true -> leb y z = true -> leb x z = true).

Lemma insert_sorted_sorted x l :
  StronglySorted le_rel l -> StronglySorted le_rel (insert_sorted x l).
Proof using Htot Htrans.
  induction 1 as [|y l Hl IH Hy]; simpl; [repeat constructor|].
  destruct (leb x y) eqn:E.
  - constructor; [by constructor|]. constructor; [done|].
    eapply Forall_weaken; [exact Hy|]. intros z Hz. by eapply Htrans.
  - constructor; [done|]. rewrite insert_sorted_perm. constructor; [|done].
    by apply Htot.
Qed.
Lemma py_sorted_sorted l : StronglySorted le_rel (py_sorted l).
Proof using Htot Htrans.
  induction l as [|x l IH]; simpl; [constructor|]. by apply insert_sorted_sorted.
Qed.

(** The first element of a sorted list is below all others. *)
Lemma py_sorted_head l x :
  head (py_sorted l) = Some x -> In x l /\ forall y, In y l -> y = x \/ leb x y = true.
Proof using Htot Htrans.
  intros H. pose proof (py_sorted_sorted l) as Hs. pose proof (py_sorted_perm l) as Hp.
  destruct (py_sorted l) as [|x' r]; [done|]. injection H as ->. split.
  - apply list_elem_of_In. rewrite <- Hp. by left.
  - intros y Hy%list_elem_of_In. rewrite <- Hp in Hy. apply elem_of_cons in Hy as [->|Hy]; [by left|].
    right. inversion Hs as [|? ? _ Hall]; subst. rewrite Forall_forall in Hall. by apply Hall.
Qed.
Lemma py_sorted_nil l : head (py_sorted l) = None -> l = [].
Proof.
  intros H. pose proof (py_sorted_perm l) as Hp. destruct (py_sorted l); [|done].
  by apply Permutation_nil_l in Hp.
Qed.
End sorting.

(** ** Python slices: negative bounds count from the end, then clamp *)
Definition slice_bound (len i : Z) : nat :=
  Z.to_nat (Z.min len (if i <? 0 then Z.max 0 (i + len) else i)).
Definition py_slice {A} (l : list A) (a b : Z) : list A :=
  let len := Z.of_nat (length l) in
  take (slice_bound len b - slice_bound len a) (drop (slice_bound len a) l).
(** l[a:] *)
Definition py_from {A} (l : list A) (a : Z) : list A :=
  drop (slice_bound (Z.of_nat (length l)) a) l.
(** l[:b] *)
Definition py_upto {A} (l : list A) (b : Z) : list A :=
  take (slice_bound (Z.of_nat (length l)) b) l.

Lemma py_slice_In {A} (l : list A) a b x : In x (py_slice l a b) -> In x l.
Proof.
  unfold py_slice. intros H. rewrite <- list_elem_of_In in H |- *.
  apply elem_of_take in H as (i & H & _). rewrite lookup_drop in H.
  by eapply list_elem_of_lookup_2.
Qed.
Lemma py_slice_lookup {A} (l : list A) a b i x :
  0 <= a -> a <= Z.of_nat i < b -> l !! i = Some x -> In x (py_slice l a b).
Proof.
  intros Ha Hi Hx. rewrite <- list_elem_of_In. unfold py_slice, slice_bound.
  pose proof (lookup_lt_Some _ _ _ Hx) as Hl.
  destruct (Z.ltb_spec a 0); [lia|]. destruct (Z.ltb_spec b 0); [lia|].
  apply elem_of_take. exists (i - Z.to_nat (Z.min (Z.of_nat (length l)) a))%nat.
  rewrite lookup_drop. split; [|lia]. rewrite <- Hx. f_equal. lia.
Qed.
Lemma py_from_In {A} (l : list A) a x : In x (py_from l a) -> In x l.
Proof.
  unfold py_from. intros H. rewrite <- list_elem_of_In in H |- *.
  apply list_elem_of_lookup in H as (i & H). rewrite lookup_drop in H.
  by eapply list_elem_of_lookup_2.
Qed.

(** ** Dictionaries in insertion order *)
Section dict.
Context {K V : Type} (keqb : K -> K -> bool).

Fixpoint dict_get (d : list (K * V)) (k : K) : option V :=
  match d with
  | [] => None
  | (k', v) :: d' => if keqb k k' then Some v else dict_get d' k
  end.
(** d[k] = v keeps the position of an existing key. *)
Fixpoint dict_set (d : list (K * V)) (k : K) (v : V) : list (K * V) :=
  match d with
  | [] => [(k, v)]
  | (k', v') :: d' => if keqb k k' then (k', v) :: d' else (k', v') :: dict_set d' k v
  end.
(** d.setdefault(k, v) *)
Definition dict_setdefault (d : list (K * V)) (k : K) (v : V) : list (K * V) :=
  match dict_get d k with Some _ => d | None => d ++ [(k, v)] end.
Definition dict_has (d : list (K * V)) (k : K) : bool :=
  match dict_get d k with Some _ => true | None => false end.

Context (Hk : forall a b, keqb a b = true <-> a = b).

Lemma dict_get_set d k v k' :
  dict_get (dict_set d k v) k' = if keqb k' k then Some v else dict_get d k'.
Proof using Hk.
  induction d as [|[k0 v0] d IH]; simpl.
  - done.
  - destruct (keqb k k0) eqn:E; simpl.
    + apply Hk in E as ->. by destruct (keqb k' k0).
    + destruct (keqb k' k0) eqn:E'; [|done].
      apply Hk in E' as ->. destruct (keqb k0 k) eqn:E2; [|done].
      apply Hk in E2 as ->. assert (keqb k k = true) by by apply Hk. congruence.
Qed.

Lemma dict_get_Some_In d k v : dict_get d k = Some v -> In (k, v) d.
Proof using Hk.
  induction d as [|[k0 v0] d IH]; simpl; [done|].
  destruct (keqb k k0) eqn:E; [|by auto].
  intros [= ->]. apply Hk in E as ->. by left.
Qed.

Lemma dict_get_None d k : dict_get d k = None <-> ~ In k (map fst d).
Proof using Hk.
  induction d as [|[k0 v0] d IH]; simpl; [tauto|].
  destruct (keqb k k0) eqn:E.
  - apply Hk in E as ->. split; [done|]. intros Hn; destruct Hn; by left.
  - rewrite IH. split; [|tauto]. intros Hn [->|H]; [|done].
    assert (keqb k k = true) by by apply Hk. congruence.
Qed.

Lemma dict_setdefault_NoDup d k v :
  NoDup (map fst d) -> NoDup (map fst (dict_setdefault d k v)).
Proof using Hk.
  intros Hd. unfold dict_setdefault. destruct (dict_get d k) eqn:E; [done|].
  apply dict_get_None in E. rewrite map_app. apply NoDup_app. split; [done|].
  split; [|apply NoDup_singleton].
  intros x Hx ->%list_elem_of_singleton. apply E. by apply list_elem_of_In.
Qed.
End dict.

Lemma dict_set_NoDup {V} (d : list (str * V)) k v :
  NoDup (map fst d) -> NoDup (map fst (dict_set str_eqb d k v)).
Proof.
  induction d as [|[k' v'] d IH]; simpl; intros H; [apply NoDup_singleton|].
  inversion H as [|? ? Hk Hd]; subst.
  destruct (str_eqb k k') eqn:E; simpl; [by constructor|].
  constructor; [|by apply IH]. rewrite list_elem_of_In in *. intros Hin. apply Hk.
  clear -Hin E. induction d as [|[a b] d IHd]; simpl in *.
  - destruct Hin as [->|[]]. by rewrite str_eqb_refl in E.
  - destruct (str_eqb k a); simpl in *; tauto.
Qed.

(** list(dict.fromkeys(l)): the first occurrences *)
Definition fromkeys (l : list str) : list str :=
  map fst (fold_left (fun d k => dict_setdefault str_eqb d k tt) l []).

Lemma dict_setdefault_keys (d : list (str * unit)) k :
  map fst (dict_setdefault str_eqb d k tt)
  = if bool_decide (k ∈ map fst d) then map fst d else map fst d ++ [k].
Proof.
  unfold dict_setdefault. destruct (dict_get str_eqb d k) eqn:E.
  - apply dict_get_Some_In in E; [|apply str_eqb_eq]. rewrite bool_decide_eq_true_2; [done|].
    apply list_elem_of_In, in_map_iff. by eexists (k, _).
  - apply dict_get_None in E; [|apply str_eqb_eq]. rewrite bool_decide_eq_false_2.
    + by rewrite map_app.
    + by rewrite list_elem_of_In.
Qed.
Lemma fromkeys_spec (l : list str) :
  NoDup (fromkeys l) /\ (forall k, k ∈ fromkeys l <-> k ∈ l) /\ head (fromkeys l) = head l.
Proof.
  assert (forall (l : list str) (d : list (str * unit)), NoDup (map fst d) ->
    let r := map fst (fold_left (fun d k => dict_setdefault str_eqb d k tt) l d) in
    NoDup r /\ (forall k, k ∈ r <-> k ∈ map fst d \/ k ∈ l) /\ head r = head (map fst d ++ l)) as H.
  { clear l. intros l. induction l as [|k l IH]; intros d Hd; cbn [fold_left].
    - split_and!; [done|intros k; rewrite elem_of_nil; tauto|by rewrite app_nil_r].
    - destruct (IH (dict_setdefault str_eqb d k tt)) as (H1 & H2 & H3).
      { by apply dict_setdefault_NoDup; [apply str_eqb_eq|]. }
      rewrite dict_setdefault_keys in H2, H3. split_and!; [done| |].
      + intros x. rewrite H2, elem_of_cons. case_bool_decide as Hk.
        * split; [tauto|]. intros [?|[->|?]]; tauto.
        * rewrite elem_of_app, list_elem_of_singleton. tauto.
      + rewrite H3. case_bool_decide as Hk; [|by rewrite <-app_assoc].
        by destruct (map fst d); [by apply elem_of_nil in Hk|]. }
  destruct (H l [] (NoDup_nil_2)) as (H1 & H2 & H3). split_and!; [done| |done].
  intros k. rewrite (H2 k), elem_of_nil. tauto.
Qed.

(** ** Exceptions and effects *)

(** The exception classes the program raises, catches or tests for. *)
Inductive exn :=
| ValueError (msg : str) | KeyError (msg : str) | TypeError (msg : str)
| AttributeError (msg : str) | IndexError (msg : str)
| RuntimeError (msg : str) | AssertionError (msg : str)
| TimeoutError
| JSONDecodeError                         (* json, a ValueError *)
| UnicodeDecodeError                      (* a ValueError *)
| PatchError (msg : str)                  (* patching.py, a ValueError *)
| LLMError (msg : str)                    (* llm.py *)
| AnalysisAttemptSuperseded (msg : str)   (* store.py *)
| IntegrityError                          (* sqlalchemy.exc *)
| RedisError (msg : str)                  (* redis.exceptions *)
| TransportError (msg : str)              (* httpx *)
| HTTPStatusError (status : Z)            (* httpx, raise_for_status *)
| GitHubConfigurationError (msg : str)
| AuthenticationError (msg : str)
| InvalidSignatureError (msg : str)
| HTTPException (status : Z) (detail : str)
| SystemExit (code : Z)
| OtherException (msg : str).

(** except ValueError *)
Definition is_value_error (e : exn) : bool :=
  match e with
  | ValueError _ | JSONDecodeError | UnicodeDecodeError | PatchError _ => true
  | _ => false
  end.

Inductive outcome (A : Type) :=
| Ok (a : A)
| Raise (e : exn).
Arguments Ok {A} a.
Arguments Raise {A} e.

Definition obind {A B} (o : outcome A) (f : A -> outcome B) : outcome B :=
  match o with Ok a => f a | Raise e => Raise e end.
Definition omapo {A B} (f : A -> B) (o : outcome A) : outcome B :=
  obind o (fun a => Ok (f a)).
Definition is_ok {A} (o : outcome A) : bool := match o with Ok _ => true | Raise _ => false end.

Fixpoint omap_list {A B} (f : A -> outcome B) (l : list A) : outcome (list B) :=
  match l with
  | [] => Ok []
  | x :: l' => obind (f x) (fun y => obind (omap_list f l') (fun ys => Ok (y :: ys)))
  end.

Declare Scope out_scope.
Delimit Scope out_scope with out.
Notation "'let!' x ':=' o 'in' k" := (obind o (fun x => k))
  (at level 10, x pattern, o at level 100, k at level 200) : out_scope.
Open Scope out_scope.

Lemma obind_Ok {A B} (o : outcome A) (f : A -> outcome B) b :
  obind o f = Ok b -> exists a, o = Ok a /\ f a = Ok b.
Proof. destruct o; simpl; [eauto|discriminate]. Qed.

Lemma omap_list_Ok {A B} (f : A -> outcome B) l ys :
  omap_list f l = Ok ys -> Forall2 (fun x y => f x = Ok y) l ys.
Proof.
  revert ys; induction l as [|x l IH]; simpl; intros ys H.
  - injection H as <-. constructor.
  - apply obind_Ok in H as (y & Hy & H). apply obind_Ok in H as (ys' & Hys & [= <-]).
    constructor; auto.
Qed.

(** State and exceptions: a Python coroutine or method acting on a world [W].
    The state survives an exception. *)
Definition M (W A : Type) : Type := W -> outcome A * W.
Definition Mret {W A} (a : A) : M W A := fun w => (Ok a, w).
Definition Mraise {W A} (e : exn) : M W A := fun w => (Raise e, w).
Definition Mbind {W A B} (m : M W A) (f : A -> M W B) : M W B := fun w =>
  match m w with
  | (Ok a, w') => f a w'
  | (Raise e, w') => (Raise e, w')
  end.
Definition Mlift {W A} (o : outcome A) : M W A := fun w => (o, w).
(** try: m  except e: h(e) *)
Definition Mtry {W A} (m : M W A) (h : exn -> M W A) : M W A := fun w =>
  match m w with
  | (Ok a, w') => (Ok a, w')
  | (Raise e, w') => h e w'
  end.
(** try: m  except e: h(e)  else a: k(a) -- an exception of [k] is not caught *)
Definition Mtry_else {W A B} (m : M W A) (h : exn -> M W B) (k : A -> M W B) : M W B :=
  fun w => match m w with
           | (Ok a, w') => k a w'
           | (Raise e, w') => h e w'
           end.
Definition Mget {W} : M W W := fun w => (Ok w, w).
Definition Mmodify {W} (f : W -> W) : M W unit := fun w => (Ok tt, f w).
Definition Mwhen {W} (b : bool) (m : M W unit) : M W unit := if b then m else Mret tt.

Fixpoint Miter {W A} (f : A -> M W unit) (l : list A) : M W unit :=
  match l with
  | [] => Mret tt
  | x :: l' => Mbind (f x) (fun _ => Miter f l')
  end.

Declare Scope prog_scope.
Delimit Scope prog_scope with prog.
Notation "'do!' x ':=' m 'in' k" := (Mbind m (fun x => k))
  (at level 10, x pattern, m at level 100, k at level 200) : prog_scope.
Notation "m ';;;' k" := (Mbind m (fun _ => k))
  (at level 100, right associativity) : prog_scope.

Lemma Mbind_Ok {W A B} (m : M W A) (k : A -> M W B) s b s' :
  Mbind m k s = (Ok b, s') -> exists a s1, m s = (Ok a, s1) /\ k a s1 = (Ok b, s').
Proof. unfold Mbind. destruct (m s) as [[a|e] s1]; [eauto|done]. Qed.

(** ** Lemmas on strings *)

Lemma concat_splitlines_keep s : concat (splitlines_keep s) = s.
Proof.
  induction s as [s IH] using (induction_ltof1 _ (@length _)); unfold ltof in IH.
  destruct s as [|c s']; [done|]. cbn [splitlines_keep].
  destruct (is_crlf c s') eqn:E.
  - destruct s' as [|d s'']; [unfold is_crlf in E; by rewrite andb_false_r in E|].
    simpl. rewrite IH; [done|simpl; lia].
  - specialize (IH s' ltac:(simpl; lia)). destruct (is_linebreak c); simpl; [by rewrite IH|].
    destruct (splitlines_keep s') as [|l ls]; simpl in *; [by subst|by rewrite <- IH].
Qed.

Lemma starts_with_spec p s : starts_with p s = true <-> exists r, s = p ++ r.
Proof.
  revert s; induction p as [|x p IH]; intros [|y s]; simpl; try (split; eauto; done).
  - split; [done|]. by intros [r Hr].
  - rewrite andb_true_iff, N.eqb_eq, IH. split.
    + intros [-> [r ->]]. eauto.
    + intros [r [= -> ->]]. eauto.
Qed.

Lemma contains_spec n h : contains n h = true <-> exists a b, h = a ++ n ++ b.
Proof.
  induction h as [|c h IH]; cbn [contains];
    rewrite orb_true_iff, starts_with_spec.
  - split; [intros [[r Hr]|]; [|done]; by exists [], r|].
    intros (a & b & Hab). left. symmetry in Hab.
    apply app_nil in Hab as [-> [-> ->]%app_nil]. by exists [].
  - rewrite IH. split.
    + intros [[r Hr]|(a & b & ->)]; [by exists [], r|by exists (c :: a), b].
    + intros ([|x a] & b & Hab); simpl in *; [left; eauto|].
      injection Hab as -> ->. right. eauto.
Qed.

Lemma contains_app_l n a b : contains n b = true -> contains n (a ++ b) = true.
Proof.
  rewrite !contains_spec. intros (x & y & ->). exists (a ++ x), y. by rewrite <- app_assoc.
Qed.
Lemma contains_app_r n a b : contains n a = true -> contains n (a ++ b) = true.
Proof.
  rewrite !contains_spec. intros (x & y & ->). exists x, (y ++ b). by rewrite <- !app_assoc.
Qed.
Lemma contains_refl n : contains n n = true.
Proof. apply contains_spec. exists [], []. by rewrite app_nil_r. Qed.
Lemma contains_trans a b c : contains a b = true -> contains b c = true -> contains a c = true.
Proof.
  rewrite !contains_spec. intros (x & y & ->) (x' & y' & ->).
  exists (x' ++ x), (y ++ y'). by rewrite <- !app_assoc.
Qed.

Lemma drop_while_suffix p s : exists a, s = a ++ drop_while p s.
Proof.
  induction s as [|c s [a IH]]; simpl; [by exists []|].
  destruct (p c); [exists (c :: a); simpl; congruence|by exists []].
Qed.
Lemma drop_while_head p s c r : drop_while p s = c :: r -> p c = false.
Proof.
  induction s as [|x s IH]; simpl; [done|].
  destruct (p x) eqn:E; [done|]. by intros [= -> ->].
Qed.
Lemma contains_strip s : contains (strip s) s = true.
Proof.
  unfold strip, strip_by, lstrip_by, rstrip_by.
  destruct (drop_while_suffix is_space (rev s)) as [a Ha].
  destruct (drop_while_suffix is_space (rev (drop_while is_space (rev s)))) as [b Hb].
  apply contains_spec. exists b, (rev a).
  rewrite app_assoc, <- Hb, <- rev_app_distr, <- Ha. by rewrite rev_involutive.
Qed.

Lemma contains_concat l ls : In l ls -> contains l (concat ls) = true.
Proof.
  induction ls as [|x ls IH]; simpl; [done|].
  intros [->|H]; [apply contains_app_r, contains_refl|by apply contains_app_l, IH].
Qed.

Lemma contains_drop_eol l : contains (drop_eol l) l = true.
Proof.
  apply contains_spec. exists []. unfold drop_eol.
  destruct (rev l) as [|c r] eqn:E.
  - exists []. rewrite <- (rev_involutive l), E. done.
  - assert (Hl : l = rev r ++ [c]) by (rewrite <- (rev_involutive l), E; done).
    destruct (is_linebreak c); [|exists []; by rewrite app_nil_r].
    destruct r as [|d r']; [by exists l|]. simpl in *.
    destruct (_ && _)%bool; simpl; rewrite Hl; [|by eexists].
    rewrite <- app_assoc. by eexists.
Qed.

Lemma contains_splitlines l s : In l (splitlines s) -> contains l s = true.
Proof.
  unfold splitlines. rewrite in_map_iff. intros (x & <- & Hx).
  eapply contains_trans; [apply contains_drop_eol|].
  rewrite <- (concat_splitlines_keep s) at 1. by apply contains_concat.
Qed.

Lemma contains_str_join l sep ls : In l ls -> contains l (str_join sep ls) = true.
Proof.
  induction ls as [|x ls IH]; simpl; [done|]. intros [->|H].
  - destruct ls; [apply contains_refl|by apply contains_app_r, contains_refl].
  - destruct ls as [|y ls]; [done|]. apply contains_app_l, contains_app_l. by apply IH.
Qed.

Lemma strip_nonempty_nonspace s c r : strip s = c :: r -> is_space c = false.
Proof. apply drop_while_head. Qed.

(** ** pathlib.PurePosixPath *)
Module PosixPath.
Definition SLASH : N := 47%N.
Definition DOT : N := 46%N.

(** The root of a path: "/" or, for exactly two leading slashes, "//". *)
Definition root (s : str) : str :=
  if starts_with (u "///") s then u "/"
  else if starts_with (u "//") s then u "//"
  else if starts_with (u "/") s then u "/"
  else [].
(** The components: empty ones and "." disappear. *)
Definition components (s : str) : list str :=
  List.filter (fun p => negb (str_eqb p [] || str_eqb p (u "."))) (split_char SLASH s).
(** path.parts, path.name, str(path) *)
Definition parts (s : str) : list str :=
  match root s with [] => components s | r => r :: components s end.
Definition name (s : str) : str := List.last (components s) [].
Definition text (s : str) : str :=
  match root s ++ str_join [SLASH] (components s) with [] => u "." | t => t end.

Fixpoint rfind_dot (i : nat) (s : str) (found : option nat) : option nat :=
  match s with
  | [] => found
  | c :: r => rfind_dot (S i) r (if (c =? DOT)%N then Some i else found)
  end.
(** path.suffix *)
Definition suffix (s : str) : str :=
  let n := name s in
  match rfind_dot 0 n None with
  | Some i => if (0 <? i)%nat && (i <? length n - 1)%nat then drop i n else []
  | None => []
  end.
End PosixPath.

(** ** Blank text *)
Lemma drop_while_nil p s : drop_while p s = [] -> Forall (fun c => p c = true) s.
Proof.
  induction s as [|c s IH]; simpl; [constructor|].
  destruct (p c) eqn:E; [|done]. intros H. constructor; auto.
Qed.
Lemma strip_nil s : strip s = [] -> Forall (fun c => is_space c = true) s.
Proof.
  unfold strip, strip_by, lstrip_by, rstrip_by. intros H.
  destruct (drop_while is_space (rev s)) as [|c r] eqn:E.
  - apply drop_while_nil in E. rewrite <- (rev_involutive s). by apply List.Forall_rev.
  - exfalso. apply drop_while_head in E as Hc. apply drop_while_nil in H.
    rewrite List.Forall_forall in H. specialize (H c). rewrite <- in_rev in H.
    rewrite H in Hc; [done|by left].
Qed.

Lemma drop_eol_In c l : In c l -> is_linebreak c = false -> In c (drop_eol l).
Proof.
  intros Hin Hc. unfold drop_eol. rewrite <- (rev_involutive l), <- in_rev in Hin.
  destruct (rev l) as [|x r] eqn:E; [done|].
  destruct (is_linebreak x) eqn:Ex; [|by rewrite <- (rev_involutive l), <- in_rev, E].
  destruct Hin as [->|Hin]; [congruence|].
  destruct r as [|y r']; [done|].
  destruct (_ && _)%bool eqn:Ey; [|by rewrite <- in_rev].
  destruct Hin as [->|Hin]; [|by rewrite <- in_rev].
  exfalso. apply andb_true_iff in Ey as [_ ->%N.eqb_eq]. done.
Qed.

Lemma splitlines_char c s :
  In c s -> is_linebreak c = false -> exists l, In l (splitlines s) /\ In c l.
Proof.
  intros Hin Hc. rewrite <- (concat_splitlines_keep s), in_concat in Hin.
  destruct Hin as (l & Hl & Hcl). exists (drop_eol l).
  split; [by apply in_map|by apply drop_eol_In].
Qed.
