(* ===== verification/Text.v ===== *)
(** * UTF-8 and URL text (the Python standard library as the program uses it)

    [bytes.decode] (strict and with replacement), [str.encode] and the quoting of
    [urllib.parse.urlencode]. *)

From stdpp Require Import base list strings numbers.
From S2P Require Import Prelude.

(** ** UTF-8 *)

Definition is_cont (b : N) : bool := in_range 128 191 b.

(** The next character, or None, and the number of bytes it (or the invalid sequence)
    takes; [lo], [hi] bound the second byte. *)
Definition tail2 (lo hi : N) (mk : N -> N) (r : list N) : option N * nat :=
  match r with
  | b1 :: _ => if in_range lo hi b1 then (Some (mk (b1 - 128))%N, 2%nat) else (None, 1%nat)
  | [] => (None, 1%nat)
  end.
Definition tail3 (lo hi : N) (mk : N -> N -> N) (r : list N) : option N * nat :=
  match r with
  | b1 :: r1 =>
    if in_range lo hi b1 then
      match r1 with
      | b2 :: _ => if is_cont b2 then (Some (mk (b1 - 128) (b2 - 128))%N, 3%nat)
                   else (None, 2%nat)
      | [] => (None, 2%nat)
      end
    else (None, 1%nat)
  | [] => (None, 1%nat)
  end.
Definition tail4 (lo hi : N) (mk : N -> N -> N -> N) (r : list N) : option N * nat :=
  match r with
  | b1 :: r1 =>
    if in_range lo hi b1 then
      match r1 with
      | b2 :: r2 =>
        if is_cont b2 then
          match r2 with
          | b3 :: _ => if is_cont b3
                       then (Some (mk (b1 - 128) (b2 - 128) (b3 - 128))%N, 4%nat)
                       else (None, 3%nat)
          | [] => (None, 3%nat)
          end
        else (None, 2%nat)
      | [] => (None, 2%nat)
      end
    else (None, 1%nat)
  | [] => (None, 1%nat)
  end.

Definition mk2 (b0 x : N) : N := ((b0 - 192) * 64 + x)%N.
Definition mk3 (b0 x y : N) : N := ((b0 - 224) * 4096 + x * 64 + y)%N.
Definition mk4 (b0 x y z : N) : N := ((b0 - 240) * 262144 + x * 4096 + y * 64 + z)%N.

Definition utf8_step (b0 : N) (r : list N) : option N * nat :=
  if (b0 <? 128)%N then (Some b0, 1%nat)
  else if in_range 194 223 b0 then tail2 128 191 (mk2 b0) r
  else if (b0 =? 224)%N then tail3 160 191 (mk3 b0) r
  else if (b0 =? 237)%N then tail3 128 159 (mk3 b0) r
  else if in_range 225 239 b0 then tail3 128 191 (mk3 b0) r
  else if (b0 =? 240)%N then tail4 144 191 (mk4 b0) r
  else if in_range 241 243 b0 then tail4 128 191 (mk4 b0) r
  else if (b0 =? 244)%N then tail4 128 143 (mk4 b0) r
  else (None, 1%nat).

(** [fuel] bounds the number of characters: one per byte is enough. *)
Fixpoint decode_with (on_error : option N) (fuel : nat) (bs : list N) : option str :=
  match bs, fuel with
  | [], _ => Some []
  | _, O => None
  | b0 :: r, S fuel =>
    let '(c, n) := utf8_step b0 r in
    match match c with Some _ => c | None => on_error end with
    | Some c => option_map (cons c) (decode_with on_error fuel (drop (n - 1) r))
    | None => None
    end
  end.
(** b.decode("utf-8"): None is UnicodeDecodeError. *)
Definition decode_utf8 (bs : list N) : option str := decode_with None (length bs) bs.
(** b.decode("utf-8", errors="replace") *)
Definition decode_replace (bs : list N) : str :=
  default [] (decode_with (Some 65533%N) (length bs) bs).

(** A code point that is no surrogate. *)
Definition is_scalar (c : N) : bool :=
  (c <? 55296)%N || in_range 57344 1114111 c.
Definition cont (x : N) : N := (128 + x mod 64)%N.
Definition encode_char (c : N) : list N :=
  if (c <? 128)%N then [c]
  else if (c <? 2048)%N then [(192 + c / 64)%N; cont c]
  else if (c <? 65536)%N then [(224 + c / 4096)%N; cont (c / 64); cont c]
  else [(240 + c / 262144)%N; cont (c / 4096); cont (c / 64); cont c].
(** s.encode(): None is UnicodeEncodeError. *)
Definition encode_utf8 (s : str) : option (list N) :=
  if forallb is_scalar s then Some (flat_map encode_char s) else None.

(** ** Quoting *)

Definition hex_upper (n : N) : N := if (n <? 10)%N then (48 + n)%N else (55 + n)%N.
Definition percent (b : N) : str := [37%N; hex_upper (b / 16); hex_upper (b mod 16)].
Definition is_unreserved (b : N) : bool :=
  ascii_upper b || ascii_lower b || ascii_digit b || in_chars (u "_.-~") b.
(** urllib.parse.quote_plus *)
Definition quote_plus (s : str) : outcome str :=
  match encode_utf8 s with
  | Some bs => Ok (flat_map (fun b => if is_unreserved b then [b]
                                      else if (b =? 32)%N then u "+" else percent b) bs)
  | None => Raise (ValueError (u "UnicodeEncodeError"))
  end.
Definition quote_pair (kv : str * str) : outcome str :=
  let! v := quote_plus (snd kv) in Ok (fst kv ++ u "=" ++ v).
(** urllib.parse.urlencode, for keys of unreserved characters *)
Definition urlencode (kvs : list (str * str)) : outcome str :=
  let! parts := omap_list quote_pair kvs in Ok (str_join (u "&") parts).

Example decode_euro : decode_utf8 [226; 130; 172]%N = Some (u "€").
Proof. vm_compute. reflexivity. Qed.
Example decode_surrogate : decode_utf8 [237; 160; 128]%N = None.
Proof. vm_compute. reflexivity. Qed.
(** One replacement per maximal invalid sequence. *)
Example replace_truncated : decode_replace [226; 130; 65; 255]%N = u "�A�".
Proof. vm_compute. reflexivity. Qed.
Example quote_example : urlencode [(u "a", u "x y/é")] = Ok (u "a=x+y%2F%C3%A9").
Proof. vm_compute. reflexivity. Qed.

(** ** What is encoded is decoded again *)

Ltac divide := zify; Z.to_euclidean_division_equations; lia.
Lemma in_range_true lo hi c : (lo <= c)%N -> (c <= hi)%N -> in_range lo hi c = true.
Proof. intros H1 H2. unfold in_range. apply andb_true_iff. split; by apply N.leb_le. Qed.
Lemma in_range_false lo hi c : (c < lo)%N \/ (hi < c)%N -> in_range lo hi c = false.
Proof.
  intros H. unfold in_range. apply andb_false_iff. rewrite !N.leb_gt. tauto.
Qed.
Lemma is_cont_cont x : is_cont (cont x) = true.
Proof. apply in_range_true; unfold cont; divide. Qed.
Lemma cont_low x : (cont x - 128 = x mod 64)%N.
Proof. unfold cont. divide. Qed.

Ltac range_step :=
  match goal with
  | |- context [in_range ?lo ?hi ?c] =>
      first [ rewrite (in_range_true lo hi c) by (unfold cont; divide)
            | rewrite (in_range_false lo hi c) by (unfold cont; divide) ]
  | |- context [is_cont (cont ?x)] => rewrite (is_cont_cont x)
  end.
Ltac known := repeat first
  [ rewrite (proj2 (N.ltb_lt _ _)) by (unfold cont; divide)
  | rewrite (proj2 (N.ltb_ge _ _)) by (unfold cont; divide)
  | rewrite (proj2 (N.eqb_neq _ _)) by (unfold cont; divide)
  | range_step ].

Lemma step2 c rest : (128 <= c < 2048)%N ->
  utf8_step (192 + c / 64) (cont c :: rest) = (Some c, 2%nat).
Proof.
  intros H. unfold utf8_step. known. cbn [tail2]. known. unfold mk2. rewrite cont_low.
  do 2 f_equal. divide.
Qed.
Lemma tail3_ok lo hi mk x y rest : (lo <= cont x <= hi)%N ->
  tail3 lo hi mk (cont x :: cont y :: rest) = (Some (mk (x mod 64) (y mod 64))%N, 3%nat).
Proof.
  intros [H1 H2]. cbn [tail3]. rewrite in_range_true by done. by rewrite is_cont_cont, !cont_low.
Qed.
Lemma tail4_ok lo hi mk x y z rest : (lo <= cont x <= hi)%N ->
  tail4 lo hi mk (cont x :: cont y :: cont z :: rest)
  = (Some (mk (x mod 64) (y mod 64) (z mod 64))%N, 4%nat).
Proof.
  intros [H1 H2]. cbn [tail4]. rewrite in_range_true by done. by rewrite !is_cont_cont, !cont_low.
Qed.
Lemma mk3_ok c : (2048 <= c < 65536)%N ->
  mk3 (224 + c / 4096) ((c / 64) mod 64) (c mod 64) = c.
Proof. intros H. unfold mk3. divide. Qed.
Lemma mk4_ok c : (65536 <= c < 1114112)%N ->
  mk4 (240 + c / 262144) ((c / 4096) mod 64) ((c / 64) mod 64) (c mod 64) = c.
Proof. intros H. unfold mk4. divide. Qed.

Lemma step3 c rest : (2048 <= c < 65536)%N -> is_scalar c = true ->
  utf8_step (224 + c / 4096) (cont (c / 64) :: cont c :: rest) = (Some c, 3%nat).
Proof.
  intros H Hs. unfold utf8_step. known.
  assert (Hsur : (c < 55296 \/ 57344 <= c)%N).
  { unfold is_scalar, in_range in Hs. apply orb_true_iff in Hs as [Hs%N.ltb_lt|Hs]; [by left|].
    apply andb_true_iff in Hs as [Hs%N.leb_le _]. by right. }
  assert (Hb : forall lo hi, (lo <= cont (c / 64) <= hi)%N ->
    tail3 lo hi (mk3 (224 + c / 4096)) (cont (c / 64) :: cont c :: rest) = (Some c, 3%nat)).
  { intros lo hi Hr. rewrite tail3_ok by done. by rewrite mk3_ok. }
  destruct (N.eqb_spec (224 + c / 4096) 224); [apply Hb; unfold cont; divide|].
  destruct (N.eqb_spec (224 + c / 4096) 237); [apply Hb; unfold cont; divide|].
  known. apply Hb. unfold cont. divide.
Qed.
Lemma step4 c rest : (65536 <= c < 1114112)%N ->
  utf8_step (240 + c / 262144) (cont (c / 4096) :: cont (c / 64) :: cont c :: rest)
  = (Some c, 4%nat).
Proof.
  intros H. unfold utf8_step. known.
  assert (Hb : forall lo hi, (lo <= cont (c / 4096) <= hi)%N ->
    tail4 lo hi (mk4 (240 + c / 262144)) (cont (c / 4096) :: cont (c / 64) :: cont c :: rest)
    = (Some c, 4%nat)).
  { intros lo hi Hr. rewrite tail4_ok by done. by rewrite mk4_ok. }
  destruct (N.eqb_spec (240 + c / 262144) 240); [apply Hb; unfold cont; divide|].
  destruct (in_range 241 243 _) eqn:E; [apply Hb; unfold cont; divide|].
  destruct (N.eqb_spec (240 + c / 262144) 244); [apply Hb; unfold cont; divide|].
  exfalso. unfold in_range in E. apply andb_false_iff in E.
  rewrite !N.leb_gt in E. divide.
Qed.

Lemma encode_char_step c : is_scalar c = true ->
  exists b r, encode_char c = b :: r /\
    forall rest, utf8_step b (r ++ rest) = (Some c, Datatypes.S (length r)).
Proof.
  intros Hs.
  assert (Hc : (c < 1114112)%N).
  { unfold is_scalar, in_range in Hs. apply orb_true_iff in Hs as [Hs%N.ltb_lt|Hs]; [lia|].
    apply andb_true_iff in Hs as [_ Hs%N.leb_le]. lia. }
  unfold encode_char.
  destruct (N.ltb_spec c 128); [|destruct (N.ltb_spec c 2048); [|destruct (N.ltb_spec c 65536)]];
    eexists; eexists; (split; [reflexivity|]); intros rest; cbn [app length].
  - unfold utf8_step. by rewrite (proj2 (N.ltb_lt _ _)).
  - by apply step2.
  - by apply step3.
  - apply step4. lia.
Qed.

Lemma decode_encode_fuel on_error s fuel :
  forallb is_scalar s = true -> (length (flat_map encode_char s) <= fuel)%nat ->
  decode_with on_error fuel (flat_map encode_char s) = Some s.
Proof.
  revert fuel. induction s as [|c s IH]; intros fuel Hs Hf; [by destruct fuel|].
  cbn [forallb] in Hs. apply andb_true_iff in Hs as [Hc Hs].
  destruct (encode_char_step c Hc) as (b & r & He & Hstep).
  cbn [flat_map] in *. rewrite He in *. cbn [app length] in *. destruct fuel as [|fuel]; [lia|].
  cbn [decode_with]. rewrite Hstep.
  replace (Datatypes.S (length r) - 1)%nat with (length r) by lia.
  rewrite drop_app_length. rewrite length_app in Hf. by rewrite IH by (done || lia).
Qed.

Lemma decode_encode s bs : encode_utf8 s = Some bs -> decode_utf8 bs = Some s.
Proof.
  unfold encode_utf8. destruct (forallb is_scalar s) eqn:E; [|done]. intros [= <-].
  by apply decode_encode_fuel.
Qed.

(** Decoding always ends: one character per byte is fuel enough. *)
Lemma utf8_step_advances b r : (1 <= snd (utf8_step b r))%nat.
Proof.
  unfold utf8_step, tail2, tail3, tail4. repeat case_match; cbn; lia.
Qed.
Lemma decode_replace_total fuel bs : (length bs <= fuel)%nat ->
  is_Some (decode_with (Some 65533%N) fuel bs).
Proof.
  revert bs. induction fuel as [|fuel IH]; intros [|b0 r] Hf; cbn in *; eauto; [lia|].
  destruct (utf8_step b0 r) as [c n].
  destruct (IH (drop (n - 1) r)) as [s Hs]; [rewrite length_drop; lia|].
  destruct c; rewrite Hs; eauto.
Qed.
