(* ===== verification/Double.v ===== *)
(** * Floating-point numbers (IEEE 754 binary64)

    A finite double is the rational [Q] that it denotes.  [rounded] is rounding to the
    nearest double, ties to even, as the arithmetic of Python's float and its readers of
    decimal literals do it; [float_of_Z] is float(n) and [round3] is round(x, 3).  The sign
    of a zero is not kept. *)

From Stdlib Require Import QArith Qabs Qpower Qround Lqa.
From stdpp Require Import base list strings numbers.
From S2P Require Import Prelude.

Set Default Proof Using "Type".

(** The doubles that are no numbers. *)
Inductive nonfinite := NaN | Infinite (negative : bool).

(** float ==, <= and < on them: NaN compares with nothing. *)
Definition nonfinite_eqb (a b : nonfinite) : bool :=
  match a, b with Infinite s, Infinite t => Bool.eqb s t | _, _ => false end.

(** ** Rounding *)

(** The integer nearest to n / d, the even one of two. *)
Definition half_even (n d : Z) : Z :=
  let q := n / d in
  match (2 * (n mod d)) ?= d with
  | Lt => q | Gt => q + 1 | Eq => if Z.even q then q else q + 1
  end.

(** n / d = a / b * 2 ^ e *)
Definition scaled (n d e : Z) : Z * Z := (n * 2 ^ Z.max 0 (- e), d * 2 ^ Z.max 0 e).
(** The exponent of the last place of a double near n / d: 53 binary digits, or as many as
    subnormal numbers have. *)
Definition ulp_exponent (n d : Z) : Z :=
  let k := Z.log2 n - Z.log2 d in
  let '(a, b) := scaled n d k in
  Z.max (-1074) ((if a <? b then k - 1 else k) - 52).
(** m * 2 ^ e *)
Definition of_scaled (m e : Z) : Q :=
  if 0 <=? e then inject_Z (m * 2 ^ e) else m # Z.to_pos (2 ^ (- e)).

Definition rounded (q : Q) : Q :=
  if Qnum q =? 0 then 0%Q else
  let e := ulp_exponent (Z.abs (Qnum q)) (Zpos (Qden q)) in
  let '(a, b) := scaled (Qnum q) (Zpos (Qden q)) e in
  Qred (of_scaled (half_even a b) e).

Definition HUGE : Q := inject_Z (2 ^ 1024).
(** The double nearest to a number, overflow included. *)
Definition to_double (q : Q) : Q + nonfinite :=
  let r := rounded q in
  if Qle_bool HUGE r then inr (Infinite false)
  else if Qle_bool r (- HUGE) then inr (Infinite true) else inl r.

(** float(n) *)
Definition float_of_Z (z : Z) : outcome Q :=
  match to_double (inject_Z z) with
  | inl q => Ok q
  | inr _ => Raise (OtherException (u "OverflowError"))
  end.

(** (b - a).total_seconds(), of a duration in microseconds *)
Definition total_seconds (us : Z) : Q := rounded (us # 1000000).
(** round(x, 3): the nearest multiple of 1/1000, then the nearest double *)
Definition round3 (x : Q) : Q :=
  rounded (half_even (Qnum x * 1000) (Zpos (Qden x)) # 1000).

Example tenth : rounded (1 # 10) = (3602879701896397 # 36028797018963968)%Q.
Proof. vm_compute. reflexivity. Qed.
Example past_53_bits : float_of_Z 9007199254740993 = Ok (inject_Z 9007199254740992).
Proof. vm_compute. reflexivity. Qed.
Example overflows : float_of_Z (10 ^ 309) = Raise (OtherException (u "OverflowError")).
Proof. vm_compute. reflexivity. Qed.
(** The double 0.0035 is above its decimal, 0.0045 below. *)
Example half_up : round3 (total_seconds 3500) = rounded (4 # 1000).
Proof. vm_compute. reflexivity. Qed.
Example half_down : round3 (total_seconds 4500) = rounded (4 # 1000).
Proof. vm_compute. reflexivity. Qed.

(** ** The error of a rounding *)

Lemma half_even_error (n d : Z) : 0 < d -> 2 * Z.abs (half_even n d * d - n) <= d.
Proof.
  intros Hd. unfold half_even. pose proof (Z.div_mod n d ltac:(lia)) as Hn.
  pose proof (Z.mod_pos_bound n d Hd) as Hr.
  destruct (Z.compare_spec (2 * (n mod d)) d); [destruct (Z.even (n / d))|..]; nia.
Qed.
Lemma half_even_exact (m d : Z) : 0 < d -> half_even (m * d) d = m.
Proof.
  intros Hd. unfold half_even. rewrite Z.mod_mul, Z.div_mul by lia.
  destruct (Z.compare_spec (2 * 0) d); lia.
Qed.

Lemma scaled_pos (n d e : Z) : 0 < d -> 0 < snd (scaled n d e).
Proof. intros Hd. cbn. apply Z.mul_pos_pos; [done|]. apply Z.pow_pos_nonneg; lia. Qed.

Abbreviation two_to := (Qpower 2).
Lemma two_to_pos (e : Z) : (0 < two_to e)%Q.
Proof. by apply Qpower_0_lt. Qed.
Lemma two_to_Z (e : Z) : 0 <= e -> (two_to e == inject_Z (2 ^ e))%Q.
Proof. intros He. symmetry. by rewrite (Zpower_Qpower 2 e He). Qed.

Lemma of_scaled_spec (m e : Z) : (of_scaled m e == inject_Z m * two_to e)%Q.
Proof.
  unfold of_scaled. destruct (Z.leb_spec 0 e) as [He|He].
  - by rewrite inject_Z_mult, two_to_Z.
  - assert (Hp : 0 < 2 ^ (- e)) by (apply Z.pow_pos_nonneg; lia).
    rewrite <- (Z.opp_involutive e) at 2. rewrite Qpower_opp, two_to_Z by lia.
    rewrite Qmake_Qdiv, Z2Pos.id by done. done.
Qed.
Lemma scaled_spec (n d e : Z) : 0 < d ->
  (inject_Z n / inject_Z d
   == inject_Z (fst (scaled n d e)) / inject_Z (snd (scaled n d e)) * two_to e)%Q.
Proof.
  intros Hd. unfold scaled. cbn [fst snd]. rewrite !inject_Z_mult.
  rewrite <- !two_to_Z by lia.
  assert (Hd' : ~ (inject_Z d == 0)%Q) by (intros H; unfold Qeq in H; cbn in H; lia).
  pose proof (two_to_pos (Z.max 0 e)) as Hp.
  assert (Hs : (two_to (Z.max 0 (- e)) * two_to e == two_to (Z.max 0 e))%Q).
  { rewrite <- Qpower_plus by done. f_equiv. lia. }
  rewrite <- Hs. rewrite <- Hs in Hp.
  pose proof (two_to_pos e) as He. pose proof (two_to_pos (Z.max 0 (- e))) as He'.
  field. split_and!; [by apply Qnot_eq_sym, Qlt_not_eq..|done].
Qed.
Lemma inject_Z_pos (d : Z) : 0 < d -> (0 < inject_Z d)%Q.
Proof. intros Hd. unfold Qlt. cbn. lia. Qed.

(** A double near n / d has at least 53 digits, unless it is subnormal. *)
Lemma ulp_exponent_spec (n d : Z) : 0 < n -> 0 < d ->
  ulp_exponent n d = -1074 \/ (two_to (ulp_exponent n d + 52) <= inject_Z n / inject_Z d)%Q.
Proof.
  intros Hn Hd. unfold ulp_exponent. set (k := Z.log2 n - Z.log2 d).
  pose proof (scaled_spec n d k Hd) as Hs. pose proof (scaled_pos n d k Hd) as Hb.
  destruct (scaled n d k) as [a b]. cbn [fst snd] in *. pose proof (inject_Z_pos b Hb) as Hb'.
  pose proof (inject_Z_pos d Hd) as Hd'.
  destruct (Z.max_spec (-1074) ((if a <? b then k - 1 else k) - 52)) as [[_ ->]|[_ ->]];
    [right|by left].
  rewrite Z.sub_add. destruct (Z.ltb_spec a b) as [_|Hab].
  - pose proof (Z.log2_spec n Hn) as [Hln _]. pose proof (Z.log2_spec d Hd) as [_ Hld].
    pose proof (Z.log2_nonneg n). pose proof (Z.log2_nonneg d).
    apply Qle_shift_div_l; [done|].
    apply Qle_trans with (two_to (k - 1) * two_to (Z.succ (Z.log2 d)))%Q.
    + apply Qmult_le_l; [apply two_to_pos|]. rewrite two_to_Z, <- Zle_Qle by lia. lia.
    + rewrite <- Qpower_plus by done. unfold k.
      replace (Z.log2 n - Z.log2 d - 1 + Z.succ (Z.log2 d)) with (Z.log2 n) by lia.
      rewrite two_to_Z, <- Zle_Qle by lia. done.
  - rewrite Hs. rewrite <- (Qmult_1_l (two_to k)) at 1. apply Qmult_le_compat_r.
    + apply Qle_shift_div_l; [done|]. rewrite Qmult_1_l, <- Zle_Qle. done.
    + apply Qlt_le_weak, two_to_pos.
Qed.

Lemma nearest_error (a b : Z) : 0 < b ->
  (Qabs (inject_Z (half_even a b) - inject_Z a / inject_Z b) <= 1 # 2)%Q.
Proof.
  intros Hb. pose proof (half_even_error a b Hb) as H. pose proof (inject_Z_pos b Hb) as Hb'.
  set (m := half_even a b) in *.
  assert (Hq : (inject_Z m - inject_Z a / inject_Z b == inject_Z (m * b - a) / inject_Z b)%Q).
  { unfold Zminus. rewrite inject_Z_plus, inject_Z_mult, inject_Z_opp. field.
    by apply Qnot_eq_sym, Qlt_not_eq. }
  rewrite Hq. apply Qabs_Qle_condition.
  split; [apply Qle_shift_div_l|apply Qle_shift_div_r]; try done; unfold Qle; cbn; lia.
Qed.

Lemma Q_as_ratio (q : Q) : (q == inject_Z (Qnum q) / inject_Z (Zpos (Qden q)))%Q.
Proof. destruct q as [n d]. apply Qmake_Qdiv. Qed.

(** Half a place of a double near q. *)
Lemma half_ulp (q : Q) : Qnum q <> 0 ->
  (two_to (ulp_exponent (Z.abs (Qnum q)) (Zpos (Qden q))) * (1 # 2)
   <= Qabs q * two_to (-53) + two_to (-1075))%Q.
Proof.
  intros Hn. destruct (ulp_exponent_spec (Z.abs (Qnum q)) (Zpos (Qden q))) as [->|H]; [lia..| |].
  - setoid_replace (two_to (-1074) * (1 # 2))%Q with (0 + two_to (-1075))%Q using relation Qeq by reflexivity.
    apply Qplus_le_l, Qmult_le_0_compat; [apply Qabs_nonneg|apply Qlt_le_weak, two_to_pos].
  - set (e := ulp_exponent _ _) in *.
    assert (Hq : (Qabs q == inject_Z (Z.abs (Qnum q)) / inject_Z (Zpos (Qden q)))%Q).
    { destruct q as [n d]. apply Qmake_Qdiv. }
    rewrite <- Hq in H.
    apply Qle_trans with (Qabs q * two_to (-53))%Q.
    2:{ rewrite <- (Qplus_0_r (Qabs q * _)) at 1. apply Qplus_le_r, Qlt_le_weak, two_to_pos. }
    setoid_replace (two_to e * (1 # 2))%Q with (two_to (e + 52) * two_to (-53))%Q
      using relation Qeq.
    + apply Qmult_le_compat_r; [done|]. apply Qlt_le_weak, two_to_pos.
    + rewrite Qpower_plus by done. setoid_replace (1 # 2)%Q with (two_to 52 * two_to (-53))%Q
        using relation Qeq by reflexivity. ring.
Qed.

(** Rounding changes a number by at most 2 ^ -53 of it (subnormals: 2 ^ -1075). *)
Lemma rounded_error (q : Q) :
  (Qabs (rounded q - q) <= Qabs q * two_to (-53) + two_to (-1075))%Q.
Proof.
  unfold rounded. destruct (Z.eqb_spec (Qnum q) 0) as [H0|Hn].
  - destruct q as [n d]. cbn in H0. subst n.
    setoid_replace (0 # d)%Q with 0%Q using relation Qeq by reflexivity. unfold Qle. vm_compute. discriminate.
  - pose proof (half_ulp q Hn) as Hu. set (e := ulp_exponent _ _) in *.
    pose proof (scaled_spec (Qnum q) (Zpos (Qden q)) e eq_refl) as Hs.
    pose proof (scaled_pos (Qnum q) (Zpos (Qden q)) e eq_refl) as Hb.
    destruct (scaled _ _ e) as [a b]. cbn [fst snd] in *. rewrite <- Q_as_ratio in Hs.
    rewrite Qred_correct, of_scaled_spec. eapply Qle_trans; [|exact Hu].
    rewrite Hs at 1.
    setoid_replace (inject_Z (half_even a b) * two_to e - inject_Z a / inject_Z b * two_to e)%Q
      with ((inject_Z (half_even a b) - inject_Z a / inject_Z b) * two_to e)%Q using relation Qeq by ring.
    rewrite Qabs_Qmult, (Qabs_pos (two_to e)) by apply Qlt_le_weak, two_to_pos.
    rewrite Qmult_comm. apply Qmult_le_l; [apply two_to_pos|by apply nearest_error].
Qed.

(** Integers of 53 bits are doubles. *)
Lemma rounded_Z (z : Z) : Z.abs z <= 2 ^ 53 -> (rounded (inject_Z z) == inject_Z z)%Q.
Proof.
  intros Hz. unfold rounded. cbn [Qnum Qden inject_Z].
  destruct (Z.eqb_spec z 0) as [->|Hn]; [done|].
  assert (He : ulp_exponent (Z.abs z) 1 = Z.max (-1074) (Z.log2 (Z.abs z) - 52)).
  { unfold ulp_exponent. change (Z.log2 1) with 0. rewrite Z.sub_0_r.
    pose proof (Z.log2_nonneg (Z.abs z)). pose proof (Z.log2_spec (Z.abs z) ltac:(lia)) as [Hl _].
    unfold scaled. rewrite (Z.max_l 0 (- _)), (Z.max_r 0 (Z.log2 _)), Z.pow_0_r by lia.
    rewrite Z.mul_1_r, Z.mul_1_l.
    by rewrite (proj2 (Z.ltb_ge _ _)) by done. }
  rewrite He. pose proof (Z.log2_nonneg (Z.abs z)).
  pose proof (Z.log2_le_mono _ _ Hz) as Hl. rewrite Z.log2_pow2 in Hl by lia.
  rewrite Z.max_r by lia. set (e := Z.log2 (Z.abs z) - 52).
  unfold scaled. rewrite Qred_correct, of_scaled_spec.
  destruct (Z.le_gt_cases e 0) as [Hle|Hgt].
  - rewrite (Z.max_l 0 e), Z.pow_0_r by done. rewrite <- (Z.mul_1_r (z * _)), half_even_exact by done.
    rewrite Z.max_r, inject_Z_mult, <- two_to_Z by lia.
    rewrite <- Qmult_assoc, <- Qpower_plus by done. rewrite Z.add_opp_diag_l. cbn. ring.
  - assert (Hlog : Z.log2 (Z.abs z) = 53) by lia. assert (He1 : e = 1) by (unfold e; lia).
    pose proof (Z.log2_spec (Z.abs z) ltac:(lia)) as [Hlo _]. rewrite Hlog in Hlo.
    assert (Hz2 : z = 2 ^ 53 \/ z = - 2 ^ 53) by lia. rewrite He1.
    by destruct Hz2 as [-> | ->].
Qed.

(** ** Durations *)

(** The seconds a report gives for a duration: its length up to 0.0006 s. *)
Definition recorded_seconds (us : Z) : Q := round3 (total_seconds us).

Lemma round3_error (x : Q) :
  (Qabs (round3 x - x) <= (1 # 2000) + (Qabs x + (1 # 2000)) * two_to (-53) + two_to (-1075))%Q.
Proof.
  unfold round3. set (y := (half_even _ _ # 1000)%Q).
  assert (Hy : (Qabs (y - x) <= 1 # 2000)%Q).
  { pose proof (nearest_error (Qnum x * 1000) (Zpos (Qden x)) eq_refl) as H.
    rewrite inject_Z_mult in H. apply Qabs_Qle_condition in H. apply Qabs_Qle_condition.
    assert (Hx : (inject_Z (Qnum x) * inject_Z 1000 / inject_Z (Zpos (Qden x)) == x * 1000)%Q).
    { rewrite (Q_as_ratio x) at 3. field. unfold Qeq. cbn. lia. }
    rewrite Hx in H. assert (Hm : (inject_Z (half_even (Qnum x * 1000) (Zpos (Qden x))) == y * 1000)%Q).
    { unfold y, Qeq. cbn. lia. }
    rewrite Hm in H. lra. }
  pose proof (rounded_error y) as Hr. revert Hy Hr.
  pose proof (Qabs_triangle (rounded y - y) (y - x)) as Ht.
  setoid_replace (rounded y - y + (y - x))%Q with (rounded y - x)%Q using relation Qeq in Ht by ring.
  pose proof (Qabs_triangle x (y - x)) as Ht'.
  setoid_replace (x + (y - x))%Q with y using relation Qeq in Ht' by ring.
  assert (Hp : (0 < two_to (-53))%Q) by done. set (p := two_to (-53)) in *.
  set (t := two_to (-1075)) in *. set (ax := Qabs x) in *. set (ay := Qabs y) in *.
  intros Hy Hr.
  assert (Hm : (ay * p <= (ax + (1 # 2000)) * p)%Q) by (apply Qmult_le_compat_r; lra). lra.
Qed.
Lemma recorded_seconds_error (us : Z) : Z.abs us <= 400000000000000000 ->
  (Qabs (recorded_seconds us - (us # 1000000)) <= 6 # 10000)%Q.
Proof.
  intros Hus. unfold recorded_seconds. set (q := (us # 1000000)%Q).
  assert (Hq : (Qabs q <= 400000000000)%Q).
  { unfold q, Qabs, Qle. cbn. lia. }
  pose proof (rounded_error q) as H1. fold (total_seconds us) in H1.
  change (rounded q) with (total_seconds us) in H1. set (x := total_seconds us) in *.
  pose proof (round3_error x) as H2. set (y := round3 x) in *.
  pose proof (Qabs_triangle (y - x) (x - q)) as Ht.
  setoid_replace (y - x + (x - q))%Q with (y - q)%Q using relation Qeq in Ht by ring.
  pose proof (Qabs_triangle q (x - q)) as Ht'.
  setoid_replace (q + (x - q))%Q with x using relation Qeq in Ht' by ring.
  assert (Hp : (two_to (-53) <= 1 # 9000000000000000)%Q) by (unfold Qle; vm_compute; discriminate).
  assert (Hp0 : (0 <= two_to (-53))%Q) by (unfold Qle; vm_compute; discriminate).
  assert (Htiny : (two_to (-1075) <= 1 # 1000000000)%Q) by (unfold Qle; vm_compute; discriminate).
  set (p := two_to (-53)) in *. set (t := two_to (-1075)) in *.
  set (ax := Qabs x) in *. set (aq := Qabs q) in *.
  assert (Haq : (0 <= aq)%Q) by apply Qabs_nonneg. assert (Hax : (0 <= ax)%Q) by apply Qabs_nonneg.
  assert (Hm1 : (aq * p <= 400000000000 * (1 # 9000000000000000))%Q) by nra.
  assert (Hax' : (ax <= 400000000001)%Q) by lra.
  assert (Hm2 : ((ax + (1 # 2000)) * p <= 400000000002 * (1 # 9000000000000000))%Q) by nra.
  lra.
Qed.
