(* ===== verification/Calendar.v ===== *)
(** * Dates and times (the datetime module as the program uses it)

    Instants are microseconds from 1970 in UTC.  The proleptic Gregorian calendar,
    datetime.isoformat of UTC instants and datetime.fromisoformat, as CPython 3.12 reads
    it (later releases also read 24:00 as midnight).  The reader works on positions in the
    text, past whose end it finds the character 0, like the interpreter's. *)

From stdpp Require Import base list strings numbers.
From S2P Require Import Prelude Text.

Set Default Proof Using "Type".

(** Years 1 to 9999, in microseconds from 1970. *)
Definition in_datetime_range (t : Z) : bool :=
  (-62135596800000000 <=? t) && (t <=? 253402300799999999).

(** ** Days *)

Definition is_leap (year : Z) : bool :=
  (year mod 4 =? 0) && (negb (year mod 100 =? 0) || (year mod 400 =? 0)).
Definition days_before_year (year : Z) : Z :=
  let y := year - 1 in y * 365 + y / 4 - y / 100 + y / 400.
(** Days of a month, and of the year before it, by the number of the month. *)
Definition DAYS_IN_MONTH : list Z := [-1; 31; 28; 31; 30; 31; 30; 31; 31; 30; 31; 30; 31].
Definition DAYS_BEFORE_MONTH : list Z :=
  [-1; 0; 31; 59; 90; 120; 151; 181; 212; 243; 273; 304; 334].
Definition entry (l : list Z) (i : Z) : Z := nth (Z.to_nat i) l 0.
Definition days_in_month (leap : bool) (month : Z) : Z :=
  if (month =? 2) && leap then 29 else entry DAYS_IN_MONTH month.
Definition days_before_month (leap : bool) (month : Z) : Z :=
  entry DAYS_BEFORE_MONTH month + Z.b2z ((2 <? month) && leap).

(** date(y, m, d).toordinal() and date.fromordinal(n) *)
Definition ymd_to_ord (y m d : Z) : Z :=
  days_before_year y + days_before_month (is_leap y) m + d.
(** The month and the day of the n-th day of a year, counted from 0. *)
Definition day_of_year (leap : bool) (n : Z) : Z * Z :=
  let month := Z.shiftr (n + 50) 5 in
  let preceding := days_before_month leap month in
  if n <? preceding
  then (month - 1, n - (preceding - days_in_month leap (month - 1)) + 1)
  else (month, n - preceding + 1).
Definition ord_to_ymd (ordinal : Z) : Z * Z * Z :=
  let n := ordinal - 1 in
  let n400 := n / 146097 in
  let n := n mod 146097 in
  let n100 := n / 36524 in
  let n := n mod 36524 in
  let n4 := n / 1461 in
  let n := n mod 1461 in
  let n1 := n / 365 in
  let n := n mod 365 in
  let year := n400 * 400 + 1 + n100 * 100 + n4 * 4 + n1 in
  if (n1 =? 4) || (n100 =? 4) then (year - 1, 12, 31)
  else
    let leap := (n1 =? 3) && (negb (n4 =? 24) || (n100 =? 3)) in
    let (month, day) := day_of_year leap n in (year, month, day).

(** The weekday of an ordinal, Monday being 0; the first day of an ISO year. *)
Definition weekday (ordinal : Z) : Z := (ordinal + 6) mod 7.
Definition iso_week1_monday (year : Z) : Z :=
  let first_day := ymd_to_ord year 1 1 in
  let first_weekday := weekday first_day in
  let week1_monday := first_day - first_weekday in
  if 3 <? first_weekday then week1_monday + 7 else week1_monday.
Definition has_53_weeks (year : Z) : bool :=
  let first := weekday (ymd_to_ord year 1 1) in
  (first =? 3) || ((first =? 2) && is_leap year).
Definition iso_to_ymd (year week day : Z) : option (Z * Z * Z) :=
  if negb ((1 <=? year) && (year <=? 9999)) then None
  else if negb ((1 <=? week) && ((week <=? 52) || ((week =? 53) && has_53_weeks year))) then None
  else if negb ((1 <=? day) && (day <=? 7)) then None
  else Some (ord_to_ymd (iso_week1_monday year + (week - 1) * 7 + day - 1)).

(** ** Writing *)

Definition EPOCH : Z := 719163.            (* date(1970, 1, 1).toordinal() *)
Definition DAY : Z := 86400000000.

(** The last [w] decimal digits. *)
Fixpoint pad (w : nat) (z : Z) : str :=
  match w with O => [] | S w => pad w (z / 10) ++ [Z.to_N (48 + z mod 10)] end.

Definition time_text (us : Z) : str :=
  pad 2 (us / 3600000000) ++ u ":" ++ pad 2 (us / 60000000 mod 60) ++ u ":"
  ++ pad 2 (us / 1000000 mod 60)
  ++ (if us mod 1000000 =? 0 then [] else u "." ++ pad 6 (us mod 1000000)).
(** t.isoformat(), t in UTC *)
Definition isoformat (t : Z) : str :=
  let '(y, m, d) := ord_to_ymd (t / DAY + EPOCH) in
  pad 4 y ++ u "-" ++ pad 2 m ++ u "-" ++ pad 2 d ++ u "T" ++ time_text (t mod DAY) ++ u "+00:00".

(** s.replace(old, new), [old] not empty; [skip] characters belong to the last match. *)
Fixpoint replace_from (old new : str) (skip : nat) (s : str) : str :=
  match s with
  | [] => []
  | c :: r =>
    match skip with
    | S skip => replace_from old new skip r
    | O => if starts_with old s then new ++ replace_from old new (length old - 1) r
           else c :: replace_from old new 0 r
    end
  end.
Definition replace_str (old new s : str) : str := replace_from old new 0 s.
(** t.isoformat().replace("+00:00", "Z"), and value.replace("Z", "+00:00") *)
Definition utc_timestamp (t : Z) : str := replace_str (u "+00:00") (u "Z") (isoformat t).
Definition replace_zulu (s : str) : str := replace_char 90%N (u "+00:00") s.

(** ** Reading *)

Definition COLON : N := 58%N.
Definition DASH : N := 45%N.
Definition at_ (s : str) (p : nat) : N := nth p s 0%N.
Definition digit_at (s : str) (p : nat) : bool := ascii_digit (at_ s p).

(** [n] digits from position [p]. *)
Fixpoint parse_digits (s : str) (p n : nat) (acc : Z) : option Z :=
  match n with
  | O => Some acc
  | S n => if digit_at s p then parse_digits s (S p) n (10 * acc + Z.of_N (at_ s p - 48)) else None
  end.
Definition digits (s : str) (p n : nat) : option Z := parse_digits s p n 0.

(** The date up to [len]: year, month and day, not checked, or an ISO week date. *)
Definition iso_date (s : str) (year : Z) (separated : bool) (p len : nat) : option (Z * Z * Z) :=
  match digits s p 2 with
  | None => None
  | Some week =>
    let p := (p + 2)%nat in
    if (p <? len)%nat then
      if separated && negb (at_ s p =? DASH)%N then None
      else match digits s (if separated then S p else p) 1 with
           | Some day => iso_to_ymd year week day
           | None => None
           end
    else iso_to_ymd year week 1
  end.
Definition parse_isoformat_date (s : str) (len : nat) : option (Z * Z * Z) :=
  match digits s 0 4 with
  | None => None
  | Some year =>
    let separated := (at_ s 4 =? DASH)%N in
    let p := if separated then 5%nat else 4%nat in
    if (at_ s p =? 87)%N then iso_date s year separated (S p) len
    else
      match digits s p 2 with
      | None => None
      | Some month =>
        if separated && negb (at_ s (p + 2) =? DASH)%N then None
        else match digits s (if separated then p + 3 else p + 2) 2 with
             | Some day => Some (year, month, day)
             | None => None
             end
      end
  end.

(** Where the date ends. *)
Fixpoint digits_end (s : str) (p : nat) (fuel : nat) : nat :=
  match fuel with
  | O => p
  | S fuel => if digit_at s p then digits_end s (S p) fuel else p
  end.
Definition separator_location (s : str) : option nat :=
  let len := length s in
  if (len =? 7)%nat then Some 7%nat
  else if (at_ s 4 =? DASH)%N then
    if (at_ s 5 =? 87)%N then
      if (8 <? len)%nat && (at_ s 8 =? DASH)%N then
        if (len =? 9)%nat then None
        else if (10 <? len)%nat && digit_at s 10 then Some 8%nat else Some 10%nat
      else Some 8%nat
    else Some 10%nat
  else if (at_ s 4 =? 87)%N then
    let p := digits_end s 7 len in
    if (p <? 9)%nat then Some p else if Nat.even p then Some 7%nat else Some 8%nat
  else Some 8%nat.

(** HH[:?MM[:?SS[{.,}f...]]] between two positions: the fields, and whether the text goes
    on behind them. *)
Inductive clock_result :=
| Malformed
| Fields (vals : list Z) (more : bool)
| Fraction (vals : list Z) (p : nat).
Fixpoint clock (s : str) (p_end n : nat) (sep : option bool) (p : nat) (vals : list Z)
  : clock_result :=
  match n with
  | O => Fraction vals p
  | S n =>
    match digits s p 2 with
    | None => Malformed
    | Some v =>
      let c := at_ s (p + 2) in
      let vals := vals ++ [v] in
      let sep := default (c =? COLON)%N sep in
      if (p_end <=? p + 3)%nat then Fields vals (negb (c =? 0)%N)
      else if sep && (c =? COLON)%N then clock s p_end n (Some sep) (p + 3) vals
      else if (c =? 46)%N || (c =? 44)%N then Fraction vals (p + 3)
      else if negb sep then clock s p_end n (Some sep) (p + 2) vals
      else Malformed
    end
  end.
Definition parse_clock (s : str) (p p_end : nat) : option (list Z * Z * bool) :=
  match clock s p_end 3 None p [] with
  | Malformed => None
  | Fields vals more => Some (vals, 0, more)
  | Fraction vals p =>
    let n := Nat.min 6 (p_end - p) in
    match digits s p n with
    | Some f => Some (vals, f * 10 ^ (6 - Z.of_nat n),
                      negb (at_ s (digits_end s (p + n) (length s)) =? 0)%N)
    | None => None
    end
  end.

(** Where the offset begins: the first of Z, + and -, or the end. *)
Fixpoint offset_position (s : str) (p fuel : nat) : nat :=
  match fuel with
  | O => p
  | S fuel => if in_chars (u "Z+-") (at_ s p) then p else offset_position s (S p) fuel
  end.

(** Hour, minute, second, microsecond, and the offset in microseconds if there is one. *)
Definition parse_isoformat_time (s : str) (p : nat) : option (list Z * Z * option Z) :=
  let p_end := length s in
  let tz := offset_position s p (p_end - p) in
  match parse_clock s p tz with
  | None => None
  | Some (vals, us, more) =>
    if (tz =? p_end)%nat then if more then None else Some (vals, us, None)
    else if (at_ s tz =? 90)%N then
      if (at_ s (S tz) =? 0)%N then Some (vals, us, Some 0) else None
    else
      match parse_clock s (S tz) p_end with
      | Some (tz_vals, tz_us, false) =>
        let seconds := nth 0 tz_vals 0 * 3600 + nth 1 tz_vals 0 * 60 + nth 2 tz_vals 0 in
        let sign := if (at_ s tz =? DASH)%N then -1 else 1 in
        Some (vals, us, Some (if seconds =? 0 then 0 else sign * (seconds * 1000000 + tz_us)))
      | _ => None
      end
  end.

Definition is_surrogate (c : N) : bool := in_range 55296 57343 c.
(** A surrogate at the first place where a separator can be stands for one. *)
Definition sanitize (s : str) : str :=
  match List.filter (fun p => is_surrogate (at_ s p)) [7; 8; 10]%nat with
  | p :: _ => take p s ++ u "T" ++ drop (S p) s
  | [] => s
  end.

Definition within (lo hi x : Z) : bool := (lo <=? x) && (x <=? hi).
Definition valid_date (y m d : Z) : bool :=
  within 1 9999 y && within 1 12 m && within 1 (days_in_month (is_leap y) m) d.
Definition valid_time (vals : list Z) : bool :=
  within 0 23 (nth 0 vals 0) && within 0 59 (nth 1 vals 0) && within 0 59 (nth 2 vals 0).
Definition time_us (vals : list Z) (us : Z) : Z :=
  (nth 0 vals 0 * 3600 + nth 1 vals 0 * 60 + nth 2 vals 0) * 1000000 + us.

(** The instant, and whether the text has an offset (no offset: UTC). *)
Definition read_time (s : str) (sep : nat) : option (list Z * Z * option Z) :=
  if (sep <? length s)%nat then parse_isoformat_time s (S sep) else Some ([], 0, None).
Definition fromisoformat (text : str) : option (Z * bool) :=
  if (length text <? 7)%nat then None else
  let s := sanitize text in
  if existsb is_surrogate s then None else
  match separator_location s with
  | None => None
  | Some sep =>
    match parse_isoformat_date s sep, read_time s sep with
    | Some (y, m, d), Some (vals, us, offset) =>
      if valid_date y m d && valid_time vals && (Z.abs (default 0 offset) <? DAY)
      then Some ((ymd_to_ord y m d - EPOCH) * DAY + time_us vals us - default 0 offset,
                 bool_decide (is_Some offset))
      else None
    | _, _ => None
    end
  end.

(** ** Dates and times: the calendar is a bijection, instants survive being written and read *)

(** ** The calendar *)

Lemma day_of_year_spec (leap : bool) (n : Z) : 0 <= n < 365 + Z.b2z leap ->
  let '(m, d) := day_of_year leap n in
  1 <= m <= 12 /\ 1 <= d <= days_in_month leap m /\ days_before_month leap m + d = n + 1.
Proof.
  intros Hn.
  assert (forallb (fun i => let '(m, d) := day_of_year leap i in
    (1 <=? m) && (m <=? 12) && ((1 <=? d) && (d <=? days_in_month leap m))
    && (days_before_month leap m + d =? i + 1)) (seqZ 0 (365 + Z.b2z leap)) = true) as H
    by (destruct leap; vm_compute; reflexivity).
  rewrite forallb_forall in H. specialize (H n). rewrite <- list_elem_of_In, elem_of_seqZ in H.
  specialize (H ltac:(lia)). destruct (day_of_year leap n) as [m d].
  rewrite !andb_true_iff, !Z.leb_le, Z.eqb_eq in H. lia.
Qed.

(** The year that the four quotients of [ord_to_ymd] make up. *)
Lemma is_leap_quotients (a b c d : Z) : 0 <= b <= 3 -> 0 <= c <= 24 -> 0 <= d <= 3 ->
  is_leap (a * 400 + 1 + b * 100 + c * 4 + d) = (d =? 3) && (negb (c =? 24) || (b =? 3)).
Proof.
  intros Hb Hc Hd. unfold is_leap. set (y := a * 400 + 1 + b * 100 + c * 4 + d).
  assert (H4 : y mod 4 = (d + 1) mod 4) by (unfold y; Z.to_euclidean_division_equations; lia).
  assert (H100 : y mod 100 = (c * 4 + d + 1) mod 100)
    by (unfold y; Z.to_euclidean_division_equations; lia).
  assert (H400 : y mod 400 = (b * 100 + c * 4 + d + 1) mod 400)
    by (unfold y; Z.to_euclidean_division_equations; lia).
  rewrite H4, H100, H400. clear H4 H100 H400. clearbody y.
  destruct (Z.eqb_spec d 3) as [->|Hd']; cbn [andb].
  2:{ rewrite (proj2 (Z.eqb_neq _ _)); [done|]. Z.to_euclidean_division_equations; lia. }
  change ((3 + 1) mod 4 =? 0) with true. cbn [andb]. destruct (Z.eqb_spec c 24) as [->|Hc'].
  - change ((24 * 4 + 3 + 1) mod 100 =? 0) with true. cbn [negb orb].
    destruct (Z.eqb_spec b 3) as [->|Hb']; [done|]. apply Z.eqb_neq.
    Z.to_euclidean_division_equations; lia.
  - rewrite (proj2 (Z.eqb_neq _ _)); [done|]. rewrite Z.mod_small; lia.
Qed.

Lemma days_before_year_quotients (a b c d : Z) : 0 <= b <= 3 -> 0 <= c <= 24 -> 0 <= d <= 3 ->
  days_before_year (a * 400 + 1 + b * 100 + c * 4 + d) = 146097 * a + 36524 * b + 1461 * c + 365 * d.
Proof.
  intros Hb Hc Hd. unfold days_before_year. set (y := _ - 1).
  assert (y / 4 = 100 * a + 25 * b + c) by (unfold y; Z.to_euclidean_division_equations; lia).
  assert (y / 100 = 4 * a + b) by (unfold y; Z.to_euclidean_division_equations; lia).
  assert (y / 400 = a) by (unfold y; Z.to_euclidean_division_equations; lia).
  unfold y in *. lia.
Qed.

(** Every day has a date, and the date gives the day. *)
Definition dated (n y m d : Z) : Prop :=
  1 <= m <= 12 /\ 1 <= d <= days_in_month (is_leap y) m /\ ymd_to_ord y m d = n
  /\ days_before_year y < n <= days_before_year y + 366.
Lemma last_of_year (n a b c : Z) : 0 <= b <= 3 -> 0 <= c <= 24 -> (c = 24 -> b = 3) ->
  n - 1 = 146097 * a + 36524 * b + 1461 * c + 1460 ->
  dated n (a * 400 + 1 + b * 100 + c * 4 + 3) 12 31.
Proof.
  intros Hb Hc H3 Hn. unfold dated, ymd_to_ord.
  rewrite is_leap_quotients, days_before_year_quotients by lia. rewrite Z.eqb_refl.
  assert (Hl : negb (c =? 24) || (b =? 3) = true).
  { destruct (Z.eqb_spec c 24) as [Hc'|]; [|done]. cbn. apply Z.eqb_eq, H3, Hc'. }
  rewrite Hl. change (days_before_month (true && true) 12) with 335.
  change (days_in_month (true && true) 12) with 31. lia.
Qed.
Lemma ord_to_ymd_spec (n : Z) : let '(y, m, d) := ord_to_ymd n in dated n y m d.
Proof.
  unfold ord_to_ymd. cbv zeta. set (r1 := (n - 1) mod 146097). set (r2 := r1 mod 36524).
  set (r3 := r2 mod 1461). set (r4 := r3 mod 365).
  set (a := (n - 1) / 146097). set (b := r1 / 36524). set (c := r2 / 1461). set (d := r3 / 365).
  assert (H : n - 1 = 146097 * a + 36524 * b + 1461 * c + 365 * d + r4
    /\ 0 <= b <= 4 /\ 0 <= c <= 24 /\ 0 <= d <= 4 /\ 0 <= r4 < 365
    /\ (b = 4 -> c = 0 /\ d = 0 /\ r4 = 0) /\ (d = 4 -> r4 = 0 /\ c <= 23)).
  { subst a b c d r4 r3 r2 r1. Z.to_euclidean_division_equations. lia. }
  destruct H as (Hn & Hb & Hc & Hd & Hr & Hb4 & Hd4). clearbody a b c d r4. clear r1 r2 r3.
  destruct (Z.eqb_spec d 4) as [->|Hd']; cbn [orb].
  - replace (_ - 1) with (a * 400 + 1 + b * 100 + c * 4 + 3) by lia. apply last_of_year; lia.
  - destruct (Z.eqb_spec b 4) as [->|Hb'].
    + replace (_ - 1) with (a * 400 + 1 + 3 * 100 + 24 * 4 + 3) by lia. apply last_of_year; lia.
    + rewrite <- (is_leap_quotients a b c d) by lia. set (y := a * 400 + 1 + b * 100 + c * 4 + d).
      pose proof (day_of_year_spec (is_leap y) r4) as H.
      destruct (day_of_year (is_leap y) r4) as [m day].
      destruct H as (Hm & Hday & Hsum); [destruct (is_leap y); cbn; lia|].
      unfold dated, ymd_to_ord. unfold y in *. rewrite days_before_year_quotients by lia. lia.
Qed.

(** The years 1 to 9999 are the days of [in_datetime_range]. *)
Lemma year_range (n y m d : Z) : dated n y m d -> 1 <= n <= 3652059 -> 1 <= y <= 9999.
Proof.
  intros (_ & _ & _ & Hy) Hn. unfold days_before_year in Hy.
  Z.to_euclidean_division_equations. lia.
Qed.

(** ** Digits *)

Lemma pad_length w z : length (pad w z) = w.
Proof. revert z; induction w as [|w IH]; intros z; [done|]. cbn. rewrite length_app, IH. cbn. lia. Qed.
Lemma pad_digit w z : Forall (fun c => ascii_digit c = true) (pad w z).
Proof.
  revert z; induction w as [|w IH]; intros z; cbn [pad]; [constructor|].
  apply Forall_app. split; [apply IH|]. repeat constructor. pose proof (Z.mod_pos_bound z 10 eq_refl).
  unfold ascii_digit. apply in_range_true; lia.
Qed.

(** The digits at a position, if they are those of a number. *)
Lemma parse_digits_app s p w1 w2 acc :
  parse_digits s p (w1 + w2) acc
  = match parse_digits s p w1 acc with
    | Some acc => parse_digits s (p + w1) w2 acc | None => None end.
Proof.
  revert p acc. induction w1 as [|w1 IH]; intros p acc; cbn; [by rewrite Nat.add_0_r|].
  destruct (digit_at s p); [|done]. rewrite IH. by rewrite Nat.add_succ_r.
Qed.
Lemma at_take s p q l : take q (drop p s) = l ->
  forall i, (i < length l)%nat -> at_ s (p + i) = nth i l 0%N.
Proof.
  intros <- i Hi. unfold at_. rewrite length_take in Hi.
  rewrite <- (firstn_skipn p s) at 1. destruct (Nat.le_gt_cases p (length s)) as [Hp|Hp].
  - rewrite app_nth2; rewrite length_firstn; [|lia].
    replace (p + i - p `min` length s)%nat with i by lia.
    rewrite <- (firstn_skipn q (drop p s)) at 1. rewrite app_nth1; [done|].
    rewrite length_firstn. lia.
  - rewrite length_drop in Hi. lia.
Qed.
Lemma parse_digits_pad s p w z acc :
  (forall i, (i < w)%nat -> at_ s (p + i) = nth i (pad w z) 0%N) -> 0 <= z < 10 ^ Z.of_nat w ->
  parse_digits s p w acc = Some (acc * 10 ^ Z.of_nat w + z).
Proof.
  revert z acc.
  induction w as [|w IH]; intros z acc Hat Hz; [cbn in *; f_equal; lia|].
  rewrite <- Nat.add_1_r, parse_digits_app. rewrite Nat2Z.inj_succ, Z.pow_succ_r in Hz by lia.
  rewrite (IH (z / 10)).
  - cbn. specialize (Hat w ltac:(lia)). cbn [pad] in Hat.
    rewrite app_nth2, pad_length, Nat.sub_diag in Hat by (rewrite pad_length; lia).
    cbn in Hat. pose proof (Z.mod_pos_bound z 10 eq_refl). unfold digit_at. rewrite Hat.
    unfold ascii_digit. rewrite in_range_true by lia. f_equal.
    rewrite Nat2Z.inj_add, Z.pow_add_r by lia. change (10 ^ Z.of_nat 1) with 10.
    pose proof (Z.div_mod z 10). lia.
  - intros i Hi. rewrite Hat by lia. cbn [pad]. rewrite app_nth1; [done|by rewrite pad_length].
  - Z.to_euclidean_division_equations. lia.
Qed.
Lemma digits_pad s p w z : take w (drop p s) = pad w z -> 0 <= z < 10 ^ Z.of_nat w ->
  digits s p w = Some z.
Proof.
  intros Hs Hz. unfold digits. rewrite (parse_digits_pad s p w z); [f_equal; lia| |done].
  intros i Hi. apply (at_take s p w _ Hs). by rewrite pad_length.
Qed.

(** ** Reading what was written *)

Lemma pad2 z : exists a b, pad 2 z = [a; b] /\ ascii_digit a = true /\ ascii_digit b = true.
Proof.
  pose proof (pad_digit 2 z) as H. pose proof (pad_length 2 z) as Hl.
  destruct (pad 2 z) as [|a [|b [|? ?]]]; try done. inversion_clear H as [|? ? Ha H'].
  inversion_clear H'. eauto.
Qed.
Lemma pad4 z : exists a b c d, pad 4 z = [a; b; c; d]
  /\ ascii_digit a = true /\ ascii_digit b = true /\ ascii_digit c = true /\ ascii_digit d = true.
Proof.
  change (pad 4 z) with ((pad 2 (z / 10 / 10) ++ [Z.to_N (48 + z / 10 mod 10)]) ++ [Z.to_N (48 + z mod 10)]).
  destruct (pad2 (z / 10 / 10)) as (a & b & Hab & Ha & Hb). rewrite Hab.
  pose proof (pad_digit 4 z) as H.
  change (pad 4 z) with ((pad 2 (z / 10 / 10) ++ [Z.to_N (48 + z / 10 mod 10)]) ++ [Z.to_N (48 + z mod 10)]) in H.
  rewrite Hab in H. do 2 apply Forall_inv_tail in H. inversion_clear H as [|? ? Hc H'].
  inversion_clear H'. by eexists a, b, _, _.
Qed.

Lemma digit_no_mark c : ascii_digit c = true ->
  in_chars (u "Z+-") c = false /\ is_surrogate c = false /\ (c =? 87)%N = false
  /\ (c =? DASH)%N = false /\ is_ascii c = true.
Proof.
  unfold ascii_digit, in_range. rewrite andb_true_iff, !N.leb_le. intros H.
  unfold is_surrogate, in_chars, DASH, is_ascii. change (u "Z+-") with [90; 43; 45]%N.
  cbn [existsb]. rewrite !(proj2 (N.eqb_neq _ _)) by lia. rewrite in_range_false by lia.
  split_and!; try done. apply N.ltb_lt. lia.
Qed.

(** The offset is at the first mark. *)
Lemma offset_position_at s p k fuel :
  (forall i, (i < k)%nat -> in_chars (u "Z+-") (at_ s (p + i)) = false) ->
  in_chars (u "Z+-") (at_ s (p + k)) = true -> (k < fuel)%nat ->
  offset_position s p fuel = (p + k)%nat.
Proof.
  revert p k. induction fuel as [|fuel IH]; intros p k Hs Hk Hf; [lia|]. cbn [offset_position].
  destruct k as [|k].
  - rewrite Nat.add_0_r in *. by rewrite Hk.
  - pose proof (Hs 0%nat ltac:(lia)) as H0. rewrite Nat.add_0_r in H0. rewrite H0.
    rewrite (IH (S p) k); [lia| | |lia].
    + intros i Hi. specialize (Hs (S i) ltac:(lia)). by rewrite Nat.add_succ_r in Hs.
    + by rewrite Nat.add_succ_r in Hk.
Qed.

Lemma sanitize_ascii s : forallb is_ascii s = true -> (7 <= length s)%nat ->
  sanitize s = s /\ existsb is_surrogate s = false.
Proof.
  intros Ha Hl. assert (Hn : forall c, In c s -> is_surrogate c = false).
  { intros c Hc. rewrite forallb_forall in Ha. specialize (Ha c Hc). apply N.ltb_lt in Ha.
    unfold is_surrogate. apply in_range_false. lia. }
  assert (Hp : forall p, is_surrogate (at_ s p) = false).
  { intros p. unfold at_. destruct (nth_in_or_default p s 0%N) as [H| ->]; [by apply Hn|done]. }
  split.
  - unfold sanitize. cbn [List.filter]. by rewrite !Hp.
  - apply not_true_iff_false. rewrite existsb_exists. intros (c & Hc & H). by rewrite Hn in H.
Qed.

Lemma parse_date_pads y m d rest : 0 <= y < 10000 -> 0 <= m < 100 -> 0 <= d < 100 ->
  let s := pad 4 y ++ u "-" ++ pad 2 m ++ u "-" ++ pad 2 d ++ rest in
  (7 < length s)%nat /\ separator_location s = Some 10%nat
  /\ parse_isoformat_date s 10 = Some (y, m, d).
Proof.
  intros Hy Hm Hd s. assert (E1 : digits s 0 4 = Some y) by (by apply digits_pad).
  destruct (pad4 y) as (y3 & y2 & y1 & y0 & Ey & _).
  destruct (pad2 m) as (m1 & m0 & Em & Hm1 & _). destruct (pad2 d) as (d1 & d0 & Ed & _).
  assert (Hs : s = [y3; y2; y1; y0; DASH; m1; m0; DASH; d1; d0] ++ rest)
    by (unfold s; rewrite Ey, Em, Ed; reflexivity).
  assert (E2 : digits s 5 2 = Some m) by (apply digits_pad; [by rewrite Hs, Em|done]).
  assert (E3 : digits s 8 2 = Some d) by (apply digits_pad; [by rewrite Hs, Ed|done]).
  clearbody s. destruct (digit_no_mark m1 Hm1) as (_ & _ & Hw & _).
  assert (A4 : at_ s 4 = DASH) by by rewrite Hs. assert (A5 : at_ s 5 = m1) by by rewrite Hs.
  assert (A7 : at_ s 7 = DASH) by by rewrite Hs.
  assert (Hl : (7 < length s)%nat) by (rewrite Hs, length_app; cbn; lia).
  split_and!; [done| |].
  - unfold separator_location. rewrite (proj2 (Nat.eqb_neq _ _)) by lia. by rewrite A4, A5, Hw.
  - unfold parse_isoformat_date. rewrite E1, A4. cbv zeta. rewrite N.eqb_refl. rewrite A5, Hw, E2.
    change (5 + 2)%nat with 7%nat. rewrite A7, N.eqb_refl. cbn [negb andb].
    change (5 + 3)%nat with 8%nat. by rewrite E3.
Qed.

Lemma clock_colon s p_end n sep p vals v :
  digits s p 2 = Some v -> at_ s (p + 2) = COLON -> (p + 3 < p_end)%nat -> sep <> Some false ->
  clock s p_end (S n) sep p vals = clock s p_end n (Some true) (p + 3) (vals ++ [v]).
Proof.
  intros Hv Hc Hp Hs. cbn [clock]. rewrite Hv, Hc. rewrite (proj2 (Nat.leb_gt _ _)) by lia.
  by destruct sep as [[]|].
Qed.

(** The fields of a clock text with seconds, at [p]; [f] is the fraction. *)
Lemma parse_clock_pads s p h mi sec f : 0 <= h < 100 -> 0 <= mi < 100 -> 0 <= sec < 100 ->
  0 <= f < 1000000 ->
  let fraction := if f =? 0 then [] else u "." ++ pad 6 f in
  let text := pad 2 h ++ u ":" ++ pad 2 mi ++ u ":" ++ pad 2 sec ++ fraction in
  drop p s = text ++ u "+00:00" ->
  exists more, parse_clock s p (p + length text) = Some ([h; mi; sec], f, more).
Proof.
  intros Hh Hmi Hsec Hf fraction text Hs.
  destruct (pad2 h) as (h1 & h0 & Eh & _). destruct (pad2 mi) as (i1 & i0 & Ei & _).
  destruct (pad2 sec) as (s1 & s0 & Es & _).
  set (rest := fraction ++ u "+00:00").
  assert (Hd : drop p s = [h1; h0; COLON; i1; i0; COLON; s1; s0] ++ rest).
  { rewrite Hs. unfold text, rest. rewrite Eh, Ei, Es. reflexivity. }
  assert (Hat : forall k, at_ s (p + k) = nth k (drop p s) 0%N) by (intros k; by rewrite nth_skipn).
  assert (Hdig : forall k w z, take w (drop k (drop p s)) = pad w z -> 0 <= z < 10 ^ Z.of_nat w ->
    digits s (p + k) w = Some z).
  { intros k w z Ht. apply digits_pad. by rewrite drop_drop in Ht. }
  assert (E1 : digits s p 2 = Some h).
  { rewrite <- (Nat.add_0_r p). apply Hdig; [by rewrite Hd, Eh|done]. }
  assert (E2 : digits s (p + 3) 2 = Some mi) by (apply Hdig; [by rewrite Hd, Ei|done]).
  assert (E3 : digits s (p + 6) 2 = Some sec) by (apply Hdig; [by rewrite Hd, Es|done]).
  assert (A2 : at_ s (p + 2) = COLON) by by rewrite Hat, Hd.
  assert (A5 : at_ s (p + 5) = COLON) by by rewrite Hat, Hd.
  assert (A8 : at_ s (p + 8) = nth 0 rest 0%N) by by rewrite Hat, Hd.
  assert (Hl : length text = (8 + length fraction)%nat).
  { unfold text. rewrite Eh, Ei, Es. reflexivity. }
  unfold parse_clock. rewrite (clock_colon _ _ _ _ _ _ h) by (done || lia).
  rewrite (clock_colon _ _ _ _ _ _ mi) by (done || lia || (by rewrite <- A5; f_equal; lia)).
  replace (p + 3 + 3)%nat with (p + 6)%nat by lia. cbn [clock]. rewrite E3.
  replace (p + 6 + 2)%nat with (p + 8)%nat by lia. rewrite A8, Hl.
  replace (p + 6 + 3)%nat with (p + 9)%nat by lia. cbn [default from_option id].
  unfold rest, fraction in *. destruct (Z.eqb_spec f 0) as [->|Hf0].
  - rewrite (proj2 (Nat.leb_le _ _)) by (cbn; lia). by eexists.
  - assert (E4 : digits s (p + 9) 6 = Some f).
    { apply Hdig; [|done]. rewrite Hd. cbn [app drop]. rewrite <- app_assoc.
      change (drop 1 (u "." ++ pad 6 f ++ u "+00:00")) with (pad 6 f ++ u "+00:00").
      rewrite <- (pad_length 6 f) at 1. by rewrite take_app_length. }
    assert (Hl6 : length (u "." ++ pad 6 f) = 7%nat) by (rewrite length_app, pad_length; done).
    rewrite (proj2 (Nat.leb_gt _ _)) by lia.
    change (nth 0 ((u "." ++ pad 6 f) ++ u "+00:00") 0%N) with 46%N.
    cbn [N.eqb Pos.eqb orb andb COLON]. rewrite Hl6.
    replace (Nat.min 6 (p + (8 + 7) - (p + 9)))%nat with 6%nat by lia. rewrite E4.
    change (6 - Z.of_nat 6) with 0. rewrite Z.pow_0_r, Z.mul_1_r. by eexists.
Qed.

Lemma time_text_fields us : 0 <= us < DAY ->
  let h := us / 3600000000 in let mi := us / 60000000 mod 60 in
  let sec := us / 1000000 mod 60 in let f := us mod 1000000 in
  0 <= h < 24 /\ 0 <= mi < 60 /\ 0 <= sec < 60 /\ 0 <= f < 1000000
  /\ time_us [h; mi; sec] f = us.
Proof. intros Hus. unfold time_us, DAY in *. cbn [nth]. Z.to_euclidean_division_equations. lia. Qed.

Lemma mark_free l : Forall (fun c => ascii_digit c = true) l ->
  Forall (fun c => in_chars (u "Z+-") c = false) l.
Proof. apply Forall_impl. intros c Hc. by apply digit_no_mark. Qed.
Lemma time_text_marks us : Forall (fun c => in_chars (u "Z+-") c = false) (time_text us).
Proof.
  unfold time_text. pose proof (fun z => mark_free _ (pad_digit 2 z)) as H2.
  pose proof (fun z => mark_free _ (pad_digit 6 z)) as H6.
  assert (Hc : Forall (fun c => in_chars (u "Z+-") c = false) (u ":")) by by repeat constructor.
  assert (Hd : Forall (fun c => in_chars (u "Z+-") c = false) (u ".")) by by repeat constructor.
  rewrite !Forall_app. split_and!; try done.
  destruct (us mod 1000000 =? 0); [constructor|]. rewrite Forall_app. by split.
Qed.

Lemma parse_time_pads us s p : 0 <= us < DAY -> drop p s = time_text us ++ u "+00:00" ->
  exists vals f, parse_isoformat_time s p = Some (vals, f, Some 0) /\ valid_time vals = true
    /\ time_us vals f = us.
Proof.
  intros Hus Hs. destruct (time_text_fields us Hus) as (Hh & Hmi & Hsec & Hf & Hsum).
  pose proof (parse_clock_pads s p (us / 3600000000) (us / 60000000 mod 60)
    (us / 1000000 mod 60) (us mod 1000000) ltac:(lia) ltac:(lia) ltac:(lia) Hf) as Hc.
  cbv zeta in Hc. fold (time_text us) in Hc. destruct (Hc Hs) as [more Hclock]. clear Hc.
  set (q := (p + length (time_text us))%nat) in *.
  assert (Hat : forall k, at_ s (p + k) = nth k (drop p s) 0%N) by (intros k; by rewrite nth_skipn).
  assert (Hlen : (length s = q + 6)%nat).
  { assert (H : length (drop p s) = (length (time_text us) + 6)%nat) by by rewrite Hs, length_app.
    rewrite length_drop in H. unfold q. lia. }
  assert (Hq : forall k, at_ s (q + k) = nth k (u "+00:00") 0%N).
  { intros k. unfold q. rewrite <- Nat.add_assoc, Hat, Hs, app_nth2 by lia. f_equal. lia. }
  assert (Hoff : offset_position s p (length s - p) = q).
  { apply offset_position_at; [| |unfold q in *; lia].
    2:{ fold q. rewrite <- (Nat.add_0_r q). by rewrite Hq. }
    intros i Hi. rewrite Hat, Hs, app_nth1 by done. pose proof (time_text_marks us) as Hm.
    rewrite Forall_forall in Hm. apply Hm. by apply nth_In. }
  unfold parse_isoformat_time. cbv zeta. rewrite Hoff, Hclock.
  rewrite (proj2 (Nat.eqb_neq _ _)) by lia.
  pose proof (Hq 0%nat) as Hq0. rewrite Nat.add_0_r in Hq0. rewrite Hq0.
  assert (Htz : parse_clock s (S q) (length s) = Some ([0; 0], 0, false)).
  { assert (Hz : forall k, (k + 2 <= 6)%nat -> take 2 (drop k (u "+00:00")) = pad 2 0 ->
      digits s (q + k) 2 = Some 0).
    { intros k Hk Ht. apply digits_pad; [|done]. unfold q.
      rewrite <- drop_drop, <- drop_drop, Hs, drop_app_length. done. }
    unfold parse_clock. replace (S q) with (q + 1)%nat by lia.
    rewrite (clock_colon _ _ _ _ _ _ 0); [|by apply Hz; [lia|]| |lia|done].
    2:{ rewrite <- Nat.add_assoc. by rewrite Hq. }
    cbn [clock]. rewrite <- Nat.add_assoc. change (1 + 3)%nat with 4%nat.
    rewrite Hz by (done || lia). rewrite (proj2 (Nat.leb_le _ _)) by lia.
    rewrite <- Nat.add_assoc. by rewrite Hq. }
  rewrite Htz. cbn. exists [us / 3600000000; us / 60000000 mod 60; us / 1000000 mod 60], (us mod 1000000).
  split_and!; [done| |done]. unfold valid_time, within. cbn [nth].
  rewrite !andb_true_iff, !Z.leb_le. lia.
Qed.

(** The text of an instant: a part without signs or Z, and the offset. *)
Definition stem (t : Z) : str :=
  let '(y, m, d) := ord_to_ymd (t / DAY + EPOCH) in
  pad 4 y ++ u "-" ++ pad 2 m ++ u "-" ++ pad 2 d ++ u "T" ++ time_text (t mod DAY).
Lemma isoformat_stem t : isoformat t = stem t ++ u "+00:00".
Proof.
  unfold isoformat, stem. destruct (ord_to_ymd _) as [[y m] d].
  rewrite <- !app_assoc. reflexivity.
Qed.
Definition stem_char (c : N) : Prop := ascii_digit c = true \/ In c (u "-T:.").
Lemma stem_chars t : Forall stem_char (stem t).
Proof.
  assert (Hp : forall w z, Forall stem_char (pad w z)).
  { intros w z. apply (Forall_weaken _ _ _ (pad_digit w z)). by left. }
  assert (Hc : forall c, In c (u "-T:.") -> Forall stem_char [c]).
  { intros c Hc. constructor; [by right|constructor]. }
  unfold stem, time_text. destruct (ord_to_ymd _) as [[y m] d]. rewrite !Forall_app.
  split_and!; try done; try (apply Hc; vm_compute; tauto).
  case_match; [constructor|]. rewrite Forall_app. split; [apply Hc; vm_compute; tauto|done].
Qed.
Lemma stem_char_spec c : stem_char c ->
  (c =? 43)%N = false /\ (c =? 90)%N = false /\ is_ascii c = true.
Proof.
  intros [H|H].
  - unfold ascii_digit, in_range in H. rewrite andb_true_iff, !N.leb_le in H.
    rewrite !(proj2 (N.eqb_neq _ _)) by lia. split_and!; try done. apply N.ltb_lt. lia.
  - change (u "-T:.") with [45; 84; 58; 46]%N in H.
    by destruct H as [<-|[<-|[<-|[<-|[]]]]].
Qed.

Lemma isoformat_ascii t : forallb is_ascii (isoformat t) = true.
Proof.
  rewrite isoformat_stem, forallb_app. apply andb_true_iff. split; [|done].
  apply forallb_forall. intros c Hc. pose proof (stem_chars t) as H.
  rewrite List.Forall_forall in H. by apply stem_char_spec, H.
Qed.

Lemma utc_timestamp_stem t : utc_timestamp t = stem t ++ u "Z".
Proof.
  unfold utc_timestamp, replace_str. rewrite isoformat_stem.
  induction (stem_chars t) as [|c l Hc _ IH]; [done|]. cbn [app replace_from].
  apply stem_char_spec in Hc as (Hp & _ & _).
  change (starts_with (u "+00:00") (c :: l ++ u "+00:00"))
    with ((43 =? c)%N && starts_with (u "00:00") (l ++ u "+00:00")).
  rewrite N.eqb_sym, Hp. cbn [andb]. by rewrite IH.
Qed.
Lemma replace_zulu_stem t : replace_zulu (stem t) = stem t.
Proof.
  unfold replace_zulu, replace_char. induction (stem_chars t) as [|c l Hc _ IH]; [done|].
  cbn [flat_map]. apply stem_char_spec in Hc as (_ & -> & _). by rewrite IH.
Qed.
Lemma replace_zulu_timestamp t : replace_zulu (utc_timestamp t) = isoformat t.
Proof.
  rewrite utc_timestamp_stem, isoformat_stem. unfold replace_zulu, replace_char.
  rewrite flat_map_app. fold (replace_char 90 (u "+00:00") (stem t)).
  change (replace_char 90 (u "+00:00") (stem t)) with (replace_zulu (stem t)).
  by rewrite replace_zulu_stem.
Qed.

(** An instant is read back from its text. *)
Theorem fromisoformat_isoformat (t : Z) (Ht : in_datetime_range t = true) :
  fromisoformat (isoformat t) = Some (t, true).
Proof.
  unfold in_datetime_range in Ht. rewrite andb_true_iff, !Z.leb_le in Ht.
  pose proof (isoformat_ascii t) as Ha.
  pose proof (Z.mod_pos_bound t DAY eq_refl) as Hus. pose proof (Z.div_mod t DAY) as Hdiv.
  assert (Hn : 1 <= t / DAY + EPOCH <= 3652059).
  { unfold DAY, EPOCH in *. Z.to_euclidean_division_equations. lia. }
  unfold isoformat in *. pose proof (ord_to_ymd_spec (t / DAY + EPOCH)) as Hd.
  destruct (ord_to_ymd (t / DAY + EPOCH)) as [[y m] d].
  pose proof (year_range _ _ _ _ Hd Hn) as Hy. destruct Hd as (Hm & Hday & Hord & _).
  assert (Hdm : days_in_month (is_leap y) m <= 31).
  { clear -Hm. unfold days_in_month, entry. destruct (_ && _); [lia|].
    assert (m = 1 \/ m = 2 \/ m = 3 \/ m = 4 \/ m = 5 \/ m = 6 \/ m = 7 \/ m = 8 \/ m = 9
      \/ m = 10 \/ m = 11 \/ m = 12) as Hc by lia.
    repeat destruct Hc as [->|Hc]; try subst m; by vm_compute. }
  destruct (parse_date_pads y m d (u "T" ++ time_text (t mod DAY) ++ u "+00:00")
    ltac:(lia) ltac:(lia) ltac:(lia)) as (Hl & Hsep & Hdate).
  set (s := pad 4 y ++ _) in *.
  destruct (parse_time_pads (t mod DAY) s 11 Hus) as (vals & f & Htime & Hvalid & Hval).
  { unfold s. destruct (pad4 y) as (? & ? & ? & ? & -> & _). destruct (pad2 m) as (? & ? & -> & _).
    destruct (pad2 d) as (? & ? & -> & _). reflexivity. }
  destruct (sanitize_ascii s Ha ltac:(lia)) as [Hsan Hsur].
  assert (Hl11 : (10 < length s)%nat).
  { unfold s. rewrite 6!length_app, !pad_length. change (length (u "T")) with 1%nat. change (length (u "-")) with 1%nat. lia. }
  unfold fromisoformat. rewrite (proj2 (Nat.ltb_ge _ _)) by lia. rewrite Hsan, Hsur, Hsep, Hdate.
  unfold read_time. rewrite (proj2 (Nat.ltb_lt _ _)) by done. rewrite Htime, Hvalid.
  assert (Hv : valid_date y m d = true).
  { unfold valid_date, within. rewrite !andb_true_iff, !Z.leb_le. lia. }
  rewrite Hv. cbn [andb default from_option id Z.abs]. rewrite Hord, Hval. unfold DAY in *.
  rewrite (proj2 (Z.ltb_lt _ _)) by done. rewrite bool_decide_eq_true_2 by done.
  do 2 f_equal. unfold EPOCH. lia.
Qed.
Lemma fromisoformat_isoformat_witness :
  fromisoformat (isoformat 951868799999999) = Some (951868799999999, true).
Proof. apply fromisoformat_isoformat. reflexivity. Defined.
Example leap_day : isoformat 951868799999999 = u "2000-02-29T23:59:59.999999+00:00".
Proof. vm_compute. reflexivity. Qed.
