(* ===== verification/Regex.v ===== *)
(** * Regular expressions of Python's [re]

    The subset of [re] the program uses: a parser of pattern sources
    ([re_compile]), the backtracking matcher in the order of [re]'s engine
    ([mrun]), and [search], [match], [sub]/[subn], [finditer] and [split] on top
    of it.  [Matches] is the declarative meaning; [mrun_ok] relates the
    matcher to it. *)

From stdpp Require Import base list strings numbers.
From S2P Require Import Prelude.

(** ** Syntax *)

Inductive citem :=
| IChar (c : N) | IRange (a b : N) | IDigit | ISpace | IWord.

Record cset := CSet { cs_neg : bool; cs_items : list citem }.

Inductive regex :=
| RFail                                       (* a pattern that never matches *)
| REps
| RSet (s : cset)                             (* one character *)
| RSeq (a b : regex)
| RAlt (a b : regex)
| RRep (greedy : bool) (lo : nat) (hi : option nat) (r : regex)
| RGroup (n : nat) (r : regex)                (* capturing group *)
| RWordB                                      (* \b *)
| RBegin                                      (* ^ *)
| REnd                                        (* $ *)
| RNotAhead (r : regex)                       (* (?!r) *)
| RNotBehind (s : cset).                      (* (?<!c) for one character *)

(** A compiled pattern: its flags (re.I) and its expression. *)
Record pattern := Pattern { p_icase : bool; p_regex : regex }.

(** ** Characters *)

(** re.I on text patterns: ASCII letters, and the four code points [re]
    identifies with i, s and k. *)
Definition ci_fold (c : N) : N :=
  if ascii_upper c then (c + 32)%N
  else if (c =? 304)%N || (c =? 305)%N then 105%N
  else if (c =? 383)%N then 115%N
  else if (c =? 8490)%N then 107%N
  else c.
Definition ci_upper (c : N) : N := if ascii_lower c then (c - 32)%N else c.

Section matcher.
Context {U : UnicodeDb}.

Definition item_has (ci : bool) (it : citem) (c : N) : bool :=
  match it with
  | IChar x => if ci then (ci_fold x =? ci_fold c)%N else (x =? c)%N
  | IRange a b =>
    in_range a b c
    || (ci && (in_range a b (ci_fold c) || in_range a b (ci_upper (ci_fold c))))
  | IDigit => is_digit c
  | ISpace => is_space c
  | IWord => is_word c
  end.
Definition cset_has (ci : bool) (s : cset) (c : N) : bool :=
  xorb (cs_neg s) (existsb (fun it => item_has ci it c) (cs_items s)).

(** ** Matching *)

Record mstate := MS {
  ms_prev : option N;               (* the character before the position *)
  ms_rest : str;                    (* the text from the position on *)
  ms_caps : list (nat * str)        (* captured groups, latest first *)
}.

Definition opt_word (o : option N) : bool :=
  match o with Some c => is_word c | None => false end.
Definition word_boundary (st : mstate) : bool :=
  xorb (opt_word (ms_prev st)) (opt_word (head (ms_rest st))).
Definition at_end (st : mstate) : bool :=
  match ms_rest st with
  | [] => true
  | c :: r => (c =? NL)%N && match r with [] => true | _ => false end
  end.
Definition dec_hi (hi : option nat) : option nat := option_map pred hi.
Definition hi_zero (hi : option nat) : bool :=
  match hi with Some O => true | _ => false end.
Definition shorter (st' st : mstate) : bool :=
  (length (ms_rest st') <? length (ms_rest st))%nat.
Definition consumed (st st' : mstate) : str :=
  take (length (ms_rest st) - length (ms_rest st')) (ms_rest st).
Definition add_cap (n : nat) (st st' : mstate) : mstate :=
  MS (ms_prev st') (ms_rest st') ((n, consumed st st') :: ms_caps st').

Fixpoint mrun (ci : bool) (r : regex) (k : mstate -> option mstate) (st : mstate)
  : option mstate :=
  match r with
  | RFail => None
  | REps => k st
  | RSet s =>
    match ms_rest st with
    | c :: rest => if cset_has ci s c then k (MS (Some c) rest (ms_caps st)) else None
    | [] => None
    end
  | RSeq a b => mrun ci a (mrun ci b k) st
  | RAlt a b =>
    match mrun ci a k st with Some x => Some x | None => mrun ci b k st end
  | RRep greedy lo hi body =>
    (fix loop (fuel lo : nat) (hi : option nat) (st : mstate) : option mstate :=
       match fuel with
       | O => None
       | S fuel =>
         match lo with
         | S lo' => mrun ci body (loop fuel lo' (dec_hi hi)) st
         | O =>
           if hi_zero hi then k st else
           let more := mrun ci body (fun st' =>
             if shorter st' st then loop fuel O (dec_hi hi) st' else None) in
           if greedy
           then match more st with Some x => Some x | None => k st end
           else match k st with Some x => Some x | None => more st end
         end
       end) (S (lo + length (ms_rest st))) lo hi st
  | RGroup n body => mrun ci body (fun st' => k (add_cap n st st')) st
  | RWordB => if word_boundary st then k st else None
  | RBegin => match ms_prev st with None => k st | Some _ => None end
  | REnd => if at_end st then k st else None
  | RNotAhead body =>
    match mrun ci body Some st with Some _ => None | None => k st end
  | RNotBehind s =>
    match ms_prev st with
    | Some c => if cset_has ci s c then None else k st
    | None => k st
    end
  end.

(** ** Search *)

Record mtch := Mtch {
  m_before : str;              (* string[:match.start()] *)
  m_text : str;                (* match.group(0) *)
  m_after : str;               (* string[match.end():] *)
  m_caps : list (nat * str)
}.
Definition group (m : mtch) (n : nat) : option str := dict_get Nat.eqb (m_caps m) n.
Definition group0 (m : mtch) (n : nat) : str := default [] (group m n).

Definition match_here (p : pattern) (before : str) (rest : str) : option mtch :=
  let st := MS (head before) rest [] in
  match mrun (p_icase p) (p_regex p) Some st with
  | Some st' => Some (Mtch (rev before) (consumed st st') (ms_rest st') (ms_caps st'))
  | None => None
  end.

Fixpoint search_from (p : pattern) (before rest : str) : option mtch :=
  match match_here p before rest with
  | Some m => Some m
  | None => match rest with [] => None | c :: rest' => search_from p (c :: before) rest' end
  end.

(** pattern.search(s), pattern.match(s) *)
Definition re_search (p : pattern) (s : str) : option mtch := search_from p [] s.
Definition re_match (p : pattern) (s : str) : option mtch := match_here p [] s.
Definition re_found (p : pattern) (s : str) : bool :=
  match re_search p s with Some _ => true | None => false end.
(** pattern.fullmatch(s) *)
Definition re_fullmatch (p : pattern) (s : str) : bool :=
  match mrun (p_icase p) (p_regex p)
          (fun st => match ms_rest st with [] => Some st | _ => None end) (MS None s []) with
  | Some _ => true | None => false
  end.
Definition re_matches (p : pattern) (s : str) : bool :=
  match re_match p s with Some _ => true | None => false end.

(** The successive matches, each with the text skipped before it, and the
    text after the last one. *)
Fixpoint scan (fuel : nat) (p : pattern) (before rest skipped : str)
  : list (str * mtch) * str :=
  match fuel with
  | O => ([], rev skipped ++ rest)
  | S fuel =>
    match match_here p before rest with
    | Some m =>
      match m_text m with
      | [] =>
        match rest with
        | [] => ([(rev skipped, m)], [])
        | c :: rest' =>
          let '(ms, tl) := scan fuel p (c :: before) rest' [c] in
          ((rev skipped, m) :: ms, tl)
        end
      | _ :: _ =>
        let '(ms, tl) := scan fuel p (rev (m_text m) ++ before) (m_after m) [] in
        ((rev skipped, m) :: ms, tl)
      end
    | None =>
      match rest with
      | [] => ([], rev skipped)
      | c :: rest' => scan fuel p (c :: before) rest' (c :: skipped)
      end
    end
  end.
Definition re_scan (p : pattern) (s : str) : list (str * mtch) * str :=
  scan (S (length s)) p [] s [].

Definition finditer (p : pattern) (s : str) : list mtch := map snd (fst (re_scan p s)).

(** pattern.subn(repl, s); [repl] computes the replacement of a match. *)
Definition re_subn (p : pattern) (repl : mtch -> str) (s : str) : str * nat :=
  let '(ms, tl) := re_scan p s in
  (concat (map (fun '(skipped, m) => skipped ++ repl m) ms) ++ tl, length ms).
Definition re_sub (p : pattern) (repl : mtch -> str) (s : str) : str :=
  fst (re_subn p repl s).
(** pattern.split(s), for a pattern without groups *)
Definition re_split (p : pattern) (s : str) : list str :=
  let '(ms, tl) := re_scan p s in map fst ms ++ [tl].
End matcher.

(** ** Pattern sources

    [re_compile] reads a pattern as [re.compile] does.  Characters used as
    syntax are named by their code. *)
Module Parse.
Definition BSL : N := 92%N.   (* \ *)
Definition isc (s : string) (c : N) : bool := in_chars (u s) c.

Definition hex_value (c : N) : option N :=
  if ascii_digit c then Some (c - 48)%N
  else if in_range 97 102 c then Some (c - 87)%N
  else if in_range 65 70 c then Some (c - 55)%N
  else None.

(** An escape inside or outside a class: a class item or a plain character. *)
Definition escape_item (s : str) : option (citem * bool * str) :=
  match s with
  | [] => None
  | c :: r =>
    if isc "d" c then Some (IDigit, false, r)
    else if isc "s" c then Some (ISpace, false, r)
    else if isc "S" c then Some (ISpace, true, r)
    else if isc "w" c then Some (IWord, false, r)
    else if isc "n" c then Some (IChar 10, false, r)
    else if isc "r" c then Some (IChar 13, false, r)
    else if isc "x" c then
      match r with
      | a :: b :: r' =>
        match hex_value a, hex_value b with
        | Some x, Some y => Some (IChar (16 * x + y), false, r')
        | _, _ => None
        end
      | _ => None
      end
    else if ascii_upper c || ascii_lower c || ascii_digit c then None
    else Some (IChar c, false, r)
  end.

(** One class member: a character or an escape. *)
Definition class_atom (s : str) : option (citem * str) :=
  match s with
  | [] => None
  | c :: r =>
    if (c =? BSL)%N then
      match escape_item r with
      | Some (it, false, r') => Some (it, r')
      | _ => None
      end
    else Some (IChar c, r)
  end.

Fixpoint class_items (fuel : nat) (s : str) : option (list citem * str) :=
  match fuel with
  | O => None
  | S fuel =>
    match s with
    | [] => None
    | c :: r =>
      if isc "]" c then Some ([], r)
      else
        match class_atom s with
        | None => None
        | Some (it, r1) =>
          match it, r1 with
          | IChar a, d :: e :: r2 =>
            if isc "-" d && negb (isc "]" e) then
              match class_atom (e :: r2) with
              | Some (IChar b, r3) =>
                match class_items fuel r3 with
                | Some (its, r4) => Some (IRange a b :: its, r4)
                | None => None
                end
              | _ => None
              end
            else
              match class_items fuel r1 with
              | Some (its, r4) => Some (it :: its, r4)
              | None => None
              end
          | _, _ =>
            match class_items fuel r1 with
            | Some (its, r4) => Some (it :: its, r4)
            | None => None
            end
          end
        end
    end
  end.

Definition class_body (s : str) : option (cset * str) :=
  match s with
  | c :: r =>
    if isc "^" c then
      match class_items (length s) r with
      | Some (its, r') => Some (CSet true its, r')
      | None => None
      end
    else
      match class_items (length s) s with
      | Some (its, r') => Some (CSet false its, r')
      | None => None
      end
  | [] => None
  end.

Fixpoint number (fuel : nat) (acc : option nat) (s : str) : option nat * str :=
  match fuel, s with
  | S fuel, c :: r =>
    if ascii_digit c
    then number fuel (Some (10 * default O acc + N.to_nat (c - 48))%nat) r
    else (acc, s)
  | _, _ => (acc, s)
  end.

(** {m}, {m,}, {m,n}, {,n} after the opening brace *)
Definition braces (s : str) : option (nat * option nat * str) :=
  let '(lo, r) := number (length s) None s in
  match r with
  | c :: r1 =>
    if isc "}" c then
      match lo with Some n => Some (n, Some n, r1) | None => None end
    else if isc "," c then
      let '(hi, r2) := number (length r1) None r1 in
      match r2 with
      | d :: r3 => if isc "}" d then Some (default O lo, hi, r3) else None
      | [] => None
      end
    else None
  | [] => None
  end.

Definition lazy_mark (s : str) : bool * str :=
  match s with
  | c :: r => if isc "?" c then (false, r) else (true, s)
  | [] => (true, s)
  end.

Definition quantify (a : regex) (s : str) : regex * str :=
  match s with
  | c :: r =>
    if isc "*" c then let '(g, r') := lazy_mark r in (RRep g 0 None a, r')
    else if isc "+" c then let '(g, r') := lazy_mark r in (RRep g 1 None a, r')
    else if isc "?" c then let '(g, r') := lazy_mark r in (RRep g 0 (Some 1%nat) a, r')
    else if isc "{" c then
      match braces r with
      | Some (lo, hi, r1) => let '(g, r') := lazy_mark r1 in (RRep g lo hi a, r')
      | None => (a, s)
      end
    else (a, s)
  | [] => (a, s)
  end.

(** The group opened by "(": its kind, and the text after the marker. *)
Inductive gkind := GCapture | GPlain | GNotAhead | GNotBehind.
Definition group_kind (s : str) : gkind * str :=
  match s with
  | c :: d :: e :: r =>
    if isc "?" c then
      if isc ":" d then (GPlain, e :: r)
      else if isc "!" d then (GNotAhead, e :: r)
      else if isc "<" d && isc "!" e then (GNotBehind, r)
      else (GCapture, s)
    else (GCapture, s)
  | _ => (GCapture, s)
  end.

Definition single_set (r : regex) : option cset :=
  match r with RSet s => Some s | RSeq (RSet s) REps => Some s | _ => None end.

Definition simple_atom (c : N) (r : str) : option (regex * str) :=
  if (c =? BSL)%N then
    match r with
    | b :: r' =>
      if isc "b" b then Some (RWordB, r')
      else
        match escape_item r with
        | Some (it, neg, r2) => Some (RSet (CSet neg [it]), r2)
        | None => None
        end
    | [] => None
    end
  else if isc "[" c then
    match class_body r with Some (s, r') => Some (RSet s, r') | None => None end
  else if isc "." c then Some (RSet (CSet true [IChar NL]), r)
  else if isc "^" c then Some (RBegin, r)
  else if isc "$" c then Some (REnd, r)
  else if isc "*+?)" c then None
  else Some (RSet (CSet false [IChar c]), r).

(** [alts fuel g s]: alternatives up to ")" or the end; [g] is the number of
    groups opened so far. *)
Fixpoint alts (fuel g : nat) (s : str) : option (regex * nat * str) :=
  match fuel with
  | O => None
  | S fuel =>
    match seqs fuel g s with
    | Some (a, g1, c :: r) =>
      if isc "|" c then
        match alts fuel g1 r with
        | Some (b, g2, r') => Some (RAlt a b, g2, r')
        | None => None
        end
      else Some (a, g1, c :: r)
    | x => x
    end
  end
with seqs (fuel g : nat) (s : str) : option (regex * nat * str) :=
  match fuel with
  | O => None
  | S fuel =>
    match s with
    | [] => Some (REps, g, [])
    | c :: r =>
      if isc "|)" c then Some (REps, g, s)
      else
        match
          (if isc "(" c then
             let '(k, r1) := group_kind r in
             let g' := match k with GCapture => S g | _ => g end in
             match alts fuel g' r1 with
             | Some (body, g2, d :: r2) =>
               if isc ")" d then
                 match k with
                 | GCapture => Some (RGroup g' body, g2, r2)
                 | GPlain => Some (body, g2, r2)
                 | GNotAhead => Some (RNotAhead body, g2, r2)
                 | GNotBehind =>
                   match single_set body with
                   | Some cs => Some (RNotBehind cs, g2, r2)
                   | None => None
                   end
                 end
               else None
             | _ => None
             end
           else
             match simple_atom c r with
             | Some (a, r') => Some (a, g, r')
             | None => None
             end)
        with
        | Some (a, g1, r1) =>
          let '(q, r2) := quantify a r1 in
          match seqs fuel g1 r2 with
          | Some (b, g2, r3) => Some (RSeq q b, g2, r3)
          | None => None
          end
        | None => None
        end
    end
  end.

Definition inline_icase (s : str) : bool * str :=
  if starts_with (u "(?i)") s then (true, drop 4 s) else (false, s).
End Parse.

Definition re_parse (src : string) : option pattern :=
  let s := u src in
  let '(ci, body) := Parse.inline_icase s in
  match Parse.alts (S (2 * length body)) 0 body with
  | Some (r, _, []) => Some (Pattern ci r)
  | _ => None
  end.

Definition bad_pattern : pattern := Pattern false RFail.
(** re.compile(src) and re.compile(src, re.I); a source outside the subset gives
    [bad_pattern], which no pattern of the program does. *)
Definition re_compile (src : string) : pattern := default bad_pattern (re_parse src).
Definition re_compile_i (src : string) : pattern :=
  let p := re_compile src in Pattern true (p_regex p).

(** ** Declarative meaning *)

Section meaning.
Context {U : UnicodeDb}.

(** [lo] iterations of any length, then optional ones that consume text. *)
Inductive iterates (R : mstate -> mstate -> Prop)
  : nat -> option nat -> mstate -> mstate -> Prop :=
| it_more lo hi a b c :
    R a b -> iterates R lo (dec_hi hi) b c -> iterates R (S lo) hi a c
| it_stop hi a : iterates R 0 hi a a
| it_step hi a b c :
    hi_zero hi = false -> R a b -> shorter b a = true ->
    iterates R 0 (dec_hi hi) b c -> iterates R 0 hi a c.

Fixpoint Matches (ci : bool) (r : regex) (st st' : mstate) : Prop :=
  match r with
  | RFail => False
  | REps => st' = st
  | RSet s => exists c rest, ms_rest st = c :: rest /\ cset_has ci s c = true
                             /\ st' = MS (Some c) rest (ms_caps st)
  | RSeq a b => exists m, Matches ci a st m /\ Matches ci b m st'
  | RAlt a b => Matches ci a st st' \/ Matches ci b st st'
  | RRep _ lo hi body => iterates (Matches ci body) lo hi st st'
  | RGroup n body => exists m, Matches ci body st m /\ st' = add_cap n st m
  | RWordB => word_boundary st = true /\ st' = st
  | RBegin => ms_prev st = None /\ st' = st
  | REnd => at_end st = true /\ st' = st
  | RNotAhead body => (forall m, ~ Matches ci body st m) /\ st' = st
  | RNotBehind s =>
    match ms_prev st with Some c => cset_has ci s c = false | None => True end /\ st' = st
  end.

(** A match consumes text and never moves back. *)
Lemma Matches_suffix ci r st st' :
  Matches ci r st st' -> exists a, ms_rest st = a ++ ms_rest st'.
Proof.
  revert st st'; induction r as [| |s|a IHa b IHb|a IHa b IHb|g lo hi body IH|n body IH| | |
    |body IH|s]; simpl; intros st st' H.
  - done.
  - subst. by exists [].
  - destruct H as (c & rest & -> & _ & ->). by exists [c].
  - destruct H as (m & [x Hx]%IHa & [y Hy]%IHb). exists (x ++ y).
    by rewrite Hx, Hy, app_assoc.
  - destruct H as [?%IHa|?%IHb]; done.
  - induction H as [? ? a b c [x Hx]%IH _ [y Hy]|? a|? a b c _ [x Hx]%IH _ _ [y Hy]];
      [|by exists []|]; exists (x ++ y); by rewrite Hx, Hy, app_assoc.
  - destruct H as (m & [x Hx]%IH & ->). by exists x.
  - destruct H as [_ ->]. by exists [].
  - destruct H as [_ ->]. by exists [].
  - destruct H as [_ ->]. by exists [].
  - destruct H as [_ ->]. by exists [].
  - destruct H as [_ ->]. by exists [].
Qed.

Lemma Matches_length ci r st st' :
  Matches ci r st st' -> (length (ms_rest st') <= length (ms_rest st))%nat.
Proof. intros [a ->]%Matches_suffix. rewrite length_app. lia. Qed.

(** The loop of [RRep], as a function of its own. *)
Definition rep_loop (ci greedy : bool) (body : regex) (k : mstate -> option mstate)
  : nat -> nat -> option nat -> mstate -> option mstate :=
  fix loop (fuel lo : nat) (hi : option nat) (st : mstate) : option mstate :=
    match fuel with
    | O => None
    | S fuel =>
      match lo with
      | S lo' => mrun ci body (loop fuel lo' (dec_hi hi)) st
      | O =>
        if hi_zero hi then k st else
        let more := mrun ci body (fun st' =>
          if shorter st' st then loop fuel O (dec_hi hi) st' else None) in
        if greedy
        then match more st with Some x => Some x | None => k st end
        else match k st with Some x => Some x | None => more st end
      end
    end.

Lemma rep_loop_more ci greedy body k fuel lo hi st :
  rep_loop ci greedy body k (S fuel) (S lo) hi st
  = mrun ci body (rep_loop ci greedy body k fuel lo (dec_hi hi)) st.
Proof. reflexivity. Qed.
Lemma rep_loop_free ci greedy body k fuel hi st :
  rep_loop ci greedy body k (S fuel) 0 hi st
  = if hi_zero hi then k st else
    let more := mrun ci body (fun st' =>
      if shorter st' st then rep_loop ci greedy body k fuel O (dec_hi hi) st' else None) in
    if greedy
    then match more st with Some x => Some x | None => k st end
    else match k st with Some x => Some x | None => more st end.
Proof. reflexivity. Qed.
Lemma mrun_rep ci greedy lo hi body k st :
  mrun ci (RRep greedy lo hi body) k st
  = rep_loop ci greedy body k (S (lo + length (ms_rest st))) lo hi st.
Proof. reflexivity. Qed.

(** What a matcher run must satisfy for [r]: the result comes from a match
    whose continuation succeeds, and every such match makes the run succeed. *)
Definition run_ok (ci : bool) (r : regex) : Prop := forall k st,
  (forall x, mrun ci r k st = Some x -> exists m, Matches ci r st m /\ k m = Some x) /\
  (forall m x, Matches ci r st m -> k m = Some x -> exists y, mrun ci r k st = Some y).

Lemma rep_loop_sound ci greedy body k fuel : run_ok ci body -> forall lo hi st x,
  rep_loop ci greedy body k fuel lo hi st = Some x ->
  exists m, iterates (Matches ci body) lo hi st m /\ k m = Some x.
Proof.
  intros Hb. induction fuel as [|fuel IH]; [done|]. intros [|lo] hi st x; rewrite ?rep_loop_more, ?rep_loop_free.
  - assert (Hstop : k st = Some x ->
      exists m, iterates (Matches ci body) 0 hi st m /\ k m = Some x).
    { intros H. exists st. split; [constructor|done]. }
    destruct (hi_zero hi) eqn:Eh; [exact Hstop|].
    assert (Hmore : mrun ci body (fun st' => if shorter st' st
        then rep_loop ci greedy body k fuel 0 (dec_hi hi) st' else None) st = Some x ->
      exists m, iterates (Matches ci body) 0 hi st m /\ k m = Some x).
    { intros H. apply Hb in H as (b & Hm & Hs). cbn beta in Hs.
      destruct (shorter b st) eqn:Es; [|done].
      apply IH in Hs as (m & ? & ?). exists m. split; [|done]. by econstructor. }
    cbn zeta. intros H. destruct greedy; repeat case_match; simplify_eq; eauto.
  - intros H. apply Hb in H as (b & Hm & (m & Hi & Hk)%IH).
    exists m. split; [by econstructor|done].
Qed.

Lemma rep_loop_complete ci greedy body k : run_ok ci body -> forall lo hi st m x,
  iterates (Matches ci body) lo hi st m -> k m = Some x ->
  forall fuel, (lo + length (ms_rest st) < fuel)%nat ->
  exists y, rep_loop ci greedy body k fuel lo hi st = Some y.
Proof.
  intros Hb lo hi st m x Hi Hk.
  induction Hi as [lo hi a b c Hab Hbc IH|hi a|hi a b c Hhi Hab Hs Hbc IH];
    intros [|fuel] Hf; try lia; rewrite ?rep_loop_more, ?rep_loop_free.
  - pose proof (Matches_length _ _ _ _ Hab).
    destruct (IH Hk fuel) as [y Hy]; [lia|].
    destruct (Hb (rep_loop ci greedy body k fuel lo (dec_hi hi)) a) as [_ Hc]. eauto.
  - destruct (hi_zero hi); [eauto|]. cbn zeta. destruct greedy; repeat case_match; eauto.
    congruence.
  - rewrite Hhi. cbn zeta.
    assert (exists y, mrun ci body (fun st' => if shorter st' a
      then rep_loop ci greedy body k fuel 0 (dec_hi hi) st' else None) a = Some y) as [y Hy].
    { unfold shorter in Hs. apply Nat.ltb_lt in Hs as Hl.
      destruct (IH Hk fuel) as [y Hy]; [lia|].
      eapply Hb; [exact Hab|]. cbn beta. unfold shorter. rewrite Hs. exact Hy. }
    destruct greedy; repeat case_match; eauto. congruence.
Qed.

Theorem mrun_ok ci r : run_ok ci r.
Proof.
  induction r as [| |s|a IHa b IHb|a IHa b IHb|g lo hi body IH|n body IH| | |
    |body IH|s]; intros k st.
  - simpl. split; [done|]. intros ?? [].
  - simpl. split; [eauto|]. intros m x -> Hk; eauto.
  - simpl. split.
    + intros x H. destruct (ms_rest st) as [|c rest] eqn:E; [done|].
      destruct (cset_has ci s c) eqn:Es; [|done]. eauto 10.
    + intros m x (c & rest & E & Hc & ->) Hk. rewrite E, Hc. eauto.
  - simpl. split.
    + intros x H. apply IHa in H as (m & Hm & H). apply IHb in H as (m' & Hm' & H). eauto.
    + intros m x (m1 & Ha & Hb) Hk. destruct (IHb k m1) as [_ Hc].
      destruct (Hc _ _ Hb Hk) as [y Hy]. destruct (IHa (mrun ci b k) st) as [_ Hc']. eauto.
  - simpl. split.
    + intros x H. destruct (mrun ci a k st) as [z|] eqn:E.
      * injection H as <-. apply IHa in E as (m & ? & ?). eauto.
      * apply IHb in H as (m & ? & ?). eauto.
    + intros m x [Ha|Hb] Hk.
      * destruct (IHa k st) as [_ Hc]. destruct (Hc _ _ Ha Hk) as [y ->]. eauto.
      * destruct (IHb k st) as [_ Hc]. destruct (Hc _ _ Hb Hk) as [y ->].
        destruct (mrun ci a k st); eauto.
  - rewrite mrun_rep. split.
    + intros x H. by eapply rep_loop_sound in H.
    + intros m x H Hk. eapply rep_loop_complete; eauto.
  - simpl. split.
    + intros x H. apply IH in H as (m & ? & ?). eauto 10.
    + intros m x (m1 & Hm & ->) Hk.
      destruct (IH (fun st' => k (add_cap n st st')) st) as [_ Hc]. eauto.
  - simpl. split; [|intros m x [He ->] ?; rewrite He; eauto].
    intros x H. destruct (word_boundary st); [eauto|done].
  - simpl. split; [|intros m x [He ->] ?; rewrite He; eauto].
    intros x H. destruct (ms_prev st); [done|eauto].
  - simpl. split; [|intros m x [He ->] ?; rewrite He; eauto].
    intros x H. destruct (at_end st); [eauto|done].
  - simpl. destruct (IH Some st) as [Hs Hc]. split.
    + intros x H. destruct (mrun ci body Some st) eqn:E; [done|].
      exists st. split; [split; [|done]|done]. intros m Hm.
      destruct (Hc _ m Hm eq_refl). congruence.
    + intros m x [Hn ->] Hk. destruct (mrun ci body Some st) eqn:E; [|eauto].
      destruct (Hs _ eq_refl) as (m1 & Hm & _). by destruct (Hn m1).
  - simpl. split.
    + intros x H. destruct (ms_prev st) as [c|]; [|eauto].
      destruct (cset_has ci s c) eqn:E; [done|eauto].
    + intros m x [Hp ->] Hk. destruct (ms_prev st) as [c|]; [rewrite Hp|]; eauto.
Qed.
End meaning.

(** ** Consequences for search and substitution *)

Section search.
Context {U : UnicodeDb}.

(** [m] reports an occurrence of the pattern in [s]: the three pieces make up
    the string, and the middle one is a match at its position. *)
Definition occurrence (p : pattern) (s : str) (m : mtch) : Prop :=
  s = m_before m ++ m_text m ++ m_after m /\
  exists st', Matches (p_icase p) (p_regex p)
    (MS (head (rev (m_before m))) (m_text m ++ m_after m) []) st'
    /\ ms_rest st' = m_after m /\ ms_caps st' = m_caps m.

Lemma match_here_Some p before rest m :
  match_here p before rest = Some m ->
  m_before m = rev before /\ occurrence p (rev before ++ rest) m
  /\ rest = m_text m ++ m_after m.
Proof.
  unfold match_here. destruct (mrun _ _ _ _) as [st'|] eqn:E; [|done].
  intros [= <-]; simpl.
  apply mrun_ok in E as (st & Hm & [= ->]).
  destruct (Matches_suffix _ _ _ _ Hm) as [a Ha]; simpl in Ha. subst rest.
  assert (Hc : consumed (MS (head before) (a ++ ms_rest st') []) st' = a).
  { unfold consumed; simpl. rewrite length_app, Nat.add_sub. apply take_app_length. }
  rewrite Hc. split_and!; [done| |done]. split; simpl; [done|].
  exists st'. rewrite rev_involutive. auto.
Qed.

Lemma match_here_None p before rest :
  match_here p before rest = None ->
  forall st', ~ Matches (p_icase p) (p_regex p) (MS (head before) rest []) st'.
Proof.
  unfold match_here. destruct (mrun _ _ _ _) as [st1|] eqn:E; [done|]. intros _ st' Hm.
  destruct (mrun_ok (p_icase p) (p_regex p) Some (MS (head before) rest [])) as [_ Hc].
  destruct (Hc _ st' Hm eq_refl). congruence.
Qed.

Lemma search_from_Some p before rest m :
  search_from p before rest = Some m -> occurrence p (rev before ++ rest) m.
Proof.
  revert before. induction rest as [|c rest IH]; intros before; cbn [search_from];
    destruct (match_here p before _) as [m'|] eqn:E; try done.
  - intros [= ->]. by apply match_here_Some in E as (_ & ? & _).
  - intros [= ->]. by apply match_here_Some in E as (_ & ? & _).
  - intros H. apply IH in H. simpl in H. by rewrite <- app_assoc in H.
Qed.

Lemma search_from_None p before rest :
  search_from p before rest = None ->
  forall a b st', rest = a ++ b ->
    ~ Matches (p_icase p) (p_regex p) (MS (head (rev a ++ before)) b []) st'.
Proof.
  revert before. induction rest as [|c rest IH]; intros before; cbn [search_from];
    destruct (match_here p before _) as [m'|] eqn:E; try done; intros H a b st' Hab.
  - symmetry in Hab. apply app_nil in Hab as [-> ->]. by eapply match_here_None.
  - destruct a as [|x a]; simpl in Hab.
    + subst b. by eapply match_here_None.
    + injection Hab as <- ->. simpl. rewrite <- app_assoc. by eapply IH.
Qed.

(** A pattern occurs in [s] when some position starts a match. *)
Definition occurs (p : pattern) (s : str) : Prop :=
  exists a b st', s = a ++ b
    /\ Matches (p_icase p) (p_regex p) (MS (head (rev a)) b []) st'.

Theorem re_found_spec p s : re_found p s = true <-> occurs p s.
Proof.
  unfold re_found, re_search. destruct (search_from p [] s) as [m|] eqn:E.
  - split; [intros _|done].
    apply search_from_Some in E as [Hs (st' & Hm & _)]. simpl in Hs.
    exists (m_before m), (m_text m ++ m_after m), st'. auto.
  - split; [done|]. intros (a & b & st' & Hab & Hm).
    eapply search_from_None in E; [|exact Hab]. rewrite app_nil_r in E. by destruct E.
Qed.

(** The whole string is a match. *)
Theorem re_fullmatch_spec p s :
  re_fullmatch p s = true <->
  exists st', Matches (p_icase p) (p_regex p) (MS None s []) st' /\ ms_rest st' = [].
Proof.
  unfold re_fullmatch. set (k := fun st => match ms_rest st with [] => Some st | _ => None end).
  destruct (mrun_ok (p_icase p) (p_regex p) k (MS None s [])) as [Hs Hc].
  destruct (mrun _ _ _ _) as [x|] eqn:E.
  - split; [intros _|done]. destruct (Hs _ eq_refl) as (st & Hm & Hk).
    exists st. split; [done|]. unfold k in Hk. by destruct (ms_rest st).
  - split; [done|]. intros (st & Hm & Hr). destruct (Hc st st Hm); [|congruence].
    unfold k. by rewrite Hr.
Qed.

Lemma re_found_search p s : re_found p s = true -> is_Some (re_search p s).
Proof. unfold re_found. by destruct (re_search p s). Qed.

(** The pieces of a scan make up the text. *)
Lemma scan_pieces p fuel : forall before rest skipped, (length rest < fuel)%nat ->
  let '(ms, tl) := scan fuel p before rest skipped in
  concat (map (fun '(sk, m) => sk ++ m_text m) ms) ++ tl = rev skipped ++ rest.
Proof.
  induction fuel as [|fuel IH]; intros before rest skipped Hf; [lia|]. cbn [scan].
  destruct (match_here p before rest) as [m|] eqn:E.
  - apply match_here_Some in E as (_ & _ & Hr).
    destruct (m_text m) as [|x t] eqn:Et; simpl in Hr.
    + destruct rest as [|c rest']; simpl.
      * by rewrite Et, !app_nil_r.
      * specialize (IH (c :: before) rest' [c] ltac:(simpl in Hf; lia)).
        destruct (scan _ _ _ _ _) as [ms tl]. simpl in *.
        by rewrite Et, app_nil_r, <- app_assoc, IH.
    + specialize (IH (rev (x :: t) ++ before) (m_after m) []).
      destruct (scan _ _ _ _ _) as [ms tl]. simpl in *.
      rewrite Et, <- !app_assoc, IH, Hr; [done|].
      rewrite Hr in Hf. simpl in Hf. rewrite length_app in Hf. lia.
  - destruct rest as [|c rest']; simpl; [by rewrite app_nil_r|].
    specialize (IH (c :: before) rest' (c :: skipped) ltac:(simpl in Hf; lia)).
    destruct (scan _ _ _ _ _) as [ms tl]. simpl in *. by rewrite <- app_assoc in IH.
Qed.

(** No match, no change: [subn] counts at least one match iff the pattern occurs. *)
Lemma scan_none p fuel : forall before rest skipped, (length rest < fuel)%nat ->
  search_from p before rest = None ->
  scan fuel p before rest skipped = ([], rev skipped ++ rest).
Proof.
  induction fuel as [|fuel IH]; intros before rest skipped Hf; [lia|].
  destruct rest as [|c rest']; cbn [search_from scan];
    destruct (match_here p before _); try done.
  - by rewrite app_nil_r.
  - intros H. rewrite IH; [simpl; by rewrite <- app_assoc|simpl in Hf; lia|done].
Qed.
Lemma scan_some p fuel : forall before rest skipped, (length rest < fuel)%nat ->
  search_from p before rest <> None ->
  fst (scan fuel p before rest skipped) <> [].
Proof.
  induction fuel as [|fuel IH]; intros before rest skipped Hf; [lia|].
  destruct rest as [|c rest']; cbn [search_from scan];
    destruct (match_here p before _) as [m|]; try done; intros H.
  - destruct (m_text m); [done|]. by destruct (scan _ _ _ _ _).
  - destruct (m_text m); by destruct (scan _ _ _ _ _).
  - apply IH; [simpl in Hf; lia|done].
Qed.

Lemma re_subn_none p repl s : re_found p s = false -> re_subn p repl s = (s, 0%nat).
Proof.
  unfold re_found, re_search, re_subn, re_scan. destruct (search_from p [] s) eqn:E; [done|].
  intros _. rewrite scan_none; [done|lia|done].
Qed.
Lemma re_subn_count p repl s : snd (re_subn p repl s) = 0%nat <-> re_found p s = false.
Proof.
  split; [|intros H; by rewrite re_subn_none].
  unfold re_found, re_search, re_subn, re_scan.
  destruct (search_from p [] s) eqn:E; [|done].
  intros H. exfalso.
  apply (scan_some p (S (length s)) [] s []); [lia|congruence|].
  destruct (scan _ _ _ _ _) as [ms tl]. simpl in *. by destruct ms.
Qed.
End search.
