(* ===== verification/RegexFacts.v ===== *)
(** * Patterns of a fixed width

    A pattern that is an anchored sequence of character classes matches a string exactly
    when the characters belong to the classes in turn. *)

From Stdlib Require Import QArith.
From stdpp Require Import base list strings numbers.
From S2P Require Import Prelude Regex.

(** The classes of an expression of a fixed width. *)
Fixpoint fixed (r : regex) : option (list cset) :=
  match r with
  | REps => Some []
  | RSet s => Some [s]
  | RSeq a b => match fixed a, fixed b with Some x, Some y => Some (x ++ y) | _, _ => None end
  | RRep _ lo (Some hi) (RSet s) => if (lo =? hi)%nat then Some (repeat s lo) else None
  | _ => None
  end.
(** The same up to the final [$]. *)
Fixpoint fixed_end (r : regex) : option (list cset) :=
  match r with
  | RSeq REnd REps => Some []
  | RSeq a b => match fixed a, fixed_end b with Some x, Some y => Some (x ++ y) | _, _ => None end
  | _ => None
  end.
Definition fixed_pattern (p : pattern) : option (list cset) :=
  match p_regex p with RSeq RBegin r => fixed_end r | _ => None end.

Section fixed.
Context {U : UnicodeDb}.
Abbreviation has ci := (fun s c => cset_has ci s c = true).

Definition advance (a : str) (st : mstate) : mstate :=
  fold_left (fun st c => MS (Some c) (tail (ms_rest st)) (ms_caps st)) a st.
Lemma advance_rest a st rest : ms_rest st = a ++ rest -> ms_rest (advance a st) = rest.
Proof.
  revert st. induction a as [|c a IH]; intros st H; [done|]. cbn [advance fold_left].
  apply IH. cbn [ms_rest]. by rewrite H.
Qed.
Lemma advance_app a b st : advance (a ++ b) st = advance b (advance a st).
Proof. apply fold_left_app. Qed.

(** [r] reads exactly the strings over [l]. *)
Definition reads (ci : bool) (r : regex) (l : list cset) : Prop := forall st st',
  Matches ci r st st' <->
  exists a rest, ms_rest st = a ++ rest /\ Forall2 (has ci) l a /\ st' = advance a st.

Lemma reads_set ci s : reads ci (RSet s) [s].
Proof.
  intros st st'. cbn [Matches]. split.
  - intros (c & rest & Hr & Hc & ->). exists [c], rest. split; [done|]. split; [by repeat constructor|].
    cbn. by rewrite Hr.
  - intros (a & rest & Hr & (c & b & Hc & ->%Forall2_nil_inv_l & ->)%Forall2_cons_inv_l & ->).
    exists c, rest. cbn. rewrite Hr. by split_and!.
Qed.
Lemma reads_seq ci a b x y : reads ci a x -> reads ci b y -> reads ci (RSeq a b) (x ++ y).
Proof.
  intros Ha Hb st st'. cbn [Matches]. split.
  - intros (m & (s & rest & Hr & Hs & ->)%Ha & (t & rest' & Hr' & Ht & ->)%Hb).
    exists (s ++ t), rest'. rewrite <-app_assoc, advance_app. split_and!; [|by apply Forall2_app|done].
    rewrite (advance_rest _ _ rest) in Hr' by done. by rewrite <-Hr'.
  - intros (s & rest & Hr & (s1 & s2 & H1 & H2 & ->)%Forall2_app_inv_l & ->).
    rewrite <-app_assoc in Hr. exists (advance s1 st). split.
    + apply Ha. eauto.
    + apply Hb. exists s2, rest. rewrite advance_app. split; [|done]. by apply advance_rest.
Qed.
Lemma reads_repeat ci g n s : reads ci (RRep g n (Some n) (RSet s)) (repeat s n).
Proof.
  induction n as [|n IH]; intros st st'; cbn [Matches repeat].
  - split.
    + intros H. inversion H; subst; [|done]. exists [], (ms_rest st'). by repeat constructor.
    + intros (a & rest & _ & ->%Forall2_nil_inv_l & ->). constructor.
  - pose proof (reads_seq ci (RSet s) (RRep g n (Some n) (RSet s)) [s] (repeat s n)
      (reads_set ci s) IH st st') as H. cbn [Matches app] in H. rewrite <-H. split.
    + intros Hi. inversion Hi; subst. eauto.
    + intros (m & Hm & Hi). by apply it_more with m.
Qed.
Lemma fixed_reads ci r : forall l, fixed r = Some l -> reads ci r l.
Proof.
  induction r; intros l; cbn [fixed]; try done.
  - intros [= <-] st st'. cbn [Matches]. split.
    + intros ->. exists [], (ms_rest st). by repeat constructor.
    + by intros (a & rest & _ & ->%Forall2_nil_inv_l & ->).
  - intros [= <-]. apply reads_set.
  - destruct (fixed r1), (fixed r2); try done. intros [= <-]. by apply reads_seq; auto.
  - destruct hi as [hi|]; [|done]. destruct r; try done.
    destruct (Nat.eqb_spec lo hi) as [->|]; [|done]. intros [= <-]. apply reads_repeat.
Qed.

Lemma fixed_end_full ci r : forall l st, fixed_end r = Some l ->
  (exists st', Matches ci r st st' /\ ms_rest st' = []) <-> Forall2 (has ci) l (ms_rest st).
Proof.
  assert (forall (a : regex) x, reads ci a x -> forall (b : regex) y,
    (forall st, (exists st', Matches ci b st st' /\ ms_rest st' = []) <-> Forall2 (has ci) y (ms_rest st)) ->
    forall st, (exists st', Matches ci (RSeq a b) st st' /\ ms_rest st' = [])
      <-> Forall2 (has ci) (x ++ y) (ms_rest st)) as Hseq.
  { intros a x Ha b y Hb st. cbn [Matches]. split.
    - intros (st' & (m & (s & rest & Hr & Hs & ->)%Ha & Hm) & He).
      rewrite Hr. apply Forall2_app; [done|].
      rewrite <-(advance_rest _ _ _ Hr). apply Hb. eauto.
    - intros (s & t & H1 & H2 & Hr)%Forall2_app_inv_l.
      destruct (proj2 (Hb (advance s st))) as (st' & Hm & He).
      { by rewrite (advance_rest _ _ _ Hr). }
      exists st'. split; [|done]. exists (advance s st). split; [|done]. apply Ha. eauto. }
  induction r; intros l st; cbn [fixed_end]; try done.
  assert ((r1 = REnd /\ r2 = REps /\ Some l = Some []) \/
    (match fixed r1, fixed_end r2 with Some x, Some y => Some (x ++ y) | _, _ => None end) = Some l ->
    (exists st', Matches ci (RSeq r1 r2) st st' /\ ms_rest st' = [])
    <-> Forall2 (has ci) l (ms_rest st)) as H.
  { intros [(-> & -> & [= ->])|H].
    - cbn [Matches]. split.
      + intros (st' & (m & (Hm & ->) & ->) & He). rewrite He. constructor.
      + intros He%Forall2_nil_inv_l. exists st. split; [|done]. exists st. split; [|done].
        split; [|done]. unfold at_end. by rewrite He.
    - destruct (fixed r1) as [x|] eqn:E1; [|done]. destruct (fixed_end r2) as [y|] eqn:E2; [|done].
      injection H as <-. apply Hseq; [by apply fixed_reads|]. intros st'. by apply IHr2. }
  intros Hl. apply H. destruct r1, r2; auto.
Qed.

Theorem fixed_pattern_full p l s :
  fixed_pattern p = Some l ->
  re_fullmatch p s = true <-> Forall2 (has (p_icase p)) l s.
Proof.
  unfold fixed_pattern. rewrite re_fullmatch_spec. destruct (p_regex p); try done.
  match goal with |- match ?r with _ => _ end = _ -> _ => destruct r; try done end.
  intros H. pose proof (fixed_end_full (p_icase p) _ l (MS None s []) H) as E.
  cbn [ms_rest] in E. rewrite <-E. cbn [Matches]. split.
  - intros (st' & (m & (_ & ->) & Hm) & He). eauto.
  - intros (st' & Hm & He). exists st'. split; [|done]. by exists (MS None s []).
Qed.

(** A pattern that starts with [^] and a class: the first character belongs to it. *)
Theorem anchored_head p c r s :
  p_regex p = RSeq RBegin (RSeq (RSet c) r) -> re_fullmatch p s = true ->
  exists x rest, s = x :: rest /\ cset_has (p_icase p) c x = true.
Proof.
  intros Hp (st' & Hm & _)%re_fullmatch_spec. rewrite Hp in Hm. cbn [Matches] in Hm.
  destruct Hm as (m & (_ & ->) & m' & (x & rest & Hr & Hx & _) & _). cbn in Hr. eauto.
Qed.
End fixed.

(** ** The text of a match *)

Section text.
Context {U : UnicodeDb}.

(** [text] is what [r] may consume, capturing [caps], latest first.  Of a repetition only
    the class of its characters is said. *)
Fixpoint Reads (ci : bool) (r : regex) (text : str) (caps : list (nat * str)) : Prop :=
  match r with
  | RFail => False
  | RSet s => exists c, text = [c] /\ cset_has ci s c = true /\ caps = []
  | RSeq a b => exists t1 t2 c1 c2, text = t1 ++ t2 /\ caps = c2 ++ c1
                /\ Reads ci a t1 c1 /\ Reads ci b t2 c2
  | RAlt a b => Reads ci a text caps \/ Reads ci b text caps
  | RRep _ _ _ (RSet s) => Forall (fun c => cset_has ci s c = true) text /\ caps = []
  | RRep _ _ _ _ => True
  | RGroup n body => exists c, Reads ci body text c /\ caps = (n, text) :: c
  | REps | RWordB | RBegin | REnd | RNotAhead _ | RNotBehind _ => text = [] /\ caps = []
  end.

Definition moves (Q : str -> list (nat * str) -> Prop) (st st' : mstate) : Prop :=
  exists text caps, ms_rest st = text ++ ms_rest st' /\ ms_caps st' = caps ++ ms_caps st
    /\ Q text caps.
Lemma moves_trans (Q1 Q2 : str -> list (nat * str) -> Prop) st m st' :
  moves Q1 st m -> moves Q2 m st' ->
  moves (fun t c => exists t1 t2 c1 c2, t = t1 ++ t2 /\ c = c2 ++ c1 /\ Q1 t1 c1 /\ Q2 t2 c2) st st'.
Proof.
  intros (t1 & c1 & H1 & H2 & H3) (t2 & c2 & H4 & H5 & H6). exists (t1 ++ t2), (c2 ++ c1).
  rewrite H1, H4, H5, H2, !app_assoc. split_and!; [done..|]. by exists t1, t2, c1, c2.
Qed.
Lemma moves_weaken (Q1 Q2 : str -> list (nat * str) -> Prop) st st' :
  (forall t c, Q1 t c -> Q2 t c) -> moves Q1 st st' -> moves Q2 st st'.
Proof. intros H (t & c & ? & ? & ?). exists t, c. auto. Qed.
Lemma moves_stay (Q : str -> list (nat * str) -> Prop) st : Q [] [] -> moves Q st st.
Proof. intros H. by exists [], []. Qed.
Lemma iterates_moves (R : mstate -> mstate -> Prop) (Q : str -> list (nat * str) -> Prop) lo hi st st' :
  Q [] [] -> (forall t1 t2 c1 c2, Q t1 c1 -> Q t2 c2 -> Q (t1 ++ t2) (c2 ++ c1)) ->
  (forall a b, R a b -> moves Q a b) -> iterates R lo hi st st' -> moves Q st st'.
Proof.
  intros H0 Happ HR. induction 1 as [lo hi a b c Hab _ IH|hi a|hi a b c _ Hab _ _ IH].
  - eapply moves_weaken, moves_trans; [|by apply HR|exact IH].
    intros t c0 (t1 & t2 & c1 & c2 & -> & -> & ? & ?). auto.
  - by apply moves_stay.
  - eapply moves_weaken, moves_trans; [|by apply HR|exact IH].
    intros t c0 (t1 & t2 & c1 & c2 & -> & -> & ? & ?). auto.
Qed.

Lemma consumed_app st st' text : ms_rest st = text ++ ms_rest st' -> consumed st st' = text.
Proof.
  intros H. unfold consumed. rewrite H, length_app, Nat.add_sub. apply take_app_length.
Qed.
Lemma Matches_reads ci r : forall st st', Matches ci r st st' -> moves (Reads ci r) st st'.
Proof.
  induction r as [| |s|a IHa b IHb|a IHa b IHb|g lo hi body IH|n body IH| | | |body IH|s];
    intros st st'; cbn [Matches Reads].
  - done.
  - intros ->. by apply moves_stay.
  - intros (c & rest & Hr & Hc & ->). exists [c], []. cbn. rewrite Hr. eauto 10.
  - intros (m & Ha & Hb). eapply moves_trans; eauto.
  - intros [H%IHa|H%IHb]; (eapply moves_weaken; [|exact H]); cbn; auto.
  - intros H. destruct body as [| |s| | | | | | | | |]; try (
      eapply (iterates_moves (Matches ci _) (fun _ _ => True)); [done..| |exact H];
      intros a b Hab; eapply moves_weaken; [|by apply IH]; done).
    eapply (iterates_moves (Matches ci (RSet s))
      (fun text caps => Forall (fun c => cset_has ci s c = true) text /\ caps = [])); [| | |exact H].
    + by split; [constructor|].
    + intros t1 t2 c1 c2 [H1 ->] [H2 ->]. split; [by apply Forall_app|done].
    + intros a b Hab. eapply moves_weaken; [|by apply IH]. intros t c (x & -> & Hx & ->).
      by repeat constructor.
  - intros (m & Hm & ->). destruct (IH _ _ Hm) as (t & c & H1 & H2 & H3).
    exists t, ((n, t) :: c). cbn. rewrite (consumed_app _ _ _ H1), H2. eauto.
  - intros [_ ->]. by apply moves_stay.
  - intros [_ ->]. by apply moves_stay.
  - intros [_ ->]. by apply moves_stay.
  - intros [_ ->]. by apply moves_stay.
  - intros [_ ->]. by apply moves_stay.
Qed.

(** pattern.fullmatch(s).groups(): the whole text, and its captures *)
Lemma fullmatch_reads p s st :
  mrun (p_icase p) (p_regex p) (fun st => match ms_rest st with [] => Some st | _ => None end)
    (MS None s []) = Some st -> Reads (p_icase p) (p_regex p) s (ms_caps st).
Proof.
  intros H. destruct (mrun_ok (p_icase p) (p_regex p)
    (fun st => match ms_rest st with [] => Some st | _ => None end) (MS None s [])) as [Hs _].
  destruct (Hs _ H) as (m & Hm & Hk). destruct (ms_rest m) eqn:Er; [|done]. injection Hk as ->.
  apply Matches_reads in Hm as (t & c & H1 & H2 & H3). cbn in H1, H2. rewrite app_nil_r in H2.
  rewrite Er, app_nil_r in H1. by subst.
Qed.

(** Every character of a match belongs to some class of the pattern, if it has no other
    repetitions than of classes. *)
Fixpoint classes (r : regex) : list cset :=
  match r with
  | RSet s => [s]
  | RSeq a b | RAlt a b => classes a ++ classes b
  | RRep _ _ _ r | RGroup _ r => classes r
  | _ => []
  end.
Definition any_of (ci : bool) (l : list cset) (c : N) : Prop := exists s, s ∈ l /\ cset_has ci s c = true.
Lemma any_of_app ci l k c : any_of ci l c \/ any_of ci k c -> any_of ci (l ++ k) c.
Proof. intros [(s & Hs & Hc)|(s & Hs & Hc)]; exists s; rewrite elem_of_app; auto. Qed.
Lemma Matches_classes ci r : forall st st',
  Matches ci r st st' -> moves (fun t _ => Forall (any_of ci (classes r)) t) st st'.
Proof.
  induction r as [| |s|a IHa b IHb|a IHa b IHb|g lo hi body IH|n body IH| | | |body IH|s];
    intros st st'; cbn [Matches classes].
  - done.
  - intros ->. by apply moves_stay.
  - intros (c & rest & Hr & Hc & ->). exists [c], []. cbn. rewrite Hr. split_and!; [done..|].
    repeat constructor. exists s. split; [|done]. apply elem_of_cons. by left.
  - intros (m & Ha & Hb). eapply moves_weaken, moves_trans; [|by apply IHa|by apply IHb].
    intros t c (t1 & t2 & c1 & c2 & -> & _ & H1 & H2). cbn in *. apply Forall_app. split.
    + apply (Forall_weaken _ _ _ H1). intros x Hx. apply any_of_app. by left.
    + apply (Forall_weaken _ _ _ H2). intros x Hx. apply any_of_app. by right.
  - intros [Hm|Hm]; [eapply moves_weaken; [|by apply IHa]|eapply moves_weaken; [|by apply IHb]];
      intros t c H; apply (Forall_weaken _ _ _ H); intros x Hx; apply any_of_app; auto.
  - apply iterates_moves; [constructor| |exact IH]. intros t1 t2 c1 c2. by rewrite Forall_app.
  - intros (m & Hm & ->). destruct (IH _ _ Hm) as (t & c & H1 & H2 & H3).
    exists t, ((n, t) :: c). cbn. rewrite (consumed_app _ _ _ H1), H2. eauto.
  - intros [_ ->]. by apply moves_stay.
  - intros [_ ->]. by apply moves_stay.
  - intros [_ ->]. by apply moves_stay.
  - intros [_ ->]. by apply moves_stay.
  - intros [_ ->]. by apply moves_stay.
Qed.
Lemma fullmatch_classes p s :
  re_fullmatch p s = true -> Forall (any_of (p_icase p) (classes (p_regex p))) s.
Proof.
  intros (st & Hm & Hr)%re_fullmatch_spec. apply Matches_classes in Hm as (t & c & H1 & _ & H3).
  cbn in H1. rewrite Hr, app_nil_r in H1. by subst.
Qed.
End text.
