(* ===== verification/Models.v ===== *)
(** * Data model (src/pipelens/models.py)

    The enumerations with their wire values and the records of the program.
    Instants and durations are microseconds ([Z]); the floats of the models
    (confidences, scores) are rationals ([Q]), the exact value of the double. *)

From Stdlib Require Import QArith.
From stdpp Require Import base list strings numbers.
From S2P Require Import Prelude.

(** ** Enumerations *)

Inductive AnalysisStatus := QUEUED | RUNNING | COMPLETED | FAILED.
Definition status_value (s : AnalysisStatus) : str :=
  match s with
  | QUEUED => u "queued" | RUNNING => u "running"
  | COMPLETED => u "completed" | FAILED => u "failed"
  end.
#[export] Instance AnalysisStatus_eq : EqDecision AnalysisStatus.
Proof. solve_decision. Defined.

Inductive AnalysisStage :=
| COLLECTING | SANITIZING | CLASSIFYING | CORRELATING | DIAGNOSING | PUBLISHING.
Definition stage_value (s : AnalysisStage) : str :=
  match s with
  | COLLECTING => u "collecting" | SANITIZING => u "sanitizing"
  | CLASSIFYING => u "classifying" | CORRELATING => u "correlating"
  | DIAGNOSING => u "diagnosing" | PUBLISHING => u "publishing"
  end.
#[export] Instance AnalysisStage_eq : EqDecision AnalysisStage.
Proof. solve_decision. Defined.

Inductive StageStatus := S_STARTED | S_COMPLETED | S_FAILED.
Definition stage_status_value (s : StageStatus) : str :=
  match s with
  | S_STARTED => u "started" | S_COMPLETED => u "completed" | S_FAILED => u "failed"
  end.
#[export] Instance StageStatus_eq : EqDecision StageStatus.
Proof. solve_decision. Defined.

Inductive ErrorCategory :=
| Cat_TEST | Cat_BUILD | Cat_DEPENDENCY | Cat_LINT | Cat_DOCKER | Cat_DEPLOY_AUTH
| Cat_MISSING_ENV | Cat_TIMEOUT | Cat_RESOURCE | Cat_WORKFLOW | Cat_SECURITY | Cat_UNKNOWN.
Definition category_value (c : ErrorCategory) : str :=
  match c with
  | Cat_TEST => u "test_failure"
  | Cat_BUILD => u "build_failure"
  | Cat_DEPENDENCY => u "dependency_installation_failure"
  | Cat_LINT => u "lint_or_formatter_failure"
  | Cat_DOCKER => u "docker_build_failure"
  | Cat_DEPLOY_AUTH => u "deployment_authentication_failure"
  | Cat_MISSING_ENV => u "missing_environment_variable"
  | Cat_TIMEOUT => u "timeout"
  | Cat_RESOURCE => u "resource_exhaustion"
  | Cat_WORKFLOW => u "github_actions_workflow_error"
  | Cat_SECURITY => u "security_scan_failure"
  | Cat_UNKNOWN => u "unknown"
  end.
#[export] Instance ErrorCategory_eq : EqDecision ErrorCategory.
Proof. solve_decision. Defined.

Inductive FeedbackAccuracy := ACCURATE | PARTIAL | INACCURATE.
Definition accuracy_value (a : FeedbackAccuracy) : str :=
  match a with
  | ACCURATE => u "accurate" | PARTIAL => u "partial" | INACCURATE => u "inaccurate"
  end.

Inductive TrustLevel := TRUSTED | UNTRUSTED_FORK | UNVERIFIED.
Definition trust_value (t : TrustLevel) : str :=
  match t with
  | TRUSTED => u "trusted" | UNTRUSTED_FORK => u "untrusted_fork" | UNVERIFIED => u "unverified"
  end.
#[export] Instance TrustLevel_eq : EqDecision TrustLevel.
Proof. solve_decision. Defined.

Inductive ResolutionOutcome := RESOLVED | STILL_FAILING.
Definition resolution_value (r : ResolutionOutcome) : str :=
  match r with RESOLVED => u "resolved" | STILL_FAILING => u "still_failing" end.
#[export] Instance ResolutionOutcome_eq : EqDecision ResolutionOutcome.
Proof. solve_decision. Defined.

Inductive SuggestionSource := RULE | LLM.
Definition source_value (s : SuggestionSource) : str :=
  match s with RULE => u "rule" | LLM => u "llm" end.
#[export] Instance SuggestionSource_eq : EqDecision SuggestionSource.
Proof. solve_decision. Defined.

(** ** Records *)

Record Evidence := {
  ev_source : str;
  ev_content : str;
  ev_location : option str
}.

Record Classification := {
  cl_category : ErrorCategory;
  cl_confidence : Q;
  cl_first_error : str;
  cl_related_step : option str;
  cl_matched_rules : list str
}.

Record Suggestion := {
  sg_description : str;
  sg_file : option str;
  sg_patch : option str;
  sg_source : option SuggestionSource;
  sg_patch_verified : bool
}.

Record Diagnosis := {
  dg_summary : str;
  dg_root_cause : str;
  dg_confidence : Q;
  dg_evidence : list Evidence;
  dg_suggestions : list Suggestion;
  dg_conflicts : list str;
  dg_notes : list str
}.

Record ChangedFile := {
  cf_filename : str;
  cf_status : str;
  cf_patch : option str;
  cf_previous_filename : option str
}.

Record RepositoryContext := {
  rc_changed_files : list ChangedFile;
  rc_workflow_path : option str;
  rc_workflow_content : option str;
  rc_pull_request_number : option Z;
  rc_trust_level : TrustLevel;
  rc_baseline_sha : option str
}.
(** RepositoryContext(trust_level=...) with the defaults of the other fields *)
Definition empty_repository_context (t : TrustLevel) : RepositoryContext := {|
  rc_changed_files := []; rc_workflow_path := None; rc_workflow_content := None;
  rc_pull_request_number := None; rc_trust_level := t; rc_baseline_sha := None |}.

Record RelatedFile := {
  rf_filename : str;
  rf_score : Q;
  rf_reasons : list str;
  rf_patch_excerpt : option str
}.

Record FailedJobContext := {
  fj_name : str;
  fj_failed_steps : list str;
  fj_runner_labels : list str
}.

Record ExecutionContext := {
  ec_workflow_name : option str;
  ec_head_branch : option str;
  ec_failed_jobs : list FailedJobContext
}.

Record FeedbackRequest := {
  fq_accuracy : option FeedbackAccuracy;
  fq_suggestion_resolved : option bool;
  fq_comment : option str
}.
(** [require_feedback_value] and the length limit of the comment: what pydantic
    accepts as a FeedbackRequest. *)
Definition validate_feedback_request (f : FeedbackRequest) : outcome FeedbackRequest :=
  match fq_comment f with
  | Some c => if (2000 <? length c)%nat then Raise (ValueError (u "comment is too long"))
              else match fq_accuracy f, fq_suggestion_resolved f with
                   | None, None =>
                     Raise (ValueError (u "accuracy or suggestion_resolved is required"))
                   | _, _ => Ok f
                   end
  | None => match fq_accuracy f, fq_suggestion_resolved f with
            | None, None => Raise (ValueError (u "accuracy or suggestion_resolved is required"))
            | _, _ => Ok f
            end
  end.

Record FeedbackRecord := {
  fb_run_id : Z;
  fb_accuracy : option FeedbackAccuracy;
  fb_suggestion_resolved : option bool;
  fb_comment : option str;
  fb_created_at : Z;
  fb_updated_at : Z
}.

Record ResolutionRecord := {
  rs_outcome : ResolutionOutcome;
  rs_followup_run_id : Z;
  rs_followup_run_attempt : Z;
  rs_followup_html_url : str;
  rs_followup_completed_at : Z;
  rs_recovery_seconds : Z              (* microseconds *)
}.

Record AnalysisStageEvent := {
  se_stage : AnalysisStage;
  se_status : StageStatus;
  se_error : option str;
  se_occurred_at : Z
}.

Record AnalysisRecord := {
  ar_run_id : Z;
  ar_delivery_id : str;
  ar_repository : str;
  ar_workflow_name : str;
  ar_head_sha : str;
  ar_html_url : str;
  ar_run_attempt : Z;
  ar_head_branch : option str;
  ar_pull_request_number : option Z;
  ar_run_completed_at : option Z;
  ar_installation_id : option Z;
  ar_trust_level : TrustLevel;
  ar_baseline_sha : option str;
  ar_status : AnalysisStatus;
  ar_classification : option Classification;
  ar_diagnosis : option Diagnosis;
  ar_related_files : list RelatedFile;
  ar_workflow_path : option str;
  ar_execution_context : option ExecutionContext;
  ar_model_name : option str;
  ar_prompt_version : option str;
  ar_feedback : option FeedbackRecord;
  ar_resolution : option ResolutionRecord;
  ar_error : option str;
  ar_analysis_started_at : option Z;
  ar_analysis_completed_at : option Z;
  ar_duration_seconds : option Z;          (* microseconds, as the next two *)
  ar_queue_wait_seconds : option Z;
  ar_total_latency_seconds : option Z;
  ar_stage_history : list AnalysisStageEvent;
  ar_created_at : Z;
  ar_updated_at : Z
}.

Record AnalysisRequest := {
  aq_run_id : Z;
  aq_repository : str;
  aq_installation_id : Z;
  aq_head_sha : str
}.
#[export] Instance AnalysisRequest_eq : EqDecision AnalysisRequest.
Proof. solve_decision. Defined.

Record GitHubUser := {
  gu_github_user_id : Z;
  gu_login : str;
  gu_avatar_url : option str
}.

Record GitHubInstallation := {
  gi_installation_id : Z;
  gi_account_login : str;
  gi_account_type : str;
  gi_repository_selection : str
}.

Record CurrentUser := {
  cu_user : GitHubUser;
  cu_installations : list GitHubInstallation
}.

(** ** Python's min/max on floats, and truthiness of optional strings *)
Definition Qltb (a b : Q) : bool := negb (Qle_bool b a).
Definition pymin (a b : Q) : Q := if Qltb b a then b else a.
(** [value or default] on an optional string: None and "" are falsy. *)
Definition or_str (o : option str) (d : str) : str :=
  match o with Some (c :: s) => c :: s | _ => d end.
Definition truthy (o : option str) : bool :=
  match o with Some (_ :: _) => true | _ => false end.
Definition none_if_empty (s : str) : option str :=
  match s with [] => None | _ => Some s end.

Lemma Qltb_lt a b : Qltb a b = true <-> (a < b)%Q.
Proof.
  unfold Qltb. rewrite negb_true_iff. split.
  - intros H. apply Qnot_le_lt. intros Hle. apply Qle_bool_iff in Hle. congruence.
  - intros H. apply not_true_iff_false. rewrite Qle_bool_iff. by apply Qlt_not_le.
Qed.
Lemma Qltb_ge a b : Qltb a b = false <-> (b <= a)%Q.
Proof. unfold Qltb. by rewrite negb_false_iff, Qle_bool_iff. Qed.
