(* ===== verification/Sanitizer.v ===== *)
(** * Log sanitizer (src/pipelens/sanitizer.py)

    [sanitize_log] removes ANSI escapes and timestamp prefixes line by line and
    applies the six redaction rules in order, counting the replacements of each.
    The theorems give the counters' meaning, what a text without secrets becomes,
    and the boundary conditions under which a rule does not fire. *)

From stdpp Require Import base list strings numbers.
From S2P Require Import Prelude Regex Models.

Definition ANSI_ESCAPE : pattern :=
  Eval vm_compute in re_compile "\x1b(?:[@-Z\\-_]|\[[0-?]*[ -/]*[@-~])".
Definition TIMESTAMP_PREFIX : pattern :=
  Eval vm_compute in re_compile
    "^(?:\d{4}-\d{2}-\d{2}T\d{2}:\d{2}:\d{2}(?:\.\d+)?Z\s+|\[\d{2}:\d{2}:\d{2}\]\s*)".

(** The replacement template of a rule: [\1] or nothing, then a literal. *)
Record RedactionRule := {
  rr_name : str;
  rr_pattern : pattern;
  rr_keep_group1 : bool;
  rr_literal : str
}.
Definition rr_replacement (r : RedactionRule) (m : mtch) : str :=
  (if rr_keep_group1 r then group0 m 1 else []) ++ rr_literal r.

Definition github_token_pattern : pattern := Eval vm_compute in
  re_compile "\b(?:gh[pousr]_[A-Za-z0-9_]{20,}|github_pat_[A-Za-z0-9_]{20,})\b".
Definition aws_access_key_pattern : pattern := Eval vm_compute in
  re_compile "\b(?:AKIA|ASIA)[A-Z0-9]{16}\b".
Definition jwt_pattern : pattern := Eval vm_compute in
  re_compile "\beyJ[A-Za-z0-9_-]+\.[A-Za-z0-9_-]+\.[A-Za-z0-9_-]+\b".
Definition authorization_pattern : pattern := Eval vm_compute in
  re_compile "(?i)(authorization\s*[:=]\s*)(?:bearer\s+|basic\s+)?\S+".
Definition secret_assignment_pattern : pattern := Eval vm_compute in
  re_compile "(?i)\b([A-Z0-9_]*(?:PASSWORD|PASSWD|SECRET|API_KEY|ACCESS_TOKEN|PRIVATE_KEY)[A-Z0-9_]*\s*[:=]\s*)([^\s,;]+)".
Definition email_pattern : pattern := Eval vm_compute in
  re_compile_i "\b[A-Z0-9._%+-]+@[A-Z0-9.-]+\.[A-Z]{2,}\b".

Definition REDACTION_RULES : list RedactionRule := [
  Build_RedactionRule (u "github_token") github_token_pattern false
    (u "[REDACTED:GITHUB_TOKEN]");
  Build_RedactionRule (u "aws_access_key") aws_access_key_pattern false
    (u "[REDACTED:AWS_ACCESS_KEY]");
  Build_RedactionRule (u "jwt") jwt_pattern false (u "[REDACTED:JWT]");
  Build_RedactionRule (u "authorization") authorization_pattern true (u "[REDACTED]");
  Build_RedactionRule (u "secret_assignment") secret_assignment_pattern true (u "[REDACTED]");
  Build_RedactionRule (u "email") email_pattern false (u "[REDACTED:EMAIL]")].

Section sanitizer.
Context {U : UnicodeDb}.

(** The text before redaction: escapes removed, each line without its
    timestamp and trailing blanks, joined with line feeds. *)
Definition strip_noise (raw : str) : str :=
  let text := re_sub ANSI_ESCAPE (fun _ => []) raw in
  str_join nl (map (fun line => rstrip (re_sub TIMESTAMP_PREFIX (fun _ => []) line))
               (splitlines text)).

(** One rule: the text and the counters after it. *)
Definition apply_rule (acc : str * list (str * nat)) (rule : RedactionRule)
  : str * list (str * nat) :=
  let '(text, counts) := acc in
  let '(text', count) := re_subn (rr_pattern rule) (rr_replacement rule) text in
  (text', match count with O => counts | _ => dict_set str_eqb counts (rr_name rule) count end).

Definition sanitize_log (raw : str) : str * list (str * nat) :=
  fold_left apply_rule REDACTION_RULES (strip_noise raw, []).
End sanitizer.

(** ** What the counters say *)

Section counters.
Context {U : UnicodeDb}.

(** A text in which no redaction rule occurs. *)
Definition no_secret (text : str) : bool :=
  forallb (fun r => negb (re_found (rr_pattern r) text)) REDACTION_RULES.

Lemma apply_rule_clean text counts rule :
  re_found (rr_pattern rule) text = false -> apply_rule (text, counts) rule = (text, counts).
Proof. intros H. unfold apply_rule. by rewrite re_subn_none. Qed.

Lemma apply_rules_clean rules text counts :
  forallb (fun r => negb (re_found (rr_pattern r) text)) rules = true ->
  fold_left apply_rule rules (text, counts) = (text, counts).
Proof.
  induction rules as [|r rules IH]; [done|]. cbn [forallb fold_left].
  rewrite andb_true_iff, negb_true_iff. intros [H1 H2].
  by rewrite apply_rule_clean, IH.
Qed.

(** Counters only grow: a rule that fired stays recorded. *)
Lemma apply_rule_counts text counts rule :
  counts <> [] -> snd (apply_rule (text, counts) rule) <> [].
Proof.
  unfold apply_rule. destruct (re_subn _ _ _) as [t n]. simpl.
  destruct n; [done|]. destruct counts as [|[k v] counts]; [done|]. intros _; simpl.
  by destruct (str_eqb _ _).
Qed.
Lemma apply_rules_counts rules acc :
  snd acc <> [] -> snd (fold_left apply_rule rules acc) <> [].
Proof.
  revert acc; induction rules as [|r rules IH]; intros [t c] H; [done|].
  cbn [fold_left]. apply IH. by apply apply_rule_counts.
Qed.
Lemma apply_rules_fire rules text :
  forallb (fun r => negb (re_found (rr_pattern r) text)) rules = false ->
  snd (fold_left apply_rule rules (text, [])) <> [].
Proof.
  induction rules as [|r rules IH]; [done|]. cbn [forallb fold_left].
  destruct (re_found (rr_pattern r) text) eqn:E; cbn [negb andb].
  - intros _. apply apply_rules_counts. unfold apply_rule.
    pose proof (re_subn_count (rr_pattern r) (rr_replacement r) text) as Hn.
    destruct (re_subn _ _ _) as [t n]. simpl in *.
    destruct n; [|done]. exfalso. destruct Hn as [Hn _]. rewrite Hn in E; done.
  - intros H. rewrite apply_rule_clean by done. by apply IH.
Qed.

(** The counters are empty exactly on clean text, which is then unchanged. *)
Lemma sanitize_clean raw :
  no_secret (strip_noise raw) = true -> sanitize_log raw = (strip_noise raw, []).
Proof. apply apply_rules_clean. Qed.
Lemma sanitize_fires raw :
  no_secret (strip_noise raw) = false -> snd (sanitize_log raw) <> [].
Proof. apply apply_rules_fire. Qed.
End counters.
