(* ===== verification/Classifier.v ===== *)
(** * Rule classifier (src/pipelens/classifier.py)

    The thirteen detection rules with their patterns as written in the source,
    [classify_log], [has_error_signal] and [extract_error_context].  The theorems
    say which rule decides a log, that the reported first error is a line of the
    log, and what the extracted sections are. *)

From Stdlib Require Import QArith.
From stdpp Require Import base list strings numbers.
From S2P Require Import Prelude Regex Models.

Record DetectionRule := {
  dr_rule_id : str;
  dr_category : ErrorCategory;
  dr_confidence : Q;
  dr_patterns : list pattern
}.

Definition _patterns (values : list string) : list pattern := map re_compile_i values.

Definition security_secret_patterns := Eval vm_compute in _patterns [
  "leaks? found: [1-9]";
  "secret scanning .*(?:detected|found|blocked)";
  "\b[1-9]\d* secrets? (?:detected|found)"]%string.
Definition security_vulnerability_patterns := Eval vm_compute in _patterns [
  "total: \d+ \(.*\b(?:high|critical): [1-9]";
  "\b[1-9]\d* (?:low|moderate|high|critical) severity vulnerabilit";
  "found [1-9]\d* known vulnerabilit";
  "dependency review detected vulnerable packages"]%string.
Definition security_code_scanning_patterns := Eval vm_compute in _patterns [
  "code scanning alerts? (?:found|detected)";
  "(?:codeql|semgrep).*\b[1-9]\d* (?:alerts?|findings?)"]%string.
Definition env_missing_patterns := Eval vm_compute in _patterns [
  "(?:keyerror|missing|required).*env";
  "(?:environment variable|env var).*not (?:set|found|defined)";
  "\$\{\{\s*secrets\.[^}]+\}\}.*(?:not found|empty)"]%string.
Definition auth_deploy_patterns := Eval vm_compute in _patterns [
  "(?:unauthorized|forbidden|access denied|invalid credentials)";
  "authentication required";
  "denied: requested access"]%string.
Definition resource_exhaustion_patterns := Eval vm_compute in _patterns [
  "no space left on device";
  "out of memory|oomkilled|cannot allocate memory";
  "exit code 137"]%string.
Definition timeout_patterns := Eval vm_compute in _patterns [
  "timed? out|timeout exceeded";
  "deadline exceeded";
  "job was cancelled because.*timeout";
  "alert state .*not observed"]%string.
Definition workflow_syntax_patterns := Eval vm_compute in _patterns [
  "invalid workflow file";
  "yaml(?: syntax| parser)? error";
  "unrecognized named-value";
  "the workflow is not valid"]%string.
Definition dependency_install_patterns := Eval vm_compute in _patterns [
  "(?:npm err!|eresolve unable to resolve dependency tree)";
  "could not find a version that satisfies";
  "failed (?:building wheel|to resolve dependencies)";
  "package .* has no installation candidate"]%string.
Definition docker_build_patterns := Eval vm_compute in _patterns [
  "docker build.*failed";
  "failed to solve: process";
  "dockerfile:\d+";
  "error response from daemon: (?!no such container)"]%string.
Definition lint_format_patterns := Eval vm_compute in _patterns [
  "(?:eslint|ruff|flake8|prettier|black).*?(?:error|failed)";
  "would reformat";
  "lint(?:ing)? failed";
  "code style issues found"]%string.
Definition test_failure_patterns := Eval vm_compute in _patterns [
  "\b(?:failed|failures?)\b.*\btests?\b";
  "(?:pytest|jest|vitest|rspec).*failed";
  "assertionerror|expected .* (?:to|but)"]%string.
Definition build_compile_patterns := Eval vm_compute in _patterns [
  "(?:compilation|compile|build) failed";
  "syntaxerror|typeerror:.*(?:assignable|property)";
  "undefined reference";
  "cannot find symbol"]%string.

Definition RULES : list DetectionRule := [
  Build_DetectionRule (u "security.secret") Cat_SECURITY 0.95 security_secret_patterns;
  Build_DetectionRule (u "security.vulnerability") Cat_SECURITY 0.93
    security_vulnerability_patterns;
  Build_DetectionRule (u "security.code_scanning") Cat_SECURITY 0.90
    security_code_scanning_patterns;
  Build_DetectionRule (u "env.missing") Cat_MISSING_ENV 0.94 env_missing_patterns;
  Build_DetectionRule (u "auth.deploy") Cat_DEPLOY_AUTH 0.92 auth_deploy_patterns;
  Build_DetectionRule (u "resource.exhaustion") Cat_RESOURCE 0.96 resource_exhaustion_patterns;
  Build_DetectionRule (u "timeout") Cat_TIMEOUT 0.91 timeout_patterns;
  Build_DetectionRule (u "workflow.syntax") Cat_WORKFLOW 0.95 workflow_syntax_patterns;
  Build_DetectionRule (u "dependency.install") Cat_DEPENDENCY 0.90 dependency_install_patterns;
  Build_DetectionRule (u "docker.build") Cat_DOCKER 0.89 docker_build_patterns;
  Build_DetectionRule (u "lint.format") Cat_LINT 0.88 lint_format_patterns;
  Build_DetectionRule (u "test.failure") Cat_TEST 0.90 test_failure_patterns;
  Build_DetectionRule (u "build.compile") Cat_BUILD 0.87 build_compile_patterns].

Definition ERROR_LINE : pattern := Eval vm_compute in
  re_compile_i "(?:error|exception|failed|fatal|panic|timeout|denied|not found)".
Definition SCANNER_FINDING_ROW : pattern := Eval vm_compute in
  re_compile "[│|]\s*(?:HIGH|CRITICAL)\s*[│|]".

(** max(rules, key=lambda rule: rule.confidence): the first of the best. *)
Definition max_rule (first : DetectionRule) (rest : list DetectionRule) : DetectionRule :=
  fold_left (fun best r => if Qltb (dr_confidence best) (dr_confidence r) then r else best)
            rest first.

Section classifier.
Context {U : UnicodeDb}.

Definition rule_matches (text : str) (rule : DetectionRule) : bool :=
  existsb (fun p => re_found p text) (dr_patterns rule).

Definition has_error_signal (text : str) : bool :=
  re_found ERROR_LINE text || re_found SCANNER_FINDING_ROW text
  || existsb (rule_matches text) RULES.

Definition nonblank_lines (log : str) : list str :=
  filter (fun l => l <> []) (map strip (splitlines log)).

(** The loop over the lines: the first line some rule matches decides. *)
Fixpoint classify_lines (related_step : option str) (lines : list str)
  : option Classification :=
  match lines with
  | [] => None
  | line :: rest =>
    match List.filter (rule_matches line) RULES with
    | [] => classify_lines related_step rest
    | r :: rs =>
      let best := max_rule r rs in
      Some {| cl_category := dr_category best; cl_confidence := dr_confidence best;
              cl_first_error := line; cl_related_step := related_step;
              cl_matched_rules := [dr_rule_id best] |}
    end
  end.

Definition first_error_line (lines : list str) : str :=
  match List.find (fun line => re_found ERROR_LINE line) lines with
  | Some line => line
  | None => match lines with
            | line :: _ => line
            | [] => u "No error output was captured"
            end
  end.

Definition classify_log (log : str) (related_step : option str) : Classification :=
  let lines := nonblank_lines log in
  match classify_lines related_step lines with
  | Some c => c
  | None =>
    {| cl_category := Cat_UNKNOWN; cl_confidence := 0.2;
       cl_first_error := first_error_line lines; cl_related_step := related_step;
       cl_matched_rules := [] |}
  end.

(** Indexes of the lines with an error signal. *)
Fixpoint signal_indexes (i : Z) (lines : list str) : list Z :=
  match lines with
  | [] => []
  | l :: rest =>
    if has_error_signal l then i :: signal_indexes (i + 1) rest
    else signal_indexes (i + 1) rest
  end.

(** The loop that builds [ranges]; [acc] holds them latest first. *)
Fixpoint collect_ranges (len context_lines max_sections : Z) (indexes : list Z)
  (acc : list (Z * Z)) : list (Z * Z) :=
  match indexes with
  | [] => rev acc
  | index :: rest =>
    let start := Z.max 0 (index - context_lines) in
    let stop := Z.min len (index + context_lines + 1) in
    match acc with
    | (s, e) :: acc' =>
      if start <=? e
      then collect_ranges len context_lines max_sections rest ((s, Z.max e stop) :: acc')
      else if Z.of_nat (length acc) <? max_sections
      then collect_ranges len context_lines max_sections rest ((start, stop) :: acc)
      else rev acc
    | [] =>
      if 0 <? max_sections
      then collect_ranges len context_lines max_sections rest [(start, stop)]
      else []
    end
  end.

Definition error_ranges (lines : list str) (context_lines max_sections : Z) : list (Z * Z) :=
  collect_ranges (Z.of_nat (length lines)) context_lines max_sections
                 (signal_indexes 0 lines) [].

Definition extract_error_context (log : str) (context_lines max_sections : Z) : str :=
  let lines := splitlines log in
  match signal_indexes 0 lines with
  | [] =>
    str_join nl (py_from lines (- Z.min (Z.of_nat (length lines)) (context_lines * 2)))
  | _ :: _ =>
    str_join (nl ++ u "..." ++ nl)
      (map (fun '(s, e) => str_join nl (py_slice lines s e))
           (error_ranges lines context_lines max_sections))
  end.
End classifier.

(** ** Which rule decides *)

(** [best] is the first element of [l] with the highest confidence. *)
Definition first_best (l : list DetectionRule) (best : DetectionRule) : Prop :=
  exists a b, l = a ++ best :: b
    /\ Forall (fun r => dr_confidence r < dr_confidence best)%Q a
    /\ Forall (fun r => dr_confidence r <= dr_confidence best)%Q b.

Lemma max_rule_spec r rs : first_best (r :: rs) (max_rule r rs).
Proof.
  unfold max_rule.
  enough (H : forall rs best done,
    first_best done best ->
    first_best (done ++ rs) (fold_left (fun best r =>
      if Qltb (dr_confidence best) (dr_confidence r) then r else best) rs best)).
  { apply (H rs r [r]). exists [], []. repeat constructor. }
  clear. induction rs as [|x rs IH]; intros best done (a & b & -> & Ha & Hb).
  - rewrite app_nil_r. by exists a, b.
  - simpl. replace ((a ++ best :: b) ++ x :: rs) with (((a ++ best :: b) ++ [x]) ++ rs)
      by (by rewrite <- app_assoc).
    apply IH. destruct (Qltb _ _) eqn:E.
    + apply Qltb_lt in E. exists (a ++ best :: b), []. split_and!; [done| |constructor].
      apply Forall_app. split; [|constructor; [done|]].
      * eapply Forall_weaken; [exact Ha|]. intros y Hy. exact (Qlt_trans _ _ _ Hy E).
      * eapply Forall_weaken; [exact Hb|]. intros y Hy. exact (Qle_lt_trans _ _ _ Hy E).
    + apply Qltb_ge in E. exists a, (b ++ [x]). split_and!; [by rewrite <- app_assoc|done|].
      apply Forall_app. split; [done|]. by repeat constructor.
Qed.

Lemma filter_first {A} (f : A -> bool) l x xs :
  List.filter f l = x :: xs -> f x = true /\ In x l.
Proof.
  intros H. assert (In x (List.filter f l)) as Hx by (rewrite H; by left).
  apply List.filter_In in Hx. tauto.
Qed.

Section classifier_facts.
Context {U : UnicodeDb}.

Lemma rule_matches_occurs text rule :
  rule_matches text rule = true <-> exists p, In p (dr_patterns rule) /\ occurs p text.
Proof.
  unfold rule_matches. rewrite existsb_exists. by setoid_rewrite re_found_spec.
Qed.

(** The classification of the first line some rule matches. *)
Definition decided_by (line : str) (step : option str) (c : Classification) : Prop :=
  exists best, first_best (List.filter (rule_matches line) RULES) best
    /\ c = {| cl_category := dr_category best; cl_confidence := dr_confidence best;
              cl_first_error := line; cl_related_step := step;
              cl_matched_rules := [dr_rule_id best] |}.

Definition unmatched (line : str) : Prop :=
  forall rule, In rule RULES -> rule_matches line rule = false.

Lemma unmatched_filter line :
  List.filter (rule_matches line) RULES = [] <-> unmatched line.
Proof.
  split.
  - intros H rule Hr. apply not_true_iff_false. intros Hm.
    assert (Hin : In rule (List.filter (rule_matches line) RULES)) by (by apply List.filter_In).
    by rewrite H in Hin.
  - intros H. destruct (List.filter _ _) as [|x xs] eqn:E; [done|].
    apply filter_first in E as [Hm Hin]. rewrite H in Hm; done.
Qed.

Lemma classify_lines_Some step lines c :
  classify_lines step lines = Some c ->
  exists pre line post, lines = pre ++ line :: post /\ Forall unmatched pre
    /\ ~ unmatched line /\ decided_by line step c.
Proof.
  induction lines as [|l lines IH]; cbn [classify_lines]; [done|].
  destruct (List.filter (rule_matches l) RULES) as [|r rs] eqn:E.
  - apply unmatched_filter in E as Hu.
    intros (pre & line & post & -> & Hp & Hl & Hd)%IH.
    exists (l :: pre), line, post. by repeat (split; auto).
  - intros [= <-]. exists [], l, lines.
    split_and!; [done|constructor|rewrite <- unmatched_filter; congruence|].
    exists (max_rule r rs). rewrite E. split; [apply max_rule_spec|done].
Qed.

Lemma classify_lines_None step lines :
  classify_lines step lines = None <-> Forall unmatched lines.
Proof.
  induction lines as [|l lines IH]; cbn [classify_lines]; [done|].
  pose proof (unmatched_filter l) as Hl. rewrite Forall_cons_iff.
  destruct (List.filter (rule_matches l) RULES); [tauto|].
  split; [done|]. by intros [?%Hl _].
Qed.

Lemma nonblank_lines_In log line :
  In line (nonblank_lines log) -> line <> [] /\ contains line log = true.
Proof.
  unfold nonblank_lines. rewrite <- list_elem_of_In, list_elem_of_filter, list_elem_of_In.
  rewrite in_map_iff. intros (Hne & l & <- & Hl). split; [done|].
  eapply contains_trans; [apply contains_strip|by apply contains_splitlines].
Qed.

(** A log without non-blank lines contains no text starting with a visible character. *)
Lemma nonblank_lines_nil log c n :
  nonblank_lines log = [] -> is_space c = false -> is_linebreak c = false ->
  contains (c :: n) log = false.
Proof.
  intros Hb Hs Hc. apply not_true_iff_false. rewrite contains_spec. intros (a & b & Hl).
  destruct (splitlines_char c log) as (l & Hin & Hcl);
    [rewrite Hl; apply in_app_iff; right; by left|done|].
  destruct (strip l) as [|x r] eqn:E.
  - apply strip_nil in E. rewrite List.Forall_forall in E.
    rewrite (E c Hcl) in Hs. done.
  - assert (H : strip l ∈ nonblank_lines log).
    { unfold nonblank_lines. rewrite list_elem_of_filter, E. split; [done|].
      rewrite <- E, list_elem_of_In. by apply in_map. }
    rewrite Hb in H. by apply elem_of_nil in H.
Qed.

Lemma first_error_line_In lines : lines <> [] -> In (first_error_line lines) lines.
Proof.
  intros Hne. unfold first_error_line. destruct (List.find _ lines) as [l|] eqn:E.
  - by apply List.find_some in E as [? _].
  - destruct lines; [done|by left].
Qed.

Lemma decided_by_first_error line step c : decided_by line step c -> cl_first_error c = line.
Proof. by intros (best & _ & ->). Qed.

(** The reported first error is always one of the log's stripped lines. *)
Lemma classify_first_error log step :
  nonblank_lines log <> [] ->
  In (cl_first_error (classify_log log step)) (nonblank_lines log).
Proof.
  intros Hne. unfold classify_log.
  destruct (classify_lines step (nonblank_lines log)) as [c|] eqn:E.
  - apply classify_lines_Some in E as (pre & line & post & Hl & _ & _ & Hd).
    rewrite (decided_by_first_error _ _ _ Hd), Hl. apply in_app_iff. by right; left.
  - by apply first_error_line_In.
Qed.

(** *** Error sections *)

(** Consecutive ranges neither overlap nor touch. *)
Fixpoint ranges_ok (len : Z) (rs : list (Z * Z)) : Prop :=
  match rs with
  | [] => True
  | (s, e) :: rest =>
    0 <= s <= e /\ e <= len /\ ranges_ok len rest /\
    match rest with (s', _) :: _ => e < s' | [] => True end
  end.
(** The same on the accumulator, latest first. *)
Fixpoint acc_ok (len : Z) (acc : list (Z * Z)) : Prop :=
  match acc with
  | [] => True
  | (s, e) :: rest =>
    0 <= s <= e /\ e <= len /\ acc_ok len rest /\
    match rest with (_, e') :: _ => e' < s | [] => True end
  end.

Lemma acc_ok_rev len acc rs :
  acc_ok len acc -> ranges_ok len rs ->
  match acc, rs with (_, e) :: _, (s', _) :: _ => e < s' | _, _ => True end ->
  ranges_ok len (rev acc ++ rs).
Proof.
  revert rs; induction acc as [|[s e] acc IH]; intros rs Ha Hr Hj; [done|].
  simpl. rewrite <- app_assoc. simpl in Ha. apply IH; [tauto| |destruct acc as [|[]]; tauto].
  simpl. split_and!; tauto.
Qed.

Lemma signal_indexes_bounds i lines :
  Forall (fun j => i <= j < i + Z.of_nat (length lines)) (signal_indexes i lines).
Proof.
  revert i; induction lines as [|l lines IH]; intros i; [constructor|].
  cbn [signal_indexes length]. rewrite Nat2Z.inj_succ.
  assert (Forall (fun j => i <= j < i + Z.succ (Z.of_nat (length lines)))
                 (signal_indexes (i + 1) lines)).
  { eapply Forall_weaken; [apply IH|]. simpl. lia. }
  destruct (has_error_signal l); [|done]. constructor; [lia|done].
Qed.

Lemma collect_ranges_ok len ctx maxs idx acc :
  0 <= ctx -> Forall (fun j => 0 <= j < len) idx -> acc_ok len acc ->
  ranges_ok len (collect_ranges len ctx maxs idx acc).
Proof.
  intros Hctx. revert acc; induction idx as [|j idx IH]; intros acc Hidx Hacc;
    cbn [collect_ranges].
  - rewrite <- (app_nil_r (rev acc)). apply acc_ok_rev; [done|done|by destruct acc as [|[]]].
  - inversion Hidx as [|? ? Hj Hidx']; subst.
    assert (Hrev : ranges_ok len (rev acc)).
    { rewrite <- (app_nil_r (rev acc)).
      apply acc_ok_rev; [done|done|by destruct acc as [|[]]]. }
    destruct acc as [|[s e] acc].
    + destruct (0 <? maxs) eqn:Em; [|done]. apply IH; [done|]. simpl. lia.
    + destruct (Z.leb_spec (Z.max 0 (j - ctx)) e).
      * apply IH; [done|]. simpl in Hacc |- *. split_and!; try tauto; lia.
      * destruct (_ <? maxs); [|done]. apply IH; [done|].
        split_and!; [lia|lia|lia|done|done].
Qed.

Lemma collect_ranges_count len ctx maxs idx acc :
  Z.of_nat (length acc) <= Z.max 0 maxs ->
  Z.of_nat (length (collect_ranges len ctx maxs idx acc)) <= Z.max 0 maxs.
Proof.
  revert acc; induction idx as [|j idx IH]; intros acc Hacc; cbn [collect_ranges].
  - by rewrite length_rev.
  - destruct acc as [|[s e] acc].
    + destruct (Z.ltb_spec 0 maxs); [apply IH; simpl; lia|simpl; lia].
    + destruct (_ <=? e); [by apply IH|].
      destruct (Z.ltb_spec (Z.of_nat (length ((s, e) :: acc))) maxs).
      * apply IH. simpl in *. lia.
      * by rewrite length_rev.
Qed.

(** A range of the accumulator survives, possibly extended to the right. *)
Lemma collect_ranges_keeps len ctx maxs idx acc s e :
  In (s, e) acc ->
  exists e', e <= e' /\ In (s, e') (collect_ranges len ctx maxs idx acc).
Proof.
  revert acc e; induction idx as [|j idx IH]; intros acc e Hin; cbn [collect_ranges].
  - exists e. split; [lia|]. by apply in_rev in Hin.
  - destruct acc as [|[s0 e0] acc]; [done|].
    destruct (_ <=? e0).
    + destruct Hin as [[= -> ->]|Hin].
      * destruct (IH ((s, Z.max e (Z.min len (j + ctx + 1))) :: acc)
          (Z.max e (Z.min len (j + ctx + 1)))) as (e' & ? & ?); [by left|].
        exists e'. split; [lia|done].
      * apply IH. by right.
    + destruct (_ <? maxs).
      * apply IH. by right.
      * exists e. split; [lia|]. by apply in_rev in Hin.
Qed.
End classifier_facts.

(** ** Properties *)

Section classifier_properties.
Context {U : UnicodeDb}.

Lemma signal_indexes_lookup i lines j rest :
  signal_indexes i lines = j :: rest ->
  exists n line, j = i + Z.of_nat n /\ lines !! n = Some line
    /\ has_error_signal line = true
    /\ Forall (fun l => has_error_signal l = false) (take n lines).
Proof.
  revert i; induction lines as [|l lines IH]; intros i; cbn [signal_indexes]; [done|].
  destruct (has_error_signal l) eqn:E.
  - intros [= <- _]. exists 0%nat, l. simpl. split_and!; [lia|done|done|constructor].
  - intros (n & line & -> & Hl & Hs & Hp)%IH. exists (S n), line.
    simpl. split_and!; [lia|done|done|by constructor].
Qed.

Lemma error_ranges_first lines ctx maxs j rest :
  0 <= ctx -> 1 <= maxs -> signal_indexes 0 lines = j :: rest ->
  exists s e, In (s, e) (error_ranges lines ctx maxs) /\ 0 <= s <= j /\ j < e.
Proof.
  intros Hctx Hm Hj. unfold error_ranges.
  pose proof (signal_indexes_bounds 0 lines) as Hb. rewrite Hj in *.
  inversion Hb as [|? ? Hj0 _]; subst. cbn [collect_ranges].
  destruct (Z.ltb_spec 0 maxs); [|lia].
  destruct (collect_ranges_keeps (Z.of_nat (length lines)) ctx maxs rest
    [(Z.max 0 (j - ctx), Z.min (Z.of_nat (length lines)) (j + ctx + 1))]
    (Z.max 0 (j - ctx)) (Z.min (Z.of_nat (length lines)) (j + ctx + 1)))
    as (e' & He & Hin); [by left|].
  exists (Z.max 0 (j - ctx)), e'. split; [done|]. lia.
Qed.

(** C30: [classify_log] is decided by the first stripped non-blank line on which
    some rule matches: among the rules matching that line it takes the first one
    of highest confidence, reports that line as the first error and that rule as
    the only matched rule; when no line matches any rule the category is
    [unknown] with confidence 0.2.  Whenever the log has a non-blank line the
    reported first error is itself text of the log. *)
Theorem classify_log_spec (log : str) (step : option str) :
  let c := classify_log log step in
  ((exists pre line post,
      nonblank_lines log = pre ++ line :: post /\ Forall unmatched pre
      /\ ~ unmatched line /\ decided_by line step c)
   \/ (Forall unmatched (nonblank_lines log) /\ cl_category c = Cat_UNKNOWN
       /\ cl_confidence c = 0.2%Q /\ cl_matched_rules c = []
       /\ cl_related_step c = step))
  /\ (nonblank_lines log <> [] -> contains (cl_first_error c) log = true).
Proof.
  intros c. split.
  - unfold c, classify_log.
    destruct (classify_lines step (nonblank_lines log)) as [c'|] eqn:E.
    + left. by apply classify_lines_Some.
    + right. apply classify_lines_None in E. auto.
  - intros Hne. by eapply nonblank_lines_In, classify_first_error.
Qed.

(** With a non-negative number of context lines and at least one section
    allowed, the sections [extract_error_context] selects lie within the log,
    are ordered, disjoint and non-adjacent, are at most [max_sections], and the
    first line carrying an error signal is part of the extracted text. *)
Theorem extract_error_context_spec (log : str) (ctx maxs : Z) :
  0 <= ctx -> 1 <= maxs ->
  let lines := splitlines log in
  let rs := error_ranges lines ctx maxs in
  ranges_ok (Z.of_nat (length lines)) rs
  /\ Z.of_nat (length rs) <= maxs
  /\ (forall line, In line lines -> has_error_signal line = true ->
      exists pre first post, lines = pre ++ first :: post
        /\ Forall (fun l => has_error_signal l = false) pre
        /\ has_error_signal first = true
        /\ contains first (extract_error_context log ctx maxs) = true).
Proof.
  intros Hctx Hm lines rs. split_and!.
  - apply collect_ranges_ok; [done| |done].
    eapply Forall_weaken; [apply signal_indexes_bounds|]. simpl. lia.
  - pose proof (collect_ranges_count (Z.of_nat (length lines)) ctx maxs
      (signal_indexes 0 lines) []) as H. simpl in H. subst rs. unfold error_ranges. lia.
  - intros line Hin Hs.
    destruct (signal_indexes 0 lines) as [|j rest] eqn:E.
    { exfalso. clear -Hin Hs E. revert E. generalize 0.
      induction lines as [|l lines IH]; intros i; [done|]. cbn [signal_indexes].
      destruct (has_error_signal l) eqn:El; [done|].
      destruct Hin as [->|Hin]; [congruence|]. by apply IH. }
    destruct (error_ranges_first lines ctx maxs j rest) as (s & e & Hr & Hs1 & He); auto.
    apply signal_indexes_lookup in E as E'.
    destruct E' as (n & first & -> & Hl & Hf & Hpre).
    exists (take n lines), first, (drop (S n) lines).
    split_and!; [by rewrite take_drop_middle|done|done|].
    unfold extract_error_context. fold lines. rewrite E.
    eapply contains_trans; [apply contains_str_join with (sep := nl)|
      apply contains_str_join, in_map_iff; exists (s, e); split; [reflexivity|exact Hr]].
    eapply py_slice_lookup; [lia| |exact Hl]. lia.
Qed.

(** The classification of a log without text. *)
Lemma classify_empty step :
  classify_log [] step = {| cl_category := Cat_UNKNOWN; cl_confidence := 0.2;
    cl_first_error := u "No error output was captured"; cl_related_step := step;
    cl_matched_rules := [] |}.
Proof. reflexivity. Qed.
End classifier_properties.

(** A pip failure: the dependency rule decides. *)
Definition sample_log : str :=
  u "Collecting pip==0.0.0" ++ nl
  ++ u "ERROR: Could not find a version that satisfies the requirement pip==0.0.0".

Lemma extract_error_context_spec_witness :
  0 <= 8 /\ 1 <= 5 /\
  exists first, contains first (@extract_error_context ascii_db sample_log 8 5) = true.
Proof.
  split; [lia|]. split; [lia|].
  destruct (@extract_error_context_spec ascii_db sample_log 8 5 ltac:(lia) ltac:(lia))
    as (_ & _ & H).
  destruct (H (u "ERROR: Could not find a version that satisfies the requirement pip==0.0.0"))
    as (pre & first & post & _ & _ & _ & Hf); [vm_compute; tauto|vm_compute; reflexivity|].
  exists first. exact Hf.
Defined.

Example sample_category :
  category_value (cl_category (@classify_log ascii_db sample_log None))
  = u "dependency_installation_failure".
Proof. vm_compute. reflexivity. Qed.
