(* ===== verification/Preprocessing.v ===== *)
(** * Log preprocessing (src/pipelens/preprocessing.py)

    Chunking, per-chunk sanitizing and context selection.  [iter_text_chunks] is
    shown to cut the text into bounded pieces without losing a character and to
    keep whole lines together; [preprocess_logs] is shown equal to a reference
    that works on the list of all sanitized chunks at once. *)

From stdpp Require Import base list strings numbers.
From S2P Require Import Prelude Regex Models Sanitizer Classifier.

Record PreprocessedLog := {
  pp_context : str;
  pp_redactions : list (str * nat);
  pp_chunks_processed : nat;
  pp_error_chunks : nat
}.

(** ** Chunks *)

(** The buffer of [iter_text_chunks]: buffered lines (latest first) and their
    number of characters. *)
Definition buffer : Type := list str * nat.
Definition flush (b : buffer) : list str :=
  match fst b with [] => [] | _ => [concat (rev (fst b))] end.

(** while len(line) > max_chars: yields, buffer and rest of the line *)
Fixpoint split_long (fuel max_chars : nat) (b : buffer) (line : str)
  : list str * buffer * str :=
  match fuel with
  | O => ([], b, line)
  | S fuel =>
    if (max_chars <? length line)%nat then
      let '(ys, b', rest) := split_long fuel max_chars ([], 0%nat) (drop max_chars line) in
      (flush b ++ take max_chars line :: ys, b', rest)
    else ([], b, line)
  end.

Definition chunk_line (max_chars : nat) (b : buffer) (line : str) : list str * buffer :=
  let '(ys, (lines, chars), rest) := split_long (length line) max_chars b line in
  match lines with
  | _ :: _ =>
    if (max_chars <? chars + length rest)%nat
    then (ys ++ flush (lines, chars), ([rest], length rest))
    else (ys, (rest :: lines, (chars + length rest)%nat))
  | [] => (ys, ([rest], (chars + length rest)%nat))
  end.

Fixpoint chunk_lines (max_chars : nat) (b : buffer) (lines : list str) : list str :=
  match lines with
  | [] => flush b
  | line :: rest =>
    let '(ys, b') := chunk_line max_chars b line in ys ++ chunk_lines max_chars b' rest
  end.

Definition iter_text_chunks (text : str) (max_chars : nat) : list str :=
  match text with
  | [] => []
  | _ => chunk_lines max_chars ([], 0%nat) (splitlines_keep text)
  end.

(** ** Preprocessing *)
Section preprocess.
Context {U : UnicodeDb}.

Record pp_state := {
  ps_contexts : list str;
  ps_fallback : str;
  ps_redactions : list (str * nat);
  ps_chunks_processed : nat;
  ps_error_chunks : nat
}.

Definition add_counts (acc counts : list (str * nat)) : list (str * nat) :=
  fold_left (fun acc '(kind, count) =>
    dict_set str_eqb acc kind (default 0%nat (dict_get str_eqb acc kind) + count)%nat)
    counts acc.

(** The body of the inner loop. *)
Definition process_chunk (context_lines max_error_chunks : Z) (st : pp_state) (chunk : str)
  : pp_state :=
  let '(sanitized, counts) := sanitize_log chunk in
  let redactions := add_counts (ps_redactions st) counts in
  let processed := S (ps_chunks_processed st) in
  if has_error_signal sanitized
     && (Z.of_nat (ps_error_chunks st) <? Z.max 1 max_error_chunks) then
    {| ps_contexts := ps_contexts st ++ [extract_error_context sanitized context_lines 2];
       ps_fallback := sanitized; ps_redactions := redactions;
       ps_chunks_processed := processed; ps_error_chunks := S (ps_error_chunks st) |}
  else
    {| ps_contexts := ps_contexts st; ps_fallback := sanitized;
       ps_redactions := redactions; ps_chunks_processed := processed;
       ps_error_chunks := ps_error_chunks st |}.

Definition pp_init : pp_state := {|
  ps_contexts := []; ps_fallback := []; ps_redactions := [];
  ps_chunks_processed := 0; ps_error_chunks := 0 |}.

Definition preprocess_logs (raw_logs : list str) (chunk_chars context_lines max_error_chunks : Z)
  : PreprocessedLog :=
  let st :=
    fold_left (fun st raw =>
      fold_left (process_chunk context_lines max_error_chunks)
                (iter_text_chunks raw (Z.to_nat (Z.max 1000 chunk_chars))) st)
      raw_logs pp_init in
  let context := str_join (nl ++ u "..." ++ nl) (ps_contexts st) in
  let context :=
    match context with
    | [] => match ps_fallback st with
            | [] => []
            | fallback => extract_error_context fallback context_lines 5
            end
    | _ => context
    end in
  {| pp_context := context; pp_redactions := ps_redactions st;
     pp_chunks_processed := ps_chunks_processed st;
     pp_error_chunks := ps_error_chunks st |}.

Definition preprocess_log (raw : str) (chunk_chars context_lines max_error_chunks : Z)
  : PreprocessedLog :=
  preprocess_logs [raw] chunk_chars context_lines max_error_chunks.
End preprocess.

(** ** Chunking is faithful *)

Definition buf_text (b : buffer) : str := concat (rev (fst b)).
Definition buf_ok (max_chars : nat) (b : buffer) : Prop :=
  snd b = length (buf_text b) /\ (snd b <= max_chars)%nat
  /\ Forall (fun l => l <> []) (fst b).
Definition chunk_ok (max_chars : nat) (c : str) : Prop :=
  c <> [] /\ (length c <= max_chars)%nat.

Lemma concat_nonempty (ls : list str) :
  ls <> [] -> Forall (fun l => l <> []) ls -> concat ls <> [].
Proof. intros Hne H. destruct H as [|[] ls Hl _]; simpl; done. Qed.

Lemma flush_text b : concat (flush b) = buf_text b.
Proof. unfold flush, buf_text. destruct (fst b); simpl; [done|]. by rewrite app_nil_r. Qed.

Lemma flush_ok n b : buf_ok n b -> Forall (chunk_ok n) (flush b).
Proof.
  intros (Hl & Hm & Hne). unfold flush, chunk_ok. destruct b as [lines chars].
  unfold buf_text in Hl. simpl in *.
  destruct lines as [|l ls]; constructor; [|done]. split; [|lia].
  apply concat_nonempty; [by intros [? ?]%app_nil|]. by apply List.Forall_rev.
Qed.

Lemma empty_buf_ok n : buf_ok n ([], 0%nat).
Proof. unfold buf_ok, buf_text; simpl. split_and!; [done|lia|constructor]. Qed.
#[local] Hint Resolve empty_buf_ok flush_ok : core.

Lemma split_long_spec n (Hn : (0 < n)%nat) fuel : forall b line,
  (length line <= fuel)%nat -> buf_ok n b -> line <> [] ->
  let '(ys, b', rest) := split_long fuel n b line in
  concat ys ++ buf_text b' ++ rest = buf_text b ++ line
  /\ Forall (chunk_ok n) ys /\ buf_ok n b' /\ rest <> [] /\ (length rest <= n)%nat.
Proof.
  induction fuel as [|fuel IH]; intros b line Hf Hb Hne; cbn [split_long].
  { destruct line; simpl in *; [done|lia]. }
  destruct (Nat.ltb_spec n (length line)) as [Hlt|Hge]; [|by split_and!].
  assert (Hd : length (drop n line) = (length line - n)%nat) by apply length_drop.
  specialize (IH ([], 0%nat) (drop n line) ltac:(lia) (empty_buf_ok n)
    ltac:(intros E; rewrite E in Hd; simpl in Hd; lia)).
  destruct (split_long fuel n _ _) as [[ys b'] rest].
  destruct IH as (Ht & Hys & Hb' & Hr & Hl).
  split_and!; try done.
  - rewrite concat_app, flush_text. cbn [concat]. rewrite <- !app_assoc, Ht.
    unfold buf_text at 2; simpl. by rewrite take_drop.
  - apply Forall_app. split; [auto|]. constructor; [|done]. split.
    + intros E. apply (f_equal length) in E. rewrite length_take in E. simpl in E. lia.
    + rewrite length_take. lia.
Qed.

Lemma chunk_line_spec n (Hn : (0 < n)%nat) b line :
  buf_ok n b -> line <> [] ->
  let '(ys, b') := chunk_line n b line in
  concat ys ++ buf_text b' = buf_text b ++ line /\ Forall (chunk_ok n) ys /\ buf_ok n b'.
Proof.
  intros Hb Hne. unfold chunk_line.
  pose proof (split_long_spec n Hn (length line) b line (Nat.le_refl _) Hb Hne) as H.
  destruct (split_long _ _ _ _) as [[ys [lines chars]] rest].
  destruct H as (Ht & Hys & Hb' & Hr & Hl).
  assert (H1 : buf_ok n ([rest], length rest)).
  { unfold buf_ok, buf_text; simpl. rewrite app_nil_r. split_and!; [done|done|by constructor]. }
  destruct lines as [|l ls].
  - destruct Hb' as (Hc & _ & _). unfold buf_text in *; simpl in *. subst chars.
    by rewrite app_nil_r.
  - destruct (Nat.ltb_spec n (chars + length rest)) as [Hlt|Hge].
    + split_and!; [|apply Forall_app; auto|done].
      rewrite concat_app, flush_text, <- app_assoc. unfold buf_text at 2; simpl.
      by rewrite app_nil_r.
    + destruct Hb' as (Hc & Hm & Hf). simpl in Hc, Hm, Hf.
      assert (Heq : buf_text (rest :: l :: ls, (chars + length rest)%nat)
                    = buf_text (l :: ls, chars) ++ rest).
      { unfold buf_text. cbn [fst]. change (rev (rest :: l :: ls)) with (rev (l :: ls) ++ [rest]).
        rewrite concat_app. simpl. by rewrite app_nil_r. }
      split_and!; [by rewrite Heq|done|].
      split_and!; [|done|by constructor].
      cbn [snd]. rewrite Heq, length_app. lia.
Qed.

Lemma chunk_lines_spec n (Hn : (0 < n)%nat) lines : forall b,
  buf_ok n b -> Forall (fun l => l <> []) lines ->
  concat (chunk_lines n b lines) = buf_text b ++ concat lines
  /\ Forall (chunk_ok n) (chunk_lines n b lines).
Proof.
  induction lines as [|l lines IH]; intros b Hb Hl; cbn [chunk_lines].
  - rewrite flush_text. simpl. rewrite app_nil_r. auto.
  - inversion Hl as [|? ? Hne Hl']; subst.
    pose proof (chunk_line_spec n Hn b l Hb Hne) as H.
    destruct (chunk_line n b l) as [ys b']. destruct H as (Ht & Hys & Hb').
    destruct (IH b' Hb' Hl') as [Hc Hf].
    rewrite concat_app, Hc, app_assoc, Ht, <- app_assoc. cbn [concat].
    split; [done|]. by apply Forall_app.
Qed.

Lemma splitlines_keep_nonempty s : Forall (fun l => l <> []) (splitlines_keep s).
Proof.
  induction s as [s IH] using (induction_ltof1 _ (@length _)); unfold ltof in IH.
  destruct s as [|c s]; [constructor|]. cbn [splitlines_keep].
  destruct (is_crlf c s).
  - destruct s as [|d s]; constructor; [done|]. apply IH; simpl; lia.
  - assert (H := IH s ltac:(simpl; lia)).
    destruct (is_linebreak c); [by constructor|].
    destruct (splitlines_keep s); constructor; try done. by inversion H.
Qed.

(** Lines that fit are never cut: the chunks group whole lines. *)
Lemma split_long_short n fuel b line :
  (length line <= n)%nat -> split_long fuel n b line = ([], b, line).
Proof.
  intros H. destruct fuel; [done|]. cbn [split_long].
  destruct (Nat.ltb_spec n (length line)); [lia|done].
Qed.

Lemma chunk_lines_groups n lines : forall b,
  Forall (fun l => (length l <= n)%nat) lines ->
  exists groups, concat groups = rev (fst b) ++ lines
    /\ chunk_lines n b lines = map (@concat _) groups.
Proof.
  induction lines as [|l lines IH]; intros b Hl; cbn [chunk_lines].
  - rewrite app_nil_r. unfold flush. destruct (fst b) as [|x xs]; [by exists []|].
    exists [rev (x :: xs)]. simpl. by rewrite app_nil_r.
  - inversion Hl as [|? ? Hn Hl']; subst.
    unfold chunk_line. rewrite split_long_short by done. destruct b as [bl bc].
    destruct bl as [|x xs].
    + destruct (IH ([l], (bc + length l)%nat) Hl') as (gs & Hc & Hg).
      exists gs. by rewrite Hg.
    + destruct (n <? bc + length l)%nat.
      * destruct (IH ([l], length l) Hl') as (gs & Hc & Hg).
        exists (rev (x :: xs) :: gs). cbn [fst flush concat map app] in *.
        by rewrite Hc, Hg.
      * destruct (IH (l :: x :: xs, (bc + length l)%nat) Hl') as (gs & Hc & Hg).
        exists gs. rewrite Hg, Hc. split; [|done]. cbn [fst rev]. by rewrite <- !app_assoc.
Qed.

(** For a positive limit, the chunks of [iter_text_chunks] concatenate to the
    text, none is empty and none is longer than the limit; and when every line
    fits the limit each chunk is a run of whole lines of the text. *)
Theorem iter_text_chunks_spec (text : str) (max_chars : nat) :
  (0 < max_chars)%nat ->
  concat (iter_text_chunks text max_chars) = text
  /\ Forall (fun c => c <> [] /\ (length c <= max_chars)%nat)
            (iter_text_chunks text max_chars)
  /\ (Forall (fun l => (length l <= max_chars)%nat) (splitlines_keep text) ->
      exists groups, concat groups = splitlines_keep text
        /\ iter_text_chunks text max_chars = map (@concat _) groups).
Proof.
  intros Hn.
  assert (He : iter_text_chunks text max_chars
               = chunk_lines max_chars ([], 0%nat) (splitlines_keep text)) by by destruct text.
  destruct (chunk_lines_spec max_chars Hn (splitlines_keep text) ([], 0%nat))
    as [Hc Hf]; [done|apply splitlines_keep_nonempty|].
  rewrite He. split_and!; [by rewrite Hc, concat_splitlines_keep|exact Hf|].
  intros Hl. exact (chunk_lines_groups max_chars (splitlines_keep text) ([], 0%nat) Hl).
Qed.

Lemma iter_text_chunks_spec_witness :
  (0 < 5)%nat /\ concat (iter_text_chunks (u "abc" ++ nl ++ u "defghijkl") 5)
                 = u "abc" ++ nl ++ u "defghijkl".
Proof. split; [lia|]. apply (iter_text_chunks_spec _ 5). lia. Defined.

(** ** The loop against a reference on all chunks *)
Section reference.
Context {U : UnicodeDb}.

Definition all_chunks (raw_logs : list str) (chunk_chars : Z) : list str :=
  flat_map (fun raw => iter_text_chunks raw (Z.to_nat (Z.max 1000 chunk_chars))) raw_logs.

Definition count_of (counts : list (str * nat)) (kind : str) : nat :=
  default 0%nat (dict_get str_eqb counts kind).

Definition selected_texts (max_error_chunks : Z) (texts : list str) : list str :=
  take (Z.to_nat (Z.max 1 max_error_chunks)) (List.filter has_error_signal texts).

Definition reference_context (context_lines max_error_chunks : Z) (texts : list str) : str :=
  let context := str_join (nl ++ u "..." ++ nl)
    (map (fun t => extract_error_context t context_lines 2)
         (selected_texts max_error_chunks texts)) in
  match context with
  | [] => match List.last texts [] with
          | [] => []
          | t => extract_error_context t context_lines 5
          end
  | _ => context
  end.

Lemma fold_flat_map {A B S} (f : A -> list B) (g : S -> B -> S) l s :
  fold_left (fun s a => fold_left g (f a) s) l s = fold_left g (flat_map f l) s.
Proof.
  revert s; induction l as [|a l IH]; intros s; [done|]. simpl.
  by rewrite fold_left_app, IH.
Qed.

(** What the loop state holds after the chunks [cs]. *)
Definition state_after (ctx maxe : Z) (cs : list str) (st : pp_state) : Prop :=
  let texts := map (fun c => fst (sanitize_log c)) cs in
  ps_contexts st = map (fun t => extract_error_context t ctx 2) (selected_texts maxe texts)
  /\ ps_fallback st = List.last texts []
  /\ ps_chunks_processed st = length cs
  /\ ps_error_chunks st = length (selected_texts maxe texts)
  /\ (forall kind, count_of (ps_redactions st) kind
       = list_sum (map (fun c => count_of (snd (sanitize_log c)) kind) cs)).

Lemma count_of_set d k n k' :
  count_of (dict_set str_eqb d k n) k' = if str_eqb k' k then n else count_of d k'.
Proof.
  unfold count_of. rewrite dict_get_set by apply str_eqb_eq.
  by destruct (str_eqb k' k).
Qed.

Lemma add_counts_get acc counts kind :
  NoDup (map fst counts) ->
  count_of (add_counts acc counts) kind = (count_of acc kind + count_of counts kind)%nat.
Proof.
  unfold add_counts. revert acc; induction counts as [|[k n] counts IH]; intros acc Hnd.
  - unfold count_of at 3. simpl. lia.
  - simpl in Hnd. inversion Hnd as [|? ? Hk Hnd']; subst. cbn [fold_left].
    rewrite IH by done. fold (count_of acc k). rewrite count_of_set.
    assert (Hc : count_of ((k, n) :: counts) kind
                 = if str_eqb kind k then n else count_of counts kind).
    { unfold count_of; simpl. by destruct (str_eqb kind k). }
    rewrite Hc. destruct (str_eqb kind k) eqn:E; [|done].
    apply str_eqb_eq in E as ->.
    assert (count_of counts k = 0%nat) as ->; [|lia].
    unfold count_of. destruct (dict_get str_eqb counts k) eqn:Eg; [|done].
    exfalso. apply Hk. apply dict_get_Some_In in Eg; [|apply str_eqb_eq].
    rewrite list_elem_of_In. apply in_map_iff. by exists (k, n0).
Qed.

Lemma sanitize_counts_NoDup raw : NoDup (map fst (snd (sanitize_log raw))).
Proof.
  unfold sanitize_log.
  enough (H : forall rules acc, NoDup (map fst (snd acc)) ->
    NoDup (map fst (snd (fold_left apply_rule rules acc)))) by (apply H; constructor).
  induction rules as [|r rules IH]; intros [t c] Hc; [done|]. cbn [fold_left]. apply IH.
  unfold apply_rule. destruct (re_subn _ _ _) as [t' n]. simpl in *.
  destruct n; [done|by apply dict_set_NoDup].
Qed.

Lemma selected_snoc maxe texts t :
  selected_texts maxe (texts ++ [t]) =
  if has_error_signal t
     && (Z.of_nat (length (selected_texts maxe texts)) <? Z.max 1 maxe)
  then selected_texts maxe texts ++ [t] else selected_texts maxe texts.
Proof.
  unfold selected_texts. rewrite List.filter_app. simpl.
  set (l := List.filter has_error_signal texts). rewrite length_take.
  destruct (has_error_signal t); simpl; [|by rewrite app_nil_r].
  destruct (Z.ltb_spec (Z.of_nat (Nat.min (Z.to_nat (Z.max 1 maxe)) (length l)))
                       (Z.max 1 maxe)).
  - rewrite !take_ge; [done|lia|rewrite length_app; simpl; lia].
  - rewrite take_app_le; [done|lia].
Qed.

Lemma process_chunk_step ctx maxe cs st c :
  state_after ctx maxe cs st ->
  state_after ctx maxe (cs ++ [c]) (process_chunk ctx maxe st c).
Proof.
  intros (H1 & H2 & H3 & H4 & H5). unfold process_chunk, state_after.
  pose proof (sanitize_counts_NoDup c) as Hnd.
  destruct (sanitize_log c) as [t counts] eqn:Es. simpl in Hnd.
  rewrite !map_app. cbn [map]. rewrite Es. cbn [fst]. rewrite selected_snoc, H4.
  assert (Hlast : forall l, List.last (l ++ [t]) [] = t) by (intros; apply List.last_last).
  assert (Hcnt : forall kind, count_of (add_counts (ps_redactions st) counts) kind =
    list_sum (map (fun c => count_of (snd (sanitize_log c)) kind) (cs ++ [c]))).
  { intros kind. rewrite add_counts_get, H5 by done.
    rewrite map_app, list_sum_app. cbn [map]. rewrite Es. simpl. lia. }
  destruct (has_error_signal t && _)%bool; simpl; rewrite ?H1, ?H3, ?H4;
    split_and!; rewrite ?map_app, ?length_app, ?Hlast; simpl; try done; lia.
Qed.

Lemma process_chunks_state ctx maxe done cs st :
  state_after ctx maxe done st ->
  state_after ctx maxe (done ++ cs) (fold_left (process_chunk ctx maxe) cs st).
Proof.
  revert done st; induction cs as [|c cs IH]; intros done st H.
  - by rewrite app_nil_r.
  - cbn [fold_left]. replace (done ++ c :: cs) with ((done ++ [c]) ++ cs)
      by (by rewrite <- app_assoc). by apply IH, process_chunk_step.
Qed.

(** C29: [preprocess_logs] equals the reference that sanitizes every chunk first:
    the context joins the sections of the first [max(1, max_error_chunks)]
    sanitized chunks with an error signal, or comes from the last chunk when
    there are none; the counters count all chunks and the selected ones, and
    each redaction counter is the sum of that kind over all chunks. *)
Theorem preprocess_logs_reference (raw_logs : list str)
    (chunk_chars context_lines max_error_chunks : Z) :
  let chunks := all_chunks raw_logs chunk_chars in
  let texts := map (fun c => fst (sanitize_log c)) chunks in
  let p := preprocess_logs raw_logs chunk_chars context_lines max_error_chunks in
  pp_context p = reference_context context_lines max_error_chunks texts
  /\ pp_chunks_processed p = length chunks
  /\ pp_error_chunks p = length (selected_texts max_error_chunks texts)
  /\ (forall kind, count_of (pp_redactions p) kind
        = list_sum (map (fun c => count_of (snd (sanitize_log c)) kind) chunks)).
Proof.
  intros chunks texts p.
  assert (H : state_after context_lines max_error_chunks chunks
    (fold_left (fun st raw => fold_left (process_chunk context_lines max_error_chunks)
      (iter_text_chunks raw (Z.to_nat (Z.max 1000 chunk_chars))) st) raw_logs pp_init)).
  { rewrite fold_flat_map. fold (all_chunks raw_logs chunk_chars). fold chunks.
    rewrite <- (app_nil_l chunks) at 1. apply process_chunks_state.
    unfold state_after, selected_texts; simpl. rewrite take_nil. by split_and!. }
  destruct H as (H1 & H2 & H3 & H4 & H5).
  unfold p, preprocess_logs. simpl. rewrite H1, H2. by split_and!.
Qed.
End reference.
