(* ===== verification/Relevance.v ===== *)
(** * Correlation of changed files (src/pipelens/relevance.py)

    Scores, reasons and patch excerpts of the changed files, and the ranking
    [correlate_changed_files] returns.  Scores are exact rationals; the sums that
    can occur within one call (0.75 or 0.5 for a mention, one affinity constant of
    the category, 0.15 for tokens, capped at 1) are ordered as the doubles are. *)

From Stdlib Require Import QArith Lqa.
From stdpp Require Import base list strings numbers sorting.
From S2P Require Import Prelude Regex Models Sanitizer.

Definition TOKEN : pattern := Eval vm_compute in re_compile "[A-Za-z_][A-Za-z0-9_-]{2,}".
Definition PATCH_LINE : pattern := Eval vm_compute in re_compile "^[+-](?![+-])".
Definition DEPENDENCY_MANIFESTS : list str := map u [
  "package-lock.json"; "pnpm-lock.yaml"; "yarn.lock"; "poetry.lock"; "requirements.txt";
  "pyproject.toml"]%string.
Definition STOP_WORDS : list str := map u [
  "error"; "failed"; "failure"; "fatal"; "file"; "line"; "with"; "from"; "this"; "that"]%string.
Definition str_in (s : str) (l : list str) : bool := existsb (str_eqb s) l.

Section relevance.
Context {U : UnicodeDb}.

Definition _tokens (text : str) : list str :=
  List.filter (fun t => negb (str_in t STOP_WORDS))
              (map (fun m => lower (m_text m)) (finditer TOKEN text)).
(** [_tokens(line) & log_tokens] is not empty *)
Definition shares_token (line : str) (log_tokens : list str) : bool :=
  existsb (fun t => str_in t log_tokens) (_tokens line).

(** The loop of [_matching_patch_excerpt]: it stops at three matches. *)
Fixpoint excerpt_lines (log_tokens : list str) (lines matches : list str) : list str :=
  match lines with
  | [] => matches
  | line :: rest =>
    let matches :=
      if re_matches PATCH_LINE line && shares_token line log_tokens
      then matches ++ [take 300 line] else matches in
    if (length matches =? 3)%nat then matches else excerpt_lines log_tokens rest matches
  end.

Definition _matching_patch_excerpt (patch : option str) (log_tokens : list str)
  : option str :=
  match patch with
  | None | Some [] => None
  | Some p =>
    match log_tokens with
    | [] => None
    | _ =>
      match excerpt_lines log_tokens (splitlines p) [] with
      | [] => None
      | matches => Some (fst (sanitize_log (str_join nl matches)))
      end
    end
  end.

Definition _category_affinity (path : str) (category : ErrorCategory) : Q * str :=
  let lowered := lower (PosixPath.text path) in
  let lname := lower (PosixPath.name path) in
  let manifest := str_in lname DEPENDENCY_MANIFESTS in
  let dockerfile := starts_with (u "dockerfile") lname in
  match category with
  | Cat_TEST =>
    if contains (u "test") lname
       || existsb (fun part => str_in part [u "test"; u "tests"; u "spec"])
                  (PosixPath.parts path)
    then (0.2, u "테스트 실패 범주와 테스트 파일이 일치함") else (0, [])
  | Cat_WORKFLOW =>
    if starts_with (u ".github/workflows/") lowered
    then (0.3, u "Workflow 오류 범주와 Actions 설정 파일이 일치함") else (0, [])
  | Cat_DOCKER =>
    if dockerfile
    then (0.25, u "Docker 실패 범주와 Dockerfile이 일치함") else (0, [])
  | Cat_DEPENDENCY =>
    if manifest
    then (0.2, u "의존성 실패 범주와 패키지 설정 파일이 일치함") else (0, [])
  | Cat_SECURITY =>
    if manifest || dockerfile
    then (0.2, u "보안 검사 범주와 의존성·이미지 정의 파일이 일치함") else (0, [])
  | _ => (0, [])
  end%Q.

(** The body of the loop over the changed files. *)
Definition score_file (log : str) (category : ErrorCategory) (changed : ChangedFile)
  : option RelatedFile :=
  let lowered_log := lower log in
  let path := cf_filename changed in
  let '(score, reasons) :=
    if contains (lower path) lowered_log
    then (0.75%Q, [u "로그에 변경 파일 경로가 직접 등장함"])
    else if contains (lower (PosixPath.name path)) lowered_log
    then (0.5%Q, [u "로그에 변경 파일명이 등장함"])
    else (0%Q, []) in
  let '(category_score, category_reason) := _category_affinity path category in
  let '(score, reasons) :=
    if Qeq_bool category_score 0 then (score, reasons)
    else ((score + category_score)%Q, reasons ++ [category_reason]) in
  let patch_excerpt := _matching_patch_excerpt (cf_patch changed) (_tokens log) in
  let '(score, reasons) :=
    if truthy patch_excerpt
    then ((score + 0.15)%Q, reasons ++ [u "오류 로그와 변경 코드가 공통 식별자를 포함함"])
    else (score, reasons) in
  match reasons with
  | [] => None
  | _ => Some {| rf_filename := path; rf_score := pymin score 1; rf_reasons := reasons;
                 rf_patch_excerpt := patch_excerpt |}
  end.

(** The sort key [(-item.score, item.filename)]. *)
Definition rank_leb (a b : RelatedFile) : bool :=
  Qltb (rf_score b) (rf_score a)
  || (Qeq_bool (rf_score a) (rf_score b) && str_leb (rf_filename a) (rf_filename b)).

Definition correlate_changed_files (log : str) (changed_files : list ChangedFile)
    (category : ErrorCategory) (limit : Z) : list RelatedFile :=
  py_upto (py_sorted rank_leb (omap (score_file log category) changed_files)) limit.
End relevance.

(** ** The ranking is a total order *)

Lemma str_leb_total a b : str_leb a b = false -> str_leb b a = true.
Proof.
  revert b; induction a as [|x a IH]; intros [|y b]; simpl; try done.
  rewrite orb_false_iff, orb_true_iff, andb_false_iff, andb_true_iff.
  intros [H1%N.ltb_ge [H2%N.eqb_neq|H2]].
  - left. apply N.ltb_lt. lia.
  - destruct (N.eq_dec y x) as [->|]; [right; by rewrite N.eqb_refl; auto|].
    left. apply N.ltb_lt. lia.
Qed.
Lemma str_leb_trans a b c : str_leb a b = true -> str_leb b c = true -> str_leb a c = true.
Proof.
  revert b c; induction a as [|x a IH]; intros [|y b] [|z c]; simpl; try done.
  rewrite !orb_true_iff, !andb_true_iff, !N.ltb_lt, !N.eqb_eq.
  intros [H1|[-> H1]] [H2|[-> H2]]; try (left; lia).
  right. split; [done|]. by eapply IH.
Qed.

Lemma rank_leb_spec a b : rank_leb a b = true <->
  (rf_score b < rf_score a)%Q
  \/ ((rf_score a == rf_score b)%Q /\ str_leb (rf_filename a) (rf_filename b) = true).
Proof.
  unfold rank_leb. by rewrite orb_true_iff, andb_true_iff, Qltb_lt, Qeq_bool_iff.
Qed.
Lemma rank_leb_total a b : rank_leb a b = false -> rank_leb b a = true.
Proof.
  intros H. assert (Hn : ~ (rank_leb a b = true)) by congruence.
  rewrite rank_leb_spec in *.
  destruct (Q_dec (rf_score a) (rf_score b)) as [[Hlt|Hlt]|Heq].
  - by left.
  - exfalso; tauto.
  - right. split; [by symmetry|]. apply str_leb_total. apply not_true_is_false. tauto.
Qed.
Lemma rank_leb_trans a b c : rank_leb a b = true -> rank_leb b c = true -> rank_leb a c = true.
Proof.
  rewrite !rank_leb_spec. intros [H1|[H1 H1']] [H2|[H2 H2']].
  - left. by eapply Qlt_trans.
  - left. by rewrite <- H2.
  - left. by rewrite H1.
  - right. split; [by rewrite H1|by eapply str_leb_trans].
Qed.

(** ** Properties *)
Section relevance_properties.
Context {U : UnicodeDb}.

(** The three signals that connect a changed file to the log. *)
Definition mentioned (log : str) (c : ChangedFile) : bool :=
  contains (lower (cf_filename c)) (lower log)
  || contains (lower (PosixPath.name (cf_filename c))) (lower log).
Definition has_affinity (category : ErrorCategory) (c : ChangedFile) : bool :=
  negb (Qeq_bool (fst (_category_affinity (cf_filename c) category)) 0).
Definition has_common_token (log : str) (c : ChangedFile) : bool :=
  truthy (_matching_patch_excerpt (cf_patch c) (_tokens log)).

Lemma affinity_nonneg path category : (0 <= fst (_category_affinity path category))%Q.
Proof.
  unfold _category_affinity. cbn zeta.
  destruct category; try match goal with |- context[if ?b then _ else _] => destruct b end;
    cbn [fst]; lra.
Qed.

Lemma pymin_bounds q : (0 < q)%Q -> (0 < pymin q 1 <= 1)%Q.
Proof.
  intros H. unfold pymin. destruct (Qltb 1 q) eqn:E; [lra|]. apply Qltb_ge in E. lra.
Qed.

(** A file is a candidate exactly when one signal holds. *)
Lemma score_file_None log category c :
  score_file log category c = None <->
  mentioned log c = false /\ has_affinity category c = false
  /\ has_common_token log c = false.
Proof.
  unfold score_file, mentioned, has_affinity, has_common_token.
  destruct (_category_affinity (cf_filename c) category) as [cs cr]. cbn [fst].
  destruct (contains (lower (cf_filename c)) (lower log)); cbn [orb].
  { destruct (Qeq_bool cs 0), (truthy _); cbn [app negb]; split; intros; destruct_and?; done. }
  destruct (contains (lower (PosixPath.name (cf_filename c))) (lower log)); cbn [orb].
  { destruct (Qeq_bool cs 0), (truthy _); cbn [app negb]; split; intros; destruct_and?; done. }
  destruct (Qeq_bool cs 0), (truthy _); cbn [app negb]; split; intros; destruct_and?; done.
Qed.

Lemma score_file_Some log category c r :
  score_file log category c = Some r ->
  rf_filename r = cf_filename c /\ (0 < rf_score r <= 1)%Q /\ rf_reasons r <> []
  /\ rf_patch_excerpt r = _matching_patch_excerpt (cf_patch c) (_tokens log).
Proof.
  unfold score_file. pose proof (affinity_nonneg (cf_filename c) category) as Ha.
  destruct (_category_affinity (cf_filename c) category) as [cs cr]. cbn [fst] in Ha.
  assert (Hcs : Qeq_bool cs 0 = false -> (0 < cs)%Q).
  { intros H. apply Qeq_bool_neq in H. destruct (Qlt_le_dec 0 cs); [done|].
    destruct H. by apply Qle_antisym. }
  destruct (contains (lower (cf_filename c)) _);
    [|destruct (contains (lower (PosixPath.name (cf_filename c))) _)];
    destruct (Qeq_bool cs 0) eqn:Ec; destruct (truthy _); cbn [app];
    try specialize (Hcs eq_refl); intros H; try discriminate H;
    injection H as <-; simpl; split_and!; try done; apply pymin_bounds; lra.
Qed.

(** C36: [correlate_changed_files] returns the best candidates: its result followed
    by the candidates it drops is the stable ranking (score descending, file name
    ascending) of all files with a signal, cut at the limit.  A changed file is a
    candidate exactly when its path or name occurs in the log, or its kind has an
    affinity with the category, or its patch shares a token with the log; every
    returned file is one of the changed files, has a score in (0, 1] and at least
    one reason. *)
Theorem correlate_changed_files_spec (log : str) (changed : list ChangedFile)
    (category : ErrorCategory) (limit : Z) :
  0 <= limit ->
  let res := correlate_changed_files log changed category limit in
  let candidates := omap (score_file log category) changed in
  (exists rest, res ++ rest ≡ₚ candidates
     /\ StronglySorted (le_rel rank_leb) (res ++ rest)
     /\ Z.of_nat (length res) = Z.min limit (Z.of_nat (length candidates)))
  /\ (forall c, score_file log category c = None <->
        mentioned log c = false /\ has_affinity category c = false
        /\ has_common_token log c = false)
  /\ Forall (fun r => (0 < rf_score r <= 1)%Q /\ rf_reasons r <> []
        /\ In (rf_filename r) (map cf_filename changed)) res.
Proof.
  intros Hl res candidates. split_and!.
  - exists (drop (slice_bound (Z.of_nat (length (py_sorted rank_leb candidates))) limit)
                 (py_sorted rank_leb candidates)).
    unfold res, correlate_changed_files, py_upto. fold candidates. rewrite take_drop.
    split_and!; [apply py_sorted_perm|apply py_sorted_sorted;
      [apply rank_leb_total|apply rank_leb_trans]|].
    rewrite length_take, (Permutation_length (py_sorted_perm rank_leb candidates)).
    unfold slice_bound. destruct (Z.ltb_spec limit 0); lia.
  - apply score_file_None.
  - apply List.Forall_forall. intros r Hr.
    assert (Hc : r ∈ candidates).
    { rewrite <- (py_sorted_perm rank_leb). rewrite list_elem_of_In.
      unfold res, correlate_changed_files, py_upto in Hr.
      rewrite <- list_elem_of_In in Hr |- *. by apply elem_of_take in Hr as (i & Hi & _);
        eapply list_elem_of_lookup_2. }
    apply list_elem_of_omap in Hc as (c & Hc & Hs).
    apply score_file_Some in Hs as (Hf & Hb & Hre & _).
    split_and!; [apply Hb|apply Hb|done|]. rewrite Hf. apply in_map.
    by apply list_elem_of_In.
Qed.
End relevance_properties.

Lemma correlate_changed_files_spec_witness :
  0 <= 5 /\
  map rf_filename (@correlate_changed_files ascii_db (u "error in src/app.py line 3")
    [{| cf_filename := u "README.md"; cf_status := u "modified"; cf_patch := None;
        cf_previous_filename := None |};
     {| cf_filename := u "src/app.py"; cf_status := u "modified"; cf_patch := None;
        cf_previous_filename := None |}] Cat_BUILD 5) = [u "src/app.py"]
  /\ Forall (fun r => (0 < rf_score r <= 1)%Q /\ rf_reasons r <> []
       /\ In (rf_filename r) [u "README.md"; u "src/app.py"])
     (@correlate_changed_files ascii_db (u "error in src/app.py line 3")
    [{| cf_filename := u "README.md"; cf_status := u "modified"; cf_patch := None;
        cf_previous_filename := None |};
     {| cf_filename := u "src/app.py"; cf_status := u "modified"; cf_patch := None;
        cf_previous_filename := None |}] Cat_BUILD 5).
Proof.
  split; [lia|]. split; [vm_compute; reflexivity|].
  apply (@correlate_changed_files_spec ascii_db (u "error in src/app.py line 3")
    [{| cf_filename := u "README.md"; cf_status := u "modified"; cf_patch := None;
        cf_previous_filename := None |};
     {| cf_filename := u "src/app.py"; cf_status := u "modified"; cf_patch := None;
        cf_previous_filename := None |}] Cat_BUILD 5). lia.
Defined.
