(* ===== verification/Json.v ===== *)
(** * JSON values as Python objects

    Decoded JSON with the Python operations the program applies to it ([d[k]],
    [d.get(k)], truth value, iteration, [isinstance]), their exceptions included,
    and [json.dumps(..., ensure_ascii=False)]. *)

From Stdlib Require Import QArith.
From stdpp Require Import base list strings numbers.
From S2P Require Import Prelude Double Calendar.

Inductive json :=
| JNull
| JBool (b : bool)
| JInt (z : Z)
| JFloat (q : Q)
| JNonFinite (f : nonfinite)                 (* NaN, Infinity, -Infinity *)
| JStr (s : str)
| JArr (l : list json)
| JObj (d : list (str * json)).

(** d.get(key): None for a missing key; only dicts have it. *)
Definition jget (v : json) (key : str) : outcome json :=
  match v with
  | JObj d => Ok (default JNull (dict_get str_eqb d key))
  | _ => Raise (AttributeError (u "get"))
  end.
Definition jget_default (v : json) (key : str) (dflt : json) : outcome json :=
  match v with
  | JObj d => Ok (default dflt (dict_get str_eqb d key))
  | _ => Raise (AttributeError (u "get"))
  end.
(** d[key] with a string key *)
Definition jindex (v : json) (key : str) : outcome json :=
  match v with
  | JObj d => match dict_get str_eqb d key with
              | Some x => Ok x
              | None => Raise (KeyError key)
              end
  | _ => Raise (TypeError (u "subscript"))
  end.
(** l[0] *)
Definition jfirst (v : json) : outcome json :=
  match v with
  | JArr (x :: _) => Ok x
  | JArr [] => Raise (IndexError (u "list index out of range"))
  | JStr (c :: _) => Ok (JStr [c])
  | JStr [] => Raise (IndexError (u "string index out of range"))
  | JObj _ => Raise (KeyError (u "0"))
  | _ => Raise (TypeError (u "subscript"))
  end.
Definition jtruthy (v : json) : bool :=
  match v with
  | JNull => false
  | JBool b => b
  | JInt z => negb (z =? 0)
  | JFloat q => negb (Qeq_bool q 0)
  | JNonFinite _ => true
  | JStr s => match s with [] => false | _ => true end
  | JArr l => match l with [] => false | _ => true end
  | JObj d => match d with [] => false | _ => true end
  end.
(** a or b *)
Definition jor (a b : json) : json := if jtruthy a then a else b.
Definition jis_none (v : json) : bool := match v with JNull => true | _ => false end.
Definition jstr (v : json) : option str := match v with JStr s => Some s | _ => None end.
(** iter(v) *)
Definition jiter (v : json) : outcome (list json) :=
  match v with
  | JArr l => Ok l
  | JObj d => Ok (map (fun kv => JStr (fst kv)) d)
  | JStr s => Ok (map (fun c => JStr [c]) s)
  | _ => Raise (TypeError (u "not iterable"))
  end.
(** == on decoded values, as far as the program compares them *)
Definition jeq_str (v : json) (s : str) : bool :=
  match v with JStr t => str_eqb t s | _ => false end.

(** ** int() *)

(** Digits with single underscores between them. *)
Fixpoint digits_value `{UnicodeDb} (s : str) (acc : Z) (after_digit : bool) : option Z :=
  match s with
  | [] => if after_digit then Some acc else None
  | c :: r =>
    match digit_value c with
    | Some d => digits_value r (10 * acc + Z.of_N d) true
    | None => if (c =? 95)%N && after_digit then digits_value r acc false else None
    end
  end.
Definition int_of_str `{UnicodeDb} (s : str) : option Z :=
  let t := strip s in
  if (4300 <? length (List.filter is_digit t))%nat then None
  else match t with
       | 43%N :: r => digits_value r 0 false
       | 45%N :: r => option_map Z.opp (digits_value r 0 false)
       | r => digits_value r 0 false
       end.

(** int(value) *)
Definition py_int `{UnicodeDb} (v : json) : outcome Z :=
  match v with
  | JInt z => Ok z
  | JBool b => Ok (Z.b2z b)
  | JFloat q => Ok (Z.quot (Qnum q) (Zpos (Qden q)))
  | JNonFinite NaN => Raise (ValueError (u "cannot convert float NaN to integer"))
  | JNonFinite (Infinite _) => Raise (OtherException (u "OverflowError"))
  | JStr s => match int_of_str s with
              | Some z => Ok z
              | None => Raise (ValueError (u "invalid literal for int()"))
              end
  | _ => Raise (TypeError (u "int() argument"))
  end.

(** ** Instants and durations, in microseconds *)

(** datetime + timedelta *)
Definition shift_datetime (t d : Z) : outcome Z :=
  if in_datetime_range (t + d) then Ok (t + d) else Raise (OtherException (u "OverflowError")).
(** timedelta(seconds=n) *)
Definition timedelta_seconds (n : Z) : outcome Z :=
  if Z.abs (n / 86400) <=? 999999999 then Ok (n * 1000000)
  else Raise (OtherException (u "OverflowError")).

(** ** json.dumps(v, ensure_ascii=False) *)

Definition hex_digit (n : N) : N := if (n <? 10)%N then (48 + n)%N else (87 + n)%N.
Definition QUOTE : N := 34%N.
Definition BACKSLASH : N := 92%N.
Definition escape_char (c : N) : str :=
  if (c =? QUOTE)%N then [BACKSLASH; QUOTE]
  else if (c =? BACKSLASH)%N then [BACKSLASH; BACKSLASH]
  else if (c =? 10)%N then u "\n"
  else if (c =? 13)%N then u "\r"
  else if (c =? 9)%N then u "\t"
  else if (c =? 12)%N then u "\f"
  else if (c =? 8)%N then u "\b"
  else if (c <? 32)%N then u "\u00" ++ [hex_digit (c / 16); hex_digit (c mod 16)]
  else [c].
Definition json_string (s : str) : str := [QUOTE] ++ flat_map escape_char s ++ [QUOTE].

Section dumps.
(** float.__repr__ *)
Context (float_repr : Q -> str).

Fixpoint dumps (v : json) : str :=
  match v with
  | JNull => u "null"
  | JBool true => u "true"
  | JBool false => u "false"
  | JInt z => str_of_Z z
  | JFloat q => float_repr q
  | JNonFinite NaN => u "NaN"
  | JNonFinite (Infinite negative) => if negative then u "-Infinity" else u "Infinity"
  | JStr s => json_string s
  | JArr l => u "[" ++ str_join (u ", ") (map dumps l) ++ u "]"
  | JObj d =>
    u "{" ++ str_join (u ", ") (map (fun kv => json_string (fst kv) ++ u ": " ++ dumps (snd kv)) d)
    ++ u "}"
  end.
End dumps.
