(* ===== verification/Loads.v ===== *)
(** * json.loads

    Decoding of JSON from bytes (the encoding is detected as json.detect_encoding does) and
    from text, as the decoder of Python's standard library reads it: NaN and infinities are
    numbers, the last of equal keys counts, strings may hold lone surrogates, integers have
    at most 4300 digits.  The depth of nesting has no limit here. *)

From Stdlib Require Import QArith.
From stdpp Require Import base list strings numbers.
From S2P Require Import Prelude Text Double Json.

Set Default Proof Using "Type".

(** JSONDecodeError, UnicodeDecodeError, and the ValueError of an integer that is too long. *)
Inductive loads_failure := NotJson | NotText | TooLong.
Definition loads_error (f : loads_failure) : exn :=
  match f with
  | NotJson => JSONDecodeError
  | NotText => UnicodeDecodeError
  | TooLong => ValueError (u "Exceeds the limit (4300 digits) for integer string conversion")
  end.

(** ** The text of the bytes *)

(** UTF-8 with the error handler "surrogatepass". *)
Definition utf8_pass_step (b0 : N) (r : list N) : option N * nat :=
  if (b0 =? 237)%N then tail3 128 191 (mk3 b0) r else utf8_step b0 r.
Fixpoint decode_pass (fuel : nat) (bs : list N) : option str :=
  match bs, fuel with
  | [], _ => Some []
  | _, O => None
  | b0 :: r, S fuel =>
    match utf8_pass_step b0 r with
    | (Some c, n) => option_map (cons c) (decode_pass fuel (drop (n - 1) r))
    | (None, _) => None
    end
  end.
Definition decode_utf8_pass (bs : list N) : option str := decode_pass (length bs) bs.

(** Code units of two and of four bytes. *)
Fixpoint units16 (big : bool) (bs : list N) : option (list N) :=
  match bs with
  | [] => Some []
  | a :: b :: r =>
    option_map (cons (if big then a * 256 + b else b * 256 + a)%N) (units16 big r)
  | _ => None
  end.
Fixpoint units32 (big : bool) (bs : list N) : option (list N) :=
  match bs with
  | [] => Some []
  | a :: b :: c :: d :: r =>
    let x := if big then (((a * 256 + b) * 256 + c) * 256 + d)%N
             else (((d * 256 + c) * 256 + b) * 256 + a)%N in
    if (x <? 1114112)%N then option_map (cons x) (units32 big r) else None
  | _ => None
  end.
Definition is_high (c : N) : bool := in_range 55296 56319 c.
Definition is_low (c : N) : bool := in_range 56320 57343 c.
Definition join_surrogates (h l : N) : N := (65536 + (h - 55296) * 1024 + (l - 56320))%N.
Fixpoint pair_units (us : list N) : str :=
  match us with
  | [] => []
  | h :: r =>
    match r with
    | l :: r' => if is_high h && is_low l then join_surrogates h l :: pair_units r'
                 else h :: pair_units r
    | [] => [h]
    end
  end.
Definition decode_utf16 (big : bool) (bs : list N) : option str :=
  option_map pair_units (units16 big bs).

Inductive encoding := Utf8 | Utf8Sig | Utf16 (big : bool) | Utf16Bom | Utf32 (big : bool) | Utf32Bom.
Definition zero_at (bs : list N) (i : nat) : bool := (nth i bs 0 =? 0)%N.
Definition detect_encoding (bs : list N) : encoding :=
  if starts_with [0; 0; 254; 255]%N bs || starts_with [255; 254; 0; 0]%N bs then Utf32Bom
  else if starts_with [254; 255]%N bs || starts_with [255; 254]%N bs then Utf16Bom
  else if starts_with [239; 187; 191]%N bs then Utf8Sig
  else if (4 <=? length bs)%nat then
    if zero_at bs 0 then if zero_at bs 1 then Utf32 true else Utf16 true
    else if zero_at bs 1 then
      if negb (zero_at bs 2) || negb (zero_at bs 3) then Utf16 false else Utf32 false
    else Utf8
  else if (length bs =? 2)%nat then
    if zero_at bs 0 then Utf16 true else if zero_at bs 1 then Utf16 false else Utf8
  else Utf8.
Definition decode_as (e : encoding) (bs : list N) : option str :=
  match e with
  | Utf8 => decode_utf8_pass bs
  | Utf8Sig => decode_utf8_pass (drop 3 bs)
  | Utf16 big => decode_utf16 big bs
  | Utf16Bom => decode_utf16 (starts_with [254]%N bs) (drop 2 bs)
  | Utf32 big => units32 big bs
  | Utf32Bom => units32 (starts_with [0]%N bs) (drop 4 bs)
  end.

(** ** The grammar *)

Definition is_ws (c : N) : bool := in_chars [32; 9; 10; 13]%N c.
Definition skip_ws : str -> str := drop_while is_ws.

(** What was read and the text behind it. *)
Inductive parsed (A : Type) :=
| Parsed (a : A) (rest : str)
| Bad (f : loads_failure)
| OutOfFuel.
Arguments Parsed {A} a rest.
Arguments Bad {A} f.
Arguments OutOfFuel {A}.
Definition pbind {A B} (p : parsed A) (k : A -> str -> parsed B) : parsed B :=
  match p with Parsed a rest => k a rest | Bad f => Bad f | OutOfFuel => OutOfFuel end.

(** *** Strings *)

Definition hex_value (c : N) : option N :=
  if ascii_digit c then Some (c - 48)%N
  else if in_range 97 102 c then Some (c - 87)%N
  else if in_range 65 70 c then Some (c - 55)%N
  else None.
Definition hex4 (a b c d : N) : option N :=
  match hex_value a, hex_value b, hex_value c, hex_value d with
  | Some a, Some b, Some c, Some d => Some (a * 4096 + b * 256 + c * 16 + d)%N
  | _, _, _, _ => None
  end.
Definition unescape (c : N) : option N :=
  if (c =? QUOTE)%N then Some QUOTE
  else if (c =? BACKSLASH)%N then Some BACKSLASH
  else if (c =? 47)%N then Some 47%N
  else if (c =? 98)%N then Some 8%N
  else if (c =? 102)%N then Some 12%N
  else if (c =? 110)%N then Some 10%N
  else if (c =? 114)%N then Some 13%N
  else if (c =? 116)%N then Some 9%N
  else None.
Definition pcons (c : N) (p : option (str * str)) : option (str * str) :=
  option_map (fun '(s, rest) => (c :: s, rest)) p.
(** The characters up to the closing quote, and the text behind it. *)
Fixpoint scanstring (s : str) : option (str * str) :=
  match s with
  | [] => None
  | c :: r =>
    if (c =? QUOTE)%N then Some ([], r)
    else if (c <? 32)%N then None
    else if negb (c =? BACKSLASH)%N then pcons c (scanstring r)
    else
      match r with
      | [] => None
      | e :: r1 =>
        if (e =? 117)%N then
          match r1 with
          | a1 :: a2 :: a3 :: a4 :: r2 =>
            match hex4 a1 a2 a3 a4 with
            | None => None
            | Some x =>
              match r2 with
              | b :: v :: b1 :: b2 :: b3 :: b4 :: r3 =>
                if is_high x && (b =? BACKSLASH)%N && (v =? 117)%N then
                  match hex4 b1 b2 b3 b4 with
                  | None => None
                  | Some y => if is_low y then pcons (join_surrogates x y) (scanstring r3)
                              else pcons x (scanstring r2)
                  end
                else pcons x (scanstring r2)
              | _ => pcons x (scanstring r2)
              end
            end
          | _ => None
          end
        else match unescape e with Some c => pcons c (scanstring r1) | None => None end
      end
  end.
Definition string_after_quote (s : str) : parsed str :=
  match scanstring s with Some (text, rest) => Parsed text rest | None => Bad NotJson end.

(** *** Numbers *)

Fixpoint take_digits (s : str) : str * str :=
  match s with
  | c :: r => if ascii_digit c then let (ds, rest) := take_digits r in (c :: ds, rest) else ([], s)
  | [] => ([], [])
  end.
Definition digits_Z (ds : str) : Z := fold_left (fun acc c => 10 * acc + Z.of_N (c - 48)) ds 0.
Definition some_digits (s : str) : option (str * str) :=
  match take_digits s with ([], _) => None | p => Some p end.
(** The digits of the integer part: none but a zero begins with a zero. *)
Definition take_int (s : str) : option (str * str) :=
  match s with
  | c :: r => if (c =? 48)%N then Some ([c], r) else some_digits s
  | [] => None
  end.
Definition take_fraction (s : str) : str * str :=
  match s with
  | c :: r => if (c =? 46)%N then default ([], s) (some_digits r) else ([], s)
  | [] => ([], s)
  end.
(** The exponent; None when there is none. *)
Definition exponent_digits (negative : bool) (s r : str) : option Z * str :=
  match some_digits r with
  | None => (None, s)
  | Some (ds, rest) => (Some (if negative then - digits_Z ds else digits_Z ds), rest)
  end.
Definition take_exponent (s : str) : option Z * str :=
  match s with
  | e :: r =>
    if (e =? 101)%N || (e =? 69)%N then
      match r with
      | c :: r' => if (c =? 43)%N then exponent_digits false s r'
                   else if (c =? 45)%N then exponent_digits true s r'
                   else exponent_digits false s r
      | [] => (None, s)
      end
    else (None, s)
  | [] => (None, s)
  end.
(** digits * 10 ^ e *)
Definition decimal (digits e : Z) : Q :=
  if 0 <=? e then inject_Z (digits * 10 ^ e) else digits # Z.to_pos (10 ^ (- e)).
Definition float_value (digits e : Z) : json :=
  match to_double (decimal digits e) with inl q => JFloat q | inr f => JNonFinite f end.
Definition MAX_DIGITS : nat := 4300.
Definition unsigned_number (negative : bool) (s : str) : parsed json :=
  let signed z := if negative then - z else z in
  match take_int s with
  | None => Bad NotJson
  | Some (int, r1) =>
    let (frac, r2) := take_fraction r1 in
    let (exp, r3) := take_exponent r2 in
    match frac, exp with
    | [], None => if (MAX_DIGITS <? length int)%nat then Bad TooLong
                  else Parsed (JInt (signed (digits_Z int))) r1
    | _, _ => Parsed (float_value (signed (digits_Z (int ++ frac)))
                        (default 0 exp - Z.of_nat (length frac))) r3
    end
  end.
Definition match_number (s : str) : parsed json :=
  match s with
  | c :: r => if (c =? 45)%N then unsigned_number true r else unsigned_number false s
  | [] => Bad NotJson
  end.

(** *** Values *)

Definition constants : list (str * json) := [
  (u "null", JNull); (u "true", JBool true); (u "false", JBool false);
  (u "NaN", JNonFinite NaN); (u "Infinity", JNonFinite (Infinite false));
  (u "-Infinity", JNonFinite (Infinite true))].
Definition match_constant (s : str) : option (json * str) :=
  match find (fun kv => starts_with (fst kv) s) constants with
  | Some (k, v) => Some (v, drop (length k) s)
  | None => None
  end.
Definition other_value (s : str) : parsed json :=
  match match_constant s with Some (v, rest) => Parsed v rest | None => match_number s end.

(** The separator behind a member: true when another one follows. *)
Definition separator (closing : N) (s : str) : parsed bool :=
  match skip_ws s with
  | c :: r => if (c =? closing)%N then Parsed false r
              else if (c =? 44)%N then Parsed true (skip_ws r) else Bad NotJson
  | [] => Bad NotJson
  end.
Definition colon (s : str) : parsed unit :=
  match skip_ws s with
  | c :: r => if (c =? 58)%N then Parsed tt (skip_ws r) else Bad NotJson
  | [] => Bad NotJson
  end.
Definition key (s : str) : parsed str :=
  match s with
  | c :: r => if (c =? QUOTE)%N then string_after_quote r else Bad NotJson
  | [] => Bad NotJson
  end.

Definition begins_with (c : N) (s : str) : bool :=
  match s with d :: _ => (d =? c)%N | [] => false end.
Fixpoint scan_value (fuel : nat) (s : str) : parsed json :=
  match fuel with
  | O => OutOfFuel
  | S fuel =>
    if begins_with QUOTE s then
      pbind (string_after_quote (tail s)) (fun text rest => Parsed (JStr text) rest)
    else if begins_with 91 s then
      let r := skip_ws (tail s) in
      if begins_with 93 r then Parsed (JArr []) (tail r) else scan_items fuel r []
    else if begins_with 123 s then
      let r := skip_ws (tail s) in
      if begins_with 125 r then Parsed (JObj []) (tail r) else scan_members fuel r []
    else other_value s
  end
with scan_items (fuel : nat) (s : str) (acc : list json) : parsed json :=
  match fuel with
  | O => OutOfFuel
  | S fuel =>
    pbind (scan_value fuel s) (fun v rest =>
    pbind (separator 93 rest) (fun more rest =>
      if more : bool then scan_items fuel rest (acc ++ [v]) else Parsed (JArr (acc ++ [v])) rest))
  end
with scan_members (fuel : nat) (s : str) (acc : list (str * json)) : parsed json :=
  match fuel with
  | O => OutOfFuel
  | S fuel =>
    pbind (key s) (fun k rest =>
    pbind (colon rest) (fun _ rest =>
    pbind (scan_value fuel rest) (fun v rest =>
    pbind (separator 125 rest) (fun more rest =>
      let acc := dict_set str_eqb acc k v in
      if more : bool then scan_members fuel rest acc else Parsed (JObj acc) rest))))
  end.

(** One step per character and one per value are enough ([loads_decides]). *)
Definition decode_text (s : str) : json + loads_failure :=
  match scan_value (2 * length s + 2) (skip_ws s) with
  | Parsed v rest => match skip_ws rest with [] => inl v | _ => inr NotJson end
  | Bad f => inr f
  | OutOfFuel => inr NotJson
  end.
(** json.loads of bytes and of text *)
Definition json_loads (bs : list N) : json + loads_failure :=
  match decode_as (detect_encoding bs) bs with
  | Some s => decode_text s
  | None => inr NotText
  end.
Definition json_loads_str (s : str) : json + loads_failure :=
  if starts_with [65279%N] s then inr NotJson else decode_text s.
