(* ===== verification/LoadsFacts.v ===== *)
(** * json.loads: it ends, and it reads what json.dumps writes *)

From Stdlib Require Import QArith DecimalFacts DecimalN.
From stdpp Require Import base list gmap strings numbers.
From S2P Require Import Prelude Text Double Json Loads.

Set Default Proof Using "Type".

(** ** The decoder ends *)

Lemma skip_ws_length s : (length (skip_ws s) <= length s)%nat.
Proof.
  unfold skip_ws. destruct (drop_while_suffix is_ws s) as [a Ha].
  rewrite Ha at 2. rewrite length_app. lia.
Qed.
Lemma take_digits_split s : let (ds, rest) := take_digits s in s = ds ++ rest.
Proof.
  induction s as [|c s IH]; [done|]. cbn. destruct (ascii_digit c); [|done].
  destruct (take_digits s) as [ds rest]. cbn. by rewrite IH at 1.
Qed.

(** How a reader of the text [s] ends: behind what it read, or with a failure. *)
Definition advances {A} (n : nat) (s : str) (p : parsed A) : Prop :=
  match p with
  | Parsed _ rest => (length rest + n <= length s)%nat
  | Bad _ => True
  | OutOfFuel => False
  end.
Lemma advances_bind {A B} n s (p : parsed A) (k : A -> str -> parsed B) :
  advances n s p -> (forall a rest, (length rest + n <= length s)%nat -> advances 0 rest (k a rest)) ->
  advances n s (pbind p k).
Proof.
  destruct p as [a rest|f|]; cbn; [|done..]. intros Hr Hk. specialize (Hk a rest Hr).
  destruct (k a rest); cbn in *; lia || done.
Qed.
Lemma advances_weaken {A} n m s s' (p : parsed A) :
  advances n s p -> (length s + m <= length s' + n)%nat -> advances m s' p.
Proof. destruct p; cbn; lia || done. Qed.

Lemma scanstring_advances s :
  forall text rest, scanstring s = Some (text, rest) -> (length rest < length s)%nat.
Proof.
  induction s as [s IH] using (induction_ltof1 _ (@length _)); unfold ltof in IH.
  assert (Hc : forall c r text rest, (length r < length s)%nat ->
    pcons c (scanstring r) = Some (text, rest) -> (length rest < length s)%nat).
  { intros c r text rest Hr. destruct (scanstring r) as [[t r']|] eqn:E; [|done].
    cbn. intros [= _ <-]. apply IH in E; lia. }
  destruct s as [|c r]; [done|]. intros text rest. cbn [scanstring].
  destruct (c =? QUOTE)%N; [intros [= _ <-]; cbn; lia|]. destruct (c <? 32)%N; [done|].
  destruct (negb _); [apply Hc; cbn; lia|]. destruct r as [|e r1]; [done|].
  destruct (e =? 117)%N.
  - destruct r1 as [|a1 [|a2 [|a3 [|a4 r2]]]]; try done. destruct (hex4 a1 a2 a3 a4); [|done].
    destruct r2 as [|b [|v [|b1 [|b2 [|b3 [|b4 r3]]]]]]; try (apply Hc; cbn; lia).
    destruct (_ && _); [|apply Hc; cbn; lia]. destruct (hex4 b1 b2 b3 b4); [|done].
    destruct (is_low _); apply Hc; cbn; lia.
  - destruct (unescape e); [|done]. apply Hc. cbn. lia.
Qed.
Lemma string_advances s : advances 1 s (string_after_quote s).
Proof.
  unfold string_after_quote. destruct (scanstring s) as [[text rest]|] eqn:E; [|done].
  apply scanstring_advances in E. cbn. lia.
Qed.
Lemma take_digits_length s : (length (snd (take_digits s)) + length (fst (take_digits s)) = length s)%nat.
Proof.
  pose proof (take_digits_split s) as H. destruct (take_digits s) as [ds rest].
  rewrite H, length_app. cbn. lia.
Qed.
Lemma some_digits_length s ds rest : some_digits s = Some (ds, rest) ->
  (length rest < length s)%nat.
Proof.
  unfold some_digits. pose proof (take_digits_length s) as Hl.
  destruct (take_digits s) as [[|c d] r]; [done|]. intros [= _ <-]. cbn in Hl. lia.
Qed.
Lemma take_int_length s i rest : take_int s = Some (i, rest) -> (length rest < length s)%nat.
Proof.
  destruct s as [|c r]; [done|]. cbn [take_int]. destruct (c =? 48)%N.
  - intros [= _ <-]. cbn. lia.
  - apply some_digits_length.
Qed.
Lemma take_fraction_length s : (length (snd (take_fraction s)) <= length s)%nat.
Proof.
  destruct s as [|c r]; [done|]. cbn [take_fraction]. destruct (c =? 46)%N; [|done].
  destruct (some_digits r) as [[ds rest]|] eqn:E; [|done]. apply some_digits_length in E.
  cbn. lia.
Qed.
Lemma exponent_digits_length b s r : (length r <= length s)%nat ->
  (length (snd (exponent_digits b s r)) <= length s)%nat.
Proof.
  intros Hr. unfold exponent_digits. destruct (some_digits r) as [[ds rest]|] eqn:E; [|done].
  apply some_digits_length in E. cbn. lia.
Qed.
Lemma take_exponent_length s : (length (snd (take_exponent s)) <= length s)%nat.
Proof.
  destruct s as [|e r]; [done|]. cbn [take_exponent]. destruct (_ || _); [|done].
  destruct r as [|c r']; [done|].
  destruct (c =? 43)%N; [|destruct (c =? 45)%N]; apply exponent_digits_length; cbn; lia.
Qed.
Lemma unsigned_advances negative s : advances 1 s (unsigned_number negative s).
Proof.
  unfold unsigned_number. destruct (take_int s) as [[int r1]|] eqn:E; [|done].
  apply take_int_length in E. pose proof (take_fraction_length r1) as Hf.
  destruct (take_fraction r1) as [frac r2]. pose proof (take_exponent_length r2) as He.
  destruct (take_exponent r2) as [exp r3]. cbn [snd] in *.
  destruct frac, exp; cbn; try lia. case_match; cbn; done || lia.
Qed.
Lemma number_advances s : advances 1 s (match_number s).
Proof.
  destruct s as [|c r]; [done|]. cbn [match_number].
  destruct (c =? 45)%N; [|apply unsigned_advances].
  eapply advances_weaken; [apply unsigned_advances|cbn; lia].
Qed.
Lemma other_advances s : advances 1 s (other_value s).
Proof.
  unfold other_value, match_constant. destruct (find _ constants) as [[k v]|] eqn:E;
    [|apply number_advances].
  apply find_some in E as [Hin Hs]. cbn [fst] in Hs. apply starts_with_spec in Hs as [r ->].
  cbn [advances]. rewrite length_drop, length_app.
  assert (1 <= length k)%nat; [|lia].
  unfold constants in Hin. repeat destruct Hin as [[= <- _]|Hin]; [vm_compute; lia..|done].
Qed.

Lemma begins_with_length c s : begins_with c s = true -> length s = S (length (tail s)).
Proof. by destruct s. Qed.

Lemma separator_advances closing s : advances 1 s (separator closing s).
Proof.
  unfold separator. pose proof (skip_ws_length s) as Hs.
  destruct (skip_ws s) as [|c r]; [done|]. pose proof (skip_ws_length r). cbn in Hs.
  destruct (c =? closing)%N; [|destruct (c =? 44)%N]; cbn; done || lia.
Qed.
Lemma colon_advances s : advances 1 s (colon s).
Proof.
  unfold colon. pose proof (skip_ws_length s) as Hs. destruct (skip_ws s) as [|c r]; [done|].
  pose proof (skip_ws_length r). cbn in Hs. destruct (c =? 58)%N; cbn; done || lia.
Qed.
Lemma key_advances s : advances 1 s (key s).
Proof.
  destruct s as [|c r]; [done|]. cbn [key]. destruct (c =? QUOTE)%N; [|done].
  eapply advances_weaken; [apply string_advances|cbn; lia].
Qed.

(** With two steps per character the decoder does not run out, and values are not empty. *)
Lemma scan_advances fuel :
  (forall s, (2 * length s < fuel)%nat -> advances 1 s (scan_value fuel s))
  /\ (forall s acc, (2 * length s + 1 < fuel)%nat -> advances 1 s (scan_items fuel s acc))
  /\ (forall s acc, (2 * length s + 1 < fuel)%nat -> advances 1 s (scan_members fuel s acc)).
Proof.
  induction fuel as [|fuel (IHv & IHi & IHm)]; [split_and!; intros; lia|]. split_and!.
  - intros s Hf. cbn [scan_value]. pose proof (skip_ws_length (tail s)) as Hs.
    set (r := skip_ws (tail s)) in *.
    destruct (begins_with QUOTE s) eqn:Eq; [|destruct (begins_with 91 s) eqn:Ea;
      [|destruct (begins_with 123 s) eqn:Eo; [|apply other_advances]]].
    + apply begins_with_length in Eq. apply advances_bind.
      * eapply advances_weaken; [apply string_advances|lia].
      * intros text rest _. cbn. lia.
    + apply begins_with_length in Ea. destruct (begins_with 93 r) eqn:Er.
      * apply begins_with_length in Er. cbn. lia.
      * eapply advances_weaken; [apply IHi|]; lia.
    + apply begins_with_length in Eo. destruct (begins_with 125 r) eqn:Er.
      * apply begins_with_length in Er. cbn. lia.
      * eapply advances_weaken; [apply IHm|]; lia.
  - intros s acc Hf. cbn [scan_items]. apply advances_bind; [apply IHv; lia|].
    intros v rest Hr. apply (advances_weaken 1 0 rest); [|lia].
    apply advances_bind; [apply separator_advances|]. intros [] rest' Hr'; [|cbn; lia].
    eapply advances_weaken; [apply IHi|]; lia.
  - intros s acc Hf. cbn [scan_members]. apply advances_bind; [apply key_advances|].
    intros k rest Hr. apply (advances_weaken 1 0 rest); [|lia].
    apply advances_bind; [apply colon_advances|]. intros _ rest1 Hr1.
    apply (advances_weaken 1 0 rest1); [|lia]. apply advances_bind; [apply IHv; lia|].
    intros v rest2 Hr2. apply (advances_weaken 1 0 rest2); [|lia].
    apply advances_bind; [apply separator_advances|]. intros [] rest3 Hr3; [|cbn; lia].
    eapply advances_weaken; [apply IHm|]; lia.
Qed.

(** The fuel of [decode_text] is enough for every text. *)
Theorem loads_decides (s : str) : scan_value (2 * length s + 2) (skip_ws s) <> OutOfFuel.
Proof.
  pose proof (skip_ws_length s) as Hs.
  destruct (scan_advances (2 * length s + 2)) as [H _]. specialize (H (skip_ws s) ltac:(lia)).
  by destruct (scan_value _ _).
Qed.

(** ** Strings *)

Lemma scan_plain c r : (c =? QUOTE)%N = false -> (c <? 32)%N = false -> (c =? BACKSLASH)%N = false ->
  scanstring (c :: r) = pcons c (scanstring r).
Proof. intros H1 H2 H3. cbn [scanstring]. by rewrite H1, H2, H3. Qed.
Lemma scan_escape e c r : (e =? 117)%N = false -> unescape e = Some c ->
  scanstring (BACKSLASH :: e :: r) = pcons c (scanstring r).
Proof.
  intros He Hc. cbn [scanstring]. change (BACKSLASH =? QUOTE)%N with false.
  change (BACKSLASH <? 32)%N with false. rewrite N.eqb_refl. cbn [negb]. by rewrite He, Hc.
Qed.
Lemma scan_hex a b c d x r : hex4 a b c d = Some x -> is_high x = false ->
  scanstring (BACKSLASH :: 117%N :: a :: b :: c :: d :: r) = pcons x (scanstring r).
Proof.
  intros Hx Hh. cbn [scanstring]. change (BACKSLASH =? QUOTE)%N with false.
  change (BACKSLASH <? 32)%N with false. rewrite !N.eqb_refl. cbn [negb]. rewrite Hx.
  by destruct r as [|? [|? [|? [|? [|? [|? ?]]]]]]; rewrite ?Hh.
Qed.
Lemma hex_value_digit n : (n < 16)%N -> hex_value (hex_digit n) = Some n.
Proof.
  intros Hn. unfold hex_digit, hex_value, ascii_digit. destruct (N.ltb_spec n 10).
  - rewrite in_range_true by lia. f_equal. lia.
  - rewrite in_range_false by lia. rewrite in_range_true by lia. f_equal. lia.
Qed.
Lemma scan_escaped c r : scanstring (escape_char c ++ r) = pcons c (scanstring r).
Proof.
  unfold escape_char. destruct (N.eqb_spec c QUOTE) as [->|Hq]; [by apply scan_escape|].
  destruct (N.eqb_spec c BACKSLASH) as [->|Hb]; [by apply scan_escape|].
  destruct (N.eqb_spec c 10) as [->|H10]; [by apply scan_escape|].
  destruct (N.eqb_spec c 13) as [->|H13]; [by apply scan_escape|].
  destruct (N.eqb_spec c 9) as [->|H9]; [by apply scan_escape|].
  destruct (N.eqb_spec c 12) as [->|H12]; [by apply scan_escape|].
  destruct (N.eqb_spec c 8) as [->|H8]; [by apply scan_escape|].
  destruct (N.ltb_spec c 32) as [Hc|Hc].
  - rewrite <- app_assoc. apply (scan_hex 48 48).
    + unfold hex4. change (hex_value 48) with (Some 0%N). rewrite !hex_value_digit by divide.
      f_equal. divide.
    + apply in_range_false. lia.
  - apply scan_plain; [by apply N.eqb_neq|by apply N.ltb_ge|by apply N.eqb_neq].
Qed.
Lemma scanstring_quoted s rest :
  scanstring (flat_map escape_char s ++ QUOTE :: rest) = Some (s, rest).
Proof.
  induction s as [|c s IH]; [done|]. cbn [flat_map]. rewrite <- app_assoc, scan_escaped.
  by rewrite IH.
Qed.
Lemma scan_json_string s rest : string_after_quote (tail (json_string s ++ rest)) = Parsed s rest.
Proof.
  unfold json_string, string_after_quote. cbn [app tail]. rewrite <- app_assoc.
  cbn [app]. by rewrite scanstring_quoted.
Qed.

(** ** Integers *)

Lemma digits_acc d p : fold_left (fun acc c => 10 * acc + Z.of_N (c - 48)) (uint_codes d) (Zpos p)
  = Zpos (Pos.of_uint_acc d p).
Proof.
  revert p. induction d; intros p; [done|..]; cbn [uint_codes fold_left Pos.of_uint_acc];
    rewrite <- IHd; f_equal; cbn; lia.
Qed.
Lemma digits_uint d : digits_Z (uint_codes d) = Z.of_N (N.of_uint d).
Proof.
  unfold digits_Z. induction d; cbn [uint_codes fold_left N.of_uint Pos.of_uint];
    [done|exact IHd|..]; cbn [Z.mul Z.add Z.of_N N.sub Pos.sub_mask]; apply digits_acc.
Qed.
Lemma digits_str_of_N n : digits_Z (str_of_N n) = Z.of_N n.
Proof. unfold str_of_N. rewrite digits_uint. by rewrite Unsigned.of_to. Qed.
(** Digits without a leading zero are those of their number. *)
Lemma digits_codes s : Forall (fun c => ascii_digit c = true) s -> exists d, s = uint_codes d.
Proof.
  induction 1 as [|c s Hc _ (d & ->)]; [by exists Decimal.Nil|].
  unfold ascii_digit, in_range in Hc. rewrite andb_true_iff, !N.leb_le in Hc.
  assert (c = 48 \/ c = 49 \/ c = 50 \/ c = 51 \/ c = 52 \/ c = 53 \/ c = 54 \/ c = 55 \/ c = 56
          \/ c = 57)%N as Hcs by lia.
  destruct Hcs as [->|[->|[->|[->|[->|[->|[->|[->|[->| ->]]]]]]]]];
    [exists (Decimal.D0 d)|exists (Decimal.D1 d)|exists (Decimal.D2 d)|exists (Decimal.D3 d)
    |exists (Decimal.D4 d)|exists (Decimal.D5 d)|exists (Decimal.D6 d)|exists (Decimal.D7 d)
    |exists (Decimal.D8 d)|exists (Decimal.D9 d)]; reflexivity.
Qed.
Lemma str_of_digits c s :
  Forall (fun c => ascii_digit c = true) (c :: s) -> c <> 48%N -> str_of_Z (digits_Z (c :: s)) = c :: s.
Proof.
  intros (d & Hd)%digits_codes Hc. rewrite Hd, digits_uint.
  assert (Hu : N.to_uint (N.of_uint d) = d).
  { rewrite Unsigned.to_of. destruct d; [done| |reflexivity..].
    cbn in Hd. injection Hd as -> _. done. }
  destruct (N.of_uint d) as [|p] eqn:E; cbn [Z.of_N str_of_Z].
  - rewrite <-Hu. reflexivity.
  - unfold str_of_N. by rewrite Hu.
Qed.

(** Only zero begins with a zero. *)
Lemma str_of_N_zero n r : str_of_N n = 48%N :: r -> r = [].
Proof.
  unfold str_of_N. intros H. destruct (N.to_uint n) as [|d|d|d|d|d|d|d|d|d|d] eqn:E; try done.
  injection H as <-. pose proof (Unsigned.to_of (Decimal.D0 d)) as Ht.
  rewrite <- E in Ht at 1. rewrite Unsigned.of_to, E in Ht.
  unfold Decimal.unorm in Ht. cbn [Decimal.nzhead] in Ht.
  destruct (Decimal.nzhead d) eqn:En; try done.
  - by injection Ht as ->.
  - by apply nzhead_nonzero in En.
Qed.

(** The number of digits. *)
Lemma digits_lower ds acc : Forall (fun c => ascii_digit c = true) ds -> 0 <= acc ->
  acc * 10 ^ Z.of_nat (length ds)
  <= fold_left (fun acc c => 10 * acc + Z.of_N (c - 48)) ds acc.
Proof.
  intros Hds. revert acc. induction Hds as [|c ds Hc _ IH]; intros acc Hacc; [cbn; lia|].
  cbn [fold_left length]. rewrite Nat2Z.inj_succ, Z.pow_succ_r by lia.
  etrans; [|apply IH; lia]. pose proof (Z.pow_pos_nonneg 10 (Z.of_nat (length ds))). nia.
Qed.
Lemma str_of_N_length n k : (1 <= k)%nat -> Z.of_N n < 10 ^ Z.of_nat k ->
  (length (str_of_N n) <= k)%nat.
Proof.
  intros Hk Hn. destruct (str_of_N n) as [|c ds] eqn:E; [cbn; lia|].
  pose proof (str_of_N_digits n) as Hd. pose proof (digits_str_of_N n) as Hv. rewrite E in Hd, Hv.
  inversion_clear Hd as [|? ? Hc Hds]. destruct (N.eqb_spec c 48) as [->|H48].
  { apply str_of_N_zero in E as ->. done. }
  unfold ascii_digit, in_range in Hc. rewrite andb_true_iff, !N.leb_le in Hc.
  cbn [length]. destruct (Nat.le_gt_cases (S (length ds)) k) as [|Hgt]; [done|exfalso].
  pose proof (digits_lower ds (Z.of_N (c - 48)) Hds ltac:(lia)) as Hl.
  unfold digits_Z in Hv. cbn [fold_left] in Hv. rewrite Z.mul_0_r, Z.add_0_l in Hv.
  rewrite Hv in Hl. pose proof (Z.pow_le_mono_r 10 (Z.of_nat k) (Z.of_nat (length ds))). nia.
Qed.

(** The text behind a value that is written: nothing, or the next mark. *)
Definition follows (rest : str) : Prop := match rest with [] => True | c :: _ => In c (u ",]}") end.
Lemma follows_spec c r : follows (c :: r) ->
  ascii_digit c = false /\ (c =? 46)%N = false /\ (c =? 101)%N || (c =? 69)%N = false.
Proof.
  unfold follows. change (u ",]}") with [44; 93; 125]%N. by intros [<-|[<-|[<-|[]]]].
Qed.

Lemma take_digits_app ds rest : Forall (fun c => ascii_digit c = true) ds -> follows rest ->
  take_digits (ds ++ rest) = (ds, rest).
Proof.
  intros Hds Hr. induction Hds as [|c ds Hc _ IH].
  - destruct rest as [|c r]; [done|]. cbn. by rewrite (proj1 (follows_spec c r Hr)).
  - cbn. by rewrite Hc, IH.
Qed.
Lemma str_of_N_cons n : exists c ds, str_of_N n = c :: ds /\ ascii_digit c = true.
Proof.
  pose proof (str_of_N_digits n) as H. destruct (str_of_N n) as [|c ds] eqn:E.
  - exfalso. unfold str_of_N in E. destruct n as [|p]; [done|].
    pose proof (Unsigned.of_to (N.pos p)) as Hn. by destruct (N.to_uint (N.pos p)).
  - inversion_clear H. eauto.
Qed.
Lemma unsigned_str_of_N negative n rest : follows rest -> (length (str_of_N n) <= MAX_DIGITS)%nat ->
  unsigned_number negative (str_of_N n ++ rest)
  = Parsed (JInt (if negative then - Z.of_N n else Z.of_N n)) rest.
Proof.
  intros Hr Hn.
  assert (Hi : take_int (str_of_N n ++ rest) = Some (str_of_N n, rest)).
  { destruct (str_of_N_cons n) as (c & ds & E & Hc). pose proof (str_of_N_digits n) as Hd.
    rewrite E in Hd |- *. cbn [app take_int]. destruct (N.eqb_spec c 48) as [->|H48].
    - apply str_of_N_zero in E as ->. done.
    - unfold some_digits. change (c :: ds ++ rest) with ((c :: ds) ++ rest).
      by rewrite take_digits_app. }
  assert (Hf : take_fraction rest = ([], rest)).
  { destruct rest as [|c r]; [done|]. cbn. by rewrite (proj1 (proj2 (follows_spec c r Hr))). }
  assert (He : take_exponent rest = (None, rest)).
  { destruct rest as [|c r]; [done|]. cbn. by rewrite (proj2 (proj2 (follows_spec c r Hr))). }
  unfold unsigned_number. rewrite Hi, Hf, He, (proj2 (Nat.ltb_ge _ _)) by done.
  by rewrite digits_str_of_N.
Qed.
Lemma number_str_of_Z z rest : follows rest -> (length (str_of_N (Z.abs_N z)) <= MAX_DIGITS)%nat ->
  match_number (str_of_Z z ++ rest) = Parsed (JInt z) rest.
Proof.
  intros Hr Hz.
  assert (Hp : forall n, (length (str_of_N n) <= MAX_DIGITS)%nat ->
    match_number (str_of_N n ++ rest) = Parsed (JInt (Z.of_N n)) rest).
  { intros n Hn. destruct (str_of_N_cons n) as (c & ds & E & Hc).
    pose proof (unsigned_str_of_N false n rest Hr Hn) as H. rewrite E in H |- *.
    cbn [app match_number] in *. destruct (N.eqb_spec c 45) as [->|]; [done|exact H]. }
  destruct z as [|p|p]; [by apply (Hp 0%N)|by apply (Hp (N.pos p))|].
  change (str_of_Z (Z.neg p) ++ rest) with (45%N :: str_of_N (N.pos p) ++ rest).
  cbn [match_number N.eqb Pos.eqb]. by rewrite (unsigned_str_of_N true).
Qed.
Lemma other_str_of_Z z rest : follows rest -> (length (str_of_N (Z.abs_N z)) <= MAX_DIGITS)%nat ->
  other_value (str_of_Z z ++ rest) = Parsed (JInt z) rest.
Proof.
  intros Hr Hz. unfold other_value.
  assert (Hc : forall n, match_constant (str_of_N n ++ rest) = None
    /\ match_constant (45%N :: str_of_N n ++ rest) = None).
  { intros n. destruct (str_of_N_cons n) as (c & ds & E & Hc). rewrite E. cbn [app].
    unfold ascii_digit, in_range in Hc. rewrite andb_true_iff, !N.leb_le in Hc.
    assert (H : forall k, In k [110; 116; 102; 78; 73; 45]%N -> (k =? c)%N = false).
    { intros k Hk. apply N.eqb_neq. cbn in Hk. lia. }
    unfold match_constant, constants. cbn [find fst].
    change (u "null") with [110; 117; 108; 108]%N. change (u "true") with [116; 114; 117; 101]%N.
    change (u "false") with [102; 97; 108; 115; 101]%N. change (u "NaN") with [78; 97; 78]%N.
    change (u "Infinity") with [73; 110; 102; 105; 110; 105; 116; 121]%N.
    change (u "-Infinity") with [45; 73; 110; 102; 105; 110; 105; 116; 121]%N.
    cbn [starts_with]. rewrite !H by (cbn; tauto). done. }
  assert (Hm : match_constant (str_of_Z z ++ rest) = None).
  { destruct z as [|p|p]; [apply (proj1 (Hc 0%N))|apply (proj1 (Hc (N.pos p)))|].
    apply (proj2 (Hc (N.pos p))). }
  rewrite Hm. by apply number_str_of_Z.
Qed.

(** ** Values *)

Section json_induction.
Context (P : json -> Prop).
Context (Hnull : P JNull) (Hbool : forall b, P (JBool b)) (Hint : forall z, P (JInt z)).
Context (Hfloat : forall q, P (JFloat q)) (Hnf : forall f, P (JNonFinite f)).
Context (Hstr : forall s, P (JStr s)).
Context (Harr : forall l, Forall P l -> P (JArr l)).
Context (Hobj : forall d, Forall (fun kv => P (snd kv)) d -> P (JObj d)).
Fixpoint json_induction (v : json) : P v :=
  match v with
  | JNull => Hnull | JBool b => Hbool b | JInt z => Hint z | JFloat q => Hfloat q
  | JNonFinite f => Hnf f | JStr s => Hstr s
  | JArr l => Harr l ((fix all l : Forall P l :=
      match l with [] => Forall_nil_2 _ | x :: l => Forall_cons_2 _ _ _ (json_induction x) (all l) end) l)
  | JObj d => Hobj d ((fix all d : Forall (fun kv => P (snd kv)) d :=
      match d with
      | [] => Forall_nil_2 _
      | kv :: d => Forall_cons_2 _ _ _ (json_induction (snd kv)) (all d)
      end) d)
  end.
End json_induction.

(** What can be written and read back: no finite float (their text is left open), integers
    of at most 4300 digits, dicts. *)
Fixpoint writable (v : json) : Prop :=
  match v with
  | JFloat _ => False
  | JInt z => (length (str_of_N (Z.abs_N z)) <= MAX_DIGITS)%nat
  | JArr l => (fix all l := match l with [] => True | x :: l => writable x /\ all l end) l
  | JObj d => NoDup (map fst d)
    /\ (fix all d := match d with [] => True | kv :: d => writable (snd kv) /\ all d end) d
  | _ => True
  end.
Lemma writable_arr l : writable (JArr l) <-> Forall writable l.
Proof.
  cbn [writable]. induction l as [|x l IH]; [by split|]. rewrite IH. split.
  - intros []. by constructor.
  - intros H. by inversion_clear H.
Qed.
Lemma writable_obj d :
  writable (JObj d) <-> NoDup (map fst d) /\ Forall (fun kv => writable (snd kv)) d.
Proof.
  cbn [writable]. f_equiv. induction d as [|x d IH]; [by split|]. rewrite IH. split.
  - intros []. by constructor.
  - intros H. by inversion_clear H.
Qed.

Lemma dict_set_new {V} (d : list (str * V)) k v : ~ In k (map fst d) ->
  dict_set str_eqb d k v = d ++ [(k, v)].
Proof.
  induction d as [|[k' v'] d IH]; [done|]. cbn. intros H.
  destruct (str_eqb k k') eqn:E; [apply str_eqb_eq in E as ->; tauto|]. by rewrite IH by tauto.
Qed.

Lemma skip_ws_id c r : is_ws c = false -> skip_ws (c :: r) = c :: r.
Proof. intros Hc. unfold skip_ws. cbn [drop_while]. by rewrite Hc. Qed.
Lemma skip_ws_space r : skip_ws (32%N :: r) = skip_ws r.
Proof. done. Qed.

Abbreviation nonzero := (Forall (fun c => c <> 0%N)).

Section dumps.
Context (float_repr : Q -> str).
Abbreviation text := (dumps float_repr).

(** A written value begins with a mark, a digit or a letter. *)
Definition value_head (s : str) : Prop :=
  exists c r, s = c :: r /\ is_ws c = false /\ (c =? 93)%N = false /\ (c =? 125)%N = false
    /\ is_ascii c = true.
Lemma str_of_Z_head z rest : value_head (str_of_Z z ++ rest)
  /\ begins_with QUOTE (str_of_Z z ++ rest) = false
  /\ begins_with 91 (str_of_Z z ++ rest) = false /\ begins_with 123 (str_of_Z z ++ rest) = false.
Proof.
  assert (Hd : forall n, value_head (str_of_N n ++ rest)
    /\ begins_with QUOTE (str_of_N n ++ rest) = false
    /\ begins_with 91 (str_of_N n ++ rest) = false /\ begins_with 123 (str_of_N n ++ rest) = false).
  { intros n. destruct (str_of_N_cons n) as (c & ds & -> & Hc).
    unfold ascii_digit, in_range in Hc. rewrite andb_true_iff, !N.leb_le in Hc.
    cbn [app begins_with]. unfold value_head, QUOTE.
    split; [|by rewrite !(proj2 (N.eqb_neq _ _)) by lia].
    eexists _, _. split; [done|]. unfold is_ws, in_chars, is_ascii. cbn [existsb].
    rewrite (proj2 (N.ltb_lt c 128)) by lia. by rewrite !(proj2 (N.eqb_neq _ _)) by lia. }
  destruct z as [|p|p]; [apply (Hd 0%N)|apply (Hd (N.pos p))|].
  change (str_of_Z (Z.neg p) ++ rest) with (45%N :: str_of_N (N.pos p) ++ rest).
  split; [|done]. by eexists _, _.
Qed.
Lemma text_head v rest : writable v -> value_head (text v ++ rest).
Proof.
  assert (Hm : forall c r, is_ws c = false -> (c =? 93)%N = false -> (c =? 125)%N = false ->
    is_ascii c = true -> value_head (c :: r)) by (intros c r; by exists c, r).
  destruct v as [|[]|z|q|[|[]]|s|l|d]; cbn [dumps writable]; intros Hv;
    try (by apply Hm); [apply str_of_Z_head|done].
Qed.

Definition reads (v : json) : Prop := writable v -> forall rest fuel, follows rest ->
  (2 * length (text v ++ rest) < fuel)%nat -> scan_value fuel (text v ++ rest) = Parsed v rest.

Lemma separator_close closing rest : is_ws closing = false ->
  separator closing (closing :: rest) = Parsed false rest.
Proof. intros H. unfold separator. rewrite skip_ws_id by done. by rewrite N.eqb_refl. Qed.
Lemma separator_comma closing rest : (44 =? closing)%N = false -> value_head rest ->
  separator closing (u ", " ++ rest) = Parsed true rest.
Proof.
  intros H (c & r & -> & Hc & _). unfold separator. change (u ", ") with [44; 32]%N. cbn [app].
  rewrite skip_ws_id by done. rewrite H, N.eqb_refl, skip_ws_space. by rewrite skip_ws_id.
Qed.

Lemma scan_list l fuel acc rest : l <> [] -> Forall reads l -> Forall writable l ->
  (2 * length (str_join (u ", ") (map text l) ++ 93%N :: rest) + 1 < fuel)%nat ->
  scan_items fuel (str_join (u ", ") (map text l) ++ 93%N :: rest) acc
  = Parsed (JArr (acc ++ l)) rest.
Proof.
  intros Hl Hr. revert fuel acc Hl. induction Hr as [|x l Hx Hr IH]; [done|].
  intros fuel acc _ Hw Hf. inversion_clear Hw as [|? ? Hwx Hwl]. destruct fuel as [|fuel]; [lia|].
  cbn [scan_items map str_join] in *. destruct l as [|y l].
  - cbn [map str_join] in *. rewrite Hx; [|done|vm_compute; tauto|lia]. cbn [pbind].
    by rewrite separator_close.
  - set (more := str_join _ (map text (y :: l))) in *. change (map text (y :: l)) with (text y :: map text l) in *.
    cbn beta iota in *. fold more in Hf |- *. rewrite <- !app_assoc in Hf |- *.
    rewrite Hx; [|done|vm_compute; tauto|lia]. cbn [pbind].
    rewrite separator_comma; [|done|].
    + cbn [pbind]. rewrite IH; [by rewrite <- app_assoc|done..|].
      rewrite !length_app in Hf.
      rewrite length_app. change (length (u ", ")) with 2%nat in Hf. lia.
    + unfold more. cbn [map str_join]. destruct l; cbn [map]; rewrite <- ?app_assoc;
        apply text_head; by inversion_clear Hwl.
Qed.

Lemma key_json_string k rest : key (json_string k ++ rest) = Parsed k rest.
Proof. apply (scan_json_string k rest). Qed.
Lemma colon_space rest : value_head rest -> colon (u ": " ++ rest) = Parsed tt rest.
Proof.
  intros (c & r & -> & Hc & _). unfold colon. change (u ": ") with [58; 32]%N. cbn [app].
  rewrite skip_ws_id by done. rewrite N.eqb_refl, skip_ws_space. by rewrite skip_ws_id.
Qed.
Abbreviation member := (fun kv => json_string (fst kv) ++ u ": " ++ text (snd kv)).
Lemma scan_dict d fuel acc rest : d <> [] -> NoDup (map fst (acc ++ d)) ->
  Forall (fun kv => reads (snd kv)) d -> Forall (fun kv => writable (snd kv)) d ->
  (2 * length (str_join (u ", ") (map member d) ++ 125%N :: rest) + 1 < fuel)%nat ->
  scan_members fuel (str_join (u ", ") (map member d) ++ 125%N :: rest) acc
  = Parsed (JObj (acc ++ d)) rest.
Proof.
  intros Hd Hnd Hr. revert fuel acc Hd Hnd. induction Hr as [|[k x] d Hx Hr IH]; [done|].
  intros fuel acc _ Hnd Hw Hf. inversion_clear Hw as [|? ? Hwx Hwd]. destruct fuel as [|fuel]; [lia|].
  cbn [snd fst] in *. assert (Hk : ~ In k (map fst acc)).
  { rewrite map_app in Hnd. apply list.NoDup_app in Hnd as (_ & Hn & _). intros Hk.
    apply (Hn k); [by apply list_elem_of_In|]. apply list_elem_of_here. }
  cbn [scan_members map str_join fst snd] in *. destruct d as [|[k' y] d].
  - cbn [map] in *. rewrite <- !app_assoc in Hf |- *. rewrite key_json_string. cbn [pbind].
    rewrite colon_space by by apply text_head. cbn [pbind]. rewrite !length_app in Hf.
    rewrite Hx; [|done|vm_compute; tauto|rewrite length_app; lia]. cbn [pbind].
    rewrite separator_close by done. cbn [pbind]. by rewrite dict_set_new.
  - set (more := str_join _ (map member ((k', y) :: d))) in *.
    change (map member ((k', y) :: d)) with (member (k', y) :: map member d) in *.
    cbn beta iota in *. fold more in Hf |- *. rewrite <- !app_assoc in Hf |- *.
    rewrite key_json_string. cbn [pbind]. rewrite colon_space by by apply text_head. cbn [pbind].
    rewrite !length_app in Hf. change (length (u ", ")) with 2%nat in Hf.
    rewrite Hx; [|done|vm_compute; tauto|]. 2:{ rewrite !length_app.
      change (length (u ", ")) with 2%nat. lia. }
    cbn [pbind]. rewrite separator_comma; [|done|].
    + cbn [pbind]. rewrite dict_set_new by done. rewrite IH; [by rewrite <- app_assoc|done| |done|].
      * by rewrite <- app_assoc.
      * rewrite length_app. lia.
    + unfold more. cbn [str_join]. destruct (map member d); rewrite <- ?app_assoc; by eexists _, _.
Qed.

Lemma scan_dumps (v : json) : reads v.
Proof.
  induction v as [|b|z|q|f|s|l Hl|d Hd] using json_induction; intros Hw rest fuel Hr Hf;
    (destruct fuel as [|fuel]; [lia|]); cbn [scan_value].
  - done.
  - by destruct b.
  - destruct (str_of_Z_head z rest) as (_ & H1 & H2 & H3). cbn [dumps].
    rewrite H1, H2, H3. by apply other_str_of_Z.
  - done.
  - by destruct f as [|[]].
  - cbn [dumps]. change (begins_with QUOTE (json_string s ++ rest)) with true. cbn beta iota.
    by rewrite scan_json_string.
  - rewrite writable_arr in Hw. cbn [dumps] in *. change (u "[") with [91%N] in *.
    change (u "]") with [93%N] in *. rewrite <- !app_assoc in Hf |- *. cbn [app] in *.
    change (begins_with QUOTE (91%N :: _)) with false. change (begins_with 91 (91%N :: _)) with true.
    cbn beta iota. cbn [tail]. destruct l as [|x l]; [done|].
    assert (Hh : value_head (str_join (u ", ") (map text (x :: l)) ++ 93%N :: rest)).
    { inversion_clear Hw. cbn [map str_join]. destruct (map text l); rewrite <- ?app_assoc;
        by apply text_head. }
    destruct Hh as (c & r & Eh & Hc & H93 & _). rewrite Eh, skip_ws_id by done. rewrite <- Eh at 1.
    assert (Hb : begins_with 93 (c :: r) = false) by exact H93.
    rewrite Eh, Hb, <- Eh. rewrite scan_list; [done..|]. cbn [length] in Hf. lia.
  - rewrite writable_obj in Hw. destruct Hw as [Hnd Hw]. cbn [dumps] in *.
    change (u "{") with [123%N] in *. change (u "}") with [125%N] in *.
    rewrite <- !app_assoc in Hf |- *. cbn [app] in *.
    change (begins_with QUOTE (123%N :: _)) with false. change (begins_with 91 (123%N :: _)) with false.
    change (begins_with 123 (123%N :: _)) with true. cbn beta iota. cbn [tail].
    destruct d as [|[k x] d]; [done|].
    assert (Hh : value_head (str_join (u ", ") (map member ((k, x) :: d)) ++ 125%N :: rest)).
    { cbn [map str_join]. destruct (map member d); rewrite <- ?app_assoc; by eexists _, _. }
    destruct Hh as (c & r & Eh & Hc & _ & H125 & _). rewrite Eh, skip_ws_id by done.
    assert (Hb : begins_with 125 (c :: r) = false) by exact H125.
    rewrite Hb, <- Eh. rewrite scan_dict; [done..|]. cbn [length] in Hf. lia.
Qed.

(** json.loads reads what json.dumps writes. *)
Theorem decode_dumps (v : json) (Hv : writable v) : decode_text (text v) = inl v.
Proof.
  unfold decode_text. destruct (text_head v [] Hv) as (c & r & E & Hc & _).
  rewrite app_nil_r in E. rewrite E, skip_ws_id by done. rewrite <- E.
  pose proof (scan_dumps v Hv [] (2 * length (text v) + 2)%nat I) as H. rewrite app_nil_r in H.
  by rewrite H by lia.
Qed.

(** ** Bytes *)

Lemma utf8_pass_ok b r c n : utf8_step b r = (Some c, n) -> utf8_pass_step b r = (Some c, n).
Proof.
  unfold utf8_pass_step. destruct (N.eqb_spec b 237) as [->|]; [|done].
  unfold utf8_step. cbn [N.ltb N.compare Pos.compare Pos.compare_cont N.eqb Pos.eqb].
  change (in_range 194 223 237) with false. cbn beta iota. unfold tail3.
  destruct r as [|b1 r1]; [done|]. destruct (in_range 128 159 b1) eqn:E; [|done].
  unfold in_range in E. rewrite andb_true_iff, !N.leb_le in E. by rewrite in_range_true by lia.
Qed.
Lemma decode_pass_encode s fuel : forallb is_scalar s = true ->
  (length (flat_map encode_char s) <= fuel)%nat ->
  decode_pass fuel (flat_map encode_char s) = Some s.
Proof.
  revert fuel. induction s as [|c s IH]; intros fuel Hs Hf; [by destruct fuel|].
  cbn [forallb] in Hs. apply andb_true_iff in Hs as [Hc Hs].
  destruct (encode_char_step c Hc) as (b & r & He & Hstep).
  cbn [flat_map] in *. rewrite He in *. cbn [app length] in *. destruct fuel as [|fuel]; [lia|].
  cbn [decode_pass]. rewrite (utf8_pass_ok _ _ _ _ (Hstep _)).
  replace (Datatypes.S (length r) - 1)%nat with (length r) by lia.
  rewrite drop_app_length. rewrite length_app in Hf. by rewrite IH by (done || lia).
Qed.

(** Text without the character 0 that begins with an ASCII character is taken for UTF-8. *)
Lemma encode_char_nonzero c : c <> 0%N -> Forall (fun b => b <> 0%N) (encode_char c).
Proof.
  intros Hc. unfold encode_char, cont.
  destruct (c <? 128)%N; [|destruct (c <? 2048)%N; [|destruct (c <? 65536)%N]];
    repeat apply Forall_cons_2; try apply Forall_nil_2; cbn beta; divide.
Qed.
Lemma detect_text c s : is_ascii c = true -> Forall (fun c => c <> 0%N) (c :: s) ->
  detect_encoding (flat_map encode_char (c :: s)) = Utf8.
Proof.
  intros Ha Hs. assert (Hb : Forall (fun b => b <> 0%N) (flat_map encode_char (c :: s))).
  { induction Hs as [|x l Hx _ IH]; [constructor|]. cbn [flat_map]. apply Forall_app.
    split; [by apply encode_char_nonzero|done]. }
  assert (Hc1 : encode_char c = [c]) by (unfold encode_char; unfold is_ascii in Ha; by rewrite Ha).
  cbn [flat_map] in *. rewrite Hc1 in *. cbn [app] in *. inversion_clear Hb as [|? ? Hc Hr]. clear Hs.
  apply N.ltb_lt in Ha. set (rest := flat_map encode_char s) in *. unfold detect_encoding.
  cbn [starts_with]. rewrite !(proj2 (N.eqb_neq _ _)) by lia. cbn [andb orb].
  unfold zero_at. cbn [nth]. rewrite (proj2 (N.eqb_neq c 0)) by done.
  destruct rest as [|b r]; [done|]. inversion_clear Hr as [|? ? Hb _]. cbn [nth].
  rewrite (proj2 (N.eqb_neq b 0)) by done. by repeat case_match.
Qed.

(** No written value holds the character 0. *)
Lemma escape_nonzero c : nonzero (escape_char c).
Proof.
  unfold escape_char. repeat case_match; try (by repeat apply Forall_cons_2).
  - apply Forall_app. split; [by repeat apply Forall_cons_2|].
    repeat apply Forall_cons_2; try apply Forall_nil_2; unfold hex_digit; cbn beta; case_match; divide.
  - apply Forall_cons_2; [|apply Forall_nil_2]. intros ->. done.
Qed.
Lemma json_string_nonzero s : nonzero (json_string s).
Proof.
  unfold json_string. rewrite !Forall_app. split_and!; try (by repeat apply Forall_cons_2).
  induction s as [|c s IH]; [constructor|]. cbn [flat_map]. rewrite Forall_app.
  split; [apply escape_nonzero|done].
Qed.
Lemma str_of_Z_nonzero z : nonzero (str_of_Z z).
Proof.
  assert (Hn : forall n, nonzero (str_of_N n)).
  { intros n. apply (Forall_weaken _ _ _ (str_of_N_digits n)). intros c Hc ->. done. }
  destruct z as [|p|p]; cbn [str_of_Z]; [by repeat apply Forall_cons_2|apply Hn|].
  rewrite Forall_app. split; [by repeat apply Forall_cons_2|apply Hn].
Qed.
Lemma str_join_nonzero sep l : nonzero sep -> Forall nonzero l -> nonzero (str_join sep l).
Proof.
  intros Hsep. induction 1 as [|x l Hx Hl IH]; [constructor|]. cbn [str_join].
  destruct l; [done|]. by rewrite !Forall_app.
Qed.
Lemma dumps_nonzero v : writable v -> nonzero (text v).
Proof.
  induction v as [|b|z|q|f|s|l Hl|d Hd] using json_induction; intros Hw; cbn [dumps].
  - by repeat apply Forall_cons_2.
  - destruct b; by repeat apply Forall_cons_2.
  - apply str_of_Z_nonzero.
  - done.
  - destruct f as [|[]]; by repeat apply Forall_cons_2.
  - apply json_string_nonzero.
  - rewrite writable_arr in Hw. rewrite !Forall_app.
    split_and!; try (by repeat apply Forall_cons_2).
    apply str_join_nonzero; [by repeat apply Forall_cons_2|]. apply Forall_map.
    rewrite Forall_forall in Hw, Hl |- *. intros x Hx. by apply Hl, Hw.
  - rewrite writable_obj in Hw. destruct Hw as [_ Hw]. rewrite !Forall_app.
    split_and!; try (by repeat apply Forall_cons_2).
    apply str_join_nonzero; [by repeat apply Forall_cons_2|]. apply Forall_map.
    rewrite Forall_forall in Hw, Hd |- *. intros x Hx. rewrite !Forall_app.
    split_and!; [apply json_string_nonzero|by repeat apply Forall_cons_2|by apply Hd, Hw].
Qed.

(** json.loads of an encoded text decodes the text. *)
Lemma loads_encoded c s bs : is_ascii c = true -> nonzero (c :: s) ->
  encode_utf8 (c :: s) = Some bs -> json_loads bs = decode_text (c :: s).
Proof.
  intros Hc Hn. unfold encode_utf8. destruct (forallb is_scalar (c :: s)) eqn:Es; [|done].
  intros [= <-]. unfold json_loads. change (encode_char c ++ flat_map encode_char s)
    with (flat_map encode_char (c :: s)). rewrite detect_text by done. cbn [decode_as].
  unfold decode_utf8_pass. by rewrite decode_pass_encode.
Qed.

(** JSON that the program writes is what it reads: json.loads of the UTF-8 bytes of
    json.dumps gives the value back, whatever its nesting, strings, escapes and keys, for
    every value of dicts with distinct keys, lists, strings, integers of up to 4300 digits,
    constants, NaN and infinities. *)
Theorem loads_dumps (v : json) (bs : list N) (Hv : writable v)
    (Hbs : encode_utf8 (text v) = Some bs) : json_loads bs = inl v.
Proof.
  destruct (text_head v [] Hv) as (c & r & E & _ & _ & _ & Ha). rewrite app_nil_r in E.
  pose proof (dumps_nonzero v Hv) as Hn. rewrite <- (decode_dumps v Hv). rewrite E in *.
  by apply loads_encoded.
Qed.
End dumps.
(** A value with an escape, a character beyond ASCII and every kind of brackets. *)
Definition sample_value : json :=
  JObj [(u "a", JArr [JInt (-12); JNull; JArr []]); (QUOTE :: u "é", JObj [(u "b", JStr [10; 54620]%N)])].
Lemma sample_writable : writable sample_value.
Proof.
  cbn [sample_value writable map fst snd]. split_and!; try exact I; try (vm_compute; lia);
    apply (bool_decide_unpack _); vm_compute; exact I.
Qed.
Lemma loads_dumps_witness :
  exists bs, encode_utf8 (dumps (fun _ => []) sample_value) = Some bs
    /\ json_loads bs = inl sample_value.
Proof.
  eexists. split; [vm_compute; reflexivity|].
  apply (loads_dumps (fun _ => [])); [apply sample_writable|vm_compute; reflexivity].
Defined.
Lemma decode_dumps_witness :
  decode_text (dumps (fun _ => []) sample_value) = inl sample_value.
Proof. apply decode_dumps. apply sample_writable. Defined.
