(* ===== verification/Evidence.v ===== *)
(** * Reading of operators' observations

    The checks that the evidence verifiers of the ops directory share, on decoded JSON: an
    object with exactly the expected keys, identifiers that hold no secret, counts, numbers,
    hashes and timestamps.  Each verifier has its own copy of them in the source.  A check
    answers the value it accepts, or the ValueError that the operator reads; a number too
    large for a float and a timestamp outside of the years 1 to 9999 are an OverflowError,
    which no verifier catches. *)

From Stdlib Require Import QArith.
From stdpp Require Import base list strings numbers.
From S2P Require Import Prelude Double Calendar Regex Json Loads.

Set Default Proof Using "Type".

Definition MAX_INPUT_BYTES : Z := 1024 * 1024.
Definition SAFE_IDENTIFIER : pattern := re_compile "^[A-Za-z0-9][A-Za-z0-9._:@#/-]{0,199}$".
Definition SHA256 : pattern := re_compile "^[a-f0-9]{64}$".

(** A JSON object: a Mapping, its keys being strings. *)
Abbreviation mapping := (list (str * json)).
(** Named instants, in the order they were read. *)
Abbreviation timeline := (list (str * Z)).

Definition value_error {A} (parts : list str) : outcome A := Raise (ValueError (concat parts)).
(** f"{label}.{key}" *)
Definition dotted (label key : str) : str := label ++ u "." ++ key.
(** value[key] *)
Definition item (d : mapping) (key : str) : outcome json := jindex (JObj d) key.

Section checks.
Context {U : UnicodeDb}.

Definition require_mapping (value : json) (label : str) : outcome mapping :=
  match value with
  | JObj d => Ok d
  | _ => value_error [label; u " must be a JSON object"]
  end.

(** The keys of [a] that [b] has not *)
Definition lacking (a b : list str) : list str :=
  List.filter (fun k => negb (existsb (str_eqb k) b)) a.
Definition field_details (word : str) (keys : list str) : list str :=
  match keys with
  | [] => []
  | _ => [word ++ u " " ++ str_join (u ", ") (py_sorted str_leb keys)]
  end.
Definition require_exact_keys (value : mapping) (expected : list str) (label : str) : outcome unit :=
  let missing := lacking expected (map fst value) in
  let unknown := lacking (map fst value) expected in
  match field_details (u "missing") missing ++ field_details (u "unknown") unknown with
  | [] => Ok tt
  | details => value_error [label; u " has invalid fields: "; str_join (u "; ") details]
  end.

Definition safe_identifier (value : json) (label : str) : outcome str :=
  let refused :=
    value_error [label; u " must be a non-secret identifier of at most 200 characters"] in
  match value with
  | JStr s => if contains (u "://") s || negb (re_fullmatch SAFE_IDENTIFIER s) then refused
              else Ok s
  | _ => refused
  end.

Definition require_bool (value : json) (label : str) : outcome bool :=
  match value with
  | JBool b => Ok b
  | _ => value_error [label; u " must be a boolean"]
  end.

Definition non_negative_int (value : json) (label : str) : outcome Z :=
  let refused := value_error [label; u " must be a non-negative integer"] in
  match value with
  | JInt z => if z <? 0 then refused else Ok z
  | _ => refused
  end.
Definition positive_int (value : json) (label : str) : outcome Z :=
  let! result := non_negative_int value label in
  if result =? 0 then value_error [label; u " must be a positive integer"] else Ok result.

Definition non_negative_number (value : json) (label : str) : outcome Q :=
  let refused := value_error [label; u " must be a non-negative finite number"] in
  let check (result : Q) := if negb (Qle_bool 0 result) then refused else Ok result in
  match value with
  | JInt z => let! result := float_of_Z z in check result
  | JFloat q => check q
  | _ => refused
  end.
Definition positive_number (value : json) (label : str) : outcome Q :=
  let! result := non_negative_number value label in
  if Qeq_bool result 0 then value_error [label; u " must be a positive finite number"]
  else Ok result.
Definition percentage (value : json) (label : str) : outcome Q :=
  let! result := non_negative_number value label in
  if negb (Qle_bool result 100) then value_error [label; u " must be between 0 and 100"]
  else Ok result.

Definition sha256_value (value : json) (label : str) : outcome str :=
  let refused := value_error [label; u " must be lowercase SHA-256"] in
  match value with
  | JStr s => if re_fullmatch SHA256 s then Ok s else refused
  | _ => refused
  end.

(** The instant, in microseconds of UTC *)
Definition parse_timestamp (value : json) (label : str) : outcome Z :=
  let refused := value_error [label; u " must be an ISO 8601 timestamp"] in
  match value with
  | JStr s =>
    match fromisoformat (replace_zulu s) with
    | Some (t, true) =>
      if in_datetime_range t then Ok t else Raise (OtherException (u "OverflowError"))
    | Some (_, false) => value_error [label; u " must include a UTC offset"]
    | None => refused
    end
  | _ => refused
  end.

(** ** Values under a key *)

(** check(value[key], f"{label}.{key}") *)
Definition at_key {A} (check : json -> str -> outcome A) (value : mapping) (label key : str)
  : outcome A :=
  let! v := item value key in check v (dotted label key).
(** check(value[key], key) *)
Definition at_top {A} (check : json -> str -> outcome A) (value : mapping) (key : str)
  : outcome A :=
  let! v := item value key in check v key.
(** {key: check(value[key], f"{label}.{key}") for key in keys} *)
Definition at_keys {A} (check : json -> str -> outcome A) (value : mapping) (label : str)
    (keys : list str) : outcome (list (str * A)) :=
  omap_list (fun key => let! a := at_key check value label key in Ok (key, a)) keys.
(** require_mapping(value[key], key) and require_exact_keys of it *)
Definition section (value : mapping) (key : str) (expected : list str) : outcome mapping :=
  let! d := at_top require_mapping value key in
  let! _ := require_exact_keys d expected key in Ok d.

(** no left > right in pairwise(times) *)
Fixpoint chronological (times : list Z) : bool :=
  match times with
  | t :: ((t' :: _) as rest) => (t <=? t') && chronological rest
  | _ => true
  end.
Definition ordered_timestamps (value : mapping) (keys : list str) (label : str)
  : outcome timeline :=
  let! result := at_keys parse_timestamp value label keys in
  if chronological (map snd result) then Ok result
  else value_error [label; u " timestamps must be chronological"].
(** timeline[key] *)
Definition moment (times : timeline) (key : str) : outcome Z :=
  match dict_get str_eqb times key with Some t => Ok t | None => Raise (KeyError key) end.
Definition duration_seconds (start finish : Z) : Q := recorded_seconds (finish - start).

(** utc_timestamp of every value, and what is read of it again: the code keeps the text. *)
Definition timeline_json (times : timeline) : json :=
  JObj (map (fun kt => (fst kt, JStr (utc_timestamp (snd kt)))) times).
Definition reread (t : Z) (label : str) : outcome Z := parse_timestamp (JStr (utc_timestamp t)) label.

(** value["schema_version"] != 1: 1.0 and true are equal to 1. *)
Definition is_one (value : json) : bool :=
  match value with
  | JInt z => z =? 1
  | JBool b => b
  | JFloat q => Qeq_bool q 1
  | _ => false
  end.
Definition require_schema (observation : mapping) : outcome unit :=
  let! version := item observation (u "schema_version") in
  if is_one version then Ok tt else value_error [u "observation.schema_version must be 1"].

(** started_at and completed_at of an observation *)
Definition parse_window (observation : mapping) : outcome (Z * Z) :=
  let! started_at := at_top parse_timestamp observation (u "started_at") in
  let! completed_at := at_top parse_timestamp observation (u "completed_at") in
  if completed_at <=? started_at then value_error [u "completed_at must follow started_at"]
  else Ok (started_at, completed_at).
End checks.

(** ** Limits given on the command line *)

(** A float of argparse, or an int default. *)
Inductive limit := Whole (z : Z) | Real (q : Q) | NotFinite (f : nonfinite).
Definition limit_json (l : limit) : json :=
  match l with Whole z => JInt z | Real q => JFloat q | NotFinite f => JNonFinite f end.
(** The value, if math.isfinite *)
Definition finite (l : limit) : option Q :=
  match l with Whole z => Some (inject_Z z) | Real q => Some q | NotFinite _ => None end.
(** [ok] holds of the finite values. *)
Definition limits_ok (ok : Q -> bool) (ls : list limit) : bool :=
  forallb (fun l => match finite l with Some q => ok q | None => false end) ls.
Definition limit_value (l : limit) : Q := default 0%Q (finite l).
(** x <= limit and x >= limit *)
Definition at_most (x : Q) (l : limit) : bool := Qle_bool x (limit_value l).
Definition at_least (x : Q) (l : limit) : bool := Qle_bool (limit_value l) x.

(** ** The scripts *)

(** {name: bool}, and all(checks.values()) *)
Abbreviation check_list := (list (str * bool)).
Definition checks_json (checks : check_list) : json :=
  JObj (map (fun kb => (fst kb, JBool (snd kb))) checks).
Definition all_pass (checks : check_list) : bool := forallb snd checks.

(** A verifier's run: a document and an exit status, a message for the operator (exit
    status 1), or an exception nothing catches. *)
Inductive verdict :=
| Written (document : json) (status : Z)
| Refused (message : str)
| Crashed (e : exn).

Section script.
(** hashlib.sha256(raw).hexdigest() *)
Context (sha256 : list N -> str).

(** [file]: the bytes of the input, if it is an existing regular file *)
Definition load_observation (file : option (list N)) : outcome (mapping * str) :=
  match file with
  | None => value_error [u "--input must be an existing regular file"]
  | Some raw =>
    let size := Z.of_nat (length raw) in
    if (0 <? size) && (size <=? MAX_INPUT_BYTES) then
      match json_loads raw with
      | inl payload => let! d := require_mapping payload (u "observation") in Ok (d, sha256 raw)
      | inr TooLong => Raise (loads_error TooLong)
      | inr _ => value_error [u "--input must contain UTF-8 JSON"]
      end
    else value_error [u "--input must contain between 1 byte and 1 MiB"]
  end.

(** [compile]: the document and its "passed" *)
Definition main (same_path : bool) (file : option (list N))
    (compile : mapping -> str -> outcome (json * bool)) : verdict :=
  let evidence :=
    let! _ := if same_path then value_error [u "--output must not replace --input"] else Ok tt in
    let! loaded := load_observation file in
    compile (fst loaded) (snd loaded) in
  match evidence with
  | Ok (document, passed) => Written document (if passed then 0 else 1)
  | Raise (ValueError message) => Refused message
  | Raise e => Crashed e
  end.
End script.

Definition minimal_run := main (fun _ => u "h") false (Some (u "{}"))
  (fun d h => let! _ := require_exact_keys d [u "b"; u "a"] (u "observation") in Ok (JObj d, true)).
Example missing_fields :
  minimal_run = Refused (u "observation has invalid fields: missing a, b").
Proof. vm_compute. reflexivity. Qed.
Example unknown_fields :
  require_exact_keys [(u "x", JNull); (u "a", JNull)] [u "b"; u "a"] (u "o")
  = Raise (ValueError (u "o has invalid fields: missing b; unknown x")).
Proof. vm_compute. reflexivity. Qed.
