(* ===== verification/EvidenceFacts.v ===== *)
(** * Facts about the reading of observations

    What an accepted value was, for each check of [Evidence]; the values of an observation
    by their path; timestamps are written and read back unchanged; what a passing run of a
    verifier's script means. *)

From Stdlib Require Import QArith Qabs Lqa.
From stdpp Require Import base list strings numbers.
From S2P Require Import Prelude Double Calendar Regex Json Loads Evidence.

Set Default Proof Using "Type".

(** ** Values by their path *)

(** observation[k1][k2]... *)
Fixpoint at_path (v : json) (path : list str) : option json :=
  match path with
  | [] => Some v
  | key :: path =>
    match v with
    | JObj d => match dict_get str_eqb d key with Some v => at_path v path | None => None end
    | _ => None
    end
  end.

Section readings.
Context {U : UnicodeDb}.

Definition safe (s : str) : Prop :=
  contains (u "://") s = false /\ re_fullmatch SAFE_IDENTIFIER s = true.
Definition hash (s : str) : Prop := re_fullmatch SHA256 s = true.

(** A finite number, and the float it is read as. *)
Definition numeric (v : json) (q : Q) : Prop :=
  match v with JInt z => float_of_Z z = Ok q | JFloat r => r = q | _ => False end.
(** A timestamp with an offset, of the years 1 to 9999 *)
Definition instant (v : json) (t : Z) : Prop :=
  match v with
  | JStr s => fromisoformat (replace_zulu s) = Some (t, true) /\ in_datetime_range t = true
  | _ => False
  end.
(** [P] holds of the value at the path. *)
Definition holds (v : json) (path : list str) (P : json -> Prop) : Prop :=
  exists w, at_path v path = Some w /\ P w.

Definition moment_at (v : json) (path : list str) (t : Z) : Prop :=
  holds v path (fun w => instant w t).
Definition count_at (v : json) (path : list str) (z : Z) : Prop := holds v path (eq (JInt z)).
Definition amount_at (v : json) (path : list str) (q : Q) : Prop :=
  holds v path (fun w => numeric w q).
Definition flag_at (v : json) (path : list str) (b : bool) : Prop := holds v path (eq (JBool b)).
Definition text_at (v : json) (path : list str) (s : str) : Prop := holds v path (eq (JStr s)).
(** The instants of a timeline are those of the object at the path. *)
Definition timeline_at (v : json) (path : list str) (times : timeline) : Prop :=
  Forall (fun kt => moment_at v (path ++ [fst kt]) (snd kt)) times.

Lemma holds_here d key path P v :
  dict_get str_eqb d key = Some v -> holds v path P -> holds (JObj d) (key :: path) P.
Proof. intros Hv (w & Hw & HP). exists w. cbn. by rewrite Hv. Qed.
Lemma holds_nil v (P : json -> Prop) : P v -> holds v [] P.
Proof. by exists v. Qed.

(** ** Accepted values *)

Lemma value_error_not {A} parts (a : A) : value_error parts = Ok a -> False.
Proof. done. Qed.

Lemma require_mapping_Ok v l d : require_mapping v l = Ok d -> v = JObj d.
Proof. destruct v; cbn; try done. by intros [= ->]. Qed.
Lemma require_bool_Ok v l b : require_bool v l = Ok b -> v = JBool b.
Proof. destruct v; cbn; try done. by intros [= ->]. Qed.
Lemma non_negative_int_Ok v l z : non_negative_int v l = Ok z -> v = JInt z /\ 0 <= z.
Proof.
  unfold non_negative_int. destruct v; try done. destruct (Z.ltb_spec z0 0); [done|]. by intros [= ->].
Qed.
Lemma positive_int_Ok v l z : positive_int v l = Ok z -> v = JInt z /\ 0 < z.
Proof.
  unfold positive_int. intros (n & [-> Hn]%non_negative_int_Ok & H)%obind_Ok.
  destruct (Z.eqb_spec n 0); [done|]. injection H as ->. split; [done|lia].
Qed.
Lemma non_negative_number_Ok v l q : non_negative_number v l = Ok q -> numeric v q /\ (0 <= q)%Q.
Proof.
  unfold non_negative_number. destruct v; try done.
  - intros (r & Hr & H)%obind_Ok. destruct (Qle_bool 0 r) eqn:E; [|done]. injection H as ->.
    split; [done|]. by apply Qle_bool_iff.
  - destruct (Qle_bool 0 q0) eqn:E; [|done]. intros [= ->]. split; [done|]. by apply Qle_bool_iff.
Qed.
Lemma positive_number_Ok v l q : positive_number v l = Ok q -> numeric v q /\ (0 < q)%Q.
Proof.
  unfold positive_number. intros (r & [Hv Hr]%non_negative_number_Ok & H)%obind_Ok.
  destruct (Qeq_bool r 0) eqn:E; [done|]. injection H as ->. split; [done|].
  apply Qeq_bool_neq in E. apply Qle_lteq in Hr as [|Hr]; [done|]. destruct E. by symmetry.
Qed.
Lemma percentage_Ok v l q : percentage v l = Ok q -> numeric v q /\ (0 <= q <= 100)%Q.
Proof.
  unfold percentage. intros (r & [Hv Hr]%non_negative_number_Ok & H)%obind_Ok.
  destruct (Qle_bool r 100) eqn:E; [|done]. injection H as ->. apply Qle_bool_iff in E. done.
Qed.
Lemma safe_identifier_Ok v l s : safe_identifier v l = Ok s -> v = JStr s /\ safe s.
Proof.
  unfold safe_identifier. destruct v; try done. unfold safe.
  destruct (contains _ _) eqn:E1, (re_fullmatch _ _) eqn:E2; try done. by intros [= ->].
Qed.
Lemma safe_identifier_safe s l : safe s -> safe_identifier (JStr s) l = Ok s.
Proof. intros [H1 H2]. unfold safe_identifier. by rewrite H1, H2. Qed.
Lemma sha256_value_Ok v l s : sha256_value v l = Ok s -> v = JStr s /\ hash s.
Proof.
  unfold sha256_value. destruct v; try done. unfold hash.
  destruct (re_fullmatch SHA256 s0) eqn:E; [|done]. by intros [= <-].
Qed.
Lemma parse_timestamp_Ok v l t : parse_timestamp v l = Ok t -> instant v t.
Proof.
  unfold parse_timestamp, instant. destruct v; try done.
  destruct (fromisoformat _) as [[t' []]|]; try done.
  destruct (in_datetime_range t') eqn:E; [|done]. by intros [= ->].
Qed.
Lemma instant_range v t : instant v t -> in_datetime_range t = true.
Proof. destruct v; cbn; try done. tauto. Qed.

Lemma at_key_Ok {A} (check : json -> str -> outcome A) d l k a :
  at_key check d l k = Ok a ->
  exists v, dict_get str_eqb d k = Some v /\ check v (dotted l k) = Ok a.
Proof.
  unfold at_key, item, jindex. destruct (dict_get _ _ _) as [v|]; [|done]. cbn. eauto.
Qed.
Lemma at_top_Ok {A} (check : json -> str -> outcome A) d k a :
  at_top check d k = Ok a ->
  exists v, dict_get str_eqb d k = Some v /\ check v k = Ok a.
Proof.
  unfold at_top, item, jindex. destruct (dict_get _ _ _) as [v|]; [|done]. cbn. eauto.
Qed.
Lemma section_Ok d k keys s :
  section d k keys = Ok s ->
  dict_get str_eqb d k = Some (JObj s) /\ require_exact_keys s keys k = Ok tt.
Proof.
  unfold section. intros (s' & (v & Hv & ->%require_mapping_Ok)%at_top_Ok & H)%obind_Ok.
  apply obind_Ok in H as ([] & Hk & [= <-]). done.
Qed.

(** ** Field names *)

Lemma lacking_nil a b : lacking a b = [] <-> forall k, k ∈ a -> k ∈ b.
Proof.
  unfold lacking. induction a as [|x a IH]; cbn.
  - split; [|done]. by intros _ k Hk%elem_of_nil.
  - destruct (existsb (str_eqb x) b) eqn:E; cbn.
    + rewrite IH. apply existsb_exists in E as (y & Hy & ->%str_eqb_eq).
      apply list_elem_of_In in Hy. split.
      * intros H k [->|Hk]%elem_of_cons; auto.
      * intros H k Hk. apply H. by apply elem_of_cons; right.
    + split; [done|]. intros H. specialize (H x ltac:(apply elem_of_cons; by left)).
      apply not_true_iff_false in E. destruct E. apply existsb_exists. exists x.
      rewrite <-list_elem_of_In, str_eqb_eq. done.
Qed.
Lemma require_exact_keys_Ok d keys l :
  require_exact_keys d keys l = Ok tt <-> forall k, k ∈ keys <-> k ∈ map fst d.
Proof.
  assert (Hd : forall w ks, field_details w ks = [] <-> ks = []) by by destruct ks.
  unfold require_exact_keys. split.
  - destruct (_ ++ _) eqn:E; [|done]. intros _. apply app_nil in E as [E1%Hd E2%Hd].
    rewrite lacking_nil in E1, E2. intros k. split; auto.
  - intros H. rewrite (proj2 (lacking_nil keys (map fst d))), (proj2 (lacking_nil (map fst d) keys)).
    + done.
    + intros k Hk. by apply H.
    + intros k Hk. by apply H.
Qed.

(** ** Timestamps *)

(** What a verifier wrote of an instant, it reads as that instant. *)
Lemma reread_Ok t l : in_datetime_range t = true -> reread t l = Ok t.
Proof.
  intros Ht. unfold reread, parse_timestamp.
  rewrite replace_zulu_timestamp, fromisoformat_isoformat by done. by rewrite Ht.
Qed.
Lemma timestamp_instant t : in_datetime_range t = true -> instant (JStr (utc_timestamp t)) t.
Proof.
  intros Ht. cbn. by rewrite replace_zulu_timestamp, fromisoformat_isoformat by done.
Qed.

Lemma at_keys_Ok {A} (check : json -> str -> outcome A) d l keys r :
  at_keys check d l keys = Ok r ->
  map fst r = keys /\ Forall (fun ka => at_key check d l (fst ka) = Ok (snd ka)) r.
Proof.
  intros H%omap_list_Ok. induction H as [|k [k' a] keys r Hk H IH]; [done|].
  apply obind_Ok in Hk as (a' & Ha & [= <- <-]). destruct IH as [IH1 IH2].
  split; [cbn; by rewrite IH1|]. by constructor.
Qed.

(** An accepted timeline lists the instants of its keys in time order. *)
Lemma ordered_timestamps_Ok d keys l times :
  ordered_timestamps d keys l = Ok times ->
  map fst times = keys /\ chronological (map snd times) = true
  /\ timeline_at (JObj d) [] times.
Proof.
  unfold ordered_timestamps. intros (r & [Hk Hr]%at_keys_Ok & H)%obind_Ok.
  destruct (chronological _) eqn:E; [|done]. injection H as ->. split_and!; [done..|].
  apply (Forall_weaken _ _ _ Hr). intros [k t] (v & Hv & Ht%parse_timestamp_Ok)%at_key_Ok.
  eapply holds_here; [exact Hv|by apply holds_nil].
Qed.

Lemma moment_at_range v path t : moment_at v path t -> in_datetime_range t = true.
Proof. intros (w & _ & Hw). by eapply instant_range. Qed.

(** A timeline that is read again is unchanged. *)
Lemma dict_get_NoDup {V} (d : list (str * V)) k v :
  NoDup (map fst d) -> (k, v) ∈ d -> dict_get str_eqb d k = Some v.
Proof.
  induction d as [|[k' v'] d IH]; cbn [map fst dict_get]; [by intros _ ?%elem_of_nil|].
  intros [Hn Hd]%list.NoDup_cons [[= -> ->]|H]%elem_of_cons; [by rewrite str_eqb_refl|].
  destruct (str_eqb k k') eqn:E; [|auto]. apply str_eqb_eq in E as ->. destruct Hn.
  apply list_elem_of_In, in_map_iff. exists (k', v). by rewrite <-list_elem_of_In.
Qed.
Lemma omap_list_values {A} (f : str -> outcome A) (d : list (str * A)) :
  Forall (fun ka => f (fst ka) = Ok (snd ka)) d -> omap_list f (map fst d) = Ok (map snd d).
Proof.
  induction 1 as [|[k a] d Hk _ IH]; [done|]. cbn [map fst snd omap_list] in *. by rewrite Hk, IH.
Qed.
Lemma reread_timeline (times : timeline) (label : str -> str) :
  NoDup (map fst times) -> Forall (fun t => in_datetime_range t = true) (map snd times) ->
  omap_list (fun key => obind (moment times key) (fun t => reread t (label key))) (map fst times)
  = Ok (map snd times).
Proof.
  intros Hn Hr. apply omap_list_values, Forall_forall. intros [k t] Hk. cbn [fst snd].
  apply list_elem_of_In in Hk. unfold moment. rewrite (dict_get_NoDup _ _ _ Hn Hk). cbn [obind].
  apply reread_Ok. rewrite Forall_forall in Hr. apply Hr. apply in_map_iff.
  exists (k, t). by rewrite <-list_elem_of_In.
Qed.
Lemma timeline_at_range v path times :
  timeline_at v path times -> Forall (fun t => in_datetime_range t = true) (map snd times).
Proof.
  intros H. apply Forall_map. apply (Forall_weaken _ _ _ H). intros kt Hk. cbn.
  by eapply moment_at_range.
Qed.

Lemma timeline_here d key v path times :
  dict_get str_eqb d key = Some v -> timeline_at v path times ->
  timeline_at (JObj d) (key :: path) times.
Proof.
  intros Hv H. apply (Forall_weaken _ _ _ H). intros kt Hk. by eapply holds_here.
Qed.
(** The flags of an object, by their names *)
Definition flags_at (v : json) (path : list str) (flags : list (str * bool)) : Prop :=
  Forall (fun kb => flag_at v (path ++ [fst kb]) (snd kb)) flags.
Lemma at_keys_flags d label keys flags :
  at_keys require_bool d label keys = Ok flags ->
  map fst flags = keys /\ flags_at (JObj d) [] flags.
Proof.
  intros [Hk H]%at_keys_Ok. split; [done|]. apply (Forall_weaken _ _ _ H).
  intros [k b] (v & Hv & ->%require_bool_Ok)%at_key_Ok. by eapply holds_here, holds_nil.
Qed.
Lemma flags_here d key v path flags :
  dict_get str_eqb d key = Some v -> flags_at v path flags ->
  flags_at (JObj d) (key :: path) flags.
Proof.
  intros Hv H. apply (Forall_weaken _ _ _ H). intros kt Hk. by eapply holds_here.
Qed.

(** The error of a recorded duration, for instants of the calendar *)
Lemma duration_error a b :
  in_datetime_range a = true -> in_datetime_range b = true ->
  (Qabs (duration_seconds a b - (b - a # 1000000)) <= 6 # 10000)%Q.
Proof.
  unfold in_datetime_range. intros Ha Hb. apply recorded_seconds_error. lia.
Qed.

Lemma parse_window_Ok d s c :
  parse_window d = Ok (s, c) ->
  moment_at (JObj d) [u "started_at"] s /\ moment_at (JObj d) [u "completed_at"] c /\ s < c.
Proof.
  unfold parse_window. intros (s' & (v & Hv & Hs%parse_timestamp_Ok)%at_top_Ok & H)%obind_Ok.
  apply obind_Ok in H as (c' & (w & Hw & Hc%parse_timestamp_Ok)%at_top_Ok & H).
  destruct (Z.leb_spec c' s'); [done|]. injection H as -> ->.
  split_and!; [by eapply holds_here, holds_nil..|done].
Qed.
End readings.

(** Takes apart the hypotheses that say that readings succeeded. *)
Ltac invert_reads := repeat match goal with
  | x : unit |- _ => destruct x
  | H : obind _ _ = Ok _ |- _ => apply obind_Ok in H as (? & ? & H)
  | H : value_error _ = Ok _ |- _ => destruct (value_error_not _ _ H)
  | H : (if ?b then value_error _ else _) = Ok _ |- _ => destruct b eqn:?
  | H : (if ?b then _ else value_error _) = Ok _ |- _ => destruct b eqn:?
  | H : Ok _ = Ok _ |- _ => injection H; clear H; intros; subst
  | H : JObj _ = JObj _ |- _ => injection H; clear H; intros; subst
  | H : negb _ = false |- _ => apply negb_false_iff in H
  | H : (_ || _)%bool = false |- _ => apply orb_false_iff in H as [? H]
  | H : (_ && _)%bool = true |- _ => apply andb_true_iff in H as [? H]
  | H : Qle_bool _ _ = true |- _ => apply Qle_bool_iff in H
  | H : (_ <? _)%Z = false |- _ => apply Z.ltb_ge in H
  | H : (_ <=? _)%Z = true |- _ => apply Z.leb_le in H
  | H : (_ <=? _)%Z = false |- _ => apply Z.leb_gt in H
  | H : (_ <? _)%Z = true |- _ => apply Z.ltb_lt in H
  | H : negb _ = true |- _ => apply negb_true_iff in H
  | H : str_eqb _ _ = true |- _ => apply str_eqb_eq in H
  | H : str_eqb _ _ = false |- _ => apply str_eqb_neq in H
  | H : (_ =? _)%Z = true |- _ => apply Z.eqb_eq in H
  | H : (let '(_, _) := ?p in _) = Ok _ |- _ => destruct p
  | H : at_key _ _ _ _ = Ok _ |- _ => apply at_key_Ok in H as (? & ? & H)
  | H : at_top _ _ _ = Ok _ |- _ => apply at_top_Ok in H as (? & ? & H)
  | H : section _ _ _ = Ok _ |- _ => apply section_Ok in H as [? ?]
  | H : require_mapping _ _ = Ok _ |- _ => apply require_mapping_Ok in H; subst
  | H : require_bool _ _ = Ok _ |- _ => apply require_bool_Ok in H; subst
  | H : non_negative_int _ _ = Ok _ |- _ => apply non_negative_int_Ok in H as [-> H]
  | H : positive_int _ _ = Ok _ |- _ => apply positive_int_Ok in H as [-> H]
  | H : non_negative_number _ _ = Ok _ |- _ => apply non_negative_number_Ok in H as [? H]
  | H : positive_number _ _ = Ok _ |- _ => apply positive_number_Ok in H as [? H]
  | H : percentage _ _ = Ok _ |- _ => apply percentage_Ok in H as [? H]
  | H : safe_identifier _ _ = Ok _ |- _ => apply safe_identifier_Ok in H as [-> H]
  | H : sha256_value _ _ = Ok _ |- _ => apply sha256_value_Ok in H as [-> H]
  | H : parse_timestamp _ _ = Ok _ |- _ => apply parse_timestamp_Ok in H
  end.
(** Names the instants of an accepted timeline, whose keys are known. *)
Ltac open_timeline := match goal with
  | H : ordered_timestamps _ _ _ = Ok ?times |- _ =>
    let Hk := fresh "Hk" in let Hc := fresh "Hc" in let Ht := fresh "Ht" in
    apply ordered_timestamps_Ok in H as (Hk & Hc & Ht);
    repeat (destruct times as [|[? ?] times]; [discriminate Hk|];
            cbn [map fst] in Hk; injection Hk as -> Hk);
    destruct times as [|? ?]; [clear Hk|discriminate Hk];
    cbn [map snd chronological] in Hc; rewrite ?andb_true_r in Hc; invert_reads;
    unfold timeline_at in Ht; cbn [app] in Ht;
    repeat (apply Forall_cons_1 in Ht as [? Ht]); cbn [fst snd] in *
  end;
  repeat match goal with H : moment _ _ = Ok _ |- _ => injection H as <- end.
(** Finds the value at a path. *)
Ltac at_its_path :=
  unfold moment_at, count_at, amount_at, flag_at, text_at;
  repeat match goal with
    H : dict_get str_eqb ?d ?k = Some ?v |- holds (JObj ?d') (?k' :: ?p) ?P =>
    constr_eq d d'; constr_eq k k'; refine (holds_here d k p P v H _) end;
  match goal with
  | H : moment_at ?v ?p _ |- holds ?v' ?p' _ => constr_eq v v'; constr_eq p p'; exact H
  | |- holds _ [] _ => apply holds_nil; first [reflexivity|eassumption|eauto]
  end.

(** min([x, *l]) and max([x, *l]) *)
Lemma fold_min_ge (l : list Z) x b : b <= fold_left Z.min l x <-> b <= x /\ Forall (Z.le b) l.
Proof.
  revert x. induction l as [|y l IH]; intros x; cbn [fold_left].
  - split; [|tauto]. intros H. split; [done|constructor].
  - rewrite IH, Forall_cons_iff. split; [intros [H1 H2]|intros (H1 & H2 & H3)]; split_and!; done || lia.
Qed.
Lemma fold_max_le (l : list Z) x b :
  fold_left Z.max l x <= b <-> x <= b /\ Forall (fun y => y <= b) l.
Proof.
  revert x. induction l as [|y l IH]; intros x; cbn [fold_left].
  - split; [|tauto]. intros H. split; [done|constructor].
  - rewrite IH, Forall_cons_iff. split; [intros [H1 H2]|intros (H1 & H2 & H3)]; split_and!; done || lia.
Qed.

(** ** Limits *)

(** A recorded duration that keeps a limit, and the duration it was recorded of. *)
Definition seconds (us : Z) : Q := us # 1000000.
Definition within_limit (us : Z) (l : limit) : Prop := (seconds us <= limit_value l + (6 # 10000))%Q.
Definition beyond_limit (us : Z) (l : limit) : Prop := (limit_value l - (6 # 10000) <= seconds us)%Q.
Lemma at_most_within a b l :
  in_datetime_range a = true -> in_datetime_range b = true ->
  at_most (duration_seconds a b) l = true -> within_limit (b - a) l.
Proof.
  intros Ha Hb H%Qle_bool_iff. pose proof (duration_error a b Ha Hb) as He.
  apply Qabs_Qle_condition in He as [He _]. unfold within_limit, seconds. lra.
Qed.
Lemma at_least_beyond a b l :
  in_datetime_range a = true -> in_datetime_range b = true ->
  at_least (duration_seconds a b) l = true -> beyond_limit (b - a) l.
Proof.
  intros Ha Hb H%Qle_bool_iff. pose proof (duration_error a b Ha Hb) as He.
  apply Qabs_Qle_condition in He as [_ He]. unfold beyond_limit, seconds. lra.
Qed.

Lemma limits_ok_Forall ok ls :
  limits_ok ok ls = true -> Forall (fun l => exists q, finite l = Some q /\ ok q = true) ls.
Proof.
  unfold limits_ok. rewrite forallb_forall, Forall_forall. intros H l Hl%H.
  destruct (finite l) as [q|]; [|done]. eauto.
Qed.
Lemma limits_ok_nonneg ls :
  limits_ok (Qle_bool 0) ls = true -> Forall (fun l => exists q, finite l = Some q /\ (0 <= q)%Q) ls.
Proof.
  intros H%limits_ok_Forall. apply (Forall_weaken _ _ _ H). intros l (q & Hq & H0%Qle_bool_iff).
  eauto.
Qed.
Lemma all_pass_Forall cs : all_pass cs = true -> Forall (fun kb => snd kb = true) cs.
Proof.
  unfold all_pass. rewrite forallb_forall, Forall_forall. done.
Qed.

(** ** Values that a reading does not depend on *)

Lemma obind_ext {A B} (o : outcome A) (f g : A -> outcome B) :
  (forall a, f a = g a) -> obind o f = obind o g.
Proof. intros H. destruct o; [apply H|done]. Qed.

Lemma omapo_obind_ext {A B C} (f : B -> C) (o : outcome A) (k k' : A -> outcome B) :
  (forall a, omapo f (k a) = omapo f (k' a)) -> omapo f (obind o k) = omapo f (obind o k').
Proof. intros H. destruct o; [apply H|done]. Qed.

Section agreement.
Context {U : UnicodeDb}.
(** Objects with the same keys and, but for the values of [keys], the same values *)
Definition agree_but (keys : list str) (d d' : mapping) : Prop :=
  map fst d = map fst d'
  /\ forall k, ~ (k ∈ keys) -> dict_get str_eqb d k = dict_get str_eqb d' k.
Definition identifier_at (d : mapping) (key : str) : Prop :=
  exists s, dict_get str_eqb d key = Some (JStr s) /\ safe s.

Lemma agree_but_set d key v :
  key ∈ map fst d -> agree_but [key] d (dict_set str_eqb d key v).
Proof.
  intros Hk. split.
  - induction d as [|[k w] d IH]; [by apply elem_of_nil in Hk|]. cbn [dict_set map fst] in *.
    destruct (str_eqb key k) eqn:E; [done|]. cbn [map fst]. rewrite <-IH; [done|].
    apply str_eqb_neq in E. by apply elem_of_cons in Hk as [|].
  - intros k Hn. rewrite (dict_get_set _ str_eqb_eq). destruct (str_eqb k key) eqn:E; [|done].
    apply str_eqb_eq in E as ->. destruct Hn. apply elem_of_cons. by left.
Qed.
Lemma agree_but_trans keys keys' d d' d'' :
  agree_but keys d d' -> agree_but keys' d' d'' -> agree_but (keys ++ keys') d d''.
Proof.
  intros [H1 H2] [H3 H4]. split; [congruence|]. intros k Hk.
  rewrite H2, H4; [done|..]; intros Hn; apply Hk, elem_of_app; auto.
Qed.
Definition identifier_under (d : mapping) (key : str) : bool :=
  match dict_get str_eqb d key with
  | Some (JStr s) => negb (contains (u "://") s) && re_fullmatch SAFE_IDENTIFIER s
  | _ => false
  end.
Lemma identifier_under_spec d key : identifier_under d key = true -> identifier_at d key.
Proof.
  unfold identifier_under, identifier_at, safe. destruct (dict_get _ _ _) as [[]|]; try done.
  intros [H1%negb_true_iff H2]%andb_true_iff. eauto.
Qed.
Lemma renamed_identifier d key s :
  identifier_under d key = true -> safe s ->
  agree_but [key] d (dict_set str_eqb d key (JStr s))
  /\ identifier_at d key /\ identifier_at (dict_set str_eqb d key (JStr s)) key.
Proof.
  intros H Hs. pose proof H as Hi%identifier_under_spec. split_and!; [|done|].
  - apply agree_but_set. destruct Hi as (x & Hx & _).
    apply (dict_get_Some_In _ str_eqb_eq), (in_map fst) in Hx. by apply list_elem_of_In.
  - exists s. split; [|done]. rewrite (dict_get_set _ str_eqb_eq). by rewrite str_eqb_refl.
Qed.

Lemma at_key_agree {A} (check : json -> str -> outcome A) keys d d' l k :
  agree_but keys d d' -> existsb (str_eqb k) keys = false -> at_key check d l k = at_key check d' l k.
Proof.
  intros [_ H] Hk. unfold at_key, item, jindex. rewrite (H k); [done|]. intros Hin.
  apply not_true_iff_false in Hk. destruct Hk. apply existsb_exists. exists k.
  by rewrite <-list_elem_of_In, str_eqb_refl.
Qed.
Lemma at_top_agree {A} (check : json -> str -> outcome A) keys d d' k :
  agree_but keys d d' -> existsb (str_eqb k) keys = false -> at_top check d k = at_top check d' k.
Proof.
  intros [_ H] Hk. unfold at_top, item, jindex. rewrite (H k); [done|]. intros Hin.
  apply not_true_iff_false in Hk. destruct Hk. apply existsb_exists. exists k.
  by rewrite <-list_elem_of_In, str_eqb_refl.
Qed.
Lemma section_agree keys d d' k expected :
  agree_but keys d d' -> existsb (str_eqb k) keys = false ->
  section d k expected = section d' k expected.
Proof. intros H Hk. unfold section. by rewrite (at_top_agree _ _ _ _ _ H Hk). Qed.
Lemma exact_keys_agree keys d d' expected l :
  agree_but keys d d' -> require_exact_keys d expected l = require_exact_keys d' expected l.
Proof. intros [H _]. unfold require_exact_keys. by rewrite H. Qed.
Lemma require_schema_agree keys d d' :
  agree_but keys d d' -> existsb (str_eqb (u "schema_version")) keys = false ->
  require_schema d = require_schema d'.
Proof.
  intros H Hk. apply (at_top_agree (fun v _ => if is_one v then Ok tt else _) _ _ _ _ H Hk).
Qed.
Lemma parse_window_agree keys d d' :
  agree_but keys d d' -> existsb (str_eqb (u "started_at")) keys = false ->
  existsb (str_eqb (u "completed_at")) keys = false -> parse_window d = parse_window d'.
Proof.
  intros H H1 H2. unfold parse_window. rewrite (at_top_agree _ _ _ _ _ H H1).
  apply obind_ext. intros s. by rewrite (at_top_agree _ _ _ _ _ H H2).
Qed.
Lemma at_key_identifier d l k :
  identifier_at d k -> exists s, at_key safe_identifier d l k = Ok s.
Proof.
  intros (s & Hd & Hs). exists s. unfold at_key, item, jindex. rewrite Hd. cbn [obind].
  by apply safe_identifier_safe.
Qed.
Lemma at_top_identifier d k : identifier_at d k -> exists s, at_top safe_identifier d k = Ok s.
Proof.
  intros (s & Hd & Hs). exists s. unfold at_top, item, jindex. rewrite Hd. cbn [obind].
  by apply safe_identifier_safe.
Qed.
End agreement.

(** ** Scripts *)

Lemma load_observation_Ok sha256 file d h :
  load_observation sha256 file = Ok (d, h) ->
  exists raw, file = Some raw /\ 0 < Z.of_nat (length raw) <= MAX_INPUT_BYTES
    /\ json_loads raw = inl (JObj d) /\ h = sha256 raw.
Proof.
  unfold load_observation. destruct file as [raw|]; [|done].
  destruct (_ && _) eqn:E; [|done]. apply andb_true_iff in E as [E1 E2].
  destruct (json_loads raw) as [v|[]] eqn:Ej; try done.
  intros (d' & ->%require_mapping_Ok & [= -> <-])%obind_Ok. exists raw. split_and!; try done; lia.
Qed.

(** A script that writes a document with status 0 was given an object to read, which the
    verifier accepted and passed. *)
Lemma main_passed sha256 same file compile doc :
  main sha256 same file compile = Written doc 0 ->
  same = false /\ exists raw d, file = Some raw /\ json_loads raw = inl (JObj d)
    /\ compile d (sha256 raw) = Ok (doc, true).
Proof.
  unfold main. destruct (obind _ _) as [[doc' passed]|e] eqn:E; [|by destruct e].
  intros [= <- Hs]. destruct passed; [|done].
  apply obind_Ok in E as ([] & Hsame & E). apply obind_Ok in E as ([d h] & Hl & E).
  apply load_observation_Ok in Hl as (raw & -> & _ & Hj & ->).
  split; [by destruct same|]. exists raw, d. done.
Qed.

(** The bytes of an ASCII file written with apostrophes for its quotation marks. *)
Definition file_of (text : string) : list N :=
  map (fun c => if (c =? 39)%N then 34%N else c) (u text).
