(* ===== verification/SoakEvidence.v ===== *)
(** * Evidence of a worker soak (ops/worker/verify_soak_evidence.py)

    The observation of a soak is read section by section into records; the events must lie
    within the soak; nine checks decide whether the soak passed; the document repeats what
    was read, with the checks. *)

From Stdlib Require Import QArith.
From stdpp Require Import base list strings numbers.
From S2P Require Import Prelude Double Calendar Json Evidence.

Set Default Proof Using "Type".

Definition TOP_LEVEL_KEYS : list str := map u [
  "schema_version"; "soak_id"; "source_revision"; "environment"; "started_at"; "completed_at";
  "load_profile"; "resource_limits"; "provider_profile"; "fault_injection"; "results";
  "resource_observation"; "capacity_recommendation"; "artifacts"]%string.

Record Provider := {
  pv_requests : Z; pv_p50 : Q; pv_p95 : Q;
  pv_rate_limits : Z; pv_transient : Z; pv_retry_successes : Z }.
Record Fault := {
  ft_timeline : timeline; ft_count_key : str; ft_count : Z; ft_lost_jobs : Z;
  ft_recovery : Q; ft_extra : list (str * str) }.
Record LoadProfile := {
  lp_jobs : Z; lp_arrival_rate : Q; lp_burst_size : Z; lp_concurrency : Z;
  lp_planned_duration : Q }.
Record ResourceLimits := {
  rl_replicas : Z; rl_cpu_cores : Q; rl_memory_mib : Q; rl_pool_size : Z;
  rl_max_connections : Z; rl_redis_mib : Q }.
Record Results := {
  rs_completed_jobs : Z; rs_throughput : Q; rs_start_p95 : Q; rs_completion_p95 : Q;
  rs_start_slo : Q; rs_completion_slo : Q; rs_duplicates : Z; rs_lost_jobs : Z;
  rs_exactly_once : bool; rs_queue_drained : bool }.
Record ResourceObservation := {
  ro_captured_at : Z; ro_cpu_peak : Q; ro_memory_peak : Q; ro_pool_peak : Z;
  ro_total_peak : Z; ro_redis_peak : Q }.
Record Capacity := {
  cp_max_rate : Q; cp_recommended_rate : Q; cp_recommended_replicas : Z; cp_headroom : Q;
  cp_limiting_resource : str; cp_owner_documented : bool; cp_reviewed : bool }.
Record Artifacts := {
  ar_runner_sha256 : str; ar_telemetry_sha256 : str; ar_provider_audit_sha256 : str;
  ar_secret_scan_matches : Z }.
Record Thresholds := {
  th_min_duration : limit; th_min_slo : limit; th_max_utilization : limit;
  th_max_recovery : limit }.
Record Report := {
  rp_checked_at : Z; rp_soak_id : str; rp_source_revision : str; rp_environment : str;
  rp_started_at : Z; rp_completed_at : Z; rp_load : LoadProfile; rp_limits : ResourceLimits;
  rp_github : Provider; rp_llm : Provider;
  rp_termination : Fault; rp_lease : Fault; rp_interruption : Fault;
  rp_results : Results; rp_resources : ResourceObservation; rp_capacity : Capacity;
  rp_artifacts : Artifacts; rp_thresholds : Thresholds; rp_input_sha256 : str }.

Section soak.
Context {U : UnicodeDb}.

(** ** Sections of the observation *)

Definition parse_provider (value : json) (label : str) : outcome Provider :=
  let! d := require_mapping value label in
  let! _ := require_exact_keys d
    [u "requests"; u "latency_p50_seconds"; u "latency_p95_seconds"; u "rate_limit_responses";
     u "transient_failures"; u "retry_successes"] label in
  let! requests := at_key positive_int d label (u "requests") in
  let! p50 := at_key positive_number d label (u "latency_p50_seconds") in
  let! p95 := at_key positive_number d label (u "latency_p95_seconds") in
  if negb (Qle_bool p50 p95) then
    value_error [label; u " p95 latency must not be lower than p50"]
  else
  let! rate_limits := at_key non_negative_int d label (u "rate_limit_responses") in
  let! transient := at_key non_negative_int d label (u "transient_failures") in
  let! retry_successes := at_key non_negative_int d label (u "retry_successes") in
  if (requests <? rate_limits + transient) || (rate_limits + transient <? retry_successes) then
    value_error [label; u " failure and retry counts are inconsistent"]
  else Ok {| pv_requests := requests; pv_p50 := p50; pv_p95 := p95; pv_rate_limits := rate_limits;
             pv_transient := transient; pv_retry_successes := retry_successes |}.

Definition parse_fault (value : json) (label count_key : str) (extra_keys : list str)
  : outcome Fault :=
  let! d := require_mapping value label in
  let! _ := require_exact_keys d
    ([u "injected_at"; u "recovered_at"; count_key; u "lost_jobs"] ++ extra_keys) label in
  let! times := ordered_timestamps d [u "injected_at"; u "recovered_at"] label in
  let! count := at_key positive_int d label count_key in
  let! lost_jobs := at_key non_negative_int d label (u "lost_jobs") in
  let! injected_at := moment times (u "injected_at") in
  let! recovered_at := moment times (u "recovered_at") in
  let! extra := at_keys safe_identifier d label extra_keys in
  Ok {| ft_timeline := times; ft_count_key := count_key; ft_count := count;
        ft_lost_jobs := lost_jobs; ft_recovery := duration_seconds injected_at recovered_at;
        ft_extra := extra |}.

Definition parse_load (observation : mapping) : outcome LoadProfile :=
  let l := u "load_profile" in
  let! load := section observation l
    [u "jobs"; u "arrival_rate_per_second"; u "burst_size"; u "concurrency";
     u "planned_duration_seconds"] in
  let! jobs := at_key positive_int load l (u "jobs") in
  let! rate := at_key positive_number load l (u "arrival_rate_per_second") in
  let! burst := at_key positive_int load l (u "burst_size") in
  let! concurrency := at_key positive_int load l (u "concurrency") in
  let! planned := at_key positive_number load l (u "planned_duration_seconds") in
  if jobs <? burst then value_error [u "load_profile.burst_size must not exceed jobs"]
  else Ok {| lp_jobs := jobs; lp_arrival_rate := rate; lp_burst_size := burst;
             lp_concurrency := concurrency; lp_planned_duration := planned |}.

Definition parse_limits (observation : mapping) : outcome ResourceLimits :=
  let l := u "resource_limits" in
  let! limits := section observation l
    [u "worker_replicas"; u "worker_cpu_cores_each"; u "worker_memory_mib_each";
     u "postgres_pool_size_each"; u "postgres_max_connections"; u "redis_maxmemory_mib"] in
  let! replicas := at_key positive_int limits l (u "worker_replicas") in
  let! cores := at_key positive_number limits l (u "worker_cpu_cores_each") in
  let! memory := at_key positive_number limits l (u "worker_memory_mib_each") in
  let! pool := at_key positive_int limits l (u "postgres_pool_size_each") in
  let! connections := at_key positive_int limits l (u "postgres_max_connections") in
  let! redis := at_key positive_number limits l (u "redis_maxmemory_mib") in
  Ok {| rl_replicas := replicas; rl_cpu_cores := cores; rl_memory_mib := memory;
        rl_pool_size := pool; rl_max_connections := connections; rl_redis_mib := redis |}.

(** github, then llm *)
Definition parse_providers (observation : mapping) : outcome (Provider * Provider) :=
  let! providers := section observation (u "provider_profile") [u "github"; u "llm"] in
  let! github := at_key parse_provider providers (u "provider_profile") (u "github") in
  let! llm := at_key parse_provider providers (u "provider_profile") (u "llm") in
  Ok (github, llm).

Definition fault_at (faults : mapping) (name count_key : str) (extra_keys : list str)
  : outcome Fault :=
  at_key (fun value label => parse_fault value label count_key extra_keys)
    faults (u "fault_injection") name.
Definition parse_faults (observation : mapping) : outcome (Fault * Fault * Fault) :=
  let! faults := section observation (u "fault_injection")
    [u "worker_termination"; u "expired_lease"; u "network_interruption"] in
  let! termination := fault_at faults (u "worker_termination") (u "workers") [] in
  let! lease := fault_at faults (u "expired_lease") (u "recovered_jobs") [] in
  let! interruption :=
    fault_at faults (u "network_interruption") (u "interruptions") [u "target"] in
  Ok (termination, lease, interruption).

Definition parse_results (observation : mapping) : outcome Results :=
  let l := u "results" in
  let! results := section observation l
    [u "completed_jobs"; u "throughput_jobs_per_second"; u "start_latency_p95_seconds";
     u "completion_latency_p95_seconds"; u "start_slo_attainment_percent";
     u "completion_slo_attainment_percent"; u "duplicate_completions"; u "lost_jobs";
     u "exactly_once"; u "queue_drained"] in
  let! completed := at_key non_negative_int results l (u "completed_jobs") in
  let! throughput := at_key positive_number results l (u "throughput_jobs_per_second") in
  let! start_p95 := at_key non_negative_number results l (u "start_latency_p95_seconds") in
  let! completion_p95 := at_key non_negative_number results l (u "completion_latency_p95_seconds") in
  let! start_slo := at_key percentage results l (u "start_slo_attainment_percent") in
  let! completion_slo := at_key percentage results l (u "completion_slo_attainment_percent") in
  let! duplicates := at_key non_negative_int results l (u "duplicate_completions") in
  let! lost := at_key non_negative_int results l (u "lost_jobs") in
  let! exactly_once := at_key require_bool results l (u "exactly_once") in
  let! drained := at_key require_bool results l (u "queue_drained") in
  Ok {| rs_completed_jobs := completed; rs_throughput := throughput; rs_start_p95 := start_p95;
        rs_completion_p95 := completion_p95; rs_start_slo := start_slo;
        rs_completion_slo := completion_slo; rs_duplicates := duplicates; rs_lost_jobs := lost;
        rs_exactly_once := exactly_once; rs_queue_drained := drained |}.

Definition parse_resources (observation : mapping) : outcome ResourceObservation :=
  let l := u "resource_observation" in
  let! resources := section observation l
    [u "captured_at"; u "worker_cpu_peak_percent"; u "worker_memory_peak_percent";
     u "postgres_pool_peak_connections"; u "postgres_total_peak_connections";
     u "redis_memory_peak_percent"] in
  let! cpu := at_key percentage resources l (u "worker_cpu_peak_percent") in
  let! memory := at_key percentage resources l (u "worker_memory_peak_percent") in
  let! pool := at_key positive_int resources l (u "postgres_pool_peak_connections") in
  let! total := at_key positive_int resources l (u "postgres_total_peak_connections") in
  let! redis := at_key percentage resources l (u "redis_memory_peak_percent") in
  let! captured_at := at_key parse_timestamp resources l (u "captured_at") in
  Ok {| ro_captured_at := captured_at; ro_cpu_peak := cpu; ro_memory_peak := memory;
        ro_pool_peak := pool; ro_total_peak := total; ro_redis_peak := redis |}.

Definition parse_capacity (observation : mapping) : outcome Capacity :=
  let l := u "capacity_recommendation" in
  let! capacity := section observation l
    [u "max_sustained_rate_per_second"; u "recommended_rate_per_second";
     u "recommended_worker_replicas"; u "headroom_percent"; u "limiting_resource";
     u "owner"; u "reviewed"] in
  let! max_rate := at_key positive_number capacity l (u "max_sustained_rate_per_second") in
  let! rate := at_key positive_number capacity l (u "recommended_rate_per_second") in
  let! headroom := at_key percentage capacity l (u "headroom_percent") in
  let! reviewed := at_key require_bool capacity l (u "reviewed") in
  let! replicas := at_key positive_int capacity l (u "recommended_worker_replicas") in
  let! limiting := at_key safe_identifier capacity l (u "limiting_resource") in
  let! owner := at_key safe_identifier capacity l (u "owner") in
  Ok {| cp_max_rate := max_rate; cp_recommended_rate := rate; cp_recommended_replicas := replicas;
        cp_headroom := headroom; cp_limiting_resource := limiting;
        cp_owner_documented := jtruthy (JStr owner); cp_reviewed := reviewed |}.

Definition parse_artifacts (observation : mapping) : outcome Artifacts :=
  let l := u "artifacts" in
  let! artifacts := section observation l
    [u "runner_sha256"; u "telemetry_sha256"; u "provider_audit_sha256";
     u "secret_scan_matches"] in
  let! runner := at_key sha256_value artifacts l (u "runner_sha256") in
  let! telemetry := at_key sha256_value artifacts l (u "telemetry_sha256") in
  let! audit := at_key sha256_value artifacts l (u "provider_audit_sha256") in
  let! matches := at_key non_negative_int artifacts l (u "secret_scan_matches") in
  Ok {| ar_runner_sha256 := runner; ar_telemetry_sha256 := telemetry;
        ar_provider_audit_sha256 := audit; ar_secret_scan_matches := matches |}.

(** ** The report *)

Definition check_thresholds (th : Thresholds) : outcome unit :=
  if negb (limits_ok (Qle_bool 0)
             [th_min_duration th; th_min_slo th; th_max_utilization th; th_max_recovery th]) then
    value_error [u "thresholds must be non-negative finite numbers"]
  else if negb (at_least 100 (th_min_slo th)) || negb (at_least 100 (th_max_utilization th)) then
    value_error [u "percentage thresholds must not exceed 100"]
  else Ok tt.

(** The fault times, as they are read again from the parsed timelines *)
Definition fault_times (name : str) (fault : Fault) : outcome (list Z) :=
  omap_list (fun key =>
    let! t := moment (ft_timeline fault) key in
    reread t (dotted (dotted (u "fault_injection") name) key)) [u "injected_at"; u "recovered_at"].
(** All events lie within the soak, and the soak in the past. *)
Definition check_events (started_at completed_at now : Z) (termination lease interruption : Fault)
    (resources : ResourceObservation) : outcome unit :=
  let! t1 := fault_times (u "worker_termination") termination in
  let! t2 := fault_times (u "expired_lease") lease in
  let! t3 := fault_times (u "network_interruption") interruption in
  let! captured := reread (ro_captured_at resources) (u "resource_observation.captured_at") in
  let faults := t1 ++ t2 ++ t3 in
  if (fold_left Z.min faults captured <? started_at)
     || (completed_at <? fold_left Z.max faults captured) then
    value_error [u "resource and fault events must be within the soak window"]
  else if now <? completed_at then value_error [u "observation must not contain future events"]
  else Ok tt.

(** [checked_at] or the clock, as an instant *)
Definition compile_evidence (observation : mapping) (input_sha256 : str) (th : Thresholds)
    (checked_at : option Z) (clock : Z) : outcome Report :=
  let! _ := require_exact_keys observation TOP_LEVEL_KEYS (u "observation") in
  let! _ := require_schema observation in
  let! _ := check_thresholds th in
  let! soak_id := at_top safe_identifier observation (u "soak_id") in
  let! source_revision := at_top safe_identifier observation (u "source_revision") in
  let! environment := at_top safe_identifier observation (u "environment") in
  let! (started_at, completed_at) := parse_window observation in
  let! load := parse_load observation in
  let! limits := parse_limits observation in
  let! (github, llm) := parse_providers observation in
  let! (termination, lease, interruption) := parse_faults observation in
  let! results := parse_results observation in
  let! resources := parse_resources observation in
  let! capacity := parse_capacity observation in
  let! artifacts := parse_artifacts observation in
  let now := default clock checked_at in
  let! _ := check_events started_at completed_at now termination lease interruption resources in
  Ok {| rp_checked_at := now; rp_soak_id := soak_id; rp_source_revision := source_revision;
        rp_environment := environment; rp_started_at := started_at;
        rp_completed_at := completed_at; rp_load := load; rp_limits := limits;
        rp_github := github; rp_llm := llm; rp_termination := termination; rp_lease := lease;
        rp_interruption := interruption; rp_results := results; rp_resources := resources;
        rp_capacity := capacity; rp_artifacts := artifacts; rp_thresholds := th;
        rp_input_sha256 := input_sha256 |}.

(** ** The checks *)

Definition pool_budget (r : Report) : Z :=
  rl_replicas (rp_limits r) * rl_pool_size (rp_limits r).
Definition observed_duration (r : Report) : Q :=
  duration_seconds (rp_started_at r) (rp_completed_at r).
Definition provider_exercised (p : Provider) : bool :=
  (1 <=? pv_rate_limits p) && (1 <=? pv_transient p)
  && (pv_retry_successes p =? pv_rate_limits p + pv_transient p).
Definition fault_recovered (th : Thresholds) (f : Fault) : bool :=
  (ft_lost_jobs f =? 0) && at_most (ft_recovery f) (th_max_recovery th).
Definition resource_safe (r : Report) : bool :=
  let o := rp_resources r in
  let max_utilization := th_max_utilization (rp_thresholds r) in
  at_most (ro_cpu_peak o) max_utilization && at_most (ro_memory_peak o) max_utilization
  && at_most (ro_redis_peak o) max_utilization && (ro_pool_peak o <=? pool_budget r)
  && (ro_total_peak o <=? rl_max_connections (rp_limits r)).
Definition capacity_consistent (r : Report) : bool :=
  let c := rp_capacity r in
  Qle_bool (cp_recommended_rate c) (cp_max_rate c)
  && Qle_bool (lp_arrival_rate (rp_load r)) (cp_recommended_rate c)
  && Qle_bool 20 (cp_headroom c) && cp_reviewed c.
Definition production_duration (r : Report) : bool :=
  at_least (observed_duration r) (th_min_duration (rp_thresholds r))
  && at_least (lp_planned_duration (rp_load r)) (th_min_duration (rp_thresholds r)).
Definition exactly_once_and_drained (r : Report) : bool :=
  let o := rp_results r in
  (rs_completed_jobs o =? lp_jobs (rp_load r)) && (rs_duplicates o =? 0) && (rs_lost_jobs o =? 0)
  && rs_exactly_once o && rs_queue_drained o.
Definition analysis_slo (r : Report) : bool :=
  let o := rp_results r in
  Qle_bool (rs_start_p95 o) 60 && Qle_bool (rs_completion_p95 o) 120
  && at_least (rs_start_slo o) (th_min_slo (rp_thresholds r))
  && at_least (rs_completion_slo o) (th_min_slo (rp_thresholds r)).

Definition checks (r : Report) : check_list := [
  (u "production_duration", production_duration r);
  (u "resource_limits_consistent", pool_budget r <=? rl_max_connections (rp_limits r));
  (u "provider_failures_exercised",
   provider_exercised (rp_github r) && provider_exercised (rp_llm r));
  (u "faults_recovered",
   forallb (fault_recovered (rp_thresholds r)) [rp_termination r; rp_lease r; rp_interruption r]);
  (u "exactly_once_and_drained", exactly_once_and_drained r);
  (u "analysis_slo", analysis_slo r);
  (u "resource_headroom", resource_safe r);
  (u "capacity_recommendation", capacity_consistent r);
  (u "artifact_secret_scan", ar_secret_scan_matches (rp_artifacts r) =? 0)].
Definition passed (r : Report) : bool := all_pass (checks r).

(** ** The document *)

Definition provider_json (p : Provider) : json := JObj [
  (u "requests", JInt (pv_requests p));
  (u "latency_p50_seconds", JFloat (pv_p50 p));
  (u "latency_p95_seconds", JFloat (pv_p95 p));
  (u "rate_limit_responses", JInt (pv_rate_limits p));
  (u "transient_failures", JInt (pv_transient p));
  (u "retry_successes", JInt (pv_retry_successes p))].
Definition fault_json (f : Fault) : json := JObj ([
  (u "timeline", timeline_json (ft_timeline f));
  (ft_count_key f, JInt (ft_count f));
  (u "lost_jobs", JInt (ft_lost_jobs f));
  (u "recovery_seconds", JFloat (ft_recovery f))]
  ++ map (fun kv => (fst kv, JStr (snd kv))) (ft_extra f)).
Definition load_json (l : LoadProfile) : json := JObj [
  (u "jobs", JInt (lp_jobs l));
  (u "arrival_rate_per_second", JFloat (lp_arrival_rate l));
  (u "burst_size", JInt (lp_burst_size l));
  (u "concurrency", JInt (lp_concurrency l));
  (u "planned_duration_seconds", JFloat (lp_planned_duration l))].
Definition limits_json (l : ResourceLimits) : json := JObj [
  (u "worker_replicas", JInt (rl_replicas l));
  (u "worker_cpu_cores_each", JFloat (rl_cpu_cores l));
  (u "worker_memory_mib_each", JFloat (rl_memory_mib l));
  (u "postgres_pool_size_each", JInt (rl_pool_size l));
  (u "postgres_max_connections", JInt (rl_max_connections l));
  (u "redis_maxmemory_mib", JFloat (rl_redis_mib l))].
Definition results_json (o : Results) : json := JObj [
  (u "completed_jobs", JInt (rs_completed_jobs o));
  (u "throughput_jobs_per_second", JFloat (rs_throughput o));
  (u "start_latency_p95_seconds", JFloat (rs_start_p95 o));
  (u "completion_latency_p95_seconds", JFloat (rs_completion_p95 o));
  (u "start_slo_attainment_percent", JFloat (rs_start_slo o));
  (u "completion_slo_attainment_percent", JFloat (rs_completion_slo o));
  (u "duplicate_completions", JInt (rs_duplicates o));
  (u "lost_jobs", JInt (rs_lost_jobs o));
  (u "exactly_once", JBool (rs_exactly_once o));
  (u "queue_drained", JBool (rs_queue_drained o))].
Definition resources_json (o : ResourceObservation) : json := JObj [
  (u "captured_at", JStr (utc_timestamp (ro_captured_at o)));
  (u "worker_cpu_peak_percent", JFloat (ro_cpu_peak o));
  (u "worker_memory_peak_percent", JFloat (ro_memory_peak o));
  (u "postgres_pool_peak_connections", JInt (ro_pool_peak o));
  (u "postgres_total_peak_connections", JInt (ro_total_peak o));
  (u "redis_memory_peak_percent", JFloat (ro_redis_peak o))].
Definition capacity_json (c : Capacity) : json := JObj [
  (u "max_sustained_rate_per_second", JFloat (cp_max_rate c));
  (u "recommended_rate_per_second", JFloat (cp_recommended_rate c));
  (u "recommended_worker_replicas", JInt (cp_recommended_replicas c));
  (u "headroom_percent", JFloat (cp_headroom c));
  (u "limiting_resource", JStr (cp_limiting_resource c));
  (u "owner_documented", JBool (cp_owner_documented c));
  (u "reviewed", JBool (cp_reviewed c))].
Definition artifacts_json (a : Artifacts) : json := JObj [
  (u "runner_sha256", JStr (ar_runner_sha256 a));
  (u "telemetry_sha256", JStr (ar_telemetry_sha256 a));
  (u "provider_audit_sha256", JStr (ar_provider_audit_sha256 a));
  (u "secret_scan_matches", JInt (ar_secret_scan_matches a))].
Definition document (r : Report) : json := JObj [
  (u "schema_version", JInt 1);
  (u "checked_at", JStr (utc_timestamp (rp_checked_at r)));
  (u "soak_id", JStr (rp_soak_id r));
  (u "source_revision", JStr (rp_source_revision r));
  (u "environment", JStr (rp_environment r));
  (u "soak_window", JObj [
    (u "started_at", JStr (utc_timestamp (rp_started_at r)));
    (u "completed_at", JStr (utc_timestamp (rp_completed_at r)));
    (u "observed_duration_seconds", JFloat (observed_duration r))]);
  (u "load_profile", load_json (rp_load r));
  (u "resource_limits", limits_json (rp_limits r));
  (u "provider_profile", JObj [
    (u "github", provider_json (rp_github r)); (u "llm", provider_json (rp_llm r))]);
  (u "fault_injection", JObj [
    (u "worker_termination", fault_json (rp_termination r));
    (u "expired_lease", fault_json (rp_lease r));
    (u "network_interruption", fault_json (rp_interruption r))]);
  (u "results", results_json (rp_results r));
  (u "resource_observation", resources_json (rp_resources r));
  (u "capacity_recommendation", capacity_json (rp_capacity r));
  (u "artifacts", artifacts_json (rp_artifacts r));
  (u "thresholds", JObj [
    (u "minimum_duration_seconds", limit_json (th_min_duration (rp_thresholds r)));
    (u "minimum_slo_attainment_percent", limit_json (th_min_slo (rp_thresholds r)));
    (u "maximum_resource_utilization_percent", limit_json (th_max_utilization (rp_thresholds r)));
    (u "maximum_fault_recovery_seconds", limit_json (th_max_recovery (rp_thresholds r)))]);
  (u "checks", checks_json (checks r));
  (u "passed", JBool (passed r));
  (u "input_sha256", JStr (rp_input_sha256 r))].

(** The defaults of the command line *)
Definition parse_args : Thresholds := {|
  th_min_duration := Whole 3600; th_min_slo := Whole 99; th_max_utilization := Whole 90;
  th_max_recovery := Whole 120 |}.
Definition main (sha256 : list N -> str) (same_path : bool) (file : option (list N))
    (th : Thresholds) (clock : Z) : verdict :=
  Evidence.main sha256 same_path file (fun observation input_sha256 =>
    let! r := compile_evidence observation input_sha256 th None clock in
    Ok (document r, passed r)).
End soak.
