(* ===== verification/SoakEvidenceFacts.v ===== *)
(** * Facts about the evidence of a worker soak *)

From Stdlib Require Import QArith Qabs Lqa.
From stdpp Require Import base list strings numbers.
From S2P Require Import Prelude Double Calendar Regex Json Loads Evidence.
From S2P Require Import EvidenceFacts SoakEvidence.

Set Default Proof Using "Type".

(** ** What a report says of its observation *)

Section observed.
Context {U : UnicodeDb}.

Definition provider_observed (o : json) (p : Provider) : Prop :=
  count_at o [u "requests"] (pv_requests p)
  /\ amount_at o [u "latency_p50_seconds"] (pv_p50 p)
  /\ amount_at o [u "latency_p95_seconds"] (pv_p95 p)
  /\ count_at o [u "rate_limit_responses"] (pv_rate_limits p)
  /\ count_at o [u "transient_failures"] (pv_transient p)
  /\ count_at o [u "retry_successes"] (pv_retry_successes p).
Definition provider_consistent (p : Provider) : Prop :=
  (0 < pv_p50 p <= pv_p95 p)%Q /\ 0 <= pv_rate_limits p /\ 0 <= pv_transient p
  /\ 0 <= pv_retry_successes p <= pv_rate_limits p + pv_transient p
  /\ pv_rate_limits p + pv_transient p <= pv_requests p.
Lemma parse_provider_Ok v label p :
  parse_provider v label = Ok p -> provider_observed v p /\ provider_consistent p.
Proof.
  unfold parse_provider. intros H. invert_reads. split; [|unfold provider_consistent; split_and!; cbn; done || lia].
  split_and!; cbn; at_its_path.
Qed.

Definition fault_observed (count_key : str) (o : json) (f : Fault) : Prop :=
  exists injected recovered,
    ft_timeline f = [(u "injected_at", injected); (u "recovered_at", recovered)]
    /\ moment_at o [u "injected_at"] injected /\ moment_at o [u "recovered_at"] recovered
    /\ injected <= recovered /\ ft_recovery f = duration_seconds injected recovered
    /\ count_at o [count_key] (ft_count f) /\ 0 < ft_count f
    /\ count_at o [u "lost_jobs"] (ft_lost_jobs f) /\ 0 <= ft_lost_jobs f.
Lemma two_times o k1 k2 times :
  map fst times = [k1; k2] -> chronological (map snd times) = true -> timeline_at o [] times ->
  exists a b, times = [(k1, a); (k2, b)] /\ a <= b
    /\ moment_at o [k1] a /\ moment_at o [k2] b.
Proof.
  destruct times as [|[? a] [|[? b] [|]]]; try done. cbn [map fst snd chronological].
  intros [= -> ->] Hc Ht. exists a, b. inversion Ht as [|?? Ha Ht']; subst.
  inversion Ht'; subst. rewrite andb_true_r in Hc. split_and!; try done. lia.
Qed.
Lemma parse_fault_Ok v label count_key extra f :
  parse_fault v label count_key extra = Ok f -> fault_observed count_key v f.
Proof.
  unfold parse_fault. intros H. invert_reads.
  match goal with H : ordered_timestamps _ _ _ = Ok _ |- _ =>
    apply ordered_timestamps_Ok in H as (Hk & Hc & Ht) end.
  destruct (two_times _ _ _ _ Hk Hc Ht) as (a & b & -> & Hab & Ha & Hb).
  repeat match goal with H : moment _ _ = Ok _ |- _ => injection H as <- end.
  exists a, b. split_and!; cbn; try done; at_its_path.
Qed.

Definition load_observed (o : json) (l : LoadProfile) : Prop :=
  count_at o [u "load_profile"; u "jobs"] (lp_jobs l)
  /\ amount_at o [u "load_profile"; u "arrival_rate_per_second"] (lp_arrival_rate l)
  /\ count_at o [u "load_profile"; u "burst_size"] (lp_burst_size l)
  /\ count_at o [u "load_profile"; u "concurrency"] (lp_concurrency l)
  /\ amount_at o [u "load_profile"; u "planned_duration_seconds"] (lp_planned_duration l)
  /\ 0 < lp_burst_size l <= lp_jobs l.
Lemma parse_load_Ok d l : parse_load d = Ok l -> load_observed (JObj d) l.
Proof.
  unfold parse_load. intros H. invert_reads. unfold load_observed. cbn beta zeta iota.
  split_and!; first [at_its_path|assumption].
Qed.

Definition limits_observed (o : json) (l : ResourceLimits) : Prop :=
  let at_ (k : string) := [u "resource_limits"; u k] in
  count_at o (at_ "worker_replicas"%string) (rl_replicas l)
  /\ amount_at o (at_ "worker_cpu_cores_each"%string) (rl_cpu_cores l)
  /\ amount_at o (at_ "worker_memory_mib_each"%string) (rl_memory_mib l)
  /\ count_at o (at_ "postgres_pool_size_each"%string) (rl_pool_size l)
  /\ count_at o (at_ "postgres_max_connections"%string) (rl_max_connections l)
  /\ amount_at o (at_ "redis_maxmemory_mib"%string) (rl_redis_mib l)
  /\ 0 < rl_replicas l /\ 0 < rl_pool_size l.
Lemma parse_limits_Ok d l : parse_limits d = Ok l -> limits_observed (JObj d) l.
Proof.
  unfold parse_limits. intros H. invert_reads. unfold limits_observed. cbn beta zeta iota.
  split_and!; first [at_its_path|assumption].
Qed.

Definition results_observed (o : json) (r : Results) : Prop :=
  let at_ (k : string) := [u "results"; u k] in
  count_at o (at_ "completed_jobs"%string) (rs_completed_jobs r)
  /\ amount_at o (at_ "throughput_jobs_per_second"%string) (rs_throughput r)
  /\ amount_at o (at_ "start_latency_p95_seconds"%string) (rs_start_p95 r)
  /\ amount_at o (at_ "completion_latency_p95_seconds"%string) (rs_completion_p95 r)
  /\ amount_at o (at_ "start_slo_attainment_percent"%string) (rs_start_slo r)
  /\ amount_at o (at_ "completion_slo_attainment_percent"%string) (rs_completion_slo r)
  /\ count_at o (at_ "duplicate_completions"%string) (rs_duplicates r)
  /\ count_at o (at_ "lost_jobs"%string) (rs_lost_jobs r)
  /\ flag_at o (at_ "exactly_once"%string) (rs_exactly_once r)
  /\ flag_at o (at_ "queue_drained"%string) (rs_queue_drained r).
Lemma parse_results_Ok d r : parse_results d = Ok r -> results_observed (JObj d) r.
Proof.
  unfold parse_results. intros H. invert_reads. unfold results_observed. cbn beta zeta iota.
  split_and!; first [at_its_path|assumption].
Qed.

Definition resources_observed (o : json) (r : ResourceObservation) : Prop :=
  let at_ (k : string) := [u "resource_observation"; u k] in
  moment_at o (at_ "captured_at"%string) (ro_captured_at r)
  /\ amount_at o (at_ "worker_cpu_peak_percent"%string) (ro_cpu_peak r)
  /\ amount_at o (at_ "worker_memory_peak_percent"%string) (ro_memory_peak r)
  /\ count_at o (at_ "postgres_pool_peak_connections"%string) (ro_pool_peak r)
  /\ count_at o (at_ "postgres_total_peak_connections"%string) (ro_total_peak r)
  /\ amount_at o (at_ "redis_memory_peak_percent"%string) (ro_redis_peak r).
Lemma parse_resources_Ok d r : parse_resources d = Ok r -> resources_observed (JObj d) r.
Proof.
  unfold parse_resources. intros H. invert_reads. unfold resources_observed. cbn beta zeta iota.
  split_and!; first [at_its_path|assumption].
Qed.

Definition capacity_observed (o : json) (c : Capacity) : Prop :=
  let at_ (k : string) := [u "capacity_recommendation"; u k] in
  amount_at o (at_ "max_sustained_rate_per_second"%string) (cp_max_rate c)
  /\ amount_at o (at_ "recommended_rate_per_second"%string) (cp_recommended_rate c)
  /\ count_at o (at_ "recommended_worker_replicas"%string) (cp_recommended_replicas c)
  /\ amount_at o (at_ "headroom_percent"%string) (cp_headroom c)
  /\ text_at o (at_ "limiting_resource"%string) (cp_limiting_resource c)
  /\ flag_at o (at_ "reviewed"%string) (cp_reviewed c).
Lemma parse_capacity_Ok d c : parse_capacity d = Ok c -> capacity_observed (JObj d) c.
Proof.
  unfold parse_capacity. intros H. invert_reads. unfold capacity_observed. cbn beta zeta iota.
  split_and!; first [at_its_path|assumption].
Qed.

Definition artifacts_observed (o : json) (a : Artifacts) : Prop :=
  let at_ (k : string) := [u "artifacts"; u k] in
  text_at o (at_ "runner_sha256"%string) (ar_runner_sha256 a)
  /\ text_at o (at_ "telemetry_sha256"%string) (ar_telemetry_sha256 a)
  /\ text_at o (at_ "provider_audit_sha256"%string) (ar_provider_audit_sha256 a)
  /\ count_at o (at_ "secret_scan_matches"%string) (ar_secret_scan_matches a).
Lemma soak_parse_artifacts_Ok d a : parse_artifacts d = Ok a -> artifacts_observed (JObj d) a.
Proof.
  unfold parse_artifacts. intros H. invert_reads. unfold artifacts_observed. cbn beta zeta iota.
  split_and!; first [at_its_path|assumption].
Qed.

(** Every value of a report was read in its place. *)
Record observed (o : json) (r : Report) : Prop := {
  ob_soak_id : text_at o [u "soak_id"] (rp_soak_id r) /\ safe (rp_soak_id r);
  ob_revision : text_at o [u "source_revision"] (rp_source_revision r)
                /\ safe (rp_source_revision r);
  ob_environment : text_at o [u "environment"] (rp_environment r) /\ safe (rp_environment r);
  ob_started : moment_at o [u "started_at"] (rp_started_at r);
  ob_completed : moment_at o [u "completed_at"] (rp_completed_at r);
  ob_load : load_observed o (rp_load r);
  ob_limits : limits_observed o (rp_limits r);
  ob_github : holds o [u "provider_profile"; u "github"] (fun v =>
                provider_observed v (rp_github r) /\ provider_consistent (rp_github r));
  ob_llm : holds o [u "provider_profile"; u "llm"] (fun v =>
             provider_observed v (rp_llm r) /\ provider_consistent (rp_llm r));
  ob_termination : holds o [u "fault_injection"; u "worker_termination"] (fun v =>
                     fault_observed (u "workers") v (rp_termination r));
  ob_lease : holds o [u "fault_injection"; u "expired_lease"] (fun v =>
               fault_observed (u "recovered_jobs") v (rp_lease r));
  ob_interruption : holds o [u "fault_injection"; u "network_interruption"] (fun v =>
                      fault_observed (u "interruptions") v (rp_interruption r));
  ob_results : results_observed o (rp_results r);
  ob_resources : resources_observed o (rp_resources r);
  ob_capacity : capacity_observed o (rp_capacity r);
  ob_artifacts : artifacts_observed o (rp_artifacts r) }.

Lemma fault_times_Ok count_key name v f ts :
  fault_observed count_key v f -> fault_times name f = Ok ts -> ts = map snd (ft_timeline f).
Proof.
  unfold fault_times. intros (i & r & -> & Hi%moment_at_range & Hr%moment_at_range & _).
  set (times := [_; _]). cbn [omap_list].
  assert (moment times (u "injected_at") = Ok i) as -> by reflexivity.
  assert (moment times (u "recovered_at") = Ok r) as -> by reflexivity.
  cbn [obind]. rewrite !reread_Ok by done. cbn [obind]. by intros [= <-].
Qed.

(** A fault lies within the soak. *)
Definition fault_within (r : Report) (f : Fault) : Prop :=
  Forall (fun t => rp_started_at r <= t <= rp_completed_at r) (map snd (ft_timeline f)).
Definition events_within (r : Report) : Prop :=
  rp_started_at r < rp_completed_at r <= rp_checked_at r
  /\ rp_started_at r <= ro_captured_at (rp_resources r) <= rp_completed_at r
  /\ fault_within r (rp_termination r) /\ fault_within r (rp_lease r)
  /\ fault_within r (rp_interruption r).
Lemma soak_check_events_Ok s c now f1 f2 f3 o k1 k2 k3 v1 v2 v3 path v :
  fault_observed k1 v1 f1 -> fault_observed k2 v2 f2 -> fault_observed k3 v3 f3 ->
  moment_at v path (ro_captured_at o) ->
  check_events s c now f1 f2 f3 o = Ok tt ->
  c <= now /\ s <= ro_captured_at o <= c
  /\ Forall (fun t => s <= t <= c)
       (map snd (ft_timeline f1) ++ map snd (ft_timeline f2) ++ map snd (ft_timeline f3)).
Proof.
  intros H1 H2 H3 Hc%moment_at_range H. unfold check_events in H.
  apply obind_Ok in H as (t1 & ->%(fault_times_Ok _ _ _ _ _ H1) & H).
  apply obind_Ok in H as (t2 & ->%(fault_times_Ok _ _ _ _ _ H2) & H).
  apply obind_Ok in H as (t3 & ->%(fault_times_Ok _ _ _ _ _ H3) & H).
  rewrite reread_Ok in H by done. cbn [obind] in H. set (ts := map snd _ ++ _) in *.
  destruct (Z.ltb_spec (fold_left Z.min ts (ro_captured_at o)) s) as [|Hmin]; [done|].
  destruct (Z.ltb_spec c (fold_left Z.max ts (ro_captured_at o))) as [|Hmax]; [done|].
  destruct (Z.ltb_spec now c); [done|].
  apply fold_min_ge in Hmin as [Hmin Hl]. apply fold_max_le in Hmax as [Hmax Hu].
  split_and!; [done..|]. rewrite Forall_forall in *. auto.
Qed.

(** All that an accepted observation promises before the checks. *)
Lemma soak_compile_evidence_Ok d h th checked clock r :
  compile_evidence d h th checked clock = Ok r ->
  observed (JObj d) r /\ events_within r /\ rp_checked_at r = default clock checked
  /\ rp_thresholds r = th /\ check_thresholds th = Ok tt /\ rp_input_sha256 r = h.
Proof.
  unfold compile_evidence, parse_providers, parse_faults, fault_at. intros H. invert_reads.
  repeat match goal with
  | H : parse_window _ = Ok _ |- _ => apply parse_window_Ok in H as (? & ? & ?)
  | H : parse_provider _ _ = Ok _ |- _ => apply parse_provider_Ok in H
  | H : parse_fault _ _ _ _ = Ok _ |- _ => apply parse_fault_Ok in H
  | H : parse_load _ = Ok _ |- _ => apply parse_load_Ok in H
  | H : parse_limits _ = Ok _ |- _ => apply parse_limits_Ok in H
  | H : parse_results _ = Ok _ |- _ => apply parse_results_Ok in H
  | H : parse_resources _ = Ok _ |- _ => apply parse_resources_Ok in H
  | H : parse_capacity _ = Ok _ |- _ => apply parse_capacity_Ok in H
  | H : parse_artifacts _ = Ok _ |- _ => apply soak_parse_artifacts_Ok in H
  end.
  split_and!; try done.
  - split; cbn; try assumption; try (split; [at_its_path|assumption]); at_its_path.
  - match goal with H : check_events _ _ _ _ _ _ _ = Ok _, R : resources_observed _ _ |- _ =>
      eapply soak_check_events_Ok in H as (Hc & Hr & Hf); [|eassumption..|apply R] end.
    apply Forall_app in Hf as [? Hf]. apply Forall_app in Hf as [? Hf].
    unfold events_within. cbn. split_and!; done || lia.
Qed.
End observed.

(** ** What a passed soak has shown *)

Section soundness.
Context {U : UnicodeDb}.

Definition exercised (p : Provider) : Prop :=
  1 <= pv_rate_limits p /\ 1 <= pv_transient p
  /\ pv_retry_successes p = pv_rate_limits p + pv_transient p.
Definition recovered_in_time (max_recovery : limit) (f : Fault) : Prop :=
  ft_lost_jobs f = 0 /\ exists injected recovered,
    ft_timeline f = [(u "injected_at", injected); (u "recovered_at", recovered)]
    /\ injected <= recovered /\ within_limit (recovered - injected) max_recovery.
Record criteria (r : Report) : Prop := {
  cr_duration : beyond_limit (rp_completed_at r - rp_started_at r)
                  (th_min_duration (rp_thresholds r))
                /\ (limit_value (th_min_duration (rp_thresholds r)) <= lp_planned_duration (rp_load r))%Q;
  cr_pool : rl_replicas (rp_limits r) * rl_pool_size (rp_limits r)
            <= rl_max_connections (rp_limits r);
  cr_providers : exercised (rp_github r) /\ exercised (rp_llm r);
  cr_faults : Forall (recovered_in_time (th_max_recovery (rp_thresholds r)))
                [rp_termination r; rp_lease r; rp_interruption r];
  cr_exactly_once :
    rs_completed_jobs (rp_results r) = lp_jobs (rp_load r) /\ rs_duplicates (rp_results r) = 0
    /\ rs_lost_jobs (rp_results r) = 0 /\ rs_exactly_once (rp_results r) = true
    /\ rs_queue_drained (rp_results r) = true;
  cr_slo : (rs_start_p95 (rp_results r) <= 60)%Q /\ (rs_completion_p95 (rp_results r) <= 120)%Q
    /\ (limit_value (th_min_slo (rp_thresholds r)) <= rs_start_slo (rp_results r))%Q
    /\ (limit_value (th_min_slo (rp_thresholds r)) <= rs_completion_slo (rp_results r))%Q;
  cr_headroom :
    Forall (fun peak => peak <= limit_value (th_max_utilization (rp_thresholds r)))%Q
      [ro_cpu_peak (rp_resources r); ro_memory_peak (rp_resources r); ro_redis_peak (rp_resources r)]
    /\ ro_pool_peak (rp_resources r) <= rl_replicas (rp_limits r) * rl_pool_size (rp_limits r)
    /\ ro_total_peak (rp_resources r) <= rl_max_connections (rp_limits r);
  cr_capacity :
    (lp_arrival_rate (rp_load r) <= cp_recommended_rate (rp_capacity r)
       <= cp_max_rate (rp_capacity r))%Q
    /\ (20 <= cp_headroom (rp_capacity r))%Q /\ cp_reviewed (rp_capacity r) = true;
  cr_clean : ar_secret_scan_matches (rp_artifacts r) = 0 }.

Definition thresholds_valid (th : Thresholds) : Prop :=
  Forall (fun l => exists q, finite l = Some q /\ (0 <= q)%Q)
    [th_min_duration th; th_min_slo th; th_max_utilization th; th_max_recovery th]
  /\ (limit_value (th_min_slo th) <= 100)%Q /\ (limit_value (th_max_utilization th) <= 100)%Q.
Lemma check_thresholds_Ok th : check_thresholds th = Ok tt -> thresholds_valid th.
Proof.
  unfold check_thresholds, at_least. intros H. invert_reads. split; [|done].
  by apply limits_ok_nonneg.
Qed.

Lemma fault_recovered_spec th k v f :
  fault_observed k v f -> fault_recovered th f = true ->
  recovered_in_time (th_max_recovery th) f.
Proof.
  intros (i & e & Ht & Hi%moment_at_range & He%moment_at_range & Hle & Hr & _).
  unfold fault_recovered. rewrite Hr. intros [Hl%Z.eqb_eq Hd]%andb_true_iff. split; [done|].
  exists i, e. split_and!; [done..|]. by apply at_most_within.
Qed.
Lemma exercised_spec p : provider_exercised p = true -> exercised p.
Proof. unfold provider_exercised, exercised. intros H. invert_reads. lia. Qed.

Lemma soak_passed_criteria o r : observed o r -> events_within r -> passed r = true -> criteria r.
Proof.
  intros Ho _ H%all_pass_Forall. repeat (apply Forall_cons_1 in H as [? H]; cbn [snd] in *).
  clear H. pose proof (moment_at_range _ _ _ (ob_started _ _ Ho)) as Hs.
  pose proof (moment_at_range _ _ _ (ob_completed _ _ Ho)) as Hc.
  unfold production_duration, observed_duration, pool_budget, exactly_once_and_drained,
    analysis_slo, resource_safe, capacity_consistent, at_most, at_least in *.
  cbn [forallb] in *. invert_reads.
  split; try (split_and?; assumption); [split; [|done]|..].
  - apply at_least_beyond; [done..|]. by apply Qle_bool_iff.
  - split; by apply exercised_spec.
  - destruct (ob_termination _ _ Ho) as (v1 & _ & Hf1).
    destruct (ob_lease _ _ Ho) as (v2 & _ & Hf2).
    destruct (ob_interruption _ _ Ho) as (v3 & _ & Hf3).
    repeat constructor; by eapply fault_recovered_spec.
  - split; [by repeat constructor|done].
Qed.

Definition example_file : list N := file_of "{
  'schema_version': 1,
  'soak_id': 'worker-soak-example-20250902',
  'source_revision': 'release-example',
  'environment': 'staging-example',
  'started_at': '2025-09-02T02:00:00Z',
  'completed_at': '2025-09-02T04:00:00Z',
  'load_profile': {
    'jobs': 180000,
    'arrival_rate_per_second': 25,
    'burst_size': 50,
    'concurrency': 8,
    'planned_duration_seconds': 7200
  },
  'resource_limits': {
    'worker_replicas': 8,
    'worker_cpu_cores_each': 1,
    'worker_memory_mib_each': 512,
    'postgres_pool_size_each': 8,
    'postgres_max_connections': 100,
    'redis_maxmemory_mib': 1024
  },
  'provider_profile': {
    'github': {
      'requests': 360000,
      'latency_p50_seconds': 0.15,
      'latency_p95_seconds': 0.8,
      'rate_limit_responses': 12,
      'transient_failures': 8,
      'retry_successes': 20
    },
    'llm': {
      'requests': 180000,
      'latency_p50_seconds': 1.2,
      'latency_p95_seconds': 4.5,
      'rate_limit_responses': 20,
      'transient_failures': 10,
      'retry_successes': 30
    }
  },
  'fault_injection': {
    'worker_termination': {
      'injected_at': '2025-09-02T02:30:00Z',
      'recovered_at': '2025-09-02T02:30:45Z',
      'workers': 1,
      'lost_jobs': 0
    },
    'expired_lease': {
      'injected_at': '2025-09-02T03:00:00Z',
      'recovered_at': '2025-09-02T03:01:00Z',
      'recovered_jobs': 1,
      'lost_jobs': 0
    },
    'network_interruption': {
      'injected_at': '2025-09-02T03:30:00Z',
      'recovered_at': '2025-09-02T03:31:15Z',
      'interruptions': 1,
      'lost_jobs': 0,
      'target': 'redis'
    }
  },
  'results': {
    'completed_jobs': 180000,
    'throughput_jobs_per_second': 25.4,
    'start_latency_p95_seconds': 2.5,
    'completion_latency_p95_seconds': 8.5,
    'start_slo_attainment_percent': 99.99,
    'completion_slo_attainment_percent': 99.95,
    'duplicate_completions': 0,
    'lost_jobs': 0,
    'exactly_once': true,
    'queue_drained': true
  },
  'resource_observation': {
    'captured_at': '2025-09-02T03:59:50Z',
    'worker_cpu_peak_percent': 72,
    'worker_memory_peak_percent': 68,
    'postgres_pool_peak_connections': 58,
    'postgres_total_peak_connections': 66,
    'redis_memory_peak_percent': 61
  },
  'capacity_recommendation': {
    'max_sustained_rate_per_second': 40,
    'recommended_rate_per_second': 30,
    'recommended_worker_replicas': 8,
    'headroom_percent': 25,
    'limiting_resource': 'postgres-connections',
    'owner': 'platform-capacity',
    'reviewed': true
  },
  'artifacts': {
    'runner_sha256': '1111111111111111111111111111111111111111111111111111111111111111',
    'telemetry_sha256': '2222222222222222222222222222222222222222222222222222222222222222',
    'provider_audit_sha256': '3333333333333333333333333333333333333333333333333333333333333333',
    'secret_scan_matches': 0
  }
}
".

(** C20: A soak passes only on what it showed.  When the verifier writes evidence and exits
    with status 0, its input is a JSON object of which every value of the report was read,
    each in its place; the events of the soak lie within it and in the past; and the values
    meet the acceptance criteria: the soak was long enough, every job completed exactly
    once, both providers failed and every failure was retried with success, every fault
    recovered in time without a lost job, the objectives and the resource limits were kept
    and the capacity recommendation has its headroom.  Recorded durations are rounded, which
    moves a limit by at most 0.6 milliseconds. *)
Theorem soak_evidence_sound (sha256 : list N -> str) (same_path : bool) (file : option (list N))
    (th : Thresholds) (clock : Z) (doc : json)
    (Hrun : main sha256 same_path file th clock = Written doc 0) :
  exists raw d r, file = Some raw /\ json_loads raw = inl (JObj d) /\ doc = document r
    /\ rp_thresholds r = th /\ thresholds_valid th /\ rp_checked_at r = clock /\ rp_input_sha256 r = sha256 raw
    /\ observed (JObj d) r /\ events_within r /\ criteria r.
Proof.
  apply main_passed in Hrun as (_ & raw & d & -> & Hj & Hc). exists raw, d.
  apply obind_Ok in Hc as (r & Hr & [= <- Hp]). exists r.
  apply soak_compile_evidence_Ok in Hr as (Ho & He & Hn & Ht & Hth & Hh).
  split_and!; try done; [by apply check_thresholds_Ok|by eapply soak_passed_criteria].
Qed.
End soundness.

Lemma soak_evidence_sound_witness :
  exists r d, json_loads example_file = inl (JObj d) /\ @observed ascii_db (JObj d) r /\ criteria r.
Proof.
  destruct (@main ascii_db (fun _ => u "h") false (Some example_file) parse_args
              1788220800000000) as [doc status| |] eqn:E.
  - assert (status = 0) as -> by (vm_compute in E; congruence).
    destruct (@soak_evidence_sound ascii_db _ _ _ _ _ _ E)
      as (raw & d & r & [= <-] & Hj & _ & _ & _ & _ & _ & Ho & _ & Hc).
    exists r, d. exact (conj Hj (conj Ho Hc)).
  - vm_compute in E. discriminate E.
  - vm_compute in E. discriminate E.
Defined.
