(* ===== verification/DrillEvidence.v ===== *)
(** * Evidence of a recovery drill (ops/recovery/verify_drill_evidence.py)

    A drill restores the database and the dashboards, cuts over to the restored services and
    rolls back.  Its observation is read section by section, the events must lie within the
    drill, the rollback after the cutover, and six checks decide whether the drill passed. *)

From Stdlib Require Import QArith.
From stdpp Require Import base list strings numbers.
From S2P Require Import Prelude Double Calendar Json Evidence.

Set Default Proof Using "Type".

Definition TOP_LEVEL_KEYS : list str := map u [
  "schema_version"; "drill_id"; "source_revision"; "environment"; "started_at"; "completed_at";
  "objectives_seconds"; "postgres"; "grafana"; "cutover"; "rollback"; "artifacts"]%string.

Record Service := {
  sv_evidence_sha256 : str; sv_backup_bytes : Z; sv_minimum_bytes : Z;
  sv_backup_duration : Q; sv_restore_duration : Q; sv_recovery : Q; sv_rpo : Q;
  sv_timeline : timeline; sv_integrity : bool; sv_source_preserved : bool }.
Record Objectives := {
  oj_postgres_rto : Q; oj_grafana_rto : Q; oj_rpo : Q; oj_rollback_rto : Q }.
Record Cutover := {
  cu_approved_at : Z; cu_started_at : Z; cu_completed_at : Z; cu_approved : bool }.
(** [rb_flags]: the flags by their names *)
Record Rollback := {
  rb_initiated_at : Z; rb_completed_at : Z; rb_condition : str; rb_flags : list (str * bool) }.
Record Artifacts := {
  ar_cutover_sha256 : str; ar_rollback_sha256 : str; ar_secret_scan_matches : Z;
  ar_reviewed : bool }.
Record Report := {
  rp_checked_at : Z; rp_drill_id : str; rp_source_revision : str; rp_environment : str;
  rp_started_at : Z; rp_completed_at : Z; rp_objectives : Objectives;
  rp_postgres : Service; rp_grafana : Service; rp_cutover : Cutover; rp_rollback : Rollback;
  rp_artifacts : Artifacts; rp_input_sha256 : str }.

(** The flags that together verify a rollback, and the two of the point of no return *)
Definition VERIFIED_FLAGS : list str := map u [
  "used_preserved_postgres_source"; "used_preserved_grafana_source";
  "postgres_integrity_verified"; "grafana_content_verified";
  "grafana_access_policy_verified"; "client_smoke_verified"]%string.
Definition CROSSED : str := u "crossed_point_of_no_return".
Definition RECONCILIATION : str := u "reconciliation_plan_reviewed".
Definition SERVICE_MOMENTS : list str := map u [
  "write_freeze_at"; "backup_created_at"; "restore_started_at"; "validated_at"]%string.

Section drill.
Context {U : UnicodeDb}.

Definition parse_service (value : json) (label : str) : outcome Service :=
  let! d := require_mapping value label in
  let! _ := require_exact_keys d
    ([u "evidence_sha256"; u "backup_bytes"; u "representative_minimum_bytes";
      u "backup_duration_seconds"; u "restore_duration_seconds"; u "recovery_seconds";
      u "observed_rpo_seconds"] ++ SERVICE_MOMENTS
     ++ [u "integrity_checks_passed"; u "source_preserved"]) label in
  let! times := ordered_timestamps d SERVICE_MOMENTS label in
  let! evidence := at_key sha256_value d label (u "evidence_sha256") in
  let! backup_bytes := at_key positive_int d label (u "backup_bytes") in
  let! minimum_bytes := at_key positive_int d label (u "representative_minimum_bytes") in
  let! backup := at_key positive_number d label (u "backup_duration_seconds") in
  let! restore := at_key positive_number d label (u "restore_duration_seconds") in
  let! recovery := at_key positive_number d label (u "recovery_seconds") in
  let! rpo := at_key non_negative_number d label (u "observed_rpo_seconds") in
  let! integrity := at_key require_bool d label (u "integrity_checks_passed") in
  let! preserved := at_key require_bool d label (u "source_preserved") in
  Ok {| sv_evidence_sha256 := evidence; sv_backup_bytes := backup_bytes;
        sv_minimum_bytes := minimum_bytes; sv_backup_duration := backup;
        sv_restore_duration := restore; sv_recovery := recovery; sv_rpo := rpo;
        sv_timeline := times; sv_integrity := integrity; sv_source_preserved := preserved |}.

Definition parse_objectives (observation : mapping) : outcome Objectives :=
  let l := u "objectives_seconds" in
  let! d := section observation l [u "postgres_rto"; u "grafana_rto"; u "rpo"; u "rollback_rto"] in
  let! postgres := at_key positive_number d l (u "postgres_rto") in
  let! grafana := at_key positive_number d l (u "grafana_rto") in
  let! rpo := at_key positive_number d l (u "rpo") in
  let! rollback := at_key positive_number d l (u "rollback_rto") in
  Ok {| oj_postgres_rto := postgres; oj_grafana_rto := grafana; oj_rpo := rpo;
        oj_rollback_rto := rollback |}.

Definition parse_cutover (observation : mapping) : outcome Cutover :=
  let l := u "cutover" in
  let! d := section observation l
    [u "approved_at"; u "started_at"; u "completed_at"; u "approved"; u "approver"] in
  let! times := ordered_timestamps d [u "approved_at"; u "started_at"; u "completed_at"] l in
  let! approved := at_key require_bool d l (u "approved") in
  let! _ := at_key safe_identifier d l (u "approver") in
  let! approved_at := moment times (u "approved_at") in
  let! started_at := moment times (u "started_at") in
  let! completed_at := moment times (u "completed_at") in
  Ok {| cu_approved_at := approved_at; cu_started_at := started_at;
        cu_completed_at := completed_at; cu_approved := approved |}.

Definition parse_rollback (observation : mapping) (cutover : Cutover) : outcome Rollback :=
  let l := u "rollback" in
  let! d := section observation l
    ([u "initiated_at"; u "completed_at"] ++ VERIFIED_FLAGS
     ++ [u "point_of_no_return_condition"; CROSSED; RECONCILIATION]) in
  let! times := ordered_timestamps d [u "initiated_at"; u "completed_at"] l in
  let! initiated_at := moment times (u "initiated_at") in
  let! completed_at := moment times (u "completed_at") in
  if initiated_at <? cu_completed_at cutover then
    value_error [u "rollback must follow completed cutover"]
  else
  let! condition := at_key safe_identifier d l (u "point_of_no_return_condition") in
  let! flags := at_keys require_bool d l (VERIFIED_FLAGS ++ [CROSSED; RECONCILIATION]) in
  Ok {| rb_initiated_at := initiated_at; rb_completed_at := completed_at;
        rb_condition := condition; rb_flags := flags |}.

Definition parse_artifacts (observation : mapping) : outcome Artifacts :=
  let l := u "artifacts" in
  let! d := section observation l
    [u "cutover_audit_sha256"; u "rollback_audit_sha256"; u "secret_scan_matches"; u "reviewed"] in
  let! cutover := at_key sha256_value d l (u "cutover_audit_sha256") in
  let! rollback := at_key sha256_value d l (u "rollback_audit_sha256") in
  let! matches := at_key non_negative_int d l (u "secret_scan_matches") in
  let! reviewed := at_key require_bool d l (u "reviewed") in
  Ok {| ar_cutover_sha256 := cutover; ar_rollback_sha256 := rollback;
        ar_secret_scan_matches := matches; ar_reviewed := reviewed |}.

(** The times of a service, as they are read again from its parsed timeline *)
Definition service_times (name : str) (service : Service) : outcome (list Z) :=
  omap_list (fun key =>
    let! t := moment (sv_timeline service) key in reread t (dotted name key)) SERVICE_MOMENTS.
(** All events lie within the drill, and the drill in the past. *)
Definition check_events (started_at completed_at now : Z) (postgres grafana : Service)
    (cutover : Cutover) (rollback : Rollback) : outcome unit :=
  let! t1 := service_times (u "postgres") postgres in
  let! t2 := service_times (u "grafana") grafana in
  let all_times := t1 ++ t2
    ++ [cu_approved_at cutover; cu_started_at cutover; cu_completed_at cutover]
    ++ [rb_initiated_at rollback; rb_completed_at rollback] in
  match all_times with
  | [] => Raise (ValueError (u "min() iterable argument is empty"))
  | t :: ts =>
    if (fold_left Z.min ts t <? started_at) || (completed_at <? fold_left Z.max ts t) then
      value_error [u "service, cutover, and rollback events must be within the drill window"]
    else if now <? completed_at then value_error [u "observation must not contain future events"]
    else Ok tt
  end.

Definition compile_evidence (observation : mapping) (input_sha256 : str)
    (checked_at : option Z) (clock : Z) : outcome Report :=
  let! _ := require_exact_keys observation TOP_LEVEL_KEYS (u "observation") in
  let! _ := require_schema observation in
  let! drill_id := at_top safe_identifier observation (u "drill_id") in
  let! source_revision := at_top safe_identifier observation (u "source_revision") in
  let! environment := at_top safe_identifier observation (u "environment") in
  let! (started_at, completed_at) := parse_window observation in
  let! objectives := parse_objectives observation in
  let! postgres := at_top parse_service observation (u "postgres") in
  let! grafana := at_top parse_service observation (u "grafana") in
  let! cutover := parse_cutover observation in
  let! rollback := parse_rollback observation cutover in
  let! artifacts := parse_artifacts observation in
  let now := default clock checked_at in
  let! _ := check_events started_at completed_at now postgres grafana cutover rollback in
  Ok {| rp_checked_at := now; rp_drill_id := drill_id; rp_source_revision := source_revision;
        rp_environment := environment; rp_started_at := started_at;
        rp_completed_at := completed_at; rp_objectives := objectives; rp_postgres := postgres;
        rp_grafana := grafana; rp_cutover := cutover; rp_rollback := rollback;
        rp_artifacts := artifacts; rp_input_sha256 := input_sha256 |}.

(** ** The checks *)

Definition service_passed (r : Report) (service : Service) (rto : Q) : bool :=
  (sv_minimum_bytes service <=? sv_backup_bytes service)
  && Qle_bool (sv_recovery service) rto
  && Qle_bool (sv_rpo service) (oj_rpo (rp_objectives r))
  && sv_integrity service && sv_source_preserved service.
(** rollback_flags[key] *)
Definition flag (b : Rollback) (key : str) : bool := default false (dict_get str_eqb (rb_flags b) key).
Definition rollback_duration (b : Rollback) : Q :=
  duration_seconds (rb_initiated_at b) (rb_completed_at b).
Definition rollback_verified (b : Rollback) : bool := forallb (flag b) VERIFIED_FLAGS.
Definition checks (r : Report) : check_list := [
  (u "postgres_recovery", service_passed r (rp_postgres r) (oj_postgres_rto (rp_objectives r)));
  (u "grafana_recovery", service_passed r (rp_grafana r) (oj_grafana_rto (rp_objectives r)));
  (u "cutover_approved", cu_approved (rp_cutover r));
  (u "rollback_verified",
   rollback_verified (rp_rollback r)
   && Qle_bool (rollback_duration (rp_rollback r)) (oj_rollback_rto (rp_objectives r)));
  (u "point_of_no_return_controlled",
   negb (flag (rp_rollback r) CROSSED) || flag (rp_rollback r) RECONCILIATION);
  (u "artifacts_reviewed_and_clean",
   ar_reviewed (rp_artifacts r) && (ar_secret_scan_matches (rp_artifacts r) =? 0))].
Definition passed (r : Report) : bool := all_pass (checks r).

(** ** The document *)

Definition service_json (s : Service) : json := JObj [
  (u "evidence_sha256", JStr (sv_evidence_sha256 s));
  (u "backup_bytes", JInt (sv_backup_bytes s));
  (u "representative_minimum_bytes", JInt (sv_minimum_bytes s));
  (u "backup_duration_seconds", JFloat (sv_backup_duration s));
  (u "restore_duration_seconds", JFloat (sv_restore_duration s));
  (u "recovery_seconds", JFloat (sv_recovery s));
  (u "observed_rpo_seconds", JFloat (sv_rpo s));
  (u "timeline", timeline_json (sv_timeline s));
  (u "integrity_checks_passed", JBool (sv_integrity s));
  (u "source_preserved", JBool (sv_source_preserved s))].
Definition cutover_json (c : Cutover) : json := JObj [
  (u "timeline", timeline_json [
    (u "approved_at", cu_approved_at c); (u "started_at", cu_started_at c);
    (u "completed_at", cu_completed_at c)]);
  (u "approved", JBool (cu_approved c));
  (u "approver_documented", JBool true)].
Definition rollback_json (b : Rollback) : json := JObj ([
  (u "timeline", timeline_json [
    (u "initiated_at", rb_initiated_at b); (u "completed_at", rb_completed_at b)]);
  (u "duration_seconds", JFloat (rollback_duration b));
  (u "point_of_no_return_condition", JStr (rb_condition b))]
  ++ map (fun kb => (fst kb, JBool (snd kb))) (rb_flags b)).
Definition document (r : Report) : json := JObj [
  (u "schema_version", JInt 1);
  (u "checked_at", JStr (utc_timestamp (rp_checked_at r)));
  (u "drill_id", JStr (rp_drill_id r));
  (u "source_revision", JStr (rp_source_revision r));
  (u "environment", JStr (rp_environment r));
  (u "drill_window", JObj [
    (u "started_at", JStr (utc_timestamp (rp_started_at r)));
    (u "completed_at", JStr (utc_timestamp (rp_completed_at r)))]);
  (u "objectives_seconds", JObj [
    (u "postgres_rto", JFloat (oj_postgres_rto (rp_objectives r)));
    (u "grafana_rto", JFloat (oj_grafana_rto (rp_objectives r)));
    (u "rpo", JFloat (oj_rpo (rp_objectives r)));
    (u "rollback_rto", JFloat (oj_rollback_rto (rp_objectives r)))]);
  (u "postgres", service_json (rp_postgres r));
  (u "grafana", service_json (rp_grafana r));
  (u "cutover", cutover_json (rp_cutover r));
  (u "rollback", rollback_json (rp_rollback r));
  (u "artifacts", JObj [
    (u "cutover_audit_sha256", JStr (ar_cutover_sha256 (rp_artifacts r)));
    (u "rollback_audit_sha256", JStr (ar_rollback_sha256 (rp_artifacts r)));
    (u "secret_scan_matches", JInt (ar_secret_scan_matches (rp_artifacts r)));
    (u "reviewed", JBool (ar_reviewed (rp_artifacts r)))]);
  (u "checks", checks_json (checks r));
  (u "passed", JBool (passed r));
  (u "input_sha256", JStr (rp_input_sha256 r))].

Definition main (sha256 : list N -> str) (same_path : bool) (file : option (list N))
    (clock : Z) : verdict :=
  Evidence.main sha256 same_path file (fun observation input_sha256 =>
    let! r := compile_evidence observation input_sha256 None clock in
    Ok (document r, passed r)).
End drill.
