(* ===== verification/DrillEvidenceFacts.v ===== *)
(** * Facts about the evidence of a recovery drill *)

From Stdlib Require Import QArith Qabs Lqa.
From stdpp Require Import base list strings numbers.
From S2P Require Import Prelude Double Calendar Regex Json Loads Evidence.
From S2P Require Import EvidenceFacts DrillEvidence.

Set Default Proof Using "Type".

Section observed.
Context {U : UnicodeDb}.

Definition service_observed (o : json) (s : Service) : Prop :=
  text_at o [u "evidence_sha256"] (sv_evidence_sha256 s) /\ hash (sv_evidence_sha256 s)
  /\ count_at o [u "backup_bytes"] (sv_backup_bytes s)
  /\ count_at o [u "representative_minimum_bytes"] (sv_minimum_bytes s)
  /\ amount_at o [u "backup_duration_seconds"] (sv_backup_duration s)
  /\ amount_at o [u "restore_duration_seconds"] (sv_restore_duration s)
  /\ amount_at o [u "recovery_seconds"] (sv_recovery s)
  /\ amount_at o [u "observed_rpo_seconds"] (sv_rpo s)
  /\ flag_at o [u "integrity_checks_passed"] (sv_integrity s)
  /\ flag_at o [u "source_preserved"] (sv_source_preserved s)
  /\ map fst (sv_timeline s) = SERVICE_MOMENTS /\ timeline_at o [] (sv_timeline s)
  /\ chronological (map snd (sv_timeline s)) = true.
Lemma parse_service_Ok v label s : parse_service v label = Ok s -> service_observed v s.
Proof.
  unfold parse_service. intros H. invert_reads.
  match goal with H : ordered_timestamps _ _ _ = Ok _ |- _ =>
    apply ordered_timestamps_Ok in H as (Hk & Hc & Ht) end.
  unfold service_observed. split_and!; first [at_its_path|assumption].
Qed.

Definition objectives_observed (o : json) (j : Objectives) : Prop :=
  let at_ (k : string) := [u "objectives_seconds"; u k] in
  amount_at o (at_ "postgres_rto"%string) (oj_postgres_rto j)
  /\ amount_at o (at_ "grafana_rto"%string) (oj_grafana_rto j)
  /\ amount_at o (at_ "rpo"%string) (oj_rpo j)
  /\ amount_at o (at_ "rollback_rto"%string) (oj_rollback_rto j).
Lemma parse_objectives_Ok d j : parse_objectives d = Ok j -> objectives_observed (JObj d) j.
Proof.
  unfold parse_objectives. intros H. invert_reads. unfold objectives_observed. cbv beta zeta.
  split_and!; at_its_path.
Qed.

Definition cutover_observed (o : json) (c : Cutover) : Prop :=
  let at_ (k : string) := [u "cutover"; u k] in
  moment_at o (at_ "approved_at"%string) (cu_approved_at c)
  /\ moment_at o (at_ "started_at"%string) (cu_started_at c)
  /\ moment_at o (at_ "completed_at"%string) (cu_completed_at c)
  /\ flag_at o (at_ "approved"%string) (cu_approved c)
  /\ cu_approved_at c <= cu_started_at c <= cu_completed_at c.
Lemma parse_cutover_Ok d c : parse_cutover d = Ok c -> cutover_observed (JObj d) c.
Proof.
  unfold parse_cutover. intros H. invert_reads. open_timeline.
  unfold cutover_observed. cbv beta zeta. split_and!; first [at_its_path|assumption].
Qed.

Definition rollback_observed (o : json) (b : Rollback) : Prop :=
  moment_at o [u "rollback"; u "initiated_at"] (rb_initiated_at b)
  /\ moment_at o [u "rollback"; u "completed_at"] (rb_completed_at b)
  /\ rb_initiated_at b <= rb_completed_at b
  /\ text_at o [u "rollback"; u "point_of_no_return_condition"] (rb_condition b)
  /\ safe (rb_condition b)
  /\ map fst (rb_flags b) = VERIFIED_FLAGS ++ [CROSSED; RECONCILIATION]
  /\ flags_at o [u "rollback"] (rb_flags b).
Lemma parse_rollback_Ok d c b :
  parse_rollback d c = Ok b ->
  rollback_observed (JObj d) b /\ cu_completed_at c <= rb_initiated_at b.
Proof.
  unfold parse_rollback. intros H. invert_reads. open_timeline.
  match goal with H : at_keys _ _ _ _ = Ok _ |- _ => apply at_keys_flags in H as [Hk Hf] end.
  split; [|done]. unfold rollback_observed. split_and!; try first [at_its_path|assumption].
  by eapply flags_here.
Qed.

Definition artifacts_observed (o : json) (a : Artifacts) : Prop :=
  let at_ (k : string) := [u "artifacts"; u k] in
  text_at o (at_ "cutover_audit_sha256"%string) (ar_cutover_sha256 a)
  /\ text_at o (at_ "rollback_audit_sha256"%string) (ar_rollback_sha256 a)
  /\ hash (ar_cutover_sha256 a) /\ hash (ar_rollback_sha256 a)
  /\ count_at o (at_ "secret_scan_matches"%string) (ar_secret_scan_matches a)
  /\ flag_at o (at_ "reviewed"%string) (ar_reviewed a).
Lemma drill_parse_artifacts_Ok d a : parse_artifacts d = Ok a -> artifacts_observed (JObj d) a.
Proof.
  unfold parse_artifacts. intros H. invert_reads. unfold artifacts_observed. cbv beta zeta.
  split_and!; first [at_its_path|assumption].
Qed.

(** Every value of a report was read in its place. *)
Record observed (o : json) (r : Report) : Prop := {
  ob_drill_id : text_at o [u "drill_id"] (rp_drill_id r) /\ safe (rp_drill_id r);
  ob_revision : text_at o [u "source_revision"] (rp_source_revision r)
                /\ safe (rp_source_revision r);
  ob_environment : text_at o [u "environment"] (rp_environment r) /\ safe (rp_environment r);
  ob_started : moment_at o [u "started_at"] (rp_started_at r);
  ob_completed : moment_at o [u "completed_at"] (rp_completed_at r);
  ob_objectives : objectives_observed o (rp_objectives r);
  ob_postgres : holds o [u "postgres"] (fun v => service_observed v (rp_postgres r));
  ob_grafana : holds o [u "grafana"] (fun v => service_observed v (rp_grafana r));
  ob_cutover : cutover_observed o (rp_cutover r);
  ob_rollback : rollback_observed o (rp_rollback r);
  ob_artifacts : artifacts_observed o (rp_artifacts r) }.

(** The events of a drill, and where they must lie *)
Definition service_events (s : Service) : list Z := map snd (sv_timeline s).
Definition events_within (r : Report) : Prop :=
  rp_started_at r < rp_completed_at r <= rp_checked_at r
  /\ Forall (fun t => rp_started_at r <= t <= rp_completed_at r)
       (service_events (rp_postgres r) ++ service_events (rp_grafana r)
        ++ [cu_approved_at (rp_cutover r); cu_started_at (rp_cutover r);
            cu_completed_at (rp_cutover r)]
        ++ [rb_initiated_at (rp_rollback r); rb_completed_at (rp_rollback r)])
  /\ cu_completed_at (rp_cutover r) <= rb_initiated_at (rp_rollback r).

Lemma service_times_Ok v name s :
  service_observed v s -> service_times name s = Ok (service_events s).
Proof.
  intros (_ & _ & _ & _ & _ & _ & _ & _ & _ & _ & Hk & Ht & _). unfold service_times.
  rewrite <-Hk. apply reread_timeline; [|by eapply timeline_at_range].
  rewrite Hk. apply (bool_decide_eq_true_1 _). vm_compute. reflexivity.
Qed.
Lemma drill_check_events_Ok s c now p g cu rb vp vg :
  service_observed vp p -> service_observed vg g ->
  check_events s c now p g cu rb = Ok tt ->
  c <= now /\ Forall (fun t => s <= t <= c)
    (service_events p ++ service_events g
     ++ [cu_approved_at cu; cu_started_at cu; cu_completed_at cu]
     ++ [rb_initiated_at rb; rb_completed_at rb]).
Proof.
  intros Hp Hg. unfold check_events.
  rewrite (service_times_Ok _ _ _ Hp), (service_times_Ok _ _ _ Hg). cbn [obind].
  set (all := service_events p ++ _). destruct all as [|t ts]; [done|]. intros H. invert_reads.
  match goal with H : s <= _ |- _ => apply fold_min_ge in H as [Hs Hsl] end.
  match goal with H : _ <= c |- _ => apply fold_max_le in H as [Hc Hcl] end.
  split; [done|]. constructor; [done|]. rewrite Forall_forall in *. auto.
Qed.

Lemma drill_compile_evidence_Ok d h checked clock r :
  compile_evidence d h checked clock = Ok r ->
  observed (JObj d) r /\ events_within r /\ rp_checked_at r = default clock checked
  /\ rp_input_sha256 r = h.
Proof.
  unfold compile_evidence. intros H. invert_reads.
  repeat match goal with
  | H : parse_window _ = Ok _ |- _ => apply parse_window_Ok in H as (? & ? & ?)
  | H : parse_service _ _ = Ok _ |- _ => apply parse_service_Ok in H
  | H : parse_objectives _ = Ok _ |- _ => apply parse_objectives_Ok in H
  | H : parse_cutover _ = Ok _ |- _ => apply parse_cutover_Ok in H
  | H : parse_rollback _ _ = Ok _ |- _ => apply parse_rollback_Ok in H as [? ?]
  | H : parse_artifacts _ = Ok _ |- _ => apply drill_parse_artifacts_Ok in H
  end.
  split_and!; try reflexivity.
  - split; cbn; try assumption; try (split; [at_its_path|assumption]); at_its_path.
  - match goal with H : check_events _ _ _ _ _ _ _ = Ok _ |- _ =>
      eapply drill_check_events_Ok in H as (Hn & He); [|eassumption..] end.
    unfold events_within. cbn. split_and!; done || lia.
Qed.

(** ** What a passed drill has shown *)

Definition recovered (r : Report) (rto : Q) (s : Service) : Prop :=
  sv_minimum_bytes s <= sv_backup_bytes s /\ (sv_recovery s <= rto)%Q
  /\ (sv_rpo s <= oj_rpo (rp_objectives r))%Q /\ sv_integrity s = true
  /\ sv_source_preserved s = true.
Record criteria (r : Report) : Prop := {
  cr_postgres : recovered r (oj_postgres_rto (rp_objectives r)) (rp_postgres r);
  cr_grafana : recovered r (oj_grafana_rto (rp_objectives r)) (rp_grafana r);
  cr_cutover : cu_approved (rp_cutover r) = true;
  cr_rollback : Forall (fun k => (k, true) ∈ rb_flags (rp_rollback r)) VERIFIED_FLAGS
    /\ (seconds (rb_completed_at (rp_rollback r) - rb_initiated_at (rp_rollback r))
         <= oj_rollback_rto (rp_objectives r) + (6 # 10000))%Q;
  cr_point : (CROSSED, true) ∈ rb_flags (rp_rollback r) ->
             (RECONCILIATION, true) ∈ rb_flags (rp_rollback r);
  cr_artifacts : ar_reviewed (rp_artifacts r) = true /\ ar_secret_scan_matches (rp_artifacts r) = 0 }.

Lemma flag_true b k : flag b k = true -> (k, true) ∈ rb_flags b.
Proof.
  unfold flag. destruct (dict_get _ _ _) as [v|] eqn:E; [|done]. cbn. intros ->.
  apply list_elem_of_In. by apply (dict_get_Some_In str_eqb str_eqb_eq).
Qed.
Lemma flag_complete b k : NoDup (map fst (rb_flags b)) -> (k, true) ∈ rb_flags b -> flag b k = true.
Proof. intros Hn H. unfold flag. by rewrite (dict_get_NoDup _ _ _ Hn H). Qed.

Lemma drill_passed_criteria o r : observed o r -> passed r = true -> criteria r.
Proof.
  intros Ho H%all_pass_Forall. repeat (apply Forall_cons_1 in H as [? H]; cbn [snd] in *).
  clear H. unfold service_passed, rollback_verified in *. invert_reads.
  destruct (ob_rollback _ _ Ho) as (Hi%moment_at_range & He%moment_at_range & _ & _ & _ & Hk & _).
  split; unfold recovered; try (split_and?; assumption).
  - split.
    + match goal with H : forallb _ _ = true |- _ => rewrite forallb_forall in H end.
      apply Forall_forall. auto using flag_true.
    + assert (Hd : at_most (rollback_duration (rp_rollback r))
        (Real (oj_rollback_rto (rp_objectives r))) = true) by by apply Qle_bool_iff.
      exact (at_most_within _ _ _ Hi He Hd).
  - intros Hc. apply flag_true. apply flag_complete in Hc.
    + match goal with H : (negb _ || _)%bool = true |- _ => rewrite Hc in H; exact H end.
    + rewrite Hk. apply (bool_decide_eq_true_1 _). vm_compute. reflexivity.
Qed.

(** A recovery drill passes only on what it showed.  When the verifier writes evidence
    and exits with status 0, every value of its report was read in its place of the JSON
    input; the write freezes, backups, restores, validations, the cutover and the rollback
    lie in this drill, in the order their stages require, the rollback after the completed
    cutover; both services were restored from representative backups within the objectives
    with their sources preserved; every rollback verification holds; and a crossed point of
    no return has a reviewed reconciliation plan. *)
Theorem drill_evidence_sound (sha256 : list N -> str) (same_path : bool) (file : option (list N))
    (clock : Z) (doc : json) (Hrun : main sha256 same_path file clock = Written doc 0) :
  exists raw d r, file = Some raw /\ json_loads raw = inl (JObj d) /\ doc = document r
    /\ rp_checked_at r = clock /\ rp_input_sha256 r = sha256 raw
    /\ observed (JObj d) r /\ events_within r /\ criteria r.
Proof.
  apply main_passed in Hrun as (_ & raw & d & -> & Hj & Hc). exists raw, d.
  apply obind_Ok in Hc as (r & Hr & [= <- Hp]). exists r.
  apply drill_compile_evidence_Ok in Hr as (Ho & He & Hn & Hh).
  split_and!; try first [assumption|reflexivity]. by eapply drill_passed_criteria.
Qed.
End observed.

Definition example_file : list N := file_of "{
  'schema_version': 1,
  'drill_id': 'recovery-example-20250902',
  'source_revision': 'release-example',
  'environment': 'staging-example',
  'started_at': '2025-09-02T05:00:00Z',
  'completed_at': '2025-09-02T07:00:00Z',
  'objectives_seconds': {
    'postgres_rto': 900,
    'grafana_rto': 300,
    'rpo': 300,
    'rollback_rto': 600
  },
  'postgres': {
    'evidence_sha256': '1111111111111111111111111111111111111111111111111111111111111111',
    'backup_bytes': 5368709120,
    'representative_minimum_bytes': 4294967296,
    'backup_duration_seconds': 180,
    'restore_duration_seconds': 420,
    'recovery_seconds': 600,
    'observed_rpo_seconds': 120,
    'write_freeze_at': '2025-09-02T05:05:00Z',
    'backup_created_at': '2025-09-02T05:08:00Z',
    'restore_started_at': '2025-09-02T05:10:00Z',
    'validated_at': '2025-09-02T05:20:00Z',
    'integrity_checks_passed': true,
    'source_preserved': true
  },
  'grafana': {
    'evidence_sha256': '2222222222222222222222222222222222222222222222222222222222222222',
    'backup_bytes': 1073741824,
    'representative_minimum_bytes': 536870912,
    'backup_duration_seconds': 60,
    'restore_duration_seconds': 120,
    'recovery_seconds': 180,
    'observed_rpo_seconds': 120,
    'write_freeze_at': '2025-09-02T05:05:00Z',
    'backup_created_at': '2025-09-02T05:06:00Z',
    'restore_started_at': '2025-09-02T05:10:00Z',
    'validated_at': '2025-09-02T05:13:00Z',
    'integrity_checks_passed': true,
    'source_preserved': true
  },
  'cutover': {
    'approved_at': '2025-09-02T05:25:00Z',
    'started_at': '2025-09-02T05:30:00Z',
    'completed_at': '2025-09-02T05:35:00Z',
    'approved': true,
    'approver': 'recovery-commander'
  },
  'rollback': {
    'initiated_at': '2025-09-02T05:45:00Z',
    'completed_at': '2025-09-02T05:53:00Z',
    'used_preserved_postgres_source': true,
    'used_preserved_grafana_source': true,
    'postgres_integrity_verified': true,
    'grafana_content_verified': true,
    'grafana_access_policy_verified': true,
    'client_smoke_verified': true,
    'point_of_no_return_condition': 'first-post-cutover-write',
    'crossed_point_of_no_return': false,
    'reconciliation_plan_reviewed': false
  },
  'artifacts': {
    'cutover_audit_sha256': '3333333333333333333333333333333333333333333333333333333333333333',
    'rollback_audit_sha256': '4444444444444444444444444444444444444444444444444444444444444444',
    'secret_scan_matches': 0,
    'reviewed': true
  }
}".
Lemma drill_evidence_sound_witness :
  exists r d, json_loads example_file = inl (JObj d) /\ @observed ascii_db (JObj d) r /\ criteria r.
Proof.
  destruct (@main ascii_db (fun _ => u "h") false (Some example_file) 1788220800000000)
    as [doc status| |] eqn:E.
  - assert (status = 0) as -> by (vm_compute in E; congruence).
    destruct (@drill_evidence_sound ascii_db _ _ _ _ _ E)
      as (raw & d & r & [= <-] & Hj & _ & _ & _ & Ho & _ & Hc).
    exists r, d. exact (conj Hj (conj Ho Hc)).
  - vm_compute in E. discriminate E.
  - vm_compute in E. discriminate E.
Defined.
