(* ===== verification/RotationEvidence.v ===== *)
(** * Evidence of a credential rotation (ops/secrets/verify_rotation_evidence.py)

    A drill rotates the token encryption key and one external credential, and survives the
    loss of a secret.  Its observation lists the secrets and the events; nine checks decide
    whether the drill passed; the document names owners and versions only as documented
    and by their fingerprints. *)

From Stdlib Require Import QArith.
From stdpp Require Import base list strings numbers.
From S2P Require Import Prelude Text Double Calendar Json Evidence.

Set Default Proof Using "Type".

Definition MANAGER_TYPES : list str := map u [
  "aws-secrets-manager"; "azure-key-vault"; "gcp-secret-manager"; "kubernetes-external-secrets";
  "other"; "vault"]%string.
Definition WORKLOADS : list str := map u ["alertmanager"; "api"; "migration"; "worker"]%string.
Definition REQUIRED_SECRETS : list str := map u [
  "alertmanager_receiver"; "database_url"; "github_client_secret"; "github_private_key";
  "redis_url"; "session_secret"; "token_encryption_fallback"; "token_encryption_primary";
  "webhook_secret"]%string.
Definition OPTIONAL_SECRETS : list str := [u "openai_api_key"].
Definition EXTERNAL_CREDENTIALS : list str := map u [
  "alertmanager_receiver"; "database_url"; "github_client_secret"; "github_private_key";
  "openai_api_key"; "redis_url"; "webhook_secret"]%string.
Definition TOP_LEVEL_KEYS : list str := map u [
  "schema_version"; "drill_id"; "source_revision"; "environment"; "manager_type"; "started_at";
  "completed_at"; "inventory"; "workload_identity"; "fernet_rotation"; "external_rotation";
  "unavailable_secret"; "artifact_scans"]%string.
Definition FERNET_MOMENTS : list str := map u [
  "new_version_created_at"; "old_primary_new_fallback_deployed_at"; "dual_read_verified_at";
  "new_primary_old_fallback_deployed_at"; "lazy_rewrap_verified_at";
  "observation_window_ended_at"; "old_fallback_removed_at"; "post_removal_canary_at"]%string.
Definition FERNET_FLAGS : list str := map u [
  "all_instances_updated"; "old_deployments_terminated"; "existing_session_verified"]%string.
Definition EXTERNAL_MOMENTS : list str := map u [
  "new_version_created_at"; "new_version_deployed_at"; "pre_revoke_canary_at";
  "old_version_revoked_at"; "post_revoke_canary_at"]%string.
Definition UNAVAILABLE_MOMENTS : list str := map u [
  "unavailable_at"; "detected_at"; "incident_declared_at"; "replacement_deployed_at";
  "recovered_at"]%string.
Definition SCAN_FLAGS : list str := map u [
  "repository_clean"; "images_clean"; "manifests_clean"; "logs_clean"]%string.

Record Secret := {
  sc_name : str; sc_workloads : list str; sc_owner : str; sc_version : str;
  sc_created_at : Z; sc_due_at : Z; sc_via_file : bool; sc_read_only : bool }.
Record Identity := {
  id_authentication : str; id_allowed_count : Z; id_checked_at : Z;
  id_read : bool; id_list : bool; id_write : bool; id_delete : bool; id_long_lived : bool }.
Record Fernet := {
  fe_new_version : str; fe_old_version : str; fe_times : timeline;
  fe_flags : list (str * bool) }.
Record External := {
  ex_name : str; ex_new_version : str; ex_old_version : str; ex_times : timeline;
  ex_rollback_prepared : bool; ex_outage : Q }.
Record Unavailable := {
  un_name : str; un_incident_id : str; un_times : timeline;
  un_unavailable_at : Z; un_detected_at : Z; un_recovered_at : Z;
  un_fail_closed : bool; un_exposed : bool }.
Record Scans := { sn_checked_at : Z; sn_flags : list (str * bool) }.
Record Limits := { li_detection : limit; li_recovery : limit; li_outage : limit }.
Record Report := {
  rp_checked_at : Z; rp_drill_id : str; rp_source_revision : str; rp_environment : str;
  rp_manager_type : str; rp_started_at : Z; rp_completed_at : Z; rp_inventory : list Secret;
  rp_identity : Identity; rp_fernet : Fernet; rp_external : External;
  rp_unavailable : Unavailable; rp_scans : Scans; rp_limits : Limits; rp_input_sha256 : str }.

(** element in set *)
Definition member (x : str) (l : list str) : bool := existsb (str_eqb x) l.

Section rotation.
Context {U : UnicodeDb}.

(** ** The inventory *)

(** Strings of a list, all different and all workloads *)
Fixpoint workload_names (items : list json) : option (list str) :=
  match items with
  | [] => Some []
  | JStr s :: items => if member s WORKLOADS then option_map (cons s) (workload_names items)
                       else None
  | _ => None
  end.
Fixpoint distinct (l : list str) : bool :=
  match l with [] => true | x :: l => negb (member x l) && distinct l end.
Definition parse_workloads (value : json) (label : str) : outcome (list str) :=
  let refused := value_error [label; u " must contain unique supported workloads"] in
  match value with
  | JArr ((_ :: _) as items) =>
    match workload_names items with
    | Some names => if distinct names then Ok names else refused
    | None => refused
    end
  | _ => refused
  end.

Definition parse_secret (seen : list str) (label : str) (value : json) : outcome Secret :=
  let! d := require_mapping value label in
  let! _ := require_exact_keys d
    [u "name"; u "workloads"; u "owner"; u "version"; u "created_at"; u "rotation_due_at";
     u "injected_via_file"; u "read_only"] label in
  let! name := at_key safe_identifier d label (u "name") in
  if negb (member name (REQUIRED_SECRETS ++ OPTIONAL_SECRETS)) then
    value_error [label; u ".name is not a supported credential"]
  else if member name seen then
    value_error [u "inventory contains duplicate credential: "; name]
  else
  let! workloads := at_key parse_workloads d label (u "workloads") in
  let! owner := at_key safe_identifier d label (u "owner") in
  let! version := at_key safe_identifier d label (u "version") in
  let! created_at := at_key parse_timestamp d label (u "created_at") in
  let! due_at := at_key parse_timestamp d label (u "rotation_due_at") in
  if due_at <=? created_at then value_error [label; u ".rotation_due_at must follow created_at"]
  else
  let! via_file := at_key require_bool d label (u "injected_via_file") in
  let! read_only := at_key require_bool d label (u "read_only") in
  Ok {| sc_name := name; sc_workloads := py_sorted str_leb workloads; sc_owner := owner;
        sc_version := version; sc_created_at := created_at; sc_due_at := due_at;
        sc_via_file := via_file; sc_read_only := read_only |}.

(** f"inventory[{index}]" *)
Definition item_label (index : N) : str := u "inventory[" ++ str_of_N index ++ u "]".
Fixpoint parse_secrets (index : N) (seen : list str) (items : list json) : outcome (list Secret) :=
  match items with
  | [] => Ok []
  | item :: items =>
    let! secret := parse_secret seen (item_label index) item in
    let! rest := parse_secrets (N.succ index) (sc_name secret :: seen) items in
    Ok (secret :: rest)
  end.
Definition parse_inventory (value : json) (_ : str) : outcome (list Secret) :=
  match value with
  | JArr ((_ :: _) as items) => parse_secrets 0 [] items
  | _ => value_error [u "inventory must be a non-empty JSON array"]
  end.
(** {item["name"]: item}: the names are all different. *)
Definition secret_named (inventory : list Secret) (name : str) : option Secret :=
  List.find (fun s => str_eqb (sc_name s) name) inventory.

(** ** The other sections *)

Definition parse_identity (observation : mapping) : outcome Identity :=
  let l := u "workload_identity" in
  let! d := section observation l
    [u "identity"; u "authentication"; u "allowed_secret_count"; u "read_allowed";
     u "list_allowed"; u "write_allowed"; u "delete_allowed"; u "long_lived_key_present";
     u "policy_checked_at"] in
  let! _ := at_key safe_identifier d l (u "identity") in
  let! authentication := at_key safe_identifier d l (u "authentication") in
  let! count := at_key non_negative_int d l (u "allowed_secret_count") in
  let! checked_at := at_key parse_timestamp d l (u "policy_checked_at") in
  let! read := at_key require_bool d l (u "read_allowed") in
  let! lists := at_key require_bool d l (u "list_allowed") in
  let! write := at_key require_bool d l (u "write_allowed") in
  let! delete := at_key require_bool d l (u "delete_allowed") in
  let! long_lived := at_key require_bool d l (u "long_lived_key_present") in
  Ok {| id_authentication := authentication; id_allowed_count := count;
        id_checked_at := checked_at; id_read := read; id_list := lists; id_write := write;
        id_delete := delete; id_long_lived := long_lived |}.

Definition parse_fernet (observation : mapping) (inventory : list Secret) : outcome Fernet :=
  let l := u "fernet_rotation" in
  let! d := section observation l
    ([u "new_version"; u "old_version"] ++ FERNET_MOMENTS ++ FERNET_FLAGS) in
  let! new := at_key safe_identifier d l (u "new_version") in
  let! old := at_key safe_identifier d l (u "old_version") in
  if str_eqb new old then value_error [u "Fernet new_version and old_version must differ"]
  else if match secret_named inventory (u "token_encryption_primary") with
          | Some primary => negb (str_eqb new (sc_version primary))
          | None => false
          end
  then value_error [u "Fernet new_version must match the primary inventory version"]
  else
  let! times := ordered_timestamps d FERNET_MOMENTS l in
  let! flags := at_keys require_bool d l FERNET_FLAGS in
  Ok {| fe_new_version := new; fe_old_version := old; fe_times := times; fe_flags := flags |}.

Definition parse_external (observation : mapping) (inventory : list Secret) : outcome External :=
  let l := u "external_rotation" in
  let! d := section observation l
    ([u "credential_name"; u "new_version"; u "old_version"] ++ EXTERNAL_MOMENTS
     ++ [u "rollback_prepared"; u "unplanned_outage_seconds"]) in
  let! name := at_key safe_identifier d l (u "credential_name") in
  match (if member name EXTERNAL_CREDENTIALS then secret_named inventory name else None) with
  | None =>
    value_error [u "external_rotation.credential_name must reference an inventoried credential"]
  | Some secret =>
    let! new := at_key safe_identifier d l (u "new_version") in
    let! old := at_key safe_identifier d l (u "old_version") in
    if str_eqb new old then
      value_error [u "external credential new_version and old_version must differ"]
    else if negb (str_eqb new (sc_version secret)) then
      value_error [u "external rotation new_version must match the inventory version"]
    else
    let! times := ordered_timestamps d EXTERNAL_MOMENTS l in
    let! prepared := at_key require_bool d l (u "rollback_prepared") in
    let! outage := at_key non_negative_number d l (u "unplanned_outage_seconds") in
    Ok {| ex_name := name; ex_new_version := new; ex_old_version := old; ex_times := times;
          ex_rollback_prepared := prepared; ex_outage := outage |}
  end.

Definition parse_unavailable (observation : mapping) (inventory : list Secret)
  : outcome Unavailable :=
  let l := u "unavailable_secret" in
  let! d := section observation l
    ([u "credential_name"; u "incident_id"] ++ UNAVAILABLE_MOMENTS
     ++ [u "fail_closed"; u "secret_exposed"]) in
  let! name := at_key safe_identifier d l (u "credential_name") in
  match secret_named inventory name with
  | None => value_error [u "unavailable_secret.credential_name must reference inventory"]
  | Some _ =>
    let! incident := at_key safe_identifier d l (u "incident_id") in
    let! times := ordered_timestamps d UNAVAILABLE_MOMENTS l in
    let! fail_closed := at_key require_bool d l (u "fail_closed") in
    let! exposed := at_key require_bool d l (u "secret_exposed") in
    let! unavailable_at := moment times (u "unavailable_at") in
    let! detected_at := moment times (u "detected_at") in
    let! recovered_at := moment times (u "recovered_at") in
    Ok {| un_name := name; un_incident_id := incident; un_times := times;
          un_unavailable_at := unavailable_at; un_detected_at := detected_at;
          un_recovered_at := recovered_at; un_fail_closed := fail_closed;
          un_exposed := exposed |}
  end.

Definition parse_scans (observation : mapping) : outcome Scans :=
  let l := u "artifact_scans" in
  let! d := section observation l (SCAN_FLAGS ++ [u "checked_at"]) in
  let! checked_at := at_key parse_timestamp d l (u "checked_at") in
  let! flags := at_keys require_bool d l SCAN_FLAGS in
  Ok {| sn_checked_at := checked_at; sn_flags := flags |}.

(** ** The report *)

Definition event_times (identity : Identity) (fernet : Fernet) (external : External)
    (unavailable : Unavailable) (scans : Scans) : list Z :=
  [id_checked_at identity] ++ map snd (fe_times fernet) ++ map snd (ex_times external)
  ++ map snd (un_times unavailable) ++ [sn_checked_at scans].
Definition check_events (started_at completed_at now : Z) (inventory : list Secret)
    (events : list Z) : outcome unit :=
  if existsb (fun t => (t <? started_at) || (completed_at <? t)) events then
    value_error [u "all drill event timestamps must fall between started_at and completed_at"]
  else if existsb (fun s => completed_at <? sc_created_at s) inventory then
    value_error [u "inventory created_at cannot follow completed_at"]
  else if now <? completed_at then value_error [u "drill timestamps cannot be in the future"]
  else Ok tt.

Definition parse_manager (observation : mapping) : outcome str :=
  let! manager_type := at_top safe_identifier observation (u "manager_type") in
  if member manager_type MANAGER_TYPES then Ok manager_type
  else value_error [u "manager_type must be one of ";
                    str_join (u ", ") (py_sorted str_leb MANAGER_TYPES)].

Definition compile_evidence (observation : mapping) (input_sha256 : str) (li : Limits)
    (checked_at : option Z) (clock : Z) : outcome Report :=
  let! _ := require_exact_keys observation TOP_LEVEL_KEYS (u "observation") in
  let! _ := require_schema observation in
  let! _ := if limits_ok (Qle_bool 0) [li_detection li; li_recovery li; li_outage li] then Ok tt
            else value_error [u "thresholds must be non-negative finite numbers"] in
  let! drill_id := at_top safe_identifier observation (u "drill_id") in
  let! source_revision := at_top safe_identifier observation (u "source_revision") in
  let! environment := at_top safe_identifier observation (u "environment") in
  let! manager_type := parse_manager observation in
  let! (started_at, completed_at) := parse_window observation in
  let! inventory := at_top parse_inventory observation (u "inventory") in
  let! identity := parse_identity observation in
  let! fernet := parse_fernet observation inventory in
  let! external := parse_external observation inventory in
  let! unavailable := parse_unavailable observation inventory in
  let! scans := parse_scans observation in
  let now := default clock checked_at in
  let! _ := check_events started_at completed_at now inventory
              (event_times identity fernet external unavailable scans) in
  Ok {| rp_checked_at := now; rp_drill_id := drill_id; rp_source_revision := source_revision;
        rp_environment := environment; rp_manager_type := manager_type;
        rp_started_at := started_at; rp_completed_at := completed_at; rp_inventory := inventory;
        rp_identity := identity; rp_fernet := fernet; rp_external := external;
        rp_unavailable := unavailable; rp_scans := scans; rp_limits := li;
        rp_input_sha256 := input_sha256 |}.

(** ** The checks *)

Definition inventory_complete (r : Report) : bool :=
  forallb (fun name => member name (map sc_name (rp_inventory r))) REQUIRED_SECRETS.
Definition least_privilege (r : Report) : bool :=
  let i := rp_identity r in
  str_eqb (id_authentication i) (u "workload_identity")
  && (id_allowed_count i =? Z.of_nat (length (rp_inventory r)))
  && id_read i && negb (id_list i) && negb (id_write i) && negb (id_delete i)
  && negb (id_long_lived i).
Definition detection (x : Unavailable) : Q :=
  duration_seconds (un_unavailable_at x) (un_detected_at x).
Definition recovery (x : Unavailable) : Q :=
  duration_seconds (un_unavailable_at x) (un_recovered_at x).
Definition unavailable_response (r : Report) : bool :=
  let x := rp_unavailable r in
  un_fail_closed x && negb (un_exposed x) && at_most (detection x) (li_detection (rp_limits r))
  && at_most (recovery x) (li_recovery (rp_limits r)).
Definition checks (r : Report) : check_list := [
  (u "inventory_complete", inventory_complete r);
  (u "rotation_deadlines_current",
   forallb (fun s => rp_completed_at r <? sc_due_at s) (rp_inventory r));
  (u "file_injection", forallb sc_via_file (rp_inventory r));
  (u "read_only_mounts", forallb sc_read_only (rp_inventory r));
  (u "least_privilege_identity", least_privilege r);
  (u "fernet_rolling_rotation", forallb snd (fe_flags (rp_fernet r)));
  (u "external_credential_rotation",
   ex_rollback_prepared (rp_external r) && at_most (ex_outage (rp_external r)) (li_outage (rp_limits r)));
  (u "unavailable_secret_response", unavailable_response r);
  (u "artifact_scans_clean", forallb snd (sn_flags (rp_scans r)))].
Definition passed (r : Report) : bool := all_pass (checks r).

(** ** The document *)
Section document.
Context (sha256 : list N -> str).

(** Of an identifier, which is ASCII *)
Definition fingerprint (value : str) : str :=
  take 16 (sha256 (default [] (encode_utf8 value))).
Definition flags_json (flags : list (str * bool)) : list (str * json) :=
  map (fun kb => (fst kb, JBool (snd kb))) flags.
Definition secret_json (s : Secret) : json := JObj [
  (u "name", JStr (sc_name s));
  (u "workloads", JArr (map JStr (sc_workloads s)));
  (u "owner_documented", JBool true);
  (u "version_fingerprint", JStr (fingerprint (sc_version s)));
  (u "created_at", JStr (utc_timestamp (sc_created_at s)));
  (u "rotation_due_at", JStr (utc_timestamp (sc_due_at s)));
  (u "injected_via_file", JBool (sc_via_file s));
  (u "read_only", JBool (sc_read_only s))].
Definition by_name (a b : Secret) : bool := str_leb (sc_name a) (sc_name b).
Definition identity_json (i : Identity) : json := JObj [
  (u "authentication", JStr (id_authentication i));
  (u "identity_documented", JBool true);
  (u "allowed_secret_count", JInt (id_allowed_count i));
  (u "read_allowed", JBool (id_read i));
  (u "list_allowed", JBool (id_list i));
  (u "write_allowed", JBool (id_write i));
  (u "delete_allowed", JBool (id_delete i));
  (u "long_lived_key_present", JBool (id_long_lived i));
  (u "policy_checked_at", JStr (utc_timestamp (id_checked_at i)))].
Definition fernet_json (f : Fernet) : json := JObj ([
  (u "new_version_fingerprint", JStr (fingerprint (fe_new_version f)));
  (u "old_version_fingerprint", JStr (fingerprint (fe_old_version f)));
  (u "timeline", timeline_json (fe_times f))] ++ flags_json (fe_flags f)).
Definition external_json (e : External) : json := JObj [
  (u "credential_name", JStr (ex_name e));
  (u "new_version_fingerprint", JStr (fingerprint (ex_new_version e)));
  (u "old_version_fingerprint", JStr (fingerprint (ex_old_version e)));
  (u "timeline", timeline_json (ex_times e));
  (u "rollback_prepared", JBool (ex_rollback_prepared e));
  (u "unplanned_outage_seconds", JFloat (ex_outage e))].
Definition unavailable_json (x : Unavailable) : json := JObj [
  (u "credential_name", JStr (un_name x));
  (u "incident_id", JStr (un_incident_id x));
  (u "timeline", timeline_json (un_times x));
  (u "detection_seconds", JFloat (detection x));
  (u "recovery_seconds", JFloat (recovery x));
  (u "fail_closed", JBool (un_fail_closed x));
  (u "secret_exposed", JBool (un_exposed x))].
Definition document (r : Report) : json := JObj [
  (u "schema_version", JInt 1);
  (u "checked_at", JStr (utc_timestamp (rp_checked_at r)));
  (u "drill_id", JStr (rp_drill_id r));
  (u "source_revision", JStr (rp_source_revision r));
  (u "environment", JStr (rp_environment r));
  (u "manager_type", JStr (rp_manager_type r));
  (u "input_sha256", JStr (rp_input_sha256 r));
  (u "inventory", JArr (map secret_json (py_sorted by_name (rp_inventory r))));
  (u "workload_identity", identity_json (rp_identity r));
  (u "rotations", JObj [
    (u "fernet", fernet_json (rp_fernet r)); (u "external", external_json (rp_external r))]);
  (u "unavailable_secret", unavailable_json (rp_unavailable r));
  (u "artifact_scans", JObj (flags_json (sn_flags (rp_scans r))
    ++ [(u "checked_at", JStr (utc_timestamp (sn_checked_at (rp_scans r))))]));
  (u "threshold_seconds", JObj [
    (u "detection", limit_json (li_detection (rp_limits r)));
    (u "recovery", limit_json (li_recovery (rp_limits r)));
    (u "unplanned_outage", limit_json (li_outage (rp_limits r)))]);
  (u "timeline", JObj [
    (u "started_at", JStr (utc_timestamp (rp_started_at r)));
    (u "completed_at", JStr (utc_timestamp (rp_completed_at r)))]);
  (u "checks", checks_json (checks r));
  (u "passed", JBool (passed r))].

(** The defaults of the command line *)
Definition parse_args : Limits := {|
  li_detection := Whole 60; li_recovery := Whole 300; li_outage := Whole 0 |}.
Definition main (same_path : bool) (file : option (list N)) (li : Limits) (clock : Z) : verdict :=
  Evidence.main sha256 same_path file (fun observation input_sha256 =>
    let! r := compile_evidence observation input_sha256 li None clock in
    Ok (document r, passed r)).
End document.
End rotation.
