(* ===== verification/RotationEvidenceFacts.v ===== *)
(** * Facts about the evidence of a credential rotation *)

From Stdlib Require Import QArith Qabs Lqa.
From stdpp Require Import base list strings numbers.
From S2P Require Import Prelude Text Double Calendar Regex Json Loads Evidence.
From S2P Require Import EvidenceFacts RotationEvidence.

Set Default Proof Using "Type".

Section observed.
Context {U : UnicodeDb}.

Lemma member_In x l : member x l = true <-> x ∈ l.
Proof.
  unfold member. rewrite existsb_exists, list_elem_of_In. split.
  - by intros (y & Hy & ->%str_eqb_eq).
  - intros Hx. exists x. by rewrite str_eqb_refl.
Qed.

(** ** The inventory *)

Definition secret_observed (v : json) (s : Secret) : Prop :=
  text_at v [u "name"] (sc_name s) /\ sc_name s ∈ REQUIRED_SECRETS ++ OPTIONAL_SECRETS
  /\ text_at v [u "owner"] (sc_owner s) /\ safe (sc_owner s)
  /\ text_at v [u "version"] (sc_version s) /\ safe (sc_version s)
  /\ moment_at v [u "created_at"] (sc_created_at s)
  /\ moment_at v [u "rotation_due_at"] (sc_due_at s) /\ sc_created_at s < sc_due_at s
  /\ flag_at v [u "injected_via_file"] (sc_via_file s)
  /\ flag_at v [u "read_only"] (sc_read_only s)
  /\ holds v [u "workloads"] (fun w => exists names,
       w = JArr (map JStr names) /\ sc_workloads s = py_sorted str_leb names
       /\ NoDup names /\ Forall (fun n => n ∈ WORKLOADS) names).

Lemma workload_names_spec items names :
  workload_names items = Some names ->
  items = map JStr names /\ Forall (fun n => n ∈ WORKLOADS) names.
Proof.
  revert names. induction items as [|[]]; intros names; cbn [workload_names]; try done.
  - by intros [= <-].
  - destruct (member _ _) eqn:E; [|done]. destruct (workload_names _) as [ns|]; [|done].
    intros [= <-]. destruct (IHitems ns eq_refl) as [-> H]. split; [done|].
    constructor; [by apply member_In|done].
Qed.
Lemma distinct_spec l : distinct l = true -> NoDup l.
Proof.
  induction l as [|x l IH]; cbn [distinct]; intros H; [constructor|].
  apply andb_true_iff in H as [H1 H2]. constructor; [|auto].
  intros Hx%member_In. by rewrite Hx in H1.
Qed.
Lemma parse_workloads_Ok v l names :
  parse_workloads v l = Ok names ->
  v = JArr (map JStr names) /\ NoDup names /\ Forall (fun n => n ∈ WORKLOADS) names.
Proof.
  unfold parse_workloads. destruct v as [| | | | | |items|]; try done.
  destruct items as [|v items]; [done|]. destruct (workload_names _) as [ns|] eqn:E; [|done].
  destruct (distinct ns) eqn:Ed; [|done]. intros [= <-].
  apply workload_names_spec in E as [-> H]. by apply distinct_spec in Ed.
Qed.
Lemma parse_secret_Ok seen label v s :
  parse_secret seen label v = Ok s -> secret_observed v s /\ ~ (sc_name s ∈ seen).
Proof.
  unfold parse_secret. intros H. invert_reads.
  match goal with H : parse_workloads _ _ = Ok _ |- _ =>
    apply parse_workloads_Ok in H as (-> & Hn & Hw) end.
  match goal with H : member _ (_ ++ _) = true |- _ => apply member_In in H end.
  split; [|by intros Hs%member_In; cbn in Hs; congruence].
  unfold secret_observed. split_and!; cbn; first [at_its_path|assumption].
Qed.
Lemma parse_secrets_Ok items : forall index seen inventory,
  parse_secrets index seen items = Ok inventory ->
  Forall2 secret_observed items inventory /\ NoDup (map sc_name inventory)
  /\ Forall (fun s => ~ (sc_name s ∈ seen)) inventory.
Proof.
  induction items as [|v items IH]; intros index seen inventory; cbn [parse_secrets].
  - intros [= <-]. split_and!; constructor.
  - intros (s & [Hs Hn]%parse_secret_Ok & (rest & (H1 & H2 & H3)%IH & [= <-])%obind_Ok)%obind_Ok.
    split_and!; constructor; try done; rewrite Forall_forall in *.
    + intros (s' & Heq & Hin)%list_elem_of_In%in_map_iff. apply (H3 s' Hin).
      rewrite Heq. apply elem_of_cons. by left.
    + intros s' Hin Hs'. apply (H3 s' Hin). apply elem_of_cons. by right.
Qed.
Definition inventory_observed (v : json) (inventory : list Secret) : Prop :=
  exists items, v = JArr items /\ Forall2 secret_observed items inventory
    /\ NoDup (map sc_name inventory).
Lemma parse_inventory_Ok v l inventory :
  parse_inventory v l = Ok inventory -> inventory_observed v inventory.
Proof.
  unfold parse_inventory. destruct v as [| | | | | |[|v items]|]; try done.
  intros (H1 & H2 & _)%parse_secrets_Ok. by eexists.
Qed.
Lemma secret_named_Some inventory name s :
  secret_named inventory name = Some s -> s ∈ inventory /\ sc_name s = name.
Proof.
  unfold secret_named. intros [Hs Hn]%List.find_some. split; [by apply list_elem_of_In|].
  by apply str_eqb_eq.
Qed.
Lemma secret_named_None inventory name :
  secret_named inventory name = None -> ~ (name ∈ map sc_name inventory).
Proof.
  unfold secret_named. intros H (s & <- & Hs)%list_elem_of_In%in_map_iff.
  pose proof (List.find_none _ _ H _ Hs) as Hn. cbn in Hn. by rewrite str_eqb_refl in Hn.
Qed.

(** ** The other sections *)

(** An accepted timeline of a section *)
Definition stages (o : json) (key : string) (keys : list str) (times : timeline) : Prop :=
  map fst times = keys /\ timeline_at o [u key] times /\ chronological (map snd times) = true.
Lemma stages_here d key s keys times :
  dict_get str_eqb d (u key) = Some (JObj s) ->
  ordered_timestamps s keys (u key) = Ok times -> stages (JObj d) key keys times.
Proof.
  intros Hd (Hk & Hc & Ht)%ordered_timestamps_Ok. split_and!; [done| |done].
  by eapply timeline_here.
Qed.

Definition identity_observed (o : json) (i : Identity) : Prop :=
  let at_ (k : string) := [u "workload_identity"; u k] in
  text_at o (at_ "authentication"%string) (id_authentication i)
  /\ count_at o (at_ "allowed_secret_count"%string) (id_allowed_count i)
  /\ moment_at o (at_ "policy_checked_at"%string) (id_checked_at i)
  /\ flag_at o (at_ "read_allowed"%string) (id_read i)
  /\ flag_at o (at_ "list_allowed"%string) (id_list i)
  /\ flag_at o (at_ "write_allowed"%string) (id_write i)
  /\ flag_at o (at_ "delete_allowed"%string) (id_delete i)
  /\ flag_at o (at_ "long_lived_key_present"%string) (id_long_lived i).
Lemma parse_identity_Ok d i : parse_identity d = Ok i -> identity_observed (JObj d) i.
Proof.
  unfold parse_identity. intros H. invert_reads. unfold identity_observed. cbv beta zeta.
  split_and!; at_its_path.
Qed.

Definition fernet_observed (o : json) (inventory : list Secret) (f : Fernet) : Prop :=
  text_at o [u "fernet_rotation"; u "new_version"] (fe_new_version f)
  /\ text_at o [u "fernet_rotation"; u "old_version"] (fe_old_version f)
  /\ fe_new_version f <> fe_old_version f
  /\ (forall s, s ∈ inventory -> NoDup (map sc_name inventory) ->
       sc_name s = u "token_encryption_primary" -> sc_version s = fe_new_version f)
  /\ stages o "fernet_rotation" FERNET_MOMENTS (fe_times f)
  /\ map fst (fe_flags f) = FERNET_FLAGS /\ flags_at o [u "fernet_rotation"] (fe_flags f).
Lemma named_unique inventory s name :
  s ∈ inventory -> NoDup (map sc_name inventory) -> sc_name s = name ->
  secret_named inventory name = Some s.
Proof.
  intros Hs Hn <-. unfold secret_named. induction inventory as [|s' inventory IH];
    [by apply elem_of_nil in Hs|]. cbn [List.find map] in *. apply list.NoDup_cons in Hn as [Hn Hi].
  apply elem_of_cons in Hs as [->|Hs]; [by rewrite str_eqb_refl|].
  destruct (str_eqb (sc_name s') (sc_name s)) eqn:E; [|auto]. apply str_eqb_eq in E.
  destruct Hn. rewrite E. apply list_elem_of_In, in_map, list_elem_of_In, Hs.
Qed.
Lemma parse_fernet_Ok d inventory f :
  parse_fernet d inventory = Ok f -> fernet_observed (JObj d) inventory f.
Proof.
  unfold parse_fernet. intros H. invert_reads.
  match goal with H : at_keys _ _ _ _ = Ok _ |- _ => apply at_keys_flags in H as [Hk Hf] end.
  match goal with H : match secret_named _ _ with _ => _ end = false |- _ => rename H into Hp end.
  unfold fernet_observed. split_and!; try first [at_its_path|assumption].
  - intros s Hs Hn Hname. rewrite (named_unique _ _ _ Hs Hn Hname) in Hp.
    apply negb_false_iff, str_eqb_eq in Hp. done.
  - by eapply stages_here.
  - by eapply flags_here.
Qed.

Definition external_observed (o : json) (inventory : list Secret) (e : External) : Prop :=
  text_at o [u "external_rotation"; u "credential_name"] (ex_name e)
  /\ text_at o [u "external_rotation"; u "new_version"] (ex_new_version e)
  /\ text_at o [u "external_rotation"; u "old_version"] (ex_old_version e)
  /\ ex_name e ∈ EXTERNAL_CREDENTIALS /\ ex_new_version e <> ex_old_version e
  /\ (exists s, s ∈ inventory /\ sc_name s = ex_name e /\ sc_version s = ex_new_version e)
  /\ stages o "external_rotation" EXTERNAL_MOMENTS (ex_times e)
  /\ flag_at o [u "external_rotation"; u "rollback_prepared"] (ex_rollback_prepared e)
  /\ amount_at o [u "external_rotation"; u "unplanned_outage_seconds"] (ex_outage e).
Lemma parse_external_Ok d inventory e :
  parse_external d inventory = Ok e -> external_observed (JObj d) inventory e.
Proof.
  unfold parse_external. intros H. invert_reads.
  match goal with H : match (if member ?n _ then _ else _) with _ => _ end = _ |- _ =>
    destruct (member n EXTERNAL_CREDENTIALS) eqn:Em; [|done];
    destruct (secret_named inventory n) as [secret|] eqn:Es; [|done] end.
  invert_reads. apply member_In in Em. apply secret_named_Some in Es as [Hs Hn].
  unfold external_observed. split_and!; try first [at_its_path|assumption].
  - eauto.
  - by eapply stages_here.
Qed.

Definition unavailable_observed (o : json) (inventory : list Secret) (x : Unavailable) : Prop :=
  text_at o [u "unavailable_secret"; u "credential_name"] (un_name x)
  /\ un_name x ∈ map sc_name inventory
  /\ text_at o [u "unavailable_secret"; u "incident_id"] (un_incident_id x)
  /\ stages o "unavailable_secret" UNAVAILABLE_MOMENTS (un_times x)
  /\ moment_at o [u "unavailable_secret"; u "unavailable_at"] (un_unavailable_at x)
  /\ moment_at o [u "unavailable_secret"; u "detected_at"] (un_detected_at x)
  /\ moment_at o [u "unavailable_secret"; u "recovered_at"] (un_recovered_at x)
  /\ un_unavailable_at x <= un_detected_at x <= un_recovered_at x
  /\ flag_at o [u "unavailable_secret"; u "fail_closed"] (un_fail_closed x)
  /\ flag_at o [u "unavailable_secret"; u "secret_exposed"] (un_exposed x).
Lemma parse_unavailable_Ok d inventory x :
  parse_unavailable d inventory = Ok x -> unavailable_observed (JObj d) inventory x.
Proof.
  unfold parse_unavailable. intros H. invert_reads.
  match goal with H : secret_named _ _ = Some _ |- _ => apply secret_named_Some in H as [Hs Hn] end.
  match goal with H : ordered_timestamps _ _ _ = Ok _ |- _ => pose proof H as Hst end.
  unfold UNAVAILABLE_MOMENTS in *. cbn [map] in *. open_timeline.
  unfold unavailable_observed. split_and!; try first [at_its_path|assumption].
  - cbn. rewrite <-Hn. by apply list_elem_of_In, in_map, list_elem_of_In.
  - by eapply stages_here.
  - cbn. lia.
Qed.

Definition scans_observed (o : json) (s : Scans) : Prop :=
  moment_at o [u "artifact_scans"; u "checked_at"] (sn_checked_at s)
  /\ map fst (sn_flags s) = SCAN_FLAGS /\ flags_at o [u "artifact_scans"] (sn_flags s).
Lemma parse_scans_Ok d s : parse_scans d = Ok s -> scans_observed (JObj d) s.
Proof.
  unfold parse_scans. intros H. invert_reads.
  match goal with H : at_keys _ _ _ _ = Ok _ |- _ => apply at_keys_flags in H as [Hk Hf] end.
  unfold scans_observed. split_and!; try first [at_its_path|assumption]. by eapply flags_here.
Qed.

(** Every value of a report was read in its place. *)
Record observed (o : json) (r : Report) : Prop := {
  ob_drill_id : text_at o [u "drill_id"] (rp_drill_id r) /\ safe (rp_drill_id r);
  ob_revision : text_at o [u "source_revision"] (rp_source_revision r)
                /\ safe (rp_source_revision r);
  ob_environment : text_at o [u "environment"] (rp_environment r) /\ safe (rp_environment r);
  ob_manager : text_at o [u "manager_type"] (rp_manager_type r)
               /\ rp_manager_type r ∈ MANAGER_TYPES;
  ob_started : moment_at o [u "started_at"] (rp_started_at r);
  ob_completed : moment_at o [u "completed_at"] (rp_completed_at r);
  ob_inventory : holds o [u "inventory"] (fun v => inventory_observed v (rp_inventory r));
  ob_identity : identity_observed o (rp_identity r);
  ob_fernet : fernet_observed o (rp_inventory r) (rp_fernet r);
  ob_external : external_observed o (rp_inventory r) (rp_external r);
  ob_unavailable : unavailable_observed o (rp_inventory r) (rp_unavailable r);
  ob_scans : scans_observed o (rp_scans r) }.

Definition events_within (r : Report) : Prop :=
  rp_started_at r < rp_completed_at r <= rp_checked_at r
  /\ Forall (fun t => rp_started_at r <= t <= rp_completed_at r)
       (event_times (rp_identity r) (rp_fernet r) (rp_external r) (rp_unavailable r) (rp_scans r))
  /\ Forall (fun s => sc_created_at s <= rp_completed_at r) (rp_inventory r).
Lemma rotation_check_events_Ok s c now inventory events :
  check_events s c now inventory events = Ok tt ->
  c <= now /\ Forall (fun t => s <= t <= c) events
  /\ Forall (fun x => sc_created_at x <= c) inventory.
Proof.
  unfold check_events. intros H. invert_reads. split_and!; [done|..];
    apply Forall_forall; intros x Hx; apply not_true_iff_false in Heqb, Heqb0;
    rewrite existsb_exists in Heqb, Heqb0.
  - destruct (Z.ltb_spec x s), (Z.ltb_spec c x); try lia; destruct Heqb; exists x;
      (split; [done|]); apply orb_true_iff; lia.
  - destruct (Z.ltb_spec c (sc_created_at x)); [|lia]. destruct Heqb0. exists x.
    split; [done|]. lia.
Qed.

Definition limits_valid (li : Limits) : Prop :=
  Forall (fun l => exists q, finite l = Some q /\ (0 <= q)%Q)
    [li_detection li; li_recovery li; li_outage li].
Lemma rotation_compile_evidence_Ok d h li checked clock r :
  compile_evidence d h li checked clock = Ok r ->
  observed (JObj d) r /\ events_within r /\ rp_checked_at r = default clock checked
  /\ rp_limits r = li /\ limits_valid li /\ rp_input_sha256 r = h.
Proof.
  unfold compile_evidence, parse_manager. intros H. invert_reads.
  repeat match goal with
  | H : parse_window _ = Ok _ |- _ => apply parse_window_Ok in H as (? & ? & ?)
  | H : parse_inventory _ _ = Ok _ |- _ => apply parse_inventory_Ok in H
  | H : parse_identity _ = Ok _ |- _ => apply parse_identity_Ok in H
  | H : parse_fernet _ _ = Ok _ |- _ => apply parse_fernet_Ok in H
  | H : parse_external _ _ = Ok _ |- _ => apply parse_external_Ok in H
  | H : parse_unavailable _ _ = Ok _ |- _ => apply parse_unavailable_Ok in H
  | H : parse_scans _ = Ok _ |- _ => apply parse_scans_Ok in H
  | H : check_events _ _ _ _ _ = Ok _ |- _ => apply rotation_check_events_Ok in H as (? & ? & ?)
  | H : limits_ok _ _ = true |- _ => apply limits_ok_nonneg in H
  | H : member _ MANAGER_TYPES = true |- _ => apply member_In in H
  end.
  split_and!; try first [reflexivity|assumption].
  - split; cbn; try assumption; try (split; [at_its_path|assumption]); at_its_path.
  - unfold events_within. cbn. split_and!; assumption || lia.
Qed.

(** ** What a passed drill has shown *)

Record criteria (r : Report) : Prop := {
  cr_complete : forall name, name ∈ REQUIRED_SECRETS -> exists s, s ∈ rp_inventory r
    /\ sc_name s = name;
  cr_secrets : Forall (fun s => rp_completed_at r < sc_due_at s /\ sc_via_file s = true
    /\ sc_read_only s = true) (rp_inventory r);
  cr_identity : id_authentication (rp_identity r) = u "workload_identity"
    /\ id_allowed_count (rp_identity r) = Z.of_nat (length (rp_inventory r))
    /\ id_read (rp_identity r) = true /\ id_list (rp_identity r) = false
    /\ id_write (rp_identity r) = false /\ id_delete (rp_identity r) = false
    /\ id_long_lived (rp_identity r) = false;
  cr_fernet : Forall (fun kb => snd kb = true) (fe_flags (rp_fernet r))
    /\ exists s, s ∈ rp_inventory r /\ sc_name s = u "token_encryption_primary"
         /\ sc_version s = fe_new_version (rp_fernet r);
  cr_external : ex_rollback_prepared (rp_external r) = true
    /\ (ex_outage (rp_external r) <= limit_value (li_outage (rp_limits r)))%Q;
  cr_unavailable : un_fail_closed (rp_unavailable r) = true
    /\ un_exposed (rp_unavailable r) = false
    /\ within_limit (un_detected_at (rp_unavailable r) - un_unavailable_at (rp_unavailable r))
         (li_detection (rp_limits r))
    /\ within_limit (un_recovered_at (rp_unavailable r) - un_unavailable_at (rp_unavailable r))
         (li_recovery (rp_limits r));
  cr_scans : Forall (fun kb => snd kb = true) (sn_flags (rp_scans r)) }.

Lemma forallb_Forall {A} (f : A -> bool) l : forallb f l = true -> Forall (fun x => f x = true) l.
Proof. by rewrite forallb_forall, Forall_forall. Qed.
Lemma complete_spec r :
  inventory_complete r = true ->
  forall name, name ∈ REQUIRED_SECRETS -> exists s, s ∈ rp_inventory r /\ sc_name s = name.
Proof.
  intros H%forallb_Forall name Hn. rewrite Forall_forall in H.
  apply list_elem_of_In, H, member_In, list_elem_of_In, in_map_iff in Hn as (s & Hs & Hi).
  exists s. by rewrite list_elem_of_In.
Qed.

Lemma rotation_passed_criteria o r : observed o r -> passed r = true -> criteria r.
Proof.
  intros Ho H%all_pass_Forall. repeat (apply Forall_cons_1 in H as [? H]; cbn [snd] in *).
  clear H. unfold least_privilege, unavailable_response in *. invert_reads.
  destruct (ob_unavailable _ _ Ho)
    as (_ & _ & _ & _ & Hu%moment_at_range & Hd%moment_at_range & Hr%moment_at_range & _).
  match goal with H : inventory_complete r = true |- _ =>
    pose proof (complete_spec r H) as Hcomplete; clear H end.
  repeat match goal with H : forallb _ _ = true |- _ => apply forallb_Forall in H end.
  split; try (split_and?; assumption).
  - rewrite !Forall_forall in *. intros s Hs. split_and!; auto.
    apply Z.ltb_lt. auto.
  - split; [done|]. destruct (Hcomplete (u "token_encryption_primary")) as (s & Hs & Hn).
    { apply member_In. vm_compute. reflexivity. }
    exists s. split_and!; [done..|].
    destruct (ob_fernet _ _ Ho) as (_ & _ & _ & Hp & _). apply Hp; [done| |done].
    destruct (ob_inventory _ _ Ho) as (v & _ & items & _ & _ & Hnd). done.
  - split; [done|]. by apply Qle_bool_iff.
  - split_and!; [done|done|exact (at_most_within _ _ _ Hu Hd ltac:(eassumption))
      |exact (at_most_within _ _ _ Hu Hr ltac:(eassumption))].
Qed.

(** A rotation drill passes only on what it showed.  When the verifier writes evidence
    and exits with status 0, every value of its report was read in its place of the JSON
    input; the drill's events lie within it, each stage list in order; the inventory names
    every required secret, none twice, none due, all mounted read-only from files; the
    identity is a workload identity that may only read those secrets; the new token
    encryption key is the inventory's primary and all its stages were verified; the external
    credential is an inventoried one, its new version the inventory's, with a prepared
    rollback and an outage within the limit; and the lost secret failed closed, unexposed,
    and was detected and recovered in time. *)
Theorem rotation_evidence_sound (sha256 : list N -> str) (same_path : bool)
    (file : option (list N)) (li : Limits) (clock : Z) (doc : json)
    (Hrun : main sha256 same_path file li clock = Written doc 0) :
  exists raw d r, file = Some raw /\ json_loads raw = inl (JObj d) /\ doc = document sha256 r
    /\ rp_limits r = li /\ limits_valid li /\ rp_checked_at r = clock
    /\ rp_input_sha256 r = sha256 raw
    /\ observed (JObj d) r /\ events_within r /\ criteria r.
Proof.
  apply main_passed in Hrun as (_ & raw & d & -> & Hj & Hc). exists raw, d.
  apply obind_Ok in Hc as (r & Hr & [= <- Hp]). exists r.
  apply rotation_compile_evidence_Ok in Hr as (Ho & He & Hn & Hl & Hv & Hh).
  split_and!; try first [assumption|reflexivity]. by eapply rotation_passed_criteria.
Qed.

(** ** What the evidence does not disclose *)

Definition forget (s : Secret) : Secret := {|
  sc_name := sc_name s; sc_workloads := sc_workloads s; sc_owner := [];
  sc_version := sc_version s; sc_created_at := sc_created_at s; sc_due_at := sc_due_at s;
  sc_via_file := sc_via_file s; sc_read_only := sc_read_only s |}.

Definition item_alike (v v' : json) : Prop := exists i i',
  v = JObj i /\ v' = JObj i' /\ agree_but [u "owner"] i i'
  /\ identifier_at i (u "owner") /\ identifier_at i' (u "owner").
(** Observations that differ in the owners of secrets and in the name of the identity *)
Definition alike (d d' : mapping) : Prop :=
  agree_but [u "inventory"; u "workload_identity"] d d'
  /\ (exists items items', dict_get str_eqb d (u "inventory") = Some (JArr items)
      /\ dict_get str_eqb d' (u "inventory") = Some (JArr items')
      /\ Forall2 item_alike items items')
  /\ (exists w w', dict_get str_eqb d (u "workload_identity") = Some (JObj w)
      /\ dict_get str_eqb d' (u "workload_identity") = Some (JObj w')
      /\ agree_but [u "identity"] w w' /\ identifier_at w (u "identity")
      /\ identifier_at w' (u "identity")).

Lemma parse_secret_alike seen label v v' :
  item_alike v v' ->
  omapo forget (parse_secret seen label v) = omapo forget (parse_secret seen label v').
Proof.
  intros (i & i' & -> & -> & H & Ho & Ho'). unfold parse_secret. cbn [require_mapping obind].
  destruct (at_key_identifier _ label _ Ho) as (o & Eo).
  destruct (at_key_identifier _ label _ Ho') as (o' & Eo').
  rewrite (exact_keys_agree _ _ _ _ _ H), Eo, Eo'.
  repeat rewrite (at_key_agree _ _ _ _ label _ H) by reflexivity. clear. cbn [obind].
  repeat (match goal with |- context [obind ?x _] => destruct x; cbn [obind omapo]; [|done] end
          || match goal with |- context [if ?b then _ else _] => destruct b; [done|] end).
  done.
Qed.
Lemma omapo_Ok {A B} (f : A -> B) (o o' : outcome A) :
  omapo f o = omapo f o' ->
  match o, o' with Ok a, Ok a' => f a = f a' | Raise e, Raise e' => e = e' | _, _ => False end.
Proof. destruct o, o'; cbn; congruence. Qed.
Lemma parse_secrets_alike items items' : Forall2 item_alike items items' -> forall index seen,
  omapo (map forget) (parse_secrets index seen items)
  = omapo (map forget) (parse_secrets index seen items').
Proof.
  induction 1 as [|v v' items items' Hv _ IH]; intros index seen; [done|].
  cbn [parse_secrets]. pose proof (omapo_Ok _ _ _ (parse_secret_alike seen (item_label index) v v' Hv)) as Hs.
  destruct (parse_secret seen _ v) as [s|], (parse_secret seen _ v') as [s'|]; try done;
    [|by cbn; rewrite Hs].
  cbn [obind]. assert (Hn : sc_name s = sc_name s') by exact (f_equal sc_name Hs). rewrite <-Hn.
  pose proof (omapo_Ok _ _ _ (IH (N.succ index) (sc_name s :: seen))) as Hr.
  destruct (parse_secrets _ _ items), (parse_secrets _ _ items'); try done; cbn; congruence.
Qed.

Lemma secret_named_forget inventory name :
  secret_named (map forget inventory) name = option_map forget (secret_named inventory name).
Proof.
  unfold secret_named. induction inventory as [|s inventory IH]; [done|]. cbn [map List.find].
  change (sc_name (forget s)) with (sc_name s). by destruct (str_eqb _ _).
Qed.
Lemma parse_fernet_forget d inventory :
  parse_fernet d (map forget inventory) = parse_fernet d inventory.
Proof. unfold parse_fernet. rewrite secret_named_forget. by destruct (secret_named _ _). Qed.
Lemma parse_external_forget d inventory :
  parse_external d (map forget inventory) = parse_external d inventory.
Proof.
  apply obind_ext. intros e. apply obind_ext. intros name. rewrite secret_named_forget.
  destruct (member _ _); [|reflexivity]. by destruct (secret_named _ _).
Qed.
Lemma parse_unavailable_forget d inventory :
  parse_unavailable d (map forget inventory) = parse_unavailable d inventory.
Proof.
  apply obind_ext. intros e. apply obind_ext. intros name. rewrite secret_named_forget.
  by destruct (secret_named _ _).
Qed.
Lemma check_events_forget s c now inventory events :
  check_events s c now (map forget inventory) events = check_events s c now inventory events.
Proof.
  unfold check_events. do 2 f_equal. destruct (existsb _ events); [done|].
  assert (existsb (fun x => c <? sc_created_at x) (map forget inventory)
          = existsb (fun x => c <? sc_created_at x) inventory) as ->; [|done].
  induction inventory as [|x inventory IH]; [done|]. cbn [map existsb]. by rewrite IH.
Qed.

Definition forget_owners (r : Report) : Report := {|
  rp_checked_at := rp_checked_at r; rp_drill_id := rp_drill_id r;
  rp_source_revision := rp_source_revision r; rp_environment := rp_environment r;
  rp_manager_type := rp_manager_type r; rp_started_at := rp_started_at r;
  rp_completed_at := rp_completed_at r; rp_inventory := map forget (rp_inventory r);
  rp_identity := rp_identity r; rp_fernet := rp_fernet r; rp_external := rp_external r;
  rp_unavailable := rp_unavailable r; rp_scans := rp_scans r; rp_limits := rp_limits r;
  rp_input_sha256 := rp_input_sha256 r |}.
Lemma insert_forget s l :
  insert_sorted by_name (forget s) (map forget l) = map forget (insert_sorted by_name s l).
Proof.
  induction l as [|x l IH]; [done|]. cbn [map insert_sorted].
  change (by_name (forget s) (forget x)) with (by_name s x).
  destruct (by_name s x); [done|]. cbn [map]. by rewrite IH.
Qed.
Lemma sorted_forget l : py_sorted by_name (map forget l) = map forget (py_sorted by_name l).
Proof.
  unfold py_sorted. induction l as [|x l IH]; [done|]. cbn [map foldr]. by rewrite IH, insert_forget.
Qed.
Lemma forallb_forget (f : Secret -> bool) l :
  (forall s, f (forget s) = f s) -> forallb f (map forget l) = forallb f l.
Proof. intros H. induction l as [|x l IH]; [done|]. cbn [map forallb]. by rewrite H, IH. Qed.
Lemma checks_forget r : checks (forget_owners r) = checks r.
Proof.
  unfold checks, inventory_complete, least_privilege. cbn [rp_inventory forget_owners].
  rewrite map_map, length_map, !forallb_forget by done. done.
Qed.
Lemma document_forget sha256 r : document sha256 (forget_owners r) = document sha256 r.
Proof.
  unfold document, passed. rewrite checks_forget. cbn [rp_inventory forget_owners].
  by rewrite sorted_forget, map_map.
Qed.

Lemma parse_identity_alike d d' : alike d d' -> parse_identity d = parse_identity d'.
Proof.
  intros (_ & _ & w & w' & Hw & Hw' & H & Hi & Hi'). unfold parse_identity, section, at_top, item,
    jindex. rewrite Hw, Hw'. cbn [obind require_mapping]. rewrite (exact_keys_agree _ _ _ _ _ H).
  set (l := u "workload_identity"). set (keys := _ :: _).
  destruct (at_key_identifier _ l _ Hi) as (x & Ex), (at_key_identifier _ l _ Hi') as (x' & Ex').
  destruct (require_exact_keys w' _ _); cbn [obind]; [|done]. rewrite Ex, Ex'. cbn [obind].
  by repeat rewrite (at_key_agree _ _ _ _ l _ H) by reflexivity.
Qed.
Lemma compile_alike d d' h li checked clock : alike d d' ->
  omapo forget_owners (compile_evidence d h li checked clock)
  = omapo forget_owners (compile_evidence d' h li checked clock).
Proof.
  intros Ha. pose proof Ha as (H & (items & items' & Hd & Hd' & Hi) & _).
  pose proof (parse_identity_alike _ _ Ha) as Hid.
  assert (Hinv : omapo (map forget) (at_top parse_inventory d (u "inventory"))
                 = omapo (map forget) (at_top parse_inventory d' (u "inventory"))).
  { unfold at_top, item, jindex. rewrite Hd, Hd'. cbn [obind]. unfold parse_inventory.
    destruct Hi as [|v v' items items' Hv Hi]; [done|]. apply parse_secrets_alike. by constructor. }
  assert (Hsec : forall k keys, existsb (str_eqb k) [u "inventory"; u "workload_identity"] = false ->
    section d k keys = section d' k keys) by (intros; by eapply section_agree).
  unfold compile_evidence, parse_manager, parse_scans.
  rewrite (exact_keys_agree _ _ _ _ _ H), Hid, (require_schema_agree _ _ _ H),
    (parse_window_agree _ _ _ H), (Hsec (u "artifact_scans")) by reflexivity.
  repeat rewrite (at_top_agree safe_identifier _ _ _ _ H) by reflexivity.
  do 7 (apply omapo_obind_ext; intros ?). apply omapo_obind_ext. intros [started_at completed_at].
  pose proof (omapo_Ok _ _ _ Hinv) as Hl.
  destruct (at_top _ d _) as [l|], (at_top _ d' _) as [l'|]; try done; [|by rewrite Hl].
  cbn [obind]. apply omapo_obind_ext. intros identity.
  assert (parse_fernet d l = parse_fernet d' l') as ->.
  { rewrite <-(parse_fernet_forget d), <-(parse_fernet_forget d'), Hl. unfold parse_fernet.
    by rewrite Hsec. }
  apply omapo_obind_ext. intros fernet.
  assert (parse_external d l = parse_external d' l') as ->.
  { rewrite <-(parse_external_forget d), <-(parse_external_forget d'), Hl. unfold parse_external.
    by rewrite Hsec. }
  apply omapo_obind_ext. intros external.
  assert (parse_unavailable d l = parse_unavailable d' l') as ->.
  { rewrite <-(parse_unavailable_forget d), <-(parse_unavailable_forget d'), Hl.
    unfold parse_unavailable. by rewrite Hsec. }
  apply omapo_obind_ext. intros unavailable. apply omapo_obind_ext. intros scans.
  rewrite <-(check_events_forget _ _ _ l), <-(check_events_forget _ _ _ l'), Hl.
  apply omapo_obind_ext. intros []. unfold omapo. cbn [obind]. unfold forget_owners. cbn. by rewrite Hl.
Qed.

(** The evidence discloses neither the owners of the secrets nor the name of the
    workload identity: two observations that differ in nothing but these identifiers are
    refused with the same message, or give the same evidence, up to the hash of the input. *)
Theorem rotation_evidence_redacts (sha256 : list N -> str) (d d' : mapping) (h : str)
    (li : Limits) (checked : option Z) (clock : Z) (Halike : alike d d') :
  omapo (document sha256) (compile_evidence d h li checked clock)
  = omapo (document sha256) (compile_evidence d' h li checked clock).
Proof.
  pose proof (omapo_Ok _ _ _ (compile_alike d d' h li checked clock Halike)) as H.
  destruct (compile_evidence d _ _ _ _) as [r|], (compile_evidence d' _ _ _ _) as [r'|]; try done;
    [|by rewrite H].
  unfold omapo. cbn [obind]. by rewrite <-(document_forget _ r), <-(document_forget _ r'), H.
Qed.
End observed.

Definition example_file : list N := file_of "{
  'schema_version': 1,
  'drill_id': 'secret-rotation-example',
  'source_revision': 'release-example',
  'environment': 'staging-example',
  'manager_type': 'other',
  'started_at': '2025-09-02T00:00:00Z',
  'completed_at': '2025-09-02T02:00:00Z',
  'inventory': [
    {
      'name': 'webhook_secret',
      'workloads': ['api'],
      'owner': 'platform-oncall',
      'version': 'webhook-v3',
      'created_at': '2025-08-01T00:00:00Z',
      'rotation_due_at': '2026-02-01T00:00:00Z',
      'injected_via_file': true,
      'read_only': true
    },
    {
      'name': 'github_private_key',
      'workloads': ['api', 'worker'],
      'owner': 'platform-oncall',
      'version': 'github-private-v2',
      'created_at': '2025-09-02T01:00:00Z',
      'rotation_due_at': '2026-03-02T01:00:00Z',
      'injected_via_file': true,
      'read_only': true
    },
    {
      'name': 'github_client_secret',
      'workloads': ['api'],
      'owner': 'platform-oncall',
      'version': 'github-oauth-v2',
      'created_at': '2025-08-01T00:00:00Z',
      'rotation_due_at': '2026-02-01T00:00:00Z',
      'injected_via_file': true,
      'read_only': true
    },
    {
      'name': 'session_secret',
      'workloads': ['api'],
      'owner': 'platform-oncall',
      'version': 'session-v2',
      'created_at': '2025-08-01T00:00:00Z',
      'rotation_due_at': '2026-02-01T00:00:00Z',
      'injected_via_file': true,
      'read_only': true
    },
    {
      'name': 'token_encryption_primary',
      'workloads': ['api'],
      'owner': 'platform-oncall',
      'version': 'fernet-v2',
      'created_at': '2025-09-02T00:10:00Z',
      'rotation_due_at': '2026-03-02T00:10:00Z',
      'injected_via_file': true,
      'read_only': true
    },
    {
      'name': 'token_encryption_fallback',
      'workloads': ['api'],
      'owner': 'platform-oncall',
      'version': 'fernet-fallback-empty-v3',
      'created_at': '2025-09-02T00:48:00Z',
      'rotation_due_at': '2026-03-02T00:48:00Z',
      'injected_via_file': true,
      'read_only': true
    },
    {
      'name': 'database_url',
      'workloads': ['api', 'worker', 'migration'],
      'owner': 'database-oncall',
      'version': 'database-v4',
      'created_at': '2025-08-01T00:00:00Z',
      'rotation_due_at': '2026-02-01T00:00:00Z',
      'injected_via_file': true,
      'read_only': true
    },
    {
      'name': 'redis_url',
      'workloads': ['api', 'worker'],
      'owner': 'platform-oncall',
      'version': 'redis-v3',
      'created_at': '2025-08-01T00:00:00Z',
      'rotation_due_at': '2026-02-01T00:00:00Z',
      'injected_via_file': true,
      'read_only': true
    },
    {
      'name': 'alertmanager_receiver',
      'workloads': ['alertmanager'],
      'owner': 'incident-oncall',
      'version': 'alertmanager-v2',
      'created_at': '2025-08-01T00:00:00Z',
      'rotation_due_at': '2026-02-01T00:00:00Z',
      'injected_via_file': true,
      'read_only': true
    }
  ],
  'workload_identity': {
    'identity': 'pipelens-staging-runtime',
    'authentication': 'workload_identity',
    'allowed_secret_count': 9,
    'read_allowed': true,
    'list_allowed': false,
    'write_allowed': false,
    'delete_allowed': false,
    'long_lived_key_present': false,
    'policy_checked_at': '2025-09-02T00:05:00Z'
  },
  'fernet_rotation': {
    'new_version': 'fernet-v2',
    'old_version': 'fernet-v1',
    'new_version_created_at': '2025-09-02T00:10:00Z',
    'old_primary_new_fallback_deployed_at': '2025-09-02T00:15:00Z',
    'dual_read_verified_at': '2025-09-02T00:20:00Z',
    'new_primary_old_fallback_deployed_at': '2025-09-02T00:25:00Z',
    'lazy_rewrap_verified_at': '2025-09-02T00:30:00Z',
    'observation_window_ended_at': '2025-09-02T00:45:00Z',
    'old_fallback_removed_at': '2025-09-02T00:48:00Z',
    'post_removal_canary_at': '2025-09-02T00:50:00Z',
    'all_instances_updated': true,
    'old_deployments_terminated': true,
    'existing_session_verified': true
  },
  'external_rotation': {
    'credential_name': 'github_private_key',
    'new_version': 'github-private-v2',
    'old_version': 'github-private-v1',
    'new_version_created_at': '2025-09-02T01:00:00Z',
    'new_version_deployed_at': '2025-09-02T01:05:00Z',
    'pre_revoke_canary_at': '2025-09-02T01:08:00Z',
    'old_version_revoked_at': '2025-09-02T01:10:00Z',
    'post_revoke_canary_at': '2025-09-02T01:12:00Z',
    'rollback_prepared': true,
    'unplanned_outage_seconds': 0
  },
  'unavailable_secret': {
    'credential_name': 'redis_url',
    'incident_id': 'EXAMPLE-SECRET-INCIDENT-42',
    'unavailable_at': '2025-09-02T01:20:00Z',
    'detected_at': '2025-09-02T01:20:10Z',
    'incident_declared_at': '2025-09-02T01:20:20Z',
    'replacement_deployed_at': '2025-09-02T01:21:30Z',
    'recovered_at': '2025-09-02T01:22:00Z',
    'fail_closed': true,
    'secret_exposed': false
  },
  'artifact_scans': {
    'repository_clean': true,
    'images_clean': true,
    'manifests_clean': true,
    'logs_clean': true,
    'checked_at': '2025-09-02T01:30:00Z'
  }
}".
Lemma rotation_evidence_sound_witness :
  exists r d, json_loads example_file = inl (JObj d) /\ @observed ascii_db (JObj d) r /\ criteria r.
Proof.
  destruct (@main ascii_db (fun _ => u "h") false (Some example_file) parse_args 1788220800000000)
    as [doc status| |] eqn:E.
  - assert (status = 0) as -> by (vm_compute in E; congruence).
    destruct (@rotation_evidence_sound ascii_db _ _ _ _ _ _ E)
      as (raw & d & r & [= <-] & Hj & _ & _ & _ & _ & _ & Ho & _ & Hc).
    exists r, d. exact (conj Hj (conj Ho Hc)).
  - vm_compute in E. discriminate E.
  - vm_compute in E. discriminate E.
Defined.

(** The example with other owners and another identity *)
Definition example : mapping :=
  match json_loads example_file with inl (JObj d) => d | _ => [] end.
Definition items_of (d : mapping) : list json :=
  match dict_get str_eqb d (u "inventory") with Some (JArr l) => l | _ => [] end.
Definition identity_of (d : mapping) : mapping :=
  match dict_get str_eqb d (u "workload_identity") with Some (JObj w) => w | _ => [] end.
Definition other : json := JStr (u "somebody-else").
Definition renamed_item (v : json) : json :=
  match v with JObj i => JObj (dict_set str_eqb i (u "owner") other) | _ => v end.
Definition renamed (d : mapping) : mapping :=
  dict_set str_eqb
    (dict_set str_eqb d (u "inventory") (JArr (map renamed_item (items_of d))))
    (u "workload_identity") (JObj (dict_set str_eqb (identity_of d) (u "identity") other)).
Definition owned (v : json) : bool :=
  match v with JObj i => @identifier_under ascii_db i (u "owner") | _ => false end.
Lemma renamed_items items :
  forallb owned items = true -> Forall2 (@item_alike ascii_db) items (map renamed_item items).
Proof.
  induction items as [|v items IH]; cbn [forallb map]; intros H; [constructor|].
  apply andb_true_iff in H as [Hv H]. constructor; [|auto]. destruct v; try done.
  eexists d, _. do 2 (split; [reflexivity|]). apply renamed_identifier; [exact Hv|].
  split; vm_compute; reflexivity.
Qed.
Lemma rotation_evidence_redacts_witness :
  @alike ascii_db example (renamed example)
  /\ omapo (document (fun _ => u "h"))
       (@compile_evidence ascii_db example (u "h") parse_args None 1788220800000000)
     = omapo (document (fun _ => u "h"))
         (@compile_evidence ascii_db (renamed example) (u "h") parse_args None 1788220800000000).
Proof.
  assert (H : @alike ascii_db example (renamed example)).
  { split; [|split].
    - apply (agree_but_trans [u "inventory"] [u "workload_identity"] _
        (dict_set str_eqb example (u "inventory") (JArr (map renamed_item (items_of example)))));
        apply agree_but_set, (bool_decide_eq_true_1 _); vm_compute; reflexivity.
    - exists (items_of example), (map renamed_item (items_of example)).
      do 2 (split; [vm_compute; reflexivity|]). apply renamed_items. vm_compute. reflexivity.
    - exists (identity_of example), (dict_set str_eqb (identity_of example) (u "identity") other).
      do 2 (split; [vm_compute; reflexivity|]). apply renamed_identifier; [vm_compute; reflexivity|].
      split; vm_compute; reflexivity. }
  split; [exact H|]. exact (rotation_evidence_redacts _ _ _ _ _ _ _ H).
Defined.
