(* ===== verification/AlertEvidence.v ===== *)
(** * Evidence of an alert channel exercise (ops/alertmanager/verify_channel_evidence.py)

    An exercise sends a probe through the production channel, groups, repeats, inhibits and
    silences alerts, rotates the channel's credential and lets the receiver fail.  The
    counts and the timelines are read, and nine checks decide whether the exercise passed.
    The owner and the escalation policy are documented, not repeated. *)

From Stdlib Require Import QArith.
From stdpp Require Import base list strings numbers.
From S2P Require Import Prelude Double Calendar Json Evidence.

Set Default Proof Using "Type".

Definition RECEIVER_TYPES : list str := map u [
  "incidentio"; "pagerduty"; "slack"; "webhook"; "other"]%string.
Definition TOP_LEVEL_KEYS : list str := map u [
  "schema_version"; "source_revision"; "environment"; "receiver_type"; "owner";
  "escalation_policy_ref"; "alertmanager_group"; "external_incident_id"; "probe"; "grouping";
  "deduplication"; "inhibition"; "silence"; "credential_rotation"; "receiver_failure"]%string.
Definition PROBE_MOMENTS : list str := map u [
  "firing_sent_at"; "firing_delivered_at"; "acknowledged_at"; "resolved_sent_at";
  "resolved_delivered_at"]%string.
Definition ROTATION_MOMENTS : list str := map u [
  "before_sent_at"; "before_delivered_at"; "rotated_at"; "after_sent_at";
  "after_delivered_at"]%string.
Definition FAILURE_MOMENTS : list str := map u [
  "failure_started_at"; "alert_sent_at"; "recovered_at"; "delivered_at"]%string.

(** [pair]: the two counts of an exercise *)
Record Counts := { ct_first : Z; ct_second : Z }.
Record Probe := {
  pr_times : timeline; pr_firing_sent : Z; pr_firing_delivered : Z; pr_acknowledged : Z;
  pr_resolved_sent : Z; pr_resolved_delivered : Z }.
Record Rotation := {
  ro_times : timeline; ro_before_sent : Z; ro_before_delivered : Z; ro_after_sent : Z;
  ro_after_delivered : Z; ro_old_revoked : bool }.
Record Failure := {
  fa_times : timeline; fa_alert_sent : Z; fa_delivered : Z; fa_attempts : Z }.
Record Limits := {
  li_delivery : limit; li_acknowledgement : limit; li_resolve : limit; li_retry : limit }.
Record Report := {
  rp_checked_at : Z; rp_source_revision : str; rp_environment : str; rp_receiver_type : str;
  rp_group : str; rp_incident : str; rp_probe : Probe; rp_grouping : Counts;
  rp_deduplication : Counts; rp_inhibition : Counts; rp_silence : Counts;
  rp_rotation : Rotation; rp_failure : Failure; rp_limits : Limits; rp_input_sha256 : str }.

Section alert.
Context {U : UnicodeDb}.

(** This verifier's own ordered_timestamps: the object holds the timestamps and nothing
    else. *)
Definition ordered_timestamps (value : json) (keys : list str) (label : str) : outcome timeline :=
  let! d := require_mapping value label in
  let! _ := require_exact_keys d keys label in
  Evidence.ordered_timestamps d keys label.
Definition count_check (value : json) (label first second : str) : outcome Counts :=
  let! d := require_mapping value label in
  let! _ := require_exact_keys d [first; second] label in
  let! a := at_key non_negative_int d label first in
  let! b := at_key non_negative_int d label second in
  Ok {| ct_first := a; ct_second := b |}.
(** count_check(observation[key], key, first, second) *)
Definition counts_at (observation : mapping) (key first second : str) : outcome Counts :=
  at_top (fun value label => count_check value label first second) observation key.
(** {key: d[key] for key in d if key != excluded} *)
Definition without (excluded : str) (d : mapping) : mapping :=
  List.filter (fun kv => negb (str_eqb (fst kv) excluded)) d.

Definition parse_probe (observation : mapping) : outcome Probe :=
  let! times :=
    at_top (fun value label => ordered_timestamps value PROBE_MOMENTS label)
      observation (u "probe") in
  let! firing_sent := moment times (u "firing_sent_at") in
  let! firing_delivered := moment times (u "firing_delivered_at") in
  let! acknowledged := moment times (u "acknowledged_at") in
  let! resolved_sent := moment times (u "resolved_sent_at") in
  let! resolved_delivered := moment times (u "resolved_delivered_at") in
  Ok {| pr_times := times; pr_firing_sent := firing_sent; pr_firing_delivered := firing_delivered;
        pr_acknowledged := acknowledged; pr_resolved_sent := resolved_sent;
        pr_resolved_delivered := resolved_delivered |}.

Definition parse_rotation (observation : mapping) : outcome Rotation :=
  let l := u "credential_rotation" in
  let! d := section observation l (ROTATION_MOMENTS ++ [u "old_credential_revoked"]) in
  let! times :=
    ordered_timestamps (JObj (without (u "old_credential_revoked") d)) ROTATION_MOMENTS l in
  let! revoked := at_key require_bool d l (u "old_credential_revoked") in
  let! before_sent := moment times (u "before_sent_at") in
  let! before_delivered := moment times (u "before_delivered_at") in
  let! after_sent := moment times (u "after_sent_at") in
  let! after_delivered := moment times (u "after_delivered_at") in
  Ok {| ro_times := times; ro_before_sent := before_sent; ro_before_delivered := before_delivered;
        ro_after_sent := after_sent; ro_after_delivered := after_delivered;
        ro_old_revoked := revoked |}.

Definition parse_failure (observation : mapping) : outcome Failure :=
  let l := u "receiver_failure" in
  let! d := section observation l (FAILURE_MOMENTS ++ [u "attempts"]) in
  let! times := ordered_timestamps (JObj (without (u "attempts") d)) FAILURE_MOMENTS l in
  let! attempts := at_key non_negative_int d l (u "attempts") in
  let! alert_sent := moment times (u "alert_sent_at") in
  let! delivered := moment times (u "delivered_at") in
  Ok {| fa_times := times; fa_alert_sent := alert_sent; fa_delivered := delivered;
        fa_attempts := attempts |}.

Definition parse_receiver_type (observation : mapping) : outcome str :=
  let! receiver_type := at_top safe_identifier observation (u "receiver_type") in
  if existsb (str_eqb receiver_type) RECEIVER_TYPES then Ok receiver_type
  else value_error [u "receiver_type must be one of ";
                    str_join (u ", ") (py_sorted str_leb RECEIVER_TYPES)].

Definition positive_limit (q : Q) : bool := negb (Qle_bool q 0).
Definition check_limits (li : Limits) : outcome unit :=
  if limits_ok positive_limit
       [li_delivery li; li_acknowledgement li; li_resolve li; li_retry li] then Ok tt
  else value_error [u "latency thresholds must be positive"].

(** No event lies in the future. *)
Definition check_events (now : Z) (probe : Probe) (rotation : Rotation) (failure : Failure)
  : outcome unit :=
  match map snd (pr_times probe ++ ro_times rotation ++ fa_times failure) with
  | [] => Raise (ValueError (u "max() iterable argument is empty"))
  | t :: ts =>
    if now <? fold_left Z.max ts t then
      value_error [u "observation timestamps cannot be in the future"]
    else Ok tt
  end.

Definition compile_evidence (observation : mapping) (input_sha256 : str) (li : Limits)
    (checked_at : option Z) (clock : Z) : outcome Report :=
  let! _ := require_exact_keys observation TOP_LEVEL_KEYS (u "observation") in
  let! _ := require_schema observation in
  let! _ := check_limits li in
  let! source_revision := at_top safe_identifier observation (u "source_revision") in
  let! environment := at_top safe_identifier observation (u "environment") in
  let! receiver_type := parse_receiver_type observation in
  let! _ := at_top safe_identifier observation (u "owner") in
  let! _ := at_top safe_identifier observation (u "escalation_policy_ref") in
  let! group := at_top safe_identifier observation (u "alertmanager_group") in
  let! incident := at_top safe_identifier observation (u "external_incident_id") in
  let! probe := parse_probe observation in
  let! grouping := counts_at observation (u "grouping") (u "source_alerts") (u "notifications") in
  let! deduplication := counts_at observation (u "deduplication") (u "repeated_firings")
                          (u "new_external_incidents") in
  let! inhibition := counts_at observation (u "inhibition") (u "candidates") (u "deliveries") in
  let! silence := counts_at observation (u "silence") (u "candidates") (u "deliveries") in
  let! rotation := parse_rotation observation in
  let! failure := parse_failure observation in
  let checked := default clock checked_at in
  let! _ := check_events checked probe rotation failure in
  Ok {| rp_checked_at := checked; rp_source_revision := source_revision;
        rp_environment := environment; rp_receiver_type := receiver_type; rp_group := group;
        rp_incident := incident; rp_probe := probe; rp_grouping := grouping;
        rp_deduplication := deduplication; rp_inhibition := inhibition; rp_silence := silence;
        rp_rotation := rotation; rp_failure := failure; rp_limits := li;
        rp_input_sha256 := input_sha256 |}.

(** ** The checks *)

Definition delivery_latency (r : Report) : Q :=
  duration_seconds (pr_firing_sent (rp_probe r)) (pr_firing_delivered (rp_probe r)).
Definition acknowledgement_latency (r : Report) : Q :=
  duration_seconds (pr_firing_delivered (rp_probe r)) (pr_acknowledged (rp_probe r)).
Definition resolve_latency (r : Report) : Q :=
  duration_seconds (pr_resolved_sent (rp_probe r)) (pr_resolved_delivered (rp_probe r)).
Definition before_latency (r : Report) : Q :=
  duration_seconds (ro_before_sent (rp_rotation r)) (ro_before_delivered (rp_rotation r)).
Definition after_latency (r : Report) : Q :=
  duration_seconds (ro_after_sent (rp_rotation r)) (ro_after_delivered (rp_rotation r)).
Definition retry_latency (r : Report) : Q :=
  duration_seconds (fa_alert_sent (rp_failure r)) (fa_delivered (rp_failure r)).

Definition checks (r : Report) : check_list := [
  (u "firing_delivery", at_most (delivery_latency r) (li_delivery (rp_limits r)));
  (u "resolved_delivery", at_most (resolve_latency r) (li_resolve (rp_limits r)));
  (u "acknowledgement", at_most (acknowledgement_latency r) (li_acknowledgement (rp_limits r)));
  (u "grouping", (2 <=? ct_first (rp_grouping r)) && (ct_second (rp_grouping r) =? 1));
  (u "deduplication",
   (1 <=? ct_first (rp_deduplication r)) && (ct_second (rp_deduplication r) =? 0));
  (u "inhibition", (1 <=? ct_first (rp_inhibition r)) && (ct_second (rp_inhibition r) =? 0));
  (u "silence", (1 <=? ct_first (rp_silence r)) && (ct_second (rp_silence r) =? 0));
  (u "credential_rotation",
   ro_old_revoked (rp_rotation r) && at_most (before_latency r) (li_delivery (rp_limits r))
   && at_most (after_latency r) (li_delivery (rp_limits r)));
  (u "receiver_retry",
   (2 <=? fa_attempts (rp_failure r)) && at_most (retry_latency r) (li_retry (rp_limits r)))].
Definition passed (r : Report) : bool := all_pass (checks r).

(** ** The document *)

Definition document (r : Report) : json := JObj [
  (u "schema_version", JInt 1);
  (u "checked_at", JStr (utc_timestamp (rp_checked_at r)));
  (u "source_revision", JStr (rp_source_revision r));
  (u "environment", JStr (rp_environment r));
  (u "receiver_type", JStr (rp_receiver_type r));
  (u "ownership", JObj [
    (u "owner_documented", JBool true); (u "escalation_policy_documented", JBool true)]);
  (u "incident", JObj [
    (u "alertmanager_group", JStr (rp_group r));
    (u "external_incident_id", JStr (rp_incident r))]);
  (u "timeline", JObj [
    (u "probe", timeline_json (pr_times (rp_probe r)));
    (u "credential_rotation", timeline_json (ro_times (rp_rotation r)));
    (u "receiver_failure", timeline_json (fa_times (rp_failure r)))]);
  (u "latency_seconds", JObj [
    (u "firing_delivery", JFloat (delivery_latency r));
    (u "acknowledgement", JFloat (acknowledgement_latency r));
    (u "resolved_delivery", JFloat (resolve_latency r));
    (u "rotation_before_delivery", JFloat (before_latency r));
    (u "rotation_after_delivery", JFloat (after_latency r));
    (u "receiver_retry", JFloat (retry_latency r))]);
  (u "threshold_seconds", JObj [
    (u "delivery", limit_json (li_delivery (rp_limits r)));
    (u "acknowledgement", limit_json (li_acknowledgement (rp_limits r)));
    (u "resolved_delivery", limit_json (li_resolve (rp_limits r)));
    (u "receiver_retry", limit_json (li_retry (rp_limits r)))]);
  (u "exercise_counts", JObj [
    (u "grouping_source_alerts", JInt (ct_first (rp_grouping r)));
    (u "grouping_notifications", JInt (ct_second (rp_grouping r)));
    (u "deduplication_repeated_firings", JInt (ct_first (rp_deduplication r)));
    (u "deduplication_new_external_incidents", JInt (ct_second (rp_deduplication r)));
    (u "inhibition_candidates", JInt (ct_first (rp_inhibition r)));
    (u "inhibition_deliveries", JInt (ct_second (rp_inhibition r)));
    (u "silence_candidates", JInt (ct_first (rp_silence r)));
    (u "silence_deliveries", JInt (ct_second (rp_silence r)));
    (u "receiver_retry_attempts", JInt (fa_attempts (rp_failure r)))]);
  (u "checks", checks_json (checks r));
  (u "passed", JBool (passed r));
  (u "input_sha256", JStr (rp_input_sha256 r))].

(** The defaults of the command line *)
Definition parse_args : Limits := {|
  li_delivery := Whole 120; li_acknowledgement := Whole 300; li_resolve := Whole 120;
  li_retry := Whole 300 |}.
Definition main (sha256 : list N -> str) (same_path : bool) (file : option (list N))
    (li : Limits) (clock : Z) : verdict :=
  Evidence.main sha256 same_path file (fun observation input_sha256 =>
    let! r := compile_evidence observation input_sha256 li None clock in
    Ok (document r, passed r)).
End alert.
