(* ===== verification/AlertEvidenceFacts.v ===== *)
(** * Facts about the evidence of an alert channel exercise *)

From Stdlib Require Import QArith Qabs Lqa.
From stdpp Require Import base list strings numbers.
From S2P Require Import Prelude Double Calendar Regex Json Loads Evidence.
From S2P Require Import EvidenceFacts AlertEvidence.

Set Default Proof Using "Type".

Section observed.
Context {U : UnicodeDb}.

(** An object without a key has the other values. *)
Lemma dict_get_without excluded d k :
  k <> excluded -> dict_get str_eqb (without excluded d) k = dict_get str_eqb d k.
Proof.
  intros Hk. unfold without. induction d as [|[k' v] d IH]; [done|].
  cbn [List.filter fst dict_get]. destruct (str_eqb k' excluded) eqn:E; cbn [negb].
  - apply str_eqb_eq in E as ->. rewrite (proj2 (str_eqb_neq _ _) Hk). exact IH.
  - cbn [dict_get]. by rewrite IH.
Qed.
Lemma moment_at_without excluded d k t :
  str_eqb k excluded = false -> moment_at (JObj (without excluded d)) [k] t ->
  moment_at (JObj d) [k] t.
Proof.
  intros Hk%str_eqb_neq (w & Hw & Ht). exists w. split; [|done]. revert Hw. cbn [at_path].
  by rewrite dict_get_without.
Qed.
Lemma ordered_timestamps_inv v keys label times :
  ordered_timestamps v keys label = Ok times ->
  exists d, v = JObj d /\ Evidence.ordered_timestamps d keys label = Ok times.
Proof. unfold ordered_timestamps. intros H. invert_reads. eauto. Qed.

Definition probe_observed (o : json) (p : Probe) : Prop :=
  let at_ (k : string) := [u "probe"; u k] in
  moment_at o (at_ "firing_sent_at"%string) (pr_firing_sent p)
  /\ moment_at o (at_ "firing_delivered_at"%string) (pr_firing_delivered p)
  /\ moment_at o (at_ "acknowledged_at"%string) (pr_acknowledged p)
  /\ moment_at o (at_ "resolved_sent_at"%string) (pr_resolved_sent p)
  /\ moment_at o (at_ "resolved_delivered_at"%string) (pr_resolved_delivered p)
  /\ pr_firing_sent p <= pr_firing_delivered p <= pr_acknowledged p
  /\ pr_acknowledged p <= pr_resolved_sent p <= pr_resolved_delivered p
  /\ pr_resolved_delivered p ∈ map snd (pr_times p).
Lemma parse_probe_Ok d p : parse_probe d = Ok p -> probe_observed (JObj d) p.
Proof.
  unfold parse_probe. intros H. invert_reads.
  match goal with H : ordered_timestamps _ _ _ = Ok _ |- _ =>
    apply ordered_timestamps_inv in H as (e & -> & H) end.
  unfold PROBE_MOMENTS in *. cbn [map] in *. open_timeline.
  unfold probe_observed. cbv beta zeta. split_and!; try first [at_its_path|assumption].
  cbn [map snd pr_times pr_resolved_delivered]. rewrite !elem_of_cons. tauto.
Qed.

Definition rotation_observed (o : json) (x : Rotation) : Prop :=
  let at_ (k : string) := [u "credential_rotation"; u k] in
  moment_at o (at_ "before_sent_at"%string) (ro_before_sent x)
  /\ moment_at o (at_ "before_delivered_at"%string) (ro_before_delivered x)
  /\ (exists rotated, moment_at o (at_ "rotated_at"%string) rotated
      /\ ro_before_delivered x <= rotated <= ro_after_sent x)
  /\ moment_at o (at_ "after_sent_at"%string) (ro_after_sent x)
  /\ moment_at o (at_ "after_delivered_at"%string) (ro_after_delivered x)
  /\ ro_before_sent x <= ro_before_delivered x /\ ro_after_sent x <= ro_after_delivered x
  /\ flag_at o (at_ "old_credential_revoked"%string) (ro_old_revoked x)
  /\ ro_after_delivered x ∈ map snd (ro_times x).
Ltac lift_moments := repeat match goal with
  H : moment_at (JObj (without _ _)) _ _ |- _ =>
  apply moment_at_without in H; [|reflexivity] end.
Lemma parse_rotation_Ok d x : parse_rotation d = Ok x -> rotation_observed (JObj d) x.
Proof.
  unfold parse_rotation. intros H. invert_reads.
  match goal with H : ordered_timestamps _ _ _ = Ok _ |- _ =>
    apply ordered_timestamps_inv in H as (e & [= <-] & H) end.
  unfold ROTATION_MOMENTS in *. cbn [map] in *. open_timeline. lift_moments.
  unfold rotation_observed. cbv beta zeta. split_and!; try first [at_its_path|assumption].
  - eexists. split; [at_its_path|]. cbn. lia.
  - cbn [map snd ro_times ro_after_delivered]. rewrite !elem_of_cons. tauto.
Qed.

Definition failure_observed (o : json) (x : Failure) : Prop :=
  let at_ (k : string) := [u "receiver_failure"; u k] in
  moment_at o (at_ "alert_sent_at"%string) (fa_alert_sent x)
  /\ moment_at o (at_ "delivered_at"%string) (fa_delivered x)
  /\ (exists started recovered, moment_at o (at_ "failure_started_at"%string) started
      /\ moment_at o (at_ "recovered_at"%string) recovered
      /\ started <= fa_alert_sent x <= recovered /\ recovered <= fa_delivered x)
  /\ count_at o (at_ "attempts"%string) (fa_attempts x)
  /\ fa_delivered x ∈ map snd (fa_times x).
Lemma parse_failure_Ok d x : parse_failure d = Ok x -> failure_observed (JObj d) x.
Proof.
  unfold parse_failure. intros H. invert_reads.
  match goal with H : ordered_timestamps _ _ _ = Ok _ |- _ =>
    apply ordered_timestamps_inv in H as (e & [= <-] & H) end.
  unfold FAILURE_MOMENTS in *. cbn [map] in *. open_timeline. lift_moments.
  unfold failure_observed. cbv beta zeta. split_and!; try first [at_its_path|assumption].
  - do 2 eexists. split_and!; [at_its_path|at_its_path|cbn; lia..].
  - cbn [map snd fa_times fa_delivered]. rewrite !elem_of_cons. tauto.
Qed.

Definition counts_observed (o : json) (key first second : string) (c : Counts) : Prop :=
  count_at o [u key; u first] (ct_first c) /\ count_at o [u key; u second] (ct_second c).
Lemma counts_at_Ok d key first second c :
  counts_at d (u key) (u first) (u second) = Ok c -> counts_observed (JObj d) key first second c.
Proof.
  unfold counts_at, count_check. intros H. invert_reads.
  split; cbn; at_its_path.
Qed.

(** Every value of a report was read in its place. *)
Record observed (o : json) (r : Report) : Prop := {
  ob_revision : text_at o [u "source_revision"] (rp_source_revision r)
                /\ safe (rp_source_revision r);
  ob_environment : text_at o [u "environment"] (rp_environment r) /\ safe (rp_environment r);
  ob_receiver : text_at o [u "receiver_type"] (rp_receiver_type r);
  ob_group : text_at o [u "alertmanager_group"] (rp_group r) /\ safe (rp_group r);
  ob_incident : text_at o [u "external_incident_id"] (rp_incident r) /\ safe (rp_incident r);
  ob_owner : exists s, text_at o [u "owner"] s /\ safe s;
  ob_policy : exists s, text_at o [u "escalation_policy_ref"] s /\ safe s;
  ob_probe : probe_observed o (rp_probe r);
  ob_grouping : counts_observed o "grouping" "source_alerts" "notifications" (rp_grouping r);
  ob_deduplication : counts_observed o "deduplication" "repeated_firings"
                       "new_external_incidents" (rp_deduplication r);
  ob_inhibition : counts_observed o "inhibition" "candidates" "deliveries" (rp_inhibition r);
  ob_silence : counts_observed o "silence" "candidates" "deliveries" (rp_silence r);
  ob_rotation : rotation_observed o (rp_rotation r);
  ob_failure : failure_observed o (rp_failure r) }.
Definition limits_valid (li : Limits) : Prop :=
  Forall (fun l => exists q, finite l = Some q /\ (0 < q)%Q)
    [li_delivery li; li_acknowledgement li; li_resolve li; li_retry li].
(** Nothing happened after the check. *)
Definition events_past (r : Report) : Prop :=
  pr_resolved_delivered (rp_probe r) <= rp_checked_at r
  /\ ro_after_delivered (rp_rotation r) <= rp_checked_at r
  /\ fa_delivered (rp_failure r) <= rp_checked_at r.

Lemma alert_check_events_Ok now p x f :
  check_events now p x f = Ok tt ->
  Forall (fun t => t <= now) (map snd (pr_times p ++ ro_times x ++ fa_times f)).
Proof.
  unfold check_events. destruct (map snd _) as [|t ts]; [done|]. intros H. invert_reads.
  match goal with H : _ <= now |- _ => apply fold_max_le in H as [? ?] end. by constructor.
Qed.
Lemma check_limits_Ok li : check_limits li = Ok tt -> limits_valid li.
Proof.
  unfold check_limits. intros H. invert_reads.
  match goal with H : limits_ok _ _ = true |- _ => apply limits_ok_Forall in H;
    apply (Forall_weaken _ _ _ H) end.
  intros l (q & Hq & Hp). exists q. split; [done|]. unfold positive_limit in Hp.
  apply negb_true_iff, not_true_iff_false in Hp. rewrite Qle_bool_iff in Hp.
  by apply Qnot_le_lt.
Qed.
Lemma alert_compile_evidence_Ok d h li checked clock r :
  compile_evidence d h li checked clock = Ok r ->
  observed (JObj d) r /\ events_past r /\ rp_checked_at r = default clock checked
  /\ rp_limits r = li /\ limits_valid li /\ rp_input_sha256 r = h.
Proof.
  unfold compile_evidence, parse_receiver_type. intros H. invert_reads.
  repeat match goal with
  | H : parse_probe _ = Ok _ |- _ => apply parse_probe_Ok in H
  | H : parse_rotation _ = Ok _ |- _ => apply parse_rotation_Ok in H
  | H : parse_failure _ = Ok _ |- _ => apply parse_failure_Ok in H
  | H : counts_at _ _ _ _ = Ok _ |- _ => apply counts_at_Ok in H
  | H : check_limits _ = Ok _ |- _ => apply check_limits_Ok in H
  | H : check_events _ _ _ _ = Ok _ |- _ => apply alert_check_events_Ok in H;
      rewrite !map_app, !Forall_app in H; destruct H as (Hp & Hx & Hf)
  end.
  split_and!; try first [reflexivity|assumption].
  - split; cbn; try assumption; try (split; [at_its_path|assumption]);
      try (eexists; split; [at_its_path|assumption]); at_its_path.
  - rewrite list.Forall_forall in Hp, Hx, Hf. unfold events_past. cbn.
    repeat match goal with
    | H : probe_observed _ _ |- _ => destruct H as (_ & _ & _ & _ & _ & _ & _ & H)
    | H : rotation_observed _ _ |- _ => destruct H as (_ & _ & _ & _ & _ & _ & _ & _ & H)
    | H : failure_observed _ _ |- _ => destruct H as (_ & _ & _ & _ & H)
    end.
    split_and!; auto.
Qed.

(** ** What a passed exercise has shown *)

Record criteria (r : Report) : Prop := {
  cr_firing : within_limit (pr_firing_delivered (rp_probe r) - pr_firing_sent (rp_probe r))
                (li_delivery (rp_limits r));
  cr_resolved : within_limit (pr_resolved_delivered (rp_probe r) - pr_resolved_sent (rp_probe r))
                  (li_resolve (rp_limits r));
  cr_acknowledged : within_limit (pr_acknowledged (rp_probe r) - pr_firing_delivered (rp_probe r))
                      (li_acknowledgement (rp_limits r));
  cr_grouping : 2 <= ct_first (rp_grouping r) /\ ct_second (rp_grouping r) = 1;
  cr_deduplication : 1 <= ct_first (rp_deduplication r) /\ ct_second (rp_deduplication r) = 0;
  cr_inhibition : 1 <= ct_first (rp_inhibition r) /\ ct_second (rp_inhibition r) = 0;
  cr_silence : 1 <= ct_first (rp_silence r) /\ ct_second (rp_silence r) = 0;
  cr_rotation : ro_old_revoked (rp_rotation r) = true
    /\ within_limit (ro_before_delivered (rp_rotation r) - ro_before_sent (rp_rotation r))
         (li_delivery (rp_limits r))
    /\ within_limit (ro_after_delivered (rp_rotation r) - ro_after_sent (rp_rotation r))
         (li_delivery (rp_limits r));
  cr_retry : 2 <= fa_attempts (rp_failure r)
    /\ within_limit (fa_delivered (rp_failure r) - fa_alert_sent (rp_failure r))
         (li_retry (rp_limits r)) }.
Lemma alert_passed_criteria o r : observed o r -> passed r = true -> criteria r.
Proof.
  intros Ho H%all_pass_Forall. repeat (apply Forall_cons_1 in H as [? H]; cbn [snd] in *).
  clear H. invert_reads.
  destruct (ob_probe _ _ Ho) as (P1%moment_at_range & P2%moment_at_range & P3%moment_at_range
    & P4%moment_at_range & P5%moment_at_range & _).
  destruct (ob_rotation _ _ Ho) as (R1%moment_at_range & R2%moment_at_range & _
    & R3%moment_at_range & R4%moment_at_range & _).
  destruct (ob_failure _ _ Ho) as (F1%moment_at_range & F2%moment_at_range & _).
  split; split_and?; try assumption; apply at_most_within; assumption.
Qed.

(** An exercise passes only on what it showed: a written document with status 0 repeats
    values read in their places of the JSON input, none in the future, and they meet the
    criteria: deliveries, the acknowledgement and the retried delivery were in time, alerts
    were grouped into one notification, repetitions opened no incident, inhibited and
    silenced alerts were not delivered, and the old credential is revoked. *)
Theorem alert_evidence_sound (sha256 : list N -> str) (same_path : bool)
    (file : option (list N)) (li : Limits) (clock : Z) (doc : json)
    (Hrun : main sha256 same_path file li clock = Written doc 0) :
  exists raw d r, file = Some raw /\ json_loads raw = inl (JObj d) /\ doc = document r
    /\ rp_limits r = li /\ limits_valid li /\ rp_checked_at r = clock
    /\ rp_input_sha256 r = sha256 raw
    /\ observed (JObj d) r /\ events_past r /\ criteria r.
Proof.
  apply main_passed in Hrun as (_ & raw & d & -> & Hj & Hc). exists raw, d.
  apply obind_Ok in Hc as (r & Hr & [= <- Hp]). exists r.
  apply alert_compile_evidence_Ok in Hr as (Ho & He & Hn & Hl & Hv & Hh).
  split_and!; try first [assumption|reflexivity]. by eapply alert_passed_criteria.
Qed.
End observed.

Definition exercise_file : list N := file_of "{
 'schema_version': 1,
 'source_revision': 'release-2026-09-02',
 'environment': 'staging',
 'receiver_type': 'pagerduty',
 'owner': 'platform-oncall',
 'escalation_policy_ref': 'policy/oncall-primary',
 'alertmanager_group': 'pipelens-critical-staging',
 'external_incident_id': 'INC-2026-0042',
 'probe': {
  'firing_sent_at': '2025-09-02T00:00:00Z',
  'firing_delivered_at': '2025-09-02T00:00:12Z',
  'acknowledged_at': '2025-09-02T00:00:42Z',
  'resolved_sent_at': '2025-09-02T00:05:00Z',
  'resolved_delivered_at': '2025-09-02T00:05:14Z'
 },
 'grouping': {
  'source_alerts': 2,
  'notifications': 1
 },
 'deduplication': {
  'repeated_firings': 2,
  'new_external_incidents': 0
 },
 'inhibition': {
  'candidates': 1,
  'deliveries': 0
 },
 'silence': {
  'candidates': 1,
  'deliveries': 0
 },
 'credential_rotation': {
  'before_sent_at': '2025-09-02T00:10:00Z',
  'before_delivered_at': '2025-09-02T00:10:10Z',
  'rotated_at': '2025-09-02T00:11:00Z',
  'after_sent_at': '2025-09-02T00:12:00Z',
  'after_delivered_at': '2025-09-02T00:12:11Z',
  'old_credential_revoked': true
 },
 'receiver_failure': {
  'failure_started_at': '2025-09-02T00:20:00Z',
  'alert_sent_at': '2025-09-02T00:20:05Z',
  'recovered_at': '2025-09-02T00:21:00Z',
  'delivered_at': '2025-09-02T00:21:08Z',
  'attempts': 3
 }
}".
Definition exercise : verdict :=
  @main ascii_db (fun _ => u "h") false (Some exercise_file) parse_args 1788220800000000.
Example exercise_passes :
  match exercise with
  | Written doc status =>
    status = 0 /\ at_path doc [u "latency_seconds"; u "receiver_retry"] = Some (JFloat 63)
  | _ => False
  end.
Proof. vm_compute. split; reflexivity. Qed.
