(* ===== verification/Url.v ===== *)
(** * URLs: urllib.parse.urlsplit and ipaddress.ip_address

    As CPython 3.12 and later split a URL: control characters and spaces are stripped on
    the left, tabs and line ends removed everywhere; the network location is checked; a
    port is a number of 16 bits.  [nfkc] is the Unicode normal form, [repr] Python's repr
    of a string, in messages. *)

From stdpp Require Import base list strings numbers.
From S2P Require Import Prelude Regex Json Loads LoadsFacts.

Set Default Proof Using "Type".

Record SplitResult := {
  scheme : str; netloc : str; path : str; query : str; fragment : str }.

(** s.partition(c): what is before the first [c], and after it if there is one *)
Fixpoint partition (c : N) (s : str) : str * option str :=
  match s with
  | [] => ([], None)
  | d :: r => if (d =? c)%N then ([], Some r)
              else let '(a, b) := partition c r in (d :: a, b)
  end.
(** s.rpartition(c): what is before the last [c], if there is one, and after it *)
Definition rpartition (c : N) (s : str) : option str * str :=
  let '(a, b) := partition c (rev s) in (option_map (@rev N) b, rev a).
Definition has_char (c : N) (s : str) : bool := existsb (N.eqb c) s.
(** The longest prefix without the characters, and the rest *)
Fixpoint span_not (stop : str) (s : str) : str * str :=
  match s with
  | [] => ([], [])
  | d :: r => if has_char d stop then ([], s) else let '(a, b) := span_not stop r in (d :: a, b)
  end.

(** ** ipaddress *)

Definition is_hex (c : N) : bool :=
  ascii_digit c || in_range 97 102 c || in_range 65 70 c.
Definition octet (s : str) : bool :=
  match s with
  | [] => false
  | d :: r =>
    forallb ascii_digit s && (length s <=? 3)%nat && (negb (d =? 48)%N || bool_decide (r = []))
    && (fold_left (fun acc c => acc * 10 + (c - 48)) s 0 <=? 255)%N
  end.
Definition is_ipv4 (s : str) : bool :=
  let octets := split_char 46 s in
  negb (has_char 47 s) && (length octets =? 4)%nat && forallb octet octets.

Definition hextet (s : str) : bool :=
  match s with [] => false | _ => forallb is_hex s && (length s <=? 4)%nat end.
(** An IPv4-style suffix stands for two parts. *)
Definition ipv6_parts (s : str) : option (list str) :=
  let parts := split_char 58 s in
  if (length parts <? 3)%nat then None
  else
    let final := List.last parts [] in
    if has_char 46 final then
      if is_ipv4 final then Some (removelast parts ++ [u "0"; u "0"]) else None
    else Some parts.
(** The positions of the empty parts that are neither the first nor the last *)
Fixpoint inner_empty (i : nat) (parts : list str) : list nat :=
  match parts with
  | p :: ((_ :: _) as rest) =>
    (if (0 <? i)%nat && bool_decide (p = []) then [i] else []) ++ inner_empty (S i) rest
  | _ => []
  end.
Definition ipv6_parts_ok (parts : list str) : bool :=
  let n := length parts in
  let first_empty := bool_decide (head parts = Some []) in
  let last_empty := bool_decide (List.last parts [] = []) in
  if (9 <? n)%nat then false
  else match inner_empty 0 parts with
  | [] => (n =? 8)%nat && forallb hextet parts
  | [skip] =>
    let hi := (if first_empty then skip - 1 else skip)%nat in
    let lo := (if last_empty then n - skip - 2 else n - skip - 1)%nat in
    negb (first_empty && (0 <? hi)%nat) && negb (last_empty && (0 <? lo)%nat)
    && (hi + lo <? 8)%nat
    && forallb hextet (take hi parts) && forallb hextet (drop (n - lo) parts)
  | _ => false
  end.
Definition is_ipv6 (s : str) : bool :=
  let '(addr, scope) := partition 37 s in
  negb (has_char 47 s)
  && match scope with Some z => negb (bool_decide (z = []) || has_char 37 z) | None => true end
  && match ipv6_parts addr with Some parts => ipv6_parts_ok parts | None => false end.
(** ipaddress.ip_address returns. *)
Definition is_ip_address (s : str) : bool := is_ipv4 s || is_ipv6 s.

(** ** urlsplit *)

Class Nfkc := nfkc : str -> str.
Class Repr := repr : str -> str.
Section url.
Context {U : UnicodeDb} `{Nfkc} `{Repr}.

Definition IPV_FUTURE : pattern := re_compile "v[a-fA-F0-9]+\..+".
Definition _check_bracketed_host (hostname : str) : outcome unit :=
  if starts_with (u "v") hostname then
    if re_fullmatch IPV_FUTURE hostname then Ok tt
    else Raise (ValueError (u "IPvFuture address is invalid"))
  else if is_ipv4 hostname then
    Raise (ValueError (u "An IPv4 address cannot be in brackets"))
  else if is_ipv6 hostname then Ok tt
  else Raise (ValueError (repr hostname ++ u " does not appear to be an IPv4 or IPv6 address")).
Definition invalid_ipv6 {A} : outcome A := Raise (ValueError (u "Invalid IPv6 URL")).
Definition _check_bracketed_netloc (loc : str) : outcome unit :=
  let '(_, hostname_and_port) := rpartition 64 loc in
  match partition 91 hostname_and_port with
  | (before, Some bracketed) =>
    if negb (bool_decide (before = [])) then invalid_ipv6 else
    let '(hostname, rest) := partition 93 bracketed in
    let port := default [] rest in
    if negb (bool_decide (port = [])) && negb (starts_with (u ":") port) then invalid_ipv6
    else _check_bracketed_host hostname
  | (_, None) => let '(hostname, _) := partition 58 hostname_and_port in
                 _check_bracketed_host hostname
  end.
Definition _checknetloc (loc : str) : outcome unit :=
  if forallb is_ascii loc then Ok tt else
  let n := List.filter (fun c => negb (has_char c (u "@:#?"))) loc in
  let normal := nfkc n in
  if str_eqb n normal then Ok tt
  else if existsb (fun c => has_char c normal) (u "/?#@:") then
    Raise (ValueError (u "netloc '" ++ loc
                       ++ u "' contains invalid characters under NFKC normalization"))
  else Ok tt.

Definition scheme_char (c : N) : bool :=
  ascii_upper c || ascii_lower c || ascii_digit c || has_char c (u "+-.").
(** The scheme in lower case, if there is one, and the rest *)
Definition split_scheme (url : str) : str * str :=
  match url, partition 58 url with
  | c :: _, ((_ :: _) as before, Some rest) =>
    if (ascii_upper c || ascii_lower c) && forallb scheme_char before then (lower before, rest)
    else ([], url)
  | _, _ => ([], url)
  end.
Definition clean (url : str) : str :=
  List.filter (fun c => negb (has_char c [9; 10; 13]%N)) (lstrip_by (fun c => (c <=? 32)%N) url).

Definition urlsplit (url : str) : outcome SplitResult :=
  let '(scheme, url) := split_scheme (clean url) in
  let! (netloc, url) :=
    if starts_with (u "//") url then
      let '(netloc, rest) := span_not (u "/?#") (drop 2 url) in
      if negb (Bool.eqb (has_char 91 netloc) (has_char 93 netloc)) then invalid_ipv6
      else let! _ := if has_char 91 netloc then _check_bracketed_netloc netloc else Ok tt in
           Ok (netloc, rest)
    else Ok ([], url) in
  let '(url, fragment) := partition 35 url in
  let '(path, query) := partition 63 url in
  let! _ := _checknetloc netloc in
  Ok {| scheme := scheme; netloc := netloc; path := path; query := default [] query;
        fragment := default [] fragment |}.

(** ** Parts of the network location *)

Definition username (r : SplitResult) : option str :=
  match rpartition 64 (netloc r) with
  | (Some userinfo, _) => Some (fst (partition 58 userinfo))
  | (None, _) => None
  end.
Definition password (r : SplitResult) : option str :=
  match rpartition 64 (netloc r) with
  | (Some userinfo, _) => snd (partition 58 userinfo)
  | (None, _) => None
  end.
Definition _hostinfo (r : SplitResult) : str * option str :=
  let '(_, hostinfo) := rpartition 64 (netloc r) in
  let '(hostname, port) :=
    match partition 91 hostinfo with
    | (_, Some bracketed) =>
      let '(hostname, rest) := partition 93 bracketed in
      (hostname, snd (partition 58 (default [] rest)))
    | (_, None) => partition 58 hostinfo
    end in
  (hostname, match port with Some ((_ :: _) as p) => Some p | _ => None end).
(** None for an empty host *)
Definition hostname (r : SplitResult) : option str :=
  match fst (_hostinfo r) with
  | [] => None
  | host => let '(name, zone) := partition 37 host in
            Some (lower name ++ match zone with Some z => 37%N :: z | None => [] end)
  end.
(** The ValueError, whose message its caller replaces, or the port if there is one *)
Definition port (r : SplitResult) : outcome (option Z) :=
  match snd (_hostinfo r) with
  | None => Ok None
  | Some p =>
    if forallb ascii_digit p && (length p <=? MAX_DIGITS)%nat then
      let n := digits_Z p in
      if n <=? 65535 then Ok (Some n)
      else Raise (ValueError (u "Port out of range 0-65535"))
    else Raise (ValueError (u "Port could not be cast to integer value"))
  end.
End url.

(** ** Concrete inputs *)

Definition plain_nfkc : Nfkc := fun s => s.
Definition plain_repr : Repr := fun s => s.
Abbreviation split_example := (@urlsplit ascii_db plain_nfkc plain_repr).
Example split_full : split_example (u " HTTPS://user:pw@Example.com:8443/a/b?x=1#frag") = Ok {|
  scheme := u "https"; netloc := u "user:pw@Example.com:8443"; path := u "/a/b";
  query := u "x=1"; fragment := u "frag" |}.
Proof. vm_compute. reflexivity. Qed.
Example no_scheme : split_example (u "1a:b") = Ok {|
  scheme := []; netloc := []; path := u "1a:b"; query := []; fragment := [] |}.
Proof. vm_compute. reflexivity. Qed.
Example parts_of_location :
  match split_example (u "https://user:pw@Example.com:8443/") with
  | Ok r => (username r, password r, @hostname ascii_db r, port r)
            = (Some (u "user"), Some (u "pw"), Some (u "example.com"), Ok (Some 8443))
  | Raise _ => False
  end.
Proof. vm_compute. reflexivity. Qed.
Example ipv6_addresses :
  map (fun s => is_ipv6 (u s)) ["::1"; "2001:db8::8a2e:370:7334"; "::ffff:1.2.3.4"; "fe80::1%eth0";
    "1:2:3:4:5:6:7:8"; "1:2:3:4:5:6:7::"; "::"; ":1:2:3:4:5:6:7"; "1::2::3"; "12345::"; "1:2";
    "::1.2.3.256"; "1:2:3:4:5:6:7:8:9"; "g::1"; "fe80::1%"; ":::"]%string
  = [true; true; true; true; true; true; true;
     false; false; false; false; false; false; false; false; false].
Proof. vm_compute. reflexivity. Qed.
Example bracketed_hosts :
  map (fun s => is_ok (split_example (u s))) ["https://[::1]/"; "https://[1.2.3.4]/";
    "https://[v1.a]/"; "https://a[::1]/"; "https://[::1]x/"; "https://[::1"]%string
  = [true; false; true; false; false; false].
Proof. vm_compute. reflexivity. Qed.

(** ** Facts about URLs

    A URL of the scheme https and an authority of plain characters is split into just
    these parts; of a host without a port, and with one, they are read back. *)

(** ** Characters *)

Definition dns_char (c : N) : Prop :=
  (ascii_upper c || ascii_lower c || ascii_digit c || (c =? 45)%N || (c =? 46)%N) = true.
(** What an authority is made of: a name and a port *)
Definition authority_char (c : N) : Prop := dns_char c \/ c = 58%N.
Definition without_char (c : N) (s : str) : Prop := Forall (fun d => d <> c) s.

Lemma has_char_spec c s : has_char c s = true <-> c ∈ s.
Proof.
  unfold has_char. rewrite existsb_exists, list_elem_of_In. split.
  - by intros (d & Hd & ->%N.eqb_eq).
  - intros Hc. exists c. by rewrite N.eqb_refl.
Qed.
Lemma dns_char_code c : dns_char c ->
  (65 <= c <= 90 \/ 97 <= c <= 122 \/ 48 <= c <= 57 \/ c = 45 \/ c = 46)%N.
Proof.
  unfold dns_char, ascii_upper, ascii_lower, ascii_digit, in_range.
  rewrite !orb_true_iff, !andb_true_iff, !N.leb_le, !N.eqb_eq. lia.
Qed.
Lemma authority_char_code c : authority_char c ->
  (65 <= c <= 90 \/ 97 <= c <= 122 \/ 48 <= c <= 58 \/ c = 45 \/ c = 46)%N.
Proof. intros [H%dns_char_code| ->]; lia. Qed.
Lemma digit_authority n : Forall authority_char (str_of_N n).
Proof.
  apply (Forall_weaken _ _ _ (str_of_N_digits n)). intros c Hc. left. unfold dns_char. rewrite Hc.
  by rewrite orb_true_r.
Qed.

Lemma partition_none c s : without_char c s -> partition c s = (s, None).
Proof.
  induction 1 as [|d s Hd _ IH]; [done|]. cbn [partition].
  rewrite (proj2 (N.eqb_neq _ _) Hd). by rewrite IH.
Qed.
Lemma partition_app c s r : without_char c s -> partition c (s ++ c :: r) = (s, Some r).
Proof.
  induction 1 as [|d s Hd _ IH]; cbn [app partition]; [by rewrite N.eqb_refl|].
  rewrite (proj2 (N.eqb_neq _ _) Hd). by rewrite IH.
Qed.
Lemma rpartition_none c s : without_char c s -> rpartition c s = (None, s).
Proof.
  intros H. unfold rpartition. rewrite partition_none; [by rewrite rev_involutive|].
  by apply Forall_rev.
Qed.
Lemma span_not_all stop s : Forall (fun d => has_char d stop = false) s -> span_not stop s = (s, []).
Proof. induction 1 as [|d s Hd _ IH]; [done|]. cbn [span_not]. by rewrite Hd, IH. Qed.
Lemma without_weaken (P : N -> Prop) c s :
  Forall P s -> (forall d, P d -> d <> c) -> without_char c s.
Proof. intros H Hc. by apply (Forall_weaken _ _ _ H). Qed.

(** What is cut out of a text is made of its characters. *)
Lemma partition_Forall (P : N -> Prop) c s a b :
  partition c s = (a, b) -> Forall P s -> Forall P a /\ Forall P (default [] b).
Proof.
  revert a b. induction s as [|d s IH]; cbn [partition]; intros a b.
  - intros [= <- <-] _. by split.
  - destruct (_ =? _)%N; [by intros [= <- <-] [_ H]%Forall_cons_iff|].
    destruct (partition c s) as [a' b'] eqn:E. intros [= <- <-] [Hd H]%Forall_cons_iff.
    destruct (IH _ _ eq_refl H). split; [by constructor|done].
Qed.
Lemma rpartition_Forall (P : N -> Prop) c s a b :
  rpartition c s = (a, b) -> Forall P s -> Forall P b.
Proof.
  unfold rpartition. destruct (partition c (rev s)) as [x y] eqn:E. intros [= _ <-] H%Forall_rev.
  by apply Forall_rev, (partition_Forall _ _ _ _ _ E).
Qed.
Lemma span_not_Forall (P : N -> Prop) stop s a b :
  span_not stop s = (a, b) -> Forall P s -> Forall P a /\ Forall P b.
Proof.
  revert a b. induction s as [|d s IH]; cbn [span_not]; intros a b.
  - intros [= <- <-] _. by split.
  - destruct (has_char d stop); [by intros [= <- <-]|].
    destruct (span_not stop s) as [a' b'] eqn:E. intros [= <- <-] [Hd H]%Forall_cons_iff.
    destruct (IH _ _ eq_refl H). split; [by constructor|done].
Qed.
Lemma clean_Forall (P : N -> Prop) s : Forall P s -> Forall P (clean s).
Proof.
  intros H. unfold clean. rewrite Forall_forall in *. intros c [Hc _]%filter_In. apply H.
  unfold lstrip_by in Hc. revert Hc. clear. induction s as [|d s IH]; cbn [drop_while]; [done|].
  destruct (d <=? 32)%N; [|done]. intros Hc. right. auto.
Qed.

(** ** Splitting a plain URL *)

Section plain.
Context {U : UnicodeDb} `{Nfkc} `{Repr}.

Lemma clean_plain auth : Forall authority_char auth -> clean (u "https://" ++ auth) = u "https://" ++ auth.
Proof.
  intros Ha. unfold clean. change (lstrip_by _ (u "https://" ++ auth)) with (u "https://" ++ auth).
  rewrite filter_app. f_equal. induction Ha as [|c auth Hc _ IH]; [done|]. cbn [List.filter].
  apply authority_char_code in Hc.
  assert (has_char c [9; 10; 13]%N = false) as ->; [|by rewrite IH].
  apply not_true_iff_false. rewrite has_char_spec, !elem_of_cons, elem_of_nil. lia.
Qed.
Lemma checknetloc_ascii loc : Forall (fun c => is_ascii c = true) loc -> _checknetloc loc = Ok tt.
Proof.
  intros Hl. unfold _checknetloc. rewrite (proj2 (forallb_forall is_ascii loc)); [done|].
  by apply Forall_forall.
Qed.
Lemma urlsplit_plain auth : Forall authority_char auth ->
  urlsplit (u "https://" ++ auth) = Ok {|
    scheme := u "https"; netloc := auth; path := []; query := []; fragment := [] |}.
Proof.
  intros Ha. unfold urlsplit. rewrite clean_plain by done.
  change (split_scheme (u "https://" ++ auth)) with (u "https", u "//" ++ auth).
  cbn iota beta. change (drop 2 (u "//" ++ auth)) with auth.
  rewrite span_not_all.
  - assert (forall c, ~ authority_char c -> has_char c auth = false) as Hno.
    { intros c Hc. apply not_true_iff_false. rewrite has_char_spec, list_elem_of_In. intros Hin.
      rewrite Forall_forall in Ha. auto. }
    rewrite (Hno 91%N), (Hno 93%N) by (intros Hc%authority_char_code; lia).
    change (starts_with (u "//") (u "//" ++ auth)) with true.
    cbn [negb Bool.eqb obind partition]. rewrite checknetloc_ascii; [reflexivity|].
    apply (Forall_weaken _ _ _ Ha). intros c Hc%authority_char_code.
    unfold is_ascii. apply N.ltb_lt. lia.
  - apply (Forall_weaken _ _ _ Ha). intros c Hc%authority_char_code.
    apply not_true_iff_false. rewrite has_char_spec. change (u "/?#") with [47; 63; 35]%N.
    rewrite !elem_of_cons, elem_of_nil. lia.
Qed.

Lemma str_of_Z_N p : 0 <= p -> str_of_Z p = str_of_N (Z.to_N p).
Proof. destruct p; [reflexivity|reflexivity|lia]. Qed.
(** A port as it follows a host *)
Definition port_text (p : option Z) : str := match p with Some p => u ":" ++ str_of_Z p | None => [] end.
Definition port_ok (p : option Z) : Prop := match p with Some p => 0 <= p <= 65535 | None => True end.
Lemma port_text_char p : port_ok p -> Forall authority_char (port_text p).
Proof.
  destruct p as [p|]; [|constructor]. intros [Hp _]. cbn. constructor; [by right|].
  rewrite str_of_Z_N by done. apply digit_authority.
Qed.

Definition plain_url (host : str) (p : option Z) : SplitResult := {|
  scheme := u "https"; netloc := host ++ port_text p; path := []; query := []; fragment := [] |}.
Lemma hostinfo_plain host p : Forall dns_char host -> port_ok p ->
  _hostinfo (plain_url host p) = (host, option_map str_of_Z p).
Proof.
  intros Hh Hp. unfold _hostinfo, plain_url. cbn [netloc].
  assert (Ha : Forall authority_char (host ++ port_text p)).
  { apply Forall_app. split; [|by apply port_text_char].
    apply (Forall_weaken _ _ _ Hh). by left. }
  rewrite rpartition_none by
    (apply (without_weaken authority_char); [done|intros d Hd%authority_char_code; lia]).
  rewrite (partition_none 91) by
    (apply (without_weaken authority_char); [done|intros d Hd%authority_char_code; lia]).
  assert (Hc : without_char 58 host)
    by (apply (without_weaken dns_char); [done|intros d Hd%dns_char_code; lia]).
  destruct p as [p|]; cbn [port_text option_map].
  - change (host ++ u ":" ++ str_of_Z p) with (host ++ 58%N :: str_of_Z p).
    rewrite partition_app by done. destruct Hp as [Hp _]. rewrite str_of_Z_N by done.
    pose proof (str_of_N_nonempty (Z.to_N p)) as Hn. by destruct (str_of_N (Z.to_N p)).
  - rewrite app_nil_r, partition_none by done. done.
Qed.
Lemma hostname_plain host p : Forall dns_char host -> port_ok p -> host <> [] ->
  hostname (plain_url host p) = Some (lower host).
Proof.
  intros Hh Hp Hn. unfold hostname. rewrite hostinfo_plain by done. cbn [fst].
  destruct host as [|c host]; [done|].
  rewrite partition_none by (apply (without_weaken dns_char); [done|intros d Hd%dns_char_code; lia]).
  by rewrite app_nil_r.
Qed.
Lemma port_plain host p : Forall dns_char host -> port_ok p -> port (plain_url host p) = Ok p.
Proof.
  intros Hh Hp. unfold port. rewrite hostinfo_plain by done. cbn [snd].
  destruct p as [p|]; [|done]. cbn [option_map]. destruct Hp as [Hp0 Hp].
  rewrite str_of_Z_N, digits_str_of_N, Z2N.id by done.
  rewrite (proj2 (forallb_forall _ _)).
  2: { intros c Hc. pose proof (str_of_N_digits (Z.to_N p)) as Hd. rewrite Forall_forall in Hd. auto. }
  rewrite (proj2 (Nat.leb_le _ _)).
  2: { unfold MAX_DIGITS. etrans; [apply (str_of_N_length _ 5); lia|lia]. }
  cbn [andb]. by rewrite (proj2 (Z.leb_le _ _)).
Qed.
Lemma credentials_plain host p : Forall dns_char host -> port_ok p ->
  username (plain_url host p) = None /\ password (plain_url host p) = None.
Proof.
  intros Hh Hp. unfold username, password, plain_url. cbn [netloc].
  rewrite rpartition_none; [done|]. apply (without_weaken authority_char).
  - apply Forall_app. split; [|by apply port_text_char].
    apply (Forall_weaken _ _ _ Hh). by left.
  - intros d Hd%authority_char_code. lia.
Qed.
End plain.

(** ** What the parts of a URL are made of *)

Lemma split_char_chars x sep s : x ∈ s -> x = sep \/ exists label, label ∈ split_char sep s /\ x ∈ label.
Proof.
  induction s as [|c s IH]; [by intros Hx%elem_of_nil|]. cbn [split_char].
  intros Hx. destruct (N.eqb_spec c sep) as [->|Hc].
  - apply elem_of_cons in Hx as [->|[|(l & Hl & Hxl)]%IH]; [by left..|].
    right. exists l. split; [|done]. apply elem_of_cons. by right.
  - apply elem_of_cons in Hx as [->|Hx].
    + right. destruct (split_char sep s) as [|l ls]; eexists; (split; [apply elem_of_cons; by left|]);
        apply elem_of_cons; by left.
    + apply IH in Hx as [|(l & Hl & Hxl)]; [by left|]. right.
      destruct (split_char sep s) as [|l' ls]; [by apply elem_of_nil in Hl|].
      apply elem_of_cons in Hl as [->|Hl].
      * exists (c :: l'). split; [apply elem_of_cons; by left|]. apply elem_of_cons. by right.
      * exists l. split; [|done]. apply elem_of_cons. by right.
Qed.

(** Text without capital letters, of ASCII characters, is its own lower case. *)
Definition lower_case (s : str) : Prop := Forall (fun c => is_ascii c = true /\ ascii_upper c = false) s.
Section lower.
Context {U : UnicodeDb}.
Lemma lower_case_lower s : lower_case s -> lower s = s.
Proof.
  intros Hs. unfold lower. rewrite (proj2 (forallb_forall is_ascii s)).
  - induction Hs as [|c s [_ Hc] _ IH]; [done|]. cbn [map]. rewrite IH. unfold lower_char. by rewrite Hc.
  - apply Forall_forall. apply (Forall_weaken _ _ _ Hs). by intros c [Hc _].
Qed.
Lemma lower_ascii s : Forall (fun c => is_ascii c = true) s -> lower_case (lower s).
Proof.
  intros Hs. unfold lower. rewrite (proj2 (forallb_forall is_ascii s)) by by apply Forall_forall.
  induction Hs as [|c s Hc _ IH]; [constructor|]. cbn [map]. constructor; [|exact IH].
  revert Hc. unfold lower_char, is_ascii, ascii_upper, in_range.
  destruct (_ && _) eqn:E; [|done].
  apply andb_true_iff in E as [E1%N.leb_le E2%N.leb_le]. intros _. split.
  - apply N.ltb_lt. lia.
  - apply andb_false_iff. right. apply N.leb_gt. lia.
Qed.
End lower.

Section parts.
Context {U : UnicodeDb} `{Nfkc} `{Repr}.
Lemma split_scheme_Forall (P : N -> Prop) s a r :
  split_scheme s = (a, r) -> Forall P s -> Forall P r.
Proof.
  unfold split_scheme. intros E Hs. destruct s as [|c s]; [by injection E as <- <-|].
  destruct (partition 58 (c :: s)) as [[|b before] [rest|]] eqn:Ep;
    try by injection E as <- <-.
  destruct (_ && _); injection E as _ <-; [|done].
  by destruct (partition_Forall _ _ _ _ _ Ep Hs).
Qed.
Lemma urlsplit_netloc_Forall (P : N -> Prop) s r :
  urlsplit s = Ok r -> Forall P s -> Forall P (netloc r).
Proof.
  unfold urlsplit. intros Hr Hs%clean_Forall. destruct (split_scheme _) as [sch rest] eqn:Es.
  apply (split_scheme_Forall P _ _ _ Es) in Hs. apply obind_Ok in Hr as ([loc rest'] & Hl & Hr).
  destruct (partition 35 rest') as [rest'' frag]. destruct (partition 63 rest'') as [pa qu].
  apply obind_Ok in Hr as ([] & _ & [= <-]). cbn [netloc].
  destruct (starts_with _ _); [|by injection Hl as <- <-].
  destruct (span_not _ _) as [loc' rest3] eqn:Ep.
  destruct (negb _); [done|]. apply obind_Ok in Hl as ([] & _ & [= <- <-]).
  apply (span_not_Forall P _ _ _ _ Ep). by apply Forall_drop.
Qed.
Lemma hostinfo_Forall (P : N -> Prop) r : Forall P (netloc r) -> Forall P (fst (_hostinfo r)).
Proof.
  intros Hn. unfold _hostinfo. destruct (rpartition 64 (netloc r)) as [a info] eqn:E.
  apply (rpartition_Forall P _ _ _ _ E) in Hn.
  destruct (partition 91 info) as [b [br|]] eqn:Eb.
  - destruct (partition_Forall P _ _ _ _ Eb Hn) as [_ Hbr]. cbn in Hbr.
    destruct (partition 93 br) as [h rest] eqn:Eh. cbn [fst].
    apply (partition_Forall P _ _ _ _ Eh Hbr).
  - destruct (partition 58 info) as [h p] eqn:Eh. cbn [fst].
    apply (partition_Forall P _ _ _ _ Eh Hn).
Qed.
Lemma partition_Some c s a r : partition c s = (a, Some r) -> s = a ++ c :: r.
Proof.
  revert a. induction s as [|d s IH]; cbn [partition]; [done|]. intros a.
  destruct (N.eqb_spec d c) as [->|]; [by intros [= <- <-]|].
  destruct (partition c s) as [a' b]. intros [= <- ->]. by rewrite (IH a' eq_refl).
Qed.
(** The host of an ASCII location, if it has no zone, is in lower case. *)
Lemma hostname_lower r host :
  Forall (fun c => is_ascii c = true) (netloc r) -> hostname r = Some host ->
  without_char 37 host -> lower_case host.
Proof.
  intros Hn%hostinfo_Forall. unfold hostname. destruct (fst (_hostinfo r)) as [|c0 h]; [done|].
  destruct (partition 37 (c0 :: h)) as [name [z|]] eqn:E; intros [= <-].
  - intros Hz. apply Forall_app in Hz as [_ [Hz _]%Forall_cons_iff]. done.
  - intros _. rewrite app_nil_r. apply lower_ascii.
    by destruct (partition_Forall _ _ _ _ _ E Hn).
Qed.
Lemma digits_Z_nonneg s : 0 <= digits_Z s.
Proof.
  unfold digits_Z. assert (forall acc, 0 <= acc -> 0 <= fold_left (fun acc c => 10 * acc + Z.of_N (c - 48)) s acc) as Hf.
  { induction s as [|c s IH]; intros acc Ha; cbn [fold_left]; [done|]. apply IH. lia. }
  by apply Hf.
Qed.
Lemma port_Ok r p : port r = Ok p -> port_ok p.
Proof.
  unfold port. destruct (snd (_hostinfo r)) as [s|]; [|by intros [= <-]].
  destruct (_ && _); [|done]. destruct (Z.leb_spec (digits_Z s) 65535); [|done].
  intros [= <-]. cbn. pose proof (digits_Z_nonneg s). lia.
Qed.
End parts.
