(* ===== verification/GitHubAppEvidence.v ===== *)
(** * Evidence of a GitHub App acceptance run (ops/acceptance/verify_github_app_evidence.py)

    The run exercises the installed application: a failed pull-request run and a failed
    branch run, their redeliveries, a scan for a seeded secret and a run of an external
    fork.  Every URL must be one of GitHub in the repository under test and agree with the
    number next to it; the exercises lie in the run, in their order; twelve checks decide. *)

From Stdlib Require Import QArith.
From stdpp Require Import base list strings numbers.
From S2P Require Import Prelude Double Calendar Regex Json Loads Evidence Url.

Set Default Proof Using "Type".

Definition REPOSITORY_PATH : pattern := re_compile "^/([A-Za-z0-9_.-]+)/([A-Za-z0-9_.-]+)$".
Definition RUN_PATH : pattern :=
  re_compile "^/([A-Za-z0-9_.-]+)/([A-Za-z0-9_.-]+)/actions/runs/([1-9][0-9]*)$".
Definition COMMENT_PATH : pattern := re_compile
  "^/([A-Za-z0-9_.-]+)/([A-Za-z0-9_.-]+)/pull/([1-9][0-9]*)#issuecomment-([1-9][0-9]*)$".
Definition CHECK_PATH : pattern :=
  re_compile "^/([A-Za-z0-9_.-]+)/([A-Za-z0-9_.-]+)/(?:runs|checks)/([1-9][0-9]*)$".
Definition EXPECTED_PERMISSIONS : list (str * str) := [
  (u "actions", u "read"); (u "checks", u "write"); (u "contents", u "read");
  (u "metadata", u "read"); (u "pull_requests", u "write")].
Definition TOP_LEVEL_KEYS : list str := map u [
  "schema_version"; "acceptance_id"; "source_revision"; "environment"; "repository_url";
  "installation_id"; "permissions"; "started_at"; "completed_at"; "pr_run"; "branch_run";
  "redelivery"; "seeded_secret_scan"; "external_fork"]%string.
Definition RUN_MOMENTS : list str := map u [
  "workflow_failed_at"; "webhook_recorded_at"; "analysis_started_at"; "analysis_completed_at";
  "published_at"]%string.
Definition SCAN_COUNTS : list str := map u [
  "published_matches"; "persistence_matches"; "provider_request_matches"]%string.

(** What a pull-request run has besides *)
Record Content := {
  cn_number : Z; cn_evidence : bool; cn_related_files : bool; cn_run_link : bool }.
Record Run := {
  rn_id : Z; rn_url : str; rn_conclusion : str; rn_publication_key : str;
  rn_publication : str; rn_times : timeline; rn_start : Q; rn_completion : Q;
  rn_content : option Content }.
Record Redelivery := {
  rd_initial : str; rd_redelivery : str; rd_before : Z; rd_after : Z; rd_at : Z }.
Record Scan := { sn_fingerprint : str; sn_counts : list (str * Z); sn_checked_at : Z }.
Record Fork := {
  fk_run_id : Z; fk_run_url : str; fk_number : Z; fk_comment : str; fk_recorded_at : Z;
  fk_processed_at : Z; fk_llm_invocations : Z; fk_check_publications : Z }.
Record Limits := { li_start : limit; li_completion : limit }.
Record Report := {
  rp_checked_at : Z; rp_acceptance_id : str; rp_source_revision : str; rp_environment : str;
  rp_repository_url : str; rp_installation_id : Z; rp_permissions : list (str * str);
  rp_started_at : Z; rp_completed_at : Z; rp_pr_run : Run; rp_branch_run : Run;
  rp_pr_redelivery : Redelivery; rp_branch_redelivery : Redelivery; rp_scan : Scan;
  rp_fork : Fork; rp_limits : Limits; rp_input_sha256 : str }.

Section app.
Context {U : UnicodeDb} `{Nfkc} `{Repr}.

(** ** GitHub's URLs *)

(** pattern.fullmatch(s).groups(), all of which took part *)
Definition fullmatch_groups (p : pattern) (count : nat) (s : str) : option (list str) :=
  match mrun (p_icase p) (p_regex p)
          (fun st => match ms_rest st with [] => Some st | _ => None end) (MS None s []) with
  | Some st => Some (map (fun n => default [] (dict_get Nat.eqb (ms_caps st) n)) (seq 1 count))
  | None => None
  end.
Definition is_none {A} (o : option A) : bool := match o with None => true | Some _ => false end.
Definition github_url (value : json) (label : str) (p : pattern) (count : nat)
  : outcome (list str) :=
  match value with
  | JStr s =>
    let! parsed := urlsplit s in
    if negb (str_eqb (scheme parsed) (u "https")) || negb (str_eqb (netloc parsed) (u "github.com"))
       || negb (is_none (username parsed)) || negb (is_none (password parsed))
       || negb (str_eqb (query parsed) []) then
      value_error [label; u " must be a credential-free github.com HTTPS URL"]
    else
    let target := path parsed ++ match fragment parsed with [] => [] | f => u "#" ++ f end in
    match fullmatch_groups p count target with
    | Some groups => Ok groups
    | None => value_error [label; u " has an unsupported GitHub URL shape"]
    end
  | _ => value_error [label; u " must be a GitHub HTTPS URL"]
  end.
Definition same_repository (parts : list str) (repository : str * str) (label : str)
  : outcome unit :=
  match parts with
  | owner :: name :: _ =>
    if str_eqb owner (fst repository) && str_eqb name (snd repository) then Ok tt
    else value_error [label; u " must belong to repository_url"]
  | _ => value_error [label; u " must belong to repository_url"]
  end.
(** int(parts[2]): digits *)
Definition int_of_digits (digits : str) : outcome Z :=
  if (MAX_DIGITS <? length digits)%nat then
    value_error [u "Exceeds the limit (4300 digits) for integer string conversion: value has ";
      str_of_N (N.of_nat (length digits));
      u " digits; use sys.set_int_max_str_digits() to increase the limit"]
  else Ok (digits_Z digits).
(** int(parts[2]) != number *)
Definition require_number (parts : list str) (number : Z) (message : list str) : outcome unit :=
  let! n := int_of_digits (nth 2 parts []) in
  if n =? number then Ok tt else value_error message.
Definition text_of (value : json) : str := match value with JStr s => s | _ => [] end.
(** The URL under a key, checked to be in the repository, and the parts of its path *)
Definition repository_url_at (d : mapping) (label key : str) (p : pattern) (count : nat)
    (repository : str * str) : outcome (list str) :=
  let! parts := at_key (fun v l => github_url v l p count) d label key in
  let! _ := same_repository parts repository (dotted label key) in Ok parts.
(** d[key], of a checked URL *)
Definition url_text (d : mapping) (key : str) : str :=
  default [] (option_map text_of (dict_get str_eqb d key)).

(** positive_int of this verifier: one message for all refusals *)
Definition positive_int (value : json) (label : str) : outcome Z :=
  let refused := value_error [label; u " must be a positive integer"] in
  match value with
  | JInt z => if z <=? 0 then refused else Ok z
  | _ => refused
  end.

(** ** Sections of the observation *)

Definition parse_content (d : mapping) (label : str) (publication_parts : list str)
  : outcome Content :=
  let! number := at_key positive_int d label (u "pull_request_number") in
  let! _ := require_number publication_parts number
              [label; u ".comment_url must contain pull_request_number"] in
  let! evidence := at_key require_bool d label (u "evidence_present") in
  let! related := at_key require_bool d label (u "related_files_present") in
  let! run_link := at_key require_bool d label (u "run_link_present") in
  Ok {| cn_number := number; cn_evidence := evidence; cn_related_files := related;
        cn_run_link := run_link |}.
Definition parse_run (repository : str * str) (publication_key : str) (publication_pattern : pattern)
    (groups : nat) (value : json) (label : str) : outcome Run :=
  let! d := require_mapping value label in
  let comment := str_eqb publication_key (u "comment_url") in
  let! _ := require_exact_keys d
    ([u "run_id"; u "run_url"; u "workflow_conclusion"] ++ RUN_MOMENTS ++ [publication_key]
     ++ (if comment then [u "pull_request_number"; u "evidence_present";
                          u "related_files_present"; u "run_link_present"] else [])) label in
  let! run_id := at_key positive_int d label (u "run_id") in
  let! run_parts := repository_url_at d label (u "run_url") RUN_PATH 3 repository in
  let! _ := require_number run_parts run_id [label; u ".run_url must contain run_id"] in
  let! publication_parts :=
    repository_url_at d label publication_key publication_pattern groups repository in
  let! times := ordered_timestamps d RUN_MOMENTS label in
  let! conclusion := at_key safe_identifier d label (u "workflow_conclusion") in
  let! recorded_at := moment times (u "webhook_recorded_at") in
  let! started_at := moment times (u "analysis_started_at") in
  let! completed_at := moment times (u "analysis_completed_at") in
  let! content := if comment then let! c := parse_content d label publication_parts in Ok (Some c)
                  else Ok None in
  Ok {| rn_id := run_id; rn_url := url_text d (u "run_url"); rn_conclusion := conclusion;
        rn_publication_key := publication_key; rn_publication := url_text d publication_key;
        rn_times := times; rn_start := duration_seconds recorded_at started_at;
        rn_completion := duration_seconds recorded_at completed_at; rn_content := content |}.

Definition parse_redelivery_item (repository : str * str) (p : pattern) (groups : nat)
    (value : json) (label : str) : outcome Redelivery :=
  let! d := require_mapping value label in
  let! _ := require_exact_keys d
    [u "initial_url"; u "redelivery_url"; u "count_before"; u "count_after"; u "redelivered_at"]
    label in
  let! initial_parts := at_key (fun v l => github_url v l p groups) d label (u "initial_url") in
  let! redelivery_parts :=
    at_key (fun v l => github_url v l p groups) d label (u "redelivery_url") in
  let! _ := same_repository initial_parts repository (dotted label (u "initial_url")) in
  let! _ := same_repository redelivery_parts repository (dotted label (u "redelivery_url")) in
  let! before := at_key non_negative_int d label (u "count_before") in
  let! after := at_key non_negative_int d label (u "count_after") in
  let! redelivered_at := at_key parse_timestamp d label (u "redelivered_at") in
  Ok {| rd_initial := url_text d (u "initial_url"); rd_redelivery := url_text d (u "redelivery_url");
        rd_before := before; rd_after := after; rd_at := redelivered_at |}.

Fixpoint all_text (d : mapping) : option (list (str * str)) :=
  match d with
  | [] => Some []
  | (k, JStr s) :: d => option_map (cons (k, s)) (all_text d)
  | _ => None
  end.
Definition parse_permissions (observation : mapping) : outcome (list (str * str)) :=
  let! d := section observation (u "permissions") (map fst EXPECTED_PERMISSIONS) in
  match all_text d with
  | Some permissions => Ok permissions
  | None => value_error [u "permissions values must be strings"]
  end.

Definition parse_redeliveries (observation : mapping) (repository : str * str)
    (pr_run branch_run : Run) : outcome (Redelivery * Redelivery) :=
  let l := u "redelivery" in
  let! d := section observation l [u "pr_comment"; u "branch_check"] in
  let! pr := at_key (parse_redelivery_item repository COMMENT_PATH 4) d l (u "pr_comment") in
  let! branch := at_key (parse_redelivery_item repository CHECK_PATH 3) d l (u "branch_check") in
  if negb (str_eqb (rd_initial pr) (rn_publication pr_run)) then
    value_error [u "redelivery.pr_comment.initial_url must match pr_run.comment_url"]
  else if negb (str_eqb (rd_initial branch) (rn_publication branch_run)) then
    value_error [u "redelivery.branch_check.initial_url must match branch_run.check_url"]
  else Ok (pr, branch).

Definition parse_scan (observation : mapping) : outcome Scan :=
  let l := u "seeded_secret_scan" in
  let! d := section observation l ([u "seeded_secret_sha256"] ++ SCAN_COUNTS ++ [u "checked_at"]) in
  let! fingerprint := at_key sha256_value d l (u "seeded_secret_sha256") in
  let! counts := at_keys non_negative_int d l SCAN_COUNTS in
  let! checked_at := at_key parse_timestamp d l (u "checked_at") in
  Ok {| sn_fingerprint := fingerprint; sn_counts := counts; sn_checked_at := checked_at |}.

Definition parse_fork (observation : mapping) (repository : str * str) : outcome Fork :=
  let l := u "external_fork" in
  let! d := section observation l
    [u "run_id"; u "run_url"; u "pull_request_number"; u "webhook_recorded_at"; u "processed_at";
     u "warning_comment_url"; u "llm_invocations"; u "commit_check_publications"] in
  let! run_id := at_key positive_int d l (u "run_id") in
  let! run_parts := repository_url_at d l (u "run_url") RUN_PATH 3 repository in
  let! _ := require_number run_parts run_id [u "external_fork.run_url must contain run_id"] in
  let! number := at_key positive_int d l (u "pull_request_number") in
  let! warning_parts := repository_url_at d l (u "warning_comment_url") COMMENT_PATH 4 repository in
  let! _ := require_number warning_parts number
              [u "external_fork.warning_comment_url must contain pull_request_number"] in
  let! times := ordered_timestamps d [u "webhook_recorded_at"; u "processed_at"] l in
  let! llm := at_key non_negative_int d l (u "llm_invocations") in
  let! checks := at_key non_negative_int d l (u "commit_check_publications") in
  let! recorded_at := moment times (u "webhook_recorded_at") in
  let! processed_at := moment times (u "processed_at") in
  Ok {| fk_run_id := run_id; fk_run_url := url_text d (u "run_url"); fk_number := number;
        fk_comment := url_text d (u "warning_comment_url"); fk_recorded_at := recorded_at;
        fk_processed_at := processed_at; fk_llm_invocations := llm;
        fk_check_publications := checks |}.

(** ** The order of the exercises *)

(** A run's instant, as it is read again *)
Definition reread_of (run : Run) (key label : str) : outcome Z :=
  let! t := moment (rn_times run) key in reread t label.
(** The run's stages lie in the acceptance window. *)
Definition check_run_window (started_at completed_at : Z) (label : str) (run : Run)
  : outcome unit :=
  let! first := reread_of run (u "workflow_failed_at") label in
  let! published := reread_of run (u "published_at") label in
  if (first <? started_at) || (completed_at <? published) then
    value_error [label; u " timeline must be within the acceptance window"]
  else Ok tt.
Definition check_order (started_at completed_at now : Z) (pr_run branch_run : Run)
    (pr branch : Redelivery) (scan : Scan) (fork : Fork) : outcome unit :=
  let! pr_at := reread (rd_at pr) (u "redelivery.pr_comment.redelivered_at") in
  let! branch_at := reread (rd_at branch) (u "redelivery.branch_check.redelivered_at") in
  let! pr_published := reread_of pr_run (u "published_at") (u "pr_run.published_at") in
  if pr_at <? pr_published then value_error [u "PR redelivery must follow initial publication"]
  else
  let! branch_published := reread_of branch_run (u "published_at") (u "branch_run.published_at") in
  if branch_at <? branch_published then
    value_error [u "branch redelivery must follow initial publication"]
  else if sn_checked_at scan <? Z.max (Z.max pr_at branch_at) (fk_processed_at fork) then
    value_error [u "seeded secret scan must follow all publication exercises"]
  else if now <? fold_left Z.max
                   [sn_checked_at scan; fk_processed_at fork; pr_at; branch_at] completed_at then
    value_error [u "observation must not contain future events"]
  else
  let! _ := check_run_window started_at completed_at (u "pr_run") pr_run in
  let! _ := check_run_window started_at completed_at (u "branch_run") branch_run in
  if (fk_recorded_at fork <? started_at) || (completed_at <? sn_checked_at scan) then
    value_error [u "security exercises must be within the acceptance window"]
  else Ok tt.

Definition compile_evidence (observation : mapping) (input_sha256 : str) (li : Limits)
    (checked_at : option Z) (clock : Z) : outcome Report :=
  let! _ := require_exact_keys observation TOP_LEVEL_KEYS (u "observation") in
  let! _ := require_schema observation in
  let! _ := if limits_ok (Qle_bool 0) [li_start li; li_completion li] then Ok tt
            else value_error [u "thresholds must be non-negative finite numbers"] in
  let! acceptance_id := at_top safe_identifier observation (u "acceptance_id") in
  let! source_revision := at_top safe_identifier observation (u "source_revision") in
  let! environment := at_top safe_identifier observation (u "environment") in
  let! parts := at_top (fun v l => github_url v l REPOSITORY_PATH 2) observation
                  (u "repository_url") in
  let repository := (nth 0 parts [], nth 1 parts []) in
  let! installation_id := at_top positive_int observation (u "installation_id") in
  let! permissions := parse_permissions observation in
  let! (started_at, completed_at) := parse_window observation in
  let! pr_run := at_top (parse_run repository (u "comment_url") COMMENT_PATH 4)
                   observation (u "pr_run") in
  let! branch_run := at_top (parse_run repository (u "check_url") CHECK_PATH 3)
                       observation (u "branch_run") in
  let! _ := if rn_id pr_run =? rn_id branch_run then
              value_error [u "pr_run and branch_run must use different run IDs"] else Ok tt in
  let! (pr, branch) := parse_redeliveries observation repository pr_run branch_run in
  let! scan := parse_scan observation in
  let! fork := parse_fork observation repository in
  let now := default clock checked_at in
  let! _ := check_order started_at completed_at now pr_run branch_run pr branch scan fork in
  Ok {| rp_checked_at := now; rp_acceptance_id := acceptance_id;
        rp_source_revision := source_revision; rp_environment := environment;
        rp_repository_url := url_text observation (u "repository_url");
        rp_installation_id := installation_id; rp_permissions := permissions;
        rp_started_at := started_at; rp_completed_at := completed_at; rp_pr_run := pr_run;
        rp_branch_run := branch_run; rp_pr_redelivery := pr; rp_branch_redelivery := branch;
        rp_scan := scan; rp_fork := fork; rp_limits := li; rp_input_sha256 := input_sha256 |}.

(** ** The checks *)

(** dict(permissions) == EXPECTED_PERMISSIONS, of dictionaries with the same keys *)
Definition least_privilege (permissions : list (str * str)) : bool :=
  forallb (fun kv => match dict_get str_eqb permissions (fst kv) with
                     | Some v => str_eqb v (snd kv) | None => false end) EXPECTED_PERMISSIONS.
Definition failed (run : Run) : bool := str_eqb (rn_conclusion run) (u "failure").
Definition content_complete (run : Run) : bool :=
  match rn_content run with
  | Some c => cn_evidence c && cn_related_files c && cn_run_link c
  | None => false
  end.
Definition idempotent (r : Redelivery) : bool :=
  str_eqb (rd_initial r) (rd_redelivery r) && (rd_before r =? 1) && (rd_after r =? 1).
Definition checks (r : Report) : check_list := [
  (u "least_privilege_permissions", least_privilege (rp_permissions r));
  (u "pr_workflow_failed", failed (rp_pr_run r));
  (u "branch_workflow_failed", failed (rp_branch_run r));
  (u "pr_start_slo", at_most (rn_start (rp_pr_run r)) (li_start (rp_limits r)));
  (u "pr_completion_slo", at_most (rn_completion (rp_pr_run r)) (li_completion (rp_limits r)));
  (u "branch_start_slo", at_most (rn_start (rp_branch_run r)) (li_start (rp_limits r)));
  (u "branch_completion_slo",
   at_most (rn_completion (rp_branch_run r)) (li_completion (rp_limits r)));
  (u "pr_content_complete", content_complete (rp_pr_run r));
  (u "pr_comment_idempotent", idempotent (rp_pr_redelivery r));
  (u "branch_check_idempotent", idempotent (rp_branch_redelivery r));
  (u "seeded_secret_absent", forallb (fun kc => snd kc =? 0) (sn_counts (rp_scan r)));
  (u "external_fork_isolated",
   (fk_llm_invocations (rp_fork r) =? 0) && (fk_check_publications (rp_fork r) =? 0))].
Definition passed (r : Report) : bool := all_pass (checks r).

(** ** The document *)

Definition run_json (r : Run) : json := JObj ([
  (u "run_id", JInt (rn_id r));
  (u "run_url", JStr (rn_url r));
  (u "workflow_conclusion", JStr (rn_conclusion r));
  (rn_publication_key r, JStr (rn_publication r));
  (u "timeline", timeline_json (rn_times r));
  (u "start_seconds", JFloat (rn_start r));
  (u "completion_seconds", JFloat (rn_completion r))]
  ++ match rn_content r with
     | Some c => [(u "pull_request_number", JInt (cn_number c));
                  (u "evidence_present", JBool (cn_evidence c));
                  (u "related_files_present", JBool (cn_related_files c));
                  (u "run_link_present", JBool (cn_run_link c))]
     | None => []
     end).
Definition redelivery_json (r : Redelivery) : json := JObj [
  (u "initial_url", JStr (rd_initial r));
  (u "redelivery_url", JStr (rd_redelivery r));
  (u "count_before", JInt (rd_before r));
  (u "count_after", JInt (rd_after r));
  (u "redelivered_at", JStr (utc_timestamp (rd_at r)))].
Definition fork_json (f : Fork) : json := JObj [
  (u "run_id", JInt (fk_run_id f));
  (u "run_url", JStr (fk_run_url f));
  (u "pull_request_number", JInt (fk_number f));
  (u "warning_comment_url", JStr (fk_comment f));
  (u "timeline", timeline_json [
    (u "webhook_recorded_at", fk_recorded_at f); (u "processed_at", fk_processed_at f)]);
  (u "llm_invocations", JInt (fk_llm_invocations f));
  (u "commit_check_publications", JInt (fk_check_publications f))].
Definition by_key (a b : str * str) : bool := str_leb (fst a) (fst b).
Definition document (r : Report) : json := JObj [
  (u "schema_version", JInt 1);
  (u "checked_at", JStr (utc_timestamp (rp_checked_at r)));
  (u "acceptance_id", JStr (rp_acceptance_id r));
  (u "source_revision", JStr (rp_source_revision r));
  (u "environment", JStr (rp_environment r));
  (u "repository_url", JStr (rp_repository_url r));
  (u "installation_id", JInt (rp_installation_id r));
  (u "permissions", JObj (map (fun kv => (fst kv, JStr (snd kv)))
                              (py_sorted by_key (rp_permissions r))));
  (u "acceptance_window", JObj [
    (u "started_at", JStr (utc_timestamp (rp_started_at r)));
    (u "completed_at", JStr (utc_timestamp (rp_completed_at r)))]);
  (u "pr_run", run_json (rp_pr_run r));
  (u "branch_run", run_json (rp_branch_run r));
  (u "redelivery", JObj [
    (u "pr_comment", redelivery_json (rp_pr_redelivery r));
    (u "branch_check", redelivery_json (rp_branch_redelivery r))]);
  (u "seeded_secret_scan", JObj ([
    (u "seeded_secret_sha256", JStr (sn_fingerprint (rp_scan r)))]
    ++ map (fun kc => (fst kc, JInt (snd kc))) (sn_counts (rp_scan r))
    ++ [(u "checked_at", JStr (utc_timestamp (sn_checked_at (rp_scan r))))]));
  (u "external_fork", fork_json (rp_fork r));
  (u "threshold_seconds", JObj [
    (u "analysis_start", limit_json (li_start (rp_limits r)));
    (u "analysis_completion", limit_json (li_completion (rp_limits r)))]);
  (u "checks", checks_json (checks r));
  (u "passed", JBool (passed r));
  (u "input_sha256", JStr (rp_input_sha256 r))].

(** The defaults of the command line *)
Definition parse_args : Limits := {| li_start := Whole 60; li_completion := Whole 120 |}.
Definition main (sha256 : list N -> str) (same_path : bool) (file : option (list N))
    (li : Limits) (clock : Z) : verdict :=
  Evidence.main sha256 same_path file (fun observation input_sha256 =>
    let! r := compile_evidence observation input_sha256 li None clock in
    Ok (document r, passed r)).
End app.
