(* ===== verification/GitHubAppEvidenceFacts.v ===== *)
(** * Facts about the evidence of a GitHub App acceptance run

    The URLs of a report are GitHub's, in the repository under test, and end in the numbers
    next to them; what a passed run has shown. *)

From Stdlib Require Import QArith Qabs Lqa.
From stdpp Require Import base list strings numbers.
From S2P Require Import Prelude Double Calendar Regex RegexFacts Json Loads.
From S2P Require Import LoadsFacts Evidence EvidenceFacts Url GitHubAppEvidence.

Set Default Proof Using "Type".

(** ** Shapes of paths *)

Definition name_char (c : N) : Prop :=
  (ascii_upper c || ascii_lower c || ascii_digit c || has_char c (u "_.-")) = true.
Definition name_text (s : str) : Prop := Forall name_char s.

Section shapes.
Context {U : UnicodeDb}.

Lemma one_char c ci x : cset_has ci {| cs_neg := false; cs_items := [IChar x] |} c = true ->
  ci = false -> c = x.
Proof.
  intros Hc ->. unfold cset_has in Hc. cbn -[N.eqb] in Hc. rewrite orb_false_r in Hc.
  by apply N.eqb_eq in Hc.
Qed.
Lemma name_class s :
  Forall (fun c => cset_has false {| cs_neg := false;
    cs_items := [IRange 65 90; IRange 97 122; IRange 48 57; IChar 95; IChar 46; IChar 45] |} c = true) s ->
  name_text s.
Proof.
  intros Hs. apply (Forall_weaken _ _ _ Hs). intros c. unfold cset_has, name_char, has_char.
  cbn -[N.eqb in_range]. unfold ascii_upper, ascii_lower, ascii_digit.
  change (existsb (N.eqb c) (u "_.-")) with ((c =? 95) || ((c =? 46) || ((c =? 45) || false)))%N.
  rewrite (N.eqb_sym c 95), (N.eqb_sym c 46), (N.eqb_sym c 45), !orb_false_r, !orb_assoc. done.
Qed.
(** A number without a leading zero, written out *)
Lemma number_class c s :
  cset_has false {| cs_neg := false; cs_items := [IRange 49 57] |} c = true ->
  Forall (fun c => cset_has false {| cs_neg := false; cs_items := [IRange 48 57] |} c = true) s ->
  c :: s = str_of_Z (digits_Z (c :: s)).
Proof.
  unfold cset_has. intros Hc Hs. cbn -[N.eqb in_range] in Hc. rewrite !orb_false_r in Hc.
  unfold in_range in Hc. rewrite andb_true_iff, !N.leb_le in Hc.
  rewrite str_of_digits; [done| |lia]. constructor.
  - unfold ascii_digit, in_range. rewrite andb_true_iff, !N.leb_le. lia.
  - apply (Forall_weaken _ _ _ Hs). intros d. cbn -[N.eqb in_range]. by rewrite !orb_false_r.
Qed.
(** Takes apart what a pattern of literals, names and numbers has read. *)
Ltac open_groups p := 
  unfold fullmatch_groups;
  let E := fresh "E" in destruct (mrun _ _ _ _) as [st|] eqn:E; [|done];
  intros [= <-]; apply fullmatch_reads in E; change (p_icase p) with false in E;
  let r := fresh "r" in set (r := p_regex p) in E; vm_compute in r; subst r; cbn [Reads] in E;
  repeat match goal with
  | H : exists _, _ |- _ => destruct H
  | H : _ /\ _ |- _ => destruct H
  | H : _ \/ _ |- _ => destruct H
  | H : cset_has _ _ _ = true |- _ => apply one_char in H; [|reflexivity]
  | H : Forall _ _ |- _ => apply name_class in H
  | H : cset_has _ _ ?c = true, H' : Forall _ ?s |- _ => pose proof (number_class c s H H'); clear H H'
  end; subst;
  match goal with H : ms_caps _ = _ |- _ => rewrite H; clear H end;
  cbn [map seq app]; rewrite ?app_nil_r; cbn [app dict_get Nat.eqb default];
  repeat match goal with |- context [id ?x] => change (id x) with x end.
Ltac close_groups := split_and!; first [reflexivity|assumption|idtac].

Lemma repository_shape t parts : fullmatch_groups REPOSITORY_PATH 2 t = Some parts ->
  exists owner name, parts = [owner; name] /\ name_text owner /\ name_text name
    /\ t = u "/" ++ owner ++ u "/" ++ name.
Proof. open_groups REPOSITORY_PATH. do 2 eexists. close_groups. Qed.
Lemma run_shape t parts : fullmatch_groups RUN_PATH 3 t = Some parts ->
  exists owner name digits, parts = [owner; name; digits] /\ digits = str_of_Z (digits_Z digits)
    /\ t = u "/" ++ owner ++ u "/" ++ name ++ u "/actions/runs/" ++ digits.
Proof. open_groups RUN_PATH. do 3 eexists. close_groups. Qed.
Lemma comment_shape t parts : fullmatch_groups COMMENT_PATH 4 t = Some parts ->
  exists owner name digits comment, parts = [owner; name; digits; comment]
    /\ digits = str_of_Z (digits_Z digits) /\ comment = str_of_Z (digits_Z comment)
    /\ t = u "/" ++ owner ++ u "/" ++ name ++ u "/pull/" ++ digits ++ u "#issuecomment-" ++ comment.
Proof. open_groups COMMENT_PATH. do 4 eexists. close_groups. Qed.
Lemma check_shape t parts : fullmatch_groups CHECK_PATH 3 t = Some parts ->
  exists owner name digits kind, parts = [owner; name; digits] /\ digits = str_of_Z (digits_Z digits)
    /\ (kind = u "/runs/" \/ kind = u "/checks/")
    /\ t = u "/" ++ owner ++ u "/" ++ name ++ kind ++ digits.
Proof.
  open_groups CHECK_PATH.
  - do 3 eexists. exists (u "/runs/"). close_groups. by left.
  - do 3 eexists. exists (u "/checks/"). close_groups. by right.
Qed.
End shapes.

(** ** What was observed *)

Section observed.
Context {U : UnicodeDb} `{Nfkc} `{Repr}.

(** A URL of github.com, without credentials and query, and its path and fragment *)
Definition github_target (s target : str) : Prop := exists p,
  urlsplit s = Ok p /\ scheme p = u "https" /\ netloc p = u "github.com" /\ query p = []
  /\ target = path p ++ match fragment p with [] => [] | f => u "#" ++ f end.
Lemma github_url_Ok v l p count parts : github_url v l p count = Ok parts ->
  exists s t, v = JStr s /\ github_target s t /\ fullmatch_groups p count t = Some parts.
Proof.
  destruct v as [| | | | |s| |]; try done. cbn [github_url]. intros (r & Hr & Hg)%obind_Ok.
  destruct (_ || _) eqn:E; [done|]. destruct (fullmatch_groups _ _ _) as [g|] eqn:Eg; [|done].
  injection Hg as ->. do 2 eexists. split_and!; [reflexivity| |exact Eg].
  rewrite !orb_false_iff, !negb_false_iff, !str_eqb_eq in E. exists r. tauto.
Qed.

(** A URL in the repository, and what follows its name *)
Definition url_at (o : json) (path : list str) (repository : str * str) (shape : str -> Prop)
    (s : str) : Prop :=
  text_at o path s /\ exists rest, shape rest
    /\ github_target s (u "/" ++ fst repository ++ u "/" ++ snd repository ++ rest).
Definition run_rest (id : Z) (rest : str) : Prop := rest = u "/actions/runs/" ++ str_of_Z id.
Definition comment_rest (number : Z) (rest : str) : Prop :=
  exists comment, rest = u "/pull/" ++ str_of_Z number ++ u "#issuecomment-" ++ str_of_Z comment.
Definition check_rest (rest : str) : Prop :=
  exists kind check, (kind = u "/runs/" \/ kind = u "/checks/") /\ rest = kind ++ str_of_Z check.

Lemma url_at_under d key v path repository shape s :
  dict_get str_eqb d key = Some v -> url_at v path repository shape s ->
  url_at (JObj d) (key :: path) repository shape s.
Proof. intros Hv [Ht Hs]. split; [by eapply holds_here|done]. Qed.

Lemma same_repository_Ok parts repository l : same_repository parts repository l = Ok tt ->
  exists rest, parts = fst repository :: snd repository :: rest.
Proof.
  unfold same_repository. destruct parts as [|owner [|name rest]]; try done.
  destruct (_ && _) eqn:E; [|done]. rewrite andb_true_iff, !str_eqb_eq in E.
  intros _. exists rest. by destruct E as [-> ->].
Qed.
Lemma require_number_Ok parts number message : require_number parts number message = Ok tt ->
  digits_Z (nth 2 parts []) = number.
Proof.
  unfold require_number, int_of_digits. destruct (_ <? _)%nat; [done|]. cbn [obind].
  destruct (Z.eqb_spec (digits_Z (nth 2 parts [])) number); done.
Qed.

(** What follows the name of the repository *)
Definition follows (repository : str * str) (t : str) (shape : str -> Prop) : Prop :=
  exists rest, shape rest /\ t = u "/" ++ fst repository ++ u "/" ++ snd repository ++ rest.
Lemma run_follows t parts repository number l m :
  fullmatch_groups RUN_PATH 3 t = Some parts -> same_repository parts repository l = Ok tt ->
  require_number parts number m = Ok tt -> follows repository t (run_rest number).
Proof.
  intros (o & n & ds & -> & Hds & ->)%run_shape (rest & [= -> -> _])%same_repository_Ok
    <-%require_number_Ok. eexists. split; [reflexivity|]. cbn [nth]. by rewrite <-Hds.
Qed.
Lemma comment_follows t parts repository number l m :
  fullmatch_groups COMMENT_PATH 4 t = Some parts -> same_repository parts repository l = Ok tt ->
  require_number parts number m = Ok tt -> follows repository t (comment_rest number).
Proof.
  intros (o & n & ds & c & -> & Hds & Hc & ->)%comment_shape (rest & [= -> -> _])%same_repository_Ok
    <-%require_number_Ok. eexists. split; [by exists (digits_Z c)|]. cbn [nth].
  by rewrite <-Hds, <-Hc.
Qed.
Lemma any_comment_follows t parts repository l :
  fullmatch_groups COMMENT_PATH 4 t = Some parts -> same_repository parts repository l = Ok tt ->
  follows repository t (fun rest => exists number, comment_rest number rest).
Proof.
  intros (o & n & ds & c & -> & Hds & Hc & ->)%comment_shape (rest & [= -> -> _])%same_repository_Ok.
  eexists. split; [by exists (digits_Z ds), (digits_Z c)|]. by rewrite <-Hds, <-Hc.
Qed.
Lemma check_follows t parts repository l :
  fullmatch_groups CHECK_PATH 3 t = Some parts -> same_repository parts repository l = Ok tt ->
  follows repository t check_rest.
Proof.
  intros (o & n & ds & k & -> & Hds & Hk & ->)%check_shape (rest & [= -> -> _])%same_repository_Ok.
  eexists. split; [by exists k, (digits_Z ds)|]. by rewrite <-Hds.
Qed.
Lemma url_found d key v l p count parts repository shape :
  dict_get str_eqb d key = Some v -> github_url v l p count = Ok parts ->
  (forall t, fullmatch_groups p count t = Some parts -> follows repository t shape) ->
  url_at (JObj d) [key] repository shape (url_text d key).
Proof.
  intros Hv (s & t & -> & Ht & Hg)%github_url_Ok Hshape.
  destruct (Hshape t Hg) as (rest & Hrest & ->).
  unfold url_text. rewrite Hv. cbn. split; [|by exists rest].
  eapply holds_here; [exact Hv|by apply holds_nil].
Qed.
Lemma repository_url_at_Ok d l key p count repository parts :
  repository_url_at d l key p count repository = Ok parts ->
  exists v, dict_get str_eqb d key = Some v /\ github_url v (dotted l key) p count = Ok parts
    /\ same_repository parts repository (dotted l key) = Ok tt.
Proof.
  unfold repository_url_at. intros (ps & (v & Hv & Hg)%at_key_Ok & ([] & Hs & [= <-])%obind_Ok)%obind_Ok.
  by exists v.
Qed.
Lemma app_positive_int_Ok v l z : positive_int v l = Ok z -> v = JInt z /\ 0 < z.
Proof. destruct v; try done. cbn. destruct (Z.leb_spec z0 0); [done|]. by intros [= ->]. Qed.
Ltac invert_checks := invert_reads; repeat match goal with
  | H : positive_int _ _ = Ok _ |- _ => apply app_positive_int_Ok in H as [-> H]
  | H : repository_url_at _ _ _ _ _ _ = Ok _ |- _ => apply repository_url_at_Ok in H as (? & ? & ? & ?)
  end.

(** ** The runs *)

(** The stages of a run, in order, and what its limits are compared with *)
Definition stages_observed (o : json) (path : list str) (r : Run) : Prop :=
  exists failed recorded started completed published,
    rn_times r = combine RUN_MOMENTS [failed; recorded; started; completed; published]
    /\ timeline_at o path (rn_times r)
    /\ failed <= recorded <= started /\ started <= completed <= published
    /\ rn_start r = duration_seconds recorded started
    /\ rn_completion r = duration_seconds recorded completed.
Definition content_observed (o : json) (path : list str) (c : Content) : Prop :=
  count_at o (path ++ [u "pull_request_number"]) (cn_number c) /\ 0 < cn_number c
  /\ flag_at o (path ++ [u "evidence_present"]) (cn_evidence c)
  /\ flag_at o (path ++ [u "related_files_present"]) (cn_related_files c)
  /\ flag_at o (path ++ [u "run_link_present"]) (cn_run_link c).
Definition run_observed (o : json) (path : list str) (repository : str * str) (r : Run) : Prop :=
  count_at o (path ++ [u "run_id"]) (rn_id r) /\ 0 < rn_id r
  /\ url_at o (path ++ [u "run_url"]) repository (run_rest (rn_id r)) (rn_url r)
  /\ text_at o (path ++ [u "workflow_conclusion"]) (rn_conclusion r)
  /\ stages_observed o path r.
(** A pull-request run, published as a comment of its pull request *)
Definition pr_observed (o : json) (path : list str) (repository : str * str) (r : Run) : Prop :=
  run_observed o path repository r /\ exists c, rn_content r = Some c
  /\ content_observed o path c
  /\ url_at o (path ++ [u "comment_url"]) repository (comment_rest (cn_number c)) (rn_publication r).
Definition branch_observed (o : json) (path : list str) (repository : str * str) (r : Run) : Prop :=
  run_observed o path repository r
  /\ url_at o (path ++ [u "check_url"]) repository check_rest (rn_publication r).

Lemma timeline_at_under d key v path times :
  dict_get str_eqb d key = Some v -> timeline_at v path times -> timeline_at (JObj d) (key :: path) times.
Proof.
  intros Hv Ht. apply (Forall_weaken _ _ _ Ht). intros kt Hkt. by eapply holds_here.
Qed.
Lemma run_observed_under d key v path repository r :
  dict_get str_eqb d key = Some v -> run_observed v path repository r ->
  run_observed (JObj d) (key :: path) repository r.
Proof.
  intros Hv (Hi & Hpos & Hu & Hc & (a & b & c & x & y & Ht & Hl & Hs)).
  split_and!; try by eapply holds_here. 
  - done.
  - by eapply url_at_under.
  - exists a, b, c, x, y. split_and!; try tauto. by eapply timeline_at_under.
Qed.
Lemma pr_observed_under d key v path repository r :
  dict_get str_eqb d key = Some v -> pr_observed v path repository r ->
  pr_observed (JObj d) (key :: path) repository r.
Proof.
  intros Hv [Hr (c & Hc & (Hn & Hpos & He & Hf & Hl) & Hu)]. split; [by eapply run_observed_under|].
  exists c. unfold content_observed. split_and!; try by eapply holds_here.
  all: first [done|by eapply url_at_under].
Qed.
Lemma branch_observed_under d key v path repository r :
  dict_get str_eqb d key = Some v -> branch_observed v path repository r ->
  branch_observed (JObj d) (key :: path) repository r.
Proof. intros Hv [Hr Hu]. split; [by eapply run_observed_under|by eapply url_at_under]. Qed.

Ltac found := match goal with
  | Hv : dict_get str_eqb ?d ?k = Some ?v, Hg : github_url ?v _ _ _ = Ok _
    |- url_at (JObj ?d) [?k'] _ _ _ =>
    constr_eq k k'; refine (url_found d k v _ _ _ _ _ _ Hv Hg _)
  end.
(** What the two runs share *)
Lemma parse_run_common repository key p groups v l r :
  parse_run repository key p groups v l = Ok r -> run_observed v [] repository r.
Proof.
  unfold parse_run. intros Hr. invert_checks. unfold RUN_MOMENTS in *. cbn [map app] in *.
  open_timeline. unfold run_observed. cbn [app rn_id rn_url rn_conclusion].
  split_and!; try first [at_its_path|assumption].
  - found. intros t Hg. by eapply run_follows.
  - do 5 eexists. cbn [rn_times rn_start rn_completion]. split_and!; [reflexivity| |lia..|done|done].
    unfold timeline_at. cbn. repeat constructor; assumption.
Qed.
Lemma parse_pr_run_Ok repository v l r :
  parse_run repository (u "comment_url") COMMENT_PATH 4 v l = Ok r -> pr_observed v [] repository r.
Proof.
  intros Hr. split; [by eapply parse_run_common|]. revert Hr. unfold parse_run, parse_content.
  change (str_eqb (u "comment_url") (u "comment_url")) with true. cbv iota. intros Hr. invert_checks.
  eexists. unfold content_observed. cbn [app rn_content rn_publication]. split; [reflexivity|].
  cbn [cn_number cn_evidence cn_related_files cn_run_link].
  split_and!; try first [at_its_path|assumption].
  found. intros t Hg. by eapply comment_follows.
Qed.
Lemma parse_branch_run_Ok repository v l r :
  parse_run repository (u "check_url") CHECK_PATH 3 v l = Ok r -> branch_observed v [] repository r.
Proof.
  intros Hr. split; [by eapply parse_run_common|]. revert Hr. unfold parse_run.
  change (str_eqb (u "check_url") (u "comment_url")) with false. cbv iota. intros Hr. invert_checks.
  cbn [app rn_publication]. found. intros t Hg. by eapply check_follows.
Qed.

(** ** The other exercises *)

Definition redelivery_observed (o : json) (path : list str) (repository : str * str)
    (shape : str -> Prop) (x : Redelivery) : Prop :=
  url_at o (path ++ [u "initial_url"]) repository shape (rd_initial x)
  /\ url_at o (path ++ [u "redelivery_url"]) repository shape (rd_redelivery x)
  /\ count_at o (path ++ [u "count_before"]) (rd_before x)
  /\ count_at o (path ++ [u "count_after"]) (rd_after x)
  /\ moment_at o (path ++ [u "redelivered_at"]) (rd_at x).
Lemma redelivery_observed_under d key v path repository shape x :
  dict_get str_eqb d key = Some v -> redelivery_observed v path repository shape x ->
  redelivery_observed (JObj d) (key :: path) repository shape x.
Proof.
  intros Hv (Hi & Hr & Hb & Ha & Ht). unfold redelivery_observed.
  split_and!; first [by eapply url_at_under|by eapply holds_here].
Qed.
Lemma parse_redelivery_item_Ok repository p groups shape v l x :
  (forall t parts l, fullmatch_groups p groups t = Some parts ->
     same_repository parts repository l = Ok tt -> follows repository t shape) ->
  parse_redelivery_item repository p groups v l = Ok x ->
  redelivery_observed v [] repository shape x.
Proof.
  intros Hshape. unfold parse_redelivery_item. intros Hr. invert_checks.
  unfold redelivery_observed. cbn [app rd_initial rd_redelivery rd_before rd_after rd_at].
  split_and!; try at_its_path; found; intros t Hg; by eapply Hshape.
Qed.
Lemma parse_redeliveries_Ok d repository pr_run branch_run pr branch :
  parse_redeliveries d repository pr_run branch_run = Ok (pr, branch) ->
  redelivery_observed (JObj d) [u "redelivery"; u "pr_comment"] repository
    (fun rest => exists number, comment_rest number rest) pr
  /\ redelivery_observed (JObj d) [u "redelivery"; u "branch_check"] repository check_rest branch
  /\ rd_initial pr = rn_publication pr_run /\ rd_initial branch = rn_publication branch_run.
Proof.
  unfold parse_redeliveries. intros Hr. invert_checks.
  repeat match goal with H : context [if ?b then _ else _] |- _ => destruct b eqn:?; [done|] end.
  invert_checks.
  match goal with H : parse_redelivery_item _ COMMENT_PATH _ _ _ = Ok _ |- _ =>
    eapply parse_redelivery_item_Ok in H; [|intros; by eapply any_comment_follows] end.
  match goal with H : parse_redelivery_item _ CHECK_PATH _ _ _ = Ok _ |- _ =>
    eapply parse_redelivery_item_Ok in H; [|intros; by eapply check_follows] end.
  split_and!; try assumption.
  all: do 2 (eapply redelivery_observed_under; [eassumption|]); assumption.
Qed.

Definition scan_observed (o : json) (x : Scan) : Prop :=
  text_at o [u "seeded_secret_scan"; u "seeded_secret_sha256"] (sn_fingerprint x)
  /\ hash (sn_fingerprint x)
  /\ map fst (sn_counts x) = SCAN_COUNTS
  /\ Forall (fun kc => count_at o [u "seeded_secret_scan"; fst kc] (snd kc)) (sn_counts x)
  /\ moment_at o [u "seeded_secret_scan"; u "checked_at"] (sn_checked_at x).
Lemma parse_scan_Ok d x : parse_scan d = Ok x -> scan_observed (JObj d) x.
Proof.
  unfold parse_scan. intros Hr. invert_checks.
  match goal with H : at_keys _ _ _ _ = Ok _ |- _ => apply at_keys_Ok in H as [Hk Hc] end.
  unfold scan_observed. cbn [sn_fingerprint sn_counts sn_checked_at].
  split_and!; try first [at_its_path|assumption].
  apply (Forall_weaken _ _ _ Hc). intros [k c] (v & Hv & [-> _]%non_negative_int_Ok)%at_key_Ok.
  eapply holds_here; [eassumption|]. eapply holds_here; [exact Hv|by apply holds_nil].
Qed.

Definition fork_observed (o : json) (repository : str * str) (x : Fork) : Prop :=
  let at_ (k : string) := [u "external_fork"; u k] in
  count_at o (at_ "run_id"%string) (fk_run_id x)
  /\ url_at o (at_ "run_url"%string) repository (run_rest (fk_run_id x)) (fk_run_url x)
  /\ count_at o (at_ "pull_request_number"%string) (fk_number x)
  /\ url_at o (at_ "warning_comment_url"%string) repository (comment_rest (fk_number x)) (fk_comment x)
  /\ moment_at o (at_ "webhook_recorded_at"%string) (fk_recorded_at x)
  /\ moment_at o (at_ "processed_at"%string) (fk_processed_at x)
  /\ fk_recorded_at x <= fk_processed_at x
  /\ count_at o (at_ "llm_invocations"%string) (fk_llm_invocations x)
  /\ count_at o (at_ "commit_check_publications"%string) (fk_check_publications x).
Lemma parse_fork_Ok d repository x : parse_fork d repository = Ok x -> fork_observed (JObj d) repository x.
Proof.
  unfold parse_fork. intros Hr. invert_checks. open_timeline.
  unfold fork_observed. cbv beta zeta.
  cbn [fk_run_id fk_run_url fk_number fk_comment fk_recorded_at fk_processed_at fk_llm_invocations
       fk_check_publications].
  split_and!; try first [at_its_path|assumption].
  - eapply url_at_under; [eassumption|]. found. intros t Hg. by eapply run_follows.
  - eapply url_at_under; [eassumption|]. found. intros t Hg. by eapply comment_follows.
Qed.

Lemma all_text_Some d l : all_text d = Some l -> d = map (fun kv => (fst kv, JStr (snd kv))) l.
Proof.
  revert l. induction d as [|[k v] d IH]; cbn [all_text]; [by intros l [= <-]|].
  destruct v; try done. intros l. destruct (all_text d) as [l'|]; [|done]. intros [= <-].
  cbn. by rewrite (IH l' eq_refl).
Qed.
(** The permissions are those of the object, under the expected names. *)
Definition permissions_observed (o : json) (permissions : list (str * str)) : Prop :=
  holds o [u "permissions"] (eq (JObj (map (fun kv => (fst kv, JStr (snd kv))) permissions)))
  /\ forall k, k ∈ map fst permissions <-> k ∈ map fst EXPECTED_PERMISSIONS.
Lemma parse_permissions_Ok d permissions :
  parse_permissions d = Ok permissions -> permissions_observed (JObj d) permissions.
Proof.
  unfold parse_permissions. intros (p & [Hd Hk]%section_Ok & Hr)%obind_Ok.
  destruct (all_text p) as [l|] eqn:E; [|done]. injection Hr as ->. apply all_text_Some in E as ->.
  split.
  - eapply holds_here; [exact Hd|by apply holds_nil].
  - intros k. rewrite require_exact_keys_Ok in Hk. specialize (Hk k). rewrite map_map in Hk.
    by symmetry.
Qed.

(** Every value of a report was read in its place; all URLs are of the repository. *)
Record observed (o : json) (repository : str * str) (r : Report) : Prop := {
  ob_id : text_at o [u "acceptance_id"] (rp_acceptance_id r) /\ safe (rp_acceptance_id r);
  ob_revision : text_at o [u "source_revision"] (rp_source_revision r)
                /\ safe (rp_source_revision r);
  ob_environment : text_at o [u "environment"] (rp_environment r) /\ safe (rp_environment r);
  ob_repository : name_text (fst repository) /\ name_text (snd repository)
    /\ url_at o [u "repository_url"] repository (eq []) (rp_repository_url r);
  ob_installation : count_at o [u "installation_id"] (rp_installation_id r)
                    /\ 0 < rp_installation_id r;
  ob_permissions : permissions_observed o (rp_permissions r);
  ob_started : moment_at o [u "started_at"] (rp_started_at r);
  ob_completed : moment_at o [u "completed_at"] (rp_completed_at r);
  ob_pr_run : pr_observed o [u "pr_run"] repository (rp_pr_run r);
  ob_branch_run : branch_observed o [u "branch_run"] repository (rp_branch_run r);
  ob_different : rn_id (rp_pr_run r) <> rn_id (rp_branch_run r);
  ob_pr : redelivery_observed o [u "redelivery"; u "pr_comment"] repository
    (fun rest => exists number, comment_rest number rest) (rp_pr_redelivery r);
  ob_branch : redelivery_observed o [u "redelivery"; u "branch_check"] repository check_rest
    (rp_branch_redelivery r);
  ob_same_comment : rd_initial (rp_pr_redelivery r) = rn_publication (rp_pr_run r);
  ob_same_check : rd_initial (rp_branch_redelivery r) = rn_publication (rp_branch_run r);
  ob_scan : scan_observed o (rp_scan r);
  ob_fork : fork_observed o repository (rp_fork r) }.

Definition failed_at (r : Run) : outcome Z := moment (rn_times r) (u "workflow_failed_at").
Definition published_at (r : Run) : outcome Z := moment (rn_times r) (u "published_at").
(** The run lies in the window. *)
Definition run_within (r : Report) (run : Run) : Prop := exists failed published,
  failed_at run = Ok failed /\ published_at run = Ok published
  /\ rp_started_at r <= failed /\ published <= rp_completed_at r.
(** The redelivery followed the publication. *)
Definition redelivered_after (run : Run) (x : Redelivery) : Prop :=
  exists published, published_at run = Ok published /\ published <= rd_at x.
Record in_order (r : Report) : Prop := {
  io_pr_run : run_within r (rp_pr_run r);
  io_branch_run : run_within r (rp_branch_run r);
  io_pr : redelivered_after (rp_pr_run r) (rp_pr_redelivery r);
  io_branch : redelivered_after (rp_branch_run r) (rp_branch_redelivery r);
  io_scan : rd_at (rp_pr_redelivery r) <= sn_checked_at (rp_scan r)
            /\ rd_at (rp_branch_redelivery r) <= sn_checked_at (rp_scan r)
            /\ fk_processed_at (rp_fork r) <= sn_checked_at (rp_scan r);
  io_fork : rp_started_at r <= fk_recorded_at (rp_fork r);
  io_completed : sn_checked_at (rp_scan r) <= rp_completed_at r <= rp_checked_at r }.

(** The instants that are read again are those of the timeline. *)
Lemma stage_range o path run key t :
  stages_observed o path run -> moment (rn_times run) key = Ok t -> in_datetime_range t = true.
Proof.
  intros (a & b & c & x & y & _ & Ht & _) Hm. unfold moment in Hm.
  destruct (dict_get _ _ _) as [t'|] eqn:E; [|done]. injection Hm as ->.
  apply (dict_get_Some_In _ str_eqb_eq) in E. unfold timeline_at in Ht.
  rewrite Forall_forall in Ht. by apply Ht, moment_at_range in E.
Qed.
Lemma reread_of_Ok o path run key label t :
  stages_observed o path run -> reread_of run key label = Ok t ->
  moment (rn_times run) key = Ok t.
Proof.
  intros Hs. unfold reread_of. intros (x & Hx & Hr)%obind_Ok.
  rewrite reread_Ok in Hr by by eapply stage_range. congruence.
Qed.
Lemma check_run_window_Ok r o path run label :
  stages_observed o path run ->
  check_run_window (rp_started_at r) (rp_completed_at r) label run = Ok tt -> run_within r run.
Proof.
  intros Hs. unfold check_run_window. intros (f & Hf%(reread_of_Ok _ _ _ _ _ _ Hs) & Hr)%obind_Ok.
  apply obind_Ok in Hr as (p & Hp%(reread_of_Ok _ _ _ _ _ _ Hs) & Hr).
  destruct (_ || _) eqn:E; [done|]. rewrite orb_false_iff, !Z.ltb_ge in E.
  exists f, p. split_and!; [exact Hf|exact Hp|lia..].
Qed.
Lemma check_order_Ok r o o' path path' :
  stages_observed o path (rp_pr_run r) -> stages_observed o' path' (rp_branch_run r) ->
  in_datetime_range (rd_at (rp_pr_redelivery r)) = true ->
  in_datetime_range (rd_at (rp_branch_redelivery r)) = true ->
  check_order (rp_started_at r) (rp_completed_at r) (rp_checked_at r) (rp_pr_run r)
    (rp_branch_run r) (rp_pr_redelivery r) (rp_branch_redelivery r) (rp_scan r) (rp_fork r) = Ok tt ->
  in_order r.
Proof.
  intros Hp Hb Rp Rb. unfold check_order. rewrite !reread_Ok by done. cbn [obind].
  intros (x & Hx%(reread_of_Ok _ _ _ _ _ _ Hp) & Hr)%obind_Ok.
  destruct (Z.ltb_spec (rd_at (rp_pr_redelivery r)) x); [done|].
  apply obind_Ok in Hr as (y & Hy%(reread_of_Ok _ _ _ _ _ _ Hb) & Hr).
  destruct (Z.ltb_spec (rd_at (rp_branch_redelivery r)) y); [done|].
  destruct (Z.ltb_spec (sn_checked_at (rp_scan r))
    (Z.max (Z.max (rd_at (rp_pr_redelivery r)) (rd_at (rp_branch_redelivery r)))
           (fk_processed_at (rp_fork r)))); [done|].
  destruct (Z.ltb_spec (rp_checked_at r) (fold_left Z.max
    [sn_checked_at (rp_scan r); fk_processed_at (rp_fork r); rd_at (rp_pr_redelivery r);
     rd_at (rp_branch_redelivery r)] (rp_completed_at r))) as [|Hnow]; [done|].
  apply fold_max_le in Hnow as [Hnow _].
  apply obind_Ok in Hr as ([] & Wp%(check_run_window_Ok _ _ _ _ _ Hp) & Hr).
  apply obind_Ok in Hr as ([] & Wb%(check_run_window_Ok _ _ _ _ _ Hb) & Hr).
  destruct (_ || _) eqn:E; [done|]. rewrite orb_false_iff, !Z.ltb_ge in E.
  split; try assumption; try lia; by eexists.
Qed.

Lemma repository_found d key v l parts :
  dict_get str_eqb d key = Some v -> github_url v l REPOSITORY_PATH 2 = Ok parts ->
  name_text (nth 0 parts []) /\ name_text (nth 1 parts [])
  /\ url_at (JObj d) [key] (nth 0 parts [], nth 1 parts []) (eq []) (url_text d key).
Proof.
  intros Hv Hg. destruct (github_url_Ok _ _ _ _ _ Hg) as (s & t & _ & _ & Ht).
  pose proof (repository_shape _ _ Ht) as (owner & name & -> & Ho & Hn & _).
  split_and!; [done..|]. apply (url_found _ _ _ _ _ _ _ _ _ Hv Hg). clear Ht.
  intros t' (owner' & name' & [= <- <-] & _ & _ & ->)%repository_shape. exists []. split; [done|].
  cbn [fst snd nth]. by rewrite app_nil_r.
Qed.

Definition limits_valid (li : Limits) : Prop :=
  Forall (fun l => exists q, finite l = Some q /\ (0 <= q)%Q) [li_start li; li_completion li].
Lemma app_compile_evidence_Ok d h li checked clock r :
  compile_evidence d h li checked clock = Ok r ->
  (exists repository, observed (JObj d) repository r) /\ in_order r
  /\ rp_checked_at r = default clock checked
  /\ rp_limits r = li /\ limits_valid li /\ rp_input_sha256 r = h.
Proof.
  unfold compile_evidence. intros Hr. invert_checks.
  repeat match goal with
  | H : parse_permissions _ = Ok _ |- _ => apply parse_permissions_Ok in H
  | H : parse_run _ _ COMMENT_PATH _ _ _ = Ok _ |- _ => apply parse_pr_run_Ok in H
  | H : parse_run _ _ CHECK_PATH _ _ _ = Ok _ |- _ => apply parse_branch_run_Ok in H
  | H : parse_redeliveries _ _ _ _ = Ok (_, _) |- _ => apply parse_redeliveries_Ok in H as (? & ? & ? & ?)
  | H : parse_scan _ = Ok _ |- _ => apply parse_scan_Ok in H
  | H : parse_fork _ _ = Ok _ |- _ => apply parse_fork_Ok in H
  | H : parse_window _ = Ok _ |- _ => apply parse_window_Ok in H as (? & ? & ?)
  | H : limits_ok _ _ = true |- _ => apply limits_ok_nonneg in H
  end.
  split_and!; try first [reflexivity|assumption].
  - match goal with H : github_url _ _ REPOSITORY_PATH 2 = Ok ?parts |- _ =>
      exists (nth 0 parts [], nth 1 parts []) end.
    split; cbn; first
      [assumption|by apply Z.eqb_neq|by eapply pr_observed_under|by eapply branch_observed_under
      |by eapply repository_found|split; [at_its_path|assumption]].
  - match goal with Hc : check_order _ _ _ ?p ?b ?pr ?branch _ _ = Ok _,
      Hp : pr_observed _ _ _ ?p, Hb : branch_observed _ _ _ ?b,
      Rp : redelivery_observed _ _ _ _ ?pr, Rb : redelivery_observed _ _ _ _ ?branch |- _ =>
      destruct Hp as [(_ & _ & _ & _ & Hp) _], Hb as [(_ & _ & _ & _ & Hb) _];
      destruct Rp as (_ & _ & _ & _ & Rp%moment_at_range), Rb as (_ & _ & _ & _ & Rb%moment_at_range);
      eapply check_order_Ok; [exact Hp|exact Hb|exact Rp|exact Rb|exact Hc] end.
Qed.

(** ** What a passed run has shown *)

Definition content_shown (r : Run) : Prop := exists c, rn_content r = Some c
  /\ cn_evidence c = true /\ cn_related_files c = true /\ cn_run_link c = true.
(** A redelivery left one publication, the same. *)
Definition published_once (x : Redelivery) : Prop :=
  rd_redelivery x = rd_initial x /\ rd_before x = 1 /\ rd_after x = 1.
(** The stages of a run as they were read, and what its limits hold for *)
Definition run_in_time (li : Limits) (r : Run) : Prop := exists recorded started completed,
  moment (rn_times r) (u "webhook_recorded_at") = Ok recorded
  /\ moment (rn_times r) (u "analysis_started_at") = Ok started
  /\ moment (rn_times r) (u "analysis_completed_at") = Ok completed
  /\ within_limit (started - recorded) (li_start li)
  /\ within_limit (completed - recorded) (li_completion li).
Record criteria (r : Report) : Prop := {
  cr_permissions : forall k, dict_get str_eqb (rp_permissions r) k
                             = dict_get str_eqb EXPECTED_PERMISSIONS k;
  cr_failed : rn_conclusion (rp_pr_run r) = u "failure"
              /\ rn_conclusion (rp_branch_run r) = u "failure";
  cr_pr_time : run_in_time (rp_limits r) (rp_pr_run r);
  cr_branch_time : run_in_time (rp_limits r) (rp_branch_run r);
  cr_content : content_shown (rp_pr_run r);
  cr_comment : published_once (rp_pr_redelivery r);
  cr_check : published_once (rp_branch_redelivery r);
  cr_secret : Forall (fun kc => snd kc = 0) (sn_counts (rp_scan r));
  cr_fork : fk_llm_invocations (rp_fork r) = 0 /\ fk_check_publications (rp_fork r) = 0 }.

Lemma least_privilege_spec permissions :
  (forall k, k ∈ map fst permissions <-> k ∈ map fst EXPECTED_PERMISSIONS) ->
  least_privilege permissions = true ->
  forall k, dict_get str_eqb permissions k = dict_get str_eqb EXPECTED_PERMISSIONS k.
Proof.
  unfold least_privilege. intros Hk Hl k. rewrite forallb_forall in Hl.
  destruct (dict_get str_eqb EXPECTED_PERMISSIONS k) as [v|] eqn:E.
  - apply (dict_get_Some_In _ str_eqb_eq) in E. specialize (Hl _ E). cbn [fst snd] in Hl.
    destruct (dict_get str_eqb permissions k) as [w|]; [|done]. by apply str_eqb_eq in Hl as ->.
  - destruct (dict_get str_eqb permissions k) as [w|] eqn:Ew; [|done].
    apply (dict_get_Some_In _ str_eqb_eq), (in_map fst), list_elem_of_In, Hk, list_elem_of_In in Ew.
    apply (dict_get_None _ str_eqb_eq) in E. done.
Qed.
Lemma in_time o path r li :
  stages_observed o path r -> at_most (rn_start r) (li_start li) = true ->
  at_most (rn_completion r) (li_completion li) = true -> run_in_time li r.
Proof.
  intros Hs. pose proof (fun key t => stage_range o path r key t Hs) as Hr.
  destruct Hs as (a & b & c & x & y & Ht & _ & _ & _ & -> & ->). intros H1 H2.
  unfold run_in_time. rewrite Ht in *. exists b, c, x.
  split_and!; [reflexivity..| |]; apply at_most_within; try done;
    first [by apply (Hr (u "webhook_recorded_at"))|by apply (Hr (u "analysis_started_at"))
          |by apply (Hr (u "analysis_completed_at"))].
Qed.
Lemma app_passed_criteria o repository r : observed o repository r -> passed r = true -> criteria r.
Proof.
  intros Ho Hp%all_pass_Forall. repeat (apply Forall_cons_1 in Hp as [? Hp]; cbn [snd] in *).
  clear Hp. unfold failed, idempotent in *.
  rewrite ?andb_true_iff, ?str_eqb_eq, ?Z.eqb_eq in *.
  pose proof (ob_pr_run _ _ _ Ho) as [(_ & _ & _ & _ & Hp) _].
  pose proof (ob_branch_run _ _ _ Ho) as [(_ & _ & _ & _ & Hb) _].
  split; try tauto.
  - apply least_privilege_spec; [|done]. by apply (ob_permissions _ _ _ Ho).
  - by eapply in_time.
  - by eapply in_time.
  - unfold content_shown, content_complete in *. destruct (rn_content _) as [c|]; [|done].
    exists c. rewrite ?andb_true_iff in *. tauto.
  - unfold published_once. intuition congruence.
  - unfold published_once. intuition congruence.
  - match goal with H : forallb _ _ = true |- _ => rewrite forallb_forall in H; rename H into Hz end.
    apply Forall_forall. intros kc Hkc%Hz. by apply Z.eqb_eq.
Qed.

(** C21: An acceptance run of the GitHub App passes only on what it observed.  When the verifier
    writes evidence and exits with status 0, every value of its report was read in its place
    of the JSON input; every URL is one of github.com in one repository and ends in the
    number of the run or pull request next to it; the exercises lie in the window in order;
    and they meet the criteria: exactly the least privileges, two failed runs analysed in
    time, one publication after a redelivery, no match of the seeded secret, no language
    model and no check run for the external fork. *)
Theorem github_app_evidence_sound (sha256 : list N -> str) (same_path : bool)
    (file : option (list N)) (li : Limits) (clock : Z) (doc : json)
    (Hrun : main sha256 same_path file li clock = Written doc 0) :
  exists raw d r repository, file = Some raw /\ json_loads raw = inl (JObj d) /\ doc = document r
    /\ rp_limits r = li /\ limits_valid li /\ rp_checked_at r = clock
    /\ rp_input_sha256 r = sha256 raw
    /\ observed (JObj d) repository r /\ in_order r /\ criteria r.
Proof.
  apply main_passed in Hrun as (_ & raw & d & -> & Hj & Hc). exists raw, d.
  apply obind_Ok in Hc as (r & Hr & [= <- Hp]). exists r.
  apply app_compile_evidence_Ok in Hr as ([repository Ho] & Hw & Hn & Hl & Hv & Hh). exists repository.
  split_and!; try first [assumption|reflexivity]. by eapply app_passed_criteria.
Qed.
End observed.

Definition acceptance_file : list N := file_of "{
 'schema_version': 1,
 'acceptance_id': 'github-app-example-20250902',
 'source_revision': 'release-example',
 'environment': 'staging-example',
 'repository_url': 'https://github.com/example-org/pipelens-acceptance',
 'installation_id': 12345678,
 'permissions': {
  'actions': 'read',
  'checks': 'write',
  'contents': 'read',
  'metadata': 'read',
  'pull_requests': 'write'
 },
 'started_at': '2025-09-02T00:00:00Z',
 'completed_at': '2025-09-02T00:12:00Z',
 'pr_run': {
  'run_id': 100000001,
  'run_url': 'https://github.com/example-org/pipelens-acceptance/actions/runs/100000001',
  'workflow_conclusion': 'failure',
  'pull_request_number': 42,
  'workflow_failed_at': '2025-09-02T00:01:00Z',
  'webhook_recorded_at': '2025-09-02T00:01:05Z',
  'analysis_started_at': '2025-09-02T00:01:15Z',
  'analysis_completed_at': '2025-09-02T00:01:45Z',
  'published_at': '2025-09-02T00:01:50Z',
  'comment_url': 'https://github.com/example-org/pipelens-acceptance/pull/42#issuecomment-200000001',
  'evidence_present': true,
  'related_files_present': true,
  'run_link_present': true
 },
 'branch_run': {
  'run_id': 100000002,
  'run_url': 'https://github.com/example-org/pipelens-acceptance/actions/runs/100000002',
  'workflow_conclusion': 'failure',
  'workflow_failed_at': '2025-09-02T00:03:00Z',
  'webhook_recorded_at': '2025-09-02T00:03:06Z',
  'analysis_started_at': '2025-09-02T00:03:20Z',
  'analysis_completed_at': '2025-09-02T00:03:58Z',
  'published_at': '2025-09-02T00:04:03Z',
  'check_url': 'https://github.com/example-org/pipelens-acceptance/runs/300000001'
 },
 'redelivery': {
  'pr_comment': {
   'initial_url': 'https://github.com/example-org/pipelens-acceptance/pull/42#issuecomment-200000001',
   'redelivery_url': 'https://github.com/example-org/pipelens-acceptance/pull/42#issuecomment-200000001',
   'count_before': 1,
   'count_after': 1,
   'redelivered_at': '2025-09-02T00:05:00Z'
  },
  'branch_check': {
   'initial_url': 'https://github.com/example-org/pipelens-acceptance/runs/300000001',
   'redelivery_url': 'https://github.com/example-org/pipelens-acceptance/runs/300000001',
   'count_before': 1,
   'count_after': 1,
   'redelivered_at': '2025-09-02T00:06:00Z'
  }
 },
 'seeded_secret_scan': {
  'seeded_secret_sha256': 'aaaaaaaaaaaaaaaaaaaaaaaaaaaaaaaaaaaaaaaaaaaaaaaaaaaaaaaaaaaaaaaa',
  'published_matches': 0,
  'persistence_matches': 0,
  'provider_request_matches': 0,
  'checked_at': '2025-09-02T00:10:00Z'
 },
 'external_fork': {
  'run_id': 100000003,
  'run_url': 'https://github.com/example-org/pipelens-acceptance/actions/runs/100000003',
  'pull_request_number': 43,
  'webhook_recorded_at': '2025-09-02T00:09:00Z',
  'processed_at': '2025-09-02T00:09:10Z',
  'warning_comment_url': 'https://github.com/example-org/pipelens-acceptance/pull/43#issuecomment-200000002',
  'llm_invocations': 0,
  'commit_check_publications': 0
 }
}".
Definition acceptance : verdict :=
  @main ascii_db plain_nfkc plain_repr (fun _ => u "h") false (Some acceptance_file) parse_args
    1788220800000000.
Lemma github_app_evidence_sound_witness :
  exists r d repository, json_loads acceptance_file = inl (JObj d)
    /\ @observed ascii_db plain_nfkc plain_repr (JObj d) repository r /\ in_order r /\ criteria r.
Proof.
  destruct acceptance as [doc status| |] eqn:E.
  - assert (status = 0) as -> by (vm_compute in E; congruence).
    destruct (@github_app_evidence_sound ascii_db plain_nfkc plain_repr _ _ _ _ _ _ E)
      as (raw & d & r & repository & [= <-] & Hj & _ & _ & _ & _ & _ & Ho & Hi & Hc).
    exists r, d, repository. exact (conj Hj (conj Ho (conj Hi Hc))).
  - vm_compute in E. discriminate E.
  - vm_compute in E. discriminate E.
Defined.
Example app_acceptance_passes :
  match acceptance with
  | Written doc status =>
    status = 0 /\ at_path doc [u "branch_run"; u "completion_seconds"] = Some (JFloat 52)
  | _ => False
  end.
Proof. vm_compute. split; reflexivity. Qed.
(** urlsplit removes tabs and line ends, but the report repeats the text as it was given:
    an accepted URL of the repository need not be printable on one line. *)
Example url_with_line_end :
  @github_url ascii_db plain_nfkc plain_repr
    (JStr (u "https://github.com/own" ++ [10%N] ++ u "er/name")) [] REPOSITORY_PATH 2
  = Ok [u "owner"; u "name"].
Proof. vm_compute. reflexivity. Qed.
