(* ===== verification/HttpsEvidence.v ===== *)
(** * Evidence of an HTTPS acceptance run (ops/acceptance/verify_https_e2e_evidence.py)

    The run logs in through the public HTTPS origin, looks at the forwarded request and
    receives a signed webhook.  Origins are public host names without credentials; all
    URLs belong to the origin; the events lie in the run; seven checks decide. *)

From Stdlib Require Import QArith.
From stdpp Require Import base list strings numbers.
From S2P Require Import Prelude Double Calendar Regex Json Evidence Url.

Set Default Proof Using "Type".

Definition DNS_LABEL : pattern :=
  re_compile "^[A-Za-z0-9](?:[A-Za-z0-9-]{0,61}[A-Za-z0-9])?$".
Definition TOP_LEVEL_KEYS : list str := map u [
  "schema_version"; "acceptance_id"; "source_revision"; "environment"; "origin"; "started_at";
  "completed_at"; "preflight"; "configured_urls"; "browser_flow"; "forwarding";
  "webhook"]%string.
Definition BROWSER_MOMENTS : list str := map u [
  "started_at"; "oauth_authorized_at"; "installation_selected_at"; "dashboard_loaded_at";
  "logout_completed_at"; "captured_at"]%string.
Definition WEBHOOK_MOMENTS : list str := map u [
  "received_at"; "signature_verified_at"; "persisted_at"; "responded_at"]%string.
Definition CONFIGURED : list str := map u ["oauth_callback"; "setup"; "webhook"]%string.

Record Cookie := { ck_secure : bool; ck_httponly : bool; ck_samesite : str }.
Record Preflight := {
  pf_sha256 : str; pf_checked_at : Z; pf_origin : str; pf_passed : bool }.
Record Browser := {
  br_times : timeline; br_started_at : Z; br_dashboard_at : Z; br_captured_at : Z;
  br_installations : Z; br_state_cookie : Cookie; br_session_cookie : Cookie;
  br_session_invalid : bool; br_screenshot_sha256 : str }.
Record Forwarding := {
  fw_checked_at : Z; fw_scheme : str; fw_host : str; fw_origin : str; fw_redirect_uri : str;
  fw_sha256 : str }.
Record Webhook := {
  wh_event : str; wh_action : str; wh_delivery_sha256 : str; wh_sha256 : str;
  wh_times : timeline; wh_received_at : Z; wh_responded_at : Z; wh_signature_valid : bool;
  wh_status : Z }.
Record Report := {
  rp_checked_at : Z; rp_acceptance_id : str; rp_source_revision : str; rp_environment : str;
  rp_origin : str; rp_started_at : Z; rp_completed_at : Z; rp_preflight : Preflight;
  rp_configured : list (str * str); rp_browser : Browser; rp_forwarding : Forwarding;
  rp_webhook : Webhook; rp_max_response : limit; rp_input_sha256 : str }.

Section https.
Context {U : UnicodeDb} `{Nfkc} `{Repr}.

(** ** Origins and URLs *)

Definition is_none {A} (o : option A) : bool := match o with None => true | Some _ => false end.
Definition public_dns_name (host : str) : bool :=
  let labels := split_char 46 (rstrip_chars (u ".") host) in
  (2 <=? length labels)%nat && negb (ends_with (u ".local") host)
  && forallb (re_fullmatch DNS_LABEL) labels.
Definition public_https_origin (value : json) (label : str) : outcome str :=
  match value with
  | JStr s =>
    let! parsed := urlsplit s in
    match Url.port parsed with
    | Raise (ValueError _) => value_error [label; u " contains an invalid port"]
    | Raise e => Raise e
    | Ok port =>
      let host := default [] (hostname parsed) in
      if negb (str_eqb (scheme parsed) (u "https")) || str_eqb host []
         || negb (is_none (username parsed)) || negb (is_none (password parsed))
         || negb (str_eqb (path parsed) [] || str_eqb (path parsed) (u "/"))
         || negb (str_eqb (query parsed) []) || negb (str_eqb (fragment parsed) []) then
        value_error [label; u " must be a credential-free HTTPS origin"]
      else if is_ip_address host || negb (public_dns_name host) then
        value_error [label; u " must use a public DNS hostname"]
      else
        let authority := lower host ++ match port with Some p => u ":" ++ str_of_Z p | None => [] end in
        Ok (u "https://" ++ authority)
    end
  | _ => value_error [label; u " must be a public HTTPS origin"]
  end.
Definition same_origin_url (origin : str) (value : json) (label : str) : outcome str :=
  match value with
  | JStr s =>
    let! parsed := urlsplit s in
    let! origin_parts := urlsplit origin in
    if negb (str_eqb (scheme parsed) (u "https"))
       || negb (str_eqb (lower (netloc parsed)) (lower (netloc origin_parts)))
       || negb (is_none (username parsed)) || negb (is_none (password parsed))
       || negb (starts_with (u "/") (path parsed))
       || negb (str_eqb (query parsed) []) || negb (str_eqb (fragment parsed) []) then
      value_error [label; u " must be a credential-free URL on origin"]
    else Ok s
  | _ => value_error [label; u " must be an HTTPS URL"]
  end.

(** ** Sections of the observation *)

Definition parse_cookie (value : json) (label : str) : outcome Cookie :=
  let! d := require_mapping value label in
  let! _ := require_exact_keys d [u "secure"; u "httponly"; u "samesite"] label in
  let! samesite := at_key safe_identifier d label (u "samesite") in
  let! secure := at_key require_bool d label (u "secure") in
  let! httponly := at_key require_bool d label (u "httponly") in
  Ok {| ck_secure := secure; ck_httponly := httponly; ck_samesite := lower samesite |}.

Definition parse_preflight (observation : mapping) : outcome Preflight :=
  let l := u "preflight" in
  let! d := section observation l [u "evidence_sha256"; u "checked_at"; u "origin"; u "passed"] in
  let! sha256 := at_key sha256_value d l (u "evidence_sha256") in
  let! checked_at := at_key parse_timestamp d l (u "checked_at") in
  let! origin := at_key public_https_origin d l (u "origin") in
  let! passed := at_key require_bool d l (u "passed") in
  Ok {| pf_sha256 := sha256; pf_checked_at := checked_at; pf_origin := origin;
        pf_passed := passed |}.

Definition parse_configured (observation : mapping) (origin : str) : outcome (list (str * str)) :=
  let l := u "configured_urls" in
  let! d := section observation l CONFIGURED in
  at_keys (same_origin_url origin) d l CONFIGURED.

Definition parse_browser (observation : mapping) : outcome Browser :=
  let l := u "browser_flow" in
  let! d := section observation l
    (BROWSER_MOMENTS ++ [u "installation_count"; u "oauth_state_cookie"; u "session_cookie";
                         u "session_invalid_after_logout"; u "screenshot_evidence_sha256"]) in
  let! times := ordered_timestamps d BROWSER_MOMENTS l in
  let! installations := at_key non_negative_int d l (u "installation_count") in
  let! state_cookie := at_key parse_cookie d l (u "oauth_state_cookie") in
  let! session_cookie := at_key parse_cookie d l (u "session_cookie") in
  let! session_invalid := at_key require_bool d l (u "session_invalid_after_logout") in
  let! screenshot := at_key sha256_value d l (u "screenshot_evidence_sha256") in
  let! started_at := moment times (u "started_at") in
  let! dashboard_at := moment times (u "dashboard_loaded_at") in
  let! captured_at := moment times (u "captured_at") in
  Ok {| br_times := times; br_started_at := started_at; br_dashboard_at := dashboard_at;
        br_captured_at := captured_at; br_installations := installations;
        br_state_cookie := state_cookie; br_session_cookie := session_cookie;
        br_session_invalid := session_invalid; br_screenshot_sha256 := screenshot |}.

Definition parse_forwarding (observation : mapping) (origin : str) : outcome Forwarding :=
  let l := u "forwarding" in
  let! d := section observation l
    [u "checked_at"; u "observed_scheme"; u "observed_host"; u "application_origin";
     u "oauth_redirect_uri"; u "request_evidence_sha256"] in
  let! checked_at := at_key parse_timestamp d l (u "checked_at") in
  let! scheme := at_key safe_identifier d l (u "observed_scheme") in
  let! host := at_key safe_identifier d l (u "observed_host") in
  let! application_origin := at_key public_https_origin d l (u "application_origin") in
  let! redirect_uri := at_key (same_origin_url origin) d l (u "oauth_redirect_uri") in
  let! sha256 := at_key sha256_value d l (u "request_evidence_sha256") in
  Ok {| fw_checked_at := checked_at; fw_scheme := lower scheme; fw_host := lower host;
        fw_origin := application_origin; fw_redirect_uri := redirect_uri; fw_sha256 := sha256 |}.

Definition parse_webhook (observation : mapping) : outcome Webhook :=
  let l := u "webhook" in
  let! d := section observation l
    ([u "event"; u "action"; u "delivery_id_sha256"] ++ WEBHOOK_MOMENTS
     ++ [u "signature_valid"; u "response_status_code"; u "request_evidence_sha256"]) in
  let! event := at_key safe_identifier d l (u "event") in
  let! action := at_key safe_identifier d l (u "action") in
  let! delivery := at_key sha256_value d l (u "delivery_id_sha256") in
  let! sha256 := at_key sha256_value d l (u "request_evidence_sha256") in
  let! times := ordered_timestamps d WEBHOOK_MOMENTS l in
  let! valid := at_key require_bool d l (u "signature_valid") in
  let! status := at_key non_negative_int d l (u "response_status_code") in
  let! received_at := moment times (u "received_at") in
  let! responded_at := moment times (u "responded_at") in
  Ok {| wh_event := event; wh_action := action; wh_delivery_sha256 := delivery;
        wh_sha256 := sha256; wh_times := times; wh_received_at := received_at;
        wh_responded_at := responded_at; wh_signature_valid := valid; wh_status := status |}.

(** ** The report *)

Definition check_events (started_at completed_at now : Z) (preflight : Preflight)
    (browser : Browser) (forwarding : Forwarding) (webhook : Webhook) : outcome unit :=
  if (pf_checked_at preflight <? started_at) || (br_started_at browser <? pf_checked_at preflight)
     || (completed_at <? br_captured_at browser) then
    value_error [u "preflight and browser events must be within the acceptance window"]
  else if (fw_checked_at forwarding <? br_started_at browser)
     || (br_dashboard_at browser <? fw_checked_at forwarding)
     || (wh_received_at webhook <? started_at) || (completed_at <? wh_responded_at webhook) then
    value_error [u "forwarding and webhook events must be within the acceptance window"]
  else if now <? completed_at then value_error [u "observation must not contain future events"]
  else Ok tt.

Definition compile_evidence (observation : mapping) (input_sha256 : str) (max_response : limit)
    (checked_at : option Z) (clock : Z) : outcome Report :=
  let! _ := require_exact_keys observation TOP_LEVEL_KEYS (u "observation") in
  let! _ := require_schema observation in
  let! _ := if limits_ok (Qle_bool 0) [max_response] then Ok tt
            else value_error [u "threshold must be a non-negative finite number"] in
  let! acceptance_id := at_top safe_identifier observation (u "acceptance_id") in
  let! source_revision := at_top safe_identifier observation (u "source_revision") in
  let! environment := at_top safe_identifier observation (u "environment") in
  let! origin := at_top public_https_origin observation (u "origin") in
  let! (started_at, completed_at) := parse_window observation in
  let! preflight := parse_preflight observation in
  let! configured := parse_configured observation origin in
  let! browser := parse_browser observation in
  let! forwarding := parse_forwarding observation origin in
  let! webhook := parse_webhook observation in
  let now := default clock checked_at in
  let! _ := check_events started_at completed_at now preflight browser forwarding webhook in
  let! _ := urlsplit origin in
  Ok {| rp_checked_at := now; rp_acceptance_id := acceptance_id;
        rp_source_revision := source_revision; rp_environment := environment;
        rp_origin := origin; rp_started_at := started_at; rp_completed_at := completed_at;
        rp_preflight := preflight; rp_configured := configured; rp_browser := browser;
        rp_forwarding := forwarding; rp_webhook := webhook; rp_max_response := max_response;
        rp_input_sha256 := input_sha256 |}.

(** ** The checks *)

Definition expected_urls (origin : str) : list (str * str) := [
  (u "oauth_callback", origin ++ u "/auth/github/callback");
  (u "setup", origin ++ u "/github/setup");
  (u "webhook", origin ++ u "/webhooks/github")].
(** Dictionaries with the same keys in the same order *)
Definition urls_eqb (a b : list (str * str)) : bool :=
  bool_decide (a = b).
(** urlsplit(origin).netloc.lower(): compile_evidence has split the origin. *)
Definition expected_host (origin : str) : str :=
  match urlsplit origin with Ok parts => lower (netloc parts) | Raise _ => [] end.
Definition cookie_secure (c : Cookie) : bool :=
  ck_secure c && ck_httponly c && str_eqb (ck_samesite c) (u "lax").
Definition response_seconds (w : Webhook) : Q :=
  duration_seconds (wh_received_at w) (wh_responded_at w).
Definition forwarding_exact (origin : str) (f : Forwarding) : bool :=
  str_eqb (fw_scheme f) (u "https") && str_eqb (fw_host f) (expected_host origin)
  && str_eqb (fw_origin f) origin
  && str_eqb (fw_redirect_uri f) (origin ++ u "/auth/github/callback").
Definition signed_webhook (w : Webhook) : bool :=
  str_eqb (wh_event w) (u "workflow_run") && str_eqb (wh_action w) (u "completed")
  && wh_signature_valid w && (wh_status w =? 202).
Definition checks (r : Report) : check_list := [
  (u "preflight_passed",
   pf_passed (rp_preflight r) && str_eqb (pf_origin (rp_preflight r)) (rp_origin r));
  (u "configured_urls_exact", urls_eqb (rp_configured r) (expected_urls (rp_origin r)));
  (u "browser_flow_complete",
   (0 <? br_installations (rp_browser r)) && br_session_invalid (rp_browser r));
  (u "cookie_security",
   cookie_secure (br_state_cookie (rp_browser r))
   && cookie_secure (br_session_cookie (rp_browser r)));
  (u "forwarding_exact", forwarding_exact (rp_origin r) (rp_forwarding r));
  (u "signed_workflow_webhook", signed_webhook (rp_webhook r));
  (u "webhook_response_slo", at_most (response_seconds (rp_webhook r)) (rp_max_response r))].
Definition passed (r : Report) : bool := all_pass (checks r).

(** ** The document *)

Definition cookie_json (c : Cookie) : json := JObj [
  (u "secure", JBool (ck_secure c)); (u "httponly", JBool (ck_httponly c));
  (u "samesite", JStr (ck_samesite c))].
Definition browser_json (b : Browser) : json := JObj [
  (u "timeline", timeline_json (br_times b));
  (u "installation_count", JInt (br_installations b));
  (u "oauth_state_cookie", cookie_json (br_state_cookie b));
  (u "session_cookie", cookie_json (br_session_cookie b));
  (u "session_invalid_after_logout", JBool (br_session_invalid b));
  (u "screenshot_evidence_sha256", JStr (br_screenshot_sha256 b))].
Definition forwarding_json (f : Forwarding) : json := JObj [
  (u "checked_at", JStr (utc_timestamp (fw_checked_at f)));
  (u "observed_scheme", JStr (fw_scheme f));
  (u "observed_host", JStr (fw_host f));
  (u "application_origin", JStr (fw_origin f));
  (u "oauth_redirect_uri", JStr (fw_redirect_uri f));
  (u "request_evidence_sha256", JStr (fw_sha256 f))].
Definition webhook_json (w : Webhook) : json := JObj [
  (u "event", JStr (wh_event w));
  (u "action", JStr (wh_action w));
  (u "delivery_id_sha256", JStr (wh_delivery_sha256 w));
  (u "timeline", timeline_json (wh_times w));
  (u "signature_valid", JBool (wh_signature_valid w));
  (u "response_status_code", JInt (wh_status w));
  (u "response_seconds", JFloat (response_seconds w));
  (u "request_evidence_sha256", JStr (wh_sha256 w))].
Definition document (r : Report) : json := JObj [
  (u "schema_version", JInt 1);
  (u "checked_at", JStr (utc_timestamp (rp_checked_at r)));
  (u "acceptance_id", JStr (rp_acceptance_id r));
  (u "source_revision", JStr (rp_source_revision r));
  (u "environment", JStr (rp_environment r));
  (u "origin", JStr (rp_origin r));
  (u "acceptance_window", JObj [
    (u "started_at", JStr (utc_timestamp (rp_started_at r)));
    (u "completed_at", JStr (utc_timestamp (rp_completed_at r)))]);
  (u "preflight", JObj [
    (u "evidence_sha256", JStr (pf_sha256 (rp_preflight r)));
    (u "checked_at", JStr (utc_timestamp (pf_checked_at (rp_preflight r))));
    (u "origin", JStr (pf_origin (rp_preflight r)));
    (u "passed", JBool (pf_passed (rp_preflight r)))]);
  (u "configured_urls", JObj (map (fun kv => (fst kv, JStr (snd kv))) (rp_configured r)));
  (u "browser_flow", browser_json (rp_browser r));
  (u "forwarding", forwarding_json (rp_forwarding r));
  (u "webhook", webhook_json (rp_webhook r));
  (u "threshold_seconds", JObj [(u "webhook_response", limit_json (rp_max_response r))]);
  (u "checks", checks_json (checks r));
  (u "passed", JBool (passed r));
  (u "input_sha256", JStr (rp_input_sha256 r))].

(** The default of the command line *)
Definition parse_args : limit := Whole 10.
Definition main (sha256 : list N -> str) (same_path : bool) (file : option (list N))
    (max_response : limit) (clock : Z) : verdict :=
  Evidence.main sha256 same_path file (fun observation input_sha256 =>
    let! r := compile_evidence observation input_sha256 max_response None clock in
    Ok (document r, passed r)).
End https.
