(* ===== verification/HttpsEvidenceFacts.v ===== *)
(** * Facts about the evidence of an HTTPS acceptance run

    An origin written in ASCII is read as https, a public host name in lower case and a
    port, and reading it again changes nothing; what a passed run has shown. *)

From Stdlib Require Import QArith Qabs Lqa.
From stdpp Require Import base list strings numbers.
From S2P Require Import Prelude Double Calendar Regex RegexFacts Json Loads.
From S2P Require Import LoadsFacts Evidence EvidenceFacts Url HttpsEvidence.

Set Default Proof Using "Type".

Lemma rstrip_by_rest p s : exists t, s = rstrip_by p s ++ t /\ Forall (fun c => p c = true) t.
Proof.
  assert (Hl : forall r, exists t, r = t ++ drop_while p r /\ Forall (fun c => p c = true) t).
  { induction r as [|c r (t & Hr & Ht)]; [by exists []|]. cbn [drop_while].
    destruct (p c) eqn:E; [|by exists []]. exists (c :: t). split; [by rewrite Hr at 1|].
    by constructor. }
  destruct (Hl (rev s)) as (t & Hs & Ht). exists (rev t). split; [|by apply Forall_rev].
  unfold rstrip_by. by rewrite <-rev_app_distr, <-Hs, rev_involutive.
Qed.

Section origin.
Context {U : UnicodeDb} `{Nfkc} `{Repr}.

(** Every character of a label is one of a host name. *)
Lemma label_chars s : re_fullmatch DNS_LABEL s = true -> Forall dns_char s.
Proof.
  intros Hs%fullmatch_classes. apply (Forall_weaken _ _ _ Hs). intros c (k & Hk & Hc).
  assert (Hdns : forall k, k ∈ classes (p_regex DNS_LABEL) ->
            cset_has (p_icase DNS_LABEL) k c = true -> dns_char c).
  { clear. intros k Hk. set (ks := classes (p_regex DNS_LABEL)) in Hk. vm_compute in ks. subst ks.
    change (p_icase DNS_LABEL) with false.
    rewrite ?elem_of_cons, elem_of_nil in Hk.
    unfold dns_char, ascii_upper, ascii_lower, ascii_digit.
    rewrite (N.eqb_sym c 45).
    destruct Hk as [->|[->|[->|[]]]]; unfold cset_has; cbn -[N.eqb in_range];
      rewrite ?orb_false_r; intros Hc;
      repeat (apply orb_true_iff in Hc as [Hc|Hc]); rewrite Hc, ?orb_true_r; reflexivity. }
  by apply (Hdns k).
Qed.
Lemma public_name_chars host : public_dns_name host = true -> Forall dns_char host.
Proof.
  unfold public_dns_name. intros [_ Hl]%andb_true_iff. rewrite forallb_forall in Hl.
  destruct (rstrip_by_rest (in_chars (u ".")) host) as (t & Ht & Hdots).
  assert (Hdot : dns_char 46) by reflexivity.
  rewrite Ht. apply Forall_app. split.
  - apply list.Forall_forall. intros c Hc.
    destruct (split_char_chars c 46 _ Hc) as [->|(l & Hin & Hcl)]; [done|].
    assert (Forall dns_char l) as Hf by (apply label_chars, Hl; by apply list_elem_of_In).
    rewrite list.Forall_forall in Hf. auto.
  - apply (Forall_weaken _ _ _ Hdots). intros c Hc. change ((c =? 46)%N || false = true) in Hc.
    rewrite orb_false_r in Hc. by apply N.eqb_eq in Hc as ->.
Qed.

(** An accepted origin *)
Record canonical (o host : str) (p : option Z) : Prop := {
  ca_text : o = u "https://" ++ host ++ port_text p;
  ca_name : public_dns_name host = true;
  ca_lower : lower_case host;
  ca_no_ip : is_ip_address host = false;
  ca_port : port_ok p }.

Lemma origin_Ok s l o :
  Forall (fun c => is_ascii c = true) s -> public_https_origin (JStr s) l = Ok o ->
  exists host p, canonical o host p.
Proof.
  intros Hs Ho. cbn [public_https_origin] in Ho. apply obind_Ok in Ho as (parsed & Hu & Ho).
  pose proof (urlsplit_netloc_Forall _ _ _ Hu Hs) as Hn.
  destruct (Url.port parsed) as [p|[]] eqn:Ep; try done.
  destruct (_ || _) eqn:E1; [done|]. destruct (is_ip_address _ || _) eqn:E2; [done|].
  apply orb_false_iff in E2 as [E2 E3]. apply negb_false_iff in E3.
  destruct (hostname parsed) as [host|] eqn:Eh; [|done]. cbn [default] in *.
  injection Ho as <-. exists host, p.
  assert (lower_case host) as Hlow.
  { apply (hostname_lower parsed); [done..|].
    apply (without_weaken dns_char); [by apply public_name_chars|].
    intros d Hd%dns_char_code. lia. }
  split; try done; [|by apply (port_Ok parsed)]. by rewrite lower_case_lower.
Qed.
Lemma canonical_accepted o host p l : canonical o host p -> public_https_origin (JStr o) l = Ok o.
Proof.
  intros [-> Hname Hlow Hip Hp]. pose proof (public_name_chars _ Hname) as Hc.
  assert (Hne : host <> []) by by intros ->.
  cbn [public_https_origin]. rewrite urlsplit_plain.
  2: { apply Forall_app. split; [|by apply port_text_char].
       apply (Forall_weaken _ _ _ Hc). by left. }
  cbn [obind]. change {| scheme := _; netloc := _ |} with (plain_url host p).
  destruct (credentials_plain host p Hc Hp) as [-> ->].
  rewrite port_plain, hostname_plain by done. unfold default.
  rewrite (lower_case_lower host) by done. change (id host) with host.
  rewrite (lower_case_lower host), Hip, Hname by done. cbn [plain_url scheme path query fragment is_none negb orb].
  destruct (str_eqb host []) eqn:E; [by apply str_eqb_eq in E|]. reflexivity.
Qed.

(** an origin in ASCII that the verifier accepts is normalised: https, a public host
    name in lower case that is no address, and a port of 16 bits if one was given; and what
    it normalises to it accepts unchanged. *)
Theorem origin_canonical (s l o l' : str)
    (Hs : forallb is_ascii s = true) (Ho : public_https_origin (JStr s) l = Ok o) :
  (exists host p, canonical o host p) /\ public_https_origin (JStr o) l' = Ok o.
Proof.
  rewrite forallb_forall, <-Forall_forall in Hs.
  destruct (origin_Ok s l o Hs Ho) as (host & p & Hc). split; [by exists host, p|].
  by eapply canonical_accepted.
Qed.
End origin.

Lemma origin_canonical_witness :
  let origin := @public_https_origin ascii_db plain_nfkc plain_repr in
  origin (JStr (u " HTTPS://PipeLens.Example.COM:8443/")) [] = Ok (u "https://pipelens.example.com:8443")
  /\ origin (JStr (u "https://pipelens.example.com:8443")) [] = Ok (u "https://pipelens.example.com:8443").
Proof.
  cbv zeta.
  assert (H : @public_https_origin ascii_db plain_nfkc plain_repr
                (JStr (u " HTTPS://PipeLens.Example.COM:8443/")) []
              = Ok (u "https://pipelens.example.com:8443")) by (vm_compute; reflexivity).
  split; [exact H|].
  refine (proj2 (@origin_canonical ascii_db plain_nfkc plain_repr _ _ _ [] _ H)).
  vm_compute. reflexivity.
Defined.

(** ** What a passed run has shown *)

Section observed.
Context {U : UnicodeDb} `{Nfkc} `{Repr}.

Definition origin_at (o : json) (path : list str) (origin : str) : Prop :=
  holds o path (fun v => exists l, public_https_origin v l = Ok origin).
(** A URL on the origin *)
Definition url_at (o : json) (path : list str) (origin url : str) : Prop :=
  holds o path (fun v => exists l, same_origin_url origin v l = Ok url) /\ text_at o path url.
Definition lower_at (o : json) (path : list str) (s : str) : Prop :=
  exists t, text_at o path t /\ safe t /\ s = lower t.
Lemma same_origin_url_text origin v l s : same_origin_url origin v l = Ok s -> v = JStr s.
Proof.
  destruct v as [| | | | |t| |]; try done. cbn [same_origin_url].
  intros (p & _ & (q & _ & H')%obind_Ok)%obind_Ok. destruct (_ || _); [done|]. by injection H' as ->.
Qed.
Lemma url_at_here origin d key v l s :
  dict_get str_eqb d key = Some v -> same_origin_url origin v l = Ok s ->
  url_at (JObj d) [key] origin s.
Proof.
  intros Hv Hs. split.
  - eapply holds_here; [exact Hv|]. apply holds_nil. by exists l.
  - apply same_origin_url_text in Hs as ->. eapply holds_here; [exact Hv|by apply holds_nil].
Qed.

Definition cookie_observed (o : json) (path : list str) (c : Cookie) : Prop :=
  flag_at o (path ++ [u "secure"]) (ck_secure c) /\ flag_at o (path ++ [u "httponly"]) (ck_httponly c)
  /\ lower_at o (path ++ [u "samesite"]) (ck_samesite c).
Lemma parse_cookie_Ok v l c : parse_cookie v l = Ok c -> cookie_observed v [] c.
Proof.
  unfold parse_cookie. intros Hr. invert_reads. unfold cookie_observed, lower_at. cbn [app].
  split_and!; [at_its_path..|]. eexists. split_and!; [at_its_path|assumption|reflexivity].
Qed.
Lemma cookie_observed_under d key v path c :
  dict_get str_eqb d key = Some v -> cookie_observed v path c ->
  cookie_observed (JObj d) (key :: path) c.
Proof.
  intros Hv (Hs & Hh & (t & Ht & Hsafe)). split_and!; try by eapply holds_here.
  exists t. split; [by eapply holds_here|done].
Qed.

Definition preflight_observed (o : json) (p : Preflight) : Prop :=
  let at_ (k : string) := [u "preflight"; u k] in
  text_at o (at_ "evidence_sha256"%string) (pf_sha256 p) /\ hash (pf_sha256 p)
  /\ moment_at o (at_ "checked_at"%string) (pf_checked_at p)
  /\ origin_at o (at_ "origin"%string) (pf_origin p)
  /\ flag_at o (at_ "passed"%string) (pf_passed p).
Lemma parse_preflight_Ok d p : parse_preflight d = Ok p -> preflight_observed (JObj d) p.
Proof.
  unfold parse_preflight. intros Hr. invert_reads.
  unfold preflight_observed, origin_at. cbv beta zeta. split_and!; try first [at_its_path|assumption].
Qed.

Definition configured_observed (o : json) (origin : str) (urls : list (str * str)) : Prop :=
  map fst urls = CONFIGURED
  /\ Forall (fun kv => url_at o [u "configured_urls"; fst kv] origin (snd kv)) urls.
Lemma parse_configured_Ok d origin urls :
  parse_configured d origin = Ok urls -> configured_observed (JObj d) origin urls.
Proof.
  unfold parse_configured. intros Hr. invert_reads. apply at_keys_Ok in Hr as [Hk Hr].
  split; [done|]. apply (Forall_weaken _ _ _ Hr). intros [k s] (v & Hv & Hs)%at_key_Ok.
  destruct (url_at_here _ _ _ _ _ _ Hv Hs) as [Hu1 Hu2]. by split; eapply holds_here.
Qed.

Definition browser_observed (o : json) (b : Browser) : Prop :=
  let at_ (k : string) := [u "browser_flow"; u k] in
  moment_at o (at_ "started_at"%string) (br_started_at b)
  /\ moment_at o (at_ "dashboard_loaded_at"%string) (br_dashboard_at b)
  /\ moment_at o (at_ "captured_at"%string) (br_captured_at b)
  /\ (exists authorized selected logout,
        moment_at o (at_ "oauth_authorized_at"%string) authorized
        /\ moment_at o (at_ "installation_selected_at"%string) selected
        /\ moment_at o (at_ "logout_completed_at"%string) logout
        /\ br_started_at b <= authorized <= selected /\ selected <= br_dashboard_at b <= logout
        /\ logout <= br_captured_at b)
  /\ count_at o (at_ "installation_count"%string) (br_installations b)
  /\ cookie_observed o (at_ "oauth_state_cookie"%string) (br_state_cookie b)
  /\ cookie_observed o (at_ "session_cookie"%string) (br_session_cookie b)
  /\ flag_at o (at_ "session_invalid_after_logout"%string) (br_session_invalid b)
  /\ text_at o (at_ "screenshot_evidence_sha256"%string) (br_screenshot_sha256 b)
  /\ hash (br_screenshot_sha256 b).
Lemma parse_browser_Ok d b : parse_browser d = Ok b -> browser_observed (JObj d) b.
Proof.
  unfold parse_browser. intros Hr. invert_reads.
  repeat match goal with H : parse_cookie _ _ = Ok _ |- _ => apply parse_cookie_Ok in H end.
  unfold BROWSER_MOMENTS in *. cbn [map] in *. open_timeline.
  unfold browser_observed. cbv beta zeta.
  split_and!; try first [at_its_path|assumption].
  - do 3 eexists. split_and!; [at_its_path..|cbn; lia|cbn; lia|cbn; lia|cbn; lia|cbn; lia].
  - eapply cookie_observed_under; [eassumption|].
    by eapply (cookie_observed_under _ (u "oauth_state_cookie")).
  - eapply cookie_observed_under; [eassumption|].
    by eapply (cookie_observed_under _ (u "session_cookie")).
Qed.

Definition forwarding_observed (o : json) (origin : str) (f : Forwarding) : Prop :=
  let at_ (k : string) := [u "forwarding"; u k] in
  moment_at o (at_ "checked_at"%string) (fw_checked_at f)
  /\ lower_at o (at_ "observed_scheme"%string) (fw_scheme f)
  /\ lower_at o (at_ "observed_host"%string) (fw_host f)
  /\ origin_at o (at_ "application_origin"%string) (fw_origin f)
  /\ url_at o (at_ "oauth_redirect_uri"%string) origin (fw_redirect_uri f)
  /\ text_at o (at_ "request_evidence_sha256"%string) (fw_sha256 f) /\ hash (fw_sha256 f).
Lemma parse_forwarding_Ok d origin f :
  parse_forwarding d origin = Ok f -> forwarding_observed (JObj d) origin f.
Proof.
  unfold parse_forwarding. intros Hr. invert_reads.
  unfold forwarding_observed, origin_at, lower_at. cbv beta zeta.
  split_and!; try first [at_its_path|assumption].
  - eexists. split_and!; [at_its_path|assumption|reflexivity].
  - eexists. split_and!; [at_its_path|assumption|reflexivity].
  - match goal with Hv : dict_get _ _ (u "oauth_redirect_uri") = Some _,
      Hs : same_origin_url _ _ _ = Ok _ |- _ =>
      destruct (url_at_here _ _ _ _ _ _ Hv Hs) as [Hu1 Hu2] end.
    by split; eapply holds_here.
Qed.

Definition webhook_observed (o : json) (w : Webhook) : Prop :=
  let at_ (k : string) := [u "webhook"; u k] in
  text_at o (at_ "event"%string) (wh_event w) /\ text_at o (at_ "action"%string) (wh_action w)
  /\ text_at o (at_ "delivery_id_sha256"%string) (wh_delivery_sha256 w)
  /\ hash (wh_delivery_sha256 w)
  /\ text_at o (at_ "request_evidence_sha256"%string) (wh_sha256 w) /\ hash (wh_sha256 w)
  /\ moment_at o (at_ "received_at"%string) (wh_received_at w)
  /\ moment_at o (at_ "responded_at"%string) (wh_responded_at w)
  /\ (exists verified persisted,
        moment_at o (at_ "signature_verified_at"%string) verified
        /\ moment_at o (at_ "persisted_at"%string) persisted
        /\ wh_received_at w <= verified <= persisted /\ persisted <= wh_responded_at w)
  /\ flag_at o (at_ "signature_valid"%string) (wh_signature_valid w)
  /\ count_at o (at_ "response_status_code"%string) (wh_status w).
Lemma parse_webhook_Ok d w : parse_webhook d = Ok w -> webhook_observed (JObj d) w.
Proof.
  unfold parse_webhook. intros Hr. invert_reads.
  unfold WEBHOOK_MOMENTS in *. cbn [map] in *. open_timeline.
  unfold webhook_observed. cbv beta zeta. split_and!; try first [at_its_path|assumption].
  do 2 eexists. split_and!; [at_its_path..|cbn; lia|cbn; lia|cbn; lia].
Qed.

(** Every value of a report was read in its place. *)
Record observed (o : json) (r : Report) : Prop := {
  ob_id : text_at o [u "acceptance_id"] (rp_acceptance_id r) /\ safe (rp_acceptance_id r);
  ob_revision : text_at o [u "source_revision"] (rp_source_revision r)
                /\ safe (rp_source_revision r);
  ob_environment : text_at o [u "environment"] (rp_environment r) /\ safe (rp_environment r);
  ob_origin : origin_at o [u "origin"] (rp_origin r);
  ob_started : moment_at o [u "started_at"] (rp_started_at r);
  ob_completed : moment_at o [u "completed_at"] (rp_completed_at r);
  ob_preflight : preflight_observed o (rp_preflight r);
  ob_configured : configured_observed o (rp_origin r) (rp_configured r);
  ob_browser : browser_observed o (rp_browser r);
  ob_forwarding : forwarding_observed o (rp_origin r) (rp_forwarding r);
  ob_webhook : webhook_observed o (rp_webhook r) }.

(** The steps of the run lie in its window, which is over: first the preflight, then the
    browser, during which the forwarded request was seen. *)
Record in_window (r : Report) : Prop := {
  iw_preflight : rp_started_at r <= pf_checked_at (rp_preflight r) <= br_started_at (rp_browser r);
  iw_browser : br_captured_at (rp_browser r) <= rp_completed_at r;
  iw_forwarding : br_started_at (rp_browser r) <= fw_checked_at (rp_forwarding r)
                  <= br_dashboard_at (rp_browser r);
  iw_webhook : rp_started_at r <= wh_received_at (rp_webhook r)
               /\ wh_responded_at (rp_webhook r) <= rp_completed_at r;
  iw_past : rp_completed_at r <= rp_checked_at r }.

Definition limit_valid (l : limit) : Prop := exists q, finite l = Some q /\ (0 <= q)%Q.
Lemma https_compile_evidence_Ok d h l checked clock r :
  compile_evidence d h l checked clock = Ok r ->
  observed (JObj d) r /\ in_window r /\ rp_checked_at r = default clock checked
  /\ rp_max_response r = l /\ limit_valid l /\ rp_input_sha256 r = h
  /\ exists parts, urlsplit (rp_origin r) = Ok parts
       /\ expected_host (rp_origin r) = lower (netloc parts).
Proof.
  unfold compile_evidence, check_events. intros Hr. invert_reads.
  repeat match goal with
  | H : parse_preflight _ = Ok _ |- _ => apply parse_preflight_Ok in H
  | H : parse_configured _ _ = Ok _ |- _ => apply parse_configured_Ok in H
  | H : parse_browser _ = Ok _ |- _ => apply parse_browser_Ok in H
  | H : parse_forwarding _ _ = Ok _ |- _ => apply parse_forwarding_Ok in H
  | H : parse_webhook _ = Ok _ |- _ => apply parse_webhook_Ok in H
  | H : parse_window _ = Ok _ |- _ => apply parse_window_Ok in H as (? & ? & ?)
  | H : limits_ok _ _ = true |- _ =>
      apply limits_ok_nonneg in H; apply Forall_cons_iff in H as [? _]
  end.
  split_and!; try first [reflexivity|assumption].
  - split; cbn; try assumption; try (split; [at_its_path|assumption]).
    unfold origin_at. at_its_path.
  - split; cbn; split_and?; assumption.
  - match goal with H : urlsplit ?o = Ok ?p |- _ => exists p; split; [exact H|] end.
    unfold expected_host. cbn [rp_origin].
    by match goal with H : urlsplit ?o = Ok ?p |- _ => rewrite H end.
Qed.

Definition secure_cookie (c : Cookie) : Prop :=
  ck_secure c = true /\ ck_httponly c = true /\ ck_samesite c = u "lax".
Record criteria (r : Report) : Prop := {
  cr_preflight : pf_passed (rp_preflight r) = true /\ pf_origin (rp_preflight r) = rp_origin r;
  cr_urls : rp_configured r = expected_urls (rp_origin r);
  cr_browser : 0 < br_installations (rp_browser r) /\ br_session_invalid (rp_browser r) = true;
  cr_cookies : secure_cookie (br_state_cookie (rp_browser r))
               /\ secure_cookie (br_session_cookie (rp_browser r));
  cr_forwarding : fw_scheme (rp_forwarding r) = u "https"
    /\ fw_host (rp_forwarding r) = expected_host (rp_origin r)
    /\ fw_origin (rp_forwarding r) = rp_origin r
    /\ fw_redirect_uri (rp_forwarding r) = rp_origin r ++ u "/auth/github/callback";
  cr_webhook : wh_event (rp_webhook r) = u "workflow_run"
    /\ wh_action (rp_webhook r) = u "completed" /\ wh_signature_valid (rp_webhook r) = true
    /\ wh_status (rp_webhook r) = 202;
  cr_response : within_limit (wh_responded_at (rp_webhook r) - wh_received_at (rp_webhook r))
                  (rp_max_response r) }.
Lemma cookie_secure_spec c : cookie_secure c = true -> secure_cookie c.
Proof.
  unfold cookie_secure, secure_cookie. rewrite !andb_true_iff, str_eqb_eq. tauto.
Qed.
Lemma https_passed_criteria o r : observed o r -> passed r = true -> criteria r.
Proof.
  intros Ho Hp%all_pass_Forall. repeat (apply Forall_cons_1 in Hp as [? Hp]; cbn [snd] in *).
  clear Hp. unfold forwarding_exact, signed_webhook, urls_eqb in *.
  rewrite ?andb_true_iff, ?bool_decide_eq_true, ?str_eqb_eq, ?Z.ltb_lt, ?Z.eqb_eq in *.
  destruct (ob_webhook _ _ Ho) as
    (_ & _ & _ & _ & _ & _ & W1%moment_at_range & W2%moment_at_range & _).
  split; try tauto.
  - split; apply cookie_secure_spec; tauto.
  - by apply at_most_within.
Qed.

(** A run passes only on what it observed: a written document with status 0 repeats values
    read in their places of the JSON input, whose events lie in the window in order, and
    they meet the criteria: the configured URLs and the forwarded request are exactly those
    of the origin, both cookies are secure, the session ended with the logout, and the
    signed webhook was answered with 202 in time. *)
Theorem https_evidence_sound (sha256 : list N -> str) (same_path : bool)
    (file : option (list N)) (l : limit) (clock : Z) (doc : json)
    (Hrun : main sha256 same_path file l clock = Written doc 0) :
  exists raw d r, file = Some raw /\ json_loads raw = inl (JObj d) /\ doc = document r
    /\ rp_max_response r = l /\ limit_valid l /\ rp_checked_at r = clock
    /\ rp_input_sha256 r = sha256 raw
    /\ observed (JObj d) r /\ in_window r /\ criteria r.
Proof.
  apply main_passed in Hrun as (_ & raw & d & -> & Hj & Hc). exists raw, d.
  apply obind_Ok in Hc as (r & Hr & [= <- Hp]). exists r.
  apply https_compile_evidence_Ok in Hr as (Ho & Hw & Hn & Hl & Hv & Hh & _).
  split_and!; try first [assumption|reflexivity]. by eapply https_passed_criteria.
Qed.
End observed.

Definition acceptance_file : list N := file_of "{
 'schema_version': 1,
 'acceptance_id': 'https-e2e-example-20250902',
 'source_revision': 'release-example',
 'environment': 'staging-example',
 'origin': 'https://pipelens.example.com',
 'started_at': '2025-09-02T01:00:00Z',
 'completed_at': '2025-09-02T01:10:00Z',
 'preflight': {
  'evidence_sha256': '1111111111111111111111111111111111111111111111111111111111111111',
  'checked_at': '2025-09-02T01:00:10Z',
  'origin': 'https://pipelens.example.com',
  'passed': true
 },
 'configured_urls': {
  'oauth_callback': 'https://pipelens.example.com/auth/github/callback',
  'setup': 'https://pipelens.example.com/github/setup',
  'webhook': 'https://pipelens.example.com/webhooks/github'
 },
 'browser_flow': {
  'started_at': '2025-09-02T01:01:00Z',
  'oauth_authorized_at': '2025-09-02T01:01:20Z',
  'installation_selected_at': '2025-09-02T01:01:30Z',
  'dashboard_loaded_at': '2025-09-02T01:01:40Z',
  'logout_completed_at': '2025-09-02T01:02:00Z',
  'captured_at': '2025-09-02T01:02:05Z',
  'installation_count': 1,
  'oauth_state_cookie': {
   'secure': true,
   'httponly': true,
   'samesite': 'lax'
  },
  'session_cookie': {
   'secure': true,
   'httponly': true,
   'samesite': 'lax'
  },
  'session_invalid_after_logout': true,
  'screenshot_evidence_sha256': '2222222222222222222222222222222222222222222222222222222222222222'
 },
 'forwarding': {
  'checked_at': '2025-09-02T01:01:25Z',
  'observed_scheme': 'https',
  'observed_host': 'pipelens.example.com',
  'application_origin': 'https://pipelens.example.com',
  'oauth_redirect_uri': 'https://pipelens.example.com/auth/github/callback',
  'request_evidence_sha256': '3333333333333333333333333333333333333333333333333333333333333333'
 },
 'webhook': {
  'event': 'workflow_run',
  'action': 'completed',
  'delivery_id_sha256': '4444444444444444444444444444444444444444444444444444444444444444',
  'received_at': '2025-09-02T01:04:00Z',
  'signature_verified_at': '2025-09-02T01:04:00.100Z',
  'persisted_at': '2025-09-02T01:04:00.300Z',
  'responded_at': '2025-09-02T01:04:00.500Z',
  'signature_valid': true,
  'response_status_code': 202,
  'request_evidence_sha256': '5555555555555555555555555555555555555555555555555555555555555555'
 }
}".
Definition acceptance : verdict :=
  @main ascii_db plain_nfkc plain_repr (fun _ => u "h") false (Some acceptance_file) parse_args
    1788220800000000.
Example https_acceptance_passes :
  match acceptance with
  | Written doc status =>
    status = 0 /\ at_path doc [u "webhook"; u "response_seconds"] = Some (JFloat (1 # 2))
  | _ => False
  end.
Proof. vm_compute. split; reflexivity. Qed.
(** The suffix .local is looked for with the dots at the end still there: a local name
    written with its root dot passes for a public one. *)
Example local_name_with_root_dot :
  let origin s := @public_https_origin ascii_db plain_nfkc plain_repr (JStr (u s)) (u "origin") in
  origin "https://build.local"%string
  = Raise (ValueError (u "origin must use a public DNS hostname"))
  /\ origin "https://build.local./"%string = Ok (u "https://build.local.").
Proof. vm_compute. split; reflexivity. Qed.
