(* ===== verification/Diagnosis.v ===== *)
(** * Rule-based diagnosis (src/pipelens/diagnosis.py)

    [build_rule_based_diagnosis] turns a classification into a diagnosis with the
    fixed Korean texts; [validate_diagnosis] drops evidence and files that the
    input does not contain.  [rule_diagnosis_grounded] composes them with the
    classifier the way the pipeline does. *)

From Stdlib Require Import QArith Lqa.
From stdpp Require Import base list strings numbers.
From S2P Require Import Prelude Regex Models Classifier.

(** (summary, cause, suggestion) of each category *)
Definition MESSAGES (c : ErrorCategory) : str * str * str :=
  match c with
  | Cat_TEST =>
    (u "테스트가 실패했습니다.",
     u "테스트 assertion 또는 테스트 준비 과정에서 최초 오류가 발생했습니다.",
     u "최초 실패 테스트와 그 입력을 로컬에서 재현하세요.")
  | Cat_BUILD =>
    (u "빌드 또는 컴파일이 실패했습니다.",
     u "컴파일러가 코드 또는 링크 오류를 보고했습니다.",
     u "최초 컴파일 오류 위치를 수정한 뒤 빌드를 다시 실행하세요.")
  | Cat_DEPENDENCY =>
    (u "의존성 설치가 실패했습니다.",
     u "패키지 버전 해석 또는 설치 단계에서 오류가 발생했습니다.",
     u "lockfile과 런타임 버전을 확인하고 의존성을 다시 고정하세요.")
  | Cat_LINT =>
    (u "Lint 또는 포맷 검사가 실패했습니다.",
     u "코드 스타일 검사 도구가 위반 사항을 발견했습니다.",
     u "CI와 동일한 lint/format 명령을 실행해 보고된 파일을 수정하세요.")
  | Cat_DOCKER =>
    (u "Docker 이미지 빌드가 실패했습니다.",
     u "Dockerfile의 빌드 단계가 정상적으로 완료되지 않았습니다.",
     u "실패한 Dockerfile 단계와 build context를 확인하세요.")
  | Cat_DEPLOY_AUTH =>
    (u "배포 인증에 실패했습니다.",
     u "배포 대상이 현재 자격증명을 거부했습니다.",
     u "배포용 secret의 만료 여부와 권한 범위를 확인하세요.")
  | Cat_MISSING_ENV =>
    (u "필수 환경변수가 없습니다.",
     u "실행에 필요한 환경변수가 workflow step에 전달되지 않았습니다.",
     u "Repository/Environment secret과 workflow의 env 매핑을 확인하세요.")
  | Cat_TIMEOUT =>
    (u "작업 제한 시간을 초과했습니다.",
     u "명령이 허용된 시간 안에 끝나지 않았습니다.",
     u "정체된 작업을 확인하고 필요하면 timeout-minutes를 조정하세요.")
  | Cat_RESOURCE =>
    (u "실행 환경의 자원이 부족합니다.",
     u "Runner의 디스크 또는 메모리가 소진되었습니다.",
     u "캐시와 불필요한 산출물을 줄이거나 더 큰 runner를 사용하세요.")
  | Cat_WORKFLOW =>
    (u "GitHub Actions workflow 설정이 유효하지 않습니다.",
     u "Workflow YAML 표현식 또는 구문 검증에 실패했습니다.",
     u "표시된 workflow 위치의 YAML과 Actions 표현식을 수정하세요.")
  | Cat_SECURITY =>
    (u "보안 검사가 실행을 차단했습니다.",
     u "취약점·secret·코드 스캔 도구가 허용 기준을 넘는 발견 사항을 보고했습니다.",
     u "보고된 package를 수정 버전으로 올리고, secret은 즉시 폐기·교체한 뒤 다시 검사하세요.")
  | Cat_UNKNOWN =>
    (u "실패 원인을 자동 분류하지 못했습니다.",
     u "현재 로그만으로 원인을 확인할 수 없습니다.",
     u "첫 오류 전후의 전체 로그와 workflow 설정을 확인하세요.")
  end.

Definition UNVERIFIABLE : str := u "확인 불가".

Definition plain_suggestion (description : str) : Suggestion := {|
  sg_description := description; sg_file := None; sg_patch := None; sg_source := None;
  sg_patch_verified := false |}.

Definition build_rule_based_diagnosis (c : Classification) : Diagnosis :=
  let '(summary, cause, suggestion) := MESSAGES (cl_category c) in
  {| dg_summary := summary;
     dg_root_cause := if decide (cl_category c = Cat_UNKNOWN) then UNVERIFIABLE else cause;
     dg_confidence := cl_confidence c;
     dg_evidence := [{| ev_source := u "log"; ev_content := cl_first_error c;
                        ev_location := cl_related_step c |}];
     dg_suggestions := [plain_suggestion suggestion];
     dg_conflicts := []; dg_notes := [] |}.

Definition UNGROUNDED_CONFLICT : str :=
  u "분석 결과가 입력 로그에서 확인할 수 없는 근거를 인용했습니다.".

Definition evidence_valid (log : str) (e : Evidence) : bool :=
  negb (str_eqb (ev_source e) (u "log")) || contains (ev_content e) log.
Definition suggestion_valid (repository_files : option (list str)) (s : Suggestion) : bool :=
  match sg_file s with
  | None | Some [] => true
  | Some f => match repository_files with
              | Some files => existsb (str_eqb f) files
              | None => false
              end
  end.

Definition validate_diagnosis (d : Diagnosis) (log : str) (repository_files : option (list str))
  : Diagnosis :=
  let valid_evidence := List.filter (evidence_valid log) (dg_evidence d) in
  let valid_suggestions := List.filter (suggestion_valid repository_files) (dg_suggestions d) in
  let '(cause, confidence, conflicts) :=
    match valid_evidence with
    | [] => (UNVERIFIABLE, pymin (dg_confidence d) 0.3, dg_conflicts d ++ [UNGROUNDED_CONFLICT])
    | _ => (dg_root_cause d, dg_confidence d, dg_conflicts d)
    end in
  {| dg_summary := dg_summary d; dg_root_cause := cause; dg_confidence := confidence;
     dg_evidence := valid_evidence; dg_suggestions := valid_suggestions;
     dg_conflicts := conflicts; dg_notes := dg_notes d |}.

Lemma pymin_le a b : (pymin a b <= a)%Q /\ (pymin a b <= b)%Q.
Proof.
  unfold pymin. destruct (Qltb b a) eqn:E; [apply Qltb_lt in E|apply Qltb_ge in E]; lra.
Qed.

(** [validate_diagnosis] keeps only log evidence that occurs verbatim in the log
    and suggestions without a file or for a known repository file; it lowers a
    diagnosis left without evidence to "cannot be determined", confidence at most
    0.3 and a recorded conflict, and otherwise leaves cause, confidence and conflicts
    alone; it never raises the confidence. *)
Theorem validate_diagnosis_spec (d : Diagnosis) (log : str) (files : option (list str)) :
  let v := validate_diagnosis d log files in
  Forall (fun e => ev_source e = u "log" -> contains (ev_content e) log = true) (dg_evidence v)
  /\ Forall (fun s => forall f, sg_file s = Some f -> f <> [] ->
       exists fs, files = Some fs /\ In f fs) (dg_suggestions v)
  /\ (dg_evidence v = [] ->
       dg_root_cause v = UNVERIFIABLE /\ (dg_confidence v <= 0.3)%Q
       /\ dg_conflicts v = dg_conflicts d ++ [UNGROUNDED_CONFLICT])
  /\ (dg_evidence v <> [] ->
       dg_root_cause v = dg_root_cause d /\ dg_confidence v = dg_confidence d
       /\ dg_conflicts v = dg_conflicts d)
  /\ (dg_confidence v <= dg_confidence d)%Q.
Proof.
  intros v. unfold v, validate_diagnosis.
  assert (He : Forall (fun e => ev_source e = u "log" -> contains (ev_content e) log = true)
    (List.filter (evidence_valid log) (dg_evidence d))).
  { apply List.Forall_forall. intros e [_ H]%List.filter_In Hs.
    unfold evidence_valid in H. rewrite Hs in H. exact H. }
  assert (Hs : Forall (fun s => forall f, sg_file s = Some f -> f <> [] ->
      exists fs, files = Some fs /\ In f fs)
    (List.filter (suggestion_valid files) (dg_suggestions d))).
  { apply List.Forall_forall. intros s [_ H]%List.filter_In f Hf Hne.
    unfold suggestion_valid in H. rewrite Hf in H. destruct f as [|c f]; [done|].
    destruct files as [fs|]; [|done]. exists fs. split; [done|].
    apply existsb_exists in H as (x & Hx & Heq). apply str_eqb_eq in Heq as ->. done. }
  pose proof (pymin_le (dg_confidence d) 0.3) as Hmin.
  destruct (List.filter (evidence_valid log) (dg_evidence d)) as [|e es]; simpl;
    split_and!; try done; try lra; intros; split_and!; done || lra.
Qed.

Section grounded.
Context {U : UnicodeDb}.

(** The rule diagnosis of a log with a non-blank line survives its own
    validation unchanged: the cited evidence is text of the log.  For a log with
    no text the evidence is dropped and the diagnosis says so. *)
Theorem rule_diagnosis_grounded (log : str) (step : option str) (files : option (list str)) :
  let d := build_rule_based_diagnosis (classify_log log step) in
  let v := validate_diagnosis d log files in
  (nonblank_lines log <> [] -> v = d)
  /\ (nonblank_lines log = [] ->
      dg_evidence v = [] /\ dg_root_cause v = UNVERIFIABLE
      /\ dg_conflicts v = [UNGROUNDED_CONFLICT]).
Proof.
  intros d v. subst d v. split.
  - intros Hne.
    assert (Hc : contains (cl_first_error (classify_log log step)) log = true)
      by (by eapply nonblank_lines_In, classify_first_error).
    unfold build_rule_based_diagnosis. destruct (MESSAGES _) as [[summary cause] sug].
    unfold validate_diagnosis. cbn [dg_evidence dg_suggestions List.filter].
    unfold evidence_valid. cbn [ev_content ev_source]. rewrite Hc, orb_true_r. reflexivity.
  - intros He.
    assert (Hc : contains (u "No error output was captured") log = false).
    { assert (u "No error output was captured" = 78%N :: u "o error output was captured")
        as -> by (vm_compute; reflexivity).
      by apply nonblank_lines_nil. }
    assert (Hf : cl_first_error (classify_log log step) = u "No error output was captured").
    { unfold classify_log. rewrite He. reflexivity. }
    unfold build_rule_based_diagnosis. destruct (MESSAGES _) as [[summary cause] sug].
    unfold validate_diagnosis. cbn [dg_evidence dg_suggestions List.filter].
    unfold evidence_valid. cbn [ev_content ev_source]. rewrite Hf, Hc.
    change (negb (str_eqb (u "log") (u "log")) || false) with false. auto.
Qed.
End grounded.
