(* ===== verification/HttpRetry.v ===== *)
(** * Outbound HTTP with retries (src/pipelens/http_retry.py)

    [request_with_retry] over an arbitrary server: what a request returns may
    depend on everything sent before ([HttpEnv]), so the theorems hold for every
    sequence of answers.  The state is the trace of requests, waits and retry
    notifications.  Shown: the loop always ends with the last answer or error (the
    final [AssertionError] is unreachable), makes at most [max_attempts] requests,
    never repeats a non-idempotent request after a transport error, and only waits
    bounded times.  The powers of two of the backoff are exact; the program overflows on
    them beyond 1,024 attempts of one request. *)

From Stdlib Require Import QArith Lqa Qminmax.
From stdpp Require Import base list strings numbers.
From S2P Require Import Prelude Models Json.

Record RetryPolicy := {
  max_attempts : Z;
  base_delay_seconds : Q;
  max_delay_seconds : Q;
  jitter_ratio : Q
}.
Definition default_policy : RetryPolicy := {|
  max_attempts := 3; base_delay_seconds := 1; max_delay_seconds := 60; jitter_ratio := 0.25 |}.

(** RetryPolicy.__post_init__ *)
Definition check_policy (p : RetryPolicy) : outcome RetryPolicy :=
  if max_attempts p <? 1 then Raise (ValueError (u "max_attempts must be at least 1"))
  else if Qltb (base_delay_seconds p) 0 || Qltb (max_delay_seconds p) 0
  then Raise (ValueError (u "retry delays cannot be negative"))
  else if negb (Qle_bool 0 (jitter_ratio p) && Qle_bool (jitter_ratio p) 1)
  then Raise (ValueError (u "jitter_ratio must be between 0 and 1"))
  else Ok p.

Record Request := {
  rq_method : str;
  rq_url : str;
  rq_headers : list (str * str);
  rq_params : list (str * str);
  rq_data : list (str * str);
  rq_json : option json
}.

(** An httpx response: header names in lower case; [rsp_json] is None when the body
    is not JSON ([json()] raises ValueError). *)
Record Response := {
  rsp_status : Z;
  rsp_headers : list (str * str);
  rsp_text : str;
  rsp_content : list N;
  rsp_json : option json
}.

Inductive HttpEvent :=
| Sent (r : Request)
| Observed (reason : str) (attempt : Z) (delay : Q)
| Slept (delay : Q).

(** The trace, latest event first. *)
Abbreviation HttpTrace := (list HttpEvent).

(** The world outside: httpx and the servers behind it, the clock, the random
    source, and the two text conversions applied to the Retry-After header.
    [float_of_str] is [float()]; the text of an infinite value yields a number
    above every delay bound.  [parse_date] is [parsedate_to_datetime]: wall-clock
    seconds and, unless naive, the offset. *)
Class HttpEnv := {
  env_send : HttpTrace -> Request -> outcome Response;
  env_random : HttpTrace -> Q;              (* random.random(), in [0, 1) *)
  env_time : HttpTrace -> Q;                (* time.time() *)
  float_of_str : str -> option Q;
  parse_date : str -> option (Q * option Q)
}.

Definition _IDEMPOTENT_METHODS : list str :=
  map u ["GET"; "HEAD"; "OPTIONS"; "PUT"; "DELETE"]%string.
Definition _TRANSIENT_STATUS_CODES : list Z := [408; 429; 500; 502; 503; 504].
Definition _ACTION_REQUIRED_RATE_LIMIT_CODES : list str :=
  map u ["billing_hard_limit_reached"; "billing_not_active"; "insufficient_quota"]%string.

Definition in_strs (s : str) (l : list str) : bool := existsb (str_eqb s) l.
Definition in_ints (z : Z) (l : list Z) : bool := existsb (Z.eqb z) l.
Definition upper_char (c : N) : N := if ascii_lower c then (c - 32)%N else c.
(** method.upper(), for the ASCII method names *)
Definition upper (s : str) : str := map upper_char s.

Definition header (r : Response) (name : str) : option str := dict_get str_eqb (rsp_headers r) name.

Definition _requires_user_action (r : Response) : outcome bool :=
  match rsp_json r with
  | None => Ok false
  | Some body =>
    let! e := jget body (u "error") in
    let! code := jget (jor e (JObj [])) (u "code") in
    match code with
    | JStr s => Ok (in_strs s _ACTION_REQUIRED_RATE_LIMIT_CODES)
    | JArr _ | JObj _ => Raise (TypeError (u "unhashable type"))
    | _ => Ok false
    end
  end.

Section retry.
Context {U : UnicodeDb} {E : HttpEnv}.

Definition _is_rate_limited (r : Response) : bool :=
  match header r (u "retry-after") with Some _ => true | None => false end
  || match header r (u "x-ratelimit-remaining") with
     | Some v => str_eqb v (u "0") | None => false end
  || contains (u "secondary rate limit") (casefold (rsp_text r))
  || contains (u "rate limit exceeded") (casefold (rsp_text r)).

Definition _retry_reason (r : Response) (retry_rate_limited_403 : bool)
  : outcome (option str) :=
  if in_ints (rsp_status r) _TRANSIENT_STATUS_CODES then
    if rsp_status r =? 429 then
      let! action := _requires_user_action r in
      Ok (if action then None else Some (u "rate_limit"))
    else Ok (Some (u "server"))
  else if (rsp_status r =? 403) && retry_rate_limited_403 && _is_rate_limited r
  then Ok (Some (u "rate_limit"))
  else Ok None.

(** Python's max(0.0, x) and min(a, b) *)
Definition max0 (x : Q) : Q := if Qltb 0 x then x else 0.
(** random.uniform(a, b) *)
Definition uniform (tr : HttpTrace) (a b : Q) : Q := (a + (b - a) * env_random tr)%Q.

(** 2.0 ** (attempt - 1) is the exact power: up to 1,024 attempts it is a finite double; beyond,
    the program raises OverflowError here. *)
Definition _backoff_delay (tr : HttpTrace) (p : RetryPolicy) (attempt : Z) : Q :=
  let delay := pymin (base_delay_seconds p * inject_Z (2 ^ (attempt - 1)))
                     (max_delay_seconds p) in
  let delay :=
    if negb (Qeq_bool delay 0) && negb (Qeq_bool (jitter_ratio p) 0)
    then (delay * (1 + uniform tr 0 (jitter_ratio p)))%Q else delay in
  pymin delay (max_delay_seconds p).

Definition _retry_after_delay (tr : HttpTrace) (r : Response) : option Q :=
  let from_header :=
    match header r (u "retry-after") with
    | None | Some [] => None
    | Some v =>
      match float_of_str v with
      | Some q => Some (max0 q)
      | None =>
        match parse_date v with
        | Some (wall, offset) => Some (max0 (wall - default 0 offset - env_time tr)%Q)
        | None => None
        end
      end
    end in
  match from_header with
  | Some d => Some d
  | None =>
    match header r (u "x-ratelimit-remaining") with
    | Some v =>
      if str_eqb v (u "0") then
        match header r (u "x-ratelimit-reset") with
        | Some reset =>
          match float_of_str reset with
          | Some q => Some (max0 (q - env_time tr)%Q)
          | None => None
          end
        | None => None
        end
      else None
    | None => None
    end
  end.

Definition _response_delay (tr : HttpTrace) (r : Response) (p : RetryPolicy) (attempt : Z)
  : option Q :=
  match _retry_after_delay tr r with
  | Some header_delay =>
    if Qltb (max_delay_seconds p) header_delay then None
    else Some (pymin (header_delay + uniform tr 0 (base_delay_seconds p * jitter_ratio p))
                     (max_delay_seconds p))
  | None =>
    if rsp_status r =? 403 then
      if Qle_bool 60 (max_delay_seconds p) then Some 60%Q else None
    else Some (_backoff_delay tr p attempt)
  end.

(** _observe and the wait that follows it *)
Definition notify_and_sleep (observer : bool) (reason : str) (attempt : Z) (delay : Q)
  : M HttpTrace unit := fun tr =>
  (Ok tt, Slept delay :: (if observer then Observed reason attempt delay :: tr else tr)).

Definition send (req : Request) : M HttpTrace Response := fun tr =>
  (env_send tr req, Sent req :: tr).

Definition with_method (req : Request) (m : str) : Request := {|
  rq_method := m; rq_url := rq_url req; rq_headers := rq_headers req;
  rq_params := rq_params req; rq_data := rq_data req; rq_json := rq_json req |}.

(** The loop; [n] counts the attempts left, the current one included. *)
Fixpoint retry_loop (n : nat) (policy : RetryPolicy) (retry_403 observer : bool)
    (req : Request) (attempt : Z) : M HttpTrace Response := fun tr =>
  match n with
  | O => (Raise (AssertionError (u "retry loop exited unexpectedly")), tr)
  | S n =>
    match send req tr with
    | (Raise (TransportError m), tr) =>
      if (attempt =? max_attempts policy)
         || negb (in_strs (rq_method req) _IDEMPOTENT_METHODS)
      then (Raise (TransportError m), tr)
      else
        let delay := _backoff_delay tr policy attempt in
        let '(_, tr) := notify_and_sleep observer (u "transport") attempt delay tr in
        retry_loop n policy retry_403 observer req (attempt + 1) tr
    | (Raise e, tr) => (Raise e, tr)
    | (Ok response, tr) =>
      match _retry_reason response retry_403 with
      | Raise e => (Raise e, tr)
      | Ok None => (Ok response, tr)
      | Ok (Some reason) =>
        if attempt =? max_attempts policy then (Ok response, tr)
        else
          match _response_delay tr response policy attempt with
          | None => (Ok response, tr)
          | Some delay =>
            let '(_, tr) := notify_and_sleep observer reason attempt delay tr in
            retry_loop n policy retry_403 observer req (attempt + 1) tr
          end
      end
    end
  end.

Definition request_with_retry (req : Request) (policy : RetryPolicy)
    (retry_rate_limited_403 observer : bool) : M HttpTrace Response :=
  retry_loop (Z.to_nat (max_attempts policy)) policy retry_rate_limited_403 observer
             (with_method req (upper (rq_method req))) 1.
End retry.

(** ** Properties *)

(** The requests and waits of a piece of trace. *)
Definition sends (tr : HttpTrace) : list Request :=
  omap (fun e => match e with Sent r => Some r | _ => None end) tr.
Definition waits (tr : HttpTrace) : list Q :=
  omap (fun e => match e with Slept d => Some d | _ => None end) tr.

Definition policy_ok (p : RetryPolicy) : Prop :=
  1 <= max_attempts p /\ (0 <= base_delay_seconds p)%Q /\ (0 <= max_delay_seconds p)%Q
  /\ (0 <= jitter_ratio p <= 1)%Q.

Lemma check_policy_ok p q : check_policy p = Ok q -> q = p /\ policy_ok p.
Proof.
  unfold check_policy, policy_ok. destruct (Z.ltb_spec (max_attempts p) 1); [done|].
  destruct (_ || _)%bool eqn:E1; [done|]. destruct (negb _) eqn:E2; [done|]. intros [= <-].
  apply orb_false_iff in E1 as [E1%Qltb_ge E1'%Qltb_ge].
  apply negb_false_iff, andb_true_iff in E2 as [E2%Qle_bool_iff E2'%Qle_bool_iff].
  split; [done|]. by repeat split.
Qed.

Section retry_facts.
Context {U : UnicodeDb} {E : HttpEnv}.
Context (Hrandom : forall tr, (0 <= env_random tr <= 1)%Q).

Lemma pymin_cases a b : pymin a b = a /\ (a <= b)%Q \/ pymin a b = b /\ (b <= a)%Q.
Proof.
  unfold pymin. destruct (Qltb b a) eqn:H; [apply Qltb_lt in H|apply Qltb_ge in H].
  - right. split; [done|lra].
  - left. split; [done|lra].
Qed.
Lemma max0_nonneg q : (0 <= max0 q)%Q.
Proof. unfold max0. destruct (Qltb 0 q) eqn:H; [apply Qltb_lt in H|]; lra. Qed.

Definition bounded (p : RetryPolicy) (d : Q) : Prop := (0 <= d <= max_delay_seconds p)%Q.

Lemma uniform_nonneg tr b : (0 <= b)%Q -> (0 <= uniform tr 0 b)%Q.
Proof using Hrandom.
  intros Hb. unfold uniform. destruct (Hrandom tr) as [Hr _].
  assert (0 <= (b - 0) * env_random tr)%Q by (apply Qmult_le_0_compat; lra). lra.
Qed.

Lemma backoff_bounded tr p attempt :
  policy_ok p -> bounded p (_backoff_delay tr p attempt).
Proof using Hrandom.
  intros (_ & Hb & Hm & Hj & _). unfold _backoff_delay, bounded.
  assert (Hd : (0 <= pymin (base_delay_seconds p * inject_Z (2 ^ (attempt - 1)))
                           (max_delay_seconds p))%Q).
  { destruct (pymin_cases (base_delay_seconds p * inject_Z (2 ^ (attempt - 1)))
                          (max_delay_seconds p)) as [[-> _]|[-> _]]; [|done].
    apply Qmult_le_0_compat; [done|]. change 0%Q with (inject_Z 0).
    rewrite <- Zle_Qle. apply Z.pow_nonneg. lia. }
  set (d := pymin _ _) in *.
  assert (Hd' : (0 <= if negb (Qeq_bool d 0) && negb (Qeq_bool (jitter_ratio p) 0)
                     then d * (1 + uniform tr 0 (jitter_ratio p)) else d)%Q).
  { destruct (_ && _)%bool; [|done]. apply Qmult_le_0_compat; [done|].
    pose proof (uniform_nonneg tr (jitter_ratio p) Hj). lra. }
  match type of Hd' with (0 <= ?x)%Q => set (d' := x) in * end.
  destruct (pymin_cases d' (max_delay_seconds p)) as [[-> ?]|[-> ?]]; lra.
Qed.

Lemma retry_after_nonneg tr r d : _retry_after_delay tr r = Some d -> (0 <= d)%Q.
Proof.
  unfold _retry_after_delay. intros H.
  repeat case_match; simplify_eq; apply max0_nonneg.
Qed.

Lemma response_delay_bounded tr r p attempt d :
  policy_ok p -> _response_delay tr r p attempt = Some d -> bounded p d.
Proof using Hrandom.
  intros Hp. pose proof Hp as (_ & Hb & Hm & Hj & _). unfold _response_delay, bounded.
  destruct (_retry_after_delay tr r) as [h|] eqn:Eh.
  - destruct (Qltb (max_delay_seconds p) h) eqn:El; [done|]. intros [= <-].
    apply retry_after_nonneg in Eh.
    assert (0 <= uniform tr 0 (base_delay_seconds p * jitter_ratio p))%Q
      by (apply uniform_nonneg, Qmult_le_0_compat; lra).
    destruct (pymin_cases (h + uniform tr 0 (base_delay_seconds p * jitter_ratio p))
                          (max_delay_seconds p)) as [[-> ?]|[-> ?]]; lra.
  - destruct (rsp_status r =? 403).
    + destruct (Qle_bool 60 (max_delay_seconds p)) eqn:El; [|done].
      apply Qle_bool_iff in El. intros [= <-]. lra.
    + intros [= <-]. by apply backoff_bounded.
Qed.

(** The answers to the requests of a piece of trace, latest first. *)
Fixpoint answers (added tr : HttpTrace) : list (outcome Response) :=
  match added with
  | [] => []
  | Sent r :: rest => env_send (rest ++ tr) r :: answers rest tr
  | _ :: rest => answers rest tr
  end.

Lemma answers_app a b tr : answers (a ++ b) tr = answers a (b ++ tr) ++ answers b tr.
Proof. induction a as [|[] a IH]; simpl; rewrite ?IH, <- ?app_assoc; done. Qed.

(** The answers after which another attempt is made. *)
Definition retriable (retry_403 : bool) (req : Request) (a : outcome Response) : Prop :=
  match a with
  | Raise (TransportError _) => in_strs (rq_method req) _IDEMPOTENT_METHODS = true
  | Raise _ => False
  | Ok r => exists reason, _retry_reason r retry_403 = Ok (Some reason)
  end.

(** What a run adds to the trace, and how it ends. *)
Definition run_spec (n : nat) (p : RetryPolicy) (retry_403 : bool) (req : Request)
    (tr : HttpTrace) (res : outcome Response * HttpTrace) : Prop :=
  exists added final earlier,
    snd res = added ++ tr
    /\ answers added tr = final :: earlier
    /\ (length earlier < n)%nat
    /\ Forall (retriable retry_403 req) earlier
    /\ Forall (fun r => r = req) (sends added)
    /\ length (waits added) = length earlier
    /\ Forall (bounded p) (waits added)
    /\ (fst res = final
        \/ exists r e, final = Ok r /\ _retry_reason r retry_403 = Raise e
                      /\ fst res = Raise e).

(** One more attempt in front of a run. *)
Lemma run_spec_step n p retry_403 req observer reason attempt d tr res :
  retriable retry_403 req (env_send tr req) -> bounded p d ->
  run_spec n p retry_403 req
    (snd (notify_and_sleep observer reason attempt d (Sent req :: tr))) res ->
  run_spec (S n) p retry_403 req tr res.
Proof.
  intros Hr Hd (added & final & earlier & Ht & Ha & Hl & Hf & Hs & Hw & Hb & Hres).
  exists (added ++ Slept d ::
    (if observer then [Observed reason attempt d; Sent req] else [Sent req])), final,
    (earlier ++ [env_send tr req]).
  unfold notify_and_sleep in *. cbn [snd] in *.
  assert (Hx : forall (b : bool), sends (Slept d :: (if b then [Observed reason attempt d;
      Sent req] else [Sent req])) = [req]
    /\ waits (Slept d :: (if b then [Observed reason attempt d; Sent req] else [Sent req]))
       = [d]
    /\ answers (Slept d :: (if b then [Observed reason attempt d; Sent req]
                            else [Sent req])) tr = [env_send tr req])
    by by intros [].
  destruct (Hx observer) as (Hx1 & Hx2 & Hx3). clear Hx.
  unfold sends, waits in *. rewrite !omap_app, Hx1, Hx2, answers_app, Hx3.
  split_and!.
  - rewrite Ht, <- app_assoc. by destruct observer.
  - replace ((Slept d :: (if observer then [Observed reason attempt d; Sent req]
      else [Sent req])) ++ tr) with (Slept d :: (if observer then
      Observed reason attempt d :: Sent req :: tr else Sent req :: tr)) by by destruct observer.
    by rewrite Ha.
  - rewrite length_app. simpl. lia.
  - apply Forall_app. split; [done|constructor; [done|constructor]].
  - apply Forall_app. split; [done|constructor; [done|constructor]].
  - rewrite !length_app. simpl. lia.
  - apply Forall_app. split; [done|constructor; [done|constructor]].
  - done.
Qed.

Lemma run_spec_last n p retry_403 req tr res :
  res = (env_send tr req, Sent req :: tr)
  \/ (exists r e, env_send tr req = Ok r /\ _retry_reason r retry_403 = Raise e
      /\ res = (Raise e, Sent req :: tr)) ->
  run_spec (S n) p retry_403 req tr res.
Proof.
  intros H. exists [Sent req], (env_send tr req), [].
  destruct H as [->|(r & e & Hr & He & ->)]; simpl;
    split_and!; try done; try lia; try (by repeat constructor); eauto 10.
Qed.

Lemma retry_loop_spec p retry_403 observer req n : forall attempt tr,
  policy_ok p -> Z.of_nat n = max_attempts p - attempt + 1 -> (0 < n)%nat ->
  run_spec n p retry_403 req tr (retry_loop n p retry_403 observer req attempt tr).
Proof using Hrandom.
  induction n as [|n IH]; intros attempt tr Hp Hn Hpos; [lia|]. cbn [retry_loop].
  unfold send. destruct (env_send tr req) as [r|e] eqn:Es.
  - destruct (_retry_reason r retry_403) as [[reason|]|e] eqn:Er.
    + destruct (Z.eqb_spec attempt (max_attempts p)).
      { apply run_spec_last. left. by rewrite Es. }
      destruct (_response_delay (Sent req :: tr) r p attempt) as [d|] eqn:Ed.
      * pose proof (response_delay_bounded _ _ _ _ _ Hp Ed) as Hd.
        eapply (run_spec_step n p retry_403 req observer reason attempt d);
          [rewrite Es; by exists reason|done|].
        apply IH; [done|lia|lia].
      * apply run_spec_last. left. by rewrite Es.
    + apply run_spec_last. left. by rewrite Es.
    + apply run_spec_last. right. by exists r, e.
  - destruct e;
      try (apply run_spec_last; left; by rewrite Es).
    destruct (Z.eqb_spec attempt (max_attempts p));
      [apply run_spec_last; left; by rewrite Es|].
    destruct (in_strs (rq_method req) _IDEMPOTENT_METHODS) eqn:Ei; cbn [negb orb];
      [|apply run_spec_last; left; by rewrite Es].
    eapply (run_spec_step n p retry_403 req observer (u "transport") attempt);
      [rewrite Es; exact Ei|by apply backoff_bounded|].
    apply IH; [done|lia|lia].
Qed.
End retry_facts.

Section retry_theorem.
Context {U : UnicodeDb} {E : HttpEnv}.

(** C27: For a policy its constructor accepts, and whatever the server answers,
    [request_with_retry] makes between one and [max_attempts] requests, all of them
    the given request with its method in upper case, and ends with the answer to the
    last one (its response or its exception, or the exception of inspecting that
    response).  Another attempt is made only after a transport error of an idempotent
    method or after a response with a retry reason, with one wait between 0 and
    [max_delay_seconds] before it (the power of two of the backoff being exact: the source
    overflows beyond 1,024 attempts); in particular a transport error of a POST or PATCH
    is never retried and the loop never falls through to its assertion. *)
Theorem request_with_retry_spec (q p : RetryPolicy) (req : Request)
    (retry_403 observer : bool) (tr : HttpTrace) :
  (forall tr, (0 <= env_random tr <= 1)%Q) ->
  check_policy q = Ok p ->
  run_spec (Z.to_nat (max_attempts p)) p retry_403
    (with_method req (upper (rq_method req))) tr
    (request_with_retry req p retry_403 observer tr).
Proof.
  intros Hr (-> & Hp)%check_policy_ok. unfold request_with_retry.
  pose proof Hp as (Hm & _).
  apply retry_loop_spec; [done|done|lia|lia].
Qed.
End retry_theorem.

(** A server that answers 503 twice and then 200. *)
Definition flaky_response (status : Z) : Response := {|
  rsp_status := status; rsp_headers := []; rsp_text := []; rsp_content := [];
  rsp_json := None |}.
Definition flaky_env : HttpEnv := {|
  env_send := fun tr _ => Ok (flaky_response (if (length (sends tr) <? 2)%nat then 503 else 200));
  env_random := fun _ => 0.5%Q; env_time := fun _ => 0%Q;
  float_of_str := fun _ => None; parse_date := fun _ => None |}.
Definition get_request : Request := {|
  rq_method := u "get"; rq_url := u "https://api.github.com/user"; rq_headers := [];
  rq_params := []; rq_data := []; rq_json := None |}.

Lemma request_with_retry_spec_witness :
  (forall tr, (0 <= @env_random flaky_env tr <= 1)%Q)
  /\ check_policy default_policy = Ok default_policy
  /\ fst (@request_with_retry ascii_db flaky_env get_request default_policy true true [])
     = Ok (flaky_response 200)
  /\ @run_spec ascii_db flaky_env 3 default_policy true
       (with_method get_request (u "GET")) []
       (@request_with_retry ascii_db flaky_env get_request default_policy true true []).
Proof.
  assert (H : forall tr, (0 <= @env_random flaky_env tr <= 1)%Q)
    by (intros tr; simpl; split; [unfold Qle|unfold Qle]; simpl; lia).
  split; [exact H|]. split; [reflexivity|]. split; [vm_compute; reflexivity|].
  exact (@request_with_retry_spec ascii_db flaky_env default_policy default_policy get_request
    true true [] H eq_refl).
Defined.
