(* ===== verification/Difflib.v ===== *)
(** * difflib.unified_diff

    The part of Python's difflib that [render_unified_diff] (patching.py) calls:
    [SequenceMatcher] without junk but with the popularity heuristic, its
    matching blocks, opcodes and grouped opcodes, and the text of
    [unified_diff].  Sequences are lists of lines. *)

From stdpp Require Import base list strings numbers.
From S2P Require Import Prelude.

Definition line_at (l : list str) (i : nat) : str := nth i l [].

(** A match: [a[i:i+k] = b[j:j+k]]. *)
Record Block := { bl_a : nat; bl_b : nat; bl_size : nat }.

(** b2j[x]: the positions of [x] in [b], increasing. *)
Fixpoint indices_from (i : nat) (b : list str) (x : str) : list nat :=
  match b with
  | [] => []
  | y :: b' => if str_eqb x y then i :: indices_from (S i) b' x else indices_from (S i) b' x
  end.
(** Elements of a long [b] that occur in more than one line of a hundred are
    not indexed. *)
Definition b2j (b : list str) (x : str) : list nat :=
  let idxs := indices_from 0 b x in
  let n := length b in
  if (200 <=? n)%nat && (n / 100 + 1 <? length idxs)%nat then [] else idxs.

Section matching.
Context (a b : list str).

(** The inner loop over the positions of a[i] in [b]: [j2len] maps a position to
    the length of the match ending there. *)
Fixpoint match_positions (i blo bhi : nat) (j2len : list (nat * nat)) (js : list nat)
    (acc : list (nat * nat)) (best : Block) : list (nat * nat) * Block :=
  match js with
  | [] => (acc, best)
  | j :: js' =>
    if (j <? blo)%nat then match_positions i blo bhi j2len js' acc best
    else if (bhi <=? j)%nat then (acc, best)
    else
      let before := match j with
                    | O => 0%nat
                    | S j' => default 0%nat (dict_get Nat.eqb j2len j')
                    end in
      let k := S before in
      let best' := if (bl_size best <? k)%nat
                   then {| bl_a := i + 1 - k; bl_b := j + 1 - k; bl_size := k |} else best in
      match_positions i blo bhi j2len js' ((j, k) :: acc) best'
  end.

Fixpoint match_rows (n i blo bhi : nat) (j2len : list (nat * nat)) (best : Block) : Block :=
  match n with
  | O => best
  | S n' =>
    let '(j2len', best') := match_positions i blo bhi j2len (b2j b (line_at a i)) [] best in
    match_rows n' (S i) blo bhi j2len' best'
  end.

(** The two loops that extend a match over unindexed elements. *)
Fixpoint extend_left (n alo blo : nat) (m : Block) : Block :=
  match n with
  | O => m
  | S n' =>
    if (alo <? bl_a m)%nat && (blo <? bl_b m)%nat
       && str_eqb (line_at a (bl_a m - 1)) (line_at b (bl_b m - 1))
    then extend_left n' alo blo
           {| bl_a := bl_a m - 1; bl_b := bl_b m - 1; bl_size := S (bl_size m) |}
    else m
  end.
Fixpoint extend_right (n ahi bhi : nat) (m : Block) : Block :=
  match n with
  | O => m
  | S n' =>
    if (bl_a m + bl_size m <? ahi)%nat && (bl_b m + bl_size m <? bhi)%nat
       && str_eqb (line_at a (bl_a m + bl_size m)) (line_at b (bl_b m + bl_size m))
    then extend_right n' ahi bhi
           {| bl_a := bl_a m; bl_b := bl_b m; bl_size := S (bl_size m) |}
    else m
  end.

Definition find_longest_match (alo ahi blo bhi : nat) : Block :=
  let m := match_rows (ahi - alo) alo blo bhi [] {| bl_a := alo; bl_b := blo; bl_size := 0 |} in
  extend_right (ahi - alo) ahi bhi (extend_left (ahi - alo) alo blo m).

(** get_matching_blocks: the recursion to the left and to the right of the
    longest match, in the order the sort gives. *)
Fixpoint matching_blocks_from (fuel alo ahi blo bhi : nat) : list Block :=
  match fuel with
  | O => []
  | S fuel =>
    let m := find_longest_match alo ahi blo bhi in
    match bl_size m with
    | O => []
    | S _ =>
      (if (alo <? bl_a m)%nat && (blo <? bl_b m)%nat
       then matching_blocks_from fuel alo (bl_a m) blo (bl_b m) else [])
      ++ [m]
      ++ (if (bl_a m + bl_size m <? ahi)%nat && (bl_b m + bl_size m <? bhi)%nat
          then matching_blocks_from fuel (bl_a m + bl_size m) ahi (bl_b m + bl_size m) bhi
          else [])
    end
  end.

(** Adjacent blocks are merged; the last block is empty and ends both texts. *)
Fixpoint merge_blocks (cur : Block) (bs : list Block) : list Block :=
  match bs with
  | [] => match bl_size cur with O => [] | S _ => [cur] end
  | m :: bs' =>
    if (bl_a cur + bl_size cur =? bl_a m)%nat && (bl_b cur + bl_size cur =? bl_b m)%nat
    then merge_blocks {| bl_a := bl_a cur; bl_b := bl_b cur;
                         bl_size := bl_size cur + bl_size m |} bs'
    else match bl_size cur with
         | O => merge_blocks m bs'
         | S _ => cur :: merge_blocks m bs'
         end
  end.

Definition get_matching_blocks : list Block :=
  merge_blocks {| bl_a := 0; bl_b := 0; bl_size := 0 |}
    (matching_blocks_from (S (length a)) 0 (length a) 0 (length b))
  ++ [{| bl_a := length a; bl_b := length b; bl_size := 0 |}].

(** An opcode; 'replace', 'delete' and 'insert' are changes with both ranges. *)
Record Opcode := { op_equal : bool; op_i1 : nat; op_i2 : nat; op_j1 : nat; op_j2 : nat }.

Fixpoint opcodes_from (i j : nat) (bs : list Block) : list Opcode :=
  match bs with
  | [] => []
  | m :: bs' =>
    (if (i <? bl_a m)%nat || (j <? bl_b m)%nat
     then [{| op_equal := false; op_i1 := i; op_i2 := bl_a m; op_j1 := j; op_j2 := bl_b m |}]
     else [])
    ++ (match bl_size m with
        | O => []
        | S _ => [{| op_equal := true; op_i1 := bl_a m; op_i2 := bl_a m + bl_size m;
                     op_j1 := bl_b m; op_j2 := bl_b m + bl_size m |}]
        end)
    ++ opcodes_from (bl_a m + bl_size m) (bl_b m + bl_size m) bs'
  end.
Definition get_opcodes : list Opcode := opcodes_from 0 0 get_matching_blocks.

Definition head_of (n : nat) (o : Opcode) : Opcode :=
  {| op_equal := op_equal o; op_i1 := op_i1 o; op_i2 := Nat.min (op_i2 o) (op_i1 o + n);
     op_j1 := op_j1 o; op_j2 := Nat.min (op_j2 o) (op_j1 o + n) |}.
Definition tail_of (n : nat) (o : Opcode) : Opcode :=
  {| op_equal := op_equal o; op_i1 := Nat.max (op_i1 o) (op_i2 o - n); op_i2 := op_i2 o;
     op_j1 := Nat.max (op_j1 o) (op_j2 o - n); op_j2 := op_j2 o |}.

Definition trim_first (n : nat) (codes : list Opcode) : list Opcode :=
  match codes with
  | o :: r => (if op_equal o then tail_of n o else o) :: r
  | [] => []
  end.
Fixpoint trim_last (n : nat) (codes : list Opcode) : list Opcode :=
  match codes with
  | [] => []
  | [o] => [if op_equal o then head_of n o else o]
  | o :: r => o :: trim_last n r
  end.

Definition only_equal (group : list Opcode) : bool :=
  match group with [] => true | [o] => op_equal o | _ => false end.

Fixpoint group_codes (n : nat) (codes : list Opcode) (group : list Opcode)
  : list (list Opcode) :=
  match codes with
  | [] => if only_equal group then [] else [group]
  | o :: r =>
    if op_equal o && (n + n <? op_i2 o - op_i1 o)%nat
    then (group ++ [head_of n o]) :: group_codes n r [tail_of n o]
    else group_codes n r (group ++ [o])
  end.

Definition get_grouped_opcodes (n : nat) : list (list Opcode) :=
  let codes := match get_opcodes with
               | [] => [{| op_equal := true; op_i1 := 0; op_i2 := 1; op_j1 := 0; op_j2 := 1 |}]
               | codes => codes
               end in
  group_codes n (trim_last n (trim_first n codes)) [].

Definition sub_lines (l : list str) (i j : nat) : list str := take (j - i) (drop i l).

Definition _format_range_unified (start stop : nat) : str :=
  let len := (stop - start)%nat in
  if (len =? 1)%nat then str_of_N (N.of_nat (start + 1))
  else str_of_N (N.of_nat (if (len =? 0)%nat then start else start + 1))
       ++ u "," ++ str_of_N (N.of_nat len).

Definition opcode_lines (o : Opcode) : list str :=
  if op_equal o then map (fun l => u " " ++ l) (sub_lines a (op_i1 o) (op_i2 o))
  else map (fun l => u "-" ++ l) (sub_lines a (op_i1 o) (op_i2 o))
       ++ map (fun l => u "+" ++ l) (sub_lines b (op_j1 o) (op_j2 o)).

Definition no_opcode : Opcode :=
  {| op_equal := true; op_i1 := 0; op_i2 := 0; op_j1 := 0; op_j2 := 0 |}.
Definition group_header (group : list Opcode) : str :=
  let first := List.hd no_opcode group in
  let last := List.last group no_opcode in
  u "@@ -" ++ _format_range_unified (op_i1 first) (op_i2 last)
  ++ u " +" ++ _format_range_unified (op_j1 first) (op_j2 last) ++ u " @@" ++ nl.
Definition group_lines (group : list Opcode) : list str :=
  group_header group :: flat_map opcode_lines group.

(** The lines that [unified_diff] yields. *)
Definition unified_diff (fromfile tofile : str) (n : nat) : list str :=
  match get_grouped_opcodes n with
  | [] => []
  | groups =>
    (u "--- " ++ fromfile ++ nl) :: (u "+++ " ++ tofile ++ nl) :: flat_map group_lines groups
  end.
End matching.
