(* ===== verification/DifflibFacts.v ===== *)
(** * The opcodes of difflib lead from one text to the other

    Whatever blocks the heuristics pick, they match, lie in order and do not overlap; so the
    grouped opcodes are an edit script: between the groups the texts agree, and the groups
    replace what differs. *)

From stdpp Require Import base list strings numbers.
From S2P Require Import Prelude Difflib.

Section blocks.
Context (a b : list str).

(** a[i:i+k] = b[j:j+k] *)
Definition same (i j k : nat) : Prop := forall t, (t < k)%nat -> line_at a (i + t) = line_at b (j + t).
Definition valid (alo ahi blo bhi : nat) (m : Block) : Prop :=
  (alo <= bl_a m /\ bl_a m + bl_size m <= ahi /\ blo <= bl_b m /\ bl_b m + bl_size m <= bhi)%nat
  /\ same (bl_a m) (bl_b m) (bl_size m).

Lemma indices_from_spec (l : list str) x i j :
  In j (indices_from i l x) -> (i <= j)%nat /\ line_at l (j - i) = x.
Proof.
  revert i. induction l as [|y l IH]; intros i; cbn [indices_from]; [done|].
  assert (In j (indices_from (S i) l x) -> (i <= j)%nat /\ line_at (y :: l) (j - i) = x) as H.
  { intros [Hj Hx]%IH. split; [lia|]. by replace (j - i)%nat with (S (j - S i)) by lia. }
  destruct (str_eqb x y) eqn:E; [|done]. intros [<-|Hin]; [|auto].
  split; [done|]. rewrite Nat.sub_diag. by apply str_eqb_eq in E as ->.
Qed.
Lemma b2j_spec x j : In j (b2j b x) -> line_at b j = x.
Proof.
  unfold b2j. destruct (_ && _); [done|]. intros [_ H]%indices_from_spec. by rewrite Nat.sub_0_r in H.
Qed.

(** The run of matches of length [k] that ends before line [i] of [a], at line [j] of [b]. *)
Definition run (alo blo i : nat) (jk : nat * nat) : Prop :=
  (alo + snd jk <= i /\ blo + snd jk <= S (fst jk))%nat
  /\ forall t, (t < snd jk)%nat -> line_at a (i - S t) = line_at b (fst jk - t).

Lemma match_positions_valid alo ahi blo bhi i j2len js acc best :
  (alo <= i < ahi)%nat -> Forall (run alo blo i) j2len -> Forall (run alo blo (S i)) acc ->
  Forall (fun j => line_at b j = line_at a i) js -> valid alo ahi blo bhi best ->
  Forall (run alo blo (S i)) (fst (match_positions i blo bhi j2len js acc best))
  /\ valid alo ahi blo bhi (snd (match_positions i blo bhi j2len js acc best)).
Proof.
  intros Hi Hj2 Hacc Hjs. revert acc best Hacc. induction Hjs as [|j js Hj _ IH];
    intros acc best Hacc Hbest; cbn [match_positions]; [done|].
  destruct (Nat.ltb_spec j blo); [by apply IH|]. destruct (Nat.leb_spec bhi j); [done|].
  set (before := match j with O => 0%nat | S j' => default 0%nat (dict_get Nat.eqb j2len j') end).
  assert (run alo blo (S i) (j, S before)) as Hrun.
  { assert ((alo + before <= i /\ blo + before <= j)%nat
      /\ forall t, (t < before)%nat -> line_at a (i - S t) = line_at b (j - S t)) as [Hb Hm].
    { subst before. destruct j as [|j']; [split; [lia|intros; lia]|].
      destruct (dict_get Nat.eqb j2len j') as [k|] eqn:E; cbn [default]; [|split; [lia|intros; lia]].
      apply dict_get_Some_In in E; [|apply Nat.eqb_eq].
      rewrite List.Forall_forall in Hj2. destruct (Hj2 _ E) as [Hk Ht]. cbn in Hk, Ht.
      unfold from_option, id. split; [lia|]. intros t Htk. rewrite (Ht t Htk). f_equal. }
    split; cbn [fst snd]; [lia|]. intros [|t] Ht.
    - by rewrite Nat.sub_0_r, Nat.sub_succ, Nat.sub_0_r.
    - cbn [Nat.sub]. apply Hm. lia. }
  apply IH; [by constructor|]. destruct (Nat.ltb_spec (bl_size best) (S before)); [|done].
  destruct Hrun as [Hb Hm]. cbn [fst snd] in Hb, Hm. split; cbn [bl_a bl_b bl_size]; [lia|].
  intros t Ht. specialize (Hm (before - t)%nat). 
  replace (i + 1 - S before + t)%nat with (S i - S (before - t))%nat by lia.
  replace (j + 1 - S before + t)%nat with (j - (before - t))%nat by lia. apply Hm. lia.
Qed.

Lemma match_rows_valid alo ahi blo bhi n : forall i j2len best,
  (alo <= i)%nat -> (i + n <= ahi)%nat -> Forall (run alo blo i) j2len ->
  valid alo ahi blo bhi best -> valid alo ahi blo bhi (match_rows a b n i blo bhi j2len best).
Proof.
  induction n as [|n IH]; intros i j2len best Hi Hn Hj Hb; cbn [match_rows]; [done|].
  destruct (match_positions_valid alo ahi blo bhi i j2len (b2j b (line_at a i)) [] best)
    as [H1 H2]; [lia|done|constructor| |done|].
  { apply List.Forall_forall. intros j. apply b2j_spec. }
  destruct (match_positions _ _ _ _ _ _ _) as [j2len' best']. apply IH; [lia|lia|done..].
Qed.

Lemma extend_left_valid n alo ahi blo bhi : forall m,
  valid alo ahi blo bhi m -> valid alo ahi blo bhi (extend_left a b n alo blo m).
Proof.
  induction n as [|n IH]; intros m [Hm Hs]; cbn [extend_left]; [done|].
  destruct (_ && _ && _) eqn:E; [|done].
  apply andb_true_iff in E as [[Ea Eb]%andb_true_iff E]. apply str_eqb_eq in E.
  apply Nat.ltb_lt in Ea, Eb. apply IH. split; cbn [bl_a bl_b bl_size]; [lia|].
  intros [|t] Ht; [by rewrite !Nat.add_0_r|].
  replace (bl_a m - 1 + S t)%nat with (bl_a m + t)%nat by lia.
  replace (bl_b m - 1 + S t)%nat with (bl_b m + t)%nat by lia. apply Hs. lia.
Qed.
Lemma extend_right_valid n alo ahi blo bhi : forall m,
  valid alo ahi blo bhi m -> valid alo ahi blo bhi (extend_right a b n ahi bhi m).
Proof.
  induction n as [|n IH]; intros m [Hm Hs]; cbn [extend_right]; [done|].
  destruct (_ && _ && _) eqn:E; [|done].
  apply andb_true_iff in E as [[Ea Eb]%andb_true_iff E]. apply str_eqb_eq in E.
  apply Nat.ltb_lt in Ea, Eb. apply IH. split; cbn [bl_a bl_b bl_size]; [lia|].
  intros t Ht. destruct (decide (t = bl_size m)) as [->|]; [done|apply Hs; lia].
Qed.
Lemma find_longest_match_valid alo ahi blo bhi :
  (alo <= ahi)%nat -> (blo <= bhi)%nat ->
  valid alo ahi blo bhi (find_longest_match a b alo ahi blo bhi).
Proof.
  intros Ha Hb. apply extend_right_valid, extend_left_valid, match_rows_valid; [lia|lia|constructor|].
  split; cbn [bl_a bl_b bl_size]; [lia|intros t Ht; lia].
Qed.

(** ** Matching blocks in order *)

Fixpoint ordered (i j : nat) (bs : list Block) (ahi bhi : nat) : Prop :=
  match bs with
  | [] => (i <= ahi /\ j <= bhi)%nat
  | m :: bs =>
    (i <= bl_a m /\ j <= bl_b m)%nat /\ same (bl_a m) (bl_b m) (bl_size m)
    /\ ordered (bl_a m + bl_size m) (bl_b m + bl_size m) bs ahi bhi
  end.
Lemma ordered_le i j bs ahi bhi : ordered i j bs ahi bhi -> (i <= ahi /\ j <= bhi)%nat.
Proof. revert i j. induction bs as [|m bs IH]; intros i j; [done|]. intros (? & _ & H%IH). lia. Qed.
Lemma ordered_weaken i j i' j' bs ahi bhi :
  (i' <= i)%nat -> (j' <= j)%nat -> ordered i j bs ahi bhi -> ordered i' j' bs ahi bhi.
Proof. destruct bs; cbn; [lia|]. intros ? ? (? & ? & ?). split_and!; try done; lia. Qed.
Lemma ordered_app i j bs cs i' j' ahi bhi :
  ordered i j bs i' j' -> ordered i' j' cs ahi bhi -> ordered i j (bs ++ cs) ahi bhi.
Proof.
  revert i j. induction bs as [|m bs IH]; intros i j; cbn [ordered app].
  - intros [? ?]. by apply ordered_weaken.
  - intros (? & ? & ?) ?. auto.
Qed.

Lemma matching_blocks_ordered fuel : forall alo ahi blo bhi,
  (alo <= ahi)%nat -> (blo <= bhi)%nat ->
  ordered alo blo (matching_blocks_from a b fuel alo ahi blo bhi) ahi bhi.
Proof.
  induction fuel as [|fuel IH]; intros alo ahi blo bhi Ha Hb; cbn [matching_blocks_from]; [done|].
  destruct (find_longest_match_valid alo ahi blo bhi Ha Hb) as [Hm Hs].
  set (m := find_longest_match _ _ _ _ _ _) in *.
  destruct (bl_size m) as [|n] eqn:En; [done|]. rewrite <-En in *.
  apply (ordered_app _ _ _ _ (bl_a m) (bl_b m)).
  { destruct (_ && _); [apply IH; lia|cbn; lia]. }
  cbn [app ordered]. split; [lia|]. split; [done|].
  destruct (_ && _); [apply IH; lia|cbn; lia].
Qed.

Definition positive_blocks (bs : list Block) : Prop := Forall (fun m => (0 < bl_size m)%nat) bs.
Lemma merge_blocks_ordered bs : forall cur i j ahi bhi,
  ordered i j (cur :: bs) ahi bhi ->
  ordered i j (merge_blocks cur bs) ahi bhi /\ positive_blocks (merge_blocks cur bs).
Proof.
  induction bs as [|m bs IH]; intros cur i j ahi bhi; cbn [merge_blocks].
  - destruct (bl_size cur) eqn:E; [|intros H; split; [done|by constructor; [lia|constructor]]].
    intros (H1 & _ & H2). rewrite E in H2. cbn in H2. split; [cbn; lia|constructor].
  - intros (H1 & H2 & H3 & H4 & H5).
    destruct (_ && _) eqn:E.
    + apply andb_true_iff in E as [Ea%Nat.eqb_eq Eb%Nat.eqb_eq]. apply IH.
      cbn [ordered bl_a bl_b bl_size]. split; [done|]. split.
      * intros t Ht. destruct (decide (t < bl_size cur)%nat); [by apply H2|].
        specialize (H4 (t - bl_size cur)%nat).
        replace (bl_a m + (t - bl_size cur))%nat with (bl_a cur + t)%nat in H4 by lia.
        replace (bl_b m + (t - bl_size cur))%nat with (bl_b cur + t)%nat in H4 by lia. apply H4. lia.
      * by rewrite !Nat.add_assoc, Ea, Eb.
    + destruct (bl_size cur) as [|n] eqn:En.
      * apply IH. cbn [ordered]. split; [lia|]. by split.
      * rewrite <-En in *. destruct (IH m (bl_a cur + bl_size cur)%nat (bl_b cur + bl_size cur)%nat ahi bhi)
          as [I1 I2]; [exact (conj H3 (conj H4 H5))|]. split; [exact (conj H1 (conj H2 I1))|].
        constructor; [lia|exact I2].
Qed.

(** ** Opcodes *)

Definition op_ok (o : Opcode) : Prop :=
  (op_i1 o <= op_i2 o /\ op_j1 o <= op_j2 o)%nat
  /\ (op_equal o = true -> (op_i1 o < op_i2 o /\ op_j1 o + (op_i2 o - op_i1 o) = op_j2 o)%nat
      /\ same (op_i1 o) (op_j1 o) (op_i2 o - op_i1 o)).
Fixpoint chain (i j : nat) (codes : list Opcode) (i' j' : nat) : Prop :=
  match codes with
  | [] => i = i' /\ j = j'
  | o :: codes => (op_i1 o = i /\ op_j1 o = j) /\ op_ok o /\ chain (op_i2 o) (op_j2 o) codes i' j'
  end.
Lemma chain_app i j cs ds i' j' i'' j'' :
  chain i j cs i' j' -> chain i' j' ds i'' j'' -> chain i j (cs ++ ds) i'' j''.
Proof.
  revert i j. induction cs as [|o cs IH]; intros i j; cbn [chain app]; [by intros [-> ->]|].
  intros (? & ? & ?) ?. split_and!; eauto; tauto.
Qed.

Lemma opcodes_chain bs : forall i j last,
  ordered i j (bs ++ [last]) (bl_a last) (bl_b last) -> bl_size last = 0%nat -> positive_blocks bs ->
  chain i j (opcodes_from i j (bs ++ [last])) (bl_a last) (bl_b last).
Proof.
  assert (forall i j m codes i' j', (i <= bl_a m)%nat -> (j <= bl_b m)%nat ->
    chain (bl_a m) (bl_b m) codes i' j' ->
    chain i j ((if (i <? bl_a m)%nat || (j <? bl_b m)%nat
       then [{| op_equal := false; op_i1 := i; op_i2 := bl_a m; op_j1 := j; op_j2 := bl_b m |}]
       else []) ++ codes) i' j') as Hgap.
  { intros i j m codes i' j' Hi Hj Hc.
    destruct (Nat.ltb_spec i (bl_a m)), (Nat.ltb_spec j (bl_b m)); cbn [orb app chain];
      [by split_and!..|]. by replace i with (bl_a m) by lia; replace j with (bl_b m) by lia. }
  induction bs as [|m bs IH]; intros i j last; cbn [app opcodes_from ordered].
  - intros ([? ?] & _ & _) Hz _. apply Hgap; [done..|]. rewrite Hz. done.
  - intros ([? ?] & Hs & Ho) Hz [Hm Hbs]%Forall_cons_iff. apply Hgap; [done..|].
    destruct (bl_size m) as [|n] eqn:En; [lia|]. rewrite <-En in *. cbn [app chain].
    split; [done|]. split; [|by apply IH].
    split; cbn [op_i1 op_i2 op_j1 op_j2 op_equal]; [lia|]. intros _. split; [lia|].
    by replace (bl_a m + bl_size m - bl_a m)%nat with (bl_size m) by lia.
Qed.

Lemma get_opcodes_chain : chain 0 0 (get_opcodes a b) (length a) (length b).
Proof.
  unfold get_opcodes, get_matching_blocks.
  set (last := {| bl_a := length a; bl_b := length b; bl_size := 0 |}).
  destruct (merge_blocks_ordered (matching_blocks_from a b (S (length a)) 0 (length a) 0 (length b))
    {| bl_a := 0; bl_b := 0; bl_size := 0 |} 0 0 (length a) (length b)) as [Ho Hp].
  { cbn [ordered bl_a bl_b bl_size]. split; [done|]. split; [intros t; lia|].
    apply matching_blocks_ordered; lia. }
  apply (opcodes_chain _ 0 0 last); [|done|done].
  eapply ordered_app; [exact Ho|]. cbn. split; [lia|]. split; [intros t; lia|lia].
Qed.
End blocks.

(** ** Ranges of lines *)

Lemma sub_lines_app (l : list str) i k j : (i <= k <= j)%nat -> sub_lines l i k ++ sub_lines l k j = sub_lines l i j.
Proof.
  intros H. unfold sub_lines. rewrite <-(take_drop (k - i) (take (j - i) (drop i l))). f_equal.
  - rewrite take_take. f_equal. lia.
  - rewrite skipn_firstn_comm, drop_drop. f_equal; [lia|f_equal; lia].
Qed.
Lemma sub_lines_nil (l : list str) i : sub_lines l i i = [].
Proof. unfold sub_lines. by rewrite Nat.sub_diag. Qed.
Lemma sub_lines_drop (l : list str) i j : (i <= j)%nat -> sub_lines l i j ++ drop j l = drop i l.
Proof.
  intros H. unfold sub_lines. rewrite <-(take_drop (j - i) (drop i l)) at 2. f_equal.
  rewrite drop_drop. f_equal. lia.
Qed.
Lemma length_sub_lines (l : list str) i j : (j <= length l)%nat -> length (sub_lines l i j) = (j - i)%nat.
Proof. intros H. unfold sub_lines. rewrite length_take, length_drop. lia. Qed.

Section groups.
Context (a b : list str).
Abbreviation same := (same a b). Abbreviation chain := (chain a b).

Lemma same_sub i j k :
  (i + k <= length a)%nat -> (j + k <= length b)%nat -> same i j k ->
  sub_lines a i (i + k) = sub_lines b j (j + k).
Proof.
  intros Ha Hb Hs. apply list_eq. intros t. unfold sub_lines.
  replace (i + k - i)%nat with k by lia. replace (j + k - j)%nat with k by lia.
  destruct (decide (t < k)%nat) as [Ht|Ht].
  - rewrite !lookup_take_lt, !lookup_drop by done. specialize (Hs t Ht). unfold line_at in Hs.
    rewrite !nth_lookup in Hs.
    destruct (lookup_lt_is_Some_2 a (i + t)) as [x Hx]; [lia|].
    destruct (lookup_lt_is_Some_2 b (j + t)) as [y Hy]; [lia|].
    rewrite Hx, Hy in *. cbn in Hs. congruence.
  - by rewrite !lookup_take_ge by lia.
Qed.
Lemma same_part i j k i' k' :
  same i j k -> (i <= i')%nat -> (i' + k' <= i + k)%nat -> same i' (j + (i' - i)) k'.
Proof.
  intros H Hi Hk t Ht. specialize (H (i' - i + t)%nat ltac:(lia)).
  by replace (i + (i' - i + t))%nat with (i' + t)%nat in H by lia; rewrite Nat.add_assoc in H.
Qed.

(** Equal stretches, and groups of opcodes between them. *)
Definition skip (i j i' j' : nat) : Prop :=
  (i <= i' /\ j + (i' - i) = j')%nat /\ same i j (i' - i).
Fixpoint script (i j : nat) (gs : list (list Opcode)) (i' j' : nat) : Prop :=
  match gs with
  | [] => skip i j i' j'
  | g :: gs => exists i1 j1 i2 j2,
      skip i j i1 j1 /\ g <> [] /\ chain i1 j1 g i2 j2 /\ script i2 j2 gs i' j'
  end.

Lemma skip_refl i j : skip i j i j.
Proof. split; [lia|intros t; lia]. Qed.
Lemma skip_trans i j i1 j1 i2 j2 : skip i j i1 j1 -> skip i1 j1 i2 j2 -> skip i j i2 j2.
Proof.
  intros [H1 S1] [H2 S2]. split; [lia|]. intros t Ht.
  destruct (decide (t < i1 - i)%nat); [by apply S1|].
  specialize (S2 (t - (i1 - i))%nat ltac:(lia)).
  replace (i1 + (t - (i1 - i)))%nat with (i + t)%nat in S2 by lia.
  by replace (j1 + (t - (i1 - i)))%nat with (j + t)%nat in S2 by lia.
Qed.
Lemma op_skip o : op_ok a b o -> op_equal o = true -> skip (op_i1 o) (op_j1 o) (op_i2 o) (op_j2 o).
Proof. intros [H1 H2] He. destruct (H2 He) as [H3 H4]. split; [lia|done]. Qed.

(** An equal opcode cut to [n] lines at its end or at its start. *)
Lemma head_of_ok n o : (0 < n)%nat -> op_ok a b o -> op_equal o = true ->
  op_ok a b (head_of n o) /\ skip (op_i2 (head_of n o)) (op_j2 (head_of n o)) (op_i2 o) (op_j2 o).
Proof.
  intros Hn [H1 H2] He. destruct (H2 He) as [H3 H4].
  unfold head_of, op_ok, skip. cbn [op_i1 op_i2 op_j1 op_j2 op_equal].
  split; [split; [lia|intros _; split; [lia|]]|split; [lia|]].
  - intros t Ht. apply H4. lia.
  - replace (Nat.min (op_j2 o) (op_j1 o + n))
      with (op_j1 o + (Nat.min (op_i2 o) (op_i1 o + n) - op_i1 o))%nat by lia.
    apply (same_part _ _ _ _ _ H4); lia.
Qed.
Lemma tail_of_ok n o : (0 < n)%nat -> op_ok a b o -> op_equal o = true ->
  op_ok a b (tail_of n o) /\ skip (op_i1 o) (op_j1 o) (op_i1 (tail_of n o)) (op_j1 (tail_of n o)).
Proof.
  intros Hn [H1 H2] He. destruct (H2 He) as [H3 H4].
  unfold tail_of, op_ok, skip. cbn [op_i1 op_i2 op_j1 op_j2 op_equal].
  assert (Nat.max (op_j1 o) (op_j2 o - n)
    = op_j1 o + (Nat.max (op_i1 o) (op_i2 o - n) - op_i1 o))%nat as Hj by lia.
  split; [split; [lia|intros _; split; [lia|]]|split; [lia|]].
  - rewrite Hj. apply (same_part _ _ _ _ _ H4); lia.
  - intros t Ht. apply H4. lia.
Qed.

Lemma trim_first_chain n i j codes i' j' : (0 < n)%nat -> chain i j codes i' j' ->
  exists i1 j1, skip i j i1 j1 /\ chain i1 j1 (trim_first n codes) i' j'.
Proof.
  intros Hn Hc. destruct codes as [|o codes]; cbn [trim_first].
  { exists i, j. split; [apply skip_refl|done]. }
  destruct Hc as ([<- <-] & Ho & Hc). destruct (op_equal o) eqn:He.
  - destruct (tail_of_ok n o Hn Ho He) as [H1 H2].
    eexists _, _. split; [exact H2|]. cbn [DifflibFacts.chain]. by split_and!.
  - exists (op_i1 o), (op_j1 o). split; [apply skip_refl|]. cbn [DifflibFacts.chain]. by split_and!.
Qed.
Lemma trim_last_chain n codes : forall i j i' j', (0 < n)%nat -> chain i j codes i' j' ->
  exists i1 j1, chain i j (trim_last n codes) i1 j1 /\ skip i1 j1 i' j'.
Proof.
  induction codes as [|o codes IH]; intros i j i' j' Hn Hc.
  { exists i, j. destruct Hc as [-> ->]. split; [done|apply skip_refl]. }
  destruct Hc as ([Hi Hj] & Ho & Hc). destruct codes as [|o' codes].
  - destruct Hc as [<- <-]. cbn [trim_last]. destruct (op_equal o) eqn:He.
    + destruct (head_of_ok n o Hn Ho He) as [H1 H2].
      eexists _, _. split; [|exact H2]. cbn [DifflibFacts.chain]. by split_and!.
    + exists (op_i2 o), (op_j2 o). split; [|apply skip_refl]. cbn [DifflibFacts.chain]. by split_and!.
  - destruct (IH _ _ _ _ Hn Hc) as (i1 & j1 & H1 & H2). exists i1, j1. split; [|done].
    change (trim_last n (o :: o' :: codes)) with (o :: trim_last n (o' :: codes)).
    exact (conj (conj Hi Hj) (conj Ho H1)).
Qed.

Lemma skip_script i j i1 j1 gs i' j' : skip i j i1 j1 -> script i1 j1 gs i' j' -> script i j gs i' j'.
Proof.
  intros Hs. destruct gs as [|g gs]; cbn [script]; [by apply skip_trans|].
  intros (i2 & j2 & i3 & j3 & H & Hrest). exists i2, j2, i3, j3. split; [by eapply skip_trans|done].
Qed.
(** The middle of a long equal opcode. *)
Lemma middle_skip n o : op_ok a b o -> op_equal o = true -> (n + n < op_i2 o - op_i1 o)%nat ->
  skip (op_i2 (head_of n o)) (op_j2 (head_of n o)) (op_i1 (tail_of n o)) (op_j1 (tail_of n o)).
Proof.
  intros [H1 H2] He Hn. destruct (H2 He) as [H3 H4].
  unfold head_of, tail_of, skip. cbn [op_i1 op_i2 op_j1 op_j2]. split; [lia|].
  replace (Nat.min (op_j2 o) (op_j1 o + n))
    with (op_j1 o + (Nat.min (op_i2 o) (op_i1 o + n) - op_i1 o))%nat by lia.
  apply (same_part _ _ _ _ _ H4); lia.
Qed.

Lemma group_codes_script n codes : forall group i0 j0 i j i1 j1 i' j', (0 < n)%nat ->
  chain i0 j0 group i j -> chain i j codes i1 j1 -> skip i1 j1 i' j' ->
  script i0 j0 (group_codes n codes group) i' j'.
Proof.
  induction codes as [|o codes IH]; intros group i0 j0 i j i1 j1 i' j' Hn Hg Hc Hs; cbn [group_codes].
  - destruct Hc as [-> ->]. destruct (only_equal group) eqn:E.
    + cbn [script]. destruct group as [|o [|]]; [|destruct Hg as ([<- <-] & Ho & [<- <-])|done].
      * by destruct Hg as [-> ->].
      * eapply skip_trans; [by apply op_skip|done].
    + cbn [script]. exists i0, j0, i1, j1. split; [apply skip_refl|].
      split; [by destruct group|]. by split.
  - destruct Hc as ([Hi Hj] & Ho & Hc). destruct (_ && _) eqn:E.
    + apply andb_true_iff in E as [He El%Nat.ltb_lt].
      destruct (head_of_ok n o Hn Ho He) as [H1 H2]. destruct (tail_of_ok n o Hn Ho He) as [H3 H4].
      cbn [script]. exists i0, j0, (op_i2 (head_of n o)), (op_j2 (head_of n o)).
      split; [apply skip_refl|]. split; [by destruct group|]. split.
      * eapply chain_app; [exact Hg|]. cbn [DifflibFacts.chain]. by split_and!.
      * assert (script (op_i1 (tail_of n o)) (op_j1 (tail_of n o))
          (group_codes n codes [tail_of n o]) i' j') as Hrest.
        { apply (IH _ _ _ (op_i2 o) (op_j2 o) i1 j1); [done| |done|done].
          cbn [DifflibFacts.chain]. by split_and!. }
        eapply skip_script; [by apply middle_skip|exact Hrest].
    + apply (IH _ _ _ (op_i2 o) (op_j2 o) i1 j1); [done| |done|done].
      eapply chain_app; [exact Hg|]. cbn [DifflibFacts.chain]. by split_and!.
Qed.

(** The groups lead from [a] to [b]. *)
Lemma grouped_script n : (0 < n)%nat -> a <> [] \/ b <> [] ->
  script 0 0 (get_grouped_opcodes a b n) (length a) (length b).
Proof.
  intros Hn Hab. pose proof (get_opcodes_chain a b) as Hc. unfold get_grouped_opcodes.
  destruct (get_opcodes a b) as [|o codes].
  { destruct Hc as [Ha Hb]. symmetry in Ha, Hb. apply nil_length_inv in Ha, Hb. by destruct Hab. }
  destruct (trim_first_chain n _ _ _ _ _ Hn Hc) as (i & j & Hs & Hc1).
  destruct (trim_last_chain n _ _ _ _ _ Hn Hc1) as (i1 & j1 & Hc2 & Hs2).
  eapply skip_script; [exact Hs|].
  by apply (group_codes_script n _ [] i j i j i1 j1).
Qed.

(** Every group has an equal opcode, or it is all the opcodes, none of them equal. *)
Definition has_equal (g : list Opcode) : Prop := Exists (fun o => op_equal o = true) g.
Lemma group_codes_equal n codes : forall group g, In g (group_codes n codes group) ->
  has_equal g \/ g = group ++ codes.
Proof.
  unfold has_equal. induction codes as [|o codes IH]; intros group g; cbn [group_codes].
  - destruct (only_equal group); [done|]. intros [<-|[]]. right. by rewrite app_nil_r.
  - destruct (_ && _) eqn:E.
    + apply andb_true_iff in E as [He _]. intros [<-|Hin].
      * left. apply Exists_app. right. by constructor.
      * apply IH in Hin as [?| ->]; [by left|]. left. by apply Exists_cons_hd.
    + intros [?| ->]%IH; [by left|]. right. by rewrite <-app_assoc.
Qed.
Lemma trim_no_equal n codes : ~ has_equal (trim_last n (trim_first n codes)) ->
  trim_last n (trim_first n codes) = codes.
Proof.
  assert (forall codes, ~ has_equal (trim_last n codes) -> trim_last n codes = codes) as Hl.
  { clear codes. intros codes. induction codes as [|o [|o' codes] IH]; [done| |].
    - cbn [trim_last]. destruct (op_equal o) eqn:He; [|done]. intros H. destruct H. by constructor.
    - change (trim_last n (o :: o' :: codes)) with (o :: trim_last n (o' :: codes)).
      intros H. f_equal. apply IH. intros H'. apply H. by apply Exists_cons_tl. }
  intros H. rewrite (Hl _ H). rewrite (Hl _ H) in H. destruct codes as [|o codes]; [done|].
  cbn [trim_first] in *. destruct (op_equal o) eqn:He; [|done]. destruct H. by constructor.
Qed.

Lemma chain_le codes : forall i j i' j', chain i j codes i' j' -> (i <= i' /\ j <= j')%nat.
Proof.
  induction codes as [|o codes IH]; intros i j i' j'; [by intros [-> ->]|].
  intros ([<- <-] & [Ho _] & Hc%IH). lia.
Qed.
Lemma chain_equal codes : forall i j i' j',
  chain i j codes i' j' -> has_equal codes -> (i < i')%nat.
Proof.
  induction codes as [|o codes IH]; intros i j i' j' Hc He; [by inversion He|].
  destruct Hc as ([<- <-] & [Ho1 Ho2] & Hc). pose proof (chain_le _ _ _ _ _ Hc).
  inversion He as [? ? Hoe|? ? Hrest]; subst.
  - destruct (Ho2 Hoe). lia.
  - specialize (IH _ _ _ _ Hc Hrest). lia.
Qed.

(** A group that replaces no line of [a] comes from an empty [a]. *)
Lemma group_nonempty n g i j i' j' : In g (get_grouped_opcodes a b n) -> a <> [] ->
  chain i j g i' j' -> (i < i')%nat.
Proof.
  intros Hin Ha Hc. unfold get_grouped_opcodes in Hin.
  apply group_codes_equal in Hin as [He| ->]; [by eapply chain_equal|].
  pose proof (get_opcodes_chain a b) as Hall. cbn [app] in Hc.
  destruct (get_opcodes a b) as [|o codes].
  { destruct Hall as [Hz _]. by destruct a. }
  destruct (decide (has_equal (trim_last n (trim_first n (o :: codes))))) as [He|He];
    [by eapply chain_equal|].
  rewrite (trim_no_equal n _ He) in Hc.
  assert (i = 0 /\ i' = length a)%nat as [-> ->].
  { destruct Hc as ([<- _] & _ & Hc), Hall as ([Hz _] & _ & Hall). split; [done|].
    clear -Hc Hall. assert (forall codes i j i1 j1 i2 j2, chain i j codes i1 j1 -> chain i j codes i2 j2 -> i1 = i2) as Hdet.
    { clear. intros codes. induction codes as [|o codes IH]; intros i j i1 j1 i2 j2.
      - by intros [<- _] [<- _].
      - intros (_ & _ & H1) (_ & _ & H2). eauto. }
    eauto. }
  destruct a; [done|cbn; lia].
Qed.
End groups.
