(* ===== verification/Patching.v ===== *)
(** * Verified fix diffs (src/pipelens/patching.py)

    Version bumps read from logs, rule diffs, the application of unified diffs and
    the checks a diff passes before it is published.  The document parsers
    (PyYAML, tomllib, json) that reject a patched file are the fields of
    [DocParsers].  A [files] dictionary is an association list. *)

From stdpp Require Import base list strings numbers.
From S2P Require Import Prelude Regex Json Loads Models Sanitizer Difflib.

Definition MAX_PATCH_CHARS : Z := 20000.
Definition MAX_CHANGED_LINES : Z := 200.
Definition HUNK_HEADER : pattern := Eval vm_compute in
  re_compile "^@@ -(\d+)(?:,(\d+))? \+(\d+)(?:,(\d+))? @@".
Definition PIP_UNSATISFIED : pattern := Eval vm_compute in
  re_compile_i "could not find a version that satisfies the requirement ([A-Za-z0-9][A-Za-z0-9._-]*)==([^\s;,()]+).*\(from versions: ([^)]*)\)".
Definition TABLE_SEPARATOR : pattern := Eval vm_compute in re_compile "\s*[│|]\s*".
Definition TABLE_BORDER_CHARS : str := u "┌├└─+-=".
Definition MERGED_SCANNER_COLUMNS : list str :=
  [u "vulnerability"; u "severity"; u "status"; u "installed version"; u "fixed version"].
Definition VERSION_TOKEN : pattern := Eval vm_compute in
  re_compile "^[0-9][A-Za-z0-9.+_:~-]*$".
Definition PINNED_VERSION_VALUE : pattern := Eval vm_compute in
  re_compile "==[^\s;,\x22'\\]+".
Definition WORKFLOW_PREFIX : str := u ".github/workflows/".

Inductive doc_format := YAML | TOML | JSON.
Definition format_name (f : doc_format) : str :=
  match f with YAML => u "YAML" | TOML => u "TOML" | JSON => u "JSON" end.
Definition STRUCTURED_FORMATS (suffix : str) : option doc_format :=
  if str_eqb suffix (u ".yml") then Some YAML
  else if str_eqb suffix (u ".yaml") then Some YAML
  else if str_eqb suffix (u ".toml") then Some TOML
  else if str_eqb suffix (u ".json") then Some JSON
  else None.

Definition FORBIDDEN_ADDITIONS : list (str * pattern) := Eval vm_compute in [
  (u "원격 스크립트를 셸로 실행",
   re_compile_i "\b(?:curl|wget)\b[^\n]*\|\s*(?:sudo\s+)?(?:ba|z|da)?sh\b|\b(?:ba|z)?sh\b[^\n]*\$\((?:curl|wget)\b");
  (u "secret·토큰 참조",
   re_compile_i "\$\{\{\s*(?:secrets\.|github\.token)|\b(?:GITHUB_TOKEN|ACTIONS_RUNTIME_TOKEN|ACTIONS_ID_TOKEN_REQUEST_TOKEN)\b");
  (u "인코딩된 명령 실행", re_compile_i "\bbase64\s+(?:-d|--decode)\b|\beval\s");
  (u "실행 권한 추가", re_compile_i "\bchmod\s+(?:[ugoa]*\+x|0?[0-7]*[1357][0-7]*)\b")].

Definition WORKFLOW_SENSITIVE : list (str * pattern) := Eval vm_compute in [
  (u "workflow 권한 변경",
   re_compile_i "^\s*permissions\s*:|\b(?:actions|checks|contents|deployments|id-token|issues|packages|pull-requests|security-events|statuses)\s*:\s*(?:read|write)\b");
  (u "workflow 트리거 변경",
   re_compile_i "^\s*on\s*:|\b(?:pull_request_target|workflow_run)\b")].

Definition MAX_LOG_NAMED_MANIFESTS : nat := 5.
Definition PIP_COMPILE_HEADER : pattern := Eval vm_compute in
  re_compile "^#\s+(pip-compile\s[^\n]*)$".
Definition LOG_NAMED_MANIFEST : pattern := Eval vm_compute in
  re_compile_i "(?<![\w./-])((?:\./)?(?:[\w-][\w.-]*/)*(?:requirements[\w.-]*\.txt|constraints[\w.-]*\.txt|pyproject\.toml))(?![\w.-])".

Record VersionBump := {
  vb_package : str; vb_current : str; vb_target : str; vb_reason : str }.

(** [_Hunk]: the stated first line, and the old and new lines. *)
Record _Hunk := { hk_old_start : Z; hk_old_lines : list str; hk_new_lines : list str }.

(** What a parser of [_syntax_error] does: it accepts the document, rejects it with one of
    the errors the code catches, or raises something else.  PyYAML and tomllib are
    parameters. *)
Inductive parse_result := Parses | Rejected | ParserRaises (e : exn).
Class DocParsers := {
  yaml_safe_load_all : str -> parse_result;
  tomllib_loads : str -> parse_result
}.
Definition json_document (content : str) : parse_result :=
  match json_loads_str content with
  | inl _ => Parses
  | inr NotJson => Rejected
  | inr f => ParserRaises (loads_error f)
  end.

Section patching.
Context {U : UnicodeDb}.

(** ** Unified diffs *)

(** int(digits): more than 4300 digits are a ValueError. *)
Definition int_of_digits (ds : str) : outcome Z :=
  if (4300 <? length ds)%nat
  then Raise (ValueError (u "Exceeds the limit (4300 digits) for integer string conversion"))
  else Ok (fold_left (fun acc c => 10 * acc + Z.of_N (default 0%N (digit_value c))) ds 0).

Definition newline_chars : str := [13; 10]%N.
Definition _strip_newline (line : str) : str := rstrip_chars newline_chars line.

Definition add_old (h : _Hunk) (body : str) : _Hunk :=
  {| hk_old_start := hk_old_start h; hk_old_lines := hk_old_lines h ++ [body];
     hk_new_lines := hk_new_lines h |}.
Definition add_new (h : _Hunk) (body : str) : _Hunk :=
  {| hk_old_start := hk_old_start h; hk_old_lines := hk_old_lines h;
     hk_new_lines := hk_new_lines h ++ [body] |}.

Definition starts_any (ps : list str) (s : str) : bool := existsb (fun p => starts_with p s) ps.
Definition DIFF_PREAMBLE : list str := [u "---"; u "+++"; u "diff "; u "index "].

(** One line of a diff: [done] are the finished hunks, [current] the open one. *)
Definition parse_line (st : list _Hunk * option _Hunk) (raw : str)
  : outcome (list _Hunk * option _Hunk) :=
  let '(done, current) := st in
  let line := rstrip_chars newline_chars raw in
  match re_match HUNK_HEADER line with
  | Some m =>
    let! old_start := int_of_digits (group0 m 1) in
    Ok (match current with Some h => done ++ [h] | None => done end,
        Some {| hk_old_start := old_start; hk_old_lines := []; hk_new_lines := [] |})
  | None =>
    match current with
    | None =>
      if starts_any DIFF_PREAMBLE line then Ok (done, None)
      else match strip line with
           | [] => Ok (done, None)
           | _ => Raise (PatchError (u "diff에 hunk 헤더가 없습니다."))
           end
    | Some h =>
      if starts_with (u "\") line then Ok (done, current)
      else
        let '(marker, body) := match line with
                               | c :: _ => (c, drop 1 raw)
                               | [] => (32%N, nl)
                               end in
        if (marker =? 32)%N then Ok (done, Some (add_new (add_old h body) body))
        else if (marker =? 45)%N then Ok (done, Some (add_old h body))
        else if (marker =? 43)%N then Ok (done, Some (add_new h body))
        else Raise (PatchError (u "diff에 해석할 수 없는 줄이 있습니다."))
    end
  end.

Fixpoint parse_lines (raws : list str) (st : list _Hunk * option _Hunk)
  : outcome (list _Hunk * option _Hunk) :=
  match raws with
  | [] => Ok st
  | raw :: raws' => let! st' := parse_line st raw in parse_lines raws' st'
  end.

Definition _parse_hunks (patch : str) : outcome (list _Hunk) :=
  let! st := parse_lines (splitlines_keep patch) ([], None) in
  match snd st with
  | Some h => Ok (fst st ++ [h])
  | None => Raise (PatchError (u "diff에 hunk가 없습니다."))
  end.

(** The lines of [expected] occur at [start], up to line ends. *)
Definition strs_eqb (a b : list str) : bool :=
  (length a =? length b)%nat && forallb (fun '(x, y) => str_eqb x y) (combine a b).
Definition matches_at (lines expected : list str) (start : nat) : bool :=
  let window := take (length expected) (drop start lines) in
  (length window =? length expected)%nat && strs_eqb (map _strip_newline window) expected.

Definition _locate_hunk (lines : list str) (hunk : _Hunk) (cursor : nat) : outcome nat :=
  let expected := map _strip_newline (hk_old_lines hunk) in
  let stated := Z.to_nat (Z.max (hk_old_start hunk - 1) 0) in
  if (cursor <=? stated)%nat && matches_at lines expected stated then Ok stated
  else
    match List.filter (matches_at lines expected)
            (seq cursor (length lines + 1 - length expected - cursor)) with
    | [start] => Ok start
    | [] => Raise (PatchError (u "diff의 기존 줄이 head 파일 내용과 일치하지 않습니다."))
    | _ => Raise (PatchError (u "diff를 적용할 위치가 하나로 정해지지 않습니다."))
    end.

Fixpoint apply_hunks (lines : list str) (hunks : list _Hunk) (cursor : nat) (result : list str)
  : outcome (list str) :=
  match hunks with
  | [] => Ok (result ++ drop cursor lines)
  | hunk :: hunks' =>
    let! start := _locate_hunk lines hunk cursor in
    apply_hunks lines hunks' (start + length (hk_old_lines hunk))
      (result ++ take (start - cursor) (drop cursor lines) ++ hk_new_lines hunk)
  end.

Definition apply_unified_diff (original patch : str) : outcome str :=
  let! hunks := _parse_hunks patch in
  let! lines := apply_hunks (splitlines_keep original) hunks 0 [] in
  Ok (concat lines).

Definition render_unified_diff (path original updated : str) : str :=
  concat (unified_diff (splitlines_keep original) (splitlines_keep updated)
            (u "a/" ++ path) (u "b/" ++ path) 2).

(** ** Version bumps *)

Definition strip_nonempty (items : list str) : list str :=
  List.filter (fun s => match s with [] => false | _ => true end) (map strip items).

Definition pip_bump (line : str) : list VersionBump :=
  match re_search PIP_UNSATISFIED line with
  | Some m =>
    let versions := strip_nonempty (split_char 44 (group0 m 3)) in
    match List.filter (re_matches VERSION_TOKEN) versions with
    | [] => []
    | available => [{| vb_package := group0 m 1; vb_current := group0 m 2;
                       vb_target := List.last available [];
                       vb_reason := u "설치 가능한 최신 버전" |}]
    end
  | None => []
  end.

Definition row := list (str * str).
Definition rget (r : row) (name : str) : str := default [] (dict_get str_eqb r name).

Definition ROW_NOTE : pattern := Eval vm_compute in re_compile "\s*\(.*\)$".

Definition _scanner_row_bump (r : row) : option VersionBump :=
  if negb (str_eqb (lower (rget r (u "status"))) (u "fixed")) then None
  else
    let package := re_sub ROW_NOTE (fun _ => []) (rget r (u "library")) in
    let current := rget r (u "installed version") in
    let target := strip (List.hd [] (split_char 44 (rget r (u "fixed version")))) in
    if negb (re_matches VERSION_TOKEN current && re_matches VERSION_TOKEN target)
       || str_eqb current target then None
    else Some {| vb_package := package; vb_current := current; vb_target := target;
                 vb_reason := default (u "보안") (dict_get str_eqb r (u "vulnerability"))
                              ++ u " 수정 버전" |}.

Definition PIPE : N := 124%N.
Definition BAR : N := 9474%N.                            (* │ *)

(** {name: index for index, name in enumerate(header)} *)
Fixpoint header_columns (i : nat) (header : list str) (acc : list (str * nat))
  : list (str * nat) :=
  match header with
  | [] => acc
  | name :: header' => header_columns (S i) header' (dict_set str_eqb acc name i)
  end.

Definition has_str (s : str) (l : list str) : bool := existsb (str_eqb s) l.

(** The row of a table line; a column beyond the cells is an IndexError. *)
Definition read_row (cells : list str) (columns : list (str * nat)) : outcome row :=
  omap_list (fun '(name, index) =>
    match cells !! index with
    | Some cell => Ok (name, cell)
    | None => Raise (IndexError (u "list index out of range"))
    end) columns.

Definition carry_merged (previous r : row) : row :=
  fold_left (fun r name =>
    match rget r name, rget previous name with
    | [], (_ :: _) as v => dict_set str_eqb r name v
    | _, _ => r
    end) MERGED_SCANNER_COLUMNS r.

Record table_state := {
  ts_bumps : list VersionBump;
  ts_columns : option (list (str * nat));
  ts_previous : row
}.

Definition table_cells (line : str) : list str :=
  map strip (re_split TABLE_SEPARATOR (strip_chars [BAR; PIPE] (strip line))).

Definition is_header (header : list str) : bool :=
  has_str (u "library") header && has_str (u "installed version") header
  && has_str (u "fixed version") header.

(** A line that can only end a table. *)
Definition outside_table (line : str) : bool :=
  negb (in_chars line BAR) && (count_char PIPE line <? 4)%nat.
Definition ends_table (line : str) : bool :=
  match lstrip line with [] => false | c :: _ => negb (in_chars TABLE_BORDER_CHARS c) end.

Definition continuation_row (library : str) : bool :=
  match library with [] => true | c :: _ => in_chars (u "├┼┤─") c end.

Definition table_line (st : table_state) (line : str) : outcome table_state :=
  if outside_table line then
    Ok (if ends_table line
        then {| ts_bumps := ts_bumps st; ts_columns := None; ts_previous := ts_previous st |}
        else st)
  else
    let cells := table_cells line in
    let header := map lower cells in
    if is_header header then
      Ok {| ts_bumps := ts_bumps st; ts_columns := Some (header_columns 0 header []);
            ts_previous := [] |}
    else match ts_columns st with
    | None => Ok st
    | Some columns =>
      if (length cells <? length columns)%nat then Ok st
      else
        let! r := read_row cells columns in
        if continuation_row (rget r (u "library")) then Ok st
        else
          let r := carry_merged (ts_previous st) r in
          Ok {| ts_bumps := ts_bumps st ++ option_list (_scanner_row_bump r);
                ts_columns := ts_columns st; ts_previous := r |}
    end.

Fixpoint table_lines (lines : list str) (st : table_state) : outcome table_state :=
  match lines with
  | [] => Ok st
  | l :: lines' => let! st' := table_line st l in table_lines lines' st'
  end.

Definition _scanner_table_bumps (log : str) : outcome (list VersionBump) :=
  let! st := table_lines (splitlines log)
    {| ts_bumps := []; ts_columns := None; ts_previous := [] |} in
  Ok (ts_bumps st).

Definition bump_key (b : VersionBump) : str * str := (lower (vb_package b), vb_current b).
Definition key_eqb (a b : str * str) : bool :=
  str_eqb (fst a) (fst b) && str_eqb (snd a) (snd b).
Definition unique_bumps (bumps : list VersionBump) : list ((str * str) * VersionBump) :=
  fold_left (fun d b => dict_setdefault key_eqb d (bump_key b) b) bumps [].

Definition find_version_bumps (log : str) : outcome (list VersionBump) :=
  let! table := _scanner_table_bumps log in
  Ok (map snd (unique_bumps (flat_map pip_bump (splitlines log) ++ table))).

Fixpoint collect_paths (ms : list mtch) (paths : list str) : list str :=
  match ms with
  | [] => paths
  | m :: ms' =>
    let path := remove_prefix (u "./") (group0 m 1) in
    if has_str (u "..") (PosixPath.parts path) || has_str path paths
    then collect_paths ms' paths
    else
      let paths' := paths ++ [path] in
      if (length paths' =? MAX_LOG_NAMED_MANIFESTS)%nat then paths'
      else collect_paths ms' paths'
  end.
Definition manifest_paths_in_log (log : str) : list str :=
  collect_paths (finditer LOG_NAMED_MANIFEST log) [].

(** ** Rule diffs *)

(** A pattern source built with re.escape matches the text itself. *)
Fixpoint literal (s : str) : regex :=
  match s with
  | [] => REps
  | c :: s' => RSeq (RSet (CSet false [IChar c])) (literal s')
  end.
Definition NAME_CHARS : cset :=
  CSet false [IRange 65 90; IRange 97 122; IRange 48 57; IChar 46; IChar 95; IChar 45].
Definition VERSION_CHARS : cset :=
  CSet false [IRange 48 57; IRange 65 90; IRange 97 122; IChar 46; IChar 43].
Definition pinned_pattern (b : VersionBump) : pattern :=
  Pattern true
    (RSeq (RNotBehind NAME_CHARS)
      (RSeq (literal (vb_package b))
        (RSeq (literal (u "==")) (RSeq (literal (vb_current b))
          (RNotAhead (RSet VERSION_CHARS)))))).

(** The replacement template of re.sub for a pattern without groups. *)
Definition bad_template {A} : outcome A := Raise (OtherException (u "re.error")).
Definition octal (c : N) : bool := in_range 48 55 c.
Definition template_escapes : list (N * N) :=
  [(97, 7); (98, 8); (102, 12); (110, 10); (114, 13); (116, 9); (118, 11); (92, 92)]%N.
Fixpoint expand_template (fuel : nat) (t : str) (m : mtch) : outcome str :=
  match fuel with
  | O => Ok []
  | S fuel =>
    match t with
    | [] => Ok []
    | c :: r =>
      if negb (c =? Parse.BSL)%N then let! s := expand_template fuel r m in Ok (c :: s)
      else
        match r with
        | [] => bad_template
        | d :: r1 =>
          if (d =? 103)%N then                                  (* \g<0> *)
            match r1 with
            | lt :: r2 =>
              let name := take_while_not 62 r2 in
              if (lt =? 60)%N && negb (str_eqb name []) && forallb (N.eqb 48) name
                 && negb (length name =? length r2)%nat
              then let! s := expand_template fuel (drop (S (length name)) r2) m in
                   Ok (m_text m ++ s)
              else bad_template
            | [] => bad_template
            end
          else if (d =? 48)%N then                              (* \0, \0o, \0oo *)
            let n := match r1 with
                     | a :: b :: _ => if octal a then (if octal b then 2 else 1)%nat else 0%nat
                     | [a] => if octal a then 1%nat else 0%nat
                     | [] => 0%nat
                     end in
            let code := fold_left (fun acc x => (8 * acc + (x - 48))%N) (take n r1) 0%N in
            let! s := expand_template fuel (drop n r1) m in Ok (N.land code 255 :: s)
          else if ascii_digit d then                            (* \ddd in octal *)
            match r1 with
            | a :: b :: r2 =>
              let code := (64 * (d - 48) + 8 * (a - 48) + (b - 48))%N in
              if octal d && octal a && octal b && (code <=? 255)%N
              then let! s := expand_template fuel r2 m in Ok (code :: s)
              else bad_template
            | _ => bad_template
            end
          else
            match dict_get N.eqb template_escapes d with
            | Some x => let! s := expand_template fuel r1 m in Ok (x :: s)
            | None =>
              if ascii_upper d || ascii_lower d then bad_template
              else let! s := expand_template fuel r1 m in Ok (c :: d :: s)
            end
        end
    end
  end.
Definition re_sub_template (p : pattern) (t s : str) : outcome str :=
  let '(ms, tl) := re_scan p s in
  let! _ := expand_template (length t) t (Mtch [] [] [] []) in
  let! parts := omap_list (fun '(skipped, m) =>
      let! r := expand_template (length t) t m in Ok (skipped ++ r)) ms in
  Ok (concat parts ++ tl).

Definition HASH_OPTION : str := u "--hash=".
Fixpoint hash_locked_lines (lines : list str) (p : pattern) : bool :=
  match lines with
  | [] => false
  | line :: rest =>
    let following := List.hd [] rest in
    (re_found p line
     && (contains HASH_OPTION line || starts_with HASH_OPTION (strip following)))
    || hash_locked_lines rest p
  end.
Definition _is_hash_locked (content : str) (p : pattern) : bool :=
  hash_locked_lines (splitlines content) p.

Fixpoint pip_compile_command (lines : list str) : option str :=
  match lines with
  | [] => None
  | line :: rest =>
    match re_match PIP_COMPILE_HEADER line with
    | Some m => Some (strip (group0 m 1))
    | None => pip_compile_command rest
    end
  end.

Definition _lock_regeneration_note (path content : str) (b : VersionBump) : str :=
  let prefix := u "`" ++ path ++ u "`의 " ++ vb_package b ++ u "==" ++ vb_current b
    ++ u "는 해시가 고정된 lock 항목이라 diff를 만들지 않았습니다." in
  let plain := prefix ++ u " 버전을 " ++ vb_target b ++ u "로 올린 뒤 lock을 다시 생성하세요." in
  match pip_compile_command (splitlines content) with
  | Some ((_ :: _) as command) =>
    match contains (u "://") command, snd (sanitize_log command) with
    | false, [] =>
      prefix ++ u " `" ++ command ++ u " --upgrade-package " ++ vb_package b ++ u "=="
      ++ vb_target b ++ u "`로 lock을 다시 생성하세요."
    | _, _ => plain
    end
  | _ => plain
  end.

(** sorted(files.items()) *)
Definition item_leb (x y : str * str) : bool :=
  str_ltb (fst x) (fst y) || (str_eqb (fst x) (fst y) && str_leb (snd x) (snd y)).

Definition bump_description (b : VersionBump) : str :=
  vb_package b ++ u "를 " ++ vb_current b ++ u "에서 " ++ vb_target b ++ u "로 변경하세요 ("
  ++ vb_reason b ++ u ").".

(** One bump against one file: a suggestion, a note, or nothing. *)
Inductive proposal := Proposed (s : Suggestion) | Locked (note : str) | NotPinned.
Definition propose_for (b : VersionBump) (path content : str) : outcome proposal :=
  let p := pinned_pattern b in
  if negb (re_found p content) then Ok NotPinned
  else if _is_hash_locked content p then Ok (Locked (_lock_regeneration_note path content b))
  else
    let! updated := re_sub_template p (vb_package b ++ u "==" ++ vb_target b) content in
    Ok (Proposed {| sg_description := bump_description b; sg_file := Some path;
                    sg_patch := Some (render_unified_diff path content updated);
                    sg_source := Some RULE; sg_patch_verified := false |}).

Definition proposed (p : proposal) : list Suggestion :=
  match p with Proposed s => [s] | _ => [] end.
Definition locked (p : proposal) : list str :=
  match p with Locked n => [n] | _ => [] end.

Definition propose_version_patches (bumps : list VersionBump) (files : list (str * str))
  : outcome (list Suggestion * list str) :=
  let! props := omap_list (fun '(b, (path, content)) => propose_for b path content)
    (flat_map (fun b => map (fun f => (b, f)) (py_sorted item_leb files)) bumps) in
  Ok (flat_map proposed props, flat_map locked props).

(** ** Verification *)

Definition is_header_line (line : str) : bool := starts_any [u "+++"; u "---"] line.
Definition first_is (c : N) (line : str) : bool :=
  match line with x :: _ => (x =? c)%N | [] => false end.
Definition PLUS : N := 43%N.
Definition MINUS : N := 45%N.

Definition changed_lines (patch : str) : list str :=
  List.filter (fun l => (first_is PLUS l || first_is MINUS l) && negb (is_header_line l))
    (splitlines patch).
Definition header_names (patch : str) : list str :=
  map (fun l => strip (drop 4 l)) (List.filter is_header_line (splitlines patch)).
Definition patch_body (patch : str) : list str :=
  List.filter (fun l => negb (is_header_line l)) (splitlines patch).
Definition added_lines (patch : str) : list str :=
  map (drop 1) (List.filter (first_is PLUS) (patch_body patch)).
Definition removed_lines (patch : str) : list str :=
  map (drop 1) (List.filter (first_is MINUS) (patch_body patch)).

Definition erase_versions (line : str) : str :=
  re_sub PINNED_VERSION_VALUE (fun _ => u "==") line.
Definition only_versions_change (patch : str) : bool :=
  (length (added_lines patch) =? length (removed_lines patch))%nat
  && forallb (fun '(old, new) => str_eqb (erase_versions new) (erase_versions old))
       (combine (removed_lines patch) (added_lines patch)).

(** The first label whose pattern occurs in one of the lines. *)
Fixpoint first_label (rules : list (str * pattern)) (lines : list str) : option str :=
  match rules with
  | [] => None
  | (label, p) :: rules' =>
    if existsb (re_found p) lines then Some label else first_label rules' lines
  end.

Definition RULE_VIOLATION : str := u "규칙 diff가 버전 문자열 외의 내용을 바꿈".

Definition _policy_violation (s : Suggestion) (patch : str) : option str :=
  if bool_decide (sg_source s = Some RULE) && negb (only_versions_change patch)
  then Some RULE_VIOLATION
  else
    match first_label FORBIDDEN_ADDITIONS (added_lines patch) with
    | Some label => Some label
    | None =>
      if starts_with WORKFLOW_PREFIX (or_str (sg_file s) [])
      then first_label WORKFLOW_SENSITIVE (added_lines patch ++ removed_lines patch)
      else None
    end.

Context {P : DocParsers}.

Definition _syntax_error (path content : str) : outcome (option str) :=
  match STRUCTURED_FORMATS (lower (PosixPath.suffix path)) with
  | None => Ok None
  | Some f =>
    match (match f with
           | YAML => yaml_safe_load_all | TOML => tomllib_loads | JSON => json_document
           end) content with
    | Parses => Ok None
    | Rejected => Ok (Some (u "수정 결과가 유효한 " ++ format_name f ++ u " 문서가 아닙니다."))
    | ParserRaises e => Raise e
    end
  end.

Definition allowed_headers (file : str) : list str := [u "a/" ++ file; u "b/" ++ file; file].

Definition TARGET_UNKNOWN : str := u "대상 파일을 head 기준으로 확인할 수 없습니다.".
Definition PATCH_TOO_LARGE : str := u "diff가 허용 크기를 넘습니다.".
Definition BAD_CHANGE_COUNT : str := u "diff의 변경 줄 수가 허용 범위를 벗어납니다.".
Definition OTHER_FILE : str := u "diff가 제안 대상 외의 파일을 가리킵니다.".
Definition HAS_SECRET : str := u "diff에 비밀값으로 보이는 내용이 포함돼 있습니다.".

(** The checks before the diff is applied to [content]. *)
Definition static_rejection (s : Suggestion) (patch file : str) : option str :=
  if MAX_PATCH_CHARS <? Z.of_nat (length patch) then Some PATCH_TOO_LARGE
  else
    let changed := Z.of_nat (length (changed_lines patch)) in
    if (changed =? 0) || (MAX_CHANGED_LINES <? changed) then Some BAD_CHANGE_COUNT
    else if existsb (fun h => negb (has_str h (allowed_headers file))) (header_names patch)
    then Some OTHER_FILE
    else
      match snd (sanitize_log patch) with
      | _ :: _ => Some HAS_SECRET
      | [] =>
        match _policy_violation s patch with
        | Some violation =>
          Some (u "diff에 허용되지 않는 변경이 포함돼 있습니다(" ++ violation ++ u ").")
        | None => None
        end
      end.

(** None when the diff may be published, else the reason. *)
Definition _patch_rejection (s : Suggestion) (files : list (str * str))
  : outcome (option str) :=
  let patch := or_str (sg_patch s) [] in
  match or_str (sg_file s) [] with
  | [] => Ok (Some TARGET_UNKNOWN)
  | file =>
    match dict_get str_eqb files file with
    | None => Ok (Some TARGET_UNKNOWN)
    | Some content =>
      match static_rejection s patch file with
      | Some reason => Ok (Some reason)
      | None =>
        match apply_unified_diff content patch with
        | Raise (PatchError reason) => Ok (Some reason)
        | Raise e => Raise e
        | Ok updated => _syntax_error file updated
        end
      end
    end
  end.

Definition with_patch (s : Suggestion) (patch : option str) (verified : bool) : Suggestion :=
  {| sg_description := sg_description s; sg_file := sg_file s; sg_patch := patch;
     sg_source := sg_source s; sg_patch_verified := verified |}.
Definition with_suggestions (d : Diagnosis) (ss : list Suggestion) (notes : list str)
  : Diagnosis :=
  {| dg_summary := dg_summary d; dg_root_cause := dg_root_cause d;
     dg_confidence := dg_confidence d; dg_evidence := dg_evidence d; dg_suggestions := ss;
     dg_conflicts := dg_conflicts d; dg_notes := notes |}.

Definition outcomes := list ((str * str) * nat).
Definition count_outcome (o : outcomes) (key : str * str) : outcomes :=
  dict_set key_eqb o key (default 0%nat (dict_get key_eqb o key) + 1)%nat.

Definition rejection_note (reason : str) : str :=
  u "수정 diff를 검증하지 못해 제외했습니다: " ++ reason.

Fixpoint verify_each (ss : list Suggestion) (files : list (str * str))
    (kept : list Suggestion) (notes : list str) (o : outcomes)
  : outcome (list Suggestion * list str * outcomes) :=
  match ss with
  | [] => Ok (kept, notes, o)
  | s :: ss' =>
    if negb (truthy (sg_patch s)) then verify_each ss' files (kept ++ [s]) notes o
    else
      let source := source_value (default LLM (sg_source s)) in
      let! rejection := _patch_rejection s files in
      match rejection with
      | None => verify_each ss' files (kept ++ [with_patch s (sg_patch s) true]) notes
                  (count_outcome o (source, u "verified"))
      | Some reason =>
        verify_each ss' files (kept ++ [with_patch s None false])
          (notes ++ [rejection_note reason]) (count_outcome o (source, u "rejected"))
      end
  end.

Definition verify_patch_suggestions (d : Diagnosis) (files : list (str * str))
  : outcome (Diagnosis * outcomes) :=
  let! (ss, notes, o) := verify_each (dg_suggestions d) files [] (dg_notes d) [] in
  Ok (with_suggestions d ss notes, o).

Definition propose_and_verify_patches (d : Diagnosis) (bumps : list VersionBump)
    (files : list (str * str)) : outcome (Diagnosis * outcomes) :=
  let! (rule_suggestions, rule_notes) := propose_version_patches bumps files in
  verify_patch_suggestions
    (with_suggestions d (rule_suggestions ++ dg_suggestions d) (dg_notes d ++ rule_notes)) files.

Definition strip_patches (d : Diagnosis) : Diagnosis :=
  with_suggestions d (map (fun s => with_patch s None false) (dg_suggestions d)) (dg_notes d).
End patching.

(** ** Applying a diff: specification *)

Section apply_spec.
Context {U : UnicodeDb}.

(** The line a hunk states, from 0. *)
Definition stated_line (h : _Hunk) : nat := Z.to_nat (Z.max (hk_old_start h - 1) 0).

(** [spliced n lines hunks out]: from line [n] on, [lines] with each hunk's old lines
    (equal up to line ends) replaced by its new lines, hunks in order and disjoint.
    A hunk lies at its stated line (the end of the text when it states a later line)
    or at the only place left where it fits. *)
Inductive spliced : nat -> list str -> list _Hunk -> list str -> Prop :=
| spliced_end n rest : spliced n rest [] rest
| spliced_hunk n kept old rest h hs out :
    map _strip_newline old = map _strip_newline (hk_old_lines h) ->
    (n + length kept = stated_line h)%nat
    \/ (old ++ rest = [] /\ n + length kept <= stated_line h)%nat
    \/ (forall kept' old' rest',
         kept' ++ old' ++ rest' = kept ++ old ++ rest ->
         map _strip_newline old' = map _strip_newline (hk_old_lines h) ->
         length kept' = length kept) ->
    spliced (n + length kept + length old) rest hs out ->
    spliced n (kept ++ old ++ rest) (h :: hs) (kept ++ hk_new_lines h ++ out).

Lemma strs_eqb_eq a b : strs_eqb a b = true <-> a = b.
Proof.
  unfold strs_eqb. revert b; induction a as [|x a IH]; intros [|y b]; simpl; try done.
  rewrite !andb_true_iff, str_eqb_eq. specialize (IH b). rewrite !andb_true_iff in IH.
  rewrite Nat.eqb_eq in *. split.
  - intros (H1 & -> & H2). f_equal. apply IH. auto.
  - intros [= -> ->]. destruct IH as [_ [H1 H2]]; auto.
Qed.

Lemma matches_at_spec lines h s :
  matches_at lines (map _strip_newline (hk_old_lines h)) s = true <->
  map _strip_newline (take (length (hk_old_lines h)) (drop s lines))
  = map _strip_newline (hk_old_lines h).
Proof.
  unfold matches_at. rewrite andb_true_iff, Nat.eqb_eq, strs_eqb_eq, !length_map.
  split; [by intros [_ H]|]. intros H. split; [|done].
  apply (f_equal length) in H. by rewrite !length_map in H.
Qed.

Lemma locate_stated lines h cursor :
  (cursor <=? stated_line h)%nat
    && matches_at lines (map _strip_newline (hk_old_lines h)) (stated_line h) = true ->
  _locate_hunk lines h cursor = Ok (stated_line h).
Proof. unfold _locate_hunk, stated_line. by intros ->. Qed.

(** A located hunk fits, at its stated line or at the only candidate. *)
Lemma locate_ok lines h cursor s :
  _locate_hunk lines h cursor = Ok s ->
  (cursor <= s)%nat
  /\ matches_at lines (map _strip_newline (hk_old_lines h)) s = true
  /\ (s = stated_line h
      \/ (s + length (hk_old_lines h) <= length lines)%nat
        /\ forall s', (cursor <= s')%nat -> (s' + length (hk_old_lines h) <= length lines)%nat ->
             matches_at lines (map _strip_newline (hk_old_lines h)) s' = true -> s' = s).
Proof.
  unfold _locate_hunk. fold (stated_line h).
  set (E := map _strip_newline (hk_old_lines h)).
  assert (HE : length E = length (hk_old_lines h)) by apply length_map.
  destruct (_ && _)%bool eqn:Eb.
  - apply andb_true_iff in Eb as [H1%Nat.leb_le H2]. intros [= <-]. auto.
  - destruct (List.filter _ _) as [|c [|]] eqn:Ef; [done| |done]. intros [= ->].
    assert (Hin : forall s', In s' [s] <-> In s' (List.filter (matches_at lines E)
      (seq cursor (length lines + 1 - length E - cursor)))) by by rewrite Ef.
    setoid_rewrite List.filter_In in Hin. setoid_rewrite in_seq in Hin.
    destruct (proj1 (Hin s) (or_introl eq_refl)) as [Hs Hm].
    split_and!; [lia|done|]. right. split; [lia|]. intros s' H1 H2 H3.
    destruct (proj2 (Hin s')) as [|[]]; [|done..]. split; [lia|done].
Qed.

Lemma take_drop_split {A} (l : list A) c s n :
  (c <= s)%nat ->
  drop c l = take (s - c) (drop c l) ++ take n (drop s l) ++ drop (s + n) l.
Proof.
  intros H. rewrite <- (take_drop (s - c) (drop c l)) at 1. f_equal.
  rewrite drop_drop. replace (c + (s - c))%nat with s by lia.
  rewrite <- (take_drop n (drop s l)) at 1. by rewrite drop_drop.
Qed.

Lemma apply_hunks_spliced lines hs cursor result out :
  apply_hunks lines hs cursor result = Ok out ->
  exists tail, out = result ++ tail /\ spliced (Nat.min cursor (length lines)) (drop cursor lines) hs tail.
Proof.
  revert cursor result. induction hs as [|h hs IH]; simpl; intros cursor result H.
  - injection H as <-. eexists. split; [done|constructor].
  - apply obind_Ok in H as (s & Hs & H). apply IH in H as (tail & -> & Htail).
    apply locate_ok in Hs as (Hle & Hm & Hloc).
    exists (take (s - cursor) (drop cursor lines) ++ hk_new_lines h ++ tail).
    split; [by rewrite <- !app_assoc|].
    apply matches_at_spec in Hm.
    rewrite (take_drop_split lines cursor s (length (hk_old_lines h)) Hle) at 1.
    assert (Hlen := f_equal length Hm). rewrite !length_map in Hlen.
    assert (Hl2 : length (take (s - cursor) (drop cursor lines))
      = Nat.min (s - cursor) (length lines - cursor)) by by rewrite length_take, length_drop.
    constructor; [done| |].
    + rewrite Hl2. rewrite length_take, length_drop in Hlen.
      destruct (decide (s <= length lines)%nat) as [Hsl|Hsl].
      * destruct Hloc as [->|[_ Hu]]; [left; lia|].
        right; right. intros k o r Heq Ho.
        rewrite <- take_drop_split in Heq by done.
        assert (Hlo := f_equal length Ho). rewrite !length_map in Hlo.
        assert (Htot := f_equal length Heq). rewrite !length_app, length_drop in Htot.
        assert (cursor + length k = s)%nat; [|lia].
        apply Hu; [lia|lia|]. apply matches_at_spec.
        rewrite <- drop_drop, <- Heq, <- Hlo, drop_app_length, take_app_length. done.
      * right; left. split; [|destruct Hloc as [->|[? _]]; lia].
        rewrite !drop_ge by lia. by destruct (length (hk_old_lines h)).
    + rewrite Hl2, Hlen.
      replace (Nat.min cursor (length lines) + Nat.min (s - cursor) (length lines - cursor)
        + length (hk_old_lines h))%nat
        with (Nat.min (s + length (hk_old_lines h)) (length lines)); [done|].
      rewrite length_take, length_drop in Hlen. lia.
Qed.
End apply_spec.

(** ** Which errors a diff can cause *)
Section apply_errors.
Context {U : UnicodeDb}.

Definition INT_LIMIT : exn :=
  ValueError (u "Exceeds the limit (4300 digits) for integer string conversion").
Definition diff_error (e : exn) : Prop := (exists msg, e = PatchError msg) \/ e = INT_LIMIT.

Lemma parse_line_error st raw e : parse_line st raw = Raise e -> diff_error e.
Proof.
  unfold parse_line, int_of_digits, diff_error. destruct st as [done current].
  repeat case_match; simpl; intros; simplify_eq; eauto.
Qed.
Lemma parse_lines_error raws st e : parse_lines raws st = Raise e -> diff_error e.
Proof.
  revert st; induction raws as [|raw raws IH]; intros st; simpl; [done|].
  destruct (parse_line st raw) as [st'|e'] eqn:E; simpl; [apply IH|].
  intros [= <-]. by eapply parse_line_error.
Qed.
Lemma parse_hunks_error patch e : _parse_hunks patch = Raise e -> diff_error e.
Proof.
  unfold _parse_hunks. destruct (parse_lines _ _) as [st|e'] eqn:E; simpl.
  - destruct (snd st); [done|]. intros [= <-]. left. eauto.
  - intros [= <-]. by eapply parse_lines_error.
Qed.
Lemma locate_error lines h c e :
  _locate_hunk lines h c = Raise e -> exists msg, e = PatchError msg.
Proof. unfold _locate_hunk. repeat case_match; intros; simplify_eq; eauto. Qed.
Lemma apply_hunks_error lines hs c r e :
  apply_hunks lines hs c r = Raise e -> exists msg, e = PatchError msg.
Proof.
  revert c r; induction hs as [|h hs IH]; intros c r; simpl; [done|].
  destruct (_locate_hunk lines h c) as [s|e'] eqn:E; simpl; [apply IH|].
  intros [= <-]. by eapply locate_error.
Qed.

(** C25: Applying a diff either rewrites the file exactly as the diff says -- hunks in
    order and disjoint, each hunk's context and removed lines equal to the lines they
    replace, everything between hunks untouched, each hunk at its stated line or at
    the only place where it fits -- or it reports a diff error; nothing else. *)
Theorem apply_unified_diff_spec (original patch : str) :
  match apply_unified_diff original patch with
  | Ok result =>
    exists hunks out, _parse_hunks patch = Ok hunks /\ hunks <> []
      /\ spliced 0 (splitlines_keep original) hunks out /\ result = concat out
  | Raise e => diff_error e
  end.
Proof.
  unfold apply_unified_diff. destruct (_parse_hunks patch) as [hunks|e] eqn:Eh; simpl.
  - destruct (apply_hunks _ hunks 0 []) as [out|e] eqn:Ea; simpl.
    + apply apply_hunks_spliced in Ea as (tail & -> & H). exists hunks, tail.
      split_and!; try done. unfold _parse_hunks in Eh.
      apply obind_Ok in Eh as (st & _ & Eh). destruct (snd st); [|done].
      injection Eh as <-. by destruct (fst st).
    + left. by eapply apply_hunks_error.
  - by apply parse_hunks_error in Eh.
Qed.
End apply_errors.

(** ** What a published diff satisfies *)
Section publishable.
Context {U : UnicodeDb} {P : DocParsers}.

(** No line contains a match of a listed pattern. *)
Definition free_of (rules : list (str * pattern)) (lines : list str) : Prop :=
  Forall (fun r => Forall (fun l => ~ occurs (snd r) l) lines) rules.

Definition publishable (s : Suggestion) (files : list (str * str)) : Prop :=
  exists file content updated patch,
    file <> [] /\ sg_file s = Some file /\ dict_get str_eqb files file = Some content
    /\ sg_patch s = Some patch
    /\ Z.of_nat (length patch) <= MAX_PATCH_CHARS
    /\ 1 <= Z.of_nat (length (changed_lines patch)) <= MAX_CHANGED_LINES
    /\ Forall (fun h => In h (allowed_headers file)) (header_names patch)
    /\ no_secret (strip_noise patch) = true
    /\ (sg_source s = Some RULE -> only_versions_change patch = true)
    /\ free_of FORBIDDEN_ADDITIONS (added_lines patch)
    /\ (starts_with WORKFLOW_PREFIX file = true ->
        free_of WORKFLOW_SENSITIVE (added_lines patch ++ removed_lines patch))
    /\ apply_unified_diff content patch = Ok updated
    /\ _syntax_error file updated = Ok None.

Lemma first_label_None rules lines : first_label rules lines = None <-> free_of rules lines.
Proof.
  induction rules as [|[label p] rules IH]; cbn [first_label].
  - split; [intros _; constructor|done].
  - unfold free_of. rewrite Forall_cons_iff. fold (free_of rules lines). rewrite <- IH. simpl.
    destruct (existsb (re_found p) lines) eqn:E.
    + split; [done|]. intros [H _]. apply existsb_exists in E as (l & Hl & Hp).
      rewrite List.Forall_forall in H. apply re_found_spec in Hp. by destruct (H l Hl).
    + split; [|by intros [_ ?]]. intros ->. split; [|done].
      apply List.Forall_forall. intros l Hl Hp%re_found_spec.
      assert (existsb (re_found p) lines = true) by (apply existsb_exists; eauto). congruence.
Qed.

Lemma sanitize_counts_nil patch :
  snd (sanitize_log patch) = [] <-> no_secret (strip_noise patch) = true.
Proof.
  split.
  - intros H. destruct (no_secret (strip_noise patch)) eqn:E; [done|].
    by apply sanitize_fires in E.
  - intros H. by rewrite sanitize_clean.
Qed.

Lemma policy_violation_None s patch :
  _policy_violation s patch = None <->
  (sg_source s = Some RULE -> only_versions_change patch = true)
  /\ free_of FORBIDDEN_ADDITIONS (added_lines patch)
  /\ (starts_with WORKFLOW_PREFIX (or_str (sg_file s) []) = true ->
      free_of WORKFLOW_SENSITIVE (added_lines patch ++ removed_lines patch)).
Proof.
  unfold _policy_violation. rewrite <- !first_label_None.
  destruct (bool_decide _ && negb _) eqn:E.
  - apply andb_true_iff in E as [E1%bool_decide_eq_true E2%negb_true_iff].
    split; [done|]. intros [H _]. rewrite H in E2; done.
  - destruct (first_label FORBIDDEN_ADDITIONS _) eqn:Ef; [split; [done|by intros (_ & ? & _)]|].
    assert (Hv : sg_source s = Some RULE -> only_versions_change patch = true).
    { intros Hs. rewrite bool_decide_true in E by done. by apply negb_false_iff in E. }
    destruct (starts_with _ _); [|by split; [intros _; split_and!|]].
    split; [intros H; split_and!; done|]. intros (_ & _ & H). by apply H.
Qed.

Lemma static_rejection_None s patch file :
  sg_file s = Some file ->
  static_rejection s patch file = None <->
  Z.of_nat (length patch) <= MAX_PATCH_CHARS
  /\ 1 <= Z.of_nat (length (changed_lines patch)) <= MAX_CHANGED_LINES
  /\ Forall (fun h => In h (allowed_headers file)) (header_names patch)
  /\ no_secret (strip_noise patch) = true
  /\ _policy_violation s patch = None.
Proof.
  intros Hf. unfold static_rejection. rewrite <- sanitize_counts_nil.
  destruct (Z.ltb_spec MAX_PATCH_CHARS (Z.of_nat (length patch))); [split; [done|lia]|].
  destruct (Z.eqb_spec (Z.of_nat (length (changed_lines patch))) 0); [split; [done|lia]|].
  destruct (Z.ltb_spec MAX_CHANGED_LINES (Z.of_nat (length (changed_lines patch))));
    [split; [done|lia]|]. cbn [orb].
  assert (Hh : existsb (fun h => negb (has_str h (allowed_headers file))) (header_names patch) = false
    <-> Forall (fun h => In h (allowed_headers file)) (header_names patch)).
  { rewrite <- not_true_iff_false, existsb_exists, List.Forall_forall. split.
    - intros Hn h Hin. destruct (has_str h (allowed_headers file)) eqn:E.
      + apply existsb_exists in E as (x & Hx & ->%str_eqb_eq). done.
      + destruct Hn. exists h. by rewrite E.
    - intros Ha (h & Hin & Hn%negb_true_iff). apply Ha in Hin.
      assert (has_str h (allowed_headers file) = true); [|congruence].
      apply existsb_exists. exists h. split; [done|by apply str_eqb_eq]. }
  rewrite <- Hh. destruct (existsb _ _); [split; [done|by intros (_ & _ & ? & _)]|].
  destruct (snd (sanitize_log patch)); [|split; [done|by intros (_ & _ & _ & ? & _)]].
  destruct (_policy_violation s patch); [by split; [|intros (_ & _ & _ & _ & ?)]|].
  split; [intros _|done]. split_and!; try done; lia.
Qed.

Lemma or_str_cons o c r : or_str o [] = c :: r -> o = Some (c :: r).
Proof. destruct o as [[|]|]; simpl; congruence. Qed.

(** A diff is accepted exactly when it is publishable. *)
Lemma patch_rejection_None s files :
  truthy (sg_patch s) = true -> _patch_rejection s files = Ok None <-> publishable s files.
Proof.
  intros Hp. destruct (sg_patch s) as [[|c0 patch0]|] eqn:Ep; try done.
  set (patch := c0 :: patch0) in *. unfold _patch_rejection. rewrite Ep.
  change (or_str (Some patch) []) with patch. unfold publishable. split.
  - destruct (or_str (sg_file s) []) as [|c file0] eqn:Ef; [done|].
    apply or_str_cons in Ef as Hf. set (file := c :: file0) in *.
    destruct (dict_get str_eqb files file) as [content|] eqn:Ec; [|done].
    destruct (static_rejection s patch file) eqn:Es; [done|].
    apply static_rejection_None in Es as (H1 & H2 & H3 & H4 & H5); [|done].
    apply policy_violation_None in H5 as (H5 & H6 & H7). rewrite Ef in H7.
    destruct (apply_unified_diff content patch) as [updated|e] eqn:Ea;
      [|destruct e; try done]. intros H8.
    exists file, content, updated, patch. destruct H2 as [H2a H2b]. by split_and!.
  - intros (file & content & updated & patch' & Hne & Hf & Hc & Hpp & H1 & H2 & H3 & H4 & H5 & H6 & H7 & Ha & Hs).
    rewrite Ep in Hpp. assert (Hq : patch' = patch) by congruence; subst patch'.
    assert (Ho : or_str (sg_file s) [] = file) by (rewrite Hf; by destruct file).
    rewrite Ho. destruct file as [|c file]; [done|].
    rewrite Hc. rewrite (proj2 (static_rejection_None s patch (c :: file) Hf)).
    + rewrite Ha. done.
    + split_and!; try done; try lia. apply policy_violation_None. by rewrite Ho.
Qed.

(** What verification does to one suggestion. *)
Definition verified_as (files : list (str * str)) (s s' : Suggestion) : Prop :=
  (truthy (sg_patch s) = false /\ s' = s)
  \/ (truthy (sg_patch s) = true /\ publishable s files
      /\ s' = with_patch s (sg_patch s) true)
  \/ (truthy (sg_patch s) = true /\ ~ publishable s files /\ s' = with_patch s None false).

Definition rejected (s s' : Suggestion) : bool :=
  truthy (sg_patch s) && negb (truthy (sg_patch s')).
Definition total (o : outcomes) : nat := foldr (fun kv n => (snd kv + n)%nat) 0%nat o.

Lemma key_eqb_eq a b : key_eqb a b = true <-> a = b.
Proof.
  unfold key_eqb. rewrite andb_true_iff, !str_eqb_eq. destruct a, b; simpl.
  split; [by intros [-> ->]|by intros [= -> ->]].
Qed.
Lemma total_count o k : total (count_outcome o k) = S (total o).
Proof.
  unfold count_outcome. induction o as [|[k' n] o IH]; simpl; [done|].
  destruct (key_eqb k k') eqn:E; simpl; [lia|].
  change (foldr _ _ ?x) with (total x). rewrite IH. lia.
Qed.

Lemma verify_each_spec files ss kept notes o :
  match verify_each ss files kept notes o with
  | Ok (kept', notes', o') =>
    exists ss' ns, kept' = kept ++ ss' /\ notes' = notes ++ ns
      /\ Forall2 (verified_as files) ss ss'
      /\ length ns = length (List.filter (uncurry rejected) (combine ss ss'))
      /\ total o' = (total o + length (List.filter (fun s => truthy (sg_patch s)) ss))%nat
  | Raise e => exists s, In s ss /\ _patch_rejection s files = Raise e
  end.
Proof.
  revert kept notes o. induction ss as [|s ss IH]; intros kept notes o; cbn [verify_each].
  { exists [], []. rewrite !app_nil_r. split_and!; try done. }
  destruct (truthy (sg_patch s)) eqn:Et; cbn [negb].
  - destruct (_patch_rejection s files) as [[reason|]|e] eqn:Er; simpl.
    + specialize (IH (kept ++ [with_patch s None false]) (notes ++ [rejection_note reason])
        (count_outcome o (source_value (default LLM (sg_source s)), u "rejected"))).
      destruct (verify_each _ _ _ _ _) as [[[k' n'] o']|e].
      * destruct IH as (ss' & ns & -> & -> & H1 & H2 & H3).
        exists (with_patch s None false :: ss'), (rejection_note reason :: ns).
        rewrite <- !app_assoc. split_and!; try done.
        -- constructor; [|done]. right; right. split_and!; [done| |done].
           intros Hp%patch_rejection_None; [congruence|done].
        -- simpl. unfold rejected at 1. rewrite Et. simpl. by rewrite H2.
        -- rewrite H3, total_count, Et. simpl. lia.
      * destruct IH as (x & Hx & He). exists x. by split; [right|].
    + specialize (IH (kept ++ [with_patch s (sg_patch s) true]) notes
        (count_outcome o (source_value (default LLM (sg_source s)), u "verified"))).
      destruct (verify_each _ _ _ _ _) as [[[k' n'] o']|e].
      * destruct IH as (ss' & ns & -> & -> & H1 & H2 & H3).
        exists (with_patch s (sg_patch s) true :: ss'), ns.
        rewrite <- !app_assoc. split_and!; try done.
        -- constructor; [|done]. right; left. split_and!; try done.
           by apply patch_rejection_None.
        -- simpl. unfold rejected at 1. rewrite Et. simpl. by rewrite Et.
        -- rewrite H3, total_count, Et. simpl. lia.
      * destruct IH as (x & Hx & He). exists x. by split; [right|].
    + exists s. by split; [left|].
  - specialize (IH (kept ++ [s]) notes o).
    destruct (verify_each _ _ _ _ _) as [[[k' n'] o']|e].
    + destruct IH as (ss' & ns & -> & -> & H1 & H2 & H3).
      exists (s :: ss'), ns. rewrite <- !app_assoc. split_and!; try done.
      * constructor; [|done]. by left.
      * cbn [combine List.filter uncurry]. unfold rejected at 1. by rewrite Et.
      * by rewrite H3; cbn [List.filter]; rewrite Et.
    + destruct IH as (x & Hx & He). exists x. by split; [right|].
Qed.

(** C10: Verification keeps the suggestions in order and decides each diff exactly: it is
    marked verified iff it is publishable -- the target is a fetched file, at most
    20000 characters and 1 to 200 changed lines, headers only of that file, no secret,
    no forbidden command, privilege or trigger change, only version strings changed by
    a rule diff, it applies to the fetched content and the result still parses -- and
    dropped with one note otherwise; every diff is counted once.  Only an error
    raised by one of the checks itself escapes. *)
Theorem verify_patch_suggestions_spec (d : Diagnosis) (files : list (str * str)) :
  match verify_patch_suggestions d files with
  | Ok (d', o) =>
    Forall2 (verified_as files) (dg_suggestions d) (dg_suggestions d')
    /\ (exists ns, dg_notes d' = dg_notes d ++ ns
        /\ length ns = length (List.filter (uncurry rejected)
             (combine (dg_suggestions d) (dg_suggestions d'))))
    /\ total o = length (List.filter (fun s => truthy (sg_patch s)) (dg_suggestions d))
    /\ d' = with_suggestions d (dg_suggestions d') (dg_notes d')
  | Raise e => exists s, In s (dg_suggestions d) /\ _patch_rejection s files = Raise e
  end.
Proof.
  unfold verify_patch_suggestions.
  pose proof (verify_each_spec files (dg_suggestions d) [] (dg_notes d) []) as H.
  destruct (verify_each _ _ _ _ _) as [[[ss ns] o]|e]; simpl; [|done].
  destruct H as (ss' & ns' & -> & -> & H1 & H2 & H3). simpl in *. eauto 10.
Qed.
End publishable.

(** ** Bumps, manifests and rule diffs *)
Section bumps.
Context {U : UnicodeDb}.

Lemma unique_bumps_spec bumps d :
  NoDup (map fst d) -> Forall (fun kv => fst kv = bump_key (snd kv)) d ->
  let d' := fold_left (fun d b => dict_setdefault key_eqb d (bump_key b) b) bumps d in
  NoDup (map fst d') /\ Forall (fun kv => fst kv = bump_key (snd kv)) d'
  /\ (forall kv, In kv d' -> In kv d \/ In (snd kv) bumps)
  /\ (forall k, In k (map fst d) \/ In k (map bump_key bumps) -> In k (map fst d')).
Proof.
  revert d. induction bumps as [|b bumps IH]; simpl; intros d Hd Hk.
  { split_and!; [done|done|tauto|tauto]. }
  destruct (IH (dict_setdefault key_eqb d (bump_key b) b)) as (H1 & H2 & H3 & H4).
  { apply dict_setdefault_NoDup; [apply key_eqb_eq|done]. }
  { unfold dict_setdefault. destruct (dict_get _ _ _); [done|].
    apply Forall_app. split; [done|by constructor]. }
  split_and!; [done|done| |].
  - intros kv Hin. apply H3 in Hin as [Hin|]; [|tauto].
    unfold dict_setdefault in Hin. destruct (dict_get _ _ _); [tauto|].
    apply in_app_or in Hin as [|[<-|[]]]; simpl; tauto.
  - intros k Hk'. apply H4. destruct Hk' as [Hin|[<-|Hin]]; [| |by right].
    + left. unfold dict_setdefault. destruct (dict_get _ _ _); [done|].
      rewrite map_app. apply in_or_app. by left.
    + left. unfold dict_setdefault.
      destruct (dict_get key_eqb d (bump_key b)) as [v|] eqn:E.
      * apply dict_get_Some_In in E; [|apply key_eqb_eq]. by apply (in_map fst) in E.
      * rewrite map_app. apply in_or_app. right. by left.
Qed.

Definition is_version (v : str) : bool := re_matches VERSION_TOKEN v.

Lemma pip_bump_target line b : In b (pip_bump line) -> is_version (vb_target b) = true.
Proof.
  unfold pip_bump. destruct (re_search _ line) as [m|]; [|done].
  set (l := List.filter (re_matches VERSION_TOKEN) _).
  assert (Hl : forall x, In x l -> is_version x = true) by (by intros x [_ Hx]%List.filter_In).
  destruct l as [|v vs] eqn:E; [done|]. intros [<-|[]]. cbn [vb_target]. apply Hl.
  destruct (exists_last (l := v :: vs)) as (i & x & Hx); [done|].
  rewrite Hx. rewrite List.last_last. apply in_or_app. right. by left.
Qed.

Lemma scanner_row_bump_ok r b :
  _scanner_row_bump r = Some b ->
  is_version (vb_current b) = true /\ is_version (vb_target b) = true
  /\ vb_current b <> vb_target b.
Proof.
  unfold _scanner_row_bump, is_version. destruct (negb (str_eqb (lower _) _)); [done|].
  destruct (_ || _)%bool eqn:E; [done|]. intros [= <-]; cbn [vb_current vb_target].
  apply orb_false_iff in E as [E1 E2]. apply negb_false_iff, andb_true_iff in E1 as [E1 E3].
  apply str_eqb_neq in E2. done.
Qed.

Definition table_bump_ok (b : VersionBump) : Prop :=
  is_version (vb_current b) = true /\ is_version (vb_target b) = true
  /\ vb_current b <> vb_target b.

Lemma read_row_error cells columns e :
  read_row cells columns = Raise e -> e = IndexError (u "list index out of range").
Proof.
  unfold read_row. induction columns as [|[name i] cols IH]; simpl; [done|].
  destruct (cells !! i); simpl; [|by intros [= <-]].
  destruct (omap_list _ cols); simpl; [done|]. intros [= <-]. by apply IH.
Qed.

Lemma table_line_ok st line :
  Forall table_bump_ok (ts_bumps st) ->
  match table_line st line with
  | Ok st' => Forall table_bump_ok (ts_bumps st')
  | Raise e => e = IndexError (u "list index out of range")
  end.
Proof.
  intros H. unfold table_line. destruct (outside_table line); [by destruct (ends_table line)|].
  cbn zeta. destruct (is_header _); [done|]. destruct (ts_columns st) as [cols|]; [|done].
  destruct (_ <? _)%nat; [done|].
  destruct (read_row _ cols) as [r|e] eqn:E; simpl; [|by eapply read_row_error].
  destruct (continuation_row _); [done|]. cbn [ts_bumps]. apply Forall_app. split; [done|].
  destruct (_scanner_row_bump _) eqn:Eb; [|constructor].
  constructor; [by eapply scanner_row_bump_ok|constructor].
Qed.
Lemma table_lines_ok lines st :
  Forall table_bump_ok (ts_bumps st) ->
  match table_lines lines st with
  | Ok st' => Forall table_bump_ok (ts_bumps st')
  | Raise e => e = IndexError (u "list index out of range")
  end.
Proof.
  revert st; induction lines as [|l lines IH]; intros st H; simpl; [done|].
  pose proof (table_line_ok st l H) as Hl.
  destruct (table_line st l) as [st'|e]; simpl; [by apply IH|done].
Qed.

(** The bumps read from a log have pairwise different (package, current version) keys,
    every bump found in the log is represented by its key, each comes from a pip message
    or a scanner table row, every target is a version token, and a bump from a scanner
    table also has a version token as current version, different from the target.  The
    only error is an IndexError of a table row. *)
Theorem find_version_bumps_spec (log : str) :
  match find_version_bumps log with
  | Ok bumps =>
    exists table, _scanner_table_bumps log = Ok table
    /\ let found := flat_map pip_bump (splitlines log) ++ table in
       NoDup (map bump_key bumps)
       /\ (forall b, In b bumps -> In b found)
       /\ (forall b, In b found -> In (bump_key b) (map bump_key bumps))
       /\ Forall (fun b => is_version (vb_target b) = true) bumps
       /\ Forall (fun b => In b (flat_map pip_bump (splitlines log)) \/ table_bump_ok b) bumps
  | Raise e => e = IndexError (u "list index out of range")
  end.
Proof.
  unfold find_version_bumps. destruct (_scanner_table_bumps log) as [table|e] eqn:Et; simpl.
  - exists table. split; [done|]. set (found := flat_map _ _ ++ table).
    assert (Htab : Forall table_bump_ok table).
    { unfold _scanner_table_bumps in Et.
      pose proof (table_lines_ok (splitlines log)
        {| ts_bumps := []; ts_columns := None; ts_previous := [] |} ltac:(constructor)) as H.
      destruct (table_lines _ _); simpl in Et; [|done]. by injection Et as <-. }
    destruct (unique_bumps_spec found []) as (H1 & H2 & H3 & H4); [constructor|constructor|].
    fold (unique_bumps found) in *.
    assert (Hkeys : map bump_key (map snd (unique_bumps found)) = map fst (unique_bumps found)).
    { rewrite map_map. apply List.map_ext_in. intros kv Hin.
      rewrite List.Forall_forall in H2. symmetry. by apply H2. }
    assert (Hin : forall b, In b (map snd (unique_bumps found)) -> In b found).
    { intros b Hb. apply in_map_iff in Hb as (kv & <- & Hb). by apply H3 in Hb as [[]|]. }
    rewrite Hkeys. split_and!; [done|done| | |].
    + intros b Hb. apply H4. right. by apply in_map.
    + apply List.Forall_forall. intros b Hb%Hin%in_app_or. destruct Hb as [Hb|Hb].
      * apply in_flat_map in Hb as (l & _ & Hb). by eapply pip_bump_target.
      * rewrite List.Forall_forall in Htab. by apply Htab in Hb as (_ & ? & _).
    + apply List.Forall_forall. intros b Hb%Hin%in_app_or. destruct Hb as [Hb|Hb]; [by left|].
      right. rewrite List.Forall_forall in Htab. by apply Htab.
  - unfold _scanner_table_bumps in Et.
    pose proof (table_lines_ok (splitlines log)
      {| ts_bumps := []; ts_columns := None; ts_previous := [] |} ltac:(constructor)) as H.
    destruct (table_lines _ _); simpl in Et; [done|]. by injection Et as <-.
Qed.

Lemma collect_paths_spec ms paths :
  NoDup paths -> (length paths < MAX_LOG_NAMED_MANIFESTS)%nat ->
  Forall (fun p => ~ In (u "..") (PosixPath.parts p)) paths ->
  let ps := collect_paths ms paths in
  NoDup ps /\ (length ps <= MAX_LOG_NAMED_MANIFESTS)%nat
  /\ Forall (fun p => ~ In (u "..") (PosixPath.parts p)) ps
  /\ (forall p, In p ps -> In p paths \/ exists m, In m ms /\ p = remove_prefix (u "./") (group0 m 1)).
Proof.
  revert paths. induction ms as [|m ms IH]; cbn [collect_paths]; intros paths Hn Hl Hd.
  { split_and!; [done|lia|done|tauto]. }
  cbn zeta. set (path := remove_prefix _ _).
  destruct (_ || _)%bool eqn:E.
  - destruct (IH paths Hn Hl Hd) as (H1 & H2 & H3 & H4). split_and!; try done.
    intros p Hp. apply H4 in Hp as [|(m' & Hm & ->)]; [tauto|]. right. exists m'. split; [by right|done].
  - apply orb_false_iff in E as [E1 E2].
    assert (Hnot : ~ In path paths).
    { intros Hin. unfold has_str in E2. apply not_true_iff_false in E2. apply E2.
      apply existsb_exists. exists path. split; [done|apply str_eqb_refl]. }
    assert (Hdd : ~ In (u "..") (PosixPath.parts path)).
    { intros Hin. unfold has_str in E1. apply not_true_iff_false in E1. apply E1.
      apply existsb_exists. exists (u ".."). split; [done|apply str_eqb_refl]. }
    assert (Hn' : NoDup (paths ++ [path])).
    { apply list.NoDup_app. split; [done|]. split; [|apply NoDup_singleton].
      intros x Hx ->%list_elem_of_singleton. by apply Hnot, list_elem_of_In. }
    assert (Hd' : Forall (fun p => ~ In (u "..") (PosixPath.parts p)) (paths ++ [path])).
    { apply Forall_app. split; [done|]. constructor; [done|constructor]. }
    assert (Hin' : forall p, In p (paths ++ [path]) ->
      In p paths \/ exists m', In m' (m :: ms) /\ p = remove_prefix (u "./") (group0 m' 1)).
    { intros p [|[<-|[]]]%in_app_or; [tauto|]. right. exists m. split; [by left|done]. }
    destruct (Nat.eqb_spec (length (paths ++ [path])) MAX_LOG_NAMED_MANIFESTS) as [Heq|Hne].
    + split_and!; [done|lia|done|done].
    + destruct (IH (paths ++ [path])) as (H1 & H2 & H3 & H4); [done| |done|].
      { rewrite length_app in *. simpl in *. lia. }
      split_and!; try done. intros p Hp. apply H4 in Hp as [Hp|(m' & Hm & ->)]; [by apply Hin'|].
      right. exists m'. split; [by right|done].
Qed.

(** The manifest paths taken from a log are at most five, pairwise different,
    never climb with "..", and each is a matched path of the log, which must name a
    requirements, constraints or pyproject file. *)
Theorem manifest_paths_in_log_spec (log : str) :
  let ps := manifest_paths_in_log log in
  NoDup ps /\ (length ps <= 5)%nat
  /\ Forall (fun p => ~ In (u "..") (PosixPath.parts p)) ps
  /\ (forall p, In p ps -> exists m, In m (finditer LOG_NAMED_MANIFEST log)
        /\ p = remove_prefix (u "./") (group0 m 1)).
Proof.
  destruct (collect_paths_spec (finditer LOG_NAMED_MANIFEST log) []) as (H1 & H2 & H3 & H4);
    [constructor|unfold MAX_LOG_NAMED_MANIFESTS; simpl; lia|constructor|].
  split_and!; try done. intros p Hp. by apply H4 in Hp as [[]|].
Qed.
End bumps.

(** ** Rule diffs *)
Section proposals.
Context {U : UnicodeDb}.

(** A file pins the package at the bumped version; every pin is free of hashes. *)
Definition pinned (b : VersionBump) (content : str) : bool := re_found (pinned_pattern b) content.
Definition hash_locked (b : VersionBump) (content : str) : bool :=
  _is_hash_locked content (pinned_pattern b).

Definition rule_suggestion (b : VersionBump) (path content updated : str) : Suggestion :=
  {| sg_description := bump_description b; sg_file := Some path;
     sg_patch := Some (render_unified_diff path content updated); sg_source := Some RULE;
     sg_patch_verified := false |}.

Definition proposal_ok (b : VersionBump) (path content : str) (p : proposal) : Prop :=
  match p with
  | NotPinned => pinned b content = false
  | Locked note => pinned b content = true /\ hash_locked b content = true
      /\ note = _lock_regeneration_note path content b
  | Proposed s => pinned b content = true /\ hash_locked b content = false
      /\ exists updated,
           re_sub_template (pinned_pattern b) (vb_package b ++ u "==" ++ vb_target b) content
           = Ok updated
           /\ s = rule_suggestion b path content updated
  end.

Lemma propose_for_ok b path content p :
  propose_for b path content = Ok p -> proposal_ok b path content p.
Proof.
  unfold propose_for, proposal_ok, pinned, hash_locked.
  destruct (re_found _ content) eqn:E1; cbn [negb]; [|by intros [= <-]].
  destruct (_is_hash_locked _ _) eqn:E2; [by intros [= <-]|].
  intros (updated & Hu & [= <-])%obind_Ok. eauto.
Qed.

Definition bump_pairs (bumps : list VersionBump) (files : list (str * str))
  : list (VersionBump * (str * str)) :=
  flat_map (fun b => map (fun f => (b, f)) (py_sorted item_leb files)) bumps.

Lemma in_bump_pairs bumps files b f :
  In (b, f) (bump_pairs bumps files) <-> In b bumps /\ In f files.
Proof.
  unfold bump_pairs. rewrite in_flat_map. split.
  - intros (b' & Hb & Hf). apply in_map_iff in Hf as (f' & [= -> ->] & Hf).
    split; [done|]. rewrite <- list_elem_of_In, py_sorted_perm, list_elem_of_In in Hf. done.
  - intros [Hb Hf]. exists b. split; [done|]. apply in_map.
    by rewrite <- list_elem_of_In, py_sorted_perm, list_elem_of_In.
Qed.

Lemma omap_list_error {A B} (f : A -> outcome B) l e :
  omap_list f l = Raise e -> exists x, In x l /\ f x = Raise e.
Proof.
  induction l as [|x l IH]; simpl; [done|].
  destruct (f x) as [y|e'] eqn:E; simpl; [|intros [= ->]; eauto].
  destruct (omap_list f l); simpl; [done|]. intros [= ->].
  destruct IH as (z & ? & ?); eauto.
Qed.

(** For every bump and fetched file that pins the package at the current version
    there is exactly one outcome: a rule suggestion with the unverified diff of the
    substituted file, or, when a pin is locked by hashes, a note and no diff; files
    that do not pin it yield nothing.  The only error is a bad replacement template. *)
Theorem propose_version_patches_spec (bumps : list VersionBump) (files : list (str * str)) :
  match propose_version_patches bumps files with
  | Ok (suggestions, notes) =>
    exists proposals,
      Forall2 (fun '(b, (path, content)) p => proposal_ok b path content p)
        (bump_pairs bumps files) proposals
      /\ suggestions = flat_map proposed proposals /\ notes = flat_map locked proposals
      /\ (length suggestions + length notes
         = length (List.filter (fun '(b, (_, content)) => pinned b content)
                     (bump_pairs bumps files)))%nat
      /\ (forall s, In s suggestions -> exists b path content updated,
            In b bumps /\ In (path, content) files /\ hash_locked b content = false
            /\ s = rule_suggestion b path content updated)
  | Raise e => exists b path content, In b bumps /\ In (path, content) files
      /\ re_sub_template (pinned_pattern b) (vb_package b ++ u "==" ++ vb_target b) content
         = Raise e
  end.
Proof.
  unfold propose_version_patches. fold (bump_pairs bumps files).
  destruct (omap_list _ (bump_pairs bumps files)) as [props|e] eqn:E; simpl.
  - apply omap_list_Ok in E. exists props.
    assert (Hall : Forall2 (fun '(b, (path, content)) p => proposal_ok b path content p)
      (bump_pairs bumps files) props).
    { induction E as [|[b [path content]] p l ps Hp _ IH]; constructor; [|done].
      by apply propose_for_ok. }
    clear E. split_and!; [done..| |].
    + induction Hall as [|[b [path content]] p l ps Hp _ IH]; simpl; [done|].
      rewrite !length_app. destruct p; simpl in Hp; simpl.
      * destruct Hp as (-> & _). simpl. rewrite <- IH. lia.
      * destruct Hp as (-> & _). simpl. rewrite <- IH. lia.
      * rewrite Hp. by rewrite <- IH.
    + intros s (p & Hp & Hs)%in_flat_map. destruct p as [s'| |]; try done.
      destruct Hs as [<-|[]]. apply list_elem_of_In, list_elem_of_lookup in Hp as (i & Hi).
      destruct (Forall2_lookup_r _ _ _ _ _ Hall Hi) as ([b [path content]] & Hl & Hok).
      apply list_elem_of_lookup_2, list_elem_of_In, in_bump_pairs in Hl as [Hb Hf].
      destruct Hok as (_ & Hh & updated & _ & ->). eauto 10.
  - apply omap_list_error in E as ([b [path content]] & Hin & He).
    apply in_bump_pairs in Hin as [Hb Hf]. exists b, path, content. split_and!; [done..|].
    unfold propose_for in He. destruct (negb _); [done|]. destruct (_is_hash_locked _ _); [done|].
    destruct (re_sub_template _ _ _); simpl in He; [done|]. congruence.
Qed.
End proposals.

(** ** Behaviours at the edge of the input *)

(** A scanner table whose header repeats a column name makes a shorter row an
    IndexError, which no caller in patching.py turns into a skipped row. *)
Example scanner_table_index_error :
  @find_version_bumps ascii_db
    (u "| library | x | x | installed version | fixed version |
| a | b | c | d |") = Raise (IndexError (u "list index out of range")).
Proof. vm_compute. reflexivity. Qed.

(** A hunk header with more digits than int() accepts is a ValueError, not a
    PatchError: it escapes the verification of the diff. *)
Example hunk_number_escapes :
  @apply_unified_diff ascii_db (u "x" ++ nl)
    (u "@@ -" ++ repeat 49%N 4301 ++ u " +1 @@" ++ nl) = Raise INT_LIMIT.
Proof. vm_compute. reflexivity. Qed.

(** The rule pattern ignores case but the replacement does not, so a diff that
    changes the spelling of the package breaks the rule policy. *)
Example recased_pin_violates_policy :
  @only_versions_change ascii_db
    (@render_unified_diff (u "requirements.txt") (u "Django==1.0" ++ nl) (u "django==2.0" ++ nl))
  = false.
Proof. vm_compute. reflexivity. Qed.
