(* ===== verification/RenderFacts.v ===== *)
(** * Rendered diffs apply

    The text of [unified_diff] splits into the lines it was made of, its hunk headers are
    read back, and its hunks replace what the groups of opcodes replace; so
    [apply_unified_diff] undoes [render_unified_diff]. *)

From Stdlib Require Import QArith DecimalFacts DecimalPos DecimalN.
From stdpp Require Import base list strings numbers.
From S2P Require Import Prelude Models Regex Difflib DifflibFacts Patching.

(** ** Lines that end *)

(** No line boundary in a text. *)
Abbreviation unbroken := (forallb (fun c => negb (is_linebreak c))).

Definition starts_lf (s : str) : Prop := head s = Some 10%N.
Definition terminated (l : str) : Prop := forall s, ~ starts_lf s ->
  splitlines_keep (l ++ s) = l :: splitlines_keep s.

Lemma terminated_cons c l : is_linebreak c = false -> terminated l -> terminated (c :: l).
Proof.
  intros Hc Hl s Hs. cbn [app splitlines_keep]. unfold is_crlf.
  destruct (N.eqb_spec c 13) as [->|]; [done|]. cbn [andb]. by rewrite Hc, (Hl s Hs).
Qed.
Lemma terminated_app t l : forallb (fun c => negb (is_linebreak c)) t = true -> terminated l ->
  terminated (t ++ l).
Proof.
  intros Ht Hl. induction t as [|c t IH]; [done|]. cbn [forallb] in Ht.
  apply andb_true_iff in Ht as [Hc%negb_true_iff Ht]. apply terminated_cons; auto.
Qed.
Lemma terminated_nl : terminated nl.
Proof. intros s _. reflexivity. Qed.

(** The text is empty or ends with a line boundary. *)
Definition closed (t : str) : Prop := t = [] \/ exists r c, t = r ++ [c] /\ is_linebreak c = true.
Lemma closed_tail c t : closed (c :: t) -> t <> [] -> closed t.
Proof.
  intros [?|(r & d & Hr & Hd)] Ht; [done|]. right. destruct r as [|x r].
  - injection Hr as _ ->. done.
  - injection Hr as _ ->. eauto.
Qed.
Lemma splitlines_terminated t : closed t -> Forall terminated (splitlines_keep t).
Proof.
  remember (length t) as n eqn:Hn. revert t Hn.
  induction (lt_wf n) as [n _ IH]. intros t -> Ht. destruct t as [|c t]; [constructor|].
  cbn [splitlines_keep]. destruct (is_crlf c t) eqn:Ec.
  - unfold is_crlf in Ec. apply andb_true_iff in Ec as [->%N.eqb_eq Ec].
    destruct t as [|d t]; [done|]. apply N.eqb_eq in Ec as ->. constructor.
    + intros s _. reflexivity.
    + apply (IH (length t)); [cbn; lia|done|]. destruct t as [|x t]; [by left|].
      by apply (closed_tail 10); [apply (closed_tail 13)|].
  - destruct (is_linebreak c) eqn:Eb.
    + constructor.
      * intros s Hs. cbn [app splitlines_keep]. replace (is_crlf c s) with false; [by rewrite Eb|].
        unfold is_crlf. destruct (c =? 13)%N; [|done]. destruct s as [|d s]; [done|].
        cbn. destruct (N.eqb_spec d 10) as [->|]; [by destruct Hs|done].
      * apply (IH (length t)); [cbn; lia|done|].
        destruct t as [|x t]; [by left|by apply (closed_tail c)].
    + assert (t <> []) as Hne.
      { intros ->. destruct Ht as [?|(r & d & Hr & Hd)]; [done|].
        destruct r as [|? [|]]; [|done..]. injection Hr as ->. congruence. }
      assert (Forall terminated (splitlines_keep t)) as Hf
        by (apply (IH (length t)); [cbn; lia|done|by apply (closed_tail c)]).
      destruct (splitlines_keep t) as [|l ls] eqn:El.
      * pose proof (concat_splitlines_keep t) as Hc. rewrite El in Hc. by destruct Hne.
      * apply Forall_cons_iff in Hf as [Hl Hls]. constructor; [by apply terminated_cons|done].
Qed.

Definition diff_line (l : str) : Prop := terminated l /\ l <> [] /\ ~ starts_lf l.
Lemma split_concat ls : Forall diff_line ls -> splitlines_keep (concat ls) = ls.
Proof.
  induction 1 as [|l ls (Hl & _) Hls IH]; [done|]. cbn [concat]. rewrite Hl; [by rewrite IH|].
  destruct Hls as [|l' ls (_ & Hne & Hlf)]; [done|]. cbn [concat]. by destruct l'.
Qed.

(** ** Stripping line ends *)

Lemma rstrip_chars_keep chars c l :
  in_chars chars c = false -> rstrip_chars chars (c :: l) = c :: rstrip_chars chars l.
Proof.
  intros Hc. unfold rstrip_chars, rstrip_by. cbn [rev].
  assert (forall s, rev (drop_while (in_chars chars) (s ++ [c])) = c :: rev (drop_while (in_chars chars) s)) as H.
  { intros s. induction s as [|x s IH]; cbn [app drop_while]; [by rewrite Hc|].
    destruct (in_chars chars x); [done|]. by rewrite app_comm_cons, rev_app_distr. }
  apply H.
Qed.
Lemma rstrip_chars_app chars t l :
  forallb (fun c => negb (in_chars chars c)) t = true ->
  rstrip_chars chars (t ++ l) = t ++ rstrip_chars chars l.
Proof.
  induction t as [|c t IH]; [done|]. cbn [forallb app]. intros [Hc%negb_true_iff Ht]%andb_true_iff.
  by rewrite rstrip_chars_keep, IH.
Qed.
Lemma unbroken_newlines t : forallb (fun c => negb (is_linebreak c)) t = true ->
  forallb (fun c => negb (in_chars newline_chars c)) t = true.
Proof.
  induction t as [|c t IH]; [done|]. cbn [forallb]. intros [Hc Ht]%andb_true_iff.
  rewrite IH by done. rewrite andb_true_r. unfold in_chars, newline_chars. cbn [existsb].
  destruct (N.eqb_spec c 13) as [->|]; [done|]. by destruct (N.eqb_spec c 10) as [->|].
Qed.

(** ** Hunk headers *)
Section header.
Context {U : UnicodeDb}.

Definition digit_class : cset := CSet false [IDigit].
Definition digits_re : regex := RRep true 1 None (RSet digit_class).
Definition digits (ds : str) : Prop := Forall (fun c => ascii_digit c = true) ds.
Definition no_digit (s : str) : Prop := match s with c :: _ => is_digit c = false | [] => True end.

Lemma ascii_digit_is c : ascii_digit c = true -> is_digit c = true.
Proof.
  intros H. unfold is_digit, digit_value. rewrite H. unfold ascii_digit, in_range in H.
  apply andb_true_iff in H as [_ H%N.leb_le].
  assert (is_ascii c = true) as -> by (apply N.ltb_lt; lia). done.
Qed.
Lemma digit_class_has c : cset_has false digit_class c = is_digit c.
Proof. unfold cset_has. cbn. by rewrite orb_false_r. Qed.

Definition after (p : option N) (ds : str) : option N := List.last (map Some ds) p.
Lemma after_cons p c ds : after p (c :: ds) = after (Some c) ds.
Proof.
  unfold after. cbn [map List.last]. destruct ds as [|d ds]; [done|].
  revert c d. induction ds as [|e ds IH]; intros c d; [done|]. cbn [map List.last] in *. apply (IH c e).
Qed.

Lemma loop_digits k x ds : forall fuel p rest caps, (length ds < fuel)%nat ->
  digits ds -> no_digit rest -> k (MS (after p ds) rest caps) = Some x ->
  rep_loop false true (RSet digit_class) k fuel 0 None (MS p (ds ++ rest) caps) = Some x.
Proof.
  induction ds as [|c ds IH]; intros fuel p rest caps Hf Hd Hr Hk;
    (destruct fuel as [|fuel]; [cbn in Hf; lia|]); rewrite rep_loop_free; cbn [hi_zero]; cbv zeta;
    cbn [mrun ms_rest app].
  - destruct rest as [|c rest]; [done|]. rewrite digit_class_has. cbn in Hr. by rewrite Hr.
  - apply Forall_cons_iff in Hd as [Hc Hd].
    rewrite digit_class_has, (ascii_digit_is c Hc). unfold shorter. cbn [ms_rest ms_caps].
    replace (_ <? _)%nat with true by (symmetry; apply Nat.ltb_lt; cbn; lia).
    cbn [dec_hi option_map]. rewrite (IH fuel (Some c) rest caps); [done|cbn in Hf; lia|done|done|].
    by rewrite <-(after_cons p c ds).
Qed.
Lemma group_digits n k x p ds rest caps : ds <> [] -> digits ds -> no_digit rest ->
  k (MS (after p ds) rest ((n, ds) :: caps)) = Some x ->
  mrun false (RGroup n (RSeq digits_re REps)) k (MS p (ds ++ rest) caps) = Some x.
Proof.
  intros Hne Hd Hr Hk. destruct ds as [|c ds]; [done|]. apply Forall_cons_iff in Hd as [Hc Hd].
  change (mrun false digits_re (fun st' => k (add_cap n (MS p ((c :: ds) ++ rest) caps) st'))
    (MS p ((c :: ds) ++ rest) caps) = Some x).
  unfold digits_re. rewrite mrun_rep. cbn [Nat.add]. rewrite rep_loop_more. cbn [mrun ms_rest app].
  rewrite digit_class_has, (ascii_digit_is c Hc). cbn [dec_hi option_map ms_caps].
  apply loop_digits; [cbn; rewrite length_app; lia|done|done|].
  rewrite <-(after_cons p c ds). unfold add_cap, consumed. cbn [ms_rest ms_prev ms_caps].
  replace (take _ _) with (c :: ds); [done|].
  rewrite app_comm_cons, length_app, Nat.add_sub. symmetry. apply take_app_length.
Qed.
Lemma literal_char c r k p s caps :
  mrun false (RSeq (RSet (CSet false [IChar c])) r) k (MS p (c :: s) caps)
  = mrun false r k (MS (Some c) s caps).
Proof. cbn. unfold cset_has. cbn. by rewrite N.eqb_refl. Qed.

(** (?:,(\d+))? *)
Definition opt_re (n : nat) : regex :=
  RRep true 0 (Some 1%nat) (RSeq (RSet (CSet false [IChar 44])) (RSeq (RGroup n (RSeq digits_re REps)) REps)).
Definition opt_text (e : str) : str := match e with [] => [] | _ => 44%N :: e end.
Definition opt_prev (p : option N) (e : str) : option N := match e with [] => p | _ => after (Some 44%N) e end.
Definition opt_caps (n : nat) (e : str) (caps : list (nat * str)) : list (nat * str) :=
  match e with [] => caps | _ => (n, e) :: caps end.
Lemma opt_match n k x p e rest caps : digits e -> no_digit rest -> head rest <> Some 44%N ->
  k (MS (opt_prev p e) rest (opt_caps n e caps)) = Some x ->
  mrun false (opt_re n) k (MS p (opt_text e ++ rest) caps) = Some x.
Proof.
  intros He Hr Hc Hk. unfold opt_re. rewrite mrun_rep, rep_loop_free. cbn [hi_zero]. cbv zeta.
  destruct e as [|d e]; cbn [opt_text opt_prev opt_caps app] in *.
  - cbn [mrun ms_rest]. destruct rest as [|c rest]; [done|].
    replace (cset_has false (CSet false [IChar 44]) c) with false; [done|].
    change (cset_has false (CSet false [IChar 44]) c) with ((44 =? c)%N || false).
    destruct (N.eqb_spec 44 c) as [<-|]; [by destruct Hc|done].
  - rewrite literal_char. match goal with |- match ?m with _ => _ end = _ => assert (m = Some x) as -> end; [|done].
    change (mrun false (RGroup n (RSeq digits_re REps)) 
      (fun st' => if shorter st' (MS p (44%N :: (d :: e) ++ rest) caps) then
         rep_loop false true (RSeq (RSet (CSet false [IChar 44])) (RSeq (RGroup n (RSeq digits_re REps)) REps)) k
           (length (ms_rest (MS p (44%N :: (d :: e) ++ rest) caps))) 0 (dec_hi (Some 1%nat)) st' else None)
      (MS (Some 44%N) ((d :: e) ++ rest) caps) = Some x).
    apply group_digits; [done|done|done|]. unfold shorter. cbn [ms_rest].
    replace (_ <? _)%nat with true by (symmetry; apply Nat.ltb_lt; cbn; rewrite length_app; lia).
    cbn [length app]. rewrite rep_loop_free. cbn [hi_zero dec_hi option_map Init.Nat.pred]. done.
Qed.

Lemma header_shape : p_regex HUNK_HEADER =
  RSeq RBegin (fold_right (fun c r => RSeq (RSet (CSet false [IChar c])) r)
    (RSeq (RGroup 1 (RSeq digits_re REps)) (RSeq (opt_re 2)
      (fold_right (fun c r => RSeq (RSet (CSet false [IChar c])) r)
        (RSeq (RGroup 3 (RSeq digits_re REps)) (RSeq (opt_re 4)
          (fold_right (fun c r => RSeq (RSet (CSet false [IChar c])) r) REps (u " @@"))))
        (u " +")))) (u "@@ -")).
Proof. vm_compute. reflexivity. Qed.

Lemma anchored r k s caps :
  mrun false (RSeq RBegin r) k (MS None s caps) = mrun false r k (MS None s caps).
Proof. reflexivity. Qed.
Lemma run_seq ci r1 r2 k st : mrun ci (RSeq r1 r2) k st = mrun ci r1 (mrun ci r2 k) st.
Proof. reflexivity. Qed.

Definition header_line (d1 e1 d2 e2 : str) : str :=
  u "@@ -" ++ d1 ++ opt_text e1 ++ u " +" ++ d2 ++ opt_text e2 ++ u " @@".
Lemma header_match d1 e1 d2 e2 :
  d1 <> [] -> d2 <> [] -> digits d1 -> digits e1 -> digits d2 -> digits e2 ->
  exists m, re_match HUNK_HEADER (header_line d1 e1 d2 e2) = Some m /\ group0 m 1 = d1.
Proof.
  intros Hn1 Hn2 H1 H3 H2 H4.
  assert (forall e rest, no_digit rest -> no_digit (opt_text e ++ rest)) as Ho.
  { intros e rest Hr. by destruct e. }
  assert (exists x, mrun false (p_regex HUNK_HEADER) Some (MS None (header_line d1 e1 d2 e2) []) = Some x
    /\ dict_get Nat.eqb (ms_caps x) 1%nat = Some d1) as (x & Hx & Hc).
  { eexists. rewrite header_shape. unfold header_line. split.
    - change (u "@@ -") with [64; 64; 32; 45]%N. change (u " +") with [32; 43]%N.
      change (u " @@") with [32; 64; 64]%N. cbn [fold_right app].
      rewrite anchored, !literal_char.
      rewrite run_seq. apply group_digits; [done|done|by apply Ho|].
      rewrite run_seq. apply opt_match; [done|done|done|]. rewrite !literal_char.
      rewrite run_seq. apply group_digits; [done|done|by apply Ho|].
      rewrite run_seq. apply opt_match; [done|done|done|]. rewrite !literal_char. reflexivity.
    - cbn [ms_caps]. by destruct e1, e2. }
  unfold re_match, match_here. change (p_icase HUNK_HEADER) with false. cbn [head].
  rewrite Hx. eexists. split; [done|]. unfold group0, group. cbn [m_caps]. by rewrite Hc.
Qed.

(** ** Numbers are read back *)

Definition read_digit (acc : Z) (c : N) : Z := 10 * acc + Z.of_N (default 0%N (digit_value c)).
Lemma read_acc d : forall p, fold_left read_digit (uint_codes d) (Zpos p) = Zpos (Pos.of_uint_acc d p).
Proof.
  induction d; intros p; cbn [uint_codes fold_left Pos.of_uint_acc]; [done|..];
    match goal with |- fold_left _ _ ?x = Zpos (Pos.of_uint_acc _ ?q) =>
      replace x with (Zpos q); [apply IHd|unfold read_digit; cbn; lia] end.
Qed.
Lemma read_uint d : fold_left read_digit (uint_codes d) 0 = Z.of_N (N.of_uint d).
Proof.
  unfold N.of_uint. induction d; cbn [uint_codes fold_left Pos.of_uint]; [done|exact IHd|..];
    match goal with |- fold_left _ _ ?x = Z.of_N (Npos (Pos.of_uint_acc _ ?q)) =>
      change x with (Zpos q); apply read_acc end.
Qed.
Lemma int_of_str_of_N n : (length (str_of_N n) <= 4300)%nat -> int_of_digits (str_of_N n) = Ok (Z.of_N n).
Proof.
  intros H. unfold int_of_digits. destruct (Nat.ltb_spec 4300 (length (str_of_N n))); [lia|].
  f_equal. unfold str_of_N. rewrite read_uint. f_equal. apply DecimalN.Unsigned.of_to.
Qed.

Lemma length_uint_codes d : length (uint_codes d) = Decimal.nb_digits d.
Proof. induction d; cbn; congruence. Qed.
Lemma nb_digits_double d :
  (Decimal.nb_digits (Decimal.Little.double d) <= Datatypes.S (Decimal.nb_digits d)
   /\ Decimal.nb_digits (Decimal.Little.succ_double d) <= Datatypes.S (Decimal.nb_digits d))%nat.
Proof. induction d; cbn; lia. Qed.
Lemma nb_digits_little p : (Decimal.nb_digits (Pos.to_little_uint p) <= Pos.size_nat p)%nat.
Proof.
  induction p as [p IH|p IH|]; cbn [Pos.to_little_uint Pos.size_nat]; [| |done];
    pose proof (nb_digits_double (Pos.to_little_uint p)); lia.
Qed.
Lemma length_str_of_N (n : N) : (n < 2 ^ 64)%N -> (length (str_of_N n) <= 4300)%nat.
Proof.
  intros Hn. unfold str_of_N. rewrite length_uint_codes. destruct n as [|p]; [cbn; lia|].
  cbn [N.to_uint]. unfold Pos.to_uint. rewrite nb_digits_rev.
  pose proof (nb_digits_little p).
  assert (p < 2 ^ 64)%positive as Hp by lia.
  apply Pos.size_nat_monotone in Hp.
  assert (Pos.size_nat (2 ^ 64) = 65%nat) as E by (vm_compute; reflexivity). lia.
Qed.

(** ** A range of the header *)

Definition range_start (start stop : nat) : N :=
  N.of_nat (if (stop - start =? 0)%nat then start else start + 1).
Lemma format_range start stop : exists e, digits e
  /\ _format_range_unified start stop = str_of_N (range_start start stop) ++ opt_text e.
Proof.
  unfold _format_range_unified, range_start. destruct (Nat.eqb_spec (stop - start) 1) as [->|].
  - exists []. split; [constructor|]. by rewrite app_nil_r.
  - exists (str_of_N (N.of_nat (stop - start))). split; [apply str_of_N_digits|].
    f_equal. pose proof (str_of_N_nonempty (N.of_nat (stop - start))) as H.
    by destruct (str_of_N (N.of_nat (stop - start))).
Qed.

Lemma digit_unbroken c : ascii_digit c = true -> is_linebreak c = false.
Proof.
  unfold ascii_digit, is_linebreak, in_range. intros [H1%N.leb_le H2%N.leb_le]%andb_true_iff.
  repeat (apply orb_false_iff; split);
    first [apply andb_false_iff; rewrite !N.leb_gt; lia | apply N.eqb_neq; lia].
Qed.
Lemma digits_unbroken ds : digits ds -> unbroken ds = true.
Proof.
  intros H. apply forallb_forall. intros c Hc. unfold digits in H. rewrite List.Forall_forall in H.
  by rewrite (digit_unbroken c (H c Hc)).
Qed.
Lemma header_unbroken d1 e1 d2 e2 : digits d1 -> digits e1 -> digits d2 -> digits e2 ->
  unbroken (header_line d1 e1 d2 e2) = true.
Proof.
  intros H1 H2 H3 H4. unfold header_line.
  assert (forall e, digits e -> unbroken (opt_text e) = true) as Ho.
  { intros [|c e] He; [done|]. cbn [opt_text forallb]. by apply digits_unbroken in He. }
  rewrite !forallb_app, !Ho by done. by rewrite (digits_unbroken d1), (digits_unbroken d2).
Qed.

(** A line of text is a diff line. *)
Lemma text_diff_line t : unbroken t = true -> t <> [] -> diff_line (t ++ nl).
Proof.
  intros Ht Hne. split; [by apply terminated_app, terminated_nl|]. destruct t as [|c t]; [done|].
  split; [done|]. cbn [forallb] in Ht. unfold starts_lf. cbn [app head]. intros [= ->]. done.
Qed.
(** A marker in front of a terminated line makes a diff line. *)
Lemma marked_diff_line c l : is_linebreak c = false -> terminated l -> diff_line (c :: l).
Proof.
  intros Hc Hl. split; [by apply terminated_cons|]. split; [done|].
  unfold starts_lf. cbn [head]. intros [= ->]. done.
Qed.

(** ** Parsing the lines of a hunk *)

(** A line that starts with a character other than @ is no header. *)
Lemma no_header c l : (c =? 64)%N = false -> re_match HUNK_HEADER (c :: l) = None.
Proof.
  intros Hc. unfold re_match, match_here. change (p_icase HUNK_HEADER) with false. cbn [head].
  rewrite header_shape, anchored. change (u "@@ -") with [64; 64; 32; 45]%N. cbn [fold_right].
  rewrite run_seq. cbn [mrun ms_rest].
  replace (cset_has false (CSet false [IChar 64]) c) with false; [done|].
  change (cset_has false (CSet false [IChar 64]) c) with ((64 =? c)%N || false).
  by rewrite N.eqb_sym, Hc.
Qed.

Definition add_line (h : _Hunk) (c : N) (l : str) : _Hunk :=
  if (c =? 32)%N then add_new (add_old h l) l else if (c =? 45)%N then add_old h l else add_new h l.
Lemma parse_marked done_ h c l : In c [32; 45; 43]%N ->
  parse_line (done_, Some h) (c :: l) = Ok (done_, Some (add_line h c l)).
Proof.
  intros Hc. unfold parse_line.
  assert (in_chars newline_chars c = false /\ (c =? 64)%N = false /\ (c =? 92)%N = false) as (H1 & H2 & H3)
    by (destruct Hc as [<-|[<-|[<-|[]]]]; done).
  rewrite (rstrip_chars_keep _ _ _ H1), (no_header _ _ H2).
  replace (starts_with (u "\") (c :: rstrip_chars newline_chars l)) with false
    by (change (u "\") with [92%N]; cbn [starts_with]; by rewrite N.eqb_sym, H3).
  cbn [drop]. by destruct Hc as [<-|[<-|[<-|[]]]].
Qed.

(** ** The hunk of a group *)

Definition op_marks (a b : list str) (o : Opcode) : list (N * str) :=
  if op_equal o then map (pair 32%N) (sub_lines a (op_i1 o) (op_i2 o))
  else map (pair 45%N) (sub_lines a (op_i1 o) (op_i2 o))
       ++ map (pair 43%N) (sub_lines b (op_j1 o) (op_j2 o)).
Lemma opcode_lines_marks a b o : opcode_lines a b o = map (fun m => fst m :: snd m) (op_marks a b o).
Proof.
  unfold opcode_lines, op_marks. destruct (op_equal o); rewrite ?map_app, !map_map; reflexivity.
Qed.
Lemma op_marks_in a b o m : In m (op_marks a b o) ->
  In (fst m) [32; 45; 43]%N /\ (In (snd m) a \/ In (snd m) b).
Proof.
  assert (forall (l : list str) i j x, In x (sub_lines l i j) -> In x l) as Hs.
  { intros l i j x. unfold sub_lines. rewrite <-!list_elem_of_In. intros H%elem_of_take.
    destruct H as (k & H & _). rewrite lookup_drop in H. by eapply list_elem_of_lookup_2. }
  unfold op_marks. destruct (op_equal o); rewrite ?in_app_iff, !in_map_iff.
  - intros (l & <- & H). cbn. split; [auto|]. left. by eapply Hs.
  - intros [(l & <- & H)|(l & <- & H)]; cbn; (split; [auto|]); [left|right]; by eapply Hs.
Qed.
Definition add_marks (ms : list (N * str)) (h : _Hunk) : _Hunk :=
  fold_left (fun h m => add_line h (fst m) (snd m)) ms h.
Lemma parse_marks ms : forall done_ h rest, Forall (fun m => In (fst m) [32; 45; 43]%N) ms ->
  parse_lines (map (fun m => fst m :: snd m) ms ++ rest) (done_, Some h)
  = parse_lines rest (done_, Some (add_marks ms h)).
Proof.
  induction ms as [|[c l] ms IH]; intros done_ h rest Hm; [done|].
  apply Forall_cons_iff in Hm as [Hc Hm]. cbn [map app parse_lines fst snd].
  rewrite parse_marked by done. cbn [obind]. by rewrite IH.
Qed.

Definition extend (h : _Hunk) (old new : list str) : _Hunk := {|
  hk_old_start := hk_old_start h; hk_old_lines := hk_old_lines h ++ old;
  hk_new_lines := hk_new_lines h ++ new |}.
Lemma extend_extend h o1 n1 o2 n2 : extend (extend h o1 n1) o2 n2 = extend h (o1 ++ o2) (n1 ++ n2).
Proof. unfold extend. cbn. by rewrite <-!app_assoc. Qed.
Lemma add_marks_app ms ns h : add_marks (ms ++ ns) h = add_marks ns (add_marks ms h).
Proof. apply fold_left_app. Qed.
Lemma add_marks_pair c ls : In c [32; 45; 43]%N -> forall h, add_marks (map (pair c) ls) h =
  extend h (if (c =? 43)%N then [] else ls) (if (c =? 45)%N then [] else ls).
Proof.
  intros Hc. induction ls as [|l ls IH]; intros h.
  - unfold extend. destruct h. cbn. by destruct (c =? 43)%N, (c =? 45)%N; rewrite !app_nil_r.
  - change (add_marks (map (pair c) (l :: ls)) h) with (add_marks (map (pair c) ls) (add_line h c l)).
    rewrite IH. destruct Hc as [<-|[<-|[<-|[]]]]; cbn; unfold extend; cbn; by rewrite <-?app_assoc.
Qed.

Lemma group_marks a b codes : forall i j i' j' h, (i' <= length a)%nat -> (j' <= length b)%nat ->
  chain a b i j codes i' j' ->
  add_marks (flat_map (op_marks a b) codes) h = extend h (sub_lines a i i') (sub_lines b j j').
Proof.
  induction codes as [|o codes IH]; intros i j i' j' h Hi Hj Hc; cbn [flat_map].
  - destruct Hc as [-> ->]. rewrite !sub_lines_nil. destruct h. unfold extend. cbn.
    by rewrite !app_nil_r.
  - destruct Hc as ([<- <-] & [Ho1 Ho2] & Hc). pose proof (chain_le _ _ _ _ _ _ _ Hc) as Hle.
    rewrite add_marks_app, (IH _ _ _ _ _ Hi Hj Hc).
    assert (add_marks (op_marks a b o) h
      = extend h (sub_lines a (op_i1 o) (op_i2 o)) (sub_lines b (op_j1 o) (op_j2 o))) as ->.
    { unfold op_marks. destruct (op_equal o).
      - destruct (Ho2 eq_refl) as [H1 H2]. rewrite add_marks_pair by (cbn; auto). cbn. f_equal.
        apply same_sub in H2; [|lia|lia].
        replace (op_i1 o + (op_i2 o - op_i1 o))%nat with (op_i2 o) in H2 by lia.
        by replace (op_j1 o + (op_i2 o - op_i1 o))%nat with (op_j2 o) in H2 by lia.
      - rewrite add_marks_app, !add_marks_pair by (cbn; auto). cbn. rewrite extend_extend. by rewrite app_nil_r. }
    rewrite extend_extend, !sub_lines_app by lia. done.
Qed.

(** ** Parsing the groups *)

Definition finished (st : list _Hunk * option _Hunk) : list _Hunk :=
  fst st ++ match snd st with Some h => [h] | None => [] end.
Definition new_hunk (start : Z) : _Hunk := {| hk_old_start := start; hk_old_lines := []; hk_new_lines := [] |}.

Lemma parse_header i i' j j' st : (N.of_nat i < 2 ^ 63)%N ->
  parse_line st (u "@@ -" ++ _format_range_unified i i' ++ u " +" ++ _format_range_unified j j'
                 ++ u " @@" ++ nl)
  = Ok (finished st, Some (new_hunk (Z.of_N (range_start i i'))))
  /\ diff_line (u "@@ -" ++ _format_range_unified i i' ++ u " +" ++ _format_range_unified j j'
                ++ u " @@" ++ nl).
Proof.
  intros Hi. destruct (format_range i i') as (e1 & He1 & ->), (format_range j j') as (e2 & He2 & ->).
  set (d1 := str_of_N (range_start i i')). set (d2 := str_of_N (range_start j j')).
  assert (digits d1 /\ digits d2 /\ d1 <> [] /\ d2 <> []) as (H1 & H2 & H3 & H4)
    by (split_and!; apply str_of_N_digits || apply str_of_N_nonempty).
  replace (u "@@ -" ++ (d1 ++ opt_text e1) ++ u " +" ++ (d2 ++ opt_text e2) ++ u " @@" ++ nl)
    with (header_line d1 e1 d2 e2 ++ nl) by (unfold header_line; by rewrite <-!app_assoc).
  pose proof (header_unbroken d1 e1 d2 e2 H1 He1 H2 He2) as Hu. split.
  - destruct st as [done_ cur]. unfold parse_line.
    rewrite (rstrip_chars_app _ _ _ (unbroken_newlines _ Hu)).
    change (rstrip_chars newline_chars nl) with (@nil N). rewrite app_nil_r.
    destruct (header_match d1 e1 d2 e2 H3 H4 H1 He1 H2 He2) as (m & -> & ->).
    unfold d1. rewrite int_of_str_of_N.
    + cbn [obind]. unfold finished. cbn [fst snd]. by destruct cur; [|rewrite app_nil_r].
    + apply length_str_of_N. unfold range_start. destruct (_ =? _)%nat; lia.
  - apply text_diff_line; [done|]. unfold header_line. by change (u "@@ -") with [64; 64; 32; 45]%N.
Qed.

(** ** Groups, parsed and applied *)

Lemma script_le a b gs : forall i j i' j', script a b i j gs i' j' -> (i <= i' /\ j <= j')%nat.
Proof.
  induction gs as [|g gs IH]; intros i j i' j'; [intros [? _]; lia|].
  intros (i1 & j1 & i2 & j2 & [? _] & _ & Hc%chain_le & Hs%IH). lia.
Qed.
Lemma skip_sub a b i j i' j' : skip a b i j i' j' -> (i' <= length a)%nat -> (j' <= length b)%nat ->
  sub_lines a i i' = sub_lines b j j'.
Proof.
  intros [[H1 H2] Hs] Ha Hb. apply same_sub in Hs; [|lia|lia].
  replace (i + (i' - i))%nat with i' in Hs by lia. by rewrite H2 in Hs.
Qed.
Lemma chain_ends a b g : forall i j i' j', chain a b i j g i' j' -> g <> [] ->
  op_i1 (List.hd no_opcode g) = i /\ op_j1 (List.hd no_opcode g) = j
  /\ op_i2 (List.last g no_opcode) = i' /\ op_j2 (List.last g no_opcode) = j'.
Proof.
  induction g as [|o g IH]; intros i j i' j' Hc Hne; [done|].
  destruct Hc as ([<- <-] & _ & Hc). cbn [List.hd]. split_and!; [done|done|..];
    (destruct g as [|o' g]; [by destruct Hc as [<- <-]|]);
    change (List.last (o :: o' :: g) no_opcode) with (List.last (o' :: g) no_opcode);
    by apply (IH _ _ _ _ Hc).
Qed.
Lemma matches_here a i i' : (i <= i')%nat -> (i' <= length a)%nat ->
  matches_at a (map _strip_newline (sub_lines a i i')) i = true.
Proof.
  intros Hi Ha. unfold matches_at. rewrite length_map, length_sub_lines by done.
  change (take (i' - i) (drop i a)) with (sub_lines a i i').
  rewrite length_sub_lines, Nat.eqb_refl by done. by apply strs_eqb_eq.
Qed.

(** The group's hunk, and where it goes. *)
Lemma group_hunk a b i j g i' j' st rest :
  (N.of_nat (length a) < 2 ^ 63)%N -> (i' <= length a)%nat -> (j' <= length b)%nat ->
  chain a b i j g i' j' -> g <> [] -> (i < i' \/ i = 0)%nat ->
  exists h, parse_lines (group_lines a b g ++ rest) st = parse_lines rest (finished st, Some h)
    /\ hk_old_lines h = sub_lines a i i' /\ hk_new_lines h = sub_lines b j j'
    /\ stated_line h = i.
Proof.
  intros Ha Hi Hj Hc Hg Hz. destruct (chain_ends _ _ _ _ _ _ _ Hc Hg) as (E1 & E2 & E3 & E4).
  unfold group_lines, group_header. rewrite E1, E2, E3, E4. cbn [app parse_lines].
  pose proof (chain_le _ _ _ _ _ _ _ Hc) as Hle.
  destruct (parse_header i i' j j' st) as [-> _]; [lia|]. cbn [obind].
  replace (flat_map (opcode_lines a b) g)
    with (map (fun m => fst m :: snd m) (flat_map (op_marks a b) g)).
  - rewrite parse_marks.
    + rewrite (group_marks _ _ _ _ _ _ _ _ Hi Hj Hc). eexists. split; [done|].
      split; [done|]. split; [done|]. unfold stated_line, extend, new_hunk, range_start. cbn [hk_old_start].
      destruct (Nat.eqb_spec (i' - i) 0); lia.
    + apply List.Forall_forall. intros m (o & _ & Hm)%in_flat_map. by apply op_marks_in in Hm as [? _].
  - clear. induction g as [|o g IH]; [done|]. cbn [flat_map]. by rewrite map_app, IH, opcode_lines_marks.
Qed.

Lemma script_applies a b gs : (N.of_nat (length a) < 2 ^ 63)%N -> forall i j st,
  script a b i j gs (length a) (length b) ->
  (forall g i1 j1 i2 j2, In g gs ->
    (i2 <= length a)%nat -> chain a b i1 j1 g i2 j2 -> (i1 < i2 \/ i1 = 0)%nat) ->
  exists st' hs, parse_lines (flat_map (group_lines a b) gs) st = Ok st'
    /\ finished st' = finished st ++ hs /\ (gs <> [] -> snd st' <> None)
    /\ forall result, apply_hunks a hs i result = Ok (result ++ drop j b).
Proof.
  intros Ha. induction gs as [|g gs IH]; intros i j st Hs Hz; cbn [flat_map].
  - exists st, []. rewrite app_nil_r. split_and!; try done. intros result. cbn [apply_hunks].
    cbn [script] in Hs. pose proof Hs as [? _]. apply skip_sub in Hs; [|lia|lia].
    do 2 f_equal. by rewrite <-(sub_lines_drop a i (length a)), <-(sub_lines_drop b j (length b)), Hs,
      !drop_all by lia.
  - destruct Hs as (i1 & j1 & i2 & j2 & Hsk & Hg & Hc & Hs).
    pose proof (script_le _ _ _ _ _ _ _ Hs) as Hle2. pose proof (chain_le _ _ _ _ _ _ _ Hc) as Hle1.
    destruct (group_hunk a b i1 j1 g i2 j2 st (flat_map (group_lines a b) gs) Ha)
      as (h & -> & Ho & Hn & Hst); [lia|lia|done|done|by apply (Hz g i1 j1 i2 j2); [left|lia|]|].
    destruct (IH i2 j2 (finished st, Some h) Hs) as (st' & hs & Hp & Hf & Hsome & Happ).
    { intros g' k1 l1 k2 l2 Hin. apply Hz. by right. }
    exists st', (h :: hs). split; [done|]. split.
    { rewrite Hf. unfold finished at 1. cbn [fst snd]. by rewrite <-app_assoc. }
    split.
    { intros _ E. destruct gs as [|g' gs']; [|by apply Hsome].
      injection Hp as <-. done. }
    intros result. cbn [apply_hunks]. pose proof Hsk as [[Hi Hj] _].
    rewrite locate_stated.
    + cbn [obind]. rewrite Ho, Hn, Hst, length_sub_lines by lia.
      replace (i1 + (i2 - i1))%nat with i2 by lia.
      rewrite Happ. f_equal. change (take (i1 - i) (drop i a)) with (sub_lines a i i1).
      rewrite (skip_sub _ _ _ _ _ _ Hsk) by lia. rewrite <-!app_assoc.
      rewrite (sub_lines_drop b j1 j2) by lia. by rewrite (sub_lines_drop b j j1) by lia.
    + rewrite Hst, Ho, (proj2 (Nat.leb_le i i1)) by lia. apply matches_here; lia.
Qed.
End header.

(** ** The round trip *)

(** All the lines of the diff end, and none starts with a line feed. *)
Lemma diff_lines `{UnicodeDb} a b gs : (N.of_nat (length a) < 2 ^ 63)%N ->
  Forall terminated a -> Forall terminated b -> forall i j,
  script a b i j gs (length a) (length b) ->
  Forall diff_line (flat_map (group_lines a b) gs).
Proof.
  intros Ha Hta Htb. induction gs as [|g gs IH]; intros i j Hs; cbn [flat_map]; [constructor|].
  destruct Hs as (i1 & j1 & i2 & j2 & _ & Hg & Hc & Hs). apply Forall_app. split; [|by eapply IH].
  pose proof (script_le _ _ _ _ _ _ _ Hs). pose proof (chain_le _ _ _ _ _ _ _ Hc).
  unfold group_lines, group_header. destruct (chain_ends _ _ _ _ _ _ _ Hc Hg) as (-> & -> & -> & ->).
  constructor; [apply (parse_header i1 i2 j1 j2 ([], None)); lia|].
  apply List.Forall_forall. intros l (o & _ & Hl)%in_flat_map.
  rewrite opcode_lines_marks in Hl. apply in_map_iff in Hl as ([c t] & <- & Hm).
  apply op_marks_in in Hm as [Hc' Ht]. cbn [fst snd] in *. apply marked_diff_line.
  - by destruct Hc' as [<-|[<-|[<-|[]]]].
  - rewrite List.Forall_forall in Hta, Htb. destruct Ht; auto.
Qed.

(** A file line of the preamble: three marks, a blank and a name. *)
Lemma parse_preamble `{UnicodeDb} c name :
  In c [45; 43]%N -> unbroken name = true ->
  parse_line ([], None) ([c; c; c; 32%N] ++ name ++ nl) = Ok ([], None)
  /\ diff_line ([c; c; c; 32%N] ++ name ++ nl).
Proof.
  intros Hc Hn. rewrite app_assoc.
  assert (unbroken ([c; c; c; 32%N] ++ name) = true) as Hu
    by (rewrite forallb_app, Hn; by destruct Hc as [<-|[<-|[]]]).
  split; [|by apply text_diff_line].
  unfold parse_line. rewrite (rstrip_chars_app _ _ _ (unbroken_newlines _ Hu)).
  change (rstrip_chars newline_chars nl) with (@nil N). rewrite app_nil_r. cbn [app].
  rewrite no_header by by destruct Hc as [<-|[<-|[]]].
  replace (starts_any DIFF_PREAMBLE _) with true; [done|].
  destruct Hc as [<-|[<-|[]]]; symmetry; unfold starts_any, DIFF_PREAMBLE; cbn [existsb];
    rewrite ?orb_true_r; reflexivity.
Qed.

(** C24: what is rendered applies.  For a path without line boundaries and two different
    texts that are empty or end with a line boundary, the diff that [render_unified_diff]
    writes, read back by [apply_unified_diff] against the first text, gives the second:
    whatever matches difflib's heuristics find, and whatever the lines hold. *)
Theorem render_apply_roundtrip `{UnicodeDb} (path original updated : str)
    (Hpath : unbroken path = true) (Horiginal : closed original) (Hupdated : closed updated)
    (Hdiff : original <> updated)
    (Hsize : (N.of_nat (length (splitlines_keep original)) < 2 ^ 63)%N) :
  apply_unified_diff original (render_unified_diff path original updated) = Ok updated.
Proof.
  unfold render_unified_diff, unified_diff.
  set (a := splitlines_keep original) in *. set (b := splitlines_keep updated).
  assert (a <> b) as Hab.
  { intros E. apply Hdiff. rewrite <-(concat_splitlines_keep original), <-(concat_splitlines_keep updated).
    fold a b. by rewrite E. }
  pose proof (grouped_script a b 2 ltac:(lia)) as Hs.
  assert (a <> [] \/ b <> []) as Hne by (destruct a, b; auto; by destruct Hab). specialize (Hs Hne).
  pose proof (fun g i j i' j' => group_nonempty a b 2 g i j i' j') as Hgn.
  destruct (get_grouped_opcodes a b 2) as [|g gs] eqn:Eg.
  { destruct Hab. pose proof Hs as [? _]. apply skip_sub in Hs; [|lia|lia].
    by rewrite <-(drop_0 a), <-(drop_0 b), <-(sub_lines_drop a 0 (length a)),
      <-(sub_lines_drop b 0 (length b)), Hs, !drop_all by lia. }
  rewrite <-Eg in *. set (groups := get_grouped_opcodes a b 2) in *.
  assert (unbroken (u "a/" ++ path) = true /\ unbroken (u "b/" ++ path) = true) as [Hpa Hpb]
    by by rewrite !forallb_app, Hpath.
  destruct (parse_preamble 45 _ (or_introl eq_refl) Hpa) as [P1 D1].
  destruct (parse_preamble 43 _ (or_intror (or_introl eq_refl)) Hpb) as [P2 D2].
  unfold apply_unified_diff, _parse_hunks.
  change (u "--- ") with [45; 45; 45; 32]%N. change (u "+++ ") with [43; 43; 43; 32]%N.
  rewrite split_concat.
  - cbn [parse_lines]. rewrite P1. cbn [obind]. rewrite P2. cbn [obind]. fold a.
    destruct (script_applies a b groups Hsize 0 0 ([], None) Hs) as (st' & hs & -> & Hf & Hsome & Happ).
    { intros g' i1 j1 i2 j2 Hin Hi2 Hc. destruct (decide (a = [])) as [E|E].
      - right. apply chain_le in Hc. rewrite E in Hi2. cbn in Hi2. lia.
      - left. by eapply Hgn. }
    cbn [obind]. destruct (snd st') as [h|] eqn:Eh; [|by destruct Hsome; [rewrite Eg|]].
    unfold finished in Hf. rewrite Eh in Hf. cbn in Hf. rewrite Hf. cbn [obind].
    rewrite Happ. cbn [obind app]. rewrite drop_0. unfold b. by rewrite concat_splitlines_keep.
  - constructor; [done|]. constructor; [done|].
    apply (diff_lines a b groups Hsize) with 0%nat 0%nat; [by apply splitlines_terminated..|done].
Qed.

Lemma render_apply_roundtrip_witness :
  let original := u "# pins" ++ nl ++ u "django==1.0" ++ nl ++ u "requests==2.0" ++ nl in
  let updated := u "# pins" ++ nl ++ u "django==1.1" ++ nl ++ u "requests==2.0" ++ nl in
  closed original /\ closed updated
  /\ @apply_unified_diff ascii_db original (@render_unified_diff (u "requirements.txt") original updated)
     = Ok updated.
Proof.
  intros original updated.
  assert (closed original) as H1
    by (right; exists (u "# pins" ++ nl ++ u "django==1.0" ++ nl ++ u "requests==2.0"), 10%N;
        split; vm_compute; reflexivity).
  assert (closed updated) as H2
    by (right; exists (u "# pins" ++ nl ++ u "django==1.1" ++ nl ++ u "requests==2.0"), 10%N;
        split; vm_compute; reflexivity).
  split; [exact H1|]. split; [exact H2|].
  apply (@render_apply_roundtrip ascii_db); [vm_compute; reflexivity|exact H1|exact H2| |].
  - intros E. apply (f_equal (fun s => nth 17 s 0%N)) in E. vm_compute in E. discriminate E.
  - vm_compute. reflexivity.
Defined.

(** Without a line end after the last line the removed and the added text run together, and
    the diff of a pin on that line does not apply. *)
Example unterminated_pin_is_rejected :
  let original := u "django==1.0" in let updated := u "django==1.1" in
  render_unified_diff (u "requirements.txt") original updated
  = u "--- a/requirements.txt" ++ nl ++ u "+++ b/requirements.txt" ++ nl
    ++ u "@@ -1 +1 @@" ++ nl ++ u "-django==1.0+django==1.1"
  /\ exists msg, @apply_unified_diff ascii_db original
       (render_unified_diff (u "requirements.txt") original updated) = Raise (PatchError msg).
Proof. split; [|eexists]; vm_compute; reflexivity. Qed.
