(* ===== verification/Security.v ===== *)
(** * Webhook signatures (src/pipelens/security.py)

    HMAC-SHA256 is a parameter: [hmac_sha256_hex secret body] is the hex digest of the
    body under the UTF-8 encoding of the secret. *)

From stdpp Require Import base list strings numbers.
From S2P Require Import Prelude.

Definition SIGNATURE_PREFIX : str := u "sha256=".

(** hmac.compare_digest on strings: both must be ASCII. *)
Definition compare_digest (a b : str) : outcome bool :=
  if forallb is_ascii a && forallb is_ascii b then Ok (str_eqb a b)
  else Raise (TypeError
    (u "comparing strings with non-ASCII characters is not supported")).

Class Hmac := { hmac_sha256_hex : str -> list N -> str }.

Section security.
Context {H : Hmac}.

Definition expected_signature (secret : str) (body : list N) : str :=
  SIGNATURE_PREFIX ++ hmac_sha256_hex secret body.

Definition verify_github_signature (body : list N) (signature : option str) (secret : str)
  : outcome unit :=
  match signature with
  | Some s =>
    if starts_with SIGNATURE_PREFIX s then
      let! same := compare_digest (expected_signature secret body) s in
      if same then Ok tt
      else Raise (InvalidSignatureError (u "webhook signature does not match"))
    else Raise (InvalidSignatureError (u "missing or malformed X-Hub-Signature-256 header"))
  | None => Raise (InvalidSignatureError (u "missing or malformed X-Hub-Signature-256 header"))
  end.

(** A hex digest is ASCII. *)
Definition hex_digests : Prop :=
  forall secret body, forallb is_ascii (hmac_sha256_hex secret body) = true.

Lemma verify_signature_accepts (Hd : hex_digests) body signature secret :
  verify_github_signature body signature secret = Ok tt
  <-> signature = Some (expected_signature secret body).
Proof.
  assert (He : forallb is_ascii (expected_signature secret body) = true).
  { unfold expected_signature. rewrite forallb_app, Hd. reflexivity. }
  unfold verify_github_signature. destruct signature as [s|]; [|done]. split.
  - destruct (starts_with _ s); [|done]. unfold compare_digest. rewrite He. cbn [andb].
    destruct (forallb is_ascii s); cbn [obind]; [|done].
    destruct (str_eqb (expected_signature secret body) s) eqn:E; [|done].
    apply str_eqb_eq in E as <-. done.
  - intros [= ->]. unfold compare_digest. rewrite He.
    assert (Hs : starts_with SIGNATURE_PREFIX (expected_signature secret body) = true).
    { apply starts_with_spec. by exists (hmac_sha256_hex secret body). }
    rewrite Hs. simpl. by rewrite str_eqb_refl.
Qed.
End security.

(** A webhook body is accepted exactly with the signature "sha256=" followed by its own
    HMAC digest under the secret; a rejected one raises InvalidSignatureError, or
    TypeError when the header has the prefix and a character beyond ASCII. *)
Theorem verify_github_signature_spec `{Hmac} (Hd : hex_digests)
    (body : list N) (signature : option str) (secret : str) :
  match verify_github_signature body signature secret with
  | Ok _ => signature = Some (expected_signature secret body)
  | Raise (InvalidSignatureError _) => signature <> Some (expected_signature secret body)
  | Raise (TypeError _) => exists s, signature = Some s
      /\ starts_with SIGNATURE_PREFIX s = true /\ forallb is_ascii s = false
  | Raise _ => False
  end.
Proof.
  pose proof (verify_signature_accepts Hd body signature secret) as Hacc.
  destruct (verify_github_signature body signature secret) as [[]|e] eqn:E; [by apply Hacc|].
  assert (Hne : signature <> Some (expected_signature secret body)) by (intros Hs%Hacc; congruence).
  revert E. unfold verify_github_signature, compare_digest. destruct signature as [s|];
    [|by intros [= <-]].
  assert (He : forallb is_ascii (expected_signature secret body) = true).
  { unfold expected_signature. rewrite forallb_app, Hd. reflexivity. }
  destruct (starts_with _ s) eqn:Es; [|by intros [= <-]].
  rewrite He. destruct (forallb is_ascii s) eqn:Ea; cbn [andb obind].
  - destruct (str_eqb (expected_signature secret body) s); [done|]. by intros [= <-].
  - intros [= <-]. by exists s.
Qed.

Lemma verify_github_signature_spec_witness :
  let H := {| hmac_sha256_hex := fun _ _ => u "00ff" |} in
  verify_github_signature [1%N] (Some (u "sha256=00ff")) (u "s") = Ok tt
  /\ Some (u "sha256=00ff") = Some (expected_signature (u "s") [1%N]).
Proof.
  intros H. split; [vm_compute; reflexivity|].
  exact (@verify_github_signature_spec H (fun _ _ => eq_refl) [1%N] (Some (u "sha256=00ff")) (u "s")).
Defined.

(** A header with a character beyond ASCII is not reported as a bad signature. *)
Example non_ascii_signature :
  let H := {| hmac_sha256_hex := fun _ _ => u "00ff" |} in
  exists msg, verify_github_signature [] (Some (u "sha256=é")) (u "s") = Raise (TypeError msg).
Proof. eexists. vm_compute. reflexivity. Qed.
