(* ===== verification/Publication.v ===== *)
(** * GitHub comment rendering (src/pipelens/publication.py)

    [render_github_diagnosis] builds the Markdown body of the comment and check run.
    Formatting a float as a percentage is the parameter [percent]. *)

From Stdlib Require Import QArith.
From stdpp Require Import base list strings numbers.
From S2P Require Import Prelude Models.

Definition MAX_GITHUB_BODY_CHARS : Z := 60000.

(** The characters html.escape(quote=False) and the at-sign replacement rewrite. *)
Definition escape_html_char (c : N) : str :=
  if (c =? 38)%N then u "&amp;"
  else if (c =? 60)%N then u "&lt;"
  else if (c =? 62)%N then u "&gt;"
  else [c].
Definition AT : N := 64%N.
Definition ZERO_WIDTH_SPACE : N := 8203%N.
Definition _safe (value : str) : str :=
  replace_char AT [AT; ZERO_WIDTH_SPACE] (flat_map escape_html_char value).
Definition _safe_url (value : str) : str :=
  replace_char 32 (u "%20") (replace_char 41 (u "%29") (replace_char 40 (u "%28") value)).
Definition _code_block (value : str) : str :=
  u "<pre><code>" ++ _safe value ++ u "</code></pre>".

Section publication.
Context (percent : Q -> str).                          (* f"{x:.0%}" *)

Definition fork_warning : list str := [
  u "> [!WARNING]";
  u "> 외부 Fork에서 시작된 실행입니다. 규칙 기반 진단만 수행했으며,";
  u "> Fork의 로그·코드·Workflow 내용은 LLM에 전송하지 않았습니다.";
  []].

Definition summary_sections (c : Classification) (d : Diagnosis) : list str := [
  _safe (dg_summary d);
  [];
  u "**오류 유형:** `" ++ category_value (cl_category c) ++ u "`  ";
  u "**신뢰도:** " ++ percent (dg_confidence d) ++ u "  ";
  u "**관련 Step:** " ++ _safe (or_str (cl_related_step c) (u "확인 불가"));
  []].

Definition comparison_sections (baseline head : option str) : list str :=
  match or_str baseline [], or_str head [] with
  | (_ :: _) as b, (_ :: _) as h =>
    [u "**변경 비교:** `" ++ _safe (take 12 b) ++ u ".." ++ _safe (take 12 h) ++ u "`"; []]
  | _, _ => []
  end.

Definition cause_sections (d : Diagnosis) : list str :=
  [u "### 추정 원인"; []; _safe (dg_root_cause d); []; u "### 검증된 근거"; []].

Definition evidence_sections (e : Evidence) : list str :=
  let location := match or_str (ev_location e) [] with
                  | [] => []
                  | l => u " · " ++ _safe l
                  end in
  [u "**" ++ _safe (ev_source e) ++ location ++ u "**"; _code_block (ev_content e); []].

Definition related_section (f : RelatedFile) : str :=
  u "- `" ++ _safe (rf_filename f) ++ u "` (" ++ percent (rf_score f) ++ u ") — "
  ++ str_join (u " · ") (map _safe (rf_reasons f)).
Definition related_sections (fs : list RelatedFile) : list str :=
  [u "### 관련 변경 파일"; []]
  ++ match fs with
     | [] => [u "로그와 직접 연결되는 변경 파일을 찾지 못했습니다."]
     | _ => map related_section fs
     end.

Definition suggestion_sections (head : option str) (index : nat) (s : Suggestion) : list str :=
  let target := match or_str (sg_file s) [] with
                | [] => []
                | f => u " (`" ++ _safe f ++ u "`)"
                end in
  (str_of_N (N.of_nat index) ++ u ". " ++ _safe (sg_description s) ++ target)
  :: match or_str (sg_patch s) [], sg_patch_verified s with
     | (_ :: _) as patch, true =>
       let origin := if decide (sg_source s = Some RULE) then u "규칙" else u "LLM" in
       let commit := match or_str head [] with
                     | [] => []
                     | h => u " `" ++ _safe (take 12 h) ++ u "`"
                     end in
       [[]; u "   검증된 수정 diff (" ++ origin ++ u ") — head" ++ commit
            ++ u "에 그대로 적용됨을 확인"; _code_block patch; []]
     | _, _ => []
     end.
Fixpoint suggestions_from (head : option str) (index : nat) (ss : list Suggestion) : list str :=
  match ss with
  | [] => []
  | s :: ss' => suggestion_sections head index s ++ suggestions_from head (S index) ss'
  end.
Definition suggestions_sections (head : option str) (ss : list Suggestion) : list str :=
  [[]; u "### 권장 해결 방법"; []] ++ suggestions_from head 1 ss
  ++ match ss with
     | [] => [u "검증 가능한 수정 제안을 생성하지 못했습니다."]
     | _ => []
     end.

Definition list_sections (title : str) (items : list str) : list str :=
  match items with
  | [] => []
  | _ => [[]; title; []] ++ map (fun item => u "- " ++ _safe item) items
  end.

Definition footer_sections (details_url : str) (run_id : Z) : list str :=
  [[]; u "---"; u "[PipeLens에서 전체 분석 보기](" ++ _safe_url details_url
                ++ u ") · Workflow run `" ++ str_of_Z run_id ++ u "`"].

(** The body before the length limit. *)
Definition github_document (run_id : Z) (c : Classification) (d : Diagnosis)
    (related_files : list RelatedFile) (details_url : str) (trust : TrustLevel)
    (baseline head : option str) : str :=
  str_join nl
    ([u "## PipeLens 실패 진단"; []]
     ++ (if decide (trust = UNTRUSTED_FORK) then fork_warning else [])
     ++ summary_sections c d
     ++ comparison_sections baseline head
     ++ cause_sections d
     ++ flat_map evidence_sections (dg_evidence d)
     ++ related_sections related_files
     ++ suggestions_sections head (dg_suggestions d)
     ++ list_sections (u "### 분석 충돌") (dg_conflicts d)
     ++ list_sections (u "### 참고") (dg_notes d)
     ++ footer_sections details_url run_id).

Definition truncation_suffix (details_url : str) : str :=
  nl ++ nl ++ u "---" ++ nl ++ u "내용이 길어 일부를 생략했습니다. [전체 분석 보기]("
  ++ _safe_url details_url ++ u ")".

Definition render_github_diagnosis (run_id : Z) (c : Classification) (d : Diagnosis)
    (related_files : list RelatedFile) (details_url : str) (trust : TrustLevel)
    (baseline head : option str) : str :=
  let body := github_document run_id c d related_files details_url trust baseline head in
  if Z.of_nat (length body) <=? MAX_GITHUB_BODY_CHARS then body
  else
    let suffix := truncation_suffix details_url in
    py_upto body (MAX_GITHUB_BODY_CHARS - Z.of_nat (length suffix)) ++ suffix.
End publication.

(** ** Inert text

    At every position an at-sign is followed by a zero-width space (or a line end) and a
    less-than sign starts one of the tags of the code blocks. *)
Definition CODE_TAGS : list str := [u "<pre><code>"; u "<code>"; u "</code></pre>"; u "</pre>"].
Definition inert_at (s : str) : bool :=
  match s with
  | [] => true
  | c :: r =>
    (if (c =? AT)%N
     then match r with d :: _ => (d =? ZERO_WIDTH_SPACE)%N || (d =? NL)%N | [] => false end
     else true)
    && (if (c =? 60)%N then existsb (fun t => starts_with t s) CODE_TAGS else true)
  end.
Fixpoint inert (s : str) : bool :=
  inert_at s && match s with [] => true | _ :: r => inert r end.

Lemma starts_with_app p a b : starts_with p a = true -> starts_with p (a ++ b) = true.
Proof.
  rewrite !starts_with_spec. intros [r ->]. exists (r ++ b). by rewrite <- app_assoc.
Qed.
Lemma inert_at_app a b : a <> [] -> inert_at a = true -> inert_at (a ++ b) = true.
Proof.
  destruct a as [|c r]; [done|]. intros _. unfold inert_at. cbn [app].
  rewrite !andb_true_iff. intros [H1 H2]. split.
  - destruct (c =? AT)%N; [|done]. by destruct r.
  - destruct (c =? 60)%N; [|done]. apply existsb_exists in H2 as (t & Ht & H).
    apply existsb_exists. exists t. split; [done|]. by apply (starts_with_app t (c :: r)).
Qed.
Lemma inert_cons c r : inert (c :: r) = inert_at (c :: r) && inert r.
Proof. done. Qed.
Lemma inert_app a b : inert a = true -> inert b = true -> inert (a ++ b) = true.
Proof.
  induction a as [|c r IH]; [done|]. cbn [app]. rewrite !inert_cons, !andb_true_iff.
  intros [H1 H2] Hb. split; [by apply (inert_at_app (c :: r))|by apply IH].
Qed.

(** Text without at-signs and less-than signs is inert. *)
Definition plain_char (c : N) : bool := negb ((c =? AT)%N || (c =? 60)%N).
Lemma inert_plain s : forallb plain_char s = true -> inert s = true.
Proof.
  induction s as [|c s IH]; [done|]. cbn [forallb]. rewrite inert_cons, andb_true_iff.
  intros [Hc Hs]. rewrite IH by done. unfold plain_char in Hc.
  apply negb_true_iff, orb_false_iff in Hc as [H1 H2].
  unfold inert_at. rewrite H1, H2. done.
Qed.
Lemma inert_join sep ls :
  inert sep = true -> Forall (fun l => inert l = true) ls -> inert (str_join sep ls) = true.
Proof.
  intros Hs. induction 1 as [|l ls Hl Hls IH]; [done|]. destruct ls as [|l' ls]; [done|].
  cbn [str_join]. by repeat apply inert_app.
Qed.

Create HintDb inert.
#[export] Hint Resolve inert_app inert_join : inert.
Ltac inert_text := first [done | vm_compute; reflexivity].

Lemma safe_char_inert c : inert (replace_char AT [AT; ZERO_WIDTH_SPACE] (escape_html_char c)) = true.
Proof.
  unfold escape_html_char. destruct (N.eqb_spec c 38) as [->|H1]; [inert_text|].
  destruct (N.eqb_spec c 60) as [->|H2]; [inert_text|].
  destruct (N.eqb_spec c 62) as [->|H3]; [inert_text|].
  unfold replace_char. cbn [flat_map]. destruct (N.eqb_spec c AT) as [->|H4]; [inert_text|].
  apply inert_plain. cbn. unfold plain_char.
  by rewrite (proj2 (N.eqb_neq _ _) H4), (proj2 (N.eqb_neq _ _) H2).
Qed.
Lemma safe_inert value : inert (_safe value) = true.
Proof.
  unfold _safe. induction value as [|c value IH]; [done|]. cbn [flat_map].
  unfold replace_char in *. rewrite flat_map_app. apply inert_app; [|done]. apply safe_char_inert.
Qed.
Lemma code_block_inert value : inert (_code_block value) = true.
Proof.
  unfold _code_block. apply inert_app; [inert_text|].
  apply inert_app; [apply safe_inert|inert_text].
Qed.
Lemma uint_codes_plain d : forallb plain_char (uint_codes d) = true.
Proof. induction d; [done|..]; cbn [uint_codes forallb]; by rewrite IHd. Qed.
Lemma str_of_N_inert n : inert (str_of_N n) = true.
Proof. apply inert_plain, uint_codes_plain. Qed.
Lemma str_of_Z_inert z : inert (str_of_Z z) = true.
Proof.
  destruct z; unfold str_of_Z; [inert_text|apply str_of_N_inert|].
  apply inert_app; [inert_text|apply str_of_N_inert].
Qed.
#[export] Hint Resolve safe_inert code_block_inert str_of_N_inert str_of_Z_inert : inert.
#[export] Hint Extern 5 (inert (u _) = true) => vm_compute; reflexivity : inert.
#[export] Hint Extern 5 (inert [] = true) => reflexivity : inert.
#[export] Hint Extern 5 (inert nl = true) => reflexivity : inert.

Lemma safe_url_plain url :
  forallb plain_char url = true -> forallb plain_char (_safe_url url) = true.
Proof.
  assert (Hr : forall c new s, forallb plain_char new = true -> forallb plain_char s = true ->
    forallb plain_char (replace_char c new s) = true).
  { intros c new s Hn. unfold replace_char. induction s as [|x s IH]; [done|].
    cbn [forallb flat_map]. rewrite andb_true_iff, forallb_app. intros [Hx Hs].
    rewrite (IH Hs), andb_true_r. destruct (x =? c)%N; [done|]. cbn. by rewrite Hx. }
  intros H. unfold _safe_url. do 3 (apply Hr; [vm_compute; reflexivity|]). done.
Qed.

Section inert_document.
Context (percent : Q -> str) (Hpercent : forall q, forallb plain_char (percent q) = true).

Definition all_inert (ls : list str) : Prop := Forall (fun l => inert l = true) ls.

Lemma percent_inert q : inert (percent q) = true.
Proof using Hpercent. apply inert_plain, Hpercent. Qed.
Hint Resolve percent_inert : inert.

Ltac lines_inert :=
  cbn [app];
  repeat match goal with |- Forall _ (_ :: _) => constructor | |- Forall _ [] => constructor end;
  auto 12 with inert.

Lemma summary_inert c d : all_inert (summary_sections percent c d).
Proof using Hpercent.
  unfold summary_sections, all_inert. lines_inert. destruct (cl_category c); vm_compute; done.
Qed.
Lemma comparison_inert b h : all_inert (comparison_sections b h).
Proof.
  unfold comparison_sections, all_inert.
  destruct (or_str b []), (or_str h []); try constructor; lines_inert.
Qed.
Lemma evidence_inert e : all_inert (evidence_sections e).
Proof.
  unfold evidence_sections, all_inert. destruct (or_str (ev_location e) []); lines_inert.
Qed.
Lemma related_section_inert f : inert (related_section percent f) = true.
Proof using Hpercent.
  unfold related_section. repeat (apply inert_app; [auto with inert|]).
  apply inert_join; [vm_compute; done|]. apply List.Forall_forall.
  intros l (r & <- & _)%in_map_iff. auto with inert.
Qed.
Lemma related_inert fs : all_inert (related_sections percent fs).
Proof using Hpercent.
  unfold related_sections, all_inert. destruct fs as [|f fs]; [lines_inert|].
  apply Forall_app. split; [lines_inert|]. apply List.Forall_forall.
  intros l (r & <- & _)%in_map_iff. apply related_section_inert.
Qed.
Lemma suggestion_inert head i sg : all_inert (suggestion_sections head i sg).
Proof.
  unfold suggestion_sections, all_inert. apply List.Forall_cons.
  - repeat (apply inert_app; [auto with inert|]).
    destruct (or_str (sg_file sg) []); auto 12 with inert.
  - destruct (or_str (sg_patch sg) []); [constructor|].
    destruct (sg_patch_verified sg); [|constructor].
    destruct (decide _); destruct (or_str head []); lines_inert.
Qed.
Lemma suggestions_inert head ss : all_inert (suggestions_sections head ss).
Proof.
  assert (Hfrom : forall i l, all_inert (suggestions_from head i l)).
  { intros i l; revert i; induction l as [|x l IH]; intros i; [constructor|].
    apply Forall_app. split; [apply suggestion_inert|apply IH]. }
  unfold suggestions_sections, all_inert. apply Forall_app. split; [lines_inert|].
  apply Forall_app. split; [apply Hfrom|]. destruct ss; lines_inert.
Qed.
Lemma list_inert title items : inert title = true -> all_inert (list_sections title items).
Proof.
  intros Ht. unfold list_sections, all_inert. destruct items as [|x l]; [constructor|].
  apply Forall_app. split; [lines_inert|]. apply List.Forall_forall.
  intros y (r & <- & _)%in_map_iff. auto with inert.
Qed.
Lemma footer_inert url run_id :
  forallb plain_char url = true -> all_inert (footer_sections url run_id).
Proof.
  intros Hu. pose proof (inert_plain _ (safe_url_plain url Hu)).
  unfold footer_sections, all_inert. lines_inert.
Qed.

Lemma document_inert run_id c d fs url trust b h :
  forallb plain_char url = true ->
  inert (github_document percent run_id c d fs url trust b h) = true.
Proof using Hpercent.
  intros Hu. unfold github_document. apply inert_join; [done|].
  rewrite !Forall_app. split_and!.
  - lines_inert.
  - destruct (decide _); unfold fork_warning; lines_inert.
  - apply summary_inert.
  - apply comparison_inert.
  - unfold cause_sections. lines_inert.
  - induction (dg_evidence d) as [|e es IH]; [constructor|].
    apply Forall_app. split; [apply evidence_inert|done].
  - apply related_inert.
  - apply suggestions_inert.
  - apply list_inert. vm_compute; done.
  - apply list_inert. vm_compute; done.
  - by apply footer_inert.
Qed.
End inert_document.

(** An at-sign is never followed by a character of a name. *)
Fixpoint no_mention (s : str) : bool :=
  match s with
  | [] => true
  | c :: r =>
    (if (c =? AT)%N
     then match r with d :: _ => (d =? ZERO_WIDTH_SPACE)%N || (d =? NL)%N | [] => false end
     else true) && no_mention r
  end.
Lemma inert_no_mention s : inert s = true -> no_mention s = true.
Proof.
  induction s as [|c r IH]; [done|]. rewrite inert_cons. unfold inert_at. cbn [no_mention].
  rewrite !andb_true_iff. intros [[H1 _] H2]. auto.
Qed.
(** A text cut anywhere before a line end. *)
Lemma no_mention_cut n s t :
  no_mention s = true -> no_mention t = true -> no_mention (take n s ++ NL :: t) = true.
Proof.
  intros Hs Ht. revert n. induction s as [|c r IH]; intros [|n]; try done.
  cbn [no_mention] in Hs. apply andb_true_iff in Hs as [H1 H2].
  cbn [take app no_mention]. rewrite (IH H2 n), andb_true_r.
  destruct (c =? AT)%N; [|done]. by destruct r as [|d r], n.
Qed.

Lemma suffix_inert url :
  forallb plain_char url = true -> inert (truncation_suffix url) = true.
Proof.
  intros Hu. pose proof (inert_plain _ (safe_url_plain url Hu)).
  unfold truncation_suffix. repeat (apply inert_app; [auto with inert|]). vm_compute; done.
Qed.

(** C11: The published body cannot address people or inject markup: in the document every
    at-sign taken from the log, the diff or the model is separated from the name after
    it and every less-than sign belongs to a code block of the renderer; cutting an
    over-long document keeps the first property, and the body has at most 60000
    characters, exactly the document when that fits. *)
Theorem render_github_diagnosis_safe (percent : Q -> str)
    (Hpercent : forall q, forallb plain_char (percent q) = true)
    (run_id : Z) (c : Classification) (d : Diagnosis) (fs : list RelatedFile) (url : str)
    (Hurl : forallb plain_char url = true)
    (Hlen : Z.of_nat (length (truncation_suffix url)) <= MAX_GITHUB_BODY_CHARS)
    (trust : TrustLevel) (b h : option str) :
  let document := github_document percent run_id c d fs url trust b h in
  let body := render_github_diagnosis percent run_id c d fs url trust b h in
  inert document = true
  /\ no_mention body = true
  /\ Z.of_nat (length body) = Z.min (Z.of_nat (length document)) MAX_GITHUB_BODY_CHARS
  /\ (Z.of_nat (length document) <= MAX_GITHUB_BODY_CHARS -> body = document).
Proof.
  intros document body. unfold body, render_github_diagnosis. fold document.
  assert (Hdoc : inert document = true) by (by apply document_inert).
  destruct (Z.leb_spec (Z.of_nat (length document)) MAX_GITHUB_BODY_CHARS) as [H|H].
  - split_and!; [done|by apply inert_no_mention|lia|done].
  - split_and!; [done| | |lia].
    + unfold truncation_suffix. unfold nl at 1. cbn [app]. apply no_mention_cut.
      * by apply inert_no_mention.
      * apply inert_no_mention. pose proof (suffix_inert url Hurl) as Hs.
        unfold truncation_suffix, nl at 1 in Hs. cbn [app] in Hs.
        rewrite inert_cons in Hs. by apply andb_true_iff in Hs as [_ Hs].
    + unfold py_upto, slice_bound. rewrite length_app, length_take.
      set (k := Z.of_nat (length (truncation_suffix url))) in *.
      destruct (Z.ltb_spec (MAX_GITHUB_BODY_CHARS - k) 0); [lia|]. subst k. lia.
Qed.

Lemma render_github_diagnosis_safe_witness :
  no_mention (render_github_diagnosis (fun _ => u "50%") 7
    {| cl_category := Cat_TEST; cl_confidence := 0.5; cl_first_error := u "E @team <b>";
       cl_related_step := Some (u "@run"); cl_matched_rules := [] |}
    {| dg_summary := u "@all"; dg_root_cause := u "<img>"; dg_confidence := 0.5;
       dg_evidence := [{| ev_source := u "log"; ev_content := u "E @team <b>";
                          ev_location := None |}];
       dg_suggestions := []; dg_conflicts := []; dg_notes := [] |}
    [] (u "https://pipelens/analyses/7") TRUSTED None None) = true.
Proof.
  refine (proj1 (proj2 (render_github_diagnosis_safe (fun _ => u "50%") (fun _ => eq_refl)
    7 _ _ [] (u "https://pipelens/analyses/7") eq_refl _ TRUSTED None None))).
  vm_compute. discriminate.
Defined.

(** ** Only verified diffs are shown *)
Definition hide_unverified (s : Suggestion) : Suggestion :=
  {| sg_description := sg_description s; sg_file := sg_file s;
     sg_patch := if sg_patch_verified s then sg_patch s else None;
     sg_source := sg_source s; sg_patch_verified := sg_patch_verified s |}.
Definition with_hidden (d : Diagnosis) : Diagnosis :=
  {| dg_summary := dg_summary d; dg_root_cause := dg_root_cause d;
     dg_confidence := dg_confidence d; dg_evidence := dg_evidence d;
     dg_suggestions := map hide_unverified (dg_suggestions d);
     dg_conflicts := dg_conflicts d; dg_notes := dg_notes d |}.

Lemma suggestions_hidden head i ss :
  suggestions_from head i (map hide_unverified ss) = suggestions_from head i ss.
Proof.
  revert i. induction ss as [|s ss IH]; intros i; [done|]. cbn [map suggestions_from].
  rewrite IH. f_equal. unfold suggestion_sections, hide_unverified; cbn.
  destruct (sg_patch_verified s); [done|]. f_equal. by destruct (sg_patch s) as [[|]|].
Qed.

(** The published body is the same as if every diff that verification has not marked
    verified were absent: an unverified diff never reaches GitHub. *)
Theorem render_hides_unverified (percent : Q -> str) (run_id : Z) (c : Classification)
    (d : Diagnosis) (fs : list RelatedFile) (url : str) (trust : TrustLevel)
    (b h : option str) :
  render_github_diagnosis percent run_id c d fs url trust b h
  = render_github_diagnosis percent run_id c (with_hidden d) fs url trust b h.
Proof.
  unfold render_github_diagnosis, github_document, suggestions_sections, summary_sections,
    cause_sections, with_hidden. cbn [dg_suggestions dg_summary dg_confidence dg_root_cause
    dg_evidence dg_conflicts dg_notes]. rewrite suggestions_hidden.
  by destruct (dg_suggestions d).
Qed.
