(* ===== verification/Store.v ===== *)
(** * Analysis store (src/pipelens/store.py)

    The tables as finite maps from primary keys to rows, each method as a state
    transformer over the database.  A method that opens [engine.begin()] is a
    [transaction]: an exception undoes its writes.  [Dialect] holds what differs
    between the database engines the code runs on.  Instants and durations are
    microseconds; the clock readings of a method are its [now] argument.  Columns
    that hold JSON or enumeration values are kept as the typed values. *)

From Stdlib Require Import QArith.
From stdpp Require Import base list gmap strings numbers.
From S2P Require Import Prelude Models.

Set Default Proof Using "Type".

(** ** Rows *)

(** Columns written once, by [create_if_absent]. *)
Record Identity := {
  id_run_id : Z; id_delivery_id : str; id_repository : str; id_workflow_name : str;
  id_head_sha : str; id_html_url : str; id_run_attempt : Z; id_head_branch : option str;
  id_pull_request_number : option Z; id_run_completed_at : option Z;
  id_installation_id : option Z; id_created_at : Z
}.

(** Columns that describe the result of the analysis. *)
Record Output := {
  out_trust_level : TrustLevel; out_baseline_sha : option str;
  out_classification : option Classification; out_diagnosis : option Diagnosis;
  out_related_files : list RelatedFile; out_workflow_path : option str;
  out_execution_context : option ExecutionContext; out_model_name : option str;
  out_prompt_version : option str
}.

(** Columns of the life cycle. *)
Record Progress := {
  pr_status : AnalysisStatus; pr_error : option str;
  pr_analysis_started_at : option Z; pr_analysis_completed_at : option Z;
  pr_duration_seconds : option Z; pr_queue_wait_seconds : option Z;
  pr_total_latency_seconds : option Z; pr_attempt_token : option str; pr_updated_at : Z
}.

(** A row of [analyses]; the six resolution columns are set together. *)
Record AnalysisRow := {
  an_identity : Identity; an_output : Output; an_progress : Progress;
  an_resolution : option ResolutionRecord
}.

Record StageEventRow := {
  er_run_id : Z; er_stage : AnalysisStage; er_status : StageStatus; er_error : option str;
  er_occurred_at : Z
}.

Record FeedbackRow := {
  fr_accuracy : option FeedbackAccuracy; fr_suggestion_resolved : option bool;
  fr_comment : option str; fr_created_at : Z; fr_updated_at : Z
}.

Record UserRow := {
  us_login : str; us_avatar_url : option str; us_created_at : Z; us_updated_at : Z
}.

Record SessionRow := {
  ss_github_user_id : Z; ss_encrypted_access_token : str; ss_expires_at : Z;
  ss_created_at : Z
}.

Record InstallationRow := {
  ui_account_login : str; ui_account_type : str; ui_repository_selection : str;
  ui_updated_at : Z
}.

Record Database := {
  db_analyses : gmap Z AnalysisRow;
  db_events : list StageEventRow;                  (* in the order of their ids *)
  db_feedback : gmap Z FeedbackRow;
  db_users : gmap Z UserRow;
  db_sessions : gmap str SessionRow;
  db_installations : gmap (Z * Z) InstallationRow
}.
Definition empty_database : Database := {|
  db_analyses := ∅; db_events := []; db_feedback := ∅; db_users := ∅; db_sessions := ∅;
  db_installations := ∅ |}.

(** What depends on the engine: where NULL sorts in a descending order, whether foreign
    keys are enforced (with their cascades), and the collation of text. *)
Class Dialect := {
  nulls_first_desc : bool;
  fk_enforced : bool;
  collation_leb : str -> str -> bool
}.

(** ** Values of the interface *)
Record AnalysisStart := {
  as_attempt_started_at : Z; as_queue_wait_seconds : Z; as_first_start : bool }.
Record AnalysisCursor := { cur_created_at : Z; cur_run_id : Z }.
Record AnalysisPage := { pg_records : list AnalysisRecord; pg_next_cursor : option AnalysisCursor }.
Record ResolutionMatch := { rm_failed_run_id : Z; rm_resolution : ResolutionRecord }.
Record AuthSessionRow := {
  au_github_user_id : Z; au_encrypted_access_token : str; au_expires_at : Z;
  au_login : str; au_avatar_url : option str }.

(** with self.engine.begin(): an exception rolls back. *)
Definition transaction {A} (m : M Database A) : M Database A := fun db =>
  match m db with
  | (Ok a, db') => (Ok a, db')
  | (Raise e, _) => (Raise e, db)
  end.

(** ** Writing tables *)
Definition with_analyses (db : Database) (t : gmap Z AnalysisRow) : Database := {|
  db_analyses := t; db_events := db_events db; db_feedback := db_feedback db;
  db_users := db_users db; db_sessions := db_sessions db;
  db_installations := db_installations db |}.
Definition with_events (db : Database) (t : list StageEventRow) : Database := {|
  db_analyses := db_analyses db; db_events := t; db_feedback := db_feedback db;
  db_users := db_users db; db_sessions := db_sessions db;
  db_installations := db_installations db |}.
Definition with_feedback (db : Database) (t : gmap Z FeedbackRow) : Database := {|
  db_analyses := db_analyses db; db_events := db_events db; db_feedback := t;
  db_users := db_users db; db_sessions := db_sessions db;
  db_installations := db_installations db |}.
Definition with_users (db : Database) (t : gmap Z UserRow) : Database := {|
  db_analyses := db_analyses db; db_events := db_events db; db_feedback := db_feedback db;
  db_users := t; db_sessions := db_sessions db; db_installations := db_installations db |}.
Definition with_sessions (db : Database) (t : gmap str SessionRow) : Database := {|
  db_analyses := db_analyses db; db_events := db_events db; db_feedback := db_feedback db;
  db_users := db_users db; db_sessions := t; db_installations := db_installations db |}.
Definition with_installations (db : Database) (t : gmap (Z * Z) InstallationRow) : Database := {|
  db_analyses := db_analyses db; db_events := db_events db; db_feedback := db_feedback db;
  db_users := db_users db; db_sessions := db_sessions db; db_installations := t |}.

(** update(analyses).where(run_id == ..., cond).values(f): the row count. *)
Definition update_where (run_id : Z) (cond : AnalysisRow -> bool)
    (f : AnalysisRow -> AnalysisRow) : M Database nat := fun db =>
  match db_analyses db !! run_id with
  | Some row =>
    if cond row then (Ok 1%nat, with_analyses db (<[run_id := f row]> (db_analyses db)))
    else (Ok 0%nat, db)
  | None => (Ok 0%nat, db)
  end.

Definition with_progress (row : AnalysisRow) (p : Progress) : AnalysisRow := {|
  an_identity := an_identity row; an_output := an_output row; an_progress := p;
  an_resolution := an_resolution row |}.

(** Conditions on a column that may be NULL. *)
Definition token_is (token : str) (row : AnalysisRow) : bool :=
  bool_decide (pr_attempt_token (an_progress row) = Some token).
(** The fence of a method: every row without a token. *)
Definition fence (token : option str) (row : AnalysisRow) : bool :=
  match token with None => true | Some t => token_is t row end.

Definition not_current (run_id : Z) : exn :=
  AnalysisAttemptSuperseded
    (u "analysis attempt for run " ++ str_of_Z run_id ++ u " is no longer current").
Definition does_not_exist (run_id : Z) : exn :=
  AnalysisAttemptSuperseded (u "analysis run " ++ str_of_Z run_id ++ u " does not exist").

Definition _require_current_attempt (rowcount : nat) (run_id : Z) (token : option str)
  : M Database unit :=
  match token with
  | Some _ => if (rowcount =? 1)%nat then Mret tt else Mraise (not_current run_id)
  | None => Mret tt
  end.

Section store.
Context {DL : Dialect}.
Open Scope prog_scope.

(** ** Analyses *)

Definition identity_of (r : AnalysisRecord) : Identity := {|
  id_run_id := ar_run_id r; id_delivery_id := ar_delivery_id r;
  id_repository := ar_repository r; id_workflow_name := ar_workflow_name r;
  id_head_sha := ar_head_sha r; id_html_url := ar_html_url r;
  id_run_attempt := ar_run_attempt r; id_head_branch := ar_head_branch r;
  id_pull_request_number := ar_pull_request_number r;
  id_run_completed_at := ar_run_completed_at r;
  id_installation_id := ar_installation_id r; id_created_at := ar_created_at r |}.

(** The inserted row: attempt_token and the resolution columns stay NULL. *)
Definition row_of (r : AnalysisRecord) : AnalysisRow := {|
  an_identity := identity_of r;
  an_output := {|
    out_trust_level := ar_trust_level r; out_baseline_sha := ar_baseline_sha r;
    out_classification := ar_classification r; out_diagnosis := ar_diagnosis r;
    out_related_files := ar_related_files r; out_workflow_path := ar_workflow_path r;
    out_execution_context := ar_execution_context r; out_model_name := ar_model_name r;
    out_prompt_version := ar_prompt_version r |};
  an_progress := {|
    pr_status := ar_status r; pr_error := ar_error r;
    pr_analysis_started_at := ar_analysis_started_at r;
    pr_analysis_completed_at := ar_analysis_completed_at r;
    pr_duration_seconds := ar_duration_seconds r;
    pr_queue_wait_seconds := ar_queue_wait_seconds r;
    pr_total_latency_seconds := ar_total_latency_seconds r;
    pr_attempt_token := None; pr_updated_at := ar_updated_at r |};
  an_resolution := None |}.

Definition delivery_taken (delivery_id : str) (t : gmap Z AnalysisRow) : bool :=
  existsb (fun kv => str_eqb (id_delivery_id (an_identity (snd kv))) delivery_id)
    (map_to_list t).

(** insert(analyses): the primary key and the unique delivery_id. *)
Definition insert_analysis (r : AnalysisRecord) : M Database unit := fun db =>
  match db_analyses db !! ar_run_id r with
  | Some _ => (Raise IntegrityError, db)
  | None =>
    if delivery_taken (ar_delivery_id r) (db_analyses db) then (Raise IntegrityError, db)
    else (Ok tt, with_analyses db (<[ar_run_id r := row_of r]> (db_analyses db)))
  end.

Definition create_if_absent (r : AnalysisRecord) : M Database bool :=
  Mtry (transaction (insert_analysis r);;; Mret true)
    (fun e => match e with IntegrityError => Mret false | e => Mraise e end).

(** ** Follow-up runs *)

Record FollowupRun := {
  fo_repository : str; fo_workflow_name : str; fo_head_branch : option str;
  fo_pull_request_number : option Z; fo_run_id : Z; fo_run_attempt : Z;
  fo_html_url : str; fo_conclusion : str; fo_completed_at : Z
}.

Definition target_match (f : FollowupRun) (i : Identity) : bool :=
  match fo_pull_request_number f with
  | Some n =>
    bool_decide (id_pull_request_number i = Some n)
    || match fo_head_branch f with
       | Some b => bool_decide (id_pull_request_number i = None)
                   && bool_decide (id_head_branch i = Some b)
       | None => false
       end
  | None => match fo_head_branch f with
            | Some b => bool_decide (id_head_branch i = Some b)
            | None => bool_decide (id_head_branch i = None)
            end
  end.
Definition prior_run (f : FollowupRun) (i : Identity) : bool :=
  (id_run_id i <? fo_run_id f)
  || ((id_run_id i =? fo_run_id f) && (id_run_attempt i <? fo_run_attempt f)).
Definition unresolved_or_same_run_retry (f : FollowupRun) (row : AnalysisRow) : bool :=
  match an_resolution row with
  | None => true
  | Some r =>
    (id_run_id (an_identity row) =? fo_run_id f)
    && bool_decide (rs_outcome r = STILL_FAILING)
    && (rs_followup_run_id r =? fo_run_id f)
    && (rs_followup_run_attempt r <? fo_run_attempt f)
  end.
Definition is_candidate (f : FollowupRun) (row : AnalysisRow) : bool :=
  let i := an_identity row in
  str_eqb (id_repository i) (fo_repository f)
  && str_eqb (id_workflow_name i) (fo_workflow_name f)
  && unresolved_or_same_run_retry f row && target_match f i && prior_run f i.

(** order_by(run_completed_at.desc(), run_id.desc(), run_attempt.desc()) *)
Definition completed_before (a b : option Z) : comparison :=
  match a, b with
  | Some x, Some y => Z.compare y x
  | None, None => Eq
  | None, Some _ => if nulls_first_desc then Lt else Gt
  | Some _, None => if nulls_first_desc then Gt else Lt
  end.
Definition candidate_leb (a b : AnalysisRow) : bool :=
  let ia := an_identity a in let ib := an_identity b in
  match completed_before (id_run_completed_at ia) (id_run_completed_at ib) with
  | Lt => true
  | Gt => false
  | Eq =>
    (id_run_id ib <? id_run_id ia)
    || ((id_run_id ib =? id_run_id ia) && (id_run_attempt ib <=? id_run_attempt ia))
  end.

Definition rows (db : Database) : list AnalysisRow := map snd (map_to_list (db_analyses db)).
Definition followup_candidate (f : FollowupRun) (db : Database) : option AnalysisRow :=
  head (py_sorted candidate_leb (List.filter (is_candidate f) (rows db))).

Definition followup_resolution (f : FollowupRun) (row : AnalysisRow) : ResolutionRecord :=
  let i := an_identity row in
  let failed_at := default (id_created_at i) (id_run_completed_at i) in
  {| rs_outcome := if str_eqb (fo_conclusion f) (u "success") then RESOLVED else STILL_FAILING;
     rs_followup_run_id := fo_run_id f; rs_followup_run_attempt := fo_run_attempt f;
     rs_followup_html_url := fo_html_url f; rs_followup_completed_at := fo_completed_at f;
     rs_recovery_seconds := Z.max 0 (fo_completed_at f - failed_at) |}.

Definition touch (now : Z) (p : Progress) : Progress := {|
  pr_status := pr_status p; pr_error := pr_error p;
  pr_analysis_started_at := pr_analysis_started_at p;
  pr_analysis_completed_at := pr_analysis_completed_at p;
  pr_duration_seconds := pr_duration_seconds p;
  pr_queue_wait_seconds := pr_queue_wait_seconds p;
  pr_total_latency_seconds := pr_total_latency_seconds p;
  pr_attempt_token := pr_attempt_token p; pr_updated_at := now |}.

Definition resolve_row (now : Z) (res : ResolutionRecord) (row : AnalysisRow) : AnalysisRow := {|
  an_identity := an_identity row; an_output := an_output row;
  an_progress := touch now (an_progress row); an_resolution := Some res |}.

Definition record_followup_run (now : Z) (f : FollowupRun) : M Database (option ResolutionMatch) :=
  if negb (str_eqb (fo_conclusion f) (u "success") || str_eqb (fo_conclusion f) (u "failure"))
  then Mret None
  else if bool_decide (fo_head_branch f = None) && bool_decide (fo_pull_request_number f = None)
  then Mret None
  else transaction
    (do! db := Mget in
     match followup_candidate f db with
     | None => Mret None
     | Some row =>
       let run_id := id_run_id (an_identity row) in
       let res := followup_resolution f row in
       do! rowcount := update_where run_id (unresolved_or_same_run_retry f)
                         (resolve_row now res) in
       if (rowcount =? 1)%nat
       then Mret (Some {| rm_failed_run_id := run_id; rm_resolution := res |})
       else Mret None
     end).

(** ** Attempts *)

(** The arguments of [update] that replace a column when given. *)
Record AnalysisUpdate := {
  au_classification : option Classification; au_diagnosis : option Diagnosis;
  au_related_files : option (list RelatedFile); au_workflow_path : option str;
  au_execution_context : option ExecutionContext; au_model_name : option str;
  au_prompt_version : option str; au_trust_level : option TrustLevel;
  au_baseline_sha : option str
}.
Definition no_update : AnalysisUpdate := {|
  au_classification := None; au_diagnosis := None; au_related_files := None;
  au_workflow_path := None; au_execution_context := None; au_model_name := None;
  au_prompt_version := None; au_trust_level := None; au_baseline_sha := None |}.

Definition or_else {A} (a b : option A) : option A :=
  match a with Some _ => a | None => b end.

Definition apply_update (v : AnalysisUpdate) (o : Output) : Output := {|
  out_trust_level := default (out_trust_level o) (au_trust_level v);
  out_baseline_sha := or_else (au_baseline_sha v) (out_baseline_sha o);
  out_classification := or_else (au_classification v) (out_classification o);
  out_diagnosis := or_else (au_diagnosis v) (out_diagnosis o);
  out_related_files := default (out_related_files o) (au_related_files v);
  out_workflow_path := or_else (au_workflow_path v) (out_workflow_path o);
  out_execution_context := or_else (au_execution_context v) (out_execution_context o);
  out_model_name := or_else (au_model_name v) (out_model_name o);
  out_prompt_version := or_else (au_prompt_version v) (out_prompt_version o) |}.

Definition update_row (now : Z) (status : AnalysisStatus) (v : AnalysisUpdate)
    (error : option str) (row : AnalysisRow) : AnalysisRow :=
  let p := an_progress row in
  {| an_identity := an_identity row; an_output := apply_update v (an_output row);
     an_progress := {|
       pr_status := status; pr_error := error;
       pr_analysis_started_at := pr_analysis_started_at p;
       pr_analysis_completed_at := pr_analysis_completed_at p;
       pr_duration_seconds := pr_duration_seconds p;
       pr_queue_wait_seconds := pr_queue_wait_seconds p;
       pr_total_latency_seconds := pr_total_latency_seconds p;
       pr_attempt_token := pr_attempt_token p; pr_updated_at := now |};
     an_resolution := an_resolution row |}.

Definition update (now run_id : Z) (status : AnalysisStatus) (v : AnalysisUpdate)
    (error : option str) (token : option str) : M Database unit :=
  transaction
    (do! rowcount := update_where run_id (fence token) (update_row now status v error) in
     _require_current_attempt rowcount run_id token).

Definition begin_row (now queue_wait : Z) (token : option str) (row : AnalysisRow)
  : AnalysisRow :=
  with_progress row {|
    pr_status := RUNNING; pr_error := None;
    pr_analysis_started_at :=
      Some (default now (pr_analysis_started_at (an_progress row)));
    pr_analysis_completed_at := None; pr_duration_seconds := None;
    pr_queue_wait_seconds := Some queue_wait; pr_total_latency_seconds := None;
    pr_attempt_token := token; pr_updated_at := now |}.

Definition SUPERSEDED_STAGE : str := u "Superseded by a newer analysis attempt".

(** The stage events an earlier attempt left open. *)
Definition supersede_event (run_id : Z) (e : StageEventRow) : StageEventRow :=
  if (er_run_id e =? run_id) && bool_decide (er_status e = S_STARTED)
  then {| er_run_id := er_run_id e; er_stage := er_stage e; er_status := S_FAILED;
          er_error := Some SUPERSEDED_STAGE; er_occurred_at := er_occurred_at e |}
  else e.

Definition startable (token : option str) (row : AnalysisRow) : bool :=
  match token with
  | Some _ => bool_decide (pr_status (an_progress row) = QUEUED)
              || bool_decide (pr_status (an_progress row) = RUNNING)
  | None => true
  end.

Definition begin_analysis (now run_id : Z) (token : option str) : M Database AnalysisStart :=
  transaction
    (do! db := Mget in
     match db_analyses db !! run_id with
     | None => Mraise (does_not_exist run_id)
     | Some row =>
       let p := an_progress row in
       let first_start := bool_decide (pr_analysis_started_at p = None) in
       let queue_wait := default (Z.max 0 (now - id_created_at (an_identity row)))
                           (pr_queue_wait_seconds p) in
       do! rowcount := update_where run_id (startable token) (begin_row now queue_wait token) in
       _require_current_attempt rowcount run_id token ;;;
       Mwhen (bool_decide (token <> None))
         (Mmodify (fun db => with_events db (map (supersede_event run_id) (db_events db)))) ;;;
       Mret {| as_attempt_started_at := now; as_queue_wait_seconds := queue_wait;
               as_first_start := first_start |}
     end).

Definition finish_row (now started_at total_latency : Z) (status : AnalysisStatus)
    (row : AnalysisRow) : AnalysisRow :=
  let p := an_progress row in
  with_progress row {|
    pr_status := status; pr_error := pr_error p;
    pr_analysis_started_at := pr_analysis_started_at p;
    pr_analysis_completed_at := Some now; pr_duration_seconds := Some (now - started_at);
    pr_queue_wait_seconds := pr_queue_wait_seconds p;
    pr_total_latency_seconds := Some total_latency;
    pr_attempt_token := None; pr_updated_at := now |}.

Definition finish_analysis (now run_id started_at : Z) (status : AnalysisStatus)
    (token : option str) : M Database Z :=
  transaction
    (do! db := Mget in
     match db_analyses db !! run_id with
     | None => Mraise (does_not_exist run_id)
     | Some row =>
       let total_latency := Z.max 0 (now - id_created_at (an_identity row)) in
       do! rowcount := update_where run_id (fence token)
                         (finish_row now started_at total_latency status) in
       _require_current_attempt rowcount run_id token ;;;
       Mret total_latency
     end).

(** insert(analysis_stage_events) *)
Definition insert_event (e : StageEventRow) : M Database unit := fun db =>
  if fk_enforced && bool_decide (db_analyses db !! er_run_id e = None)
  then (Raise IntegrityError, db)
  else (Ok tt, with_events db (db_events db ++ [e])).

Definition record_stage (now run_id : Z) (stage : AnalysisStage) (status : StageStatus)
    (error : option str) (token : option str) : M Database unit :=
  transaction
    (do! db := Mget in
     match token with
     | Some t =>
       match db_analyses db !! run_id with
       | Some row => if token_is t row then Mret tt else Mraise (not_current run_id)
       | None => Mraise (not_current run_id)
       end
     | None => Mret tt
     end ;;;
     insert_event {| er_run_id := run_id; er_stage := stage; er_status := status;
                     er_error := error; er_occurred_at := now |}).

(** ** Reading analyses *)

Definition stage_event (e : StageEventRow) : AnalysisStageEvent := {|
  se_stage := er_stage e; se_status := er_status e; se_error := er_error e;
  se_occurred_at := er_occurred_at e |}.
Definition _stage_history (db : Database) (run_id : Z) : list AnalysisStageEvent :=
  map stage_event (List.filter (fun e => er_run_id e =? run_id) (db_events db)).

Definition feedback_record (run_id : Z) (f : FeedbackRow) : FeedbackRecord := {|
  fb_run_id := run_id; fb_accuracy := fr_accuracy f;
  fb_suggestion_resolved := fr_suggestion_resolved f; fb_comment := fr_comment f;
  fb_created_at := fr_created_at f; fb_updated_at := fr_updated_at f |}.

Definition _to_record (db : Database) (row : AnalysisRow) : AnalysisRecord :=
  let i := an_identity row in let o := an_output row in let p := an_progress row in
  let run_id := id_run_id i in
  {| ar_run_id := run_id; ar_delivery_id := id_delivery_id i;
     ar_repository := id_repository i; ar_workflow_name := id_workflow_name i;
     ar_head_sha := id_head_sha i; ar_html_url := id_html_url i;
     ar_run_attempt := id_run_attempt i; ar_head_branch := id_head_branch i;
     ar_pull_request_number := id_pull_request_number i;
     ar_run_completed_at := id_run_completed_at i;
     ar_installation_id := id_installation_id i;
     ar_trust_level := out_trust_level o; ar_baseline_sha := out_baseline_sha o;
     ar_status := pr_status p; ar_classification := out_classification o;
     ar_diagnosis := out_diagnosis o; ar_related_files := out_related_files o;
     ar_workflow_path := out_workflow_path o; ar_execution_context := out_execution_context o;
     ar_model_name := out_model_name o; ar_prompt_version := out_prompt_version o;
     ar_feedback := if run_id =? 0 then None
                    else option_map (feedback_record run_id) (db_feedback db !! run_id);
     ar_resolution := an_resolution row; ar_error := pr_error p;
     ar_analysis_started_at := pr_analysis_started_at p;
     ar_analysis_completed_at := pr_analysis_completed_at p;
     ar_duration_seconds := pr_duration_seconds p;
     ar_queue_wait_seconds := pr_queue_wait_seconds p;
     ar_total_latency_seconds := pr_total_latency_seconds p;
     ar_stage_history := _stage_history db run_id;
     ar_created_at := id_created_at i; ar_updated_at := pr_updated_at p |}.

(** The caller's installations: None is an unrestricted caller. *)
Definition visible (installation_ids : option (list Z)) (row : AnalysisRow) : bool :=
  match installation_ids with
  | None => true
  | Some ids => match id_installation_id (an_identity row) with
                | Some i => existsb (Z.eqb i) ids
                | None => false
                end
  end.

Definition get (run_id : Z) (installation_ids : option (list Z)) (db : Database)
  : option AnalysisRecord :=
  match db_analyses db !! run_id with
  | Some row => if visible installation_ids row then Some (_to_record db row) else None
  | None => None
  end.

Record ListFilter := {
  lf_repository : option str; lf_status : option AnalysisStatus;
  lf_category : option ErrorCategory }.
Definition no_filter : ListFilter := {|
  lf_repository := None; lf_status := None; lf_category := None |}.

Definition passes (flt : ListFilter) (row : AnalysisRow) : bool :=
  match lf_repository flt with
  | Some r => str_eqb (id_repository (an_identity row)) r | None => true
  end
  && match lf_status flt with
     | Some st => bool_decide (pr_status (an_progress row) = st) | None => true
     end
  && match lf_category flt with
     | Some c => match out_classification (an_output row) with
                 | Some cl => bool_decide (cl_category cl = c)
                 | None => false
                 end
     | None => true
     end.

(** The position of a row in the list: newest first. *)
Definition position (row : AnalysisRow) : AnalysisCursor := {|
  cur_created_at := id_created_at (an_identity row);
  cur_run_id := id_run_id (an_identity row) |}.
Definition after_cursor (c a : AnalysisCursor) : bool :=
  (cur_created_at a <? cur_created_at c)
  || ((cur_created_at a =? cur_created_at c) && (cur_run_id a <? cur_run_id c)).
Definition newer_leb (a b : AnalysisRow) : bool := 
  negb (after_cursor (position b) (position a)).

Definition select_page (limit : nat) (installation_ids : option (list Z)) (flt : ListFilter)
    (cursor : option AnalysisCursor) (db : Database) : list AnalysisRow :=
  let ok row := visible installation_ids row && passes flt row
    && match cursor with Some c => after_cursor c (position row) | None => true end in
  take (limit + 1) (py_sorted newer_leb (List.filter ok (rows db))).

Definition list_page (limit : nat) (installation_ids : option (list Z)) (flt : ListFilter)
    (cursor : option AnalysisCursor) (db : Database) : AnalysisPage :=
  match installation_ids with
  | Some [] => {| pg_records := []; pg_next_cursor := None |}
  | _ =>
    let found := select_page limit installation_ids flt cursor db in
    let page_rows := take limit found in
    {| pg_records := map (_to_record db) page_rows;
       pg_next_cursor := if (limit <? length found)%nat then option_map position (head (rev page_rows))
                         else None |}
  end.

Definition list_analyses (limit : nat) (installation_ids : option (list Z)) (flt : ListFilter)
    (db : Database) : list AnalysisRecord :=
  pg_records (list_page limit installation_ids flt None db).

Definition created_leb (a b : AnalysisRow) : bool :=
  id_created_at (an_identity a) <=? id_created_at (an_identity b).
Definition request_of (row : AnalysisRow) : option AnalysisRequest :=
  let i := an_identity row in
  option_map (fun inst => {| aq_run_id := id_run_id i; aq_repository := id_repository i;
                             aq_installation_id := inst; aq_head_sha := id_head_sha i |})
    (id_installation_id i).
Definition queued_requests (db : Database) : list AnalysisRequest :=
  omap request_of
    (py_sorted created_leb
      (List.filter (fun row => bool_decide (pr_status (an_progress row) = QUEUED)
                     && bool_decide (id_installation_id (an_identity row) <> None))
        (rows db))).

(** ** Feedback and deletion *)

Definition save_feedback (now run_id : Z) (q : FeedbackRequest)
    (installation_ids : option (list Z)) : M Database (option FeedbackRecord) :=
  transaction (fun db =>
    match db_analyses db !! run_id with
    | Some row =>
      if visible installation_ids row then
        let f := {| fr_accuracy := fq_accuracy q;
                    fr_suggestion_resolved := fq_suggestion_resolved q;
                    fr_comment := fq_comment q;
                    fr_created_at := match db_feedback db !! run_id with
                                     | Some old => fr_created_at old
                                     | None => now
                                     end;
                    fr_updated_at := now |} in
        (Ok (Some (feedback_record run_id f)),
         with_feedback db (<[run_id := f]> (db_feedback db)))
      else (Ok None, db)
    | None => (Ok None, db)
    end).

Definition delete_analysis (run_id : Z) : M Database unit := fun db =>
  let db' := with_analyses db (delete run_id (db_analyses db)) in
  (Ok tt, if fk_enforced
          then with_feedback
                 (with_events db' (List.filter (fun e => negb (er_run_id e =? run_id)) (db_events db)))
                 (delete run_id (db_feedback db))
          else db').

(** ** Users and sessions *)

Definition upsert_github_user (now : Z) (user : GitHubUser) : M Database unit := fun db =>
  let id := gu_github_user_id user in
  let row := {| us_login := gu_login user; us_avatar_url := gu_avatar_url user;
                us_created_at := match db_users db !! id with
                                 | Some old => us_created_at old
                                 | None => now
                                 end;
                us_updated_at := now |} in
  (Ok tt, with_users db (<[id := row]> (db_users db))).

Definition user_missing (id : Z) (db : Database) : bool :=
  fk_enforced && bool_decide (db_users db !! id = None).

Fixpoint insert_installations (now user : Z) (l : list GitHubInstallation)
  : M Database unit :=
  match l with
  | [] => Mret tt
  | i :: l' => fun db =>
    let key := (user, gi_installation_id i) in
    if user_missing user db || bool_decide (db_installations db !! key <> None)
    then (Raise IntegrityError, db)
    else insert_installations now user l'
           (with_installations db (<[key := {|
              ui_account_login := gi_account_login i; ui_account_type := gi_account_type i;
              ui_repository_selection := gi_repository_selection i; ui_updated_at := now |}]>
              (db_installations db)))
  end.

Definition replace_user_installations (now user : Z) (l : list GitHubInstallation)
  : M Database unit :=
  transaction
    (Mmodify (fun db => with_installations db
       (filter (fun kv => kv.1.1 <> user) (db_installations db))) ;;;
     insert_installations now user l).

Definition create_auth_session (now : Z) (session_hash : str) (user : Z) (token : str)
    (expires_at : Z) : M Database unit := fun db =>
  if user_missing user db || bool_decide (db_sessions db !! session_hash <> None)
  then (Raise IntegrityError, db)
  else (Ok tt, with_sessions db (<[session_hash := {|
          ss_github_user_id := user; ss_encrypted_access_token := token;
          ss_expires_at := expires_at; ss_created_at := now |}]> (db_sessions db))).

Definition get_auth_session (session_hash : str) (db : Database) : option AuthSessionRow :=
  match db_sessions db !! session_hash with
  | Some s =>
    option_map (fun us => {|
      au_github_user_id := ss_github_user_id s;
      au_encrypted_access_token := ss_encrypted_access_token s;
      au_expires_at := ss_expires_at s; au_login := us_login us;
      au_avatar_url := us_avatar_url us |}) (db_users db !! ss_github_user_id s)
  | None => None
  end.

Definition delete_auth_session (session_hash : str) : M Database unit :=
  Mmodify (fun db => with_sessions db (delete session_hash (db_sessions db))).

Definition update_auth_session_token (session_hash token : str) : M Database unit :=
  Mmodify (fun db => with_sessions db (alter (fun s => {|
    ss_github_user_id := ss_github_user_id s; ss_encrypted_access_token := token;
    ss_expires_at := ss_expires_at s; ss_created_at := ss_created_at s |})
    session_hash (db_sessions db))).

Definition login_leb (a b : GitHubInstallation) : bool :=
  collation_leb (gi_account_login a) (gi_account_login b).
Definition installations_for_user (user : Z) (db : Database) : list GitHubInstallation :=
  py_sorted login_leb
    (omap (fun '((owner, inst), i) =>
       if owner =? user
       then Some {| gi_installation_id := inst; gi_account_login := ui_account_login i;
                    gi_account_type := ui_account_type i;
                    gi_repository_selection := ui_repository_selection i |}
       else None) (map_to_list (db_installations db))).
End store.
