(* ===== verification/StoreFacts.v ===== *)
(** * Properties of the store

    Operations as data ([store_op], [run_op]), the fencing of superseded attempts, the
    invariant of reachable databases, and the specifications of the attempt life cycle
    and the follow-up resolution. *)

From Stdlib Require Import QArith.
From stdpp Require Import base list gmap strings numbers sorting.
From S2P Require Import Prelude Models Store.

Set Default Proof Using "Type".

Section store_facts.
Context {DL : Dialect}.
Open Scope prog_scope.

(** ** Operations *)

Inductive store_op :=
| OpCreate (r : AnalysisRecord)
| OpFollowup (now : Z) (f : FollowupRun)
| OpUpdate (now run_id : Z) (status : AnalysisStatus) (v : AnalysisUpdate)
           (error : option str) (token : option str)
| OpBegin (now run_id : Z) (token : option str)
| OpFinish (now run_id started_at : Z) (status : AnalysisStatus) (token : option str)
| OpStage (now run_id : Z) (stage : AnalysisStage) (status : StageStatus)
          (error : option str) (token : option str)
| OpFeedback (now run_id : Z) (q : FeedbackRequest) (ids : option (list Z))
| OpDelete (run_id : Z)
| OpUser (now : Z) (user : GitHubUser)
| OpInstallations (now user : Z) (l : list GitHubInstallation)
| OpSession (now : Z) (hash : str) (user : Z) (token : str) (expires_at : Z)
| OpEndSession (hash : str)
| OpSessionToken (hash token : str).

Definition ignore {A} (m : M Database A) : M Database unit := m ;;; Mret tt.

Definition run_op (op : store_op) : M Database unit :=
  match op with
  | OpCreate r => ignore (create_if_absent r)
  | OpFollowup now f => ignore (record_followup_run now f)
  | OpUpdate now run_id status v error token => update now run_id status v error token
  | OpBegin now run_id token => ignore (begin_analysis now run_id token)
  | OpFinish now run_id started status token =>
    ignore (finish_analysis now run_id started status token)
  | OpStage now run_id stage status error token =>
    record_stage now run_id stage status error token
  | OpFeedback now run_id q ids => ignore (save_feedback now run_id q ids)
  | OpDelete run_id => delete_analysis run_id
  | OpUser now user => upsert_github_user now user
  | OpInstallations now user l => replace_user_installations now user l
  | OpSession now hash user token expires => create_auth_session now hash user token expires
  | OpEndSession hash => delete_auth_session hash
  | OpSessionToken hash token => update_auth_session_token hash token
  end.
Definition step (db : Database) (op : store_op) : Database := snd (run_op op db).
Definition exec (ops : list store_op) (db : Database) : Database := fold_left step ops db.

(** ** What each operation does to the table of analyses *)

Lemma update_where_run run_id cond f db :
  update_where run_id cond f db
  = match db_analyses db !! run_id with
    | Some row =>
      if cond row then (Ok 1%nat, with_analyses db (<[run_id := f row]> (db_analyses db)))
      else (Ok 0%nat, db)
    | None => (Ok 0%nat, db)
    end.
Proof. done. Qed.

(** The effect of an operation on one row. *)
Definition row_step (op : store_op) (run_id : Z) (old new : option AnalysisRow) : Prop :=
  new = old \/
  match op with
  | OpCreate r => run_id = ar_run_id r /\ old = None /\ new = Some (row_of r)
  | OpFollowup now f => exists row, old = Some row /\ is_candidate f row = true
      /\ new = Some (resolve_row now (followup_resolution f row) row)
  | OpUpdate now id status v error token => id = run_id /\ exists row, old = Some row
      /\ fence token row = true /\ new = Some (update_row now status v error row)
  | OpBegin now id token => id = run_id /\ exists row wait, old = Some row
      /\ startable token row = true /\ new = Some (begin_row now wait token row)
  | OpFinish now id started status token => id = run_id /\ exists row latency, old = Some row
      /\ fence token row = true /\ new = Some (finish_row now started latency status row)
  | OpDelete id => id = run_id /\ new = None
  | _ => False
  end.

(** Every row is stored under its run id. *)
Definition keys_ok (db : Database) : Prop :=
  forall k row, db_analyses db !! k = Some row -> id_run_id (an_identity row) = k.

Lemma rows_lookup db row : keys_ok db ->
  In row (rows db) <-> db_analyses db !! id_run_id (an_identity row) = Some row.
Proof.
  intros Hk. unfold rows. rewrite in_map_iff. split.
  - intros ([k row'] & <- & Hin). apply list_elem_of_In, elem_of_map_to_list in Hin.
    cbn. by rewrite (Hk _ _ Hin).
  - intros H. exists (id_run_id (an_identity row), row). split; [done|].
    by apply list_elem_of_In, elem_of_map_to_list.
Qed.

Lemma followup_candidate_In f db row :
  followup_candidate f db = Some row -> In row (rows db) /\ is_candidate f row = true.
Proof.
  unfold followup_candidate. intros H.
  assert (Hin : row ∈ py_sorted candidate_leb (List.filter (is_candidate f) (rows db))).
  { destruct (py_sorted _ _); [done|]. injection H as ->. by left. }
  rewrite py_sorted_perm in Hin. by apply list_elem_of_In, List.filter_In in Hin.
Qed.

Lemma lookup_insert_cases {A} (m : gmap Z A) k k' x :
  <[k := x]> m !! k' = if decide (k = k') then Some x else m !! k'.
Proof. case_decide; [subst; apply lookup_insert_eq|by apply lookup_insert_ne]. Qed.

Lemma insert_installations_frame now user l db o db' :
  insert_installations now user l db = (o, db') ->
  exists inst, db' = with_installations db inst.
Proof.
  revert db. induction l as [|i l IH]; intros db E; cbn in E.
  - injection E as _ <-. exists (db_installations db). by destruct db.
  - destruct (_ || _)%bool.
    + injection E as _ <-. exists (db_installations db). by destruct db.
    + apply IH in E as (inst & ->). by exists inst.
Qed.

Lemma step_row op db k : keys_ok db ->
  row_step op k (db_analyses db !! k) (db_analyses (step db op) !! k).
Proof.
  intros Hk. unfold step, run_op, row_step.
  destruct op.
  - unfold ignore, create_if_absent, transaction, insert_analysis, Mbind, Mtry, Mret, Mraise.
    destruct (db_analyses db !! ar_run_id r) eqn:E; [by left|].
    destruct (delivery_taken _ _); [by left|]. cbn.
    rewrite lookup_insert_cases. case_decide; [subst; right; auto|by left].
  - unfold ignore, record_followup_run. destruct (negb _); [by left|].
    destruct (_ && _)%bool; [by left|]. unfold transaction, Mbind, Mget.
    destruct (followup_candidate f db) as [row|] eqn:E; [|by left].
    apply followup_candidate_In in E as [Hin Hc]. apply (rows_lookup db row Hk) in Hin.
    rewrite update_where_run, Hin. destruct (unresolved_or_same_run_retry _ _); [|by left].
    cbn. rewrite lookup_insert_cases. case_decide; [|by left].
    subst k. right. eauto.
  - unfold update, transaction, Mbind. rewrite update_where_run.
    destruct (db_analyses db !! run_id) as [row|] eqn:E; [destruct (fence token row) eqn:Ef|].
    + unfold _require_current_attempt. destruct token; cbn;
        (rewrite lookup_insert_cases; case_decide; [subst; right; split; [done|]; eauto|by left]).
    + unfold _require_current_attempt. destruct token; by left.
    + unfold _require_current_attempt. destruct token; by left.
  - unfold ignore, begin_analysis, transaction, Mbind, Mget.
    destruct (db_analyses db !! run_id) as [row|] eqn:E; [|by left].
    rewrite update_where_run, E. destruct (startable token row) eqn:Es.
    + unfold _require_current_attempt, Mwhen. destruct token; cbn;
        (rewrite lookup_insert_cases; case_decide; [subst; right; split; [done|]; eauto|by left]).
    + destruct token; [by left|done].
  - unfold ignore, finish_analysis, transaction, Mbind, Mget.
    destruct (db_analyses db !! run_id) as [row|] eqn:E; [|by left].
    rewrite update_where_run, E. destruct (fence token row) eqn:Es.
    + unfold _require_current_attempt. destruct token; cbn;
        (rewrite lookup_insert_cases; case_decide; [subst; right; split; [done|]; eauto|by left]).
    + destruct token; [by left|done].
  - left. unfold record_stage, transaction, Mbind, Mget, insert_event, Mret. cbn.
    repeat case_match; by simplify_eq.
  - left. unfold ignore, save_feedback, transaction, Mbind. repeat case_match; by simplify_eq.
  - unfold delete_analysis. destruct fk_enforced; cbn;
      (destruct (decide (run_id = k)) as [->|Hne];
       [right; split; [done|apply lookup_delete_eq]|left; by apply lookup_delete_ne]).
  - by left.
  - left. unfold replace_user_installations, transaction, Mbind, Mmodify.
    destruct (insert_installations now user l _) as [[[]|e] db'] eqn:E; [|done].
    apply insert_installations_frame in E as (inst & ->). done.
  - left. unfold create_auth_session. by destruct (_ || _)%bool.
  - by left.
  - by left.
Qed.

Lemma step_keys_ok op db : keys_ok db -> keys_ok (step db op).
Proof.
  intros Hk k row H. pose proof (step_row op db k Hk) as [Heq|Hs]; [rewrite Heq in H; by apply Hk|].
  rewrite H in Hs. destruct op; try done.
  - destruct Hs as (-> & _ & [= ->]). done.
  - destruct Hs as (old & Ho & _ & [= ->]). cbn. by apply Hk.
  - destruct Hs as (_ & old & Ho & _ & [= ->]). cbn. by apply Hk.
  - destruct Hs as (_ & old & w & Ho & _ & [= ->]). cbn. by apply Hk.
  - destruct Hs as (_ & old & w & Ho & _ & [= ->]). cbn. by apply Hk.
  - by destruct Hs.
Qed.
Lemma empty_keys_ok : keys_ok empty_database.
Proof. intros k row H. done. Qed.

(** ** Fencing *)

(** Attempt [t] does not hold the row of the run (any more). *)
Definition stale (run_id : Z) (t : str) (db : Database) : Prop :=
  forall row, db_analyses db !! run_id = Some row -> pr_attempt_token (an_progress row) <> Some t.

Definition starts (run_id : Z) (t : str) (op : store_op) : bool :=
  match op with
  | OpBegin _ id token => (id =? run_id) && bool_decide (token = Some t)
  | _ => false
  end.

(** The writes of attempt [t] on the run. *)
Definition write_of (run_id : Z) (t : str) (op : store_op) : Prop :=
  match op with
  | OpUpdate _ id _ _ _ token | OpFinish _ id _ _ token | OpStage _ id _ _ _ token =>
    id = run_id /\ token = Some t
  | _ => False
  end.

Lemma stale_step run_id t op db :
  keys_ok db -> starts run_id t op = false -> stale run_id t db -> stale run_id t (step db op).
Proof.
  intros Hk Hs Hst row H. pose proof (step_row op db run_id Hk) as [Heq|Hr].
  { rewrite Heq in H. by apply Hst. }
  rewrite H in Hr. destruct op; try done.
  - destruct Hr as (_ & _ & [= ->]). done.
  - destruct Hr as (old & Ho & _ & [= ->]). cbn. by apply Hst.
  - destruct Hr as (-> & old & Ho & _ & [= ->]). cbn. by apply Hst.
  - destruct Hr as (-> & old & w & Ho & _ & [= ->]). cbn. cbn [starts] in Hs.
    rewrite Z.eqb_refl in Hs. cbn in Hs. by apply bool_decide_eq_false in Hs.
  - destruct Hr as (-> & old & w & Ho & _ & [= ->]). done.
  - by destruct Hr as [_ ?].
Qed.

Lemma stale_exec run_id t ops db :
  keys_ok db -> stale run_id t db -> Forall (fun op => starts run_id t op = false) ops ->
  keys_ok (exec ops db) /\ stale run_id t (exec ops db).
Proof.
  intros Hk Hs Ho. revert db Hk Hs. induction Ho as [|op ops Hop _ IH]; intros db Hk Hs; [done|].
  apply IH; [by apply step_keys_ok|by apply stale_step].
Qed.

Lemma stale_fence run_id t row db :
  stale run_id t db -> db_analyses db !! run_id = Some row -> token_is t row = false.
Proof. intros Hs Hr. apply bool_decide_eq_false. by apply Hs. Qed.

Lemma stale_write run_id t op db :
  stale run_id t db -> write_of run_id t op ->
  exists msg, run_op op db = (Raise (AnalysisAttemptSuperseded msg), db).
Proof.
  intros Hs Hw. destruct op; try done; destruct Hw as [-> ->]; cbn [run_op].
  - unfold update, transaction, Mbind. rewrite update_where_run.
    destruct (db_analyses db !! run_id) as [row|] eqn:E; [|by eexists].
    cbn [fence]. rewrite (stale_fence _ _ _ _ Hs E). by eexists.
  - unfold ignore, finish_analysis, transaction, Mbind, Mget.
    destruct (db_analyses db !! run_id) as [row|] eqn:E; [|by eexists].
    rewrite update_where_run, E. cbn [fence]. rewrite (stale_fence _ _ _ _ Hs E). by eexists.
  - unfold record_stage, transaction, Mbind, Mget.
    destruct (db_analyses db !! run_id) as [row|] eqn:E; [|by eexists].
    rewrite (stale_fence _ _ _ _ Hs E). by eexists.
Qed.

Lemma begin_token now run_id t db start db' :
  begin_analysis now run_id (Some t) db = (Ok start, db') ->
  exists row wait, db_analyses db !! run_id = Some row /\ startable (Some t) row = true
    /\ db_analyses db' = <[run_id := begin_row now wait (Some t) row]> (db_analyses db).
Proof.
  unfold begin_analysis, transaction, Mbind, Mget.
  destruct (db_analyses db !! run_id) as [row|] eqn:E; [|done].
  rewrite update_where_run, E. destruct (startable (Some t) row) eqn:Es; [|done].
  cbn. intros [= _ <-]. eauto 10.
Qed.

(** C5: Once a newer attempt has begun, the attempt it replaced can change nothing: after any
    sequence of store operations in which that attempt does not itself begin again,
    its updates, stage records and its finish raise AnalysisAttemptSuperseded and
    leave the database as it is. *)
Theorem superseded_attempt_powerless (db : Database) (now run_id : Z) (t t' : str)
    (start : AnalysisStart) (db' : Database) (ops : list store_op) (op : store_op)
    (Hkeys : keys_ok db) (Hnew : t <> t')
    (Hbegin : begin_analysis now run_id (Some t') db = (Ok start, db'))
    (Hops : Forall (fun op => starts run_id t op = false) ops)
    (Hop : write_of run_id t op) :
  let db'' := exec ops db' in
  exists msg, run_op op db'' = (Raise (AnalysisAttemptSuperseded msg), db'').
Proof.
  intros db''. apply begin_token in Hbegin as Hb. destruct Hb as (row & wait & Hrow & _ & Ht).
  assert (Hk' : keys_ok db').
  { replace db' with (step db (OpBegin now run_id (Some t'))); [by apply step_keys_ok|].
    unfold step, run_op, ignore, Mbind. by rewrite Hbegin. }
  apply stale_write with (run_id := run_id) (t := t); [|done].
  apply stale_exec; [done| |done]. intros row' H. rewrite Ht, lookup_insert_eq in H.
  injection H as <-. cbn. congruence.
Qed.

(** ** The invariant of reachable databases *)

(** A follow-up run comes after the run it resolves. *)
Definition follows (i : Identity) (r : ResolutionRecord) : Prop :=
  id_run_id i < rs_followup_run_id r
  \/ (id_run_id i = rs_followup_run_id r /\ id_run_attempt i < rs_followup_run_attempt r).

Definition progress_ok (p : Progress) : Prop :=
  (pr_attempt_token p <> None ->
     pr_analysis_started_at p <> None /\ pr_analysis_completed_at p = None)
  /\ (pr_analysis_started_at p = None <-> pr_queue_wait_seconds p = None)
  /\ (pr_analysis_completed_at p = None <-> pr_duration_seconds p = None)
  /\ (pr_analysis_completed_at p = None <-> pr_total_latency_seconds p = None)
  /\ (forall w, pr_queue_wait_seconds p = Some w -> 0 <= w)
  /\ (forall l, pr_total_latency_seconds p = Some l -> 0 <= l).
Definition resolution_ok (i : Identity) (r : option ResolutionRecord) : Prop :=
  forall res, r = Some res -> follows i res /\ 0 <= rs_recovery_seconds res.
Definition row_ok (row : AnalysisRow) : Prop :=
  progress_ok (an_progress row) /\ resolution_ok (an_identity row) (an_resolution row).

(** The records the webhook creates: an analysis not started. *)
Definition fresh_record (r : AnalysisRecord) : Prop :=
  ar_analysis_started_at r = None /\ ar_analysis_completed_at r = None
  /\ ar_duration_seconds r = None /\ ar_queue_wait_seconds r = None
  /\ ar_total_latency_seconds r = None.
Definition fresh_op (op : store_op) : Prop :=
  match op with OpCreate r => fresh_record r | _ => True end.

Definition rows_ok (db : Database) : Prop :=
  forall k row, db_analyses db !! k = Some row -> row_ok row.

Lemma candidate_follows f row :
  is_candidate f row = true -> follows (an_identity row) (followup_resolution f row).
Proof.
  unfold is_candidate, prior_run, follows. rewrite !andb_true_iff, orb_true_iff, andb_true_iff.
  rewrite Z.eqb_eq, !Z.ltb_lt. cbn. tauto.
Qed.

Lemma begin_row_run now run_id token db start db' row :
  db_analyses db !! run_id = Some row ->
  begin_analysis now run_id token db = (Ok start, db') ->
  db_analyses db' = <[run_id := begin_row now
     (default (Z.max 0 (now - id_created_at (an_identity row)))
        (pr_queue_wait_seconds (an_progress row))) token row]> (db_analyses db).
Proof.
  intros E. unfold begin_analysis, transaction, Mbind, Mget. rewrite E, update_where_run, E.
  destruct (startable token row) eqn:Es; [|destruct token; done].
  destruct token; cbn; by intros [= _ <-].
Qed.

Lemma finish_row_run now run_id started status token db latency db' row :
  db_analyses db !! run_id = Some row ->
  finish_analysis now run_id started status token db = (Ok latency, db') ->
  latency = Z.max 0 (now - id_created_at (an_identity row))
  /\ (fence token row = true /\
     db_analyses db' = <[run_id := finish_row now started latency status row]> (db_analyses db)).
Proof.
  intros E. unfold finish_analysis, transaction, Mbind, Mget. rewrite E, update_where_run, E.
  destruct (fence token row) eqn:Es; [|destruct token; done].
  destruct token; cbn; by intros [= <- <-].
Qed.

Lemma row_step_ok op db : keys_ok db -> fresh_op op ->
  rows_ok db -> rows_ok (step db op).
Proof.
  intros Hk Hf Hok k' row H. pose proof (step_row op db k' Hk) as [Heq|Hr].
  { rewrite Heq in H. by eapply Hok. }
  rewrite H in Hr. destruct op; try done.
  - destruct Hr as (-> & _ & [= ->]). destruct Hf as (H1 & H2 & H3 & H4 & H5).
    split; [|done]. unfold progress_ok. cbn. rewrite H1, H2, H3, H4, H5. by split_and!.
  - destruct Hr as (old & Ho & Hc & [= ->]). destruct (Hok _ _ Ho) as [Hp Hres].
    split; [exact Hp|]. intros res [= <-]. cbn [an_identity resolve_row]. split; [by apply candidate_follows|]. unfold followup_resolution; cbn [rs_recovery_seconds]; lia.
  - destruct Hr as (-> & old & Ho & _ & [= ->]). exact (Hok _ _ Ho).
  - destruct Hr as (-> & old & w & Ho & Hst & [= ->]).
    destruct (Hok _ _ Ho) as [(_ & H2 & _ & _ & H5 & _) Hres]. split; [|exact Hres].
    revert H. unfold step, run_op, ignore, Mbind.
    destruct (begin_analysis now k' token db) as [[start|e] db'] eqn:E.
    + apply (begin_row_run _ _ _ _ _ _ old) in E; [|done]. cbn. rewrite E, lookup_insert_eq.
      intros [= Hw]. rewrite <- Hw. unfold progress_ok; cbn. split_and!; try done.
      intros w' [= <-]. destruct (pr_queue_wait_seconds (an_progress old)) eqn:Eq; cbn; [|lia].
      by apply H5.
    + cbn. unfold begin_analysis, transaction, Mbind, Mget in E.
      rewrite Ho, update_where_run, Ho, Hst in E. destruct token; done.
  - destruct Hr as (-> & old & l & Ho & Hst & [= ->]).
    destruct (Hok _ _ Ho) as [(H1 & H2 & H3 & H4 & H5 & H6) Hres]. split; [|exact Hres].
    revert H. unfold step, run_op, ignore, Mbind.
    destruct (finish_analysis now k' started_at status token db) as [[lat|e] db'] eqn:E.
    + apply (finish_row_run _ _ _ _ _ _ _ _ old) in E as (Hl & _ & E); [|done].
      cbn. rewrite E, lookup_insert_eq. intros [= Hw]. subst lat.
      rewrite <- Hw. unfold progress_ok; cbn. split_and!; try done. intros w' [= <-]. lia.
    + cbn. unfold finish_analysis, transaction, Mbind, Mget in E.
      rewrite Ho, update_where_run, Ho, Hst in E. destruct token; done.
  - by destruct Hr.
Qed.

Definition deliveries_unique (db : Database) : Prop :=
  forall k1 k2 r1 r2, db_analyses db !! k1 = Some r1 -> db_analyses db !! k2 = Some r2 ->
    id_delivery_id (an_identity r1) = id_delivery_id (an_identity r2) -> k1 = k2.

Lemma delivery_taken_false d t k row :
  delivery_taken d t = false -> t !! k = Some row -> id_delivery_id (an_identity row) <> d.
Proof.
  intros H Hk Heq. apply not_true_iff_false in H. apply H. unfold delivery_taken.
  apply existsb_exists. exists (k, row). split; [|by apply str_eqb_eq].
  by apply list_elem_of_In, elem_of_map_to_list.
Qed.

(** A row keeps its identity columns; a new one brings a delivery of its own. *)
Lemma step_identity op db k row : keys_ok db ->
  db_analyses (step db op) !! k = Some row ->
  (exists old, db_analyses db !! k = Some old /\ an_identity row = an_identity old)
  \/ (db_analyses db !! k = None /\ exists r, op = OpCreate r /\ k = ar_run_id r /\ row = row_of r
      /\ forall k' row', db_analyses db !! k' = Some row' ->
           id_delivery_id (an_identity row') <> id_delivery_id (an_identity row)).
Proof.
  intros Hk H. pose proof (step_row op db k Hk) as [Heq|Hr].
  { rewrite Heq in H. left. eauto. }
  rewrite H in Hr. destruct op; try done.
  - destruct Hr as (-> & Hnone & [= ->]). right. split; [done|]. exists r. split_and!; try done.
    intros k' row' Hrow'. revert H. unfold step, run_op, ignore, create_if_absent, transaction,
      insert_analysis, Mbind, Mtry, Mret, Mraise. rewrite Hnone.
    destruct (delivery_taken _ _) eqn:E; cbn; [congruence|]. intros _.
    by eapply delivery_taken_false.
  - destruct Hr as (old & Ho & _ & [= ->]). left. eauto.
  - destruct Hr as (-> & old & Ho & _ & [= ->]). left. eauto.
  - destruct Hr as (-> & old & w & Ho & _ & [= ->]). left. eauto.
  - destruct Hr as (-> & old & w & Ho & _ & [= ->]). left. eauto.
  - by destruct Hr.
Qed.

Lemma step_deliveries op db :
  keys_ok db -> deliveries_unique db -> deliveries_unique (step db op).
Proof.
  intros Hk Hd k1 k2 r1 r2 H1 H2 Heq.
  apply step_identity in H1 as [(o1 & Ho1 & E1)|(N1 & c1 & Hc1 & K1 & R1 & F1)]; [..|done];
    apply step_identity in H2 as [(o2 & Ho2 & E2)|(N2 & c2 & Hc2 & K2 & R2 & F2)]; try done.
  - eapply Hd; [done..|]. by rewrite <- E1, <- E2.
  - destruct (F2 _ _ Ho1). by rewrite <- E1.
  - destruct (F1 _ _ Ho2). by rewrite <- E2.
  - congruence.
Qed.

(** Foreign keys, where the engine enforces them. *)
Definition refs_ok (db : Database) : Prop :=
  fk_enforced = true ->
  Forall (fun e => is_Some (db_analyses db !! er_run_id e)) (db_events db)
  /\ (forall k, is_Some (db_feedback db !! k) -> is_Some (db_analyses db !! k))
  /\ (forall h s, db_sessions db !! h = Some s -> is_Some (db_users db !! ss_github_user_id s))
  /\ (forall k, is_Some (db_installations db !! k) -> is_Some (db_users db !! k.1)).

Definition same_domain (t t' : gmap Z AnalysisRow) : Prop :=
  forall k, is_Some (t !! k) -> is_Some (t' !! k).

(** Only a deletion removes a row. *)
Lemma step_domain op db : keys_ok db ->
  (forall id, op <> OpDelete id) -> same_domain (db_analyses db) (db_analyses (step db op)).
Proof.
  intros Hk Hd k [row H]. pose proof (step_row op db k Hk) as [Heq|Hr]; [rewrite Heq; eauto|].
  rewrite H in Hr. destruct op; try done.
  - by destruct Hr as (_ & ? & _).
  - destruct Hr as (old & _ & _ & ->). eauto.
  - destruct Hr as (_ & old & _ & _ & ->). eauto.
  - destruct Hr as (_ & old & w & _ & _ & ->). eauto.
  - destruct Hr as (_ & old & w & _ & _ & ->). eauto.
  - by destruct (Hd run_id).
Qed.

Lemma supersede_event_id run_id e : er_run_id (supersede_event run_id e) = er_run_id e.
Proof. unfold supersede_event. by destruct (_ && _)%bool. Qed.
Lemma supersede_other run_id e : er_run_id e <> run_id -> supersede_event run_id e = e.
Proof. intros H. unfold supersede_event. by rewrite (proj2 (Z.eqb_neq _ _) H). Qed.
Lemma supersede_others run_id es :
  List.filter (fun e => negb (er_run_id e =? run_id)) (map (supersede_event run_id) es)
  = List.filter (fun e => negb (er_run_id e =? run_id)) es.
Proof.
  induction es as [|e es IH]; [done|]. cbn [map List.filter]. rewrite supersede_event_id.
  destruct (er_run_id e =? run_id) eqn:Er; cbn [negb]; [exact IH|].
  rewrite supersede_other by (by apply Z.eqb_neq). by rewrite IH.
Qed.
Lemma map_supersede_ids run_id (P : Z -> Prop) es :
  Forall (fun e => P (er_run_id e)) es ->
  Forall (fun e => P (er_run_id e)) (map (supersede_event run_id) es).
Proof.
  intros H. apply Forall_map. eapply Forall_weaken; [exact H|]. intros e He.
  unfold supersede_event. by destruct (_ && _)%bool.
Qed.

Lemma refs_events db es :
  refs_ok db -> (fk_enforced = true ->
    Forall (fun e => is_Some (db_analyses db !! er_run_id e)) es) -> refs_ok (with_events db es).
Proof. intros Hr He Hf. destruct (Hr Hf) as (_ & H2 & H3 & H4). split_and!; [by apply He|done..]. Qed.

Lemma refs_analyses db t :
  same_domain (db_analyses db) t -> refs_ok db -> refs_ok (with_analyses db t).
Proof.
  intros Hd Hr Hf. destruct (Hr Hf) as (H1 & H2 & H3 & H4). split_and!; try done.
  - eapply Forall_weaken; [exact H1|]. intros e. apply Hd.
  - intros k Hk. by apply Hd, H2.
Qed.

Lemma same_domain_insert (t : gmap Z AnalysisRow) k row : same_domain t (<[k := row]> t).
Proof. intros k' H. rewrite lookup_insert_cases. case_decide; eauto. Qed.

Lemma update_where_refs run_id cond f db :
  refs_ok db -> refs_ok (snd (update_where run_id cond f db)).
Proof.
  intros H. rewrite update_where_run. destruct (db_analyses db !! run_id); [|done].
  destruct (cond _); [|done]. cbn. by apply refs_analyses; [apply same_domain_insert|].
Qed.
Lemma transaction_refs {A} (m : M Database A) db :
  refs_ok db -> (refs_ok (snd (m db))) -> refs_ok (snd (transaction m db)).
Proof. intros H Hm. unfold transaction. destruct (m db) as [[a|e] db']; done. Qed.
Lemma bind_refs {A B} (m : M Database A) (k : A -> M Database B) db :
  refs_ok (snd (m db)) -> (forall a db', refs_ok db' -> refs_ok (snd (k a db'))) ->
  refs_ok (snd (Mbind m k db)).
Proof. unfold Mbind. intros Hm Hk. destruct (m db) as [[a|e] db']; [by apply Hk|done]. Qed.
Lemma require_refs n run_id token db :
  refs_ok db -> refs_ok (snd (_require_current_attempt n run_id token db)).
Proof. intros H. unfold _require_current_attempt. destruct token; [destruct (n =? 1)%nat|]; done. Qed.

Lemma ignore_refs {A} (m : M Database A) db :
  refs_ok (snd (m db)) -> refs_ok (snd (ignore m db)).
Proof. intros H. apply bind_refs; [done|]. by intros. Qed.

Lemma insert_installations_refs now user l db :
  refs_ok db -> refs_ok (snd (insert_installations now user l db)).
Proof.
  revert db. induction l as [|i l IH]; intros db H; [done|]. cbn [insert_installations].
  destruct (user_missing user db || _) eqn:E; [done|]. apply IH. intros Hf.
  destruct (H Hf) as (H1 & H2 & H3 & H4). split_and!; try done. intros k.
  cbn. destruct (decide ((user, gi_installation_id i) = k)) as [<-|Hne].
  - intros _. apply orb_false_iff in E as [E _]. unfold user_missing in E. rewrite Hf in E.
    cbn in E. apply bool_decide_eq_false in E. cbn. by apply not_eq_None_Some.
  - rewrite lookup_insert_ne by done. apply H4.
Qed.

Lemma delete_refs run_id db :
  refs_ok db -> refs_ok (snd (delete_analysis run_id db)).
Proof.
  intros H Hf. unfold delete_analysis. rewrite Hf. destruct (H Hf) as (H1 & H2 & H3 & H4).
  split_and!; try done.
  - apply List.Forall_forall. intros e [He Hne]%List.filter_In. rewrite List.Forall_forall in H1.
    apply negb_true_iff, Z.eqb_neq in Hne. cbn. rewrite lookup_delete_ne by done. by apply H1.
  - intros k. cbn. destruct (decide (run_id = k)) as [<-|Hne].
    + rewrite lookup_delete_eq. by intros [? ?].
    + rewrite !lookup_delete_ne by done. apply H2.
Qed.

Lemma users_refs db t :
  (forall k, is_Some (db_users db !! k) -> is_Some (t !! k)) ->
  refs_ok db -> refs_ok (with_users db t).
Proof.
  intros Ht H Hf. destruct (H Hf) as (H1 & H2 & H3 & H4). split_and!; try done.
  - intros h s Hs. by eapply Ht, H3.
  - intros k Hk. by apply Ht, H4.
Qed.

Lemma sessions_refs db t :
  (fk_enforced = true -> forall h s, t !! h = Some s -> is_Some (db_users db !! ss_github_user_id s)) ->
  refs_ok db -> refs_ok (with_sessions db t).
Proof. intros Ht H Hf. destruct (H Hf) as (H1 & H2 & H3 & H4). split_and!; try done. by apply Ht. Qed.

Lemma sessions_user db : refs_ok db -> fk_enforced = true ->
  forall h s, db_sessions db !! h = Some s -> is_Some (db_users db !! ss_github_user_id s).
Proof. intros H Hf. by destruct (H Hf) as (_ & _ & H3 & _). Qed.

Lemma step_refs op db : keys_ok db -> refs_ok db -> refs_ok (step db op).
Proof.
  intros Hk H. unfold step. destruct op; cbn [run_op].
  - apply ignore_refs. unfold create_if_absent, transaction, insert_analysis, Mtry, Mbind, Mret, Mraise.
    destruct (_ !! _); [done|]. destruct (delivery_taken _ _); [done|]. cbn.
    apply refs_analyses; [apply same_domain_insert|done].
  - apply ignore_refs. unfold record_followup_run. destruct (negb _); [done|].
    destruct (_ && _)%bool; [done|]. apply transaction_refs; [done|].
    apply bind_refs; [done|]. intros d db' H'. destruct (followup_candidate f d); [|done].
    apply bind_refs; [by apply update_where_refs|]. intros n db'' H''.
    by destruct (n =? 1)%nat.
  - apply transaction_refs; [done|]. apply bind_refs; [by apply update_where_refs|].
    intros; by apply require_refs.
  - apply ignore_refs, transaction_refs; [done|]. apply bind_refs; [done|].
    intros d db' H'. destruct (db_analyses d !! run_id); [|done].
    apply bind_refs; [by apply update_where_refs|]. intros n db1 H1.
    apply bind_refs; [by apply require_refs|]. intros _ db2 H2.
    apply bind_refs; [|done]. unfold Mwhen. case_bool_decide; [|done]. cbn.
    apply refs_events; [done|]. intros Hf. apply (map_supersede_ids run_id (fun k => is_Some (db_analyses db2 !! k))).
    by destruct (H2 Hf).
  - apply ignore_refs, transaction_refs; [done|]. apply bind_refs; [done|].
    intros d db' H'. destruct (db_analyses d !! run_id); [|done].
    apply bind_refs; [by apply update_where_refs|]. intros n db1 H1.
    apply bind_refs; [by apply require_refs|]. done.
  - apply transaction_refs; [done|]. apply bind_refs; [done|]. intros d db' H'.
    apply bind_refs.
    + destruct token as [t|]; [|done]. destruct (db_analyses d !! run_id); [|done].
      by destruct (token_is t a).
    + intros _ db1 H1. unfold insert_event. destruct (fk_enforced && _) eqn:E; [done|]. cbn.
      apply refs_events; [done|]. intros Hf. rewrite Hf in E. cbn in E.
      apply bool_decide_eq_false in E. apply Forall_app. split; [by destruct (H1 Hf)|].
      constructor; [by apply not_eq_None_Some|constructor].
  - apply ignore_refs, transaction_refs; [done|].
    destruct (db_analyses db !! run_id) as [row|] eqn:E; [|done].
    destruct (visible ids row); [|done]. cbn. intros Hf. destruct (H Hf) as (H1 & H2 & H3 & H4).
    split_and!; try done. intros k. cbn. destruct (decide (run_id = k)) as [<-|Hne].
    + intros _. rewrite E. eauto.
    + rewrite lookup_insert_ne by done. apply H2.
  - by apply delete_refs.
  - cbn. apply users_refs; [|done]. intros k Hx. rewrite lookup_insert_cases. case_decide; eauto.
  - apply transaction_refs; [done|]. apply bind_refs.
    + cbn. intros Hf. destruct (H Hf) as (H1 & H2 & H3 & H4). split_and!; try done.
      intros k. cbn. intros [x Hx]. apply map_lookup_filter_Some in Hx as [Hx _]. eauto.
    + intros _ db' H'. by apply insert_installations_refs.
  - unfold create_auth_session. destruct (user_missing user db || _) eqn:E; [done|]. cbn.
    apply sessions_refs; [|done]. intros Hf h s. destruct (decide (hash = h)) as [<-|Hne].
    + rewrite lookup_insert_eq. intros [= <-]. cbn. apply orb_false_iff in E as [E _].
      unfold user_missing in E. rewrite Hf in E. cbn in E. apply bool_decide_eq_false in E.
      by apply not_eq_None_Some.
    + rewrite lookup_insert_ne by done. by apply sessions_user.
  - cbn. apply sessions_refs; [|done]. intros Hf h s Hs.
    apply lookup_delete_Some in Hs as [_ Hs]. by eapply sessions_user.
  - cbn. apply sessions_refs; [|done]. intros Hf h s Hs.
    apply lookup_alter_Some in Hs as [(<- & s' & Hs & ->)|[_ Hs]]; by eapply sessions_user in Hs.
Qed.

(** The invariant of the store. *)
Definition store_ok (db : Database) : Prop :=
  keys_ok db /\ deliveries_unique db /\ rows_ok db /\ refs_ok db.

Lemma empty_store_ok : store_ok empty_database.
Proof. split_and!; try done. intros _. split_and!; try done; by intros ? [? ?]. Qed.

Lemma step_store_ok op db : fresh_op op -> store_ok db -> store_ok (step db op).
Proof.
  intros Hf (Hk & Hd & Hr & Hx). split_and!.
  - by apply step_keys_ok.
  - by apply step_deliveries.
  - by apply row_step_ok.
  - by apply step_refs.
Qed.

(** C15: Every database that any sequence of store operations reaches from the empty one, new
    analyses being created unstarted, is well formed: rows lie under their run id,
    delivery ids are unique, a row held by an attempt is started and not completed, the
    completion columns are set together, waits, latencies and recovery times are not
    negative, a resolution comes from a later run or attempt, and where foreign keys
    are enforced every event, feedback, session and installation has its owner. *)
Theorem reachable_store_ok (ops : list store_op) (Hfresh : Forall fresh_op ops) :
  store_ok (exec ops empty_database).
Proof.
  assert (Hgen : forall db, store_ok db -> store_ok (exec ops db)).
  { induction Hfresh as [|op ops Hop _ IH]; intros db Hdb; [done|].
    apply IH. by apply step_store_ok. }
  apply Hgen, empty_store_ok.
Qed.

(** ** The life cycle of an attempt *)

(** Operations that neither begin, finish nor delete the run. *)
Definition undisturbed (run_id : Z) (op : store_op) : Prop :=
  match op with
  | OpBegin _ id _ | OpFinish _ id _ _ _ | OpDelete id => id <> run_id
  | _ => True
  end.

(** The row is held by attempt [t], begun on [row0] with queue wait [wait]. *)
Definition held (run_id : Z) (t : str) (row0 : AnalysisRow) (wait : Z) (db : Database) : Prop :=
  exists row, db_analyses db !! run_id = Some row /\ an_identity row = an_identity row0
    /\ pr_attempt_token (an_progress row) = Some t
    /\ pr_queue_wait_seconds (an_progress row) = Some wait.

Lemma held_step run_id t row0 wait op db :
  keys_ok db -> undisturbed run_id op -> held run_id t row0 wait db ->
  held run_id t row0 wait (step db op).
Proof.
  intros Hk Hu (row & Hrow & Hi & Ht & Hw).
  pose proof (step_row op db run_id Hk) as [Heq|Hr].
  { exists row. by rewrite Heq. }
  rewrite Hrow in Hr. destruct op; try done.
  - by destruct Hr as (_ & ? & _).
  - destruct Hr as (old & [= <-] & _ & Hnew). eexists. split; [exact Hnew|]. by split_and!.
  - destruct Hr as (-> & old & [= <-] & _ & Hnew). eexists. split; [exact Hnew|]. by split_and!.
  - by destruct Hr as [-> _].
  - by destruct Hr as [-> _].
  - by destruct Hr as [-> _].
Qed.
Lemma held_exec run_id t row0 wait ops db :
  keys_ok db -> Forall (undisturbed run_id) ops -> held run_id t row0 wait db ->
  held run_id t row0 wait (exec ops db).
Proof.
  intros Hk Ho. revert db Hk. induction Ho as [|op ops Hop _ IH]; intros db Hk Hh; [done|].
  apply IH; [by apply step_keys_ok|by apply held_step].
Qed.

Lemma begin_run now run_id t db start db' :
  begin_analysis now run_id (Some t) db = (Ok start, db') ->
  exists row, db_analyses db !! run_id = Some row
    /\ as_attempt_started_at start = now
    /\ as_queue_wait_seconds start = default (Z.max 0 (now - id_created_at (an_identity row)))
         (pr_queue_wait_seconds (an_progress row))
    /\ as_first_start start = bool_decide (pr_analysis_started_at (an_progress row) = None)
    /\ db_events db' = map (supersede_event run_id) (db_events db).
Proof.
  unfold begin_analysis, transaction, Mbind, Mget.
  destruct (db_analyses db !! run_id) as [row|] eqn:E; [|done].
  rewrite update_where_run, E. destruct (startable (Some t) row) eqn:Es; [|done].
  cbn. intros [= <- <-]. eauto 10.
Qed.

Lemma step_begin_keys now run_id t db start db' :
  keys_ok db -> begin_analysis now run_id (Some t) db = (Ok start, db') -> keys_ok db'.
Proof using DL.
  intros Hk H. replace db' with (step db (OpBegin now run_id (Some t))); [by apply step_keys_ok|].
  unfold step, run_op, ignore, Mbind. by rewrite H.
Qed.

Lemma finish_current now run_id started status t db row :
  db_analyses db !! run_id = Some row -> pr_attempt_token (an_progress row) = Some t ->
  finish_analysis now run_id started status (Some t) db
  = (Ok (Z.max 0 (now - id_created_at (an_identity row))),
     with_analyses db (<[run_id := finish_row now started
       (Z.max 0 (now - id_created_at (an_identity row))) status row]> (db_analyses db))).
Proof.
  intros E Ht. unfold finish_analysis, transaction, Mbind, Mget. rewrite E, update_where_run, E.
  cbn [fence]. unfold token_is. rewrite bool_decide_true by done. done.
Qed.

Definition terminal (status : AnalysisStatus) : Prop := status = COMPLETED \/ status = FAILED.

Lemma terminal_not_startable status t row :
  terminal status -> pr_status (an_progress row) = status -> startable (Some t) row = false.
Proof. intros [->| ->] H; unfold startable; by rewrite H. Qed.

Lemma begin_terminal now run_id t db row :
  db_analyses db !! run_id = Some row -> terminal (pr_status (an_progress row)) ->
  begin_analysis now run_id (Some t) db = (Raise (not_current run_id), db).
Proof.
  intros E Ht. unfold begin_analysis, transaction, Mbind, Mget. rewrite E, update_where_run, E.
  by rewrite (terminal_not_startable (pr_status (an_progress row))).
Qed.

(** C16: A begun attempt that nobody else begins, finishes or deletes can always finish:
    whatever other store operations run in between, its finish succeeds, stores the
    given status, the completion instant, the attempt's duration and the non-negative
    latency since creation, keeps the queue wait of the first start, and frees the row;
    with a terminal status no later attempt can begin on the run and the failed begin
    changes nothing. *)
Theorem attempt_lifecycle (db : Database) (now0 run_id : Z) (t : str) (start : AnalysisStart)
    (db1 : Database) (ops : list store_op) (now1 : Z) (status : AnalysisStatus)
    (Hkeys : keys_ok db)
    (Hbegin : begin_analysis now0 run_id (Some t) db = (Ok start, db1))
    (Hops : Forall (undisturbed run_id) ops) :
  exists row latency db2,
    db_analyses db !! run_id = Some row
    /\ latency = Z.max 0 (now1 - id_created_at (an_identity row))
    /\ finish_analysis now1 run_id (as_attempt_started_at start) status (Some t) (exec ops db1)
      = (Ok latency, db2)
    /\ (exists done, db_analyses db2 !! run_id = Some done
        /\ an_identity done = an_identity row
        /\ pr_status (an_progress done) = status
        /\ pr_attempt_token (an_progress done) = None
        /\ pr_analysis_completed_at (an_progress done) = Some now1
        /\ pr_duration_seconds (an_progress done) = Some (now1 - now0)
        /\ pr_total_latency_seconds (an_progress done) = Some latency
        /\ pr_queue_wait_seconds (an_progress done) = Some (as_queue_wait_seconds start))
    /\ (terminal status -> forall now2 t2,
        exists msg, begin_analysis now2 run_id (Some t2) db2
          = (Raise (AnalysisAttemptSuperseded msg), db2)).
Proof.
  destruct (begin_run _ _ _ _ _ _ Hbegin) as (row & Hrow & Hst & Hwait & _ & _).
  pose proof (begin_row_run _ _ _ _ _ _ _ Hrow Hbegin) as Hdb1.
  assert (Hheld : held run_id t row (as_queue_wait_seconds start) db1).
  { eexists. rewrite Hdb1, lookup_insert_eq, Hwait. by split_and!. }
  apply (held_exec _ _ _ _ ops) in Hheld; [|by eapply step_begin_keys|done].
  destruct Hheld as (cur & Hcur & Hi & Ht & Hw).
  eexists row, _, _. split; [done|]. split; [done|]. rewrite Hst.
  rewrite (finish_current _ _ _ _ _ _ cur Hcur Ht), Hi. split; [done|]. split.
  - eexists. cbn. rewrite lookup_insert_eq. split; [done|]. by split_and!.
  - intros Hterm now2 t2. eexists. eapply begin_terminal; [apply lookup_insert_eq|done].
Qed.

(** A begin that takes a token succeeds exactly on a queued or running analysis; then it
    closes as failed every stage the earlier attempt left open, and a repeated begin
    keeps the first start instant and queue wait.  Otherwise it raises
    AnalysisAttemptSuperseded and changes nothing. *)
Theorem begin_analysis_spec (db : Database) (now run_id : Z) (t : str) :
  match begin_analysis now run_id (Some t) db with
  | (Ok start, db') =>
    exists row row', db_analyses db !! run_id = Some row
      /\ db_analyses db' = <[run_id := row']> (db_analyses db)
      /\ ~ terminal (pr_status (an_progress row))
      /\ pr_status (an_progress row') = RUNNING
      /\ pr_attempt_token (an_progress row') = Some t
      /\ an_identity row' = an_identity row /\ an_output row' = an_output row
      /\ pr_analysis_started_at (an_progress row')
        = Some (default now (pr_analysis_started_at (an_progress row)))
      /\ (as_first_start start = true <-> pr_analysis_started_at (an_progress row) = None)
      /\ pr_queue_wait_seconds (an_progress row') = Some (as_queue_wait_seconds start)
      /\ (forall w, pr_queue_wait_seconds (an_progress row) = Some w ->
           as_queue_wait_seconds start = w)
      /\ Forall (fun e => er_run_id e = run_id -> er_status e <> S_STARTED) (db_events db')
      /\ List.filter (fun e => negb (er_run_id e =? run_id)) (db_events db')
        = List.filter (fun e => negb (er_run_id e =? run_id)) (db_events db)
  | (Raise e, db') =>
    db' = db /\ (exists msg, e = AnalysisAttemptSuperseded msg)
    /\ (forall row, db_analyses db !! run_id = Some row -> terminal (pr_status (an_progress row)))
  end.
Proof.
  destruct (begin_analysis now run_id (Some t) db) as [[start|e] db'] eqn:E.
  - destruct (begin_run _ _ _ _ _ _ E) as (row & Hrow & Hst & Hwait & Hfirst & Hev).
    destruct (begin_token _ _ _ _ _ _ E) as (row2 & wait2 & Hrow2 & Hs & _).
    rewrite Hrow in Hrow2. injection Hrow2 as <-.
    eexists row, _. split; [done|]. split; [by eapply begin_row_run|]. cbn.
    rewrite Hfirst, Hwait, Hev. split_and!; try done.
    + intros [Ht|Ht]; unfold startable in Hs; by rewrite Ht in Hs.
    + by rewrite bool_decide_eq_true.
    + by intros w ->.
    + apply Forall_map, List.Forall_forall. intros e _. unfold supersede_event.
      destruct (er_run_id e =? run_id) eqn:Er; cbn [andb].
      * destruct (bool_decide (er_status e = S_STARTED)) eqn:Hc; intros _; [done|].
        by apply bool_decide_eq_false in Hc.
      * intros Heq. by apply Z.eqb_neq in Er.
    + apply supersede_others.
  - revert E. unfold begin_analysis, transaction, Mbind, Mget.
    destruct (db_analyses db !! run_id) as [row|] eqn:Er.
    + rewrite update_where_run, Er. destruct (startable (Some t) row) eqn:Es; [done|].
      cbn. intros [= <- <-]. split_and!; [done|by eexists|]. intros r [= <-].
      unfold startable in Es. apply orb_false_iff in Es as [E1 E2].
      apply bool_decide_eq_false in E1, E2. unfold terminal.
      by destruct (pr_status (an_progress row)); auto.
    + intros [= <- <-]. split_and!; [done|by eexists|done].
Qed.

(** ** Follow-up runs *)

Lemma candidate_leb_total a b : candidate_leb a b = false -> candidate_leb b a = true.
Proof.
  unfold candidate_leb, completed_before.
  destruct (id_run_completed_at (an_identity a)) as [x|], (id_run_completed_at (an_identity b)) as [y|];
    [destruct (Z.compare_spec y x), (Z.compare_spec x y)|destruct nulls_first_desc..|];
    try done; try lia; intros H; lia.
Qed.
Lemma candidate_leb_trans a b c :
  candidate_leb a b = true -> candidate_leb b c = true -> candidate_leb a c = true.
Proof.
  unfold candidate_leb, completed_before.
  destruct (id_run_completed_at (an_identity a)) as [x|], (id_run_completed_at (an_identity b)) as [y|],
    (id_run_completed_at (an_identity c)) as [z|]; destruct nulls_first_desc;
    repeat match goal with |- context [Z.compare ?p ?q] => destruct (Z.compare_spec p q) end;
    try done; try lia; intros H1 H2; lia.
Qed.

(** The candidates of a follow-up run, and the best of them. *)
Definition candidate (f : FollowupRun) (db : Database) (row : AnalysisRow) : Prop :=
  In row (rows db) /\ is_candidate f row = true.
Definition followup_applies (f : FollowupRun) : Prop :=
  (fo_conclusion f = u "success" \/ fo_conclusion f = u "failure")
  /\ (fo_head_branch f <> None \/ fo_pull_request_number f <> None).

Lemma followup_candidate_best f db row :
  followup_candidate f db = Some row ->
  candidate f db row /\ forall row', candidate f db row' -> row' = row \/ candidate_leb row row' = true.
Proof.
  unfold followup_candidate. intros H.
  apply (py_sorted_head candidate_leb candidate_leb_total candidate_leb_trans) in H as [H1 H2].
  split; [by apply List.filter_In in H1|]. intros row' Hc. apply H2. by apply List.filter_In.
Qed.

(** A completed run resolves at most one analysis: the latest-finished failed run of the
    same repository, workflow and pull request (or branch) that is older and still
    unresolved, or its own earlier attempt; it records success as resolved and failure
    as still failing with a non-negative recovery time, leaves every other row alone,
    and does nothing for other conclusions or without a branch and pull request. *)
Theorem record_followup_run_spec (db : Database) (Hkeys : keys_ok db) (now : Z) (f : FollowupRun) :
  match record_followup_run now f db with
  | (Ok (Some m), db') =>
    exists row, followup_applies f /\ candidate f db row
      /\ (forall row', candidate f db row' -> row' = row \/ candidate_leb row row' = true)
      /\ rm_failed_run_id m = id_run_id (an_identity row)
      /\ rm_resolution m = followup_resolution f row
      /\ (rs_outcome (rm_resolution m) = RESOLVED <-> fo_conclusion f = u "success")
      /\ 0 <= rs_recovery_seconds (rm_resolution m)
      /\ db' = with_analyses db (<[rm_failed_run_id m :=
                 resolve_row now (rm_resolution m) row]> (db_analyses db))
  | (Ok None, db') =>
    db' = db /\ (followup_applies f -> forall row, ~ candidate f db row)
  | (Raise _, _) => False
  end.
Proof.
  unfold record_followup_run, followup_applies.
  destruct (str_eqb (fo_conclusion f) (u "success") || _) eqn:Ec; cbn [negb].
  2:{ apply orb_false_iff in Ec as [E1%str_eqb_neq E2%str_eqb_neq]. split; [done|].
      intros [[?|?] _]; done. }
  assert (Hconc : fo_conclusion f = u "success" \/ fo_conclusion f = u "failure").
  { apply orb_true_iff in Ec as [E%str_eqb_eq|E%str_eqb_eq]; auto. }
  destruct (_ && _)%bool eqn:Eb.
  { apply andb_true_iff in Eb as [E1%bool_decide_eq_true E2%bool_decide_eq_true].
    split; [done|]. rewrite E1, E2. intros [_ [?|?]]; done. }
  assert (Hbr : fo_head_branch f <> None \/ fo_pull_request_number f <> None).
  { apply andb_false_iff in Eb as [E%bool_decide_eq_false|E%bool_decide_eq_false]; auto. }
  unfold transaction, Mbind, Mget.
  destruct (followup_candidate f db) as [row|] eqn:E.
  - apply followup_candidate_best in E as [[Hin Hc] Hbest].
    pose proof (proj1 (rows_lookup db row Hkeys) Hin) as Hl.
    rewrite update_where_run, Hl.
    assert (Hu : unresolved_or_same_run_retry f row = true).
    { unfold is_candidate in Hc. rewrite !andb_true_iff in Hc. tauto. }
    rewrite Hu. cbn. exists row. split_and!; try done.
    + destruct (str_eqb (fo_conclusion f) (u "success")) eqn:Es; cbn.
      * apply str_eqb_eq in Es. done.
      * apply str_eqb_neq in Es. done.
    + lia.
  - cbn. split; [done|]. intros _ row [Hin Hc]. unfold followup_candidate in E.
    apply py_sorted_nil in E.
    assert (Hx : In row (List.filter (is_candidate f) (rows db))) by (by apply List.filter_In).
    by rewrite E in Hx.
Qed.
End store_facts.

(** ** Witnesses *)

Definition sqlite : Dialect :=
  {| nulls_first_desc := false; fk_enforced := false; collation_leb := str_leb |}.
Definition postgresql : Dialect :=
  {| nulls_first_desc := true; fk_enforced := true; collation_leb := str_leb |}.

Definition sample_record (run_id created_at : Z) : AnalysisRecord := {|
  ar_run_id := run_id; ar_delivery_id := str_of_Z run_id; ar_repository := u "o/r";
  ar_workflow_name := u "CI"; ar_head_sha := u "abc"; ar_html_url := u "https://x";
  ar_run_attempt := 1; ar_head_branch := Some (u "main"); ar_pull_request_number := None;
  ar_run_completed_at := Some created_at; ar_installation_id := Some 5;
  ar_trust_level := UNVERIFIED; ar_baseline_sha := None; ar_status := QUEUED;
  ar_classification := None; ar_diagnosis := None; ar_related_files := [];
  ar_workflow_path := None; ar_execution_context := None; ar_model_name := None;
  ar_prompt_version := None; ar_feedback := None; ar_resolution := None; ar_error := None;
  ar_analysis_started_at := None; ar_analysis_completed_at := None;
  ar_duration_seconds := None; ar_queue_wait_seconds := None;
  ar_total_latency_seconds := None; ar_stage_history := []; ar_created_at := created_at;
  ar_updated_at := created_at |}.

Definition sample_db : Database :=
  @step postgresql (@step postgresql empty_database (OpCreate (sample_record 1 10)))
    (OpCreate (sample_record 2 20)).
Lemma sample_keys_ok : keys_ok sample_db.
Proof. apply step_keys_ok, step_keys_ok, empty_keys_ok. Qed.

Definition sample_start : AnalysisStart :=
  {| as_attempt_started_at := 40; as_queue_wait_seconds := 30; as_first_start := true |}.
Definition sample_begun : Database := snd (begin_analysis 40 1 (Some (u "new")) sample_db).

Lemma superseded_attempt_powerless_witness :
  let db'' := @exec postgresql [OpStage 41 1 COLLECTING S_STARTED None (Some (u "new"))] sample_begun in
  exists msg, @run_op postgresql (OpFinish 50 1 30 COMPLETED (Some (u "old"))) db''
    = (Raise (AnalysisAttemptSuperseded msg), db'').
Proof.
  refine (@superseded_attempt_powerless postgresql sample_db 40 1 (u "old") (u "new")
    sample_start sample_begun [OpStage 41 1 COLLECTING S_STARTED None (Some (u "new"))]
    (OpFinish 50 1 30 COMPLETED (Some (u "old"))) sample_keys_ok _ _ _ _).
  - vm_compute. discriminate.
  - vm_compute. reflexivity.
  - constructor; [reflexivity|constructor].
  - split; reflexivity.
Defined.

Lemma reachable_store_ok_witness :
  @store_ok postgresql (@exec postgresql [OpCreate (sample_record 1 10);
    OpBegin 12 1 (Some (u "t")); OpDelete 1] empty_database).
Proof.
  apply (@reachable_store_ok postgresql).
  repeat constructor.
Defined.

Lemma attempt_lifecycle_witness :
  exists latency db2,
    latency = 50
    /\ finish_analysis 60 1 40 COMPLETED (Some (u "new"))
         (@exec postgresql [OpDelete 2] sample_begun) = (Ok latency, db2).
Proof.
  destruct (@attempt_lifecycle postgresql sample_db 40 1 (u "new") sample_start sample_begun
    [OpDelete 2] 60 COMPLETED sample_keys_ok) as (row & latency & db2 & Hrow & Hl & Hf & _ & _).
  - vm_compute. reflexivity.
  - constructor; [discriminate|constructor].
  - exists latency, db2. split; [|exact Hf]. vm_compute in Hrow. injection Hrow as <-.
    rewrite Hl. reflexivity.
Defined.

Lemma record_followup_run_spec_witness :
  exists m db', @record_followup_run postgresql 90
    {| fo_repository := u "o/r"; fo_workflow_name := u "CI"; fo_head_branch := Some (u "main");
       fo_pull_request_number := None; fo_run_id := 3; fo_run_attempt := 1; fo_html_url := [];
       fo_conclusion := u "success"; fo_completed_at := 80 |} sample_db = (Ok (Some m), db')
    /\ rm_failed_run_id m = 2 /\ 0 <= rs_recovery_seconds (rm_resolution m).
Proof.
  pose proof (@record_followup_run_spec postgresql sample_db sample_keys_ok 90
    {| fo_repository := u "o/r"; fo_workflow_name := u "CI"; fo_head_branch := Some (u "main");
       fo_pull_request_number := None; fo_run_id := 3; fo_run_attempt := 1; fo_html_url := [];
       fo_conclusion := u "success"; fo_completed_at := 80 |}) as H.
  destruct (record_followup_run _ _ _) as [[[m|]|e] db'] eqn:E in H.
  - exists m, db'. split; [exact E|]. destruct H as (row & _ & _ & _ & _ & _ & _ & Hp & _).
    split; [|exact Hp]. vm_compute in E. injection E as <- _. reflexivity.
  - vm_compute in E. discriminate E.
  - destruct H.
Defined.

(** Where NULL sorts decides which of two unresolved failures a follow-up resolves, so the
    two engines disagree on a run without a completion time. *)
Definition incomplete_db : Database :=
  with_analyses empty_database
    (<[1 := row_of (sample_record 1 10)]>
      (<[2 := {| an_identity := {|
          id_run_id := 2; id_delivery_id := u "2"; id_repository := u "o/r";
          id_workflow_name := u "CI"; id_head_sha := []; id_html_url := [];
          id_run_attempt := 1; id_head_branch := Some (u "main");
          id_pull_request_number := None; id_run_completed_at := None;
          id_installation_id := Some 5; id_created_at := 20 |};
        an_output := an_output (row_of (sample_record 2 20));
        an_progress := an_progress (row_of (sample_record 2 20)); an_resolution := None |}]> ∅)).
Definition sample_followup : FollowupRun := {|
  fo_repository := u "o/r"; fo_workflow_name := u "CI"; fo_head_branch := Some (u "main");
  fo_pull_request_number := None; fo_run_id := 3; fo_run_attempt := 1; fo_html_url := [];
  fo_conclusion := u "success"; fo_completed_at := 80 |}.
Example followup_depends_on_dialect :
  option_map (fun r => id_run_id (an_identity r)) (@followup_candidate sqlite sample_followup incomplete_db)
    = Some 1
  /\ option_map (fun r => id_run_id (an_identity r))
       (@followup_candidate postgresql sample_followup incomplete_db) = Some 2.
Proof. split; vm_compute; reflexivity. Qed.
