(* ===== verification/StoreQueries.v ===== *)
(** * Properties of the store's queries

    The paged list enumerates the visible analyses once each, and a caller restricted to
    some installations reads exactly what the database of those installations holds. *)

From Stdlib Require Import QArith.
From stdpp Require Import base list gmap strings numbers sorting.
From S2P Require Import Prelude Models Store StoreFacts.

Set Default Proof Using "Type".

(** ** The order of the list *)

Lemma after_cursor_spec c a :
  after_cursor c a = true <->
  cur_created_at a < cur_created_at c
  \/ (cur_created_at a = cur_created_at c /\ cur_run_id a < cur_run_id c).
Proof. unfold after_cursor. rewrite orb_true_iff, andb_true_iff, Z.eqb_eq, !Z.ltb_lt. done. Qed.
Lemma newer_leb_spec a b :
  newer_leb a b = true <-> ~ after_cursor (position b) (position a) = true.
Proof. unfold newer_leb. rewrite negb_true_iff. by rewrite <- not_true_iff_false. Qed.

Lemma newer_leb_total a b : newer_leb a b = false -> newer_leb b a = true.
Proof.
  rewrite newer_leb_spec, after_cursor_spec. unfold newer_leb. rewrite negb_false_iff, after_cursor_spec.
  lia.
Qed.
Lemma newer_leb_trans a b c :
  newer_leb a b = true -> newer_leb b c = true -> newer_leb a c = true.
Proof. rewrite !newer_leb_spec, !after_cursor_spec. lia. Qed.

Lemma rows_keys db : keys_ok db -> forall a b,
  In a (rows db) -> In b (rows db) -> id_run_id (an_identity a) = id_run_id (an_identity b) -> a = b.
Proof.
  intros Hk a b Ha Hb Heq. apply (rows_lookup db a Hk) in Ha. apply (rows_lookup db b Hk) in Hb.
  rewrite Heq in Ha. congruence.
Qed.

(** Sorting depends only on the set of rows. *)
Lemma sorted_unique db l1 l2 :
  keys_ok db -> (forall x, In x l1 -> In x (rows db)) -> (forall x, In x l2 -> In x (rows db)) ->
  StronglySorted (le_rel newer_leb) l1 -> StronglySorted (le_rel newer_leb) l2 ->
  l1 ≡ₚ l2 -> l1 = l2.
Proof.
  intros Hk H1 H2. apply StronglySorted_unique_strong. intros x y Hx Hy Hxy Hyx.
  apply list_elem_of_In in Hx, Hy. apply (rows_keys db Hk); auto.
  unfold le_rel in *. rewrite newer_leb_spec, after_cursor_spec in Hxy, Hyx.
  cbn in Hxy, Hyx. lia.
Qed.

Section pages.
Context (db : Database) (Hkeys : keys_ok db) (ids : option (list Z)) (flt : ListFilter).

Definition matches (row : AnalysisRow) : bool := visible ids row && passes flt row.
Definition beyond (cursor : option AnalysisCursor) (row : AnalysisRow) : bool :=
  match cursor with Some c => after_cursor c (position row) | None => true end.
(** All the rows a request would select without a limit. *)
Definition selection (cursor : option AnalysisCursor) : list AnalysisRow :=
  py_sorted newer_leb (List.filter (fun row => matches row && beyond cursor row) (rows db)).

Lemma select_page_selection limit cursor :
  select_page limit ids flt cursor db = take (limit + 1) (selection cursor).
Proof. reflexivity. Qed.

Lemma selection_sorted cursor : StronglySorted (le_rel newer_leb) (selection cursor).
Proof. apply py_sorted_sorted; [apply newer_leb_total|apply newer_leb_trans]. Qed.
Lemma selection_In cursor row :
  In row (selection cursor) <-> In row (rows db) /\ matches row = true /\ beyond cursor row = true.
Proof.
  unfold selection. rewrite <- list_elem_of_In, py_sorted_perm, list_elem_of_In, List.filter_In.
  by rewrite andb_true_iff.
Qed.
Lemma rows_NoDup : NoDup (rows db).
Proof using Hkeys.
  unfold rows. apply NoDup_fmap_2_strong; [|apply NoDup_map_to_list].
  intros [k1 r1] [k2 r2] H1 H2 Heq. cbn in Heq. subst r2.
  apply elem_of_map_to_list in H1, H2. by rewrite <- (Hkeys _ _ H1), <- (Hkeys _ _ H2).
Qed.
Lemma filter_NoDup {A} (f : A -> bool) l : NoDup l -> NoDup (List.filter f l).
Proof.
  induction 1 as [|x l Hx _ IH]; cbn; [constructor|]. destruct (f x); [|done].
  constructor; [|done]. rewrite list_elem_of_In, List.filter_In, <- list_elem_of_In. tauto.
Qed.
Lemma selection_NoDup cursor : NoDup (selection cursor).
Proof using Hkeys.
  unfold selection. rewrite py_sorted_perm. apply filter_NoDup, rows_NoDup.
Qed.

(** The page after a row is the rest of the selection. *)
Lemma selection_suffix cursor l1 x l2 :
  selection cursor = l1 ++ x :: l2 -> selection (Some (position x)) = l2.
Proof using Hkeys.
  intros Hsel. pose proof (selection_sorted cursor) as Hs. rewrite Hsel in Hs.
  pose proof (selection_NoDup cursor) as Hn. rewrite Hsel in Hn.
  assert (Hin : forall y, In y (l1 ++ x :: l2) -> In y (rows db) /\ matches y = true /\ beyond cursor y = true).
  { intros y Hy. rewrite <- Hsel in Hy. by apply selection_In. }
  apply StronglySorted_app in Hs as (Hcross & Hs1 & Hs2).
  inversion Hs2 as [|? ? Hs2' Hx2]; subst. rewrite Forall_forall in Hx2.
  apply list.NoDup_app in Hn as (_ & Hdisj & Hn2). inversion Hn2 as [|? ? Hxn Hn2']; subst.
  apply (sorted_unique db); try done.
  - intros y Hy. by apply selection_In in Hy as [? _].
  - intros y Hy. apply Hin. apply in_or_app. right. by right.
  - apply selection_sorted.
  - apply NoDup_Permutation; [apply selection_NoDup|done|]. intros y.
    rewrite !list_elem_of_In, selection_In. split.
    + intros (Hr & Hm & Hb). cbn in Hb.
      assert (Hy : In y (l1 ++ x :: l2)).
      { rewrite <- Hsel. apply selection_In. split_and!; [done..|].
        destruct cursor as [c|]; [|done]. cbn.
        destruct (Hin x) as (_ & _ & Hbx); [apply in_or_app; right; by left|]. cbn in Hbx.
        rewrite after_cursor_spec in *. lia. }
      apply in_app_or in Hy as [Hy|[<-|Hy]]; [|by apply after_cursor_spec in Hb; lia|done].
      exfalso. apply list_elem_of_In in Hy.
      specialize (Hcross y x Hy ltac:(by left)). unfold le_rel in Hcross.
      rewrite newer_leb_spec in Hcross. by apply Hcross.
    + intros Hy. destruct (Hin y) as (Hr & Hm & _); [apply in_or_app; right; by right|].
      split_and!; try done. cbn. apply list_elem_of_In in Hy.
      specialize (Hx2 y Hy). unfold le_rel in Hx2. rewrite newer_leb_spec, after_cursor_spec in Hx2.
      apply after_cursor_spec.
      assert (Hne : id_run_id (an_identity y) <> id_run_id (an_identity x)).
      { intros Heq. apply Hxn. replace x with y; [done|].
        apply (rows_keys db Hkeys); [done| |done]. apply Hin, in_or_app. right. by left. }
      cbn in *. lia.
Qed.
End pages.

(** ** Reading all pages *)

(** A client that follows [next_cursor] for at most [n] requests. *)
Fixpoint all_pages (n : nat) (limit : nat) (ids : option (list Z)) (flt : ListFilter)
    (cursor : option AnalysisCursor) (db : Database) : list (list AnalysisRecord) :=
  match n with
  | O => []
  | S n =>
    let p := list_page limit ids flt cursor db in
    pg_records p
    :: match pg_next_cursor p with
       | Some c => all_pages n limit ids flt (Some c) db
       | None => []
       end
  end.

Lemma list_page_eq limit ids flt cursor db :
  list_page limit ids flt cursor db
  = let found := select_page limit ids flt cursor db in
    let page_rows := take limit found in
    {| pg_records := map (_to_record db) page_rows;
       pg_next_cursor := if (limit <? length found)%nat
                         then option_map position (head (rev page_rows)) else None |}.
Proof.
  unfold list_page. destruct ids as [[|i ids]|]; try done.
  assert (Hnil : select_page limit (Some []) flt cursor db = []).
  { unfold select_page. assert (Hf : List.filter (fun row => visible (Some []) row && passes flt row
      && match cursor with Some c => after_cursor c (position row) | None => true end) (rows db) = []).
    { induction (rows db) as [|x l IH]; [done|]. cbn [List.filter visible].
      by destruct (id_installation_id (an_identity x)). }
    rewrite Hf. by destruct limit. }
  rewrite Hnil. cbn zeta. by destruct limit.
Qed.

Lemma all_pages_concat db (Hkeys : keys_ok db) limit ids flt n l cursor :
  (1 <= limit)%nat -> selection db ids flt cursor = l -> (length l < n)%nat ->
  concat (all_pages n limit ids flt cursor db) = map (_to_record db) l
  /\ Forall (fun p => (length p <= limit)%nat) (all_pages n limit ids flt cursor db).
Proof.
  intros Hl. revert l cursor. induction n as [|n IH]; intros l cursor Hsel Hn; [lia|].
  cbn [all_pages]. rewrite list_page_eq, select_page_selection, Hsel. cbn zeta.
  cbn [pg_records pg_next_cursor]. rewrite take_take, Nat.min_l by lia.
  rewrite length_take.
  assert (Hpage : (length (map (_to_record db) (take limit l)) <= limit)%nat)
    by (rewrite length_map, length_take; lia).
  destruct (Nat.ltb_spec limit (Nat.min (limit + 1) (length l))) as [Hmore|Hdone].
  - destruct (take limit l) as [|y t] eqn:Et.
    { apply (f_equal length) in Et. rewrite length_take in Et. cbn in Et. lia. }
    destruct (exists_last (l := y :: t)) as (l1 & x & Hlast); [done|].
    rewrite Hlast, rev_app_distr. cbn [rev app head option_map].
    assert (Hdrop : selection db ids flt (Some (position x)) = drop limit l).
    { apply (selection_suffix db Hkeys ids flt cursor l1). rewrite Hsel.
      rewrite <- (take_drop limit l) at 1. rewrite Et, Hlast. by rewrite <- app_assoc. }
    destruct (IH (drop limit l) (Some (position x)) Hdrop) as [H1 H2].
    { rewrite length_drop. lia. }
    cbn [concat]. rewrite H1. split.
    + rewrite <- Hlast, <- Et, <- map_app, take_drop. done.
    + constructor; [|done]. by rewrite <- Hlast.
  - cbn [concat]. rewrite app_nil_r, take_ge by lia. split; [done|].
    rewrite take_ge in Hpage by lia. by constructor.
Qed.

(** Following the cursors from the first page returns every analysis the caller may see
    that passes the filter exactly once, newest first, in pages of at most [limit]
    records, and the enumeration ends. *)
Theorem list_pages_complete (db : Database) (Hkeys : keys_ok db) (limit : nat)
    (Hlimit : (1 <= limit)%nat) (ids : option (list Z)) (flt : ListFilter) :
  let all := all_pages (S (length (rows db))) limit ids flt None db in
  exists found,
    concat all = map (_to_record db) found
    /\ Forall (fun p => (length p <= limit)%nat) all
    /\ NoDup (map (fun row => id_run_id (an_identity row)) found)
    /\ (forall row, In row found <->
          In row (rows db) /\ visible ids row = true /\ passes flt row = true)
    /\ StronglySorted (le_rel newer_leb) found.
Proof.
  intros all. exists (selection db ids flt None).
  destruct (all_pages_concat db Hkeys limit ids flt (S (length (rows db)))
    (selection db ids flt None) None Hlimit eq_refl) as [H1 H2].
  { unfold selection. rewrite py_sorted_perm. pose proof (List.filter_length_le
      (fun row => matches ids flt row && beyond None row) (rows db)). lia. }
  split_and!; [done|done| | |apply selection_sorted].
  - apply NoDup_fmap_2_strong; [|by apply selection_NoDup].
    intros x y Hx Hy. apply list_elem_of_In, selection_In in Hx as [Hx _], Hy as [Hy _].
    by apply (rows_keys db Hkeys).
  - intros row. rewrite selection_In. unfold matches. rewrite andb_true_iff. cbn. tauto.
Qed.

Lemma list_pages_complete_witness :
  exists found, concat (all_pages (S (length (rows sample_db))) 1 (Some [5]) no_filter None sample_db)
    = map (_to_record sample_db) found /\ map (fun r => id_run_id (an_identity r)) found = [2; 1].
Proof.
  destruct (list_pages_complete sample_db sample_keys_ok 1 (le_n 1) (Some [5]) no_filter)
    as (found & H & _). exists found. split; [exact H|].
  assert (Hids : map ar_run_id (concat (all_pages (S (length (rows sample_db))) 1 (Some [5])
    no_filter None sample_db)) = [2; 1]) by (vm_compute; reflexivity).
  rewrite H, map_map in Hids. exact Hids.
Defined.

(** ** Access control *)

(** The part of the database that belongs to the given installations. *)
Definition owned (ids : list Z) (db : Database) (run_id : Z) : bool :=
  match db_analyses db !! run_id with
  | Some row => visible (Some ids) row
  | None => false
  end.
Definition restrict (ids : list Z) (db : Database) : Database := {|
  db_analyses := filter (fun kv => visible (Some ids) kv.2 = true) (db_analyses db);
  db_events := List.filter (fun e => owned ids db (er_run_id e)) (db_events db);
  db_feedback := filter (fun kv => owned ids db kv.1 = true) (db_feedback db);
  db_users := db_users db; db_sessions := db_sessions db;
  db_installations := db_installations db |}.

Lemma restrict_lookup ids db k :
  db_analyses (restrict ids db) !! k
  = match db_analyses db !! k with
    | Some row => if visible (Some ids) row then Some row else None
    | None => None
    end.
Proof.
  unfold restrict. cbn [db_analyses]. destruct (db_analyses db !! k) as [row|] eqn:E.
  - destruct (visible (Some ids) row) eqn:Ev.
    + by apply map_lookup_filter_Some.
    + apply map_lookup_filter_None. right. intros x Hx. rewrite E in Hx. injection Hx as <-. change (visible (Some ids) row <> true). congruence.
  - apply map_lookup_filter_None. by left.
Qed.

Lemma restrict_history ids db k : owned ids db k = true ->
  _stage_history (restrict ids db) k = _stage_history db k.
Proof.
  intros Hk. unfold _stage_history. cbn. f_equal.
  induction (db_events db) as [|e es IH]; [done|]. cbn [List.filter].
  destruct (er_run_id e =? k) eqn:Ek.
  - apply Z.eqb_eq in Ek. rewrite Ek, Hk. cbn [List.filter].
    rewrite Ek, Z.eqb_refl. by rewrite IH.
  - destruct (owned ids db (er_run_id e)); [|done]. cbn [List.filter]. by rewrite Ek.
Qed.
Lemma restrict_feedback ids db k : owned ids db k = true ->
  db_feedback (restrict ids db) !! k = db_feedback db !! k.
Proof.
  intros Hk. cbn. destruct (db_feedback db !! k) as [f|] eqn:E.
  - by apply map_lookup_filter_Some.
  - apply map_lookup_filter_None. by left.
Qed.
Lemma restrict_record ids db row :
  owned ids db (id_run_id (an_identity row)) = true ->
  _to_record (restrict ids db) row = _to_record db row.
Proof.
  intros H. unfold _to_record. by rewrite restrict_history, restrict_feedback.
Qed.
Lemma restrict_keys ids db : keys_ok db -> keys_ok (restrict ids db).
Proof.
  intros Hk k row H. rewrite restrict_lookup in H.
  destruct (db_analyses db !! k) eqn:E; [|done].
  destruct (visible (Some ids) a); [|done]. injection H as <-. by apply Hk.
Qed.

Lemma owned_visible ids db row : keys_ok db -> In row (rows db) -> visible (Some ids) row = true ->
  owned ids db (id_run_id (an_identity row)) = true.
Proof. intros Hk Hin Hv. apply (rows_lookup db row Hk) in Hin. unfold owned. by rewrite Hin. Qed.

Lemma restrict_selection ids flt cursor db : keys_ok db ->
  selection (restrict ids db) (Some ids) flt cursor = selection db (Some ids) flt cursor.
Proof.
  intros Hk. pose proof (restrict_keys ids db Hk) as Hk'.
  assert (Hrows : forall row, In row (rows (restrict ids db)) <->
    In row (rows db) /\ visible (Some ids) row = true).
  { intros row. rewrite (rows_lookup _ row Hk'), (rows_lookup _ row Hk), restrict_lookup.
    destruct (db_analyses db !! _) as [r|]; [|by split; [|intros [? _]]].
    destruct (visible (Some ids) r) eqn:Ev; split; intros H.
    - split; congruence.
    - by destruct H.
    - done.
    - destruct H as [[= ->] ?]. congruence. }
  apply (sorted_unique db); [done|..].
  - intros x Hx. apply selection_In in Hx as (Hx & _). by apply Hrows in Hx as [? _].
  - intros x Hx. by apply selection_In in Hx as (Hx & _).
  - apply selection_sorted.
  - apply selection_sorted.
  - apply NoDup_Permutation; [by apply selection_NoDup..|]. intros x.
    rewrite !list_elem_of_In, !selection_In, Hrows. unfold matches. rewrite andb_true_iff. tauto.
Qed.

(** A caller restricted to some installations learns nothing about the others: reading one
    analysis or any page of the list gives what the database holding only the analyses
    of those installations (with their stages and feedback) gives, and saving feedback
    on an analysis of another installation changes nothing. *)
Theorem installation_isolation (db : Database) (Hkeys : keys_ok db) (ids : list Z) :
  (forall run_id, get run_id (Some ids) db = get run_id (Some ids) (restrict ids db))
  /\ (forall limit flt cursor,
       list_page limit (Some ids) flt cursor db
       = list_page limit (Some ids) flt cursor (restrict ids db))
  /\ (forall now run_id q, owned ids db run_id = false ->
       save_feedback now run_id q (Some ids) db = (Ok None, db)).
Proof.
  split_and!.
  - intros run_id. unfold get. rewrite restrict_lookup.
    destruct (db_analyses db !! run_id) as [row|] eqn:E; [|done].
    destruct (visible (Some ids) row) eqn:Ev; [|done]. rewrite Ev.
    rewrite restrict_record; [done|]. unfold owned. rewrite (Hkeys _ _ E), E. done.
  - intros limit flt cursor. rewrite !list_page_eq, !select_page_selection.
    rewrite restrict_selection by done. cbn zeta. f_equal.
    apply List.map_ext_in. intros row Hrow. symmetry. apply restrict_record.
    rewrite <- list_elem_of_In in Hrow.
    apply elem_of_take in Hrow as (i & Hrow & _). apply list_elem_of_lookup_2 in Hrow.
    apply elem_of_take in Hrow as (j & Hrow & _). apply list_elem_of_lookup_2 in Hrow.
    apply list_elem_of_In, selection_In in Hrow as (Hin & Hm & _).
    unfold matches in Hm. apply andb_true_iff in Hm as [Hv _]. by apply owned_visible.
  - intros now run_id q Ho. unfold save_feedback, transaction, owned in *.
    destruct (db_analyses db !! run_id); [|done]. by rewrite Ho.
Qed.

Lemma installation_isolation_witness :
  get 1 (Some [6]) sample_db = None
  /\ get 1 (Some [6]) (restrict [6] sample_db) = None.
Proof.
  destruct (installation_isolation sample_db sample_keys_ok [6]) as (H & _).
  split; [|rewrite <- H]; vm_compute; reflexivity.
Defined.
