(* ===== verification/Schema.v ===== *)
(** * Tables and the statements that change them (store.py, migrations/versions)

    A schema: tables with columns, keys and references, and indexes, by name.  A database
    is a schema with the rows of its tables.  A statement is what alembic's [op] emits; its
    effect is the one SQL gives it in PostgreSQL, where it is refused ([None]) when a name
    is taken or missing, a reference has no target, something still refers to a table, or a
    column that must not be null would be.  Constraints have no names and columns no order. *)

From stdpp Require Import base list gmap strings numbers.
From S2P Require Import Prelude Loads.

Set Default Proof Using "Type".

(** ** Declarations *)

Inductive sql_type :=
| BigInteger | Integer | String_ (length : Z) | Text | JSON | DateTime (timezone : bool)
| Float | Boolean.
Record column := {
  co_type : sql_type; co_nullable : bool; co_server_default : option str;
  co_autoincrement : bool }.
Record foreign_key := {
  fk_columns : list str; fk_table : str; fk_targets : list str; fk_ondelete : str }.
Record table := {
  ta_columns : gmap str column; ta_primary_key : list str; ta_unique : list (list str);
  ta_foreign : list foreign_key }.
Record index := { ix_table : str; ix_columns : list str }.
Record schema := { sc_tables : gmap str table; sc_indexes : gmap str index }.

#[export] Instance sql_type_eq_dec : EqDecision sql_type.
Proof. solve_decision. Defined.
#[export] Instance column_eq_dec : EqDecision column.
Proof. solve_decision. Defined.
#[export] Instance foreign_key_eq_dec : EqDecision foreign_key.
Proof. solve_decision. Defined.
#[export] Instance table_eq_dec : EqDecision table.
Proof. solve_decision. Defined.
#[export] Instance index_eq_dec : EqDecision index.
Proof. solve_decision. Defined.
#[export] Instance schema_eq_dec : EqDecision schema.
Proof. solve_decision. Defined.

(** The arguments of op.create_table *)
Inductive item :=
| Column (name : str) (type : sql_type) (nullable : bool)
| SerialColumn (name : str) (type : sql_type) (nullable : bool)   (* autoincrement=True *)
| PrimaryKeyConstraint (columns : list str)
| UniqueConstraint (columns : list str)
| ForeignKeyConstraint (columns : list str) (target : str) (targets : list str) (ondelete : str).
Definition plain_column (type : sql_type) (nullable : bool) : column := {|
  co_type := type; co_nullable := nullable; co_server_default := None;
  co_autoincrement := false |}.
Definition add_item (t : table) (i : item) : table :=
  match i with
  | Column name type nullable => {|
      ta_columns := <[name := plain_column type nullable]> (ta_columns t);
      ta_primary_key := ta_primary_key t; ta_unique := ta_unique t; ta_foreign := ta_foreign t |}
  | SerialColumn name type nullable => {|
      ta_columns := <[name := {| co_type := type; co_nullable := nullable;
                                 co_server_default := None; co_autoincrement := true |}]>
                      (ta_columns t);
      ta_primary_key := ta_primary_key t; ta_unique := ta_unique t; ta_foreign := ta_foreign t |}
  | PrimaryKeyConstraint columns => {|
      ta_columns := ta_columns t; ta_primary_key := columns; ta_unique := ta_unique t;
      ta_foreign := ta_foreign t |}
  | UniqueConstraint columns => {|
      ta_columns := ta_columns t; ta_primary_key := ta_primary_key t;
      ta_unique := ta_unique t ++ [columns]; ta_foreign := ta_foreign t |}
  | ForeignKeyConstraint columns target targets ondelete => {|
      ta_columns := ta_columns t; ta_primary_key := ta_primary_key t; ta_unique := ta_unique t;
      ta_foreign := ta_foreign t ++ [{| fk_columns := columns; fk_table := target;
                                        fk_targets := targets; fk_ondelete := ondelete |}] |}
  end.
Definition empty_table : table := {|
  ta_columns := ∅; ta_primary_key := []; ta_unique := []; ta_foreign := [] |}.
Definition table_of (items : list item) : table := fold_left add_item items empty_table.

(** ** Statements on a schema *)

Inductive operation :=
| CreateTable (name : str) (items : list item)
| DropTable (name : str)
| AddColumn (table name : str) (c : column)
| DropColumn (table name : str)
| CreateIndex (name table : str) (columns : list str)
| DropIndex (name table : str).

#[export] Instance item_eq_dec : EqDecision item.
Proof. solve_decision. Defined.
#[export] Instance operation_eq_dec : EqDecision operation.
Proof. solve_decision. Defined.

Definition has_columns (t : table) (columns : list str) : bool :=
  forallb (fun c => bool_decide (is_Some (ta_columns t !! c))) columns.
(** The reference has its target, possibly the table itself. *)
Definition reference_ok (tables : gmap str table) (fk : foreign_key) : bool :=
  match tables !! fk_table fk with
  | Some t => has_columns t (fk_targets fk)
  | None => false
  end.
Definition constraints_ok (tables : gmap str table) (t : table) : bool :=
  has_columns t (ta_primary_key t) && forallb (has_columns t) (ta_unique t)
  && forallb (fun fk => has_columns t (fk_columns fk) && reference_ok tables fk) (ta_foreign t).
Definition refers_to (name : str) (t : table) : bool :=
  existsb (fun fk => str_eqb (fk_table fk) name) (ta_foreign t).
(** Some table other than [name] has a reference that [ok] holds of. *)
Definition referenced (tables : gmap str table) (name : str) (ok : foreign_key -> bool) : bool :=
  existsb (fun kt => negb (str_eqb (fst kt) name)
                     && existsb (fun fk => str_eqb (fk_table fk) name && ok fk) (ta_foreign (snd kt)))
    (map_to_list tables).
Definition mentions (column : str) (columns : list str) : bool := existsb (str_eqb column) columns.
(** Without a column: constraints over it go with it. *)
Definition without_column (name : str) (t : table) : table := {|
  ta_columns := delete name (ta_columns t);
  ta_primary_key := if mentions name (ta_primary_key t) then [] else ta_primary_key t;
  ta_unique := List.filter (fun cs => negb (mentions name cs)) (ta_unique t);
  ta_foreign := List.filter (fun fk => negb (mentions name (fk_columns fk))) (ta_foreign t) |}.
Definition with_column (name : str) (c : column) (t : table) : table := {|
  ta_columns := <[name := c]> (ta_columns t); ta_primary_key := ta_primary_key t;
  ta_unique := ta_unique t; ta_foreign := ta_foreign t |}.
Definition name_free (s : schema) (name : str) : bool :=
  bool_decide (sc_tables s !! name = None) && bool_decide (sc_indexes s !! name = None).

Definition change_schema (op : operation) (s : schema) : option schema :=
  match op with
  | CreateTable name items =>
    let t := table_of items in
    let tables := <[name := t]> (sc_tables s) in
    if name_free s name && constraints_ok tables t then
      Some {| sc_tables := tables; sc_indexes := sc_indexes s |}
    else None
  | DropTable name =>
    match sc_tables s !! name with
    | Some _ =>
      if referenced (sc_tables s) name (fun _ => true) then None
      else Some {| sc_tables := delete name (sc_tables s);
                   sc_indexes := filter (fun ni => ix_table (snd ni) <> name) (sc_indexes s) |}
    | None => None
    end
  | AddColumn table name c =>
    match sc_tables s !! table with
    | Some t =>
      if bool_decide (ta_columns t !! name = None) then
        Some {| sc_tables := <[table := with_column name c t]> (sc_tables s);
                sc_indexes := sc_indexes s |}
      else None
    | None => None
    end
  | DropColumn table name =>
    match sc_tables s !! table with
    | Some t =>
      if bool_decide (is_Some (ta_columns t !! name))
         && negb (referenced (sc_tables s) table (fun fk => mentions name (fk_targets fk))) then
        Some {| sc_tables := <[table := without_column name t]> (sc_tables s);
                sc_indexes := filter (fun ni => ~ (ix_table (snd ni) = table
                                                   /\ mentions name (ix_columns (snd ni)) = true))
                                (sc_indexes s) |}
      else None
    | None => None
    end
  | CreateIndex name table columns =>
    match sc_tables s !! table with
    | Some t =>
      if name_free s name && has_columns t columns then
        Some {| sc_tables := sc_tables s;
                sc_indexes := <[name := {| ix_table := table; ix_columns := columns |}]>
                                (sc_indexes s) |}
      else None
    | None => None
    end
  | DropIndex name _ =>
    match sc_indexes s !! name with
    | Some _ => Some {| sc_tables := sc_tables s; sc_indexes := delete name (sc_indexes s) |}
    | None => None
    end
  end.

(** ** Statements on rows *)

Inductive cell :=
| Null | CInteger (z : Z) | CFloat (q : Qcanon.Qc) | CText (s : str) | CBoolean (b : bool)
| CMoment (t : Z) | CDocument (text : str).
#[export] Instance cell_eq_dec : EqDecision cell.
Proof. solve_decision. Defined.
Abbreviation row := (gmap str cell).
Record database := { db_schema : schema; db_rows : gmap str (list row) }.
Definition rows_of (d : database) (name : str) : list row := default [] (db_rows d !! name).

(** The text of a server default, read as its column's type *)
Definition default_cell (c : column) : cell :=
  match co_server_default c with
  | None => Null
  | Some text =>
    match co_type c with
    | BigInteger | Integer => CInteger (digits_Z text)
    | _ => CText text
    end
  end.
Definition needs_value (c : column) : bool :=
  negb (co_nullable c) && bool_decide (co_server_default c = None).

Definition change_rows (op : operation) (rows : gmap str (list row))
  : option (gmap str (list row)) :=
  match op with
  | CreateTable name _ => Some (<[name := []]> rows)
  | DropTable name => Some (delete name rows)
  | AddColumn table name c =>
    let old := default [] (rows !! table) in
    if needs_value c && negb (bool_decide (old = [])) then None
    else Some (<[table := map (insert name (default_cell c)) old]> rows)
  | DropColumn table name =>
    Some (<[table := map (delete name) (default [] (rows !! table))]> rows)
  | CreateIndex _ _ _ | DropIndex _ _ => Some rows
  end.
Definition execute (op : operation) (d : database) : option database :=
  match change_schema op (db_schema d), change_rows op (db_rows d) with
  | Some s, Some rows => Some {| db_schema := s; db_rows := rows |}
  | _, _ => None
  end.
Fixpoint execute_all (ops : list operation) (d : database) : option database :=
  match ops with
  | [] => Some d
  | op :: ops => match execute op d with Some d => execute_all ops d | None => None end
  end.
Definition empty_schema : schema := {| sc_tables := ∅; sc_indexes := ∅ |}.
Definition empty_database : database := {| db_schema := empty_schema; db_rows := ∅ |}.

(** ** Tables of SQLAlchemy's metadata *)

(** The arguments of a Column of a Table; defaults that Python fills in are not part of the
    schema. *)
Inductive attribute :=
| primary_key | not_null | unique | indexed | autoincrement
| references (table column : str) (ondelete : str).
Record table_column := { tc_name : str; tc_type : sql_type; tc_attributes : list attribute }.
Definition attribute_eqb (a b : attribute) : bool :=
  match a, b with
  | primary_key, primary_key | not_null, not_null | unique, unique | indexed, indexed
  | autoincrement, autoincrement => true
  | _, _ => false
  end.
Definition has (a : attribute) (c : table_column) : bool :=
  existsb (attribute_eqb a) (tc_attributes c).
Definition references_of (c : table_column) : list item :=
  flat_map (fun a => match a with
                     | references table column ondelete =>
                       [ForeignKeyConstraint [tc_name c] table [column] ondelete]
                     | _ => [] end) (tc_attributes c).
(** A column is nullable unless it is a primary key or declared otherwise. *)
Definition column_item (c : table_column) : item :=
  let nullable := negb (has primary_key c || has not_null c) in
  if has autoincrement c then SerialColumn (tc_name c) (tc_type c) nullable
  else Column (tc_name c) (tc_type c) nullable.
Definition create_statement (name : str) (columns : list table_column) : operation :=
  CreateTable name
    (map column_item columns
     ++ [PrimaryKeyConstraint (map tc_name (List.filter (has primary_key) columns))]
     ++ map (fun c => UniqueConstraint [tc_name c]) (List.filter (has unique) columns)
     ++ flat_map references_of columns).
Definition index_statements (name : str) (columns : list table_column) : list operation :=
  map (fun c => CreateIndex (u "ix_" ++ name ++ u "_" ++ tc_name c) name [tc_name c])
    (List.filter (has indexed) columns).
