(* ===== verification/SchemaFacts.v ===== *)
(** * Facts about tables and the statements that change them

    The statements that add something keep a database well formed, are undone by those that
    take it away, and keep the rows. *)

From stdpp Require Import base list gmap strings numbers.
From S2P Require Import Prelude Schema.

Set Default Proof Using "Type".

(** ** Well-formed databases *)

(** Constraints and indexes are over columns that exist, references have targets. *)
Record schema_ok (s : schema) : Prop := {
  so_tables : forall name t, sc_tables s !! name = Some t -> constraints_ok (sc_tables s) t = true;
  so_indexes : forall name ix, sc_indexes s !! name = Some ix ->
    exists t, sc_tables s !! ix_table ix = Some t /\ has_columns t (ix_columns ix) = true }.
(** Every table has its rows, every row a value for each column. *)
Record db_ok (d : database) : Prop := {
  do_schema : schema_ok (db_schema d);
  do_tables : forall name, sc_tables (db_schema d) !! name = None <-> db_rows d !! name = None;
  do_rows : forall name t, sc_tables (db_schema d) !! name = Some t ->
    Forall (fun r : row => dom r = dom (ta_columns t)) (rows_of d name) }.

Lemma empty_ok : db_ok empty_database.
Proof. split; [split|..]; intros *; rewrite ?lookup_empty; done. Qed.

Lemma has_columns_spec t cs : has_columns t cs = true <-> forall c, c ∈ cs -> is_Some (ta_columns t !! c).
Proof.
  unfold has_columns. rewrite forallb_forall. split; intros H c Hc.
  - apply list_elem_of_In, H, bool_decide_eq_true in Hc. exact Hc.
  - apply bool_decide_eq_true, H, list_elem_of_In, Hc.
Qed.
Lemma mentions_spec c cs : mentions c cs = true <-> c ∈ cs.
Proof.
  unfold mentions. rewrite existsb_exists, list_elem_of_In. split.
  - by intros (x & Hx & ->%str_eqb_eq).
  - intros Hc. exists c. by rewrite str_eqb_refl.
Qed.
Lemma absent_unmentioned t cs name :
  has_columns t cs = true -> ta_columns t !! name = None -> mentions name cs = false.
Proof.
  intros Hc Hn. apply not_true_iff_false. rewrite mentions_spec. intros Hm.
  rewrite has_columns_spec in Hc. destruct (Hc _ Hm) as [x Hx]. congruence.
Qed.

(** What the constraints of a table say *)
Lemma constraints_ok_spec tables t : constraints_ok tables t = true <->
  has_columns t (ta_primary_key t) = true /\ Forall (fun cs => has_columns t cs = true) (ta_unique t)
  /\ Forall (fun fk => has_columns t (fk_columns fk) = true /\ reference_ok tables fk = true)
       (ta_foreign t).
Proof.
  unfold constraints_ok. rewrite !andb_true_iff, !forallb_forall, !Forall_forall.
  setoid_rewrite andb_true_iff. tauto.
Qed.
Lemma reference_ok_spec tables fk : reference_ok tables fk = true <->
  exists t, tables !! fk_table fk = Some t /\ has_columns t (fk_targets fk) = true.
Proof.
  unfold reference_ok. destruct (tables !! fk_table fk) as [t|]; [|by split; [|intros (? & ? & ?)]].
  split; [eauto|]. by intros (? & [= <-] & ?).
Qed.
(** A reference to columns that do not exist cannot be. *)
Lemma unreferenced tables name (ok : foreign_key -> bool) :
  (forall n t, tables !! n = Some t -> n <> name ->
     Forall (fun fk => fk_table fk = name -> ok fk = false) (ta_foreign t)) ->
  referenced tables name ok = false.
Proof.
  intros H. apply not_true_iff_false. unfold referenced. rewrite existsb_exists.
  intros ([n t] & Hin & Hr). rewrite andb_true_iff, negb_true_iff, str_eqb_neq, existsb_exists in Hr.
  destruct Hr as [Hn (fk & Hfk & Hr)]. rewrite andb_true_iff, str_eqb_eq in Hr. cbn [fst snd] in *.
  apply list_elem_of_In, elem_of_map_to_list in Hin. specialize (H n t Hin Hn).
  rewrite Forall_forall in H. destruct Hr as [Hr1 Hr2]. rewrite (H fk Hfk Hr1) in Hr2. done.
Qed.

(** ** Statements that add *)

Definition inverse (op : operation) : option operation :=
  match op with
  | CreateTable name _ => Some (DropTable name)
  | AddColumn table name _ => Some (DropColumn table name)
  | CreateIndex name table _ => Some (DropIndex name table)
  | _ => None
  end.
Definition adds (op : operation) : bool :=
  match inverse op with Some _ => true | None => false end.

(** More tables and columns keep what was there. *)
Definition grows (tables tables' : gmap str table) : Prop :=
  forall name t, tables !! name = Some t ->
    exists t', tables' !! name = Some t' /\ ta_columns t ⊆ ta_columns t'.
Lemma has_columns_grows (t t' : table) cs :
  ta_columns t ⊆ ta_columns t' -> has_columns t cs = true -> has_columns t' cs = true.
Proof. rewrite !has_columns_spec. intros Hs Hc c Hin. by eapply lookup_weaken_is_Some, Hs; auto. Qed.
Lemma reference_grows tables tables' fk :
  grows tables tables' -> reference_ok tables fk = true -> reference_ok tables' fk = true.
Proof.
  rewrite !reference_ok_spec. intros Hg (t & Ht & Hc). destruct (Hg _ _ Ht) as (t' & Ht' & Hcs).
  exists t'. split; [done|]. by eapply has_columns_grows.
Qed.
Lemma constraints_grow tables tables' t t' :
  grows tables tables' -> ta_columns t ⊆ ta_columns t' ->
  ta_primary_key t' = ta_primary_key t -> ta_unique t' = ta_unique t -> ta_foreign t' = ta_foreign t ->
  constraints_ok tables t = true -> constraints_ok tables' t' = true.
Proof.
  intros Hg Hc Hp Hu Hf. rewrite !constraints_ok_spec, Hp, Hu, Hf. intros (H1 & H2 & H3).
  split_and!; [by eapply has_columns_grows|apply (Forall_weaken _ _ _ H2)|apply (Forall_weaken _ _ _ H3)].
  - intros cs. by apply has_columns_grows.
  - intros fk [Hk Hr]. split; [by eapply has_columns_grows|by eapply reference_grows].
Qed.
Lemma grows_refl tables : grows tables tables.
Proof. intros name t Ht. eauto. Qed.
Lemma grows_insert_new (tables : gmap str table) name t : tables !! name = None -> grows tables (<[name := t]> tables).
Proof.
  intros Hn k t' Ht. exists t'. rewrite lookup_insert_ne; [done|]. congruence.
Qed.
Lemma grows_with_column tables name t c co :
  tables !! name = Some t -> ta_columns t !! c = None ->
  grows tables (<[name := with_column c co t]> tables).
Proof.
  intros Hn Hc k t' Ht. destruct (decide (k = name)) as [->|Hk].
  - rewrite lookup_insert_eq. eexists. split; [done|]. cbn. replace t' with t by congruence.
    by apply insert_subseteq.
  - rewrite lookup_insert_ne by done. eauto.
Qed.
Lemma change_grows op s s' :
  adds op = true -> change_schema op s = Some s' -> grows (sc_tables s) (sc_tables s').
Proof.
  intros Ha. destruct op; try done; cbn [change_schema].
  - destruct (name_free s name && _) eqn:E; [|done]. intros [= <-]. cbn.
    apply andb_true_iff in E as [[E%bool_decide_eq_true _]%andb_true_iff _]. by apply grows_insert_new.
  - destruct (sc_tables s !! table) as [t|] eqn:E; [|done]. case_bool_decide; [|done].
    intros [= <-]. by apply grows_with_column.
  - destruct (sc_tables s !! table) as [t|] eqn:E; [|done]. destruct (_ && _); [|done].
    intros [= <-]. apply grows_refl.
Qed.
Lemma change_schema_ok op s s' :
  schema_ok s -> adds op = true -> change_schema op s = Some s' -> schema_ok s'.
Proof.
  intros [Ht Hi] Ha Hs. pose proof (change_grows _ _ _ Ha Hs) as Hg.
  assert (Hix : forall name ix, sc_indexes s !! name = Some ix ->
    exists t, sc_tables s' !! ix_table ix = Some t /\ has_columns t (ix_columns ix) = true).
  { intros name ix (t & H1 & H2)%Hi. destruct (Hg _ _ H1) as (t' & H3 & H4). exists t'.
    split; [done|]. by eapply has_columns_grows. }
  destruct op as [name items| |table name c| |name table columns|]; try done; cbn [change_schema] in Hs.
  - destruct (_ && _) eqn:E in Hs; [|done]. injection Hs as <-. cbn in *.
    apply andb_true_iff in E as [_ E]. split; [|exact Hix]. cbn. intros k t Hk.
    apply lookup_insert_Some in Hk as [[-> <-]|[_ Hk]]; [done|].
    by apply (constraints_grow (sc_tables s) _ t t); eauto.
  - destruct (sc_tables s !! table) as [t|] eqn:E; [|done]. case_bool_decide; [|done].
    injection Hs as <-. split; [|exact Hix]. cbn. intros k t' Hk.
    apply lookup_insert_Some in Hk as [[-> <-]|[_ Hk]].
    + apply (constraints_grow (sc_tables s) _ t); eauto. by apply insert_subseteq.
    + by apply (constraints_grow (sc_tables s) _ t' t'); eauto.
  - destruct (sc_tables s !! table) as [t|] eqn:E; [|done]. destruct (_ && _) eqn:En in Hs; [|done].
    injection Hs as <-. split; [exact Ht|]. cbn. intros k ix Hk.
    apply lookup_insert_Some in Hk as [[_ <-]|[_ Hk]]; [|by apply (Hix k)].
    apply andb_true_iff in En as [_ En]. by exists t.
Qed.

Lemma execute_Some op d d' : execute op d = Some d' ->
  change_schema op (db_schema d) = Some (db_schema d') /\ change_rows op (db_rows d) = Some (db_rows d').
Proof.
  unfold execute. destruct (change_schema op _) as [s|]; [|done].
  destruct (change_rows op _) as [r|]; [|done]. by intros [= <-].
Qed.
Lemma rows_known d name t : db_ok d -> sc_tables (db_schema d) !! name = Some t ->
  db_rows d !! name = Some (rows_of d name).
Proof.
  intros Hd Ht. unfold rows_of. destruct (db_rows d !! name) as [l|] eqn:E; [done|].
  apply (do_tables d Hd) in E. congruence.
Qed.

(** An addition leaves a well-formed database well formed. *)
Lemma execute_ok op d d' : db_ok d -> adds op = true -> execute op d = Some d' -> db_ok d'.
Proof.
  intros Hd Ha [Hs Hr]%execute_Some.
  pose proof (change_schema_ok _ _ _ (do_schema _ Hd) Ha Hs) as Hok.
  destruct Hd as [_ Ht Hrows]. unfold rows_of in Hrows.
  destruct d as [s rows], d' as [s' rows']. cbn [db_schema db_rows] in *.
  destruct op as [name items| |table name c| |name table columns|]; try done;
    cbn [change_schema change_rows] in Hs, Hr.
  - destruct (_ && _) in Hs; [|done]. injection Hs as <-. injection Hr as <-.
    split; [done|..]; cbn [db_schema db_rows sc_tables] in *.
    + intros k. rewrite !lookup_insert. case_decide; [done|apply Ht].
    + intros k t. unfold rows_of. cbn [db_rows]. rewrite !lookup_insert.
      case_decide; [intros [= <-]; constructor|apply Hrows].
  - destruct (sc_tables s !! table) as [t|] eqn:E; [|done]. destruct (bool_decide _) in Hs; [|done].
    injection Hs as <-. destruct (_ && _) in Hr; [done|]. injection Hr as <-.
    split; [done|..]; cbn [db_schema db_rows sc_tables] in *.
    + intros k. rewrite !lookup_insert. case_decide; [done|apply Ht].
    + intros k t'. unfold rows_of. cbn [db_rows]. rewrite !lookup_insert.
      case_decide as Hk; [|apply Hrows]. subst k. intros [= <-]. cbn. apply Forall_map.
      apply (Forall_weaken _ _ _ (Hrows _ _ E)). intros r Hd. rewrite !dom_insert_L. by rewrite Hd.
  - destruct (sc_tables s !! table) as [t|]; [|done]. destruct (_ && _) in Hs; [|done].
    injection Hs as <-. injection Hr as <-. by split.
Qed.

Lemma filter_all (P : str * index -> Prop) `{forall x, Decision (P x)} (m : gmap str index) :
  (forall k ix, m !! k = Some ix -> P (k, ix)) -> filter P m = m.
Proof. intros Hm. apply map_filter_id. intros. by apply Hm. Qed.
Lemma list_filter_all {A} (f : A -> bool) l : Forall (fun x => f x = true) l -> List.filter f l = l.
Proof. induction 1 as [|x l Hx _ IH]; [done|]. cbn. by rewrite Hx, IH. Qed.
Lemma without_with_column t name c tables :
  constraints_ok tables t = true -> ta_columns t !! name = None ->
  without_column name (with_column name c t) = t.
Proof.
  intros (H1 & H2 & H3)%constraints_ok_spec Hn. unfold without_column.
  cbn [with_column ta_columns ta_primary_key ta_unique ta_foreign].
  rewrite (absent_unmentioned t) by done. rewrite delete_insert_id by done.
  rewrite !list_filter_all; [by destruct t|..].
  - apply (Forall_weaken _ _ _ H3). intros fk [Hk _]. by rewrite (absent_unmentioned t).
  - apply (Forall_weaken _ _ _ H2). intros cs Hc. by rewrite (absent_unmentioned t).
Qed.

(** The inverse of an addition takes it back. *)
Lemma drop_created s s' name items op' :
  schema_ok s -> change_schema (CreateTable name items) s = Some s' ->
  inverse (CreateTable name items) = Some op' -> change_schema op' s' = Some s.
Proof.
  intros [Ht Hi] Hs [= <-]. cbn [change_schema] in *. destruct (_ && _) eqn:E in Hs; [|done].
  injection Hs as <-. cbn [sc_tables sc_indexes].
  apply andb_true_iff in E as [[En%bool_decide_eq_true _]%andb_true_iff _].
  rewrite lookup_insert_eq, unreferenced.
  - rewrite delete_insert_id by done. rewrite filter_all; [by destruct s|].
    intros k ix (t & Htab & _)%Hi. cbn. congruence.
  - intros k t Hk Hn. rewrite lookup_insert_ne in Hk by done. apply Ht in Hk.
    apply constraints_ok_spec in Hk as (_ & _ & Hk). apply (Forall_weaken _ _ _ Hk).
    intros fk [_ (t' & Hf & _)%reference_ok_spec] Hname. congruence.
Qed.
Lemma drop_added s s' table name c op' :
  schema_ok s -> change_schema (AddColumn table name c) s = Some s' ->
  inverse (AddColumn table name c) = Some op' -> change_schema op' s' = Some s.
Proof.
  intros [Ht Hi] Hs [= <-]. cbn [change_schema] in *.
  destruct (sc_tables s !! table) as [t|] eqn:E; [|done]. case_bool_decide as En; [|done].
  injection Hs as <-. cbn [sc_tables sc_indexes]. rewrite lookup_insert_eq.
  rewrite bool_decide_eq_true_2 by (cbn; rewrite lookup_insert_eq; eauto).
  rewrite unreferenced; cbn [negb andb].
  - rewrite insert_insert_eq, (without_with_column t name c (sc_tables s)) by eauto.
    rewrite insert_id by done. rewrite filter_all; [by destruct s|].
    intros k ix (t' & Htab & Hc)%Hi [Hix Hm]. cbn [snd] in *. rewrite Hix in Htab.
    rewrite (absent_unmentioned t') in Hm; congruence.
  - intros k t' Hk Hn. rewrite lookup_insert_ne in Hk by done. apply Ht in Hk.
    apply constraints_ok_spec in Hk as (_ & _ & Hk). apply (Forall_weaken _ _ _ Hk).
    intros fk [_ (t2 & Hf & Hc)%reference_ok_spec] Hname. apply (absent_unmentioned t2); congruence.
Qed.
Lemma drop_indexed s s' name table cols op' :
  change_schema (CreateIndex name table cols) s = Some s' ->
  inverse (CreateIndex name table cols) = Some op' -> change_schema op' s' = Some s.
Proof.
  intros Hs [= <-]. cbn [change_schema] in *. destruct (sc_tables s !! table) as [t|]; [|done].
  destruct (_ && _) eqn:E in Hs; [|done]. injection Hs as <-. cbn [sc_tables sc_indexes].
  apply andb_true_iff in E as [[_ En%bool_decide_eq_true]%andb_true_iff _].
  rewrite lookup_insert_eq, delete_insert_id by done. by destruct s.
Qed.
Lemma execute_inverse op op' d d' :
  db_ok d -> inverse op = Some op' -> execute op d = Some d' -> execute op' d' = Some d.
Proof.
  intros Hd Hi [Hs Hr]%execute_Some. unfold execute.
  assert (change_schema op' (db_schema d') = Some (db_schema d)) as ->.
  { destruct op; try done; [eapply drop_created|eapply drop_added|eapply drop_indexed]; eauto.
    all: apply (do_schema _ Hd). }
  assert (change_rows op' (db_rows d') = Some (db_rows d)) as ->; [|by destruct d].
  destruct op as [name items| |table name c| |name table columns|]; try done;
    injection Hi as <-; cbn [change_rows change_schema] in *.
  - injection Hr as <-. rewrite delete_insert_id; [done|]. apply (do_tables d Hd).
    destruct (_ && _) eqn:E in Hs; [|done].
    by apply andb_true_iff in E as [[En%bool_decide_eq_true _]%andb_true_iff _].
  - destruct (_ && _) in Hr; [done|]. injection Hr as <-.
    destruct (sc_tables (db_schema d) !! table) as [t|] eqn:E; [|done].
    destruct (bool_decide (ta_columns t !! name = None)) eqn:En; [|done].
    apply bool_decide_eq_true in En.
    rewrite lookup_insert_eq, insert_insert_eq. pose proof (rows_known _ _ _ Hd E) as Hk.
    rewrite Hk. unfold default, from_option, id. rewrite map_map. f_equal.
    apply insert_id. rewrite Hk. f_equal.
    symmetry. etrans; [|apply map_id]. apply map_ext_in. intros r Hin. pose proof (do_rows d Hd table t E) as Hrows.
    rewrite Forall_forall in Hrows. rewrite delete_insert_id; [done|].
    apply not_elem_of_dom. rewrite Hrows by done. by apply not_elem_of_dom.
  - by injection Hr as <-.
Qed.

(** ** Sequences of statements *)

Lemma execute_all_app ops ops' d :
  execute_all (ops ++ ops') d = match execute_all ops d with Some d => execute_all ops' d | None => None end.
Proof.
  revert d. induction ops as [|op ops IH]; intros d; [done|]. cbn. destruct (execute op d); auto.
Qed.
Lemma execute_all_ok ops d d' :
  forallb adds ops = true -> db_ok d -> execute_all ops d = Some d' -> db_ok d'.
Proof.
  revert d. induction ops as [|op ops IH]; intros d; cbn [forallb execute_all].
  - by intros _ Hd [= <-].
  - intros [Ha Has]%andb_true_iff Hd. destruct (execute op d) as [d1|] eqn:E; [|done].
    by apply IH, (execute_ok _ _ _ Hd Ha).
Qed.
(** The inverses in the opposite order *)
Fixpoint inverses (ops : list operation) : option (list operation) :=
  match ops with
  | [] => Some []
  | op :: ops => match inverses ops, inverse op with
                 | Some l, Some op' => Some (l ++ [op'])
                 | _, _ => None
                 end
  end.
Lemma inverses_adds ops l : inverses ops = Some l -> forallb adds ops = true.
Proof.
  revert l. induction ops as [|op ops IH]; intros l; [done|]. cbn [inverses forallb]. unfold adds at 1.
  destruct (inverses ops) as [l'|]; [|done]. destruct (inverse op); [|done]. intros _.
  by apply (IH l').
Qed.
Lemma execute_all_inverses ops l d d' :
  db_ok d -> inverses ops = Some l -> execute_all ops d = Some d' -> execute_all l d' = Some d.
Proof.
  revert l d. induction ops as [|op ops IH]; intros l d Hd; cbn [inverses execute_all].
  - by intros [= <-] [= <-].
  - destruct (inverses ops) as [l'|] eqn:El; [|done]. destruct (inverse op) as [op'|] eqn:Eo; [|done].
    intros [= <-]. destruct (execute op d) as [d1|] eqn:E; [|done]. intros Hall.
    assert (Ha : adds op = true) by (unfold adds; by rewrite Eo).
    rewrite execute_all_app, (IH l' d1); [|by eapply execute_ok|done|done].
    cbn [execute_all]. by rewrite (execute_inverse op op' d d1).
Qed.

(** ** Rows under additions *)

(** An addition that no row can hinder *)
Definition unconditional (op : operation) : bool :=
  match op with AddColumn _ _ c => negb (needs_value c) | _ => adds op end.
Lemma unconditional_adds op : unconditional op = true -> adds op = true.
Proof. by destruct op. Qed.
Fixpoint change_all (ops : list operation) (s : schema) : option schema :=
  match ops with
  | [] => Some s
  | op :: ops => match change_schema op s with Some s => change_all ops s | None => None end
  end.
Lemma execute_unconditional op d s : unconditional op = true -> change_schema op (db_schema d) = Some s ->
  exists d', execute op d = Some d' /\ db_schema d' = s.
Proof.
  intros Hu Hs. unfold execute. rewrite Hs. destruct op; try done; cbn [change_rows]; try by eexists.
  cbn [unconditional] in Hu. apply negb_true_iff in Hu. rewrite Hu. by eexists.
Qed.

(** The old values of each row are kept; columns that are new hold their default. *)
Definition filled (t t' : table) (r r' : row) : Prop :=
  r ⊆ r' /\ forall c co, ta_columns t' !! c = Some co -> ta_columns t !! c = None ->
    r' !! c = Some (default_cell co).
Record kept (d d' : database) : Prop := {
  ke_tables : forall name t, sc_tables (db_schema d) !! name = Some t ->
    exists t', sc_tables (db_schema d') !! name = Some t' /\ ta_columns t ⊆ ta_columns t'
      /\ Forall2 (filled t t') (rows_of d name) (rows_of d' name);
  ke_new : forall name, sc_tables (db_schema d) !! name = None ->
    is_Some (sc_tables (db_schema d') !! name) -> rows_of d' name = [] }.
Lemma filled_refl t r : filled t t r r.
Proof. split; [done|]. congruence. Qed.
Lemma kept_refl d : kept d d.
Proof.
  split.
  - intros name t Ht. exists t. split_and!; [done..|]. apply Forall2_same_length_lookup_2; [done|].
    intros i x y Hx Hy. assert (x = y) as -> by congruence. apply filled_refl.
  - intros name Hn [t Ht]. congruence.
Qed.
Lemma kept_trans d1 d2 d3 : kept d1 d2 -> kept d2 d3 -> kept d1 d3.
Proof.
  intros [Ht Hn] [Ht' Hn']. split.
  - intros name t1 H1. destruct (Ht _ _ H1) as (t2 & H2 & Hs & Hr).
    destruct (Ht' _ _ H2) as (t3 & H3 & Hs' & Hr'). exists t3. split_and!; [done|by etrans|].
    revert Hr Hr'. generalize (rows_of d1 name) (rows_of d2 name) (rows_of d3 name).
    induction l as [|r1 l IH]; intros l2 l3; [by intros ->%Forall2_nil_inv_l ->%Forall2_nil_inv_l|].
    intros (r2 & l2' & [Hk Hc] & Hl & ->)%Forall2_cons_inv_l
           (r3 & l3' & [Hk' Hc'] & Hl' & ->)%Forall2_cons_inv_l.
    constructor; [|by eapply IH]. split; [by etrans|]. intros c co H3c H1c.
    destruct (ta_columns t2 !! c) as [co2|] eqn:E; [|by apply Hc'].
    assert (co2 = co) as -> by (eapply lookup_weaken in E; [|exact Hs']; congruence).
    by eapply lookup_weaken; [apply (Hc _ _ E H1c)|].
  - intros name H1 H3. destruct (sc_tables (db_schema d2) !! name) as [t2|] eqn:E2.
    + destruct (Ht' _ _ E2) as (t3 & _ & _ & Hr). rewrite (Hn name) in Hr; [|done|by rewrite E2].
      by apply Forall2_nil_inv_l in Hr.
    + by apply Hn'.
Qed.
Lemma Forall2_map_same {A} (P : A -> A -> Prop) (f : A -> A) l :
  Forall (fun x => P x (f x)) l -> Forall2 P l (map f l).
Proof. induction 1; cbn; by constructor. Qed.
Lemma execute_kept op d d' : db_ok d -> adds op = true -> execute op d = Some d' -> kept d d'.
Proof.
  intros Hd Ha [Hs Hr]%execute_Some. pose proof (change_grows _ _ _ Ha Hs) as Hg.
  assert (Hsame : forall name t, sc_tables (db_schema d') !! name = Some t ->
    sc_tables (db_schema d) !! name = Some t -> rows_of d' name = rows_of d name ->
    exists t', sc_tables (db_schema d') !! name = Some t' /\ ta_columns t ⊆ ta_columns t'
      /\ Forall2 (filled t t') (rows_of d name) (rows_of d' name)).
  { intros name t H1 H2 ->. exists t. split_and!; [done..|].
    destruct (kept_refl d) as [Hk _]. destruct (Hk _ _ H2) as (t' & Ht' & _ & HF). congruence. }
  destruct op as [name items| |table name c| |name table columns|]; try done;
    cbn [change_schema change_rows] in Hs, Hr.
  - destruct (_ && _) eqn:E in Hs; [|done]. injection Hs as Hs. injection Hr as Hr.
    apply andb_true_iff in E as [[En%bool_decide_eq_true _]%andb_true_iff _].
    assert (Hrows : forall k, k <> name -> rows_of d' k = rows_of d k).
    { intros k Hk. unfold rows_of. by rewrite <-Hr, lookup_insert_ne by done. }
    assert (Hnew : forall k, k <> name ->
      sc_tables (db_schema d') !! k = sc_tables (db_schema d) !! k).
    { intros k Hk. by rewrite <-Hs; cbn; rewrite lookup_insert_ne by done. }
    split.
    + intros k t Hk. assert (k <> name) by congruence. apply Hsame; auto. by rewrite Hnew.
    + intros k Hk [t Ht]. destruct (decide (k = name)) as [->|Hne].
      * unfold rows_of. by rewrite <-Hr, lookup_insert_eq.
      * rewrite Hnew in Ht by done. congruence.
  - destruct (sc_tables (db_schema d) !! table) as [t|] eqn:E; [|done].
    destruct (bool_decide _) eqn:En in Hs; [|done]. apply bool_decide_eq_true in En.
    destruct (_ && _) in Hr; [done|]. injection Hs as Hs. injection Hr as Hr. split.
    + intros k t' Hk. destruct (decide (k = table)) as [->|Hne].
      * assert (t' = t) as -> by congruence. exists (with_column name c t).
        rewrite <-Hs. cbn [sc_tables]. rewrite lookup_insert_eq. split_and!; [done|by apply insert_subseteq|].
        unfold rows_of at 2. rewrite <-Hr, lookup_insert_eq. cbn [default from_option id].
        rewrite (rows_known _ _ _ Hd E). apply Forall2_map_same.
        apply (Forall_weaken _ _ _ (do_rows _ Hd _ _ E)). intros r Hdom. split.
        { apply insert_subseteq, not_elem_of_dom. rewrite Hdom. by apply not_elem_of_dom. }
        intros c' co. cbn. rewrite !lookup_insert. case_decide; [by intros [= <-]|congruence].
      * apply Hsame; [by rewrite <-Hs; cbn; rewrite lookup_insert_ne|done|].
        unfold rows_of. by rewrite <-Hr, lookup_insert_ne by done.
    + intros k Hk [t' Ht']. rewrite <-Hs in Ht'. cbn in Ht'.
      rewrite lookup_insert_ne in Ht' by congruence. congruence.
  - destruct (sc_tables (db_schema d) !! table) as [t|]; [|done]. destruct (_ && _) in Hs; [|done].
    injection Hs as Hs. injection Hr as Hr. split.
    + intros k t' Hk. apply Hsame; [by rewrite <-Hs|done|]. unfold rows_of. by rewrite Hr.
    + intros k Hk [t' Ht']. rewrite <-Hs in Ht'. cbn in Ht'. congruence.
Qed.
(** Unconditional additions succeed on a database as they do on its schema, whatever its
    rows, and keep these. *)
Lemma execute_all_unconditional ops d s :
  forallb unconditional ops = true -> db_ok d -> change_all ops (db_schema d) = Some s ->
  exists d', execute_all ops d = Some d' /\ db_schema d' = s /\ db_ok d' /\ kept d d'.
Proof.
  revert d. induction ops as [|op ops IH]; intros d; cbn [forallb change_all execute_all].
  - intros _ Hd [= <-]. exists d. split_and!; [done..|apply kept_refl].
  - intros [Hu Hus]%andb_true_iff Hd. destruct (change_schema op (db_schema d)) as [s1|] eqn:E; [|done].
    destruct (execute_unconditional _ _ _ Hu E) as (d1 & H1 & <-). rewrite H1. intros Hall.
    pose proof (unconditional_adds _ Hu) as Ha.
    destruct (IH d1) as (d' & H2 & Hs & Hok & Hk); [done|by eapply execute_ok|done|].
    exists d'. split_and!; [done..|]. eapply kept_trans; [by eapply execute_kept|done].
Qed.
