(* ===== verification/Migrations.v ===== *)
(** * The tables of the program and the migrations that build them (store.py, migrations/)

    The metadata that the store declares, and the ten revisions of alembic: what each does
    when the database is upgraded over it and downgraded under it, and which one it follows. *)

From stdpp Require Import base list gmap strings numbers.
From S2P Require Import Prelude Schema.

Set Default Proof Using "Type".

(** ** The metadata of the store *)

Definition column (name : string) (type : sql_type) (attributes : list attribute) : table_column :=
  {| tc_name := u name; tc_type := type; tc_attributes := attributes |}.
Definition analyses : list table_column := [
  column "run_id" BigInteger [primary_key];
  column "delivery_id" (String_ 255) [not_null; unique];
  column "repository" (String_ 255) [not_null; indexed];
  column "workflow_name" (String_ 255) [not_null];
  column "head_sha" (String_ 64) [not_null];
  column "html_url" Text [not_null];
  column "run_attempt" Integer [not_null];
  column "head_branch" (String_ 255) [];
  column "pull_request_number" Integer [];
  column "run_completed_at" (DateTime true) [];
  column "installation_id" BigInteger [];
  column "trust_level" (String_ 32) [not_null];
  column "baseline_sha" (String_ 64) [];
  column "status" (String_ 32) [not_null; indexed];
  column "classification" JSON [];
  column "diagnosis" JSON [];
  column "related_files" JSON [not_null];
  column "workflow_path" Text [];
  column "execution_context" JSON [];
  column "model_name" (String_ 255) [];
  column "prompt_version" (String_ 255) [];
  column "error" Text [];
  column "analysis_started_at" (DateTime true) [];
  column "analysis_completed_at" (DateTime true) [];
  column "duration_seconds" Float [];
  column "queue_wait_seconds" Float [];
  column "total_latency_seconds" Float [];
  column "resolution_outcome" (String_ 32) [];
  column "resolution_run_id" BigInteger [];
  column "resolution_run_attempt" Integer [];
  column "resolution_html_url" Text [];
  column "resolution_completed_at" (DateTime true) [];
  column "recovery_seconds" Float [];
  column "attempt_token" (String_ 64) [];
  column "created_at" (DateTime true) [not_null; indexed];
  column "updated_at" (DateTime true) [not_null]].
Definition analysis_stage_events : list table_column := [
  column "id" Integer [primary_key; autoincrement];
  column "run_id" BigInteger 
    [references (u "analyses") (u "run_id") (u "CASCADE"); not_null; indexed];
  column "stage" (String_ 32) [not_null];
  column "status" (String_ 32) [not_null];
  column "error" Text [];
  column "occurred_at" (DateTime true) [not_null; indexed]].
Definition feedback : list table_column := [
  column "run_id" BigInteger
    [references (u "analyses") (u "run_id") (u "CASCADE"); primary_key];
  column "accuracy" (String_ 32) [];
  column "suggestion_resolved" Boolean [];
  column "comment" Text [];
  column "created_at" (DateTime true) [not_null];
  column "updated_at" (DateTime true) [not_null]].
Definition github_users : list table_column := [
  column "github_user_id" BigInteger [primary_key];
  column "login" (String_ 255) [not_null];
  column "avatar_url" Text [];
  column "created_at" (DateTime true) [not_null];
  column "updated_at" (DateTime true) [not_null]].
Definition auth_sessions : list table_column := [
  column "session_hash" (String_ 64) [primary_key];
  column "github_user_id" BigInteger
    [references (u "github_users") (u "github_user_id") (u "CASCADE"); not_null; indexed];
  column "encrypted_access_token" Text [not_null];
  column "expires_at" (DateTime true) [not_null; indexed];
  column "created_at" (DateTime true) [not_null]].
Definition user_installations : list table_column := [
  column "github_user_id" BigInteger
    [references (u "github_users") (u "github_user_id") (u "CASCADE"); primary_key];
  column "installation_id" BigInteger [primary_key];
  column "account_login" (String_ 255) [not_null];
  column "account_type" (String_ 64) [not_null];
  column "repository_selection" (String_ 64) [not_null];
  column "updated_at" (DateTime true) [not_null]].
Definition resolution_lookup : operation :=
  CreateIndex (u "ix_analyses_resolution_lookup") (u "analyses")
    (map u ["repository"; "workflow_name"; "head_branch"; "resolution_outcome"]%string).
(** What creates each table with its indexes; a table follows those it refers to. *)
Definition declared (name : string) (columns : list table_column) : str * list operation :=
  (u name, create_statement (u name) columns :: index_statements (u name) columns).
Definition metadata : list (str * list operation) := [
  (u "analyses", create_statement (u "analyses") analyses
                 :: index_statements (u "analyses") analyses ++ [resolution_lookup]);
  declared "analysis_stage_events" analysis_stage_events;
  declared "analysis_feedback" feedback;
  declared "github_users" github_users;
  declared "auth_sessions" auth_sessions;
  declared "user_installations" user_installations].
(** metadata.create_all(engine): tables that exist are left as they are. *)
Definition create_missing (d : database) (t : str * list operation) : option database :=
  match sc_tables (db_schema d) !! fst t with
  | Some _ => Some d
  | None => execute_all (snd t) d
  end.
Definition create_all (d : database) : option database :=
  fold_left (fun acc t => match acc with Some d => create_missing d t | None => None end)
    metadata (Some d).

(** ** The revisions *)

Record revision := {
  rev_id : str; down_revision : option str; upgrade : list operation;
  downgrade : list operation }.
#[export] Instance revision_eq_dec : EqDecision revision.
Proof. solve_decision. Defined.
Definition defaulted (type : sql_type) (nullable : bool) (server_default : str) : Schema.column := {|
  co_type := type; co_nullable := nullable; co_server_default := Some server_default;
  co_autoincrement := false |}.

Definition upgrade_0001 : list operation := [
  CreateTable (u "analyses") [
    Column (u "run_id") BigInteger false;
    Column (u "delivery_id") (String_ 255) false;
    Column (u "repository") (String_ 255) false;
    Column (u "workflow_name") (String_ 255) false;
    Column (u "head_sha") (String_ 64) false;
    Column (u "html_url") Text false;
    Column (u "installation_id") BigInteger true;
    Column (u "status") (String_ 32) false;
    Column (u "classification") JSON true;
    Column (u "diagnosis") JSON true;
    Column (u "related_files") JSON false;
    Column (u "workflow_path") Text true;
    Column (u "model_name") (String_ 255) true;
    Column (u "prompt_version") (String_ 255) true;
    Column (u "error") Text true;
    Column (u "created_at") (DateTime true) false;
    Column (u "updated_at") (DateTime true) false;
    PrimaryKeyConstraint [u "run_id"];
    UniqueConstraint [u "delivery_id"]];
  CreateIndex (u "ix_analyses_created_at") (u "analyses") [u "created_at"];
  CreateIndex (u "ix_analyses_repository") (u "analyses") [u "repository"];
  CreateIndex (u "ix_analyses_status") (u "analyses") [u "status"]].
Definition downgrade_0001 : list operation := [
  DropIndex (u "ix_analyses_status") (u "analyses");
  DropIndex (u "ix_analyses_repository") (u "analyses");
  DropIndex (u "ix_analyses_created_at") (u "analyses");
  DropTable (u "analyses")].
Definition revision_0001 : revision := {|
  rev_id := u "20260828_0001"; down_revision := None;
  upgrade := upgrade_0001; downgrade := downgrade_0001 |}.
Definition upgrade_0002 : list operation := [
  CreateTable (u "analysis_feedback") [
    Column (u "run_id") BigInteger false;
    Column (u "accuracy") (String_ 32) true;
    Column (u "suggestion_resolved") Boolean true;
    Column (u "comment") Text true;
    Column (u "created_at") (DateTime true) false;
    Column (u "updated_at") (DateTime true) false;
    ForeignKeyConstraint [u "run_id"] (u "analyses") [u "run_id"] (u "CASCADE");
    PrimaryKeyConstraint [u "run_id"]]].
Definition downgrade_0002 : list operation := [
  DropTable (u "analysis_feedback")].
Definition revision_0002 : revision := {|
  rev_id := u "20260828_0002"; down_revision := Some (u "20260828_0001");
  upgrade := upgrade_0002; downgrade := downgrade_0002 |}.
Definition upgrade_0003 : list operation := [
  CreateTable (u "github_users") [
    Column (u "github_user_id") BigInteger false;
    Column (u "login") (String_ 255) false;
    Column (u "avatar_url") Text true;
    Column (u "created_at") (DateTime true) false;
    Column (u "updated_at") (DateTime true) false;
    PrimaryKeyConstraint [u "github_user_id"]];
  CreateTable (u "auth_sessions") [
    Column (u "session_hash") (String_ 64) false;
    Column (u "github_user_id") BigInteger false;
    Column (u "encrypted_access_token") Text false;
    Column (u "expires_at") (DateTime true) false;
    Column (u "created_at") (DateTime true) false;
    ForeignKeyConstraint [u "github_user_id"] (u "github_users") [u "github_user_id"] (u "CASCADE");
    PrimaryKeyConstraint [u "session_hash"]];
  CreateIndex (u "ix_auth_sessions_expires_at") (u "auth_sessions") [u "expires_at"];
  CreateIndex (u "ix_auth_sessions_github_user_id") (u "auth_sessions") [u "github_user_id"];
  CreateTable (u "user_installations") [
    Column (u "github_user_id") BigInteger false;
    Column (u "installation_id") BigInteger false;
    Column (u "account_login") (String_ 255) false;
    Column (u "account_type") (String_ 64) false;
    Column (u "repository_selection") (String_ 64) false;
    Column (u "updated_at") (DateTime true) false;
    ForeignKeyConstraint [u "github_user_id"] (u "github_users") [u "github_user_id"] (u "CASCADE");
    PrimaryKeyConstraint [u "github_user_id"; u "installation_id"]]].
Definition downgrade_0003 : list operation := [
  DropTable (u "user_installations");
  DropIndex (u "ix_auth_sessions_github_user_id") (u "auth_sessions");
  DropIndex (u "ix_auth_sessions_expires_at") (u "auth_sessions");
  DropTable (u "auth_sessions");
  DropTable (u "github_users")].
Definition revision_0003 : revision := {|
  rev_id := u "20260828_0003"; down_revision := Some (u "20260828_0002");
  upgrade := upgrade_0003; downgrade := downgrade_0003 |}.
Definition upgrade_0004 : list operation := [
  AddColumn (u "analyses") (u "trust_level") (defaulted (String_ 32) false (u "trusted"))].
Definition downgrade_0004 : list operation := [
  DropColumn (u "analyses") (u "trust_level")].
Definition revision_0004 : revision := {|
  rev_id := u "20260828_0004"; down_revision := Some (u "20260828_0003");
  upgrade := upgrade_0004; downgrade := downgrade_0004 |}.
Definition upgrade_0005 : list operation := [
  AddColumn (u "analyses") (u "baseline_sha") (plain_column (String_ 64) true)].
Definition downgrade_0005 : list operation := [
  DropColumn (u "analyses") (u "baseline_sha")].
Definition revision_0005 : revision := {|
  rev_id := u "20260829_0005"; down_revision := Some (u "20260828_0004");
  upgrade := upgrade_0005; downgrade := downgrade_0005 |}.
Definition upgrade_0006 : list operation := [
  AddColumn (u "analyses") (u "analysis_started_at") (plain_column (DateTime true) true);
  AddColumn (u "analyses") (u "analysis_completed_at") (plain_column (DateTime true) true);
  AddColumn (u "analyses") (u "duration_seconds") (plain_column Float true);
  CreateTable (u "analysis_stage_events") [
    SerialColumn (u "id") Integer false;
    Column (u "run_id") BigInteger false;
    Column (u "stage") (String_ 32) false;
    Column (u "status") (String_ 32) false;
    Column (u "error") Text true;
    Column (u "occurred_at") (DateTime true) false;
    ForeignKeyConstraint [u "run_id"] (u "analyses") [u "run_id"] (u "CASCADE");
    PrimaryKeyConstraint [u "id"]];
  CreateIndex (u "ix_analysis_stage_events_occurred_at") (u "analysis_stage_events")
    [u "occurred_at"];
  CreateIndex (u "ix_analysis_stage_events_run_id") (u "analysis_stage_events") [u "run_id"]].
Definition downgrade_0006 : list operation := [
  DropIndex (u "ix_analysis_stage_events_run_id") (u "analysis_stage_events");
  DropIndex (u "ix_analysis_stage_events_occurred_at") (u "analysis_stage_events");
  DropTable (u "analysis_stage_events");
  DropColumn (u "analyses") (u "duration_seconds");
  DropColumn (u "analyses") (u "analysis_completed_at");
  DropColumn (u "analyses") (u "analysis_started_at")].
Definition revision_0006 : revision := {|
  rev_id := u "20260829_0006"; down_revision := Some (u "20260829_0005");
  upgrade := upgrade_0006; downgrade := downgrade_0006 |}.
Definition upgrade_0007 : list operation := [
  AddColumn (u "analyses") (u "attempt_token") (plain_column (String_ 64) true)].
Definition downgrade_0007 : list operation := [
  DropColumn (u "analyses") (u "attempt_token")].
Definition revision_0007 : revision := {|
  rev_id := u "20260829_0007"; down_revision := Some (u "20260829_0006");
  upgrade := upgrade_0007; downgrade := downgrade_0007 |}.
Definition upgrade_0008 : list operation := [
  AddColumn (u "analyses") (u "execution_context") (plain_column JSON true)].
Definition downgrade_0008 : list operation := [
  DropColumn (u "analyses") (u "execution_context")].
Definition revision_0008 : revision := {|
  rev_id := u "20260829_0008"; down_revision := Some (u "20260829_0007");
  upgrade := upgrade_0008; downgrade := downgrade_0008 |}.
Definition upgrade_0009 : list operation := [
  AddColumn (u "analyses") (u "queue_wait_seconds") (plain_column Float true);
  AddColumn (u "analyses") (u "total_latency_seconds") (plain_column Float true)].
Definition downgrade_0009 : list operation := [
  DropColumn (u "analyses") (u "total_latency_seconds");
  DropColumn (u "analyses") (u "queue_wait_seconds")].
Definition revision_0009 : revision := {|
  rev_id := u "20260829_0009"; down_revision := Some (u "20260829_0008");
  upgrade := upgrade_0009; downgrade := downgrade_0009 |}.
Definition upgrade_0010 : list operation := [
  AddColumn (u "analyses") (u "run_attempt") (defaulted Integer false (u "1"));
  AddColumn (u "analyses") (u "head_branch") (plain_column (String_ 255) true);
  AddColumn (u "analyses") (u "pull_request_number") (plain_column Integer true);
  AddColumn (u "analyses") (u "run_completed_at") (plain_column (DateTime true) true);
  AddColumn (u "analyses") (u "resolution_outcome") (plain_column (String_ 32) true);
  AddColumn (u "analyses") (u "resolution_run_id") (plain_column BigInteger true);
  AddColumn (u "analyses") (u "resolution_run_attempt") (plain_column Integer true);
  AddColumn (u "analyses") (u "resolution_html_url") (plain_column Text true);
  AddColumn (u "analyses") (u "resolution_completed_at") (plain_column (DateTime true) true);
  AddColumn (u "analyses") (u "recovery_seconds") (plain_column Float true);
  CreateIndex (u "ix_analyses_resolution_lookup") (u "analyses")
    [u "repository"; u "workflow_name"; u "head_branch"; u "resolution_outcome"]].
Definition downgrade_0010 : list operation := [
  DropIndex (u "ix_analyses_resolution_lookup") (u "analyses");
  DropColumn (u "analyses") (u "recovery_seconds");
  DropColumn (u "analyses") (u "resolution_completed_at");
  DropColumn (u "analyses") (u "resolution_html_url");
  DropColumn (u "analyses") (u "resolution_run_attempt");
  DropColumn (u "analyses") (u "resolution_run_id");
  DropColumn (u "analyses") (u "resolution_outcome");
  DropColumn (u "analyses") (u "run_completed_at");
  DropColumn (u "analyses") (u "pull_request_number");
  DropColumn (u "analyses") (u "head_branch");
  DropColumn (u "analyses") (u "run_attempt")].
Definition revision_0010 : revision := {|
  rev_id := u "20260918_0010"; down_revision := Some (u "20260829_0009");
  upgrade := upgrade_0010; downgrade := downgrade_0010 |}.
Definition versions : list revision := [
  revision_0001; revision_0002; revision_0003; revision_0004; revision_0005; revision_0006;
  revision_0007; revision_0008; revision_0009; revision_0010].
(** The revisions that no other follows *)
Definition heads (rs : list revision) : list str :=
  map rev_id (List.filter (fun r => negb (existsb (fun r' =>
    match down_revision r' with Some id => str_eqb id (rev_id r) | None => false end) rs)) rs).
Definition revision_named (rs : list revision) (id : str) : option revision :=
  List.find (fun r => str_eqb (rev_id r) id) rs.
(** The revisions that lead to [id], the first one first *)
Fixpoint lineage (fuel : nat) (rs : list revision) (id : str) : list revision :=
  match fuel, revision_named rs id with
  | S fuel, Some r =>
    match down_revision r with Some id => lineage fuel rs id | None => [] end ++ [r]
  | _, _ => []
  end.
Definition run_upgrades (rs : list revision) (d : database) : option database :=
  execute_all (flat_map upgrade rs) d.
Definition run_downgrades (rs : list revision) (d : database) : option database :=
  execute_all (flat_map downgrade (rev rs)) d.
