(* ===== verification/MigrationsFacts.v ===== *)
(** * Facts about the migrations

    They form one line that builds the tables the store declares, up to two server defaults;
    every downgrade takes back its upgrade, rows included; upgrading never fails on the rows
    that are there and keeps them. *)

From stdpp Require Import base list gmap strings numbers.
From S2P Require Import Prelude Schema SchemaFacts Migrations.

Set Default Proof Using "Type".

(** ** The schema they build *)

Definition HEAD : str := u "20260918_0010".
(** A schema without what the server fills in *)
Definition forget_column (c : Schema.column) : Schema.column := {|
  co_type := co_type c; co_nullable := co_nullable c; co_server_default := None;
  co_autoincrement := co_autoincrement c |}.
Definition forget_table (t : table) : table := {|
  ta_columns := forget_column <$> ta_columns t; ta_primary_key := ta_primary_key t;
  ta_unique := ta_unique t; ta_foreign := ta_foreign t |}.
Definition forget_defaults (s : schema) : schema := {|
  sc_tables := forget_table <$> sc_tables s; sc_indexes := sc_indexes s |}.
(** The server default of a column of a table *)
Definition default_of (s : schema) (table column : str) : option str :=
  t ← sc_tables s !! table; c ← ta_columns t !! column; co_server_default c.
Definition defaults_of (s : schema) : list (str * str * str) :=
  flat_map (fun nt => omap (fun nc => match co_server_default (snd nc) with
                                      | Some v => Some (fst nt, fst nc, v) | None => None end)
                        (map_to_list (ta_columns (snd nt))))
    (map_to_list (sc_tables s)).

Lemma defaults_of_spec s table column v :
  (table, column, v) ∈ defaults_of s <-> default_of s table column = Some v.
Proof.
  unfold defaults_of, default_of. rewrite list_elem_of_In, in_flat_map. split.
  - intros ([name t] & Ht & Hc). apply list_elem_of_In, list_elem_of_omap in Hc as ([cn c] & Hc & E).
    cbn in *. destruct (co_server_default c) as [v'|] eqn:Ev; [|done]. injection E as -> -> ->.
    apply list_elem_of_In, elem_of_map_to_list in Ht. apply elem_of_map_to_list in Hc.
    by rewrite Ht; cbn; rewrite Hc.
  - destruct (sc_tables s !! table) as [t|] eqn:Et; [|done]. cbn.
    destruct (ta_columns t !! column) as [c|] eqn:Ec; [|done]. cbn. intros Ev.
    exists (table, t). rewrite <-!list_elem_of_In. split; [by apply elem_of_map_to_list|].
    apply list_elem_of_omap. exists (column, c). cbn. rewrite Ev. split; [|done].
    by apply elem_of_map_to_list.
Qed.

Definition is_some {A} (o : option A) : bool := match o with Some _ => true | None => false end.
(** What the revisions make of an empty schema *)
Definition schema_at (rs : list revision) : schema :=
  default empty_schema (change_all (flat_map upgrade rs) empty_schema).
Lemma change_all_app ops ops' s :
  change_all (ops ++ ops') s = match change_all ops s with Some s => change_all ops' s | None => None end.
Proof.
  revert s. induction ops as [|op ops IH]; intros s; [done|]. cbn. destruct (change_schema op s); auto.
Qed.
Lemma upgrades_unconditional : forallb unconditional (flat_map upgrade versions) = true.
Proof. vm_compute. reflexivity. Qed.
Lemma upgrades_build : change_all (flat_map upgrade versions) empty_schema = Some (schema_at versions).
Proof.
  assert (H : is_some (change_all (flat_map upgrade versions) empty_schema) = true)
    by (vm_compute; reflexivity).
  unfold schema_at. destruct (change_all _ _) as [s|]; [reflexivity|discriminate H].
Qed.
(** Of the part of the versions that is left, from a database at the part that is done *)
Lemma upgrades_rest before after :
  before ++ after = versions -> forallb unconditional (flat_map upgrade after) = true
  /\ change_all (flat_map upgrade after) (schema_at before) = Some (schema_at versions).
Proof.
  intros Hv. pose proof upgrades_unconditional as Hu. pose proof upgrades_build as Hb.
  rewrite <-Hv in Hu, Hb. rewrite flat_map_app in Hu, Hb. rewrite forallb_app in Hu.
  apply andb_true_iff in Hu as [_ Hu]. split; [done|]. rewrite change_all_app, Hv in Hb.
  unfold schema_at at 1.
  destruct (change_all (flat_map upgrade before) empty_schema); [exact Hb|discriminate Hb].
Qed.

(** C31: The migrations build the database the program declares.  They form one line: the only
    head is 20260918_0010 and its lineage is all the revisions; run on an empty database they
    succeed, and the tables, columns, types, keys, references and indexes they make are those
    metadata.create_all makes of the declarations, but for two server defaults: trust_level
    is trusted and run_attempt is 1 in rows that do not say otherwise. *)
Theorem migrations_build_metadata :
  heads versions = [HEAD] /\ lineage (length versions) versions HEAD = versions
  /\ exists migrated created, run_upgrades versions empty_database = Some migrated
    /\ create_all empty_database = Some created
    /\ db_schema migrated = schema_at versions
    /\ forget_defaults (db_schema migrated) = db_schema created
    /\ (forall table column v, default_of (db_schema migrated) table column = Some v <->
          (table, column, v) ∈ [(u "analyses", u "trust_level", u "trusted");
                                (u "analyses", u "run_attempt", u "1")]).
Proof.
  split; [vm_compute; reflexivity|]. split; [reflexivity|].
  destruct (execute_all_unconditional _ _ _ upgrades_unconditional empty_ok upgrades_build)
    as (d & Hd & Hs & _).
  destruct (create_all empty_database) as [d0|] eqn:E.
  - exists d, d0. split_and!; [done|done|done|..].
    + rewrite Hs. assert (Hc : option_map db_schema (create_all empty_database)
        = Some (forget_defaults (schema_at versions)))
        by (apply (bool_decide_eq_true_1 _); vm_compute; reflexivity).
      rewrite E in Hc. by injection Hc.
    + intros t c v. rewrite <-defaults_of_spec, Hs.
      assert (Hp : bool_decide (defaults_of (schema_at versions) ≡ₚ
        [(u "analyses", u "trust_level", u "trusted"); (u "analyses", u "run_attempt", u "1")]) = true)
        by (vm_compute; reflexivity).
      apply bool_decide_eq_true in Hp. by rewrite Hp.
  - assert (Hn : is_some (create_all empty_database) = true) by (vm_compute; reflexivity).
    rewrite E in Hn. discriminate Hn.
Qed.

(** ** Up and down *)

Lemma downgrade_inverts r : r ∈ versions -> inverses (upgrade r) = Some (downgrade r).
Proof.
  intros Hr. rewrite list_elem_of_In in Hr.
  assert (Hall : Forall (fun r => inverses (upgrade r) = Some (downgrade r)) versions)
    by (repeat constructor).
  rewrite Forall_forall in Hall. by apply Hall.
Qed.
Lemma inverses_app ops ops' l l' :
  inverses ops = Some l -> inverses ops' = Some l' -> inverses (ops ++ ops') = Some (l' ++ l).
Proof.
  revert l. induction ops as [|op ops IH]; intros l; cbn [app inverses].
  - intros [= <-] ->. by rewrite app_nil_r.
  - destruct (inverses ops) as [l0|]; [|done]. destruct (inverse op) as [op'|]; [|done].
    intros [= <-] Hl'. by rewrite (IH l0 eq_refl Hl'), app_assoc.
Qed.
Lemma downgrades_invert rs : Forall (fun r => r ∈ versions) rs ->
  inverses (flat_map upgrade rs) = Some (flat_map downgrade (rev rs)).
Proof.
  induction 1 as [|r rs Hr _ IH]; [done|]. cbn [flat_map rev]. rewrite flat_map_app. cbn [flat_map].
  rewrite app_nil_r. apply inverses_app; [by apply downgrade_inverts|done].
Qed.

(** C32: A downgrade takes back its upgrade.  Whatever a well-formed database holds, when some
    of the revisions are run on it, in any order in which they succeed, and then taken back
    in the opposite order, it is what it was, rows included. *)
Theorem migrations_roundtrip (rs : list revision) (d d' : database)
    (Hrs : Forall (fun r => r ∈ versions) rs) (Hd : db_ok d)
    (Hup : run_upgrades rs d = Some d') :
  run_downgrades rs d' = Some d /\ db_ok d'.
Proof.
  pose proof (downgrades_invert rs Hrs) as Hi. split.
  - exact (execute_all_inverses _ _ _ _ Hd Hi Hup).
  - exact (execute_all_ok _ _ _ (inverses_adds _ _ Hi) Hd Hup).
Qed.

(** The rows of an analyses table before the column was there *)
Definition analyses_table : str := u "analyses".
Lemma new_cell d d' s c v rows :
  kept d d' -> db_schema d' = s ->
  (exists t, sc_tables (db_schema d) !! analyses_table = Some t /\ ta_columns t !! c = None) ->
  (co ← (t ← sc_tables s !! analyses_table; ta_columns t !! c);
   Some (default_cell co)) = Some v ->
  rows = rows_of d' analyses_table -> Forall (fun r : row => r !! c = Some v) rows.
Proof.
  intros [Hk _] <- (t & Ht & Hc) Hco ->. destruct (Hk _ _ Ht) as (t' & Ht' & _ & Hf).
  rewrite Ht' in Hco. cbn in Hco.
  destruct (ta_columns t' !! c) as [co|] eqn:E; [|done]. injection Hco as <-.
  revert Hf. generalize (rows_of d analyses_table).
  induction (rows_of d' analyses_table) as [|r l IH]; intros l0; [constructor|].
  intros (r0 & l1 & [_ Hr] & Hl & ->)%Forall2_cons_inv_r. constructor; [by apply Hr|by eapply IH].
Qed.

(** C33: Upgrading keeps the rows.  A well-formed database at any version, whatever its rows,
    is upgraded to the head without an error; every row stays, in its place, with the values
    it had, and in the columns that are new to it the default of the server or null; in
    particular analyses from before the column are trusted and of the first attempt. *)
Theorem upgrade_keeps_rows (before after : list revision) (d : database)
    (Hv : before ++ after = versions) (Hd : db_ok d) (Hs : db_schema d = schema_at before) :
  exists d', run_upgrades after d = Some d' /\ db_schema d' = schema_at versions /\ db_ok d'
    /\ kept d d'
    /\ forall t, sc_tables (db_schema d) !! analyses_table = Some t ->
       (ta_columns t !! u "trust_level" = None ->
        Forall (fun r : row => r !! u "trust_level" = Some (CText (u "trusted")))
          (rows_of d' analyses_table))
       /\ (ta_columns t !! u "run_attempt" = None ->
           Forall (fun r : row => r !! u "run_attempt" = Some (CInteger 1))
             (rows_of d' analyses_table)).
Proof.
  destruct (upgrades_rest before after Hv) as [Hu Hc]. rewrite <-Hs in Hc.
  destruct (execute_all_unconditional _ _ _ Hu Hd Hc) as (d' & H1 & H2 & H3 & H4).
  exists d'. do 4 (split; [assumption|]). intros t Ht.
  split; intros Hn; refine (new_cell d d' _ _ _ _ H4 H2 (ex_intro _ t (conj Ht Hn)) _ eq_refl);
    apply (bool_decide_eq_true_1 _); vm_compute; reflexivity.
Qed.

(** ** At a concrete database *)

(** One analysis of the first version *)
Definition first_row : row := list_to_map (combine
  (map u ["run_id"; "delivery_id"; "repository"; "workflow_name"; "head_sha"; "html_url";
          "installation_id"; "status"; "classification"; "diagnosis"; "related_files";
          "workflow_path"; "model_name"; "prompt_version"; "error"; "created_at";
          "updated_at"]%string)
  [CInteger 7; CText (u "d-7"); CText (u "o/r"); CText (u "CI"); CText (u "abc"); CText (u "h");
   Null; CText (u "completed"); Null; Null; CDocument (u "[]"); Null; Null; Null; Null;
   CMoment 0; CMoment 0]).
Definition first_database : database := {|
  db_schema := schema_at [revision_0001]; db_rows := {[ analyses_table := [first_row] ]} |}.
(** db_ok, decided *)
Definition schema_okb (s : schema) : bool :=
  bool_decide (map_Forall (fun _ t => constraints_ok (sc_tables s) t = true) (sc_tables s))
  && bool_decide (map_Forall (fun _ ix => match sc_tables s !! ix_table ix with
                              | Some t => has_columns t (ix_columns ix) | None => false end = true)
                    (sc_indexes s)).
Definition db_okb (d : database) : bool :=
  schema_okb (db_schema d)
  && bool_decide (dom (sc_tables (db_schema d)) = dom (db_rows d))
  && bool_decide (map_Forall (fun name t => Forall (fun r : row => dom r = dom (ta_columns t)) (rows_of d name))
                    (sc_tables (db_schema d))).
Lemma db_okb_spec d : db_okb d = true -> db_ok d.
Proof.
  unfold db_okb, schema_okb. rewrite !andb_true_iff, !bool_decide_eq_true.
  intros [[[H1 H2] H3] H4]. split; [split|..].
  - exact H1.
  - intros name ix Hix. specialize (H2 _ _ Hix). cbn in H2.
    destruct (sc_tables _ !! ix_table ix) as [t|]; [eauto|done].
  - intros name. by rewrite <-!not_elem_of_dom, H3.
  - exact H4.
Qed.
Lemma first_database_ok : db_ok first_database.
Proof. apply db_okb_spec. vm_compute. reflexivity. Qed.

Lemma migrations_roundtrip_witness :
  exists d', run_upgrades [revision_0002; revision_0003; revision_0004] first_database = Some d'
    /\ run_downgrades [revision_0002; revision_0003; revision_0004] d' = Some first_database.
Proof.
  destruct (run_upgrades [revision_0002; revision_0003; revision_0004] first_database) as [d'|] eqn:E.
  - exists d'. split; [reflexivity|].
    refine (proj1 (migrations_roundtrip _ _ _ _ first_database_ok E)).
    apply (bool_decide_eq_true_1 _). vm_compute. reflexivity.
  - assert (H : is_some (run_upgrades [revision_0002; revision_0003; revision_0004] first_database) = true)
      by (vm_compute; reflexivity).
    rewrite E in H. discriminate H.
Defined.
Lemma upgrade_keeps_rows_witness :
  exists d', run_upgrades (drop 1 versions) first_database = Some d'
    /\ Forall (fun r : row => r !! u "trust_level" = Some (CText (u "trusted"))) (rows_of d' analyses_table).
Proof.
  destruct (upgrade_keeps_rows (take 1 versions) (drop 1 versions) first_database
              (take_drop 1 versions) first_database_ok eq_refl) as (d' & H1 & _ & _ & _ & H2).
  exists d'. split; [exact H1|].
  destruct (sc_tables (db_schema first_database) !! analyses_table) as [t|] eqn:E.
  - refine (proj1 (H2 t eq_refl) _).
    assert (Hn : (match sc_tables (db_schema first_database) !! analyses_table with
                  | Some t => bool_decide (ta_columns t !! u "trust_level" = None)
                  | None => false end) = true) by (vm_compute; reflexivity).
    rewrite E in Hn. exact (bool_decide_eq_true_1 _ Hn).
  - assert (Hn : is_some (sc_tables (db_schema first_database) !! analyses_table) = true)
      by (vm_compute; reflexivity).
    rewrite E in Hn. discriminate Hn.
Defined.
