(* ===== verification/Governance.v ===== *)
(** * Audit of the repository's settings (ops/governance/audit_repository.py)

    Five answers of GitHub are compared with the documented policy, setting by setting; the
    report lists every comparison, and its exit status says whether the settings can be
    audited and whether they hold. *)

From Stdlib Require Import QArith.
From stdpp Require Import base list strings numbers sorting.
From S2P Require Import Prelude Double Calendar Regex Relevance Json Loads Evidence EvidenceFacts.

Set Default Proof Using "Type".

Definition API_VERSION : str := u "2022-11-28".
Definition REPOSITORY_NAME : pattern := re_compile "^[A-Za-z0-9_.-]+/[A-Za-z0-9_.-]+$".
Definition DESCRIPTION : str := u "Evidence-first diagnostics for failed GitHub Actions runs".
Definition TOPICS : list str := map u [
  "ci-cd"; "developer-tools"; "devops"; "fastapi"; "github-actions"; "observability"; "python";
  "react"; "typescript"]%string.
Definition GITHUB_ACTIONS_APP_ID : Z := 15368.
Definition REQUIRED_CHECKS : list str := map u [
  "backend"; "Python 3.14 compatibility"; "Python 3.15 compatibility"; "dashboard";
  "Build container (api)"; "Build container (dashboard)"; "Analyze (python)";
  "Analyze (javascript-typescript)"; "Repository secret scan"; "Dependency review"]%string.

(** ** Python's comparisons of decoded values *)

(** The value of a number; True is 1. *)
Definition number_of (v : json) : option Q :=
  match v with
  | JBool b => Some (if b then 1 else 0)%Q
  | JInt z => Some (inject_Z z)
  | JFloat q => Some q
  | _ => None
  end.
(** a == b.  NaN is not even equal to itself. *)
Fixpoint py_eq (a b : json) : bool :=
  match a, b with
  | JNull, JNull => true
  | JStr s, JStr t => str_eqb s t
  | JNonFinite (Infinite n), JNonFinite (Infinite m) => Bool.eqb n m
  | JArr l, JArr k =>
    (fix eq_list (l k : list json) : bool :=
       match l, k with
       | [], [] => true
       | x :: l, y :: k => py_eq x y && eq_list l k
       | _, _ => false
       end) l k
  | JObj d, JObj e =>
    (length d =? length e)%nat
    && (fix all_in (d : list (str * json)) : bool :=
          match d with
          | [] => true
          | (key, x) :: d =>
            match dict_get str_eqb e key with Some y => py_eq x y | None => false end && all_in d
          end) d
  | _, _ =>
    match number_of a, number_of b with Some p, Some q => Qeq_bool p q | _, _ => false end
  end.
(** a < b of two values; [None]: a TypeError *)
Fixpoint py_lt (a b : json) : option bool :=
  match a, b with
  | JStr s, JStr t => Some (str_ltb s t)
  | JArr l, JArr k =>
    (fix lt_list (l k : list json) : option bool :=
       match l, k with
       | x :: l, y :: k => if py_eq x y then lt_list l k else py_lt x y
       | [], _ :: _ => Some true
       | _, [] => Some false
       end) l k
  | _, _ =>
    match number_of a, number_of b with
    | Some p, Some q => Some (negb (Qle_bool q p))
    | Some _, None => match b with
                      | JNonFinite NaN => Some false
                      | JNonFinite (Infinite negative) => Some (negb negative)
                      | _ => None end
    | None, Some _ => match a with
                      | JNonFinite NaN => Some false
                      | JNonFinite (Infinite negative) => Some negative
                      | _ => None end
    | None, None => match a, b with
                    | JNonFinite (Infinite true), JNonFinite (Infinite false) => Some true
                    | JNonFinite _, JNonFinite _ => Some false
                    | _, _ => None end
    end
  end.
(** sorted(l), stable; which of two incomparable elements is named first is not modelled. *)
Fixpoint insert_json (x : json) (l : list json) : option (list json) :=
  match l with
  | [] => Some [x]
  | y :: l' =>
    match py_lt y x with
    | Some true => option_map (cons y) (insert_json x l')
    | Some false => Some (x :: l)
    | None => None
    end
  end.
Definition sorted_json (l : list json) : outcome json :=
  match foldr (fun x acc => match acc with Some l => insert_json x l | None => None end)
          (Some []) l with
  | Some l => Ok (JArr l)
  | None => Raise (TypeError (u "'<' not supported between instances"))
  end.

(** ** The comparison with the policy *)

Record Check := { ck_name : str; ck_passed : bool; ck_expected : json; ck_actual : json }.
Definition check (name : str) (actual expected : json) : Check := {|
  ck_name := name; ck_passed := py_eq actual expected; ck_expected := expected;
  ck_actual := actual |}.
(** payload.get(key) *)
Definition get (payload : mapping) (key : string) : json :=
  default JNull (dict_get str_eqb payload (u key)).
Fixpoint _nested (value : json) (path : list str) : json :=
  match path with
  | [] => value
  | key :: path =>
    match value with
    | JObj d => match dict_get str_eqb d key with Some v => _nested v path | None => JNull end
    | _ => JNull
    end
  end.
(** value if isinstance(value, dict) else {} *)
Definition or_empty (value : json) : mapping := match value with JObj d => d | _ => [] end.

Definition actual_topics (repository : mapping) : outcome json :=
  match get repository "topics" with
  | JArr l => sorted_json l
  | topics => Ok topics
  end.
(** The required checks of the protection: the last one of a context counts. *)
Definition add_check (checks : mapping) (item : json) : mapping :=
  match item with
  | JObj d =>
    match dict_get str_eqb d (u "context") with
    | Some (JStr context) => dict_set str_eqb checks context (get d "app_id")
    | _ => checks
    end
  | _ => checks
  end.
Definition actual_checks (status_checks : mapping) : mapping :=
  match get status_checks "checks" with
  | JArr items => fold_left add_check items []
  | _ => []
  end.
Definition expected_checks : mapping :=
  map (fun context => (context, JInt GITHUB_ACTIONS_APP_ID)) (py_sorted str_leb REQUIRED_CHECKS).

Definition repository_checks (repository : mapping) (topics : json) : list Check := [
  check (u "repository.visibility") (get repository "visibility") (JStr (u "public"));
  check (u "repository.default_branch") (get repository "default_branch") (JStr (u "main"));
  check (u "repository.description") (get repository "description") (JStr DESCRIPTION);
  check (u "repository.homepage") (get repository "homepage") JNull;
  check (u "repository.topics") topics (JArr (map JStr (py_sorted str_leb TOPICS)));
  check (u "merge.squash_enabled") (get repository "allow_squash_merge") (JBool true);
  check (u "merge.rebase_enabled") (get repository "allow_rebase_merge") (JBool true);
  check (u "merge.commit_disabled") (get repository "allow_merge_commit") (JBool false);
  check (u "merge.delete_branch") (get repository "delete_branch_on_merge") (JBool true)].
Definition security_checks (repository private_reporting : mapping) : list Check :=
  let security := or_empty (get repository "security_and_analysis") in
  map (fun feature => check (u "security." ++ u feature)
                        (_nested (JObj security) [u feature; u "status"]) (JStr (u "enabled")))
    ["secret_scanning"; "secret_scanning_push_protection"; "dependabot_security_updates"]%string
  ++ [check (u "security.private_vulnerability_reporting") (get private_reporting "enabled")
        (JBool true)].
Definition setting_check (protection : mapping) (expected : bool) (setting : string) : Check :=
  check (u "protection." ++ u setting) (_nested (JObj protection) [u setting; u "enabled"])
    (JBool expected).
Definition protection_checks (protection : mapping) : list Check :=
  let status_checks := or_empty (get protection "required_status_checks") in
  let reviews := or_empty (get protection "required_pull_request_reviews") in
  [check (u "protection.strict") (get status_checks "strict") (JBool true);
   check (u "protection.required_checks") (JObj (actual_checks status_checks))
     (JObj expected_checks);
   check (u "protection.pull_request_required") (JBool (jtruthy (JObj reviews))) (JBool true);
   check (u "protection.required_approvals") (get reviews "required_approving_review_count")
     (JInt 0)]
  ++ map (setting_check protection true)
       ["enforce_admins"; "required_linear_history"; "required_conversation_resolution"]%string
  ++ map (setting_check protection false) ["allow_force_pushes"; "allow_deletions"]%string.

Definition check_json (c : Check) : json := JObj [
  (u "name", JStr (ck_name c)); (u "passed", JBool (ck_passed c));
  (u "expected", ck_expected c); (u "actual", ck_actual c)].
Record Snapshot := {
  sn_repository : mapping; sn_protection : mapping; sn_private_reporting : mapping;
  sn_milestone : mapping; sn_release : mapping }.
Definition all_checks (s : Snapshot) : outcome (list Check) :=
  let! topics := actual_topics (sn_repository s) in
  Ok (repository_checks (sn_repository s) topics
      ++ security_checks (sn_repository s) (sn_private_reporting s)
      ++ protection_checks (sn_protection s)).
(** The report; [now] is the clock. *)
Record GovernanceReport := {
  gr_repository : json; gr_checked_at : str; gr_passed : bool; gr_checks : list Check;
  gr_observations : list (str * json) }.
Definition audit_snapshot (now : Z) (s : Snapshot) : outcome GovernanceReport :=
  let! checks := all_checks s in
  Ok {| gr_repository := get (sn_repository s) "full_name"; gr_checked_at := isoformat now;
        gr_passed := forallb ck_passed checks; gr_checks := checks;
        gr_observations := [
          (u "open_issues", get (sn_repository s) "open_issues_count");
          (u "milestone", get (sn_milestone s) "title");
          (u "milestone_open", get (sn_milestone s) "open_issues");
          (u "milestone_closed", get (sn_milestone s) "closed_issues");
          (u "latest_release", get (sn_release s) "tag_name");
          (u "latest_release_immutable", get (sn_release s) "immutable")] |}.
Definition report_json (r : GovernanceReport) : json := JObj [
  (u "schema_version", JInt 1); (u "repository", gr_repository r);
  (u "checked_at", JStr (gr_checked_at r)); (u "passed", JBool (gr_passed r));
  (u "checks", JArr (map check_json (gr_checks r)));
  (u "observations", JObj (gr_observations r))].

(** ** The client *)

(** AuditError, a RuntimeError *)
Definition AuditError {A} (parts : list str) : outcome A := Raise (RuntimeError (concat parts)).
Record Request := { rq_url : str; rq_headers : list (str * str) }.
(** urlopen: the body of a response, or an OSError, to which HTTPError belongs, as text *)
Inductive answer := Body (bytes : list N) | OSError (text : str).

Section client.
Context {W : Type} (urlopen : Request -> W -> answer * W).
(** repr of a string; the text of a JSONDecodeError *)
Context (repr : str -> str) (decode_error : list N -> str).
Context {U : UnicodeDb}.

Record GitHubClient := { gc_repository : str; gc_token : str }.
Definition new_client (repository token : str) : outcome GitHubClient :=
  if negb (re_fullmatch REPOSITORY_NAME repository) then
    AuditError [u "invalid repository name: "; repr repository]
  else if str_eqb token [] then AuditError [u "GITHUB_TOKEN or GH_TOKEN is required"]
  else Ok {| gc_repository := repository; gc_token := token |}.
Definition request (c : GitHubClient) (path : str) : Request := {|
  rq_url := u "https://api.github.com" ++ path;
  rq_headers := [
    (u "Accept", u "application/vnd.github+json");
    (u "Authorization", u "Bearer " ++ gc_token c);
    (u "User-Agent", u "PipeLens-Governance-Audit/1");
    (u "X-GitHub-Api-Version", API_VERSION)] |}.
(** json.load reads bytes: text that is no UTF-8, and a number that is too long, are errors
    that are not caught. *)
Definition read_payload (path : str) (a : answer) : outcome mapping :=
  match a with
  | OSError text => AuditError [u "GitHub request failed: "; path; u ": "; text]
  | Body bytes =>
    match json_loads bytes with
    | inl (JObj d) => Ok d
    | inl _ => AuditError [u "GitHub returned a non-object response: "; path]
    | inr NotJson => AuditError [u "GitHub request failed: "; path; u ": "; decode_error bytes]
    | inr failure => Raise (loads_error failure)
    end
  end.
Definition get_path (c : GitHubClient) (path : str) : M W mapping := fun w =>
  let (a, w) := urlopen (request c path) w in (read_payload path a, w).
Definition base (c : GitHubClient) : str := u "/repos/" ++ gc_repository c.
Definition snapshot (c : GitHubClient) (milestone_number : Z) : M W Snapshot :=
  (do! repository := get_path c (base c) in
   do! protection := get_path c (base c ++ u "/branches/main/protection") in
   do! private_reporting := get_path c (base c ++ u "/private-vulnerability-reporting") in
   do! milestone := get_path c (base c ++ u "/milestones/" ++ str_of_Z milestone_number) in
   do! release := get_path c (base c ++ u "/releases/latest") in
   Mret {| sn_repository := repository; sn_protection := protection;
           sn_private_reporting := private_reporting; sn_milestone := milestone;
           sn_release := release |})%prog.

(** The script: a report and an exit status, or the message of an AuditError with status 2;
    other exceptions end it with a traceback. *)
Inductive ending :=
| Reported (r : GovernanceReport) (drift : list str) (status : Z)
| NotAudited (message : str)
| Traceback (e : exn).
Definition token_of (github_token gh_token : option str) : str :=
  match github_token, gh_token with
  | Some ((_ :: _) as t), _ => t
  | _, Some t => t
  | _, None => []
  end.
Definition main (github_token gh_token : option str) (repository : str) (milestone now : Z)
    (w : W) : ending * W :=
  let (result, w) :=
    (do! c := Mlift (new_client repository (token_of github_token gh_token)) in
     do! s := snapshot c milestone in
     Mlift (audit_snapshot now s))%prog w in
  (match result with
   | Ok r =>
     let failed := map ck_name (List.filter (fun c => negb (ck_passed c)) (gr_checks r)) in
     Reported r failed (if gr_passed r then 0 else 1)
   | Raise (RuntimeError message) => NotAudited message
   | Raise e => Traceback e
   end, w).
End client.

(** ** What a passing audit of the settings means

    The comparison of the audit is against sorted lists and dicts; the policy is stated here
    on what GitHub answered: the topics in any order, the required checks by name. *)

(** ** Comparing values *)

Lemma py_eq_str v s : py_eq v (JStr s) = true <-> v = JStr s.
Proof.
  destruct v as [| [] | z | q | [|n] | t | l | d]; cbn; try (split; done).
  split; [intros ->%str_eqb_eq; done|intros [= ->]; apply str_eqb_refl].
Qed.
Lemma py_eq_null v : py_eq v JNull = true <-> v = JNull.
Proof. destruct v as [| [] | | | [] | | | ]; cbn; split; done. Qed.
Lemma py_eq_number v w q : number_of w = Some q ->
  py_eq v w = true <-> exists p, number_of v = Some p /\ (p == q)%Q.
Proof.
  intros Hq. destruct w as [| b | z | r | f | t | l | d]; try done; cbn in Hq; injection Hq as <-;
    destruct v as [| b' | z' | r' | [|n'] | t' | l' | d']; cbn;
    try (split; [done|by intros (? & ? & _)]).
  all: rewrite Qeq_bool_iff; split; [intros Hv; eexists; by split|by intros (? & [= <-] & ?)].
Qed.
Lemma py_eq_strs l ss : py_eq (JArr l) (JArr (map JStr ss)) = true <-> l = map JStr ss.
Proof.
  revert ss. induction l as [|x l IH]; intros [|s ss]; try (split; done).
  specialize (IH ss). change (py_eq x (JStr s) && py_eq (JArr l) (JArr (map JStr ss)) = true
                              <-> x :: l = map JStr (s :: ss)).
  rewrite andb_true_iff, py_eq_str, IH. cbn. split; [by intros [-> ->]|by intros [= -> ->]].
Qed.

(** ** Sorting *)

Lemma str_leb_antisym a b : str_leb a b = true -> str_leb b a = true -> a = b.
Proof.
  revert b. induction a as [|x a IH]; intros [|y b]; cbn; try done.
  rewrite !orb_true_iff, !andb_true_iff, !N.ltb_lt, !N.eqb_eq.
  intros [Hx|[-> Ha]] [Hy|[Heq Hb]]; try lia. f_equal. auto.
Qed.
#[local] Instance str_le_antisym : AntiSymm (=) (le_rel str_leb).
Proof. intros a b. apply str_leb_antisym. Qed.

Lemma insert_json_perm x l k : insert_json x l = Some k -> k ≡ₚ x :: l.
Proof.
  revert k. induction l as [|y l IH]; intros k; cbn; [by intros [= <-]|].
  destruct (py_lt y x) as [[]|]; [|by intros [= <-]|done].
  destruct (insert_json x l) as [k'|]; [|done]. intros [= <-]. rewrite (IH k') by done.
  apply perm_swap.
Qed.
Lemma sorted_json_perm l v : sorted_json l = Ok v -> exists k, v = JArr k /\ k ≡ₚ l.
Proof.
  unfold sorted_json. intros H. destruct (foldr _ _ l) as [k|] eqn:E; [|done]. injection H as <-.
  exists k. split; [done|]. revert k E. induction l as [|x l IH]; intros k; cbn; [by intros [= <-]|].
  destruct (foldr _ _ l) as [k'|]; [|done]. intros E%insert_json_perm.
  by rewrite E, (IH k').
Qed.
Lemma insert_json_strs s ss :
  insert_json (JStr s) (map JStr ss) = Some (map JStr (insert_sorted str_leb s ss)).
Proof.
  induction ss as [|t ss IH]; [done|]. cbn. unfold str_ltb.
  destruct (str_leb s t) eqn:Hst.
  - destruct (str_leb t s) eqn:Hts; [|done].
    by rewrite (str_leb_antisym _ _ Hst Hts), str_eqb_refl.
  - rewrite (str_leb_total _ _ Hst). destruct (str_eqb t s) eqn:E; cbn; [|by rewrite IH].
    apply str_eqb_eq in E as ->. apply str_leb_total in Hst as Hts. congruence.
Qed.
Lemma sorted_json_strs ss : sorted_json (map JStr ss) = Ok (JArr (map JStr (py_sorted str_leb ss))).
Proof.
  unfold sorted_json. enough (foldr (fun x acc => match acc with Some l => insert_json x l | None => None end)
    (Some []) (map JStr ss) = Some (map JStr (py_sorted str_leb ss))) as -> by done.
  induction ss as [|s ss IH]; [done|]. cbn. by rewrite IH, insert_json_strs.
Qed.
Lemma py_sorted_unique ss ts : ss ≡ₚ ts -> py_sorted str_leb ss = py_sorted str_leb ts.
Proof.
  intros Hp. eapply StronglySorted_unique.
  - apply str_le_antisym.
  - apply py_sorted_sorted; [apply str_leb_total|apply str_leb_trans].
  - apply py_sorted_sorted; [apply str_leb_total|apply str_leb_trans].
  - by rewrite !py_sorted_perm.
Qed.

(** The topics that pass are the documented ones, in any order. *)
Lemma topics_pass l v :
  sorted_json l = Ok v ->
  py_eq v (JArr (map JStr (py_sorted str_leb TOPICS))) = true <-> l ≡ₚ map JStr TOPICS.
Proof.
  intros Hv. split; intros H.
  - destruct (sorted_json_perm _ _ Hv) as (k & -> & <-). apply py_eq_strs in H as ->.
    by rewrite py_sorted_perm.
  - apply Permutation_map_inv in H as (ss & -> & Hs).
    rewrite sorted_json_strs in Hv. injection Hv as <-. apply py_eq_strs.
    by rewrite (py_sorted_unique TOPICS ss).
Qed.

(** ** Comparing dicts *)

Lemma py_eq_obj d e : py_eq (JObj d) (JObj e) = true <->
  length d = length e
  /\ Forall (fun kx => exists y, dict_get str_eqb e (fst kx) = Some y /\ py_eq (snd kx) y = true) d.
Proof.
  cbn [py_eq]. rewrite andb_true_iff, Nat.eqb_eq. apply and_iff_compat_l.
  induction d as [|[k x] d IH]; [by split|]. rewrite andb_true_iff, IH, Forall_cons_iff.
  apply and_iff_compat_r. cbn [fst snd]. destruct (dict_get str_eqb e k) as [y|].
  - split; [eauto|]. by intros (? & [= <-] & ?).
  - split; [done|]. by intros (? & ? & _).
Qed.
(** Two dicts are equal when they have the same keys with equal values. *)
Definition same_value (x y : option json) : Prop :=
  match x, y with Some x, Some y => py_eq x y = true | None, None => True | _, _ => False end.
Lemma dict_key_In {V} (d : list (str * V)) k v : dict_get str_eqb d k = Some v -> k ∈ map fst d.
Proof.
  intros H. apply dict_get_Some_In in H; [|apply str_eqb_eq]. apply list_elem_of_In.
  by apply (in_map fst) in H.
Qed.
Lemma dict_key_get {V} (d : list (str * V)) k : k ∈ map fst d -> exists v, dict_get str_eqb d k = Some v.
Proof.
  intros H. destruct (dict_get str_eqb d k) as [v|] eqn:E; [eauto|].
  apply dict_get_None in E; [|apply str_eqb_eq]. by destruct E; apply list_elem_of_In.
Qed.
Lemma py_eq_dicts d e : NoDup (map fst d) -> NoDup (map fst e) ->
  py_eq (JObj d) (JObj e) = true
  <-> forall k, same_value (dict_get str_eqb d k) (dict_get str_eqb e k).
Proof.
  intros Hd He. rewrite py_eq_obj, list.Forall_forall. split.
  - intros [Hlen Hall] k.
    assert (Hin : forall k x, dict_get str_eqb d k = Some x ->
      exists y, dict_get str_eqb e k = Some y /\ py_eq x y = true).
    { intros k' x Hx. apply dict_get_Some_In in Hx; [|apply str_eqb_eq].
      apply (Hall (k', x)). by apply list_elem_of_In. }
    destruct (dict_get str_eqb d k) as [x|] eqn:Hx.
    { apply Hin in Hx as (y & -> & Hy). done. }
    destruct (dict_get str_eqb e k) as [y|] eqn:Hy; [|done].
    assert (Hp : map fst d ≡ₚ map fst e).
    { apply submseteq_length_Permutation; [|by rewrite !length_map, Hlen].
      apply NoDup_submseteq; [done|]. intros k' (x & (z & Hz & _)%Hin)%dict_key_get.
      by eapply dict_key_In. }
    apply dict_key_In in Hy. rewrite <-Hp in Hy. apply dict_key_get in Hy as (x & Hx').
    congruence.
  - intros H. assert (Hkeys : map fst d ≡ₚ map fst e).
    { apply NoDup_Permutation; [done..|]. intros k. specialize (H k).
      split; intros (v & Hv)%dict_key_get; rewrite Hv in H;
        destruct (dict_get str_eqb _ k) as [w|] eqn:Hw in H; try done; by eapply dict_key_In. }
    split; [by rewrite <-(length_map fst d), Hkeys, length_map|].
    intros [k x] Hkx. cbn [fst snd]. specialize (H k).
    rewrite (dict_get_NoDup _ _ _ Hd Hkx) in H.
    destruct (dict_get str_eqb e k) as [y|]; [|done]. by exists y.
Qed.

(** ** The required checks *)

(** What the last entry for a check says of it. *)
Definition check_of (context : str) (item : json) : option json :=
  match item with
  | JObj d =>
    match dict_get str_eqb d (u "context") with
    | Some (JStr c) => if str_eqb context c then Some (get d "app_id") else None
    | _ => None
    end
  | _ => None
  end.
Definition required_check (status_checks : mapping) (context : str) : option json :=
  match get status_checks "checks" with JArr items => last (omap (check_of context) items) | _ => None end.

Lemma add_check_get checks item k :
  dict_get str_eqb (add_check checks item) k
  = match check_of k item with Some v => Some v | None => dict_get str_eqb checks k end.
Proof.
  unfold add_check, check_of. destruct item; try done.
  destruct (dict_get str_eqb d (u "context")) as [[]|]; try done.
  rewrite dict_get_set by apply str_eqb_eq. by destruct (str_eqb k s).
Qed.
Lemma fold_checks_get items checks k :
  dict_get str_eqb (fold_left add_check items checks) k
  = match last (omap (check_of k) items) with
    | Some v => Some v
    | None => dict_get str_eqb checks k
    end.
Proof.
  revert checks. induction items as [|item items IH]; intros checks; [done|].
  cbn [fold_left omap list_omap]. rewrite IH, add_check_get.
  destruct (check_of k item) as [v|]; [|done]. rewrite last_cons. by destruct (last _).
Qed.
Lemma actual_checks_get status k :
  dict_get str_eqb (actual_checks status) k = required_check status k.
Proof.
  unfold actual_checks, required_check. destruct (get status "checks"); try done.
  rewrite fold_checks_get. by destruct (last _).
Qed.
Lemma actual_checks_NoDup status : NoDup (map fst (actual_checks status)).
Proof.
  unfold actual_checks. destruct (get status "checks") as [| | | | | |items|]; try constructor.
  enough (forall checks, NoDup (map fst checks) -> NoDup (map fst (fold_left add_check items checks)))
    as H by (apply H; constructor).
  induction items as [|item items IH]; intros checks Hn; [done|]. apply IH. unfold add_check.
  destruct item; try done. destruct (dict_get str_eqb d (u "context")) as [[]|]; try done.
  by apply dict_set_NoDup.
Qed.
Lemma const_dict_get {V} (x : V) l k :
  dict_get str_eqb (map (fun c => (c, x)) l) k = if bool_decide (k ∈ l) then Some x else None.
Proof.
  induction l as [|c l IH]; [done|]. cbn. rewrite IH. destruct (str_eqb k c) eqn:E.
  - apply str_eqb_eq in E as ->. by rewrite bool_decide_eq_true_2 by left.
  - assert (k <> c) by (intros ->; by rewrite str_eqb_refl in E).
    rewrite (bool_decide_ext (k ∈ l) (k ∈ c :: l)); [done|]. rewrite elem_of_cons. tauto.
Qed.
(** Every required check is demanded from GitHub Actions, and nothing else is demanded. *)
Definition demanded (found : option json) (context : str) : Prop :=
  match found with
  | Some app => context ∈ REQUIRED_CHECKS
                /\ exists q, number_of app = Some q /\ (q == inject_Z GITHUB_ACTIONS_APP_ID)%Q
  | None => context ∉ REQUIRED_CHECKS
  end.
Lemma required_checks_pass status :
  py_eq (JObj (actual_checks status)) (JObj expected_checks) = true
  <-> forall context, demanded (required_check status context) context.
Proof.
  rewrite py_eq_dicts.
  - apply forall_proper. intros k. rewrite actual_checks_get. unfold expected_checks.
    assert (Hin : k ∈ py_sorted str_leb REQUIRED_CHECKS <-> k ∈ REQUIRED_CHECKS).
    { pose proof (py_sorted_perm str_leb REQUIRED_CHECKS) as Hp. by rewrite Hp. }
    rewrite const_dict_get, (bool_decide_ext _ _ Hin).
    unfold demanded. destruct (required_check status k) as [v|]; case_bool_decide; cbn; try tauto.
    by rewrite (py_eq_number _ (JInt GITHUB_ACTIONS_APP_ID) (inject_Z GITHUB_ACTIONS_APP_ID)); tauto.
  - apply actual_checks_NoDup.
  - apply (bool_decide_eq_true_1 _). vm_compute. reflexivity.
Qed.

(** ** The policy *)

(** v == n: True and 1 are equal for Python *)
Definition is_number (v : json) (n : Q) : Prop := exists q, number_of v = Some q /\ (q == n)%Q.
Definition repository_policy (repository : mapping) : Prop :=
  get repository "visibility" = JStr (u "public")
  /\ get repository "default_branch" = JStr (u "main")
  /\ get repository "description" = JStr DESCRIPTION
  /\ get repository "homepage" = JNull
  /\ (exists l, get repository "topics" = JArr l /\ l ≡ₚ map JStr TOPICS)
  /\ is_number (get repository "allow_squash_merge") 1
  /\ is_number (get repository "allow_rebase_merge") 1
  /\ is_number (get repository "allow_merge_commit") 0
  /\ is_number (get repository "delete_branch_on_merge") 1.
Definition security_policy (repository private_reporting : mapping) : Prop :=
  Forall (fun feature => _nested (get repository "security_and_analysis") [u feature; u "status"]
                         = JStr (u "enabled"))
    ["secret_scanning"; "secret_scanning_push_protection"; "dependabot_security_updates"]%string
  /\ is_number (get private_reporting "enabled") 1.
Definition protection_policy (protection : mapping) : Prop :=
  let status_checks := or_empty (get protection "required_status_checks") in
  let reviews := or_empty (get protection "required_pull_request_reviews") in
  let enabled setting := _nested (JObj protection) [u setting; u "enabled"] in
  is_number (get status_checks "strict") 1
  /\ (forall context, demanded (required_check status_checks context) context)
  /\ reviews <> [] /\ is_number (get reviews "required_approving_review_count") 0
  /\ Forall (fun setting => is_number (enabled setting) 1)
       ["enforce_admins"; "required_linear_history"; "required_conversation_resolution"]%string
  /\ Forall (fun setting => is_number (enabled setting) 0)
       ["allow_force_pushes"; "allow_deletions"]%string.
Definition policy (s : Snapshot) : Prop :=
  repository_policy (sn_repository s)
  /\ security_policy (sn_repository s) (sn_private_reporting s)
  /\ protection_policy (sn_protection s).

Lemma check_bool v b name : ck_passed (check name v (JBool b)) = true <-> is_number v (if b then 1 else 0).
Proof. by apply py_eq_number. Qed.
Lemma check_str v s name : ck_passed (check name v (JStr s)) = true <-> v = JStr s.
Proof. apply py_eq_str. Qed.
Lemma nested_or_empty v feature key :
  _nested (JObj (or_empty v)) [feature; key] = _nested v [feature; key].
Proof. by destruct v. Qed.

Ltac each_check :=
  cbn [forallb map]; rewrite ?andb_true_iff, ?check_bool, ?check_str.

Lemma repository_checks_pass repository topics : actual_topics repository = Ok topics ->
  forallb ck_passed (repository_checks repository topics) = true <-> repository_policy repository.
Proof.
  intros Ht. unfold repository_checks, repository_policy. each_check.
  assert (ck_passed (check (u "repository.homepage") (get repository "homepage") JNull) = true
          <-> get repository "homepage" = JNull) as -> by apply py_eq_null.
  assert (ck_passed (check (u "repository.topics") topics (JArr (map JStr (py_sorted str_leb TOPICS)))) = true
          <-> exists l, get repository "topics" = JArr l /\ l ≡ₚ map JStr TOPICS) as ->; [|tauto].
  unfold actual_topics in Ht. cbn [check ck_passed].
  destruct (get repository "topics") as [| | | | | |l|];
    try (injection Ht as <-; split; [try by destruct f|by intros (? & ? & _)]; done).
  rewrite (topics_pass l) by done. split; [by exists l|]. by intros (? & [= <-] & ?).
Qed.
Lemma security_checks_pass repository reporting :
  forallb ck_passed (security_checks repository reporting) = true
  <-> security_policy repository reporting.
Proof.
  unfold security_checks, security_policy. rewrite forallb_app. cbn [map]. each_check.
  rewrite !nested_or_empty, !Forall_cons_iff, Forall_nil_iff. tauto.
Qed.
Lemma protection_checks_pass protection :
  forallb ck_passed (protection_checks protection) = true <-> protection_policy protection.
Proof.
  unfold protection_checks, protection_policy, setting_check. cbn zeta.
  set (status := or_empty (get protection "required_status_checks")).
  set (reviews := or_empty (get protection "required_pull_request_reviews")).
  rewrite !forallb_app. each_check. rewrite !Forall_cons_iff, !Forall_nil_iff.
  assert (ck_passed (check (u "protection.required_checks") (JObj (actual_checks status))
            (JObj expected_checks)) = true
          <-> forall context, demanded (required_check status context) context) as ->
    by apply required_checks_pass.
  assert (ck_passed (check (u "protection.required_approvals")
            (get reviews "required_approving_review_count") (JInt 0)) = true
          <-> is_number (get reviews "required_approving_review_count") 0) as ->
    by by apply py_eq_number.
  assert (is_number (JBool (jtruthy (JObj reviews))) 1 <-> reviews <> []) as ->.
  { destruct reviews; (split; [intros (q & [= <-] & Hq)|]); try done. intros _. by exists 1%Q. }
  tauto.
Qed.

(** The report passes exactly when the policy holds. *)
Lemma audit_snapshot_passes now s r : audit_snapshot now s = Ok r ->
  gr_passed r = forallb ck_passed (gr_checks r) /\ (gr_passed r = true <-> policy s).
Proof.
  unfold audit_snapshot, all_checks. intros (checks & Hc & Hr)%obind_Ok.
  apply obind_Ok in Hc as (topics & Ht & Hc).
  set (all := _ ++ _) in Hc. injection Hc as Hc. injection Hr as <-. cbn [gr_passed gr_checks].
  split; [done|]. rewrite <-Hc. unfold policy, all.
  by rewrite !forallb_app, !andb_true_iff, (repository_checks_pass _ _ Ht), security_checks_pass,
    protection_checks_pass.
Qed.
Lemma audit_snapshot_fails now s e : audit_snapshot now s = Raise e ->
  exists l, get (sn_repository s) "topics" = JArr l /\ sorted_json l = Raise e.
Proof.
  unfold audit_snapshot, all_checks, actual_topics.
  destruct (get (sn_repository s) "topics") as [| | | | | |l|]; try done.
  intros H. exists l. split; [done|].
  destruct (sorted_json l); [discriminate H|]. injection H as ->. reflexivity.
Qed.

Section client_facts.
Context {W : Type} (urlopen : Request -> W -> answer * W).
Context (repr : str -> str) (decode_error : list N -> str).
Context {U : UnicodeDb}.
Abbreviation get_path := (get_path urlopen decode_error).
Abbreviation snapshot := (snapshot urlopen decode_error).

(** An answer with a JSON object *)
Definition answered (c : GitHubClient) (path : str) (d : mapping) (w w' : W) : Prop :=
  exists bytes, urlopen (request c path) w = (Body bytes, w') /\ json_loads bytes = inl (JObj d).
Lemma get_path_Ok c path w d w' : get_path c path w = (Ok d, w') -> answered c path d w w'.
Proof.
  unfold Governance.get_path, answered. destruct (urlopen _ w) as [a w1]. intros [= Ha <-].
  destruct a as [bytes|text]; [|done]. exists bytes. split; [done|]. cbn in Ha.
  destruct (json_loads bytes) as [[]|[]]; by simplify_eq.
Qed.
(** The five answers of a snapshot, one after the other *)
Inductive answers (c : GitHubClient) : list (str * mapping) -> W -> W -> Prop :=
| no_answers w : answers c [] w w
| next_answer path d rest w w1 w' :
    answered c path d w w1 -> answers c rest w1 w' -> answers c ((path, d) :: rest) w w'.
Definition parts (c : GitHubClient) (milestone : Z) (s : Snapshot) : list (str * mapping) := [
  (base c, sn_repository s);
  (base c ++ u "/branches/main/protection", sn_protection s);
  (base c ++ u "/private-vulnerability-reporting", sn_private_reporting s);
  (base c ++ u "/milestones/" ++ str_of_Z milestone, sn_milestone s);
  (base c ++ u "/releases/latest", sn_release s)].
Lemma snapshot_Ok c milestone w s w' : snapshot c milestone w = (Ok s, w') ->
  answers c (parts c milestone s) w w'.
Proof.
  intros (repository & w1 & H1%get_path_Ok & H)%Mbind_Ok.
  apply Mbind_Ok in H as (protection & w2 & H2%get_path_Ok & H).
  apply Mbind_Ok in H as (reporting & w3 & H3%get_path_Ok & H).
  apply Mbind_Ok in H as (ms & w4 & H4%get_path_Ok & H).
  apply Mbind_Ok in H as (release & w5 & H5%get_path_Ok & H). injection H as <- <-.
  refine (next_answer _ _ _ _ _ _ _ H1 _). refine (next_answer _ _ _ _ _ _ _ H2 _).
  refine (next_answer _ _ _ _ _ _ _ H3 _). refine (next_answer _ _ _ _ _ _ _ H4 _).
  refine (next_answer _ _ _ _ _ _ _ H5 _). apply no_answers.
Qed.
(** A snapshot that fails: one of the requests was not answered with an object. *)
Definition unanswered (c : GitHubClient) (e : exn) : Prop :=
  exists path a w w1, urlopen (request c path) w = (a, w1) /\ read_payload decode_error path a = Raise e.
Lemma Mbind_Raise {A B} (m : M W A) (k : A -> M W B) s e s' :
  Mbind m k s = (Raise e, s') ->
  m s = (Raise e, s') \/ exists a s1, m s = (Ok a, s1) /\ k a s1 = (Raise e, s').
Proof. unfold Mbind. destruct (m s) as [[a|e'] s1]; [eauto|]. intros [= -> ->]. by left. Qed.
Lemma get_path_Raise c path w e w' : get_path c path w = (Raise e, w') -> unanswered c e.
Proof.
  unfold Governance.get_path, unanswered. destruct (urlopen _ w) as [a w1] eqn:Ha.
  intros [= Hr <-]. by exists path, a, w, w1.
Qed.
Lemma snapshot_Raise c milestone w e w' : snapshot c milestone w = (Raise e, w') -> unanswered c e.
Proof.
  unfold Governance.snapshot. intros H.
  repeat match goal with
         | H : Mbind _ _ _ = (Raise _, _) |- _ =>
           apply Mbind_Raise in H as [H|(? & ? & _ & H)]; [by apply get_path_Raise in H|]
         end.
  done.
Qed.
Lemma unanswered_reason c e : unanswered c e ->
  match e with
  | RuntimeError _ => True
  | _ => exists path bytes w w1, urlopen (request c path) w = (Body bytes, w1)
         /\ (json_loads bytes = inr NotText \/ json_loads bytes = inr TooLong)
  end.
Proof.
  intros (path & a & w & w1 & Ha & Hr). destruct a as [bytes|text]; cbn in Hr; [|by injection Hr as <-].
  destruct (json_loads bytes) as [[]|[]] eqn:E; try (injection Hr as <-; exact I); try done;
    injection Hr as <-; exists path, bytes, w, w1; auto.
Qed.

Lemma new_client_Ok repository token c : new_client repr repository token = Ok c ->
  gc_repository c = repository.
Proof.
  unfold new_client. destruct (negb _); [done|]. destruct (str_eqb token []); [done|].
  by intros [= <-].
Qed.
Lemma new_client_Raise repository token e : new_client repr repository token = Raise e ->
  (exists message, e = RuntimeError message)
  /\ (re_fullmatch REPOSITORY_NAME repository = false \/ token = []).
Proof.
  unfold new_client, AuditError. destruct (re_fullmatch REPOSITORY_NAME repository); cbn [negb].
  - destruct (str_eqb token []) eqn:E; [|done]. apply str_eqb_eq in E. intros [= <-].
    split; [by eexists|by right].
  - intros [= <-]. split; [by eexists|by left].
Qed.
Lemma failed_names checks name :
  In name (map ck_name (List.filter (fun c => negb (ck_passed c)) checks))
  <-> exists c, In c checks /\ ck_name c = name /\ ck_passed c = false.
Proof.
  rewrite in_map_iff. split.
  - intros (c & <- & [Hc Hp]%filter_In). apply negb_true_iff in Hp. by exists c.
  - intros (c & Hc & <- & Hp). exists c. split; [done|]. apply filter_In. by rewrite Hp.
Qed.

(** What made the script end the way it did *)
Definition explained (repository token : str) (milestone now : Z) (w w' : W) (e : ending) : Prop :=
  match e with
  | Reported r drift status =>
    exists c s, gc_repository c = repository /\ answers c (parts c milestone s) w w'
    /\ audit_snapshot now s = Ok r
    /\ (status = 0 \/ status = 1) /\ (status = 0 <-> policy s)
    /\ forall name, In name drift
                    <-> exists k, In k (gr_checks r) /\ ck_name k = name /\ ck_passed k = false
  | NotAudited message =>
    re_fullmatch REPOSITORY_NAME repository = false \/ token = []
    \/ exists c, gc_repository c = repository /\ unanswered c (RuntimeError message)
  | Traceback e =>
    exists c, gc_repository c = repository
    /\ ((exists path bytes w1 w2, urlopen (request c path) w1 = (Body bytes, w2)
         /\ (json_loads bytes = inr NotText \/ json_loads bytes = inr TooLong))
        \/ exists s l, answers c (parts c milestone s) w w'
           /\ get (sn_repository s) "topics" = JArr l /\ sorted_json l = Raise e)
  end.
End client_facts.

(** C34: The audit of the repository's settings ends with status 0 or 1 only after all five
    questions were answered, in order, with JSON objects, and with status 0 exactly when those
    answers hold the documented policy: visibility, description, topics in any order, merge
    methods, security features, and a protected main branch that demands every required check
    from GitHub Actions and no other check.  The drift it prints names exactly the failed
    comparisons.  Status 2 means a malformed repository name, no token, or a request that was
    not answered with an object; a traceback, an answer that is no text, has too long a number,
    or topics that cannot be sorted. *)
Theorem governance_audit_spec {W : Type} (urlopen : Request -> W -> answer * W)
    (repr : str -> str) (decode_error : list N -> str) {U : UnicodeDb}
    github_token gh_token repository milestone now w e w' :
  main urlopen repr decode_error github_token gh_token repository milestone now w = (e, w') ->
  explained urlopen decode_error repository (token_of github_token gh_token) milestone now w w' e.
Proof.
  unfold main. set (token := token_of github_token gh_token).
  destruct (Mbind _ _ w) as [[r|x] w1] eqn:Hm; intros [= <- <-]; cbn [explained].
  - apply Mbind_Ok in Hm as (c & w2 & Hc & Hm). injection Hc as Hc <-.
    apply Mbind_Ok in Hm as (s & w3 & Hs & Hr). injection Hr as Hr <-.
    destruct (audit_snapshot_passes _ _ _ Hr) as [_ Hp]. exists c, s. rewrite <-Hp.
    split; [by apply new_client_Ok in Hc|]. split; [by apply snapshot_Ok in Hs|].
    split; [done|]. split; [destruct (gr_passed r); auto|].
    split; [by destruct (gr_passed r)|apply failed_names].
  - apply Mbind_Raise in Hm as [Hc|(c & w2 & Hc & Hm)].
    { injection Hc as Hc _. apply new_client_Raise in Hc as [[m ->] [Hn|Ht]]; cbn; auto. }
    injection Hc as Hc <-. apply new_client_Ok in Hc.
    apply Mbind_Raise in Hm as [Hs%snapshot_Raise|(s & w3 & Hs%snapshot_Ok & Hr)].
    + pose proof (unanswered_reason _ _ _ _ Hs). destruct x; cbn; eauto 6.
    + injection Hr as Hr <-. apply audit_snapshot_fails in Hr as (l & Hl & Hr).
      assert (Hx : exists m, x = TypeError m).
      { unfold sorted_json in Hr. destruct (foldr _ _ l); [done|]. injection Hr as <-. by eexists. }
      destruct Hx as [m ->]. cbn. exists c. split; [done|]. right. by exists s, l.
Qed.

(** A repository with the documented settings *)
Definition repository_body : list N := file_of "{
 'full_name': 'sangmu1126/PipeLens', 'visibility': 'public', 'default_branch': 'main',
 'description': 'Evidence-first diagnostics for failed GitHub Actions runs', 'homepage': null,
 'topics': ['typescript', 'react', 'python', 'observability', 'github-actions', 'fastapi',
            'devops', 'developer-tools', 'ci-cd'],
 'allow_squash_merge': true, 'allow_rebase_merge': true, 'allow_merge_commit': false,
 'delete_branch_on_merge': true, 'open_issues_count': 4,
 'security_and_analysis': {
  'secret_scanning': {'status': 'enabled'},
  'secret_scanning_push_protection': {'status': 'enabled'},
  'dependabot_security_updates': {'status': 'enabled'}}}".
Definition protection_body : list N := file_of "{
 'required_status_checks': {'strict': true, 'checks': [
  {'context': 'backend', 'app_id': 15368},
  {'context': 'Python 3.14 compatibility', 'app_id': 15368},
  {'context': 'Python 3.15 compatibility', 'app_id': 15368},
  {'context': 'dashboard', 'app_id': 15368},
  {'context': 'Build container (api)', 'app_id': 15368},
  {'context': 'Build container (dashboard)', 'app_id': 15368},
  {'context': 'Analyze (python)', 'app_id': 15368},
  {'context': 'Analyze (javascript-typescript)', 'app_id': 15368},
  {'context': 'Repository secret scan', 'app_id': 15368},
  {'context': 'Dependency review', 'app_id': 15368}]},
 'required_pull_request_reviews': {'required_approving_review_count': 0},
 'enforce_admins': {'enabled': true}, 'required_linear_history': {'enabled': true},
 'required_conversation_resolution': {'enabled': true},
 'allow_force_pushes': {'enabled': false}, 'allow_deletions': {'enabled': false}}".
Definition documented_answers (r : Request) (w : unit) : answer * unit :=
  (Body (let ends suffix := str_eqb (drop (length (rq_url r) - length (u suffix)) (rq_url r)) (u suffix) in
         if ends "/protection"%string then protection_body
         else if ends "/private-vulnerability-reporting"%string then file_of "{'enabled': true}"
         else if ends "/milestones/1"%string then file_of "{'title': 'v1.0', 'open_issues': 2}"
         else if ends "/latest"%string then file_of "{'tag_name': 'v0.9.0', 'immutable': true}"
         else repository_body), w).
Definition documented_audit : ending * unit :=
  @main unit documented_answers (fun s => s) (fun _ => u "bad") ascii_db (Some (u "token")) None
    (u "sangmu1126/PipeLens") 1 1788220800000000 tt.
Definition is_reported (result : ending * unit) : bool :=
  match result with (Reported _ [] 0, _) => true | _ => false end.
Lemma governance_audit_spec_witness :
  match documented_audit with
  | (Reported _ [] 0, _) => exists s, policy s
  | _ => False
  end.
Proof.
  assert (Hp : is_reported documented_audit = true) by (vm_compute; reflexivity).
  destruct documented_audit as [e w'] eqn:Hm.
  pose proof (governance_audit_spec _ _ _ _ _ _ _ _ _ _ _ Hm) as H.
  destruct e as [r [|? ?] []|m|x]; try discriminate Hp.
  destruct H as (c & s & _ & _ & _ & _ & Hs & _). exists s. apply Hs. reflexivity.
Defined.
