(* ===== verification/Queue.v ===== *)
(** * Analysis queue (src/pipelens/queue.py)

    [InMemoryAnalysisQueue] and [RedisAnalysisQueue], both instances of the interface
    [AnalysisQueue].  The Redis server is the class [RedisServer]: its commands with their
    documented effect on lists, sets and expiring keys.  [Conn] executes server commands
    and scripts, one atomic step each, and may fail with [RedisError].  The JSON of an
    envelope is the class [EnvelopeJson]. *)

From stdpp Require Import base list gmap sets strings numbers.
From S2P Require Import Prelude Models.

Set Default Proof Using "Type".

Record QueueEnvelope := { qe_request : AnalysisRequest; qe_attempts : Z }.
Record QueueJob := { qj_envelope : QueueEnvelope; qj_receipt : option str }.
#[export] Instance QueueEnvelope_eq : EqDecision QueueEnvelope.
Proof. solve_decision. Defined.

Definition new_envelope (r : AnalysisRequest) : QueueEnvelope :=
  {| qe_request := r; qe_attempts := 0 |}.
Definition retried (e : QueueEnvelope) : QueueEnvelope :=
  {| qe_request := qe_request e; qe_attempts := qe_attempts e + 1 |}.
Definition run_of (e : QueueEnvelope) : Z := aq_run_id (qe_request e).

(** The protocol of the worker and the webhook. *)
Class AnalysisQueue (S : Type) := {
  enqueue : AnalysisRequest -> M S bool;
  dequeue : M S (option QueueJob);
  acknowledge : QueueJob -> M S unit;
  retry : QueueJob -> M S unit;
  heartbeat : M S unit;
  recover_orphaned : M S Z;
  queue_size : M S Z
}.

(** ** In memory *)

Record MemoryQueue := {
  mq_queue : list QueueEnvelope;          (* asyncio.Queue, next first *)
  mq_unfinished : Z;                      (* its count of unfinished tasks *)
  mq_run_ids : gset Z
}.
Definition empty_memory : MemoryQueue :=
  {| mq_queue := []; mq_unfinished := 0; mq_run_ids := ∅ |}.

Definition mq_put (e : QueueEnvelope) (q : MemoryQueue) : MemoryQueue := {|
  mq_queue := mq_queue q ++ [e]; mq_unfinished := mq_unfinished q + 1;
  mq_run_ids := mq_run_ids q |}.
Definition mq_with_ids (ids : gset Z) (q : MemoryQueue) : MemoryQueue := {|
  mq_queue := mq_queue q; mq_unfinished := mq_unfinished q; mq_run_ids := ids |}.
(** asyncio.Queue.task_done *)
Definition mq_task_done : M MemoryQueue unit := fun q =>
  if mq_unfinished q <=? 0 then (Raise (ValueError (u "task_done() called too many times")), q)
  else (Ok tt, {| mq_queue := mq_queue q; mq_unfinished := mq_unfinished q - 1;
                  mq_run_ids := mq_run_ids q |}).

Open Scope prog_scope.

Definition memory_enqueue (r : AnalysisRequest) : M MemoryQueue bool := fun q =>
  if bool_decide (aq_run_id r ∈ mq_run_ids q) then (Ok false, q)
  else (Ok true, mq_put (new_envelope r)
          (mq_with_ids ({[aq_run_id r]} ∪ mq_run_ids q) q)).
(** The wait ends with the next envelope or with the timeout. *)
Definition memory_dequeue : M MemoryQueue (option QueueJob) := fun q =>
  match mq_queue q with
  | [] => (Ok None, q)
  | e :: rest =>
    (Ok (Some {| qj_envelope := e; qj_receipt := None |}),
     {| mq_queue := rest; mq_unfinished := mq_unfinished q; mq_run_ids := mq_run_ids q |})
  end.
Definition memory_acknowledge (job : QueueJob) : M MemoryQueue unit :=
  mq_task_done ;;;
  Mmodify (fun q => mq_with_ids (mq_run_ids q ∖ {[run_of (qj_envelope job)]}) q).
Definition memory_retry (job : QueueJob) : M MemoryQueue unit :=
  mq_task_done ;;; Mmodify (mq_put (retried (qj_envelope job))).

#[export] Instance InMemoryAnalysisQueue : AnalysisQueue MemoryQueue := {|
  enqueue := memory_enqueue;
  dequeue := memory_dequeue;
  acknowledge := memory_acknowledge;
  retry := memory_retry;
  heartbeat := Mret tt;
  recover_orphaned := Mret 0;
  queue_size := fun q => (Ok (Z.of_nat (length (mq_queue q))), q)
|}.

(** ** Redis *)

Fixpoint remove_first (x : str) (l : list str) : list str :=
  match l with
  | [] => []
  | y :: l' => if str_eqb y x then l' else y :: remove_first x l'
  end.

(** The server: what a client can observe of a state, and the commands the queue uses.
    [lrange] is a list from left to right, [alive] tells whether an expiring key exists. *)
Class RedisServer (V : Type) := {
  lrange : V -> str -> list str;
  smembers : V -> str -> gset str;
  alive : V -> str -> bool;
  sadd : str -> str -> V -> Z * V;
  srem : str -> str -> V -> Z * V;
  lpush : str -> str -> V -> Z * V;
  rpop : str -> V -> option str * V;
  rpoplpush : str -> str -> V -> option str * V;
  lrem1 : str -> str -> V -> Z * V;
  set_ex : str -> str -> Z -> V -> V
}.

(** A command that changes one list, one set or one expiring key only. *)
Definition list_changed `{RedisServer V} (k : str) (l : list str) (v v' : V) : Prop :=
  lrange v' k = l /\ (forall k', k' <> k -> lrange v' k' = lrange v k')
  /\ (forall k', smembers v' k' = smembers v k') /\ (forall k', alive v' k' = alive v k').
Definition set_changed `{RedisServer V} (k : str) (m : gset str) (v v' : V) : Prop :=
  smembers v' k = m /\ (forall k', k' <> k -> smembers v' k' = smembers v k')
  /\ (forall k', lrange v' k' = lrange v k') /\ (forall k', alive v' k' = alive v k').

Class RedisLaws (V : Type) `{RedisServer V} := {
  sadd_law : forall k x v,
    fst (sadd k x v) = (if bool_decide (x ∈ smembers v k) then 0 else 1)
    /\ set_changed k ({[x]} ∪ smembers v k) v (snd (sadd k x v));
  srem_law : forall k x v, set_changed k (smembers v k ∖ {[x]}) v (snd (srem k x v));
  lpush_law : forall k x v, list_changed k (x :: lrange v k) v (snd (lpush k x v));
  rpop_law : forall k v,
    match rev (lrange v k) with
    | [] => rpop k v = (None, v)
    | x :: r => fst (rpop k v) = Some x /\ list_changed k (rev r) v (snd (rpop k v))
    end;
  rpoplpush_law : forall src dst v, src <> dst ->
    match rev (lrange v src) with
    | [] => rpoplpush src dst v = (None, v)
    | x :: r => fst (rpoplpush src dst v) = Some x /\
      exists v1, list_changed src (rev r) v v1
        /\ list_changed dst (x :: lrange v1 dst) v1 (snd (rpoplpush src dst v))
    end;
  lrem1_law : forall k x v,
    fst (lrem1 k x v) = (if bool_decide (x ∈ lrange v k) then 1 else 0)
    /\ list_changed k (remove_first x (lrange v k)) v (snd (lrem1 k x v));
  set_ex_law : forall k x t v,
    alive (set_ex k x t v) k = true
    /\ (forall k', k' <> k -> alive (set_ex k x t v) k' = alive v k')
    /\ (forall k', lrange (set_ex k x t v) k' = lrange v k')
    /\ (forall k', smembers (set_ex k x t v) k' = smembers v k')
}.

(** A client connection: it runs one command, script or transaction atomically on the
    server state, or fails. *)
Class Conn (S V : Type) := {
  server : S -> V;
  call : forall {A}, (V -> A * V) -> M S A
}.

Class EnvelopeJson := {
  model_dump_json : QueueEnvelope -> str;
  model_validate_json : str -> outcome QueueEnvelope;
  envelope_round_trip : forall e, model_validate_json (model_dump_json e) = Ok e
}.

Record RedisQueue := { rq_name : str; rq_worker_id : str; rq_lease_seconds : Z }.
Definition check_redis_queue (q : RedisQueue) : outcome RedisQueue :=
  if rq_lease_seconds q <? 1 then Raise (ValueError (u "lease_seconds must be at least 1"))
  else Ok q.
Definition pending_key (q : RedisQueue) : str := rq_name q.
Definition workers_key (q : RedisQueue) : str := rq_name q ++ u ":workers".
Definition dedupe_key (q : RedisQueue) : str := rq_name q ++ u ":run_ids".
Definition processing_key (q : RedisQueue) : str :=
  rq_name q ++ u ":processing:" ++ rq_worker_id q.
Definition lease_of (processing : str) : str := processing ++ u ":lease".
Definition lease_key (q : RedisQueue) : str := lease_of (processing_key q).

Section redis.
Context {S V : Type} `{RedisServer V} `{Conn S V} `{EnvelopeJson}.

(** The four scripts. *)
Definition _ENQUEUE_SCRIPT (dedupe pending run_id payload : str) (v : V) : Z * V :=
  let '(added, v1) := sadd dedupe run_id v in
  if added =? 0 then (0, v1)
  else let '(_, v2) := lpush pending payload v1 in (1, v2).
Definition _ACKNOWLEDGE_SCRIPT (processing dedupe receipt run_id : str) (v : V) : Z * V :=
  let '(removed, v1) := lrem1 processing receipt v in
  if 0 <? removed then let '(_, v2) := srem dedupe run_id v1 in (removed, v2)
  else (removed, v1).
Definition _RETRY_SCRIPT (processing pending receipt payload : str) (v : V) : Z * V :=
  let '(removed, v1) := lrem1 processing receipt v in
  if 0 <? removed then let '(_, v2) := lpush pending payload v1 in (removed, v2)
  else (removed, v1).

(** while true: RPOP; LPUSH -- [n] bounds the items of the list. *)
Fixpoint move_all (n : nat) (src dst : str) (recovered : Z) (v : V) : Z * V :=
  match n with
  | O => (recovered, v)
  | Datatypes.S n =>
    match rpop src v with
    | (None, v1) => (recovered, v1)
    | (Some item, v1) => let '(_, v2) := lpush dst item v1 in
                         move_all n src dst (recovered + 1) v2
    end
  end.
Definition _RECOVER_SCRIPT (lease processing pending workers : str) (v : V) : Z * V :=
  if alive v lease then (0, v)
  else
    let '(recovered, v1) := move_all (Datatypes.S (length (lrange v processing))) processing pending 0 v in
    let '(_, v2) := srem workers processing v1 in
    (recovered, v2).

Definition redis_enqueue (q : RedisQueue) (r : AnalysisRequest) : M S bool :=
  do! created := call (_ENQUEUE_SCRIPT (dedupe_key q) (pending_key q)
                        (str_of_Z (aq_run_id r)) (model_dump_json (new_envelope r))) in
  Mret (negb (created =? 0)).

(** pipeline(transaction=True): SADD and SET EX in one step. *)
Definition heartbeat_script (q : RedisQueue) (v : V) : unit * V :=
  (tt, set_ex (lease_key q) (rq_worker_id q) (rq_lease_seconds q)
         (snd (sadd (workers_key q) (processing_key q) v))).
Definition redis_heartbeat (q : RedisQueue) : M S unit := call (heartbeat_script q).

Definition redis_dequeue (q : RedisQueue) : M S (option QueueJob) :=
  redis_heartbeat q ;;;
  do! raw := call (rpoplpush (pending_key q) (processing_key q)) in
  match raw with
  | None => Mret None
  | Some receipt =>
    do! envelope := Mlift (model_validate_json receipt) in
    Mret (Some {| qj_envelope := envelope; qj_receipt := Some receipt |})
  end.

Definition redis_acknowledge (q : RedisQueue) (job : QueueJob) : M S unit :=
  match qj_receipt job with
  | Some receipt =>
    do! _ := call (_ACKNOWLEDGE_SCRIPT (processing_key q) (dedupe_key q) receipt
                     (str_of_Z (run_of (qj_envelope job)))) in
    Mret tt
  | None => Mret tt
  end.
Definition redis_retry (q : RedisQueue) (job : QueueJob) : M S unit :=
  match qj_receipt job with
  | Some receipt =>
    do! _ := call (_RETRY_SCRIPT (processing_key q) (pending_key q) receipt
                     (model_dump_json (retried (qj_envelope job)))) in
    Mret tt
  | None => Mret tt
  end.

Fixpoint recover_keys (q : RedisQueue) (keys : list str) (recovered : Z) : M S Z :=
  match keys with
  | [] => Mret recovered
  | key :: keys' =>
    if str_eqb key (processing_key q) then recover_keys q keys' recovered
    else
      do! n := call (_RECOVER_SCRIPT (lease_of key) key (pending_key q) (workers_key q)) in
      recover_keys q keys' (recovered + n)
  end.
Definition redis_recover_orphaned (q : RedisQueue) : M S Z :=
  do! keys := call (fun v => (elements (smembers v (workers_key q)), v)) in
  recover_keys q keys 0.

Definition redis_size (q : RedisQueue) : M S Z :=
  call (fun v => (Z.of_nat (length (lrange v (pending_key q))), v)).

Definition RedisAnalysisQueue (q : RedisQueue) : AnalysisQueue S := {|
  enqueue := redis_enqueue q;
  dequeue := redis_dequeue q;
  acknowledge := redis_acknowledge q;
  retry := redis_retry q;
  heartbeat := redis_heartbeat q;
  recover_orphaned := redis_recover_orphaned q;
  queue_size := redis_size q
|}.
End redis.

Inductive queue_backend := MemoryBackend | RedisBackend (q : RedisQueue).
(** RedisAnalysisQueue.from_url: [redis_from_url] is redis.asyncio's Redis.from_url, which
    refuses some addresses; the worker id defaults to a fresh one, [uuid]. *)
Definition from_url (redis_from_url : str -> outcome unit) (redis_url name : str)
    (worker_id : option str) (uuid : str) (lease_seconds : Z) : outcome RedisQueue :=
  let! _ := redis_from_url redis_url in
  check_redis_queue {| rq_name := name; rq_worker_id := or_str worker_id uuid;
                       rq_lease_seconds := lease_seconds |}.
Definition create_queue (redis_from_url : str -> outcome unit) (backend redis_url name : str)
    (worker_id : option str) (uuid : str) (lease_seconds : Z) : outcome queue_backend :=
  if str_eqb backend (u "memory") then Ok MemoryBackend
  else if str_eqb backend (u "redis") then
    let! q := from_url redis_from_url redis_url name worker_id uuid lease_seconds in
    Ok (RedisBackend q)
  else Raise (ValueError (u "unsupported queue backend: " ++ backend)).

(** A connection either executes the step or reports an error, after which the step may
    or may not have happened. *)
Definition connection_error (e : exn) : Prop := exists msg, e = RedisError msg.
Class ConnLaws (S V : Type) `{Conn S V} := {
  call_law : forall A (f : V -> A * V) (s : S),
    match call f s with
    | (Ok a, s') => f (server s) = (a, server s')
    | (Raise e, s') => connection_error e
                       /\ (server s' = server s \/ server s' = snd (f (server s)))
    end
}.

(** ** The contract of a queue with its client

    [q_rel s p i o]: in state [s] the pending envelopes are [p], next first, the client
    holds the jobs of [i], and other clients hold the runs [o].  An operation that reports a
    connection error has happened or has not: the client cannot tell which. *)
Definition runs (l : list QueueEnvelope) : list Z := map run_of l.

Class QueueContract (S : Type) (Q : AnalysisQueue S) := {
  q_rel : S -> list QueueEnvelope -> list QueueEnvelope -> list Z -> Prop;
  q_job : QueueJob -> Prop;
  q_rel_perm : forall s p i i' o, i ≡ₚ i' -> q_rel s p i o -> q_rel s p i' o;
  q_rel_runs : forall s p i o, q_rel s p i o -> NoDup (runs p ++ runs i ++ o);
  enqueue_law : forall r s p i o, q_rel s p i o ->
    match enqueue r s with
    | (Ok b, s') =>
      if bool_decide (aq_run_id r ∈ runs p ++ runs i ++ o)
      then b = false /\ q_rel s' p i o
      else b = true /\ q_rel s' (p ++ [new_envelope r]) i o
    | (Raise e, s') => connection_error e
      /\ (q_rel s' p i o \/ q_rel s' (p ++ [new_envelope r]) i o)
    end;
  dequeue_law : forall s p i o, q_rel s p i o ->
    match dequeue s with
    | (Ok None, s') => p = [] /\ q_rel s' p i o
    | (Ok (Some job), s') => q_job job /\ exists p', p = qj_envelope job :: p'
        /\ q_rel s' p' (qj_envelope job :: i) o
    | (Raise e, s') => connection_error e
      /\ (q_rel s' p i o \/ exists e0 p', p = e0 :: p' /\ q_rel s' p' (e0 :: i) o)
    end;
  acknowledge_law : forall job s p i o, q_job job -> q_rel s p (qj_envelope job :: i) o ->
    match acknowledge job s with
    | (Ok _, s') => q_rel s' p i o
    | (Raise e, s') => connection_error e
      /\ (q_rel s' p (qj_envelope job :: i) o \/ q_rel s' p i o)
    end;
  retry_law : forall job s p i o, q_job job -> q_rel s p (qj_envelope job :: i) o ->
    match retry job s with
    | (Ok _, s') => q_rel s' (p ++ [retried (qj_envelope job)]) i o
    | (Raise e, s') => connection_error e
      /\ (q_rel s' p (qj_envelope job :: i) o
          \/ q_rel s' (p ++ [retried (qj_envelope job)]) i o)
    end;
  size_law : forall s p i o, q_rel s p i o ->
    match queue_size s with
    | (Ok n, s') => n = Z.of_nat (length p) /\ q_rel s' p i o
    | (Raise e, s') => connection_error e /\ q_rel s' p i o
    end
}.
