(* ===== verification/QueueFacts.v ===== *)
(** * Properties of the queues

    [redis_no_loss_no_duplicate]: an invariant of the Redis server under every interleaving
    of the queue's atomic steps by any number of clients.  [QueueContract]: what one client
    is promised, an interface that both implementations satisfy and the worker uses. *)

From stdpp Require Import base list gmap sets strings numbers.
From S2P Require Import Prelude Models Queue.

(** ** Keys *)

Definition proc_key (name w : str) : str := name ++ u ":processing:" ++ w.
Lemma processing_key_eq q : processing_key q = proc_key (rq_name q) (rq_worker_id q).
Proof. reflexivity. Qed.

Lemma proc_key_inj name w w' : proc_key name w = proc_key name w' -> w = w'.
Proof. unfold proc_key. by intros H%app_inv_head%app_inv_head. Qed.
Lemma proc_key_pending name w : proc_key name w <> name.
Proof.
  unfold proc_key. intros H. apply (f_equal length) in H. rewrite !length_app in H.
  assert (Hl : length (u ":processing:") = 12%nat) by (vm_compute; reflexivity). lia.
Qed.
Lemma set_keys_ne name : name ++ u ":workers" <> name ++ u ":run_ids".
Proof. intros H%app_inv_head. by vm_compute in H. Qed.

(** ** What the scripts do *)

Lemma remove_first_perm x l : x ∈ l -> l ≡ₚ x :: remove_first x l.
Proof.
  induction l as [|y l IH]; intros Hx; cbn; [by apply elem_of_nil in Hx|].
  destruct (str_eqb y x) eqn:E; [by apply str_eqb_eq in E as ->|].
  apply str_eqb_neq in E. apply elem_of_cons in Hx as [->|Hx]; [done|].
  rewrite (IH Hx) at 1. apply perm_swap.
Qed.

Section effects.
Context {V : Type} {RS : RedisServer V} {RL : RedisLaws V}.

(** Nothing a client can see of lists and sets has changed. *)
Definition same_data (v v' : V) : Prop :=
  (forall k, lrange v' k = lrange v k) /\ (forall k, smembers v' k = smembers v k).

Lemma enqueue_effect dd pending x p v :
  let '(n, v') := _ENQUEUE_SCRIPT dd pending x p v in
  (x ∈ smembers v dd /\ n = 0 /\ same_data v v')
  \/ (~ (x ∈ smembers v dd) /\ n = 1
     /\ lrange v' pending = p :: lrange v pending
     /\ (forall k, k <> pending -> lrange v' k = lrange v k)
     /\ smembers v' dd = {[x]} ∪ smembers v dd
     /\ (forall k, k <> dd -> smembers v' k = smembers v k)).
Proof.
  unfold _ENQUEUE_SCRIPT. destruct (sadd_law dd x v) as [Hr (Hs & Ho & Hl & _)].
  destruct (sadd dd x v) as [n v1]. cbn in *. case_bool_decide as Hx.
  - subst n. cbn. left. split; [done|]. split; [done|]. split; [done|]. intros k.
    destruct (decide (k = dd)) as [->|]; [|by apply Ho]. rewrite Hs.
    by apply subseteq_union_1_L, singleton_subseteq_l.
  - subst n. cbn. pose proof (lpush_law pending p v1) as (Hp & Hpo & Hps & _).
    destruct (lpush pending p v1) as [m v2]. cbn in *. right. split_and!; try done.
    + by rewrite Hp, Hl.
    + intros k Hk. by rewrite Hpo, Hl.
    + by rewrite Hps.
    + intros k Hk. by rewrite Hps, Ho.
Qed.

Lemma acknowledge_effect proc dd receipt x v :
  let '(n, v') := _ACKNOWLEDGE_SCRIPT proc dd receipt x v in
  (~ (receipt ∈ lrange v proc) /\ n = 0 /\ same_data v v')
  \/ (receipt ∈ lrange v proc /\ n = 1
     /\ lrange v' proc = remove_first receipt (lrange v proc)
     /\ (forall k, k <> proc -> lrange v' k = lrange v k)
     /\ smembers v' dd = smembers v dd ∖ {[x]}
     /\ (forall k, k <> dd -> smembers v' k = smembers v k)).
Proof.
  unfold _ACKNOWLEDGE_SCRIPT. destruct (lrem1_law proc receipt v) as [Hr (Hl & Ho & Hs & _)].
  destruct (lrem1 proc receipt v) as [n v1]. cbn in *. case_bool_decide as Hx.
  - subst n. cbn. pose proof (srem_law dd x v1) as (Hd & Hdo & Hdl & _).
    destruct (srem dd x v1) as [m v2]. cbn in *. right. split_and!; try done.
    + by rewrite Hdl.
    + intros k Hk. by rewrite Hdl, Ho.
    + by rewrite Hd, Hs.
    + intros k Hk. by rewrite Hdo, Hs.
  - subst n. cbn. left. split; [done|]. split; [done|]. split; [|done]. intros k.
    destruct (decide (k = proc)) as [->|]; [|by apply Ho]. rewrite Hl.
    clear -Hx. induction (lrange v proc) as [|y l IH]; [done|]. cbn.
    rewrite (proj2 (str_eqb_neq y receipt)) by set_solver. f_equal. set_solver.
Qed.

Lemma retry_effect proc pending receipt p v : proc <> pending ->
  let '(n, v') := _RETRY_SCRIPT proc pending receipt p v in
  (~ (receipt ∈ lrange v proc) /\ n = 0 /\ same_data v v')
  \/ (receipt ∈ lrange v proc /\ n = 1
     /\ lrange v' proc = remove_first receipt (lrange v proc)
     /\ lrange v' pending = p :: lrange v pending
     /\ (forall k, k <> proc -> k <> pending -> lrange v' k = lrange v k)
     /\ (forall k, smembers v' k = smembers v k)).
Proof.
  intros Hne. unfold _RETRY_SCRIPT. destruct (lrem1_law proc receipt v) as [Hr (Hl & Ho & Hs & _)].
  destruct (lrem1 proc receipt v) as [n v1]. cbn in *. case_bool_decide as Hx.
  - subst n. cbn. pose proof (lpush_law pending p v1) as (Hp & Hpo & Hps & _).
    destruct (lpush pending p v1) as [m v2]. cbn in *. right. split_and!; try done.
    + by rewrite Hpo.
    + by rewrite Hp, Ho.
    + intros k Hk1 Hk2. by rewrite Hpo, Ho.
    + intros k. by rewrite Hps, Hs.
  - subst n. cbn. left. split; [done|]. split; [done|]. split; [|done]. intros k.
    destruct (decide (k = proc)) as [->|]; [|by apply Ho]. rewrite Hl.
    clear -Hx. induction (lrange v proc) as [|y l IH]; [done|]. cbn.
    rewrite (proj2 (str_eqb_neq y receipt)) by set_solver. f_equal. set_solver.
Qed.

Lemma move_all_effect n src dst acc v : src <> dst -> (length (lrange v src) < n)%nat ->
  let '(m, v') := move_all n src dst acc v in
  m = acc + Z.of_nat (length (lrange v src))
  /\ lrange v' src = [] /\ lrange v' dst = lrange v src ++ lrange v dst
  /\ (forall k, k <> src -> k <> dst -> lrange v' k = lrange v k)
  /\ (forall k, smembers v' k = smembers v k) /\ (forall k, alive v' k = alive v k).
Proof.
  intros Hne. revert acc v. induction n as [|n IH]; intros acc v Hn; [lia|]. cbn [move_all].
  pose proof (rpop_law src v) as Hp. destruct (rev (lrange v src)) as [|x r] eqn:Er.
  - rewrite Hp. assert (Hnil : lrange v src = []) by (by apply (f_equal (@rev _)) in Er; rewrite rev_involutive in Er).
    rewrite Hnil. cbn. split_and!; try done; lia.
  - destruct Hp as [Hx (Hl & Ho & Hs & Ha)]. destruct (rpop src v) as [o v1]. cbn in Hx. subst o.
    assert (Hsrc : lrange v src = rev r ++ [x]).
    { apply (f_equal (@rev _)) in Er. by rewrite rev_involutive in Er. }
    pose proof (lpush_law dst x v1) as (Hp & Hpo & Hps & Hpa).
    destruct (lpush dst x v1) as [m0 v2]. cbn in *.
    specialize (IH (acc + 1) v2). rewrite Hpo, Hl in IH by done.
    rewrite Hsrc, length_app in Hn. cbn in Hn.
    destruct (move_all n src dst (acc + 1) v2) as [m v'].
    destruct IH as (-> & H1 & H2 & H3 & H4 & H5); [lia|]. rewrite Hsrc. split_and!; try done.
    + rewrite length_app. cbn. lia.
    + rewrite H2, Hp, Ho by done. by rewrite <- app_assoc.
    + intros k Hk1 Hk2. by rewrite H3, Hpo, Ho.
    + intros k. by rewrite H4, Hps, Hs.
    + intros k. by rewrite H5, Hpa, Ha.
Qed.

Lemma recover_effect lease proc pending wk v : proc <> pending ->
  let '(n, v') := _RECOVER_SCRIPT lease proc pending wk v in
  (alive v lease = true /\ n = 0 /\ v' = v)
  \/ (alive v lease = false /\ n = Z.of_nat (length (lrange v proc))
     /\ lrange v' proc = [] /\ lrange v' pending = lrange v proc ++ lrange v pending
     /\ (forall k, k <> proc -> k <> pending -> lrange v' k = lrange v k)
     /\ smembers v' wk = smembers v wk ∖ {[proc]}
     /\ (forall k, k <> wk -> smembers v' k = smembers v k)
     /\ (forall k, alive v' k = alive v k)).
Proof.
  intros Hne. unfold _RECOVER_SCRIPT. destruct (alive v lease) eqn:Ea; [by left|].
  pose proof (move_all_effect (S (length (lrange v proc))) proc pending 0 v Hne ltac:(lia)) as Hm.
  destruct (move_all _ _ _ _ _) as [n v1]. destruct Hm as (-> & H1 & H2 & H3 & H4 & H5).
  pose proof (srem_law wk proc v1) as (Hd & Hdo & Hdl & Hda).
  destruct (srem wk proc v1) as [m v2]. cbn in *. right. split_and!; try done.
  - by rewrite Hdl.
  - by rewrite Hdl.
  - intros k Hk1 Hk2. by rewrite Hdl, H3.
  - by rewrite Hd, H4.
  - intros k Hk. by rewrite Hdo, H4.
  - intros k. by rewrite Hda, H5.
Qed.

Lemma take_effect src dst v : src <> dst ->
  let '(o, v') := rpoplpush src dst v in
  (lrange v src = [] /\ o = None /\ v' = v)
  \/ (exists l x, lrange v src = l ++ [x] /\ o = Some x
     /\ lrange v' src = l /\ lrange v' dst = x :: lrange v dst
     /\ (forall k, k <> src -> k <> dst -> lrange v' k = lrange v k)
     /\ (forall k, smembers v' k = smembers v k)).
Proof.
  intros Hne. pose proof (rpoplpush_law src dst v Hne) as Hp.
  destruct (rev (lrange v src)) as [|x r] eqn:Er.
  - rewrite Hp. left. split_and!; try done.
    apply (f_equal (@rev _)) in Er. by rewrite rev_involutive in Er.
  - destruct Hp as [Hx (v1 & (Hl & Ho & Hs & _) & (Hl2 & Ho2 & Hs2 & _))].
    destruct (rpoplpush src dst v) as [o v']. cbn in *. subst o. right. exists (rev r), x.
    split_and!; try done.
    + apply (f_equal (@rev _)) in Er. by rewrite rev_involutive in Er.
    + by rewrite Ho2.
    + by rewrite Hl2, Ho.
    + intros k Hk1 Hk2. by rewrite Ho2, Ho.
    + intros k. by rewrite Hs2, Hs.
Qed.

Lemma heartbeat_effect q v :
  let '(_, v') := heartbeat_script q v in
  (forall k, lrange v' k = lrange v k)
  /\ smembers v' (workers_key q) = {[processing_key q]} ∪ smembers v (workers_key q)
  /\ (forall k, k <> workers_key q -> smembers v' k = smembers v k)
  /\ alive v' (lease_key q) = true
  /\ (forall k, k <> lease_key q -> alive v' k = alive v k).
Proof.
  unfold heartbeat_script. destruct (sadd_law (workers_key q) (processing_key q) v) as [_ (Hs & Ho & Hl & Ha)].
  destruct (sadd _ _ v) as [n v1]. cbn in *.
  pose proof (set_ex_law (lease_key q) (rq_worker_id q) (rq_lease_seconds q) v1) as (H1 & H2 & H3 & H4).
  split_and!.
  - intros k. by rewrite H3, Hl.
  - by rewrite H4.
  - intros k Hk. by rewrite H4, Ho.
  - done.
  - intros k Hk. by rewrite H2, Ha.
Qed.
End effects.

(** ** The server under concurrent clients *)

Lemma flat_map_agree {A B} (f g : A -> list B) l :
  (forall x, In x l -> f x = g x) -> flat_map f l = flat_map g l.
Proof.
  induction l as [|x l IH]; intros Hfg; [done|]. cbn. rewrite Hfg by (by left).
  rewrite IH; [done|]. intros y Hy. apply Hfg. by right.
Qed.

Section system.
Context {V : Type} {RS : RedisServer V} {RL : RedisLaws V} {EJ : EnvelopeJson}.
Context (name : str) (ws : list str) (Hws : NoDup ws).

Definition dedupe : str := name ++ u ":run_ids".
Definition workers : str := name ++ u ":workers".

(** All queued payloads: pending, or in the list of some worker. *)
Definition processing (v : V) : list str := flat_map (fun w => lrange v (proc_key name w)) ws.
Definition payloads (v : V) : list str := lrange v name ++ processing v.

(** One atomic step of a client, or the passing of time.  A job that is acknowledged or
    retried carries the receipt of its envelope. *)
Inductive queue_step : V -> V -> Prop :=
| q_enqueue r v :
    queue_step v (snd (_ENQUEUE_SCRIPT dedupe name (str_of_Z (aq_run_id r))
                         (model_dump_json (new_envelope r)) v))
| q_heartbeat w lease v : In w ws ->
    queue_step v (snd (heartbeat_script
      {| rq_name := name; rq_worker_id := w; rq_lease_seconds := lease |} v))
| q_take w v : In w ws -> queue_step v (snd (rpoplpush name (proc_key name w) v))
| q_acknowledge w e v : In w ws ->
    queue_step v (snd (_ACKNOWLEDGE_SCRIPT (proc_key name w) dedupe (model_dump_json e)
                         (str_of_Z (run_of e)) v))
| q_retry w e v : In w ws ->
    queue_step v (snd (_RETRY_SCRIPT (proc_key name w) name (model_dump_json e)
                         (model_dump_json (retried e)) v))
| q_recover key v : key ∈ smembers v workers ->
    queue_step v (snd (_RECOVER_SCRIPT (lease_of key) key name workers v))
| q_time v v' :
    (forall k, lrange v' k = lrange v k) -> (forall k, smembers v' k = smembers v k) ->
    queue_step v v'.

Inductive queue_reachable : V -> Prop :=
| qr_empty v : (forall k, lrange v k = []) -> (forall k, smembers v k = ∅) -> queue_reachable v
| qr_step v v' : queue_reachable v -> queue_step v v' -> queue_reachable v'.

Definition queue_inv (v : V) : Prop :=
  (exists envs, payloads v ≡ₚ map model_dump_json envs
    /\ NoDup (map run_of envs)
    /\ (forall x, x ∈ smembers v dedupe <-> In x (map (fun e => str_of_Z (run_of e)) envs)))
  /\ (forall k, k ∈ smembers v workers -> exists w, In w ws /\ k = proc_key name w).

(** The list of one worker within the bag of all. *)
Lemma processing_split w : In w ws -> exists rest : V -> list str,
  (forall v, processing v ≡ₚ lrange v (proc_key name w) ++ rest v)
  /\ (forall v v', (forall w', w' <> w -> lrange v' (proc_key name w') = lrange v (proc_key name w')) ->
       rest v' = rest v).
Proof.
  intros Hw. apply in_split in Hw as (l1 & l2 & Hsplit).
  exists (fun v => flat_map (fun w => lrange v (proc_key name w)) l1
                   ++ flat_map (fun w => lrange v (proc_key name w)) l2).
  rewrite Hsplit in Hws. apply list.NoDup_app in Hws as (_ & Hd & Hn).
  inversion Hn as [|? ? Hw2 _]; subst. split.
  - intros v. unfold processing. rewrite Hsplit, flat_map_app. cbn.
    rewrite !app_assoc. apply Permutation_app_tail, Permutation_app_comm.
  - intros v v' Heq. f_equal; apply flat_map_agree; intros x Hx; apply Heq; intros ->.
    + apply list_elem_of_In in Hx. apply (Hd w Hx). by left.
    + apply Hw2. by apply list_elem_of_In.
Qed.

Lemma payloads_same v v' : (forall k, lrange v' k = lrange v k) -> payloads v' = payloads v.
Proof.
  intros Heq. unfold payloads, processing. rewrite Heq. f_equal.
  apply flat_map_agree. intros w _. apply Heq.
Qed.
Lemma inv_same v v' :
  (forall k, lrange v' k = lrange v k) -> (forall k, smembers v' k = smembers v k) ->
  queue_inv v -> queue_inv v'.
Proof.
  intros Hl Hs [(envs & Hp & Hn & Hd) Hw]. split.
  - exists envs. rewrite (payloads_same v v' Hl). setoid_rewrite Hs. done.
  - intros k. rewrite Hs. apply Hw.
Qed.

Lemma dump_inj a b : model_dump_json a = model_dump_json b -> a = b.
Proof.
  intros Heq. pose proof (envelope_round_trip a) as Ha. rewrite Heq, envelope_round_trip in Ha.
  by injection Ha as ->.
Qed.

(** The envelope behind a payload of the bag. *)
Lemma payload_envelope envs l e :
  model_dump_json e :: l ≡ₚ map model_dump_json envs ->
  exists envs', envs ≡ₚ e :: envs' /\ l ≡ₚ map model_dump_json envs'.
Proof.
  intros Hp. assert (Hin : In (model_dump_json e) (map model_dump_json envs)).
  { apply list_elem_of_In. rewrite <- Hp. by left. }
  apply in_map_iff in Hin as (e' & He' & Hin). apply dump_inj in He' as ->.
  apply in_split in Hin as (l1 & l2 & ->). exists (l1 ++ l2).
  assert (Hperm : l1 ++ e :: l2 ≡ₚ e :: (l1 ++ l2)) by (symmetry; apply Permutation_middle).
  split; [done|]. rewrite Hperm in Hp. cbn in Hp. by apply Permutation_cons_inv in Hp.
Qed.

Lemma run_strings_NoDup envs :
  NoDup (map run_of envs) -> NoDup (map (fun e => str_of_Z (run_of e)) envs).
Proof.
  intros Hn. rewrite <- (map_map run_of str_of_Z).
  apply NoDup_fmap_2; [|done]. intros a b. apply str_of_Z_inj.
Qed.

(** The bag of envelopes with its known run ids. *)
Definition bag_ok (v : V) (bag : list str) : Prop :=
  exists envs, bag ≡ₚ map model_dump_json envs /\ NoDup (map run_of envs)
    /\ (forall x, x ∈ smembers v dedupe <-> In x (map (fun e => str_of_Z (run_of e)) envs)).

Lemma bag_perm v bag bag' : bag ≡ₚ bag' -> bag_ok v bag -> bag_ok v bag'.
Proof. intros Hp (envs & H1 & H2 & H3). exists envs. split_and!; [by rewrite <- Hp|done..]. Qed.

Lemma bag_add v v' bag e :
  bag_ok v bag -> ~ (str_of_Z (run_of e) ∈ smembers v dedupe) ->
  smembers v' dedupe = {[str_of_Z (run_of e)]} ∪ smembers v dedupe ->
  bag_ok v' (model_dump_json e :: bag).
Proof.
  intros (envs & H1' & H2 & H3) Hnew Hd. exists (e :: envs). split_and!.
  - cbn. by rewrite H1'.
  - cbn. constructor; [|done]. intros Hin. apply Hnew, H3.
    apply list_elem_of_In, in_map_iff in Hin as (e' & He' & Hin). rewrite <- He'.
    by apply (in_map (fun e => str_of_Z (run_of e))).
  - intros x. rewrite Hd, elem_of_union, elem_of_singleton, H3. cbn.
    split; intros [->|?]; auto.
Qed.
Lemma bag_remove v v' bag e :
  bag_ok v (model_dump_json e :: bag) ->
  smembers v' dedupe = smembers v dedupe ∖ {[str_of_Z (run_of e)]} -> bag_ok v' bag.
Proof.
  intros (envs & H1' & H2 & H3) Hd. apply payload_envelope in H1' as (envs' & He & Hb).
  exists envs'. rewrite He in H2. cbn in H2. split_and!; [done|by inversion H2|].
  assert (Hnot : ~ In (str_of_Z (run_of e)) (map (fun e => str_of_Z (run_of e)) envs')).
  { change (NoDup (map run_of (e :: envs'))) in H2. apply run_strings_NoDup in H2.
    inversion H2. by rewrite <- list_elem_of_In. }
  intros x. rewrite Hd, elem_of_difference, elem_of_singleton, H3.
  assert (Hx : In x (map (fun e => str_of_Z (run_of e)) envs) <->
    In x (map (fun e => str_of_Z (run_of e)) (e :: envs'))).
  { rewrite <- !list_elem_of_In. by rewrite He. }
  rewrite Hx. cbn. split.
  - intros [[<-|Hin] Hne]; done.
  - intros Hin. split; [by right|]. by intros ->.
Qed.
Lemma bag_replace v v' bag e e' :
  run_of e' = run_of e -> bag_ok v (model_dump_json e :: bag) ->
  smembers v' dedupe = smembers v dedupe -> bag_ok v' (model_dump_json e' :: bag).
Proof.
  intros Hrun (envs & H1' & H2 & H3) Hd. apply payload_envelope in H1' as (envs' & He & Hb).
  exists (e' :: envs'). rewrite He in H2. split_and!.
  - cbn. by rewrite Hb.
  - cbn in *. by rewrite Hrun.
  - intros x. rewrite Hd, H3. rewrite <- !list_elem_of_In. rewrite He. cbn. by rewrite Hrun.
Qed.

(** A step that changes the pending list and the list of worker [w] only. *)
Lemma payloads_two w v v' : In w ws ->
  (forall k, k <> proc_key name w -> k <> name -> lrange v' k = lrange v k) ->
  exists rest, payloads v ≡ₚ lrange v name ++ lrange v (proc_key name w) ++ rest
    /\ payloads v' ≡ₚ lrange v' name ++ lrange v' (proc_key name w) ++ rest.
Proof.
  intros Hw Heq. destruct (processing_split w Hw) as (rest & Hs & Hr).
  exists (rest v). unfold payloads. rewrite (Hs v), (Hs v'). rewrite (Hr v v'); [done|].
  intros w' Hne. apply Heq; [|apply proc_key_pending].
  intros Hk. by apply Hne, (proc_key_inj name).
Qed.
Lemma pending_unchanged w v v' : In w ws ->
  (forall k, k <> proc_key name w -> lrange v' k = lrange v k) ->
  exists rest, payloads v ≡ₚ lrange v (proc_key name w) ++ rest
    /\ payloads v' ≡ₚ lrange v' (proc_key name w) ++ rest.
Proof.
  intros Hw Heq. destruct (payloads_two w v v' Hw) as (rest & H1 & H2); [auto|].
  exists (lrange v name ++ rest). rewrite H1, H2, (Heq name).
  - split; rewrite !app_assoc; apply Permutation_app_tail, Permutation_app_comm.
  - intros Hk. by apply (proc_key_pending name w).
Qed.

Lemma enqueue_inv r v :
  queue_inv v -> queue_inv (snd (_ENQUEUE_SCRIPT dedupe name (str_of_Z (aq_run_id r))
    (model_dump_json (new_envelope r)) v)).
Proof.
  intros [Hb Hw]. pose proof (enqueue_effect dedupe name (str_of_Z (aq_run_id r))
    (model_dump_json (new_envelope r)) v) as He.
  destruct (_ENQUEUE_SCRIPT _ _ _ _ v) as [n v']. cbn [snd].
  destruct He as [(Hin & _ & Hl & Hs)|(Hnot & _ & Hp & Ho & Hd & Hso)].
  - by apply (inv_same v).
  - split.
    + apply (bag_perm v' (model_dump_json (new_envelope r) :: payloads v)).
      * unfold payloads. rewrite Hp. cbn. f_equiv. f_equiv. unfold processing.
        rewrite (flat_map_agree (fun w => lrange v' (proc_key name w))
                   (fun w => lrange v (proc_key name w))); [done|].
        intros w _. apply Ho, proc_key_pending.
      * by apply (bag_add v v' (payloads v) (new_envelope r)).
    + intros k. rewrite Hso by apply set_keys_ne. apply Hw.
Qed.

Lemma heartbeat_inv w lease v : In w ws ->
  queue_inv v -> queue_inv (snd (heartbeat_script
    {| rq_name := name; rq_worker_id := w; rq_lease_seconds := lease |} v)).
Proof.
  intros Hin [Hb Hw].
  pose proof (heartbeat_effect {| rq_name := name; rq_worker_id := w; rq_lease_seconds := lease |} v) as He.
  destruct (heartbeat_script _ v) as [x v']. cbn [snd]. destruct He as (Hl & Hs & Hso & _).
  change (workers_key _) with workers in Hs, Hso.
  change (processing_key _) with (proc_key name w) in Hs. split.
  - rewrite (payloads_same v v' Hl). destruct Hb as (envs & H1 & H2 & H3). exists envs.
    rewrite Hso by (intros Hk; symmetry in Hk; by apply set_keys_ne in Hk). done.
  - intros k. rewrite Hs, elem_of_union, elem_of_singleton. intros [->|Hk]; [eauto|by apply Hw].
Qed.

Lemma take_inv w v : In w ws ->
  queue_inv v -> queue_inv (snd (rpoplpush name (proc_key name w) v)).
Proof.
  intros Hin [Hb Hw]. pose proof (take_effect name (proc_key name w) v
    (fun Hk => proc_key_pending name w (eq_sym Hk))) as He.
  destruct (rpoplpush _ _ v) as [o v']. cbn [snd].
  destruct He as [(_ & _ & ->)|(l & x & Hsrc & _ & Hl & Hd & Ho & Hs)]; [done|]. split.
  - assert (Hp : payloads v' ≡ₚ payloads v).
    { destruct (payloads_two w v v' Hin) as (rest & H1 & H2); [by intros k Hk1 Hk2; apply Ho|].
      rewrite H1, H2, Hl, Hd, Hsrc, <- app_assoc. done. }
    apply (bag_perm v' (payloads v)); [by symmetry|].
    destruct Hb as (envs & H1 & H2 & H3). exists envs. by rewrite Hs.
  - intros k. rewrite Hs. apply Hw.
Qed.

Lemma acknowledge_inv w e v : In w ws ->
  queue_inv v -> queue_inv (snd (_ACKNOWLEDGE_SCRIPT (proc_key name w) dedupe
    (model_dump_json e) (str_of_Z (run_of e)) v)).
Proof.
  intros Hin [Hb Hw]. pose proof (acknowledge_effect (proc_key name w) dedupe
    (model_dump_json e) (str_of_Z (run_of e)) v) as He.
  destruct (_ACKNOWLEDGE_SCRIPT _ _ _ _ v) as [n v']. cbn [snd].
  destruct He as [(_ & _ & Hl & Hs)|(Hx & _ & Hp & Ho & Hd & Hso)]; [by apply (inv_same v)|].
  destruct (pending_unchanged w v v' Hin Ho) as (rest & H1 & H2). split.
  - apply (bag_perm v' (remove_first (model_dump_json e) (lrange v (proc_key name w)) ++ rest)).
    { by rewrite H2, Hp. }
    apply (bag_remove v v' _ e); [|done]. eapply bag_perm; [|exact Hb].
    rewrite H1. by rewrite (remove_first_perm _ _ Hx) at 1.
  - intros k. rewrite Hso by apply set_keys_ne. apply Hw.
Qed.

Lemma retry_inv w e v : In w ws ->
  queue_inv v -> queue_inv (snd (_RETRY_SCRIPT (proc_key name w) name (model_dump_json e)
    (model_dump_json (retried e)) v)).
Proof.
  intros Hin [Hb Hw]. pose proof (retry_effect (proc_key name w) name (model_dump_json e)
    (model_dump_json (retried e)) v (proc_key_pending name w)) as He.
  destruct (_RETRY_SCRIPT _ _ _ _ v) as [n v']. cbn [snd].
  destruct He as [(_ & _ & Hl & Hs)|(Hx & _ & Hp & Hpend & Ho & Hs)]; [by apply (inv_same v)|].
  destruct (payloads_two w v v' Hin) as (rest & H1 & H2); [done|]. split.
  - apply (bag_perm v' (model_dump_json (retried e)
      :: lrange v name ++ remove_first (model_dump_json e) (lrange v (proc_key name w)) ++ rest)).
    { by rewrite H2, Hp, Hpend. }
    apply (bag_replace v v' _ e); [done| |by rewrite Hs]. eapply bag_perm; [|exact Hb].
    rewrite H1. rewrite (remove_first_perm _ _ Hx) at 1. cbn.
    by rewrite <- Permutation_middle.
  - intros k. rewrite Hs. apply Hw.
Qed.

Lemma recover_inv key v : key ∈ smembers v workers ->
  queue_inv v -> queue_inv (snd (_RECOVER_SCRIPT (lease_of key) key name workers v)).
Proof.
  intros Hk [Hb Hw]. destruct (Hw key Hk) as (w & Hin & ->).
  pose proof (recover_effect (lease_of (proc_key name w)) (proc_key name w) name workers v
    (proc_key_pending name w)) as He.
  destruct (_RECOVER_SCRIPT _ _ _ _ v) as [n v']. cbn [snd].
  destruct He as [(_ & _ & ->)|(_ & _ & Hp & Hpend & Ho & Hwk & Hso & _)]; [done|].
  destruct (payloads_two w v v' Hin) as (rest & H1 & H2); [done|]. split.
  - apply (bag_perm v' (payloads v)).
    { rewrite H1, H2, Hp, Hpend. cbn. rewrite !app_assoc. apply Permutation_app_tail, Permutation_app_comm. }
    destruct Hb as (envs & Hb1 & Hb2 & Hb3). exists envs.
    rewrite Hso by (intros Hx; symmetry in Hx; by apply set_keys_ne in Hx). done.
  - intros k. rewrite Hwk. intros [Hx _]%elem_of_difference. by apply Hw.
Qed.

(** C6: Whatever the interleaving of enqueues, heartbeats, takes, acknowledgements, retries,
    recoveries and lease expiries by any workers, no queued analysis is lost or
    duplicated: the payloads in the pending list and in all workers' lists are, up to
    order, the JSON of envelopes with pairwise different run ids, and the set of known
    run ids holds exactly those. *)
Theorem redis_no_loss_no_duplicate (v : V) (Hreach : queue_reachable v) :
  exists envelopes,
    payloads v ≡ₚ map model_dump_json envelopes
    /\ NoDup (map run_of envelopes)
    /\ (forall run, str_of_Z run ∈ smembers v dedupe <-> In run (map run_of envelopes)).
Proof.
  assert (Hinv : queue_inv v).
  { induction Hreach as [v Hl Hs|v v' Hr IH Hstep].
    - split; [|intros k; by rewrite Hs]. exists []. split_and!.
      + unfold payloads, processing. rewrite Hl. cbn.
        clear -Hl. induction ws as [|w l IH]; [done|]. cbn. by rewrite Hl.
      + constructor.
      + intros x. by rewrite Hs.
    - destruct Hstep; [by apply enqueue_inv|by apply heartbeat_inv|by apply take_inv
        |by apply acknowledge_inv|by apply retry_inv|by apply recover_inv|by eapply inv_same]. }
  destruct Hinv as [(envs & H1 & H2 & H3) _]. exists envs. split_and!; [done|done|].
  intros run. rewrite H3, <- (map_map run_of str_of_Z), in_map_iff. split.
  - intros (r & Heq & Hin). apply str_of_Z_inj in Heq as ->. done.
  - intros Hin. by exists run.
Qed.
End system.

(** ** A server and a codec that satisfy the assumptions *)

Record Keyspace := {
  ks_lists : gmap str (list str); ks_sets : gmap str (gset str); ks_keys : gset str }.
Definition empty_keyspace : Keyspace := {| ks_lists := ∅; ks_sets := ∅; ks_keys := ∅ |}.
Definition ks_range (v : Keyspace) (k : str) : list str := default [] (ks_lists v !! k).
Definition ks_members (v : Keyspace) (k : str) : gset str := default ∅ (ks_sets v !! k).
Definition set_list (k : str) (l : list str) (v : Keyspace) : Keyspace :=
  {| ks_lists := <[k := l]> (ks_lists v); ks_sets := ks_sets v; ks_keys := ks_keys v |}.
Definition set_set (k : str) (m : gset str) (v : Keyspace) : Keyspace :=
  {| ks_lists := ks_lists v; ks_sets := <[k := m]> (ks_sets v); ks_keys := ks_keys v |}.
Definition pop_right (l : list str) : option (str * list str) :=
  match rev l with [] => None | x :: r => Some (x, rev r) end.

#[export] Instance keyspace_server : RedisServer Keyspace := {|
  lrange := ks_range; smembers := ks_members;
  alive v k := bool_decide (k ∈ ks_keys v);
  sadd k x v := (if bool_decide (x ∈ ks_members v k) then 0 else 1,
                 set_set k ({[x]} ∪ ks_members v k) v);
  srem k x v := (if bool_decide (x ∈ ks_members v k) then 1 else 0,
                 set_set k (ks_members v k ∖ {[x]}) v);
  lpush k x v := (Z.of_nat (length (ks_range v k)) + 1, set_list k (x :: ks_range v k) v);
  rpop k v := match pop_right (ks_range v k) with
              | None => (None, v)
              | Some (x, l) => (Some x, set_list k l v)
              end;
  rpoplpush src dst v := match pop_right (ks_range v src) with
              | None => (None, v)
              | Some (x, l) => let v1 := set_list src l v in
                               (Some x, set_list dst (x :: ks_range v1 dst) v1)
              end;
  lrem1 k x v := (if bool_decide (x ∈ ks_range v k) then 1 else 0,
                  set_list k (remove_first x (ks_range v k)) v);
  set_ex k _ _ v := {| ks_lists := ks_lists v; ks_sets := ks_sets v;
                       ks_keys := {[k]} ∪ ks_keys v |}
|}.

Lemma set_list_changed k l v : list_changed k l v (set_list k l v).
Proof.
  unfold list_changed, set_list; cbn. unfold ks_range; cbn. split_and!; try done.
  - by rewrite lookup_insert_eq.
  - intros k' Hk. by rewrite lookup_insert_ne.
Qed.
Lemma set_set_changed k m v : set_changed k m v (set_set k m v).
Proof.
  unfold set_changed, set_set; cbn. unfold ks_members; cbn. split_and!; try done.
  - by rewrite lookup_insert_eq.
  - intros k' Hk. by rewrite lookup_insert_ne.
Qed.

#[export] Instance keyspace_laws : RedisLaws Keyspace.
Proof.
  split.
  - intros k x v. split; [done|apply set_set_changed].
  - intros k x v. apply set_set_changed.
  - intros k x v. apply set_list_changed.
  - intros k v. cbn. unfold pop_right. destruct (rev (ks_range v k)) as [|x r]; [done|].
    split; [done|apply set_list_changed].
  - intros src dst v Hne. cbn. unfold pop_right. destruct (rev (ks_range v src)) as [|x r]; [done|].
    split; [done|]. exists (set_list src (rev r) v). split; apply set_list_changed.
  - intros k x v. split; [done|apply set_list_changed].
  - intros k x t v. cbn. split_and!; try done.
    + apply bool_decide_eq_true. set_solver.
    + intros k' Hk. apply bool_decide_ext. rewrite elem_of_union, elem_of_singleton. tauto.
Qed.

Definition code_Z (z : Z) : str := [if z <? 0 then 1%N else 0%N; Z.abs_N z].
Definition decode_Z (sign n : N) : Z := if (sign =? 0)%N then Z.of_N n else - Z.of_N n.
Lemma decode_code_Z z : decode_Z (if z <? 0 then 1%N else 0%N) (Z.abs_N z) = z.
Proof. unfold decode_Z. destruct (Z.ltb_spec z 0); cbn; lia. Qed.
Definition code_envelope (e : QueueEnvelope) : str :=
  let r := qe_request e in
  code_Z (qe_attempts e) ++ code_Z (aq_run_id r) ++ code_Z (aq_installation_id r)
  ++ [N.of_nat (length (aq_repository r))] ++ aq_repository r ++ aq_head_sha r.
Definition decode_envelope (s : str) : outcome QueueEnvelope :=
  match s with
  | a :: a' :: b :: b' :: c :: c' :: n :: r =>
    Ok {| qe_request := {| aq_run_id := decode_Z b b'; aq_repository := take (N.to_nat n) r;
                           aq_installation_id := decode_Z c c';
                           aq_head_sha := drop (N.to_nat n) r |};
          qe_attempts := decode_Z a a' |}
  | _ => Raise (ValueError (u "invalid envelope"))
  end.
Lemma code_round_trip e : decode_envelope (code_envelope e) = Ok e.
Proof.
  destruct e as [[run repo inst sha] n]. unfold code_envelope, decode_envelope, code_Z.
  cbn [app qe_request qe_attempts aq_run_id aq_repository aq_installation_id aq_head_sha].
  by rewrite !decode_code_Z, Nnat.Nat2N.id, take_app_length, drop_app_length.
Qed.
#[export] Instance code_json : EnvelopeJson := {|
  model_dump_json := code_envelope; model_validate_json := decode_envelope;
  envelope_round_trip := code_round_trip |}.

Definition sample_request (run : Z) : AnalysisRequest :=
  {| aq_run_id := run; aq_repository := u "o/r"; aq_installation_id := 5; aq_head_sha := u "abc" |}.
Definition after_enqueue (run : Z) (v : Keyspace) : Keyspace :=
  snd (_ENQUEUE_SCRIPT (dedupe (u "q")) (u "q") (str_of_Z run)
         (model_dump_json (new_envelope (sample_request run))) v).

Lemma redis_no_loss_no_duplicate_witness :
  exists envelopes,
    payloads (u "q") [u "w1"; u "w2"]
      (snd (rpoplpush (u "q") (proc_key (u "q") (u "w1"))
        (after_enqueue 7 (after_enqueue 8 (after_enqueue 7 empty_keyspace)))))
    ≡ₚ map model_dump_json envelopes
    /\ NoDup (map run_of envelopes).
Proof.
  assert (Hws : NoDup [u "w1"; u "w2"]).
  { constructor; [|apply NoDup_singleton]. intros Hin%list_elem_of_singleton.
    vm_compute in Hin. discriminate Hin. }
  destruct (redis_no_loss_no_duplicate (u "q") [u "w1"; u "w2"] Hws
    (snd (rpoplpush (u "q") (proc_key (u "q") (u "w1"))
      (after_enqueue 7 (after_enqueue 8 (after_enqueue 7 empty_keyspace)))))) as (envs & H1 & H2 & _).
  - eapply qr_step; [|by apply q_take; left].
    do 3 (eapply qr_step; [|apply (q_enqueue _ _ (sample_request _))]).
    by apply qr_empty.
  - by exists envs.
Defined.

(** ** Both queues keep the contract *)

Lemma runs_app a b : runs (a ++ b) = runs a ++ runs b.
Proof. apply map_app. Qed.

Definition memory_rel (q : MemoryQueue) (p i : list QueueEnvelope) (o : list Z) : Prop :=
  mq_queue q = p /\ mq_unfinished q = Z.of_nat (length p + length i) /\ o = []
  /\ NoDup (runs p ++ runs i) /\ (forall z, z ∈ mq_run_ids q <-> In z (runs p ++ runs i)).

Lemma memory_enqueue_law r q p i o : memory_rel q p i o ->
  match memory_enqueue r q with
  | (Ok b, q') =>
    if bool_decide (aq_run_id r ∈ runs p ++ runs i ++ o)
    then b = false /\ memory_rel q' p i o
    else b = true /\ memory_rel q' (p ++ [new_envelope r]) i o
  | (Raise e, _) => False
  end.
Proof.
  intros (Hq & Hn & -> & Hd & Hids). unfold memory_enqueue. rewrite app_nil_r.
  assert (Hiff : aq_run_id r ∈ mq_run_ids q <-> aq_run_id r ∈ runs p ++ runs i)
    by (by rewrite Hids, list_elem_of_In).
  rewrite (bool_decide_ext _ _ Hiff). case_bool_decide as Hin; [by split_and!|].
  split; [done|]. unfold memory_rel, mq_put, mq_with_ids; cbn. rewrite Hq, length_app, runs_app.
  assert (Hp : runs p ++ [aq_run_id r] ++ runs i ≡ₚ aq_run_id r :: (runs p ++ runs i))
    by (cbn; symmetry; apply Permutation_middle).
  split_and!; [done|cbn; lia|done| |].
  - rewrite <- app_assoc. change (runs [new_envelope r]) with [aq_run_id r]. rewrite Hp.
    by constructor.
  - intros z. rewrite <- app_assoc, <- list_elem_of_In.
    change (runs [new_envelope r]) with [aq_run_id r]. rewrite Hp.
    rewrite elem_of_cons, elem_of_union, elem_of_singleton, Hids, list_elem_of_In. done.
Qed.

Lemma memory_acknowledge_law job q p i o : memory_rel q p (qj_envelope job :: i) o ->
  match memory_acknowledge job q with
  | (Ok _, q') => memory_rel q' p i o
  | (Raise e, _) => False
  end.
Proof.
  intros (Hq & Hn & -> & Hd & Hids). unfold memory_acknowledge, mq_task_done, Mbind.
  cbn in Hn. destruct (Z.leb_spec (mq_unfinished q) 0); [lia|]. cbn.
  assert (Hp : runs p ++ runs (qj_envelope job :: i) ≡ₚ run_of (qj_envelope job) :: (runs p ++ runs i))
    by (cbn; symmetry; apply Permutation_middle).
  rewrite Hp in Hd. inversion Hd as [|? ? Hnot Hd']; subst. unfold memory_rel; cbn.
  split_and!; [done|lia|done|done|].
  intros z. rewrite elem_of_difference, elem_of_singleton, Hids, <- !list_elem_of_In, Hp.
  rewrite elem_of_cons. split; [tauto|]. intros Hz. split; [by right|]. by intros ->.
Qed.

Lemma memory_retry_law job q p i o : memory_rel q p (qj_envelope job :: i) o ->
  match memory_retry job q with
  | (Ok _, q') => memory_rel q' (p ++ [retried (qj_envelope job)]) i o
  | (Raise e, _) => False
  end.
Proof.
  intros (Hq & Hn & -> & Hd & Hids). unfold memory_retry, mq_task_done, Mbind.
  cbn in Hn. destruct (Z.leb_spec (mq_unfinished q) 0); [lia|]. cbn.
  unfold memory_rel; cbn. rewrite Hq, length_app, runs_app, <- app_assoc. cbn.
  split_and!; [done|lia|done|done|done].
Qed.

#[export] Instance memory_contract : QueueContract MemoryQueue InMemoryAnalysisQueue.
Proof.
  refine {| q_rel := memory_rel; q_job := fun _ => True |}.
  - intros q p i i' o Hp (Hq & Hn & Ho & Hd & Hids). unfold memory_rel.
    assert (Hr : runs i ≡ₚ runs i') by (by apply Permutation_map).
    split_and!; [done|by rewrite <- Hp|done|by rewrite <- Hr|].
    intros z. by rewrite Hids, <- !list_elem_of_In, Hr.
  - intros q p i o (_ & _ & -> & Hd & _). by rewrite app_nil_r.
  - intros r q p i o Hrel. apply (memory_enqueue_law r) in Hrel. cbn.
    by destruct (memory_enqueue r q) as [[b|e] q'].
  - intros q p i o (Hq & Hn & -> & Hd & Hids). cbn. unfold memory_dequeue. rewrite Hq.
    destruct p as [|e p]; [done|]. split; [done|]. exists p. split; [done|]. cbn.
    assert (Hp : runs p ++ run_of e :: runs i ≡ₚ run_of e :: (runs p ++ runs i))
      by (symmetry; apply Permutation_middle).
    unfold memory_rel; cbn. split_and!; [done|cbn in Hn; lia|done| |].
    + change (NoDup (runs p ++ run_of e :: runs i)). by rewrite Hp.
    + intros z. rewrite Hids, <- !list_elem_of_In.
      change (z ∈ run_of e :: (runs p ++ runs i) <-> z ∈ runs p ++ run_of e :: runs i).
      by rewrite Hp.
  - intros job q p i o _ Hrel%memory_acknowledge_law. cbn.
    by destruct (memory_acknowledge job q) as [[b|e] q'].
  - intros job q p i o _ Hrel%memory_retry_law. cbn. by destruct (memory_retry job q) as [[b|e] q'].
  - intros q p i o Hrel. cbn. split; [|done]. by destruct Hrel as (-> & _).
Defined.

Section redis_contract.
Context {S V : Type} {RS : RedisServer V} {RL : RedisLaws V} {C : Conn S V} {CL : ConnLaws S V}
  {EJ : EnvelopeJson} (q : RedisQueue).

(** What the server holds. *)
Definition data_rel (v : V) (p i : list QueueEnvelope) (o : list Z) : Prop :=
  rev (lrange v (pending_key q)) = map model_dump_json p
  /\ lrange v (processing_key q) ≡ₚ map model_dump_json i
  /\ NoDup (runs p ++ runs i ++ o)
  /\ (forall x, x ∈ smembers v (dedupe_key q) <-> In x (map str_of_Z (runs p ++ runs i ++ o))).
Definition redis_rel (s : S) (p i : list QueueEnvelope) (o : list Z) : Prop :=
  data_rel (server s) p i o.
Definition redis_job (job : QueueJob) : Prop :=
  qj_receipt job = Some (model_dump_json (qj_envelope job)).

Lemma proc_pending_ne : processing_key q <> pending_key q.
Proof. apply proc_key_pending. Qed.
Lemma dedupe_workers_ne : workers_key q <> dedupe_key q.
Proof. apply set_keys_ne. Qed.

Lemma rel_data v v' p i o : same_data v v' -> data_rel v p i o -> data_rel v' p i o.
Proof.
  intros [Hl Hs] (H1 & H2 & H3 & H4). unfold data_rel. rewrite !Hl. setoid_rewrite Hs. done.
Qed.

(** A step through the connection: done, or in doubt. *)
Lemma call_run {A} (f : V -> A * V) (s : S) (P : A -> V -> Prop) :
  (let (a, v) := f (server s) in P a v) ->
  match call f s with
  | (Ok a, s') => P a (server s')
  | (Raise e, s') => connection_error e /\ (server s' = server s \/ exists a, P a (server s'))
  end.
Proof.
  intros Hf. pose proof (call_law A f s) as Hc. destruct (call f s) as [[a|e] s'].
  - by rewrite Hc in Hf.
  - destruct Hc as [He Hs]. split; [done|]. destruct Hs as [Hs|Hs]; rewrite Hs; [by left|right].
    destruct (f (server s)) as [a v]. by exists a.
Qed.

(** ** The steps on the server *)

Lemma heartbeat_step v p i o : data_rel v p i o -> data_rel (snd (heartbeat_script q v)) p i o.
Proof.
  intros (H1 & H2 & H3 & H4). destruct (heartbeat_effect q v) as (Hl & _ & Hso & _).
  unfold data_rel. rewrite !Hl.
  rewrite Hso by (intros Hk; symmetry in Hk; by apply dedupe_workers_ne in Hk). done.
Qed.

Lemma enqueue_step r v p i o : data_rel v p i o ->
  let (n, v') := _ENQUEUE_SCRIPT (dedupe_key q) (pending_key q) (str_of_Z (aq_run_id r))
    (model_dump_json (new_envelope r)) v in
  if bool_decide (aq_run_id r ∈ runs p ++ runs i ++ o)
  then n = 0 /\ data_rel v' p i o else n = 1 /\ data_rel v' (p ++ [new_envelope r]) i o.
Proof.
  intros Hrel. pose proof Hrel as (H1 & H2 & H3 & H4).
  pose proof (enqueue_effect (dedupe_key q) (pending_key q) (str_of_Z (aq_run_id r))
    (model_dump_json (new_envelope r)) v) as He.
  destruct (_ENQUEUE_SCRIPT _ _ _ _ v) as [n v'].
  assert (Hiff : str_of_Z (aq_run_id r) ∈ smembers v (dedupe_key q)
    <-> aq_run_id r ∈ runs p ++ runs i ++ o).
  { rewrite H4, in_map_iff, list_elem_of_In. split; [|by eauto].
    by intros (z & ->%str_of_Z_inj & Hz). }
  rewrite <- (bool_decide_ext _ _ Hiff).
  destruct He as [(Hin & -> & Hsame)|(Hnot & -> & Hp & Ho & Hd & Hso)].
  - rewrite bool_decide_true by done. split; [done|]. by apply (rel_data v).
  - rewrite bool_decide_false by done. split; [done|].
    assert (Hperm : runs (p ++ [new_envelope r]) ++ runs i ++ o
      ≡ₚ aq_run_id r :: (runs p ++ runs i ++ o)).
    { rewrite runs_app, <- app_assoc. symmetry. apply Permutation_middle. }
    unfold data_rel. rewrite Hp, (Ho (processing_key q)) by apply proc_pending_ne.
    split_and!.
    + cbn. by rewrite H1, map_app.
    + done.
    + rewrite Hperm. constructor; [|done]. by rewrite <- Hiff.
    + intros x. rewrite Hd, elem_of_union, elem_of_singleton, H4.
      rewrite <- !list_elem_of_In, Hperm. cbn [map]. by rewrite elem_of_cons.
Qed.

Lemma take_step v p i o : data_rel v p i o ->
  let (raw, v') := rpoplpush (pending_key q) (processing_key q) v in
  match raw with
  | None => p = [] /\ data_rel v' p i o
  | Some x => exists e p', x = model_dump_json e /\ p = e :: p' /\ data_rel v' p' (e :: i) o
  end.
Proof.
  intros Hrel. pose proof Hrel as (H1 & H2 & H3 & H4).
  pose proof (take_effect (pending_key q) (processing_key q) v
    (fun Hk => proc_pending_ne (eq_sym Hk))) as He.
  destruct (rpoplpush _ _ v) as [raw v'].
  destruct He as [(Hnil & -> & Hsame)|(l & x & Hsrc & -> & Hl & Hd & Ho & Hs)].
  - rewrite Hnil in H1. destruct p; [|done]. split; [done|]. by rewrite Hsame.
  - rewrite Hsrc, rev_app_distr in H1. destruct p as [|e p]; [done|]. injection H1 as -> H1.
    exists e, p. split_and!; [done|done|].
    assert (Hperm : runs (e :: p) ++ runs i ++ o ≡ₚ runs p ++ runs (e :: i) ++ o).
    { cbn. apply Permutation_middle. }
    unfold data_rel. rewrite Hl, Hd, Hs. split_and!; [done| | |].
    + cbn. by rewrite H2.
    + by rewrite <- Hperm.
    + intros y. rewrite H4, <- !list_elem_of_In. by rewrite Hperm.
Qed.

Lemma acknowledge_step e v p i o : data_rel v p (e :: i) o ->
  data_rel (snd (_ACKNOWLEDGE_SCRIPT (processing_key q) (dedupe_key q) (model_dump_json e)
    (str_of_Z (run_of e)) v)) p i o.
Proof.
  intros (H1 & H2 & H3 & H4).
  pose proof (acknowledge_effect (processing_key q) (dedupe_key q) (model_dump_json e)
    (str_of_Z (run_of e)) v) as He. destruct (_ACKNOWLEDGE_SCRIPT _ _ _ _ v) as [n v'].
  destruct He as [(Hnot & _)|(Hin & _ & Hp & Ho & Hd & Hso)].
  { destruct Hnot. rewrite H2. by left. }
  assert (Hperm : runs p ++ runs (e :: i) ++ o ≡ₚ run_of e :: (runs p ++ runs i ++ o)).
  { cbn. symmetry. apply Permutation_middle. }
  rewrite Hperm in H3. inversion H3 as [|? ? Hnot Hd']; subst.
  unfold data_rel. cbn [snd].
  rewrite (Ho (pending_key q)) by (intros Hk; symmetry in Hk; by apply proc_pending_ne in Hk).
  rewrite Hp. split_and!; [done| |done|].
  - rewrite (remove_first_perm _ _ Hin) in H2. cbn in H2. by apply Permutation_cons_inv in H2.
  - intros x. rewrite Hd, elem_of_difference, elem_of_singleton, H4, <- !list_elem_of_In.
    rewrite Hperm. cbn [map]. rewrite elem_of_cons. split; [tauto|]. intros Hx.
    split; [by right|]. intros ->. apply Hnot.
    apply list_elem_of_In, in_map_iff in Hx as (z & ->%str_of_Z_inj & Hz).
    by apply list_elem_of_In.
Qed.

Lemma retry_step e v p i o : data_rel v p (e :: i) o ->
  data_rel (snd (_RETRY_SCRIPT (processing_key q) (pending_key q) (model_dump_json e)
    (model_dump_json (retried e)) v)) (p ++ [retried e]) i o.
Proof.
  intros (H1 & H2 & H3 & H4).
  pose proof (retry_effect (processing_key q) (pending_key q) (model_dump_json e)
    (model_dump_json (retried e)) v proc_pending_ne) as He.
  destruct (_RETRY_SCRIPT _ _ _ _ v) as [n v'].
  destruct He as [(Hnot & _)|(Hin & _ & Hp & Hpend & Ho & Hs)].
  { destruct Hnot. rewrite H2. by left. }
  assert (Hperm : runs p ++ runs (e :: i) ++ o ≡ₚ runs (p ++ [retried e]) ++ runs i ++ o).
  { rewrite runs_app, <- app_assoc. done. }
  unfold data_rel. cbn [snd]. rewrite Hp, Hpend, Hs. split_and!.
  - cbn. by rewrite H1, map_app.
  - rewrite (remove_first_perm _ _ Hin) in H2. cbn in H2. by apply Permutation_cons_inv in H2.
  - by rewrite <- Hperm.
  - intros x. rewrite H4, <- !list_elem_of_In. by rewrite Hperm.
Qed.

(** ** The operations through the connection *)

Lemma redis_enqueue_law r s p i o : redis_rel s p i o ->
  match redis_enqueue q r s with
  | (Ok b, s') =>
    if bool_decide (aq_run_id r ∈ runs p ++ runs i ++ o)
    then b = false /\ redis_rel s' p i o
    else b = true /\ redis_rel s' (p ++ [new_envelope r]) i o
  | (Raise e, s') => connection_error e
    /\ (redis_rel s' p i o \/ redis_rel s' (p ++ [new_envelope r]) i o)
  end.
Proof.
  intros Hrel. unfold redis_enqueue, Mbind, redis_rel.
  pose proof (call_run _ _ _ (enqueue_step r _ _ _ _ Hrel)) as H.
  destruct (call _ s) as [[n|e] s'].
  - case_bool_decide; by destruct H as [-> H].
  - destruct H as [He [->|[a H] ] ]; (split; [done|]); [by left|].
    case_bool_decide; destruct H as [_ H]; [by left|by right].
Qed.

Lemma redis_dequeue_law s p i o : redis_rel s p i o ->
  match redis_dequeue q s with
  | (Ok None, s') => p = [] /\ redis_rel s' p i o
  | (Ok (Some job), s') => redis_job job /\ exists p', p = qj_envelope job :: p'
      /\ redis_rel s' p' (qj_envelope job :: i) o
  | (Raise e, s') => connection_error e
    /\ (redis_rel s' p i o \/ exists e0 p', p = e0 :: p' /\ redis_rel s' p' (e0 :: i) o)
  end.
Proof.
  intros Hrel. unfold redis_dequeue, redis_heartbeat, Mbind.
  assert (Hh : let (a, v) := heartbeat_script q (server s) in data_rel v p i o)
    by (pose proof (heartbeat_step _ _ _ _ Hrel) as Hh; by destruct (heartbeat_script _ _)).
  apply (call_run _ _ (fun _ v => data_rel v p i o)) in Hh.
  destruct (call (heartbeat_script q) s) as [[[]|e] s1].
  2: { destruct Hh as [He [Hs|[a Hs] ] ]; (split; [done|]); left; [|done].
       unfold redis_rel. by rewrite Hs. }
  pose proof (call_run _ _ _ (take_step _ _ _ _ Hh)) as H.
  destruct (call _ s1) as [[[x|]|e] s'].
  - destruct H as (e & p' & -> & -> & H). unfold Mlift. rewrite envelope_round_trip.
    cbn. split; [done|]. by exists p'.
  - done.
  - destruct H as [He [Hs|[[x|] H] ] ]; (split; [done|]).
    + left. unfold redis_rel. by rewrite Hs.
    + right. destruct H as (e0 & p' & _ & -> & H). by exists e0, p'.
    + left. apply H.
Qed.

Lemma redis_acknowledge_law job s p i o : redis_job job -> redis_rel s p (qj_envelope job :: i) o ->
  match redis_acknowledge q job s with
  | (Ok _, s') => redis_rel s' p i o
  | (Raise e, s') => connection_error e
    /\ (redis_rel s' p (qj_envelope job :: i) o \/ redis_rel s' p i o)
  end.
Proof.
  intros Hj Hrel. unfold redis_acknowledge. rewrite Hj. unfold Mbind.
  set (script := _ACKNOWLEDGE_SCRIPT _ _ _ _).
  assert (H : let (a, v) := script (server s) in data_rel v p i o)
    by (pose proof (acknowledge_step _ _ _ _ _ Hrel) as H; subst script; by destruct (_ACKNOWLEDGE_SCRIPT _ _ _ _ _)).
  apply (call_run _ _ (fun _ v => data_rel v p i o)) in H.
  destruct (call script s) as [[n|e] s']; [done|].
  destruct H as [He [Hs|[a H] ] ]; (split; [done|]); [left|by right].
  unfold redis_rel. by rewrite Hs.
Qed.

Lemma redis_retry_law job s p i o : redis_job job -> redis_rel s p (qj_envelope job :: i) o ->
  match redis_retry q job s with
  | (Ok _, s') => redis_rel s' (p ++ [retried (qj_envelope job)]) i o
  | (Raise e, s') => connection_error e
    /\ (redis_rel s' p (qj_envelope job :: i) o
        \/ redis_rel s' (p ++ [retried (qj_envelope job)]) i o)
  end.
Proof.
  intros Hj Hrel. unfold redis_retry. rewrite Hj. unfold Mbind.
  set (script := _RETRY_SCRIPT _ _ _ _).
  assert (H : let (a, v) := script (server s) in data_rel v (p ++ [retried (qj_envelope job)]) i o)
    by (pose proof (retry_step _ _ _ _ _ Hrel) as H; subst script; by destruct (_RETRY_SCRIPT _ _ _ _ _)).
  apply (call_run _ _ (fun _ v => data_rel v (p ++ [retried (qj_envelope job)]) i o)) in H.
  destruct (call script s) as [[n|e] s']; [done|].
  destruct H as [He [Hs|[a H] ] ]; (split; [done|]); [left|by right].
  unfold redis_rel. by rewrite Hs.
Qed.

#[export] Instance redis_contract : QueueContract S (RedisAnalysisQueue q).
Proof.
  refine {| q_rel := redis_rel; q_job := redis_job |}.
  - intros s p i i' o Hp (H1 & H2 & H3 & H4). unfold redis_rel, data_rel.
    assert (Hr : runs i ≡ₚ runs i') by (by apply Permutation_map).
    split_and!; [done|by rewrite H2, Hp|by rewrite <- Hr|].
    intros x. by rewrite H4, <- !list_elem_of_In, Hr.
  - intros s p i o (_ & _ & Hd & _). done.
  - apply redis_enqueue_law.
  - apply redis_dequeue_law.
  - apply redis_acknowledge_law.
  - apply redis_retry_law.
  - intros s p i o Hrel. cbn. unfold redis_size.
    pose proof (call_run (fun v => (Z.of_nat (length (lrange v (pending_key q))), v)) s
      (fun n v => n = Z.of_nat (length p) /\ data_rel v p i o)) as H.
    destruct (call _ s) as [[n|e] s'].
    + apply H. split; [|done]. destruct Hrel as (H1 & _). apply (f_equal length) in H1.
      rewrite length_rev, length_map in H1. by rewrite H1.
    + destruct H as [He [Hs|[a [_ H] ] ] ]; [|split; [done|]..]; [|unfold redis_rel; by rewrite Hs|done].
      split; [|done]. destruct Hrel as (H1 & _). apply (f_equal length) in H1.
      rewrite length_rev, length_map in H1. by rewrite H1.
Defined.
End redis_contract.

(** ** Recovery of orphaned jobs *)

Section recovery.
Context {S V : Type} {RS : RedisServer V} {RL : RedisLaws V} {C : Conn S V} {CL : ConnLaws S V}
  {EJ : EnvelopeJson} (q : RedisQueue).

(** The list of another worker whose lease has expired. *)
Definition orphan (v : V) (k : str) : bool :=
  negb (str_eqb k (processing_key q)) && negb (alive v (lease_of k)).
Definition orphaned_items (v : V) (keys : list str) : list str :=
  flat_map (fun k => if orphan v k then lrange v k else []) keys.

Definition recovered (v : V) (keys : list str) (v' : V) : Prop :=
  lrange v' (pending_key q) ≡ₚ orphaned_items v keys ++ lrange v (pending_key q)
  /\ (forall k, In k keys -> orphan v k = true -> lrange v' k = [])
  /\ (forall k, k <> pending_key q -> ~ (In k keys /\ orphan v k = true) ->
       lrange v' k = lrange v k)
  /\ (forall k, k ∈ smembers v' (workers_key q) <->
       k ∈ smembers v (workers_key q) /\ ~ (In k keys /\ orphan v k = true))
  /\ (forall k, k <> workers_key q -> smembers v' k = smembers v k)
  /\ (forall k, alive v' k = alive v k).

Lemma orphaned_items_ext v v' keys :
  (forall k, In k keys -> lrange v' k = lrange v k) -> (forall k, alive v' k = alive v k) ->
  orphaned_items v' keys = orphaned_items v keys.
Proof.
  intros Hl Ha. apply flat_map_agree. intros k Hk. unfold orphan. by rewrite Hl, Ha.
Qed.

Lemma recover_keys_spec keys acc (s : S) :
  NoDup keys -> ~ In (pending_key q) keys ->
  match recover_keys q keys acc s with
  | (Ok n, s') => n = acc + Z.of_nat (length (orphaned_items (server s) keys))
                  /\ recovered (server s) keys (server s')
  | (Raise e, _) => connection_error e
  end.
Proof.
  revert acc s. induction keys as [|key keys IH]; intros acc s Hn Hp; cbn [recover_keys].
  { cbn. split; [lia|]. unfold recovered. split_and!; try done. intros k. cbn. tauto. }
  inversion Hn as [|? ? Hkey Hn']; subst. rewrite list_elem_of_In in Hkey.
  assert (Hp' : ~ In (pending_key q) keys) by (intros Hx; apply Hp; by right).
  assert (Hkp : key <> pending_key q) by (intros ->; apply Hp; by left).
  assert (Hiff : orphan (server s) key = false -> forall k,
    In k (key :: keys) /\ orphan (server s) k = true <-> In k keys /\ orphan (server s) k = true).
  { intros Hor k. split; [|by intros [? ?]; split; [right|]].
    intros [[->|Hk] Hok]; [congruence|done]. }
  assert (Hskip : orphan (server s) key = false -> forall s0, server s0 = server s ->
    match recover_keys q keys acc s0 with
    | (Ok n, s') => n = acc + Z.of_nat (length (orphaned_items (server s) (key :: keys)))
                    /\ recovered (server s) (key :: keys) (server s')
    | (Raise e, _) => connection_error e
    end).
  { intros Ho s0 Hs0. specialize (IH acc s0 Hn' Hp'). rewrite Hs0 in IH.
    destruct (recover_keys q keys acc s0) as [[n|e] s']; [|done].
    assert (Hi : orphaned_items (server s) (key :: keys) = orphaned_items (server s) keys)
      by (unfold orphaned_items; cbn; by rewrite Ho).
    unfold recovered. rewrite Hi. destruct IH as (Hlen & H1 & H2 & H3 & H4 & H5 & H6).
    specialize (Hiff Ho). split_and!; try done.
    - intros k Hk Hok. apply H2; [|done]. by apply (proj1 (Hiff k) (conj Hk Hok)).
    - intros k Hk Hnot. apply H3; [done|]. by rewrite <- Hiff.
    - intros k. by rewrite Hiff. }
  destruct (str_eqb key (processing_key q)) eqn:Eown.
  { apply Hskip; [|done]. unfold orphan. by rewrite Eown. }
  unfold Mbind. set (script := _RECOVER_SCRIPT _ _ _ _).
  pose proof (call_law Z script s) as Hc. destruct (call script s) as [[n|e] s1]; [|by destruct Hc].
  pose proof (recover_effect (lease_of key) key (pending_key q) (workers_key q) (server s) Hkp) as He.
  fold script in He. rewrite Hc in He.
  destruct He as [(Ha & -> & Hs1)|(Ha & -> & Hl & Hpend & Ho & Hw & Hso & Hal)].
  { rewrite Z.add_0_r. apply Hskip; [|done]. unfold orphan. by rewrite Ha, andb_false_r. }
  assert (Hor : orphan (server s) key = true) by (unfold orphan; by rewrite Eown, Ha).
  specialize (IH (acc + Z.of_nat (length (lrange (server s) key))) s1 Hn' Hp').
  destruct (recover_keys q keys _ s1) as [[n|e] s']; [|done].
  assert (Hext : orphaned_items (server s1) keys = orphaned_items (server s) keys).
  { apply orphaned_items_ext; [|done]. intros k Hk. apply Ho; by intros ->. }
  assert (Horph : forall k, orphan (server s1) k = orphan (server s) k)
    by (intros k; unfold orphan; by rewrite Hal).
  assert (Hi : orphaned_items (server s) (key :: keys)
    = lrange (server s) key ++ orphaned_items (server s) keys)
    by (unfold orphaned_items; cbn; by rewrite Hor).
  destruct IH as (-> & H1 & H2 & H3 & H4 & H5 & H6). rewrite Hext in *.
  unfold recovered. rewrite Hi, length_app. split_and!.
  - lia.
  - rewrite H1, Hpend. rewrite !app_assoc. apply Permutation_app_tail, Permutation_app_comm.
  - intros k [<-|Hk] Hok; [|by apply H2; [|rewrite Horph]].
    rewrite H3; [done|done|]. by intros [? _].
  - intros k Hk Hnot. rewrite H3; [apply Ho; [|done]|done|].
    + intros ->. apply Hnot. split; [by left|done].
    + rewrite Horph. intros [Hin Hok]. apply Hnot. split; [by right|done].
  - intros k. rewrite H4, Hw, elem_of_difference, elem_of_singleton, Horph. cbn. split.
    + intros [[Hk Hne] Hnot]. split; [done|]. intros [[->|Hin] Hok]; [done|]. by apply Hnot.
    + intros [Hk Hnot]. split.
      * split; [done|]. intros ->. apply Hnot. auto.
      * intros [Hin Hok]. apply Hnot. auto.
  - intros k Hk. by rewrite H5, Hso.
  - intros k. by rewrite H6, Hal.
Qed.

(** Recovery moves every job of every other registered worker whose lease has expired back
    to the pending list, counts them, empties those workers' lists and forgets the
    workers; it takes nothing from workers with a live lease or from its own list, and
    keeps the known run ids.  Only a connection error can interrupt it. *)
Theorem redis_recover_orphaned_spec (s : S)
    (Hkeys : ~ (pending_key q ∈ smembers (server s) (workers_key q))) :
  let registered := elements (smembers (server s) (workers_key q)) in
  match redis_recover_orphaned q s with
  | (Ok n, s') => n = Z.of_nat (length (orphaned_items (server s) registered))
                  /\ recovered (server s) registered (server s')
                  /\ smembers (server s') (dedupe_key q) = smembers (server s) (dedupe_key q)
  | (Raise e, _) => connection_error e
  end.
Proof.
  intros registered. unfold redis_recover_orphaned, Mbind.
  set (f := fun v => _). pose proof (call_law _ f s) as Hc.
  destruct (call f s) as [[keys|e] s0]; [|by destruct Hc]. unfold f in Hc.
  injection Hc as <- Hs0. fold registered.
  pose proof (recover_keys_spec registered 0 s0) as Hr. rewrite <- Hs0 in Hr.
  destruct (recover_keys q registered 0 s0) as [[n|e] s'].
  - destruct Hr as (-> & Hrec); [apply NoDup_elements| |].
    + intros Hin. apply Hkeys. by apply list_elem_of_In, elem_of_elements in Hin.
    + split_and!; [done|done|]. destruct Hrec as (_ & _ & _ & _ & Hs & _). apply Hs.
      intros Hk. symmetry in Hk. by apply set_keys_ne in Hk.
  - apply Hr; [apply NoDup_elements|]. intros Hin. apply Hkeys.
    by apply list_elem_of_In, elem_of_elements in Hin.
Qed.
End recovery.

(** A connection that never fails. *)
#[export] Instance direct_conn : Conn Keyspace Keyspace :=
  {| server := fun v => v; call := fun A f s => (Ok (fst (f s)), snd (f s)) |}.
#[export] Instance direct_laws : ConnLaws Keyspace Keyspace.
Proof. split. intros A f s. cbn. by destruct (f s). Qed.

Definition worker (w : str) : RedisQueue :=
  {| rq_name := u "q"; rq_worker_id := w; rq_lease_seconds := 60 |}.
(** Worker w1 took a job and lost its lease. *)
Definition orphaned_state : Keyspace :=
  let v := snd (redis_dequeue (worker (u "w1")) (after_enqueue 7 empty_keyspace)) in
  {| ks_lists := ks_lists v; ks_sets := ks_sets v; ks_keys := ∅ |}.

Lemma redis_recover_orphaned_spec_witness :
  fst (redis_recover_orphaned (worker (u "w2")) orphaned_state) = Ok 1
  /\ recovered (worker (u "w2")) orphaned_state
       (elements (smembers orphaned_state (workers_key (worker (u "w2")))))
       (snd (redis_recover_orphaned (worker (u "w2")) orphaned_state)).
Proof.
  assert (Hkeys : ~ (pending_key (worker (u "w2")) ∈
    smembers (server orphaned_state) (workers_key (worker (u "w2"))))).
  { refine (proj1 (bool_decide_eq_false _) _). vm_compute. reflexivity. }
  pose proof (redis_recover_orphaned_spec (worker (u "w2")) orphaned_state Hkeys) as Hr.
  split; [vm_compute; reflexivity|].
  cbv zeta in Hr. destruct (redis_recover_orphaned (worker (u "w2")) orphaned_state) as [[n|e] s'] eqn:E.
  - destruct Hr as (_ & Hr & _). exact Hr.
  - vm_compute in E. discriminate E.
Defined.

(** C12: The Redis queue implements the abstract queue: related to pending envelopes [p] (next
    first), held jobs [i] and other clients' runs [o], enqueue appends a new envelope
    exactly when its run is nowhere in the queue, dequeue hands out the first pending
    envelope with its receipt, acknowledge forgets a held job and its run, retry appends
    it with one more attempt and keeps its run known; only connection errors escape. *)
Theorem redis_queue_refines {S V : Type} {RS : RedisServer V} {RL : RedisLaws V} {C : Conn S V}
    {CL : ConnLaws S V} {EJ : EnvelopeJson} (q : RedisQueue) (s : S)
    (p i : list QueueEnvelope) (o : list Z) (Hrel : redis_rel q s p i o) :
  (forall r, match redis_enqueue q r s with
    | (Ok b, s') =>
      if bool_decide (aq_run_id r ∈ runs p ++ runs i ++ o)
      then b = false /\ redis_rel q s' p i o
      else b = true /\ redis_rel q s' (p ++ [new_envelope r]) i o
    | (Raise e, _) => connection_error e
    end)
  /\ match redis_dequeue q s with
     | (Ok None, s') => p = [] /\ redis_rel q s' p i o
     | (Ok (Some job), s') => redis_job job /\ exists p', p = qj_envelope job :: p'
         /\ redis_rel q s' p' (qj_envelope job :: i) o
     | (Raise e, _) => connection_error e
     end
  /\ (forall job i', redis_job job -> i ≡ₚ qj_envelope job :: i' ->
       match redis_acknowledge q job s with
       | (Ok _, s') => redis_rel q s' p i' o
       | (Raise e, _) => connection_error e
       end
       /\ match redis_retry q job s with
          | (Ok _, s') => redis_rel q s' (p ++ [retried (qj_envelope job)]) i' o
          | (Raise e, _) => connection_error e
          end).
Proof.
  split_and!.
  - intros r. apply (redis_enqueue_law q r) in Hrel.
    destruct (redis_enqueue q r s) as [[b|e] s']; [done|apply Hrel].
  - apply redis_dequeue_law in Hrel.
    destruct (redis_dequeue q s) as [[[job|]|e] s']; [done|done|apply Hrel].
  - intros job i' Hj Hi. apply (q_rel_perm (QueueContract := redis_contract q) _ _ _ _ _ Hi) in Hrel.
    pose proof (redis_acknowledge_law q job _ _ _ _ Hj Hrel) as Ha.
    pose proof (redis_retry_law q job _ _ _ _ Hj Hrel) as Hr. split.
    + destruct (redis_acknowledge q job s) as [[[]|e] s']; [done|apply Ha].
    + destruct (redis_retry q job s) as [[[]|e] s']; [done|apply Hr].
Qed.

Lemma redis_queue_refines_witness :
  exists s', redis_enqueue (worker (u "w1")) (sample_request 7) empty_keyspace = (Ok true, s')
    /\ redis_rel (worker (u "w1")) s' [new_envelope (sample_request 7)] [] [].
Proof.
  destruct (redis_queue_refines (worker (u "w1")) empty_keyspace [] [] []) as (H & _).
  - unfold redis_rel. split_and!; [reflexivity|reflexivity|constructor|].
    intros x. split; [intros Hx; apply elem_of_empty in Hx; destruct Hx|intros []].
  - specialize (H (sample_request 7)).
    destruct (redis_enqueue (worker (u "w1")) (sample_request 7) empty_keyspace) as [[b|e] s'] eqn:E.
    + exists s'. destruct (bool_decide _) eqn:Ed in H.
      * vm_compute in Ed. discriminate Ed.
      * destruct H as [-> H]. split; [reflexivity|exact H].
    + vm_compute in E. discriminate E.
Defined.
