(* ===== verification/Metrics.v ===== *)
(** * Prometheus metrics (src/pipelens/metrics.py)

    The metric families with their kind and label names, the registry as the
    sequence of updates, the two recording methods, and the value a counter
    shows.  Durations are observed in seconds. *)

From Stdlib Require Import QArith Lqa.
From stdpp Require Import base list strings numbers.
From S2P Require Import Prelude.

Inductive metric :=
| webhooks | analyses | analysis_duration | queue_wait | total_latency | slo_results
| error_categories | analysis_trust | redactions | log_chunks | llm_requests | llm_duration
| llm_tokens | llm_estimated_cost | queue_depth | queue_retries | queue_recovered
| queue_reconciled | queue_connection_errors | queue_reconnections | queue_recovery_duration
| http_retries | feedback_total | patch_proposals | resolutions | recovery_duration.
#[export] Instance metric_eq : EqDecision metric.
Proof. solve_decision. Defined.

Inductive metric_kind := Counter | Gauge | Histogram.
Definition kind_of (m : metric) : metric_kind :=
  match m with
  | queue_depth => Gauge
  | analysis_duration | queue_wait | total_latency | llm_duration | queue_recovery_duration
  | recovery_duration => Histogram
  | _ => Counter
  end.
Definition label_names (m : metric) : list str :=
  match m with
  | webhooks => [u "outcome"]
  | analyses => [u "status"]
  | slo_results => [u "phase"; u "outcome"]
  | error_categories => [u "category"]
  | analysis_trust => [u "level"]
  | redactions | log_chunks => [u "kind"]
  | llm_requests => [u "model"; u "status"]
  | llm_duration | llm_estimated_cost => [u "model"]
  | llm_tokens => [u "model"; u "direction"]
  | queue_connection_errors | queue_reconnections | queue_recovery_duration => [u "phase"]
  | http_retries => [u "provider"; u "reason"]
  | feedback_total => [u "dimension"; u "value"]
  | patch_proposals => [u "source"; u "outcome"]
  | resolutions | recovery_duration => [u "outcome"]
  | analysis_duration | queue_wait | total_latency | queue_depth | queue_retries
  | queue_recovered | queue_reconciled => []
  end.

Definition metric_name (m : metric) : str :=
  match m with
  | webhooks => u "pipelens_webhooks_total"
  | analyses => u "pipelens_analyses_total"
  | analysis_duration => u "pipelens_analysis_duration_seconds"
  | queue_wait => u "pipelens_queue_wait_seconds"
  | total_latency => u "pipelens_total_latency_seconds"
  | slo_results => u "pipelens_slo_results_total"
  | error_categories => u "pipelens_error_categories_total"
  | analysis_trust => u "pipelens_analysis_trust_total"
  | redactions => u "pipelens_redactions_total"
  | log_chunks => u "pipelens_log_chunks_total"
  | llm_requests => u "pipelens_llm_requests_total"
  | llm_duration => u "pipelens_llm_duration_seconds"
  | llm_tokens => u "pipelens_llm_tokens_total"
  | llm_estimated_cost => u "pipelens_llm_estimated_cost_usd_total"
  | queue_depth => u "pipelens_analysis_queue_depth"
  | queue_retries => u "pipelens_queue_retries_total"
  | queue_recovered => u "pipelens_queue_recovered_total"
  | queue_reconciled => u "pipelens_queue_reconciled_total"
  | queue_connection_errors => u "pipelens_queue_connection_errors_total"
  | queue_reconnections => u "pipelens_queue_reconnections_total"
  | queue_recovery_duration => u "pipelens_queue_recovery_duration_seconds"
  | http_retries => u "pipelens_http_retries_total"
  | feedback_total => u "pipelens_feedback_total"
  | patch_proposals => u "pipelens_patch_proposals_total"
  | resolutions => u "pipelens_resolution_outcomes_total"
  | recovery_duration => u "pipelens_recovery_seconds"
  end.

(** One update of the registry: .labels(values).inc(v), .observe(v) or .set(v). *)
Record Sample := { sm_metric : metric; sm_labels : list str; sm_value : Q }.
Definition Registry := list Sample.

Definition sample (m : metric) (labels : list str) (v : Q) : M Registry unit :=
  Mmodify (fun reg => reg ++ [{| sm_metric := m; sm_labels := labels; sm_value := v |}]).
(** Counter.inc: counters only grow. *)
Definition inc_by (m : metric) (labels : list str) (v : Q) : M Registry unit :=
  if Qle_bool 0 v then sample m labels v
  else Mraise (ValueError (u "Counters can only be incremented by non-negative amounts.")).
Definition inc (m : metric) (labels : list str) : M Registry unit := inc_by m labels 1.
Definition observe (m : metric) (labels : list str) (v : Q) : M Registry unit :=
  sample m labels v.
Definition set_gauge (m : metric) (v : Q) : M Registry unit := sample m [] v.

(** A duration in microseconds, observed in seconds. *)
Definition seconds (t : Z) : Q := t # 1000000.

Open Scope prog_scope.
Definition record_redactions (counts : list (str * nat)) : M Registry unit :=
  Miter (fun kv => inc_by redactions [fst kv] (inject_Z (Z.of_nat (snd kv)))) counts.

Definition record_llm (model status : str) (duration : Z) (input_tokens output_tokens : Z)
    (estimated_cost : Q) : M Registry unit :=
  inc llm_requests [model; status];;;
  observe llm_duration [model] (seconds duration);;;
  inc_by llm_tokens [model; u "input"] (inject_Z input_tokens);;;
  inc_by llm_tokens [model; u "output"] (inject_Z output_tokens);;;
  inc_by llm_estimated_cost [model] estimated_cost.

(** ** What a counter shows *)

Definition counts_for (m : metric) (labels : list str) (s : Sample) : bool :=
  bool_decide (sm_metric s = m) && bool_decide (sm_labels s = labels).
Definition value_of (m : metric) (labels : list str) (reg : Registry) : Q :=
  foldr (fun s q => if counts_for m labels s then sm_value s + q else q)%Q 0%Q reg.

Lemma value_of_app m labels r1 r2 :
  (value_of m labels (r1 ++ r2) == value_of m labels r1 + value_of m labels r2)%Q.
Proof.
  induction r1 as [|s r1 IH]; simpl; [ring|].
  destruct (counts_for m labels s); rewrite IH; ring.
Qed.

(** The registry only grows, by well-labelled samples; counters never decrease. *)
Definition well_formed (s : Sample) : Prop :=
  length (sm_labels s) = length (label_names (sm_metric s))
  /\ (kind_of (sm_metric s) = Counter -> 0 <= sm_value s)%Q.

Lemma record_redactions_Ok counts reg :
  exists added, record_redactions counts reg = (Ok tt, reg ++ added)
    /\ Forall well_formed added
    /\ (forall kind, value_of redactions [kind] added
        == inject_Z (Z.of_nat (list_sum (map snd (List.filter (fun kv => str_eqb (fst kv) kind)
             counts)))))%Q.
Proof.
  revert reg. induction counts as [|[k n] counts IH]; intros reg.
  - exists []. rewrite app_nil_r. split_and!; [done|constructor|]. intros kind. reflexivity.
  - change (record_redactions ((k, n) :: counts) reg) with
      (Mbind (inc_by redactions [k] (inject_Z (Z.of_nat n)))
         (fun _ => record_redactions counts) reg).
    unfold Mbind, inc_by.
    assert (Hn : Qle_bool 0 (inject_Z (Z.of_nat n)) = true).
    { apply Qle_bool_iff. change 0%Q with (inject_Z 0). rewrite <- Zle_Qle. lia. }
    rewrite Hn. unfold sample, Mmodify.
    destruct (IH (reg ++ [{| sm_metric := redactions; sm_labels := [k];
                             sm_value := inject_Z (Z.of_nat n) |}])) as (added & H & Hw & Hv).
    rewrite H, <- app_assoc. eexists. split; [reflexivity|].
    split.
    + constructor; [|done]. split; [done|]. intros _. by apply Qle_bool_iff.
    + intros kind. cbn [app value_of foldr]. fold (value_of redactions [kind] added).
      unfold counts_for at 1. cbn [sm_metric sm_labels sm_value List.filter fst].
      rewrite bool_decide_true by done. cbn [andb].
      destruct (str_eqb k kind) eqn:E.
      * apply str_eqb_eq in E as ->. rewrite bool_decide_true by done.
        cbn [map list_sum fold_right snd]. rewrite Hv, <- inject_Z_plus.
        rewrite <- Nat2Z.inj_add. reflexivity.
      * rewrite bool_decide_false; [apply Hv|]. intros [= ->].
        rewrite (proj2 (str_eqb_eq kind kind) eq_refl) in E. done.
Qed.
