(* ===== verification/GitHub.v ===== *)
(** * The GitHub client (src/pipelens/github.py): what its callers use

    The values the client returns and its operations as an interface over the
    state [N] of the outside world, which the analysis pipeline and the web
    application are modelled against. *)

From stdpp Require Import base list strings numbers.
From S2P Require Import Prelude Models.

Record JobLog := { jl_job_name : str; jl_text : str }.
Record FailedJob := {
  fl_job_id : Z; fl_name : str; fl_failed_steps : list str; fl_runner_labels : list str;
  fl_workflow_name : option str; fl_head_branch : option str }.

Class GitHubClient (N : Type) := {
  installation_token : Z -> M N str;
  failed_jobs : str -> Z -> str -> M N (list FailedJob);
  download_logs : str -> Z -> str -> M N (list JobLog);
  repository_context : str -> Z -> str -> str -> M N RepositoryContext;
  file_contents : str -> list str -> str -> str -> M N (list (str * str));
  upsert_check : str -> str -> Z -> str -> str -> str -> str -> M N unit;
  upsert_pull_request_comment : str -> Z -> Z -> str -> str -> M N unit
}.
