(* ===== verification/GitHubApi.v ===== *)
(** * The GitHub REST client (src/pipelens/github.py)

    [GitHubClient]'s methods over a transport: a request goes through
    [request_with_retry] and comes back as a response or an exception, the state [N]
    being whatever the outside world is.  Answers are the decoded JSON of the server;
    a member whose type is not the one GitHub documents is [off_schema] where the program
    stores it unchecked, and a ValidationError where pydantic checks it.  The loops over
    pages take [fuel], the number of pages they may ask for.  PyJWT, the ZIP reader,
    pydantic's integer conversion and str() of other values are parameters. *)

From Stdlib Require Import QArith Qround.
From stdpp Require Import base list strings numbers.
From S2P Require Import Prelude Text Double Models Json HttpRetry GitHub.

Set Default Proof Using "Type".
Open Scope prog_scope.

Definition MAX_PATCH_TARGET_BYTES : Z := 512000.

Record ZipMember := {
  zm_filename : str; zm_is_dir : bool; zm_file_size : Z; zm_read : outcome (list N) }.
Class Libraries := {
  jwt_encode : json -> str -> outcome str;                 (* claims, private key; RS256 *)
  unzip : list N -> outcome (list ZipMember);              (* ZipFile(...).infolist() *)
  lib_int : json -> option Z;                              (* pydantic, lax mode *)
  lib_str : json -> str                                    (* str() of other values *)
}.

(** str(v) and f-string fields *)
Definition text_of `{Libraries} (v : json) : str :=
  match v with JStr s => s | JInt z => str_of_Z z | v => lib_str v end.

(** Python's == on decoded JSON: numbers by value, dicts whatever the order. *)
Definition number_of (v : json) : option Q :=
  match v with
  | JBool b => Some (inject_Z (Z.b2z b)) | JInt z => Some (inject_Z z) | JFloat q => Some q
  | _ => None
  end.
Fixpoint py_eqb (a b : json) : bool :=
  match a, b with
  | JNull, JNull => true
  | JStr s, JStr t => str_eqb s t
  | JNonFinite f, JNonFinite g => nonfinite_eqb f g
  | JArr l, JArr m =>
    (fix go (l m : list json) : bool :=
       match l, m with
       | [], [] => true
       | x :: l', y :: m' => py_eqb x y && go l' m'
       | _, _ => false
       end) l m
  | JObj d, JObj e =>
    (length d =? length e)%nat &&
    (fix all (d : list (str * json)) : bool :=
       match d with
       | [] => true
       | (k, x) :: d' =>
         match dict_get str_eqb e k with Some y => py_eqb x y | None => false end && all d'
       end) d
  | _, _ => match number_of a, number_of b with
            | Some p, Some q => Qeq_bool p q
            | _, _ => false
            end
  end.

Definition type_error {A} : outcome A := Raise (TypeError (u "unsupported operand")).
Definition attribute_error {A} : outcome A := Raise (AttributeError (u "str method")).
Definition off_schema {A} : outcome A := Raise (OtherException (u "outside GitHub's schema")).
Definition validation_error {A} : outcome A := Raise (ValueError (u "validation error")).

Definition as_str {A} (wrong : outcome A) (v : json) (k : str -> outcome A) : outcome A :=
  match v with JStr s => k s | _ => wrong end.
(** A member that is a string or null. *)
Definition opt_str (wrong : outcome (option str)) (v : json) : outcome (option str) :=
  match v with JStr s => Ok (Some s) | JNull => Ok None | _ => wrong end.
(** v.casefold() *)
Definition casefold_of `{UnicodeDb} (v : json) : outcome str :=
  as_str attribute_error v (fun s => Ok (casefold s)).
(** marker in v *)
Definition member_of (marker : str) (v : json) : outcome bool :=
  match v with
  | JStr s => Ok (contains marker s)
  | JArr l => Ok (existsb (fun x => jeq_str x marker) l)
  | JObj d => Ok (dict_has str_eqb d marker)
  | _ => type_error
  end.

(** The first element that satisfies a fallible test; later ones are not looked at. *)
Fixpoint find_first {A} (test : A -> outcome bool) (l : list A) : outcome (option A) :=
  match l with
  | [] => Ok None
  | x :: l' => let! b := test x in if b : bool then Ok (Some x) else find_first test l'
  end.
Fixpoint filter_out {A} (test : A -> outcome bool) (l : list A) : outcome (list A) :=
  match l with
  | [] => Ok []
  | x :: l' => let! b := test x in let! r := filter_out test l' in
               Ok (if b : bool then x :: r else r)
  end.

(** response.raise_for_status(): anything but a 2xx status raises. *)
Definition raise_for_status (r : Response) : outcome unit :=
  if (200 <=? rsp_status r) && (rsp_status r <=? 299) then Ok tt
  else Raise (HTTPStatusError (rsp_status r)).
(** response.json() *)
Definition body_json (r : Response) : outcome json :=
  match rsp_json r with Some v => Ok v | None => Raise (ValueError (u "JSONDecodeError")) end.

(** ** Trust *)

Section trust.
Context {U : UnicodeDb}.

Definition same_name (a b : str) : bool := str_eqb (casefold a) (casefold b).
Definition by_name (name against : str) : TrustLevel :=
  if same_name name against then TRUSTED else UNTRUSTED_FORK.

(** The level by the name of the repository the head commit lives in. *)
Definition trust_of_head (repository : str) (head_repository : json) : outcome TrustLevel :=
  let! head_full_name := jget head_repository (u "full_name") in
  Ok (match head_full_name with JStr n => by_name n repository | _ => UNVERIFIED end).

Definition _trust_level (repository : str) (run : json) : outcome TrustLevel :=
  let! pulls := jget run (u "pull_requests") in
  let! pull_request := jfirst (jor pulls (JArr [JNull])) in
  let! head_repository := jget run (u "head_repository") in
  let head_repository := jor head_repository (JObj []) in
  if jtruthy pull_request then
    let! h := jget_default pull_request (u "head") (JObj []) in
    let! h := jget h (u "repo") in
    let head := jor h (JObj []) in
    let! b := jget_default pull_request (u "base") (JObj []) in
    let! b := jget b (u "repo") in
    let base := jor b (JObj []) in
    let! base_full_name := jget base (u "full_name") in
    match base_full_name with
    | JStr base_name =>
      if negb (same_name base_name repository) then Ok UNVERIFIED
      else
        let! head_id := jget head (u "id") in
        let! base_id := jget base (u "id") in
        if negb (jis_none head_id) && negb (jis_none base_id)
        then Ok (if py_eqb head_id base_id then TRUSTED else UNTRUSTED_FORK)
        else
          let! head_full_name := jget head (u "full_name") in
          match head_full_name with
          | JStr n => Ok (by_name n base_name)
          | _ => trust_of_head repository (jor head head_repository)
          end
    | _ => Ok UNVERIFIED
    end
  else trust_of_head repository head_repository.
End trust.

(** ** The client *)

Definition api_url : str := u "https://api.github.com".
Definition web_url : str := u "https://github.com".
Definition OUT_OF_FUEL : exn := OtherException (u "page limit of the model").

Section client.
Context {U : UnicodeDb} {L : Libraries} {N : Type}.
Context (transport : Request -> M N Response) (time : N -> Q).
Context (app_id private_key : option str) (max_log_bytes : Z) (fuel : nat).

Definition _headers (token : str) : list (str * str) :=
  [(u "Accept", u "application/vnd.github+json");
   (u "Authorization", u "Bearer " ++ token);
   (u "X-GitHub-Api-Version", u "2022-11-28")].
Definition raw_headers (headers : list (str * str)) : list (str * str) :=
  dict_set str_eqb headers (u "Accept") (u "application/vnd.github.raw+json").

Definition _request (method url : str) (headers params data : list (str * str))
    (body : option json) : M N Response :=
  transport {| rq_method := method; rq_url := url; rq_headers := headers; rq_params := params;
               rq_data := data; rq_json := body |}.
(** A request whose status is checked. *)
Definition checked (method url : str) (headers params data : list (str * str))
    (body : option json) : M N Response :=
  do! response := _request method url headers params data body in
  Mlift (raise_for_status response);;; Mret response.
Definition get_json (url : str) (headers params : list (str * str)) : M N json :=
  do! response := checked (u "GET") url headers params [] None in
  Mlift (body_json response).

(** /repos/{repository}{path} *)
Definition repo_url (repository path : str) : str :=
  api_url ++ u "/repos/" ++ repository ++ path.
Definition with_id (path : str) (n : Z) : str := path ++ str_of_Z n.

(** self.private_key: escaped newlines are newlines. *)
Fixpoint unescape_newlines (s : str) : str :=
  match s with
  | [] => []
  | c :: r =>
    match r with
    | d :: r' => if (c =? 92)%N && (d =? 110)%N then NL :: unescape_newlines r'
                 else c :: unescape_newlines r
    | [] => [c]
    end
  end.

Definition authorization_url (client_id redirect_uri state : str) : outcome str :=
  let! query := urlencode [(u "client_id", client_id); (u "redirect_uri", redirect_uri);
                           (u "state", state)] in
  Ok (web_url ++ u "/login/oauth/authorize?" ++ query).

Definition has_key (v : json) (key : str) : outcome bool :=
  match v with
  | JObj d => Ok (dict_has str_eqb d key)
  | JArr l => Ok (existsb (fun x => jeq_str x key) l)
  | JStr s => Ok (contains key s)
  | _ => type_error
  end.

Definition exchange_user_code (client_id client_secret code redirect_uri : str) : M N json :=
  do! response := checked (u "POST") (web_url ++ u "/login/oauth/access_token")
    [(u "Accept", u "application/json")] []
    [(u "client_id", client_id); (u "client_secret", client_secret); (u "code", code);
     (u "redirect_uri", redirect_uri)] None in
  do! payload := Mlift (body_json response) in
  do! granted := Mlift (has_key payload (u "access_token")) in
  if granted : bool then Mret payload
  else
    do! error := Mlift (jget_default payload (u "error") (JStr (u "missing access token"))) in
    Mraise (GitHubConfigurationError (u "GitHub OAuth exchange failed: " ++ text_of error)).

Definition authenticated_user (token : str) : M N json :=
  get_json (api_url ++ u "/user") (_headers token) [].

(** ** Listings, page by page *)

(** while True: the pages of 100 until one that is not full. *)
Fixpoint paged (fuel : nat) (fetch : Z -> M N (list json)) (page : Z) (found : list json)
  : M N (list json) :=
  match fuel with
  | O => Mraise OUT_OF_FUEL
  | Datatypes.S fuel =>
    do! batch := fetch page in
    let found := found ++ batch in
    if (length batch <? 100)%nat then Mret found else paged fuel fetch (page + 1) found
  end.
Definition page_params (page : Z) : list (str * str) :=
  [(u "per_page", u "100"); (u "page", str_of_Z page)].
(** batch = response.json().get(key, []) *)
Definition get_batch (url token key : str) (params : list (str * str)) : M N (list json) :=
  do! body := get_json url (_headers token) params in
  do! items := Mlift (jget_default body key (JArr [])) in
  Mlift (jiter items).

Definition user_installations (token : str) : M N (list json) :=
  paged fuel (fun page => get_batch (api_url ++ u "/user/installations") token
                            (u "installations") (page_params page)) 1 [].

Definition step_name (step : json) : outcome (option str) :=
  let! conclusion := jget step (u "conclusion") in
  if jeq_str conclusion (u "failure")
  then let! name := jindex step (u "name") in as_str off_schema name (fun n => Ok (Some n))
  else Ok None.
Definition failed_job (job : json) : outcome FailedJob :=
  let! id := jindex job (u "id") in
  let! name := jindex job (u "name") in
  let! steps := jget_default job (u "steps") (JArr []) in
  let! steps := jiter steps in
  let! names := omap_list step_name steps in
  let! labels := jget_default job (u "labels") (JArr []) in
  let! labels := jiter labels in
  let! workflow_name := jget job (u "workflow_name") in
  let! head_branch := jget job (u "head_branch") in
  let! workflow_name := opt_str off_schema workflow_name in
  let! head_branch := opt_str off_schema head_branch in
  match id, name with
  | JInt id, JStr name =>
    Ok {| fl_job_id := id; fl_name := name; fl_failed_steps := omap (fun n => n) names;
          fl_runner_labels := map text_of labels; fl_workflow_name := workflow_name;
          fl_head_branch := head_branch |}
  | _, _ => off_schema
  end.
Fixpoint failed_of (jobs : list json) : outcome (list FailedJob) :=
  match jobs with
  | [] => Ok []
  | job :: rest =>
    let! conclusion := jget job (u "conclusion") in
    if jeq_str conclusion (u "failure")
    then let! j := failed_job job in let! js := failed_of rest in Ok (j :: js)
    else failed_of rest
  end.

Definition jobs_url (repository : str) (run_id : Z) : str :=
  repo_url repository (with_id (u "/actions/runs/") run_id ++ u "/jobs").
Definition failed_jobs (repository : str) (run_id : Z) (token : str) : M N (list FailedJob) :=
  do! jobs := paged fuel (fun page => get_batch (jobs_url repository run_id) token (u "jobs")
                           ((u "filter", u "latest") :: page_params page)) 1 [] in
  Mlift (failed_of jobs).

(** ** Tokens and logs *)

Definition _app_jwt : M N str := fun n =>
  match app_id, private_key with
  | Some (c :: id), Some (d :: key) =>
    let now := Qfloor (time n) in
    (jwt_encode (JObj [(u "iat", JInt (now - 60)); (u "exp", JInt (now + 540));
                       (u "iss", JStr (c :: id))]) (unescape_newlines (d :: key)), n)
  | _, _ => (Raise (GitHubConfigurationError (u "GitHub App credentials are not configured")), n)
  end.

Definition installation_token (installation_id : Z) : M N str :=
  do! jwt := _app_jwt in
  do! response := checked (u "POST")
    (api_url ++ with_id (u "/app/installations/") installation_id ++ u "/access_tokens")
    (_headers jwt) [] [] None in
  do! body := Mlift (body_json response) in
  do! token := Mlift (jindex body (u "token")) in
  Mlift (as_str off_schema token (fun t => Ok t)).

Fixpoint read_members (members : list ZipMember) : outcome (list JobLog) :=
  match members with
  | [] => Ok []
  | m :: rest =>
    if zm_is_dir m || (max_log_bytes <? zm_file_size m) then read_members rest
    else
      let! content := zm_read m in
      let! logs := read_members rest in
      Ok ({| jl_job_name := remove_suffix (u ".txt") (zm_filename m);
             jl_text := decode_replace content |} :: logs)
  end.
Definition archive_too_large : exn :=
  ValueError (u "log archive exceeds " ++ str_of_Z max_log_bytes ++ u " byte safety limit").
Definition download_logs (repository : str) (run_id : Z) (token : str) : M N (list JobLog) :=
  do! response := checked (u "GET")
    (repo_url repository (with_id (u "/actions/runs/") run_id ++ u "/logs"))
    (_headers token) [] [] None in
  if max_log_bytes <? Z.of_nat (length (rsp_content response)) then Mraise archive_too_large
  else
    do! members := Mlift (unzip (rsp_content response)) in
    Mlift (read_members members).

(** ** The context of a run *)

(** x or {} *)
Definition or_empty (v : json) : json := jor v (JObj []).
Definition get_or_empty (v : json) (key : str) : outcome json :=
  let! x := jget v key in Ok (or_empty x).

(** The owner and the rest of "owner/name". *)
Definition partition_slash (s : str) : str * option str :=
  let owner := take_while_not 47 s in
  (owner, if contains (u "/") s then Some (drop (length owner + 1) s) else None).

Definition same_pull_request (repository head_full_name head_sha : str) (pull_request : json)
  : outcome bool :=
  let! head := get_or_empty pull_request (u "head") in
  let! base := get_or_empty pull_request (u "base") in
  let! head_repo := get_or_empty head (u "repo") in
  let! base_repo := get_or_empty base (u "repo") in
  let! sha := jget head (u "sha") in
  if negb (jeq_str sha head_sha) then Ok false
  else
    let! head_name := jget_default head_repo (u "full_name") (JStr []) in
    let! head_name := casefold_of head_name in
    if negb (str_eqb head_name (casefold head_full_name)) then Ok false
    else
      let! base_name := jget_default base_repo (u "full_name") (JStr []) in
      let! base_name := casefold_of base_name in
      Ok (str_eqb base_name (casefold repository)).

(** {**run, "pull_requests": matches} *)
Definition with_pull_requests (run : json) (matches : list json) : json :=
  match run with
  | JObj d => JObj (dict_set str_eqb d (u "pull_requests") (JArr matches))
  | v => v
  end.

(** Whether a fork's pull request may be missing from the run. *)
Definition external_candidate (repository : str) (run : json) : outcome bool :=
  let! pulls := jget run (u "pull_requests") in
  if jtruthy pulls then Ok false
  else
    let! event := jget run (u "event") in
    if negb (jeq_str event (u "pull_request")) then Ok false
    else
      let! trust := _trust_level repository run in
      Ok (bool_decide (trust = UNTRUSTED_FORK)).

Definition pulls_url (repository : str) : str := repo_url repository (u "/pulls").
Definition _resolve_external_pull_request (repository head_sha : str)
    (headers : list (str * str)) (run : json) : M N json :=
  do! candidate := Mlift (external_candidate repository run) in
  if negb candidate then Mret run
  else
    do! head_repository := Mlift (get_or_empty run (u "head_repository")) in
    do! head_full_name := Mlift (jget head_repository (u "full_name")) in
    do! head_branch := Mlift (jget run (u "head_branch")) in
    match head_full_name, head_branch with
    | JStr name, JStr branch =>
      match partition_slash name, branch with
      | ((_ :: _) as owner, Some _), _ :: _ =>
        do! body := get_json (pulls_url repository) headers
          [(u "state", u "all"); (u "head", owner ++ u ":" ++ branch); (u "per_page", u "100")] in
        do! found := Mlift (jiter body) in
        do! matches := Mlift (filter_out (same_pull_request repository name head_sha) found) in
        match matches with
        | [m] => Mret (with_pull_requests run matches)
        | _ => Mret run
        end
      | _, _ => Mret run
      end
    | _, _ => Mret run
    end.

(** a < b for the values of JSON *)
Definition py_ltb (a b : json) : outcome bool :=
  match a, b with
  | JStr x, JStr y => Ok (str_ltb x y)
  | _, _ => match number_of a, number_of b with
            | Some x, Some y => Ok (Qltb x y)
            | _, _ => type_error
            end
  end.
Definition older_than (created_at candidate : json) : outcome bool :=
  if jtruthy created_at then
    let! c := jget_default candidate (u "created_at") (JStr []) in py_ltb c created_at
  else Ok true.

(** for page in range(1, 11); [n] pages are left. *)
Fixpoint previous_pages (n : nat) (fetch : Z -> M N (list json)) (created_at : json) (page : Z)
  : M N (option str) :=
  match n with
  | O => Mret None
  | Datatypes.S n =>
    do! candidates := fetch page in
    do! older := Mlift (find_first (older_than created_at) candidates) in
    match older with
    | Some candidate =>
      do! head_sha := Mlift (jget candidate (u "head_sha")) in Mret (jstr head_sha)
    | None =>
      if (length candidates <? 100)%nat then Mret None
      else previous_pages n fetch created_at (page + 1)
    end
  end.
Definition runs_url (repository : str) (workflow_id : json) : str :=
  repo_url repository (u "/actions/workflows/" ++ text_of workflow_id ++ u "/runs").
Definition _previous_successful_sha (repository : str) (run : json)
    (headers : list (str * str)) : M N (option str) :=
  do! workflow_id := Mlift (jget run (u "workflow_id")) in
  do! branch := Mlift (jget run (u "head_branch")) in
  do! created_at := Mlift (jget run (u "created_at")) in
  if jis_none workflow_id || negb (jtruthy branch) then Mret None
  else
    let fetch page :=
      do! body := get_json (runs_url repository workflow_id) headers
        ([(u "branch", text_of branch); (u "status", u "success")] ++ page_params page) in
      do! items := Mlift (jget_default body (u "workflow_runs") (JArr [])) in
      Mlift (jiter items) in
    previous_pages 10 fetch created_at 1.

Definition changed_file (item : json) : outcome ChangedFile :=
  let! filename := jindex item (u "filename") in
  let! status := jget_default item (u "status") (JStr (u "modified")) in
  let! patch := jget item (u "patch") in
  let! previous := jget item (u "previous_filename") in
  as_str validation_error filename (fun filename =>
  as_str validation_error status (fun status =>
  let! patch := opt_str validation_error patch in
  let! previous := opt_str validation_error previous in
  Ok {| cf_filename := filename; cf_status := status; cf_patch := patch;
        cf_previous_filename := previous |})).

Definition files_params : list (str * str) := [(u "per_page", u "100")].
Definition files_of (body : json) : outcome json := jget_default body (u "files") (JArr []).
(** The files of the answer with the baseline they were compared against. *)
Definition _changed_files (repository head_sha : str) (headers : list (str * str)) (run : json)
  : M N (list ChangedFile * json) :=
  do! pull_requests := Mlift (jget_default run (u "pull_requests") (JArr [])) in
  do! found :=
    (if jtruthy pull_requests then
       do! first := Mlift (jfirst pull_requests) in
       do! number := Mlift (jindex first (u "number")) in
       do! files := get_json (repo_url repository (u "/pulls/" ++ text_of number ++ u "/files"))
         headers files_params in
       do! base := Mlift (jget_default first (u "base") (JObj [])) in
       do! sha := Mlift (jget base (u "sha")) in
       Mret (files, sha)
     else
       do! baseline := _previous_successful_sha repository run headers in
       match baseline with
       | Some ((_ :: _) as sha) =>
         do! body := get_json
           (repo_url repository (u "/compare/" ++ sha ++ u "..." ++ head_sha)) headers files_params in
         do! files := Mlift (files_of body) in
         Mret (files, JStr sha)
       | _ =>
         do! body := get_json (repo_url repository (u "/commits/" ++ head_sha)) headers [] in
         do! files := Mlift (files_of body) in
         Mret (files, match baseline with Some s => JStr s | None => JNull end)
       end) in
  do! items := Mlift (jiter (fst found)) in
  do! files := Mlift (omap_list changed_file items) in
  Mret (files, snd found).

Definition workflow_url (repository : str) (workflow_id : json) : str :=
  repo_url repository (u "/actions/workflows/" ++ text_of workflow_id).
Definition _workflow_context (repository : str) (workflow_id : json) (head_sha : str)
    (headers : list (str * str)) : M N (json * option str) :=
  if jis_none workflow_id then Mret (JNull, None)
  else
    do! body := get_json (workflow_url repository workflow_id) headers [] in
    do! workflow_path := Mlift (jget body (u "path")) in
    if negb (jtruthy workflow_path) then Mret (JNull, None)
    else
      do! response := _request (u "GET")
        (repo_url repository (u "/contents/" ++ text_of workflow_path)) (raw_headers headers)
        [(u "ref", head_sha)] [] None in
      if rsp_status response =? 404 then Mret (workflow_path, None)
      else
        Mlift (raise_for_status response);;;
        Mret (workflow_path, Some (rsp_text response)).

Definition opt_number (v : json) : outcome (option Z) :=
  match v with
  | JNull => Ok None
  | v => match lib_int v with Some z => Ok (Some z) | None => validation_error end
  end.
Definition first_number (run : json) : outcome json :=
  let! pulls := jget run (u "pull_requests") in
  if jtruthy pulls then let! first := jfirst pulls in jindex first (u "number") else Ok JNull.

Definition repository_context (repository : str) (run_id : Z) (head_sha token : str)
  : M N RepositoryContext :=
  let headers := _headers token in
  do! run := get_json (repo_url repository (with_id (u "/actions/runs/") run_id)) headers [] in
  do! run := _resolve_external_pull_request repository head_sha headers run in
  do! changed := _changed_files repository head_sha headers run in
  do! workflow_id := Mlift (jget run (u "workflow_id")) in
  do! workflow := _workflow_context repository workflow_id head_sha headers in
  do! number := Mlift (first_number run) in
  do! trust := Mlift (_trust_level repository run) in
  do! path := Mlift (opt_str validation_error (fst workflow)) in
  do! number := Mlift (opt_number number) in
  do! baseline := Mlift (opt_str validation_error (snd changed)) in
  Mret {| rc_changed_files := fst changed; rc_workflow_path := path;
          rc_workflow_content := snd workflow; rc_pull_request_number := number;
          rc_trust_level := trust; rc_baseline_sha := baseline |}.

(** ** Files for the verification of patches *)

Definition contents_url (repository path : str) : str :=
  repo_url repository (u "/contents/" ++ path).
(** One file, unless it is missing, too large or not UTF-8. *)
Definition file_content (repository ref : str) (headers : list (str * str)) (path : str)
  : M N (option str) :=
  do! response := _request (u "GET") (contents_url repository path) headers [(u "ref", ref)] [] None in
  if rsp_status response =? 404 then Mret None
  else
    Mlift (raise_for_status response);;;
    if MAX_PATCH_TARGET_BYTES <? Z.of_nat (length (rsp_content response)) then Mret None
    else Mret (decode_utf8 (rsp_content response)).
Fixpoint each_file (fetch : str -> M N (option str)) (paths : list str) : M N (list (str * str)) :=
  match paths with
  | [] => Mret []
  | path :: rest =>
    do! content := fetch path in
    do! contents := each_file fetch rest in
    Mret (match content with Some text => (path, text) :: contents | None => contents end)
  end.
(** dict.fromkeys(paths) *)
Definition unique (paths : list str) : list str := fromkeys paths.
Definition file_contents (repository : str) (paths : list str) (ref token : str)
  : M N (list (str * str)) :=
  each_file (file_content repository ref (raw_headers (_headers token))) (unique paths).

(** ** Publishing *)

(** response = ... with a JSON body; response.raise_for_status() *)
Definition write_json (method url token : str) (body : json) : M N unit :=
  do! response := _request method url (_headers token) [] [] (Some body) in
  Mlift (raise_for_status response).

Definition CHECK_NAME : str := u "PipeLens diagnosis".
Definition check_body (head_sha : str) (run_id : Z) (title summary details_url : str)
  : list (str * json) :=
  [(u "name", JStr CHECK_NAME); (u "head_sha", JStr head_sha);
   (u "external_id", JStr (str_of_Z run_id)); (u "details_url", JStr details_url);
   (u "status", JStr (u "completed")); (u "conclusion", JStr (u "neutral"));
   (u "output", JObj [(u "title", JStr (py_upto title 255));
                      (u "summary", JStr (py_upto summary 65535))])].
Definition check_runs_url (repository : str) : str := repo_url repository (u "/check-runs").
Definition own_check (run_id : Z) (item : json) : outcome bool :=
  let! external_id := jget item (u "external_id") in Ok (jeq_str external_id (str_of_Z run_id)).
Definition upsert_check (repository head_sha : str) (run_id : Z)
    (token title summary details_url : str) : M N unit :=
  let body := check_body head_sha run_id title summary details_url in
  do! existing := get_json (repo_url repository (u "/commits/" ++ head_sha ++ u "/check-runs"))
    (_headers token)
    [(u "check_name", CHECK_NAME); (u "filter", u "latest"); (u "per_page", u "100")] in
  do! items := Mlift (jget_default existing (u "check_runs") (JArr [])) in
  do! items := Mlift (jiter items) in
  do! check := Mlift (find_first (own_check run_id) items) in
  match option_map jtruthy check, check with
  | Some true, Some c =>
    do! id := Mlift (jindex c (u "id")) in
    write_json (u "PATCH") (check_runs_url repository ++ u "/" ++ text_of id) token
      (JObj (List.filter (fun kv => negb (str_eqb (fst kv) (u "head_sha"))) body))
  | _, _ => write_json (u "POST") (check_runs_url repository) token (JObj body)
  end.

Definition _is_own_comment (comment : json) : outcome bool :=
  let! app := get_or_empty comment (u "performed_via_github_app") in
  match app_id with
  | Some (c :: id) => let! v := jget app (u "id") in Ok (str_eqb (text_of v) (c :: id))
  | _ => Ok false
  end.
Definition run_marker (run_id : Z) : str := u "<!-- pipelens:run:" ++ str_of_Z run_id ++ u " -->".
Definition own_marked (marker : str) (comment : json) : outcome bool :=
  let! body := jget comment (u "body") in
  let! marked := member_of marker (jor body (JStr [])) in
  if marked : bool then _is_own_comment comment else Ok false.

Definition comments_url (repository : str) (number : Z) : str :=
  repo_url repository (with_id (u "/issues/") number ++ u "/comments").
Definition comment_url (repository : str) (id : json) : str :=
  repo_url repository (u "/issues/comments/" ++ text_of id).
(** while existing_comment is None: the first own comment with the marker. *)
Fixpoint find_comment (fuel : nat) (marker url token : str) (page : Z) : M N (option json) :=
  match fuel with
  | O => Mraise OUT_OF_FUEL
  | Datatypes.S fuel =>
    do! body := get_json url (_headers token) (page_params page) in
    do! comments := Mlift (jiter body) in
    do! existing := Mlift (find_first (own_marked marker) comments) in
    match existing with
    | Some c => Mret (Some c)
    | None => if (length comments <? 100)%nat then Mret None
              else find_comment fuel marker url token (page + 1)
    end
  end.
Definition upsert_pull_request_comment (repository : str) (number run_id : Z)
    (token body : str) : M N unit :=
  let marker := run_marker run_id in
  let comment_body := JObj [(u "body", JStr (marker ++ nl ++ body))] in
  do! existing := find_comment fuel marker (comments_url repository number) token 1 in
  match existing with
  | Some comment =>
    do! id := Mlift (jindex comment (u "id")) in
    write_json (u "PATCH") (comment_url repository id) token comment_body
  | None => write_json (u "POST") (comments_url repository number) token comment_body
  end.

(** The client as the pipeline uses it. *)
Definition GitHubRestClient : GitHubClient N := {|
  GitHub.installation_token := installation_token;
  GitHub.failed_jobs := failed_jobs;
  GitHub.download_logs := download_logs;
  GitHub.repository_context := repository_context;
  GitHub.file_contents := file_contents;
  GitHub.upsert_check := upsert_check;
  GitHub.upsert_pull_request_comment := upsert_pull_request_comment
|}.
End client.

(** The client over httpx: each request is retried (retry_rate_limited_403=True). *)
Definition retrying_transport `{UnicodeDb} `{HttpEnv} (policy : RetryPolicy) (observer : bool)
    (request : Request) : M HttpTrace Response :=
  request_with_retry request policy true observer.
Definition RetryingGitHubClient `{UnicodeDb} `{Libraries} `{HttpEnv} (policy : RetryPolicy)
    (observer : bool) (app_id private_key : option str) (max_log_bytes : Z) (fuel : nat)
  : GitHubClient HttpTrace :=
  GitHubRestClient (retrying_transport policy observer) env_time app_id private_key
    max_log_bytes fuel.
