(* ===== verification/GitHubApiFacts.v ===== *)
(** * What the GitHub client guarantees

    What a TRUSTED run rests on, that a fork's pull request found by branch does not
    promote its run, which comment is written, and that listings are complete. *)

From Stdlib Require Import QArith Qround.
From stdpp Require Import base list strings numbers.
From S2P Require Import Prelude Text Models Json HttpRetry GitHub GitHubApi.

Set Default Proof Using "Type".
Open Scope prog_scope.

(** Peel the binds of [H : obind ... = Ok _]. *)
Ltac peel H :=
  repeat match type of H with
  | obind ?o _ = Ok _ => let E := fresh "E" in apply obind_Ok in H as (? & E & H)
  end.

(** ** Trust *)

Section trust.
Context {U : UnicodeDb}.

(** The repository object of one side ("head" or "base") of a pull request. *)
Definition side_repo (pull_request : json) (side : str) (repo : json) : Prop :=
  exists s r, jget_default pull_request side (JObj []) = Ok s /\ jget s (u "repo") = Ok r
    /\ repo = or_empty r.
(** [v] carries a name equal to [name], whatever its case. *)
Definition named (v : json) (name : str) : Prop :=
  exists n, jget v (u "full_name") = Ok (JStr n) /\ same_name n name = true.
Definition with_value (v : json) (key : str) (x : json) : Prop :=
  jget v key = Ok x /\ x <> JNull.

(** The first pull request the run lists, None when it lists none. *)
Definition first_pull (run : json) : outcome json :=
  let! pulls := jget run (u "pull_requests") in jfirst (jor pulls (JArr [JNull])).

(** What TRUSTED rests on: without a pull request, that the head repository has the name
    of the repository; with one, that it goes into the repository, from a repository of
    the same id, or, where an id is missing, of the same name. *)
Definition trusted_evidence (repository : str) (run : json) : Prop :=
  exists pr h, first_pull run = Ok pr /\ jget run (u "head_repository") = Ok h /\
  if jtruthy pr then
    exists head base, side_repo pr (u "head") head /\ side_repo pr (u "base") base
    /\ named base repository
    /\ ((exists i j, with_value head (u "id") i /\ with_value base (u "id") j /\ py_eqb i j = true)
        \/ ((jget head (u "id") = Ok JNull \/ jget base (u "id") = Ok JNull)
            /\ ((exists b, jget base (u "full_name") = Ok (JStr b) /\ named head b)
                \/ (jtruthy head = false /\ named (or_empty h) repository))))
  else named (or_empty h) repository.

Lemma by_name_trusted n against : by_name n against = TRUSTED -> same_name n against = true.
Proof. unfold by_name. by destruct (same_name n against). Qed.
Lemma trust_of_head_trusted repository v :
  trust_of_head repository v = Ok TRUSTED -> named v repository.
Proof.
  unfold trust_of_head. intros H. peel H. destruct x as [| | | | |n| |]; try done.
  injection H as H%by_name_trusted. by exists n.
Qed.
Lemma is_none_null v : jis_none v = true -> v = JNull.
Proof. by destruct v. Qed.
Lemma some_not_null v : jis_none v = false -> v <> JNull.
Proof. by destruct v. Qed.

(** The decision by name, when an id is missing. *)
Lemma name_evidence repository head base h b : jget base (u "full_name") = Ok (JStr b) ->
  (let! head_full_name := jget head (u "full_name") in
   match head_full_name with
   | JStr n => Ok (by_name n b)
   | _ => trust_of_head repository (jor head (or_empty h))
   end) = Ok TRUSTED ->
  (exists b, jget base (u "full_name") = Ok (JStr b) /\ named head b)
  \/ (jtruthy head = false /\ named (or_empty h) repository).
Proof.
  intros Hb H. apply obind_Ok in H as (hn & Ehn & H).
  destruct hn as [| | | | |n| |].
  6:{ injection H as H%by_name_trusted. left. exists b. split; [done|]. by exists n. }
  all: right; apply trust_of_head_trusted in H; unfold jor in H;
    destruct (jtruthy head) eqn:Et; [|by split].
  all: exfalso; destruct H as (m & Hm & _); congruence.
Qed.

Lemma trust_trusted repository run :
  _trust_level repository run = Ok TRUSTED -> trusted_evidence repository run.
Proof.
  unfold _trust_level. intros H. apply obind_Ok in H as (pulls & Ep & H).
  apply obind_Ok in H as (pr & Epr & H). apply obind_Ok in H as (h & Eh & H).
  exists pr, h. split; [unfold first_pull; by rewrite Ep|]. split; [done|].
  fold (or_empty h) in H. destruct (jtruthy pr); [|by apply trust_of_head_trusted].
  apply obind_Ok in H as (hs & Ehs & H). apply obind_Ok in H as (hr & Ehr & H).
  apply obind_Ok in H as (bs & Ebs & H). apply obind_Ok in H as (br & Ebr & H).
  fold (or_empty hr) in H. fold (or_empty br) in H. set (head := or_empty hr) in *.
  set (base := or_empty br) in *.
  apply obind_Ok in H as (bn & Ebn & H). destruct bn as [| | | | |b| |]; try done.
  destruct (same_name b repository) eqn:Esame; [|done]. cbn [negb] in H.
  exists head, base. split; [by exists hs, hr|]. split; [by exists bs, br|].
  split; [by exists b|].
  apply obind_Ok in H as (hi & Ehi & H). apply obind_Ok in H as (bi & Ebi & H).
  destruct (jis_none hi) eqn:Ehn; [apply is_none_null in Ehn as ->|];
    (destruct (jis_none bi) eqn:Ebnn; [apply is_none_null in Ebnn as ->|]);
    cbn [negb andb] in H.
  4:{ destruct (py_eqb hi bi) eqn:E; [|done]. left. exists hi, bi. split; [|split]; [| |done];
      by (split; [|apply some_not_null]). }
  all: right; (split; [by auto|]); eapply name_evidence; done.
Qed.
End trust.

(** ** Requests, one by one *)

(** A server whose answer may depend on every request before; the state is their log. *)
Definition logged (answer : list Request -> Request -> outcome Response) (req : Request)
  : M (list Request) Response := fun log => (answer log req, log ++ [req]).

Section requests.
Context {U : UnicodeDb} {L : Libraries}.
Context (answer : list Request -> Request -> outcome Response).
Abbreviation transport := (logged answer).







End requests.

(** ** Listings *)

Section listings.
Context {U : UnicodeDb} {L : Libraries} {N : Type}.
Context (transport : Request -> M N Response) (time : N -> Q).

(** The page [page] of a list, in pages of 100. *)
Definition page_of (items : list json) (page : Z) : list json :=
  take 100 (drop (100 * Z.to_nat (page - 1)) items).
(** The server lists [items] under [key] at [url], page by page. *)
Definition serves (url key : str) (items : list json) : Prop :=
  forall req n page, rq_url req = url -> 1 <= page ->
    dict_get str_eqb (rq_params req) (u "page") = Some (str_of_Z page) ->
    exists resp n', transport req n = (Ok resp, n') /\ rsp_status resp = 200
      /\ rsp_json resp = Some (JObj [(key, JArr (page_of items page))]).

Lemma get_batch_serves url token key params items page n : serves url key items -> 1 <= page ->
  dict_get str_eqb params (u "page") = Some (str_of_Z page) ->
  exists n', get_batch transport url token key params n = (Ok (page_of items page), n').
Proof.
  intros Hs Hp Hpage. unfold get_batch, get_json, checked, _request, Mbind, Mlift.
  set (req := Build_Request _ _ _ _ _ _).
  destruct (Hs req n page) as (resp & n' & -> & Hst & Hj); [done..|].
  assert (Hok : raise_for_status resp = Ok tt) by (unfold raise_for_status; by rewrite Hst).
  rewrite Hok. unfold Mret, body_json. rewrite Hj. unfold jget_default. cbn [dict_get].
  rewrite str_eqb_refl. cbn [default jiter]. by eexists.
Qed.

Lemma paged_serves fetch fuel items page found n :
  (forall page n, 1 <= page -> exists n', fetch page n = (Ok (page_of items page), n')) ->
  1 <= page -> found = take (100 * Z.to_nat (page - 1)) items ->
  (100 * Z.to_nat (page - 1) <= length items)%nat ->
  (length items < 100 * (Z.to_nat (page - 1) + fuel))%nat ->
  exists n', paged (N := N) fuel fetch page found n = (Ok items, n').
Proof.
  intros Hf. revert page found n. induction fuel as [|fuel IH]; intros page found n Hp -> Hle Hfuel.
  - lia.
  - cbn [paged]. unfold Mbind. destruct (Hf page n Hp) as (n1 & ->).
    assert (Hk : Z.to_nat (page + 1 - 1) = Datatypes.S (Z.to_nat (page - 1))) by lia.
    set (k := Z.to_nat (page - 1)) in *.
    assert (Hfound : take (100 * k) items ++ page_of items page = take (100 * Datatypes.S k) items).
    { unfold page_of. fold k. rewrite take_take_drop. f_equal. lia. }
    assert (Hlen : length (page_of items page) = Nat.min 100 (length items - 100 * k)).
    { unfold page_of. fold k. by rewrite length_take, length_drop. }
    destruct (Nat.ltb_spec (length (page_of items page)) 100).
    + exists n1. unfold Mret. do 2 f_equal. rewrite Hfound. apply take_ge. lia.
    + apply IH; rewrite ?Hk; try done; lia.
Qed.

Lemma listing fuel url token key params items n : serves url key items ->
  (forall page, dict_get str_eqb (params page) (u "page") = Some (str_of_Z page)) ->
  (length items < 100 * fuel)%nat ->
  exists n', paged fuel (fun page => get_batch transport url token key (params page)) 1 [] n
    = (Ok items, n').
Proof.
  intros Hs Hparams Hfuel. eapply (paged_serves _ _ items); try done; cbn; try lia.
  intros page n0 Hp. by apply get_batch_serves.
Qed.
End listings.

(** ** A fork's pull request *)

Section forks.
Context {U : UnicodeDb} {L : Libraries} {N : Type}.
Context (transport : Request -> M N Response) (time : N -> Q).

(** The run of a fork completed by the one pull request that belongs to it. *)
Definition completed_by (repository head_sha : str) (run m run' : json) : Prop :=
  external_candidate repository run = Ok true
  /\ (exists h name, jget run (u "head_repository") = Ok h
        /\ jget (or_empty h) (u "full_name") = Ok (JStr name)
        /\ same_pull_request repository name head_sha m = Ok true)
  /\ run' = with_pull_requests run [m].

Lemma filter_out_In {A} (test : A -> outcome bool) l r x :
  filter_out test l = Ok r -> In x r -> test x = Ok true.
Proof.
  revert r. induction l as [|y l IH]; intros r H Hin; cbn in H; [by injection H as <-|].
  apply obind_Ok in H as (b & Eb & H). apply obind_Ok in H as (r' & Er & H).
  injection H as <-. destruct b; [destruct Hin as [->|Hin]; [done|]|]; by eapply IH.
Qed.

Lemma resolve_run repository head_sha headers run run' n n' :
  _resolve_external_pull_request transport repository head_sha headers run n = (Ok run', n') ->
  run' = run \/ exists m, completed_by repository head_sha run m run'.
Proof.
  unfold _resolve_external_pull_request. unfold Mbind at 1, Mlift at 1.
  destruct (external_candidate repository run) as [[]|e] eqn:Ec; cbn [negb]; [| |done].
  2:{ intros [= <- _]. by left. }
  unfold Mbind at 1, Mlift at 1, get_or_empty at 1.
  destruct (jget run (u "head_repository")) as [h|e] eqn:Eh; cbn [obind]; [|done].
  unfold Mbind at 1, Mlift at 1.
  destruct (jget (or_empty h) (u "full_name")) as [fn|e] eqn:Ef; [|done].
  unfold Mbind at 1, Mlift at 1.
  destruct (jget run (u "head_branch")) as [hb|e]; [|done].
  destruct fn as [| | | | |name| |]; try (intros [= <- _]; by left).
  destruct hb as [| | | | |branch| |]; try (intros [= <- _]; by left).
  destruct (partition_slash name) as [[|c owner] [rest|]]; try (intros [= <- _]; by left).
  destruct branch as [|c' branch]; [intros [= <- _]; by left|].
  unfold Mbind at 1. destruct (get_json _ _ _ _ n) as [[body|e] n1]; [|done].
  unfold Mbind at 1, Mlift at 1. destruct (jiter body) as [found|e]; [|done].
  unfold Mbind at 1, Mlift at 1. destruct (filter_out _ found) as [matches|e] eqn:Em; [|done].
  destruct matches as [|m [|m2 ms]]; intros [= <- _]; [by left| |by left].
  right. exists m. split; [done|]. split; [|done]. exists h, name. split_and!; [done..|].
  eapply filter_out_In; [exact Em|by left].
Qed.

Lemma dict_get_set_eq (d : list (str * json)) k v : dict_get str_eqb (dict_set str_eqb d k v) k = Some v.
Proof. rewrite (dict_get_set str_eqb str_eqb_eq). by rewrite str_eqb_refl. Qed.
Lemma with_pulls_get run m k : k <> u "pull_requests" ->
  jget (with_pull_requests run [m]) k = jget run k.
Proof.
  intros Hk. destruct run; cbn [with_pull_requests jget]; try done.
  rewrite (dict_get_set str_eqb str_eqb_eq). by rewrite (proj2 (str_eqb_neq _ _) Hk).
Qed.

(** The only pull request is not empty, and its sides are those of the match. *)
Lemma match_sides repository name head_sha m :
  same_pull_request repository name head_sha m = Ok true ->
  jtruthy m = true /\ exists hd r n, jget m (u "head") = Ok hd
    /\ jget (or_empty hd) (u "repo") = Ok r
    /\ jget_default (or_empty r) (u "full_name") (JStr []) = Ok (JStr n)
    /\ casefold n = casefold name.
Proof.
  unfold same_pull_request. intros Hm. apply obind_Ok in Hm as (head & Eh & Hm).
  unfold get_or_empty in Eh. apply obind_Ok in Eh as (hd & Ehd & [= <-]).
  apply obind_Ok in Hm as (base & Eb & Hm). apply obind_Ok in Hm as (hr & Ehr & Hm).
  unfold get_or_empty in Ehr. apply obind_Ok in Ehr as (r & Er & [= <-]).
  apply obind_Ok in Hm as (br & Ebr & Hm). apply obind_Ok in Hm as (sha & Esha & Hm).
  destruct (jeq_str sha head_sha) eqn:Es; [|done]. cbn [negb] in Hm.
  apply obind_Ok in Hm as (hn & Ehn & Hm). apply obind_Ok in Hm as (hc & Ehc & Hm).
  destruct hn as [| | | | |n| |]; try done. injection Ehc as <-.
  destruct (str_eqb (casefold n) (casefold name)) eqn:En; [|done]. apply str_eqb_eq in En.
  split; [|by exists hd, r, n].
  destruct m as [| | | | | | |d]; try done. destruct d; [|done]. exfalso.
  cbn in Ehd. injection Ehd as <-. cbn in Esha. injection Esha as <-. done.
Qed.

Lemma same_name_iff a b : same_name a b = true <-> casefold a = casefold b.
Proof. apply str_eqb_eq. Qed.

(** A fork is told by the name of its head repository. *)
Lemma external_head repository run h name :
  external_candidate repository run = Ok true -> jget run (u "head_repository") = Ok h ->
  jget (or_empty h) (u "full_name") = Ok (JStr name) -> same_name name repository = false.
Proof.
  unfold external_candidate. intros Hx Eh En.
  destruct (jget run (u "pull_requests")) as [pulls|e] eqn:Ep; [|done]. cbn [obind] in Hx.
  destruct (jtruthy pulls) eqn:Et; [done|].
  destruct (jget run (u "event")) as [event|e]; [|done]. cbn [obind] in Hx.
  destruct (jeq_str event _); [|done]. cbn [negb] in Hx.
  destruct (_trust_level repository run) as [t|e] eqn:El; [|done]. cbn [obind] in Hx.
  injection Hx as Hx%bool_decide_eq_true. subst t. revert El.
  unfold _trust_level. rewrite Ep. cbn [obind]. unfold jor at 1. rewrite Et. cbn [jfirst obind].
  rewrite Eh. cbn [obind jtruthy]. fold (or_empty h). unfold trust_of_head. rewrite En.
  cbn [obind]. unfold by_name. by destruct (same_name name repository).
Qed.

Lemma sides_agree m side hd s r : jget m side = Ok hd ->
  jget_default m side (JObj []) = Ok s -> jget s (u "repo") = Ok r ->
  jget (or_empty hd) (u "repo") = Ok r.
Proof.
  destruct m as [| | | | | | |d]; try done. cbn [jget jget_default]. intros [= <-] [= <-].
  destruct (dict_get str_eqb d side) as [x|]; cbn [default]; [|done].
  by destruct x as [| | | | | | |[|kv d']].
Qed.

Lemma completed_trust repository head_sha run m run' :
  completed_by repository head_sha run m run' -> _trust_level repository run' = Ok TRUSTED ->
  exists head base i j, side_repo m (u "head") head /\ side_repo m (u "base") base
    /\ with_value head (u "id") i /\ with_value base (u "id") j /\ py_eqb i j = true.
Proof.
  intros (Hx & (h & name & Eh & En & Hm) & ->) Ht. pose proof (external_head _ _ _ _ Hx Eh En) as Hno.
  apply match_sides in Hm as (Hmt & hd & r & n & Ehd & Er & Ehn & Hn).
  apply trust_trusted in Ht as (pr & h' & Epr & Eh' & Ht).
  rewrite with_pulls_get in Eh' by (by vm_compute).
  rewrite Eh in Eh'. injection Eh' as <-.
  assert (pr = m) as ->.
  { revert Epr Eh. unfold first_pull. destruct run as [| | | | | | |d]; cbn [jget]; try done.
    cbn [with_pull_requests jget]. rewrite dict_get_set_eq. by intros [= <-] _. }
  rewrite Hmt in Ht. destruct Ht as (head & base & Hhead & Hbase & Hb & [(i & j & Hi & Hj & Hij)|[_ Ht]]).
  { by exists head, base, i, j. }
  exfalso. apply not_true_iff_false in Hno. apply Hno. clear Hno.
  destruct Ht as [(b & Eb & n' & En' & Hnb)|[_ (n' & En' & Hn')]].
  - destruct Hb as (b0 & Eb0 & Hb0). rewrite Eb in Eb0. injection Eb0 as <-.
    destruct Hhead as (s & r' & Es & Er' & ->).
    pose proof (sides_agree _ _ _ _ _ Ehd Es Er') as Hsame. rewrite Er in Hsame.
    injection Hsame as <-. rewrite same_name_iff in *.
    assert (n = n') as ->; [|congruence]. revert Ehn En'.
    destruct (or_empty r) as [| | | | | | |d]; cbn [jget jget_default]; try done.
    destruct (dict_get str_eqb d (u "full_name")) as [x|]; cbn [default]; [|done]. congruence.
  - rewrite En in En'. injection En' as <-. done.
Qed.
End forks.

(** C8: TRUSTED is never guessed.  When repository_context reports TRUSTED, the run GitHub
    answered lists no pull request and its head repository has the name of the analysed one
    (letter case aside), or its first pull request goes into the analysed repository
    from a repository of the same id - or, only where an id is missing, of the same name.
    A pull request the client itself found for a fork's run makes it TRUSTED only by equal
    ids of its two sides. *)
Theorem repository_context_trust `{UnicodeDb} `{Libraries} {N : Type}
    (transport : Request -> M N Response) (repository head_sha token : str) (run_id : Z)
    (context : RepositoryContext) (n n' : N)
    (Hrun : repository_context transport repository run_id head_sha token n = (Ok context, n'))
    (Htrust : rc_trust_level context = TRUSTED) :
  exists run n1, get_json transport (repo_url repository (with_id (u "/actions/runs/") run_id))
                   (_headers token) [] n = (Ok run, n1)
    /\ (trusted_evidence repository run
        \/ exists m run', completed_by repository head_sha run m run'
             /\ trusted_evidence repository run'
             /\ exists head base i j, side_repo m (u "head") head /\ side_repo m (u "base") base
                  /\ with_value head (u "id") i /\ with_value base (u "id") j /\ py_eqb i j = true).
Proof.
  revert Hrun. unfold repository_context. unfold Mbind at 1.
  destruct (get_json _ _ _ _ n) as [[run|e] n1] eqn:Eg; [|done]. unfold Mbind at 1.
  destruct (_resolve_external_pull_request _ _ _ _ run n1) as [[run'|e] n2] eqn:Er; [|done].
  intros Hk. assert (Ht : _trust_level repository run' = Ok TRUSTED).
  { do 4 apply Mbind_Ok in Hk as (? & ? & _ & Hk). apply Mbind_Ok in Hk as (t & ? & Ht & Hk).
    do 3 apply Mbind_Ok in Hk as (? & ? & _ & Hk). injection Hk as <- _.
    cbn [rc_trust_level] in Htrust. subst t. by injection Ht as ->. }
  exists run, n1. split; [done|]. apply resolve_run in Er as [->|(m & Hc)].
  - left. by apply trust_trusted.
  - right. exists m, run'. split; [done|]. split; [by apply trust_trusted|]. by eapply completed_trust.
Qed.

(** Listings are complete: from a server that pages through its items, with fuel for
    every page, user_installations returns all installations and failed_jobs reads all
    jobs of the run and keeps exactly what [failed_of] makes of the failed ones, in order. *)
Theorem listing_complete `{UnicodeDb} `{Libraries} {N : Type}
    (transport : Request -> M N Response) (fuel : nat) (token repository : str) (run_id : Z)
    (installations jobs : list json) (n : N)
    (Hinst : serves transport (api_url ++ u "/user/installations") (u "installations") installations)
    (Hjobs : serves transport (jobs_url repository run_id) (u "jobs") jobs)
    (Hfuel : (length installations < 100 * fuel)%nat /\ (length jobs < 100 * fuel)%nat) :
  (exists n', user_installations transport fuel token n = (Ok installations, n'))
  /\ (exists n', failed_jobs transport fuel repository run_id token n = (failed_of jobs, n')).
Proof.
  destruct Hfuel as [Hf1 Hf2]. split.
  - by apply (listing transport fuel _ token _ page_params installations n Hinst).
  - unfold failed_jobs, Mbind.
    destruct (listing transport fuel _ token _ (fun page => (u "filter", u "latest") :: page_params page)
      jobs n Hjobs) as (n' & ->); [done..|]. by exists n'.
Qed.






(** ** A small GitHub *)

Definition sample_libraries : Libraries := {|
  jwt_encode := fun _ _ => Ok (u "jwt"); unzip := fun _ => Ok [];
  lib_int := fun v => match v with JInt z => Some z | _ => None end; lib_str := fun _ => u "None" |}.
Definition json_response (v : json) : Response := {|
  rsp_status := 200; rsp_headers := []; rsp_text := []; rsp_content := []; rsp_json := Some v |}.
(** Answers by URL. *)
Definition site (pages : list (str * json)) (_ : list Request) (req : Request) : outcome Response :=
  match dict_get str_eqb pages (rq_url req) with
  | Some v => Ok (json_response v)
  | None => Raise (TransportError (u "no such page"))
  end.

Definition named_repo (name : str) (id : Z) : json :=
  JObj [(u "id", JInt id); (u "full_name", JStr name)].
Definition own_run : json := JObj
  [(u "event", JStr (u "push")); (u "head_repository", named_repo (u "O/R") 1)].
Definition own_site : list (str * json) :=
  [(u "https://api.github.com/repos/o/r/actions/runs/7", own_run);
   (u "https://api.github.com/repos/o/r/commits/abc",
    JObj [(u "files", JArr [JObj [(u "filename", JStr (u "a.py"))]])])].

Lemma repository_context_trust_witness :
  exists context log', @repository_context ascii_db sample_libraries _ (logged (site own_site))
      (u "o/r") 7 (u "abc") (u "t") [] = (Ok context, log')
    /\ @trusted_evidence ascii_db (u "o/r") own_run.
Proof.
  destruct (@repository_context ascii_db sample_libraries _ (logged (site own_site))
    (u "o/r") 7 (u "abc") (u "t") []) as [r log'] eqn:Er.
  assert (exists context, r = Ok context /\ rc_trust_level context = TRUSTED) as (context & -> & Ht)
    by (vm_compute in Er; injection Er as <- _; eexists; split; reflexivity).
  exists context, log'. split; [reflexivity|].
  destruct (@repository_context_trust ascii_db sample_libraries _ (logged (site own_site))
    (u "o/r") (u "abc") (u "t") 7 context [] log' Er Ht) as (run & n1 & Eg & [He|(m & run' & Hc & _)]).
  - assert (Hr : run = own_run) by (vm_compute in Eg; injection Eg as <- _; reflexivity).
    rewrite <- Hr. exact He.
  - assert (Hr : run = own_run) by (vm_compute in Eg; injection Eg as <- _; reflexivity).
    destruct Hc as (Hx & _). subst run. vm_compute in Hx. discriminate Hx.
Defined.

(** 120 jobs take two pages. *)
Definition sample_job (k : nat) : json := JObj
  [(u "id", JInt (Z.of_nat k)); (u "name", JStr (u "build"));
   (u "conclusion", JStr (if Nat.even k then u "success" else u "failure"))].
Definition sample_jobs : list json := map sample_job (seq 0 120).
Definition page_number (s : str) : Z :=
  if str_eqb s (u "1") then 1 else if str_eqb s (u "2") then 2 else 3.
Definition paging_server (req : Request) : M unit Response := fun n =>
  let page := page_number (default [] (dict_get str_eqb (rq_params req) (u "page"))) in
  let key := if str_eqb (rq_url req) (api_url ++ u "/user/installations")
             then u "installations" else u "jobs" in
  (Ok (json_response (JObj [(key, JArr (page_of sample_jobs page))])), n).

Lemma page_number_ok page : 1 <= page ->
  page_of sample_jobs (page_number (str_of_Z page)) = page_of sample_jobs page.
Proof.
  intros Hp. unfold page_number.
  destruct (str_eqb (str_of_Z page) (u "1")) eqn:E1;
    [apply str_eqb_eq, (str_of_Z_inj page 1) in E1 as ->; done|].
  destruct (str_eqb (str_of_Z page) (u "2")) eqn:E2;
    [apply str_eqb_eq, (str_of_Z_inj page 2) in E2 as ->; done|].
  apply str_eqb_neq in E1, E2.
  assert (page <> 1) by (by intros ->). assert (page <> 2) by (by intros ->).
  unfold page_of. rewrite !drop_ge; [done|..]; change (length sample_jobs) with 120%nat; lia.
Qed.
Lemma paging_server_serves url key :
  (if str_eqb url (api_url ++ u "/user/installations") then u "installations" else u "jobs") = key ->
  serves paging_server url key sample_jobs.
Proof.
  intros Hkey req n page Hurl Hp Hpage. eexists. exists n. split; [reflexivity|].
  rewrite Hurl, Hkey, Hpage. cbn [default from_option]. unfold id. rewrite page_number_ok by done. by split.
Qed.

Lemma listing_complete_witness :
  exists n' l, @failed_jobs sample_libraries _ paging_server 2 (u "o/r") 7 (u "t") tt = (Ok l, n')
    /\ length l = 60%nat.
Proof.
  destruct (@listing_complete ascii_db sample_libraries _ paging_server 2 (u "t") (u "o/r") 7
    sample_jobs sample_jobs tt) as [_ (n' & H)].
  - apply paging_server_serves. vm_compute. reflexivity.
  - apply paging_server_serves. vm_compute. reflexivity.
  - split; change (length sample_jobs) with 120%nat; lia.
  - exists n'. assert (Hl : exists l, @failed_of sample_libraries sample_jobs = Ok l /\ length l = 60%nat)
      by (vm_compute; eexists; split; reflexivity).
    destruct Hl as (l & Hl & Hlen). exists l. split; [|exact Hlen]. etransitivity; [exact H|].
    f_equal. exact Hl.
Defined.

