(* ===== verification/Pipeline.v ===== *)
(** * The analysis pipeline (src/pipelens/pipeline.py)

    [AnalysisPipeline.analyze] as a program on a world made of the database,
    the metrics registry, the outside world and the log of the calls made to
    GitHub and to the language model.  Every database transaction and every
    awaited call is preceded by a run of the other tasks and processes
    ([others]), which may change the database: a newer attempt can supersede
    this one between any two steps.  The diagnosis object the source shares
    between [fallback_diagnosis] and [diagnosis] is followed by hand: a note
    appended to the one is seen through the other as long as they are the same
    object. *)

From Stdlib Require Import QArith.
From stdpp Require Import base list gmap strings numbers.
From S2P Require Import Prelude Models Sanitizer Classifier Preprocessing Relevance.
From S2P Require Import Diagnosis Llm Patching Publication Store Metrics GitHub.

(** config.py: the settings the pipeline reads. *)
Record PipelineSettings := {
  set_log_chunk_chars : Z; set_error_context_lines : Z; set_max_error_chunks : Z;
  set_llm_input_cost_per_million : Q; set_llm_output_cost_per_million : Q;
  set_publish_checks : bool; set_public_url : str;
  set_analysis_start_slo : Z; set_analysis_completion_slo : Z    (* microseconds *) }.

(** The clocks, uuid4, str() of an exception, the tasks that run meanwhile and
    which of two failures of a gather came first. *)
Class Env (Net : Type) := {
  utc_now : Net -> Z * Net;
  perf_counter : Net -> Z * Net;
  uuid4_hex : Net -> str * Net;
  exn_text : exn -> str;
  others : Database -> Net -> Database * Net;
  failed_first : Net -> bool
}.

Record LLMProvider (Net : Type) := {
  lp_model_name : str;
  lp_analyze : LLMContext -> M Net LLMProviderResult
}.
Arguments lp_model_name {Net} l.
Arguments lp_analyze {Net} l.

(** The calls made, with their results. *)
Inductive Call :=
| InstallationToken (installation : Z) (r : outcome str)
| FailedJobs (repository : str) (run_id : Z) (r : outcome (list FailedJob))
| DownloadLogs (repository : str) (run_id : Z) (r : outcome (list JobLog))
| ReadContext (repository : str) (run_id : Z) (head_sha : str) (r : outcome RepositoryContext)
| FileContents (repository : str) (paths : list str) (ref : str)
    (r : outcome (list (str * str)))
| AskLLM (context : LLMContext) (r : outcome LLMProviderResult)
| UpsertCheck (repository head_sha : str) (run_id : Z) (title body details_url : str)
    (r : outcome unit)
| UpsertComment (repository : str) (number run_id : Z) (body : str) (r : outcome unit).

Record World (Net : Type) := {
  w_db : Database; w_metrics : Registry; w_net : Net; w_calls : list Call }.
Arguments Build_World {Net} w_db w_metrics w_net w_calls.
Arguments w_db {Net} w.
Arguments w_metrics {Net} w.
Arguments w_net {Net} w.
Arguments w_calls {Net} w.

Section pipeline.
Context {U : UnicodeDb} {DL : Dialect} {DP : DocParsers} {Net : Type} {E : Env Net}
  {G : GitHubClient Net}.
Context (percent : Q -> str) (settings : PipelineSettings) (llm_provider : option (LLMProvider Net)).
Open Scope prog_scope.
Abbreviation MW := (M (World Net)).

(** ** Acting on a part of the world *)

Definition ask {A} (f : Net -> A * Net) : MW A := fun w =>
  let (a, n) := f (w_net w) in (Ok a, Build_World (w_db w) (w_metrics w) n (w_calls w)).
Definition metered {A} (m : M Registry A) : MW A := fun w =>
  let (r, reg) := m (w_metrics w) in (r, Build_World (w_db w) reg (w_net w) (w_calls w)).
Definition interleave : MW unit := fun w =>
  let (db, n) := others (w_db w) (w_net w) in
  (Ok tt, Build_World db (w_metrics w) n (w_calls w)).
(** One transaction of the store, after whatever the others did. *)
Definition stored {A} (m : M Database A) : MW A :=
  interleave;;; (fun w =>
    let (r, db) := m (w_db w) in
    (r, Build_World db (w_metrics w) (w_net w) (w_calls w))).
(** An awaited call, logged with its result. *)
Definition await {A} (call : outcome A -> Call) (m : M Net A) : MW A :=
  interleave;;; (fun w =>
    let (r, n) := m (w_net w) in
    (r, Build_World (w_db w) (w_metrics w) n (w_calls w ++ [call r]))).

(** asyncio.gather: the awaitables run in some order; the first failure is raised. *)
Definition gather3 {A B C} (m1 : MW A) (m2 : MW B) (m3 : MW C) : MW (A * B * C) := fun w =>
  let (r1, w1) := m1 w in
  let (r2, w2) := m2 w1 in
  let (r3, w3) := m3 w2 in
  (match r1, r2, r3 with
   | Ok a, Ok b, Ok c => Ok (a, b, c)
   | Raise e1, Raise e2, _ => Raise (if failed_first (w_net w3) then e1 else e2)
   | Raise e, _, _ | _, Raise e, _ | _, _, Raise e => Raise e
   end, w3).

(** ** The store, at the time of the call *)

Definition store_update (run_id : Z) (v : AnalysisUpdate) (token : str) : MW unit :=
  do! now := ask utc_now in stored (update now run_id RUNNING v None (Some token)).
Definition store_stage (run_id : Z) (stage : AnalysisStage) (status : StageStatus)
    (error : option str) (token : str) : MW unit :=
  do! now := ask utc_now in stored (record_stage now run_id stage status error (Some token)).

Definition _stage {A} (run_id : Z) (stage : AnalysisStage) (token : str) (body : MW A) : MW A :=
  store_stage run_id stage S_STARTED None token;;;
  Mtry_else body
    (fun e =>
       store_stage run_id stage S_FAILED (Some (take 2000 (exn_text e))) token;;; Mraise e)
    (fun a => store_stage run_id stage S_COMPLETED None token;;; Mret a).

(** ** Collecting *)

Definition _repository_context (repository : str) (run_id : Z) (head_sha token : str)
  : MW RepositoryContext :=
  Mtry (await (ReadContext repository run_id head_sha)
          (repository_context repository run_id head_sha token))
    (fun _ => Mret (empty_repository_context UNVERIFIED)).

Definition trust_update (t : TrustLevel) : AnalysisUpdate := {|
  au_classification := None; au_diagnosis := None; au_related_files := None;
  au_workflow_path := None; au_execution_context := None; au_model_name := None;
  au_prompt_version := None; au_trust_level := Some t; au_baseline_sha := None |}.

Definition collect (request : AnalysisRequest) (token : str)
  : MW (str * list FailedJob * list JobLog * RepositoryContext) :=
  do! access_token := await (InstallationToken (aq_installation_id request))
                        (installation_token (aq_installation_id request)) in
  let repository := aq_repository request in
  let run_id := aq_run_id request in
  do! (jobs, logs, context) := gather3
    (await (FailedJobs repository run_id) (failed_jobs repository run_id access_token))
    (await (DownloadLogs repository run_id) (download_logs repository run_id access_token))
    (_repository_context repository run_id (aq_head_sha request) access_token) in
  store_update run_id (trust_update (rc_trust_level context)) token;;;
  metered (inc analysis_trust [trust_value (rc_trust_level context)]);;;
  Mret (access_token, jobs, logs, context).

(** ** Sanitizing *)

Definition clean (value : str) : MW str :=
  let (sanitized, redactions) := sanitize_log value in
  metered (record_redactions redactions);;; Mret sanitized.
Definition clean_option (value : option str) : MW (option str) :=
  match value with
  | None => Mret None
  | Some v => do! s := clean v in Mret (Some s)
  end.
(** clean(value) or default *)
Definition clean_or (default value : str) : MW str :=
  do! s := clean value in Mret (match s with [] => default | _ => s end).

Fixpoint map_clean {A B} (f : A -> MW B) (l : list A) : MW (list B) :=
  match l with
  | [] => Mret []
  | x :: l' => do! y := f x in do! ys := map_clean f l' in Mret (y :: ys)
  end.

(** next((clean(get(job)) for job in failed_jobs if get(job)), None) *)
Definition first_clean (get : FailedJob -> option str) (jobs : list FailedJob)
  : MW (option str) :=
  match List.find (fun j => truthy (get j)) jobs with
  | Some j => clean_option (get j)
  | None => Mret None
  end.

Definition clean_job (j : FailedJob) : MW FailedJobContext :=
  do! name := clean_or (u "unknown job") (fl_name j) in
  do! steps := map_clean (clean_or (u "unknown step")) (fl_failed_steps j) in
  do! labels := map_clean (clean_or (u "unknown")) (fl_runner_labels j) in
  Mret {| fj_name := name; fj_failed_steps := steps; fj_runner_labels := labels |}.

Definition _sanitize_execution_context (jobs : list FailedJob) : MW ExecutionContext :=
  do! workflow_name := first_clean fl_workflow_name jobs in
  do! head_branch := first_clean fl_head_branch jobs in
  do! failed := map_clean clean_job jobs in
  Mret {| ec_workflow_name := workflow_name; ec_head_branch := head_branch;
          ec_failed_jobs := failed |}.

Definition clean_changed_file (c : ChangedFile) : MW ChangedFile :=
  do! patch := clean (default [] (cf_patch c)) in
  Mret {| cf_filename := cf_filename c; cf_status := cf_status c;
          cf_patch := none_if_empty patch;
          cf_previous_filename := cf_previous_filename c |}.

(** The logs of the failed jobs, all logs when none is named after one. *)
Definition selected_logs (jobs : list FailedJob) (logs : list JobLog) : list JobLog :=
  match List.filter (fun l => existsb (fun j => contains (fl_name j) (jl_job_name l)) jobs) logs with
  | [] => logs
  | matching => matching
  end.

Record Sanitized := {
  sz_execution_context : ExecutionContext; sz_context : str;
  sz_changed_files : list ChangedFile; sz_workflow_content : str }.

Definition sanitize (jobs : list FailedJob) (logs : list JobLog) (rc : RepositoryContext)
  : MW Sanitized :=
  do! execution_context := _sanitize_execution_context jobs in
  let processed := preprocess_logs (map jl_text (selected_logs jobs logs))
    (set_log_chunk_chars settings) (set_error_context_lines settings)
    (set_max_error_chunks settings) in
  metered (record_redactions (pp_redactions processed));;;
  metered (inc_by log_chunks [u "processed"]
             (inject_Z (Z.of_nat (pp_chunks_processed processed))));;;
  metered (inc_by log_chunks [u "error"] (inject_Z (Z.of_nat (pp_error_chunks processed))));;;
  do! changed := map_clean clean_changed_file (rc_changed_files rc) in
  do! workflow := clean (default [] (rc_workflow_content rc)) in
  Mret {| sz_execution_context := execution_context; sz_context := pp_context processed;
          sz_changed_files := changed; sz_workflow_content := workflow |}.

(** ** Classifying and correlating *)

Definition failed_locations (ec : ExecutionContext) : list str :=
  match concat (map (fun j => map (fun s => fj_name j ++ u " / " ++ s) (fj_failed_steps j))
                  (ec_failed_jobs ec)) with
  | [] => map fj_name (ec_failed_jobs ec)
  | steps => steps
  end.

Definition classify (z : Sanitized) : MW Classification :=
  let step := none_if_empty (str_join (u ", ") (failed_locations (sz_execution_context z))) in
  let c := classify_log (sz_context z) step in
  metered (inc error_categories [category_value (cl_category c)]);;; Mret c.

Definition repository_files (rc : RepositoryContext) : list str :=
  map cf_filename (rc_changed_files rc)
  ++ (if truthy (rc_workflow_path rc) then [or_str (rc_workflow_path rc) []] else []).

Definition correlate (z : Sanitized) (c : Classification) : MW (list RelatedFile) :=
  Mret (correlate_changed_files (sz_context z) (sz_changed_files z) (cl_category c) 5).

(** ** Diagnosing *)

Definition FORK_NOTE : str :=
  u "외부 Fork 실행이므로 신뢰할 수 없는 로그·코드·Workflow를 LLM에 전송하지 않고 규칙 기반 진단만 수행했습니다.".
Definition UNVERIFIED_NOTE : str :=
  u "저장소 신뢰 수준을 확인하지 못해 로그·코드·Workflow를 LLM에 전송하지 않고 규칙 기반 진단만 수행했습니다.".
Definition LLM_FAILED_NOTE : str :=
  u "LLM 분석에 실패하여 규칙 기반 진단 결과를 제공했습니다.".
Definition NO_RELATED_NOTE : str :=
  u "로그와 직접 연결되는 변경 파일을 찾지 못했습니다.".

Definition add_note (note : str) (d : Diagnosis) : Diagnosis :=
  with_suggestions d (dg_suggestions d) (dg_notes d ++ [note]).

Definition trust_note (t : TrustLevel) (d : Diagnosis) : Diagnosis :=
  match t with
  | TRUSTED => d
  | UNTRUSTED_FORK => add_note FORK_NOTE d
  | UNVERIFIED => add_note UNVERIFIED_NOTE d
  end.

Definition fallback_diagnosis (z : Sanitized) (rc : RepositoryContext) (c : Classification)
  : Diagnosis :=
  trust_note (rc_trust_level rc)
    (validate_diagnosis (build_rule_based_diagnosis c) (sz_context z)
       (Some (repository_files rc))).

Definition llm_context (z : Sanitized) (rc : RepositoryContext) (c : Classification)
    (related : list RelatedFile) : LLMContext := {|
  lc_classification := c; lc_log := sz_context z; lc_related_files := related;
  lc_execution_context := Some (sz_execution_context z);
  lc_workflow_path := rc_workflow_path rc;
  lc_workflow_content := none_if_empty (sz_workflow_content z) |}.

Definition estimated_cost (r : LLMProviderResult) : Q :=
  ((inject_Z (lr_input_tokens r) * set_llm_input_cost_per_million settings
    + inject_Z (lr_output_tokens r) * set_llm_output_cost_per_million settings)
   / inject_Z 1000000)%Q.

Definition llm_failed (model : str) (started : Z) : MW unit :=
  do! now := ask perf_counter in
  metered (record_llm model (u "failed") (now - started) 0 0 0).

(** The try block.  A failure of the call or of the validation leaves the
    rule-based diagnosis, with a note; a failure of the success metrics comes
    after the assignment, so the note goes to an object nobody reads. *)
Definition ask_llm (p : LLMProvider Net) (c : LLMContext) (fallback : Diagnosis)
  : MW Diagnosis :=
  do! started := ask perf_counter in
  Mtry_else
    (do! r := await (AskLLM c) (lp_analyze p c) in
     do! d := Mlift (validate_llm_analysis (lr_analysis r) c) in
     Mret (r, d))
    (fun _ =>
       llm_failed (lp_model_name p) started;;; Mret (add_note LLM_FAILED_NOTE fallback))
    (fun rd =>
       let (r, d) := rd : LLMProviderResult * Diagnosis in
       Mtry
         (do! now := ask perf_counter in
          metered (record_llm (lp_model_name p) (u "success") (now - started)
                     (lr_input_tokens r) (lr_output_tokens r) (estimated_cost r));;;
          Mret d)
         (fun _ => llm_failed (lp_model_name p) started;;; Mret d)).

Definition patch_files (d : Diagnosis) : list str :=
  omap (fun s => if truthy (sg_patch s) && truthy (sg_file s) then sg_file s else None)
    (dg_suggestions d).
Definition fromkeys (l : list str) : list str :=
  foldl (fun acc x => if has_str x acc then acc else acc ++ [x]) [] l.
Definition dict_update (d d' : list (str * str)) : list (str * str) :=
  foldl (fun acc kv => dict_set str_eqb acc (fst kv) (snd kv)) d d'.

Definition workflow_file (rc : RepositoryContext) : list (str * str) :=
  if truthy (rc_workflow_path rc) && truthy (rc_workflow_content rc)
  then [(or_str (rc_workflow_path rc) [], or_str (rc_workflow_content rc) [])] else [].
Definition fetch_targets (log : str) (d : Diagnosis) (bumps : list VersionBump)
    (related : list RelatedFile) (files : list (str * str)) : list str :=
  let manifests := match bumps with [] => [] | _ => manifest_paths_in_log log end in
  List.filter (fun p => negb (dict_has str_eqb files p))
    (fromkeys (map rf_filename related ++ patch_files d ++ manifests)).

Definition fetch_files (request : AnalysisRequest) (access_token : str)
    (files : list (str * str)) (targets : list str) : MW (list (str * str)) :=
  match targets with
  | [] => Mret files
  | _ =>
    let repository := aq_repository request in
    let sha := aq_head_sha request in
    Mtry (do! fetched := await (FileContents repository targets sha)
                           (file_contents repository targets sha access_token) in
          Mret (dict_update files fetched))
      (fun _ => Mret files)
  end.

Definition _attach_verified_patches (request : AnalysisRequest) (access_token : str)
    (d : Diagnosis) (log : str) (related : list RelatedFile) (rc : RepositoryContext)
  : MW Diagnosis :=
  do! bumps := Mlift (find_version_bumps log) in
  match bumps, patch_files d with
  | [], [] => Mret d
  | _, _ =>
    let files := workflow_file rc in
    do! files := fetch_files request access_token files
                   (fetch_targets log d bumps related files) in
    do! (verified, counts) := Mlift (propose_and_verify_patches d bumps files) in
    metered (Miter (fun kv : (str * str) * nat =>
                      let '((source, result), count) := kv in
                      inc_by patch_proposals [source; result] (inject_Z (Z.of_nat count)))
               counts);;;
    Mret verified
  end.

Definition is_trusted (rc : RepositoryContext) : bool :=
  bool_decide (rc_trust_level rc = TRUSTED).
Definition is_untrusted_fork (rc : RepositoryContext) : bool :=
  bool_decide (rc_trust_level rc = UNTRUSTED_FORK).

Record Diagnosed := {
  ds_diagnosis : Diagnosis; ds_model_name : option str; ds_prompt_version : option str }.

Definition diagnose (request : AnalysisRequest) (access_token : str) (z : Sanitized)
    (rc : RepositoryContext) (c : Classification) (related : list RelatedFile)
  : MW Diagnosed :=
  let fallback := fallback_diagnosis z rc c in
  do! (d, model, version) :=
    match llm_provider with
    | Some p =>
      if is_trusted rc then
        do! d := ask_llm p (llm_context z rc c related) fallback in
        Mret (d, Some (lp_model_name p), Some PROMPT_VERSION)
      else Mret (fallback, None, None)
    | None => Mret (fallback, None, None)
    end in
  do! d := (if is_trusted rc
            then _attach_verified_patches request access_token d (sz_context z) related rc
            else Mret (strip_patches d)) in
  let d := match related with [] => add_note NO_RELATED_NOTE d | _ => d end in
  Mret {| ds_diagnosis := d; ds_model_name := model; ds_prompt_version := version |}.

(** ** Publishing *)

Definition result_update (z : Sanitized) (rc : RepositoryContext) (c : Classification)
    (related : list RelatedFile) (ds : Diagnosed) : AnalysisUpdate := {|
  au_classification := Some c; au_diagnosis := Some (ds_diagnosis ds);
  au_related_files := Some related; au_workflow_path := rc_workflow_path rc;
  au_execution_context := Some (sz_execution_context z);
  au_model_name := ds_model_name ds; au_prompt_version := ds_prompt_version ds;
  au_trust_level := Some (rc_trust_level rc); au_baseline_sha := rc_baseline_sha rc |}.

Definition details_url (request : AnalysisRequest) : str :=
  rstrip_chars (u "/") (set_public_url settings) ++ u "/?run_id="
  ++ str_of_Z (aq_run_id request).

Definition report (request : AnalysisRequest) (rc : RepositoryContext) (c : Classification)
    (related : list RelatedFile) (d : Diagnosis) : str :=
  render_github_diagnosis percent (aq_run_id request) c d related (details_url request)
    (rc_trust_level rc) (rc_baseline_sha rc) (Some (aq_head_sha request)).

Definition publish (request : AnalysisRequest) (access_token : str) (rc : RepositoryContext)
    (c : Classification) (related : list RelatedFile) (d : Diagnosis) : MW unit :=
  if negb (set_publish_checks settings) then Mret tt
  else
    let repository := aq_repository request in
    let run_id := aq_run_id request in
    let body := report request rc c related d in
    let check :=
      if is_trusted rc then
        await (UpsertCheck repository (aq_head_sha request) run_id (dg_summary d) body
                 (details_url request))
          (upsert_check repository (aq_head_sha request) run_id access_token (dg_summary d)
             body (details_url request))
      else Mret tt in
    match rc_pull_request_number rc with
    | Some number =>
      if is_trusted rc || is_untrusted_fork rc then
        await (UpsertComment repository number run_id body)
          (upsert_pull_request_comment repository number run_id access_token body)
      else check
    | None => check
    end.

(** ** The whole analysis *)

Definition _analyze (request : AnalysisRequest) (token : str) : MW unit :=
  let run_id := aq_run_id request in
  do! (access_token, jobs, logs, rc) := _stage run_id COLLECTING token (collect request token) in
  do! z := _stage run_id SANITIZING token (sanitize jobs logs rc) in
  do! c := _stage run_id CLASSIFYING token (classify z) in
  do! related := _stage run_id CORRELATING token (correlate z c) in
  do! ds := _stage run_id DIAGNOSING token (diagnose request access_token z rc c related) in
  store_update run_id (result_update z rc c related ds) token;;;
  _stage run_id PUBLISHING token (publish request access_token rc c related (ds_diagnosis ds)).

Definition count_attempt (status : str) (started : Z) : MW unit :=
  metered (inc analyses [status]);;;
  do! now := ask perf_counter in
  metered (observe analysis_duration [] (seconds (now - started))).
Definition slo (phase : str) (elapsed limit : Z) : MW unit :=
  metered (inc slo_results [phase; if elapsed <=? limit then u "met" else u "breached"]).

(** store.begin_analysis, store.finish_analysis *)
Definition store_begin (run_id : Z) (token : str) : MW AnalysisStart :=
  do! now := ask utc_now in stored (begin_analysis now run_id (Some token)).
Definition store_finish (run_id started_at : Z) (status : AnalysisStatus) (token : str) : MW Z :=
  do! now := ask utc_now in stored (finish_analysis now run_id started_at status (Some token)).

Definition is_superseded (e : exn) : bool :=
  match e with AnalysisAttemptSuperseded _ => true | _ => false end.

(** except AnalysisAttemptSuperseded: count and return; any other exception goes on. *)
Definition unless_superseded (started : Z) (e : exn) (k : MW unit) : MW unit :=
  if is_superseded e then count_attempt (u "superseded") started else k.

(** The handlers of the first try block; [started_at] is None when
    begin_analysis itself raised. *)
Definition on_failure (request : AnalysisRequest) (started : Z) (started_at : option Z)
    (token : str) (e : exn) : MW unit :=
  unless_superseded started e
    (let failed := count_attempt (u "failed_attempt") started;;; Mraise e in
     match started_at with
     | None => failed
     | Some at_ =>
       Mtry_else (store_finish (aq_run_id request) at_ FAILED token)
         (fun e' => unless_superseded started e' (Mraise e'))
         (fun _ => failed)
     end).

Definition on_success (request : AnalysisRequest) (started started_at : Z) (token : str)
  : MW unit :=
  Mtry_else (store_finish (aq_run_id request) started_at COMPLETED token)
    (fun e => unless_superseded started e (Mraise e))
    (fun latency =>
       count_attempt (u "completed") started;;;
       metered (observe total_latency [] (seconds latency));;;
       slo (u "completion") latency (set_analysis_completion_slo settings)).

(** The first try block after begin_analysis. *)
Definition attempt (request : AnalysisRequest) (start : AnalysisStart) (token : str) : MW unit :=
  Mwhen (as_first_start start)
    (metered (observe queue_wait [] (seconds (as_queue_wait_seconds start)));;;
     slo (u "start") (as_queue_wait_seconds start) (set_analysis_start_slo settings));;;
  _analyze request token.

Definition analyze (request : AnalysisRequest) : MW unit :=
  do! started := ask perf_counter in
  do! token := ask uuid4_hex in
  Mtry_else (store_begin (aq_run_id request) token)
    (fun e => on_failure request started None token e)
    (fun start =>
       let at_ := as_attempt_started_at start in
       Mtry_else (attempt request start token)
         (fun e => on_failure request started (Some at_) token e)
         (fun _ => on_success request started at_ token)).
End pipeline.
