(* ===== verification/PipelineFacts.v ===== *)
(** * What an analysis sends and publishes

    The calls of [Pipeline.analyze]: which calls an analysis makes and with whose
    content ([analyze_trust_boundary]) and what it publishes
    ([published_fixes_verified]). *)

From Stdlib Require Import QArith.
From stdpp Require Import base list gmap strings numbers.
From S2P Require Import Prelude Models Sanitizer Classifier Preprocessing Relevance Diagnosis.
From S2P Require Import Llm Patching Publication Store Metrics GitHub Pipeline.

Section traces.
Context {Net : Type}.
Open Scope prog_scope.

(** ** The calls a computation makes *)

Definition traces {A} (m : M (World Net) A) (Q : outcome A -> list Call -> Prop) : Prop :=
  forall w r w', m w = (r, w') -> exists t, w_calls w' = w_calls w ++ t /\ Q r t.
Definition silent {A} (m : M (World Net) A) : Prop := traces m (fun _ t => t = []).
(** A condition that an exception afterwards does not break. *)
Definition closed {A} (Q : outcome A -> list Call -> Prop) : Prop :=
  forall r e t, Q r t -> Q (Raise e) t.

Lemma traces_weaken {A} (m : M (World Net) A) (Q Q' : outcome A -> list Call -> Prop) :
  traces m Q -> (forall r t, Q r t -> Q' r t) -> traces m Q'.
Proof. intros H Hq w r w' E. destruct (H w r w' E) as (t & Ht & Hr). eauto. Qed.

Lemma traces_bind {A B} (m : M (World Net) A) (f : A -> M (World Net) B) Q1 Q :
  traces m Q1 -> (forall e t, Q1 (Raise e) t -> Q (Raise e) t) ->
  (forall a t1, Q1 (Ok a) t1 -> traces (f a) (fun r t2 => Q r (t1 ++ t2))) ->
  traces (Mbind m f) Q.
Proof.
  intros Hm He Hf w r w'. unfold Mbind. destruct (m w) as [[a|e] w1] eqn:E.
  - destruct (Hm _ _ _ E) as (t1 & Ht1 & Hq). intros E2.
    destruct (Hf _ _ Hq _ _ _ E2) as (t2 & Ht2 & Hr). exists (t1 ++ t2).
    by rewrite Ht2, Ht1, app_assoc.
  - intros [= <- <-]. destruct (Hm _ _ _ E) as (t & Ht & Hq). eauto.
Qed.

Lemma traces_bind_silent {A B} (m : M (World Net) A) (f : A -> M (World Net) B) Q :
  silent m -> (forall e, Q (Raise e) []) -> (forall a, traces (f a) Q) -> traces (Mbind m f) Q.
Proof.
  intros Hm He Hf. eapply traces_bind; [exact Hm|by intros e t ->|].
  intros a t ->. apply Hf.
Qed.

Lemma traces_bind_lift {A B} (o : outcome A) (f : A -> M (World Net) B) Q :
  (forall e, Q (Raise e) []) -> (forall a, o = Ok a -> traces (f a) Q) ->
  traces (Mbind (Mlift o) f) Q.
Proof.
  intros He Hf w r w'. unfold Mbind, Mlift. destruct o as [a|e]; [by apply Hf|].
  intros [= <- <-]. exists []. by rewrite app_nil_r.
Qed.

Lemma traces_ret {A} (a : A) (Q : outcome A -> list Call -> Prop) : Q (Ok a) [] -> traces (Mret a) Q.
Proof. intros H w r w' [= <- <-]. exists []. by rewrite app_nil_r. Qed.

Lemma traces_try {A B} (m : M (World Net) A) h (k : A -> M (World Net) B) Q1 Q :
  traces m Q1 -> (forall e t1, Q1 (Raise e) t1 -> traces (h e) (fun r t2 => Q r (t1 ++ t2))) ->
  (forall a t1, Q1 (Ok a) t1 -> traces (k a) (fun r t2 => Q r (t1 ++ t2))) ->
  traces (Mtry_else m h k) Q.
Proof.
  intros Hm Hh Hk w r w'. unfold Mtry_else.
  destruct (m w) as [[a|e] w1] eqn:E; destruct (Hm _ _ _ E) as (t1 & Ht1 & Hq); intros E2.
  - destruct (Hk _ _ Hq _ _ _ E2) as (t2 & Ht2 & Hr). exists (t1 ++ t2).
    by rewrite Ht2, Ht1, app_assoc.
  - destruct (Hh _ _ Hq _ _ _ E2) as (t2 & Ht2 & Hr). exists (t1 ++ t2).
    by rewrite Ht2, Ht1, app_assoc.
Qed.
Lemma Mtry_as_else {A} (m : M (World Net) A) h : Mtry m h = Mtry_else m h Mret.
Proof. done. Qed.

(** ** Computations that make no call *)

Lemma silent_ret {A} (a : A) : silent (@Mret (World Net) A a).
Proof. by apply traces_ret. Qed.
Lemma silent_raise {A} e : silent (@Mraise (World Net) A e).
Proof. intros w r w' [= <- <-]. exists []. by rewrite app_nil_r. Qed.
Lemma silent_lift {A} o : silent (@Mlift (World Net) A o).
Proof. intros w r w' [= <- <-]. exists []. by rewrite app_nil_r. Qed.
Lemma silent_bind {A B} (m : M (World Net) A) (f : A -> M (World Net) B) :
  silent m -> (forall a, silent (f a)) -> silent (Mbind m f).
Proof. intros Hm Hf. by apply traces_bind_silent. Qed.
Lemma silent_try_else {A B} (m : M (World Net) A) h (k : A -> M (World Net) B) :
  silent m -> (forall e, silent (h e)) -> (forall a, silent (k a)) -> silent (Mtry_else m h k).
Proof. intros Hm Hh Hk. eapply traces_try; [exact Hm|..]; intros ? ? ->; [apply Hh|apply Hk]. Qed.
Lemma silent_when b (m : M (World Net) unit) : silent m -> silent (Mwhen b m).
Proof. intros H. destruct b; [done|apply silent_ret]. Qed.
Lemma silent_ask {A} (f : Net -> A * Net) : silent (ask f).
Proof.
  intros w r w'. unfold ask. destruct (f _). intros [= <- <-]. exists []. by rewrite app_nil_r.
Qed.
Lemma silent_metered {A} (m : M Registry A) : silent (@metered Net A m).
Proof.
  intros w r w'. unfold metered. destruct (m _). intros [= <- <-]. exists [].
  by rewrite app_nil_r.
Qed.
Lemma silent_map_clean {A B} (f : A -> M (World Net) B) l :
  (forall x, silent (f x)) -> silent (map_clean f l).
Proof.
  intros Hf. induction l as [|x l IH]; cbn [map_clean]; [apply silent_ret|].
  apply silent_bind; [done|]. intros y. apply silent_bind; [done|]. intros. apply silent_ret.
Qed.
End traces.

Create HintDb silent.
#[export] Hint Resolve silent_ret silent_raise silent_lift silent_ask silent_metered : silent.
#[export] Hint Resolve silent_bind silent_try_else silent_when silent_map_clean : silent.

Section calls.
Context {U : UnicodeDb} {DL : Dialect} {DP : DocParsers} {Net : Type} {E : Env Net}
  {G : GitHubClient Net}.
Context (percent : Q -> str) (settings : PipelineSettings)
  (llm_provider : option (LLMProvider Net)).
Open Scope prog_scope.

Lemma silent_interleave : silent interleave.
Proof.
  intros w r w'. unfold interleave. destruct (others _ _). intros [= <- <-].
  exists []. by rewrite app_nil_r.
Qed.
Lemma silent_stored {A} (m : M Database A) : silent (stored m).
Proof.
  unfold stored. apply silent_bind; [apply silent_interleave|]. intros _ w r w'.
  destruct (m _). intros [= <- <-]. exists []. by rewrite app_nil_r.
Qed.
Lemma silent_update run_id v token : silent (store_update run_id v token).
Proof. apply silent_bind; [apply silent_ask|]. intros. apply silent_stored. Qed.
Lemma silent_store_stage run_id stage status error token :
  silent (store_stage run_id stage status error token).
Proof. apply silent_bind; [apply silent_ask|]. intros. apply silent_stored. Qed.
Lemma silent_begin run_id token : silent (store_begin run_id token).
Proof. apply silent_bind; [apply silent_ask|]. intros. apply silent_stored. Qed.
Lemma silent_finish run_id at_ status token : silent (store_finish run_id at_ status token).
Proof. apply silent_bind; [apply silent_ask|]. intros. apply silent_stored. Qed.
Hint Resolve silent_update silent_store_stage silent_begin silent_finish : silent.

(** One call, whose result is the computation's. *)
Lemma traces_await {A} (call : outcome A -> Call) (m : M Net A) :
  traces (await call m) (fun r t => t = [call r]).
Proof.
  intros w r w'. unfold await, Mbind, interleave. destruct (others _ _) as [db n].
  destruct (m _) as [o n']. intros [= <- <-]. by eexists.
Qed.

Lemma traces_stage {A} run_id stage token (body : M (World Net) A) Q :
  traces body Q -> closed Q -> (forall e, Q (Raise e) []) ->
  traces (_stage run_id stage token body) Q.
Proof.
  intros Hb Hc He. apply traces_bind_silent; [auto with silent|done|]. intros _.
  eapply traces_try; [exact Hb|..].
  - intros e t1 Hq. eapply traces_bind; [apply silent_store_stage|..].
    + intros e' t ->. rewrite app_nil_r. by eapply Hc.
    + intros _ t ->. intros w r w' [= <- <-]. exists []. by rewrite !app_nil_r.
  - intros a t1 Hq. eapply traces_bind; [apply silent_store_stage|..].
    + intros e' t ->. rewrite app_nil_r. by eapply Hc.
    + intros _ t ->. apply traces_ret. by rewrite !app_nil_r.
Qed.

Lemma silent_stage {A} run_id stage token (body : M (World Net) A) :
  silent body -> silent (_stage run_id stage token body).
Proof. intros H. apply traces_stage; [done|by intros r e t|done]. Qed.

Lemma silent_clean v : @silent Net _ (clean v).
Proof. unfold clean. destruct (sanitize_log v). eauto with silent. Qed.
Hint Resolve silent_clean : silent.
Lemma silent_clean_or d v : @silent Net _ (clean_or d v).
Proof. unfold clean_or. eauto with silent. Qed.
Hint Resolve silent_clean_or : silent.
Lemma silent_first_clean get jobs : @silent Net _ (first_clean get jobs).
Proof.
  unfold first_clean. destruct (List.find _ _); [|eauto with silent].
  unfold clean_option. destruct (get _); eauto with silent.
Qed.
Hint Resolve silent_first_clean : silent.
Lemma silent_sanitize jobs logs rc : @silent Net _ (sanitize settings jobs logs rc).
Proof.
  assert (Hj : forall j, @silent Net _ (clean_job j)) by (intros; unfold clean_job; eauto 10 with silent).
  assert (Hc : forall c, @silent Net _ (clean_changed_file c))
    by (intros; unfold clean_changed_file; eauto with silent).
  unfold sanitize, _sanitize_execution_context. apply silent_bind; eauto 20 with silent.
Qed.
Lemma silent_classify z : @silent Net _ (classify z).
Proof. unfold classify. eauto with silent. Qed.
Lemma silent_correlate z c : @silent Net _ (correlate z c).
Proof. apply silent_ret. Qed.

(** ** Diagnoses and their diffs *)

Definition unverified (d : Diagnosis) : Prop :=
  Forall (fun s => sg_patch_verified s = false) (dg_suggestions d).
Definition verified_against (files : list (str * str)) (d : Diagnosis) : Prop :=
  Forall (fun s => sg_patch_verified s = true -> publishable s files) (dg_suggestions d).
Definition without_patches (d : Diagnosis) : Prop :=
  Forall (fun s => sg_patch s = None) (dg_suggestions d).

Lemma unverified_against files d : unverified d -> verified_against files d.
Proof. intros H. eapply Forall_weaken; [exact H|]. cbn. congruence. Qed.

Lemma validate_llm_unverified r c d : validate_llm_analysis r c = Ok d -> unverified d.
Proof.
  unfold validate_llm_analysis. destruct (List.filter _ (la_evidence r)); [done|].
  destruct (decide _); intros [= <-]; apply Forall_map, List.Forall_forall; done.
Qed.

Lemma fallback_unverified z rc c : unverified (fallback_diagnosis z rc c).
Proof.
  assert (H : unverified (validate_diagnosis (build_rule_based_diagnosis c) (sz_context z)
                            (Some (repository_files rc)))).
  { unfold unverified, validate_diagnosis.
    assert (Hs : Forall (fun s => sg_patch_verified s = false)
      (dg_suggestions (build_rule_based_diagnosis c))).
    { unfold build_rule_based_diagnosis. destruct (MESSAGES _) as [[? ?] ?].
      by repeat constructor. }
    destruct (List.filter (evidence_valid _) _); cbn [dg_suggestions];
      apply List.Forall_forall; intros s [Hin _]%List.filter_In;
      rewrite List.Forall_forall in Hs; by apply Hs. }
  unfold fallback_diagnosis, trust_note. by destruct (rc_trust_level rc).
Qed.

Lemma propose_unverified bumps files ss notes :
  propose_version_patches bumps files = Ok (ss, notes) ->
  Forall (fun s => sg_patch_verified s = false) ss.
Proof.
  unfold propose_version_patches. intros (props & Hp & [= <- _])%obind_Ok.
  apply omap_list_Ok in Hp. induction Hp as [|[b [path content]] p l ps Hp _ IH];
    cbn [flat_map]; [constructor|]. apply Forall_app. split; [|done].
  apply propose_for_ok in Hp. destruct p; cbn [proposed]; [|constructor..].
  destruct Hp as (_ & _ & updated & _ & ->). by repeat constructor.
Qed.

Lemma publishable_verified s files :
  publishable s files -> publishable (with_patch s (sg_patch s) true) files.
Proof. intros H. exact H. Qed.

Lemma propose_and_verify_verified d bumps files d' o :
  unverified d -> propose_and_verify_patches d bumps files = Ok (d', o) ->
  verified_against files d'.
Proof.
  unfold propose_and_verify_patches, verify_patch_suggestions.
  intros Hu ([ss notes] & Hss & H)%obind_Ok. apply propose_unverified in Hss.
  cbn [with_suggestions dg_suggestions dg_notes] in H.
  apply obind_Ok in H as ([[kept notes'] o'] & Hv & [= <- <-]).
  pose proof (verify_each_spec files (ss ++ dg_suggestions d) [] (dg_notes d ++ notes) []) as Hs.
  rewrite Hv in Hs. destruct Hs as (ss' & ns & -> & _ & Hf & _).
  unfold verified_against. cbn [app with_suggestions dg_suggestions].
  assert (Hall : Forall (fun s => sg_patch_verified s = false) (ss ++ dg_suggestions d))
    by (by apply Forall_app).
  clear -Hf Hall. induction Hf as [|s s' l l' Hss _ IH]; [constructor|].
  apply Forall_cons_iff in Hall as [Hs Hall]. constructor; [|by apply IH].
  destruct Hss as [(_ & ->)|[(_ & Hp & ->)|(_ & _ & ->)]]; cbn; [congruence| |done].
  intros _. by apply publishable_verified.
Qed.

(** ** The files diffs are verified against *)

Definition reads (request : AnalysisRequest) (call : Call) : Prop :=
  match call with
  | InstallationToken i _ => i = aq_installation_id request
  | FailedJobs repository run_id _ | DownloadLogs repository run_id _ =>
    repository = aq_repository request /\ run_id = aq_run_id request
  | ReadContext repository run_id sha _ =>
    repository = aq_repository request /\ run_id = aq_run_id request
    /\ sha = aq_head_sha request
  | _ => False
  end.
Definition fetches (request : AnalysisRequest) (call : Call) : Prop :=
  match call with
  | FileContents repository _ ref _ =>
    repository = aq_repository request /\ ref = aq_head_sha request
  | _ => False
  end.

(** The content of a file: the workflow file of the run, or one fetched at its head. *)
Definition head_file (rc : RepositoryContext) (calls : list Call) (path content : str) : Prop :=
  (rc_workflow_path rc = Some path /\ rc_workflow_content rc = Some content)
  \/ exists repository paths ref l,
       In (FileContents repository paths ref (Ok l)) calls /\ In (path, content) l.
Definition head_files (rc : RepositoryContext) (calls : list Call) (files : list (str * str))
  : Prop := forall path content,
  dict_get str_eqb files path = Some content -> head_file rc calls path content.

Lemma head_files_mono rc t t' files :
  (forall c, In c t -> In c t') -> head_files rc t files -> head_files rc t' files.
Proof.
  intros Hi H path content Hg. destruct (H _ _ Hg) as [?|(r & ps & s & l & Hin & Hl)]; [by left|].
  right. exists r, ps, s, l. auto.
Qed.

Lemma workflow_file_head rc t : head_files rc t (workflow_file rc).
Proof.
  intros path content. unfold workflow_file. destruct (truthy _ && truthy _) eqn:Et; [|done].
  apply andb_true_iff in Et as [E1 E2]. cbn [dict_get].
  destruct (str_eqb path _) eqn:Ep; [|done]. apply str_eqb_eq in Ep as ->. intros [= <-].
  left. destruct (rc_workflow_path rc) as [[|]|], (rc_workflow_content rc) as [[|]|]; done.
Qed.


Lemma dict_update_get d d' path content :
  dict_get str_eqb (dict_update d d') path = Some content ->
  dict_get str_eqb d path = Some content \/ In (path, content) d'.
Proof.
  unfold dict_update. revert d. induction d' as [|[k v] d' IH]; intros d; cbn [foldl]; [auto|].
  intros [H|H]%IH; [|by right; right]. cbn [fst snd] in H.
  rewrite dict_get_set in H by (intros; apply str_eqb_eq).
  destruct (str_eqb path k) eqn:Ek; [|by left].
  apply str_eqb_eq in Ek as ->. injection H as ->. right. by left.
Qed.

(** ** The calls of each stage *)

(** A condition on the calls and, for a result, on the result. *)
Definition outcome_spec {A} (P : list Call -> Prop) (R : A -> list Call -> Prop)
  : outcome A -> list Call -> Prop :=
  fun r t => P t /\ forall a, r = Ok a -> R a t.
Lemma outcome_spec_closed {A} P (R : A -> list Call -> Prop) : closed (outcome_spec P R).
Proof. intros r e t [Hp _]. by split. Qed.

Lemma traces_fetch_files request access_token rc targets :
  traces (fetch_files request access_token (workflow_file rc) targets)
    (outcome_spec (Forall (fetches request)) (fun files t => head_files rc t files)).
Proof.
  unfold fetch_files. destruct targets as [|p ps].
  { apply traces_ret. split; [constructor|]. intros ? [= <-]. apply workflow_file_head. }
  rewrite Mtry_as_else.
  eapply (traces_try _ _ _ (outcome_spec (Forall (fetches request))
    (fun files t => head_files rc t files))).
  - eapply traces_bind; [apply traces_await|..].
    + intros e t ->. split; [by repeat constructor|done].
    + intros l t ->. apply traces_ret. split; [by repeat constructor|].
      intros ? [= <-] path content H. apply dict_update_get in H as [H|H].
      * by apply workflow_file_head.
      * right. repeat eexists; [left; reflexivity|done].
  - intros e t1 [Hf _]. apply traces_ret. rewrite app_nil_r. split; [done|].
    intros ? [= <-]. apply workflow_file_head.
  - intros files t1 [Hf Hh]. apply traces_ret. rewrite app_nil_r. split; [done|].
    intros ? [= <-]. by apply Hh.
Qed.

Definition fixes_ok (rc : RepositoryContext) (d : Diagnosis) (t : list Call) : Prop :=
  exists files, head_files rc t files /\ verified_against files d.

Lemma unverified_fixes_ok rc d t : unverified d -> fixes_ok rc d t.
Proof.
  intros H. exists (workflow_file rc). split; [apply workflow_file_head|].
  by apply unverified_against.
Qed.

Lemma traces_attach request access_token d log related rc :
  unverified d ->
  traces (_attach_verified_patches request access_token d log related rc)
    (outcome_spec (Forall (fetches request)) (fixes_ok rc)).
Proof.
  intros Hu. unfold _attach_verified_patches.
  apply traces_bind_silent; [apply silent_lift|done|]. intros bumps.
  assert (Hr : traces (Net := Net) (Mret d) (outcome_spec (Forall (fetches request)) (fixes_ok rc))).
  { apply traces_ret. split; [constructor|]. intros ? [= <-]. by apply unverified_fixes_ok. }
  assert (Hgo : traces
    (do! files := fetch_files request access_token (workflow_file rc)
                    (fetch_targets log d bumps related (workflow_file rc)) in
     do! (verified, counts) := Mlift (propose_and_verify_patches d bumps files) in
     metered (Miter (fun kv : (str * str) * nat =>
                       let '((source, result), count) := kv in
                       inc_by patch_proposals [source; result] (inject_Z (Z.of_nat count)))
                counts);;;
     Mret verified) (outcome_spec (Forall (fetches request)) (fixes_ok rc))).
  { eapply traces_bind; [apply traces_fetch_files| |].
    { intros e t [H _]. by split. }
    intros files t1 [Hf Hh]. specialize (Hh _ eq_refl).
    apply traces_bind_lift; [by intros; rewrite app_nil_r|].
    intros [verified counts] Hv. apply traces_bind_silent; [apply silent_metered|..].
    - intros e. by rewrite app_nil_r.
    - intros _. apply traces_ret. rewrite app_nil_r. split; [done|]. intros ? [= <-].
      exists files. split; [done|]. by eapply propose_and_verify_verified. }
  destruct bumps, (patch_files d); done.
Qed.

(** ** What sanitizing yields *)

Definition yields {A} (m : M (World Net) A) (a : A) : Prop :=
  forall w a' w', m w = (Ok a', w') -> a' = a.

Lemma yields_ret {A} (a : A) : yields (Mret a) a.
Proof. by intros w a' w' [= <- _]. Qed.
Lemma yields_bind {A B} (m : M (World Net) A) (f : A -> M (World Net) B) a b :
  yields m a -> yields (f a) b -> yields (Mbind m f) b.
Proof.
  intros Hm Hf w b' w'. unfold Mbind. destruct (m w) as [[a'|] w1] eqn:E0; [|done].
  apply Hm in E0 as ->. apply Hf.
Qed.
Lemma yields_then {A B} (m : M (World Net) A) (k : M (World Net) B) b :
  yields k b -> yields (m;;; k) b.
Proof. intros Hk w b' w'. unfold Mbind. destruct (m w) as [[a'|] w1]; [apply Hk|done]. Qed.
Lemma yields_map_clean {A B} (f : A -> M (World Net) B) g l :
  (forall x, yields (f x) (g x)) -> yields (map_clean f l) (map g l).
Proof.
  intros Hf. induction l as [|x l IH]; cbn [map_clean map]; [apply yields_ret|].
  eapply yields_bind; [apply Hf|]. eapply yields_bind; [apply IH|]. apply yields_ret.
Qed.
Lemma yields_spec {A} (m : M (World Net) A) a :
  silent m -> yields m a -> traces m (outcome_spec (fun t => t = []) (fun a' _ => a' = a)).
Proof.
  intros Hs Hy w r w' H. destruct (Hs _ _ _ H) as (t & Ht & ->). exists [].
  split; [done|]. split; [done|]. intros a' ->. by eapply Hy.
Qed.

Definition clean_text (v : str) : str := fst (sanitize_log v).
Definition or_default (default v : str) : str := match v with [] => default | _ => v end.
Definition cleaned_job (j : FailedJob) : FailedJobContext := {|
  fj_name := or_default (u "unknown job") (clean_text (fl_name j));
  fj_failed_steps :=
    map (fun s => or_default (u "unknown step") (clean_text s)) (fl_failed_steps j);
  fj_runner_labels :=
    map (fun s => or_default (u "unknown") (clean_text s)) (fl_runner_labels j) |}.
Definition first_cleaned (get : FailedJob -> option str) (jobs : list FailedJob) : option str :=
  match List.find (fun j => truthy (get j)) jobs with
  | Some j => option_map clean_text (get j)
  | None => None
  end.
Definition cleaned_file (c : ChangedFile) : ChangedFile := {|
  cf_filename := cf_filename c; cf_status := cf_status c;
  cf_patch := none_if_empty (clean_text (default [] (cf_patch c)));
  cf_previous_filename := cf_previous_filename c |}.

(** The part of the collected data that goes on: names, steps, diffs and the
    workflow sanitized, the logs reduced to their sanitized error context. *)
Definition sanitized (jobs : list FailedJob) (logs : list JobLog) (rc : RepositoryContext)
  : Sanitized := {|
  sz_execution_context := {|
    ec_workflow_name := first_cleaned fl_workflow_name jobs;
    ec_head_branch := first_cleaned fl_head_branch jobs;
    ec_failed_jobs := map cleaned_job jobs |};
  sz_context := pp_context (preprocess_logs (map jl_text (selected_logs jobs logs))
    (set_log_chunk_chars settings) (set_error_context_lines settings)
    (set_max_error_chunks settings));
  sz_changed_files := map cleaned_file (rc_changed_files rc);
  sz_workflow_content := clean_text (default [] (rc_workflow_content rc)) |}.

Lemma yields_clean v : yields (clean v) (clean_text v).
Proof.
  unfold clean, clean_text. destruct (sanitize_log v). apply yields_then, yields_ret.
Qed.
Lemma yields_clean_or d v : yields (clean_or d v) (or_default d (clean_text v)).
Proof. eapply yields_bind; [apply yields_clean|]. apply yields_ret. Qed.
Lemma yields_first_clean get jobs : yields (first_clean get jobs) (first_cleaned get jobs).
Proof.
  unfold first_clean, first_cleaned. destruct (List.find _ _); [|apply yields_ret].
  unfold clean_option. destruct (get _); cbn; [|apply yields_ret].
  eapply yields_bind; [apply yields_clean|]. apply yields_ret.
Qed.
Lemma yields_clean_job j : yields (clean_job j) (cleaned_job j).
Proof.
  eapply yields_bind; [apply yields_clean_or|].
  eapply yields_bind; [apply yields_map_clean; intros; apply yields_clean_or|].
  eapply yields_bind; [apply yields_map_clean; intros; apply yields_clean_or|]. apply yields_ret.
Qed.

Lemma yields_sanitize jobs logs rc :
  yields (sanitize settings jobs logs rc) (sanitized jobs logs rc).
Proof.
  unfold sanitize, _sanitize_execution_context. eapply yields_bind.
  { eapply yields_bind; [apply yields_first_clean|].
    eapply yields_bind; [apply yields_first_clean|].
    eapply yields_bind; [apply yields_map_clean; apply yields_clean_job|]. apply yields_ret. }
  do 3 apply yields_then. eapply yields_bind.
  { apply (yields_map_clean _ cleaned_file). intros c.
    eapply yields_bind; [apply yields_clean|]. apply yields_ret. }
  eapply yields_bind; [apply yields_clean|]. apply yields_ret.
Qed.

Definition classified (z : Sanitized) : Classification :=
  classify_log (sz_context z)
    (none_if_empty (str_join (u ", ") (failed_locations (sz_execution_context z)))).
Definition related_to (z : Sanitized) : list RelatedFile :=
  correlate_changed_files (sz_context z) (sz_changed_files z) (cl_category (classified z)) 5.
Lemma yields_classify z : yields (classify z) (classified z).
Proof. apply yields_then, yields_ret. Qed.

(** ** Diagnosing and publishing *)

Definition asks (context : LLMContext) (call : Call) : Prop :=
  exists r, call = AskLLM context r.

Lemma silent_llm_failed model started : @silent Net _ (llm_failed model started).
Proof. unfold llm_failed. eauto with silent. Qed.
Hint Resolve silent_llm_failed : silent.

Lemma traces_ask_llm p c fallback : unverified fallback ->
  traces (ask_llm settings p c fallback)
    (outcome_spec (Forall (asks c)) (fun d _ => unverified d)).
Proof.
  intros Hu. unfold ask_llm. apply traces_bind_silent; [apply silent_ask|done|]. intros started.
  eapply (traces_try _ _ _ (fun r t => Forall (asks c) t /\
    forall res d, r = Ok (res, d) -> unverified d)).
  - eapply traces_bind; [apply traces_await|..].
    + intros e t ->. split; [repeat constructor; by eexists|done].
    + intros r t ->. apply traces_bind_lift.
      * intros e. split; [repeat constructor; by eexists|done].
      * intros d Hd. apply traces_ret. split; [repeat constructor; by eexists|].
        intros ? ? [= <- <-]. by eapply validate_llm_unverified.
  - intros e t1 [Ht _]. eapply traces_bind_silent; [apply silent_llm_failed|..].
    + intros e'. by rewrite app_nil_r.
    + intros _. apply traces_ret. rewrite app_nil_r. split; [done|]. by intros ? [= <-].
  - intros [r d] t1 [Ht Hd]. specialize (Hd _ _ eq_refl). rewrite Mtry_as_else.
    eapply (traces_try _ _ _ (fun r t => t = [] /\ forall a, r = Ok a -> a = d)).
    + apply traces_bind_silent; [apply silent_ask|done|]. intros now.
      apply traces_bind_silent; [apply silent_metered|done|]. intros _.
      apply traces_ret. split; [done|]. by intros a [= <-].
    + intros e t [-> _]. eapply traces_bind_silent; [apply silent_llm_failed|..].
      * intros e'. by rewrite app_nil_r.
      * intros _. apply traces_ret. rewrite !app_nil_r. split; [done|]. by intros ? [= <-].
    + intros a t [-> Ha]. apply traces_ret. rewrite !app_nil_r. split; [done|].
      intros ? [= <-]. by rewrite (Ha _ eq_refl).
Qed.

(** The calls of a diagnosis: none unless the run is trusted. *)
Definition diagnosis_call (request : AnalysisRequest) (rc : RepositoryContext)
    (context : LLMContext) (call : Call) : Prop :=
  rc_trust_level rc = TRUSTED /\ (asks context call \/ fetches request call).

Lemma add_note_suggestions note d : dg_suggestions (add_note note d) = dg_suggestions d.
Proof. done. Qed.

Lemma strip_patches_spec d :
  unverified (strip_patches d) /\ without_patches (strip_patches d).
Proof. split; apply Forall_map, List.Forall_forall; done. Qed.

Lemma traces_llm_step request rc z c related :
  traces
    match llm_provider with
    | Some p =>
      if is_trusted rc then
        do! d := ask_llm settings p (llm_context z rc c related) (fallback_diagnosis z rc c) in
        Mret (d, Some (lp_model_name p), Some PROMPT_VERSION)
      else Mret (fallback_diagnosis z rc c, None, None)
    | None => Mret (fallback_diagnosis z rc c, None, None)
    end
    (outcome_spec (Forall (diagnosis_call request rc (llm_context z rc c related)))
       (fun dmv _ => unverified (fst (fst dmv)))).
Proof.
  pose proof (fallback_unverified z rc c) as Hu.
  assert (Hr : traces (Net := Net) (Mret (fallback_diagnosis z rc c, None, None))
    (outcome_spec (Forall (diagnosis_call request rc (llm_context z rc c related)))
       (fun (dmv : Diagnosis * option str * option str) _ => unverified (fst (fst dmv))))).
  { apply traces_ret. split; [constructor|]. by intros ? [= <-]. }
  destruct llm_provider as [p|]; [|done]. destruct (is_trusted rc) eqn:Et; [|done].
  apply bool_decide_eq_true in Et.
  eapply traces_bind; [by apply (traces_ask_llm p (llm_context z rc c related))|..].
  - intros e t [Ht _]. split; [|done]. eapply Forall_weaken; [exact Ht|].
    intros call Hc. split; [done|by left].
  - intros d t [Ht Hd]. apply traces_ret. rewrite app_nil_r. split.
    + eapply Forall_weaken; [exact Ht|]. intros call Hc. split; [done|by left].
    + intros ? [= <-]. by apply Hd.
Qed.

Definition diagnosed_ok (rc : RepositoryContext) (ds : Diagnosed) (t : list Call) : Prop :=
  fixes_ok rc (ds_diagnosis ds) t
  /\ (rc_trust_level rc <> TRUSTED -> without_patches (ds_diagnosis ds)).

Lemma fixes_ok_mono rc d t t' :
  (forall c, In c t -> In c t') -> fixes_ok rc d t -> fixes_ok rc d t'.
Proof.
  intros Hi (files & Hh & Hv). exists files. split; [|done]. by eapply head_files_mono.
Qed.

Lemma traces_diagnose request access_token z rc c related :
  traces (diagnose settings llm_provider request access_token z rc c related)
    (outcome_spec (Forall (diagnosis_call request rc (llm_context z rc c related)))
       (diagnosed_ok rc)).
Proof.
  unfold diagnose. eapply traces_bind; [apply (traces_llm_step request)|..].
  { intros e t [Ht _]. by split. }
  intros [[d model] version] t1 [Ht1 Hu]. specialize (Hu _ eq_refl). cbn [fst] in Hu.
  eapply (traces_bind _ _ (outcome_spec (Forall (diagnosis_call request rc
    (llm_context z rc c related)))
    (fun d t => fixes_ok rc d t /\ (rc_trust_level rc <> TRUSTED -> without_patches d)))).
  - unfold is_trusted. case_bool_decide as Et.
    + eapply traces_weaken; [by apply traces_attach|]. intros r t [Hf Hx]. split.
      * eapply Forall_weaken; [exact Hf|]. intros call Hc. split; [done|by right].
      * intros a ->. split; [by apply Hx|done].
    + apply traces_ret. split; [constructor|]. intros ? [= <-].
      destruct (strip_patches_spec d) as [H1 H2]. split; [|done]. by apply unverified_fixes_ok.
  - intros e t [Ht _]. split; [|done]. by apply Forall_app.
  - intros d' t2 [Ht2 Hd]. specialize (Hd _ eq_refl) as [Hf Hw]. apply traces_ret.
    rewrite app_nil_r. split; [by apply Forall_app|]. intros ? [= <-]. cbn [ds_diagnosis].
    assert (Hf' : fixes_ok rc d' (t1 ++ t2))
      by (eapply fixes_ok_mono; [|exact Hf]; intros; apply in_app_iff; by right).
    unfold diagnosed_ok. cbn [ds_diagnosis]. by destruct related.
Qed.

(** The publication of a diagnosis, and to where. *)
Definition publication (request : AnalysisRequest) (rc : RepositoryContext) (c : Classification)
    (related : list RelatedFile) (d : Diagnosis) (call : Call) : Prop :=
  set_publish_checks settings = true /\
  match call with
  | UpsertComment repository number run_id body _ =>
    repository = aq_repository request /\ run_id = aq_run_id request
    /\ rc_pull_request_number rc = Some number /\ rc_trust_level rc <> UNVERIFIED
    /\ body = report percent settings request rc c related d
  | UpsertCheck repository sha run_id title body url _ =>
    repository = aq_repository request /\ sha = aq_head_sha request
    /\ run_id = aq_run_id request
    /\ rc_pull_request_number rc = None /\ rc_trust_level rc = TRUSTED
    /\ title = dg_summary d /\ body = report percent settings request rc c related d
    /\ url = details_url settings request
  | _ => False
  end.

Lemma traces_publish request access_token rc c related d :
  traces (publish percent settings request access_token rc c related d)
    (fun _ t => Forall (publication request rc c related d) t).
Proof.
  unfold publish. destruct (set_publish_checks settings) eqn:Ep; cbn [negb];
    [|by apply traces_ret]. unfold is_trusted, is_untrusted_fork.
  destruct (rc_pull_request_number rc) as [number|] eqn:En.
  - destruct (rc_trust_level rc) eqn:Et; cbn;
      try (eapply traces_weaken; [apply traces_await|]; intros r t ->);
      [..|by apply traces_ret]; repeat constructor; rewrite ?Et; try done.
  - destruct (rc_trust_level rc) eqn:Et; cbn; try (by apply traces_ret).
    eapply traces_weaken; [apply traces_await|]. intros r t ->. by repeat constructor.
Qed.

(** ** Collecting *)

Definition collected (request : AnalysisRequest) (jobs : list FailedJob) (logs : list JobLog)
    (rc : RepositoryContext) (t : list Call) : Prop :=
  In (FailedJobs (aq_repository request) (aq_run_id request) (Ok jobs)) t
  /\ In (DownloadLogs (aq_repository request) (aq_run_id request) (Ok logs)) t
  /\ (In (ReadContext (aq_repository request) (aq_run_id request) (aq_head_sha request)
            (Ok rc)) t
      \/ rc = empty_repository_context UNVERIFIED).

Lemma traces_context request access_token :
  traces (_repository_context (aq_repository request) (aq_run_id request)
            (aq_head_sha request) access_token)
    (outcome_spec (Forall (reads request)) (fun rc t =>
       In (ReadContext (aq_repository request) (aq_run_id request) (aq_head_sha request)
             (Ok rc)) t \/ rc = empty_repository_context UNVERIFIED)).
Proof.
  unfold _repository_context. rewrite Mtry_as_else. eapply traces_try; [apply traces_await|..].
  - intros e t ->. apply traces_ret. split; [by repeat constructor|]. intros ? [= <-]. by right.
  - intros rc t ->. apply traces_ret. split; [by repeat constructor|]. intros ? [= <-].
    left. by left.
Qed.

Lemma traces_gather {A B C} (m1 : M (World Net) A) (m2 : M (World Net) B)
    (m3 : M (World Net) C) Q1 Q2 Q3 :
  traces m1 Q1 -> traces m2 Q2 -> traces m3 Q3 ->
  traces (gather3 m1 m2 m3) (fun r t => exists r1 r2 r3 t1 t2 t3,
    t = t1 ++ t2 ++ t3 /\ Q1 r1 t1 /\ Q2 r2 t2 /\ Q3 r3 t3
    /\ forall a b c, r = Ok (a, b, c) -> r1 = Ok a /\ r2 = Ok b /\ r3 = Ok c).
Proof.
  intros H1 H2 H3 w r w'. unfold gather3.
  destruct (m1 w) as [r1 w1] eqn:E1, (m2 w1) as [r2 w2] eqn:E2, (m3 w2) as [r3 w3] eqn:E3.
  intros [= <- <-]. destruct (H1 _ _ _ E1) as (t1 & Ht1 & Hq1), (H2 _ _ _ E2) as (t2 & Ht2 & Hq2),
    (H3 _ _ _ E3) as (t3 & Ht3 & Hq3).
  exists (t1 ++ t2 ++ t3). split; [by rewrite Ht3, Ht2, Ht1, <- !app_assoc|].
  exists r1, r2, r3, t1, t2, t3. split_and!; try done.
  intros a b c. destruct r1, r2, r3; try done. by intros [= -> -> ->].
Qed.

Lemma traces_collect request token :
  traces (collect request token) (outcome_spec (Forall (reads request))
    (fun x t => let '(_, jobs, logs, rc) := x in collected request jobs logs rc t)).
Proof.
  unfold collect. eapply traces_bind; [apply traces_await|..].
  { intros e t ->. split; [by repeat constructor|done]. }
  intros access_token t1 ->. eapply traces_bind.
  { apply traces_gather; [apply traces_await|apply traces_await|apply traces_context]. }
  { intros e t (r1 & r2 & r3 & ? & ? & t3 & -> & -> & -> & [H3 _] & _). split; [|done].
    repeat (constructor; [done|]). done. }
  intros [[jobs logs] rc] t2 (r1 & r2 & r3 & ? & ? & t3 & -> & -> & -> & [H3 Hc] & Hr).
  destruct (Hr _ _ _ eq_refl) as (-> & -> & ->). specialize (Hc _ eq_refl).
  assert (Hreads : Forall (reads request)
    ([InstallationToken (aq_installation_id request) (Ok access_token)]
     ++ [FailedJobs (aq_repository request) (aq_run_id request) (Ok jobs)]
     ++ [DownloadLogs (aq_repository request) (aq_run_id request) (Ok logs)] ++ t3)).
  { repeat (constructor; [done|]). done. }
  apply traces_bind_silent; [apply silent_update|..].
  { intros e. rewrite app_nil_r. by split. }
  intros _. apply traces_bind_silent; [apply silent_metered|..].
  { intros e. rewrite app_nil_r. by split. }
  intros _. apply traces_ret. rewrite app_nil_r. split; [done|]. intros ? [= <-].
  unfold collected. split_and!; [right; by left|right; right; by left|].
  destruct Hc as [Hc|Hc]; [left|by right]. by do 3 right.
Qed.

(** ** The calls of an analysis *)

(** What the model is asked about a run. *)
Definition prompt (jobs : list FailedJob) (logs : list JobLog) (rc : RepositoryContext)
  : LLMContext :=
  let z := sanitized jobs logs rc in llm_context z rc (classified z) (related_to z).

Definition published (request : AnalysisRequest) (t : list Call) (jobs : list FailedJob)
    (logs : list JobLog) (rc : RepositoryContext) (call : Call) : Prop :=
  exists d, fixes_ok rc d t /\ (rc_trust_level rc <> TRUSTED -> without_patches d)
    /\ publication request rc (classified (sanitized jobs logs rc))
         (related_to (sanitized jobs logs rc)) d call.

Definition accounted (request : AnalysisRequest) (t : list Call) (call : Call) : Prop :=
  reads request call
  \/ exists jobs logs rc, collected request jobs logs rc t
     /\ (diagnosis_call request rc (prompt jobs logs rc) call
         \/ published request t jobs logs rc call).

Lemma accounted_reads request t t' : Forall (reads request) t -> Forall (accounted request t') t.
Proof. intros H. eapply Forall_weaken; [exact H|]. intros call Hc. by left. Qed.

Lemma collected_mono request jobs logs rc t t' :
  (forall c, In c t -> In c t') ->
  collected request jobs logs rc t -> collected request jobs logs rc t'.
Proof. intros Hi (H1 & H2 & [H3|H3]); split_and!; auto. Qed.

Lemma accounted_diagnosis request t t1 jobs logs rc t2 :
  collected request jobs logs rc t1 -> (forall c, In c t1 -> In c t) ->
  Forall (diagnosis_call request rc (prompt jobs logs rc)) t2 ->
  Forall (accounted request t) t2.
Proof.
  intros Hc Hi H. eapply Forall_weaken; [exact H|]. intros call Hd. right.
  exists jobs, logs, rc. split; [|by left]. by eapply collected_mono.
Qed.

Lemma traces_analyze_body request token :
  traces (_analyze percent settings llm_provider request token)
    (fun _ t => Forall (accounted request t) t).
Proof.
  unfold _analyze. eapply traces_bind.
  { apply traces_stage; [apply traces_collect|apply outcome_spec_closed|].
    intros e. by split. }
  { intros e t [H _]. by apply accounted_reads. }
  intros [[[access_token jobs] logs] rc] t1 [Hr Hc]. specialize (Hc _ eq_refl).
  eapply traces_bind.
  { apply traces_stage; [apply yields_spec; [apply silent_sanitize|apply yields_sanitize]|..];
      [apply outcome_spec_closed|by intros e]. }
  { intros e t [-> _]. rewrite app_nil_r. by apply accounted_reads. }
  intros z t [-> Hz]. specialize (Hz _ eq_refl) as ->. cbn [app].
  eapply traces_bind.
  { apply traces_stage; [apply yields_spec; [apply silent_classify|apply yields_classify]|..];
      [apply outcome_spec_closed|by intros e]. }
  { intros e t [-> _]. rewrite app_nil_r. by apply accounted_reads. }
  intros c t [-> Hz]. specialize (Hz _ eq_refl) as ->. cbn [app].
  eapply traces_bind.
  { apply traces_stage; [apply yields_spec; [apply silent_correlate|apply yields_ret]|..];
      [apply outcome_spec_closed|by intros e]. }
  { intros e t [-> _]. rewrite app_nil_r. by apply accounted_reads. }
  intros related t [-> Hz]. specialize (Hz _ eq_refl) as ->. cbn [app].
  eapply traces_bind.
  { apply traces_stage; [apply traces_diagnose|apply outcome_spec_closed|].
    intros e. by split. }
  { intros e t2 [Hd _]. apply Forall_app. split; [by apply accounted_reads|].
    eapply accounted_diagnosis; [exact Hc| |exact Hd]. intros. apply in_app_iff. by left. }
  intros ds t2 [Hd Hok]. specialize (Hok _ eq_refl) as [Hf Hw].
  assert (Hgood : forall t3, Forall (publication request rc (classified (sanitized jobs logs rc))
      (related_to (sanitized jobs logs rc)) (ds_diagnosis ds)) t3 ->
    Forall (accounted request (t1 ++ t2 ++ t3)) (t1 ++ t2 ++ t3)).
  { intros t3 Hp. apply Forall_app. split; [by apply accounted_reads|]. apply Forall_app. split.
    - eapply accounted_diagnosis; [exact Hc| |exact Hd]. intros. apply in_app_iff. by left.
    - eapply Forall_weaken; [exact Hp|]. intros call Hcall. right. exists jobs, logs, rc. split.
      + eapply collected_mono; [|exact Hc]. intros. apply in_app_iff. by left.
      + right. exists (ds_diagnosis ds). split_and!; try done.
        eapply fixes_ok_mono; [|exact Hf]. intros. rewrite !in_app_iff. auto. }
  apply traces_bind_silent; [apply silent_update|..].
  { intros e. by apply Hgood. }
  intros _. eapply traces_weaken; [apply traces_stage; [apply traces_publish|..]|].
  - by intros r e t.
  - intros e. constructor.
  - intros r t Ht. by apply Hgood.
Qed.

Lemma silent_count_attempt status started : @silent Net _ (count_attempt status started).
Proof. unfold count_attempt. eauto with silent. Qed.
Hint Resolve silent_count_attempt : silent.
Lemma silent_unless_superseded started e (k : M (World Net) unit) :
  silent k -> silent (unless_superseded started e k).
Proof. intros H. unfold unless_superseded. destruct (is_superseded e); auto with silent. Qed.
Hint Resolve silent_unless_superseded : silent.
Lemma silent_on_failure request started at_ token e :
  @silent Net _ (on_failure request started at_ token e).
Proof. unfold on_failure. destruct at_; eauto 10 with silent. Qed.
Lemma silent_on_success request started at_ token :
  @silent Net _ (on_success settings request started at_ token).
Proof. unfold on_success, slo. eauto 10 with silent. Qed.

Lemma traces_analyze request :
  traces (analyze percent settings llm_provider request)
    (fun _ t => Forall (accounted request t) t).
Proof.
  unfold analyze. apply traces_bind_silent; [apply silent_ask|by intros; constructor|]. intros started.
  apply traces_bind_silent; [apply silent_ask|by intros; constructor|]. intros token.
  eapply traces_try; [apply silent_begin|..].
  - intros e t ->. eapply traces_weaken; [apply silent_on_failure|]. by intros r t ->.
  - intros start t ->.
    eapply (traces_try _ _ _ (fun _ t => Forall (accounted request t) t)).
    + unfold attempt. apply traces_bind_silent; [unfold slo; auto with silent|by intros; constructor|].
      intros _. apply traces_analyze_body.
    + intros e t1 H. eapply traces_weaken; [apply silent_on_failure|]. intros r t ->.
      cbn [app]. by rewrite app_nil_r.
    + intros _ t1 H. eapply traces_weaken; [apply silent_on_success|]. intros r t ->.
      cbn [app]. by rewrite app_nil_r.
Qed.

(** ** The trust boundary *)

(** C1: Whatever GitHub, the model and the other workers do, every call of an
    analysis is accounted for.  Beyond reading the run's own token, jobs, logs and
    context, the model is asked, and repository files are fetched, only for a run
    whose repository context GitHub returned with trust level TRUSTED; the model then
    sees exactly the prompt computed from the fetched jobs, logs and context, with
    the names of jobs and steps, the diffs and the workflow sanitized (the paths of the
    changed files and of the workflow are as GitHub gave them).  Checks are published for trusted runs
    only, comments for trusted and fork runs, never for unverified ones, and nothing
    is published when publishing is off. *)
Theorem analyze_trust_boundary (request : AnalysisRequest) (w : World Net) :
  let w' := snd (analyze percent settings llm_provider request w) in
  exists t, w_calls w' = w_calls w ++ t
    /\ forall call, In call t ->
       reads request call
       \/ exists jobs logs rc, collected request jobs logs rc t
          /\ match call with
             | AskLLM context _ =>
               rc_trust_level rc = TRUSTED /\ context = prompt jobs logs rc
             | FileContents repository _ ref _ =>
               rc_trust_level rc = TRUSTED
               /\ repository = aq_repository request /\ ref = aq_head_sha request
             | UpsertCheck repository sha run_id _ _ _ _ =>
               set_publish_checks settings = true /\ rc_trust_level rc = TRUSTED
               /\ rc_pull_request_number rc = None
               /\ repository = aq_repository request /\ sha = aq_head_sha request
               /\ run_id = aq_run_id request
             | UpsertComment repository number run_id _ _ =>
               set_publish_checks settings = true
               /\ (rc_trust_level rc = TRUSTED \/ rc_trust_level rc = UNTRUSTED_FORK)
               /\ rc_pull_request_number rc = Some number
               /\ repository = aq_repository request /\ run_id = aq_run_id request
             | _ => False
             end.
Proof.
  destruct (analyze _ _ _ _ w) as [r w'] eqn:Ew. cbn.
  destruct (traces_analyze _ _ _ _ Ew) as (t & Ht & Hall). exists t. split; [done|].
  intros call Hin. rewrite List.Forall_forall in Hall.
  destruct (Hall call Hin) as [H|(jobs & logs & rc & Hc & H)]; [by left|]. right.
  exists jobs, logs, rc. split; [done|].
  destruct H as [(Ht' & [[r0 ->]|Hf])|(d & _ & _ & Hp & H)]; [by rewrite Ht'| |].
  - destruct call; try done.
  - destruct call; try done.
    + destruct H as (-> & -> & -> & Hn & Htr & _). by split_and!.
    + destruct H as (-> & -> & Hn & Htr & _). split_and!; try done.
      destruct (rc_trust_level rc); by auto.
Qed.

(** C2: Every published comment or check is the safe rendering of a diagnosis whose
    diffs marked as verified all pass the publication policy and apply to a file of
    the analysed head: the run's workflow file or one this analysis fetched.  For a
    run that is not trusted the diagnosis carries no diff at all. *)
Theorem published_fixes_verified (request : AnalysisRequest) (w : World Net) :
  let w' := snd (analyze percent settings llm_provider request w) in
  exists t, w_calls w' = w_calls w ++ t
    /\ forall call body, In call t ->
       (exists repository number run_id r, call = UpsertComment repository number run_id body r)
       \/ (exists repository sha run_id title url r,
             call = UpsertCheck repository sha run_id title body url r) ->
       exists jobs logs rc d files, collected request jobs logs rc t
         /\ let z := sanitized jobs logs rc in
         body = render_github_diagnosis percent (aq_run_id request) (classified z) d
                  (related_to z) (details_url settings request) (rc_trust_level rc)
                  (rc_baseline_sha rc) (Some (aq_head_sha request))
         /\ Forall (fun s => sg_patch_verified s = true -> publishable s files)
              (dg_suggestions d)
         /\ (forall path content, dict_get str_eqb files path = Some content ->
               head_file rc t path content)
         /\ (rc_trust_level rc <> TRUSTED ->
               Forall (fun s => sg_patch s = None) (dg_suggestions d)).
Proof.
  destruct (analyze _ _ _ _ w) as [r w'] eqn:Ew. cbn.
  destruct (traces_analyze _ _ _ _ Ew) as (t & Ht & Hall). exists t. split; [done|].
  intros call body Hin Hcall. rewrite List.Forall_forall in Hall.
  destruct (Hall call Hin) as [H|(jobs & logs & rc & Hc & H)].
  { by destruct Hcall as [(?&?&?&?&->)|(?&?&?&?&?&?&->)]. }
  destruct H as [(_ & [[r0 ->]|Hf])|(d & (files & Hh & Hv) & Hw & Hp & H)].
  - by destruct Hcall as [(?&?&?&?&?)|(?&?&?&?&?&?&?)].
  - by destruct Hcall as [(?&?&?&?&->)|(?&?&?&?&?&?&->)].
  - exists jobs, logs, rc, d, files. split_and!; try done.
    destruct Hcall as [(?&?&?&?&->)|(?&?&?&?&?&?&->)]; [by destruct H as (_ & _ & _ & _ & ->)|].
    by destruct H as (_ & _ & _ & _ & _ & _ & -> & _).
Qed.
End calls.
