(* ===== verification/PipelineEnding.v ===== *)
(** * How an analysis ends

    The ending of an attempt under any interference of the other workers
    ([analyze_outcome]). *)

From Stdlib Require Import QArith.
From stdpp Require Import base list gmap strings numbers.
From S2P Require Import Prelude Regex Models Sanitizer Classifier Preprocessing Relevance.
From S2P Require Import Json Loads.
From S2P Require Import Diagnosis Llm Patching Publication Store Metrics GitHub Pipeline.

(** ** How an attempt ends *)

(** The attempt that wrote [token] holds the row of the run. *)
Definition current (run_id : Z) (token : str) (db : Database) : Prop :=
  exists row, db_analyses db !! run_id = Some row /\ token_is token row = true.

Lemma update_fenced now run_id status v error token db r db' :
  update now run_id status v error (Some token) db = (r, db') ->
  (r = Ok tt /\ current run_id token db /\ current run_id token db'
   /\ db_events db' = db_events db)
  \/ (r = Raise (not_current run_id) /\ ~ current run_id token db /\ db' = db).
Proof.
  unfold update, transaction, Mbind, update_where, current.
  destruct (db_analyses db !! run_id) as [row|] eqn:Er.
  - unfold fence. destruct (token_is token row) eqn:Et; cbn; intros [= <- <-].
    + left. split_and!; [done|by exists row| |done]. cbn. rewrite lookup_insert_eq. by eexists.
    + right. split_and!; try done. intros (row' & [= <-] & Ht). congruence.
  - cbn. intros [= <- <-]. right. split_and!; try done. by intros (row' & ? & _).
Qed.

Lemma finish_fenced now run_id at_ status token db r db' :
  finish_analysis now run_id at_ status (Some token) db = (r, db') ->
  (exists row latency, r = Ok latency /\ db_analyses db !! run_id = Some row
     /\ token_is token row = true /\ db_events db' = db_events db
     /\ latency = Z.max 0 (now - id_created_at (an_identity row))
     /\ db_analyses db' !! run_id = Some (finish_row now at_ latency status row))
  \/ (exists e, r = Raise e /\ is_superseded e = true /\ ~ current run_id token db /\ db' = db).
Proof.
  unfold finish_analysis, transaction, Mbind, Mget, update_where, current.
  destruct (db_analyses db !! run_id) as [row|] eqn:Er.
  - unfold fence. destruct (token_is token row) eqn:Et;
      cbn; rewrite Er, Et; cbn; intros [= <- <-].
    + left. exists row. eexists. split_and!; try done. cbn. by rewrite lookup_insert_eq.
    + right. eexists. split_and!; try done. intros (row' & [= <-] & Ht). congruence.
  - cbn. intros [= <- <-]. right. eexists. split_and!; try done. by intros (row' & ? & _).
Qed.

Section ending.
Context {DL : Dialect}.

Lemma record_stage_fenced now run_id stage status error token db r db' :
  record_stage now run_id stage status error (Some token) db = (r, db') ->
  (r = Ok tt /\ current run_id token db /\ db' = with_events db (db_events db ++
     [{| er_run_id := run_id; er_stage := stage; er_status := status; er_error := error;
         er_occurred_at := now |}]))
  \/ (r = Raise (not_current run_id) /\ ~ current run_id token db /\ db' = db).
Proof.
  unfold record_stage, transaction, Mbind, Mget, current.
  destruct (db_analyses db !! run_id) as [row|] eqn:Er.
  - destruct (token_is token row) eqn:Et; cbn.
    + unfold insert_event. cbn. rewrite Er, bool_decide_false, andb_false_r by done.
      intros [= <- <-]. left. split_and!; [done|by exists row|done].
    + intros [= <- <-]. right. split_and!; try done. intros (row' & [= <-] & Ht). congruence.
  - cbn. intros [= <- <-]. right. split_and!; try done. by intros (row' & ? & _).
Qed.
End ending.

(** The exceptions of the code outside this program and its clients: none is the
    store's own "superseded". *)
Definition never_superseded {N A} (m : M N A) : Prop :=
  forall n e n', m n = (Raise e, n') -> is_superseded e = false.
Record honest (DP : DocParsers) (Net : Type) (G : GitHubClient Net) : Prop := {
  honest_token : forall i, never_superseded (installation_token i);
  honest_jobs : forall repo run t, never_superseded (failed_jobs repo run t);
  honest_logs : forall repo run t, never_superseded (download_logs repo run t);
  honest_check : forall repo sha run t title body url,
    never_superseded (upsert_check repo sha run t title body url);
  honest_comment : forall repo n run t body,
    never_superseded (upsert_pull_request_comment repo n run t body);
  honest_parsers : forall s e,
    yaml_safe_load_all s = ParserRaises e \/ tomllib_loads s = ParserRaises e ->
    is_superseded e = false }.

Section stops.
Context {Net : Type}.
Context (run_id : Z) (token : str).
Open Scope prog_scope.

(** "Superseded" is raised only once the attempt has lost its row. *)
Definition stops {A} (m : M (World Net) A) : Prop :=
  forall w e w', m w = (Raise e, w') -> is_superseded e = true ->
    ~ current run_id token (w_db w').

Lemma stops_ret {A} (a : A) : stops (Mret a).
Proof. by intros w e w' [=]. Qed.
Lemma stops_bind {A B} (m : M (World Net) A) (f : A -> M (World Net) B) :
  stops m -> (forall a, stops (f a)) -> stops (Mbind m f).
Proof.
  intros Hm Hf w e w'. unfold Mbind. destruct (m w) as [[a|e1] w1] eqn:E0; [apply Hf|].
  intros [= <- <-]. by apply (Hm w).
Qed.
Lemma stops_lift {A} (o : outcome A) :
  (forall e, o = Raise e -> is_superseded e = false) -> stops (Mlift o).
Proof. intros H w e w' [= -> _] Hs. rewrite (H e eq_refl) in Hs. done. Qed.
Lemma stops_try {A} (m : M (World Net) A) h : (forall e, stops (h e)) -> stops (Mtry m h).
Proof.
  intros Hh w e w'. unfold Mtry. destruct (m w) as [[a|e1] w1]; [done|]. apply Hh.
Qed.
Lemma stops_try_else {A B} (m : M (World Net) A) h (k : A -> M (World Net) B) :
  (forall e, stops (h e)) -> (forall a, stops (k a)) -> stops (Mtry_else m h k).
Proof.
  intros Hh Hk w e w'. unfold Mtry_else. destruct (m w) as [[a|e1] w1]; [apply Hk|apply Hh].
Qed.
Lemma stops_when b (m : M (World Net) unit) : stops m -> stops (Mwhen b m).
Proof. intros H. destruct b; [done|apply stops_ret]. Qed.
Lemma stops_ask {A} (f : Net -> A * Net) : stops (ask f).
Proof. intros w e w'. unfold ask. by destruct (f _). Qed.
Lemma stops_map_clean {A B} (f : A -> M (World Net) B) l :
  (forall x, stops (f x)) -> stops (map_clean f l).
Proof.
  intros Hf. induction l as [|x l IH]; cbn [map_clean]; [apply stops_ret|].
  apply stops_bind; [done|]. intros y. apply stops_bind; [done|]. intros. apply stops_ret.
Qed.

(** The metrics raise at most a ValueError. *)
Definition metric_error {A} (m : M Registry A) : Prop :=
  forall reg e reg', m reg = (Raise e, reg') -> exists msg, e = ValueError msg.
Lemma metric_error_bind {A B} (m : M Registry A) (f : A -> M Registry B) :
  metric_error m -> (forall a, metric_error (f a)) -> metric_error (Mbind m f).
Proof.
  intros Hm Hf reg e reg'. unfold Mbind. destruct (m reg) as [[a|e1] r1] eqn:E0; [apply Hf|].
  intros [= <- <-]. by eapply Hm.
Qed.
Lemma metric_error_inc_by m labels v : metric_error (inc_by m labels v).
Proof. intros reg e reg'. unfold inc_by. destruct (Qle_bool 0 v); [done|]. intros [= <- _]. eauto. Qed.
Lemma metric_error_sample m labels v : metric_error (sample m labels v).
Proof. done. Qed.
Lemma metric_error_iter {A} (f : A -> M Registry unit) l :
  (forall x, metric_error (f x)) -> metric_error (Miter f l).
Proof.
  intros Hf. induction l as [|x l IH]; cbn [Miter]; [done|]. by apply metric_error_bind.
Qed.
Lemma metric_error_llm model status d i o c : metric_error (record_llm model status d i o c).
Proof.
  unfold record_llm, inc, observe. repeat (apply metric_error_bind; [|intros _]);
    auto using metric_error_inc_by, metric_error_sample.
Qed.
Lemma stops_metered {A} (m : M Registry A) : metric_error m -> stops (metered m).
Proof.
  intros Hm w e w'. unfold metered. destruct (m _) as [o reg] eqn:E0. intros [= -> <-] Hs.
  by destruct (Hm _ _ _ E0) as [msg ->].
Qed.
End stops.

Create HintDb stops.
#[export] Hint Resolve stops_ret stops_bind stops_try stops_try_else stops_when stops_ask
  stops_map_clean stops_metered : stops.
#[export] Hint Resolve metric_error_inc_by metric_error_sample metric_error_iter
  metric_error_llm : stops.
#[export] Hint Unfold inc observe set_gauge record_redactions : stops.

(** ** The errors of the patch code *)

Section patch_errors.
Context {U : UnicodeDb} {DP : DocParsers}.

Definition benign (e : exn) : Prop := is_superseded e = false.

Lemma obind_benign {A B} (o : outcome A) (f : A -> outcome B) e :
  (forall e', o = Raise e' -> benign e') -> (forall a, f a = Raise e -> benign e) ->
  obind o f = Raise e -> benign e.
Proof. destruct o as [a|e']; cbn; [intros _ H; apply H|]. intros H _ [= <-]. by apply H. Qed.

Lemma find_version_bumps_benign log e : find_version_bumps log = Raise e -> benign e.
Proof.
  unfold find_version_bumps. apply obind_benign; [|done]. intros e'.
  unfold _scanner_table_bumps. apply obind_benign; [|done]. intros e2 H.
  pose proof (table_lines_ok (splitlines log)
    {| ts_bumps := []; ts_columns := None; ts_previous := [] |} ltac:(constructor)) as Hok.
  by rewrite H, Hok in *.
Qed.

Lemma expand_template_benign fuel t m e : expand_template fuel t m = Raise e -> benign e.
Proof.
  revert t. induction fuel as [|fuel IH]; intros t; [done|]. cbn [expand_template].
  destruct t as [|c r]; [done|].
  assert (Hb : forall s (f : str -> outcome str), (forall a, exists y, f a = Ok y) ->
    obind (expand_template fuel s m) f = Raise e -> benign e).
  { intros s f Hf. destruct (expand_template fuel s m) as [a|e'] eqn:Ea; cbn.
    - destruct (Hf a) as [y ->]. done.
    - intros [= ->]. by eapply IH. }
  assert (Hbad : @bad_template str = Raise e -> benign e) by (by intros [= <-]).
  destruct (c =? _)%N; cbn [negb]; [|by apply Hb; eauto].
  destruct r as [|d r1]; [done|]. destruct (d =? 103)%N.
  { destruct r1 as [|lt r2]; [done|]. destruct (_ && _)%bool; [|done]. by apply Hb; eauto. }
  destruct (d =? 48)%N; [by apply Hb; eauto|].
  destruct (ascii_digit d).
  { destruct r1 as [|a [|b r2]]; [done..|]. destruct (_ && _)%bool; [|done]. by apply Hb; eauto. }
  destruct (dict_get _ _ _); [by apply Hb; eauto|].
  destruct (_ || _)%bool; [done|]. by apply Hb; eauto.
Qed.

Lemma propose_benign bumps files e : propose_version_patches bumps files = Raise e -> benign e.
Proof.
  unfold propose_version_patches. apply obind_benign; [|done].
  intros e' ([b [path content]] & _ & H)%omap_list_error. revert H. unfold propose_for.
  destruct (re_found _ _); cbn [negb]; [|done]. destruct (_is_hash_locked _ _); [done|].
  apply obind_benign; [|done]. intros e2. unfold re_sub_template.
  destruct (re_scan _ _) as [ms tl]. apply obind_benign; [apply expand_template_benign|].
  intros _. apply obind_benign; [|done]. intros e3 ([skipped m] & _ & H)%omap_list_error.
  revert H. apply obind_benign; [apply expand_template_benign|done].
Qed.

Hypothesis Hparsers : forall s e,
  yaml_safe_load_all s = ParserRaises e \/ tomllib_loads s = ParserRaises e ->
  is_superseded e = false.

Lemma diff_error_benign e : diff_error e -> benign e.
Proof. by intros [[msg ->]| ->]. Qed.

Lemma patch_rejection_benign s files e : _patch_rejection s files = Raise e -> benign e.
Proof using Hparsers.
  unfold _patch_rejection. destruct (or_str (sg_file s) []) as [|c file]; [done|].
  destruct (dict_get _ _ _) as [content|]; [|done].
  destruct (static_rejection _ _ _); [done|].
  destruct (apply_unified_diff _ _) as [updated|e'] eqn:Ea.
  - unfold _syntax_error. destruct (STRUCTURED_FORMATS _) as [f|]; [|done].
    destruct f; match goal with |- match ?p with _ => _ end = _ -> _ => destruct p eqn:Ep end;
      try done; intros [= <-];
      [by eapply Hparsers; eauto..|].
    unfold json_document in Ep. destruct (json_loads_str updated) as [|[]]; try done;
      by injection Ep as <-.
  - assert (Hd : diff_error e').
    { unfold apply_unified_diff in Ea. destruct (_parse_hunks _) as [hunks|e2] eqn:Eh; cbn in Ea.
      - destruct (apply_hunks _ _ _ _) eqn:Eah; cbn in Ea; [done|]. injection Ea as ->.
        left. by eapply apply_hunks_error.
      - injection Ea as ->. by eapply parse_hunks_error. }
    apply diff_error_benign in Hd. destruct e'; try done; by intros [= <-].
Qed.

Lemma propose_and_verify_benign d bumps files e :
  propose_and_verify_patches d bumps files = Raise e -> benign e.
Proof using Hparsers.
  unfold propose_and_verify_patches. apply obind_benign; [apply propose_benign|].
  intros [ss notes]. unfold verify_patch_suggestions. apply obind_benign; [|by intros [[? ?] ?]].
  intros e' H. pose proof (verify_each_spec files
    (dg_suggestions (with_suggestions d (ss ++ dg_suggestions d) (dg_notes d ++ notes))) []
    (dg_notes (with_suggestions d (ss ++ dg_suggestions d) (dg_notes d ++ notes))) []) as Hs.
  rewrite H in Hs. destruct Hs as (s & _ & Hs). by eapply patch_rejection_benign.
Qed.
End patch_errors.

(** ** The steps of an attempt, under interference *)

Section interference.
Context {U : UnicodeDb} {DL : Dialect} {DP : DocParsers} {Net : Type} {E : Env Net}
  {G : GitHubClient Net}.
Context (percent : Q -> str) (settings : PipelineSettings)
  (llm_provider : option (LLMProvider Net)).
Context (run_id : Z) (token : str).
Context (Hhonest : honest DP Net G).
(** The other workers never write this attempt's token: it is a fresh uuid. *)
Context (Hothers : forall db n,
  current run_id token (fst (others db n)) -> current run_id token db).
Open Scope prog_scope.
Abbreviation stops := (@stops Net run_id token _).

Lemma stored_run {A} (m : M Database A) w r w' :
  stored m w = (r, w') -> exists db n, others (w_db w) (w_net w) = (db, n)
    /\ m db = (r, w_db w') /\ w_metrics w' = w_metrics w /\ w_net w' = n.
Proof.
  unfold stored, Mbind, interleave. destruct (others _ _) as [db n]. cbn.
  destruct (m db) as [o db'] eqn:Em. intros [= <- <-]. exists db, n. by split_and!.
Qed.

Lemma stops_stored {A} (m : M Database A) :
  (forall db e db', m db = (Raise e, db') -> is_superseded e = true ->
     ~ current run_id token db') -> stops (stored m).
Proof.
  intros Hm w e w' H Hs. apply stored_run in H as (db & n & _ & H & _). by eapply Hm.
Qed.

Lemma stops_await {A} (call : outcome A -> Call) (m : M Net A) :
  never_superseded m -> stops (await call m).
Proof.
  intros Hm w e w'. unfold await, Mbind, interleave. destruct (others _ _) as [db n].
  cbn. destruct (m n) as [o n'] eqn:Em. intros [= -> <-] Hs. rewrite (Hm _ _ _ Em) in Hs. done.
Qed.

Lemma stops_update v : stops (store_update run_id v token).
Proof.
  apply stops_bind; [apply stops_ask|]. intros now. apply stops_stored.
  intros db e db' H _. by apply update_fenced in H as [(? & _)|(_ & Hc & ->)].
Qed.
Lemma stops_store_stage stage status error : stops (store_stage run_id stage status error token).
Proof.
  apply stops_bind; [apply stops_ask|]. intros now. apply stops_stored.
  intros db e db' H _. by apply record_stage_fenced in H as [(? & _)|(_ & Hc & ->)].
Qed.
Hint Resolve stops_update stops_store_stage : stops.

(** Once lost, the row stays lost. *)
Lemma store_stage_lost stage status error w r w' :
  ~ current run_id token (w_db w) ->
  store_stage run_id stage status error token w = (r, w') ->
  r = Raise (not_current run_id) /\ ~ current run_id token (w_db w').
Proof using Hothers.
  intros Hc. unfold store_stage, Mbind, ask. destruct (utc_now _) as [now n].
  intros H. apply stored_run in H as (db & n' & Ho & H & _). cbn in Ho.
  assert (Hc' : ~ current run_id token db).
  { intros H'. apply Hc. apply (Hothers (w_db w) n). by rewrite Ho. }
  by apply record_stage_fenced in H as [(_ & ? & _)|(-> & _ & ->)].
Qed.

Lemma stops_stage {A} stage (body : M (World Net) A) :
  stops body -> stops (_stage run_id stage token body).
Proof using Hothers.
  intros Hb. apply stops_bind; [apply stops_store_stage|]. intros _ w e w'.
  unfold Mtry_else. destruct (body w) as [[a|e1] w1] eqn:Eb.
  - intros H. eapply (stops_bind run_id token); [apply stops_store_stage| |exact H].
    intros ?. apply stops_ret.
  - unfold Mbind at 1. destruct (store_stage _ _ _ _ _ w1) as [[[]|e2] w2] eqn:Es.
    + intros [= <- <-] Hs. pose proof (Hb _ _ _ Eb Hs) as Hl.
      by apply (store_stage_lost _ _ _ _ _ _ Hl) in Es as [? _].
    + intros [= <- <-] Hs. by eapply stops_store_stage.
Qed.

Lemma stops_gather {A B C} (m1 : M (World Net) A) (m2 : M (World Net) B)
    (m3 : M (World Net) C) :
  (forall w e w', m1 w = (Raise e, w') -> is_superseded e = false) ->
  (forall w e w', m2 w = (Raise e, w') -> is_superseded e = false) ->
  (forall w e w', m3 w = (Raise e, w') -> is_superseded e = false) ->
  stops (gather3 m1 m2 m3).
Proof.
  intros H1 H2 H3 w e w'. unfold gather3.
  destruct (m1 w) as [r1 w1] eqn:E1, (m2 w1) as [r2 w2] eqn:E2, (m3 w2) as [r3 w3] eqn:E3.
  intros [= Hr <-] Hs. exfalso.
  assert (is_superseded e = false); [|congruence].
  destruct r1, r2, r3; try done; try (injection Hr as <-; eauto);
    destruct (failed_first _); eauto.
Qed.

Lemma await_honest {A} (call : outcome A -> Call) (m : M Net A) w e w' :
  never_superseded m -> await call m w = (Raise e, w') -> is_superseded e = false.
Proof.
  intros Hm. unfold await, Mbind, interleave. destruct (others _ _) as [db n].
  cbn. destruct (m n) as [o n'] eqn:Em. intros [= -> <-]. by eapply Hm.
Qed.

(** ** The whole attempt *)

Lemma stops_clean v : stops (clean v).
Proof. unfold clean. destruct (sanitize_log v). unfold record_redactions. eauto with stops. Qed.
Hint Resolve stops_clean : stops.
Lemma stops_clean_or d v : stops (clean_or d v).
Proof. unfold clean_or. eauto with stops. Qed.
Hint Resolve stops_clean_or : stops.
Lemma stops_first_clean get jobs : stops (first_clean get jobs).
Proof.
  unfold first_clean. destruct (List.find _ _); [|eauto with stops].
  unfold clean_option. destruct (get _); eauto with stops.
Qed.
Hint Resolve stops_first_clean : stops.

Lemma stops_sanitize jobs logs rc : stops (sanitize settings jobs logs rc).
Proof.
  assert (Hj : forall j, stops (clean_job j)) by (intros; unfold clean_job; eauto 10 with stops).
  assert (Hc : forall c, stops (clean_changed_file c))
    by (intros; unfold clean_changed_file; eauto with stops).
  unfold sanitize, _sanitize_execution_context, record_redactions. apply stops_bind;
    eauto 20 with stops.
Qed.

Lemma stops_collect request : aq_run_id request = run_id -> stops (collect request token).
Proof using Hhonest.
  intros Hr. unfold collect. rewrite Hr. apply stops_bind.
  { apply stops_await, (honest_token _ _ _ Hhonest). }
  intros access_token. apply stops_bind.
  - apply stops_gather.
    + intros w e w'. apply await_honest, (honest_jobs _ _ _ Hhonest).
    + intros w e w'. apply await_honest, (honest_logs _ _ _ Hhonest).
    + intros w e w'. unfold _repository_context, Mtry. by destruct (await _ _ w) as [[]].
  - intros [[jobs logs] rc]. unfold inc. eauto with stops.
Qed.

Lemma stops_llm_failed model started : stops (llm_failed model started).
Proof. unfold llm_failed. eauto with stops. Qed.
Hint Resolve stops_llm_failed : stops.

Lemma stops_diagnose request access_token z rc c related :
  stops (diagnose settings llm_provider request access_token z rc c related).
Proof using Hhonest.
  unfold diagnose. apply stops_bind.
  - assert (Ha : forall p ctx fb, stops (ask_llm settings p ctx fb)).
    { intros p ctx fb. unfold ask_llm. apply stops_bind; [apply stops_ask|]. intros started.
      apply stops_try_else; [eauto with stops|]. intros [r d]. apply stops_try.
      eauto with stops. }
    destruct llm_provider; [destruct (is_trusted rc)|]; eauto with stops.
  - intros [[d model] version]. apply stops_bind; [|eauto with stops].
    destruct (is_trusted rc); [|eauto with stops]. unfold _attach_verified_patches.
    apply stops_bind; [apply stops_lift; apply find_version_bumps_benign|]. intros bumps.
    assert (Hgo : stops
      (do! files := fetch_files request access_token (workflow_file rc)
                      (fetch_targets (sz_context z) d bumps related (workflow_file rc)) in
       do! (verified, counts) := Mlift (propose_and_verify_patches d bumps files) in
       metered (Miter (fun kv : (str * str) * nat =>
                         let '((source, result), count) := kv in
                         inc_by patch_proposals [source; result] (inject_Z (Z.of_nat count)))
                  counts);;;
       Mret verified)).
    { apply stops_bind.
      - unfold fetch_files. destruct (fetch_targets _ _ _ _ _); eauto with stops.
      - intros files. apply stops_bind.
        + apply stops_lift. apply propose_and_verify_benign.
          apply (honest_parsers _ _ _ Hhonest).
        + intros [verified counts]. apply stops_bind; [|eauto with stops].
          apply stops_metered, metric_error_iter. intros [[source result] count].
          apply metric_error_inc_by. }
    destruct bumps, (patch_files d); eauto with stops.
Qed.

Lemma stops_publish request access_token rc c related d :
  stops (publish percent settings request access_token rc c related d).
Proof using Hhonest.
  unfold publish. destruct (negb _); [eauto with stops|].
  assert (Hcheck : forall b repo sha run t title body url,
    stops (if b : bool then await (UpsertCheck repo sha run title body url)
                              (upsert_check repo sha run t title body url) else Mret tt)).
  { intros [] *; [apply stops_await, (honest_check _ _ _ Hhonest)|eauto with stops]. }
  destruct (rc_pull_request_number rc); [|apply Hcheck].
  destruct (is_trusted rc || is_untrusted_fork rc); [|apply Hcheck].
  apply stops_await, (honest_comment _ _ _ Hhonest).
Qed.

Lemma stops_analyze_body request :
  aq_run_id request = run_id -> stops (_analyze percent settings llm_provider request token).
Proof using Hhonest Hothers.
  intros Hr. unfold _analyze. rewrite Hr.
  apply stops_bind; [by apply stops_stage, stops_collect|]. intros [[[access_token jobs] logs] rc].
  apply stops_bind; [apply stops_stage, stops_sanitize|]. intros z.
  apply stops_bind; [apply stops_stage; unfold classify, inc; eauto with stops|]. intros c.
  apply stops_bind; [apply stops_stage; unfold correlate; eauto with stops|]. intros related.
  apply stops_bind; [apply stops_stage, stops_diagnose|]. intros ds.
  apply stops_bind; [apply stops_update|]. intros _. apply stops_stage, stops_publish.
Qed.

(** ** Closing the attempt *)

(** The label of the attempt counted last. *)
Definition last_attempt (reg : Registry) : option (list str) :=
  head (rev (map sm_labels (List.filter (fun s => bool_decide (sm_metric s = analyses)) reg))).

(** This attempt closed the row, with the given status. *)
Definition ended (status : AnalysisStatus) (db : Database) : Prop :=
  exists now at_ latency row, token_is token row = true
    /\ db_analyses db !! run_id = Some (finish_row now at_ latency status row).

Lemma last_attempt_snoc reg s :
  last_attempt (reg ++ [s])
  = if bool_decide (sm_metric s = analyses) then Some (sm_labels s) else last_attempt reg.
Proof.
  unfold last_attempt. rewrite List.filter_app, map_app. cbn [List.filter].
  case_bool_decide; cbn; [|by rewrite app_nil_r]. by rewrite rev_app_distr.
Qed.

(** The end of an attempt: its label is the last of the counted attempts. *)
Lemma count_attempt_run status started (w : World Net) :
  exists w', count_attempt status started w = (Ok tt, w') /\ w_db w' = w_db w
    /\ last_attempt (w_metrics w') = Some [status].
Proof.
  unfold count_attempt, Mbind, ask, metered, inc, inc_by, observe, sample, Mmodify.
  change (Qle_bool 0 1) with true. cbn.
  destruct (perf_counter (w_net w)) as [now n]. eexists. split; [reflexivity|]. split; [done|]. cbn.
  rewrite !last_attempt_snoc. done.
Qed.
Lemma slo_run phase elapsed limit (w : World Net) :
  exists w', slo phase elapsed limit w = (Ok tt, w') /\ w_db w' = w_db w
    /\ last_attempt (w_metrics w') = last_attempt (w_metrics w).
Proof. eexists. split; [reflexivity|]. split; [done|]. cbn. by rewrite last_attempt_snoc. Qed.

Lemma store_finish_run at_ status w r w' :
  store_finish run_id at_ status token w = (r, w') ->
  (exists latency, r = Ok latency /\ ended status (w_db w'))
  \/ (exists e, r = Raise e /\ is_superseded e = true /\ ~ current run_id token (w_db w')).
Proof.
  unfold store_finish, Mbind, ask. destruct (utc_now _) as [now n].
  intros H. apply stored_run in H as (db & n' & _ & H & _).
  apply finish_fenced in H as [(row & latency & -> & _ & Ht & _ & _ & H)|(e & -> & Hs & Hc & ->)].
  - left. exists latency. split; [done|]. by exists now, at_, latency, row.
  - right. by exists e.
Qed.

Definition lost (w : World Net) : Prop :=
  last_attempt (w_metrics w) = Some [u "superseded"] /\ ~ current run_id token (w_db w).
Definition closed_as (label : str) (status : AnalysisStatus) (w : World Net) : Prop :=
  last_attempt (w_metrics w) = Some [label] /\ ended status (w_db w).

Lemma unless_superseded_lost started e k w r w' :
  is_superseded e = true -> ~ current run_id token (w_db w) ->
  unless_superseded started e k w = (r, w') ->
  r = Ok tt /\ lost w'.
Proof.
  intros Hs Hc. unfold unless_superseded, lost. rewrite Hs.
  destruct (count_attempt_run (u "superseded") started w) as (w1 & -> & Hw1 & Hl).
  intros [= <- <-]. by rewrite Hw1.
Qed.

Lemma on_failure_run request started at_ e w r w' :
  aq_run_id request = run_id ->
  (is_superseded e = true -> ~ current run_id token (w_db w)) ->
  on_failure request started (Some at_) token e w = (r, w') ->
  (r = Ok tt /\ lost w')
  \/ (r = Raise e /\ is_superseded e = false /\ closed_as (u "failed_attempt") FAILED w').
Proof.
  intros Hr Hlost. unfold on_failure. rewrite Hr. destruct (is_superseded e) eqn:Es.
  { intros H. left. by apply unless_superseded_lost in H; [|done|apply Hlost]. }
  unfold unless_superseded at 1. rewrite Es. unfold Mtry_else.
  destruct (store_finish _ _ _ _ w) as [[latency|e1] w1] eqn:Ef; apply store_finish_run in Ef.
  - destruct Ef as [(? & [= <-] & Hend)|(? & ? & _)]; [|done]. unfold Mbind at 1.
    destruct (count_attempt_run (u "failed_attempt") started w1) as (w2 & -> & Hw2 & Hl).
    intros [= <- <-]. right. split_and!; [done..|]. split; [done|by rewrite Hw2].
  - destruct Ef as [(? & ? & _)|(? & [= <-] & Hs & Hc)]; [done|]. intros H. left.
    by apply unless_superseded_lost in H.
Qed.

Lemma on_success_run request started at_ w r w' :
  aq_run_id request = run_id ->
  on_success settings request started at_ token w = (r, w') ->
  r = Ok tt /\ (lost w' \/ closed_as (u "completed") COMPLETED w').
Proof.
  intros Hr. unfold on_success, Mtry_else. rewrite Hr.
  destruct (store_finish _ _ _ _ w) as [[latency|e1] w1] eqn:Ef; apply store_finish_run in Ef.
  - destruct Ef as [(? & [= <-] & Hend)|(? & ? & _)]; [|done]. unfold Mbind at 1.
    destruct (count_attempt_run (u "completed") started w1) as (w2 & -> & Hw2 & Hl).
    unfold Mbind at 1. cbn [metered observe sample Mmodify].
    match goal with |- slo _ _ _ ?w3 = _ -> _ =>
      destruct (slo_run (u "completion") latency (set_analysis_completion_slo settings) w3)
        as (w4 & -> & Hw4 & Hl4) end.
    intros [= <- <-]. split; [done|]. right. unfold closed_as. rewrite Hw4, Hl4. cbn.
    rewrite last_attempt_snoc, Hw2. done.
  - destruct Ef as [(? & ? & _)|(? & [= <-] & Hs & Hc)]; [done|]. intros H.
    apply unless_superseded_lost in H as [-> H]; auto.
Qed.

Lemma begin_raises now db e db' :
  begin_analysis now run_id (Some token) db = (Raise e, db') -> is_superseded e = true /\ db' = db.
Proof.
  unfold begin_analysis, transaction, Mbind, Mget, update_where.
  destruct (db_analyses db !! run_id) as [row|] eqn:Er; cbn; [|by intros [= <- <-]].
  rewrite Er. cbn. destruct (bool_decide _ || bool_decide _)%bool; cbn; [done|].
  by intros [= <- <-].
Qed.

Lemma analyze_ending request w r w' :
  aq_run_id request = run_id ->
  token = fst (uuid4_hex (snd (perf_counter (w_net w)))) ->
  ~ current run_id token (w_db w) ->
  analyze percent settings llm_provider request w = (r, w') ->
  (r = Ok tt /\ (lost w' \/ closed_as (u "completed") COMPLETED w'))
  \/ (exists e, r = Raise e /\ is_superseded e = false /\ closed_as (u "failed_attempt") FAILED w').
Proof using Hhonest Hothers.
  intros Hr Ht Hfresh. unfold analyze, Mbind at 1, ask at 1.
  destruct (perf_counter (w_net w)) as [started n] eqn:Ep. cbn [snd] in Ht.
  unfold Mbind at 1, ask at 1. cbn [w_net w_db w_metrics w_calls].
  destruct (uuid4_hex n) as [token' n'] eqn:Eu. cbn [fst] in Ht. rewrite <- Ht.
  unfold Mtry_else at 1. rewrite Hr. destruct (store_begin _ _ _) as [[start|e] w1] eqn:Eb.
  - unfold Mtry_else at 1.
    destruct (attempt _ _ _ _ _ _ w1) as [[[]|e] w2] eqn:Ea; intros H.
    + left. by apply on_success_run in H.
    + apply on_failure_run in H; [destruct H as [[-> Hc]|(-> & Hs & Hc)]; eauto|done|].
      intros Hs. eapply (stops_bind run_id token); [| |exact Ea|exact Hs].
      * apply stops_when. unfold slo, inc. eauto with stops.
      * intros ?. by apply stops_analyze_body.
  - unfold store_begin, Mbind, ask in Eb. destruct (utc_now _) as [now n2].
    apply stored_run in Eb as (db & n3 & Ho & Hb & _). cbn in Ho.
    apply begin_raises in Hb as [Hs Hdb]. unfold on_failure. intros H.
    apply unless_superseded_lost in H as [-> H]; [auto|done|]. rewrite Hdb.
    intros Hc. apply Hfresh. apply (Hothers (w_db w) n2). by rewrite Ho.
Qed.
End interference.

(** C4: However the clients answer and whatever the other workers write, an attempt with
    a fresh token ends in one of three ways, which the metrics count and the database
    shows in the moment the attempt ends.  Counted "completed", it returns normally
    with the row closed as COMPLETED by this very attempt.  Counted "superseded", it
    returns normally and does not hold the row (a newer attempt took it over, or it
    was deleted).  Counted "failed_attempt", it raises the exception of the failing
    step, never "superseded", with the row closed as FAILED by this attempt.  In no
    case is a row left in its hands. *)
Theorem analyze_outcome {U : UnicodeDb} {DL : Dialect} {DP : DocParsers} {Net : Type}
    {E : Env Net} {G : GitHubClient Net} (percent : Q -> str) (settings : PipelineSettings)
    (llm_provider : option (LLMProvider Net)) (request : AnalysisRequest)
    (w w' : World Net) (r : outcome unit) :
  let run_id := aq_run_id request in
  let token := fst (uuid4_hex (snd (perf_counter (w_net w)))) in
  let counted := last_attempt (w_metrics w') in
  let closed status := exists now at_ latency row, token_is token row = true
    /\ db_analyses (w_db w') !! run_id = Some (finish_row now at_ latency status row) in
  forall (Hhonest : honest DP Net G)
    (Hothers : forall db n, current run_id token (fst (others db n)) ->
                 current run_id token db)
    (Hfresh : ~ current run_id token (w_db w))
    (Hrun : analyze percent settings llm_provider request w = (r, w')),
  ~ current run_id token (w_db w')
  /\ ((r = Ok tt /\ counted = Some [u "completed"] /\ closed COMPLETED)
      \/ (r = Ok tt /\ counted = Some [u "superseded"])
      \/ exists e, r = Raise e /\ is_superseded e = false
         /\ counted = Some [u "failed_attempt"] /\ closed FAILED).
Proof.
  intros run_id token counted closed ????.
  assert (Hend : forall status, ended run_id token status (w_db w') ->
    ~ current run_id token (w_db w')).
  { intros status (now & at_ & latency & row & _ & H) (row' & H' & Ht).
    rewrite H in H'. injection H' as <-. done. }
  eapply analyze_ending in Hrun; [|done..].
  destruct Hrun as [[-> [[Hl Hc]|[Hl Hc]]]|(e & -> & Hs & Hl & Hc)]; (split; [by eauto|]).
  - by right; left.
  - left. by split_and!.
  - right; right. exists e. by split_and!.
Qed.
