(* ===== verification/PipelineHistory.v ===== *)
(** * The stage history of an analysis

    What [Pipeline.analyze] writes to analysis_stage_events when no other worker
    interferes ([analyze_stage_history]), and a concrete world to run it in. *)

From Stdlib Require Import QArith.
From stdpp Require Import base list gmap strings numbers.
From S2P Require Import Prelude Regex Models Sanitizer Classifier Preprocessing Relevance.
From S2P Require Import Diagnosis Llm Patching Publication Store StoreFacts Metrics GitHub.
From S2P Require Import Pipeline PipelineEnding.

Definition entry : Type := AnalysisStage * StageStatus * option str.
Definition stage_log (run_id : Z) (db : Database) : list entry :=
  map (fun e => (er_stage e, er_status e, er_error e))
    (List.filter (fun e => er_run_id e =? run_id) (db_events db)).
Definition completed (st : AnalysisStage) : list entry :=
  [(st, S_STARTED, None); (st, S_COMPLETED, None)].
Definition failed (st : AnalysisStage) (text : str) : list entry :=
  [(st, S_STARTED, None); (st, S_FAILED, Some (take 2000 text))].
(** What a new attempt makes of the stages an earlier one left open. *)
Definition closed_entry (e : entry) : entry :=
  let '(st, status, error) := e in
  if bool_decide (status = S_STARTED) then (st, S_FAILED, Some SUPERSEDED_STAGE) else e.
Definition all_stages : list AnalysisStage :=
  [COLLECTING; SANITIZING; CLASSIFYING; CORRELATING; DIAGNOSING; PUBLISHING].

Lemma stage_log_event run_id db e :
  stage_log run_id (with_events db (db_events db ++ [e]))
  = stage_log run_id db
    ++ (if er_run_id e =? run_id then [(er_stage e, er_status e, er_error e)] else []).
Proof.
  unfold stage_log. cbn [with_events db_events]. rewrite List.filter_app, map_app.
  cbn [List.filter]. by destruct (er_run_id e =? run_id).
Qed.
Lemma stage_log_same run_id db db' :
  db_events db' = db_events db -> stage_log run_id db' = stage_log run_id db.
Proof. unfold stage_log. by intros ->. Qed.

Create HintDb keeps.

Section history.
Context {U : UnicodeDb} {DL : Dialect} {DP : DocParsers} {Net : Type} {E : Env Net}
  {G : GitHubClient Net}.
Context (percent : Q -> str) (settings : PipelineSettings)
  (llm_provider : option (LLMProvider Net)).
Context (run_id : Z) (token : str).
Context (Hhonest : honest DP Net G).
Context (Hquiet : forall db n, others db n = (db, n)).
Open Scope prog_scope.

Definition held_in (w : World Net) : Prop := current run_id token (w_db w).

(** Steps that keep the row and the history. *)
Definition keeps {A} (m : M (World Net) A) : Prop := forall w r w',
  held_in w -> m w = (r, w') ->
  held_in w' /\ stage_log run_id (w_db w') = stage_log run_id (w_db w).

Lemma keeps_ret {A} (a : A) : keeps (Mret a).
Proof. by intros w r w' Hc [= _ <-]. Qed.
Lemma keeps_lift {A} (o : outcome A) : keeps (Mlift o).
Proof. by intros w r w' Hc [= _ <-]. Qed.
Lemma keeps_bind {A B} (m : M (World Net) A) (f : A -> M (World Net) B) :
  keeps m -> (forall a, keeps (f a)) -> keeps (Mbind m f).
Proof.
  intros Hm Hf w r w' Hc. unfold Mbind. destruct (m w) as [[a|e] w1] eqn:E0;
    destruct (Hm _ _ _ Hc E0) as [Hc1 Hl1]; [|by intros [= _ <-]].
  intros E1. destruct (Hf a _ _ _ Hc1 E1) as [Hc2 Hl2]. by rewrite Hl2.
Qed.
Lemma keeps_try_else {A B} (m : M (World Net) A) h (k : A -> M (World Net) B) :
  keeps m -> (forall e, keeps (h e)) -> (forall a, keeps (k a)) -> keeps (Mtry_else m h k).
Proof.
  intros Hm Hh Hk w r w' Hc. unfold Mtry_else. destruct (m w) as [[a|e] w1] eqn:E0;
    destruct (Hm _ _ _ Hc E0) as [Hc1 Hl1]; intros E1; rewrite <- Hl1.
  - by apply (Hk a _ _ _ Hc1 E1).
  - by apply (Hh e _ _ _ Hc1 E1).
Qed.
Lemma keeps_try {A} (m : M (World Net) A) h :
  keeps m -> (forall e, keeps (h e)) -> keeps (Mtry m h).
Proof. intros Hm Hh. apply (keeps_try_else m h Mret); auto using keeps_ret. Qed.
Lemma keeps_ask {A} (f : Net -> A * Net) : keeps (ask f).
Proof. intros w r w' Hc. unfold ask, held_in. destruct (f _). by intros [= _ <-]. Qed.
Lemma keeps_metered {A} (m : M Registry A) : keeps (metered m).
Proof. intros w r w' Hc. unfold metered, held_in. destruct (m _). by intros [= _ <-]. Qed.
Lemma keeps_map_clean {A B} (f : A -> M (World Net) B) l :
  (forall x, keeps (f x)) -> keeps (map_clean f l).
Proof.
  intros Hf. induction l as [|x l IH]; cbn [map_clean]; auto 10 using keeps_ret, keeps_bind.
Qed.
Lemma keeps_await {A} (call : outcome A -> Call) (m : M Net A) : keeps (await call m).
Proof using Hquiet.
  intros w r w' Hc. unfold await, Mbind, interleave, held_in. rewrite Hquiet. cbn.
  destruct (m _). by intros [= _ <-].
Qed.
Lemma keeps_gather {A B C} (m1 : M (World Net) A) (m2 : M (World Net) B)
    (m3 : M (World Net) C) : keeps m1 -> keeps m2 -> keeps m3 -> keeps (gather3 m1 m2 m3).
Proof.
  intros H1 H2 H3 w r w' Hc. unfold gather3.
  destruct (m1 w) as [r1 w1] eqn:E1. destruct (H1 _ _ _ Hc E1) as [Hc1 L1].
  destruct (m2 w1) as [r2 w2] eqn:E2. destruct (H2 _ _ _ Hc1 E2) as [Hc2 L2].
  destruct (m3 w2) as [r3 w3] eqn:E3. destruct (H3 _ _ _ Hc2 E3) as [Hc3 L3].
  intros [= _ <-]. by rewrite L3, L2, L1.
Qed.

(** In quiet, the fenced writes of the attempt that holds the row succeed. *)
Lemma stored_quiet {A} (m : M Database A) w r w' :
  stored m w = (r, w') -> m (w_db w) = (r, w_db w').
Proof using Hquiet.
  intros H. apply stored_run in H as (db & n & Ho & H & _). rewrite Hquiet in Ho.
  by injection Ho as <- <-.
Qed.
Lemma update_quiet v w r w' : held_in w -> store_update run_id v token w = (r, w') ->
  r = Ok tt /\ held_in w' /\ stage_log run_id (w_db w') = stage_log run_id (w_db w).
Proof using Hquiet.
  intros Hc. unfold store_update, Mbind, ask. destruct (utc_now _) as [now n].
  intros H%stored_quiet. apply update_fenced in H as [(-> & _ & Hc' & Hev)|(_ & Hn & _)]; [|done].
  split_and!; [done|done|]. by apply stage_log_same.
Qed.
Lemma store_stage_quiet stage status error w r w' :
  held_in w -> store_stage run_id stage status error token w = (r, w') ->
  r = Ok tt /\ held_in w'
  /\ stage_log run_id (w_db w') = stage_log run_id (w_db w) ++ [(stage, status, error)].
Proof using Hquiet.
  intros Hc. unfold store_stage, Mbind, ask. destruct (utc_now _) as [now n].
  intros H%stored_quiet. unfold held_in.
  apply record_stage_fenced in H as [(-> & _ & ->)|(_ & Hn & _)]; [|done].
  split_and!; [done|done|]. rewrite stage_log_event. cbn. by rewrite Z.eqb_refl.
Qed.
Lemma keeps_update v : keeps (store_update run_id v token).
Proof using Hquiet. intros w r w' Hc H. by apply update_quiet in H as (_ & ? & ?). Qed.
(** A computation that runs these stages, or stops in one of them. *)
Definition runs_stages (sts : list AnalysisStage) {A} (m : M (World Net) A) : Prop :=
  forall w r w', held_in w -> m w = (r, w') ->
  held_in w' /\
  match r with
  | Ok _ => stage_log run_id (w_db w')
            = stage_log run_id (w_db w) ++ flat_map completed sts
  | Raise e => exists done_ st rest, sts = done_ ++ st :: rest
      /\ stage_log run_id (w_db w')
         = stage_log run_id (w_db w) ++ flat_map completed done_ ++ failed st (exn_text e)
  end.

Lemma runs_bind sts1 sts2 {A B} (m : M (World Net) A) (f : A -> M (World Net) B) :
  runs_stages sts1 m -> (forall a, runs_stages sts2 (f a)) ->
  runs_stages (sts1 ++ sts2) (Mbind m f).
Proof.
  intros Hm Hf w r w' Hc. unfold Mbind. destruct (m w) as [[a|e] w1] eqn:E0;
    destruct (Hm _ _ _ Hc E0) as [Hc1 Hl1].
  - intros E1. destruct (Hf a _ _ _ Hc1 E1) as [Hc2 Hl2]. split; [done|].
    rewrite flat_map_app. destruct r as [b|e]; [by rewrite Hl2, Hl1, app_assoc|].
    destruct Hl2 as (d & st & rest & -> & ->). exists (sts1 ++ d), st, rest.
    by rewrite Hl1, flat_map_app, <- !app_assoc.
  - intros [= <- <-]. split; [done|]. destruct Hl1 as (d & st & rest & -> & Hl).
    exists d, st, (rest ++ sts2). by rewrite <- app_assoc.
Qed.

Lemma runs_stage stage {A} (body : M (World Net) A) :
  keeps body -> runs_stages [stage] (_stage run_id stage token body).
Proof using Hquiet.
  intros Hb w r w' Hc. unfold _stage, Mbind at 1.
  destruct (store_stage _ _ S_STARTED _ _ w) as [o w1] eqn:E1.
  apply store_stage_quiet in E1 as (-> & Hc1 & L1); [|done].
  unfold Mtry_else. destruct (body w1) as [[a|e] w2] eqn:E2;
    destruct (Hb _ _ _ Hc1 E2) as [Hc2 L2]; unfold Mbind;
    destruct (store_stage _ _ _ _ _ w2) as [o3 w3] eqn:E3;
    apply store_stage_quiet in E3 as (-> & Hc3 & L3); try done; intros [= <- <-];
    (split; [done|]); rewrite L2, L1 in L3.
  - by rewrite L3, <- app_assoc.
  - exists [], stage, []. split; [done|]. by rewrite L3, <- app_assoc.
Qed.

Lemma runs_quietly {A} (m : M (World Net) A) :
  (forall w r w', held_in w -> m w = (r, w') -> exists a, r = Ok a) ->
  keeps m -> runs_stages [] m.
Proof.
  intros Hok Hk w r w' Hc H. destruct (Hk _ _ _ Hc H) as [Hc' Hl].
  destruct (Hok _ _ _ Hc H) as [a ->]. by rewrite app_nil_r.
Qed.

(** ** The stages of the analysis *)

Hint Resolve keeps_ret keeps_lift keeps_bind keeps_try_else keeps_try keeps_ask
  keeps_metered keeps_map_clean keeps_await keeps_gather keeps_update : keeps.

Lemma keeps_clean v : keeps (clean v).
Proof. unfold clean. destruct (sanitize_log v). auto with keeps. Qed.
Hint Resolve keeps_clean : keeps.
Lemma keeps_clean_or d v : keeps (clean_or d v).
Proof. unfold clean_or. auto with keeps. Qed.
Hint Resolve keeps_clean_or : keeps.
Lemma keeps_first_clean get jobs : keeps (first_clean get jobs).
Proof.
  unfold first_clean, clean_option. destruct (List.find _ _) as [j|]; [|auto with keeps].
  destruct (get j); auto with keeps.
Qed.
Hint Resolve keeps_first_clean : keeps.

Lemma keeps_collect request :
  aq_run_id request = run_id -> keeps (collect request token).
Proof using Hquiet.
  intros Hr. unfold collect, _repository_context. rewrite Hr. apply keeps_bind; [auto with keeps|].
  intros access_token. apply keeps_bind; [auto 10 with keeps|].
  intros [[jobs logs] rc]. auto 10 with keeps.
Qed.
Lemma keeps_sanitize jobs logs rc : keeps (sanitize settings jobs logs rc).
Proof.
  assert (Hj : forall j, keeps (clean_job j)) by (intros; unfold clean_job; auto 10 with keeps).
  assert (Hc : forall c, keeps (clean_changed_file c))
    by (intros; unfold clean_changed_file; auto with keeps).
  unfold sanitize, _sanitize_execution_context. apply keeps_bind; auto 20 with keeps.
Qed.
Lemma keeps_diagnose request access_token z rc c related :
  keeps (diagnose settings llm_provider request access_token z rc c related).
Proof using Hquiet.
  assert (Hf : forall m s, keeps (llm_failed m s)) by (intros; unfold llm_failed; auto with keeps).
  unfold diagnose. apply keeps_bind.
  - destruct llm_provider; [destruct (is_trusted rc)|]; auto with keeps.
    apply keeps_bind; [|auto with keeps]. unfold ask_llm. apply keeps_bind; [auto with keeps|].
    intros started. apply keeps_try_else; [auto with keeps..|]. intros [r d]. auto 10 with keeps.
  - intros [[d model] version]. apply keeps_bind; [|auto with keeps].
    destruct (is_trusted rc); [|auto with keeps]. unfold _attach_verified_patches.
    apply keeps_bind; [auto with keeps|]. intros bumps.
    assert (Hgo : forall files targets, keeps
      (do! files := fetch_files request access_token files targets in
       do! (verified, counts) := Mlift (propose_and_verify_patches d bumps files) in
       metered (Miter (fun kv : (str * str) * nat =>
                         let '((source, result), count) := kv in
                         inc_by patch_proposals [source; result] (inject_Z (Z.of_nat count)))
                  counts);;;
       Mret verified)).
    { intros files targets. apply keeps_bind.
      - unfold fetch_files. destruct targets; auto with keeps.
      - intros fs. apply keeps_bind; [auto with keeps|]. intros [v counts]. auto with keeps. }
    destruct bumps, (patch_files d); auto with keeps; apply Hgo.
Qed.
Lemma keeps_publish request access_token rc c related d :
  keeps (publish percent settings request access_token rc c related d).
Proof using Hquiet.
  unfold publish. destruct (negb _); [auto with keeps|].
  destruct (rc_pull_request_number rc); destruct (is_trusted rc); cbn [orb];
    try destruct (is_untrusted_fork rc); auto with keeps.
Qed.

Lemma runs_analyze_body request : aq_run_id request = run_id ->
  runs_stages all_stages (_analyze percent settings llm_provider request token).
Proof using Hquiet.
  intros Hr. unfold _analyze. rewrite Hr.
  apply (runs_bind [_]); [by apply runs_stage, keeps_collect|].
  intros [[[access_token jobs] logs] rc].
  apply (runs_bind [_]); [apply runs_stage, keeps_sanitize|]. intros z.
  apply (runs_bind [_]); [apply runs_stage; unfold classify; auto with keeps|]. intros c.
  apply (runs_bind [_]); [apply runs_stage; unfold correlate; auto with keeps|]. intros related.
  apply (runs_bind [_]); [apply runs_stage, keeps_diagnose|]. intros ds.
  apply (runs_bind []); [|intros ?; apply runs_stage, keeps_publish].
  apply runs_quietly; [|auto with keeps]. intros w r w' Hc H.
  apply update_quiet in H as (-> & _); eauto.
Qed.
(** ** Opening and closing the attempt *)

Lemma begin_history db now start db' row :
  db_analyses db !! run_id = Some row ->
  begin_analysis now run_id (Some token) db = (Ok start, db') ->
  current run_id token db' /\ stage_log run_id db' = map closed_entry (stage_log run_id db).
Proof.
  intros Hr. unfold begin_analysis, transaction, Mbind, Mget, update_where. rewrite Hr.
  cbn -[startable]. rewrite Hr. destruct (startable (Some token) row); cbn; [|done].
  intros [= _ <-]. split.
  - eexists. split; [cbn; apply lookup_insert_eq|]. by apply bool_decide_eq_true.
  - unfold stage_log. cbn [db_events with_events with_analyses].
    induction (db_events db) as [|e es IH]; [done|]. cbn [map List.filter].
    rewrite supersede_event_id. destruct (er_run_id e =? run_id) eqn:Ee; [|done].
    cbn [map]. f_equal; [|done]. unfold supersede_event, closed_entry. rewrite Ee. cbn.
    by case_bool_decide.
Qed.

Lemma begin_starts db now row :
  db_analyses db !! run_id = Some row -> startable (Some token) row = true ->
  exists start db', begin_analysis now run_id (Some token) db = (Ok start, db').
Proof.
  intros Hr Hs. unfold begin_analysis, transaction, Mbind, Mget, update_where. rewrite Hr.
  cbn -[startable]. rewrite Hr, Hs. cbn. by eexists _, _.
Qed.

(** Closing keeps the history and leaves the status. *)
Definition status_is (status : AnalysisStatus) (w : World Net) : Prop :=
  exists row, db_analyses (w_db w) !! run_id = Some row
    /\ pr_status (an_progress row) = status.

Lemma finish_quiet at_ status w r w' : held_in w ->
  store_finish run_id at_ status token w = (r, w') ->
  (exists latency, r = Ok latency) /\ status_is status w'
  /\ stage_log run_id (w_db w') = stage_log run_id (w_db w).
Proof using Hquiet.
  intros Hc. unfold store_finish, Mbind, ask. destruct (utc_now _) as [now n].
  intros H%stored_quiet.
  apply finish_fenced in H as [(row & latency & -> & _ & _ & Hev & _ & H)|(e & _ & _ & Hn & _)];
    [|done].
  split_and!; [by eexists| |by apply stage_log_same]. eexists. split; [exact H|done].
Qed.

Lemma on_success_history request started at_ w r w' :
  aq_run_id request = run_id -> held_in w ->
  on_success settings request started at_ token w = (r, w') ->
  r = Ok tt /\ status_is COMPLETED w' /\ stage_log run_id (w_db w') = stage_log run_id (w_db w).
Proof using Hquiet.
  intros Hr Hc. unfold on_success, Mtry_else. rewrite Hr.
  destruct (store_finish _ _ _ _ w) as [o w1] eqn:Ef.
  apply finish_quiet in Ef as ((latency & ->) & Hs & Hl); [|done]. unfold Mbind at 1.
  destruct (count_attempt_run (u "completed") started w1) as (w2 & -> & Hw2 & _).
  unfold Mbind at 1. cbn [metered observe sample Mmodify].
  match goal with |- slo _ _ _ ?w3 = _ -> _ =>
    destruct (slo_run (u "completion") latency (set_analysis_completion_slo settings) w3)
      as (w4 & -> & Hw4 & _) end.
  intros [= <- <-]. unfold status_is. rewrite Hw4. cbn [w_db]. rewrite Hw2. by split_and!.
Qed.

Lemma on_failure_history request started at_ e w r w' :
  aq_run_id request = run_id -> held_in w -> is_superseded e = false ->
  on_failure request started (Some at_) token e w = (r, w') ->
  r = Raise e /\ status_is FAILED w' /\ stage_log run_id (w_db w') = stage_log run_id (w_db w).
Proof using Hquiet.
  intros Hr Hc He. unfold on_failure, unless_superseded at 1, Mtry_else. rewrite Hr, He.
  destruct (store_finish _ _ _ _ w) as [o w1] eqn:Ef.
  apply finish_quiet in Ef as ((latency & ->) & Hs & Hl); [|done]. unfold Mbind at 1.
  destruct (count_attempt_run (u "failed_attempt") started w1) as (w2 & -> & Hw2 & _).
  intros [= <- <-]. unfold status_is. rewrite Hw2. by split_and!.
Qed.

Lemma runs_attempt request start : aq_run_id request = run_id ->
  runs_stages all_stages (attempt percent settings llm_provider request start token).
Proof using Hquiet.
  intros Hr. apply (runs_bind []); [|intros ?; by apply runs_analyze_body].
  apply runs_quietly.
  - intros w r w' _. destruct (as_first_start start); cbn; [|by intros [= <- _]; eauto].
    unfold Mbind. cbn [metered observe sample Mmodify].
    match goal with |- slo ?a ?b ?c ?w3 = _ -> _ =>
      destruct (slo_run a b c w3) as (w4 & -> & _) end.
    intros [= <- _]. eauto.
  - destruct (as_first_start start); cbn; unfold slo; auto with keeps.
Qed.
End history.

(** C17: When no other worker interferes, an attempt on a queued or running analysis
    writes a history that accounts for it: first the stages an earlier attempt left open
    are closed as failed; then the six stages run in their order.  An attempt that
    returns has started and completed each of them, and the row is COMPLETED; an attempt
    that raises has completed the stages before the failing one, recorded that one as
    failed with the first 2000 characters of the exception's text, started none after
    it, and the row is FAILED. *)
Theorem analyze_stage_history {U : UnicodeDb} {DL : Dialect} {DP : DocParsers} {Net : Type}
    {E : Env Net} {G : GitHubClient Net} (percent : Q -> str) (settings : PipelineSettings)
    (llm_provider : option (LLMProvider Net)) (request : AnalysisRequest)
    (w w' : World Net) (r : outcome unit) (row : AnalysisRow) :
  let run_id := aq_run_id request in
  let before := map closed_entry (stage_log run_id (w_db w)) in
  let status := option_map (fun row => pr_status (an_progress row))
                  (db_analyses (w_db w') !! run_id) in
  forall (Hhonest : honest DP Net G) (Hquiet : forall db n, others db n = (db, n))
    (Hrow : db_analyses (w_db w) !! run_id = Some row)
    (Hstart : pr_status (an_progress row) = QUEUED \/ pr_status (an_progress row) = RUNNING)
    (Hrun : analyze percent settings llm_provider request w = (r, w')),
  match r with
  | Ok _ => stage_log run_id (w_db w') = before ++ flat_map completed all_stages
            /\ status = Some COMPLETED
  | Raise e =>
    exists done_ st rest, all_stages = done_ ++ st :: rest
      /\ stage_log run_id (w_db w') = before ++ flat_map completed done_ ++ failed st (exn_text e)
      /\ status = Some FAILED
  end.
Proof.
  intros run_id before status ????. subst status before run_id.
  unfold analyze, Mbind at 1, ask at 1.
  destruct (perf_counter (w_net w)) as [started n]. unfold Mbind at 1, ask at 1. cbn [w_net].
  destruct (uuid4_hex n) as [token n']. cbn [w_db w_metrics w_calls].
  unfold Mtry_else at 1. destruct (store_begin _ _ _) as [o w1] eqn:Eb.
  unfold store_begin, Mbind, ask in Eb. destruct (utc_now _) as [now n2].
  eapply stored_quiet in Eb; [|done]. cbn [w_db] in Eb.
  assert (Hs : startable (Some token) row = true).
  { cbn. apply orb_true_iff. rewrite !bool_decide_eq_true. done. }
  destruct (begin_starts (aq_run_id request) token (w_db w) now row Hrow Hs) as (start & db' & Hb).
  injection (eq_trans (eq_sym Eb) Hb) as -> <-.
  destruct (begin_history (aq_run_id request) token _ _ _ _ _ Hrow Hb) as [Hc Hl].
  unfold Mtry_else at 1. destruct (attempt _ _ _ _ _ _ w1) as [[[]|e] w2] eqn:Ea.
  - eapply runs_attempt in Ea as [Hc2 Hl2]; [|done..]. intros H.
    eapply on_success_history in H as (-> & (row' & Hr & Hst) & Hl3); [|done..].
    rewrite Hr. cbn. rewrite Hst. split; [|done]. by rewrite Hl3, Hl2, Hl.
  - assert (He : is_superseded e = false).
    { destruct (is_superseded e) eqn:He; [|done]. exfalso.
      assert (Hoth : forall db n, current (aq_run_id request) token (fst (others db n)) ->
        current (aq_run_id request) token db) by (intros db0 n0; by rewrite Hquiet).
      assert (Hst : stops (aq_run_id request) token (attempt percent settings llm_provider request start token)).
      { apply stops_bind; [apply stops_when; unfold slo, inc; eauto with stops|].
        intros ?. by apply stops_analyze_body. }
      eapply (Hst _ _ _ Ea He). by eapply runs_attempt in Ea as [? _]. }
    eapply runs_attempt in Ea as [Hc2 (d & st & rest & Hall & Hl2)]; [|done..]. intros H.
    eapply on_failure_history in H as (-> & (row' & Hr & Hst) & Hl3); [|done..].
    exists d, st, rest. rewrite Hr. cbn. rewrite Hst. split_and!; try done.
    by rewrite Hl3, Hl2, Hl.
Qed.

(** ** A concrete world *)

(** The outside world is a clock; [rival] says when another worker starts an attempt. *)
Definition sample_env (rival : Z -> bool) : Env Z := {|
  utc_now n := (n, n + 1000);
  perf_counter n := (n, n + 1000);
  uuid4_hex n := (u "t1", n);
  exn_text _ := u "boom";
  others db n :=
    if rival n then (snd (begin_analysis n 1 (Some (u "t2")) db), n + 1) else (db, n);
  failed_first _ := true |}.

Definition sample_job : FailedJob := {|
  fl_job_id := 7; fl_name := u "build"; fl_failed_steps := [u "pytest"];
  fl_runner_labels := [u "ubuntu"]; fl_workflow_name := Some (u "CI");
  fl_head_branch := Some (u "main") |}.
Definition sample_context : RepositoryContext := {|
  rc_changed_files := []; rc_workflow_path := None; rc_workflow_content := None;
  rc_pull_request_number := Some 12; rc_trust_level := TRUSTED; rc_baseline_sha := None |}.
Definition sample_github (publishing : M Z unit) : GitHubClient Z := {|
  installation_token _ := Mret (u "token");
  failed_jobs _ _ _ := Mret [sample_job];
  download_logs _ _ _ :=
    Mret [{| jl_job_name := u "build"; jl_text := u "AssertionError: 1 failed" |}];
  repository_context _ _ _ _ := Mret sample_context;
  file_contents _ _ _ _ := Mret [];
  upsert_check _ _ _ _ _ _ _ := publishing;
  upsert_pull_request_comment _ _ _ _ _ := publishing |}.
Definition sample_parsers : DocParsers := {|
  yaml_safe_load_all _ := Parses; tomllib_loads _ := Parses |}.
Definition sample_settings : PipelineSettings := {|
  set_log_chunk_chars := 200000; set_error_context_lines := 8; set_max_error_chunks := 10;
  set_llm_input_cost_per_million := 0; set_llm_output_cost_per_million := 0;
  set_publish_checks := true; set_public_url := u "https://pipelens.example";
  set_analysis_start_slo := 60000000; set_analysis_completion_slo := 120000000 |}.
Definition sample_analysis : AnalysisRequest := {|
  aq_run_id := 1; aq_repository := u "o/r"; aq_installation_id := 5; aq_head_sha := u "abc" |}.
Definition sample_world : World Z := Build_World sample_db [] 100 [].

Definition sample_run (rival : Z -> bool) (publishing : M Z unit) : outcome unit * World Z :=
  @analyze ascii_db postgresql sample_parsers Z (sample_env rival) (sample_github publishing)
    (fun _ => u "50%") sample_settings None sample_analysis sample_world.

Lemma sample_honest publishing :
  never_superseded publishing -> honest sample_parsers Z (sample_github publishing).
Proof. intros H. split; try done. by intros s e [?|?]. Qed.

Lemma rival_others rival db n :
  current 1 (u "t1") (fst (@others Z (sample_env rival) db n)) -> current 1 (u "t1") db.
Proof.
  cbn. destruct (rival n); [|done]. cbn.
  destruct (begin_analysis n 1 (Some (u "t2")) db) as [[start|e] db'] eqn:Eb; cbn.
  - intros (row' & Hr' & Ht'). apply begin_token in Eb as (row & wait & _ & _ & Hdb).
    rewrite Hdb, lookup_insert_eq in Hr'. injection Hr' as <-.
    apply bool_decide_eq_true in Ht'. vm_compute in Ht'. discriminate Ht'.
  - by apply begin_raises in Eb as [_ ->].
Qed.

Lemma sample_mild : honest sample_parsers Z (sample_github (Mret tt)).
Proof. apply sample_honest. by intros n e n'. Qed.
Lemma sample_gateway :
  honest sample_parsers Z (sample_github (Mraise (HTTPStatusError 502))).
Proof. apply sample_honest. by intros n e n' [= <- _]. Qed.
Lemma sample_row :
  db_analyses (w_db sample_world) !! 1 = Some (row_of (sample_record 1 10)).
Proof. vm_compute. reflexivity. Qed.
Lemma sample_fresh : ~ current 1 (u "t1") (w_db sample_world).
Proof.
  intros (row & Hr & Ht). vm_compute in Hr. injection Hr as <-. vm_compute in Ht. discriminate Ht.
Qed.

(** A rival that starts at any tick may take the row over, and the attempt then ends
    "superseded". *)
Lemma analyze_outcome_witness :
  let (r, w') := sample_run (fun n => 6000 <? n) (Mret tt) in
  r = Ok tt /\ last_attempt (w_metrics w') = Some [u "superseded"]
  /\ ~ current 1 (u "t1") (w_db w').
Proof.
  destruct (sample_run (fun n => 6000 <? n) (Mret tt)) as [r w'] eqn:Er.
  unfold sample_run in Er.
  destruct (@analyze_outcome ascii_db postgresql sample_parsers Z
    (sample_env (fun n => 6000 <? n)) (sample_github (Mret tt))
    (fun _ => u "50%") sample_settings None sample_analysis sample_world w' r
    sample_mild (rival_others _) sample_fresh Er) as [Hc _].
  split; [|split; [|exact Hc]].
  - vm_compute in Er. injection Er as <- <-. reflexivity.
  - vm_compute in Er. injection Er as <- <-. vm_compute. reflexivity.
Defined.

(** Publishing fails: the first five stages are complete, the last one failed. *)
Lemma analyze_stage_history_witness :
  let (r, w') := sample_run (fun _ => false) (Mraise (HTTPStatusError 502)) in
  r = Raise (HTTPStatusError 502)
  /\ exists done_ st rest, all_stages = done_ ++ st :: rest
    /\ stage_log 1 (w_db w') = flat_map completed done_ ++ failed st (u "boom").
Proof.
  destruct (sample_run (fun _ => false) (Mraise (HTTPStatusError 502))) as [r w'] eqn:Er.
  assert (Hr : r = Raise (HTTPStatusError 502))
    by (vm_compute in Er; injection Er as <- _; reflexivity).
  split; [exact Hr|]. rewrite Hr in Er. unfold sample_run in Er.
  destruct (@analyze_stage_history ascii_db postgresql sample_parsers Z
    (sample_env (fun _ => false)) (sample_github (Mraise (HTTPStatusError 502)))
    (fun _ => u "50%") sample_settings None sample_analysis sample_world w' _
    (row_of (sample_record 1 10)) sample_gateway (fun db n => eq_refl) sample_row
    (or_introl eq_refl) Er) as (d & st & rest & Hall & Hl & _).
  exists d, st, rest. split; [exact Hall|]. refine (eq_trans Hl _). reflexivity.
Defined.
