(* ===== verification/Worker.v ===== *)
(** * The queue worker (src/pipelens/worker.py)

    [AnalysisWorker]: taking a job, running the analysis, retrying or giving up, and the
    bookkeeping of queue outages.  The queue is any instance of [AnalysisQueue]; the
    analysis is [Pipeline.analyze] applied to its configuration.  The endless loops of
    [run] and [_maintain_queue] never return; they are modelled by their first [n]
    iterations, for every [n].  The two tasks are modelled side by side, not interleaved. *)

From Stdlib Require Import QArith.
From stdpp Require Import base list gmap strings numbers.
From S2P Require Import Prelude Models Store Queue Metrics GitHub Pipeline.

Record WorkerState (S Net : Type) := {
  wk_queue : S;
  wk_world : World Net;
  wk_failures : list (str * Z)           (* _queue_failure_started_at *) }.
Arguments Build_WorkerState {S Net} wk_queue wk_world wk_failures.
Arguments wk_queue {S Net} w.
Arguments wk_world {S Net} w.
Arguments wk_failures {S Net} w.

(** __init__ *)
Definition check_heartbeat (heartbeat_seconds : Q) : outcome Q :=
  if Qle_bool heartbeat_seconds 0
  then Raise (ValueError (u "heartbeat_seconds must be positive")) else Ok heartbeat_seconds.

Section worker.
Context {S Net : Type} {AQ : AnalysisQueue S} {E : Env Net}.
Context (analyze : AnalysisRequest -> M (World Net) unit).
Context (monotonic : Net -> Z * Net) (sleep : Net -> Net) (max_attempts : Z).
Open Scope prog_scope.
Abbreviation MW := (M (WorkerState S Net)).

Definition queued {A} (m : M S A) : MW A := fun s =>
  let (r, q) := m (wk_queue s) in (r, Build_WorkerState q (wk_world s) (wk_failures s)).
Definition in_world {A} (m : M (World Net) A) : MW A := fun s =>
  let (r, w) := m (wk_world s) in (r, Build_WorkerState (wk_queue s) w (wk_failures s)).

(** metrics.queue_depth.set(await queue.size()) *)
Definition report_depth : MW unit :=
  do! n := queued queue_size in in_world (metered (set_gauge queue_depth (inject_Z n))).

(** store.update(run_id, status, error=str(exc)): not fenced by an attempt token. *)
Definition set_status (run_id : Z) (status : AnalysisStatus) (e : exn) : MW unit :=
  in_world (do! now := ask utc_now in
            stored (update now run_id status no_update (Some (exn_text e)) None)).

Definition on_analysis_error (job : QueueJob) (e : exn) : MW unit :=
  let envelope := qj_envelope job in
  let run_id := aq_run_id (qe_request envelope) in
  let attempt := qe_attempts envelope + 1 in
  if attempt <? max_attempts then
    set_status run_id QUEUED e;;;
    queued (retry job);;;
    in_world (metered (inc queue_retries []))
  else
    set_status run_id FAILED e;;;
    queued (acknowledge job);;;
    in_world (metered (inc analyses [u "failed"])).

Definition process_next : MW bool :=
  do! taken := queued dequeue in
  match taken with
  | None => report_depth;;; Mret false
  | Some job =>
    report_depth;;;
    Mtry_else (in_world (analyze (qe_request (qj_envelope job))))
      (on_analysis_error job) (fun _ => queued (acknowledge job));;;
    report_depth;;;
    Mret true
  end.

(** ** Outages *)

Definition set_failures (d : list (str * Z)) : MW unit :=
  Mmodify (fun s => Build_WorkerState (wk_queue s) (wk_world s) d).

Definition _record_queue_error (phase : str) : MW unit :=
  in_world (metered (inc queue_connection_errors [phase]));;;
  do! now := in_world (ask monotonic) in
  do! s := Mget in
  set_failures (dict_setdefault str_eqb (wk_failures s) phase now).

(** dict.pop(phase, None) *)
Definition dict_pop (d : list (str * Z)) (k : str) : list (str * Z) :=
  List.filter (fun kv => negb (str_eqb (fst kv) k)) d.

Definition _record_queue_success (phase : str) : MW unit :=
  do! s := Mget in
  match dict_get str_eqb (wk_failures s) phase with
  | None => Mret tt
  | Some started_at =>
    set_failures (dict_pop (wk_failures s) phase);;;
    in_world (metered (inc queue_reconnections [phase]));;;
    do! now := in_world (ask monotonic) in
    in_world (metered (observe queue_recovery_duration [phase] (seconds (now - started_at))))
  end.

Definition _maintain_queue_once : MW unit :=
  queued heartbeat;;;
  do! recovered := queued recover_orphaned in
  Mwhen (negb (recovered =? 0))
    (in_world (metered (inc_by queue_recovered [] (inject_Z recovered)))).

Definition is_redis_error (e : exn) : bool :=
  match e with RedisError _ => true | _ => false end.
Definition pause : MW unit := in_world (ask (fun n => (tt, sleep n))).

(** An iteration of the startup loop of [run]: true when the loop ends. *)
Definition startup_once : MW bool :=
  Mtry_else _maintain_queue_once
    (fun e => if is_redis_error e then _record_queue_error (u "startup");;; pause;;; Mret false
              else Mraise e)
    (fun _ => _record_queue_success (u "startup");;; Mret true).
(** An iteration of [_maintain_queue]: no exception ends the task. *)
Definition maintenance_once : MW unit :=
  pause;;;
  Mtry_else _maintain_queue_once
    (fun e => if is_redis_error e then _record_queue_error (u "maintenance") else Mret tt)
    (fun _ => _record_queue_success (u "maintenance")).
(** An iteration of the processing loop of [run]: an outage of the queue is recorded and
    waited out, any other exception ends the loop. *)
Definition processing_once : MW unit :=
  Mtry_else process_next
    (fun e => if is_redis_error e
              then _record_queue_error (u "processing");;; pause else Mraise e)
    (fun _ => _record_queue_success (u "processing")).

(** The loops never end of their own accord: their first [n] iterations. *)
Fixpoint processing (n : nat) : MW unit :=
  match n with
  | O => Mret tt
  | Datatypes.S n => processing_once;;; processing n
  end.
Fixpoint run (n : nat) : MW unit :=
  match n with
  | O => Mret tt
  | Datatypes.S n => do! ready := startup_once in if ready then processing n else run n
  end.
Fixpoint _maintain_queue (n : nat) : MW unit :=
  match n with
  | O => Mret tt
  | Datatypes.S n => maintenance_once;;; _maintain_queue n
  end.
End worker.
