(* ===== verification/WorkerFacts.v ===== *)
(** * What the worker does with its jobs

    Against the contract of a queue ([QueueContract]): what one iteration does to the
    queue, to the row of the run and to the rest of the world ([process_next_spec]), and
    that the endless loop empties a queue nobody fills, within the attempts its envelopes
    have left, through outages ([processing_drains]). *)

From Stdlib Require Import QArith.
From stdpp Require Import base list gmap strings numbers.
From S2P Require Import Prelude Models Store StoreFacts Queue QueueFacts Metrics GitHub.
From S2P Require Import Pipeline PipelineEnding PipelineHistory Worker.

(** The world after more samples of the metrics. *)
Definition sampled {Net} (w : World Net) (l : list Sample) : World Net :=
  Build_World (w_db w) (w_metrics w ++ l) (w_net w) (w_calls w).
Definition counted (m : metric) (labels : list str) : Sample :=
  {| sm_metric := m; sm_labels := labels; sm_value := 1 |}.
Definition depth (n : nat) : Sample :=
  {| sm_metric := queue_depth; sm_labels := []; sm_value := inject_Z (Z.of_nat n) |}.

(** Of the tables, only the row of the run has changed, if there is one: its status and its
    error are these; what the run is, its analysis and the attempt it belongs to are kept. *)
Definition marked (run_id : Z) (status : AnalysisStatus) (text : str) (db db' : Database)
  : Prop :=
  db' = with_analyses db (db_analyses db')
  /\ (forall k, k <> run_id -> db_analyses db' !! k = db_analyses db !! k)
  /\ match db_analyses db !! run_id, db_analyses db' !! run_id with
     | Some row, Some row' =>
       pr_status (an_progress row') = status /\ pr_error (an_progress row') = Some text
       /\ an_identity row' = an_identity row /\ an_output row' = an_output row
       /\ pr_attempt_token (an_progress row') = pr_attempt_token (an_progress row)
     | None, None => True
     | _, _ => False
     end.

Lemma update_unfenced now run_id status text db :
  exists db', update now run_id status no_update (Some text) None db = (Ok tt, db')
    /\ marked run_id status text db db'.
Proof.
  unfold update, transaction, Mbind, update_where, marked.
  destruct (db_analyses db !! run_id) as [row|] eqn:Er; cbn; eexists; (split; [done|]).
  - cbn. rewrite lookup_insert_eq. split; [done|]. split.
    + intros k Hk. by rewrite lookup_insert_ne.
    + cbn. split_and!; [done..| |done]. by destruct (an_output row).
  - rewrite Er. split_and!; [by destruct db|done|done].
Qed.

Section worker_facts.
Context {S Net : Type} {AQ : AnalysisQueue S} {QC : QueueContract S AQ} {E : Env Net}.
Context (analyze : AnalysisRequest -> M (World Net) unit) (max_attempts : Z).
Open Scope prog_scope.

(** store.update after the analysis left the world [w], then the samples [l]: the clock is
    read, the others' transactions run, the row is written; no call is made. *)
Definition failure_written (status : AnalysisStatus) (e : QueueEnvelope) (ex : exn)
    (w w' : World Net) (l : list Sample) : Prop :=
  exists now n db, utc_now (w_net w) = (now, n) /\ others (w_db w) n = (db, w_net w')
    /\ marked (run_of e) status (exn_text ex) db (w_db w')
    /\ w_metrics w' = w_metrics w ++ l /\ w_calls w' = w_calls w.
Lemma failure_written_more status e ex w w' l l' :
  failure_written status e ex w w' l -> failure_written status e ex w (sampled w' l') (l ++ l').
Proof.
  intros (now & n & db & H1 & H2 & H3 & H4 & H5). exists now, n, db. cbn.
  by rewrite H4, app_assoc.
Qed.

Lemma report_depth_run (s s' : WorkerState S Net) p i o r :
  q_rel (wk_queue s) p i o -> report_depth s = (r, s') ->
  q_rel (wk_queue s') p i o /\ wk_failures s' = wk_failures s /\
  match r with
  | Ok _ => wk_world s' = sampled (wk_world s) [depth (length p)]
  | Raise e => connection_error e /\ wk_world s' = wk_world s
  end.
Proof.
  intros Hq. unfold report_depth, queued, Mbind. pose proof (size_law _ _ _ _ Hq) as Hs.
  destruct (queue_size (wk_queue s)) as [[n|e] q]; destruct Hs as [He Hq'];
    intros [= <- <-]; split_and!; try done. cbn. by rewrite He.
Qed.

Lemma set_status_run e status ex (s : WorkerState S Net) :
  exists s', set_status (run_of e) status ex s = (Ok tt, s') /\ wk_queue s' = wk_queue s
    /\ wk_failures s' = wk_failures s
    /\ failure_written status e ex (wk_world s) (wk_world s') [].
Proof.
  unfold set_status, in_world, Mbind, ask, stored, interleave, Mbind, failure_written.
  destruct (utc_now _) as [now n] eqn:En. cbn. destruct (others _ _) as [db n'] eqn:Eo. cbn.
  destruct (update_unfenced now (run_of e) status (exn_text ex) db) as (db' & -> & Hm).
  eexists. split_and!; [done..|]. exists now, n, db. cbn. by rewrite app_nil_r.
Qed.

(** The envelope [e] after its analysis raised [ex] in the world [w]. *)
Definition after_failure (e : QueueEnvelope) (ex : exn) (p i : list QueueEnvelope) (o : list Z)
    (w : World Net) (s : WorkerState S Net) (final : bool) : Prop :=
  if qe_attempts e + 1 <? max_attempts
  then q_rel (wk_queue s) (p ++ [retried e]) i o
       /\ failure_written QUEUED e ex w (wk_world s)
            (counted queue_retries [] :: if final then [depth (length p + 1)] else [])
  else q_rel (wk_queue s) p i o
       /\ failure_written FAILED e ex w (wk_world s)
            (counted analyses [u "failed"] :: if final then [depth (length p)] else []).

(** The queue when an outage interrupts the settling of [e], taken from [e :: p]. *)
Definition unsettled (e : QueueEnvelope) (p i : list QueueEnvelope) (o : list Z)
    (s : WorkerState S Net) : Prop :=
  q_rel (wk_queue s) p (e :: i) o \/ q_rel (wk_queue s) p i o
  \/ (qe_attempts e + 1 < max_attempts /\ q_rel (wk_queue s) (p ++ [retried e]) i o).
Definition interrupted (e : QueueEnvelope) (ex : exn) (w w' : World Net) : Prop :=
  exists status l, failure_written status e ex w w' l.

Lemma on_analysis_error_run job ex (s s' : WorkerState S Net) p i o r :
  q_job job -> q_rel (wk_queue s) p (qj_envelope job :: i) o ->
  on_analysis_error max_attempts job ex s = (r, s') ->
  wk_failures s' = wk_failures s /\
  match r with
  | Ok _ => after_failure (qj_envelope job) ex p i o (wk_world s) s' false
  | Raise e => connection_error e /\ unsettled (qj_envelope job) p i o s'
               /\ interrupted (qj_envelope job) ex (wk_world s) (wk_world s')
  end.
Proof.
  intros Hj Hq. unfold on_analysis_error, after_failure, unsettled, interrupted.
  fold (run_of (qj_envelope job)).
  set (e := qj_envelope job) in *. destruct (Z.ltb_spec (qe_attempts e + 1) max_attempts) as [Hlt|Hge].
  - destruct (set_status_run e QUEUED ex s) as (s1 & Hs1 & Hq1 & Hf & Hm).
    unfold Mbind at 1. rewrite Hs1. unfold Mbind, queued. rewrite Hq1.
    pose proof (retry_law job _ _ _ _ Hj Hq) as Hr.
    destruct (retry job (wk_queue s)) as [[[]|ex'] q]; intros [= <- <-]; (split; [done|]).
    + split; [done|]. by apply (failure_written_more _ _ _ _ _ []).
    + destruct Hr as [He Hr]. split_and!; [done| |by do 2 eexists]. cbn. fold e in Hr. tauto.
  - destruct (set_status_run e FAILED ex s) as (s1 & Hs1 & Hq1 & Hf & Hm).
    unfold Mbind at 1. rewrite Hs1. unfold Mbind, queued. rewrite Hq1.
    pose proof (acknowledge_law job _ _ _ _ Hj Hq) as Hr.
    destruct (acknowledge job (wk_queue s)) as [[[]|ex'] q]; intros [= <- <-]; (split; [done|]).
    + split; [done|]. by apply (failure_written_more _ _ _ _ _ []).
    + destruct Hr as [He Hr]. split_and!; [done| |by do 2 eexists]. cbn. fold e in Hr. tauto.
Qed.

Lemma after_failure_depth e ex p i o w s s' r :
  after_failure e ex p i o w s false -> report_depth s = (r, s') ->
  wk_failures s' = wk_failures s /\
  match r with
  | Ok _ => after_failure e ex p i o w s' true
  | Raise x => connection_error x /\ unsettled e p i o s' /\ interrupted e ex w (wk_world s')
  end.
Proof.
  unfold after_failure, unsettled, interrupted. intros Ha Hr.
  destruct (Z.ltb_spec (qe_attempts e + 1) max_attempts) as [Hlt|Hge]; destruct Ha as [Hq Hm];
    apply (report_depth_run _ _ _ _ _ _ Hq) in Hr as (Hq' & Hf & Hr); (split; [done|]);
    (destruct r; [|destruct Hr as [He Hr]; split_and!; [done|tauto|rewrite Hr; by do 2 eexists] ]);
    (split; [done|]).
  - rewrite length_app in Hr. rewrite Hr. exact (failure_written_more _ _ _ _ _ _ [_] Hm).
  - rewrite Hr. exact (failure_written_more _ _ _ _ _ _ [_] Hm).
Qed.

(** The envelope whose analysis [process_next] is about to run: its steps up to there. *)
Definition analysing (s : WorkerState S Net) : option QueueEnvelope :=
  match (do! taken := queued dequeue in
         match taken with
         | Some job => report_depth;;; Mret (Some (qj_envelope job))
         | None => Mret None
         end) s with
  | (Ok e, _) => e
  | (Raise _, _) => None
  end.

Lemma analysing_eq s : analysing s =
  match dequeue (wk_queue s) with
  | (Ok (Some job), q) =>
    match report_depth (Build_WorkerState q (wk_world s) (wk_failures s)) with
    | (Ok _, _) => Some (qj_envelope job)
    | (Raise _, _) => None
    end
  | _ => None
  end.
Proof.
  unfold analysing, Mbind at 1, queued. destruct (dequeue _) as [[[job|]|e] q]; [|done..].
  unfold Mbind. by destruct (report_depth _) as [[[]|e] s1].
Qed.

(** What an iteration that ended without an outage has done to the oldest envelope [e]. *)
Definition analysed_once (e : QueueEnvelope) (p i : list QueueEnvelope) (o : list Z)
    (s s' : WorkerState S Net) : Prop :=
  match analyze (qe_request e) (sampled (wk_world s) [depth (length p)]) with
  | (Ok _, w) => q_rel (wk_queue s') p i o /\ wk_world s' = sampled w [depth (length p)]
  | (Raise ex, w) => after_failure e ex p i o w s' true
  end.
(** What an iteration that an outage interrupted has done to it. *)
Definition analysed_interrupted (e : QueueEnvelope) (p i : list QueueEnvelope) (o : list Z)
    (s s' : WorkerState S Net) : Prop :=
  unsettled e p i o s' /\
  match analyze (qe_request e) (sampled (wk_world s) [depth (length p)]) with
  | (Ok _, w) => wk_world s' = w
  | (Raise ex, w) => interrupted e ex w (wk_world s')
  end.

Lemma process_next_run (s s' : WorkerState S Net) (p i : list QueueEnvelope) (o : list Z)
    (r : outcome bool) (Hq : q_rel (wk_queue s) p i o)
    (Hrun : process_next analyze max_attempts s = (r, s')) :
  wk_failures s' = wk_failures s /\
  match r with
  | Ok false => p = [] /\ analysing s = None /\ q_rel (wk_queue s') [] i o
      /\ wk_world s' = sampled (wk_world s) [depth 0]
  | Ok true => exists e p', p = e :: p' /\ analysing s = Some e /\ analysed_once e p' i o s s'
  | Raise ex => connection_error ex /\
      match analysing s with
      | None => wk_world s' = wk_world s
          /\ (q_rel (wk_queue s') p i o
              \/ exists e p', p = e :: p' /\ q_rel (wk_queue s') p' (e :: i) o)
      | Some e => exists p', p = e :: p' /\ analysed_interrupted e p' i o s s'
      end
  end.
Proof.
  revert Hrun. rewrite analysing_eq. unfold process_next, Mbind, queued at 1.
  pose proof (dequeue_law _ _ _ _ Hq) as Hd.
  destruct (dequeue (wk_queue s)) as [[[job|]|ex] q]; cbn beta iota.
  - destruct Hd as (Hj & p' & -> & Hq').
    destruct (report_depth _) as [[[]|ex] s1] eqn:Ed;
      (eapply report_depth_run in Ed as (Hq1 & Hf & Ed); [|exact Hq']); cbn in Hf, Ed.
    2:{ intros [= <- <-]. destruct Ed as [Hc Hw]. split_and!; [done..|]. right. by exists (qj_envelope job), p'. }
    unfold Mtry_else, in_world at 1. rewrite Ed. unfold analysed_once, analysed_interrupted.
    destruct (analyze _ _) as [[[]|ex] w] eqn:Ea.
    + unfold queued. cbn [wk_queue wk_world wk_failures].
      pose proof (acknowledge_law job _ _ _ _ Hj Hq1) as Hk.
      destruct (acknowledge job _) as [[[]|e] q2].
      2:{ intros [= <- <-]. split; [done|]. destruct Hk as [He Hk]. split; [done|].
          exists p'. split; [done|]. rewrite Ea. split; [|done]. unfold unsettled. cbn. tauto. }
      destruct (report_depth _) as [[[]|e] s3] eqn:E3;
        (eapply report_depth_run in E3 as (Hq3 & Hf3 & E3); [|exact Hk]); cbn in Hf3, E3;
        intros [= <- <-]; (split; [congruence|]).
      * exists (qj_envelope job), p'. by rewrite Ea.
      * destruct E3 as [He E3]. split; [done|]. exists p'. rewrite Ea. split; [done|].
        split; [|done]. unfold unsettled. tauto.
    + destruct (on_analysis_error _ _ _ _) as [[[]|e] s3] eqn:Eo;
        (eapply on_analysis_error_run in Eo as (Hf3 & Eo); [|exact Hj|exact Hq1]); cbn in Hf3, Eo.
      2:{ intros [= <- <-]. split; [congruence|]. destruct Eo as (He & Hu & Hi). split; [done|].
          exists p'. by rewrite Ea. }
      destruct (report_depth s3) as [[[]|e] s4] eqn:E4;
        (eapply after_failure_depth in E4 as (Hf4 & E4); [|exact Eo]); intros [= <- <-];
        (split; [congruence|]).
      * exists (qj_envelope job), p'. by rewrite Ea.
      * destruct E4 as (He & Hu & Hi). split; [done|]. exists p'. by rewrite Ea.
  - destruct Hd as [-> Hq'].
    destruct (report_depth _) as [[[]|ex] s1] eqn:Ed;
      (eapply report_depth_run in Ed as (Hq1 & Hf & Ed); [|exact Hq']); intros [= <- <-];
      (split; [done|]); [by split_and!|]. destruct Ed as [He Hw]. split_and!; [done..|by left].
  - intros [= <- <-]. destruct Hd as [He Hd]. split_and!; [done..|]. exact Hd.
Qed.
(** C13: One iteration against any queue that keeps its contract, to the last field of the
    world.  On an empty queue it reports depth 0 and changes nothing else.  Otherwise it
    takes the oldest envelope, reports the depth left, and analyses its request exactly once:
    when the analysis returns, the final world is the one it left with only the depth
    reported again, and the job is acknowledged; when it raises, the analysis' world differs
    from the final one only by the clock read, the others' transactions, the row of the run
    (QUEUED with the error if attempts are left and the envelope is back at the end of the
    queue with its attempt counted, FAILED with the error and the run out of the queue if
    not), the retry or failure counter and the depth.  The analysis' exception never
    escapes: what does is a connection error of the queue, after which the envelope was
    not analysed and is still pending or held by this worker, or was analysed once and its
    settling happened or did not. *)
Theorem process_next_spec (s s' : WorkerState S Net) (p i : list QueueEnvelope) (o : list Z)
    (r : outcome bool) (Hq : q_rel (wk_queue s) p i o)
    (Hrun : process_next analyze max_attempts s = (r, s')) :
  wk_failures s' = wk_failures s /\
  match r with
  | Ok false => p = [] /\ q_rel (wk_queue s') [] i o
      /\ wk_world s' = sampled (wk_world s) [depth 0]
  | Ok true => exists e p', p = e :: p' /\
      match analyze (qe_request e) (sampled (wk_world s) [depth (length p')]) with
      | (Ok _, w) => q_rel (wk_queue s') p' i o /\ wk_world s' = sampled w [depth (length p')]
      | (Raise ex, w) =>
        if qe_attempts e + 1 <? max_attempts
        then q_rel (wk_queue s') (p' ++ [retried e]) i o
             /\ failure_written QUEUED e ex w (wk_world s')
                  [counted queue_retries []; depth (length p' + 1)]
        else q_rel (wk_queue s') p' i o
             /\ failure_written FAILED e ex w (wk_world s')
                  [counted analyses [u "failed"]; depth (length p')]
      end
  | Raise ex => connection_error ex /\
      match analysing s with
      | None => wk_world s' = wk_world s
          /\ (q_rel (wk_queue s') p i o
              \/ exists e p', p = e :: p' /\ q_rel (wk_queue s') p' (e :: i) o)
      | Some e => exists p', p = e :: p' /\ analysed_interrupted e p' i o s s'
      end
  end.
Proof.
  destruct (process_next_run _ _ _ _ _ _ Hq Hrun) as [Hf H]. split; [done|].
  destruct r as [[]|ex]; [|tauto|done]. by destruct H as (e & p' & -> & _ & H); exists e, p'.
Qed.

(** ** The endless loop *)

Context (monotonic : Net -> Z * Net) (sleep : Net -> Net).
Abbreviation turn_of := (processing_once analyze monotonic sleep max_attempts).
Abbreviation loop := (processing analyze monotonic sleep max_attempts).

(** Whether the next iteration meets an outage of the queue. *)
Definition outage (s : WorkerState S Net) : bool :=
  match process_next analyze max_attempts s with (Raise _, _) => true | _ => false end.
(** The first iterations: the envelope whose analysis each runs, and whether it met an
    outage. *)
Fixpoint turns (n : nat) (s : WorkerState S Net) : list (option QueueEnvelope * bool) :=
  match n with
  | O => []
  | Datatypes.S n => (analysing s, outage s) :: turns n (snd (turn_of s))
  end.
Definition analysed (n : nat) (s : WorkerState S Net) : list QueueEnvelope :=
  omap fst (turns n s).
Definition outages (n : nat) (s : WorkerState S Net) : nat :=
  length (List.filter snd (turns n s)).

(** What an iteration does to the pending and the held envelopes. *)
Inductive turn (i : list QueueEnvelope) : list QueueEnvelope -> option QueueEnvelope -> bool ->
    list QueueEnvelope -> list QueueEnvelope -> Prop :=
| turn_idle b p : (b = false -> p = []) -> turn i p None b p i
| turn_taken e p : turn i (e :: p) None true p (e :: i)
| turn_held e p : turn i (e :: p) (Some e) true p (e :: i)
| turn_settled e p b : turn i (e :: p) (Some e) b p i
| turn_retried e p b : qe_attempts e + 1 < max_attempts ->
    turn i (e :: p) (Some e) b (p ++ [retried e]) i.

Lemma record_error_run phase (s : WorkerState S Net) : exists s',
  (_record_queue_error monotonic phase;;; pause sleep) s = (Ok tt, s')
  /\ wk_queue s' = wk_queue s.
Proof.
  unfold _record_queue_error, pause, set_failures, in_world, metered, ask, inc, inc_by, sample.
  change (Qle_bool 0 1) with true. unfold Mbind, Mget, Mmodify. cbn. destruct (monotonic _) as [now n]. cbn. by eexists.
Qed.
Lemma record_success_run phase (s : WorkerState S Net) : exists s',
  _record_queue_success monotonic phase s = (Ok tt, s') /\ wk_queue s' = wk_queue s.
Proof.
  unfold _record_queue_success, Mbind at 1, Mget. destruct (dict_get _ _ _); [|by exists s].
  unfold set_failures, in_world, metered, ask, inc, inc_by, sample.
  change (Qle_bool 0 1) with true. unfold Mbind, Mmodify. cbn. destruct (monotonic _) as [now n]. cbn. by eexists.
Qed.

Lemma turn_run (s : WorkerState S Net) p i o : q_rel (wk_queue s) p i o ->
  exists s' p' i', turn_of s = (Ok tt, s') /\ q_rel (wk_queue s') p' i' o
    /\ turn i p (analysing s) (outage s) p' i'.
Proof.
  intros Hq. unfold processing_once, Mtry_else, outage.
  destruct (process_next analyze max_attempts s) as [r s1] eqn:Er.
  destruct (process_next_run _ _ _ _ _ _ Hq Er) as [_ H]. destruct r as [busy|ex].
  - destruct (record_success_run (u "processing") s1) as (s' & -> & Hs'). destruct busy.
    + destruct H as (e & p' & -> & -> & H). unfold analysed_once, after_failure in H.
      exists s'. rewrite Hs'. destruct (analyze _ _) as [[[]|ex] w].
      * exists p', i. split_and!; [done|apply H|apply turn_settled].
      * destruct (Z.ltb_spec (qe_attempts e + 1) max_attempts); destruct H as [H _];
          do 2 eexists; (split_and!; [done|exact H|]); by constructor.
    + destruct H as (-> & -> & H & _). exists s', [], i. rewrite Hs'.
      split_and!; [done|done|]. by apply turn_idle.
  - destruct H as [[msg ->] H]. cbn [is_redis_error].
    destruct (record_error_run (u "processing") s1) as (s' & -> & Hs'). exists s'. rewrite Hs'.
    destruct (analysing s) as [e|].
    + destruct H as (p' & -> & [H|[H|[Hlt H] ] ] & _); do 2 eexists;
        (split_and!; [done|exact H|]); by constructor.
    + destruct H as (_ & [H|(e & p' & -> & H)]); do 2 eexists;
        (split_and!; [done|exact H|]); by constructor.
Qed.
(** ** Draining the queue *)

(** The analyses an envelope has left: at least one, the last when the attempts before it
    and itself are max_attempts. *)
Definition budget (e : QueueEnvelope) : nat := Z.to_nat (Z.max 1 (max_attempts - qe_attempts e)).
Definition total_budget (p : list QueueEnvelope) : nat := list_sum (map budget p).
(** The first [m] attempts at an envelope: itself, then with each retry counted. *)
Fixpoint attempts (e : QueueEnvelope) (m : nat) : list QueueEnvelope :=
  match m with O => [] | Datatypes.S m => e :: attempts (retried e) m end.
Definition of_run (run_id : Z) (l : list QueueEnvelope) : list QueueEnvelope :=
  List.filter (fun e => run_of e =? run_id) l.

Lemma total_budget_cons e p : total_budget (e :: p) = (budget e + total_budget p)%nat.
Proof. done. Qed.
Lemma total_budget_snoc p e : total_budget (p ++ [e]) = (total_budget p + budget e)%nat.
Proof. unfold total_budget. rewrite map_app, list_sum_app. cbn. lia. Qed.
Lemma budget_pos e : (1 <= budget e)%nat.
Proof. unfold budget. lia. Qed.
Lemma budget_retried e : qe_attempts e + 1 < max_attempts -> budget e = (1 + budget (retried e))%nat.
Proof. unfold budget. cbn. lia. Qed.
Lemma of_run_none z l : (forall e, In e l -> run_of e <> z) -> of_run z l = [].
Proof.
  induction l as [|e l IH]; intros H; [done|]. cbn. destruct (Z.eqb_spec (run_of e) z) as [He|_].
  - destruct (H e); [by left|done].
  - apply IH. intros e' He. apply H. by right.
Qed.

Lemma turn_budget i p a b p' i' : turn i p a b p' i' ->
  (p = [] /\ p' = []) \/ (total_budget p' + 1 <= total_budget p + if b then 1 else 0)%nat.
Proof.
  inversion 1; subst; rewrite ?total_budget_cons, ?total_budget_snoc;
    try (pose proof (budget_pos e)); try (right; try destruct b; lia).
  - destruct b; [right; lia|left]. split; auto.
  - right. rewrite (budget_retried e) by done. destruct b; lia.
Qed.
Lemma turn_holds i p a b p' i' : turn i p a b p' i' ->
  incl i i' /\ (length i' <= length i + if b then 1 else 0)%nat.
Proof.
  inversion 1; subst; (split; [try apply incl_refl; by apply incl_tl, incl_refl|]);
    cbn; try destruct b; lia.
Qed.
Lemma turn_runs i p a b p' i' : turn i p a b p' i' -> incl (runs p') (runs p).
Proof.
  inversion 1; subst; try apply incl_refl; try (by apply incl_tl, incl_refl).
  unfold runs. rewrite map_app. intros z [Hz|[<-|[] ] ]%in_app_iff; [by right|by left].
Qed.

(** The attempts at an envelope, given those after a turn; [drained]: what remains to be
    known when the queue is empty. *)
Definition attempted (drained : Prop) (held : list QueueEnvelope) (l : list QueueEnvelope)
    (e : QueueEnvelope) : Prop :=
  exists m, of_run (run_of e) l = attempts e m /\ (m <= budget e)%nat
    /\ (drained -> m = 0%nat -> In (run_of e) (runs held)).
Lemma attempted_skip drained held l x e :
  run_of x <> run_of e -> attempted drained held l e -> attempted drained held (x :: l) e.
Proof.
  intros Hx (m & Hm & Hb & Hh). exists m. split_and!; [|done..]. unfold of_run. cbn.
  by destruct (Z.eqb_spec (run_of x) (run_of e)).
Qed.
Lemma attempted_last drained held l e :
  of_run (run_of e) l = [] -> attempted drained held (e :: l) e.
Proof.
  intros Hl. exists 1%nat. pose proof (budget_pos e). split_and!; [|lia|lia].
  unfold of_run in *. cbn. by rewrite Z.eqb_refl, Hl.
Qed.
Lemma attempted_again drained held l e : qe_attempts e + 1 < max_attempts ->
  attempted drained held l (retried e) -> attempted drained held (e :: l) e.
Proof.
  intros He (m & Hm & Hb & _). exists (Datatypes.S m). rewrite (budget_retried e) by exact He.
  split_and!; [|lia|lia]. unfold of_run in *. cbn. rewrite Z.eqb_refl. f_equal. exact Hm.
Qed.

Lemma attempted_none (drained : Prop) held l e :
  of_run (run_of e) l = [] -> (drained -> In (run_of e) (runs held)) -> attempted drained held l e.
Proof. intros Hl Hh. exists 0%nat. split_and!; [done|lia|auto]. Qed.

Lemma turn_attempted i p a b p' i' tail held drained : turn i p a b p' i' -> NoDup (runs p) ->
  incl i' held -> (forall e, In e tail -> In (run_of e) (runs p')) ->
  (forall e, In e p' -> attempted drained held tail e) ->
  forall e, In e p -> attempted drained held (match a with Some x => x :: tail | None => tail end) e.
Proof.
  intros Ht Hn Hi Htail Hp e He.
  assert (Hrest : forall x q, p = x :: q -> In e q -> run_of x <> run_of e).
  { intros x q -> Hq Heq. inversion Hn as [|? ? Hx _]; subst. apply Hx, list_elem_of_In.
    rewrite Heq. by apply in_map. }
  assert (Hgone : forall x q, p = x :: q -> p' = q -> of_run (run_of x) tail = []).
  { intros x q -> ->. apply of_run_none. intros y Hy Heq. inversion Hn as [|? ? Hx _]; subst.
    apply Hx, list_elem_of_In. rewrite <- Heq. by apply Htail. }
  inversion Ht; subst; [by apply Hp|..]; destruct He as [->|He].
  - apply attempted_none; [by eapply Hgone|]. intros _. apply in_map, Hi. by left.
  - by apply Hp.
  - apply attempted_last. by eapply Hgone.
  - apply attempted_skip; [by eapply Hrest|by apply Hp].
  - apply attempted_last. by eapply Hgone.
  - apply attempted_skip; [by eapply Hrest|by apply Hp].
  - apply attempted_again; [done|]. apply Hp, in_or_app. right. by left.
  - apply attempted_skip; [by eapply Hrest|]. apply Hp, in_or_app. by left.
Qed.

Lemma turn_analysed i p a b p' i' tail : turn i p a b p' i' ->
  (forall e, In e tail -> In (run_of e) (runs p')) ->
  forall e, In e (match a with Some x => x :: tail | None => tail end) -> In (run_of e) (runs p).
Proof.
  intros Ht Htail e He. pose proof (turn_runs _ _ _ _ _ _ Ht) as Hr.
  inversion Ht; subst; try (by apply Hr, Htail);
    (destruct He as [<-|He]; [by left|by apply Hr, Htail]).
Qed.

(** The first [n] iterations from any state of the contract. *)
Lemma processing_run n (s : WorkerState S Net) p i o : q_rel (wk_queue s) p i o ->
  exists s' p' i', loop n s = (Ok tt, s') /\ q_rel (wk_queue s') p' i' o
    /\ incl i i' /\ (length i' <= length i + outages n s)%nat
    /\ (p = [] -> p' = []) /\ (p' = [] \/ (total_budget p' + n <= total_budget p + outages n s)%nat)
    /\ (forall e, In e (analysed n s) -> In (run_of e) (runs p))
    /\ (forall e, In e p -> attempted (p' = []) i' (analysed n s) e).
Proof.
  revert s p i. induction n as [|n IH]; intros s p i Hq.
  - exists s, p, i. split_and!; try done; [apply incl_refl|lia|right; cbn; lia|].
    intros e He. apply attempted_none; [done|]. by intros ->.
  - destruct (turn_run s p i o Hq) as (s1 & p1 & i1 & Hs1 & Hq1 & Ht).
    destruct (IH s1 p1 i1 Hq1) as (s' & p' & i' & Hs' & Hq' & Hi & Hlen & Hnil & Htot & Hin & Hatt).
    exists s', p', i'. cbn [processing turns]. unfold Mbind, outages, analysed. rewrite Hs1.
    cbn [turns fst snd]. rewrite Hs1. cbn [snd].
    destruct (turn_holds _ _ _ _ _ _ Ht) as [Hii Hil]. fold (outages n s1) (analysed n s1) in *.
    assert (Ho : length (List.filter snd ((analysing s, outage s) :: turns n s1))
      = ((if outage s then 1 else 0) + outages n s1)%nat) by (cbn; by destruct (outage s)).
    assert (Ha : omap fst ((analysing s, outage s) :: turns n s1)
      = match analysing s with Some x => x :: analysed n s1 | None => analysed n s1 end) by done.
    rewrite Ho, Ha. split_and!; [done|done|by eapply incl_tran|lia| | | |].
    + intros ->. apply Hnil. by inversion Ht.
    + destruct Htot as [Htot|Htot]; [by left|].
      destruct (turn_budget _ _ _ _ _ _ Ht) as [[_ Hp1]|Hb]; [left; auto|right; lia].
    + by apply (turn_analysed _ _ _ _ _ _ _ Ht).
    + apply (turn_attempted _ _ _ _ _ _ _ _ _ Ht); [|done..].
      apply q_rel_runs in Hq. by apply list.NoDup_app in Hq as [Hq _].
Qed.

(** C14: The endless processing loop, on a queue nobody else fills, through any outages of
    the queue: however many iterations it has run, it never stops and nothing escapes it;
    the analyses of each envelope that was waiting are its first [m] attempts, in order,
    each counted once more, and never more than its remaining attempts; nothing else is
    analysed; and at most one envelope per outage is held and not settled.  After as many
    iterations as the envelopes have attempts left, and one more for each outage, the queue
    is empty -- and stays so -- and every envelope has been analysed at least once or was
    lost from the queue to an outage (it is then held, until its lease is recovered); without
    an outage, every one has been analysed. *)
Theorem processing_drains (n : nat) (s s' : WorkerState S Net) (p : list QueueEnvelope)
    (o : list Z) (r : outcome unit) (Hq : q_rel (wk_queue s) p [] o)
    (Hrun : loop n s = (r, s')) :
  r = Ok tt
  /\ (forall e, In e p -> exists m,
       of_run (run_of e) (analysed n s) = attempts e m /\ (m <= budget e)%nat)
  /\ (forall e, In e (analysed n s) -> In (run_of e) (runs p))
  /\ exists p' i', q_rel (wk_queue s') p' i' o /\ (length i' <= outages n s)%nat
     /\ ((total_budget p + outages n s <= n)%nat ->
          p' = [] /\ (forall e, In e p -> In e (analysed n s) \/ In (run_of e) (runs i'))
          /\ (outages n s = 0%nat -> forall e, In e p -> In e (analysed n s))).
Proof.
  destruct (processing_run n s p [] o Hq)
    as (s1 & p' & i' & Hs & Hq' & _ & Hi & _ & Htot & Hin & Hatt).
  rewrite Hs in Hrun. injection Hrun as <- <-. cbn in Hi. split_and!; [done| |done|].
  { intros e He. destruct (Hatt e He) as (m & Hm & Hb & _). exists m. by split. }
  exists p', i'. split_and!; [done|done|]. intros Hn.
  assert (Hp' : p' = []).
  { destruct Htot as [Htot|Htot]; [done|]. destruct p' as [|e p']; [done|].
    rewrite total_budget_cons in Htot. pose proof (budget_pos e). lia. }
  assert (Hall : forall e, In e p -> In e (analysed n s) \/ In (run_of e) (runs i')).
  { intros e (m & Hm & _ & Hh)%Hatt. destruct m as [|m]; [right; auto|left].
    assert (Hx : In e (of_run (run_of e) (analysed n s))) by (rewrite Hm; by left).
    apply List.filter_In in Hx as [Hx _]. exact Hx. }
  split_and!; [done|done|]. intros H0 e He. destruct (Hall e He) as [H|H]; [done|].
  destruct i'; [by destruct H|cbn in Hi; lia].
Qed.
End worker_facts.

(** ** A worker on the in-memory queue *)

Definition one_job : MemoryQueue := snd (memory_enqueue sample_analysis empty_memory).
Lemma one_job_rel : memory_rel one_job [new_envelope sample_analysis] [] [].
Proof.
  unfold memory_rel. split_and!; try reflexivity.
  - apply NoDup_singleton.
  - intros z. change (z ∈ ({[1]} ∪ ∅ : gset Z) <-> In z [1]).
    rewrite elem_of_union, elem_of_singleton, elem_of_empty. cbn.
    split; [intros [->|[]]; by left|intros [<-|[]]; by left].
Qed.

(** The sample analysis; publishing answers 502 every time. *)
Definition failing_analysis : AnalysisRequest -> M (World Z) unit :=
  @analyze ascii_db postgresql sample_parsers Z (sample_env (fun _ => false))
    (sample_github (Mraise (HTTPStatusError 502))) (fun _ => u "50%") sample_settings None.
Definition one_job_worker : WorkerState MemoryQueue Z := Build_WorkerState one_job sample_world [].

(** The first of three attempts fails: the depth goes from 0 to 1, the job is queued again
    and its row says why. *)
Lemma process_next_spec_witness :
  exists s', @process_next _ _ InMemoryAnalysisQueue (sample_env (fun _ => false))
      failing_analysis 3 one_job_worker = (Ok true, s')
    /\ memory_rel (wk_queue s') [retried (new_envelope sample_analysis)] [] []
    /\ exists ex w, failing_analysis sample_analysis (sampled sample_world [depth 0]) = (Raise ex, w)
      /\ @failure_written _ (sample_env (fun _ => false)) QUEUED (new_envelope sample_analysis) ex w
           (wk_world s') [counted queue_retries []; depth 1].
Proof.
  destruct (@process_next _ _ InMemoryAnalysisQueue (sample_env (fun _ => false))
    failing_analysis 3 one_job_worker) as [r s'] eqn:Er.
  destruct (@process_next_spec _ _ InMemoryAnalysisQueue memory_contract
    (sample_env (fun _ => false)) failing_analysis 3 one_job_worker s' _ [] [] r one_job_rel Er)
    as [_ H].
  assert (Hr : r = Ok true) by (vm_compute in Er; injection Er as <- _; reflexivity).
  exists s'. split; [by rewrite Hr|]. rewrite Hr in H.
  destruct H as (e & p' & Hp & H). injection Hp as <- <-. revert H. cbn [wk_world one_job_worker].
  destruct (failing_analysis _ _) as [[[]|ex] w] eqn:Ea; [vm_compute in Ea; discriminate Ea|].
  intros [H1 H2]. split; [exact H1|]. exists ex, w. split; [reflexivity|exact H2].
Defined.

(** Three failing attempts, and the queue is empty: of the ten iterations of the loop the
    first three analyse. *)
Lemma processing_drains_witness :
  exists s', @processing _ _ InMemoryAnalysisQueue (sample_env (fun _ => false))
      failing_analysis (fun n => (0, n)) (fun n => n) 3 10 one_job_worker = (Ok tt, s')
    /\ memory_rel (wk_queue s') [] [] []
    /\ @analysed _ _ InMemoryAnalysisQueue (sample_env (fun _ => false)) failing_analysis 3
         (fun n => (0, n)) (fun n => n) 10 one_job_worker
       = attempts (new_envelope sample_analysis) 3.
Proof.
  destruct (@processing _ _ InMemoryAnalysisQueue (sample_env (fun _ => false))
    failing_analysis (fun n => (0, n)) (fun n => n) 3 10 one_job_worker) as [r s'] eqn:Er.
  destruct (@processing_drains _ _ InMemoryAnalysisQueue memory_contract
    (sample_env (fun _ => false)) failing_analysis 3 (fun n => (0, n)) (fun n => n) 10
    one_job_worker s' _ [] r one_job_rel Er) as (-> & _ & _ & p' & i' & Hq & Hi & H).
  assert (Ho : @outages _ _ InMemoryAnalysisQueue (sample_env (fun _ => false)) failing_analysis 3
    (fun n => (0, n)) (fun n => n) 10 one_job_worker = 0%nat) by (vm_compute; reflexivity).
  rewrite Ho in Hi, H. destruct i'; [|cbn in Hi; lia].
  destruct H as (-> & _); [apply Nat.leb_le; vm_compute; reflexivity|].
  exists s'. split; [done|]. split; [exact Hq|]. vm_compute. reflexivity.
Defined.
