(* ===== verification/Main.v ===== *)
(** * The web application (src/pipelens/main.py): webhooks and start-up

    The handler of GitHub webhooks and the start-up reconciliation, on the database, the
    metrics and any queue.  A handler returns a response or raises; [respond] is what
    the framework makes of an HTTPException.  Handlers run without interference here.
    pydantic's integer conversion and the driver's answer to a query for a repository name
    that is no string (an error, or no row) are parameters. *)

From Stdlib Require Import QArith.
From stdpp Require Import base list gmap strings numbers.
From S2P Require Import Prelude Calendar Models Json Loads Security Store Queue Metrics.

Class Parsing := {
  pydantic_int : json -> option Z;
  py_str : json -> str;                            (* str() of a value that is no string *)
  driver_rejects : json -> option str              (* a query for a name that is no string *)
}.

Record Response := { re_status : Z; re_accepted : option bool; re_run_id : option Z }.
Definition empty_response (status : Z) : Response :=
  {| re_status := status; re_accepted := None; re_run_id := None |}.

Record AppState (S : Type) := {
  ap_db : Database; ap_metrics : Registry; ap_queue : S; ap_ticks : nat }.
Arguments Build_AppState {S} ap_db ap_metrics ap_queue ap_ticks.
Arguments ap_db {S} a.
Arguments ap_metrics {S} a.
Arguments ap_queue {S} a.
Arguments ap_ticks {S} a.

Section main.
Context {U : UnicodeDb} {DL : Dialect} {P : Parsing} {HM : Hmac} {S : Type}
  {AQ : AnalysisQueue S}.
Context (time_at : nat -> Z) (webhook_secret : str).
Open Scope prog_scope.
Abbreviation MA := (M (AppState S)).

Definition now : MA Z := fun s =>
  (Ok (time_at (ap_ticks s)),
   Build_AppState (ap_db s) (ap_metrics s) (ap_queue s) (Datatypes.S (ap_ticks s))).
Definition on_db {A} (m : M Database A) : MA A := fun s =>
  let (r, db) := m (ap_db s) in
  (r, Build_AppState db (ap_metrics s) (ap_queue s) (ap_ticks s)).
Definition on_queue {A} (m : M S A) : MA A := fun s =>
  let (r, q) := m (ap_queue s) in
  (r, Build_AppState (ap_db s) (ap_metrics s) q (ap_ticks s)).
Definition on_metrics {A} (m : M Registry A) : MA A := fun s =>
  let (r, reg) := m (ap_metrics s) in
  (r, Build_AppState (ap_db s) reg (ap_queue s) (ap_ticks s)).

(** metrics.webhooks.labels(outcome=...).inc() *)
Definition count_webhook (result : str) : MA unit := on_metrics (inc webhooks [result]).
(** Count the outcome and raise. *)
Definition reject {A} (result : str) (status : Z) (detail : str) : MA A :=
  count_webhook result;;; Mraise (HTTPException status detail).

(** str(value) *)
Definition to_str (v : json) : str := match v with JStr s => s | v => py_str v end.

Definition _workflow_run_completed_at (v : json) : MA Z :=
  match v with
  | JStr s =>
    match fromisoformat (replace_zulu s) with
    | Some (t, true) =>
      if in_datetime_range t then Mret t
      else Mraise (OtherException (u "OverflowError"))
    | Some (_, false) =>
      Mraise (ValueError (u "workflow run timestamp must include a timezone"))
    | None => Mraise (ValueError (u "Invalid isoformat string"))
    end
  | _ => now
  end.

(** isinstance(v, int): bool is a subclass of int. *)
Definition as_integer (v : json) : option Z :=
  match v with JInt z => Some z | JBool b => Some (Z.b2z b) | _ => None end.
Definition member_number (v : json) : option Z :=
  match v with
  | JObj d => as_integer (default JNull (dict_get str_eqb d (u "number")))
  | _ => None
  end.
Definition _pull_request_number (run : json) : outcome (option Z) :=
  let! pulls := jget run (u "pull_requests") in
  match pulls with
  | JArr l => Ok (head (omap member_number l))
  | _ => Ok None
  end.

Definition reconcile_each : list AnalysisRequest -> Z -> MA Z :=
  fix go (requests : list AnalysisRequest) (reconciled : Z) : MA Z :=
  match requests with
  | [] => Mret reconciled
  | r :: rest =>
    do! created := on_queue (enqueue r) in
    go rest (if created : bool then reconciled + 1 else reconciled)
  end.
Definition reconcile_queued_analyses : MA Z :=
  do! s := Mget in reconcile_each (queued_requests (ap_db s)) 0.

Definition report_size : MA unit :=
  do! n := on_queue queue_size in on_metrics (set_gauge queue_depth (inject_Z n)).

(** The start of [lifespan], before the local worker starts. *)
Definition startup : MA unit :=
  do! reconciled := reconcile_queued_analyses in
  Mwhen (negb (reconciled =? 0))
    (on_metrics (inc_by queue_reconciled [] (inject_Z reconciled)));;;
  report_size.

(** ** The webhook *)

(** conclusion in {"success", "failure"}: a list or dict is not hashable. *)
Definition concluded (v : json) : outcome (option str) :=
  match v with
  | JStr s => Ok (if str_eqb s (u "success") || str_eqb s (u "failure") then Some s else None)
  | JArr _ | JObj _ => Raise (TypeError (u "unhashable type"))
  | _ => Ok None
  end.

(** The fields of a run the handler reads inside its second try. *)
Record RunFields := {
  rn_run_id : Z; rn_run_attempt : Z; rn_workflow_name : str; rn_head_branch : option str;
  rn_pull_request_number : option Z; rn_completed_at : Z; rn_html_url : str
}.
Definition parse_run (run : json) : MA RunFields :=
  do! id := Mlift (jindex run (u "id")) in
  do! run_id := Mlift (py_int id) in
  do! attempt := Mlift (jget_default run (u "run_attempt") (JInt 1)) in
  do! run_attempt := Mlift (py_int attempt) in
  Mwhen (run_attempt <? 1) (Mraise (ValueError []));;;
  do! name := Mlift (jget_default run (u "name") (JStr (u "unknown workflow"))) in
  do! branch := Mlift (jget run (u "head_branch")) in
  do! pull_request := Mlift (_pull_request_number run) in
  do! updated_at := Mlift (jget run (u "updated_at")) in
  do! completed_at := _workflow_run_completed_at updated_at in
  do! url := Mlift (jindex run (u "html_url")) in
  Mret {| rn_run_id := run_id; rn_run_attempt := run_attempt; rn_workflow_name := to_str name;
          rn_head_branch := jstr branch; rn_pull_request_number := pull_request;
          rn_completed_at := completed_at; rn_html_url := to_str url |}.

Definition INVALID_PAYLOAD : str := u "invalid workflow_run payload".
Definition invalid_payload {A} (detail : str) : MA A :=
  reject (u "invalid_payload") 400 detail.

(** except (json.JSONDecodeError, KeyError, TypeError) *)
Definition on_bad_json {A} (e : exn) : MA A :=
  match e with
  | JSONDecodeError | KeyError _ | TypeError _ => invalid_payload INVALID_PAYLOAD
  | e => Mraise e
  end.
(** except (KeyError, TypeError, ValueError) *)
Definition on_bad_run {A} (e : exn) : MA A :=
  if is_value_error e then invalid_payload INVALID_PAYLOAD else
  match e with
  | KeyError _ | TypeError _ => invalid_payload INVALID_PAYLOAD
  | e => Mraise e
  end.

Definition read_payload (body : list N) : outcome (json * json * json) :=
  let! payload := match json_loads body with inl v => Ok v | inr f => Raise (loads_error f) end in
  let! run := jindex payload (u "workflow_run") in
  let! repo := jindex payload (u "repository") in
  let! repository := jindex repo (u "full_name") in
  Ok (payload, run, repository).

Definition followup_of (repository conclusion : str) (f : RunFields) : FollowupRun := {|
  fo_repository := repository; fo_workflow_name := rn_workflow_name f;
  fo_head_branch := rn_head_branch f; fo_pull_request_number := rn_pull_request_number f;
  fo_run_id := rn_run_id f; fo_run_attempt := rn_run_attempt f;
  fo_html_url := rn_html_url f; fo_conclusion := conclusion;
  fo_completed_at := rn_completed_at f |}.

(** analysis_store.record_followup_run(...): the repository reaches the query as it is. *)
Definition record_followup (repository : json) (conclusion : str) (f : RunFields)
  : MA (option ResolutionMatch) :=
  match repository with
  | JStr r => do! t := now in on_db (record_followup_run t (followup_of r conclusion f))
  | v =>
    if bool_decide (rn_head_branch f = None) && bool_decide (rn_pull_request_number f = None)
    then Mret None
    else match driver_rejects v with Some m => Mraise (OtherException m) | None => Mret None end
  end.

Definition count_resolution (m : option ResolutionMatch) : MA unit :=
  match m with
  | Some m =>
    let outcome := resolution_value (rs_outcome (rm_resolution m)) in
    on_metrics (inc resolutions [outcome]);;;
    on_metrics (observe recovery_duration [outcome]
                  (seconds (rs_recovery_seconds (rm_resolution m))))
  | None => Mret tt
  end.

(** AnalysisRecord(...): pydantic checks the values taken from the payload as they are. *)
Definition VALIDATION_ERROR : exn := ValueError (u "validation error").
Definition new_record (delivery_id : str) (repository head_sha installation : json)
    (f : RunFields) : MA AnalysisRecord :=
  match repository, head_sha, pydantic_int installation with
  | JStr repository, JStr head_sha, Some installation_id =>
    do! created_at := now in
    do! updated_at := now in
    Mret {| ar_run_id := rn_run_id f; ar_delivery_id := delivery_id;
            ar_repository := repository; ar_workflow_name := rn_workflow_name f;
            ar_head_sha := head_sha; ar_html_url := rn_html_url f;
            ar_run_attempt := rn_run_attempt f; ar_head_branch := rn_head_branch f;
            ar_pull_request_number := rn_pull_request_number f;
            ar_run_completed_at := Some (rn_completed_at f);
            ar_installation_id := Some installation_id;
            ar_trust_level := UNVERIFIED; ar_baseline_sha := None; ar_status := QUEUED;
            ar_classification := None; ar_diagnosis := None; ar_related_files := [];
            ar_workflow_path := None; ar_execution_context := None; ar_model_name := None;
            ar_prompt_version := None; ar_feedback := None; ar_resolution := None;
            ar_error := None; ar_analysis_started_at := None;
            ar_analysis_completed_at := None; ar_duration_seconds := None;
            ar_queue_wait_seconds := None; ar_total_latency_seconds := None;
            ar_stage_history := []; ar_created_at := created_at; ar_updated_at := updated_at |}
  | _, _, _ => Mraise VALIDATION_ERROR
  end.

(** The request of a record that waits for its analysis. *)
Definition pending_request (existing : option AnalysisRecord) : option AnalysisRequest :=
  match existing with
  | Some r =>
    match ar_status r, ar_installation_id r with
    | QUEUED, Some i => Some {| aq_run_id := ar_run_id r; aq_repository := ar_repository r;
                                aq_installation_id := i; aq_head_sha := ar_head_sha r |}
    | _, _ => None
    end
  | None => None
  end.

Definition submit (request : option AnalysisRequest) : MA bool :=
  match request with
  | None => Mret false
  | Some r =>
    do! enqueued := Mtry (on_queue (enqueue r))
      (fun _ => reject (u "queue_error") 503 (u "analysis queue unavailable")) in
    report_size;;;
    Mret enqueued
  end.

(** The failed run: its row, then its place in the queue. *)
Definition accept_failure (delivery_id : str) (payload run repository : json) (f : RunFields)
  : MA Response :=
  do! installation := Mlift (jget_default payload (u "installation") (JObj [])) in
  do! installation_id := Mlift (jget installation (u "id")) in
  if jis_none installation_id
  then invalid_payload (u "payload has no GitHub App installation id")
  else
    do! head_sha := Mlift (jindex run (u "head_sha")) in
    do! record := new_record delivery_id repository head_sha installation_id f in
    do! created := on_db (create_if_absent record) in
    do! s := Mget in
    let existing := if created : bool then Some record else get (ar_run_id record) None (ap_db s) in
    do! enqueued := submit (pending_request existing) in
    count_webhook (if created then u "accepted"
                   else if enqueued then u "recovered" else u "duplicate");;;
    Mret {| re_status := 202; re_accepted := Some (created || enqueued);
            re_run_id := Some (ar_run_id record) |}.

Definition completed_run (delivery_id conclusion : str) (payload run repository : json)
  : MA Response :=
  do! f := Mtry (parse_run run) on_bad_run in
  do! resolution_match := record_followup repository conclusion f in
  count_resolution resolution_match;;;
  if str_eqb conclusion (u "success")
  then
    count_webhook (match resolution_match with
                   | Some _ => u "resolution_recorded" | None => u "ignored_run" end);;;
    Mret (empty_response 204)
  else accept_failure delivery_id payload run repository f.

Definition on_bad_signature (e : exn) : MA unit :=
  match e with
  | InvalidSignatureError m => reject (u "invalid_signature") 401 m
  | e => Mraise e
  end.

Definition github_webhook (body : list N) (event delivery signature : option str)
  : MA Response :=
  Mtry (Mlift (verify_github_signature body signature webhook_secret)) on_bad_signature;;;
  if negb (bool_decide (event = Some (u "workflow_run")))
  then count_webhook (u "ignored_event");;; Mret (empty_response 204)
  else match delivery with
  | None | Some [] => invalid_payload (u "missing X-GitHub-Delivery header")
  | Some delivery_id =>
    do! parsed := Mtry (Mlift (read_payload body)) on_bad_json in
    let '(payload, run, repository) := parsed in
    do! conclusion := Mlift (jget run (u "conclusion")) in
    do! action := Mlift (jget payload (u "action")) in
    do! concluded_as := Mlift (if jeq_str action (u "completed")
                               then concluded conclusion else Ok None) in
    match concluded_as with
    | None => count_webhook (u "ignored_run");;; Mret (empty_response 204)
    | Some c => completed_run delivery_id c payload run repository
    end
  end.
End main.
