(* ===== verification/MainFacts.v ===== *)
(** * What a webhook and a restart guarantee

    Only an authentic delivery of a concluded workflow run changes the database or the
    queue; a failed run is never answered 204, one that was acknowledged and waits is in
    the database and in the queue (a reused delivery id excepted), one answered with 503 is
    in the database; start-up queues whatever the database still
    has to analyse. *)

From Stdlib Require Import QArith Lqa.
From stdpp Require Import base list gmap strings numbers.
From S2P Require Import Prelude Calendar Models Json Loads Security Store StoreFacts Queue QueueFacts.
From S2P Require Import Metrics Main.

(** ** Computations that leave the database and the queue alone *)

Section inert.
Context {S : Type}.
Open Scope prog_scope.

Definition untouched (s s' : AppState S) : Prop :=
  ap_db s' = ap_db s /\ ap_queue s' = ap_queue s.
Definition inert {A} (m : M (AppState S) A) : Prop :=
  forall s r s', m s = (r, s') -> untouched s s'.

Lemma inert_ret {A} (a : A) : inert (Mret a).
Proof. by intros s r s' [= _ <-]. Qed.
Lemma inert_raise {A} e : inert (Mraise e : M _ A).
Proof. by intros s r s' [= _ <-]. Qed.
Lemma inert_lift {A} (o : outcome A) : inert (Mlift o).
Proof. by intros s r s' [= _ <-]. Qed.
Lemma inert_bind {A B} (m : M _ A) (k : A -> M _ B) :
  inert m -> (forall a, inert (k a)) -> inert (Mbind m k).
Proof.
  intros Hm Hk s r s'. unfold Mbind. destruct (m s) as [[a|e] s1] eqn:E.
  - intros H. apply Hm in E as [E1 E2]. apply Hk in H as [H1 H2].
    split; congruence.
  - intros [= _ <-]. by eapply Hm.
Qed.
Lemma inert_try {A} (m : M _ A) h : inert m -> (forall e, inert (h e)) -> inert (Mtry m h).
Proof.
  intros Hm Hh s r s'. unfold Mtry. destruct (m s) as [[a|e] s1] eqn:E.
  - intros [= _ <-]. by eapply Hm.
  - intros H. apply Hm in E as [E1 E2]. apply Hh in H as [H1 H2]. split; congruence.
Qed.
Lemma inert_when b m : inert m -> inert (Mwhen b m).
Proof. intros H. destruct b; [done|apply inert_ret]. Qed.
Lemma inert_metrics {A} (m : M Registry A) : inert (on_metrics m).
Proof. intros s r s'. unfold on_metrics. destruct (m _). by intros [= _ <-]. Qed.
Lemma inert_now time_at : inert (now time_at).
Proof. by intros s r s' [= _ <-]. Qed.
Lemma inert_count outcome : inert (count_webhook outcome).
Proof. apply inert_metrics. Qed.
Lemma inert_reject {A} outcome status detail : inert (reject (A := A) outcome status detail).
Proof. apply inert_bind; [apply inert_count|intros; apply inert_raise]. Qed.
Lemma inert_invalid {A} detail : inert (invalid_payload (A := A) detail).
Proof. apply inert_reject. Qed.
End inert.

Create HintDb inert.
#[export] Hint Resolve inert_ret inert_raise inert_lift inert_metrics inert_now inert_count
  inert_reject inert_invalid : inert.
Ltac inert_step :=
  first [ done | solve [auto with inert] | apply inert_bind | apply inert_try
        | apply inert_when | intros ? ].
Ltac inert := repeat inert_step.

Section facts.
Context {U : UnicodeDb} {DL : Dialect} {P : Parsing} {HM : Hmac} {S : Type}
  {AQ : AnalysisQueue S} {QC : QueueContract S AQ}.
Context (time_at : nat -> Z) (secret : str).
Open Scope prog_scope.
Abbreviation MA := (M (AppState S)).

Lemma inert_completed_at v : inert (S := S) (_workflow_run_completed_at time_at v).
Proof.
  destruct v; cbn; auto with inert. destruct (fromisoformat _) as [[t []]|]; auto with inert.
  destruct (in_datetime_range t); auto with inert.
Qed.
Hint Resolve inert_completed_at : inert.
Lemma inert_parse_run run : inert (S := S) (parse_run time_at run).
Proof. unfold parse_run. inert. Qed.
Lemma inert_bad_json {A} e : inert (S := S) (on_bad_json (A := A) e).
Proof. destruct e; cbn; auto with inert. Qed.
Lemma inert_bad_run {A} e : inert (S := S) (on_bad_run (A := A) e).
Proof. destruct e; cbn; auto with inert. Qed.
Lemma inert_bad_signature e : inert (S := S) (on_bad_signature e).
Proof. destruct e; cbn; auto with inert. Qed.

Lemma completed_action v : jeq_str v (u "completed") = true -> v = JStr (u "completed").
Proof. destruct v; cbn [jeq_str]; try done. by intros ->%str_eqb_eq. Qed.
Lemma concluded_Some v c : concluded v = Ok (Some c) ->
  v = JStr c /\ (c = u "success" \/ c = u "failure").
Proof.
  destruct v; cbn [concluded]; try done. intros [= H].
  destruct (str_eqb s (u "success")) eqn:E1; cbn [orb] in H.
  - injection H as <-. split; [done|]. left. by apply str_eqb_eq.
  - destruct (str_eqb s (u "failure")) eqn:E2; [|done]. injection H as <-.
    split; [done|]. right. by apply str_eqb_eq.
Qed.

(** The deliveries the handler acts upon. *)
Definition authentic (body : list N) (event delivery signature : option str)
    (d c : str) (payload run repository : json) : Prop :=
  signature = Some (expected_signature secret body) /\ event = Some (u "workflow_run")
  /\ delivery = Some d /\ d <> [] /\ read_payload body = Ok (payload, run, repository)
  /\ jget payload (u "action") = Ok (JStr (u "completed"))
  /\ jget run (u "conclusion") = Ok (JStr c) /\ (c = u "success" \/ c = u "failure").

(** Nothing happened, and the answer is neither 202 nor 503. *)
Definition refused (s s' : AppState S) (r : outcome Response) : Prop :=
  untouched s s' /\ (r = Ok (empty_response 204)
                     \/ exists e, r = Raise e /\ forall m, e <> HTTPException 503 m).

Lemma refused_count outcome s r s' :
  (count_webhook outcome;;; Mret (empty_response 204)) s = (r, s') -> refused s s' r.
Proof.
  intros H. split; [|left; by injection H as <-].
  revert H. apply inert_bind; auto with inert.
Qed.
Lemma refused_raise s e : (forall m, e <> HTTPException 503 m) -> refused s s (Raise e).
Proof. intros He. split; [done|right]. by exists e. Qed.
Lemma refused_reject {A} label status detail (s s' : AppState S) (r : outcome A) :
  status <> 503 -> reject label status detail s = (r, s') ->
  exists e, r = Raise e /\ untouched s s' /\ forall m, e <> HTTPException 503 m.
Proof.
  intros Hs H. exists (HTTPException status detail). split_and!.
  - by injection H as <-.
  - revert H. apply inert_reject.
  - congruence.
Qed.
Lemma read_payload_raises body e :
  read_payload body = Raise e -> forall m, e <> HTTPException 503 m.
Proof.
  unfold read_payload, jindex. destruct (json_loads body) as [v|[]]; cbn [obind];
    [|by intros [= <-]..].
  intros H m ->. revert H.
  repeat (case_match; cbn [obind] in *; try done).
Qed.

Lemma signature_raises body signature e :
  verify_github_signature body signature secret = Raise e ->
  exists m, e = InvalidSignatureError m \/ e = TypeError m.
Proof.
  unfold verify_github_signature, compare_digest.
  repeat (case_match; cbn [obind] in *; try done); intros [= <-]; eauto.
Qed.
Lemma concluded_raises b v e :
  (if b : bool then concluded v else Ok None) = Raise e -> forall m, e <> HTTPException 503 m.
Proof. destruct b, v; cbn [concluded]; try done; by intros [= <-]. Qed.
Lemma jget_raises v k e : jget v k = Raise e -> forall m, e <> HTTPException 503 m.
Proof. destruct v; cbn [jget]; try done; by intros [= <-]. Qed.

(** Either nothing happens, or the delivery is authentic and the handler goes on. *)
Lemma webhook_gate (Hd : hex_digests) body event delivery signature s r s' :
  github_webhook time_at secret body event delivery signature s = (r, s') ->
  refused s s' r
  \/ exists d c payload run repository,
       authentic body event delivery signature d c payload run repository
       /\ completed_run time_at d c payload run repository s = (r, s').
Proof.
  unfold github_webhook. unfold Mbind at 1, Mtry at 1, Mlift at 1.
  destruct (verify_github_signature body signature secret) as [[]|e] eqn:Es.
  2:{ intros H. left. apply signature_raises in Es as (m & [->| ->]); cbn [on_bad_signature] in H.
      - destruct (reject _ 401 m s) as [[[]|e] s1] eqn:E; [done|].
        apply refused_reject in E as (e' & [= <-] & Hu & Hne); [|done].
        injection H as <- <-. split; [done|right]. by exists e.
      - injection H as <- <-. by apply refused_raise. }
  apply (verify_signature_accepts Hd) in Es.
  case_bool_decide as Ee; cbn [negb]; [|intros H; left; by apply refused_count in H].
  destruct delivery as [[|c0 d]|];
    [intros H; left; apply refused_reject in H as (e & -> & Hu & Hne); [|done]; split; eauto| |
     intros H; left; apply refused_reject in H as (e & -> & Hu & Hne); [|done]; split; eauto].
  unfold Mbind at 1, Mtry at 1, Mlift at 1.
  destruct (read_payload body) as [[[payload run] repository]|e] eqn:Ep.
  2:{ intros H. left. pose proof (read_payload_raises _ _ Ep) as Hne.
      destruct (on_bad_json e s) as [[x|e'] s1] eqn:E.
      - destruct e; cbn [on_bad_json] in E; done.
      - injection H as <- <-. split; [by apply inert_bad_json in E|right].
        exists e'. split; [done|]. destruct e; cbn [on_bad_json] in E;
          try (injection E as <- _; done);
          by apply refused_reject in E as (? & [= <-] & _ & ?). }
  unfold Mbind at 1, Mlift at 1. destruct (jget run _) as [conclusion|e] eqn:Ec.
  2:{ intros [= <- <-]. left. apply refused_raise. by eapply jget_raises. }
  unfold Mbind at 1, Mlift at 1. destruct (jget payload _) as [action|e] eqn:Ea.
  2:{ intros [= <- <-]. left. apply refused_raise. by eapply jget_raises. }
  unfold Mbind at 1, Mlift at 1.
  destruct (if jeq_str action _ then _ else _) as [[c|]|e] eqn:Econ.
  - intros H. right. exists (c0 :: d), c, payload, run, repository. split; [|done].
    destruct (jeq_str action _) eqn:Eact; [|done]. apply completed_action in Eact as ->.
    apply concluded_Some in Econ as [-> Hc]. by split_and!.
  - intros H. left. by apply refused_count in H.
  - intros [= <- <-]. left. apply refused_raise. by eapply concluded_raises.
Qed.

(** An authentic delivery of a concluded run reaches the handler of completed runs. *)
Lemma webhook_authentic_run (Hd : hex_digests) body event delivery signature d c payload run
    repository s :
  authentic body event delivery signature d c payload run repository ->
  github_webhook time_at secret body event delivery signature s
  = completed_run time_at d c payload run repository s.
Proof.
  intros (Hsig & -> & -> & Hne & Hp & Hact & Hcon & Hc). unfold github_webhook.
  apply (verify_signature_accepts Hd) in Hsig. unfold Mbind at 1, Mtry at 1, Mlift at 1.
  rewrite Hsig. rewrite bool_decide_true by done. cbn [negb]. destruct d as [|c0 d]; [done|].
  unfold Mbind at 1, Mtry at 1, Mlift at 1. rewrite Hp. cbv beta iota.
  unfold Mbind at 1, Mlift at 1. rewrite Hcon. cbv beta iota.
  unfold Mbind at 1, Mlift at 1. rewrite Hact. cbv beta iota.
  unfold Mbind at 1, Mlift at 1. cbn [jeq_str]. rewrite str_eqb_refl. cbn [concluded].
  by destruct Hc as [-> | ->].
Qed.
End facts.
#[export] Hint Resolve inert_completed_at inert_parse_run inert_bad_json inert_bad_run
  inert_bad_signature : inert.

Section handler.
Context {U : UnicodeDb} {DL : Dialect} {P : Parsing} {HM : Hmac} {S : Type}
  {AQ : AnalysisQueue S} {QC : QueueContract S AQ}.
Context (time_at : nat -> Z) (secret : str).
Open Scope prog_scope.
Abbreviation MA := (M (AppState S)).

(** The run id of a payload. *)
Definition run_number (run : json) : option Z :=
  match jindex run (u "id") with
  | Ok v => match py_int v with Ok z => Some z | Raise _ => None end
  | Raise _ => None
  end.
Lemma parse_run_number run (s s' : AppState S) f :
  parse_run time_at run s = (Ok f, s') -> run_number run = Some (rn_run_id f).
Proof.
  unfold parse_run, run_number. unfold Mbind at 1, Mlift at 1.
  destruct (jindex run (u "id")) as [id|e]; [|done].
  unfold Mbind at 1, Mlift at 1. destruct (py_int id) as [z|e]; [|done].
  intros H. f_equal. repeat (apply Mbind_Ok in H as (? & ? & _ & H)). by injection H as <- _.
Qed.

(** ** Submitting a request *)

Lemma report_size_run (s s' : AppState S) p i o r :
  q_rel (ap_queue s) p i o -> report_size s = (r, s') ->
  ap_db s' = ap_db s /\ match r with
  | Ok _ => q_rel (ap_queue s') p i o
  | Raise e => connection_error e
  end.
Proof.
  intros Hq. unfold report_size, on_queue, Mbind. pose proof (size_law _ _ _ _ Hq) as Hs.
  destruct (queue_size (ap_queue s)) as [[n|e] q]; [|destruct Hs; by intros [= <- <-]].
  destruct Hs as [_ Hq']. by intros [= <- <-].
Qed.

Definition submitted (request : option AnalysisRequest) (p p' i : list QueueEnvelope)
    (o : list Z) (enqueued : bool) : Prop :=
  match request with
  | None => enqueued = false /\ p' = p
  | Some q => if enqueued then p' = p ++ [new_envelope q]
              else p' = p /\ aq_run_id q ∈ runs p ++ runs i ++ o
  end.
Lemma submitted_queued q p p' i o b :
  submitted (Some q) p p' i o b -> aq_run_id q ∈ runs p' ++ runs i ++ o.
Proof.
  cbn. destruct b; [intros ->|by intros [-> H]].
  unfold runs. rewrite map_app. rewrite !elem_of_app. left; right. by left.
Qed.

(** The queue could not be reached: the answer 503, or its error when the depth is read. *)
Definition unavailable (e : exn) : Prop :=
  connection_error e \/ exists m, e = HTTPException 503 m.
Lemma submit_run request (s s' : AppState S) p i o r :
  q_rel (ap_queue s) p i o -> submit request s = (r, s') ->
  ap_db s' = ap_db s /\ match r with
  | Ok b => exists p', q_rel (ap_queue s') p' i o /\ submitted request p p' i o b
  | Raise e => unavailable e /\ is_Some request
  end.
Proof.
  intros Hq. unfold submit. destruct request as [q|].
  2:{ intros [= <- <-]. split; [done|]. by exists p. }
  unfold Mbind at 1, Mtry, on_queue at 1. pose proof (enqueue_law q _ _ _ _ Hq) as He.
  destruct (enqueue q (ap_queue s)) as [[b|e] qs] eqn:Eq.
  - assert (exists p', q_rel qs p' i o /\ submitted (Some q) p p' i o b) as (p' & Hq' & Hs).
    { case_bool_decide; destruct He as [-> He]; eexists; by split. }
    unfold Mbind. destruct (report_size _) as [[[]|e] s1] eqn:Er;
      apply (report_size_run _ _ p' i o) in Er as [Ed Er]; try exact Hq'; intros [= <- <-];
      (split; [exact Ed|]); [by exists p'|]. split; [by left|eauto].
  - intros [= <- <-]. split; [done|]. split; [right; eauto|eauto].
Qed.

(** ** Records and rows that wait *)

Lemma queued_requests_In db k row req :
  db_analyses db !! k = Some row -> pr_status (an_progress row) = QUEUED ->
  request_of row = Some req -> In req (queued_requests db).
Proof.
  intros Hk Hs Hr. unfold queued_requests. apply list_elem_of_In, list_elem_of_omap.
  exists row. split; [|done]. rewrite py_sorted_perm. apply list_elem_of_In, List.filter_In.
  split.
  - unfold rows. apply in_map_iff. exists (k, row). split; [done|].
    by apply list_elem_of_In, elem_of_map_to_list.
  - rewrite bool_decide_true by done. cbn [andb]. apply bool_decide_eq_true. intros Hn.
    unfold request_of in Hr. by rewrite Hn in Hr.
Qed.
Lemma pending_row rec row req :
  ar_run_id rec = id_run_id (an_identity row) -> ar_repository rec = id_repository (an_identity row) ->
  ar_head_sha rec = id_head_sha (an_identity row) ->
  ar_installation_id rec = id_installation_id (an_identity row) ->
  ar_status rec = pr_status (an_progress row) ->
  pending_request (Some rec) = Some req ->
  pr_status (an_progress row) = QUEUED /\ request_of row = Some req.
Proof.
  unfold pending_request, request_of. intros -> -> -> -> ->.
  by destruct (pr_status _).
Qed.
Lemma pending_run rec req :
  pending_request (Some rec) = Some req -> aq_run_id req = ar_run_id rec.
Proof. cbn. repeat case_match; try done. by intros [= <-]. Qed.
Lemma get_pending run_id db rec req : get run_id None db = Some rec ->
  pending_request (Some rec) = Some req -> In req (queued_requests db).
Proof.
  unfold get. destruct (db_analyses db !! run_id) as [row|] eqn:E; [|done].
  intros [= <-] Hp. eapply pending_row in Hp as [Hs Hr]; try reflexivity.
  by eapply queued_requests_In.
Qed.
Lemma get_run_id run_id db rec : keys_ok db -> get run_id None db = Some rec ->
  ar_run_id rec = run_id /\ is_Some (db_analyses db !! run_id).
Proof.
  unfold get. destruct (db_analyses db !! run_id) as [row|] eqn:E; [|done].
  intros Hk [= <-]. split; [by apply Hk|eauto].
Qed.

(** ** The failed run *)

Lemma create_run r db res db' : create_if_absent r db = (res, db') ->
  (res = Ok true /\ db_analyses db !! ar_run_id r = None
   /\ db_analyses db' = <[ar_run_id r := row_of r]> (db_analyses db))
  \/ (res = Ok false /\ db' = db
      /\ (is_Some (db_analyses db !! ar_run_id r)
          \/ delivery_taken (ar_delivery_id r) (db_analyses db) = true)).
Proof.
  unfold create_if_absent, Mtry, Mbind, transaction, insert_analysis.
  destruct (db_analyses db !! ar_run_id r) eqn:E.
  - intros [= <- <-]. right. eauto.
  - destruct (delivery_taken _ _) eqn:Ed; intros [= <- <-]; [right|left]; by eauto.
Qed.

Lemma new_record_run d repository head_sha inst f (s s' : AppState S) r :
  new_record time_at d repository head_sha inst f s = (r, s') ->
  untouched s s' /\ match r with
  | Ok rec => ar_run_id rec = rn_run_id f /\ ar_delivery_id rec = d
              /\ ar_status rec = QUEUED /\ is_Some (ar_installation_id rec)
  | Raise e => ~ (exists name sha z, repository = JStr name /\ head_sha = JStr sha
                   /\ pydantic_int inst = Some z)
  end.
Proof.
  unfold new_record.
  destruct repository; try (intros [= <- <-]; split; [done|]; by intros (? & ? & ? & ? & _));
    destruct head_sha; try (intros [= <- <-]; split; [done|]; by intros (? & ? & ? & _ & ? & _));
    destruct (pydantic_int inst); intros [= <- <-]; (split; [done|]); [done|].
  by intros (? & ? & ? & _ & _ & ?).
Qed.

(** The row of the run waits for its analysis: the next start-up queues it. *)
Definition registered (run_id : Z) (db : Database) : Prop :=
  exists req, In req (queued_requests db) /\ aq_run_id req = run_id.
(** The run has a row, or -- the one case in which it has none -- GitHub's delivery id is
    that of another run's row. *)
Definition has_row (delivery_id : str) (run_id : Z) (db : Database) : Prop :=
  is_Some (db_analyses db !! run_id)
  \/ exists other row, other <> run_id /\ db_analyses db !! other = Some row
     /\ id_delivery_id (an_identity row) = delivery_id.

(** The answer to a failed run. *)
Definition answered (delivery_id : str) (run_id : Z) (p i : list QueueEnvelope) (o : list Z)
    (s' : AppState S) (r : outcome Response) : Prop :=
  match r with
  | Ok resp =>
    re_status resp = 202 /\ re_run_id resp = Some run_id /\
    exists accepted p', re_accepted resp = Some accepted /\ q_rel (ap_queue s') p' i o
    /\ has_row delivery_id run_id (ap_db s')
    /\ (registered run_id (ap_db s') -> run_id ∈ runs p' ++ runs i ++ o)
    /\ if accepted : bool then registered run_id (ap_db s') else p' = p
  | Raise e => unavailable e /\ registered run_id (ap_db s')
  end.

Lemma delivery_taken_row d db : delivery_taken d (db_analyses db) = true ->
  exists k row, db_analyses db !! k = Some row /\ id_delivery_id (an_identity row) = d.
Proof.
  unfold delivery_taken. intros ([k row] & Hin & Hd)%existsb_exists. apply str_eqb_eq in Hd.
  exists k, row. split; [|done]. by apply elem_of_map_to_list, list_elem_of_In.
Qed.
Lemma taken_has_row d run_id db :
  is_Some (db_analyses db !! run_id) \/ delivery_taken d (db_analyses db) = true ->
  has_row d run_id db.
Proof.
  intros [H|(k & row & Hk & Hd)%delivery_taken_row]; [by left|].
  destruct (decide (k = run_id)) as [->|Hne]; [left; eauto|right; eauto].
Qed.

Lemma existing_pending rec (created : bool) db req : keys_ok db ->
  (created = true -> db_analyses db !! ar_run_id rec = Some (row_of rec)) ->
  pending_request (if created then Some rec else get (ar_run_id rec) None db) = Some req ->
  In req (queued_requests db) /\ aq_run_id req = ar_run_id rec.
Proof.
  intros Hk Hc Hp. destruct created.
  - specialize (Hc eq_refl). split; [|by apply pending_run].
    apply (pending_row _ (row_of rec)) in Hp as [Hs Hr]; try done.
    by eapply queued_requests_In.
  - destruct (get _ None db) as [old|] eqn:Eg; [|done].
    split; [by eapply get_pending|]. apply get_run_id in Eg as [<- _]; [|done].
    by apply pending_run.
Qed.
(** A row that waits is found by [get]. *)
Lemma registered_pending run_id db : keys_ok db -> registered run_id db ->
  is_Some (pending_request (get run_id None db)).
Proof.
  intros Hk (req & Hin & Hid). unfold queued_requests in Hin.
  apply list_elem_of_In, list_elem_of_omap in Hin as (row & Hrow & Hr).
  rewrite py_sorted_perm in Hrow. apply list_elem_of_In, List.filter_In in Hrow as [Hrow Hw].
  unfold rows in Hrow. apply in_map_iff in Hrow as ([k row'] & Heq & Hm). cbn in Heq. subst row'.
  apply list_elem_of_In, elem_of_map_to_list in Hm.
  apply andb_true_iff in Hw as [Hst _]. apply bool_decide_eq_true in Hst.
  assert (Hrun : id_run_id (an_identity row) = run_id).
  { revert Hr. unfold request_of. destruct (id_installation_id _); [|done].
    intros [= <-]. exact Hid. }
  assert (k = run_id) as -> by (rewrite <- Hrun; symmetry; by apply Hk).
  unfold get. rewrite Hm. revert Hr. unfold request_of, pending_request. cbn. rewrite Hst.
  destruct (id_installation_id _); [eauto|done].
Qed.

(** From the insertion of the row on. *)
Definition place (rec : AnalysisRecord) : MA Response :=
  do! created := on_db (create_if_absent rec) in
  do! s := Mget in
  let existing := if created : bool then Some rec else get (ar_run_id rec) None (ap_db s) in
  do! enqueued := submit (pending_request existing) in
  count_webhook (if created then u "accepted"
                 else if enqueued then u "recovered" else u "duplicate");;;
  Mret {| re_status := 202; re_accepted := Some (created || enqueued);
          re_run_id := Some (ar_run_id rec) |}.

Lemma place_run rec (s s' : AppState S) p i o r :
  keys_ok (ap_db s) -> ar_status rec = QUEUED -> is_Some (ar_installation_id rec) ->
  q_rel (ap_queue s) p i o -> place rec s = (r, s') ->
  answered (ar_delivery_id rec) (ar_run_id rec) p i o s' r.
Proof.
  intros Hk Hst [inst Hinst] Hq. unfold place. unfold Mbind at 1, on_db at 1.
  destruct (create_if_absent rec (ap_db s)) as [res db] eqn:Ec.
  pose proof (step_keys_ok (OpCreate rec) (ap_db s) Hk) as Hk'.
  unfold step, run_op, ignore, Mbind in Hk'. rewrite Ec in Hk'.
  assert (exists b, res = Ok b) as [created ->].
  { apply create_run in Ec as [(-> & _)|(-> & _)]; eauto. }
  cbn [snd Mret] in Hk'. apply create_run in Ec.
  unfold Mbind at 1, Mget at 1. cbn [ap_db].
  assert (Hrow : has_row (ar_delivery_id rec) (ar_run_id rec) db).
  { destruct Ec as [(_ & _ & Hdb)|(_ & -> & H)]; [|by apply taken_has_row].
    left. rewrite Hdb, lookup_insert_eq. eauto. }
  assert (Hnew : created = true -> db_analyses db !! ar_run_id rec = Some (row_of rec)).
  { intros ->. destruct Ec as [(_ & _ & ->)|([=] & _)]. apply lookup_insert_eq. }
  set (req := pending_request _).
  assert (Hpend : registered (ar_run_id rec) db -> is_Some req).
  { intros Hreg. unfold req. destruct created; [|by apply registered_pending].
    cbn. rewrite Hst, Hinst. eauto. }
  assert (Hreq : forall q, req = Some q ->
    registered (ar_run_id rec) db /\ aq_run_id q = ar_run_id rec).
  { intros q Eq. apply (existing_pending rec created db q Hk' Hnew) in Eq as [Hin Hid].
    split; [by exists q|done]. }
  unfold Mbind at 1. destruct (submit req _) as [[b|e] s1] eqn:Es;
    eapply submit_run in Es as [Edb Es]; try exact Hq; cbn [ap_db] in Edb; intros [= <- <-].
  - destruct Es as (p' & Hq' & Hs). split; [done|]. split; [done|].
    exists (created || b), p'. cbn [ap_db]. rewrite Edb. split_and!; [done|done|done| |].
    + intros [q Eq]%Hpend. rewrite <- (proj2 (Hreq q Eq)). rewrite Eq in Hs.
      by eapply submitted_queued.
    + destruct req as [q|] eqn:Ereq.
      * destruct (created || b) eqn:Eb; [by apply (Hreq q)|].
        apply orb_false_iff in Eb as [_ ->]. apply Hs.
      * destruct Hs as [-> ->]. rewrite orb_false_r. destruct created; [|done].
        exfalso. unfold req in Ereq. cbn in Ereq. by rewrite Hst, Hinst in Ereq.
  - destruct Es as [Hb [q Eq] ]. split; [done|]. rewrite Edb. by apply (Hreq q).
Qed.

(** The payload of a failed run has the fields its row and its request need. *)
Definition complete (payload run repository : json) : Prop :=
  (exists name, repository = JStr name)
  /\ is_Some (run_number run)
  /\ (exists v n, jget_default run (u "run_attempt") (JInt 1) = Ok v /\ py_int v = Ok n /\ 1 <= n)
  /\ (forall text, jget run (u "updated_at") = Ok (JStr text) ->
       exists t, fromisoformat (replace_zulu text) = Some (t, true) /\ in_datetime_range t = true)
  /\ (exists v, jindex run (u "html_url") = Ok v)
  /\ (exists sha, jindex run (u "head_sha") = Ok (JStr sha))
  /\ exists installation id z, jget_default payload (u "installation") (JObj []) = Ok installation
       /\ jget installation (u "id") = Ok id /\ id <> JNull /\ pydantic_int id = Some z.

Lemma complete_parsed payload run repository (s : AppState S) :
  complete payload run repository -> exists f s', parse_run time_at run s = (Ok f, s').
Proof.
  intros (_ & [z Hz] & (v & n & Hv & Hn & Hle) & Hat & (url & Hurl) & _). revert Hz.
  unfold run_number, parse_run, Mbind, Mlift.
  destruct run as [| | | | | | |o]; try (by intros [=]). cbn [jget jget_default jget jindex] in *.
  destruct (dict_get str_eqb o (u "id")) as [id|]; [|done]. destruct (py_int id); [|done]. intros _.
  injection Hv as <-. rewrite Hn. destruct (Z.ltb_spec n 1); [lia|]. cbn [Mwhen Mret].
  unfold _pull_request_number. cbn [jget obind].
  destruct (default JNull (dict_get str_eqb o (u "pull_requests")));
    cbv beta iota;
    (destruct (default JNull (dict_get str_eqb o (u "updated_at"))) as [| | | | |text| |];
     [..|destruct (Hat text eq_refl) as (t & Ht & Hr);
         cbn [_workflow_run_completed_at]; rewrite Ht, Hr| |]; cbn [_workflow_run_completed_at];
     unfold now, Mret; rewrite Hurl; eauto).
Qed.

(** A failed run's payload that is not complete changes nothing in the queue. *)
Definition incomplete (payload run repository : json) (s s' : AppState S) (r : outcome Response)
  : Prop :=
  (exists e, r = Raise e) /\ ap_queue s' = ap_queue s /\ ~ complete payload run repository.

Lemma accept_failure_run d payload run repository f (s s' : AppState S) p i o r :
  keys_ok (ap_db s) -> q_rel (ap_queue s) p i o ->
  accept_failure time_at d payload run repository f s = (r, s') ->
  answered d (rn_run_id f) p i o s' r \/ incomplete payload run repository s s' r.
Proof.
  intros Hk Hq. unfold accept_failure. unfold Mbind at 1, Mlift at 1.
  destruct (jget_default payload _ _) as [inst|e] eqn:Ei.
  2:{ intros [= <- <-]. right. split_and!; [by eexists|done|].
      intros (_ & _ & _ & _ & _ & _ & inst & id & z & H & _). congruence. }
  unfold Mbind at 1, Mlift at 1. destruct (jget inst _) as [inst_id|e] eqn:Eid.
  2:{ intros [= <- <-]. right. split_and!; [by eexists|done|].
      intros (_ & _ & _ & _ & _ & _ & inst' & id & z & H & H' & _). congruence. }
  destruct (jis_none inst_id) eqn:Enone.
  { intros H. apply refused_reject in H as (e & -> & [_ Hu] & He); [|done]. right.
    split_and!; [by eexists|done|]. intros (_ & _ & _ & _ & _ & _ & inst' & id & z & H1 & H2 & H3 & _).
    apply H3. replace id with inst_id by congruence. by destruct inst_id. }
  unfold Mbind at 1, Mlift at 1. destruct (jindex run _) as [sha|e] eqn:Esha.
  2:{ intros [= <- <-]. right. split_and!; [by eexists|done|].
      intros (_ & _ & _ & _ & _ & (sha & H) & _). congruence. }
  unfold Mbind at 1. destruct (new_record _ _ _ _ _ _ s) as [[rec|e] s1] eqn:En;
    apply new_record_run in En as [[Edb Eq] En].
  - destruct En as (<- & <- & Hst & Hinst). left. revert H. apply place_run; rewrite ?Edb, ?Eq; done.
  - intros [= <- <-]. right. split_and!; [by eexists|done|].
    intros ((name & ->) & _ & _ & _ & _ & (sha' & H) & inst' & id & z & H1 & H2 & _ & H3). apply En.
    exists name, sha', z. split_and!; congruence.
Qed.

(** ** The whole handler *)

Lemma record_followup_ok repository c f (s s' : AppState S) r :
  record_followup time_at repository c f s = (r, s') -> keys_ok (ap_db s) ->
  ap_queue s' = ap_queue s /\ keys_ok (ap_db s')
  /\ forall e, r = Raise e -> forall name, repository <> JStr name.
Proof.
  intros H Hk. destruct repository as [| | | | |name| |]; cbn [record_followup] in H;
    try (revert H; case_match; [|destruct (driver_rejects _)];
         intros [= <- <-]; split_and!; try done; intros e [= <-]; done).
  unfold Mbind, now, on_db in H. cbn [ap_db] in H.
  set (fo := followup_of name c f) in *. set (t := time_at _) in *.
  pose proof (step_keys_ok (OpFollowup t fo) (ap_db s) Hk) as Hk'.
  unfold step, run_op, ignore, Mbind in Hk'.
  destruct (record_followup_run t fo (ap_db s)) as [res db] eqn:E. injection H as <- <-.
  split; [done|]. cbn [ap_db]. destruct res as [m|e]; cbn [snd Mret] in Hk'; [by split|].
  split; [done|]. exfalso. revert E. clear. unfold record_followup_run.
  repeat (case_match; try done). unfold transaction, Mbind, Mget, update_where.
  repeat (case_match; try done). all: simplify_eq; try done.
Qed.

Lemma failed_run_run d payload run repository (s s' : AppState S) p i o r :
  keys_ok (ap_db s) -> q_rel (ap_queue s) p i o ->
  completed_run time_at d (u "failure") payload run repository s = (r, s') ->
  (exists run_id, run_number run = Some run_id /\ answered d run_id p i o s' r)
  \/ incomplete payload run repository s s' r.
Proof.
  intros Hk Hq. unfold completed_run. unfold Mbind at 1, Mtry at 1.
  destruct (parse_run time_at run s) as [[f|e] s1] eqn:Ep.
  2:{ destruct (on_bad_run e s1) as [[x|e'] s2] eqn:Eb; [by destruct e|].
      intros [= <- <-]. right. apply inert_parse_run in Ep as Hu1.
      apply inert_bad_run in Eb as Hu2. split_and!; [by eexists| |].
      - destruct Hu1, Hu2. congruence.
      - intros Hc. destruct (complete_parsed _ _ _ s Hc) as (f & s3 & Hf). congruence. }
  pose proof (parse_run_number _ _ _ _ Ep) as Hn. apply inert_parse_run in Ep as [Edb1 Eq1].
  unfold Mbind at 1. destruct (record_followup _ _ _ _ s1) as [[m|e] s2] eqn:Ef;
    apply record_followup_ok in Ef as (Eq2 & Hk2 & He); try (by rewrite Edb1).
  2:{ intros [= <- <-]. right. split_and!; [by eexists|congruence|].
      intros ((name & ->) & _). by eapply He. }
  unfold Mbind at 1. destruct (count_resolution m s2) as [[[]|e] s3] eqn:Ec;
    [|by destruct m].
  assert (Hu : untouched s2 s3).
  { revert Ec. destruct m; [|by apply inert_ret].
    apply inert_bind; [apply inert_metrics|intros; apply inert_metrics]. }
  destruct Hu as [Edb3 Eq3]. cbn [str_eqb]. intros H.
  apply accept_failure_run with (p := p) (i := i) (o := o) in H;
    [|by rewrite Edb3|by rewrite Eq3, Eq2, Eq1].
  destruct H as [H|(He' & Hq' & Hc)]; [left; by exists (rn_run_id f)|right].
  split_and!; [done|congruence|done].
Qed.

(** ** Start-up *)

Definition reconciled (l added : list AnalysisRequest) (p i : list QueueEnvelope) (o : list Z)
    (q : S) : Prop :=
  added `sublist_of` l
  /\ q_rel q (p ++ map new_envelope added) i o
  /\ Forall (fun req => aq_run_id req ∈ runs (p ++ map new_envelope added) ++ runs i ++ o) l
  /\ Forall (fun req => aq_run_id req ∉ runs p ++ runs i ++ o) added.

Lemma queued_front x p a (rest : list Z) : x ∈ runs p ++ rest -> x ∈ runs (p ++ a) ++ rest.
Proof. rewrite runs_app, <- app_assoc, !elem_of_app. intros [H|H]; [by left|by right; right]. Qed.
Lemma queued_added q p a (rest : list Z) :
  aq_run_id q ∈ runs (p ++ new_envelope q :: a) ++ rest.
Proof. rewrite runs_app, <- app_assoc, elem_of_app. right. by left. Qed.

Lemma reconcile_each_run l n (s s' : AppState S) p i o r :
  q_rel (ap_queue s) p i o -> reconcile_each l n s = (r, s') ->
  ap_db s' = ap_db s /\ ap_metrics s' = ap_metrics s /\ match r with
  | Ok n' => exists added, reconciled l added p i o (ap_queue s')
                           /\ n' = n + Z.of_nat (length added)
  | Raise e => connection_error e
  end.
Proof.
  revert n s p. induction l as [|q l IH]; intros n s p Hq.
  - intros [= <- <-]. split_and!; [done..|]. exists []. unfold reconciled. cbn.
    rewrite app_nil_r. split_and!; try done; lia.
  - change (reconcile_each (q :: l) n) with
      (Mbind (on_queue (enqueue q)) (fun b : bool =>
         reconcile_each l (if b then n + 1 else n))).
    unfold Mbind, on_queue. pose proof (enqueue_law q _ _ _ _ Hq) as He.
    destruct (enqueue q (ap_queue s)) as [[b|e] qs]; [|destruct He; by intros [= <- <-]].
    case_bool_decide as Hin; destruct He as [-> Hq']; intros H;
      (eapply IH in H as (Hdb & Hm & H); [|exact Hq']); (split; [done|split; [done|]]);
      destruct r as [n'|e]; try done; destruct H as (added & (Hsub & Hrel & Hall & Hnew) & ->).
    + exists added. split; [|done]. split_and!; try done; [by constructor|]. constructor; [|done].
      by apply queued_front.
    + exists (q :: added). rewrite <- app_assoc in Hrel. cbn in Hrel. split; [|cbn; lia].
      split_and!; [by constructor|done| |].
      * rewrite <- app_assoc in Hall. constructor; [apply queued_added|exact Hall].
      * constructor; [done|]. eapply Forall_weaken; [exact Hnew|]. intros x Hx Hy. apply Hx.
        by apply queued_front.
Qed.

Lemma startup_run (s s' : AppState S) p i o r :
  q_rel (ap_queue s) p i o -> startup s = (r, s') ->
  ap_db s' = ap_db s /\ match r with
  | Ok _ => exists added, reconciled (queued_requests (ap_db s)) added p i o (ap_queue s')
      /\ (value_of queue_reconciled [] (ap_metrics s')
          == value_of queue_reconciled [] (ap_metrics s) + inject_Z (Z.of_nat (length added)))%Q
  | Raise e => connection_error e
  end.
Proof.
  intros Hq. unfold startup, reconcile_queued_analyses. unfold Mbind at 1, Mget, Mbind at 1.
  destruct (reconcile_each _ 0 s) as [[n|e] s1] eqn:Er;
    eapply reconcile_each_run in Er as (Hdb & Hm & Hr); try exact Hq; [|by intros [= <- <-]].
  destruct Hr as (added & Hrec & ->). unfold Mbind at 1.
  set (counted := Mwhen _ _).
  assert (Hc : exists reg, counted s1 = (Ok tt, Build_AppState (ap_db s1) reg (ap_queue s1) (ap_ticks s1))
    /\ (value_of queue_reconciled [] reg
        == value_of queue_reconciled [] (ap_metrics s1) + inject_Z (Z.of_nat (length added)))%Q).
  { unfold counted. destruct added as [|q added].
    - exists (ap_metrics s1). split; [by destruct s1|]. cbn. change (inject_Z (Z.of_nat 0)) with 0%Q. lra.
    - unfold Mwhen, on_metrics, inc_by. cbn [negb].
      assert (0 <= inject_Z (0 + Z.of_nat (length (q :: added))))%Q as ->%Qle_bool_iff.
      { change 0%Q with (inject_Z 0). rewrite <- Zle_Qle. cbn; lia. }
      destruct (Z.eqb_spec (0 + Z.of_nat (length (q :: added))) 0); [cbn in *; lia|].
      eexists. split; [reflexivity|]. rewrite value_of_app.
      cbn [value_of foldr sm_metric sm_labels sm_value].
      change (counts_for queue_reconciled [] _) with true. rewrite Z.add_0_l. lra. }
  destruct Hc as (reg & -> & Hv). unfold report_size, on_queue at 1, Mbind. cbn [ap_queue].
  destruct Hrec as (H1 & Hq1 & H2). pose proof (size_law _ _ _ _ Hq1) as Hs.
  destruct (queue_size (ap_queue s1)) as [[k|e] q]; [|destruct Hs; by intros [= <- <-]].
  destruct Hs as [_ Hq2]. intros [= <- <-]. split; [done|]. exists added.
  split; [exact (conj H1 (conj Hq2 H2))|]. cbn [ap_metrics]. rewrite value_of_app, Hv, Hm.
  cbn [value_of foldr]. change (counts_for queue_reconciled [] _) with false. cbn iota. lra.
Qed.
End handler.

(** C9: A delivery changes the database or the queue only if it carries the HMAC signature of
    its own body under the webhook secret, is a workflow_run event with a delivery id,
    decodes to a payload with a run and a repository, and reports a run that completed
    with success or failure; any other delivery leaves both exactly as they were. *)
Theorem webhook_authentic {U : UnicodeDb} {DL : Dialect} {P : Parsing} {HM : Hmac} {S : Type}
    {AQ : AnalysisQueue S} (Hd : hex_digests) (time_at : nat -> Z) (secret : str)
    (body : list N) (event delivery signature : option str) (s s' : AppState S)
    (r : outcome Response)
    (Hrun : github_webhook time_at secret body event delivery signature s = (r, s'))
    (Hchanged : ~ (ap_db s' = ap_db s /\ ap_queue s' = ap_queue s)) :
  exists d c payload run repository,
    authentic secret body event delivery signature d c payload run repository.
Proof.
  apply webhook_gate in Hrun as [[Hu _]|(d & c & payload & run & repository & Ha & _)]; [done| |done].
  by exists d, c, payload, run, repository.
Qed.

(** C3: An authentic delivery of a failed run -- signed over its own body, a workflow_run
    event with a delivery id, completed with conclusion failure -- is never answered 204.
    When its payload is complete it is answered 202 with the run's id: the run then has a
    row, unless GitHub's delivery id is already that of another run's row (the one case in
    which the run is dropped); a run whose row waits for its analysis is in the queue, and
    "accepted" means that it waits; not accepted, nothing was queued.  Or the queue cannot
    be reached, and the row waits in the database, where the next start-up finds it.  When
    the payload is not complete the delivery is refused with an exception and nothing is
    queued. *)
Theorem webhook_loses_nothing {U : UnicodeDb} {DL : Dialect} {P : Parsing} {HM : Hmac}
    {S : Type} {AQ : AnalysisQueue S} {QC : QueueContract S AQ} (Hd : hex_digests)
    (time_at : nat -> Z) (secret : str) (body : list N) (event delivery signature : option str)
    (s s' : AppState S) (p i : list QueueEnvelope) (o : list Z) (r : outcome Response)
    (d : str) (payload run repository : json)
    (Hkeys : keys_ok (ap_db s)) (Hq : q_rel (ap_queue s) p i o)
    (Ha : authentic secret body event delivery signature d (u "failure") payload run repository)
    (Hrun : github_webhook time_at secret body event delivery signature s = (r, s')) :
  match r with
  | Ok resp => re_status resp = 202 /\ exists run_id, run_number run = Some run_id
      /\ re_run_id resp = Some run_id /\ has_row d run_id (ap_db s')
      /\ exists accepted p', re_accepted resp = Some accepted /\ q_rel (ap_queue s') p' i o
         /\ (registered run_id (ap_db s') -> run_id ∈ runs p' ++ runs i ++ o)
         /\ if accepted : bool then registered run_id (ap_db s') else p' = p
  | Raise e =>
      (exists run_id, run_number run = Some run_id /\ registered run_id (ap_db s')
         /\ (connection_error e \/ exists m, e = HTTPException 503 m))
      \/ (~ complete payload run repository /\ ap_queue s' = ap_queue s)
  end.
Proof.
  rewrite (webhook_authentic_run time_at secret Hd _ _ _ _ _ _ _ _ _ _ Ha) in Hrun.
  destruct (failed_run_run _ _ _ _ _ _ _ _ _ _ _ Hkeys Hq Hrun)
    as [(run_id & Hn & H)|([e ->] & Hqs & Hc)]; [|by right].
  destruct r as [resp|e]; cbn [answered] in H.
  - destruct H as (Hst & Hid & accepted & p' & Hacc & Hq' & Hrow & Hreg & Hif).
    split; [done|]. exists run_id. split_and!; [done..|]. by exists accepted, p'.
  - left. destruct H as [He Hr]. by exists run_id.
Qed.

(** C22: Start-up reconciles the queue with the database.  When it succeeds the database is
    unchanged, every request that waits in it is in the queue, what it appended are exactly
    the waiting requests the queue did not know, in the order of their creation, and
    the reconciliation counter grew by their number; it fails only with a connection error. *)
Theorem startup_reconciles {S : Type} {AQ : AnalysisQueue S}
    {QC : QueueContract S AQ} (s s' : AppState S) (p i : list QueueEnvelope) (o : list Z)
    (r : outcome unit) (Hq : q_rel (ap_queue s) p i o) (Hrun : startup s = (r, s')) :
  ap_db s' = ap_db s /\ match r with
  | Ok _ => exists added,
      added `sublist_of` queued_requests (ap_db s)
      /\ q_rel (ap_queue s') (p ++ map new_envelope added) i o
      /\ Forall (fun req => aq_run_id req ∈ runs (p ++ map new_envelope added) ++ runs i ++ o)
           (queued_requests (ap_db s))
      /\ Forall (fun req => aq_run_id req ∉ runs p ++ runs i ++ o) added
      /\ (value_of queue_reconciled [] (ap_metrics s')
          == value_of queue_reconciled [] (ap_metrics s) + inject_Z (Z.of_nat (length added)))%Q
  | Raise e => connection_error e
  end.
Proof.
  eapply startup_run in Hrun as [Hdb H]; try exact Hq. split; [done|]. destruct r; [|done].
  destruct H as (added & (H1 & H2 & H3 & H4) & H5).
  exact (ex_intro _ added (conj H1 (conj H2 (conj H3 (conj H4 H5))))).
Qed.

(** ** A delivery on the in-memory queue *)

Definition sample_run_json : json := JObj
  [(u "id", JInt 7); (u "conclusion", JStr (u "failure")); (u "html_url", JStr (u "https://x"));
   (u "head_sha", JStr (u "abc")); (u "head_branch", JStr (u "main"));
   (u "updated_at", JStr (u "2026-01-01T00:00:00Z"))].
Definition sample_payload : json := JObj
  [(u "action", JStr (u "completed")); (u "workflow_run", sample_run_json);
   (u "repository", JObj [(u "full_name", JStr (u "o/r"))]);
   (u "installation", JObj [(u "id", JInt 5)])].
(** The bytes of a delivery. *)
Definition body_of (payload : json) : list N := dumps (fun _ => []) payload.
Definition sample_parsing : Parsing := {|
  pydantic_int := fun v => match v with JInt z => Some z | _ => None end;
  py_str := fun _ => u "None"; driver_rejects := fun _ => None |}.
Definition sample_hmac : Hmac := {| hmac_sha256_hex := fun _ _ => u "00ff" |}.
Definition sample_app : AppState MemoryQueue :=
  Build_AppState empty_database [] empty_memory 0.
Definition deliver : M (AppState MemoryQueue) Response :=
  @github_webhook ascii_db sqlite sample_parsing sample_hmac _ InMemoryAnalysisQueue
    (fun n => Z.of_nat n) (u "s") (body_of sample_payload) (Some (u "workflow_run")) (Some (u "d1"))
    (Some (u "sha256=00ff")).
Lemma empty_memory_rel : memory_rel empty_memory [] [] [].
Proof.
  unfold memory_rel. split_and!; try reflexivity; [apply NoDup_nil_2|].
  intros z. change (z ∈ (∅ : gset Z) <-> In z []). rewrite elem_of_empty. done.
Qed.

Lemma webhook_authentic_witness :
  exists d c payload run repository, @authentic sample_hmac (u "s")
    (body_of sample_payload)
    (Some (u "workflow_run")) (Some (u "d1")) (Some (u "sha256=00ff")) d c payload run repository.
Proof.
  destruct (deliver sample_app) as [r s'] eqn:Er.
  apply (@webhook_authentic ascii_db sqlite sample_parsing sample_hmac _ InMemoryAnalysisQueue
    (fun _ _ => eq_refl) (fun n => Z.of_nat n) (u "s") (body_of sample_payload)
    (Some (u "workflow_run")) (Some (u "d1")) (Some (u "sha256=00ff")) sample_app s' r Er).
  intros [_ H]. assert (Hq : mq_queue (ap_queue (snd (deliver sample_app))) = [])
    by (rewrite Er; cbn [snd]; rewrite H; reflexivity).
  vm_compute in Hq. discriminate Hq.
Defined.

Lemma sample_authentic : exists run repository,
  @authentic sample_hmac (u "s") (body_of sample_payload) (Some (u "workflow_run"))
    (Some (u "d1")) (Some (u "sha256=00ff")) (u "d1") (u "failure") sample_payload run repository.
Proof.
  do 2 eexists. unfold authentic.
  do 3 (split; [vm_compute; reflexivity|]). split; [discriminate|].
  do 3 (split; [vm_compute; reflexivity|]). by right.
Qed.
Lemma webhook_loses_nothing_witness :
  exists resp s', deliver sample_app = (Ok resp, s') /\ re_accepted resp = Some true
    /\ registered 7 (ap_db s') /\ exists p', memory_rel (ap_queue s') p' [] []
    /\ 7 ∈ runs p' ++ runs [] ++ [].
Proof.
  destruct sample_authentic as (run & repository & Ha).
  destruct (deliver sample_app) as [r s'] eqn:Er.
  pose proof (@webhook_loses_nothing ascii_db sqlite sample_parsing sample_hmac _
    InMemoryAnalysisQueue memory_contract (fun _ _ => eq_refl) (fun n => Z.of_nat n) (u "s")
    (body_of sample_payload) (Some (u "workflow_run")) (Some (u "d1")) (Some (u "sha256=00ff")) sample_app s' [] [] [] r
    (u "d1") sample_payload run repository
    empty_keys_ok empty_memory_rel Ha Er) as H.
  assert (Hr : r = Ok {| re_status := 202; re_accepted := Some true; re_run_id := Some 7 |})
    by (vm_compute in Er; injection Er as <- _; reflexivity).
  subst r. eexists. exists s'. split; [reflexivity|]. split; [reflexivity|].
  destruct H as (_ & run_id & _ & Hid & _ & accepted & p' & Hacc & Hq & Hin & H).
  injection Hid as <-. injection Hacc as <-. split; [exact H|]. exists p'.
  split; [exact Hq|exact (Hin H)].
Defined.

(** The queue lost what the database of two waiting analyses remembers. *)
Lemma startup_reconciles_witness :
  exists s' p', @startup _ InMemoryAnalysisQueue (Build_AppState sample_db [] empty_memory 0) = (Ok tt, s')
    /\ memory_rel (ap_queue s') p' [] [] /\ length p' = 2%nat.
Proof.
  destruct (@startup _ InMemoryAnalysisQueue (Build_AppState sample_db [] empty_memory 0)) as [r s'] eqn:Er.
  pose proof (@startup_reconciles _ InMemoryAnalysisQueue memory_contract
    (Build_AppState sample_db [] empty_memory 0) s' [] [] [] r empty_memory_rel Er) as [_ H].
  assert (Hr : r = Ok tt) by (vm_compute in Er; injection Er as <- _; reflexivity).
  subst r. destruct H as (added & _ & Hq & _). exists s'. eexists. split; [reflexivity|].
  split; [exact Hq|]. destruct Hq as [Hq _].
  assert (Hl : length (mq_queue (ap_queue s')) = 2%nat)
    by (vm_compute in Er; injection Er as <-; reflexivity).
  rewrite Hq in Hl. exact Hl.
Defined.

(** ** Two deliveries that are not answered as one would expect *)

Definition payload_of (run_id : Z) (installation : json) : json := JObj
  [(u "action", JStr (u "completed"));
   (u "workflow_run", JObj
     [(u "id", JInt run_id); (u "conclusion", JStr (u "failure")); (u "html_url", JStr (u "https://x"));
      (u "head_sha", JStr (u "abc")); (u "head_branch", JStr (u "main"));
      (u "updated_at", JStr (u "2026-01-01T00:00:00Z"))]);
   (u "repository", JObj [(u "full_name", JStr (u "o/r"))]);
   (u "installation", installation)].
Definition deliver_payload (payload : json) : M (AppState MemoryQueue) Response :=
  @github_webhook ascii_db sqlite sample_parsing sample_hmac _ InMemoryAnalysisQueue
    (fun n => Z.of_nat n) (u "s") (body_of payload)
    (Some (u "workflow_run")) (Some (u "d1")) (Some (u "sha256=00ff")).

(** A delivery id that another run used: 202, though run 8 has no row. *)
Example reused_delivery_has_no_row :
  let s := snd (deliver_payload (payload_of 7 (JObj [(u "id", JInt 5)])) sample_app) in
  let (r, s') := deliver_payload (payload_of 8 (JObj [(u "id", JInt 5)])) s in
  r = Ok {| re_status := 202; re_accepted := Some false; re_run_id := Some 8 |}
  /\ bool_decide (db_analyses (ap_db s') !! 8 = None) = true.
Proof. vm_compute. split; reflexivity. Qed.

(** An installation that is no object: an uncaught AttributeError, not a 400. *)
Example installation_text_escapes :
  exists msg, fst (deliver_payload (payload_of 7 (JStr (u "5"))) sample_app)
    = Raise (AttributeError msg).
Proof. eexists. vm_compute. reflexivity. Qed.
