(* ===== verification/Config.v ===== *)
(** * Settings (src/pipelens/config.py)

    The settings after pydantic's type checks, the secrets read from files, and the
    validator that runs last.  The file system is the class [SecretFiles]; urlsplit is
    written out (up to the checks of IP literals and of compatibility characters in the
    host). *)

From Stdlib Require Import QArith.
From stdpp Require Import base list strings numbers.
From S2P Require Import Prelude Text Models Json.

Set Default Proof Using "Type".

Definition _MAX_SECRET_FILE_BYTES : Z := 1024 * 1024.

(** ** Secret files *)

(** stat and open-fstat-read of a path; None is an OSError.  The program reads one byte
    more than it accepts, so that a longer file is told by the length. *)
Class SecretFiles := {
  stat_regular : str -> option bool;
  open_read : str -> option (bool * list N)
}.

Definition complaint {A} (parts : list str) : outcome A := Raise (ValueError (concat parts)).
Definition _read_secret_file `{SecretFiles} (path setting_name : str) : outcome str :=
  let unreadable := complaint [setting_name; u " must reference a readable file"] in
  let irregular := complaint [setting_name; u " must reference a regular file"] in
  match stat_regular path with
  | None => unreadable
  | Some false => irregular
  | Some true =>
    match open_read path with
    | None => unreadable
    | Some (false, _) => irregular
    | Some (true, bytes) =>
      if _MAX_SECRET_FILE_BYTES <? Z.of_nat (length bytes)
      then complaint [setting_name; u " must not exceed "; str_of_Z _MAX_SECRET_FILE_BYTES; u " bytes"]
      else
        match decode_utf8 bytes with
        | None => complaint [setting_name; u " must contain UTF-8 text"]
        | Some text =>
          match rstrip_chars [13; 10]%N text with
          | [] => complaint [setting_name; u " must not be empty"]
          | value => Ok value
          end
        end
    end
  end.

(** ** The settings *)

Inductive Environment := DEVELOPMENT | PRODUCTION.

Record Settings := {
  environment : Environment; webhook_secret : str;
  github_app_id : option str; github_private_key : option str; github_app_slug : option str;
  github_client_id : option str; github_client_secret : option str; public_url : str;
  auth_required : bool; session_secret : str; token_encryption_key : option str;
  token_encryption_fallback_keys : str; session_cookie_secure : bool; session_ttl_days : Z;
  database_path : str; database_url : option str; publish_checks : bool; max_log_bytes : Z;
  log_chunk_chars : Z; max_error_chunks : Z; error_context_lines : Z; llm_provider : str;
  openai_api_key : option str; openai_model : str; max_llm_input_chars : Z;
  llm_input_cost_per_million : Q; llm_output_cost_per_million : Q; queue_backend : str;
  redis_url : str; queue_name : str; worker_max_attempts : Z; worker_metrics_port : Z;
  worker_lease_seconds : Z; worker_heartbeat_seconds : Q; http_retry_max_attempts : Z;
  http_retry_base_seconds : Q; http_retry_max_seconds : Q; analysis_start_slo_seconds : Q;
  analysis_completion_slo_seconds : Q
}.

(** The values a file may provide. *)
Inductive SecretField :=
| WEBHOOK_SECRET | GITHUB_PRIVATE_KEY | GITHUB_CLIENT_SECRET | SESSION_SECRET
| TOKEN_ENCRYPTION_KEY | TOKEN_ENCRYPTION_FALLBACK_KEYS | OPENAI_API_KEY | DATABASE_URL
| REDIS_URL.
#[export] Instance SecretField_eq : EqDecision SecretField.
Proof. solve_decision. Defined.
Definition secret_file_fields : list SecretField :=
  [WEBHOOK_SECRET; GITHUB_PRIVATE_KEY; GITHUB_CLIENT_SECRET; SESSION_SECRET;
   TOKEN_ENCRYPTION_KEY; TOKEN_ENCRYPTION_FALLBACK_KEYS; OPENAI_API_KEY; DATABASE_URL; REDIS_URL].
(** "PIPELENS_" and the upper-case name *)
Definition setting_name (f : SecretField) : str :=
  u "PIPELENS_" ++ match f with
  | WEBHOOK_SECRET => u "WEBHOOK_SECRET" | GITHUB_PRIVATE_KEY => u "GITHUB_PRIVATE_KEY"
  | GITHUB_CLIENT_SECRET => u "GITHUB_CLIENT_SECRET" | SESSION_SECRET => u "SESSION_SECRET"
  | TOKEN_ENCRYPTION_KEY => u "TOKEN_ENCRYPTION_KEY"
  | TOKEN_ENCRYPTION_FALLBACK_KEYS => u "TOKEN_ENCRYPTION_FALLBACK_KEYS"
  | OPENAI_API_KEY => u "OPENAI_API_KEY" | DATABASE_URL => u "DATABASE_URL"
  | REDIS_URL => u "REDIS_URL"
  end.
Definition file_setting_name (f : SecretField) : str := setting_name f ++ u "_FILE".

Definition get_secret (f : SecretField) (s : Settings) : option str :=
  match f with
  | WEBHOOK_SECRET => Some (webhook_secret s) | GITHUB_PRIVATE_KEY => github_private_key s
  | GITHUB_CLIENT_SECRET => github_client_secret s | SESSION_SECRET => Some (session_secret s)
  | TOKEN_ENCRYPTION_KEY => token_encryption_key s
  | TOKEN_ENCRYPTION_FALLBACK_KEYS => Some (token_encryption_fallback_keys s)
  | OPENAI_API_KEY => openai_api_key s | DATABASE_URL => database_url s
  | REDIS_URL => Some (redis_url s)
  end.
(** setattr(self, value_name, value) *)
Definition set_secret (f : SecretField) (v : str) (s : Settings) : Settings := {|
  environment := environment s;
  webhook_secret := if decide (f = WEBHOOK_SECRET) then v else webhook_secret s;
  github_app_id := github_app_id s;
  github_private_key := if decide (f = GITHUB_PRIVATE_KEY) then Some v else github_private_key s;
  github_app_slug := github_app_slug s; github_client_id := github_client_id s;
  github_client_secret :=
    if decide (f = GITHUB_CLIENT_SECRET) then Some v else github_client_secret s;
  public_url := public_url s; auth_required := auth_required s;
  session_secret := if decide (f = SESSION_SECRET) then v else session_secret s;
  token_encryption_key :=
    if decide (f = TOKEN_ENCRYPTION_KEY) then Some v else token_encryption_key s;
  token_encryption_fallback_keys :=
    if decide (f = TOKEN_ENCRYPTION_FALLBACK_KEYS) then v else token_encryption_fallback_keys s;
  session_cookie_secure := session_cookie_secure s; session_ttl_days := session_ttl_days s;
  database_path := database_path s;
  database_url := if decide (f = DATABASE_URL) then Some v else database_url s;
  publish_checks := publish_checks s; max_log_bytes := max_log_bytes s;
  log_chunk_chars := log_chunk_chars s; max_error_chunks := max_error_chunks s;
  error_context_lines := error_context_lines s; llm_provider := llm_provider s;
  openai_api_key := if decide (f = OPENAI_API_KEY) then Some v else openai_api_key s;
  openai_model := openai_model s; max_llm_input_chars := max_llm_input_chars s;
  llm_input_cost_per_million := llm_input_cost_per_million s;
  llm_output_cost_per_million := llm_output_cost_per_million s;
  queue_backend := queue_backend s;
  redis_url := if decide (f = REDIS_URL) then v else redis_url s;
  queue_name := queue_name s; worker_max_attempts := worker_max_attempts s;
  worker_metrics_port := worker_metrics_port s; worker_lease_seconds := worker_lease_seconds s;
  worker_heartbeat_seconds := worker_heartbeat_seconds s;
  http_retry_max_attempts := http_retry_max_attempts s;
  http_retry_base_seconds := http_retry_base_seconds s;
  http_retry_max_seconds := http_retry_max_seconds s;
  analysis_start_slo_seconds := analysis_start_slo_seconds s;
  analysis_completion_slo_seconds := analysis_completion_slo_seconds s |}.

Definition nonempty (v : option str) : bool :=
  match v with Some (_ :: _) => true | _ => false end.

(** The values given as such ([given], the fields in model_fields_set) and the paths of the
    files ([files]). *)
Record SecretSources := { given : list SecretField; files : SecretField -> option str }.
Definition resolve_secret `{SecretFiles} (src : SecretSources) (f : SecretField) (s : Settings)
  : outcome Settings :=
  match files src f with
  | None => Ok s
  | Some path =>
    if bool_decide (f ∈ given src) && nonempty (get_secret f s)
    then complaint [setting_name f; u " and "; file_setting_name f; u " conflict"]
    else let! value := _read_secret_file path (file_setting_name f) in Ok (set_secret f value s)
  end.
Fixpoint resolve_secrets `{SecretFiles} (src : SecretSources) (fs : list SecretField)
    (s : Settings) : outcome Settings :=
  match fs with
  | [] => Ok s
  | f :: fs => let! s := resolve_secret src f s in resolve_secrets src fs s
  end.

(** ** URLs (urllib.parse.urlparse) *)

Record ParsedUrl := {
  ul_scheme : str; ul_netloc : str; ul_path : str; ul_params : str; ul_query : str;
  ul_fragment : str }.

(** The characters before the first one that satisfies [p], and the rest. *)
Fixpoint break (p : N -> bool) (s : str) : str * str :=
  match s with
  | [] => ([], [])
  | c :: r => if p c then ([], s) else let (a, b) := break p r in (c :: a, b)
  end.
Definition scheme_char (c : N) : bool :=
  ascii_upper c || ascii_lower c || ascii_digit c || in_chars (u "+-.") c.
Definition split_scheme (url : str) : str * str :=
  let (before, rest) := break (N.eqb 58) url in
  match before, rest with
  | c :: _, _ :: after =>
    if (ascii_upper c || ascii_lower c) && forallb scheme_char before
    then (map lower_char before, after) else ([], url)
  | _, _ => ([], url)
  end.
(** s.split(c, 1), when c occurs *)
Definition cut (c : N) (s : str) : str * str :=
  let (a, b) := break (N.eqb c) s in (a, tail b).
Definition uses_params (scheme : str) : bool :=
  existsb (str_eqb scheme) (map u [""; "ftp"; "hdl"; "prospero"; "http"; "imap"; "https"; "shttp";
    "rtsp"; "rtsps"; "rtspu"; "sip"; "sips"; "mms"; "sftp"; "tel"]%string).
(** The parameters of the last path segment. *)
Definition split_params (path : str) : str * str :=
  let last := rev (fst (break (N.eqb 47) (rev path))) in
  let before := take (length path - length last) path in
  let (a, b) := break (N.eqb 59) last in
  (before ++ a, tail b).
Definition urlparse (url : str) : outcome ParsedUrl :=
  let url := drop_while (fun c => (c <=? 32)%N) url in
  let url := List.filter (fun c => negb (in_chars [9; 13; 10]%N c)) url in
  let (scheme, url) := split_scheme url in
  let (netloc, url) :=
    if starts_with (u "//") url then break (in_chars (u "/?#")) (drop 2 url) else ([], url) in
  if negb (Bool.eqb (contains (u "[") netloc) (contains (u "]") netloc))
  then Raise (ValueError (u "Invalid IPv6 URL"))
  else
    let (url, fragment) := cut 35 url in
    let (path, query) := cut 63 url in
    let (path, params) := if uses_params scheme then split_params path else (path, []) in
    Ok {| ul_scheme := scheme; ul_netloc := netloc; ul_path := path; ul_params := params;
          ul_query := query; ul_fragment := fragment |}.
(** url.username or url.password *)
Definition has_credentials (p : ParsedUrl) : bool :=
  if contains (u "@") (ul_netloc p) then
    let userinfo := rev (tail (snd (break (N.eqb 64) (rev (ul_netloc p))))) in
    let (username, password) := cut 58 userinfo in
    negb (str_eqb username []) || negb (str_eqb password [])
  else false.

(** ** The validator *)

Definition blank (s : str) : bool := str_eqb (strip s) [].
Definition require (b : bool) (msg : str) (k : outcome Settings) : outcome Settings :=
  if b then k else Raise (ValueError msg).

Section validation.
Context {U : UnicodeDb}.
(** str.isdigit of a character beyond ASCII *)
Context (uni_isdigit : N -> bool).

Definition isdigit (s : str) : bool :=
  negb (str_eqb s []) && forallb (fun c => if is_ascii c then ascii_digit c else uni_isdigit c) s.
Definition positive_integer (s : str) : outcome bool :=
  if isdigit s then
    match int_of_str s with
    | Some n => Ok (1 <=? n)
    | None => Raise (ValueError (u "invalid literal for int()"))
    end
  else Ok false.

Definition production_github_settings : list (str * (Settings -> option str)) :=
  [(u "GITHUB_APP_ID", github_app_id); (u "GITHUB_PRIVATE_KEY", github_private_key);
   (u "GITHUB_APP_SLUG", github_app_slug); (u "GITHUB_CLIENT_ID", github_client_id);
   (u "GITHUB_CLIENT_SECRET", github_client_secret)].
Definition missing_github_settings (s : Settings) : list str :=
  map (fun kv => u "PIPELENS_" ++ fst kv)
    (List.filter (fun kv => match snd kv s with Some v => blank v | None => true end)
       production_github_settings).

Definition empty_text (s : str) : bool := str_eqb s [].
Definition one_of (s : str) (options : list str) : bool := existsb (str_eqb s) options.

(** if self.environment == "production": ... *)
Definition check_production (s : Settings) : outcome Settings :=
  let! url := urlparse (public_url s) in
  require (str_eqb (ul_scheme url) (u "https") && negb (empty_text (ul_netloc url)))
    (u "production public URL must use HTTPS") (
  require (negb (has_credentials url)) (u "production public URL must not contain credentials") (
  require (one_of (ul_path url) [[]; u "/"] && empty_text (ul_params url) && empty_text (ul_query url))
    (u "production public URL must be an origin without path or query") (
  require (empty_text (ul_fragment url)) (u "production public URL must not contain a fragment") (
  require (auth_required s) (u "production authentication must be required") (
  require (session_cookie_secure s) (u "production session cookies must be secure") (
  require (negb (length (webhook_secret s) <? 32)%nat)
    (u "production webhook secret must be at least 32 characters") (
  require (negb (length (session_secret s) <? 32)%nat)
    (u "production session secret must be at least 32 characters") (
  require (nonempty (token_encryption_key s))
    (u "production token encryption key must be configured") (
  require (match missing_github_settings s with [] => true | _ => false end)
    (u "production GitHub App settings must be configured: "
     ++ str_join (u ", ") (missing_github_settings s)) (
  let! app_id := match github_app_id s with Some i => positive_integer i | None => Ok false end in
  require app_id (u "production GitHub App ID must be a positive integer") (
  match database_url s with
  | Some ((_ :: _) as db) =>
    let! db := urlparse db in
    require (str_eqb (ul_scheme db) (u "postgresql+psycopg") && negb (empty_text (ul_netloc db)))
      (u "production database URL must use postgresql+psycopg") (
    require (str_eqb (queue_backend s) (u "redis")) (u "production queue backend must be redis") (
    let! redis := urlparse (redis_url s) in
    require (one_of (ul_scheme redis) [u "redis"; u "rediss"] && negb (empty_text (ul_netloc redis)))
      (u "production Redis URL must use redis or rediss") (Ok s)))
  | _ => Raise (ValueError (u "production PostgreSQL URL must be configured"))
  end))))))))))).

Definition resolve_secrets_and_validate `{SecretFiles} (src : SecretSources) (s : Settings)
  : outcome Settings :=
  let! s := resolve_secrets src secret_file_fields s in
  require (negb (worker_lease_seconds s <? 1)) (u "worker lease must be at least one second") (
  require (Qltb 0 (worker_heartbeat_seconds s)
           && Qltb (worker_heartbeat_seconds s) (inject_Z (worker_lease_seconds s)))
    (u "worker heartbeat must be positive and shorter than the lease") (
  require (Qltb 0 (analysis_start_slo_seconds s) && Qltb 0 (analysis_completion_slo_seconds s))
    (u "analysis SLO thresholds must be positive") (
  match environment s with
  | PRODUCTION => check_production s
  | DEVELOPMENT => Ok s
  end))).
End validation.

(** ** Derived values *)

Definition resolved_database_url (s : Settings) : str :=
  match database_url s with
  | Some (c :: url) => c :: url
  | _ => u "sqlite:///" ++ database_path s
  end.

(** The key derived from the session secret: urlsafe_b64encode(sha256(secret)). *)
Class KeyDerivation := { derived_key : str -> str }.
Definition token_encryption_key_ring `{KeyDerivation} (s : Settings) : list str :=
  let primary := match token_encryption_key s with
                 | Some (c :: k) => c :: k
                 | _ => derived_key (session_secret s)
                 end in
  let fallback := List.filter (fun k => negb (empty_text k))
                    (map strip (split_char 44 (token_encryption_fallback_keys s))) in
  fromkeys (primary :: fallback).
