(* ===== verification/ConfigFacts.v ===== *)
(** * What the settings validator accepts

    [resolve_secrets] leaves everything but the secrets alone and gives each secret its
    own source; the validator accepts exactly the settings that meet [worker_bounds] and,
    in production, [production_ready]. *)

From Stdlib Require Import QArith.
From stdpp Require Import base list strings numbers.
From S2P Require Import Prelude Text Models Json Config.

(** ** Reading and writing the secrets *)

(** The settings without their secrets. *)
Definition erase (s : Settings) : Settings :=
  foldr (fun f s => set_secret f [] s) s secret_file_fields.
#[local] Arguments erase : simpl never.

Lemma all_secret_fields (f : SecretField) : f ∈ secret_file_fields.
Proof. apply (bool_decide_unpack _). destruct f; vm_compute; exact I. Qed.
Lemma secret_fields_distinct : NoDup secret_file_fields.
Proof. apply (bool_decide_unpack _). vm_compute. exact I. Qed.
Lemma get_set_same f v s : get_secret f (set_secret f v s) = Some v.
Proof. destruct f; reflexivity. Qed.
Lemma get_set_other f g v s : f <> g -> get_secret f (set_secret g v s) = get_secret f s.
Proof. destruct f, g; first [reflexivity | congruence]. Qed.
Lemma erase_set f v s : erase (set_secret f v s) = erase s.
Proof. destruct f, s; reflexivity. Qed.

Lemma settings_ext s s' :
  erase s = erase s' -> (forall f, get_secret f s = get_secret f s') -> s = s'.
Proof.
  intros He Hg.
  pose proof (Hg WEBHOOK_SECRET) as H1; pose proof (Hg GITHUB_PRIVATE_KEY) as H2;
  pose proof (Hg GITHUB_CLIENT_SECRET) as H3; pose proof (Hg SESSION_SECRET) as H4;
  pose proof (Hg TOKEN_ENCRYPTION_KEY) as H5; pose proof (Hg TOKEN_ENCRYPTION_FALLBACK_KEYS) as H6;
  pose proof (Hg OPENAI_API_KEY) as H7; pose proof (Hg DATABASE_URL) as H8;
  pose proof (Hg REDIS_URL) as H9.
  destruct s, s'; vm_compute in He; cbn in H1, H2, H3, H4, H5, H6, H7, H8, H9.
  injection He; injection H1; injection H4; injection H6; injection H9; intros; subst; reflexivity.
Qed.

(** A file's text is accepted when the file is a regular one of at most 1 MiB of UTF-8
    that holds more than line ends; the line ends at its end are cut. *)
Lemma read_secret_file_spec `{SecretFiles} path name v :
  _read_secret_file path name = Ok v <->
  stat_regular path = Some true /\
  exists bytes text, open_read path = Some (true, bytes)
    /\ Z.of_nat (length bytes) <= _MAX_SECRET_FILE_BYTES
    /\ decode_utf8 bytes = Some text /\ v = rstrip_chars [13; 10]%N text /\ v <> [].
Proof.
  unfold _read_secret_file, complaint. split.
  - intros E. repeat case_match; simplify_eq; split; auto; eexists _, _; split_and!; eauto; lia.
  - intros (-> & bytes & text & -> & Hl & -> & -> & Hn).
    replace (_ <? _) with false by lia. by destruct (rstrip_chars _ _).
Qed.

(** Where the value of [f] comes from: the file, when one is named and no other value was
    given, and the settings otherwise. *)
Definition field_resolved `{SecretFiles} (src : SecretSources) (s s' : Settings)
    (f : SecretField) : Prop :=
  match files src f with
  | None => get_secret f s' = get_secret f s
  | Some path =>
    ~ (f ∈ given src /\ nonempty (get_secret f s) = true)
    /\ exists v, _read_secret_file path (file_setting_name f) = Ok v /\ get_secret f s' = Some v
  end.

Lemma resolve_secret_spec `{SecretFiles} src f s s' :
  resolve_secret src f s = Ok s' <->
  field_resolved src s s' f /\ (forall g, g <> f -> get_secret g s' = get_secret g s)
  /\ erase s' = erase s.
Proof.
  unfold resolve_secret, field_resolved. destruct (files src f) as [path|].
  - destruct (_ && _) eqn:Hc.
    + apply andb_true_iff in Hc as [Hc Hn]. apply bool_decide_eq_true in Hc. split; [done|].
      intros ((Hno & _) & _). by destruct Hno.
    + assert (~ (f ∈ given src /\ nonempty (get_secret f s) = true)) as Hno.
      { intros [Hg Hn]. rewrite Hn, andb_true_r in Hc. by apply bool_decide_eq_false in Hc. }
      destruct (_read_secret_file _ _) as [v|e]; cbn; split.
      * intros [= <-]. split; [split; [done|eauto using get_set_same]|].
        split; [eauto using get_set_other|apply erase_set].
      * intros ((_ & w & [= <-] & Hv) & Ho & He). f_equal. apply settings_ext.
        { by rewrite erase_set, He. }
        intros g. destruct (decide (g = f)) as [->|Hne];
          [by rewrite get_set_same | by rewrite get_set_other, Ho].
      * done.
      * by intros ((_ & w & Hv & _) & _).
  - split; [intros [= ->]; auto|]. intros (Hf & Ho & He). f_equal. apply settings_ext; [done|].
    intros g. destruct (decide (g = f)) as [->|]; [done|symmetry; auto].
Qed.

Lemma resolve_secrets_spec `{SecretFiles} src fs s s' :
  NoDup fs ->
  resolve_secrets src fs s = Ok s' <->
  (forall f, f ∈ fs -> field_resolved src s s' f)
  /\ (forall f, f ∉ fs -> get_secret f s' = get_secret f s) /\ erase s' = erase s.
Proof.
  intros Hnd. revert s. induction Hnd as [|f fs Hf Hnd IH]; intros s; cbn.
  - split; [intros [= ->]; split_and!; [intros ? []%elem_of_nil|done..]|].
    intros (_ & Ho & He). f_equal. symmetry. apply settings_ext; [done|]. intros g. apply Ho, not_elem_of_nil.
  - split.
    + destruct (resolve_secret src f s) as [t|] eqn:E; cbn; [|done]. intros Hr.
      apply resolve_secret_spec in E as (E1 & E2 & E3). apply IH in Hr as (R1 & R2 & R3).
      split_and!; [|intros g [Hg Hgs]%not_elem_of_cons; rewrite R2; auto|congruence]. intros g [->|Hg]%elem_of_cons.
      * unfold field_resolved in *. by rewrite (R2 _ Hf).
      * assert (g <> f) by (intros ->; done). specialize (R1 g Hg).
        unfold field_resolved in *. by rewrite <-E2.
    + intros (R1 & R2 & R3).
      pose (t := match get_secret f s' with Some v => if files src f is Some _ then set_secret f v s else s | None => s end).
      assert (get_secret f t = get_secret f s') as Ht.
      { unfold t. pose proof (R1 f (list_elem_of_here _ _)) as Hr. unfold field_resolved in Hr.
        destruct (files src f); [destruct Hr as (_ & v & _ & ->); by rewrite get_set_same|].
        by destruct (get_secret f s'). }
      assert (forall g, g <> f -> get_secret g t = get_secret g s) as Hto.
      { intros g Hg. unfold t. destruct (get_secret f s'), (files src f); auto using get_set_other. }
      assert (erase t = erase s) as Hte.
      { unfold t. destruct (get_secret f s'), (files src f); auto using erase_set. }
      assert (resolve_secret src f s = Ok t) as ->.
      { apply resolve_secret_spec. split_and!; [|done..].
        pose proof (R1 f (list_elem_of_here _ _)) as Hr. unfold field_resolved in *. by rewrite Ht. }
      cbn. apply IH. split_and!; [| |congruence].
      * intros g Hg. assert (g <> f) by (intros ->; done).
        pose proof (R1 g (list_elem_of_further _ _ _ Hg)) as Hr.
        unfold field_resolved in *. by rewrite Hto.
      * intros g Hg. destruct (decide (g = f)) as [->|]; [done|]. rewrite Hto by done. by apply R2, not_elem_of_cons.
Qed.

(** ** The validator *)

Definition worker_bounds (s : Settings) : Prop :=
  1 <= worker_lease_seconds s
  /\ (0 < worker_heartbeat_seconds s)%Q
  /\ (worker_heartbeat_seconds s < inject_Z (worker_lease_seconds s))%Q
  /\ (0 < analysis_start_slo_seconds s)%Q /\ (0 < analysis_completion_slo_seconds s)%Q.

Section production.
Context {U : UnicodeDb} (uni_isdigit : N -> bool).

(** An https origin: a host, and neither credentials, path, parameters, query nor
    fragment. *)
Definition https_origin (url : str) : Prop :=
  exists p, urlparse url = Ok p
    /\ ul_scheme p = u "https" /\ ul_netloc p <> [] /\ has_credentials p = false
    /\ (ul_path p = [] \/ ul_path p = u "/")
    /\ ul_params p = [] /\ ul_query p = [] /\ ul_fragment p = [].
Definition service_url (schemes : list str) (url : str) : Prop :=
  exists p, urlparse url = Ok p /\ ul_scheme p ∈ schemes /\ ul_netloc p <> [].
Definition text_present (v : option str) : Prop := exists t, v = Some t /\ blank t = false.
Definition positive_number (v : option str) : Prop :=
  exists t n, v = Some t /\ isdigit uni_isdigit t = true /\ int_of_str t = Some n /\ 1 <= n.

Record production_ready (s : Settings) : Prop := {
  pr_public_url : https_origin (public_url s);
  pr_auth : auth_required s = true;
  pr_cookies : session_cookie_secure s = true;
  pr_webhook_secret : (32 <= length (webhook_secret s))%nat;
  pr_session_secret : (32 <= length (session_secret s))%nat;
  pr_encryption_key : nonempty (token_encryption_key s) = true;
  pr_private_key : text_present (github_private_key s);
  pr_slug : text_present (github_app_slug s);
  pr_client_id : text_present (github_client_id s);
  pr_client_secret : text_present (github_client_secret s);
  pr_app_id_text : text_present (github_app_id s);
  pr_app_id : positive_number (github_app_id s);
  pr_database : nonempty (database_url s) = true
                /\ service_url [u "postgresql+psycopg"] (resolved_database_url s);
  pr_queue : queue_backend s = u "redis";
  pr_redis : service_url [u "redis"; u "rediss"] (redis_url s)
}.

Lemma require_Ok b msg k s : require b msg k = Ok s <-> b = true /\ k = Ok s.
Proof. unfold require. destruct b; split; [auto|by intros [_ ?]|done|by intros [? _]]. Qed.
Lemma empty_text_spec t : empty_text t = true <-> t = [].
Proof. apply str_eqb_eq. Qed.
Lemma filled_text_spec t : negb (empty_text t) = true <-> t <> [].
Proof. rewrite negb_true_iff, <-not_true_iff_false, empty_text_spec. done. Qed.
Lemma one_of_spec t l : one_of t l = true <-> t ∈ l.
Proof.
  unfold one_of. rewrite existsb_exists, list_elem_of_In. split.
  - by intros (? & Hin & ->%str_eqb_eq).
  - intros Hin. exists t. split; [done|by apply str_eqb_eq].
Qed.
Lemma long_enough {A} (l : list A) n : negb (length l <? n)%nat = true <-> (n <= length l)%nat.
Proof. rewrite negb_true_iff, Nat.ltb_ge. done. Qed.

Lemma missing_github_settings_spec s :
  missing_github_settings s = [] <->
  text_present (github_app_id s) /\ text_present (github_private_key s)
  /\ text_present (github_app_slug s) /\ text_present (github_client_id s)
  /\ text_present (github_client_secret s).
Proof.
  assert (forall v, match v with Some t => blank t | None => true end = false <-> text_present v) as Hv.
  { intros [t|]; unfold text_present; split; [eauto|by intros (? & [= <-] & ?)|done|by intros (? & ? & _)]. }
  rewrite <-!Hv. unfold missing_github_settings, production_github_settings. cbn [List.filter snd].
  generalize (match github_app_id s with Some v => blank v | None => true end),
    (match github_private_key s with Some v => blank v | None => true end),
    (match github_app_slug s with Some v => blank v | None => true end),
    (match github_client_id s with Some v => blank v | None => true end),
    (match github_client_secret s with Some v => blank v | None => true end).
  intros [] [] [] [] []; split; first [done | by intros (? & ? & ? & ? & ?)].
Qed.

Lemma positive_integer_spec v :
  (match v with Some i => positive_integer uni_isdigit i | None => Ok false end) = Ok true
  <-> positive_number v.
Proof.
  unfold positive_number, positive_integer. split.
  - intros E. repeat case_match; simplify_eq. eexists _, _. split_and!; eauto. lia.
  - intros (t & n & -> & -> & -> & Hn). f_equal. lia.
Qed.

Lemma boolean_conditions s :
  production_ready s <->
  https_origin (public_url s)
  /\ (auth_required s = true /\ session_cookie_secure s = true
      /\ negb (length (webhook_secret s) <? 32)%nat = true
      /\ negb (length (session_secret s) <? 32)%nat = true
      /\ nonempty (token_encryption_key s) = true
      /\ missing_github_settings s = [] /\ positive_number (github_app_id s))
  /\ (nonempty (database_url s) = true
      /\ service_url [u "postgresql+psycopg"] (resolved_database_url s))
  /\ queue_backend s = u "redis" /\ service_url [u "redis"; u "rediss"] (redis_url s).
Proof.
  rewrite !long_enough, missing_github_settings_spec. split.
  - intros []; tauto.
  - intros (? & (? & ? & ? & ? & ? & (? & ? & ? & ? & ?) & ?) & ? & ? & ?). by constructor.
Qed.

Lemma https_origin_spec url :
  https_origin url <->
  exists p, urlparse url = Ok p
    /\ str_eqb (ul_scheme p) (u "https") && negb (empty_text (ul_netloc p)) = true
    /\ negb (has_credentials p) = true
    /\ one_of (ul_path p) [[]; u "/"] && empty_text (ul_params p) && empty_text (ul_query p) = true
    /\ empty_text (ul_fragment p) = true.
Proof.
  unfold https_origin. apply exist_proper. intros p.
  rewrite !andb_true_iff, str_eqb_eq, filled_text_spec, !empty_text_spec, one_of_spec, negb_true_iff.
  rewrite !elem_of_cons, elem_of_nil. tauto.
Qed.
Lemma service_url_spec schemes url :
  service_url schemes url <->
  exists p, urlparse url = Ok p
    /\ one_of (ul_scheme p) schemes && negb (empty_text (ul_netloc p)) = true.
Proof.
  unfold service_url. apply exist_proper. intros p.
  by rewrite andb_true_iff, filled_text_spec, one_of_spec.
Qed.

Lemma check_production_spec s s' :
  check_production uni_isdigit s = Ok s' <-> s' = s /\ production_ready s.
Proof.
  rewrite boolean_conditions, https_origin_spec, !service_url_spec.
  rewrite <-positive_integer_spec. unfold check_production, resolved_database_url. split.
  - intros H. apply obind_Ok in H as (p & Hp & H).
    do 10 (apply require_Ok in H as [? H]).
    apply obind_Ok in H as (i & Hi & H). apply require_Ok in H as [-> H].
    destruct (database_url s) as [[|c db]|]; [done| |done].
    apply obind_Ok in H as (d & Hd & H). do 2 (apply require_Ok in H as [? H]).
    apply obind_Ok in H as (r & Hr & H). apply require_Ok in H as [? [= <-]].
    destruct (missing_github_settings s) eqn:Hm; [|done].
    split; [done|]. split; [by exists p|]. split; [by repeat split|]. split.
    { split; [done|]. exists d. split; [done|]. unfold one_of; cbn [existsb]. by rewrite orb_false_r. }
    split; [by apply str_eqb_eq|by exists r].
  - intros (-> & (p & Hp & ? & ? & ? & ?) & (? & ? & ? & ? & ? & Hm & Hi) & (Hn & d & Hd & Hs)
      & Hq & r & Hr & ?).
    rewrite Hp. cbn [obind]. rewrite Hm, Hi.
    do 10 (apply require_Ok; split; [done|]). cbn [obind]. apply require_Ok; split; [done|].
    destruct (database_url s) as [[|c db]|]; [done| |done].
    rewrite Hd. unfold one_of in Hs. cbn [existsb] in Hs. rewrite orb_false_r in Hs. cbn [obind].
    do 2 (apply require_Ok; split; [done || by rewrite Hq|]).
    rewrite Hr. cbn [obind]. by apply require_Ok.
Qed.

End production.

(** The checks that follow the secrets. *)
Lemma validated_bounds {U : UnicodeDb} (uni_isdigit : N -> bool) `{SecretFiles} src s s' :
  resolve_secrets_and_validate uni_isdigit src s = Ok s' <->
  resolve_secrets src secret_file_fields s = Ok s'
  /\ worker_bounds s' /\ (environment s' = PRODUCTION -> production_ready uni_isdigit s').
Proof.
  unfold resolve_secrets_and_validate, worker_bounds. split.
  - intros (t & Ht & E)%obind_Ok. do 3 (apply require_Ok in E as [? E]).
    assert (s' = t /\ (environment t = PRODUCTION -> production_ready uni_isdigit t)) as [-> ?].
    { destruct (environment t); [by injection E as ->|by apply check_production_spec in E as [-> ?]]. }
    repeat match goal with H : _ && _ = true |- _ => apply andb_true_iff in H as [? ?] end.
    repeat match goal with H : Qltb _ _ = true |- _ => apply Qltb_lt in H end.
    split_and!; auto. lia.
  - intros (-> & (Hl & Hb0 & Hb & Hs & Hc) & Hp).
    cbn [obind]. apply require_Ok. split; [lia|]. apply Qltb_lt in Hb0, Hb, Hs, Hc.
    do 2 (apply require_Ok; split; [by apply andb_true_iff|]).
    destruct (environment s'); [done|]. apply check_production_spec. auto.
Qed.

(** C19: the settings the program starts with.  The validator returns settings exactly when
    every secret comes from its own source (the named file, a readable regular file of at
    most 1 MiB of UTF-8, unless a nonempty value was given too, which is an error; the
    settings otherwise), nothing else was changed, the lease, heartbeat and SLO values are
    usable, and, in production: the public URL is an https origin without credentials,
    authentication is required with secure cookies, the webhook and session secrets have 32
    characters, the encryption key and the GitHub App's settings are there, its id is a
    positive number, and the database and the queue are PostgreSQL and Redis. *)
Theorem validated_settings_spec {U : UnicodeDb} (uni_isdigit : N -> bool) `{SecretFiles}
    (src : SecretSources) (s s' : Settings) :
  resolve_secrets_and_validate uni_isdigit src s = Ok s' <->
  (forall f, field_resolved src s s' f) /\ erase s' = erase s
  /\ worker_bounds s' /\ (environment s' = PRODUCTION -> production_ready uni_isdigit s').
Proof.
  rewrite validated_bounds, (resolve_secrets_spec src _ s s' secret_fields_distinct). split.
  - intros ((Hf & _ & He) & Hb). auto using all_secret_fields.
  - intros (Hf & He & Hb). split_and!; auto; [|tauto..].
    intros f Hn. by destruct Hn; apply all_secret_fields.
Qed.

(** The encryption keys.  The ring has no repetitions and starts with the configured key
    (with the one derived from the session secret when none is configured), the one sessions
    are sealed with; its other keys are the nonblank parts of the fallback keys, stripped. *)
Theorem key_ring_spec `{KeyDerivation} (s : Settings) :
  let primary := if nonempty (token_encryption_key s) then default [] (token_encryption_key s)
                 else derived_key (session_secret s) in
  NoDup (token_encryption_key_ring s) /\ head (token_encryption_key_ring s) = Some primary
  /\ forall k, k ∈ token_encryption_key_ring s <->
       k = primary
       \/ (k <> [] /\ exists part, part ∈ split_char 44 (token_encryption_fallback_keys s)
                                /\ k = strip part).
Proof.
  intros primary. unfold token_encryption_key_ring.
  replace (match token_encryption_key s with Some (c :: k) => c :: k | _ => _ end) with primary
    by (subst primary; by destruct (token_encryption_key s) as [[]|]).
  destruct (fromkeys_spec (primary :: List.filter (fun k => negb (empty_text k))
    (map strip (split_char 44 (token_encryption_fallback_keys s))))) as (H1 & H2 & H3).
  split_and!; [done|done|]. intros k. rewrite H2, elem_of_cons.
  apply or_iff_compat_l. rewrite list_elem_of_In, filter_In, in_map_iff, filled_text_spec.
  setoid_rewrite list_elem_of_In. split.
  - intros ((part & <- & Hp) & Hk). eauto.
  - intros (Hk & part & Hp & ->). eauto.
Qed.

(** ** A deployment *)

Definition sample_files : SecretFiles := {|
  stat_regular := fun path => if str_eqb path (u "/run/secrets/webhook") then Some true else None;
  open_read := fun path =>
    Some (true, concat (repeat (u "0123456789abcdef") 2) ++ [13; 10]%N)
|}.
Definition sample_sources : SecretSources := {|
  given := [SESSION_SECRET; TOKEN_ENCRYPTION_KEY];
  files := fun f => if decide (f = WEBHOOK_SECRET) then Some (u "/run/secrets/webhook") else None
|}.
Definition sample_settings : Settings := {|
  environment := PRODUCTION; webhook_secret := u "development-secret";
  github_app_id := Some (u "12345"); github_private_key := Some (u "-----BEGIN");
  github_app_slug := Some (u "pipelens"); github_client_id := Some (u "Iv1.x");
  github_client_secret := Some (u "client-secret"); public_url := u "HTTPS://pipelens.example/";
  auth_required := true; session_secret := concat (repeat (u "session.") 4);
  token_encryption_key := Some (u "key-1"); token_encryption_fallback_keys := u "key-0, ,key-1";
  session_cookie_secure := true; session_ttl_days := 7; database_path := u "./pipelens.db";
  database_url := Some (u "postgresql+psycopg://pipelens@db/pipelens"); publish_checks := true;
  max_log_bytes := 10 * 1024 * 1024; log_chunk_chars := 200000; max_error_chunks := 10;
  error_context_lines := 8; llm_provider := u "none"; openai_api_key := None;
  openai_model := u "gpt-5.6"; max_llm_input_chars := 30000;
  llm_input_cost_per_million := 0; llm_output_cost_per_million := 0; queue_backend := u "redis";
  redis_url := u "redis://localhost:6379/0"; queue_name := u "pipelens:analyses";
  worker_max_attempts := 3; worker_metrics_port := 8001; worker_lease_seconds := 60;
  worker_heartbeat_seconds := 15; http_retry_max_attempts := 3; http_retry_base_seconds := 1;
  http_retry_max_seconds := 60; analysis_start_slo_seconds := 60;
  analysis_completion_slo_seconds := 120 |}.

(** The webhook secret is the file's; a value given beside the file is refused; so is the
    development default. *)
Example sample_validates :
  (exists s, @resolve_secrets_and_validate ascii_db (fun _ => false) sample_files sample_sources
      sample_settings = Ok s
    /\ webhook_secret s = u "0123456789abcdef0123456789abcdef")
  /\ (exists msg, @resolve_secrets_and_validate ascii_db (fun _ => false) sample_files
      {| given := [WEBHOOK_SECRET]; files := files sample_sources |} sample_settings
      = Raise (ValueError msg))
  /\ exists msg, @resolve_secrets_and_validate ascii_db (fun _ => false) sample_files
      {| given := []; files := fun _ => None |} sample_settings = Raise (ValueError msg).
Proof. split; [|split]; eexists; [split|..]; vm_compute; reflexivity. Qed.

Lemma validated_settings_spec_witness :
  exists s, @resolve_secrets_and_validate ascii_db (fun _ => false) sample_files sample_sources
      sample_settings = Ok s
    /\ @production_ready ascii_db (fun _ => false) s.
Proof.
  pose (validate := @resolve_secrets_and_validate ascii_db (fun _ => false) sample_files
    sample_sources sample_settings).
  assert (exists s, validate = Ok s /\ environment s = PRODUCTION) as (s & Hs & He).
  { eexists. split; vm_compute; reflexivity. }
  exists s. split; [exact Hs|].
  apply (@validated_settings_spec ascii_db (fun _ => false) sample_files sample_sources
    sample_settings s); assumption.
Defined.
Lemma key_ring_spec_witness :
  let ring := @token_encryption_key_ring {| derived_key := fun s => s |} sample_settings in
  ring = [u "key-1"; u "key-0"] /\ NoDup ring.
Proof.
  split; [reflexivity|]. apply (@key_ring_spec {| derived_key := fun s => s |} sample_settings).
Defined.
