(* ===== verification/Auth.v ===== *)
(** * Sessions of GitHub users (src/pipelens/auth.py)

    [AuthService] over the database, the clock, a source of random tokens and the part
    of the GitHub client it calls ([OAuthClient]).  SHA-256 and Fernet are parameters;
    [FernetLaws] is what the cryptography package documents of Fernet and MultiFernet. *)

From Stdlib Require Import QArith.
From stdpp Require Import base list gmap strings numbers.
From S2P Require Import Prelude Text Calendar Models Json Security Store GitHub GitHubApi.

Set Default Proof Using "Type".

Class OAuthClient (N : Type) := {
  exchange_user_code : str -> str -> str -> str -> M N json;
  authenticated_user : str -> M N json;
  user_installations : str -> M N (list json)
}.
Definition GitHubOAuthClient `{UnicodeDb} `{Libraries} {N : Type}
    (transport : HttpRetry.Request -> M N HttpRetry.Response) (fuel : nat) : OAuthClient N := {|
  exchange_user_code := GitHubApi.exchange_user_code transport;
  authenticated_user := GitHubApi.authenticated_user transport;
  user_installations := GitHubApi.user_installations transport fuel
|}.

(** Keys and tokens of Fernet; [n] is the moment and randomness of an encryption. *)
Class Fernet := {
  fernet_key : str -> bool;                                 (* Fernet(key) accepts the key *)
  encrypt : str -> list N -> nat -> list N;
  decrypt : str -> list N -> option (list N);               (* None: InvalidToken *)
  multi_encrypt : list str -> list N -> nat -> list N;      (* MultiFernet *)
  multi_decrypt : list str -> list N -> option (list N);
  sha256_hex : list N -> str
}.
Class FernetLaws `{Fernet} := {
  decrypt_encrypt : forall k x n, decrypt k (encrypt k x n) = Some x;
  encrypt_ascii : forall k x n, forallb is_ascii (encrypt k x n) = true;
  multi_encrypt_first : forall k ks x n, multi_encrypt (k :: ks) x n = encrypt k x n;
  multi_decrypt_first : forall ks t, multi_decrypt ks t = head (omap (fun k => decrypt k t) ks)
}.

(** The settings the service reads. *)
Record AuthSettings := {
  st_client_id : option str; st_client_secret : option str; st_public_url : str;
  st_session_secret : str; st_session_ttl_days : Z; st_key_ring : list str }.

Record AuthenticatedSession := {
  ses_hash : str; ses_user : GitHubUser; ses_access_token : str }.
Record CurrentUser := { cu_user : GitHubUser; cu_installations : list GitHubInstallation }.

Record AuthState (N : Type) := { at_db : Database; at_net : N; at_ticks : nat }.
Arguments Build_AuthState {N} at_db at_net at_ticks.
Arguments at_db {N} a.
Arguments at_net {N} a.
Arguments at_ticks {N} a.

(** The clock and secrets.token_urlsafe. *)
Class Ambient := { clock : nat -> Z; token_urlsafe : nat -> nat -> str }.

Section auth.
Context {U : UnicodeDb} {L : Libraries} {DL : Dialect} {HM : Hmac} {F : Fernet} {A : Ambient}.
Context {N : Type} {C : OAuthClient N}.
Context (settings : AuthSettings).
Open Scope prog_scope.
Abbreviation MS := (M (AuthState N)).

Definition in_db {X} (m : M Database X) : MS X := fun s =>
  let (r, db) := m (at_db s) in (r, Build_AuthState db (at_net s) (at_ticks s)).
Definition in_net {X} (m : M N X) : MS X := fun s =>
  let (r, n) := m (at_net s) in (r, Build_AuthState (at_db s) n (at_ticks s)).
Definition tick : MS nat := fun s =>
  (Ok (at_ticks s), Build_AuthState (at_db s) (at_net s) (Datatypes.S (at_ticks s))).
Definition utcnow : MS Z := do! n := tick in Mret (clock n).
Definition random_token (bytes : nat) : MS str :=
  do! n := tick in Mret (token_urlsafe n bytes).

(** AuthService.__init__: the ciphers of the ring; its first key is the primary one. *)
Definition bad_key : exn :=
  ValueError (u "PIPELENS_TOKEN_ENCRYPTION_KEY and fallback keys must be Fernet keys").
Definition init_ciphers : outcome (str * list str) :=
  if forallb fernet_key (st_key_ring settings) then
    match st_key_ring settings with
    | k :: ks => Ok (k, k :: ks)
    | [] => Raise (IndexError (u "list index out of range"))
    end
  else Raise bad_key.

Definition callback_url : str :=
  rstrip_chars (u "/") (st_public_url settings) ++ u "/auth/github/callback".

Definition require_oauth_configuration : outcome (str * str) :=
  match st_client_id settings, st_client_secret settings with
  | Some (c :: id), Some (d :: secret) => Ok (c :: id, d :: secret)
  | _, _ => Raise (GitHubConfigurationError
                     (u "GitHub OAuth client credentials are not configured"))
  end.

(** s.encode() *)
Definition encoded (s : str) : outcome (list Numbers.BinNums.N) :=
  match encode_utf8 s with
  | Some bs => Ok bs
  | None => Raise (ValueError (u "UnicodeEncodeError"))
  end.
Definition state_signature (nonce : str) : outcome str :=
  let! bytes := encoded nonce in
  Ok (hmac_sha256_hex (st_session_secret settings) bytes).

Definition new_oauth_state : MS str :=
  do! nonce := random_token 32 in
  do! signature := Mlift (state_signature nonce) in
  Mret (nonce ++ u "." ++ signature).

Definition invalid_state : exn := AuthenticationError (u "invalid OAuth state").
(** s.rsplit(".", 1) *)
Definition rsplit_dot (s : str) : option (str * str) :=
  let r := rev s in
  let last := take_while_not 46 r in
  if contains (u ".") s
  then Some (rev (drop (length last + 1) r), rev last) else None.
Definition verify_oauth_state (state cookie_state : option str) : outcome unit :=
  match state, cookie_state with
  | Some (c :: st), Some (d :: ck) =>
    let! same := compare_digest (c :: st) (d :: ck) in
    if negb same then Raise invalid_state
    else match rsplit_dot (c :: st) with
         | None => Raise invalid_state
         | Some (nonce, signature) =>
           let! expected := state_signature nonce in
           let! valid := compare_digest signature expected in
           if valid : bool then Ok tt else Raise invalid_state
         end
  | _, _ => Raise invalid_state
  end.

Definition _hash_token (token : str) : outcome str :=
  let! bytes := encoded token in Ok (sha256_hex bytes).

(** GitHubInstallation(...), checked by pydantic *)
Definition installation_of (item : json) : outcome GitHubInstallation :=
  let! id := jindex item (u "id") in
  let! account := jindex item (u "account") in
  let! login := jindex account (u "login") in
  let! type := jget_default account (u "type") (JStr (u "Unknown")) in
  let! selection := jget_default item (u "repository_selection") (JStr (u "selected")) in
  match lib_int id, login, type, selection with
  | Some id, JStr login, JStr type, JStr selection =>
    Ok {| gi_installation_id := id; gi_account_login := login; gi_account_type := type;
          gi_repository_selection := selection |}
  | _, _, _, _ => validation_error
  end.
Definition sync_installations (github_user_id : Z) (access_token : str)
  : MS (list GitHubInstallation) :=
  do! raw := in_net (user_installations access_token) in
  do! installations := Mlift (omap_list installation_of raw) in
  do! now := utcnow in
  in_db (replace_user_installations now github_user_id installations);;;
  Mret installations.

Definition user_of (raw : json) : outcome GitHubUser :=
  let! id := jindex raw (u "id") in
  let! login := jindex raw (u "login") in
  let! avatar := jget raw (u "avatar_url") in
  let! avatar := opt_str validation_error avatar in
  match lib_int id, login with
  | Some id, JStr login =>
    Ok {| gu_github_user_id := id; gu_login := login; gu_avatar_url := avatar |}
  | _, _ => validation_error
  end.

(** The life of a session: the setting, or less when the token expires before. *)
Definition session_ttl (token_payload : json) : outcome Z :=
  let! ttl := timedelta_seconds (st_session_ttl_days settings * 86400) in
  let! expires_in := jget token_payload (u "expires_in") in
  if jis_none expires_in then Ok ttl
  else
    let! seconds := py_int expires_in in
    let! d := timedelta_seconds seconds in
    Ok (Z.min ttl d).

(** self.cipher.encrypt(access_token.encode()).decode() *)
Definition sealed (ring : list str) (bytes : list Numbers.BinNums.N) (n : nat) : outcome str :=
  match decode_utf8 (multi_encrypt ring bytes n) with
  | Some s => Ok s
  | None => Raise (ValueError (u "UnicodeDecodeError"))
  end.

Definition complete_login (code : str) : MS (str * CurrentUser) :=
  do! client := Mlift require_oauth_configuration in
  do! token_payload := in_net (exchange_user_code (fst client) (snd client) code callback_url) in
  do! access_value := Mlift (jindex token_payload (u "access_token")) in
  let access_token := text_of access_value in
  do! raw_user := in_net (authenticated_user access_token) in
  do! user := Mlift (user_of raw_user) in
  do! now := utcnow in
  in_db (upsert_github_user now user);;;
  do! installations := sync_installations (gu_github_user_id user) access_token in
  do! session_token := random_token 48 in
  do! ttl := Mlift (session_ttl token_payload) in
  do! now := utcnow in
  do! expires_at := Mlift (shift_datetime now ttl) in
  do! session_hash := Mlift (_hash_token session_token) in
  do! bytes := Mlift (as_str attribute_error access_value encoded) in
  do! n := tick in
  do! token := Mlift (sealed (st_key_ring settings) bytes n) in
  do! now := utcnow in
  in_db (create_auth_session now session_hash (gu_github_user_id user) token expires_at);;;
  Mret (session_token, {| cu_user := user; cu_installations := installations |}).

(** ** A request with a session cookie *)

Definition end_session (session_hash : str) : MS (option AuthenticatedSession) :=
  in_db (delete_auth_session session_hash);;; Mret None.

(** The stored token: with the primary key, or with another key of the ring, and then it
    is stored again under the primary key. *)
Definition unseal (session_hash token : str) : MS (option (list Numbers.BinNums.N)) :=
  do! sealed_bytes := Mlift (encoded token) in
  match st_key_ring settings with
  | [] => Mret None
  | primary :: _ =>
    match decrypt primary sealed_bytes with
    | Some bytes => Mret (Some bytes)
    | None =>
      match multi_decrypt (st_key_ring settings) sealed_bytes with
      | None => Mret None
      | Some bytes =>
        do! n := tick in
        do! again := Mlift (match decode_utf8 (encrypt primary bytes n) with
                            | Some s => Ok s
                            | None => Raise (ValueError (u "UnicodeDecodeError"))
                            end) in
        in_db (update_auth_session_token session_hash again);;;
        Mret (Some bytes)
      end
    end
  end.

Definition user_of_row (row : AuthSessionRow) : GitHubUser := {|
  gu_github_user_id := au_github_user_id row; gu_login := au_login row;
  gu_avatar_url := au_avatar_url row |}.

Definition authenticate (session_token : option str) : MS (option AuthenticatedSession) :=
  match session_token with
  | None | Some [] => Mret None
  | Some token =>
    do! session_hash := Mlift (_hash_token token) in
    do! s := Mget in
    match get_auth_session session_hash (at_db s) with
    | None => Mret None
    | Some row =>
      do! now := utcnow in
      if au_expires_at row <=? now then end_session session_hash
      else
        do! bytes := unseal session_hash (au_encrypted_access_token row) in
        match bytes with
        | None => end_session session_hash
        | Some bytes =>
          match decode_utf8 bytes with
          | None => end_session session_hash
          | Some access_token =>
            Mret (Some {| ses_hash := session_hash; ses_user := user_of_row row;
                          ses_access_token := access_token |})
          end
        end
    end
  end.

Definition current_user (session : AuthenticatedSession) (db : Database) : CurrentUser := {|
  cu_user := ses_user session;
  cu_installations := installations_for_user (gu_github_user_id (ses_user session)) db |}.
End auth.
