(* ===== verification/AuthFacts.v ===== *)
(** * What sessions guarantee

    A login opens a session that authenticates the same user with the same GitHub token
    until it expires; a session used once under a key ring needs only the ring's primary
    key from then on; an OAuth state is accepted only if this service signed it. *)

From Stdlib Require Import QArith.
From stdpp Require Import base list gmap strings numbers.
From S2P Require Import Prelude Text Calendar Models Json Security Store StoreFacts GitHub GitHubApi.
From S2P Require Import GitHubApiFacts Auth.


(** ** ASCII text *)

Lemma ascii_scalar c : is_ascii c = true -> is_scalar c = true.
Proof.
  unfold is_ascii, is_scalar. intros H%N.ltb_lt. rewrite (proj2 (N.ltb_lt _ _)); [done|lia].
Qed.
Lemma ascii_encode s : forallb is_ascii s = true -> encode_utf8 s = Some s.
Proof.
  intros H. unfold encode_utf8.
  assert (Hs : forallb is_scalar s = true).
  { rewrite forallb_forall in H |- *. intros x Hx. by apply ascii_scalar, H. }
  rewrite Hs. f_equal. clear Hs. induction s as [|c s IH]; [done|]. cbn [forallb] in H.
  apply andb_true_iff in H as [Hc H]. cbn [flat_map]. rewrite IH by done.
  unfold encode_char. unfold is_ascii in Hc. by rewrite Hc.
Qed.
Lemma ascii_decode s : forallb is_ascii s = true -> decode_utf8 s = Some s.
Proof. intros H. apply decode_encode. by apply ascii_encode. Qed.

Lemma encoded_Ok s bs : encoded s = Ok bs -> encode_utf8 s = Some bs.
Proof. unfold encoded. destruct (encode_utf8 s); [|done]. by intros [= ->]. Qed.

(** ** Sessions *)

Section sessions.
Context {U : UnicodeDb} {L : Libraries} {DL : Dialect} {HM : Hmac} {F : Fernet} {A : Ambient}.
Context {FL : FernetLaws} {N : Type} {C : OAuthClient N}.
Open Scope prog_scope.

(** The tokens of encryptions are text as they are. *)
Lemma sealed_text k ks bytes n : sealed (k :: ks) bytes n = Ok (encrypt k bytes n).
Proof.
  unfold sealed. by rewrite multi_encrypt_first, ascii_decode by apply encrypt_ascii.
Qed.
Lemma encoded_text k bytes n : encoded (encrypt k bytes n) = Ok (encrypt k bytes n).
Proof. unfold encoded. by rewrite ascii_encode by apply encrypt_ascii. Qed.

(** A stored session that the primary key opens. *)
Definition opens (k hash : str) (db : Database) (row : AuthSessionRow) (access : str) : Prop :=
  get_auth_session hash db = Some row
  /\ exists sealed_bytes bytes, encoded (au_encrypted_access_token row) = Ok sealed_bytes
       /\ decrypt k sealed_bytes = Some bytes /\ decode_utf8 bytes = Some access.

Lemma authenticate_open settings k ks token hash row access (s : AuthState N) :
  st_key_ring settings = k :: ks -> token <> [] -> _hash_token token = Ok hash ->
  opens k hash (at_db s) row access -> clock (at_ticks s) < au_expires_at row ->
  authenticate settings (Some token) s
  = (Ok (Some {| ses_hash := hash; ses_user := user_of_row row; ses_access_token := access |}),
     Build_AuthState (at_db s) (at_net s) (Datatypes.S (at_ticks s))).
Proof.
  intros Hring Htok Hhash (Hrow & sealed_bytes & bytes & Henc & Hdec & Hacc) Hexp.
  destruct token as [|c token]; [done|]. unfold authenticate, Mbind, Mlift, Mget.
  rewrite Hhash, Hrow. unfold utcnow, tick, Mbind, Mret.
  rewrite (proj2 (Z.leb_gt _ _)) by done.
  unfold unseal, Mbind, Mlift. rewrite Henc, Hring, Hdec. unfold Mret. by rewrite Hacc.
Qed.

Lemma authenticate_expired settings token hash row (s : AuthState N) :
  token <> [] -> _hash_token token = Ok hash -> get_auth_session hash (at_db s) = Some row ->
  au_expires_at row <= clock (at_ticks s) ->
  exists s', authenticate settings (Some token) s = (Ok None, s')
    /\ get_auth_session hash (at_db s') = None.
Proof.
  intros Htok Hhash Hrow Hexp. destruct token as [|c token]; [done|].
  unfold authenticate, Mbind, Mlift, Mget. rewrite Hhash, Hrow.
  unfold utcnow, tick, Mbind, Mret. rewrite (proj2 (Z.leb_le _ _)) by done.
  eexists. split; [reflexivity|]. unfold get_auth_session. cbn. by rewrite lookup_delete_eq.
Qed.

(** *** What a request with a cookie does *)

Definition ended (hash : str) (s : AuthState N) : Prop := get_auth_session hash (at_db s) = None.

Lemma get_session_update hash token db row :
  get_auth_session hash db = Some row ->
  get_auth_session hash (snd (update_auth_session_token hash token db))
  = Some {| au_github_user_id := au_github_user_id row; au_encrypted_access_token := token;
            au_expires_at := au_expires_at row; au_login := au_login row;
            au_avatar_url := au_avatar_url row |}.
Proof.
  unfold get_auth_session, update_auth_session_token. cbn. rewrite lookup_alter_eq.
  destruct (db_sessions db !! hash) as [ss|]; [|done]. cbn.
  destruct (db_users db !! ss_github_user_id ss); [|done]. cbn. by intros [= <-].
Qed.

Lemma authenticate_run settings k ks token (s s' : AuthState N) r :
  st_key_ring settings = k :: ks -> authenticate settings (Some token) s = (Ok r, s') ->
  match r with
  | Some ses => exists row row', token <> [] /\ _hash_token token = Ok (ses_hash ses)
      /\ get_auth_session (ses_hash ses) (at_db s) = Some row
      /\ clock (at_ticks s) < au_expires_at row
      /\ ses_user ses = user_of_row row
      /\ opens k (ses_hash ses) (at_db s') row' (ses_access_token ses)
      /\ user_of_row row' = user_of_row row /\ au_expires_at row' = au_expires_at row
  | None => token = [] \/ exists hash, _hash_token token = Ok hash /\ ended hash s'
  end.
Proof.
  intros Hring. destruct token as [|c token]; [by intros [= <- <-]; left|].
  unfold authenticate. set (tok := c :: token).
  intros H. apply Mbind_Ok in H as (hash & s1 & Hh & H). injection Hh as Hhash <-.
  apply Mbind_Ok in H as (s1 & s2 & Hg & H). injection Hg as <- <-.
  destruct (get_auth_session hash (at_db s)) as [row|] eqn:Erow.
  2:{ injection H as <- <-. right. by exists hash. }
  apply Mbind_Ok in H as (now & s1 & Hn & H). injection Hn as <- <-.
  assert (Hend : forall (t : AuthState N), end_session hash t = (Ok r, s') ->
    r = None /\ ended hash s').
  { intros t Ht. injection Ht as <- <-. split; [done|].
    unfold ended, get_auth_session. cbn. by rewrite lookup_delete_eq. }
  assert (Hnone : r = None /\ ended hash s' ->
    match r with Some ses => False | None => tok = [] \/ exists h, _hash_token tok = Ok h /\ ended h s' end).
  { intros [-> He]. right. by exists hash. }
  destruct (Z.leb_spec (au_expires_at row) (clock (at_ticks s))) as [Hexp|Hexp].
  { apply Hend, Hnone in H. by destruct r. }
  apply Mbind_Ok in H as (bytes & s2 & Hu & H).
  destruct bytes as [bytes|]; [|apply Hend, Hnone in H; by destruct r].
  destruct (decode_utf8 bytes) as [access|] eqn:Ea; [|apply Hend, Hnone in H; by destruct r].
  clear Hend Hnone.
  injection H as <- <-. unfold unseal in Hu.
  apply Mbind_Ok in Hu as (sb & s3 & Hsb & Hu). injection Hsb as Hsb <-.
  rewrite Hring in Hu.
  destruct (decrypt k sb) as [bytes'|] eqn:Ed.
  - injection Hu as -> <-. exists row, row. do 5 (split; [done|]). split; [|done].
    split; [done|]. by exists sb, bytes.
  - destruct (multi_decrypt (k :: ks) sb) as [bytes'|] eqn:Em; [|done].
    apply Mbind_Ok in Hu as (n & s4 & Ht & Hu). injection Ht as <- <-.
    rewrite ascii_decode in Hu by apply encrypt_ascii.
    apply Mbind_Ok in Hu as (again & s4 & Hag & Hu). injection Hag as <- <-.
    apply Mbind_Ok in Hu as (x & s4 & Hup & Hu). injection Hu as -> <-. injection Hup as <- <-.
    eexists row, _. split; [done|]. split; [exact Hhash|]. split; [exact Erow|]. split; [done|].
    split; [done|]. split.
    + split; [by apply get_session_update|]. eexists _, bytes. split; [apply encoded_text|].
      split; [apply decrypt_encrypt|done].
    + done.
Qed.

(** *** Logging in *)

Definition users_kept (db db' : Database) : Prop := db_users db' = db_users db.
Lemma replace_installations_users now user l db r db' :
  replace_user_installations now user l db = (r, db') -> users_kept db db'.
Proof.
  unfold replace_user_installations, transaction, Mbind, Mmodify.
  destruct (insert_installations _ _ _ _) as [[[]|e] db1] eqn:E; intros [= <- <-]; [|done].
  by apply insert_installations_frame in E as (inst & ->).
Qed.
Lemma sync_users settings_user access (s s' : AuthState N) l :
  sync_installations settings_user access s = (Ok l, s') -> users_kept (at_db s) (at_db s').
Proof.
  unfold sync_installations. intros H. apply Mbind_Ok in H as (raw & s1 & H1 & H).
  apply Mbind_Ok in H as (l' & s2 & H2 & H). injection H2 as _ <-.
  apply Mbind_Ok in H as (now & s2 & H2 & H). injection H2 as _ <-.
  apply Mbind_Ok in H as (x & s2 & H2 & H). injection H as _ <-.
  unfold in_net in H1. destruct (user_installations access (at_net s)) as [o n].
  injection H1 as -> <-. unfold in_db in H2. cbn [at_db] in H2.
  destruct (replace_user_installations _ _ _ _) as [o' db] eqn:E. injection H2 as -> <-.
  by apply replace_installations_users in E.
Qed.

(** The session of a completed login. *)
Definition login_session (settings : AuthSettings) (k code token : str) (user : CurrentUser)
    (s s' : AuthState N) (hash access : str) (row : AuthSessionRow) : Prop :=
  _hash_token token = Ok hash /\ opens k hash (at_db s') row access
  /\ user_of_row row = cu_user user
  /\ (exists id secret payload n, require_oauth_configuration settings = Ok (id, secret)
      /\ exchange_user_code id secret code (callback_url settings) (at_net s) = (Ok payload, n)
      /\ jindex payload (u "access_token") = Ok (JStr access)
      /\ exists raw n', authenticated_user access n = (Ok raw, n')
           /\ user_of raw = Ok (cu_user user))
  /\ exists t, au_expires_at row <= clock t + st_session_ttl_days settings * 86400000000.

Lemma session_ttl_bound settings payload ttl :
  session_ttl settings payload = Ok ttl -> ttl <= st_session_ttl_days settings * 86400000000.
Proof.
  unfold session_ttl, timedelta_seconds. destruct (_ <=? _); [|done]. cbn [obind].
  destruct (jget payload _) as [e|]; [|done]. cbn [obind]. destruct (jis_none e).
  - intros [= <-]. lia.
  - destruct (py_int e); [|done]. cbn [obind]. destruct (_ <=? _); [|done].
    intros [= <-]. lia.
Qed.

Lemma complete_login_run settings k ks code token user (s s' : AuthState N) :
  st_key_ring settings = k :: ks ->
  complete_login settings code s = (Ok (token, user), s') ->
  exists hash access row, login_session settings k code token user s s' hash access row.
Proof.
  intros Hring. unfold complete_login. intros H.
  apply Mbind_Ok in H as ([id secret] & s1 & H1 & H). injection H1 as Hconf <-.
  apply Mbind_Ok in H as (payload & s1 & Hex & H). unfold in_net in Hex.
  destruct (exchange_user_code _ _ _ _ _) as [o n] eqn:Eex. injection Hex as -> <-.
  apply Mbind_Ok in H as (av & s2 & H2 & H). injection H2 as Hav <-.
  apply Mbind_Ok in H as (raw & s2 & H2 & H). unfold in_net in H2. cbn [at_net] in H2.
  destruct (authenticated_user _ n) as [o n'] eqn:Eraw. injection H2 as -> <-.
  apply Mbind_Ok in H as (usr & s2 & H2 & H). injection H2 as Husr <-.
  apply Mbind_Ok in H as (now & s2 & H2 & H). injection H2 as <- <-.
  apply Mbind_Ok in H as (x & s2 & H2 & H). injection H2 as <- <-.
  apply Mbind_Ok in H as (insts & s2 & Hsync & H). apply sync_users in Hsync as Husers.
  apply Mbind_Ok in H as (tok & s3 & H3 & H). injection H3 as <- <-.
  apply Mbind_Ok in H as (ttl & s4 & H4 & H). injection H4 as Httl <-.
  apply Mbind_Ok in H as (now & s4 & H4 & H). injection H4 as <- <-.
  apply Mbind_Ok in H as (expires & s4 & H4 & H). injection H4 as Hexp <-.
  apply Mbind_Ok in H as (hash & s4 & H4 & H). injection H4 as Hhash <-.
  apply Mbind_Ok in H as (bytes & s4 & H4 & H). injection H4 as Hbytes <-.
  destruct av as [| | | | |access| |]; try done. cbn [as_str text_of] in Hbytes, Eraw.
  apply Mbind_Ok in H as (m & s4 & H4 & H). injection H4 as <- <-.
  apply Mbind_Ok in H as (sl & s4 & H4 & H). injection H4 as Hsl <-.
  rewrite Hring, sealed_text in Hsl. injection Hsl as <-.
  apply Mbind_Ok in H as (now & s4 & H4 & H). injection H4 as <- <-.
  apply Mbind_Ok in H as (y & s4 & H4 & H). injection H as <- <- <-.
  unfold in_db, create_auth_session in H4. cbn [at_db at_ticks] in H4.
  destruct (_ || _)%bool; [done|]. injection H4 as _ <-. cbn [at_db at_ticks] in Husers.
  eexists hash, access, _. split; [exact Hhash|]. split; [split|split].
  - unfold get_auth_session. cbn. rewrite lookup_insert_eq. cbn.
    unfold users_kept in Husers. rewrite Husers. cbn. rewrite lookup_insert_eq. reflexivity.
  - eexists _, bytes. split; [apply encoded_text|]. split; [apply decrypt_encrypt|].
    apply decode_encode. by apply encoded_Ok.
  - unfold user_of_row. cbn. by destruct usr.
  - split.
    + exists id, secret, payload, n. split_and!; [done..|]. exists raw, n'. by split.
    + eexists. cbn [au_expires_at]. unfold shift_datetime in Hexp.
      destruct (in_datetime_range _); [|done]. injection Hexp as <-.
      apply session_ttl_bound in Httl. instantiate (1 := Datatypes.S (at_ticks s2)). lia.
Qed.
End sessions.

Lemma login_token `{UnicodeDb} `{Libraries} `{Dialect} `{Fernet} `{Ambient} {N : Type}
    `{OAuthClient N} settings code token user (s s' : AuthState N) :
  (forall n b, token_urlsafe n b <> []) ->
  complete_login settings code s = (Ok (token, user), s') -> token <> [].
Proof.
  intros Ht. unfold complete_login. intros Hl.
  do 8 apply Mbind_Ok in Hl as (? & ? & _ & Hl). apply Mbind_Ok in Hl as (tok & ? & Hr & Hl).
  injection Hr as <- _. repeat (apply Mbind_Ok in Hl as (? & ? & _ & Hl)). injection Hl as <- _ _.
  apply Ht.
Qed.

(** C18: A login opens a session that works.  When complete_login returns a session token, the
    user is the one GitHub reports for the granted access token; with the same key ring the
    token authenticates that user with that access token, and changes nothing, until
    the session expires - at most session_ttl_days after the login - and from then on
    it is refused and the session is gone. *)
Theorem login_session_roundtrip `{UnicodeDb} `{Libraries} `{Dialect} `{Fernet} `{Ambient}
    `{!FernetLaws} {N : Type} `{OAuthClient N} (settings : AuthSettings)
    (k : str) (ks : list str) (code token : str) (user : CurrentUser) (s s' : AuthState N)
    (Htokens : forall n b, token_urlsafe n b <> []) (Hring : st_key_ring settings = k :: ks)
    (Hlogin : complete_login settings code s = (Ok (token, user), s')) :
  exists hash access row, login_session settings k code token user s s' hash access row
    /\ forall t : AuthState N, at_db t = at_db s' ->
       if clock (at_ticks t) <? au_expires_at row
       then authenticate settings (Some token) t
            = (Ok (Some {| ses_hash := hash; ses_user := cu_user user; ses_access_token := access |}),
               Build_AuthState (at_db t) (at_net t) (Datatypes.S (at_ticks t)))
       else exists t', authenticate settings (Some token) t = (Ok None, t')
            /\ get_auth_session hash (at_db t') = None.
Proof.
  assert (Htoken : token <> []) by by eapply login_token.
  eapply complete_login_run in Hlogin as (hash & access & row & Hs); [|exact Hring].
  exists hash, access, row. split; [exact Hs|]. intros t Ht.
  destruct Hs as (Hhash & Hopen & Huser & _).
  destruct (Z.ltb_spec (clock (at_ticks t)) (au_expires_at row)).
  - rewrite <- Huser. eapply authenticate_open; try done. by rewrite Ht.
  - eapply authenticate_expired; try done. rewrite Ht. apply Hopen.
Qed.

(** Keys can be rotated.  After a request authenticated a session under a key ring, the
    ring's primary key alone opens that session: with every ring that starts with this
    key, whatever keys follow, the cookie authenticates the same user with the same
    access token until the session expires. *)
Theorem session_key_rotation `{Fernet} `{Ambient} `{!FernetLaws} {N : Type} (settings settings' : AuthSettings)
    (k : str) (ks ks' : list str) (token : str) (session : AuthenticatedSession)
    (s s' t : AuthState N)
    (Hring : st_key_ring settings = k :: ks) (Hring' : st_key_ring settings' = k :: ks')
    (Hauth : authenticate settings (Some token) s = (Ok (Some session), s'))
    (Hlater : at_db t = at_db s')
    (Halive : forall row, get_auth_session (ses_hash session) (at_db s) = Some row ->
                clock (at_ticks t) < au_expires_at row) :
  authenticate settings' (Some token) t
  = (Ok (Some session), Build_AuthState (at_db t) (at_net t) (Datatypes.S (at_ticks t))).
Proof.
  eapply authenticate_run in Hauth; [|exact Hring].
  destruct Hauth as (row & row' & Htok & Hhash & Hrow & _ & Huser & Hopen & Hsame & Hexp).
  rewrite <- Hlater in Hopen.
  rewrite (authenticate_open settings' k ks' token _ row' _ t Hring' Htok Hhash Hopen).
  - destruct session; cbn in *. by rewrite Hsame, Huser.
  - rewrite Hexp. by apply Halive.
Qed.

(** ** OAuth states *)

Lemma take_while_not_app c a b : ~ In c a -> take_while_not c (a ++ c :: b) = a.
Proof.
  induction a as [|x a IH]; cbn; intros Hn; [by rewrite N.eqb_refl|].
  destruct (N.eqb_spec x c) as [->|]; [exfalso; apply Hn; by left|]. f_equal. apply IH.
  intros Ha. apply Hn. by right.
Qed.
Lemma take_while_not_rest c s :
  (In c s -> exists b, s = take_while_not c s ++ c :: b) /\ ~ In c (take_while_not c s).
Proof.
  induction s as [|x s [IH1 IH2]]; cbn; [split; by intros []|].
  destruct (N.eqb_spec x c) as [->|Hne]; [split; [by exists s|by intros []]|].
  split; [|by intros [?|?]]. intros [->|Hin]; [done|].
  destruct (IH1 Hin) as [b Hb]. exists b. cbn. by rewrite <- Hb.
Qed.
Lemma contains_char c s : contains [c] s = true <-> In c s.
Proof.
  induction s as [|x s IH]; cbn; [done|]. rewrite orb_true_iff, andb_true_iff, IH, N.eqb_eq.
  split; [intros [[-> _]|H]; auto|intros [->|H]; auto].
Qed.

Lemma rsplit_dot_spec s a b :
  rsplit_dot s = Some (a, b) <-> s = a ++ u "." ++ b /\ ~ In 46%N b.
Proof.
  unfold rsplit_dot. change (u ".") with [46%N].
  destruct (take_while_not_rest 46%N (rev s)) as [Hrest Hno].
  destruct (contains [46%N] s) eqn:Ec.
  - apply contains_char in Ec. destruct Hrest as [c Hc]; [by rewrite <- in_rev|].
    set (l := take_while_not 46 (rev s)) in *.
    assert (Hd : drop (length l + 1) (rev s) = c).
    { rewrite Hc, drop_app_ge by lia. replace (length l + 1 - length l)%nat with 1%nat by lia. done. }
    rewrite Hd. assert (Hs : s = rev c ++ [46%N] ++ rev l).
    { rewrite <- (rev_involutive s), Hc, rev_app_distr. cbn. by rewrite <- app_assoc. }
    split.
    + intros [= <- <-]. split; [done|]. by rewrite <- in_rev.
    + intros [Hab Hb]. assert (Hl : l = rev b).
      { unfold l. rewrite Hab, rev_app_distr, rev_app_distr. cbn [rev app]. rewrite <- app_assoc.
        apply take_while_not_app. by rewrite <- in_rev. }
      rewrite Hl in Hc, Hs |- *. rewrite rev_involutive in *. do 2 f_equal.
      rewrite Hs in Hab. by apply app_inv_tail in Hab.
  - split; [done|]. intros [-> _]. apply not_true_iff_false in Ec. exfalso. apply Ec.
    apply contains_char. apply in_app_iff. right. by left.
Qed.

(** A hex digest is ASCII without a dot. *)
Definition plain_digests `{Hmac} : Prop :=
  forall secret body, forallb is_ascii (hmac_sha256_hex secret body) = true
    /\ ~ In 46%N (hmac_sha256_hex secret body).

Lemma signature_plain `{Hmac} settings nonce digest : plain_digests ->
  state_signature settings nonce = Ok digest ->
  forallb is_ascii digest = true /\ ~ In 46%N digest.
Proof.
  intros Hd. unfold state_signature. intros (bytes & _ & [= <-])%obind_Ok. apply Hd.
Qed.
Lemma verify_state_iff `{Hmac} settings state cookie_state : plain_digests ->
  verify_oauth_state settings state cookie_state = Ok tt
  <-> exists nonce digest, state = Some (nonce ++ u "." ++ digest) /\ cookie_state = state
        /\ forallb is_ascii nonce = true /\ state_signature settings nonce = Ok digest.
Proof.
  intros Hd. unfold verify_oauth_state. split.
  - destruct state as [[|c st]|]; [done| |done]. destruct cookie_state as [[|c' ck]|]; [done| |done].
    unfold compare_digest at 1.
    destruct (forallb is_ascii (c :: st)) eqn:Ea; [|done].
    destruct (forallb is_ascii (c' :: ck)); [|done]. cbn [andb obind].
    destruct (str_eqb (c :: st) (c' :: ck)) eqn:E; [|done]. apply str_eqb_eq in E. cbn [negb].
    destruct (rsplit_dot (c :: st)) as [[nonce digest]|] eqn:Er; [|done].
    apply rsplit_dot_spec in Er as [Hst _]. intros Hv. apply obind_Ok in Hv as (d & Ed & Hv).
    apply obind_Ok in Hv as ([] & Ec & Hv); [|done].
    unfold compare_digest in Ec. destruct (_ && _)%bool; [|done].
    injection Ec as Ec%str_eqb_eq. subst d. exists nonce, digest.
    rewrite Hst, !forallb_app in Ea. apply andb_true_iff in Ea as [Ea _].
    split_and!; congruence.
  - intros (nonce & digest & -> & -> & Ha & Hs).
    destruct (signature_plain _ _ _ Hd Hs) as [Hda Hdot].
    destruct (nonce ++ u "." ++ digest) as [|c st] eqn:Est; [by destruct nonce|].
    assert (Hall : forallb is_ascii (c :: st) = true).
    { rewrite <- Est, !forallb_app, Ha, Hda. reflexivity. }
    unfold compare_digest at 1. rewrite Hall. cbn [andb obind]. rewrite str_eqb_refl. cbn [negb].
    assert (Hr : rsplit_dot (c :: st) = Some (nonce, digest)).
    { apply rsplit_dot_spec. by rewrite <- Est. }
    rewrite Hr, Hs. cbn [obind]. unfold compare_digest. rewrite Hda. cbn [andb obind].
    by rewrite str_eqb_refl.
Qed.

(** An OAuth state is accepted exactly when it equals the cookie, is ASCII, and is a nonce
    followed by its own HMAC under the session secret, as new_oauth_state makes them; what
    new_oauth_state returns for an ASCII nonce is accepted. *)
Theorem oauth_state_spec `{Hmac} `{Ambient} (Hd : plain_digests) {N : Type}
    (settings : AuthSettings) (state cookie_state : option str) :
  (verify_oauth_state settings state cookie_state = Ok tt
   <-> exists nonce digest, state = Some (nonce ++ u "." ++ digest) /\ cookie_state = state
         /\ forallb is_ascii nonce = true /\ state_signature settings nonce = Ok digest)
  /\ (forall (s s' : AuthState N) fresh, new_oauth_state settings s = (Ok fresh, s') ->
      forallb is_ascii fresh = true ->
      verify_oauth_state settings (Some fresh) (Some fresh) = Ok tt).
Proof.
  assert (Hiff : verify_oauth_state settings state cookie_state = Ok tt
   <-> exists nonce digest, state = Some (nonce ++ u "." ++ digest) /\ cookie_state = state
         /\ forallb is_ascii nonce = true /\ state_signature settings nonce = Ok digest)
    by by apply verify_state_iff.
  split; [exact Hiff|]. intros s s' fresh Hnew Hascii.
  unfold new_oauth_state in Hnew. apply Mbind_Ok in Hnew as (nonce & s1 & Hn1 & Hnew).
  apply Mbind_Ok in Hnew as (digest & s2 & Hs2 & Hnew). injection Hs2 as Hs2 <-.
  injection Hnew as <- _. apply verify_state_iff; [done|]. exists nonce, digest.
  rewrite !forallb_app in Hascii. apply andb_true_iff in Hascii as [Hn _]. by split_and!.
Qed.

(** ** A toy Fernet *)

(** Numbers in unary, between separators: ASCII, and readable again. *)
Definition unary (x : list Numbers.BinNums.N) : str :=
  flat_map (fun b => repeat 97%N (N.to_nat b) ++ [98%N]) x.
Fixpoint read_unary (acc : Numbers.BinNums.N) (s : str) : option (list Numbers.BinNums.N) :=
  match s with
  | [] => Some []
  | c :: r => if (c =? 97)%N then read_unary (acc + 1) r
              else if (c =? 98)%N then option_map (cons acc) (read_unary 0 r) else None
  end.
Lemma read_unary_run n acc r :
  read_unary acc (repeat 97%N n ++ 98%N :: r)
  = option_map (cons (acc + N.of_nat n)%N) (read_unary 0 r).
Proof.
  revert acc. induction n as [|n IH]; intros acc; cbn [repeat app read_unary N.eqb Pos.eqb].
  - by rewrite N.add_0_r.
  - rewrite IH. do 2 f_equal. lia.
Qed.
Lemma read_unary_ok x : read_unary 0 (unary x) = Some x.
Proof.
  induction x as [|b x IH]; [done|]. cbn [unary flat_map]. rewrite <- app_assoc. cbn [app].
  rewrite read_unary_run. fold (unary x). rewrite IH. cbn. do 2 f_equal. lia.
Qed.
Lemma unary_ascii x : forallb is_ascii (unary x) = true.
Proof.
  apply forallb_forall. intros c. unfold unary. rewrite in_flat_map. intros (b & _ & Hc).
  apply in_app_iff in Hc as [Hc|[<-|[]]]; [|done]. by apply repeat_spec in Hc as ->.
Qed.
Definition toy_prefix (k : str) : str := unary k ++ u "c".
Definition toy_decrypt (k t : str) : option (list Numbers.BinNums.N) :=
  if starts_with (toy_prefix k) t then read_unary 0 (drop (length (toy_prefix k)) t) else None.
Definition toy_fernet : Fernet := {|
  fernet_key := fun _ => true;
  encrypt := fun k x _ => toy_prefix k ++ unary x;
  decrypt := toy_decrypt;
  multi_encrypt := fun ks x _ => match ks with k :: _ => toy_prefix k ++ unary x | [] => [] end;
  multi_decrypt := fun ks t => head (omap (fun k => toy_decrypt k t) ks);
  sha256_hex := fun x => unary x |}.
Lemma toy_laws : @FernetLaws toy_fernet.
Proof.
  split; try done.
  - intros k x n. cbn. unfold toy_decrypt.
    rewrite (proj2 (starts_with_spec _ _)) by (by exists (unary x)).
    rewrite drop_app_length. apply read_unary_ok.
  - intros k x n. cbn. unfold toy_prefix. by rewrite !forallb_app, !unary_ascii.
Qed.

Definition toy_oauth : OAuthClient unit := {|
  exchange_user_code := fun _ _ _ _ n => (Ok (JObj [(u "access_token", JStr (u "gho"))]), n);
  authenticated_user := fun _ n => (Ok (JObj [(u "id", JInt 1); (u "login", JStr (u "me"))]), n);
  user_installations := fun _ n => (Ok [], n) |}.
Definition toy_ambient : Ambient :=
  {| clock := fun n => Z.of_nat n; token_urlsafe := fun _ _ => u "t0" |}.
Definition toy_hmac : Hmac := {| hmac_sha256_hex := fun _ _ => u "00ff" |}.
Definition toy_settings (ring : list str) : AuthSettings := {|
  st_client_id := Some (u "id"); st_client_secret := Some (u "secret");
  st_public_url := u "https://x/"; st_session_secret := u "s"; st_session_ttl_days := 7;
  st_key_ring := ring |}.
Definition toy_start : AuthState unit := Build_AuthState empty_database tt 0.
Abbreviation toy_login ring := (@complete_login ascii_db sample_libraries postgresql
  toy_fernet toy_ambient unit toy_oauth (toy_settings ring) (u "code") toy_start).
Abbreviation toy_authenticate ring s :=
  (@authenticate toy_fernet toy_ambient unit (toy_settings ring) (Some (u "t0")) s).

Definition toy_hash (token : str) : str :=
  match @_hash_token toy_fernet token with Ok h => h | Raise _ => [] end.

Lemma login_session_roundtrip_witness :
  exists user s' row, toy_login [u "k1"] = (Ok (u "t0", user), s')
    /\ @clock toy_ambient 50 < au_expires_at row
    /\ exists session t', toy_authenticate [u "k1"] (Build_AuthState (at_db s') tt 50) = (Ok (Some session), t')
         /\ ses_user session = cu_user user.
Proof.
  assert (Ht : match fst (toy_login [u "k1"]) with
               | Ok (t, _) => str_eqb t (u "t0") | Raise _ => false end = true)
    by (vm_compute; reflexivity).
  destruct (toy_login [u "k1"]) as [[[tok user]|e] s'] eqn:El; [|discriminate Ht].
  apply str_eqb_eq in Ht. cbn [fst] in Ht. subst tok.
  assert (Hne : forall n b, @token_urlsafe toy_ambient n b <> [])
    by (intros n b Hn; vm_compute in Hn; discriminate Hn).
  pose proof (@login_session_roundtrip ascii_db sample_libraries postgresql toy_fernet toy_ambient
    toy_laws unit toy_oauth (toy_settings [u "k1"]) (u "k1") [] (u "code") (u "t0") user toy_start s'
    Hne eq_refl El) as (hash & access & row & Hs & H).
  exists user, s', row. specialize (H (Build_AuthState (at_db s') tt 50) eq_refl).
    destruct Hs as (Hhash & Hopen & _).
    assert (Hlive : @clock toy_ambient (at_ticks (Build_AuthState (at_db s') tt 50)) < au_expires_at row).
    { destruct Hopen as [Hrow _].
      assert (Hexp : option_map au_expires_at
          (get_auth_session (toy_hash (u "t0")) (at_db (snd (toy_login [u "k1"])))) = Some 604800000003)
        by (vm_compute; reflexivity).
      rewrite El in Hexp. unfold toy_hash in Hexp. rewrite Hhash in Hexp. cbn [snd] in Hexp.
      rewrite Hrow in Hexp. cbn [option_map] in Hexp. injection Hexp as ->.
      vm_compute. reflexivity. }
    split; [reflexivity|]. split; [exact Hlive|].
    rewrite (proj2 (Z.ltb_lt _ _) Hlive) in H. eexists. eexists. split; [exact H|reflexivity].
Defined.

(** A session stored under k2, used once with k1 in front, then with k1 alone. *)
Lemma session_key_rotation_witness :
  exists session s' t', toy_authenticate [u "k1"; u "k2"] (snd (toy_login [u "k2"])) = (Ok (Some session), s')
    /\ toy_authenticate [u "k1"] s' = (Ok (Some session), t').
Proof.
  set (s := snd (toy_login [u "k2"])).
  assert (Hrow : option_map au_expires_at (get_auth_session (toy_hash (u "t0")) (at_db s))
                 = Some 604800000003) by (vm_compute; reflexivity).
  assert (Hok : match fst (toy_authenticate [u "k1"; u "k2"] s) with
                | Ok (Some ses) => str_eqb (ses_hash ses) (toy_hash (u "t0")) | _ => false end = true)
    by (vm_compute; reflexivity).
  assert (Hticks : (at_ticks (snd (toy_authenticate [u "k1"; u "k2"] s)) <? 50)%nat = true)
    by (vm_compute; reflexivity).
  clearbody s.
  destruct (toy_authenticate [u "k1"; u "k2"] s) as [[[session|]|e] s'] eqn:Ea;
    [|discriminate Hok|discriminate Hok].
  exists session, s'. eexists. split; [reflexivity|].
  apply (@session_key_rotation toy_fernet toy_ambient toy_laws unit
    (toy_settings [u "k1"; u "k2"]) (toy_settings [u "k1"]) (u "k1") [u "k2"] [] (u "t0") session
    s s' s' eq_refl eq_refl Ea eq_refl).
  intros row Hr. apply str_eqb_eq in Hok. cbn [fst] in Hok. rewrite Hok in Hr. rewrite Hr in Hrow.
  cbn [option_map] in Hrow. injection Hrow as ->. apply Nat.ltb_lt in Hticks. cbn [snd] in Hticks.
  cbn [clock toy_ambient]. lia.
Defined.

Lemma oauth_state_spec_witness :
  @verify_oauth_state toy_hmac (toy_settings []) (Some (u "t0.00ff")) (Some (u "t0.00ff")) = Ok tt.
Proof.
  refine (proj2 (@oauth_state_spec toy_hmac toy_ambient _ unit (toy_settings [])
    (Some (u "t0.00ff")) (Some (u "t0.00ff"))) toy_start _ (u "t0.00ff") eq_refl eq_refl).
  intros secret body. split; [reflexivity|]. intros Hin. vm_compute in Hin.
  repeat (destruct Hin as [Hin|Hin]; [discriminate Hin|]). exact Hin.
Defined.
