(* ===== verification/Api.v ===== *)
(** * The HTTP interface for users (src/pipelens/main.py)

    The handlers behind a session - who may see which analyses, listing with a cursor,
    feedback - and the login, set-up, readiness and header code around them.  Arguments are
    those FastAPI has parsed and checked against the signature (types, 1 <= limit <=
    100).  A handler returns or raises; HTTPException carries the status of the
    answer. *)

From Stdlib Require Import QArith.
From stdpp Require Import base list gmap strings numbers.
From S2P Require Import Prelude Text Calendar Models Json Loads Security Store Metrics GitHub GitHubApi Auth Main.

Set Default Proof Using "Type".

(** ** Base64, URL-safe alphabet *)

Definition b64_char (n : N) : N :=
  if (n <? 26)%N then (65 + n)%N
  else if (n <? 52)%N then (97 + (n - 26))%N
  else if (n <? 62)%N then (48 + (n - 52))%N
  else if (n =? 62)%N then 45%N else 95%N.
Definition b64_value (c : N) : option N :=
  if ascii_upper c then Some (c - 65)%N
  else if ascii_lower c then Some (c - 97 + 26)%N
  else if ascii_digit c then Some (c - 48 + 52)%N
  else if in_chars (u "-+") c then Some 62%N else if in_chars (u "_/") c then Some 63%N
  else None.
Definition PAD : N := 61%N.

(** base64.urlsafe_b64encode(...).decode() *)
Fixpoint b64_encode (bs : list N) : str :=
  match bs with
  | [] => []
  | [a] => [b64_char (a / 4); b64_char (a mod 4 * 16); PAD; PAD]
  | [a; b] => [b64_char (a / 4); b64_char (a mod 4 * 16 + b / 16); b64_char (b mod 16 * 4); PAD]
  | a :: b :: c :: r =>
    b64_char (a / 4) :: b64_char (a mod 4 * 16 + b / 16) :: b64_char (b mod 16 * 4 + c / 64)
      :: b64_char (c mod 64) :: b64_encode r
  end.

(** base64.b64decode(s, altchars=b"-_", validate=True): None is binascii.Error; the
    characters of the standard alphabet stay valid. *)
Definition b64_last (w x : N) (t : list N) : option (list N) :=
  match t with
  | [c3; c4] =>
    if (c3 =? PAD)%N && (c4 =? PAD)%N then Some [(w * 4 + x / 16)%N]
    else
      match b64_value c3 with
      | Some y => if (c4 =? PAD)%N
                  then Some [(w * 4 + x / 16)%N; (x mod 16 * 16 + y / 4)%N] else None
      | None => None
      end
  | _ => None
  end.
Fixpoint b64_decode (s : str) : option (list N) :=
  match s with
  | [] => Some []
  | c1 :: c2 :: c3 :: c4 :: r =>
    match b64_value c1, b64_value c2 with
    | Some w, Some x =>
      match b64_value c3, b64_value c4 with
      | Some y, Some z =>
        option_map (fun t => (w * 4 + x / 16)%N :: (x mod 16 * 16 + y / 4)%N
                             :: (y mod 4 * 64 + z)%N :: t) (b64_decode r)
      | _, _ => match r with [] => b64_last w x [c3; c4] | _ => None end
      end
    | _, _ => None
    end
  | _ => None
  end.

(** ** Cursors *)

(** json.dumps([...], separators=(",", ":")) *)
Definition cursor_payload (cursor : AnalysisCursor) : str :=
  u "[" ++ json_string (isoformat (cur_created_at cursor)) ++ u "," ++ str_of_Z (cur_run_id cursor)
  ++ u "]".
Definition _encode_analysis_cursor (cursor : AnalysisCursor) : outcome str :=
  let! bytes := encoded (cursor_payload cursor) in
  Ok (rstrip_chars (u "=") (b64_encode bytes)).

Definition invalid_cursor : exn := HTTPException 422 (u "invalid analysis cursor").
Definition padding (value : str) : str :=
  repeat PAD (Z.to_nat ((- Z.of_nat (length value)) mod 4)).
(** The body of the try; every exception of it is answered alike. *)
Definition decode_cursor (value : str) : option AnalysisCursor :=
  if negb (forallb is_ascii value) then None
  else
    match b64_decode (value ++ padding value) with
    | None => None
    | Some decoded =>
      match json_loads decoded with
      | inl (JArr [JStr created_at_value; run_id]) =>
        match fromisoformat created_at_value, as_integer run_id with
        | Some (created_at, true), Some run_id =>
          if run_id <? 1 then None
          else Some {| cur_created_at := created_at; cur_run_id := run_id |}
        | _, _ => None
        end
      | _ => None
      end
    end.
Definition _decode_analysis_cursor (value : str) : outcome AnalysisCursor :=
  match decode_cursor value with Some c => Ok c | None => Raise invalid_cursor end.

(** ** Handlers *)

Record ApiState (N : Type) := { ap_auth : AuthState N; ap_registry : Registry }.
Arguments Build_ApiState {N} ap_auth ap_registry.
Arguments ap_auth {N} a.
Arguments ap_registry {N} a.

Record Cookie := {
  ck_name : str; ck_value : str; ck_max_age : Z; ck_httponly : bool; ck_secure : bool;
  ck_samesite : str }.
Record Redirect := {
  rd_status : Z; rd_location : str; rd_set : option Cookie; rd_deleted : list str }.

(** The settings the handlers read. *)
Record ApiSettings := {
  as_auth : AuthSettings; as_auth_required : bool; as_cookie_secure : bool;
  as_app_slug : option str }.

Section handlers.
Context {U : UnicodeDb} {L : Libraries} {DL : Dialect} {HM : Hmac} {F : Fernet} {A : Ambient}.
Context {N : Type} {C : OAuthClient N}.
Context (settings : ApiSettings).
Open Scope prog_scope.
Abbreviation MI := (M (ApiState N)).
Abbreviation auth := (as_auth settings).

Definition in_auth {X} (m : M (AuthState N) X) : MI X := fun s =>
  let (r, a) := m (ap_auth s) in (r, Build_ApiState a (ap_registry s)).
Definition in_registry {X} (m : M Registry X) : MI X := fun s =>
  let (r, reg) := m (ap_registry s) in (r, Build_ApiState (ap_auth s) reg).
Definition read_db {X} (f : Database -> X) : MI X := fun s => (Ok (f (at_db (ap_auth s))), s).

(** *** Who is asking *)

Definition require_session (cookie : option str) : MI AuthenticatedSession :=
  do! session := in_auth (authenticate auth cookie) in
  match session with
  | Some s => Mret s
  | None => Mraise (HTTPException 401 (u "GitHub login required"))
  end.
(** auth.sync_installations for the user of a session *)
Definition synced (session : AuthenticatedSession) : MI (list GitHubInstallation) :=
  in_auth (sync_installations (gu_github_user_id (ses_user session)) (ses_access_token session)).
(** The installations the caller may see: None is everything. *)
Definition analysis_access (cookie : option str) : MI (option (list Z)) :=
  if negb (as_auth_required settings) then Mret None
  else
    do! session := require_session cookie in
    do! installations := synced session in
    Mret (Some (map gi_installation_id installations)).

(** *** Analyses *)

Record ListQuery := {
  qy_limit : nat; qy_filter : ListFilter; qy_cursor : option str }.
Record AnalysesPage := { pa_records : list AnalysisRecord; pa_next_cursor : option str }.

Definition parsed_cursor (cursor : option str) : outcome (option AnalysisCursor) :=
  match cursor with
  | None | Some [] => Ok None
  | Some c => let! c := _decode_analysis_cursor c in Ok (Some c)
  end.
Definition next_header (next : option AnalysisCursor) : outcome (option str) :=
  match next with
  | None => Ok None
  | Some c => let! text := _encode_analysis_cursor c in Ok (Some text)
  end.
Definition list_analyses_handler (cookie : option str) (q : ListQuery) : MI AnalysesPage :=
  do! ids := analysis_access cookie in
  do! cursor := Mlift (parsed_cursor (qy_cursor q)) in
  do! page := read_db (list_page (qy_limit q) ids (qy_filter q) cursor) in
  do! header := Mlift (next_header (pg_next_cursor page)) in
  Mret {| pa_records := pg_records page; pa_next_cursor := header |}.

Definition not_found : exn := HTTPException 404 (u "analysis not found").
Definition get_analysis (cookie : option str) (run_id : Z) : MI AnalysisRecord :=
  do! ids := analysis_access cookie in
  do! record := read_db (get run_id ids) in
  match record with Some r => Mret r | None => Mraise not_found end.

Definition count_feedback (dimension value : str) : MI unit :=
  in_registry (inc feedback_total [dimension; value]).
Definition save_feedback_handler (cookie : option str) (run_id : Z) (feedback : FeedbackRequest)
  : MI FeedbackRecord :=
  do! ids := analysis_access cookie in
  do! now := in_auth utcnow in
  do! saved := in_auth (in_db (save_feedback now run_id feedback ids)) in
  match saved with
  | None => Mraise not_found
  | Some saved =>
    match fq_accuracy feedback with
    | Some a => count_feedback (u "accuracy") (accuracy_value a)
    | None => Mret tt
    end;;;
    match fq_suggestion_resolved feedback with
    | Some b => count_feedback (u "suggestion_resolved") (if b : bool then u "true" else u "false")
    | None => Mret tt
    end;;;
    Mret saved
  end.

(** *** Login and set-up *)

Definition STATE_COOKIE : str := u "pipelens_oauth_state".
Definition SESSION_COOKIE : str := u "pipelens_session".
Definition http_only (name value : str) (max_age : Z) : Cookie := {|
  ck_name := name; ck_value := value; ck_max_age := max_age; ck_httponly := true;
  ck_secure := as_cookie_secure settings; ck_samesite := u "lax" |}.

Definition github_login : MI Redirect :=
  do! client := Mtry (Mlift (require_oauth_configuration auth))
    (fun e => match e with
              | GitHubConfigurationError m => Mraise (HTTPException 503 m)
              | e => Mraise e
              end) in
  do! state := in_auth (new_oauth_state auth) in
  do! url := Mlift (authorization_url (fst client) (callback_url auth) state) in
  Mret {| rd_status := 302; rd_location := url;
          rd_set := Some (http_only STATE_COOKIE state 600); rd_deleted := [] |}.

Definition github_callback (code : str) (state state_cookie : option str) : MI Redirect :=
  do! login := Mtry
    (Mlift (verify_oauth_state auth state state_cookie);;; in_auth (complete_login auth code))
    (fun e => match e with
              | AuthenticationError m => Mraise (HTTPException 400 m)
              | GitHubConfigurationError m => Mraise (HTTPException 502 m)
              | KeyError key => Mraise (HTTPException 502 (u "'" ++ key ++ u "'"))
              | e => Mraise e
              end) in
  Mret {| rd_status := 303; rd_location := st_public_url auth;
          rd_set := Some (http_only SESSION_COOKIE (fst login) (st_session_ttl_days auth * 86400));
          rd_deleted := [STATE_COOKIE] |}.

Definition logout (cookie : option str) : MI Redirect :=
  do! session := require_session cookie in
  in_auth (in_db (delete_auth_session (ses_hash session)));;;
  Mret {| rd_status := 204; rd_location := []; rd_set := None; rd_deleted := [SESSION_COOKIE] |}.

Definition current_user_handler (cookie : option str) : MI CurrentUser :=
  do! session := require_session cookie in
  do! installations := synced session in
  Mret {| cu_user := ses_user session; cu_installations := installations |}.

Definition redirect (status : Z) (location : str) : Redirect :=
  {| rd_status := status; rd_location := location; rd_set := None; rd_deleted := [] |}.
Definition install_github_app (cookie : option str) : MI Redirect :=
  require_session cookie;;;
  match as_app_slug settings with
  | Some (c :: slug) =>
    Mret (redirect 302 (u "https://github.com/apps/" ++ (c :: slug) ++ u "/installations/new"))
  | _ => Mraise (HTTPException 503 (u "GitHub App slug is not configured"))
  end.
Definition github_setup (cookie : option str) (installation_id : Z) : MI Redirect :=
  do! session := require_session cookie in
  do! installations := synced session in
  if existsb (Z.eqb installation_id) (map gi_installation_id installations)
  then Mret (redirect 303 (st_public_url auth))
  else Mraise (HTTPException 403 (u "installation is not accessible to user")).
End handlers.

(** ** Readiness and headers *)

(** The status of /readyz and what the two checks found. *)
Definition readiness (database queue : outcome unit) : Z * list (str * str) :=
  let state (o : outcome unit) := if is_ok o then u "ok" else u "unavailable" in
  let checks := [(u "database", state database); (u "queue", state queue)] in
  (if forallb (fun kv => str_eqb (snd kv) (u "ok")) checks then 200 else 503, checks).

Definition LEGACY_API_DEPRECATION : str := u "@1788134400".
Definition DEPRECATION_POLICY_URL : str :=
  u "https://github.com/sangmu1126/PipeLens/blob/main/docs/api-versioning.md".
Definition QUOTE_MARK : str := [34%N].
(** The headers the middleware adds to the answer of a path. *)
Definition security_headers (path : str) : list (str * str) :=
  [(u "X-Content-Type-Options", u "nosniff"); (u "X-Frame-Options", u "DENY");
   (u "Referrer-Policy", u "no-referrer");
   (u "Permissions-Policy", u "camera=(), geolocation=(), microphone=()")]
  ++ (if str_eqb path (u "/api/me") || starts_with (u "/api/analyses") path
      then [(u "Deprecation", LEGACY_API_DEPRECATION);
            (u "Link", u "<" ++ DEPRECATION_POLICY_URL ++ u ">; rel=" ++ QUOTE_MARK
               ++ u "deprecation" ++ QUOTE_MARK ++ u "; type=" ++ QUOTE_MARK ++ u "text/html"
               ++ QUOTE_MARK)]
      else []).
