(* ===== verification/ApiFacts.v ===== *)
(** * What the interface for users guarantees

    Cursors survive the round trip through a URL, and a caller sees and rates only
    analyses of installations that GitHub lists for them. *)

From Stdlib Require Import QArith.
From stdpp Require Import base list gmap strings numbers.
From S2P Require Import Prelude Text Calendar Models Json Loads LoadsFacts Security.
From S2P Require Import Store StoreFacts Metrics GitHub.
From S2P Require Import GitHubApi Auth AuthFacts Main Api.

(** ** Base64 *)

Definition sextet (n : N) : bool :=
  match b64_value (b64_char n) with Some m => (m =? n)%N | None => false end
  && is_ascii (b64_char n) && negb (b64_char n =? PAD)%N.
Lemma sextets : forallb sextet (map N.of_nat (seq 0 64)) = true.
Proof. vm_compute. reflexivity. Qed.
Lemma sextet_ok n : (n < 64)%N ->
  b64_value (b64_char n) = Some n /\ is_ascii (b64_char n) = true /\ b64_char n <> PAD.
Proof.
  intros Hn. pose proof sextets as H. rewrite forallb_forall in H.
  assert (Hs : sextet n = true).
  { apply H, in_map_iff. exists (N.to_nat n). split; [lia|]. apply in_seq. lia. }
  unfold sextet in Hs. rewrite !andb_true_iff, negb_true_iff, N.eqb_neq in Hs.
  destruct Hs as [[Hv Ha] Hp]. split; [|done].
  destruct (b64_value (b64_char n)) as [m|]; [|done]. by apply N.eqb_eq in Hv as ->.
Qed.
Lemma b64_value_char n : (n < 64)%N -> b64_value (b64_char n) = Some n.
Proof. apply sextet_ok. Qed.

Definition byte (b : N) : Prop := (b < 256)%N.
Definition body_char (c : N) : Prop := is_ascii c = true /\ c <> PAD.
Lemma b64_body n : (n < 64)%N -> body_char (b64_char n).
Proof. intros H. split; apply (sextet_ok n H). Qed.

(** Induction by groups of three bytes. *)
Lemma triples (Q : list N -> Prop) :
  Q [] -> (forall a, Q [a]) -> (forall a b, Q [a; b]) ->
  (forall a b c r, Q r -> Q (a :: b :: c :: r)) -> forall l, Q l.
Proof.
  intros H0 H1 H2 H3 l. induction l as [l IH] using (induction_ltof1 _ (@length _)).
  unfold ltof in IH. destruct l as [|a [|b [|c r]]]; auto. apply H3, IH. cbn. lia.
Qed.

Lemma b64_round l : Forall byte l -> b64_decode (b64_encode l) = Some l.
Proof.
  induction l as [|a|a b|a b c r IH] using triples; intros Hl; rewrite ?Forall_cons_iff in Hl;
    unfold byte in Hl.
  - done.
  - destruct Hl as [Ha _]. cbn [b64_encode b64_decode].
    rewrite !b64_value_char by divide. change (b64_value PAD) with (@None N). cbn [b64_last].
    rewrite N.eqb_refl. cbn [andb]. do 2 f_equal. divide.
  - destruct Hl as (Ha & Hb & _). cbn [b64_encode b64_decode].
    rewrite !b64_value_char by divide. change (b64_value PAD) with (@None N). cbn [b64_last].
    rewrite (proj2 (N.eqb_neq (b64_char (b mod 16 * 4)) PAD)) by (apply sextet_ok; divide).
    cbn [andb]. rewrite b64_value_char by divide. rewrite N.eqb_refl.
    f_equal. f_equal; [divide|]. f_equal. divide.
  - destruct Hl as (Ha & Hb & Hc & Hr). cbn [b64_encode b64_decode].
    rewrite !b64_value_char by divide. rewrite IH by done. cbn [option_map].
    f_equal. f_equal; [divide|]. f_equal; [divide|]. f_equal. divide.
Qed.

(** The text is a body without padding characters, padded to a multiple of four. *)
Lemma b64_padded l : Forall byte l -> exists body,
  b64_encode l = body ++ padding body /\ Forall body_char body.
Proof.
  induction l as [|a|a b|a b c r IH] using triples; intros Hl; rewrite ?Forall_cons_iff in Hl;
    unfold byte in Hl.
  - by exists [].
  - destruct Hl as [Ha _]. exists [b64_char (a / 4); b64_char (a mod 4 * 16)]. split; [done|].
    repeat constructor; apply b64_body; divide.
  - destruct Hl as (Ha & Hb & _).
    exists [b64_char (a / 4); b64_char (a mod 4 * 16 + b / 16); b64_char (b mod 16 * 4)].
    split; [done|]. repeat constructor; apply b64_body; divide.
  - destruct Hl as (Ha & Hb & Hc & Hr). destruct (IH Hr) as (body & Heq & Hbody).
    exists (b64_char (a / 4) :: b64_char (a mod 4 * 16 + b / 16)
            :: b64_char (b mod 16 * 4 + c / 64) :: b64_char (c mod 64) :: body).
    split.
    + cbn [b64_encode app]. rewrite Heq. do 5 f_equal. unfold padding. do 2 f_equal.
      cbn [length]. rewrite !Nat2Z.inj_succ. Z.to_euclidean_division_equations. lia.
    + do 4 (constructor; [apply b64_body; divide|]). done.
Qed.

Lemma rstrip_pads body k : Forall body_char body ->
  rstrip_chars (u "=") (body ++ repeat PAD k) = body.
Proof.
  intros Hb. unfold rstrip_chars, rstrip_by. change (u "=") with [PAD].
  assert (Hd : drop_while (in_chars [PAD]) (rev (body ++ repeat PAD k)) = rev body).
  { rewrite rev_app_distr. assert (Hr : rev (repeat PAD k) = repeat PAD k).
    { clear. induction k as [|k IH]; [done|]. cbn. rewrite IH. by rewrite repeat_cons. }
    rewrite Hr. clear Hr. induction k as [|k IH]; [|done]. cbn [repeat app].
    destruct (rev body) as [|c r] eqn:E; [done|].
    assert (Hc : body_char c).
    { rewrite Forall_forall in Hb. apply Hb. apply in_rev. rewrite E. by left. }
    cbn [drop_while]. unfold in_chars. cbn [existsb].
    by rewrite (proj2 (N.eqb_neq c PAD) (proj2 Hc)). }
  by rewrite Hd, rev_involutive.
Qed.

Lemma encode_char_byte c : is_scalar c = true -> Forall byte (encode_char c).
Proof.
  intros Hs. assert (Hc : (c < 1114112)%N).
  { unfold is_scalar, in_range in Hs. apply orb_true_iff in Hs as [Hs%N.ltb_lt|Hs]; [lia|].
    apply andb_true_iff in Hs as [_ Hs%N.leb_le]. lia. }
  unfold encode_char, byte, cont.
  destruct (N.ltb_spec c 128); [|destruct (N.ltb_spec c 2048); [|destruct (N.ltb_spec c 65536)]];
    repeat constructor; divide.
Qed.
Lemma encoded_bytes s bs : encoded s = Ok bs -> Forall byte bs.
Proof.
  intros H%encoded_Ok. unfold encode_utf8 in H. destruct (forallb is_scalar s) eqn:E; [|done].
  injection H as <-. rewrite forallb_forall in E. apply Forall_forall. intros b Hb.
  apply in_flat_map in Hb as (c & Hc & Hb).
  pose proof (encode_char_byte c (E c Hc)) as Hf. rewrite Forall_forall in Hf.
  by apply Hf.
Qed.

(** ** Cursors *)

(** json.loads reads the list of a time and an id. *)
Lemma scan_payload (time : str) (id : Z) (n : nat) :
  (length (str_of_N (Z.abs_N id)) <= MAX_DIGITS)%nat -> (4 <= n)%nat ->
  scan_value n (u "[" ++ json_string time ++ u "," ++ str_of_Z id ++ u "]")
  = Parsed (JArr [JStr time; JInt id]) [].
Proof.
  intros Hid Hn. do 4 (destruct n as [|n]; [lia|]). set (rest := str_of_Z id ++ u "]").
  change (u "[" ++ json_string time ++ u "," ++ rest) with (91%N :: json_string time ++ 44%N :: rest).
  cbn [scan_value]. change (begins_with QUOTE (91%N :: _)) with false.
  change (begins_with 91 (91%N :: _)) with true. cbn beta iota. cbn [tail].
  change (skip_ws (json_string time ++ 44%N :: rest)) with (json_string time ++ 44%N :: rest).
  change (begins_with 93 (json_string time ++ 44%N :: rest)) with false. cbn beta iota.
  cbn [scan_items]. cbn [scan_value].
  change (begins_with QUOTE (json_string time ++ 44%N :: rest)) with true. cbn beta iota.
  rewrite scan_json_string. cbn [pbind].
  destruct (str_of_Z_head id (u "]")) as ((c & r & Eh & Hc & _) & H1 & H2 & H3).
  assert (Hsep : separator 93 (44%N :: rest) = Parsed true rest).
  { unfold separator. rewrite skip_ws_id by done. cbn [N.eqb Pos.eqb]. unfold rest.
    by rewrite Eh, skip_ws_id. }
  rewrite Hsep. cbn [pbind]. unfold rest. cbn [scan_items scan_value]. rewrite H1, H2, H3.
  rewrite other_str_of_Z; [|vm_compute; tauto|done]. reflexivity.
Qed.
Lemma forallb_flat_map {X Y} (p : Y -> bool) (f : X -> list Y) l :
  (forall x, In x l -> forallb p (f x) = true) -> forallb p (flat_map f l) = true.
Proof.
  induction l as [|x l IH]; intros H; [done|]. cbn. rewrite forallb_app, H, IH; [done| |by left].
  intros y Hy. apply H. by right.
Qed.
Lemma escape_ascii c : is_ascii c = true -> forallb is_ascii (escape_char c) = true.
Proof.
  intros Hc. unfold escape_char. repeat (case_match; [done|]).
  destruct (N.ltb_spec c 32); [|cbn; by rewrite Hc].
  assert (Hh : forall n, (n < 16)%N -> is_ascii (hex_digit n) = true).
  { intros n Hn. unfold hex_digit, is_ascii. apply N.ltb_lt. destruct (n <? 10)%N; lia. }
  rewrite forallb_app. cbn [forallb]. rewrite !Hh by divide. reflexivity.
Qed.
Lemma json_string_ascii s : forallb is_ascii s = true -> forallb is_ascii (json_string s) = true.
Proof.
  intros Hs. unfold json_string. rewrite !forallb_app, forallb_flat_map; [done|].
  intros c Hc. apply escape_ascii. rewrite forallb_forall in Hs. by apply Hs.
Qed.
Lemma digits_ascii d : forallb is_ascii (uint_codes d) = true.
Proof. by induction d. Qed.
Lemma str_of_Z_ascii z : forallb is_ascii (str_of_Z z) = true.
Proof.
  destruct z; cbn [str_of_Z]; [done|apply digits_ascii|]. rewrite forallb_app.
  unfold str_of_N. by rewrite digits_ascii.
Qed.
Lemma payload_ascii c : forallb is_ascii (cursor_payload c) = true.
Proof.
  unfold cursor_payload. rewrite !forallb_app, json_string_ascii, str_of_Z_ascii; [done|].
  apply isoformat_ascii.
Qed.

Lemma loads_payload c bytes : 1 <= cur_run_id c < 2 ^ 63 -> encoded (cursor_payload c) = Ok bytes ->
  json_loads bytes = inl (JArr [JStr (isoformat (cur_created_at c)); JInt (cur_run_id c)]).
Proof.
  intros Hid Hb%encoded_Ok. unfold cursor_payload in *.
  set (time := isoformat (cur_created_at c)) in *. set (id := cur_run_id c) in *.
  assert (Hn : nonzero (u "[" ++ json_string time ++ u "," ++ str_of_Z id ++ u "]")).
  { rewrite !Forall_app. split_and!; try (by repeat apply Forall_cons_2);
      [apply json_string_nonzero|apply str_of_Z_nonzero]. }
  assert (Hshort : (length (str_of_N (Z.abs_N id)) <= 19)%nat).
  { apply str_of_N_length; [lia|]. change (10 ^ Z.of_nat 19) with 10000000000000000000. lia. }
  pose proof (fun n => scan_payload time id n ltac:(unfold MAX_DIGITS; lia)) as Hscan.
  set (text := u "[" ++ _) in *.
  assert (Ht : exists r, text = 91%N :: r /\ (1 <= length r)%nat).
  { eexists. split; [reflexivity|]. rewrite length_app. cbn. lia. }
  destruct Ht as (r & Et & Hr). rewrite Et in *. rewrite (loads_encoded 91 r bytes) by done.
  unfold decode_text. rewrite skip_ws_id by done. rewrite Hscan by (cbn [length]; lia). done.
Qed.
Lemma cursor_round c text :
  in_datetime_range (cur_created_at c) = true -> 1 <= cur_run_id c < 2 ^ 63 ->
  _encode_analysis_cursor c = Ok text ->
  _decode_analysis_cursor text = Ok c /\ Forall body_char text.
Proof.
  intros Ht Hid. unfold _encode_analysis_cursor. intros (bytes & Eb & [= <-])%obind_Ok.
  pose proof (encoded_bytes _ _ Eb) as Hb. destruct (b64_padded bytes Hb) as (body & Hpad & Hbody).
  assert (Hs : rstrip_chars (u "=") (b64_encode bytes) = body).
  { rewrite Hpad. by apply rstrip_pads. }
  rewrite Hs. split; [|done]. unfold _decode_analysis_cursor, decode_cursor.
  assert (Ha : forallb is_ascii body = true).
  { apply forallb_forall. intros x Hx. rewrite Forall_forall in Hbody.
    by apply Hbody. }
  rewrite Ha, <- Hpad, b64_round by done. cbn [negb]. rewrite (loads_payload c) by (done || lia).
  rewrite fromisoformat_isoformat by done. cbn [as_integer].
  rewrite (proj2 (Z.ltb_ge _ _)) by lia. by destruct c.
Qed.

(** A page's cursor survives the trip through the URL: every position of a stored analysis
    is encoded, as ASCII text without the padding character, and decoding that text gives
    the position back; any text at all is decoded to a position with a positive run id or
    answered with 422. *)
Theorem cursor_roundtrip (c : AnalysisCursor)
    (Htime : in_datetime_range (cur_created_at c) = true) (Hid : 1 <= cur_run_id c < 2 ^ 63) :
  (exists text, _encode_analysis_cursor c = Ok text /\ _decode_analysis_cursor text = Ok c
                /\ Forall body_char text)
  /\ forall value, match _decode_analysis_cursor value with
     | Ok c' => 1 <= cur_run_id c'
     | Raise e => e = invalid_cursor
     end.
Proof.
  split.
  - assert (Hp : encoded (cursor_payload c) = Ok (cursor_payload c)).
    { unfold encoded. by rewrite ascii_encode by apply payload_ascii. }
    destruct (_encode_analysis_cursor c) as [text|e] eqn:E.
    + exists text. split; [done|]. by apply cursor_round.
    + unfold _encode_analysis_cursor in E. by rewrite Hp in E.
  - intros value. unfold _decode_analysis_cursor.
    destruct (decode_cursor value) as [c'|] eqn:E; [|done]. unfold decode_cursor in E.
    repeat case_match; try done. injection E as <-. cbn. by apply Z.ltb_ge.
Qed.

(** ** Access *)

(** What access control leaves alone. *)
Definition same_data (db db' : Database) : Prop :=
  db_analyses db' = db_analyses db /\ db_events db' = db_events db
  /\ db_feedback db' = db_feedback db.
Lemma same_data_trans d1 d2 d3 : same_data d1 d2 -> same_data d2 d3 -> same_data d1 d3.
Proof. intros (A1 & B1 & C1) (A2 & B2 & C2). unfold same_data. by rewrite A2, B2, C2. Qed.

Section keeps.
Context {St : Type} (dbof : St -> Database).
Definition keeps {X} (m : M St X) : Prop :=
  forall s r s', m s = (r, s') -> same_data (dbof s) (dbof s').
Lemma preserves_ret {X} (x : X) : keeps (Mret x).
Proof. by intros s r s' [= _ <-]. Qed.
Lemma preserves_raise {X} e : keeps (Mraise (A := X) e).
Proof. by intros s r s' [= _ <-]. Qed.
Lemma preserves_lift {X} (o : outcome X) : keeps (Mlift o).
Proof. by intros s r s' [= _ <-]. Qed.
Lemma preserves_bind {X Y} (m : M _ X) (k : X -> M _ Y) :
  keeps m -> (forall x, keeps (k x)) -> keeps (Mbind m k).
Proof.
  intros Hm Hk s r s'. unfold Mbind. destruct (m s) as [[x|e] s1] eqn:E.
  - intros H. eapply same_data_trans; [by eapply Hm|by eapply Hk].
  - intros [= _ <-]. by eapply Hm.
Qed.
End keeps.
Create HintDb keeps.
#[export] Hint Resolve preserves_ret preserves_raise preserves_lift : keeps.
Ltac keeps := repeat first
  [ done | solve [eauto with keeps] | apply preserves_bind
  | match goal with |- forall _, _ => intros ? end | case_match ].

Section access.
Context {U : UnicodeDb} {L : Libraries} {DL : Dialect} {F : Fernet} {A : Ambient}.
Context {N : Type} {C : OAuthClient N}.
Context (settings : ApiSettings).
Open Scope prog_scope.

Abbreviation akeeps := (keeps (@at_db N)).
Abbreviation ikeeps := (keeps (fun s : ApiState N => at_db (ap_auth s))).

Lemma akeeps_db {X} (m : M Database X) : keeps (fun db => db) m -> akeeps (in_db m).
Proof.
  intros Hm s r s'. unfold in_db. destruct (m (at_db s)) as [o db] eqn:E.
  intros [= _ <-]. by eapply Hm.
Qed.
Lemma akeeps_net {X} (m : M N X) : akeeps (in_net m).
Proof. intros s r s'. unfold in_net. destruct (m (at_net s)). by intros [= _ <-]. Qed.
Lemma akeeps_tick : akeeps tick.
Proof. by intros s r s' [= _ <-]. Qed.
Lemma akeeps_get : akeeps Mget.
Proof. by intros s r s' [= _ <-]. Qed.
Lemma preserves_end hash : keeps (fun db => db) (delete_auth_session hash).
Proof. by intros s r s' [= _ <-]. Qed.
Lemma preserves_token hash t : keeps (fun db => db) (update_auth_session_token hash t).
Proof. by intros s r s' [= _ <-]. Qed.
Lemma preserves_installations now user l : keeps (fun db => db) (replace_user_installations now user l).
Proof.
  intros s r s'. unfold replace_user_installations, transaction, Mbind, Mmodify.
  destruct (insert_installations _ _ _ _) as [[[]|e] db1] eqn:E; intros [= _ <-]; [|done].
  by apply insert_installations_frame in E as (inst & ->).
Qed.
Hint Resolve akeeps_db akeeps_net akeeps_tick akeeps_get preserves_end preserves_token
  preserves_installations : keeps.
Lemma akeeps_now : akeeps utcnow.
Proof. unfold utcnow. keeps. Qed.
Hint Resolve akeeps_now : keeps.
Lemma akeeps_unseal st hash token : akeeps (unseal st hash token).
Proof. unfold unseal. keeps. Qed.
Lemma akeeps_end hash : akeeps (end_session hash).
Proof. unfold end_session. keeps. Qed.
Hint Resolve akeeps_unseal akeeps_end : keeps.
Lemma akeeps_authenticate st cookie : akeeps (authenticate st cookie).
Proof. unfold authenticate. keeps. Qed.
Lemma akeeps_sync user token : akeeps (sync_installations user token).
Proof. unfold sync_installations. keeps. Qed.

Lemma ikeeps_auth {X} (m : M (AuthState N) X) : akeeps m -> ikeeps (in_auth m).
Proof.
  intros Hm s r s'. unfold in_auth. destruct (m (ap_auth s)) as [o a] eqn:E.
  intros [= _ <-]. by eapply Hm.
Qed.
Hint Resolve akeeps_authenticate akeeps_sync ikeeps_auth : keeps.
Lemma ikeeps_session cookie : ikeeps (require_session settings cookie).
Proof. unfold require_session. keeps. Qed.
Lemma ikeeps_synced session : ikeeps (synced session).
Proof. unfold synced. keeps. Qed.
Hint Resolve ikeeps_session ikeeps_synced : keeps.
Lemma ikeeps_access cookie : ikeeps (analysis_access settings cookie).
Proof. unfold analysis_access. keeps. Qed.

(** The caller has a session, and [ids] are the installations GitHub lists for it. *)
Definition permitted (cookie : option str) (s : ApiState N) (ids : list Z) : Prop :=
  exists session installations s1 s2,
    require_session settings cookie s = (Ok session, s1)
    /\ synced session s1 = (Ok installations, s2)
    /\ ids = map gi_installation_id installations.

Lemma access_permitted cookie s ids s' : as_auth_required settings = true ->
  analysis_access settings cookie s = (Ok ids, s') ->
  exists l, ids = Some l /\ permitted cookie s l.
Proof.
  intros Hreq. unfold analysis_access. rewrite Hreq. cbn [negb]. intros Ha.
  apply Mbind_Ok in Ha as (session & s1 & Hs & Ha). apply Mbind_Ok in Ha as (insts & s2 & Hi & Ha).
  injection Ha as <- _. eexists. split; [done|]. by exists session, insts, s1, s2.
Qed.

Definition of_installation (ids : list Z) (i : option Z) : Prop := exists z, i = Some z /\ In z ids.
Lemma visible_of ids row : visible (Some ids) row = true ->
  of_installation ids (id_installation_id (an_identity row)).
Proof.
  cbn. destruct (id_installation_id _) as [z|]; [|done]. intros (y & Hy & ->%Z.eqb_eq)%existsb_exists.
  by exists y.
Qed.
Lemma get_visible run_id ids db rec : get run_id (Some ids) db = Some rec ->
  of_installation ids (ar_installation_id rec).
Proof.
  unfold get. destruct (db_analyses db !! run_id) as [row|]; [|done].
  destruct (visible _ row) eqn:E; [|done]. intros [= <-]. by apply visible_of in E.
Qed.
Lemma list_visible limit ids flt cursor db :
  Forall (fun rec => of_installation ids (ar_installation_id rec))
    (pg_records (list_page limit (Some ids) flt cursor db)).
Proof.
  assert (H : forall ids, Forall (fun rec => of_installation ids (ar_installation_id rec))
    (map (_to_record db) (take limit (select_page limit (Some ids) flt cursor db)))).
  { clear. intros ids. apply List.Forall_map, Forall_forall. intros row Hin. cbn.
    apply visible_of. assert (Hsel : In row (select_page limit (Some ids) flt cursor db)).
    { rewrite <- (firstn_skipn limit (select_page _ _ _ _ _)). apply in_app_iff. by left. }
    unfold select_page in Hsel.
    assert (Hs : In row (py_sorted newer_leb (List.filter (fun row => visible (Some ids) row
      && passes flt row && match cursor with Some c => after_cursor c (position row) | None => true end)
      (rows db)))).
    { rewrite <- (firstn_skipn (limit + 1) (py_sorted _ _)). apply in_app_iff. by left. }
    apply list_elem_of_In in Hs. rewrite py_sorted_perm in Hs.
    apply list_elem_of_In, List.filter_In in Hs as [_ Hs].
    by apply andb_true_iff in Hs as [[Hs _]%andb_true_iff _]. }
  unfold list_page. destruct ids as [|i ids]; [constructor|apply H].
Qed.
End access.

Lemma save_feedback_run now run_id fb ids db r db' :
  save_feedback now run_id fb (Some ids) db = (r, db') ->
  db' = db \/ exists row f, db_analyses db !! run_id = Some row
    /\ of_installation ids (id_installation_id (an_identity row))
    /\ db' = with_feedback db (<[run_id := f]> (db_feedback db)).
Proof.
  unfold save_feedback, transaction. destruct (db_analyses db !! run_id) as [row|] eqn:Er.
  - destruct (visible _ row) eqn:Ev; [|intros [= _ <-]; by left].
    intros [= _ <-]. right. apply visible_of in Ev. by eexists row, _.
  - intros [= _ <-]. by left.
Qed.

(** C7: With authentication required, a caller sees and rates only the analyses of installations
    GitHub lists for the user of their session.  An answer of the detail or list handler
    carries only such records and changes no analysis, event or feedback; the feedback
    handler changes at most the feedback of the run it names, and only if that run is
    of such an installation; without a session there is no answer. *)
Theorem api_isolation {U : UnicodeDb} {L : Libraries} {DL : Dialect} {F : Fernet} {A : Ambient}
    {N : Type} {C : OAuthClient N} (settings : ApiSettings)
    (Hrequired : as_auth_required settings = true) (cookie : option str) (s s' : ApiState N) :
  let db := at_db (ap_auth s) in let db' := at_db (ap_auth s') in
  (forall run_id record, get_analysis settings cookie run_id s = (Ok record, s') ->
     exists ids, permitted settings cookie s ids
       /\ of_installation ids (ar_installation_id record) /\ same_data db db')
  /\ (forall q page, list_analyses_handler settings cookie q s = (Ok page, s') ->
     exists ids, permitted settings cookie s ids /\ same_data db db'
       /\ Forall (fun record => of_installation ids (ar_installation_id record)) (pa_records page))
  /\ (forall run_id feedback r, save_feedback_handler settings cookie run_id feedback s = (r, s') ->
     same_data db db'
     \/ exists ids row f, permitted settings cookie s ids /\ db_analyses db !! run_id = Some row
          /\ of_installation ids (id_installation_id (an_identity row))
          /\ db_analyses db' = db_analyses db /\ db_events db' = db_events db
          /\ db_feedback db' = <[run_id := f]> (db_feedback db)).
Proof.
  intros db db'. subst db db'. split; [|split].
  - intros run_id record Hg. apply Mbind_Ok in Hg as (ids & s1 & Ha & Hg).
    pose proof (ikeeps_access settings cookie _ _ _ Ha) as Hkeep.
    apply access_permitted in Ha as (l & -> & Hp); [|done].
    apply Mbind_Ok in Hg as (o & s2 & Hr & Hg). injection Hr as <- <-.
    destruct (get run_id (Some l) _) as [rec|] eqn:Eg; [|done]. injection Hg as <- <-.
    exists l. split; [done|]. split; [by apply get_visible in Eg|done].
  - intros q page Hg. apply Mbind_Ok in Hg as (ids & s1 & Ha & Hg).
    pose proof (ikeeps_access settings cookie _ _ _ Ha) as Hkeep.
    apply access_permitted in Ha as (l & -> & Hp); [|done].
    apply Mbind_Ok in Hg as (c & s2 & Hr & Hg). injection Hr as _ <-.
    apply Mbind_Ok in Hg as (pg & s2 & Hr & Hg). injection Hr as <- <-.
    apply Mbind_Ok in Hg as (h & s2 & Hr & Hg). injection Hr as _ <-. injection Hg as <- <-.
    exists l. split; [done|]. split; [done|]. apply list_visible.
  - intros run_id fb r. unfold save_feedback_handler. unfold Mbind at 1.
    destruct (analysis_access settings cookie s) as [[ids|e] s1] eqn:Ha;
      pose proof (ikeeps_access settings cookie _ _ _ Ha) as Hkeep; cbn beta in Hkeep;
      [|intros [= _ <-]; by left].
    apply access_permitted in Ha as (l & -> & Hp); [|done].
    unfold Mbind at 1. destruct (in_auth utcnow s1) as [[now|e] s2] eqn:En; [|done].
    assert (Hdb : at_db (ap_auth s2) = at_db (ap_auth s1)) by by injection En as _ <-.
    unfold Mbind at 1, in_auth at 1, in_db. rewrite Hdb.
    destruct (save_feedback now run_id fb (Some l) (at_db (ap_auth s1))) as [o db2] eqn:Es.
    apply save_feedback_run in Es. intros Hrest.
    assert (Hfinal : at_db (ap_auth s') = db2).
    { revert Hrest. destruct o as [[rec|]|e]; [|by intros [= _ <-]|by intros [= _ <-]].
      destruct (fq_accuracy fb), (fq_suggestion_resolved fb); by intros [= _ <-]. }
    rewrite Hfinal. destruct Es as [->|(row & f & Hrow & Hvis & ->)]; [by left|].
    right. destruct Hkeep as (H1 & H2 & H3). rewrite H1 in Hrow.
    exists l, row, f. cbn. rewrite H1, H2, H3. by split_and!.
Qed.

(** ** Witnesses *)

Lemma cursor_roundtrip_witness :
  exists text, _encode_analysis_cursor {| cur_created_at := 1767225600000000; cur_run_id := 41 |} = Ok text
    /\ _decode_analysis_cursor text
       = Ok {| cur_created_at := 1767225600000000; cur_run_id := 41 |}.
Proof.
  destruct (cursor_roundtrip
    {| cur_created_at := 1767225600000000; cur_run_id := 41 |} eq_refl ltac:(cbn; lia))
    as [(text & He & Hd & _) _].
  exists text. split; [exact He|exact Hd].
Defined.

(** A user of installation 5 reads analysis 1 of the sample database. *)
Definition member_oauth : OAuthClient unit := {|
  exchange_user_code := fun _ _ _ _ n => (Ok (JObj [(u "access_token", JStr (u "gho"))]), n);
  authenticated_user := fun _ n => (Ok (JObj [(u "id", JInt 1); (u "login", JStr (u "me"))]), n);
  user_installations := fun _ n => (Ok [JObj [(u "id", JInt 5);
    (u "account", JObj [(u "login", JStr (u "o"))])]], n) |}.
Definition member_settings : ApiSettings := {|
  as_auth := toy_settings [u "k1"]; as_auth_required := true; as_cookie_secure := true;
  as_app_slug := None |}.
Abbreviation member_start := (Build_ApiState (snd (@complete_login ascii_db GitHubApiFacts.sample_libraries
  postgresql toy_fernet toy_ambient unit member_oauth (toy_settings [u "k1"]) (u "code")
  (Build_AuthState sample_db tt 0))) []).
Lemma api_isolation_witness :
  exists record s' ids, @get_analysis GitHubApiFacts.sample_libraries postgresql toy_fernet toy_ambient unit
      member_oauth member_settings (Some (u "t0")) 1 member_start = (Ok record, s')
    /\ of_installation ids (ar_installation_id record).
Proof.
  set (s := member_start).
  assert (Hok : is_ok (fst (@get_analysis GitHubApiFacts.sample_libraries postgresql toy_fernet toy_ambient unit
      member_oauth member_settings (Some (u "t0")) 1 s)) = true) by (vm_compute; reflexivity).
  clearbody s.
  destruct (get_analysis member_settings (Some (u "t0")) 1 s) as [[record|e] s'] eqn:Eg;
    [|discriminate Hok].
  pose proof (@api_isolation ascii_db GitHubApiFacts.sample_libraries postgresql toy_fernet toy_ambient
    unit member_oauth member_settings eq_refl (Some (u "t0")) s s')
    as (H & _).
  destruct (H 1 record Eg) as (ids & _ & Hi & _). exists record, s', ids.
  split; [reflexivity|exact Hi].
Defined.
