(* ===== verification/Evaluation.v ===== *)
(** * Classification evaluation (src/pipelens/evaluation.py)

    The evaluation cases after pydantic's validation, run over a file reader ([read_text],
    with its exceptions); the report. *)

From Stdlib Require Import QArith.
From stdpp Require Import base list strings numbers.
From S2P Require Import Prelude Models Classifier Preprocessing.

Record EvaluationCase := {
  ec_case_id : str; ec_log_file : str; ec_expected_category : ErrorCategory;
  ec_expected_evidence : str }.
Record EvaluationResult := {
  er_case_id : str; er_expected_category : ErrorCategory; er_actual_category : ErrorCategory;
  er_category_correct : bool; er_evidence_correct : bool; er_first_error : str }.
Definition EvaluationResult_passed (r : EvaluationResult) : bool :=
  er_category_correct r && er_evidence_correct r.

(** EvaluationReport: the properties passed, total and accuracy of its results. *)
Definition passed (results : list EvaluationResult) : nat :=
  length (List.filter EvaluationResult_passed results).
Definition total (results : list EvaluationResult) : nat := length results.
Definition ratio (passed total : nat) : Q :=
  match total with O => 0 | _ => inject_Z (Z.of_nat passed) / inject_Z (Z.of_nat total) end.
Definition accuracy (results : list EvaluationResult) : Q := ratio (passed results) (total results).

Section evaluation.
Context {U : UnicodeDb} (read_text : str -> outcome str).

Definition evaluate_case (chunk_chars context_lines max_error_chunks : Z) (case : EvaluationCase)
  : outcome EvaluationResult :=
  let! raw_log := read_text (ec_log_file case) in
  let processed := preprocess_log raw_log chunk_chars context_lines max_error_chunks in
  let classification := classify_log (pp_context processed) None in
  Ok {| er_case_id := ec_case_id case; er_expected_category := ec_expected_category case;
        er_actual_category := cl_category classification;
        er_category_correct := bool_decide (cl_category classification = ec_expected_category case);
        er_evidence_correct := contains (ec_expected_evidence case) (cl_first_error classification);
        er_first_error := cl_first_error classification |}.
Definition evaluate_manifest (cases : list EvaluationCase)
    (chunk_chars context_lines max_error_chunks : Z) : outcome (list EvaluationResult) :=
  omap_list (evaluate_case chunk_chars context_lines max_error_chunks) cases.

(** main: the exit status *)
Definition main_status (cases : list EvaluationCase) (minimum_accuracy : Q) : outcome unit :=
  let! report := evaluate_manifest cases 200000 8 10 in
  if Qltb (accuracy report) minimum_accuracy then Raise (SystemExit 1) else Ok tt.
End evaluation.
