(* ===== verification/PatchEvaluation.v ===== *)
(** * Evaluation of the proposed diffs (src/pipelens/patch_evaluation.py)

    A case runs the proposals and the verification of patching.py on a log, on files and on
    candidate diffs, and compares the accepted diffs with what the case expects.  The cases
    are those pydantic has validated; [read_text] reads below the patches directory. *)

From Stdlib Require Import QArith.
From stdpp Require Import base list strings numbers.
From S2P Require Import Prelude Models Preprocessing Patching Evaluation.

Record CandidatePatch := { cp_file : str; cp_patch_file : str }.
Record PatchEvaluationCase := {
  pc_case_id : str; pc_log_file : str; pc_files : list (str * str);
  pc_candidates : list CandidatePatch; pc_expected_patches : list (str * str);
  pc_expected_rejections : option Z; pc_expected_note : option str }.
Record PatchEvaluationResult := {
  pr_case_id : str; pr_expected_files : list str; pr_verified_files : list str;
  pr_content_correct : bool; pr_expected_rejections : option Z; pr_rejections : Z;
  pr_note_correct : bool }.
Definition PatchEvaluationResult_passed (r : PatchEvaluationResult) : bool :=
  bool_decide (pr_verified_files r = pr_expected_files r)
  && pr_content_correct r
  && match pr_expected_rejections r with None => true | Some n => pr_rejections r =? n end
  && pr_note_correct r.

(** all(f(x) for x in l), any(...): f may raise, and the rest is not asked *)
Fixpoint all_of {A} (f : A -> outcome bool) (l : list A) : outcome bool :=
  match l with
  | [] => Ok true
  | x :: l => let! b := f x in if b : bool then all_of f l else Ok false
  end.
Definition any_of {A} (f : A -> outcome bool) (l : list A) : outcome bool :=
  let! b := all_of (fun x => let! b := f x in Ok (negb b)) l in Ok (negb b).

(** sorted(set(l)) *)
Definition sorted_set (l : list str) : list str := py_sorted str_leb (fromkeys l).

Section evaluation.
Context {U : UnicodeDb} {P : DocParsers} (read_text : str -> outcome str).

Definition read_file (f : str * str) : outcome (str * str) :=
  let! text := read_text (snd f) in Ok (fst f, text).
Definition candidate_suggestion (c : CandidatePatch) : outcome Suggestion :=
  let! patch := read_text (cp_patch_file c) in
  Ok {| sg_description := cp_patch_file c; sg_file := Some (cp_file c); sg_patch := Some patch;
        sg_source := Some LLM; sg_patch_verified := false |}.
Definition evaluation_diagnosis (log : str) (suggestions : list Suggestion) : Diagnosis := {|
  dg_summary := u "evaluation"; dg_root_cause := u "evaluation"; dg_confidence := 1;
  dg_evidence := [{| ev_source := u "log"; ev_content := take 200 log; ev_location := None |}];
  dg_suggestions := suggestions; dg_conflicts := []; dg_notes := [] |}.

(** item.patch_verified and item.file *)
Definition accepted (ss : list Suggestion) : list Suggestion :=
  List.filter (fun s => sg_patch_verified s && truthy (sg_file s)) ss.
(** if item.file == path: expected in apply_unified_diff(files[item.file], item.patch or "") *)
Definition fixes (files : list (str * str)) (path expected : str) (s : Suggestion) : outcome bool :=
  let file := or_str (sg_file s) [] in
  if str_eqb file path then
    match dict_get str_eqb files file with
    | None => Raise (KeyError file)
    | Some content =>
      let! updated := apply_unified_diff content (or_str (sg_patch s) []) in
      Ok (contains expected updated)
    end
  else Ok false.
Definition content_correct (files expected : list (str * str)) (ss : list Suggestion)
  : outcome bool :=
  all_of (fun e => any_of (fixes files (fst e) (snd e)) ss) expected.
Definition rejections (o : outcomes) : nat :=
  foldr (fun kv n => if str_eqb (snd (fst kv)) (u "rejected") then (snd kv + n)%nat else n) 0%nat o.

Definition evaluate_patch_case (case : PatchEvaluationCase) : outcome PatchEvaluationResult :=
  let! raw := read_text (pc_log_file case) in
  let log := pp_context (preprocess_log raw 200000 8 10) in
  let! files := omap_list read_file (pc_files case) in
  let! suggestions := omap_list candidate_suggestion (pc_candidates case) in
  let! bumps := find_version_bumps log in
  let! (verified, o) :=
    propose_and_verify_patches (evaluation_diagnosis log suggestions) bumps files in
  let kept := accepted (dg_suggestions verified) in
  let! correct := content_correct files (pc_expected_patches case) kept in
  Ok {| pr_case_id := pc_case_id case;
        pr_expected_files := py_sorted str_leb (map fst (pc_expected_patches case));
        pr_verified_files := sorted_set (map (fun s => or_str (sg_file s) []) kept);
        pr_content_correct := correct; pr_expected_rejections := pc_expected_rejections case;
        pr_rejections := Z.of_nat (rejections o);
        pr_note_correct := match pc_expected_note case with
                           | None => true
                           | Some note => existsb (contains note) (dg_notes verified)
                           end |}.
Definition evaluate_patch_manifest (cases : list PatchEvaluationCase)
  : outcome (list PatchEvaluationResult) := omap_list evaluate_patch_case cases.
End evaluation.

(** PatchEvaluationReport *)
Definition patches_passed (results : list PatchEvaluationResult) : nat :=
  length (List.filter PatchEvaluationResult_passed results).
Definition patches_accuracy (results : list PatchEvaluationResult) : Q :=
  ratio (patches_passed results) (length results).
Definition patches_verified (results : list PatchEvaluationResult) : nat :=
  foldr (fun r n => (length (pr_verified_files r) + n)%nat) 0%nat results.
Definition patches_rejected (results : list PatchEvaluationResult) : Z :=
  foldr (fun r n => pr_rejections r + n) 0 results.
