(* ===== verification/EvaluationFacts.v ===== *)
(** * What the evaluations measure *)

From Stdlib Require Import QArith Lqa.
From stdpp Require Import base list strings numbers sorting.
From S2P Require Import Prelude Models Classifier Preprocessing Patching Evaluation PatchEvaluation.

(** ** Quantifiers that may raise *)

Lemma all_of_spec {A} (f : A -> outcome bool) (g : A -> bool) l :
  Forall (fun x => f x = Ok (g x)) l -> all_of f l = Ok (forallb g l).
Proof.
  induction 1 as [|x l Hx _ IH]; [done|]. cbn [all_of forallb]. rewrite Hx. cbn [obind].
  by destruct (g x).
Qed.
Lemma any_of_spec {A} (f : A -> outcome bool) (g : A -> bool) l :
  Forall (fun x => f x = Ok (g x)) l -> any_of f l = Ok (existsb g l).
Proof.
  intros H. unfold any_of. rewrite (all_of_spec _ (fun x => negb (g x))).
  - cbn [obind]. f_equal. clear H. induction l as [|x l IH]; [done|]. cbn [forallb existsb].
    rewrite <-IH. by destruct (g x).
  - eapply Forall_impl; [exact H|]. cbn. by intros x ->.
Qed.
Lemma sorted_set_spec l x : x ∈ sorted_set l <-> x ∈ l.
Proof. unfold sorted_set. rewrite py_sorted_perm. apply fromkeys_spec. Qed.
Lemma truthy_or_str o : truthy o = true -> o = Some (or_str o []).
Proof. by destruct o as [[|]|]. Qed.

(** ** The accepted suggestions *)
Section accepted.
Context {U : UnicodeDb} {P : DocParsers}.

Definition unverified (s : Suggestion) : Prop := sg_patch_verified s = false.

Lemma proposals_unverified bumps files ss notes :
  propose_version_patches bumps files = Ok (ss, notes) -> Forall unverified ss.
Proof.
  unfold propose_version_patches. intros (props & H & [= <- _])%obind_Ok.
  apply omap_list_Ok in H. induction H as [|[b [path content]] p l ps Hp _ IH]; [constructor|].
  apply Forall_app. split; [|done]. unfold propose_for in Hp.
  destruct (negb _); [by injection Hp as <-|]. destruct (_is_hash_locked _ _); [by injection Hp as <-|].
  apply obind_Ok in Hp as (updated & _ & [= <-]). by repeat constructor.
Qed.

(** What verification accepts is publishable, and nothing else is. *)
Lemma accepted_publishable ss ss' files :
  Forall unverified ss -> Forall2 (verified_as files) ss ss' ->
  Forall (fun s => publishable s files) (accepted ss').
Proof.
  intros Hu Hv. revert Hu. induction Hv as [|s s' ss ss' Hs _ IH];
    [constructor|]. intros [Hu Hus]%Forall_cons_iff. unfold accepted. cbn [List.filter].
  fold (accepted ss'). destruct (sg_patch_verified s' && truthy (sg_file s')) eqn:E; [|by apply IH].
  constructor; [|by apply IH]. apply andb_true_iff in E as [E _].
  destruct Hs as [[_ ->]|[(_ & Hp & ->)|(_ & _ & ->)]]; [|exact Hp|done].
  unfold unverified in Hu. congruence.
Qed.

(** The fix for [path] makes a text in which [expected] occurs. *)
Definition fix_contains (files : list (str * str)) (path expected : str) (s : Suggestion) : Prop :=
  sg_file s = Some path /\ exists content updated,
    dict_get str_eqb files path = Some content
    /\ apply_unified_diff content (or_str (sg_patch s) []) = Ok updated
    /\ contains expected updated = true.
Definition fixesb (files : list (str * str)) (path expected : str) (s : Suggestion) : bool :=
  match fixes files path expected s with Ok b => b | Raise _ => false end.

Lemma fixes_publishable files path expected s :
  publishable s files ->
  fixes files path expected s = Ok (fixesb files path expected s)
  /\ (fixesb files path expected s = true <-> fix_contains files path expected s).
Proof.
  intros (file & content & updated & patch & Hne & Hf & Hc & Hp & _ & _ & _ & _ & _ & _ & _ & Ha & _).
  unfold fixesb, fixes, fix_contains. rewrite Hf, Hp.
  replace (or_str (Some file) []) with file by (by destruct file).
  destruct (str_eqb file path) eqn:E.
  - apply str_eqb_eq in E as <-. rewrite Hc.
    assert (apply_unified_diff content (or_str (Some patch) []) = Ok updated) as Hu
      by (by destruct patch).
    rewrite Hu. cbn [obind]. split; [done|]. split; [|intros (_ & c & v & [= <-] & Hv & Hx); congruence].
    intros Hx. split; [done|]. by exists content, updated.
  - split; [done|]. split; [done|]. intros ([= ->] & _).
    by rewrite (proj2 (str_eqb_eq _ _) eq_refl) in E.
Qed.

Lemma content_correct_publishable files expected ss :
  Forall (fun s => publishable s files) ss ->
  exists b, content_correct files expected ss = Ok b
    /\ (b = true <-> forall path text, (path, text) ∈ expected ->
         exists s, s ∈ ss /\ fix_contains files path text s).
Proof.
  intros Hss. unfold content_correct.
  rewrite (all_of_spec _ (fun e => existsb (fixesb files (fst e) (snd e)) ss)).
  - eexists. split; [done|]. rewrite forallb_forall. split.
    + intros H path text Hin%list_elem_of_In%H. apply existsb_exists in Hin as (s & Hs & Hx).
      exists s. apply list_elem_of_In in Hs. split; [done|].
      rewrite List.Forall_forall in Hss. by apply fixes_publishable; [apply Hss, list_elem_of_In|].
    + intros H [path text] Hin. destruct (H path text) as (s & Hs & Hx); [by apply list_elem_of_In|].
      apply list_elem_of_In in Hs. apply existsb_exists. exists s. split; [done|].
      rewrite List.Forall_forall in Hss. by apply fixes_publishable; [apply Hss|].
  - apply List.Forall_forall. intros [path text] _. apply any_of_spec.
    eapply Forall_impl; [exact Hss|]. intros s Hs. by apply fixes_publishable.
Qed.
End accepted.

(** The evaluation of the diffs is sound.  Once the files are read and the proposals are
    verified, judging them raises nothing: every diff it counts is publishable for one of
    the case's files, so that its file is there and the diff applies to it; the
    verified files are those of the counted diffs; the content is right exactly when each
    expected text occurs in what some counted diff makes of its file.  Errors are those of
    reading, of the bump search and of the verification. *)
Theorem evaluate_patch_case_spec {U : UnicodeDb} {P : DocParsers} (read_text : str -> outcome str)
    (case : PatchEvaluationCase) :
  match evaluate_patch_case read_text case with
  | Ok r => exists files ss,
      Forall2 (fun f g => fst g = fst f /\ read_text (snd f) = Ok (snd g)) (pc_files case) files
      /\ Forall (fun s => publishable s files) ss
      /\ (forall path, path ∈ pr_verified_files r <-> exists s, s ∈ ss /\ sg_file s = Some path)
      /\ (pr_content_correct r = true <->
          forall path text, (path, text) ∈ pc_expected_patches case ->
            exists s, s ∈ ss /\ fix_contains files path text s)
      /\ pr_expected_files r ≡ₚ map fst (pc_expected_patches case)
  | Raise e =>
      (exists path, read_text path = Raise e) \/ (exists log, find_version_bumps log = Raise e)
      \/ exists d bumps files, propose_and_verify_patches d bumps files = Raise e
  end.
Proof.
  unfold evaluate_patch_case.
  destruct (read_text _) as [raw|e] eqn:Er; [cbn [obind]|left; eauto].
  destruct (omap_list (read_file read_text) _) as [files|e] eqn:Ef; cbn [obind].
  2:{ left. apply omap_list_error in Ef as ([p src] & _ & H). unfold read_file in H. cbn in H.
      destruct (read_text src) eqn:E; [done|]. exists src. cbn in H. congruence. }
  destruct (omap_list (candidate_suggestion read_text) _) as [cs|e] eqn:Ec; cbn [obind].
  2:{ left. apply omap_list_error in Ec as (c & _ & H). unfold candidate_suggestion in H.
      destruct (read_text _) eqn:E in H; [done|]. exists (cp_patch_file c). cbn in H. congruence. }
  destruct (find_version_bumps _) as [bumps|e] eqn:Eb; cbn [obind]; [|right; left; eauto].
  destruct (propose_and_verify_patches _ _ _) as [[d o]|e] eqn:Ev; cbn [obind];
    [|right; right; eauto].
  assert (Forall (fun s => publishable s files) (accepted (dg_suggestions d))) as Hacc.
  { unfold propose_and_verify_patches in Ev.
    apply obind_Ok in Ev as ([rs ns] & Hp & Ev). apply proposals_unverified in Hp.
    unfold verify_patch_suggestions in Ev. cbn [dg_suggestions with_suggestions] in Ev.
    match type of Ev with obind (verify_each ?ss ?fs ?k ?n ?o0) _ = _ =>
      pose proof (verify_each_spec fs ss k n o0) as Hv end.
    destruct (verify_each _ _ _ _ _) as [[[kept notes] o']|]; [|done]. injection Ev as <- _.
    destruct Hv as (ss' & ? & -> & _ & Hv & _). cbn [dg_suggestions with_suggestions app].
    eapply accepted_publishable; [|exact Hv]. apply Forall_app. split; [done|].
    apply omap_list_Ok in Ec. clear -Ec. induction Ec as [|c s cs ss H _ IH]; [constructor|].
    constructor; [|done]. unfold candidate_suggestion in H.
    by apply obind_Ok in H as (? & _ & [= <-]). }
  destruct (content_correct_publishable files (pc_expected_patches case) _ Hacc) as (b & Hb & Hbs).
  rewrite Hb. cbn [obind]. exists files, (accepted (dg_suggestions d)).
  cbn [pr_verified_files pr_content_correct pr_expected_files].
  split_and!; [|done| |done|apply py_sorted_perm].
  - apply omap_list_Ok in Ef. eapply Forall2_impl; [exact Ef|]. intros [p src] g H.
    unfold read_file in H. cbn in H |- *. by apply obind_Ok in H as (t & Ht & [= <-]).
  - intros path. rewrite sorted_set_spec, list_elem_of_In, in_map_iff. split.
    + intros (s & <- & Hs). exists s. split; [by apply list_elem_of_In|].
      apply List.filter_In in Hs as [_ [_ Hs]%andb_true_iff]. by apply truthy_or_str.
    + intros (s & Hs & Hf). exists s. split; [rewrite Hf; by destruct path|by apply list_elem_of_In].
Qed.

(** ** A scenario of the repository

    rule-pip-and-valid-llm-together of evaluation/patch_scenarios.json, with the files of
    evaluation/patches, and the rejected candidate of llm-stale-context-rejected. *)

Definition scenario_files (path : str) : outcome str :=
  if str_eqb path (u "pip-unsatisfied.log") then Ok (u "2026-10-30T03:01:12Z Run python -m pip install pip==0.0.0
ERROR: Ignored the following yanked versions: 0.2
ERROR: Could not find a version that satisfies the requirement pip==0.0.0 (from versions: 25.3, 26.1.2, 26.2.2)
ERROR: No matching distribution found for pip==0.0.0
##[error]Process completed with exit code 1.
")
  else if str_eqb path (u "workflow.yml") then Ok (u "name: CI
on: push
permissions:
  contents: read
jobs:
  test:
    runs-on: ubuntu-latest
    timeout-minutes: 10
    steps:
      - uses: actions/checkout@3d3c42e5aac5ba805825da76410c181273ba90b1 # v7.0.1
      - run: python -m pip install pip==0.0.0
      - run: pytest
")
  else if str_eqb path (u "llm-timeout.diff") then Ok (u "--- a/.github/workflows/ci.yml
+++ b/.github/workflows/ci.yml
@@ -6,5 +6,5 @@
   test:
     runs-on: ubuntu-latest
-    timeout-minutes: 10
+    timeout-minutes: 20
     steps:
       - uses: actions/checkout@3d3c42e5aac5ba805825da76410c181273ba90b1 # v7.0.1
")
  else if str_eqb path (u "llm-stale-context.diff") then Ok (u "--- a/.github/workflows/ci.yml
+++ b/.github/workflows/ci.yml
@@ -6,5 +6,5 @@
   test:
     runs-on: ubuntu-latest
-    timeout-minutes: 5
+    timeout-minutes: 15
     steps:
       - uses: actions/checkout@3d3c42e5aac5ba805825da76410c181273ba90b1 # v7.0.1
")
  else Raise (OtherException (u "FileNotFoundError")).
Definition any_document : DocParsers := {|
  yaml_safe_load_all := fun _ => Parses; tomllib_loads := fun _ => Parses |}.
Definition pip_scenario (candidate : str) : PatchEvaluationCase := {|
  pc_case_id := u "rule-pip-and-valid-llm-together"; pc_log_file := u "pip-unsatisfied.log";
  pc_files := [(u ".github/workflows/ci.yml", u "workflow.yml")];
  pc_candidates := [{| cp_file := u ".github/workflows/ci.yml"; cp_patch_file := candidate |}];
  pc_expected_patches := [(u ".github/workflows/ci.yml", u "pip install pip==26.2.2")];
  pc_expected_rejections := Some 0; pc_expected_note := None |}.
Definition outcome_of (candidate : str) : option (bool * bool * Z) :=
  match @evaluate_patch_case ascii_db any_document scenario_files (pip_scenario candidate) with
  | Ok r => Some (PatchEvaluationResult_passed r, pr_content_correct r, pr_rejections r)
  | Raise _ => None
  end.

Example pip_scenario_passes : outcome_of (u "llm-timeout.diff") = Some (true, true, 0).
Proof. vm_compute. reflexivity. Qed.
Example stale_candidate_is_counted : outcome_of (u "llm-stale-context.diff") = Some (false, true, 1).
Proof. vm_compute. reflexivity. Qed.
