(* ===== verification/Bootstrap.v ===== *)
(** * Wiring (src/pipelens/bootstrap.py, run_worker of worker.py)

    [create_runtime]: the store, the retry policy, the GitHub client, the language model, the
    pipeline and the queue that the settings describe, with the errors of their constructors;
    [create_worker]: the rest of the start, up to the worker's loops; and the parts put
    together: the pipeline over the retrying clients, the worker over the pipeline.  What the
    drivers do on the way ([Drivers]) is a parameter, and may fail. *)

From Stdlib Require Import QArith Qround.
From stdpp Require Import base list strings numbers.
From S2P Require Import Prelude Models Json HttpRetry Llm Patching Store Queue Metrics GitHub GitHubApi Pipeline Worker Config ConfigFacts.

Set Default Proof Using "Type".

(** The calls of the start into libraries, each of which raises or returns: SQLAlchemy's
    create_engine (an address it cannot parse, an unknown dialect) and metadata.create_all
    (a database out of reach), Redis.from_url (an unknown scheme) and prometheus_client's
    start_http_server (a port in use). *)
Class Drivers := {
  create_engine : str -> outcome unit;
  metadata_create_all : str -> outcome unit;
  redis_from_url : str -> outcome unit;
  start_http_server : Z -> outcome unit
}.

Record Runtime := {
  rt_database_url : str;
  rt_retry_policy : RetryPolicy;
  rt_app_id : option str; rt_private_key : option str; rt_max_log_bytes : Z;
  rt_llm_provider : option OpenAIResponsesProvider;
  rt_pipeline : PipelineSettings;
  rt_queue : Queue.queue_backend
}.

(** t seconds: the durations of up to that length are those of at most so many
    microseconds *)
Definition microseconds (t : Q) : Z := Qfloor (t * inject_Z 1000000).
Definition pipeline_settings (s : Settings) : PipelineSettings := {|
  set_log_chunk_chars := log_chunk_chars s; set_error_context_lines := error_context_lines s;
  set_max_error_chunks := max_error_chunks s;
  set_llm_input_cost_per_million := llm_input_cost_per_million s;
  set_llm_output_cost_per_million := llm_output_cost_per_million s;
  set_publish_checks := publish_checks s; set_public_url := public_url s;
  set_analysis_start_slo := microseconds (analysis_start_slo_seconds s);
  set_analysis_completion_slo := microseconds (analysis_completion_slo_seconds s) |}.

(** RetryPolicy(max_attempts=..., base_delay_seconds=..., max_delay_seconds=...) *)
Definition retry_policy (s : Settings) : RetryPolicy := {|
  max_attempts := http_retry_max_attempts s; base_delay_seconds := http_retry_base_seconds s;
  max_delay_seconds := http_retry_max_seconds s; jitter_ratio := jitter_ratio default_policy |}.

Definition create_llm_provider (s : Settings) (policy : RetryPolicy)
  : outcome (option OpenAIResponsesProvider) :=
  if str_eqb (llm_provider s) (u "openai") then
    match openai_api_key s with
    | Some ((_ :: _) as key) => Ok (Some {|
        op_api_key := key; op_model_name := openai_model s;
        op_max_input_chars := max_llm_input_chars s; op_retry_policy := policy;
        op_on_retry := true |})
    | _ => Raise (ValueError (u "PIPELENS_OPENAI_API_KEY is required for the OpenAI provider"))
    end
  else if str_eqb (llm_provider s) (u "none") then Ok None
  else Raise (ValueError (u "unsupported LLM provider: " ++ llm_provider s)).

Definition _normalize_database_url (value : str) : str :=
  if contains (u "://") value then value else u "sqlite:///" ++ value.
(** AnalysisStore(url): its address. *)
Definition AnalysisStore `{Drivers} (database_url : str) : outcome str :=
  let url := _normalize_database_url database_url in
  let! _ := create_engine url in
  Ok url.

Section start.
Context `{Drivers}.

(** [uuid]: the worker id create_queue makes up. *)
Definition create_runtime (uuid : str) (s : Settings) : outcome Runtime :=
  let! store := AnalysisStore (resolved_database_url s) in
  let! policy := check_policy (retry_policy s) in
  let! llm := create_llm_provider s policy in
  let! queue := create_queue redis_from_url (queue_backend s) (redis_url s) (queue_name s) None
                  uuid (worker_lease_seconds s) in
  Ok {| rt_database_url := store; rt_retry_policy := policy;
        rt_app_id := github_app_id s; rt_private_key := github_private_key s;
        rt_max_log_bytes := max_log_bytes s; rt_llm_provider := llm;
        rt_pipeline := pipeline_settings s; rt_queue := queue |}.

(** run_worker up to the worker's loop: the runtime, the tables, the server of the metrics
    and the worker's own check. *)
Definition create_worker (uuid : str) (s : Settings) : outcome Runtime :=
  let! runtime := create_runtime uuid s in
  let! _ := metadata_create_all (rt_database_url runtime) in
  let! _ := start_http_server (worker_metrics_port s) in
  let! _ := check_heartbeat (worker_heartbeat_seconds s) in
  Ok runtime.
End start.

(** ** The parts put together *)
Section wiring.
Context {U : UnicodeDb} {DL : Dialect} {DP : DocParsers} {HE : HttpEnv} {L : Libraries}
  {E : Env HttpTrace}.
(** f"{x:.0%}", float.__repr__, pydantic's parser and schema of LLMAnalysis, its integers,
    uuid4; [fuel] bounds the pages of a listing. *)
Context (percent : Q -> str) (float_repr : Q -> str) (parse_analysis : str -> option LLMAnalysis)
  (analysis_schema : json) (pydantic_int : json -> option Z) (uuid4 : HttpTrace -> str)
  (fuel : nat).

Definition runtime_github (rt : Runtime) : GitHubClient HttpTrace :=
  RetryingGitHubClient (rt_retry_policy rt) true (rt_app_id rt) (rt_private_key rt)
    (rt_max_log_bytes rt) fuel.
Definition runtime_llm (rt : Runtime) : option (LLMProvider HttpTrace) :=
  option_map (fun p => {|
    lp_model_name := op_model_name p;
    lp_analyze := provider_analyze float_repr parse_analysis analysis_schema pydantic_int uuid4 p |})
    (rt_llm_provider rt).
Definition runtime_analyze (rt : Runtime) : AnalysisRequest -> M (World HttpTrace) unit :=
  analyze (G := runtime_github rt) percent (rt_pipeline rt) (runtime_llm rt).

(** run_worker on its runtime: the first [steps] iterations of the worker's loops, which
    wait for the heartbeat's seconds after an outage. *)
Definition run_worker {S : Type} {AQ : AnalysisQueue S} (monotonic : HttpTrace -> Z * HttpTrace)
    (sleep : Q -> HttpTrace -> HttpTrace) (s : Settings) (rt : Runtime) (steps : nat)
  : M (WorkerState S HttpTrace) unit :=
  run (runtime_analyze rt) monotonic (sleep (worker_heartbeat_seconds s)) (worker_max_attempts s)
    steps.
End wiring.

(** ** Settings that pass the validator make a worker *)

(** ** The constructors *)

Lemma check_policy_iff p q : check_policy p = Ok q <-> q = p /\ policy_ok p.
Proof.
  split; [apply check_policy_ok|]. intros (-> & Hm & Hb & Hx & Hj0 & Hj). unfold check_policy.
  replace (_ <? _) with false by lia.
  replace (Qltb (base_delay_seconds p) 0) with false by (symmetry; by apply Qltb_ge).
  replace (Qltb (max_delay_seconds p) 0) with false by (symmetry; by apply Qltb_ge).
  apply Qle_bool_iff in Hj0, Hj. by rewrite Hj0, Hj.
Qed.

(** The language model the settings ask for. *)
Definition provider_configured (s : Settings) (r : option OpenAIResponsesProvider) : Prop :=
  (llm_provider s = u "none" /\ r = None)
  \/ (llm_provider s = u "openai" /\ exists p, r = Some p /\ op_api_key p <> []
      /\ openai_api_key s = Some (op_api_key p) /\ op_model_name p = openai_model s
      /\ op_max_input_chars p = max_llm_input_chars s /\ op_retry_policy p = retry_policy s
      /\ op_on_retry p = true).
Lemma create_llm_provider_spec s r :
  create_llm_provider s (retry_policy s) = Ok r <-> provider_configured s r.
Proof.
  unfold create_llm_provider, provider_configured. split.
  - destruct (str_eqb _ _) eqn:E; [apply str_eqb_eq in E|].
    + destruct (openai_api_key s) as [[|c k]|]; [done| |done]. intros [= <-]. right.
      split; [done|]. eexists. by split.
    + destruct (str_eqb _ (u "none")) eqn:E'; [|done]. apply str_eqb_eq in E'.
      intros [= <-]. by left.
  - intros [[-> ->]|(-> & p & -> & Hk & -> & Hm & Hi & Hp & Ho)]; [reflexivity|].
    destruct p as [k m i q o]; cbn in *; subst. destruct k; [done|reflexivity].
Qed.

Section start_facts.
Context `{Drivers}.

(** The queue: in memory, or Redis at an address its driver takes, with a lease of at least
    a second. *)
Definition queue_configured (uuid : str) (s : Settings) (q : Queue.queue_backend) : Prop :=
  (queue_backend s = u "memory" /\ q = MemoryBackend)
  \/ (queue_backend s = u "redis" /\ redis_from_url (redis_url s) = Ok tt
      /\ 1 <= worker_lease_seconds s
      /\ q = RedisBackend {| rq_name := queue_name s; rq_worker_id := uuid;
                             rq_lease_seconds := worker_lease_seconds s |}).
Lemma create_queue_spec uuid s q :
  create_queue redis_from_url (queue_backend s) (redis_url s) (queue_name s) None uuid
    (worker_lease_seconds s) = Ok q
  <-> queue_configured uuid s q.
Proof.
  unfold create_queue, from_url, check_redis_queue, queue_configured. cbn [rq_lease_seconds]. split.
  - destruct (str_eqb _ _) eqn:E; [apply str_eqb_eq in E; intros [= <-]; by left|].
    destruct (str_eqb _ (u "redis")) eqn:E'; [|done]. apply str_eqb_eq in E'.
    destruct (redis_from_url _) as [[]|]; [|done]. cbn [obind].
    destruct (Z.ltb_spec (worker_lease_seconds s) 1); [done|]. intros [= <-]. by right.
  - intros [[-> ->]|(-> & -> & Hl & ->)]; [reflexivity|]. cbn [obind].
    destruct (Z.ltb_spec (worker_lease_seconds s) 1); [lia|reflexivity].
Qed.

(** The address of the store. *)
Definition store_url (s : Settings) : str := _normalize_database_url (resolved_database_url s).

Lemma create_runtime_spec uuid s rt :
  create_runtime uuid s = Ok rt <->
  create_engine (store_url s) = Ok tt
  /\ policy_ok (retry_policy s) /\ provider_configured s (rt_llm_provider rt)
  /\ queue_configured uuid s (rt_queue rt)
  /\ rt_retry_policy rt = retry_policy s /\ rt_database_url rt = store_url s
  /\ (rt_app_id rt, rt_private_key rt, rt_max_log_bytes rt)
     = (github_app_id s, github_private_key s, max_log_bytes s)
  /\ rt_pipeline rt = pipeline_settings s.
Proof.
  unfold create_runtime, AnalysisStore. rewrite <-create_llm_provider_spec, <-create_queue_spec.
  fold (store_url s). split.
  - intros (url & Hs & (p & (-> & Hp)%check_policy_iff & Hr)%obind_Ok)%obind_Ok.
    apply obind_Ok in Hs as ([] & He & [= <-]).
    apply obind_Ok in Hr as (l & Hl & Hr). apply obind_Ok in Hr as (q & Hq & [= <-]). by split.
  - intros (He & Hp & Hl & Hq & H1 & H2 & [= H3 H4 H5] & H6). rewrite He. cbn [obind].
    rewrite (proj2 (check_policy_iff _ _) (conj eq_refl Hp)). cbn [obind]. rewrite Hl. cbn [obind].
    rewrite Hq. cbn [obind]. destruct rt; cbn in *. by subst.
Qed.
End start_facts.

Lemma check_heartbeat_spec t r : check_heartbeat t = Ok r <-> r = t /\ (0 < t)%Q.
Proof.
  unfold check_heartbeat. destruct (Qle_bool t 0) eqn:E.
  - apply Qle_bool_iff in E. split; [done|]. intros [_ H]. by apply Qlt_not_le in H.
  - split; [intros [= <-]; split; [done|]|by intros [-> _]].
    apply Qnot_le_lt. intros H%Qle_bool_iff. congruence.
Qed.

(** Durations of microseconds against a threshold in seconds. *)
Lemma microseconds_spec (t : Q) (d : Z) :
  d <= microseconds t <-> (inject_Z d / inject_Z 1000000 <= t)%Q.
Proof.
  assert (0 < inject_Z 1000000)%Q as H by reflexivity.
  unfold microseconds. split; intros Hd.
  - apply Qle_shift_div_r; [done|]. eapply Qle_trans; [|apply Qfloor_le]. by rewrite <-Zle_Qle.
  - rewrite <-(Qfloor_Z d). apply Qfloor_resp_le.
    assert (inject_Z d == inject_Z d / inject_Z 1000000 * inject_Z 1000000)%Q as E by (field; done).
    rewrite E. apply Qmult_le_compat_r; [done|by apply Qlt_le_weak].
Qed.

(** C23: with settings that the validator accepts, the worker starts -- it reaches its loops
    -- exactly if the values the validator does not look at are usable (the retry policy's
    bounds, a known language model with its API key, a known queue) and each driver does its
    part: the engine takes the database's address, the tables can be created, the port of
    the metrics is free and, for Redis, the driver takes its address.  The worker then has
    the database, the retry policy, the model and the GitHub App that the settings name, its
    heartbeat comes before the queue's lease runs out, and the pipeline's SLO thresholds, in
    microseconds, count exactly the durations up to the settings' seconds; in production the
    queue is Redis. *)
Theorem worker_starts {U : UnicodeDb} `{Drivers} (uni_isdigit : N -> bool) `{SecretFiles}
    (src : SecretSources) (s0 s : Settings) (uuid : str) :
  resolve_secrets_and_validate uni_isdigit src s0 = Ok s ->
  ((exists rt, create_worker uuid s = Ok rt) <->
     policy_ok (retry_policy s) /\ (exists l, provider_configured s l)
     /\ (queue_backend s = u "memory"
         \/ (queue_backend s = u "redis" /\ redis_from_url (redis_url s) = Ok tt))
     /\ create_engine (store_url s) = Ok tt /\ metadata_create_all (store_url s) = Ok tt
     /\ start_http_server (worker_metrics_port s) = Ok tt)
  /\ (environment s = PRODUCTION -> queue_backend s = u "redis")
  /\ forall rt, create_worker uuid s = Ok rt ->
     rt_database_url rt = store_url s
     /\ rt_retry_policy rt = retry_policy s /\ provider_configured s (rt_llm_provider rt)
     /\ queue_configured uuid s (rt_queue rt)
     /\ (rt_app_id rt, rt_private_key rt) = (github_app_id s, github_private_key s)
     /\ (forall q, rt_queue rt = RedisBackend q ->
          (worker_heartbeat_seconds s < inject_Z (rq_lease_seconds q))%Q)
     /\ (forall d, d <= set_analysis_completion_slo (rt_pipeline rt) <->
          (inject_Z d / inject_Z 1000000 <= analysis_completion_slo_seconds s)%Q)
     /\ (forall d, d <= set_analysis_start_slo (rt_pipeline rt) <->
          (inject_Z d / inject_Z 1000000 <= analysis_start_slo_seconds s)%Q).
Proof.
  intros (_ & (Hl & Hh & Hhl & _) & Hprod)%validated_bounds.
  assert (forall rt, create_worker uuid s = Ok rt <-> create_runtime uuid s = Ok rt
    /\ metadata_create_all (store_url s) = Ok tt
    /\ start_http_server (worker_metrics_port s) = Ok tt) as Hw.
  { intros rt. unfold create_worker.
    destruct (create_runtime uuid s) as [rt'|e] eqn:Ert; [|by split; [|intros [? _] ] ].
    cbn [obind]. apply create_runtime_spec in Ert as (_ & _ & _ & _ & _ & -> & _).
    destruct (metadata_create_all _) as [[]|]; [|by split; [|intros (_ & ? & _)] ]. cbn [obind].
    destruct (start_http_server _) as [[]|]; [|by split; [|intros (_ & _ & ?)] ]. cbn [obind].
    rewrite (proj2 (check_heartbeat_spec _ _) (conj eq_refl Hh)). cbn [obind].
    split; [by intros ->|by intros [-> _] ]. }
  split_and!.
  - setoid_rewrite Hw. setoid_rewrite create_runtime_spec. split.
    + intros (rt & (He & Hp & Hm & Hq & _) & Hc & Hs). split_and!; try done; [eauto|].
      destruct Hq as [[? _]|(? & ? & _)]; auto.
    + intros (Hp & [l Hm] & Hq & He & Hc & Hs).
      assert (exists q, queue_configured uuid s q) as [q Hcq]
        by (unfold queue_configured; destruct Hq as [Hq|[Hq Hu] ]; eauto 8).
      by exists (Build_Runtime (store_url s) (retry_policy s) (github_app_id s)
        (github_private_key s) (max_log_bytes s) l (pipeline_settings s) q).
  - intros Hp. apply (pr_queue _ _ (Hprod Hp)).
  - intros rt [(_ & _ & Hm & Hq & Hr & Hd & [= Ha Hk _] & Hs)%create_runtime_spec _]%Hw.
    rewrite Hs, Ha, Hk. cbn [set_analysis_completion_slo set_analysis_start_slo pipeline_settings].
    split_and!; auto using microseconds_spec.
    intros q Hrq. destruct Hq as [[_ Hq]|(_ & _ & _ & Hq)]; [congruence|].
    rewrite Hrq in Hq. by injection Hq as ->.
Qed.

(** Drivers that refuse an empty address, an unknown scheme and the port 0. *)
#[local] Instance sample_drivers : Drivers := {|
  create_engine := fun url => if str_eqb url [] then Raise (ValueError (u "no address")) else Ok tt;
  metadata_create_all := fun _ => Ok tt;
  redis_from_url := fun url => if starts_with (u "redis://") url then Ok tt
                               else Raise (ValueError (u "unknown scheme"));
  start_http_server := fun port => if port =? 0 then Raise (ValueError (u "port")) else Ok tt |}.

Lemma worker_starts_witness :
  exists s rt, @resolve_secrets_and_validate ascii_db (fun _ => false) sample_files sample_sources
      sample_settings = Ok s
    /\ create_worker (u "worker-1") s = Ok rt
    /\ redis_from_url (redis_url s) = Ok tt
    /\ forall q, rt_queue rt = RedisBackend q ->
         (worker_heartbeat_seconds s < inject_Z (rq_lease_seconds q))%Q.
Proof.
  assert (exists s rt, @resolve_secrets_and_validate ascii_db (fun _ => false) sample_files
      sample_sources sample_settings = Ok s /\ create_worker (u "worker-1") s = Ok rt
      /\ redis_from_url (redis_url s) = Ok tt)
    as (s & rt & Hs & Hrt & Hu) by (do 2 eexists; repeat split; vm_compute; reflexivity).
  exists s, rt. split; [exact Hs|]. split; [exact Hrt|]. split; [exact Hu|].
  destruct (@worker_starts ascii_db sample_drivers (fun _ => false) sample_files sample_sources
    sample_settings s (u "worker-1") Hs) as (_ & _ & H).
  apply (H rt Hrt).
Defined.
