(* ===== verification/Registry.v ===== *)
(** * Audit of the container registry (ops/ghcr/audit_retention.py)

    The retention policy of the published images, and the audit: what a registry answers
    ([Answers]) is read into an inventory per package, and the inventories are checked. *)

From Stdlib Require Import QArith.
From stdpp Require Import base list gmap strings numbers fin_sets.
From S2P Require Import Prelude Text Regex RegexFacts Json.

Set Default Proof Using "Type".

Definition SEMVER_TAG : pattern :=
  re_compile "^v(0|[1-9][0-9]*)\.(0|[1-9][0-9]*)\.(0|[1-9][0-9]*)$".
Definition DIGEST : pattern := re_compile "^sha256:[0-9a-f]{64}$".
Definition DIGEST_TAG : pattern := re_compile "^sha256-[0-9a-f]{64}$".
Definition NAME : pattern := re_compile "^[A-Za-z0-9](?:[A-Za-z0-9._-]*[A-Za-z0-9])?$".
Definition MANIFEST_TYPES : str := str_join (u ", ")
  [u "application/vnd.oci.image.index.v1+json";
   u "application/vnd.docker.distribution.manifest.list.v2+json";
   u "application/vnd.oci.image.manifest.v1+json";
   u "application/vnd.docker.distribution.manifest.v2+json"].

Record PackageInventory := {
  name : str; tags : gset str; release_digests : list (str * str) }.

(** AuditError, a RuntimeError *)
Definition AuditError {A} (parts : list str) : outcome A := Raise (RuntimeError (concat parts)).

Section audit.
Context {U : UnicodeDb}.
(** repr of a string and of a list of strings *)
Context (repr : str -> str) (repr_list : list str -> str).

(** sorted(set) *)
Definition sorted_tags (s : gset str) : list str := py_sorted str_leb (elements s).

(** s.replace(":", "-", 1) *)
Fixpoint replace_colon (s : str) : str :=
  match s with
  | [] => []
  | c :: r => if (c =? 58)%N then 45%N :: r else c :: replace_colon r
  end.
Definition digest_tag (digest : str) : outcome str :=
  if re_fullmatch DIGEST digest then Ok (replace_colon digest)
  else AuditError [u "invalid manifest digest: "; repr digest].

Definition matching (p : pattern) (s : gset str) : gset str :=
  list_to_set (List.filter (re_fullmatch p) (elements s)).
Definition release_tags (i : PackageInventory) : gset str := matching SEMVER_TAG (tags i).
Definition digest_tags (i : PackageInventory) : gset str := matching DIGEST_TAG (tags i).

(** The attestation tags that the release digests ask for, and the complaints about
    digests that are none. *)
Fixpoint expected_tags (label : str) (digests : list (str * str)) : gset str * list str :=
  match digests with
  | [] => (∅, [])
  | (tag, digest) :: rest =>
    let (found, errors) := expected_tags label rest in
    match digest_tag digest with
    | Ok t => ({[t]} ∪ found, errors)
    | Raise (RuntimeError e) => (found, (label ++ u ":" ++ tag ++ u ": " ++ e) :: errors)
    | Raise _ => (found, errors)
    end
  end.

Definition complain (b : bool) (parts : list str) : list str := if b then [concat parts] else [].
Definition inventory_errors (i : PackageInventory) : list str :=
  let unexpected := tags i ∖ release_tags i ∖ digest_tags i in
  let (expected, invalid) := expected_tags (name i) (release_digests i) in
  let missing := expected ∖ digest_tags i in
  let orphaned := digest_tags i ∖ expected in
  complain (bool_decide (unexpected <> ∅))
    [name i; u ": unexpected tags: "; repr_list (sorted_tags unexpected)]
  ++ complain (bool_decide (release_tags i = ∅)) [name i; u ": no SemVer release tags"]
  ++ complain (negb (bool_decide (list_to_set (map fst (release_digests i)) = release_tags i)))
       [name i; u ": digest inventory does not match release tags"]
  ++ invalid
  ++ complain (bool_decide (missing <> ∅))
       [name i; u ": missing attestation tags: "; repr_list (sorted_tags missing)]
  ++ complain (bool_decide (orphaned <> ∅))
       [name i; u ": orphaned attestation tags: "; repr_list (sorted_tags orphaned)].
Definition release_errors (first other : PackageInventory) : list str :=
  complain (negb (bool_decide (release_tags other = release_tags first)))
    [name other; u ": release tags differ from "; name first; u ": ";
     repr_list (sorted_tags (release_tags other)); u " != ";
     repr_list (sorted_tags (release_tags first))].

Definition validate_inventories (inventories : list PackageInventory) : outcome (list str) :=
  match inventories with
  | first :: ((_ :: _) as others) =>
    match flat_map inventory_errors inventories ++ flat_map (release_errors first) others with
    | [] => Ok (sorted_tags (release_tags first))
    | errors => AuditError [str_join nl errors]
    end
  | _ => AuditError [u "at least two package inventories are required"]
  end.

(** ** The registry *)

Record UrlRequest := { ur_url : str; ur_method : str; ur_headers : list (str * str) }.
(** urlopen: [json] the decoded body, or the text of an error; [header] the
    Docker-Content-Digest header, empty when there is none. *)
Class Answers := {
  answer_json : UrlRequest -> json + str;
  answer_digest : UrlRequest -> str + str
}.
Context {R : Answers}.

Definition agent : str * str := (u "User-Agent", u "PipeLens-GHCR-Audit/1").
Definition _read_json (request : UrlRequest) : outcome json :=
  match answer_json request with
  | inr error => AuditError [u "registry request failed: "; ur_url request; u ": "; error]
  | inl ((JObj _) as payload) => Ok payload
  | inl _ => AuditError [u "registry returned a non-object response: "; ur_url request]
  end.
Definition _token (repository : str) : outcome str :=
  let! query := urlencode [(u "scope", u "repository:" ++ repository ++ u ":pull")] in
  let! payload := _read_json {| ur_url := u "https://ghcr.io/token?" ++ query; ur_method := u "GET";
                                ur_headers := [agent] |} in
  let! token := jget payload (u "token") in
  let! access := jget payload (u "access_token") in
  match jor token access with
  | JStr ((_ :: _) as token) => Ok token
  | _ => AuditError [u "GHCR did not issue a pull token for "; repository]
  end.
Definition _request (url token method : str) : UrlRequest := {|
  ur_url := url; ur_method := method;
  ur_headers := [(u "Accept", MANIFEST_TYPES); (u "Authorization", u "Bearer " ++ token); agent] |}.
(** [str(x) for x in l], if they are all strings *)
Fixpoint all_strings (l : list json) : option (list str) :=
  match l with
  | [] => Some []
  | JStr s :: l => option_map (cons s) (all_strings l)
  | _ => None
  end.
(** quote(tag, safe="") of a SemVer tag, in which no character needs it, is the tag. *)
Definition release_digest (repository token tag : str) : outcome (str * str) :=
  match answer_digest (_request (u "https://ghcr.io/v2/" ++ repository ++ u "/manifests/" ++ tag)
                         token (u "HEAD")) with
  | inl digest => Ok (tag, digest)
  | inr error => AuditError [u "manifest request failed: "; repository; u ":"; tag; u ": "; error]
  end.
(** [namespace] is the client's, in lower case. *)
Definition inventory (namespace package : str) : outcome PackageInventory :=
  if negb (re_fullmatch NAME package)
  then AuditError [u "invalid GHCR package name: "; repr package]
  else
    let repository := namespace ++ u "/" ++ lower package in
    let! token := _token repository in
    let! payload := _read_json
      (_request (u "https://ghcr.io/v2/" ++ repository ++ u "/tags/list?n=1000") token (u "GET")) in
    let! value := jget payload (u "tags") in
    match value with
    | JArr l =>
      match all_strings l with
      | Some names =>
        let tags : gset str := list_to_set names in
        let! digests := omap_list (release_digest repository token)
                          (sorted_tags (matching SEMVER_TAG tags)) in
        Ok {| name := repository; tags := tags; release_digests := digests |}
      | None => AuditError [repository; u ": invalid tags response"]
      end
    | _ => AuditError [repository; u ": invalid tags response"]
    end.
(** RegistryClient(namespace) *)
Definition registry_client (namespace : str) : outcome str :=
  if re_fullmatch NAME namespace then Ok (lower namespace)
  else AuditError [u "invalid GHCR namespace: "; repr namespace].

(** main: the exit status and the releases it prints *)
Definition audit (namespace : str) (packages : list str) : outcome (list str) :=
  let! client := registry_client namespace in
  let! inventories := omap_list (inventory client) packages in
  validate_inventories inventories.
Definition main_status (namespace : str) (packages : option (list str)) : Z :=
  let packages := match packages with
                  | Some ((_ :: _) as l) => l
                  | _ => [u "pipelens-api"; u "pipelens-dashboard"] end in
  match audit namespace packages with Ok _ => 0 | Raise _ => 1 end.
End audit.

(** ** What a passing audit means *)

Lemma difference_empty (a b : gset str) : a ∖ b = ∅ <-> forall t, t ∈ a -> t ∈ b.
Proof.
  split.
  - intros H t Ha. destruct (decide (t ∈ b)) as [|Hb]; [done|].
    assert (t ∈ a ∖ b) as Hd by (by apply elem_of_difference). rewrite H in Hd.
    by apply elem_of_empty in Hd.
  - intros H. apply set_eq. intros t. rewrite elem_of_difference, elem_of_empty. split; [|done].
    intros [Ha Hb]. by destruct Hb; apply H.
Qed.

Section audit_facts.
Context {U : UnicodeDb}.

(** ** The shapes of digests and tags *)

Definition hex_class : cset := CSet false [IRange 48 57; IRange 97 102].
Definition hex_text (s : str) : Prop :=
  length s = 64%nat /\ Forall (fun c => cset_has false hex_class c = true) s.
Definition literal (s : str) : list cset := map (fun c => CSet false [IChar c]) s.

Lemma literal_hex_spec t s :
  Forall2 (fun k c => cset_has false k c = true) (literal t ++ repeat hex_class 64) s
  <-> exists h, s = t ++ h /\ hex_text h.
Proof.
  revert s. induction t as [|x t IH]; intros s; cbn [literal map app].
  - unfold hex_text. split.
    + intros H. exists s. split; [done|]. split; [by apply Forall2_length in H|].
      clear -H. revert H. generalize 64%nat. intros n. revert s. induction n as [|n IH]; intros s H.
      { by apply Forall2_nil_inv_l in H as ->. }
      apply Forall2_cons_inv_l in H as (y & s' & Hy & H & ->). constructor; auto.
    + intros (h & -> & Hl & Hh). rewrite <-Hl. clear Hl. induction Hh; constructor; auto.
  - split.
    + intros (y & s' & Hy & (h & -> & Hh)%IH & ->)%Forall2_cons_inv_l.
      exists h. split; [|done]. cbn in Hy. rewrite orb_false_r in Hy. by apply N.eqb_eq in Hy as ->.
    + intros (h & -> & Hh). constructor; [|apply IH; eauto].
      cbn. by rewrite N.eqb_refl.
Qed.
Lemma digest_spec d : re_fullmatch DIGEST d = true <-> exists h, d = u "sha256:" ++ h /\ hex_text h.
Proof. rewrite <-literal_hex_spec. apply fixed_pattern_full. vm_compute. reflexivity. Qed.
Lemma digest_tag_spec t : re_fullmatch DIGEST_TAG t = true <-> exists h, t = u "sha256-" ++ h /\ hex_text h.
Proof. rewrite <-literal_hex_spec. apply fixed_pattern_full. vm_compute. reflexivity. Qed.
(** The attestation tag of a digest has the shape of one. *)
Lemma replace_colon_tag d : re_fullmatch DIGEST d = true -> re_fullmatch DIGEST_TAG (replace_colon d) = true.
Proof. intros (h & -> & Hh)%digest_spec. apply digest_tag_spec. exists h. by split. Qed.
(** A release tag is never an attestation tag. *)
Lemma release_not_digest t : re_fullmatch SEMVER_TAG t = true -> re_fullmatch DIGEST_TAG t = false.
Proof.
  intros H. apply not_true_iff_false. intros (h & -> & _)%digest_tag_spec.
  eapply anchored_head in H as (x & rest & Hx & Hc); [|vm_compute; reflexivity].
  injection Hx as <- _. vm_compute in Hc. discriminate.
Qed.
(** Different digests have different tags. *)
Lemma replace_colon_inj d e :
  re_fullmatch DIGEST d = true -> re_fullmatch DIGEST e = true ->
  replace_colon d = replace_colon e -> d = e.
Proof.
  intros (h & -> & _)%digest_spec (k & -> & _)%digest_spec H.
  change (u "sha256-" ++ h = u "sha256-" ++ k) in H. by apply app_inv_head in H as ->.
Qed.

(** ** The policy *)

Lemma elem_matching p s t : t ∈ matching p s <-> t ∈ s /\ re_fullmatch p t = true.
Proof.
  unfold matching. rewrite elem_of_list_to_set, list_elem_of_In, filter_In, <-list_elem_of_In.
  by rewrite elem_of_elements.
Qed.

(** A package as the policy wants it: there are releases, the digest of each is known and
    valid, and the other tags are the attestations of those digests, one for each. *)
Definition retained (i : PackageInventory) : Prop :=
  release_tags i <> ∅
  /\ (forall t, t ∈ map fst (release_digests i) <-> t ∈ release_tags i)
  /\ Forall (fun d => re_fullmatch DIGEST (snd d) = true) (release_digests i)
  /\ (forall t, t ∈ tags i <->
        t ∈ release_tags i \/ exists d, d ∈ map snd (release_digests i) /\ t = replace_colon d).

Context (repr : str -> str).

Lemma expected_tags_spec label digests :
  (snd (expected_tags repr label digests) = []
   <-> Forall (fun d => re_fullmatch DIGEST (snd d) = true) digests)
  /\ forall t, t ∈ fst (expected_tags repr label digests) <->
       exists d, d ∈ map snd digests /\ re_fullmatch DIGEST d = true /\ t = replace_colon d.
Proof.
  induction digests as [|[tag d] digests [IH1 IH2]]; cbn [expected_tags map].
  - split; [done|]. intros t. cbn. rewrite elem_of_empty. split; [done|].
    by intros (d & ?%elem_of_nil & _).
  - destruct (expected_tags repr label digests) as [found errors]. cbn [fst snd] in *.
    unfold digest_tag. destruct (re_fullmatch DIGEST d) eqn:Ed; unfold AuditError; cbn [fst snd].
    + split.
      * rewrite IH1, Forall_cons_iff. cbn. tauto.
      * intros t. rewrite elem_of_union, elem_of_singleton, IH2. setoid_rewrite elem_of_cons. split.
        -- intros [->|(e & ? & ? & ?)]; [exists d|exists e]; auto.
        -- intros (e & [->|?] & ? & ?); eauto.
    + split.
      * rewrite Forall_cons_iff. cbn. split; [done|]. intros [? _]. congruence.
      * intros t. rewrite IH2. setoid_rewrite elem_of_cons. split.
        -- intros (e & ? & ? & ?). eauto.
        -- intros (e & [->|?] & ? & ?); [congruence|eauto].
Qed.

Context (repr_list : list str -> str).
Lemma complain_nil b parts : complain b parts = [] <-> b = false.
Proof. by destruct b. Qed.

Lemma inventory_errors_spec i : inventory_errors repr repr_list i = [] <-> retained i.
Proof.
  unfold inventory_errors.
  pose proof (expected_tags_spec (name i) (release_digests i)) as [He Ht].
  destruct (expected_tags repr (name i) (release_digests i)) as [expected errors].
  cbn [fst snd] in *.
  rewrite !app_nil, !complain_nil, !bool_decide_eq_false, negb_false_iff, bool_decide_eq_true, He.
  unfold retained. split.
  - intros (Hu & Hr & Hd & Hv & Hm & Ho). apply dec_stable in Hu, Hm, Ho.
    rewrite difference_empty in Hm. rewrite difference_empty in Ho.
    split_and!; [done| |done|].
    + intros t. rewrite <-Hd, elem_of_list_to_set. done.
    + intros t. assert (t ∈ digest_tags i <-> t ∈ expected) as Hdt by (split; auto).
      assert (t ∈ tags i <-> t ∈ release_tags i \/ t ∈ digest_tags i) as ->.
      { split.
        - intros Hin. destruct (decide (t ∈ release_tags i)); [by left|right].
          rewrite difference_empty in Hu. apply Hu. by apply elem_of_difference.
        - intros [Hin|Hin]; by apply elem_matching in Hin as [Hin _]. }
      rewrite Hdt, Ht. apply or_iff_compat_l. split; [intros (d & ? & _ & ?); eauto|].
      intros (d & Hin & ->). exists d. split_and!; [done| |done].
      apply list_elem_of_In, in_map_iff in Hin as (p & <- & Hin).
      rewrite List.Forall_forall in Hv. by apply Hv.
  - intros (Hr & Hd & Hv & Htags).
    assert (forall t, t ∈ expected <-> exists d, d ∈ map snd (release_digests i) /\ t = replace_colon d) as Hexp.
    { intros t. rewrite Ht. split; [intros (d & ? & _ & ?); eauto|]. intros (d & Hin & ->).
      exists d. split_and!; [done| |done].
      apply list_elem_of_In, in_map_iff in Hin as (p & <- & Hin).
      rewrite List.Forall_forall in Hv. by apply Hv. }
    assert (forall t, t ∈ digest_tags i <-> t ∈ expected) as Hdt.
    { intros t. unfold digest_tags. rewrite elem_matching, Htags, <-Hexp. split.
      - intros [[Hrel|?] Hm]; [|done]. unfold release_tags in Hrel.
        apply elem_matching in Hrel as [_ Hrel]. apply release_not_digest in Hrel. congruence.
      - intros Hx. split; [by right|]. apply Ht in Hx as (d & _ & Hd' & ->). by apply replace_colon_tag. }
    refine (conj _ (conj Hr (conj _ (conj Hv (conj _ _))))).
    + intros Hu. apply Hu, difference_empty. intros t [Hin Hn]%elem_of_difference.
      rewrite Htags, <-Hexp, <-Hdt in Hin. tauto.
    + apply set_eq. intros t. rewrite elem_of_list_to_set. apply Hd.
    + intros Hu. apply Hu, difference_empty. intros t. by rewrite Hdt.
    + intros Hu. apply Hu, difference_empty. intros t. by rewrite Hdt.
Qed.
End audit_facts.

(** the registry audit is the retention policy.  A set of inventories passes exactly when
    there are at least two, each package keeps only its SemVer releases and one attestation
    tag per release digest, valid and present, and all packages have the same releases; it
    then returns those releases, sorted and without repetition. *)
Theorem validate_inventories_spec {U : UnicodeDb} (repr : str -> str) (repr_list : list str -> str)
    (inventories : list PackageInventory) (releases : list str) :
  validate_inventories repr repr_list inventories = Ok releases <->
  (2 <= length inventories)%nat /\ Forall retained inventories
  /\ exists first, head inventories = Some first
     /\ (forall i, i ∈ inventories -> release_tags i = release_tags first)
     /\ releases = sorted_tags (release_tags first).
Proof.
  unfold validate_inventories.
  destruct inventories as [|first [|second others]];
    [split; [done|cbn; lia]|split; [done|cbn; lia]|].
  set (rest := second :: others).
  assert (flat_map (inventory_errors repr repr_list) (first :: rest)
      ++ flat_map (release_errors repr_list first) rest = []
    <-> Forall retained (first :: rest)
        /\ forall i, i ∈ first :: rest -> release_tags i = release_tags first) as H.
  { rewrite app_nil. f_equiv.
    - generalize (first :: rest). intros l. induction l as [|i l IH]; cbn [flat_map]; [by split|].
      rewrite app_nil, IH, Forall_cons_iff, inventory_errors_spec. done.
    - generalize rest. intros l. induction l as [|i l IH]; cbn [flat_map].
      + split; [|done]. intros _ i Hi. by apply list_elem_of_singleton in Hi as ->.
      + rewrite app_nil, IH. unfold release_errors. rewrite complain_nil.
        rewrite negb_false_iff, bool_decide_eq_true. split.
        * intros (Hi & Hl) j [->|[->|Hj]%elem_of_cons]%elem_of_cons; [done..|].
          by apply Hl, list_elem_of_further.
        * intros Hl. split; [apply Hl; right; left|]. intros j [->|Hj]%elem_of_cons; [done|].
          by apply Hl; right; right. }
  destruct (_ ++ _) as [|e errors].
  - destruct (proj1 H eq_refl) as [Hr Hs]. split.
    + intros [= <-]. split; [cbn; lia|]. split; [done|]. by exists first.
    + by intros (_ & _ & f & [= <-] & _ & ->).
  - split; [done|]. intros (_ & Hr & f & [= <-] & Hs & _).
    assert (e :: errors = []) by by apply H. done.
Qed.

Definition sample_digest (c : N) : str := u "sha256:" ++ repeat c 64.
Definition sample_package (name : str) (extra : list str) : PackageInventory := {|
  Registry.name := name;
  tags := list_to_set ([u "v1.0.0"; u "v0.9.0"; u "sha256-" ++ repeat 97%N 64;
                        u "sha256-" ++ repeat 98%N 64] ++ extra);
  release_digests := [(u "v0.9.0", sample_digest 97); (u "v1.0.0", sample_digest 98)] |}.

(** Two packages in step; a stray tag, or one package alone, is refused. *)
Example audit_samples :
  let audit := @validate_inventories ascii_db (fun s => s) (str_join (u ", ")) in
  audit [sample_package (u "o/api") []; sample_package (u "o/dashboard") []]
    = Ok [u "v0.9.0"; u "v1.0.0"]
  /\ audit [sample_package (u "o/api") []; sample_package (u "o/dashboard") [u "latest"]]
    = Raise (RuntimeError (u "o/dashboard: unexpected tags: latest"))
  /\ (exists e, audit [sample_package (u "o/api") []] = Raise (RuntimeError e)).
Proof. split; [|split]; [vm_compute; reflexivity..|eexists; vm_compute; reflexivity]. Qed.
