(* ===== verification/Docker.v ===== *)
(** * Commands for Docker

    The drills of ops/ drive containers through the docker command.  This file has what they
    share: the machine they run on, an interface; the call of docker; the objects that a
    command may make or remove, read off its arguments; and what docker documents of its
    commands, the laws that theorems about the fate of containers and volumes rest on. *)

From Stdlib Require Import QArith.
From stdpp Require Import base list strings numbers.
From S2P Require Import Prelude Double Calendar Regex Json Loads Evidence.

Set Default Proof Using "Type".

(** ** The machine *)

Record CompletedProcess := { returncode : Z; stdout : str; stderr : str }.
Class Machine (W : Type) := {
  (** subprocess.run with the output as text: the process ends, or an exception says that it
      could not be started or that its output is no text *)
  subprocess : list str -> W -> outcome CompletedProcess * W;
  monotonic : W -> Q * W;
  utcnow : W -> Z * W;
  (** an HTTP GET with a Basic authorization: status, body and content type, whether the
      status is an error or not; or an exception, an OSError among them *)
  fetch : str -> option str -> W -> outcome (Z * list N * str) * W;
  sleep : Q -> W -> W;
  (** paths *)
  is_file : str -> W -> bool;
  is_dir : str -> W -> bool;
  path_exists : str -> W -> bool;
  file_size : str -> W -> outcome Z;
  read_bytes : str -> W -> outcome (list N);
  write_text : str -> str -> W -> outcome unit * W;
  mkdir : str -> W -> outcome unit * W;
  resolve : str -> W -> str }.

Section machine.
Context {W : Type} `{Machine W}.

Definition Mread {A} (f : W -> A) : M W A := fun w => (Ok (f w), w).
Definition Mtry_read {A} (f : W -> outcome A) : M W A := fun w => (f w, w).
Definition get_monotonic : M W Q := fun w => let (t, w) := monotonic w in (Ok t, w).
Definition get_utcnow : M W Z := fun w => let (t, w) := utcnow w in (Ok t, w).
Definition do_sleep (t : Q) : M W unit := fun w => (Ok tt, sleep t w).
(** try: m  finally: c *)
Definition Mfinally {A} (m : M W A) (c : bool -> M W unit) : M W A := fun w =>
  let (o, w) := m w in
  match c (match o with Ok _ => true | Raise _ => false end) w with
  | (Ok _, w) => (o, w)
  | (Raise e, w) => (Raise e, w)
  end.

(** runner(["docker", ...], check=check) *)
Definition CalledProcessError : exn := OtherException (u "CalledProcessError").
Definition docker (check : bool) (arguments : list str) : M W CompletedProcess :=
  (do! result := subprocess (u "docker" :: arguments) in
   if check && negb (returncode result =? 0) then Mraise CalledProcessError else Mret result)%prog.
End machine.

(** ** Floats of the command line *)

(** What float(text) makes: a finite double, an infinity or NaN *)
Abbreviation float := (Q + nonfinite)%type.
Definition float_json (x : float) : json :=
  match x with inl q => JFloat q | inr f => JNonFinite f end.
(** A number as float computes with it *)
Definition limit_float (l : limit) : float :=
  match l with Whole z => inl (inject_Z z) | Real q => inl q | NotFinite f => inr f end.
(** a <= b; false of NaN *)
Definition float_leb (a b : float) : bool :=
  match a, b with
  | inl p, inl q => Qle_bool p q
  | inr (Infinite true), inl _ | inl _, inr (Infinite false) => true
  | inr (Infinite x), inr (Infinite y) => x || negb y
  | _, _ => false
  end.
Definition float_ltb (a b : float) : bool :=
  match a, b with
  | inr NaN, _ | _, inr NaN => false
  | _, _ => negb (float_leb b a)
  end.
(** round(x, 3) *)
Definition float_round3 (x : float) : float :=
  match x with inl q => inl (round3 q) | inr f => inr f end.
(** b - a of two finite doubles in range *)
Definition elapsed (a b : Q) : Q := rounded (b - a).

(** ** What a command does to the objects of docker *)

Inductive kind := container | volume | network.
#[global] Instance kind_eq_dec : EqDecision kind.
Proof. solve_decision. Defined.
Abbreviation object := (kind * str)%type.
Definition kind_text (k : kind) : str :=
  match k with container => u "container" | volume => u "volume" | network => u "network" end.

Definition among (names : list string) (s : str) : bool := existsb (fun n => str_eqb s (u n)) names.
Definition operands (arguments : list str) : list str :=
  List.filter (fun a => negb (starts_with (u "-") a)) arguments.
(** Whether it may make objects, and which it may remove; [None] for other commands *)
Definition effect (command : list str) : option (bool * list object) :=
  match command with
  | program :: verb :: arguments =>
    let of_kind k :=
      match arguments with
      | sub :: names =>
        if str_eqb sub (u "rm") then Some (false, map (pair k) (operands names))
        else if str_eqb sub (u "inspect") then Some (false, [])
        else if among ["create"; "connect"; "disconnect"] sub then Some (true, [])
        else None
      | [] => None
      end in
    if str_eqb program (u "git") then Some (false, [])
    else if str_eqb verb (u "rm") then Some (false, map (pair container) (operands arguments))
    else if str_eqb verb (u "container") then of_kind container
    else if str_eqb verb (u "volume") then of_kind volume
    else if str_eqb verb (u "network") then of_kind network
    else if among ["pull"; "run"; "logs"; "exec"; "port"; "build"; "kill"; "stats"; "inspect";
                   "version"] verb
    then Some (true, [])
    else None
  | _ => None
  end.

(** The containers that are removed together with their anonymous volumes *)
Definition with_volumes (command : list str) : list str :=
  match command with
  | program :: verb :: arguments =>
    let stripped args :=
      if existsb (among ["-v"; "--volumes"]) args then operands args else [] in
    if str_eqb program (u "git") then []
    else if str_eqb verb (u "rm") then stripped arguments
    else if str_eqb verb (u "container") then
      match arguments with
      | sub :: names => if str_eqb sub (u "rm") then stripped names else []
      | [] => []
      end
    else []
  | _ => []
  end.

(** What docker documents: a command changes only what it names -- and, where it says
    --volumes, the anonymous volumes of the containers it removes --, an inspection finds
    what is there, what was removed with status 0 is gone, the anonymous volumes of a
    container ([belongs]) are made anew with it, and no container is made under a name that
    is taken.  Nobody else works on the objects while the command runs, and the daemon
    answers: a failing inspect means absence ([inspect_finds]), which is also what the
    scripts take it for. *)
Class DockerLaws (W : Type) `{Machine W} := {
  present : object -> W -> Prop;
  (** the anonymous volume [v] of the container [c] *)
  belongs (c v : str) : W -> Prop;
  effect_keeps command adds removed w r w' x :
    effect command = Some (adds, removed) -> subprocess command w = (r, w') ->
    present x w -> ~ In x removed ->
    (forall c v, x = (volume, v) -> In c (with_volumes command) -> ~ belongs c v w) ->
    present x w';
  belongs_container c v w : belongs c v w -> present (container, c) w;
  belongs_made command adds removed w r w' c v :
    effect command = Some (adds, removed) -> subprocess command w = (r, w') ->
    present (volume, v) w -> belongs c v w' -> belongs c v w;
  run_fresh name rest w r w' :
    subprocess ([u "docker"; u "run"; u "--detach"; u "--name"; name] ++ rest) w = (Ok r, w') ->
    returncode r = 0 -> ~ present (container, name) w;
  effect_adds command removed w r w' x :
    effect command = Some (false, removed) -> subprocess command w = (r, w') ->
    present x w' -> present x w;
  effect_removes command adds removed w r w' x :
    effect command = Some (adds, removed) -> subprocess command w = (Ok r, w') ->
    returncode r = 0 -> In x removed -> ~ present x w';
  inspect_finds k name w r w' :
    subprocess [u "docker"; kind_text k; u "inspect"; name] w = (Ok r, w') ->
    returncode r = 0 <-> present (k, name) w;
  clocks_keep x w :
    (present x (snd (monotonic w)) <-> present x w)
    /\ (present x (snd (utcnow w)) <-> present x w)
    /\ (forall t, present x (sleep t w) <-> present x w)
    /\ (forall url authorization, present x (snd (fetch url authorization w)) <-> present x w)
    /\ (forall path text, present x (snd (write_text path text w)) <-> present x w)
    /\ forall path, present x (snd (mkdir path w)) <-> present x w;
  clocks_belong c v w :
    (belongs c v (snd (monotonic w)) <-> belongs c v w)
    /\ (belongs c v (snd (utcnow w)) <-> belongs c v w)
    /\ (forall t, belongs c v (sleep t w) <-> belongs c v w)
    /\ (forall url authorization, belongs c v (snd (fetch url authorization w)) <-> belongs c v w)
    /\ (forall path text, belongs c v (snd (write_text path text w)) <-> belongs c v w)
    /\ forall path, belongs c v (snd (mkdir path w)) <-> belongs c v w }.

(** ** What the restore drills share

    ops/postgres/verify_restore.py and ops/grafana/verify_restore.py restore a backup into a
    container and a volume of their own, check what was restored, and remove both again.  The
    functions that both scripts repeat are here once. *)

Definition RUN_ID_PATTERN : pattern := re_compile "^[a-z0-9][a-z0-9-]{0,39}$".

(** ** Options of the command line *)

Definition ArgumentTypeError {A} (message : string) : outcome A :=
  Raise (OtherException (u "ArgumentTypeError: " ++ u message)).
Definition parse_utc_timestamp `{UnicodeDb} (value : str) : outcome Z :=
  match fromisoformat (replace_zulu value) with
  | Some (t, true) => if in_datetime_range t then Ok t else Raise (OtherException (u "OverflowError"))
  | Some (_, false) => ArgumentTypeError "timestamp must include a UTC offset"
  | None => ArgumentTypeError "timestamp must be ISO 8601"
  end.
(** The times and objectives that both drills take *)
Record Timing := {
  write_freeze_at : Z; backup_created_at : Z; backup_duration_seconds : float;
  rto_seconds : float; rpo_seconds : float; observed_rpo_seconds : float }.
Abbreviation zero := (inl 0%Q : float).

Section restore.
Context {W : Type} `{Machine W} (sha256 : list N -> str).

Definition require (condition : bool) (message : str) : M W unit :=
  Mwhen (negb condition) (Mraise (ValueError message)).
(** The checks of the times, in the order of both scripts *)
Definition check_timing (t : Timing) : M W unit :=
  (require (negb (float_leb (backup_duration_seconds t) zero))
     (u "--backup-duration-seconds must be positive");;;
   require (negb (float_leb (rto_seconds t) zero || float_ltb (rpo_seconds t) zero
                  || float_ltb (observed_rpo_seconds t) zero))
     (u "RTO must be positive and RPO values must be non-negative");;;
   require (write_freeze_at t <=? backup_created_at t)
     (u "--backup-created-at cannot precede --write-freeze-at");;;
   do! now := get_utcnow in
   require (backup_created_at t <=? now) (u "--backup-created-at cannot be in the future"))%prog.

(** hexdigest of the content; the chunks it is read in make no difference *)
Definition sha256_file (path : str) : M W str :=
  (do! content := Mtry_read (read_bytes path) in Mret (sha256 content))%prog.

Definition docker_object_exists (k : kind) (name : str) : M W bool :=
  (do! result := docker false [kind_text k; u "inspect"; name] in
   Mret (returncode result =? 0))%prog.
(** Both objects of a drill are absent. *)
Definition refuse_existing (objects : list object) : M W unit :=
  Miter (fun '(k, name) =>
    (do! exists_ := docker_object_exists k name in
     Mwhen exists_ (Mraise (RuntimeError (u "refusing to replace existing Docker "
                                          ++ kind_text k ++ u ": " ++ name))))%prog) objects.
(** if docker_object_exists(...): runner([...], check=True) *)
Definition remove_existing (k : kind) (name : str) (arguments : list str) : M W unit :=
  (do! exists_ := docker_object_exists k name in
   Mwhen exists_ (do! _ := docker true arguments in Mret tt))%prog.
Definition cleanup (container_name volume_name : str) : M W unit :=
  (remove_existing container container_name [u "rm"; u "--force"; container_name];;;
   remove_existing volume volume_name [u "volume"; u "rm"; volume_name])%prog.
(** The frame of both drills: nothing is touched when an object of its own exists already, and
    both are removed at the end unless a drill that succeeded is to keep them. *)
Definition drill {V P A} (validate : M W V) (container_name volume_name : str)
    (measure : V -> M W P) (attempt : P -> M W A) (preserve_target : bool) : M W A :=
  (do! checked := validate in
   refuse_existing [(container, container_name); (volume, volume_name)];;;
   do! before := measure checked in
   Mfinally (attempt before) (fun succeeded =>
     Mwhen (negb preserve_target || negb succeeded) (cleanup container_name volume_name)))%prog.
End restore.
