(* ===== verification/DockerFacts.v ===== *)
(** * Histories of commands

    Every run of a program on a machine is a sequence of commands ([steps]); which commands a
    program may issue is shown rule by rule ([within], hint database [commands]), and the laws
    of docker turn that into the fate of its objects. *)

From Stdlib Require Import QArith.
From stdpp Require Import base list strings numbers.
From S2P Require Import Prelude Json Docker.

Set Default Proof Using "Type".

Section histories.
Context {W : Type} `{Machine W}.

(** A command or a request and how it ended *)
Inductive event :=
| Ran (command : list str) (result : outcome CompletedProcess)
| Fetched (url : str) (authorization : option str) (result : outcome (Z * list N * str)).
Inductive steps : list event -> W -> W -> Prop :=
| steps_none w : steps [] w w
| steps_ran command r w w1 h w' :
    subprocess command w = (r, w1) -> steps h w1 w' -> steps (Ran command r :: h) w w'
| steps_fetched url authorization r w w1 h w' :
    fetch url authorization w = (r, w1) -> steps h w1 w' ->
    steps (Fetched url authorization r :: h) w w'
| steps_monotonic w h w' : steps h (snd (monotonic w)) w' -> steps h w w'
| steps_utcnow w h w' : steps h (snd (utcnow w)) w' -> steps h w w'
| steps_sleep t w h w' : steps h (sleep t w) w' -> steps h w w'
| steps_write path text w h w' : steps h (snd (write_text path text w)) w' -> steps h w w'
| steps_mkdir path w h w' : steps h (snd (mkdir path w)) w' -> steps h w w'.
Lemma steps_app h1 w w1 h2 w' : steps h1 w w1 -> steps h2 w1 w' -> steps (h1 ++ h2) w w'.
Proof. induction 1; intros; cbn; eauto using steps. Qed.

(** Every run of the program is a history of events that satisfy [P]. *)
Definition within (P : event -> Prop) {A} (m : M W A) : Prop :=
  forall w o w', m w = (o, w') -> exists h, steps h w w' /\ Forall P h.

Section rules.
Context (P : event -> Prop).
Abbreviation ok := (within P).

Lemma within_pure {A} (f : W -> outcome A) : ok (fun w => (f w, w)).
Proof. intros w o w' [= _ <-]. exists []. split; constructor. Qed.
Lemma within_ret {A} (a : A) : ok (Mret a).
Proof. apply (within_pure (fun _ => Ok a)). Qed.
Lemma within_raise {A} e : ok (Mraise e : M W A).
Proof. apply (within_pure (fun _ => Raise e)). Qed.
Lemma within_lift {A} (o : outcome A) : ok (Mlift o).
Proof. apply (within_pure (fun _ => o)). Qed.
Lemma within_read {A} (f : W -> A) : ok (Mread f).
Proof. apply (within_pure (fun w => Ok (f w))). Qed.
Lemma within_try_read {A} (f : W -> outcome A) : ok (Mtry_read f).
Proof. apply (within_pure f). Qed.
Lemma within_bind {A B} (m : M W A) (k : A -> M W B) : ok m -> (forall a, ok (k a)) -> ok (Mbind m k).
Proof.
  intros Hm Hk w o w'. unfold Mbind. destruct (m w) as [[a|e] w1] eqn:E.
  - intros E2. destruct (Hm _ _ _ E) as (h1 & H1 & HP1). destruct (Hk _ _ _ _ E2) as (h2 & H2 & HP2).
    exists (h1 ++ h2). split; [by eapply steps_app|by apply Forall_app_2].
  - intros [= _ <-]. by apply (Hm _ _ _ E).
Qed.
Lemma within_when (b : bool) (m : M W unit) : (b = true -> ok m) -> ok (Mwhen b m).
Proof. destruct b; [auto|]. intros _. apply within_ret. Qed.
Lemma within_iter {A} (f : A -> M W unit) l : (forall a, In a l -> ok (f a)) -> ok (Miter f l).
Proof.
  induction l as [|a l IH]; intros Hf; [apply within_ret|].
  apply within_bind; [apply Hf; by left|]. intros _. apply IH. intros b Hb. apply Hf. by right.
Qed.
Lemma within_finally {A} (m : M W A) (c : bool -> M W unit) :
  ok m -> (forall b, ok (c b)) -> ok (Mfinally m c).
Proof.
  intros Hm Hc w o w'. unfold Mfinally. destruct (m w) as [o1 w1] eqn:E.
  destruct (c _ w1) as [o2 w2] eqn:E2. intros Heq.
  assert (w2 = w') as -> by (destruct o2; congruence).
  destruct (Hm _ _ _ E) as (h1 & H1 & HP1). destruct (Hc _ _ _ _ E2) as (h2 & H2 & HP2).
  exists (h1 ++ h2). split; [by eapply steps_app|by apply Forall_app_2].
Qed.
Lemma within_monotonic : ok get_monotonic.
Proof.
  intros w o w'. unfold get_monotonic. destruct (monotonic w) as [t w1] eqn:E. intros [= _ <-].
  exists []. split; [|constructor]. apply steps_monotonic. rewrite E. constructor.
Qed.
Lemma within_utcnow : ok get_utcnow.
Proof.
  intros w o w'. unfold get_utcnow. destruct (utcnow w) as [t w1] eqn:E. intros [= _ <-].
  exists []. split; [|constructor]. apply steps_utcnow. rewrite E. constructor.
Qed.
Lemma within_sleep t : ok (do_sleep t).
Proof. intros w o w' [= _ <-]. exists []. split; [|constructor]. apply (steps_sleep t). constructor. Qed.
Lemma within_write path text : ok (write_text path text).
Proof.
  intros w o w' E. exists []. split; [|constructor]. apply (steps_write path text). rewrite E. constructor.
Qed.
Lemma within_mkdir path : ok (mkdir path).
Proof.
  intros w o w' E. exists []. split; [|constructor]. apply (steps_mkdir path). rewrite E. constructor.
Qed.
Lemma within_docker check arguments :
  (forall r, P (Ran (u "docker" :: arguments) r)) -> ok (docker check arguments).
Proof.
  intros HP. apply within_bind.
  - intros w o w' E. exists [Ran (u "docker" :: arguments) o].
    split; [by eapply steps_ran; [|constructor]|]. by constructor.
  - intros r. destruct (_ && _); [apply within_raise|apply within_ret].
Qed.
Lemma within_fetch url authorization :
  (forall r, P (Fetched url authorization r)) -> ok (fetch url authorization).
Proof.
  intros HP w o w' E. exists [Fetched url authorization o].
  split; [by eapply steps_fetched; [|constructor]|]. by constructor.
Qed.
End rules.

Lemma within_weaken {A} (P Q : event -> Prop) (m : M W A) :
  (forall e, P e -> Q e) -> within P m -> within Q m.
Proof.
  intros HPQ Hm w o w' E. destruct (Hm _ _ _ E) as (h & Hs & HP). exists h. split; [done|].
  by eapply Forall_weaken.
Qed.
Lemma docker_Ok check arguments w r w' : docker check arguments w = (Ok r, w') ->
  steps [Ran (u "docker" :: arguments) (Ok r)] w w' /\ (check = true -> returncode r = 0).
Proof.
  intros (r' & w1 & E & Hr)%Mbind_Ok. destruct (check && negb (returncode r' =? 0)) eqn:Ec; [done|].
  injection Hr as -> ->. split; [by eapply steps_ran; [|constructor]|]. intros ->. cbn in Ec.
  apply negb_false_iff in Ec. by apply Z.eqb_eq.
Qed.

(** When the program succeeds, its value and its history are in [R]. *)
Definition yields {A} (m : M W A) (R : A -> list event -> Prop) : Prop :=
  forall w a w', m w = (Ok a, w') -> exists h, steps h w w' /\ R a h.
Lemma yields_any {A} P (m : M W A) : within P m -> yields m (fun _ _ => True).
Proof. intros Hm w a w' E. destruct (Hm _ _ _ E) as (h & Hs & _). by exists h. Qed.
Lemma yields_chain {A B} (m : M W A) (k : A -> M W B) R1 R2 R :
  yields m R1 -> (forall a, yields (k a) (R2 a)) ->
  (forall a b h1 h2, R1 a h1 -> R2 a b h2 -> R b (h1 ++ h2)) -> yields (Mbind m k) R.
Proof.
  intros Hm Hk HR w b w' (a & w1 & E1 & E2)%Mbind_Ok.
  destruct (Hm _ _ _ E1) as (h1 & Hs1 & H1). destruct (Hk _ _ _ _ E2) as (h2 & Hs2 & H2).
  exists (h1 ++ h2). split; [by eapply steps_app|by apply (HR a)].
Qed.
Lemma yields_weaken {A} (m : M W A) (R S : A -> list event -> Prop) :
  yields m R -> (forall a h, R a h -> S a h) -> yields m S.
Proof. intros Hm HRS w a w' E. destruct (Hm _ _ _ E) as (h & Hs & HR). exists h. auto. Qed.
Lemma yields_pure {A} (f : W -> outcome A) (R : A -> list event -> Prop) :
  (forall w a, f w = Ok a -> R a []) -> yields (fun w => (f w, w)) R.
Proof. intros HR w a w' [= Hf <-]. exists []. split; [constructor|by eapply HR]. Qed.
Lemma yields_lift {A} (o : outcome A) (R : A -> list event -> Prop) :
  (forall a, o = Ok a -> R a []) -> yields (Mlift o) R.
Proof. intros HR. apply (yields_pure (fun _ => o)). eauto. Qed.
Lemma yields_value {A} (a : A) (R : A -> list event -> Prop) : R a [] -> yields (Mret a) R.
Proof. intros HR. apply (yields_pure (fun _ => Ok a)). by intros _ b [= <-]. Qed.
Lemma yields_raise {A} e (R : A -> list event -> Prop) : yields (Mraise e) R.
Proof. by intros w a w' [=]. Qed.

(** The command was run and ended with status 0. *)
Definition asked (h : list event) (arguments : list str) (p : CompletedProcess) : Prop :=
  In (Ran (u "docker" :: arguments) (Ok p)) h /\ returncode p = 0.
Lemma asked_l h1 h2 arguments p : asked h1 arguments p -> asked (h1 ++ h2) arguments p.
Proof. intros [Hi Hr]. split; [|done]. apply in_or_app. by left. Qed.
Lemma asked_r h1 h2 arguments p : asked h2 arguments p -> asked (h1 ++ h2) arguments p.
Proof. intros [Hi Hr]. split; [|done]. apply in_or_app. by right. Qed.
Lemma yields_docker arguments : yields (docker true arguments) (fun p h => asked h arguments p).
Proof.
  intros w p w' [Hs Hr]%docker_Ok. eexists. split; [exact Hs|]. split; [by left|auto].
Qed.
Lemma yields_docker_unchecked arguments :
  yields (docker false arguments) (fun p h => In (Ran (u "docker" :: arguments) (Ok p)) h).
Proof. intros w p w' [Hs _]%docker_Ok. eexists. split; [exact Hs|by left]. Qed.

(** A drill that succeeds went through all its parts. *)
Lemma drill_Ok {V P A} (validate : M W V) c v (measure : V -> M W P) (attempt : P -> M W A) preserve w a w' :
  drill validate c v measure attempt preserve w = (Ok a, w') ->
  exists x w1 w2 p w3 w4, validate w = (Ok x, w1)
    /\ refuse_existing [(container, c); (volume, v)] w1 = (Ok tt, w2)
    /\ measure x w2 = (Ok p, w3) /\ attempt p w3 = (Ok a, w4)
    /\ Mwhen (negb preserve) (cleanup c v) w4 = (Ok tt, w').
Proof.
  intros (x & w1 & H1 & Hd)%Mbind_Ok. apply Mbind_Ok in Hd as ([] & w2 & H2 & Hd).
  apply Mbind_Ok in Hd as (p & w3 & H3 & Hd). unfold Mfinally in Hd.
  destruct (attempt p w3) as [[y|e] w4] eqn:E4.
  - destruct (Mwhen _ _ w4) as [[[]|e] w5] eqn:E5; [|done]. injection Hd as -> ->.
    rewrite orb_false_r in E5. by exists x, w1, w2, p, w3, w4.
  - destruct (Mwhen _ _ w4) as [[[]|e'] w5]; done.
Qed.
End histories.

(** A command that may make objects but removes none *)
Ltac harmless :=
  intros ?; exists true, []; split; [reflexivity|split; [by intros ? []|reflexivity] ].
(** Goes through a program; [call] for the calls of other functions. *)
Ltac each_command call :=
  repeat lazymatch goal with
         | |- within _ (Mbind _ _) => apply within_bind; [|intros ?]
         | |- within _ (docker _ _) => apply within_docker; harmless
         | |- within _ (if ?b then _ else _) => destruct b
         | |- within _ (Mret _) => apply within_ret
         | |- within _ (Mraise _) => apply within_raise
         | |- within _ (Mlift _) => apply within_lift
         | |- within _ (Mread _) => apply within_read
         | |- within _ (Mtry_read _) => apply within_try_read
         | |- within _ (fetch _ _) => apply within_fetch; intros ?; exact I
         | |- within _ (write_text _ _) => apply within_write
         | |- within _ (mkdir _) => apply within_mkdir
         | |- within _ get_monotonic => apply within_monotonic
         | |- within _ get_utcnow => apply within_utcnow
         | |- within _ (do_sleep _) => apply within_sleep
         | |- within _ (Mwhen _ _) => apply within_when; intros _
         | |- _ => call
         end.
Create HintDb commands.
#[export] Hint Resolve within_ret within_raise within_lift within_read within_try_read within_bind
  within_when within_iter within_finally within_monotonic within_utcnow within_sleep
  within_docker : commands.

(** ** What a history does to the objects *)

Section objects.
Context {W : Type} `{DockerLaws W}.

(** Commands that only look, and commands that remove nothing but some objects *)
Definition looks (e : event) : Prop :=
  match e with Ran command _ => effect command = Some (false, []) | Fetched _ _ _ => True end.
Definition removes_only (own : list object) (e : event) : Prop :=
  match e with
  | Ran command _ => exists adds removed, effect command = Some (adds, removed)
      /\ incl removed own /\ with_volumes command = []
  | Fetched _ _ _ => True
  end.
Lemma effect_nothing command adds : effect command = Some (adds, []) -> with_volumes command = [].
Proof.
  unfold effect, with_volumes. destruct command as [|program [|verb arguments] ]; [done..|].
  destruct (str_eqb program _); [done|]. destruct (str_eqb verb (u "rm")).
  - intros [= _ Hn%map_eq_nil]. rewrite Hn. by destruct (existsb _ _).
  - destruct (str_eqb verb (u "container")); [|done]. destruct arguments as [|sub names]; [done|].
    destruct (str_eqb sub (u "rm")); [|done]. intros [= _ Hn%map_eq_nil]. rewrite Hn.
    by destruct (existsb _ _).
Qed.
Lemma looks_removes own e : looks e -> removes_only own e.
Proof.
  destruct e; [|done]. intros He. exists false, []. split_and!; [done|by intros x []|].
  by apply effect_nothing in He.
Qed.

(** A step of the machine that is no command *)
Definition no_command (w w1 : W) : Prop :=
  (w1 = snd (monotonic w) \/ w1 = snd (utcnow w) \/ (exists t, w1 = sleep t w)
   \/ (exists url authorization, w1 = snd (fetch url authorization w))
   \/ (exists path text, w1 = snd (write_text path text w))
   \/ exists path, w1 = snd (mkdir path w)).
Lemma clock_belongs c v w w1 : no_command w w1 -> belongs c v w1 <-> belongs c v w.
Proof.
  destruct (clocks_belong c v w) as (H1 & H2 & H3 & H4 & H5 & H6).
  by intros [->|[->|[[t ->]|[(url & a & ->)|[(path & text & ->)|[path ->]]]]]].
Qed.
Lemma clock_keeps x w w1 : no_command w w1 -> present x w1 <-> present x w.
Proof.
  destruct (clocks_keep x w) as (H1 & H2 & H3 & H4 & H5 & H6).
  by intros [->|[->|[[t ->]|[(url & a & ->)|[(path & text & ->)|[path ->]]]]]].
Qed.
(** Every history is commands and other steps. *)
Lemma steps_rule (R : W -> W -> Prop) (P : event -> Prop) :
  (forall w, R w w) -> (forall w w1 w', R w w1 -> R w1 w' -> R w w') ->
  (forall w w1, no_command w w1 -> R w w1) ->
  (forall c r w w', P (Ran c r) -> subprocess c w = (r, w') -> R w w') ->
  forall h w w', steps h w w' -> Forall P h -> R w w'.
Proof.
  intros Hr Ht Hn Hc h w w' Hs. unfold no_command in Hn.
  induction Hs as [w|c r w w1 h w' E _ IH|url a r w w1 h w' E _ IH|w h w' _ IH|w h w' _ IH|t w h w' _ IH
    |path text w h w' _ IH|path w h w' _ IH]; intros Hh; [apply Hr|..].
  - apply Forall_cons_iff in Hh as [HP Hh]. eapply Ht; [by eapply Hc|auto].
  - apply Forall_cons_iff in Hh as [_ Hh]. eapply Ht; [|apply IH, Hh]. apply Hn.
    do 3 right. left. exists url, a. by rewrite E.
  - eapply Ht; [|apply IH, Hh]. apply Hn. auto.
  - eapply Ht; [|apply IH, Hh]. apply Hn. auto.
  - eapply Ht; [|apply IH, Hh]. apply Hn. eauto.
  - eapply Ht; [|apply IH, Hh]. apply Hn. eauto 9.
  - eapply Ht; [|apply IH, Hh]. apply Hn. eauto 9.
Qed.
(** An object the history does not name stays, and becomes nobody's anonymous volume. *)
Lemma steps_spare own h w w' x : steps h w w' -> Forall (removes_only own) h -> ~ In x own ->
  present x w -> present x w' /\ forall c v, x = (volume, v) -> belongs c v w' -> belongs c v w.
Proof.
  intros Hs Hh Hx. revert h w w' Hs Hh. refine (steps_rule _ _ _ _ _ _).
  - intros w Hp. by split.
  - intros w w1 w2 H1 H2 Hp. destruct (H1 Hp) as [Hp1 Hb1]. destruct (H2 Hp1) as [Hp2 Hb2].
    split; [done|]. eauto.
  - intros w w1 Hn Hp. split; [exact (proj2 (clock_keeps x w w1 Hn) Hp)|].
    intros c v _ Hb. exact (proj1 (clock_belongs c v w w1 Hn) Hb).
  - intros c r w w1 (adds & removed & He & Hincl & Hv) E Hp. split.
    + eapply effect_keeps; [exact He|exact E|exact Hp| |].
      * intros Hin. by apply Hx, Hincl.
      * rewrite Hv. by intros ? ? _ [].
    + intros k v -> Hb. by eapply belongs_made.
Qed.
Lemma steps_keep own h w w' x : steps h w w' -> Forall (removes_only own) h ->
  ~ In x own -> present x w -> present x w'.
Proof. intros Hs Hh Hx Hp. by eapply steps_spare. Qed.
Lemma steps_look h w w' x : steps h w w' -> Forall looks h -> present x w <-> present x w'.
Proof.
  intros Hs Hh. split.
  - intros Hp. eapply (steps_keep []); [exact Hs| |by intros []|exact Hp].
    eapply Forall_weaken; [exact Hh|]. intros e. apply looks_removes.
  - revert h w w' Hs Hh. refine (steps_rule _ _ _ _ _ _); auto.
    + intros w w1 Hn Hp. exact (proj1 (clock_keeps x w w1 Hn) Hp).
    + intros c r w w1 Hc E Hp. by eapply effect_adds.
Qed.
Lemma within_keep {A} own (m : M W A) w o w' x : within (removes_only own) m -> m w = (o, w') ->
  ~ In x own -> present x w -> present x w'.
Proof. intros Hm E. destruct (Hm _ _ _ E) as (h & Hs & Hh). by apply (steps_keep own h). Qed.
Lemma within_look {A} (m : M W A) w o w' x : within looks m -> m w = (o, w') ->
  present x w <-> present x w'.
Proof. intros Hm E. destruct (Hm _ _ _ E) as (h & Hs & Hh). by apply (steps_look h). Qed.

(** ** The shared functions of the restore drills *)

Lemma exists_looks k name : within looks (docker_object_exists k name).
Proof. apply within_bind; [apply within_docker|auto with commands]. by intros r; destruct k. Qed.
Lemma exists_Ok k name w b w' : docker_object_exists k name w = (Ok b, w') ->
  b = true <-> present (k, name) w.
Proof.
  intros (r & w1 & (r' & w2 & E & Hr)%Mbind_Ok & Hb)%Mbind_Ok. cbn in Hr.
  injection Hr as -> ->. injection Hb as <- <-. rewrite Z.eqb_eq. by eapply inspect_finds.
Qed.
Lemma refuse_looks objects : within looks (refuse_existing objects).
Proof.
  apply within_iter. intros [k name] _. apply within_bind; [apply exists_looks|].
  intros b. apply within_when. intros _. apply within_raise.
Qed.
Lemma refuse_Ok objects w w' : refuse_existing objects w = (Ok tt, w') ->
  forall x, In x objects -> ~ present x w.
Proof.
  revert w. induction objects as [|[k name] objects IH]; intros w Hw x; [by intros []|].
  apply Mbind_Ok in Hw as ([] & w1 & Hf & Hw). apply Mbind_Ok in Hf as (b & w2 & Hb & Hf).
  pose proof (exists_Ok _ _ _ _ _ Hb) as Hp. destruct b; [done|]. injection Hf as <-.
  intros [<-|Hx]; [by rewrite <-Hp|]. intros Hn. apply (IH _ Hw x Hx).
  by apply (within_look _ _ _ _ x (exists_looks k name) Hb).
Qed.
Abbreviation pair_of c v := ([(container, c); (volume, v)]).
Lemma require_looks b m : within looks (require b m).
Proof. apply within_when. intros _. apply within_raise. Qed.
Lemma check_timing_looks t : within looks (check_timing t).
Proof. unfold check_timing. auto 10 using require_looks with commands. Qed.
Lemma checked_Ok (b : bool) m (w w' : W) : require b m w = (Ok tt, w') -> b = true /\ w = w'.
Proof. destruct b; cbn; [by intros [= <-]|done]. Qed.
(** The times that pass *)
Lemma check_timing_Ok t w w' : check_timing t w = (Ok tt, w') ->
  write_freeze_at t <= backup_created_at t.
Proof.
  intros ([] & w1 & _ & E)%Mbind_Ok. apply Mbind_Ok in E as ([] & w2 & _ & E).
  apply Mbind_Ok in E as ([] & w3 & [H1 _]%checked_Ok & _). lia.
Qed.

(** A name that docker does not take for an option *)
Definition plain (name : str) : Prop := starts_with (u "-") name = false.
Lemma remove_existing_within own k name arguments :
  effect (u "docker" :: arguments) = Some (false, [(k, name)]) ->
  with_volumes (u "docker" :: arguments) = [] -> In (k, name) own -> within (removes_only own) (remove_existing k name arguments).
Proof.
  intros He Hv Hin. apply within_bind.
  { eapply within_weaken; [intros e; apply looks_removes|apply exists_looks]. }
  intros b. apply within_when. intros _. apply within_bind; [|auto with commands].
  apply within_docker. intros r. exists false, [(k, name)]. split; [exact He|].
  split; [by intros x [<-|[] ]|exact Hv].
Qed.
Lemma remove_existing_Ok k name arguments w w' :
  effect (u "docker" :: arguments) = Some (false, [(k, name)]) ->
  remove_existing k name arguments w = (Ok tt, w') ->
  ~ present (k, name) w' /\ forall x, present x w' -> present x w.
Proof.
  intros He (b & w1 & Hb & Hr)%Mbind_Ok. pose proof (exists_Ok _ _ _ _ _ Hb) as Hp.
  assert (Hk : forall x, present x w <-> present x w1)
    by (intros x; apply (within_look _ _ _ _ x (exists_looks k name) Hb)).
  destruct b; cbn [Mwhen] in Hr.
  - apply Mbind_Ok in Hr as (r & w2 & (r' & w3 & E & Hr')%Mbind_Ok & Hr). injection Hr as <-.
    destruct (true && negb (returncode r' =? 0)) eqn:Ec; [done|]. injection Hr' as -> ->.
    cbn in Ec. apply negb_false_iff, Z.eqb_eq in Ec. split.
    + eapply effect_removes; [exact He|exact E|exact Ec|by left].
    + intros x Hx. apply Hk. eapply effect_adds; [exact He|exact E|exact Hx].
  - injection Hr as <-. split; [by rewrite <-Hk, <-Hp|]. intros x. apply Hk.
Qed.
Lemma rm_effect c : plain c ->
  effect [u "docker"; u "rm"; u "--force"; c] = Some (false, [(container, c)]).
Proof.
  intros Hc. change (Some (false, map (pair container) (operands [c])) = Some (false, [(container, c)])).
  unfold operands. cbn [List.filter]. by rewrite Hc.
Qed.
(** rm without --volumes keeps the anonymous volumes. *)
Lemma among_plain options c : plain c -> forallb (fun o => starts_with (u "-") (u o)) options = true ->
  among options c = false.
Proof.
  intros Hc Ho. apply not_true_iff_false. intros Ha.
  unfold among in Ha. apply existsb_exists in Ha as (o & Hin & He). apply str_eqb_eq in He as ->.
  rewrite forallb_forall in Ho. specialize (Ho o Hin). unfold plain in Hc. congruence.
Qed.
Lemma rm_volumes arguments : forallb (fun a => negb (among ["-v"; "--volumes"] a)) arguments = true ->
  with_volumes (u "docker" :: u "rm" :: arguments) = [].
Proof.
  intros Ha. change ((if existsb (among ["-v"; "--volumes"]) arguments then operands arguments else []) = []).
  replace (existsb _ arguments) with false; [done|]. symmetry. apply not_true_iff_false.
  intros (a & Hin & Hb)%existsb_exists. rewrite forallb_forall in Ha. specialize (Ha a Hin).
  by rewrite Hb in Ha.
Qed.
Lemma rm_force_volumes c : plain c -> with_volumes [u "docker"; u "rm"; u "--force"; c] = [].
Proof. intros Hc. apply rm_volumes. cbn [forallb]. by rewrite (among_plain _ c Hc). Qed.
Lemma volume_rm_effect v : plain v ->
  effect [u "docker"; u "volume"; u "rm"; v] = Some (false, [(volume, v)]).
Proof.
  intros Hv. change (Some (false, map (pair volume) (operands [v])) = Some (false, [(volume, v)])).
  unfold operands. cbn [List.filter]. by rewrite Hv.
Qed.

Context (c v : str) (Hc : plain c) (Hv : plain v).
Abbreviation own := ([(container, c); (volume, v)]).
Lemma cleanup_within : within (removes_only own) (cleanup c v).
Proof using Hc Hv.
  apply (within_bind _ (remove_existing container c _)).
  - apply remove_existing_within; [by apply rm_effect|by apply rm_force_volumes|by left].
  - intros _. apply remove_existing_within; [by apply volume_rm_effect|reflexivity|by right; left].
Qed.
Lemma cleanup_Ok w w' : cleanup c v w = (Ok tt, w') -> forall x, In x own -> ~ present x w'.
Proof using Hc Hv.
  intros ([] & w1 & H1 & H2)%Mbind_Ok.
  apply (remove_existing_Ok container c) in H1 as [H1 _]; [|by apply rm_effect].
  apply (remove_existing_Ok volume v) in H2 as [H2 Hk]; [|by apply volume_rm_effect].
  intros x [<-|[<-|[]]]; [|done]. intros Hx. by apply H1, Hk.
Qed.

(** What a drill leaves behind: other objects stay; when one of its own is there already it
    fails and removes nothing; otherwise its own are gone at the end, unless the drill
    succeeded and keeps them or the clean-up failed. *)
Definition isolated {A} (preserve_target : bool) (w : W) (o : outcome A) (w' : W) : Prop :=
  (forall x, ~ In x own -> present x w -> present x w')
  /\ ((exists x, In x own /\ present x w) ->
      match o with Ok _ => False | Raise _ => forall x, present x w -> present x w' end)
  /\ ((forall x, In x own -> ~ present x w) ->
      match o with
      | Ok _ => preserve_target = false -> forall x, In x own -> ~ present x w'
      | Raise e => (forall x, In x own -> ~ present x w') \/ exists w1, cleanup c v w1 = (Raise e, w')
      end).

Lemma drill_isolated {V P A} (validate : M W V) (measure : V -> M W P) (attempt : P -> M W A)
    (preserve_target : bool) w o w' :
  within looks validate -> (forall x, within looks (measure x)) ->
  (forall p, within (removes_only own) (attempt p)) ->
  drill validate c v measure attempt preserve_target w = (o, w') -> isolated preserve_target w o w'.
Proof using Hc Hv.
  intros Hval Hmeas Hatt Hrun.
  assert (Hother : forall x, ~ In x own -> present x w -> present x w').
  { intros x. refine (within_keep own _ w o w' x _ Hrun).
    pose proof (fun A (m : M W A) => within_weaken looks (removes_only own) m (looks_removes own)) as Hw.
    apply within_bind; [by apply Hw|]. intros y. apply within_bind; [apply Hw, refuse_looks|].
    intros _. apply within_bind; [by apply Hw|]. intros p. apply within_finally; [done|].
    intros b. apply within_when. intros _. apply cleanup_within. }
  split; [exact Hother|].
  unfold drill in Hrun. unfold Mbind at 1 in Hrun. destruct (validate w) as [[y|e] w1] eqn:E1.
  2:{ injection Hrun as <- <-. assert (Hk := fun x => within_look _ _ _ _ x Hval E1).
      split; [intros _ x; apply Hk|]. intros Hn. left. intros x Hx.
      rewrite <-Hk. by apply Hn. }
  assert (Hk1 := fun x => within_look _ _ _ _ x Hval E1).
  unfold Mbind at 1 in Hrun. destruct (refuse_existing own w1) as [[[]|e] w2] eqn:E2;
    assert (Hk2 := fun x => within_look _ _ _ _ x (refuse_looks own) E2).
  2:{ injection Hrun as <- <-.
      split; [intros _ x; rewrite Hk1, Hk2; auto|]. intros Hn. left.
      intros x Hx. rewrite <-Hk2, <-Hk1. by apply Hn. }
  split.
  { intros (x & Hx & Hp). destruct (refuse_Ok _ _ _ E2 x Hx). by apply Hk1. }
  intros Hn. unfold Mbind in Hrun. destruct (measure y w2) as [[p|e] w3] eqn:E3;
    assert (Hk3 := fun x => within_look _ _ _ _ x (Hmeas y) E3).
  2:{ injection Hrun as <- <-. left. intros x Hx. rewrite <-Hk3, <-Hk2, <-Hk1. by apply Hn. }
  unfold Mfinally in Hrun. destruct (attempt p w3) as [o4 w4].
  destruct (Mwhen _ _ w4) as [[[]|e] w5] eqn:E5; injection Hrun as <- <-.
  - destruct o4 as [a|e].
    + intros ->. apply (cleanup_Ok w4), E5.
    + left. rewrite orb_true_r in E5. apply (cleanup_Ok w4), E5.
  - right. exists w4. destruct (_ || _); [exact E5|discriminate E5].
Qed.
End objects.

(** ** A machine for examples *)

(** Its docker knows names only, refuses a name that is taken, and its images have no anonymous
    volumes; what other commands and requests answer is given, and files
    are there with the same content. *)
Section scripted.
Context (answers : list str -> CompletedProcess) (pages : str -> option str -> outcome (Z * list N * str)).
Context (content : list N) (now : Z).

Definition same_object (x y : object) : bool := bool_decide (x = y).
Definition keep_others (removed : list object) (w : list object) : list object :=
  List.filter (fun x => negb (existsb (same_object x) removed)) w.
(** --name of a run; the name of a volume *)
Fixpoint container_made (command : list str) : list object :=
  match command with
  | option :: ((name :: _) as rest) =>
    if str_eqb option (u "--name") then [(container, name)] else container_made rest
  | _ => []
  end.
Definition made (command : list str) : list object :=
  match command with
  | [_; a; b; name] =>
    if str_eqb a (u "volume") && str_eqb b (u "create") then [(volume, name)]
    else container_made command
  | _ => container_made command
  end.
(** The name of a container it would make is taken. *)
Definition taken (command : list str) (w : list object) : bool :=
  existsb (fun x => bool_decide (fst x = container) && existsb (same_object x) w) (made command).
Definition inspected (command : list str) (w : list object) : bool :=
  match command with
  | [_; k; _; name] => existsb (fun x => str_eqb k (kind_text (fst x)) && str_eqb name (snd x)) w
  | _ => false
  end.
Definition ended (status : Z) : CompletedProcess := {| returncode := status; stdout := []; stderr := [] |}.
Definition scripted_process (command : list str) (w : list object) : outcome CompletedProcess * list object :=
  match effect command with
  | Some (false, []) => (Ok (ended (if inspected command w then 0 else 1)), w)
  | Some (false, removed) => (Ok (ended 0), keep_others removed w)
  | Some (true, removed) =>
    if taken command w then (Ok (ended 125), w)
    else (Ok (answers command), made command ++ keep_others removed w)
  | None => (Ok (answers command), w)
  end.
#[export] Instance scripted_machine : Machine (list object) := {|
  subprocess := scripted_process; monotonic := fun w => (0%Q, w); utcnow := fun w => (now, w);
  fetch := fun url authorization w => (pages url authorization, w); sleep := fun _ w => w;
  is_file := fun _ _ => true; is_dir := fun _ _ => true; path_exists := fun _ _ => true;
  file_size := fun _ _ => Ok (Z.of_nat (length content)); read_bytes := fun _ _ => Ok content;
  resolve := fun path _ => path; write_text := fun _ _ w => (Ok tt, w);
  mkdir := fun _ w => (Ok tt, w) |}.

Lemma keep_others_In removed w x : In x (keep_others removed w) <-> In x w /\ ~ In x removed.
Proof.
  unfold keep_others. rewrite filter_In, negb_true_iff, <-not_true_iff_false, existsb_exists.
  split; intros [Hw Hr]; (split; [done|]).
  - intros Hx. apply Hr. exists x. split; [done|]. by apply bool_decide_eq_true.
  - intros (y & Hy & Heq). apply bool_decide_eq_true in Heq as <-. done.
Qed.
Lemma kind_text_inj k l : kind_text k = kind_text l -> k = l.
Proof. by destruct k, l. Qed.
Lemma effect_adding command removed : effect command = Some (true, removed) -> removed = [].
Proof.
  unfold effect. intros He. repeat (case_match; try discriminate He);
    try (injection He as <-; reflexivity); by injection He.
Qed.
#[export] Instance scripted_laws : DockerLaws (list object).
Proof.
  refine {| present := fun x (w : list object) => In x w; belongs := fun _ _ _ => False |};
    cbn [subprocess scripted_machine].
  - intros command adds removed w r w' x He E Hx Hn _. unfold scripted_process in E. rewrite He in E.
    assert (In x (keep_others removed w)) by by apply keep_others_In.
    destruct adds; [destruct (taken command w)|destruct removed]; injection E as _ <-;
      try apply in_or_app; auto.
  - done.
  - done.
  - intros name rest w r w' E Hr Hin. unfold scripted_process in E.
    change (effect _) with (Some (true, @nil object)) in E. cbv iota in E.
    replace (taken _ w) with true in E; [by injection E as <- _|]. symmetry. unfold taken.
    apply existsb_exists. exists (container, name). split.
    + change ([u "docker"; u "run"; u "--detach"; u "--name"; name] ++ rest)
        with (u "docker" :: u "run" :: u "--detach" :: u "--name" :: name :: rest).
      by left.
    + cbn [fst]. rewrite bool_decide_true by done. cbn [andb]. apply existsb_exists.
      exists (container, name). split; [done|]. by apply bool_decide_eq_true.
  - intros command removed w r w' x He E Hx. unfold scripted_process in E. rewrite He in E.
    destruct removed; injection E as _ <-; [exact Hx|]. apply keep_others_In in Hx. tauto.
  - intros command adds removed w r w' x He E _ Hx Hin. unfold scripted_process in E. rewrite He in E.
    destruct adds; [by apply effect_adding in He as ->; destruct Hx|].
    destruct removed as [|y removed]; [destruct Hx|].
    injection E as _ <-. by apply keep_others_In in Hin as [_ Hin].
  - intros k name w r w' E. unfold scripted_process in E.
    replace (effect _) with (Some (false, @nil object)) in E by by destruct k.
    injection E as <- <-. cbn [returncode ended inspected].
    transitivity (existsb (fun x => str_eqb (kind_text k) (kind_text (fst x)) && str_eqb name (snd x)) w = true).
    { by destruct (existsb _ w). }
    rewrite existsb_exists. split.
    + intros ([k' name'] & Hin & [Hk%str_eqb_eq Hn%str_eqb_eq]%andb_true_iff). cbn in Hk, Hn.
      apply kind_text_inj in Hk. by subst.
    + intros Hin. exists (k, name). split; [done|]. cbn. by rewrite !str_eqb_refl.
  - done.
  - done.
Defined.
Definition absent (own w : list object) : bool :=
  forallb (fun x => negb (existsb (same_object x) w)) own.
Lemma absent_spec own w : absent own w = true -> forall x, In x own -> ~ In x w.
Proof.
  unfold absent. rewrite forallb_forall. intros Ha x Hx Hin. specialize (Ha x Hx).
  apply negb_true_iff in Ha. rewrite <-not_true_iff_false, existsb_exists in Ha. apply Ha.
  exists x. split; [exact Hin|]. by apply bool_decide_eq_true.
Qed.
End scripted.
