(* ===== verification/PostgresRestore.v ===== *)
(** * The restore drill of PostgreSQL (ops/postgres/verify_restore.py)

    A dump is restored into a new PostgreSQL 18 container; the evidence is written only when
    the restored database has the heads of the migrations and the expected numbers of rows. *)

From Stdlib Require Import QArith.
From stdpp Require Import base list strings numbers.
From S2P Require Import Prelude Double Calendar Regex Json Url Docker DockerFacts.

Set Default Proof Using "Type".

Definition PINNED_IMAGE_PATTERN : pattern := re_compile "^postgres:[^@\s]+@sha256:[0-9a-f]{64}$".
Definition RELATION_PATTERN : pattern :=
  re_compile "^[a-z_][a-z0-9_]*(?:\.[a-z_][a-z0-9_]*)?$".

Record Args := {
  image : str; backup : str; password_file : str; alembic_config : str; database : str;
  database_user : str; source_revision : str; timing : Timing;
  expect_min_count : list (str * Z); run_id : str; preserve_target : bool }.

Section drill.
Context {U : UnicodeDb} `{Repr}.

Definition parse_count_expectation (value : str) : outcome (str * Z) :=
  let refused := ArgumentTypeError "expected RELATION=MINIMUM with a safe relation name" in
  match partition 61 value with
  | (relation, Some raw_count) =>
    if negb (re_fullmatch RELATION_PATTERN relation) then refused else
    match int_of_str raw_count with
    | None => ArgumentTypeError "minimum count must be an integer"
    | Some minimum =>
      if minimum <? 0 then ArgumentTypeError "minimum count must be non-negative"
      else Ok (relation, minimum)
    end
  | (_, None) => refused
  end.
Definition quoted (part : str) : str := [34%N] ++ part ++ [34%N].
Definition quote_relation (relation : str) : outcome str :=
  if negb (re_fullmatch RELATION_PATTERN relation) then
    Raise (ValueError (u "unsafe relation name: " ++ relation))
  else Ok (str_join (u ".") (map quoted (split_char 46 relation))).
(** repr of a list of strings *)
Definition repr_list (l : list str) : str := u "[" ++ str_join (u ", ") (map repr l) ++ u "]".

(** [heads]: alembic's ScriptDirectory.from_config(...).get_heads() *)
Context {W : Type} `{Machine W} (sha256 : list N -> str) (get_heads : str -> W -> outcome (list str)).
Definition alembic_heads (config_path : str) : M W (list str) :=
  (do! heads := Mtry_read (get_heads config_path) in Mret (py_sorted str_leb heads))%prog.

Definition check_path (path label : str) : M W unit :=
  (do! file := Mread (is_file path) in
   require file (label ++ u " must be an existing regular file");;;
   require (negb (in_chars path 44)) (label ++ u " path cannot contain a comma"))%prog.
Definition check_size (path label : str) : M W unit :=
  (do! size := Mtry_read (file_size path) in
   require (negb (size =? 0)) (label ++ u " cannot be empty"))%prog.
Definition validate_args (args : Args) : M W unit :=
  (require (re_fullmatch PINNED_IMAGE_PATTERN (image args))
     (u "--image must be postgres:TAG@sha256:DIGEST");;;
   require (re_fullmatch RUN_ID_PATTERN (run_id args))
     (u "--run-id must contain only lowercase letters, digits, and hyphens");;;
   check_path (backup args) (u "--backup");;;
   check_path (password_file args) (u "--password-file");;;
   check_path (alembic_config args) (u "--alembic-config");;;
   check_size (backup args) (u "--backup");;;
   check_size (password_file args) (u "--password-file");;;
   check_timing (timing args);;;
   require (negb (bool_decide (expect_min_count args = [])))
     (u "at least one --expect-min-count is required");;;
   require (bool_decide (NoDup (map fst (expect_min_count args))))
     (u "each expected relation may be specified only once"))%prog.

(** ** Inside the container *)

Definition psql (args : Args) (container_name query : str) : list str :=
  [u "exec"; container_name; u "psql"; u "--username"; database_user args; u "--dbname";
   database args; u "--tuples-only"; u "--no-align"; u "--set"; u "ON_ERROR_STOP=1";
   u "--command"; query].
Definition query_scalar (args : Args) (container_name query : str) : M W str :=
  (do! result := docker true (psql args container_name query) in
   Mret (strip (stdout result)))%prog.
(** int(query_scalar(...)) *)
Definition query_int (args : Args) (container_name query : str) : M W Z :=
  (do! text := query_scalar args container_name query in
   Mlift (match int_of_str text with
          | Some z => Ok z
          | None => Raise (ValueError (u "invalid literal for int()"))
          end))%prog.
Definition READY : str := u "PostgreSQL init process complete; ready for start up.".
Fixpoint wait_for_postgres (args : Args) (container_name : str) (attempts : nat) (last_logs : str)
  : M W unit :=
  match attempts with
  | O => Mraise (RuntimeError (u "PostgreSQL did not finish initialization: "
                               ++ py_from last_logs (-2000)))
  | S attempts =>
    (do! logs := docker false [u "logs"; container_name] in
     let last_logs := stdout logs ++ stderr logs in
     if negb (contains READY last_logs) then
       do_sleep 1;;; wait_for_postgres args container_name attempts last_logs
     else
       do! result := docker false [u "exec"; container_name; u "pg_isready"; u "-U";
                                   database_user args; u "-d"; database args] in
       if returncode result =? 0 then Mret tt
       else do_sleep 1;;; wait_for_postgres args container_name attempts last_logs)%prog
  end.
Definition ATTEMPTS : nat := 90.

Definition run_arguments (args : Args) (container_name volume_name backup_source password_source : str)
  : list str :=
  [u "run"; u "--detach"; u "--name"; container_name; u "--env"; u "POSTGRES_DB=" ++ database args;
   u "--env"; u "POSTGRES_USER=" ++ database_user args; u "--env";
   u "POSTGRES_PASSWORD_FILE=/run/secrets/postgres-password"; u "--mount";
   u "type=volume,source=" ++ volume_name ++ u ",target=/var/lib/postgresql"; u "--mount";
   u "type=bind,source=" ++ backup_source ++ u ",target=/evidence/backup.dump,readonly"; u "--mount";
   u "type=bind,source=" ++ password_source ++ u ",target=/run/secrets/postgres-password,readonly";
   image args].
Definition restore_arguments (args : Args) (container_name : str) : list str :=
  [u "exec"; container_name; u "pg_restore"; u "--username"; database_user args; u "--dbname";
   database args; u "--no-owner"; u "--no-privileges"; u "--exit-on-error";
   u "/evidence/backup.dump"].
Definition start_target (args : Args) (container_name volume_name : str) : M W unit :=
  (do! _ := docker true [u "pull"; image args] in
   do! _ := docker true [u "volume"; u "create"; volume_name] in
   do! backup_source := Mread (resolve (backup args)) in
   do! password_source := Mread (resolve (password_file args)) in
   do! _ := docker true (run_arguments args container_name volume_name backup_source
                           password_source) in
   wait_for_postgres args container_name ATTEMPTS [])%prog.
(** The time the restore took *)
Definition restore (args : Args) (container_name : str) : M W Q :=
  (do! _ := docker true [u "exec"; container_name; u "pg_restore"; u "--list";
                         u "/evidence/backup.dump"] in
   do! restore_started := get_monotonic in
   do! result := docker false (restore_arguments args container_name) in
   if negb (returncode result =? 0) then
     let text := match stderr result with [] => stdout result | text => text end in
     Mraise (RuntimeError (u "pg_restore failed: " ++ py_from (strip text) (-2000)))
   else do! now := get_monotonic in Mret (elapsed restore_started now))%prog.

(** ** The checks of the restored database *)

Definition check_version (args : Args) (container_name : str) : M W Z :=
  (do! version := query_int args container_name (u "SHOW server_version_num;") in
   if (180000 <=? version) && (version <? 190000) then Mret version
   else Mraise (RuntimeError (u "restored server is not PostgreSQL 18: " ++ str_of_Z version)))%prog.
Definition HEADS_QUERY : str :=
  u "SELECT version_num FROM alembic_version ORDER BY version_num;".
Definition heads_of (text : str) : list str :=
  py_sorted str_leb (List.filter (fun line => negb (str_eqb line [])) (splitlines text)).
Definition check_heads (args : Args) (container_name : str) (expected_heads : list str)
  : M W (list str) :=
  (do! text := query_scalar args container_name HEADS_QUERY in
   let actual_heads := heads_of text in
   if bool_decide (actual_heads = expected_heads) then Mret actual_heads
   else Mraise (RuntimeError (u "Alembic head mismatch: expected " ++ repr_list expected_heads
                              ++ u ", restored " ++ repr_list actual_heads)))%prog.
Definition count_query (relation : str) : outcome str :=
  let! quoted := quote_relation relation in Ok (u "SELECT count(" ++ u "*" ++ u ") FROM " ++ quoted ++ u ";").
Record Count := { ct_relation : str; ct_actual : Z; ct_minimum : Z }.
Fixpoint check_counts (args : Args) (container_name : str) (expected : list (str * Z))
  : M W (list Count) :=
  match expected with
  | [] => Mret []
  | (relation, minimum) :: expected =>
    (do! query := Mlift (count_query relation) in
     do! actual := query_int args container_name query in
     if actual <? minimum then
       Mraise (RuntimeError (u "representative record check failed for " ++ relation ++ u ": "
                             ++ str_of_Z actual ++ u " < " ++ str_of_Z minimum))
     else
       do! counts := check_counts args container_name expected in
       Mret ({| ct_relation := relation; ct_actual := actual; ct_minimum := minimum |} :: counts))%prog
  end.

(** ** The drill *)

Definition container_of (args : Args) : str := u "pipelens-postgres-restore-" ++ run_id args.
Definition volume_of (args : Args) : str := u "pipelens-postgres-restore-" ++ run_id args ++ u "-data".

(** What the evidence is made of *)
Record Result := {
  rs_checked_at : Z; rs_bytes : Z; rs_sha256 : str; rs_restore_seconds : Q;
  rs_recovery_seconds : Q; rs_version : Z; rs_heads : list str; rs_counts : list Count;
  rs_database_bytes : Z }.
Definition count_json (c : Count) : str * json :=
  (ct_relation c, JObj [(u "actual", JInt (ct_actual c)); (u "minimum", JInt (ct_minimum c));
                        (u "met", JBool (ct_minimum c <=? ct_actual c))]).
Definition evidence (args : Args) (r : Result) : json :=
  let t := timing args in
  JObj [
    (u "schema_version", JInt 1); (u "checked_at", JStr (isoformat (rs_checked_at r)));
    (u "source", JObj [
      (u "revision", JStr (source_revision args));
      (u "write_freeze_at", JStr (isoformat (write_freeze_at t)));
      (u "backup_created_at", JStr (isoformat (backup_created_at t)))]);
    (u "objectives_seconds", JObj [
      (u "rto", float_json (rto_seconds t)); (u "rpo", float_json (rpo_seconds t))]);
    (u "backup", JObj [
      (u "bytes", JInt (rs_bytes r)); (u "sha256", JStr (rs_sha256 r));
      (u "duration_seconds", float_json (float_round3 (backup_duration_seconds t)))]);
    (u "restore", JObj [
      (u "image", JStr (image args)); (u "postgres_major", JInt (rs_version r / 10000));
      (u "duration_seconds", JFloat (round3 (rs_restore_seconds r)));
      (u "recovery_duration_seconds", JFloat (round3 (rs_recovery_seconds r)));
      (u "database_bytes", JInt (rs_database_bytes r));
      (u "rto_met", JBool (float_leb (inl (rs_recovery_seconds r)) (rto_seconds t)));
      (u "observed_rpo_seconds", float_json (float_round3 (observed_rpo_seconds t)));
      (u "rpo_met", JBool (float_leb (observed_rpo_seconds t) (rpo_seconds t)))]);
    (u "integrity", JObj [
      (u "alembic_heads", JArr (map JStr (rs_heads r)));
      (u "representative_counts", JObj (map count_json (rs_counts r)));
      (u "backup_list_readable", JBool true)]);
    (u "target_preserved", JBool (preserve_target args))].

(** What is read before the try statement *)
Record Before := {
  bf_expected_heads : list str; bf_bytes : Z; bf_sha256 : str; bf_recovery_started : Q }.
Definition measure (args : Args) : M W Before :=
  (do! expected_heads := alembic_heads (alembic_config args) in
   do! backup_size := Mtry_read (file_size (backup args)) in
   do! backup_checksum := sha256_file sha256 (backup args) in
   do! recovery_started := get_monotonic in
   Mret {| bf_expected_heads := expected_heads; bf_bytes := backup_size;
           bf_sha256 := backup_checksum; bf_recovery_started := recovery_started |})%prog.
(** The body of the try statement *)
Definition attempt (args : Args) (before : Before) : M W Result :=
  let container_name := container_of args in
  (start_target args container_name (volume_of args);;;
   do! restore_seconds := restore args container_name in
   do! version := check_version args container_name in
   do! heads := check_heads args container_name (bf_expected_heads before) in
   do! counts := check_counts args container_name (expect_min_count args) in
   do! bytes := query_int args container_name (u "SELECT pg_database_size(current_database());") in
   do! now := get_monotonic in
   do! checked_at := get_utcnow in
   Mret {| rs_checked_at := checked_at; rs_bytes := bf_bytes before;
           rs_sha256 := bf_sha256 before;
           rs_restore_seconds := restore_seconds;
           rs_recovery_seconds := elapsed (bf_recovery_started before) now; rs_version := version;
           rs_heads := heads; rs_counts := counts; rs_database_bytes := bytes |})%prog.
Definition run_drill (args : Args) : M W json :=
  (do! result := drill (validate_args args) (container_of args) (volume_of args)
                   (fun _ => measure args)
                   (attempt args) (preserve_target args) in
   Mret (evidence args result))%prog.
End drill.

(** ** What the restore drill of PostgreSQL guarantees *)

Section drill_facts.
Context {U : UnicodeDb} `{Repr} {W : Type} `{HL : DockerLaws W}.
Context (sha256 : list N -> str) (get_heads : str -> W -> outcome (list str)).

(** ** The commands *)

Lemma validate_looks args : within (W := W) looks (validate_args args).
Proof.
  unfold validate_args, check_path, check_size.
  repeat (apply within_bind; [|intros ?]); auto using require_looks, check_timing_looks with commands.
Qed.
Lemma postgres_measure_looks args : within (W := W) looks (measure sha256 get_heads args).
Proof. unfold measure, alembic_heads, sha256_file. auto 20 with commands. Qed.

Section own_objects.
Context (own : list object).
Abbreviation mine := (within (W := W) (removes_only own)).
Lemma postgres_wait_mine args c attempts logs : mine (wait_for_postgres args c attempts logs).
Proof.
  revert logs. induction attempts as [|n IH]; intros logs; cbn [wait_for_postgres];
    each_command ltac:(apply IH).
Qed.
Lemma start_mine args c v : mine (start_target args c v).
Proof. unfold start_target. each_command ltac:(apply postgres_wait_mine). Qed.
Lemma postgres_restore_mine args c : mine (restore args c).
Proof. unfold restore. each_command fail. Qed.
Lemma query_mine args c q : mine (query_scalar args c q).
Proof. unfold query_scalar. each_command fail. Qed.
Lemma query_int_mine args c q : mine (query_int args c q).
Proof. unfold query_int. each_command ltac:(apply query_mine). Qed.
Lemma check_counts_mine args c expected : mine (check_counts args c expected).
Proof.
  induction expected as [|[relation minimum] expected IH]; cbn [check_counts];
    each_command ltac:(first [apply query_int_mine|apply IH]).
Qed.
Lemma postgres_attempt_mine args before : mine (attempt args before).
Proof.
  unfold attempt, check_version, check_heads.
  each_command ltac:(first [apply start_mine|apply postgres_restore_mine|apply query_int_mine
                           |apply query_mine|apply check_counts_mine]).
Qed.

End own_objects.

(** ** What a restored database has shown *)

Lemma query_yields args c q : yields (W := W) (query_scalar args c q)
  (fun text h => exists p, asked h (psql args c q) p /\ text = strip (stdout p)).
Proof using Type.
  eapply yields_chain; [apply yields_docker|intros p; apply (yields_value _ (fun t _ => t = strip (stdout p)) eq_refl)|].
  intros p t h1 h2 Hp ->. exists p. split; [by apply asked_l|done].
Qed.
(** The answer of a query, as a number *)
Definition counted (h : list event) (args : Args) (c q : str) (z : Z) : Prop :=
  exists p, asked h (psql args c q) p /\ int_of_str (strip (stdout p)) = Some z.
Lemma counted_l h1 h2 args c q z : counted h1 args c q z -> counted (h1 ++ h2) args c q z.
Proof using Type. intros (p & Hp & Hz). exists p. split; [by apply asked_l|done]. Qed.
Lemma counted_r h1 h2 args c q z : counted h2 args c q z -> counted (h1 ++ h2) args c q z.
Proof using Type. intros (p & Hp & Hz). exists p. split; [by apply asked_r|done]. Qed.
Lemma query_int_yields args c q : yields (W := W) (query_int args c q) (fun z h => counted h args c q z).
Proof using Type.
  eapply yields_chain; [apply query_yields|intros t; apply (yields_lift _ (fun z _ => int_of_str t = Some z))|].
  - intros z. destruct (int_of_str t); [by intros [= ->]|done].
  - intros t z h1 h2 (p & Hp & ->) Hz. exists p. split; [by apply asked_l|done].
Qed.

Definition VERSION_QUERY : str := u "SHOW server_version_num;".
Lemma check_version_yields args c : yields (W := W) (check_version args c)
  (fun z h => counted h args c VERSION_QUERY z /\ 180000 <= z < 190000).
Proof using Type.
  eapply yields_chain; [apply query_int_yields|intros z|].
  - destruct ((180000 <=? z) && (z <? 190000)) eqn:E; [|apply yields_raise].
    apply (yields_value _ (fun z' _ => z' = z /\ 180000 <= z < 190000)). split; [done|lia].
  - intros z z' h1 h2 Hz [-> Hr]. split; [by apply counted_l|done].
Qed.
Lemma check_heads_yields args c expected : yields (W := W) (check_heads args c expected)
  (fun heads h => heads = expected
     /\ exists p, asked h (psql args c HEADS_QUERY) p /\ heads_of (strip (stdout p)) = expected).
Proof using Type.
  eapply yields_chain; [apply query_yields|intros t|].
  - cbn beta zeta. destruct (decide (heads_of t = expected)) as [E|E];
      [rewrite bool_decide_eq_true_2 by done|rewrite bool_decide_eq_false_2 by done; apply yields_raise].
    apply (yields_value _ (fun heads _ => heads = expected /\ heads_of t = expected)). by rewrite E.
  - intros t heads h1 h2 (p & Hp & ->) [-> E]. split; [done|]. exists p. split; [by apply asked_l|done].
Qed.
(** Every expected relation was counted and has enough rows. *)
Definition enough (h : list event) (args : Args) (c : str) (expected : str * Z) (count : Count) : Prop :=
  ct_relation count = fst expected /\ ct_minimum count = snd expected
  /\ snd expected <= ct_actual count
  /\ exists q, count_query (fst expected) = Ok q /\ counted h args c q (ct_actual count).
Lemma check_counts_yields args c expected : yields (W := W) (check_counts args c expected)
  (fun counts h => Forall2 (enough h args c) expected counts).
Proof using Type.
  induction expected as [|[relation minimum] expected IH]; [apply yields_value; constructor|].
  intros w counts w' (q & w1 & Hq & E)%Mbind_Ok. injection Hq as Hq <-.
  apply Mbind_Ok in E as (n & w2 & En & E). destruct (query_int_yields _ _ _ _ _ _ En) as (h1 & Hs1 & H1).
  destruct (Z.ltb_spec n minimum) as [|Hle]; [done|].
  apply Mbind_Ok in E as (rest & w3 & Er & E). injection E as <- <-.
  destruct (IH _ _ _ Er) as (h2 & Hs2 & H2). exists (h1 ++ h2). split; [by eapply steps_app|].
  constructor; [|eapply Forall2_impl; [|exact H2]].
  - do 3 (split; [done|]). exists q. split; [done|by apply counted_l].
  - intros e ct (Ha & Hb & Hc & q' & Hd & He). do 3 (split; [done|]). exists q'.
    split; [done|by apply counted_r].
Qed.

Lemma postgres_restore_yields args c : yields (W := W) (restore args c)
  (fun _ h => exists p, asked h (restore_arguments args c) p).
Proof using Type.
  intros w t w' (p1 & w1 & H1%yields_docker & E)%Mbind_Ok. destruct H1 as (h1 & Hs1 & _).
  apply Mbind_Ok in E as (t1 & w2 & H2 & E).
  destruct (yields_any _ _ (within_monotonic (fun _ => True)) _ _ _ H2) as (h2 & Hs2 & _).
  apply Mbind_Ok in E as (p & w3 & H3%yields_docker_unchecked & E). destruct H3 as (h3 & Hs3 & H3).
  destruct (returncode p =? 0) eqn:Er; [|done]. cbn [negb] in E.
  apply Mbind_Ok in E as (t2 & w4 & H4 & E). injection E as _ <-.
  destruct (yields_any _ _ (within_monotonic (fun _ => True)) _ _ _ H4) as (h4 & Hs4 & _).
  exists (h1 ++ h2 ++ h3 ++ h4). split; [by repeat (eapply steps_app; [eassumption|])|].
  exists p. apply asked_r, asked_r, asked_l. split; [done|by apply Z.eqb_eq].
Qed.

(** What the history of a successful attempt shows of its result *)
Definition shown (args : Args) (h : list event) (expected_heads : list str) (r : Result) : Prop :=
  let c := container_of args in
  (exists p, asked h (restore_arguments args c) p)
  /\ counted h args c VERSION_QUERY (rs_version r) /\ 180000 <= rs_version r < 190000
  /\ rs_heads r = expected_heads
  /\ (exists p, asked h (psql args c HEADS_QUERY) p /\ heads_of (strip (stdout p)) = expected_heads)
  /\ Forall2 (enough h args c) (expect_min_count args) (rs_counts r).
Lemma postgres_attempt_yields args before : yields (W := W) (attempt args before)
  (fun r h => shown args h (bf_expected_heads before) r /\ rs_sha256 r = bf_sha256 before
              /\ rs_bytes r = bf_bytes before).
Proof.
  intros w r w' ([] & w1 & H1 & E)%Mbind_Ok.
  destruct (start_mine [] _ _ _ _ _ _ H1) as (h1 & Hs1 & _).
  apply Mbind_Ok in E as (t & w2 & H2%postgres_restore_yields & E). destruct H2 as (h2 & Hs2 & p2 & H2).
  apply Mbind_Ok in E as (z & w3 & H3%check_version_yields & E). destruct H3 as (h3 & Hs3 & H3 & Hz).
  apply Mbind_Ok in E as (heads & w4 & H4%check_heads_yields & E).
  destruct H4 as (h4 & Hs4 & Hh & p4 & H4 & Hp4).
  apply Mbind_Ok in E as (counts & w5 & H5%check_counts_yields & E). destruct H5 as (h5 & Hs5 & H5).
  apply Mbind_Ok in E as (bytes & w6 & H6 & E). destruct (query_int_mine [] _ _ _ _ _ _ H6) as (h6 & Hs6 & _).
  apply Mbind_Ok in E as (now & w7 & H7 & E).
  destruct (within_monotonic (fun _ => True) _ _ _ H7) as (h7 & Hs7 & _).
  apply Mbind_Ok in E as (at_ & w8 & H8 & E).
  destruct (within_utcnow (fun _ => True) _ _ _ H8) as (h8 & Hs8 & _). injection E as <- <-.
  exists (h1 ++ h2 ++ h3 ++ h4 ++ h5 ++ h6 ++ h7 ++ h8).
  split; [by repeat (eapply steps_app; [eassumption|])|]. split; [|done].
  unfold shown. cbn [rs_version rs_heads rs_counts]. split_and!; try lia; try done.
  - exists p2. by apply asked_r, asked_l.
  - by apply counted_r, counted_r, counted_l.
  - exists p4. split; [by apply asked_r, asked_r, asked_r, asked_l|done].
  - eapply Forall2_impl; [|exact H5]. intros e ct (Ha & Hb & Hc & q & Hd & He).
    do 3 (split; [done|]). exists q. split; [done|]. by do 4 apply counted_r; apply counted_l.
Qed.

(** ** What is checked before *)

Definition args_ok (args : Args) : Prop :=
  re_fullmatch PINNED_IMAGE_PATTERN (image args) = true
  /\ re_fullmatch RUN_ID_PATTERN (run_id args) = true
  /\ write_freeze_at (timing args) <= backup_created_at (timing args)
  /\ expect_min_count args <> [] /\ NoDup (map fst (expect_min_count args)).
Lemma validate_Ok args w w' : validate_args args w = (Ok tt, w') -> args_ok args.
Proof using Type.
  intros ([] & w1 & [H1 _]%checked_Ok & E)%Mbind_Ok.
  apply Mbind_Ok in E as ([] & w2 & [H2 _]%checked_Ok & E).
  do 5 apply Mbind_Ok in E as ([] & ? & _ & E).
  apply Mbind_Ok in E as ([] & w3 & Et & E).
  apply Mbind_Ok in E as ([] & w4 & [H4 _]%checked_Ok & [H5 _]%checked_Ok).
  apply check_timing_Ok in Et.
  apply negb_true_iff, bool_decide_eq_false in H4. apply bool_decide_eq_true in H5.
  unfold args_ok. by split_and!.
Qed.
Lemma postgres_measure_Ok args w before w' : measure sha256 get_heads args w = (Ok before, w') ->
  exists heads content, get_heads (alembic_config args) w = Ok heads
    /\ read_bytes (backup args) w = Ok content
    /\ bf_expected_heads before = py_sorted str_leb heads /\ bf_sha256 before = sha256 content
    /\ steps [] w w'.
Proof using Type.
  intros (hs & w1 & (heads & w2 & Hh & Hs)%Mbind_Ok & E)%Mbind_Ok.
  injection Hh as Hh <-. injection Hs as <- <-.
  apply Mbind_Ok in E as (size & w3 & Hz & E). injection Hz as Hz <-.
  apply Mbind_Ok in E as (digest & w4 & (content & w5 & Hc & Hd)%Mbind_Ok & E).
  injection Hc as Hc <-. injection Hd as <- <-.
  apply Mbind_Ok in E as (t & w6 & Ht & E). injection E as <- <-. exists heads, content.
  cbn. split_and!; try done. unfold get_monotonic in Ht. apply steps_monotonic.
  destruct (monotonic w) as [t' w7]. injection Ht as _ <-. constructor.
Qed.
End drill_facts.

(** C35: The restore drill of PostgreSQL leaves docker as it found it.  Containers and volumes
    other than its own two are never removed; when one of its own exists before, the drill
    fails and removes nothing, not even that one; otherwise, whether it succeeds or fails,
    both are gone at the end, unless it succeeded and was told to keep them, or a command of
    the clean-up itself failed. *)
Theorem postgres_drill_isolated {U : UnicodeDb} {R : Repr} {W : Type} {Mc : Machine W}
    {HL : DockerLaws W} sha256 get_heads args w o w' :
  run_drill sha256 get_heads args w = (o, w') ->
  isolated (container_of args) (volume_of args) (preserve_target args) w o w'.
Proof.
  intros E. unfold run_drill, Mbind in E.
  destruct (drill _ _ _ _ _ _ w) as [[r|e] w1] eqn:Ed; injection E as <- <-;
    exact (drill_isolated (container_of args) (volume_of args) eq_refl eq_refl _ _ _ _ _ _ _ (validate_looks args)
             (fun _ => postgres_measure_looks sha256 get_heads args) (postgres_attempt_mine _ args) Ed).
Qed.

(** C36: Evidence of a restore is written only of a database that was restored and checked.
    When the drill of PostgreSQL succeeds, its document is made of results that its commands
    showed, all ended with status 0 in this very run: pg_restore of the backup; a server of
    version 18; the versions of the migrations in the database, which are the sorted heads
    that alembic names for the configuration; and for each expected relation, in order, a
    count of at least its minimum.  The digest is that of the backup as it was read, and the
    run began with an image, a run id and times that were checked. *)
Theorem postgres_evidence_sound {U : UnicodeDb} {R : Repr} {W : Type} {Mc : Machine W}
    {HL : DockerLaws W} sha256 get_heads args w document w' :
  run_drill sha256 get_heads args w = (Ok document, w') ->
  args_ok args
  /\ exists r w1 h1 h2 h3 w2 heads content, steps h1 w w1 /\ steps h2 w1 w2 /\ steps h3 w2 w'
     /\ get_heads (alembic_config args) w1 = Ok heads
     /\ read_bytes (backup args) w1 = Ok content /\ rs_sha256 r = sha256 content
     /\ shown args h2 (py_sorted str_leb heads) r /\ document = evidence args r.
Proof.
  intros (r & w5 & E & Hd)%Mbind_Ok. injection Hd as <- <-.
  apply drill_Ok in E as ([] & w1 & w2 & before & w3 & w4 & H1 & H2 & H3 & H4 & H5).
  split; [by eapply validate_Ok|].
  destruct (validate_looks args _ _ _ H1) as (h1 & Hs1 & _).
  destruct (refuse_looks _ _ _ _ H2) as (h2 & Hs2 & _).
  apply postgres_measure_Ok in H3 as (heads & content & Hh & Hc & Hb & Hsha & Hs3).
  apply postgres_attempt_yields in H4 as (h4 & Hs4 & Hshown & Hr & _). rewrite Hb in Hshown.
  assert (exists h5, steps h5 w4 w5) as (h5 & Hs5).
  { assert (Hw : within (removes_only [(container, container_of args); (volume, volume_of args)]) (Mwhen (negb (preserve_target args))
                   (cleanup (container_of args) (volume_of args)))).
    { apply within_when. intros _. by apply cleanup_within. }
    destruct (Hw _ _ _ H5) as (h & Hs & _). by exists h. }
  exists r, w2, (h1 ++ h2), ([] ++ h4), h5, w4, heads, content.
  split_and!; try done; [by eapply steps_app|by eapply steps_app|by rewrite Hr].
Qed.

(** ** A drill *)

#[local] Instance drill_repr : Repr := plain_repr.
#[local] Existing Instance ascii_db.
Example postgres_image_pattern : re_fullmatch PINNED_IMAGE_PATTERN
  (u "postgres:18-alpine@sha256:d3e1620b530c944afa6e887d22eb899824da68e19c52024bf98f5220c88a65b2") = true.
Proof. vm_compute. reflexivity. Qed.
Example relation_quoted : quote_relation (u "public.analyses") = Ok ([34%N] ++ u "public" ++ [34; 46; 34]%N ++ u "analyses" ++ [34%N]).
Proof. vm_compute. reflexivity. Qed.
Definition digest_text : str := u "sha256:d3e1620b530c944afa6e887d22eb899824da68e19c52024bf98f5220c88a65b2".
Definition drill_args : Args := {|
  image := u "postgres:18-alpine@" ++ digest_text; backup := u "/backup/pipelens.dump";
  password_file := u "/run/password"; alembic_config := u "alembic.ini"; database := u "pipelens";
  database_user := u "pipelens"; source_revision := u "v1.0.0";
  timing := {| write_freeze_at := 1000000; backup_created_at := 2000000;
               backup_duration_seconds := inl 3%Q; rto_seconds := inl 900%Q;
               rpo_seconds := inl 300%Q; observed_rpo_seconds := inl 1%Q |};
  expect_min_count := [(u "analyses", 2)]; run_id := u "20260901-a"; preserve_target := false |}.
(** A docker whose database answers as a restored one *)
Definition printed (text : str) : CompletedProcess :=
  {| returncode := 0; stdout := text ++ nl; stderr := [] |}.
Definition restored_answers (command : list str) : CompletedProcess :=
  let last_word := List.last command [] in
  if among ["SHOW server_version_num;"] last_word then printed (u "180001")
  else if str_eqb last_word HEADS_QUERY then printed (u "20260918_0010")
  else if contains (u "SELECT count") last_word then printed (u "7")
  else if contains (u "pg_database_size") last_word then printed (u "8000000")
  else if bool_decide (nth 1 command [] = u "logs") then printed READY
  else ended 0.
Definition machine : Machine (list object) :=
  scripted_machine restored_answers (fun _ _ => Raise (OtherException [])) (u "dump") 3000000.
Definition other_volume : list object := [(volume, u "pipelens_postgres")].
Definition example_drill : outcome json * list object :=
  @run_drill ascii_db plain_repr _ machine (fun _ => u "digest") (fun _ _ => Ok [u "20260918_0010"])
    drill_args other_volume.
Example drill_succeeds : (match example_drill with (Ok _, w) => Some w | _ => None end) = Some other_volume.
Proof. vm_compute. reflexivity. Qed.
Lemma postgres_drill_isolated_witness :
  Forall (fun x => ~ In x (snd example_drill))
    [(container, container_of drill_args); (volume, volume_of drill_args)].
Proof.
  destruct example_drill as [o w'] eqn:E.
  assert (Ho : (match example_drill with (Ok _, _) => true | _ => false end) = true)
    by (vm_compute; reflexivity).
  rewrite E in Ho. destruct o as [document|e]; [|discriminate Ho].
  refine (proj2 (List.Forall_forall _ _) _).
  refine (proj2 (proj2 (@postgres_drill_isolated ascii_db plain_repr _ machine
    (scripted_laws restored_answers _ _ _) _ _ _ _ _ _ E)) _ eq_refl).
  apply absent_spec. vm_compute. reflexivity.
Defined.
Lemma postgres_evidence_sound_witness :
  match example_drill with
  | (Ok document, _) => exists r, document = evidence drill_args r /\ 180000 <= rs_version r < 190000
                                 /\ rs_heads r = [u "20260918_0010"]
  | _ => False
  end.
Proof.
  assert (Ho : (match example_drill with (Ok _, _) => true | _ => false end) = true)
    by (vm_compute; reflexivity).
  destruct example_drill as [[document|e] w'] eqn:E; [|discriminate Ho].
  destruct (@postgres_evidence_sound ascii_db plain_repr _ machine
    (scripted_laws restored_answers _ _ _) _ _ _ _ _ _ E)
    as (_ & r & w1 & h1 & h2 & h3 & w2 & heads & content & _ & _ & _ & Hh & _ & _ & Hs & ->).
  injection Hh as <-. destruct Hs as (_ & _ & Hv & Hr & _). exists r. split; [reflexivity|].
  split; [exact Hv|exact Hr].
Defined.
