(* ===== verification/GrafanaRestore.v ===== *)
(** * The restore drill of Grafana (ops/grafana/verify_restore.py)

    A tar archive of a Grafana volume is unpacked into a new volume, a Grafana container is
    started on it, and its HTTP interface is asked for the expected dashboards, folders and
    data sources and for the access policy. *)

From Stdlib Require Import QArith.
From stdpp Require Import base list strings numbers.
From S2P Require Import Prelude Text Double Calendar Regex Json Loads Url Api Docker DockerFacts.

Set Default Proof Using "Type".

Definition PINNED_IMAGE_PATTERN : pattern :=
  re_compile "^grafana/grafana:[^@\s]+@sha256:[0-9a-f]{64}$".
Definition UID_PATTERN : pattern := re_compile "^[A-Za-z0-9][A-Za-z0-9_-]{0,127}$".
Definition ADMIN_USER_PATTERN : pattern := re_compile "^[A-Za-z0-9][A-Za-z0-9_.@-]{0,254}$".

Definition DISABLED : str := u "disabled".
Record Args := {
  image : str; expected_version : str; backup : str; admin_user : str; admin_password_file : str;
  provisioning_dir : option str; dashboards_dir : option str; source_revision : str;
  timing : Timing; expect_dashboard : list (str * str); expect_folder : list (str * str);
  expect_datasource : list (str * str * str); anonymous_role : str; run_id : str;
  preserve_target : bool }.

(** The version in the name of an image (image_version.py) *)
Definition GRAFANA_IMAGE_PATTERN : pattern :=
  re_compile "^grafana/grafana:([0-9]+\.[0-9]+\.[0-9]+)@sha256:[0-9a-f]{64}$".
Definition parse_grafana_version `{UnicodeDb} (image : str) : outcome str :=
  match re_fullmatch GRAFANA_IMAGE_PATTERN image, re_match GRAFANA_IMAGE_PATTERN image with
  | true, Some m => Ok (default [] (group m 1))
  | _, _ => Raise (ValueError (u "Grafana image must be grafana/grafana:MAJOR.MINOR.PATCH@sha256:DIGEST"))
  end.

(** A member of a tar archive, as tarfile describes it *)
Record Member := {
  mb_name : str; mb_is_file : bool; mb_is_link : bool;  (* symbolic or hard link *)
  mb_is_special : bool;                                 (* device or FIFO *)
  mb_size : Z }.

(** ** Options of the command line *)

Section options.
Context {U : UnicodeDb}.
Definition nonblank (s : str) : bool := negb (str_eqb (strip s) []).
Definition parse_named_expectation (value : str) : outcome (str * str) :=
  match partition 61 value with
  | (uid, Some title) =>
    if re_fullmatch UID_PATTERN uid && nonblank title then Ok (uid, strip title)
    else ArgumentTypeError "expected UID=TITLE"
  | _ => ArgumentTypeError "expected UID=TITLE"
  end.
Definition parse_datasource_expectation (value : str) : outcome (str * str * str) :=
  let refused := ArgumentTypeError "expected UID=TYPE,URL" in
  match partition 61 value with
  | (uid, Some remainder) =>
    match partition 44 remainder with
    | (datasource_type, Some url) =>
      if re_fullmatch UID_PATTERN uid && nonblank datasource_type && nonblank url
      then Ok (uid, strip datasource_type, strip url) else refused
    | _ => refused
    end
  | _ => refused
  end.
End options.

(** ** The archive *)

(** PurePosixPath(name): whether it is absolute, and its parts but for the root *)
Definition is_absolute (name : str) : bool := starts_with (u "/") name.
Definition path_parts (name : str) : list str :=
  List.filter (fun part => negb (str_eqb part [] || str_eqb part (u "."))) (split_char 47 name).
Definition unsafe_member (m : Member) : bool :=
  let normalized := remove_prefix (u "./") (mb_name m) in
  str_eqb normalized [] || is_absolute normalized
  || existsb (fun part => str_eqb part (u "..")) (path_parts normalized)
  || mb_is_link m || mb_is_special m.
Record Archive := { ac_members : Z; ac_uncompressed_bytes : Z; ac_database_bytes : Z }.
Definition is_database (m : Member) : bool :=
  str_eqb (remove_prefix (u "./") (mb_name m)) (u "grafana.db") && mb_is_file m.
Definition add_member (a : Archive) (m : Member) : outcome Archive :=
  if unsafe_member m then Raise (ValueError (u "unsafe archive member: " ++ mb_name m))
  else Ok {| ac_members := ac_members a + 1;
             ac_uncompressed_bytes := ac_uncompressed_bytes a
                                      + (if mb_is_file m then mb_size m else 0);
             ac_database_bytes := if is_database m then mb_size m else ac_database_bytes a |}.
Fixpoint add_members (a : Archive) (members : list Member) : outcome Archive :=
  match members with
  | [] => Ok a
  | m :: members => let! a := add_member a m in add_members a members
  end.
(** [members]: what tarfile reads; None is a TarError *)
Definition inspect_members (members : option (list Member)) : outcome Archive :=
  match members with
  | None => Raise (ValueError (u "--backup must be a readable tar archive"))
  | Some members =>
    let! a := add_members {| ac_members := 0; ac_uncompressed_bytes := 0; ac_database_bytes := 0 |}
                members in
    if ac_database_bytes a =? 0 then
      Raise (ValueError (u "backup archive must contain a non-empty root grafana.db"))
    else Ok a
  end.

(** ** Texts *)

(** The newlines of a text file as Python reads it *)
Fixpoint universal_newlines (s : str) : str :=
  match s with
  | [] => []
  | c :: r =>
    if (c =? 13)%N then
      match r with
      | d :: r' => if (d =? 10)%N then 10%N :: universal_newlines r' else 10%N :: universal_newlines r
      | [] => [10%N]
      end
    else c :: universal_newlines r
  end.
(** urllib.parse.quote(text, safe='') *)
Definition quote (s : str) : outcome str :=
  match encode_utf8 s with
  | Some bs => Ok (flat_map (fun b => if is_unreserved b then [b] else percent b) bs)
  | None => Raise (ValueError (u "UnicodeEncodeError"))
  end.
(** base64.b64encode(...).decode() *)
Definition standard_b64 (bs : list N) : str :=
  map (fun c => if (c =? 45)%N then 43%N else if (c =? 95)%N then 47%N else c) (b64_encode bs).
(** The authorization of a request *)
Definition basic (credentials : option (str * str)) : outcome (option str) :=
  match credentials with
  | None => Ok None
  | Some (name, password) =>
    match encode_utf8 (name ++ u ":" ++ password) with
    | Some bs => Ok (Some (u "Basic " ++ standard_b64 bs))
    | None => Raise (ValueError (u "UnicodeEncodeError"))
    end
  end.
(** payload.get(key, {}).get(key', default) *)
Definition get_nested (payload : json) (key key' : string) (dflt : json) : outcome json :=
  let! inner := jget_default payload (u key) (JObj []) in jget_default inner (u key') dflt.
(** str(value).lower() == "true" *)
Definition reads_true `{UnicodeDb} (v : json) : bool :=
  match v with JStr s => str_eqb (lower s) (u "true") | JBool b => b | _ => false end.
(** The exceptions that wait_for_grafana catches; a transport raises an OSError. *)
Definition is_os_error (e : exn) : bool :=
  match e with TimeoutError | TransportError _ => true | _ => false end.

Section drill.
Context {U : UnicodeDb}.
Context {W : Type} `{Machine W} (sha256 : list N -> str).
(** tarfile.open(path).getmembers() *)
Context (tar_members : str -> W -> outcome (option (list Member))).

Definition inspect_archive (path : str) : M W Archive :=
  (do! members := Mtry_read (tar_members path) in Mlift (inspect_members members))%prog.
(** path.read_text(encoding="utf-8").rstrip of line ends *)
Definition read_password (path : str) : M W (option str) :=
  (do! bytes := Mtry_read (read_bytes path) in
   Mret (option_map (fun text => rstrip_chars [13; 10]%N (universal_newlines text))
           (decode_utf8 bytes)))%prog.

(** ** The arguments *)

Definition is_some {A} (o : option A) : bool := match o with Some _ => true | None => false end.
Definition check_directory (path : option str) (label : str) : M W unit :=
  match path with
  | None => Mret tt
  | Some path =>
    (do! dir := Mread (is_dir path) in
     require (dir && negb (in_chars path 44))
       (label ++ u " must be an existing directory without a comma"))%prog
  end.
Definition check_password (args : Args) : M W unit :=
  (do! file := Mread (is_file (admin_password_file args)) in
   require file (u "--admin-password-file must be an existing regular file");;;
   do! size := Mtry_read (file_size (admin_password_file args)) in
   require (size <=? 1024 * 1024) (u "--admin-password-file cannot exceed 1 MiB");;;
   require (re_fullmatch ADMIN_USER_PATTERN (admin_user args))
     (u "--admin-user contains unsupported characters");;;
   do! password := read_password (admin_password_file args) in
   match password with
   | None => Mraise (ValueError (u "--admin-password-file must contain UTF-8 text"))
   | Some password =>
     require (negb (str_eqb password [])) (u "--admin-password-file cannot be empty")
   end)%prog.
(** args.backup.is_file() and its size is not 0 *)
Definition nonempty_file (path : str) : M W bool :=
  (do! file := Mread (is_file path) in
   if file then do! size := Mtry_read (file_size path) in Mret (negb (size =? 0)) else Mret false)%prog.
Definition once (uids : list str) (label : string) : M W unit :=
  require (bool_decide (NoDup uids))
    (u "each expected " ++ u label ++ u " UID may be specified only once").
Definition datasource_uids (l : list (str * str * str)) : list str := map (fun d => fst (fst d)) l.
Definition validate_args (args : Args) : M W unit :=
  (require (re_fullmatch PINNED_IMAGE_PATTERN (image args))
     (u "--image must be grafana/grafana:TAG@sha256:DIGEST");;;
   require (re_fullmatch RUN_ID_PATTERN (run_id args))
     (u "--run-id must contain only lowercase letters, digits, and hyphens");;;
   do! backup_ok := nonempty_file (backup args) in
   require backup_ok (u "--backup must be an existing non-empty regular file");;;
   require (negb (in_chars (backup args) 44)) (u "--backup path cannot contain a comma");;;
   require (Bool.eqb (is_some (provisioning_dir args)) (is_some (dashboards_dir args)))
     (u "--provisioning-dir and --dashboards-dir must be provided together");;;
   check_directory (provisioning_dir args) (u "--provisioning-dir");;;
   check_directory (dashboards_dir args) (u "--dashboards-dir");;;
   check_password args;;;
   check_timing (timing args);;;
   require (negb (bool_decide (expect_dashboard args = [])
                  || bool_decide (expect_folder args = [])
                  || bool_decide (expect_datasource args = [])))
     (u "dashboard, folder, and datasource expectations are all required");;;
   once (map fst (expect_dashboard args)) "dashboard";;;
   once (map fst (expect_folder args)) "folder";;;
   once (datasource_uids (expect_datasource args)) "datasource";;;
   do! _ := inspect_archive (backup args) in Mret tt)%prog.

(** ** The HTTP interface *)

Definition http_get (url : str) (credentials : option (str * str)) : M W (Z * list N * str) :=
  (do! authorization := Mlift (basic credentials) in fetch url authorization)%prog.
(** The health of a Grafana that answers as expected: its payload *)
Definition healthy (expected_version : str) (answer : Z * list N * str) : option (list (str * json)) :=
  let '(status, body, _) := answer in
  match json_loads body with
  | inl (JObj d) =>
    if (status =? 200) && jeq_str (default JNull (dict_get str_eqb d (u "database"))) (u "ok")
       && jeq_str (default JNull (dict_get str_eqb d (u "version"))) expected_version
    then Some d else None
  | _ => None
  end.
Fixpoint wait_for_grafana (origin expected_version : str) (attempts : nat) : M W (list (str * json)) :=
  match attempts with
  | O => Mraise (RuntimeError (u "Grafana did not become healthy with the expected version"))
  | S attempts => fun w =>
    let again := (do_sleep 1;;; wait_for_grafana origin expected_version attempts)%prog in
    match http_get (origin ++ u "/api/health") None w with
    | (Ok answer, w) =>
      match healthy expected_version answer with Some d => (Ok d, w) | None => again w end
    | (Raise e, w) =>
      if is_os_error e || is_value_error e then again w else (Raise e, w)
    end
  end.
Definition ATTEMPTS : nat := 90.
Definition get_json (origin path : str) (credentials : option (str * str)) : M W json :=
  (do! answer := http_get (origin ++ path) credentials in
   let '(status, body, content_type) := answer in
   if negb ((status =? 200) && str_eqb content_type (u "application/json")) then
     Mraise (RuntimeError (u "Grafana API request failed for " ++ path ++ u ": HTTP "
                           ++ str_of_Z status))
   else match json_loads body with
        | inl (JObj d) => Mret (JObj d)
        | inl _ => Mraise (RuntimeError (u "Grafana API returned a non-object for " ++ path))
        | inr failure => Mraise (loads_error failure)
        end)%prog.

Record AccessPolicy := { ap_enabled : bool; ap_role : str; ap_dashboard_allowed : bool }.
Definition validate_access_policy (origin role probe_dashboard_uid : str)
    (credentials : option (str * str)) : M W AccessPolicy :=
  (do! settings := get_json origin (u "/api/admin/settings") credentials in
   do! anonymous := Mlift (jget_default settings (u "auth.anonymous") (JObj [])) in
   let expected_enabled := negb (str_eqb role DISABLED) in
   do! value := Mlift (jget_default anonymous (u "enabled") (JStr (u "false"))) in
   let enabled := reads_true value in
   do! configured_role := Mlift (jget_default anonymous (u "org_role") (JStr [])) in
   if negb (Bool.eqb enabled expected_enabled) then
     Mraise (RuntimeError (u "Grafana anonymous access enabled state does not match expectation"))
   else if expected_enabled && negb (jeq_str configured_role role) then
     Mraise (RuntimeError (u "Grafana anonymous role does not match expectation"))
   else
     do! uid := Mlift (quote probe_dashboard_uid) in
     do! dashboard := http_get (origin ++ u "/api/dashboards/uid/" ++ uid) None in
     do! admin := http_get (origin ++ u "/api/admin/settings") None in
     let allowed := fst (fst dashboard) =? 200 in
     let admin_status := fst (fst admin) in
     if negb (Bool.eqb allowed expected_enabled)
        || negb ((admin_status =? 401) || (admin_status =? 403)) then
       Mraise (RuntimeError (u "Grafana anonymous API access policy check failed"))
     else Mret {| ap_enabled := enabled; ap_role := if enabled then role else DISABLED;
                  ap_dashboard_allowed := allowed |})%prog.

(** ** The expected dashboards, folders and data sources *)

Definition uid_path (prefix : string) (uid : str) : outcome str :=
  let! quoted := quote uid in Ok (u prefix ++ quoted).
(** A dashboard's UID and whether it is provisioned *)
Fixpoint check_dashboards (origin : str) (credentials : option (str * str))
    (expected : list (str * str)) : M W (list (str * bool)) :=
  match expected with
  | [] => Mret []
  | (uid, expected_title) :: expected =>
    (do! path := Mlift (uid_path "/api/dashboards/uid/" uid) in
     do! payload := get_json origin path credentials in
     do! title := Mlift (get_nested payload "dashboard" "title" JNull) in
     if negb (jeq_str title expected_title) then
       Mraise (RuntimeError (u "dashboard title mismatch for UID " ++ uid))
     else
       do! provisioned := Mlift (get_nested payload "meta" "provisioned" (JBool false)) in
       do! rest := check_dashboards origin credentials expected in
       Mret ((uid, jtruthy provisioned) :: rest))%prog
  end.
Fixpoint check_folders (origin : str) (credentials : option (str * str))
    (expected : list (str * str)) : M W (list str) :=
  match expected with
  | [] => Mret []
  | (uid, expected_title) :: expected =>
    (do! path := Mlift (uid_path "/api/folders/" uid) in
     do! payload := get_json origin path credentials in
     do! title := Mlift (jget payload (u "title")) in
     if negb (jeq_str title expected_title) then
       Mraise (RuntimeError (u "folder title mismatch for UID " ++ uid))
     else
       do! rest := check_folders origin credentials expected in Mret (uid :: rest))%prog
  end.
Fixpoint check_datasources (origin : str) (credentials : option (str * str))
    (expected : list (str * str * str)) : M W (list str) :=
  match expected with
  | [] => Mret []
  | (uid, expected_type, expected_url) :: expected =>
    (do! path := Mlift (uid_path "/api/datasources/uid/" uid) in
     do! payload := get_json origin path credentials in
     do! type_ := Mlift (jget payload (u "type")) in
     do! url := Mlift (jget payload (u "url")) in
     if negb (jeq_str type_ expected_type && jeq_str url expected_url) then
       Mraise (RuntimeError (u "datasource mismatch for UID " ++ uid))
     else
       do! rest := check_datasources origin credentials expected in Mret (uid :: rest))%prog
  end.

(** ** The drill *)

Definition container_of (args : Args) : str := u "pipelens-grafana-restore-" ++ run_id args.
Definition volume_of (args : Args) : str := u "pipelens-grafana-restore-" ++ run_id args ++ u "-data".

Definition unpack_arguments (args : Args) (volume_name backup_source : str) : list str :=
  [u "run"; u "--rm"; u "--user"; u "0"; u "--entrypoint"; u "tar"; u "--mount";
   u "type=volume,source=" ++ volume_name ++ u ",target=/target"; u "--mount";
   u "type=bind,source=" ++ backup_source ++ u ",target=/backup/archive,readonly"; image args;
   u "-xf"; u "/backup/archive"; u "-C"; u "/target"].
Definition chown_arguments (args : Args) (volume_name : str) : list str :=
  [u "run"; u "--rm"; u "--user"; u "0"; u "--entrypoint"; u "chown"; u "--mount";
   u "type=volume,source=" ++ volume_name ++ u ",target=/target"; image args; u "-R"; u "472:0";
   u "/target"].
Definition anonymous_enabled (args : Args) : bool := negb (str_eqb (anonymous_role args) DISABLED).
Definition serve_arguments (args : Args) (container_name volume_name : str)
    (mounts : list str) : list str :=
  [u "run"; u "--detach"; u "--name"; container_name; u "--publish"; u "127.0.0.1::3000"; u "--env";
   u "GF_AUTH_ANONYMOUS_ENABLED=" ++ (if anonymous_enabled args then u "true" else u "false");
   u "--env"; u "GF_AUTH_ANONYMOUS_ORG_ROLE="
              ++ (if anonymous_enabled args then anonymous_role args else u "Viewer");
   u "--env"; u "GF_AUTH_DISABLE_LOGIN_FORM=true"; u "--env";
   u "GF_ANALYTICS_REPORTING_ENABLED=false"; u "--env"; u "GF_ANALYTICS_CHECK_FOR_UPDATES=false";
   u "--mount"; u "type=volume,source=" ++ volume_name ++ u ",target=/var/lib/grafana"]
  ++ mounts ++ [image args].
Definition provisioning_mounts (args : Args) : M W (list str) :=
  match provisioning_dir args, dashboards_dir args with
  | Some provisioning, Some dashboards =>
    (do! provisioning := Mread (resolve provisioning) in
     do! dashboards := Mread (resolve dashboards) in
     Mret [u "--mount"; u "type=bind,source=" ++ provisioning
                        ++ u ",target=/etc/grafana/provisioning,readonly";
           u "--mount"; u "type=bind,source=" ++ dashboards
                        ++ u ",target=/var/lib/grafana/dashboards,readonly"])%prog
  | Some _, None => Mraise (AttributeError (u "resolve"))
  | None, _ => Mret []
  end.
(** int(stdout.strip().rsplit(":", 1)[1]) *)
Definition parse_port (stdout : str) : outcome Z :=
  match rpartition 58 (strip stdout) with
  | (Some _, port) =>
    match int_of_str port with
    | Some port => Ok port
    | None => Raise (ValueError (u "invalid literal for int()"))
    end
  | (None, _) => Raise (IndexError (u "list index out of range"))
  end.

(** What is read before the try statement *)
Record Before := {
  bf_archive : Archive; bf_bytes : Z; bf_sha256 : str; bf_password : str;
  bf_recovery_started : Q }.
Definition check_args (args : Args) : M W Archive :=
  (validate_args args;;; inspect_archive (backup args))%prog.
Definition measure (args : Args) (archive : Archive) : M W Before :=
  (do! size := Mtry_read (file_size (backup args)) in
   do! checksum := sha256_file sha256 (backup args) in
   do! password := read_password (admin_password_file args) in
   match password with
   | None => Mraise UnicodeDecodeError
   | Some password =>
     do! recovery_started := get_monotonic in
     Mret {| bf_archive := archive; bf_bytes := size; bf_sha256 := checksum;
             bf_password := password; bf_recovery_started := recovery_started |}
   end)%prog.
(** The volume is filled: the time it took *)
Definition restore (args : Args) (before : Before) : M W Q :=
  (do! _ := docker true [u "pull"; image args] in
   do! _ := docker true [u "volume"; u "create"; volume_of args] in
   do! restore_started := get_monotonic in
   do! backup_source := Mread (resolve (backup args)) in
   do! _ := docker true (unpack_arguments args (volume_of args) backup_source) in
   do! _ := docker true (chown_arguments args (volume_of args)) in
   do! now := get_monotonic in
   do! checksum := sha256_file sha256 (backup args) in
   if negb (str_eqb checksum (bf_sha256 before)) then
     Mraise (RuntimeError (u "backup changed while the restore was running"))
   else Mret (elapsed restore_started now))%prog.
(** The origin of the started container, and its health *)
Definition serve (args : Args) : M W (str * list (str * json)) :=
  (do! mounts := provisioning_mounts args in
   do! _ := docker true (serve_arguments args (container_of args) (volume_of args) mounts) in
   do! result := docker true [u "port"; container_of args; u "3000/tcp"] in
   do! port := Mlift (parse_port (stdout result)) in
   let origin := u "http://127.0.0.1:" ++ str_of_Z port in
   do! health := wait_for_grafana origin (expected_version args) ATTEMPTS in
   Mret (origin, health))%prog.

Record Result := {
  rs_checked_at : Z; rs_before : Before; rs_restore_seconds : Q; rs_recovery_seconds : Q;
  rs_health : list (str * json); rs_dashboards : list (str * bool); rs_folders : list str;
  rs_datasources : list str; rs_access_policy : AccessPolicy; rs_database_bytes : Z }.
(** The body of the try statement; with no expected dashboard, whose first UID probes the
    policy, the validation has failed. *)
Definition attempt (args : Args) (before : Before) : M W Result :=
  (do! restore_seconds := restore args before in
   do! (origin, health) := serve args in
   let credentials := Some (admin_user args, bf_password before) in
   do! dashboards := check_dashboards origin credentials (expect_dashboard args) in
   if negb (existsb (fun d => negb (snd d)) dashboards) then
     Mraise (RuntimeError (u "at least one expected non-provisioned dashboard is required"))
   else
   do! folders := check_folders origin credentials (expect_folder args) in
   do! datasources := check_datasources origin credentials (expect_datasource args) in
   do! probe := Mlift (match expect_dashboard args with
                       | (uid, _) :: _ => Ok uid
                       | [] => Raise (IndexError (u "list index out of range"))
                       end) in
   do! policy := validate_access_policy origin (anonymous_role args) probe credentials in
   do! size := docker true [u "exec"; container_of args; u "stat"; u "-c"; u "%s";
                            u "/var/lib/grafana/grafana.db"] in
   do! bytes := Mlift (match int_of_str (strip (stdout size)) with
                       | Some z => Ok z
                       | None => Raise (ValueError (u "invalid literal for int()"))
                       end) in
   do! now := get_monotonic in
   do! checked_at := get_utcnow in
   Mret {| rs_checked_at := checked_at; rs_before := before; rs_restore_seconds := restore_seconds;
           rs_recovery_seconds := elapsed (bf_recovery_started before) now; rs_health := health;
           rs_dashboards := dashboards; rs_folders := folders; rs_datasources := datasources;
           rs_access_policy := policy; rs_database_bytes := bytes |})%prog.

Definition present_json (flags : list string) : json :=
  JObj (map (fun flag => (u flag, JBool true)) flags).
Definition dashboard_json (d : str * bool) : str * json :=
  (fst d, JObj [(u "present", JBool true); (u "title_met", JBool true);
                (u "provisioned", JBool (snd d))]).
Definition access_json (p : AccessPolicy) : json := JObj [
  (u "anonymous_enabled", JBool (ap_enabled p)); (u "anonymous_role", JStr (ap_role p));
  (u "anonymous_dashboard_allowed", JBool (ap_dashboard_allowed p));
  (u "anonymous_admin_denied", JBool true)].
Definition archive_json (a : Archive) : list (str * json) := [
  (u "member_count", JInt (ac_members a));
  (u "uncompressed_bytes", JInt (ac_uncompressed_bytes a));
  (u "database_bytes", JInt (ac_database_bytes a))].
Definition evidence (args : Args) (r : Result) : json :=
  let t := timing args in
  let before := rs_before r in
  let health key := default JNull (dict_get str_eqb (rs_health r) (u key)) in
  JObj [
    (u "schema_version", JInt 1); (u "checked_at", JStr (isoformat (rs_checked_at r)));
    (u "source", JObj [
      (u "revision", JStr (source_revision args));
      (u "write_freeze_at", JStr (isoformat (write_freeze_at t)));
      (u "backup_created_at", JStr (isoformat (backup_created_at t)))]);
    (u "objectives_seconds", JObj [
      (u "rto", float_json (rto_seconds t)); (u "rpo", float_json (rpo_seconds t))]);
    (u "backup", JObj ([
      (u "bytes", JInt (bf_bytes before)); (u "sha256", JStr (bf_sha256 before));
      (u "duration_seconds", float_json (float_round3 (backup_duration_seconds t)))]
      ++ archive_json (bf_archive before)));
    (u "restore", JObj [
      (u "image", JStr (image args)); (u "grafana_version", health "version"%string);
      (u "duration_seconds", JFloat (round3 (rs_restore_seconds r)));
      (u "recovery_duration_seconds", JFloat (round3 (rs_recovery_seconds r)));
      (u "migrated_database_bytes", JInt (rs_database_bytes r));
      (u "rto_met", JBool (float_leb (inl (rs_recovery_seconds r)) (rto_seconds t)));
      (u "observed_rpo_seconds", float_json (float_round3 (observed_rpo_seconds t)));
      (u "rpo_met", JBool (float_leb (observed_rpo_seconds t) (rpo_seconds t)))]);
    (u "integrity", JObj [
      (u "database", health "database"%string);
      (u "dashboards", JObj (map dashboard_json (rs_dashboards r)));
      (u "folders", JObj (map (fun uid => (uid, present_json ["present"; "title_met"]%string))
                            (rs_folders r)));
      (u "datasources", JObj (map (fun uid =>
         (uid, present_json ["present"; "type_met"; "url_met"]%string)) (rs_datasources r)));
      (u "access_policy", access_json (rs_access_policy r));
      (u "provisioning_mounted", JBool (is_some (provisioning_dir args)))]);
    (u "target_preserved", JBool (preserve_target args))].
Definition run_drill (args : Args) : M W json :=
  (do! result := drill (check_args args) (container_of args) (volume_of args) (measure args)
                   (attempt args) (preserve_target args) in
   Mret (evidence args result))%prog.
End drill.

(** ** What the restore drill of Grafana guarantees *)

Section drill_facts.
Context {U : UnicodeDb} {W : Type} `{HL : DockerLaws W}.
Context (sha256 : list N -> str) (tar_members : str -> W -> outcome (option (list Member))).

(** ** The commands *)

Lemma archive_looks path : within (W := W) looks (inspect_archive tar_members path).
Proof using Type. unfold inspect_archive. each_command fail. Qed.
Lemma password_looks path : within (W := W) looks (read_password path).
Proof using Type. unfold read_password. each_command fail. Qed.
Lemma check_args_looks args : within (W := W) looks (check_args tar_members args).
Proof.
  unfold check_args, validate_args, nonempty_file, check_directory, check_password, once.
  repeat case_match;
    each_command ltac:(first [apply require_looks|apply check_timing_looks|apply archive_looks
                             |apply password_looks|case_match]).
Qed.
Lemma grafana_measure_looks args archive : within (W := W) looks (measure sha256 args archive).
Proof using Type.
  unfold measure, sha256_file. each_command ltac:(first [apply password_looks|case_match]).
Qed.

Section own_objects.
Context (own : list object).
Abbreviation mine := (within (W := W) (removes_only own)).
Lemma http_get_mine url credentials : mine (http_get url credentials).
Proof using Type. unfold http_get. each_command fail. Qed.
Lemma grafana_wait_mine origin version attempts : mine (wait_for_grafana origin version attempts).
Proof using Type.
  induction attempts as [|n IH]; cbn [wait_for_grafana]; [apply within_raise|].
  assert (Hagain : mine (do_sleep 1;;; wait_for_grafana origin version n)%prog)
    by each_command ltac:(apply IH).
  intros w o w' E. destruct (http_get _ None w) as [r w1] eqn:Eg.
  destruct (http_get_mine _ _ _ _ _ Eg) as (h1 & Hs1 & Hh1).
  assert (Hmore : (do_sleep 1;;; wait_for_grafana origin version n)%prog w1 = (o, w') \/ w1 = w').
  { destruct r as [answer|e].
    - destruct (healthy version answer); [injection E; auto|auto].
    - destruct (_ || _); [auto|injection E; auto]. }
  destruct Hmore as [Hm|<-]; [|by exists h1].
  destruct (Hagain _ _ _ Hm) as (h2 & Hs2 & Hh2). exists (h1 ++ h2).
  split; [by eapply steps_app|by apply Forall_app_2].
Qed.
Lemma get_json_mine origin path credentials : mine (get_json origin path credentials).
Proof using Type.
  unfold get_json. apply within_bind; [apply http_get_mine|]. intros [[status body] type_].
  each_command ltac:(idtac; case_match).
Qed.
Lemma dashboards_mine origin credentials expected : mine (check_dashboards origin credentials expected).
Proof using Type.
  induction expected as [|[uid title] expected IH]; cbn [check_dashboards];
    each_command ltac:(first [apply get_json_mine|apply IH]).
Qed.
Lemma folders_mine origin credentials expected : mine (check_folders origin credentials expected).
Proof using Type.
  induction expected as [|[uid title] expected IH]; cbn [check_folders];
    each_command ltac:(first [apply get_json_mine|apply IH]).
Qed.
Lemma datasources_mine origin credentials expected : mine (check_datasources origin credentials expected).
Proof using Type.
  induction expected as [|[[uid type_] url] expected IH]; cbn [check_datasources];
    each_command ltac:(first [apply get_json_mine|apply IH]).
Qed.
Lemma policy_mine origin role uid credentials : mine (validate_access_policy origin role uid credentials).
Proof using Type.
  unfold validate_access_policy. each_command ltac:(first [apply get_json_mine|apply http_get_mine]).
Qed.
Lemma grafana_restore_mine args before : mine (restore sha256 args before).
Proof using Type. unfold restore, sha256_file. each_command fail. Qed.
Lemma serve_mine args : mine (serve args).
Proof using Type.
  unfold serve, provisioning_mounts.
  each_command ltac:(first [apply grafana_wait_mine|case_match]).
Qed.
Lemma grafana_attempt_mine args before : mine (attempt sha256 args before).
Proof using Type.
  unfold attempt.
  each_command ltac:(first [apply grafana_restore_mine|apply serve_mine|apply dashboards_mine
    |apply folders_mine|apply datasources_mine|apply policy_mine|case_match]).
Qed.
End own_objects.

(** ** What the answers have shown *)

Abbreviation credentials_of := (option (str * str)).
(** A request of this history was answered so. *)
Definition fetched (h : list event) (url : str) (c : credentials_of) (status : Z) (body : list N)
    (type_ : str) : Prop :=
  exists authorization, basic c = Ok authorization
  /\ In (Fetched url authorization (Ok (status, body, type_))) h.
Definition json_at (h : list event) (url : str) (c : credentials_of) (d : list (str * json)) : Prop :=
  exists body, fetched h url c 200 body (u "application/json") /\ json_loads body = inl (JObj d).
Lemma fetched_incl h h' url c status body type_ : incl h h' ->
  fetched h url c status body type_ -> fetched h' url c status body type_.
Proof using Type. intros Hi (a & Ha & Hin). exists a. auto. Qed.
Lemma json_at_incl h h' url c d : incl h h' -> json_at h url c d -> json_at h' url c d.
Proof using Type. intros Hi (body & Hf & Hj). exists body. split; [by eapply fetched_incl|done]. Qed.

Lemma http_get_yields url c : yields (W := W) (http_get url c)
  (fun answer h => fetched h url c (fst (fst answer)) (snd (fst answer)) (snd answer)).
Proof using Type.
  intros w [[status body] type_] w' (a & w1 & Ha & E)%Mbind_Ok. injection Ha as Ha <-.
  exists [Fetched url a (Ok (status, body, type_))].
  split; [by eapply steps_fetched; [|constructor]|]. exists a. split; [done|by left].
Qed.
Lemma get_json_yields origin path c : yields (W := W) (get_json origin path c)
  (fun v h => exists d, v = JObj d /\ json_at h (origin ++ path) c d).
Proof using Type.
  intros w v w' ([[status body] type_] & w1 & H1%http_get_yields & E)%Mbind_Ok.
  destruct H1 as (h & Hs & Hf). cbn [fst snd] in Hf.
  destruct (status =? 200) eqn:Est; [|done]. apply Z.eqb_eq in Est as ->.
  destruct (str_eqb type_ (u "application/json")) eqn:Et; [|done]. apply str_eqb_eq in Et as ->.
  cbn [andb negb] in E. destruct (json_loads body) as [[| | | | | | |d]|] eqn:Ej; try done.
  injection E as <- <-. exists h. split; [done|]. exists d. split; [done|]. by exists body.
Qed.

Definition dashboard_shown (h : list event) (origin : str) (c : credentials_of)
    (expected : str * str) (found : str * bool) : Prop :=
  fst found = fst expected
  /\ exists path d p, uid_path "/api/dashboards/uid/" (fst expected) = Ok path
     /\ json_at h (origin ++ path) c d
     /\ get_nested (JObj d) "dashboard" "title" JNull = Ok (JStr (snd expected))
     /\ get_nested (JObj d) "meta" "provisioned" (JBool false) = Ok p /\ snd found = jtruthy p.
Definition folder_shown (h : list event) (origin : str) (c : credentials_of)
    (expected : str * str) (uid : str) : Prop :=
  uid = fst expected
  /\ exists path d, uid_path "/api/folders/" (fst expected) = Ok path
     /\ json_at h (origin ++ path) c d /\ dict_get str_eqb d (u "title") = Some (JStr (snd expected)).
Definition datasource_shown (h : list event) (origin : str) (c : credentials_of)
    (expected : str * str * str) (uid : str) : Prop :=
  uid = fst (fst expected)
  /\ exists path d, uid_path "/api/datasources/uid/" (fst (fst expected)) = Ok path
     /\ json_at h (origin ++ path) c d
     /\ dict_get str_eqb d (u "type") = Some (JStr (snd (fst expected)))
     /\ dict_get str_eqb d (u "url") = Some (JStr (snd expected)).
Lemma dashboard_incl h h' origin c e f : incl h h' ->
  dashboard_shown h origin c e f -> dashboard_shown h' origin c e f.
Proof using Type.
  intros Hi (H1 & path & d & p & H2 & H3 & H4). split; [done|]. exists path, d, p.
  split; [done|]. split; [by eapply json_at_incl|done].
Qed.
Lemma folder_incl h h' origin c e f : incl h h' -> folder_shown h origin c e f -> folder_shown h' origin c e f.
Proof using Type.
  intros Hi (H1 & path & d & H2 & H3 & H4). split; [done|]. exists path, d.
  split; [done|]. split; [by eapply json_at_incl|done].
Qed.
Lemma datasource_incl h h' origin c e f : incl h h' ->
  datasource_shown h origin c e f -> datasource_shown h' origin c e f.
Proof using Type.
  intros Hi (H1 & path & d & H2 & H3 & H4). split; [done|]. exists path, d.
  split; [done|]. split; [by eapply json_at_incl|done].
Qed.
Lemma jeq_str_true v s : jeq_str v s = true -> v = JStr s.
Proof using Type. destruct v; try done. by intros ->%str_eqb_eq. Qed.
Lemma jget_str d key s : default JNull (dict_get str_eqb d key) = JStr s ->
  dict_get str_eqb d key = Some (JStr s).
Proof using Type. by destruct (dict_get str_eqb d key); cbn; [intros ->|]. Qed.

Lemma dashboards_yield origin c expected : yields (W := W) (check_dashboards origin c expected)
  (fun found h => Forall2 (dashboard_shown h origin c) expected found).
Proof using Type.
  induction expected as [|[uid title] expected IH]; [apply yields_value; constructor|].
  intros w found w' (path & w1 & Hp & E)%Mbind_Ok. injection Hp as Hp <-.
  apply Mbind_Ok in E as (v & w2 & (h1 & Hs1 & d & -> & Hj)%get_json_yields & E).
  apply Mbind_Ok in E as (t & w3 & Ht & E). injection Ht as Ht <-.
  destruct (jeq_str t title) eqn:Et; [|done]. apply jeq_str_true in Et as ->. cbn [negb] in E.
  apply Mbind_Ok in E as (p & w4 & Hpr & E). injection Hpr as Hpr <-.
  apply Mbind_Ok in E as (rest & w5 & Hr & E). injection E as <- <-.
  destruct (IH _ _ _ Hr) as (h2 & Hs2 & H2). exists (h1 ++ h2). split; [by eapply steps_app|].
  constructor; [|eapply Forall2_impl; [|exact H2]].
  - split; [done|]. exists path, d, p. split; [done|]. split; [|done].
    eapply json_at_incl; [|exact Hj]. apply incl_appl, incl_refl.
  - intros a b. apply dashboard_incl, incl_appr, incl_refl.
Qed.
Lemma folders_yield origin c expected : yields (W := W) (check_folders origin c expected)
  (fun found h => Forall2 (folder_shown h origin c) expected found).
Proof using Type.
  induction expected as [|[uid title] expected IH]; [apply yields_value; constructor|].
  intros w found w' (path & w1 & Hp & E)%Mbind_Ok. injection Hp as Hp <-.
  apply Mbind_Ok in E as (v & w2 & (h1 & Hs1 & d & -> & Hj)%get_json_yields & E).
  apply Mbind_Ok in E as (t & w3 & Ht & E). injection Ht as Ht <-.
  destruct (jeq_str t title) eqn:Et; [|done]. apply jeq_str_true in Et as ->. cbn [negb] in E.
  apply Mbind_Ok in E as (rest & w5 & Hr & E). injection E as <- <-.
  destruct (IH _ _ _ Hr) as (h2 & Hs2 & H2). exists (h1 ++ h2). split; [by eapply steps_app|].
  constructor; [|eapply Forall2_impl; [|exact H2]].
  - split; [done|]. exists path, d. split; [done|]. split; [|by apply jget_str].
    eapply json_at_incl; [|exact Hj]. apply incl_appl, incl_refl.
  - intros a b. apply folder_incl, incl_appr, incl_refl.
Qed.
Lemma datasources_yield origin c expected : yields (W := W) (check_datasources origin c expected)
  (fun found h => Forall2 (datasource_shown h origin c) expected found).
Proof using Type.
  induction expected as [|[[uid type_] url] expected IH]; [apply yields_value; constructor|].
  intros w found w' (path & w1 & Hp & E)%Mbind_Ok. injection Hp as Hp <-.
  apply Mbind_Ok in E as (v & w2 & (h1 & Hs1 & d & -> & Hj)%get_json_yields & E).
  apply Mbind_Ok in E as (t & w3 & Ht & E). injection Ht as Ht <-.
  apply Mbind_Ok in E as (t2 & w4 & Ht2 & E). injection Ht2 as Ht2 <-.
  destruct (jeq_str t type_) eqn:Et; [|done]. apply jeq_str_true in Et as ->.
  destruct (jeq_str t2 url) eqn:Et; [|done]. apply jeq_str_true in Et as ->. cbn [negb andb] in E.
  apply Mbind_Ok in E as (rest & w5 & Hr & E). injection E as <- <-.
  destruct (IH _ _ _ Hr) as (h2 & Hs2 & H2). exists (h1 ++ h2). split; [by eapply steps_app|].
  constructor; [|eapply Forall2_impl; [|exact H2]].
  - split; [done|]. exists path, d. split; [done|]. split; [|split; by apply jget_str].
    eapply json_at_incl; [|exact Hj]. apply incl_appl, incl_refl.
  - intros a b. apply datasource_incl, incl_appr, incl_refl.
Qed.

(** Without credentials the settings were refused, and the dashboard was shown only if an
    anonymous role is expected, which is the one the settings name. *)
Definition policy_shown (h : list event) (origin role uid : str) (c : credentials_of)
    (p : AccessPolicy) : Prop :=
  let expected := negb (str_eqb role DISABLED) in
  p = {| ap_enabled := expected; ap_role := role; ap_dashboard_allowed := expected |}
  /\ (exists d, json_at h (origin ++ u "/api/admin/settings") c d
       /\ (expected = true -> get_nested (JObj d) "auth.anonymous" "org_role" (JStr []) = Ok (JStr role)))
  /\ (exists status body type_, fetched h (origin ++ u "/api/admin/settings") None status body type_
       /\ (status = 401 \/ status = 403))
  /\ exists quoted status body type_, quote uid = Ok quoted
     /\ fetched h (origin ++ u "/api/dashboards/uid/" ++ quoted) None status body type_
     /\ (status =? 200) = expected.
Lemma policy_incl h h' origin role uid c p : incl h h' ->
  policy_shown h origin role uid c p -> policy_shown h' origin role uid c p.
Proof using Type.
  intros Hi (H1 & (d & H2 & H3) & (st & b & t & H4 & H5) & q & st' & b' & t' & H6 & H7 & H8).
  split; [done|]. split; [|split].
  - exists d. split; [by eapply json_at_incl|done].
  - exists st, b, t. split; [by eapply fetched_incl|done].
  - exists q, st', b', t'. split; [done|]. split; [by eapply fetched_incl|done].
Qed.
Lemma policy_yields origin role uid c : yields (W := W) (validate_access_policy origin role uid c)
  (fun p h => policy_shown h origin role uid c p).
Proof using Type.
  intros w p w' (v & w1 & (h1 & Hs1 & d & -> & Hj)%get_json_yields & E)%Mbind_Ok.
  apply Mbind_Ok in E as (anonymous & w2 & Ha & E). injection Ha as Ha <-.
  apply Mbind_Ok in E as (value & w3 & Hv & E). injection Hv as Hv <-.
  apply Mbind_Ok in E as (configured & w4 & Hr & E). injection Hr as Hr <-.
  set (expected := negb (str_eqb role DISABLED)) in E.
  destruct (Bool.eqb (reads_true value) expected) eqn:Een; [|done]. apply eqb_prop in Een.
  cbn [negb] in E. destruct (expected && negb (jeq_str configured role)) eqn:Erole; [done|].
  apply Mbind_Ok in E as (quoted & w5 & Hq & E). injection Hq as Hq <-.
  apply Mbind_Ok in E as ([[st b] t] & w6 & (h2 & Hs2 & Hd)%http_get_yields & E).
  apply Mbind_Ok in E as ([[st' b'] t'] & w7 & (h3 & Hs3 & Hadm)%http_get_yields & E).
  cbn [fst snd] in *. destruct (Bool.eqb (st =? 200) expected) eqn:Eall; [|done]. apply eqb_prop in Eall.
  destruct ((st' =? 401) || (st' =? 403)) eqn:Est; [|done]. cbn [negb orb] in E. injection E as <- <-.
  exists (h1 ++ h2 ++ h3). split; [by repeat (eapply steps_app; [eassumption|])|].
  unfold policy_shown. fold expected. split; [|split; [|split]].
  - rewrite Een, Eall. destruct expected eqn:Eexp; [done|]. unfold expected in Eexp.
    apply negb_false_iff, str_eqb_eq in Eexp as ->. done.
  - exists d. split; [eapply json_at_incl; [|exact Hj]; apply incl_appl, incl_refl|]. intros Hexp.
    rewrite Hexp in Erole. cbn [andb] in Erole. apply negb_false_iff, jeq_str_true in Erole as ->.
    unfold get_nested. cbn [jget_default obind]. rewrite Ha. exact Hr.
  - exists st', b', t'. split; [eapply fetched_incl; [|exact Hadm]; apply incl_appr, incl_appr, incl_refl|lia].
  - exists quoted, st, b, t. split; [done|]. split; [|done].
    eapply fetched_incl; [|exact Hd]. apply incl_appr, incl_appl, incl_refl.
Qed.

(** ** What is checked before *)

Definition args_ok (args : Args) : Prop :=
  re_fullmatch PINNED_IMAGE_PATTERN (image args) = true
  /\ re_fullmatch RUN_ID_PATTERN (run_id args) = true
  /\ write_freeze_at (timing args) <= backup_created_at (timing args)
  /\ expect_dashboard args <> [] /\ expect_folder args <> [] /\ expect_datasource args <> []
  /\ NoDup (map fst (expect_dashboard args)) /\ NoDup (map fst (expect_folder args))
  /\ NoDup (datasource_uids (expect_datasource args)).
(** No member of the archive leads out of the volume, and its database is not empty. *)
Definition archive_ok (members : list Member) (a : Archive) : Prop :=
  Forall (fun m => unsafe_member m = false) members /\ ac_members a = Z.of_nat (length members)
  /\ ac_database_bytes a <> 0
  /\ exists m, In m members /\ is_database m = true /\ mb_size m = ac_database_bytes a.
Lemma add_members_Ok a members b : add_members a members = Ok b ->
  Forall (fun m => unsafe_member m = false) members
  /\ ac_members b = ac_members a + Z.of_nat (length members)
  /\ (ac_database_bytes b = ac_database_bytes a
      \/ exists m, In m members /\ is_database m = true /\ mb_size m = ac_database_bytes b).
Proof using Type.
  revert a. induction members as [|m members IH]; intros a.
  { intros [= <-]. split; [constructor|]. split; [cbn; lia|by left]. }
  intros (a' & Ha & Hb)%obind_Ok. unfold add_member in Ha.
  destruct (unsafe_member m) eqn:Eu; [done|]. injection Ha as <-.
  apply IH in Hb as (Hf & Hn & Hd). cbn [ac_members ac_database_bytes] in *.
  split; [by constructor|]. split; [cbn [length]; lia|].
  destruct Hd as [Hd|(m' & Hin & Hm')]; [|right; exists m'; split; [by right|done]].
  destruct (is_database m) eqn:Em; [right; exists m|by left]. split; [by left|]. by split.
Qed.
Lemma inspect_Ok path w a w' : inspect_archive tar_members path w = (Ok a, w') ->
  w = w' /\ exists members, tar_members path w = Ok (Some members) /\ archive_ok members a.
Proof using Type.
  intros (members & w1 & Hm & E)%Mbind_Ok. injection Hm as Hm <-. injection E as E <-.
  split; [done|]. destruct members as [members|]; [|done]. exists members. split; [done|].
  apply obind_Ok in E as (b & Hb & E). destruct (ac_database_bytes b =? 0) eqn:E0; [done|].
  injection E as <-. apply Z.eqb_neq in E0. apply add_members_Ok in Hb as (Hf & Hn & Hd).
  cbn in Hn, Hd. unfold archive_ok. split_and!; try done.
  destruct Hd as [Hd|Hd]; [congruence|exact Hd].
Qed.
Lemma check_args_Ok args w a w' : check_args tar_members args w = (Ok a, w') ->
  args_ok args /\ exists members, tar_members (backup args) w' = Ok (Some members) /\ archive_ok members a.
Proof using Type.
  intros ([] & w1 & E & [<- Ha]%inspect_Ok)%Mbind_Ok. split; [|exact Ha].
  apply Mbind_Ok in E as ([] & w2 & [H1 _]%checked_Ok & E).
  apply Mbind_Ok in E as ([] & w3 & [H2 _]%checked_Ok & E).
  apply Mbind_Ok in E as (? & ? & _ & E). do 6 apply Mbind_Ok in E as ([] & ? & _ & E).
  apply Mbind_Ok in E as ([] & w4 & H3%check_timing_Ok & E).
  apply Mbind_Ok in E as ([] & w5 & [H4 _]%checked_Ok & E).
  apply Mbind_Ok in E as ([] & w6 & [H5 _]%checked_Ok & E).
  apply Mbind_Ok in E as ([] & w7 & [H6 _]%checked_Ok & E).
  apply Mbind_Ok in E as ([] & w8 & [H7 _]%checked_Ok & E).
  apply negb_true_iff in H4. apply orb_false_iff in H4 as [[H4 H8]%orb_false_iff H9].
  apply bool_decide_eq_false in H4, H8, H9. apply bool_decide_eq_true in H5, H6, H7.
  unfold args_ok. by split_and!.
Qed.

(** ** A successful attempt *)

Definition health_shown (h : list event) (origin version : str) (d : list (str * json)) : Prop :=
  (exists body type_, fetched h (origin ++ u "/api/health") None 200 body type_
                      /\ json_loads body = inl (JObj d))
  /\ dict_get str_eqb d (u "database") = Some (JStr (u "ok"))
  /\ dict_get str_eqb d (u "version") = Some (JStr version).
Lemma health_incl h h' origin version d : incl h h' ->
  health_shown h origin version d -> health_shown h' origin version d.
Proof using Type.
  intros Hi [(body & type_ & Hf & Hj) Hd]. split; [|done]. exists body, type_.
  split; [by eapply fetched_incl|done].
Qed.
Lemma healthy_Some version answer d : healthy version answer = Some d ->
  fst (fst answer) = 200 /\ json_loads (snd (fst answer)) = inl (JObj d)
  /\ dict_get str_eqb d (u "database") = Some (JStr (u "ok"))
  /\ dict_get str_eqb d (u "version") = Some (JStr version).
Proof using Type.
  destruct answer as [[status body] type_]. unfold healthy. cbn [fst snd].
  destruct (json_loads body) as [[| | | | | | |d']|] eqn:Ej; try done.
  destruct (_ && _) eqn:E; [|done]. intros [= ->].
  apply andb_true_iff in E as [[Hs%Z.eqb_eq H1%jeq_str_true]%andb_true_iff H2%jeq_str_true].
  split; [done|]. split; [done|]. split; by apply jget_str.
Qed.
Lemma wait_yields origin version attempts : yields (W := W) (wait_for_grafana origin version attempts)
  (fun d h => health_shown h origin version d).
Proof using Type.
  induction attempts as [|n IH]; [apply yields_raise|]. cbn [wait_for_grafana].
  intros w d w' E. destruct (http_get _ None w) as [r w1] eqn:Eg.
  destruct (http_get_mine [] _ _ _ _ _ Eg) as (h1 & Hs1 & _).
  assert (Hagain : (do_sleep 1;;; wait_for_grafana origin version n)%prog w1 = (Ok d, w') ->
    exists h, steps h w w' /\ health_shown h origin version d).
  { intros ([] & w2 & Hz & Hw)%Mbind_Ok. destruct (IH _ _ _ Hw) as (h2 & Hs2 & Hd).
    destruct (within_sleep (fun _ => True) _ _ _ _ Hz) as (h3 & Hs3 & _).
    exists (h1 ++ h3 ++ h2). split; [by repeat (eapply steps_app; [eassumption|])|].
    eapply health_incl; [|exact Hd]. apply incl_appr, incl_appr, incl_refl. }
  destruct r as [answer|e].
  - destruct (healthy version answer) as [d'|] eqn:Eh; [|auto]. injection E as -> ->.
    apply healthy_Some in Eh as (Hst & Hj & Hd). apply http_get_yields in Eg as (h & Hs & Hf).
    exists h. split; [done|]. split; [|done]. rewrite Hst in Hf. by eexists _, _.
  - destruct (_ || _); [auto|done].
Qed.
Lemma serve_yields args : yields (W := W) (serve args)
  (fun result h => health_shown h (fst result) (expected_version args) (snd result)
     /\ exists mounts p, asked h (serve_arguments args (container_of args) (volume_of args) mounts) p).
Proof using Type.
  intros w [origin d] w' (mounts & w1 & H1 & E)%Mbind_Ok.
  assert (Hp : within (W := W) (removes_only []) (provisioning_mounts args)).
  { unfold provisioning_mounts. repeat case_match; each_command fail. }
  destruct (Hp _ _ _ H1) as (h1 & Hs1 & _).
  apply Mbind_Ok in E as (p & w2 & (h2 & Hs2 & H2)%yields_docker & E).
  apply Mbind_Ok in E as (q & w3 & (h3 & Hs3 & _)%yields_docker & E).
  apply Mbind_Ok in E as (port & w4 & H4 & E). injection H4 as _ <-.
  apply Mbind_Ok in E as (d' & w5 & (h5 & Hs5 & H5)%wait_yields & E). injection E as <- <- <-.
  exists (h1 ++ h2 ++ h3 ++ h5). split; [by repeat (eapply steps_app; [eassumption|])|].
  split; [|exists mounts, p; by apply asked_r, asked_l]. cbn [fst snd].
  eapply health_incl; [|exact H5]. do 3 apply incl_appr. apply incl_refl.
Qed.
Lemma grafana_restore_yields args before : yields (W := W) (restore sha256 args before)
  (fun _ h => exists source p, asked h (unpack_arguments args (volume_of args) source) p).
Proof using Type.
  intros w t w' (p1 & w1 & (h1 & Hs1 & _)%yields_docker & E)%Mbind_Ok.
  apply Mbind_Ok in E as (p2 & w2 & (h2 & Hs2 & _)%yields_docker & E).
  apply Mbind_Ok in E as (t1 & w3 & H3 & E).
  destruct (within_monotonic (fun _ => True) _ _ _ H3) as (h3 & Hs3 & _).
  apply Mbind_Ok in E as (source & w4 & H4 & E). injection H4 as H4 <-.
  apply Mbind_Ok in E as (p5 & w5 & (h5 & Hs5 & H5)%yields_docker & E).
  apply Mbind_Ok in E as (p6 & w6 & (h6 & Hs6 & _)%yields_docker & E).
  apply Mbind_Ok in E as (t2 & w7 & H7 & E).
  destruct (within_monotonic (fun _ => True) _ _ _ H7) as (h7 & Hs7 & _).
  apply Mbind_Ok in E as (checksum & w8 & (content & w9 & H9 & H8)%Mbind_Ok & E).
  injection H9 as _ <-. injection H8 as <- <-.
  destruct (negb _) eqn:Esum in E; [done|]. injection E as _ <-.
  exists (h1 ++ h2 ++ h3 ++ h5 ++ h6 ++ h7).
  split; [by repeat (eapply steps_app; [eassumption|])|].
  exists source, p5. by apply asked_r, asked_r, asked_r, asked_l.
Qed.

(** What the history of a successful attempt shows of its result *)
Definition shown (args : Args) (h : list event) (before : Before) (r : Result) : Prop :=
  rs_before r = before
  /\ exists origin, let c := Some (admin_user args, bf_password before) in
     (exists source p, asked h (unpack_arguments args (volume_of args) source) p)
     /\ (exists mounts p, asked h (serve_arguments args (container_of args) (volume_of args) mounts) p)
     /\ health_shown h origin (expected_version args) (rs_health r)
     /\ Forall2 (dashboard_shown h origin c) (expect_dashboard args) (rs_dashboards r)
     /\ (exists uid, In (uid, false) (rs_dashboards r))
     /\ Forall2 (folder_shown h origin c) (expect_folder args) (rs_folders r)
     /\ Forall2 (datasource_shown h origin c) (expect_datasource args) (rs_datasources r)
     /\ exists uid title rest, expect_dashboard args = (uid, title) :: rest
        /\ policy_shown h origin (anonymous_role args) uid c (rs_access_policy r).
Lemma grafana_attempt_yields args before : yields (W := W) (attempt sha256 args before) (fun r h => shown args h before r).
Proof using Type.
  clear tar_members. intros w r w' (t & w1 & (h1 & Hs1 & H1)%grafana_restore_yields & E)%Mbind_Ok.
  apply Mbind_Ok in E as ([origin d] & w2 & (h2 & Hs2 & H2 & H2')%serve_yields & E). cbn [fst snd] in H2.
  apply Mbind_Ok in E as (dashboards & w3 & (h3 & Hs3 & H3)%dashboards_yield & E).
  destruct (existsb _ dashboards) eqn:Ex; [|done]. cbn [negb] in E.
  apply existsb_exists in Ex as ([uid provisioned] & Hin & Hprov). cbn in Hprov.
  apply negb_true_iff in Hprov as ->.
  apply Mbind_Ok in E as (folders & w4 & (h4 & Hs4 & H4)%folders_yield & E).
  apply Mbind_Ok in E as (sources & w5 & (h5 & Hs5 & H5)%datasources_yield & E).
  apply Mbind_Ok in E as (probe & w6 & H6 & E). injection H6 as H6 <-.
  apply Mbind_Ok in E as (policy & w7 & (h7 & Hs7 & H7)%policy_yields & E).
  apply Mbind_Ok in E as (size & w8 & (h8 & Hs8 & _)%yields_docker & E).
  apply Mbind_Ok in E as (bytes & w9 & H9 & E). injection H9 as _ <-.
  apply Mbind_Ok in E as (now & w10 & H10 & E).
  destruct (within_monotonic (fun _ => True) _ _ _ H10) as (h10 & Hs10 & _).
  apply Mbind_Ok in E as (at_ & w11 & H11 & E).
  destruct (within_utcnow (fun _ => True) _ _ _ H11) as (h11 & Hs11 & _). injection E as <- <-.
  set (h := h1 ++ h2 ++ h3 ++ h4 ++ h5 ++ h7 ++ h8 ++ h10 ++ h11).
  assert (Hincl : incl h1 h /\ incl h2 h /\ incl h3 h /\ incl h4 h /\ incl h5 h /\ incl h7 h).
  { unfold h. repeat split; intros e He; rewrite !in_app_iff; tauto. }
  destruct Hincl as (I1 & I2 & I3 & I4 & I5 & I7). exists h.
  split; [by repeat (eapply steps_app; [eassumption|])|]. split; [done|]. exists origin.
  cbn [rs_health rs_dashboards rs_folders rs_datasources rs_access_policy].
  split; [destruct H1 as (source & p & Hp & Hrc); exists source, p; split; auto|].
  split; [destruct H2' as (mounts & p & Hp & Hrc); exists mounts, p; split; auto|].
  split; [exact (health_incl _ _ _ _ _ I2 H2)|].
  split; [eapply Forall2_impl; [|exact H3]; intros ? ?; by apply dashboard_incl|]. split; [by exists uid|].
  split; [eapply Forall2_impl; [|exact H4]; intros ? ?; by apply folder_incl|].
  split; [eapply Forall2_impl; [|exact H5]; intros ? ?; by apply datasource_incl|].
  destruct (expect_dashboard args) as [|[uid' title] rest]; [done|]. injection H6 as <-.
  exists uid', title, rest. split; [done|]. exact (policy_incl _ _ _ _ _ _ _ I7 H7).
Qed.
Lemma grafana_measure_Ok args archive w before w' : measure sha256 args archive w = (Ok before, w') ->
  (exists content, read_bytes (backup args) w = Ok content /\ bf_sha256 before = sha256 content)
  /\ bf_archive before = archive /\ steps [] w w'.
Proof using Type.
  intros (size & w1 & Hz & E)%Mbind_Ok. injection Hz as Hz <-.
  apply Mbind_Ok in E as (digest & w2 & (content & w3 & Hc & Hd)%Mbind_Ok & E).
  injection Hc as Hc <-. injection Hd as <- <-.
  apply Mbind_Ok in E as (password & w4 & Hp & E). apply Mbind_Ok in Hp as (bs & w5 & Hb & Hp).
  injection Hb as _ <-. injection Hp as _ <-. destruct password as [password|]; [|done].
  apply Mbind_Ok in E as (t & w6 & Ht & E). injection E as <- <-.
  split; [by exists content|]. split; [done|]. unfold get_monotonic in Ht. apply steps_monotonic.
  destruct (monotonic w) as [t' w7]. injection Ht as _ <-. constructor.
Qed.
End drill_facts.

(** The restore drill of Grafana leaves docker as it found it: it never removes containers
    or volumes other than its own two, removes nothing when one of them exists before, and
    has removed both at the end unless it succeeded and was told to keep them, or a command
    of the clean-up failed. *)
Theorem grafana_drill_isolated {U : UnicodeDb} {W : Type} {Mc : Machine W} {HL : DockerLaws W}
    sha256 tar_members args w o w' :
  run_drill sha256 tar_members args w = (o, w') ->
  isolated (container_of args) (volume_of args) (preserve_target args) w o w'.
Proof.
  intros E. unfold run_drill, Mbind in E.
  destruct (drill _ _ _ _ _ _ w) as [[r|e] w1] eqn:Ed; injection E as <- <-;
    exact (drill_isolated (container_of args) (volume_of args) eq_refl eq_refl _ _ _ _ _ _ _
             (check_args_looks tar_members args) (grafana_measure_looks sha256 args)
             (grafana_attempt_mine sha256 _ args) Ed).
Qed.

(** C37: Evidence of a restored Grafana is written only of one that answered as expected.  When
    the drill succeeds, no member of the archive leads out of the volume and its database is
    not empty; the archive was unpacked and Grafana started on it; its health named the
    expected version; every expected dashboard, folder and data source was read with the
    administrator's credentials, with the expected title, type and address; at least one
    dashboard was not provisioned, so that it came from the backup; and without credentials
    the settings were refused and the first dashboard shown exactly when an anonymous role is
    expected, the one that the settings name. *)
Theorem grafana_evidence_sound {U : UnicodeDb} {W : Type} {Mc : Machine W} {HL : DockerLaws W}
    sha256 tar_members args w document w' :
  run_drill sha256 tar_members args w = (Ok document, w') ->
  args_ok args
  /\ exists r before w1 h1 w2 h2 h3 w3, steps h1 w w1 /\ steps h2 w2 w3 /\ steps h3 w3 w'
     /\ (exists h, steps h w1 w2)
     /\ (exists members, tar_members (backup args) w1 = Ok (Some members)
         /\ archive_ok members (bf_archive before))
     /\ (exists content, read_bytes (backup args) w2 = Ok content
         /\ bf_sha256 before = sha256 content)
     /\ shown args h2 before r /\ document = evidence args r.
Proof.
  intros (r & w5 & E & Hd)%Mbind_Ok. injection Hd as <- <-.
  apply drill_Ok in E as (archive & w1 & w2 & before & w3 & w4 & H1 & H2 & H3 & H4 & H5).
  destruct (check_args_looks _ args _ _ _ H1) as (h1 & Hs1 & _).
  apply check_args_Ok in H1 as [Hok Harchive]. split; [exact Hok|].
  destruct (refuse_looks _ _ _ _ H2) as (h2 & Hs2 & _).
  apply grafana_measure_Ok in H3 as (Hsum & Ha & Hs3). rewrite <-Ha in Harchive.
  apply grafana_attempt_yields in H4 as (h4 & Hs4 & Hshown).
  assert (exists h5, steps h5 w4 w5) as (h5 & Hs5).
  { assert (Hw : within (removes_only [(container, container_of args); (volume, volume_of args)])
                   (Mwhen (negb (preserve_target args))
                      (cleanup (container_of args) (volume_of args)))).
    { apply within_when. intros _. by apply cleanup_within. }
    destruct (Hw _ _ _ H5) as (h & Hs & _). by exists h. }
  exists r, before, w1, h1, w2, ([] ++ h4), h5, w4.
  split; [exact Hs1|]. split; [by eapply steps_app|]. split; [exact Hs5|].
  split; [by exists h2|]. split; [exact Harchive|]. split; [exact Hsum|].
  split; [exact Hshown|reflexivity].
Qed.

(** ** A drill *)

#[local] Existing Instance ascii_db.
Example grafana_image_pattern : re_fullmatch PINNED_IMAGE_PATTERN
  (u "grafana/grafana:13.0.1@sha256:d3e1620b530c944afa6e887d22eb899824da68e19c52024bf98f5220c88a65b2") = true.
Proof. vm_compute. reflexivity. Qed.
Example credentials_encoded : basic (Some (u "admin", u "secret?>")) = Ok (Some (u "Basic YWRtaW46c2VjcmV0Pz4=")).
Proof. vm_compute. reflexivity. Qed.
Example climbing_member : unsafe_member {| mb_name := u "./data/../../etc/passwd"; mb_is_file := true;
  mb_is_link := false; mb_is_special := false; mb_size := 1 |} = true.
Proof. vm_compute. reflexivity. Qed.
Example version_of_image : parse_grafana_version
  (u "grafana/grafana:13.0.1@sha256:d3e1620b530c944afa6e887d22eb899824da68e19c52024bf98f5220c88a65b2") = Ok (u "13.0.1").
Proof. vm_compute. reflexivity. Qed.
Definition digest_text : str := u "sha256:d3e1620b530c944afa6e887d22eb899824da68e19c52024bf98f5220c88a65b2".
Definition drill_args : Args := {|
  image := u "grafana/grafana:13.0.1@" ++ digest_text; expected_version := u "13.0.1";
  backup := u "/backup/grafana.tar"; admin_user := u "admin"; admin_password_file := u "/run/password";
  provisioning_dir := None; dashboards_dir := None; source_revision := u "v1.0.0";
  timing := {| write_freeze_at := 1000000; backup_created_at := 2000000;
               backup_duration_seconds := inl 3%Q; rto_seconds := inl 900%Q;
               rpo_seconds := inl 300%Q; observed_rpo_seconds := inl 1%Q |};
  expect_dashboard := [(u "ops", u "Operations")]; expect_folder := [(u "team", u "Team")];
  expect_datasource := [(u "prom", u "prometheus", u "http://prometheus:9090")];
  anonymous_role := DISABLED; run_id := u "20260901-a"; preserve_target := false |}.
Definition drill_members (_ : str) (_ : list object) : outcome (option (list Member)) :=
  Ok (Some [{| mb_name := u "./grafana.db"; mb_is_file := true; mb_is_link := false;
               mb_is_special := false; mb_size := 4096 |}]).
Definition printed (text : str) : CompletedProcess :=
  {| returncode := 0; stdout := text ++ nl; stderr := [] |}.
Definition started_answers (command : list str) : CompletedProcess :=
  let verb := nth 1 command [] in
  if bool_decide (verb = u "port") then printed (u "127.0.0.1:49153")
  else if bool_decide (verb = u "exec") then printed (u "8192") else ended 0.
(** A Grafana without anonymous access *)
Definition grafana_pages (url : str) (authorization : option str) : outcome (Z * list N * str) :=
  let json_page text := Ok (200, map (fun c => if (c =? 39)%N then 34%N else c) (u text),
                            u "application/json") in
  let at_path path := str_eqb url (u "http://127.0.0.1:49153" ++ u path) in
  if at_path "/api/health"%string then json_page "{'database': 'ok', 'version': '13.0.1'}"%string
  else match authorization with
  | None => Ok (401, [], u "application/json")
  | Some _ =>
    if at_path "/api/dashboards/uid/ops"%string then
      json_page "{'dashboard': {'title': 'Operations'}, 'meta': {'provisioned': false}}"%string
    else if at_path "/api/folders/team"%string then json_page "{'title': 'Team'}"%string
    else if at_path "/api/datasources/uid/prom"%string then
      json_page "{'type': 'prometheus', 'url': 'http://prometheus:9090'}"%string
    else if at_path "/api/admin/settings"%string then
      json_page "{'auth.anonymous': {'enabled': 'false', 'org_role': 'Viewer'}}"%string
    else Ok (404, [], u "application/json")
  end.
Definition machine : Machine (list object) :=
  scripted_machine started_answers grafana_pages (u "secret") 3000000.
Definition other_volume : list object := [(volume, u "pipelens_grafana")].
Definition example_drill : outcome json * list object :=
  @run_drill ascii_db _ machine (fun _ => u "digest") drill_members drill_args other_volume.
Example drill_succeeds_and_cleans :
  (match example_drill with (Ok _, w) => Some w | _ => None end) = Some other_volume.
Proof. vm_compute. reflexivity. Qed.
Lemma grafana_drill_isolated_witness :
  Forall (fun x => ~ In x (snd example_drill))
    [(container, container_of drill_args); (volume, volume_of drill_args)].
Proof.
  destruct example_drill as [o w'] eqn:E.
  assert (Ho : (match example_drill with (Ok _, _) => true | _ => false end) = true)
    by (vm_compute; reflexivity).
  rewrite E in Ho. destruct o as [document|e]; [|discriminate Ho].
  refine (proj2 (List.Forall_forall _ _) _).
  refine (proj2 (proj2 (@grafana_drill_isolated ascii_db _ machine
    (scripted_laws started_answers _ _ _) _ _ _ _ _ _ E)) _ eq_refl).
  apply absent_spec. vm_compute. reflexivity.
Defined.
Lemma grafana_evidence_sound_witness :
  match example_drill with
  | (Ok document, _) => exists r, document = evidence drill_args r
      /\ rs_access_policy r = {| ap_enabled := false; ap_role := DISABLED; ap_dashboard_allowed := false |}
      /\ exists uid, In (uid, false) (rs_dashboards r)
  | _ => False
  end.
Proof.
  assert (Ho : (match example_drill with (Ok _, _) => true | _ => false end) = true)
    by (vm_compute; reflexivity).
  destruct example_drill as [[document|e] w'] eqn:E; [|discriminate Ho].
  destruct (@grafana_evidence_sound ascii_db _ machine (scripted_laws started_answers _ _ _) _ _ _ _ _ _ E)
    as (_ & r & before & w1 & h1 & w2 & h2 & h3 & w3 & _ & _ & _ & _ & _ & _ & Hs & ->).
  destruct Hs as (_ & origin & _ & _ & _ & _ & Hu & _ & _ & uid & title & rest & _ & Hp & _).
  exists r. split; [reflexivity|]. split; [exact Hp|exact Hu].
Defined.
