(* ===== verification/ContainerSoakFacts.v ===== *)
(** * What the container soak guarantees

    A soak that finishes was passed by the verifier of soak evidence, on what this very run
    measured, with a worker killed and the network cut on the way; and whatever happens, a
    soak removes no container, volume or network that was there before it, except the
    network and the volume that carry its own names. *)

From Stdlib Require Import QArith Qround.
From stdpp Require Import base list strings numbers.
From S2P Require Import Prelude Double Calendar Regex Json Loads Evidence EvidenceFacts SoakEvidence SoakEvidenceFacts Docker DockerFacts ContainerSoak.

Set Default Proof Using "Type".

Section soak_facts.
Context {U : UnicodeDb} {W : Type} `{HL : DockerLaws W}.
Context (float_repr : Q -> str) (sha256 : list N -> str).

(** ** Commands outside the session *)

Section own_objects.
Context (own : list object).
Abbreviation mine := (within (W := W) (removes_only own)).
Lemma run_mine check arguments :
  (forall r, removes_only own (Ran (u "docker" :: arguments) r)) -> mine (run check arguments).
Proof using Type.
  intros HP. apply within_bind.
  - intros w o w' E. exists [Ran (u "docker" :: arguments) o].
    split; [by eapply steps_ran; [|constructor]|]. constructor; [exact (HP o)|constructor].
  - intros r. destruct (_ && _); [apply within_raise|apply within_ret].
Qed.
Lemma do_run_mine arguments :
  (forall r, removes_only own (Ran (u "docker" :: arguments) r)) -> mine (do_run arguments).
Proof using Type. intros HP. apply within_bind; [by apply run_mine|auto with commands]. Qed.
Lemma utc_now_mine : mine utc_now.
Proof using Type. unfold utc_now. each_command fail. Qed.
Lemma poll_mine rounds description predicate deadline :
  mine predicate -> mine (poll rounds description predicate deadline).
Proof using Type.
  intros Hp. induction rounds as [|n IH]; cbn [poll];
    each_command ltac:(first [exact Hp|apply IH]).
Qed.
Lemma wait_for_mine description predicate timeout :
  mine predicate -> mine (wait_for description predicate timeout).
Proof using Type. intros Hp. unfold wait_for. each_command ltac:(by apply poll_mine). Qed.
Lemma exec_output_mine name arguments : mine (exec_output name arguments).
Proof using Type.
  unfold exec_output. apply within_bind; [apply run_mine; harmless|auto with commands].
Qed.
Lemma succeeds_mine verb arguments :
  (forall r, removes_only own (Ran (u "docker" :: verb :: arguments) r)) ->
  mine (succeeds (verb :: arguments)).
Proof using Type. intros HP. apply within_bind; [by apply run_mine|auto with commands]. Qed.
Lemma source_revision_mine : mine source_revision.
Proof using Type.
  unfold source_revision. apply within_bind.
  - intros w o w' E. eexists [Ran _ o]. split; [by eapply steps_ran; [|constructor]|].
    constructor; [|constructor]. exists false, [].
    split; [reflexivity|split; [by intros ? []|reflexivity] ].
  - intros r. each_command fail.
Qed.
Lemma each_mine {A B} (f : A -> M W B) l : (forall a, mine (f a)) -> mine (each f l).
Proof using Type.
  intros Hf. induction l as [|a l IH]; cbn [each]; each_command ltac:(first [apply Hf|apply IH]).
Qed.
Lemma resource_sample_mine workers postgres redis : mine (resource_sample workers postgres redis).
Proof using Type.
  unfold resource_sample, redis_value. apply within_bind; [apply run_mine; harmless|]. intros r.
  each_command ltac:(first [apply exec_output_mine|apply utc_now_mine|case_match]).
Qed.
Lemma network_fault_mine nm p workers : mine (network_fault nm p workers).
Proof using Type.
  unfold network_fault, scrape_all, redis_value.
  each_command ltac:(first [apply utc_now_mine|apply do_run_mine; harmless|apply wait_for_mine
    |apply exec_output_mine|apply each_mine; intros; apply exec_output_mine]).
Qed.
Lemma watch_mine fuel nm p workers samples : mine (watch fuel nm p workers samples).
Proof using Type.
  revert samples. induction fuel as [|n IH]; intros samples; cbn [watch]; [apply within_raise|].
  unfold inspect_running at 1. apply within_bind.
  { apply within_bind; [apply run_mine; harmless|auto with commands]. }
  intros b. each_command ltac:(first [apply resource_sample_mine|apply IH]).
Qed.
Lemma coordinator_results_mine nm : mine (coordinator_results nm).
Proof using Type.
  unfold coordinator_results. apply within_bind; [apply run_mine; harmless|]. intros r.
  destruct (str_eqb _ _); (apply within_bind; [apply run_mine; harmless|intros ?]);
    each_command fail.
Qed.
Lemma provider_audit_mine name : mine (provider_audit name).
Proof using Type.
  unfold provider_audit. each_command ltac:(first [apply exec_output_mine|case_match]).
Qed.
Lemma write_evidence_mine output id name p m : mine (write_evidence float_repr sha256 output id name p m).
Proof using Type.
  unfold write_evidence, write_json, sha256_of, artifact_scan, observation_file.
  each_command ltac:(first [apply source_revision_mine
    |apply each_mine; intros ?; unfold artifact_matches; each_command fail|case_match]).
Qed.

Lemma rm_plain_volumes name : plain name -> with_volumes [u "docker"; u "rm"; name] = [].
Proof using Type. intros Hn. apply rm_volumes. cbn [forallb]. by rewrite (among_plain _ name Hn). Qed.
(** ** Inside the session *)

(** Containers that the session may have to remove *)
Definition named (name : str) : Prop := In (container, name) own /\ plain name.
Definition session_within {A} (m : M (W * list str) A) : Prop :=
  forall w l o w' l', m (w, l) = (o, (w', l')) -> Forall named l ->
  Forall named l' /\ exists h, steps h w w' /\ Forall (removes_only own) h.
Lemma session_bind_value {A B} (P : A -> Prop) (m : M (W * list str) A) (k : A -> M (W * list str) B) :
  session_within m -> (forall s a s', m s = (Ok a, s') -> P a) ->
  (forall a, P a -> session_within (k a)) -> session_within (Mbind m k).
Proof using Type.
  intros Hm HP Hk w l o w' l' E Hl. unfold Mbind in E.
  destruct (m (w, l)) as [[a|e] [w1 l1]] eqn:E1.
  - destruct (Hm _ _ _ _ _ E1 Hl) as (Hl1 & h1 & Hs1 & Hh1).
    destruct (Hk _ (HP _ _ _ E1) _ _ _ _ _ E Hl1) as (Hl2 & h2 & Hs2 & Hh2). split; [done|].
    exists (h1 ++ h2). split; [by eapply steps_app|by apply Forall_app_2].
  - injection E as <- <- <-. by apply (Hm _ _ _ _ _ E1).
Qed.
Lemma session_bind {A B} (m : M (W * list str) A) (k : A -> M (W * list str) B) :
  session_within m -> (forall a, session_within (k a)) -> session_within (Mbind m k).
Proof using Type. intros Hm Hk. by apply (session_bind_value (fun _ => True)). Qed.
Lemma session_ret {A} (a : A) : session_within (Mret a).
Proof using Type. intros w l o w' l' [= _ <- <-] Hl. split; [done|]. exists []. split; constructor. Qed.
Lemma session_lift {A} (m : M W A) : mine m -> session_within (lift m).
Proof using Type.
  intros Hm w l o w' l' E Hl. unfold lift in E. destruct (m w) as [o1 w1] eqn:E1.
  injection E as <- <- <-. split; [done|]. by apply (Hm _ _ _ E1).
Qed.
Lemma session_created name : named name -> session_within (created name).
Proof using Type.
  intros Hn w l o w' l' [= _ <- <-] Hl. split; [apply Forall_app_2; [done|by constructor]|].
  exists []. split; constructor.
Qed.
Lemma remove_one_Forall name l l' : list_remove_one name l = Some l' -> Forall named l -> Forall named l'.
Proof using Type.
  revert l'. induction l as [|x l IH]; intros l'; cbn; [done|].
  destruct (str_eqb x name); [intros [= <-] Hl; by apply Forall_cons_iff in Hl as [_ Hl]|].
  destruct (list_remove_one name l) as [r|]; [|done]. intros [= <-] [Hx Hl]%Forall_cons_iff.
  constructor; [done|by apply IH].
Qed.
Lemma session_forgotten name : session_within (forgotten name).
Proof using Type.
  intros w l o w' l' E Hl. unfold forgotten in E.
  destruct (list_remove_one name l) as [r|] eqn:Er; injection E as <- <- <-.
  - split; [by eapply remove_one_Forall|]. exists []. split; constructor.
  - split; [done|]. exists []. split; constructor.
Qed.
Lemma session_start name arguments : named name ->
  (forall r, removes_only own (Ran (u "docker" :: arguments) r)) -> session_within (start name arguments).
Proof using Type.
  intros Hn HP. apply session_bind; [apply session_lift; by apply do_run_mine|].
  intros _. by apply session_created.
Qed.

Context (nm : Names).
(** The containers of the run, with those of the workers *)
Definition container_names : list str :=
  [nm_postgres nm; nm_redis nm; nm_provider nm; nm_coordinator nm]
  ++ map (worker_name nm) (u "worker-1" :: WORKER_IDS).
Context (Hnames : Forall named container_names).
Lemma names_named name : In name container_names -> named name.
Proof using Hnames. intros Hin. rewrite Forall_forall in Hnames. by apply Hnames. Qed.
Ltac each_session names call :=
  repeat lazymatch goal with
         | |- session_within (Mbind _ _) => apply session_bind; [|intros ?]
         | |- session_within (start _ _) => apply session_start; [names|harmless]
         | |- session_within (Mret _) => apply session_ret
         | |- session_within (forgotten _) => apply session_forgotten
         | |- session_within (lift _) => apply session_lift; call
         end.
Ltac in_names := apply names_named; unfold container_names; cbn [In app map WORKER_IDS]; tauto.

Lemma start_services_mine p : session_within (start_services float_repr nm p).
Proof using Hnames.
  unfold start_services, redis_value. each_session ltac:(in_names)
    ltac:(first [apply do_run_mine; harmless
                |apply wait_for_mine; first [apply succeeds_mine; harmless
                                            |each_command ltac:(apply exec_output_mine)]]).
Qed.
Lemma start_worker_mine p id : named (worker_name nm id) -> session_within (start_worker float_repr nm p id).
Proof using Type.
  intros Hn. apply session_bind; [apply session_start; [done|harmless]|]. intros _. apply session_ret.
Qed.
Lemma start_workers_mine p ids : (forall id, In id ids -> named (worker_name nm id)) ->
  session_within (start_workers float_repr nm p ids).
Proof using Type.
  induction ids as [|id ids IH]; intros Hn; [apply session_ret|]. cbn [start_workers].
  apply session_bind; [apply start_worker_mine, Hn; by left|]. intros name.
  apply session_bind; [apply IH; intros; apply Hn; by right|]. intros names. apply session_ret.
Qed.
Lemma redis_says_mine command key answer : mine (redis_says nm command key answer).
Proof using Type. unfold redis_says, redis_value. each_command ltac:(apply exec_output_mine). Qed.
Lemma worker_fault_mine p : session_within (worker_fault float_repr nm p).
Proof using Hnames.
  unfold worker_fault.
  apply (session_bind_value (fun victim => victim = worker_name nm (u "worker-1")));
    [apply start_worker_mine; in_names| |].
  { intros s victim s' ([] & s1 & _ & E)%Mbind_Ok. by injection E as <- _. }
  intros victim ->.
  assert (Hv : named (worker_name nm (u "worker-1"))) by in_names.
  each_session ltac:(in_names)
    ltac:(first [apply do_run_mine; harmless
                |apply utc_now_mine
                |apply wait_for_mine; first [apply redis_says_mine
                                            |each_command ltac:(apply exec_output_mine)]
                |idtac]).
  - apply do_run_mine. intros r. exists false, [(container, worker_name nm (u "worker-1"))].
    destruct Hv as [Hin Hp]. split; [|split; [by intros x [<-|[] ]|by apply rm_plain_volumes] ].
    change (Some (false, map (pair container) (operands [worker_name nm (u "worker-1")]))
            = Some (false, [(container, worker_name nm (u "worker-1"))])).
    unfold operands. cbn [List.filter]. by rewrite Hp.
  - apply start_workers_mine. intros id Hid. apply names_named. unfold container_names.
    apply in_or_app. right. apply in_map. by right.
Qed.
Lemma session_mine fuel output id name p :
  session_within (session float_repr sha256 fuel nm output id name p).
Proof using Hnames.
  unfold session. apply session_bind; [apply start_services_mine|]. intros _.
  apply session_bind; [apply worker_fault_mine|]. intros [[killed recovered] workers].
  apply session_bind; [apply session_lift, network_fault_mine|]. intros [[cut restored] metrics].
  each_session ltac:(in_names)
    ltac:(first [apply watch_mine|apply coordinator_results_mine|apply resource_sample_mine
                |apply provider_audit_mine|apply write_evidence_mine]).
Qed.

End own_objects.

(** ** What a finished session has shown *)

Lemma run_Ok check arguments (w : W) r w' : run check arguments w = (Ok r, w') ->
  steps [Ran (u "docker" :: arguments) (Ok r)] w w' /\ (check = true -> returncode r = 0).
Proof using Type.
  intros (r' & w1 & E & Hr)%Mbind_Ok. destruct (check && negb (returncode r' =? 0)) eqn:Ec; [done|].
  injection Hr as -> ->. split; [by eapply steps_ran; [|constructor]|]. intros ->. cbn in Ec.
  apply negb_false_iff in Ec. by apply Z.eqb_eq.
Qed.
Lemma run_yields arguments : yields (W := W) (run true arguments) (fun p h => asked h arguments p).
Proof using Type. intros w p w' [Hs Hr]%run_Ok. eexists. split; [exact Hs|]. split; [by left|auto]. Qed.
Lemma do_run_yields arguments : yields (W := W) (do_run arguments)
  (fun _ h => exists p, asked h arguments p).
Proof using Type.
  intros w [] w' (p & w1 & (h & Hs & Hp)%run_yields & E)%Mbind_Ok. injection E as <-. exists h. eauto.
Qed.
(** A wait that ends saw its predicate hold. *)
Lemma poll_yields rounds description (predicate : M W bool) deadline own (R : list event -> Prop) :
  within (removes_only own) predicate ->
  (forall w w', predicate w = (Ok true, w') -> exists h, steps h w w' /\ R h) ->
  (forall h1 h2, R h2 -> R (h1 ++ h2)) ->
  yields (poll rounds description predicate deadline) (fun _ h => R h).
Proof using Type.
  intros Hp HR Happ. induction rounds as [|n IH]; [apply yields_raise|]. intros w [] w' E.
  apply Mbind_Ok in E as (now & w1 & H1 & E).
  destruct (within_monotonic (removes_only own) _ _ _ H1) as (h1 & Hs1 & _).
  destruct (negb _); [|done]. apply Mbind_Ok in E as ([] & w2 & H2 & E).
  - injection E as <-. destruct (HR _ _ H2) as (h2 & Hs2 & HR2). exists (h1 ++ h2).
    split; [by eapply steps_app|by apply Happ].
  - destruct (Hp _ _ _ H2) as (h2 & Hs2 & _). apply Mbind_Ok in E as ([] & w3 & H3 & E).
    destruct (within_sleep (removes_only own) _ _ _ _ H3) as (h3 & Hs3 & _).
    destruct (IH _ _ _ E) as (h4 & Hs4 & HR4). exists (h1 ++ h2 ++ h3 ++ h4).
    split; [by repeat (eapply steps_app; [eassumption|])|by apply Happ, Happ, Happ].
Qed.
Lemma wait_for_yields description (predicate : M W bool) timeout own (R : list event -> Prop) :
  within (removes_only own) predicate ->
  (forall w w', predicate w = (Ok true, w') -> exists h, steps h w w' /\ R h) ->
  (forall h1 h2, R h2 -> R (h1 ++ h2)) ->
  yields (wait_for description predicate timeout) (fun _ h => R h).
Proof using Type.
  intros Hp HR Happ w [] w' (now & w1 & H1 & E)%Mbind_Ok.
  destruct (within_monotonic (removes_only own) _ _ _ H1) as (h1 & Hs1 & _).
  destruct (poll_yields _ _ _ _ own R Hp HR Happ _ _ _ E) as (h2 & Hs2 & HR2).
  exists (h1 ++ h2). split; [by eapply steps_app|by apply Happ].
Qed.
(** Redis answered so. *)
Definition redis_said (nm : Names) (h : list event) (command key answer : string) : Prop :=
  exists p, asked h [u "exec"; nm_redis nm; u "redis-cli"; u "--raw"; u command; nm_tracker nm ++ u key] p
            /\ strip (stdout p) = u answer.
Lemma redis_said_r nm h1 h2 command key answer :
  redis_said nm h2 command key answer -> redis_said nm (h1 ++ h2) command key answer.
Proof using Type. intros (p & Hp & Ha). exists p. split; [by apply asked_r|done]. Qed.
Lemma redis_said_l nm h1 h2 command key answer :
  redis_said nm h1 command key answer -> redis_said nm (h1 ++ h2) command key answer.
Proof using Type. intros (p & Hp & Ha). exists p. split; [by apply asked_l|done]. Qed.
Lemma redis_says_true nm command key answer (w w' : W) :
  redis_says nm command key answer w = (Ok true, w') ->
  exists h, steps h w w' /\ redis_said nm h command key answer.
Proof using Type.
  intros (text & w1 & (p & w2 & (h & Hs & Hp)%run_yields & Ht)%Mbind_Ok & E)%Mbind_Ok.
  injection Ht as <- <-. injection E as E <-. apply str_eqb_eq in E. exists h.
  split; [done|]. by exists p.
Qed.

Lemma lift_Ok {A} (m : M W A) w (l : list str) a s' : lift m (w, l) = (Ok a, s') ->
  exists w', m w = (Ok a, w') /\ s' = (w', l).
Proof using Type. unfold lift. destruct (m w) as [o w1]. intros [= -> <-]. by exists w1. Qed.

Lemma steps_of own {A} (m : M W A) w o w' : within (removes_only own) m -> m w = (o, w') ->
  exists h, steps h w w'.
Proof using Type. intros Hm E. destruct (Hm _ _ _ E) as (h & Hs & _). by exists h. Qed.

(** The parts of a program that ends well, one after the other: [pass E proof] goes past
    the first command of [E] and keeps its history. *)
Ltac pass E proof :=
  let a := fresh "a" in let w := fresh "w" in let H1 := fresh "Hr" in
  let h := fresh "h" in let Hs := fresh "Hs" in
  apply Mbind_Ok in E as (a & w & H1 & E);
  unshelve epose proof (steps_of [] _ _ _ _ _ H1) as (h & Hs); [proof|].
Ltac pass_lift E :=
  let a := fresh "a" in let s := fresh "s" in let H1 := fresh "Hr" in let w := fresh "w" in
  apply Mbind_Ok in E as (a & s & H1 & E); apply lift_Ok in H1 as (w & H1 & ->).

(** A worker claimed a job and was killed, and then the job was completed. *)
Definition fault_injected (nm : Names) (h : list event) : Prop :=
  exists h1 h2 h3, h = h1 ++ h2 ++ h3 /\ redis_said nm h1 "EXISTS" ":victim_ready" "1"
    /\ (exists p, asked h2 [u "kill"; worker_name nm (u "worker-1")] p)
    /\ redis_said nm h3 "HLEN" ":first_completion" "1".
Definition network_cut (nm : Names) (h : list event) : Prop :=
  exists h1 h2, h = h1 ++ h2
    /\ (exists p, asked h1 [u "network"; u "disconnect"; nm_network nm; nm_redis nm] p)
    /\ exists p, asked h2 [u "network"; u "connect"; u "--alias"; u "redis"; nm_network nm; nm_redis nm] p.
(** The coordinator ended with status 0. *)
Definition coordinator_done (nm : Names) (h : list event) : Prop :=
  exists p, asked h [u "inspect"; u "--format"; u "{{.State.ExitCode}}"; nm_coordinator nm] p
            /\ strip (stdout p) = u "0".
Lemma fault_injected_app nm h1 h2 h3 : fault_injected nm h2 -> fault_injected nm (h1 ++ h2 ++ h3).
Proof using Type.
  intros (a & b & c & -> & Ha & Hb & Hc). exists (h1 ++ a), b, (c ++ h3).
  split; [by rewrite <-!app_assoc|]. split_and!; [by apply redis_said_r|done|by apply redis_said_l].
Qed.
Lemma network_fault_yields nm p workers : yields (W := W) (network_fault nm p workers)
  (fun _ h => network_cut nm h).
Proof using Type.
  intros w a w' E. pass E ltac:(apply (utc_now_mine [])).
  apply Mbind_Ok in E as ([] & w2 & (h2 & Hs2 & Hp2)%do_run_yields & E).
  pass E ltac:(apply (within_sleep (removes_only []) (limit_value (pf_network_fault_seconds p)))).
  apply Mbind_Ok in E as ([] & w4 & (h4 & Hs4 & p4 & Hp4)%do_run_yields & E).
  assert (Hrest : exists h5, steps h5 w4 w').
  { refine (steps_of [] _ _ _ _ _ E). unfold scrape_all, redis_value.
    each_command ltac:(first [apply utc_now_mine|apply wait_for_mine
      |apply exec_output_mine|apply each_mine; intros; apply exec_output_mine]). }
  destruct Hrest as (h5 & Hs5). destruct Hp2 as [p2 Hp2].
  exists ((h ++ h2 ++ h0) ++ h4 ++ h5). split.
  - by repeat (eapply steps_app; [eassumption || by repeat (eapply steps_app; [eassumption|])|]).
  - exists (h ++ h2 ++ h0), (h4 ++ h5). split; [done|]. split.
    + exists p2. by apply asked_r, asked_l.
    + exists p4. by apply asked_l.
Qed.
Lemma coordinator_results_yields nm : yields (W := W) (coordinator_results nm)
  (fun _ h => coordinator_done nm h).
Proof using Type.
  intros w v w' (p & w1 & (h1 & Hs1 & Hp)%run_yields & E)%Mbind_Ok.
  destruct (str_eqb _ _) eqn:E0.
  - apply str_eqb_eq in E0. apply Mbind_Ok in E as (logs & w2 & (h2 & Hs2 & _)%run_yields & E).
    apply Mbind_Ok in E as (line & w3 & H3 & E). injection H3 as _ <-. injection E as _ <-.
    exists (h1 ++ h2). split; [by eapply steps_app|]. exists p. split; [by apply asked_l|done].
  - apply Mbind_Ok in E as (logs & w2 & _ & E). done.
Qed.

Section finished.
Context (own : list object) (nm : Names) (Hnames : Forall (named own) (container_names nm)).
Lemma session_steps {A} (m : M (W * list str) A) w l o w' l' : session_within own m ->
  Forall (named own) l -> m (w, l) = (o, (w', l')) -> Forall (named own) l' /\ exists h, steps h w w'.
Proof using Type.
  intros Hm Hl E. destruct (Hm _ _ _ _ _ E Hl) as (Hl' & h & Hs & _). split; [done|by exists h].
Qed.
Lemma pools_wait_mine own' nm' : within (W := W) (removes_only own')
  (wait_for "four PostgreSQL pools"
     (do! text := exec_output (nm_postgres nm') (psql POOLS_QUERY) in
      do! n := Mlift (int_text text) in Mret (n =? 20))%prog 30).
Proof using Type. apply wait_for_mine. each_command ltac:(apply exec_output_mine). Qed.
Lemma redis_wait_yields description command key answer timeout :
  yields (W := W) (wait_for description (redis_says nm command key answer) timeout)
    (fun _ h => redis_said nm h command key answer).
Proof using Type.
  apply (wait_for_yields _ _ _ []); [apply redis_says_mine|apply redis_says_true|].
  intros h1 h2. apply redis_said_r.
Qed.
Lemma worker_fault_yields p w l a w' l' : Forall (named own) l ->
  worker_fault float_repr nm p (w, l) = (Ok a, (w', l')) ->
  Forall (named own) l' /\ exists h, steps h w w' /\ fault_injected nm h.
Proof using Hnames.
  intros Hl E.
  split; [by apply (session_steps _ _ _ _ _ _ (worker_fault_mine own nm Hnames p) Hl E)|].
  apply Mbind_Ok in E as (victim & [w1 l1] & H1 & E).
  pose proof H1 as Hv. apply Mbind_Ok in Hv as ([] & s & _ & Hv). injection Hv as <- _.
  assert (Hn : named own (worker_name nm (u "worker-1"))).
  { apply (names_named own nm Hnames). unfold container_names. cbn [In app map WORKER_IDS]. tauto. }
  destruct (session_steps _ _ _ _ _ _ (start_worker_mine own nm p _ Hn) Hl H1) as (Hl1 & h1 & Hs1).
  pass_lift E. destruct (do_run_yields _ _ _ _ Hr) as (h2 & Hs2 & _).
  pass_lift E. destruct (redis_wait_yields _ _ _ _ _ _ _ _ Hr0) as (h3 & Hs3 & Hready).
  pass_lift E. destruct (steps_of _ _ _ _ _ (utc_now_mine []) Hr1) as (h4 & Hs4).
  pass_lift E. destruct (do_run_yields _ _ _ _ Hr2) as (h5 & Hs5 & Hkill).
  pass_lift E. destruct (do_run_yields _ _ _ _ Hr3) as (h6 & Hs6 & _).
  apply Mbind_Ok in E as ([] & [w7 l7] & H7 & E).
  destruct (session_steps _ _ _ _ _ _ (session_forgotten own _) Hl1 H7) as (Hl7 & h7 & Hs7).
  apply Mbind_Ok in E as (workers & [w8 l8] & H8 & E).
  destruct (session_steps _ _ _ _ _ _ (start_workers_mine own nm p WORKER_IDS
    ltac:(intros id Hid; apply (names_named own nm Hnames); unfold container_names;
          apply in_or_app; right; apply in_map; by right)) Hl7 H8) as (Hl8 & h8 & Hs8).
  pass_lift E. destruct (redis_wait_yields _ _ _ _ _ _ _ _ Hr4) as (h9 & Hs9 & Hlen).
  pass_lift E. destruct (steps_of _ _ _ _ _ (utc_now_mine []) Hr5) as (h10 & Hs10).
  pass_lift E. destruct (steps_of _ _ _ _ _ (pools_wait_mine [] nm) Hr6) as (h11 & Hs11).
  injection E as _ <- _.
  exists ((h1 ++ h2 ++ h3) ++ (h4 ++ h5 ++ h6 ++ h7 ++ h8) ++ (h9 ++ h10 ++ h11)). split.
  - repeat (eapply steps_app; [first [eassumption|by repeat (eapply steps_app; [eassumption|])]|]).
    done.
  - do 3 eexists. split; [reflexivity|]. split_and!.
    + by apply redis_said_r, redis_said_r.
    + destruct Hkill as [p5 Hp5]. exists p5. by apply asked_r, asked_l.
    + by apply redis_said_l.
Qed.
End finished.

(** The observation that was written is read back, and the verifier passes it. *)
Definition verified (path id revision : str) (p : Profile) (m : Measured) (w0 w1 : W) (r : Report)
  : Prop :=
  exists resources artifacts observation content d digest now,
    aggregate_resources (ms_samples m) = Ok resources
    /\ build_observation id revision p (ms_faults m) (ms_results m) resources (ms_providers m) artifacts
       = Ok observation
    /\ write_text path (render float_repr 0 observation ++ nl) w0 = (Ok tt, w1)
    /\ read_bytes path w1 = Ok content /\ load_observation sha256 (Some content) = Ok (d, digest)
    /\ compile_evidence d digest (thresholds p) None now = Ok r /\ passed r = true.
Lemma write_json_mine path v : within (W := W) (removes_only []) (write_json float_repr path v).
Proof using Type. apply within_write. Qed.
Lemma sha256_of_mine path : within (W := W) (removes_only []) (sha256_of sha256 path).
Proof using Type. unfold sha256_of. each_command fail. Qed.
Lemma artifact_scan_mine paths : within (W := W) (removes_only []) (artifact_scan paths).
Proof using Type.
  unfold artifact_scan. each_command ltac:(apply each_mine; intros ?; unfold artifact_matches;
    each_command fail).
Qed.
Lemma write_evidence_Ok output id name p m w w' :
  write_evidence float_repr sha256 output id name p m w = (Ok tt, w') ->
  exists h1 w0 w1 h2 revision r, steps h1 w w0 /\ steps h2 w1 w'
    /\ verified (output ++ u "/" ++ u "observation.json") id revision p m w0 w1 r.
Proof using Type.
  intros E. pass E ltac:(apply (source_revision_mine [])).
  do 3 pass E ltac:(apply (write_json_mine)). do 3 pass E ltac:(apply sha256_of_mine).
  pass E ltac:(apply artifact_scan_mine).
  apply Mbind_Ok in E as (resources & ? & Ha & E). injection Ha as Ha <-.
  apply Mbind_Ok in E as (observation & ? & Hb & E). injection Hb as Hb <-.
  apply Mbind_Ok in E as ([] & wb & Hw & E).
  apply Mbind_Ok in E as (file & wc & Hf & E).
  apply Mbind_Ok in E as ([d digest] & ? & Hl & E). injection Hl as Hl <-.
  pass E ltac:(apply (within_utcnow (removes_only []))).
  apply Mbind_Ok in E as (r & ? & Hc & E). injection Hc as Hc <-.
  pass E ltac:(apply write_json_mine).
  destruct (passed r) eqn:Hp; [|done]. injection E as <-.
  apply Mbind_Ok in Hf as (b & ? & Hb' & Hf). injection Hb' as _ <-.
  destruct b; [|injection Hf as <- <-; discriminate Hl].
  apply Mbind_Ok in Hf as (content & ? & Hread & Hf). injection Hread as Hread <-. injection Hf as <- <-.
  do 5 eexists. exists r. refine (conj _ (conj _ _)); cycle 2.
  - do 7 eexists. split_and!; eassumption.
  - repeat (eapply steps_app; [eassumption|]). apply steps_none.
  - eapply steps_app; eassumption.
Qed.

Section session.
Context (own : list object) (nm : Names) (Hnames : Forall (named own) (container_names nm)).
(** All that a session which succeeds went through *)
Definition soaked (nm : Names) (output id : str) (p : Profile) (result : json) (r : Report)
    (w w' : W) : Prop :=
  exists h1 h2 h3 w0 w1 h4 revision m,
    steps (h1 ++ h2 ++ h3) w w0 /\ steps h4 w1 w'
    /\ fault_injected nm h1 /\ network_cut nm h2 /\ coordinator_done nm h3
    /\ verified (output ++ u "/" ++ u "observation.json") id revision p m w0 w1 r
    /\ result = JObj [(u "run_id", JStr id); (u "output_dir", JStr output); (u "passed", JBool true);
                      (u "results", ms_results m)].
Lemma session_Ok fuel output id name p w v w' l' :
  session float_repr sha256 fuel nm output id name p (w, []) = (Ok v, (w', l')) ->
  exists r, soaked nm output id p v r w w'.
Proof using Hnames.
  intros E.
  apply Mbind_Ok in E as (a & [w1 l1] & H1 & E).
  destruct (session_steps _ _ _ _ _ _ _ (start_services_mine own nm Hnames p) (Forall_nil _) H1)
    as (Hl1 & h1 & Hs1).
  apply Mbind_Ok in E as ([[killed recovered] workers] & [w2 l2] & H2 & E).
  destruct (worker_fault_yields own nm Hnames _ _ _ _ _ _ Hl1 H2) as (Hl2 & h2 & Hs2 & Hfault).
  apply Mbind_Ok in E as ([[cut restored] metrics] & s & H3 & E). apply lift_Ok in H3 as (w3 & H3 & ->).
  destruct (network_fault_yields _ _ _ _ _ _ H3) as (h3 & Hs3 & Hcut).
  apply Mbind_Ok in E as ([] & [w4 l4] & H4 & E).
  apply Mbind_Ok in H4 as ([] & s & H4 & Hc). apply lift_Ok in H4 as (w4' & H4 & ->).
  injection Hc as <- _. destruct (do_run_yields _ _ _ _ H4) as (h4 & Hs4 & _).
  pass_lift E. destruct (steps_of _ _ _ _ _ (watch_mine [] _ _ _ _ _) Hr) as (h5 & Hs5).
  pass_lift E. destruct (coordinator_results_yields _ _ _ _ Hr0) as (h6 & Hs6 & Hdone).
  pass_lift E. destruct (steps_of _ _ _ _ _ (resource_sample_mine [] _ _ _) Hr1) as (h7 & Hs7).
  pass_lift E. destruct (steps_of _ _ _ _ _ (provider_audit_mine [] _) Hr2) as (h8 & Hs8).
  pass_lift E. destruct a4.
  destruct (write_evidence_Ok _ _ _ _ _ _ _ Hr3) as (h9 & wa & wb & h10 & revision & r & Hs9 & Hs10 & Hv).
  injection E as <- <- _.
  exists r, (h1 ++ h2), h3, (h4 ++ h5 ++ h6 ++ h7 ++ h8 ++ h9), wa, wb, h10, revision. eexists.
  split_and!; [|exact Hs10| |exact Hcut| |exact Hv|reflexivity].
  - rewrite <-app_assoc. repeat (eapply steps_app; [eassumption|]). eassumption.
  - by rewrite <-(app_nil_r h2); apply fault_injected_app.
  - destruct Hdone as (q & Hq & H0). exists q. split; [|exact H0]. by apply asked_r, asked_r, asked_l.
Qed.
End session.
Lemma soaked_app nm output id p result r h w w1 w2 h' w' :
  steps h w w1 -> soaked nm output id p result r w1 w2 -> steps h' w2 w' ->
  soaked nm output id p result r w w'.
Proof using Type.
  intros Hs (h1 & h2 & h3 & wa & wb & h4 & revision & m & H1 & H4 & Hf & Hc & Hd & Hv & Hr) Hs'.
  exists (h ++ h1), h2, h3, wa, wb, (h4 ++ h'), revision, m. split_and!; try done.
  - rewrite <-app_assoc. by eapply steps_app.
  - by eapply steps_app.
  - rewrite <-(app_nil_r h1). by apply fault_injected_app.
Qed.

(** The objects that carry the names of a run, whatever the revision *)
Definition run_objects (id : str) : list object :=
  map (pair container) (container_names (names_of id []))
  ++ [(network, nm_network (names_of id [])); (volume, nm_volume (names_of id []))].
Lemma run_names id revision :
  Forall (named (run_objects id)) (container_names (names_of id revision)).
Proof using Type.
  change (container_names (names_of id revision)) with (container_names (names_of id [])).
  rewrite Forall_forall. intros name Hin. split.
  - apply in_or_app. left. by apply in_map.
  - cbn in Hin. repeat destruct Hin as [<-|Hin]; done.
Qed.
(** ** What a soak leaves alone

    An object that was there before the run, and the containers that the session will have to
    remove: none of them is the object, nor is it the anonymous volume of one. *)
Section others.
Context (x : object).
Definition spared (w : W) (name : str) : Prop :=
  plain name /\ x <> (container, name) /\ forall v, x = (volume, v) -> ~ belongs name v w.
Definition safe (w : W) (l : list str) : Prop := present x w /\ Forall (spared w) l.
Definition session_safe {A} (m : M (W * list str) A) : Prop :=
  forall w l o w' l', m (w, l) = (o, (w', l')) -> safe w l -> safe w' l'.

Lemma steps_safe own h w w' l : steps h w w' -> Forall (removes_only own) h -> ~ In x own ->
  safe w l -> safe w' l.
Proof using Type.
  intros Hs Hh Hx [Hp Hl]. destruct (steps_spare own h w w' x Hs Hh Hx Hp) as [Hp' Hb].
  split; [done|]. eapply Forall_weaken; [exact Hl|]. intros name (Hn & Hne & Hv).
  split_and!; [done|done|]. intros v Hxv Hb'. by eapply Hv, Hb.
Qed.
Lemma within_safe own {A} (m : M W A) w o w' l : within (removes_only own) m -> ~ In x own ->
  m w = (o, w') -> safe w l -> safe w' l.
Proof using Type.
  intros Hm Hx E. destruct (Hm _ _ _ E) as (h & Hs & Hh). by apply (steps_safe own h).
Qed.
Lemma safe_bind {A B} (Q : A -> Prop) (m : M (W * list str) A) (k : A -> M (W * list str) B) :
  session_safe m ->
  (forall w l a w' l', m (w, l) = (Ok a, (w', l')) -> safe w l -> Q a) ->
  (forall a, Q a -> session_safe (k a)) -> session_safe (Mbind m k).
Proof using Type.
  intros Hm HQ Hk w l o w' l' E Hs. unfold Mbind in E.
  destruct (m (w, l)) as [[a|e] [w1 l1] ] eqn:E1.
  - eapply (Hk a); [by eapply HQ|exact E|]. by eapply Hm.
  - injection E as <- <- <-. by eapply Hm.
Qed.
Lemma safe_then {A B} (m : M (W * list str) A) (k : A -> M (W * list str) B) :
  session_safe m -> (forall a, session_safe (k a)) -> session_safe (Mbind m k).
Proof using Type. intros Hm Hk. by apply (safe_bind (fun _ => True)). Qed.
Lemma safe_ret {A} (a : A) : session_safe (Mret a).
Proof using Type. by intros w l o w' l' [= _ <- <-]. Qed.
Lemma safe_lift own {A} (m : M W A) : within (removes_only own) m -> ~ In x own -> session_safe (lift m).
Proof using Type.
  intros Hm Hx w l o w' l' E. unfold lift in E. destruct (m w) as [o1 w1] eqn:E1.
  injection E as <- <- <-. by apply (within_safe own m w o1).
Qed.
Lemma safe_forgotten name : session_safe (forgotten name).
Proof using Type.
  intros w l o w' l' E [Hp Hl]. unfold forgotten in E.
  destruct (list_remove_one name l) as [r|] eqn:Er; injection E as <- <- <-; split; try done.
  revert l Er Hl. induction r as [|y r IH]; intros l Er Hl; [constructor|].
  clear IH. revert y r Er. induction Hl as [|z l Hz Hl IH]; intros y r Er; [done|]. cbn in Er.
  destruct (str_eqb z name); [by injection Er as <-|].
  destruct (list_remove_one name l) as [r'|]; [|done]. injection Er as <- <-.
  constructor; [done|]. destruct r' as [|y' r']; [constructor|by apply IH].
Qed.
(** A container is recorded after docker has made it under a name that was free. *)
Lemma safe_start name rest : plain name ->
  session_safe (start name ([u "run"; u "--detach"; u "--name"; name] ++ rest)).
Proof using Type.
  intros Hn w l o w' l' E [Hp Hl]. unfold start, Mbind, lift in E.
  destruct (do_run _ w) as [[[]|e] w1] eqn:E1.
  - unfold created in E. injection E as _ <- <-.
    destruct (do_run_yields _ _ _ _ E1) as (h & Hs & _).
    unfold do_run in E1. apply Mbind_Ok in E1 as (p & w2 & Hrun & [= ->]).
    pose proof Hrun as [_ Hok]%run_Ok. specialize (Hok eq_refl).
    apply Mbind_Ok in Hrun as (r & w3 & Esub & Hr).
    assert (r = p /\ w3 = w1) as [-> ->] by (destruct (true && _); [done|by injection Hr]).
    assert (Hfresh : ~ present (container, name) w) by (by eapply run_fresh).
    assert (Hw : within (W := W) (removes_only []) (run true ([u "run"; u "--detach"; u "--name"; name] ++ rest)))
      by (apply run_mine; harmless).
    assert (Hone : steps [Ran (u "docker" :: ([u "run"; u "--detach"; u "--name"; name] ++ rest)) (Ok p)] w w1)
      by (by eapply steps_ran; [|constructor]).
    assert (Hh : Forall (removes_only []) [Ran (u "docker" :: ([u "run"; u "--detach"; u "--name"; name] ++ rest)) (Ok p)])
      by (constructor; [exists true, []; split; [reflexivity|by split; [intros ? []|] ]|constructor]).
    destruct (steps_safe [] _ _ _ l Hone Hh (fun H => H) (conj Hp Hl)) as [Hp' Hl'].
    split; [done|]. apply Forall_app_2; [done|]. constructor; [|constructor].
    split_and!; [done|by intros ->|]. intros v Hxv Hb.
    destruct (steps_spare [] _ _ _ x Hone Hh (fun H => H) Hp) as [_ Hback].
    by apply Hfresh, (belongs_container _ v), Hback.
  - injection E as _ <- <-. apply (within_safe [] (do_run ([u "run"; u "--detach"; u "--name"; name] ++ rest)) w (Raise e)); [|by intros []|done|done].
    apply do_run_mine. harmless.
Qed.

Context (nm : Names).
Context (Hplain : Forall plain (container_names nm)).
Lemma names_plain name : In name (container_names nm) -> plain name.
Proof using Hplain. rewrite Forall_forall in Hplain. apply Hplain. Qed.
Ltac each_safe call :=
  repeat lazymatch goal with
         | |- session_safe (Mbind _ _) => apply safe_then; [|intros ?]
         | |- session_safe (start _ _) => apply safe_start; apply names_plain;
                unfold container_names; cbn [In app map WORKER_IDS]; tauto
         | |- session_safe (Mret _) => apply safe_ret
         | |- session_safe (forgotten _) => apply safe_forgotten
         | |- session_safe (lift _) => apply (safe_lift []); [call|by intros []]
         end.
Lemma safe_services p : session_safe (start_services float_repr nm p).
Proof using All.
  unfold start_services, redis_value, service. each_safe
    ltac:(first [apply do_run_mine; harmless
                |apply wait_for_mine; first [apply succeeds_mine; harmless
                                            |each_command ltac:(apply exec_output_mine)] ]).
Qed.
Lemma safe_worker p id : plain (worker_name nm id) -> session_safe (start_worker float_repr nm p id).
Proof using All.
  intros Hn. unfold start_worker, worker_arguments. apply safe_then; [by apply safe_start|].
  intros _. apply safe_ret.
Qed.
Lemma safe_workers p ids : (forall id, In id ids -> plain (worker_name nm id)) ->
  session_safe (start_workers float_repr nm p ids).
Proof using All.
  induction ids as [|id ids IH]; intros Hn; [apply safe_ret|]. cbn [start_workers].
  apply safe_then; [apply safe_worker, Hn; by left|]. intros name.
  apply safe_then; [apply IH; intros; apply Hn; by right|]. intros names. apply safe_ret.
Qed.
(** The worker that is killed and removed was made by this run. *)
Lemma worker_spared p id w l name w' l' : plain (worker_name nm id) ->
  start_worker float_repr nm p id (w, l) = (Ok name, (w', l')) -> safe w l ->
  name = worker_name nm id /\ x <> (container, name).
Proof using All.
  intros Hn E Hs. pose proof (safe_worker p id Hn _ _ _ _ _ E Hs) as [_ Hl].
  apply Mbind_Ok in E as ([] & [w1 l1] & E1 & E2). injection E2 as <- <- <-. split; [done|].
  unfold start in E1. apply Mbind_Ok in E1 as ([] & [w2 l2] & _ & E3). injection E3 as <- <-.
  apply Forall_app in Hl as [_ Hl]. by apply Forall_cons_iff in Hl as [(_ & Hne & _) _].
Qed.
Lemma worker_1_plain : plain (worker_name nm (u "worker-1")).
Proof using All.
  apply names_plain. unfold container_names. apply in_or_app. right. by left.
Qed.
Lemma safe_fault p : session_safe (worker_fault float_repr nm p).
Proof using All.
  unfold worker_fault.
  apply (safe_bind (fun name => name = worker_name nm (u "worker-1") /\ x <> (container, name))).
  - apply safe_worker, worker_1_plain.
  - intros w l name w' l'. apply worker_spared, worker_1_plain.
  - intros victim [-> Hne]. do 4 (apply safe_then; [each_safe
      ltac:(first [apply do_run_mine; harmless|apply utc_now_mine
                  |apply wait_for_mine; apply redis_says_mine])|intros ?]).
    apply safe_then; [|intros _].
    { apply (safe_lift [(container, worker_name nm (u "worker-1"))]).
      - apply do_run_mine. intros r. exists false, [(container, worker_name nm (u "worker-1"))].
        pose proof worker_1_plain as Hp.
        split; [|split; [apply incl_refl|by apply rm_plain_volumes] ].
        change (Some (false, map (pair container) (operands [worker_name nm (u "worker-1")]))
                = Some (false, [(container, worker_name nm (u "worker-1"))])).
        unfold operands. cbn [List.filter]. by rewrite Hp.
      - intros [He|[] ]. by apply Hne. }
    apply safe_then; [apply safe_forgotten|intros _]. apply safe_then; [|intros workers].
    { apply safe_workers. intros id Hid. apply names_plain. unfold container_names.
      apply in_or_app. right. apply in_map. by right. }
    each_safe ltac:(first [apply utc_now_mine
      |apply wait_for_mine; first [apply redis_says_mine|each_command ltac:(apply exec_output_mine)] ]).
Qed.
Lemma safe_session fuel output id name p :
  session_safe (session float_repr sha256 fuel nm output id name p).
Proof using All.
  unfold session, coordinator_arguments. apply safe_then; [apply safe_services|]. intros _.
  apply safe_then; [apply safe_fault|]. intros [ [killed recovered] workers].
  apply safe_then; [apply (safe_lift []); [apply network_fault_mine|by intros [] ]|].
  intros [ [cut restored] metrics].
  each_safe ltac:(first [apply watch_mine|apply coordinator_results_mine|apply resource_sample_mine
                |apply provider_audit_mine|apply write_evidence_mine]).
Qed.

(** The clean-up *)
Lemma safe_command command adds removed r w w' l :
  effect command = Some (adds, removed) -> subprocess command w = (r, w') -> ~ In x removed ->
  (forall c, In c (with_volumes command) -> spared w c) -> safe w l -> safe w' l.
Proof using Type.
  intros He E Hx Hc [Hp Hl]. split.
  - eapply effect_keeps; [exact He|exact E|exact Hp|exact Hx|].
    intros c v Hv Hin. destruct (Hc c Hin) as (_ & _ & Hb). by apply Hb.
  - eapply Forall_weaken; [exact Hl|]. intros name (Hn & Hne & Hb). split_and!; [done|done|].
    intros v -> Hb'. apply (Hb v eq_refl). by eapply belongs_made.
Qed.
Lemma run_safe arguments removed w o w' l :
  run false arguments w = (o, w') -> effect (u "docker" :: arguments) = Some (false, removed) ->
  ~ In x removed -> (forall c, In c (with_volumes (u "docker" :: arguments)) -> spared w c) ->
  safe w l -> safe w' l.
Proof using Type.
  intros E He Hx Hc. unfold run, Mbind in E.
  destruct (subprocess _ w) as [[r|e] w1] eqn:E1; injection E as _ <-; by eapply safe_command.
Qed.
Lemma removal_safe name w o w' l : removal name w = (o, w') -> In name l -> safe w l -> safe w' l.
Proof using Type.
  intros E Hin Hs. assert (Hn : spared w name)
    by (destruct Hs as [_ Hl]; rewrite Forall_forall in Hl; by apply Hl).
  pose proof Hn as (Hpl & Hne & _). unfold removal, Mbind in E.
  destruct (run false _ w) as [o1 w1] eqn:E1. assert (w1 = w') as -> by (destruct o1; by injection E).
  eapply (run_safe _ [(container, name)]); [exact E1| | | |exact Hs].
  - change (Some (false, map (pair container) (operands [name])) = Some (false, [(container, name)])).
    unfold operands. cbn [List.filter]. by rewrite Hpl.
  - intros [He|[] ]. by apply Hne.
  - change (forall c, In c (operands [name]) -> spared w c). unfold operands. cbn [List.filter].
    rewrite Hpl. by intros c [<-|[] ].
Qed.
Lemma removals_safe names w o w' l : Miter removal names w = (o, w') -> incl names l ->
  safe w l -> safe w' l.
Proof using Type.
  revert w. induction names as [|name names IH]; intros w E Hin Hs; [by injection E as _ <-|].
  change (Mbind (removal name) (fun _ => Miter removal names) w = (o, w')) in E. unfold Mbind in E.
  destruct (removal name w) as [[a|e] w1] eqn:E1.
  - apply (IH w1 E); [intros y Hy; apply Hin; by right|].
    eapply removal_safe; [exact E1|apply Hin; by left|exact Hs].
  - injection E as _ <-. eapply removal_safe; [exact E1|apply Hin; by left|exact Hs].
Qed.
Context (Hnet : plain (nm_network nm) /\ x <> (network, nm_network nm)).
Context (Hvol : plain (nm_volume nm) /\ x <> (volume, nm_volume nm)).
Lemma teardown_safe l w o w' : teardown nm l w = (o, w') -> safe w l -> present x w'.
Proof using Hnet Hvol.
  intros E Hs. destruct Hnet as [Hnp Hnx], Hvol as [Hvp Hvx]. unfold teardown, Mbind in E.
  destruct (Miter removal (rev l) w) as [o1 w1] eqn:E1.
  eapply removals_safe in E1 as Hs1; [|by intros y Hy%in_rev|exact Hs].
  destruct o1; [|injection E as _ <-; apply Hs1].
  destruct (run false [u "network"; _; _] w1) as [o2 w2] eqn:E2.
  assert (Hs2 : safe w2 l).
  { eapply (run_safe _ [(network, nm_network nm)]); [exact E2| |intros [He|[] ]; by apply Hnx|by intros ? []|exact Hs1].
    change (Some (false, map (pair network) (operands [nm_network nm])) = Some (false, [(network, nm_network nm)])).
    unfold operands. cbn [List.filter]. by rewrite Hnp. }
  destruct o2; [|injection E as _ <-; apply Hs2].
  destruct (run false [u "volume"; _; _] w2) as [o3 w3] eqn:E3.
  assert (Hs3 : safe w3 l).
  { eapply (run_safe _ [(volume, nm_volume nm)]); [exact E3| |intros [He|[] ]; by apply Hvx|by intros ? []|exact Hs2].
    change (Some (false, map (pair volume) (operands [nm_volume nm])) = Some (false, [(volume, nm_volume nm)])).
    unfold operands. cbn [List.filter]. by rewrite Hvp. }
  destruct o3; injection E as _ <-; apply Hs3.
Qed.
End others.

(** Whatever the clean-up does, it is a history of commands. *)
Lemma teardown_runs nm containers : within (W := W) (fun _ => True) (teardown nm containers).
Proof using Type.
  assert (Hr : forall arguments, within (W := W) (fun _ => True) (run false arguments)).
  { intros arguments. apply within_bind; [|intros r; destruct (_ && _); auto with commands].
    intros w o w' E. exists [Ran (u "docker" :: arguments) o].
    split; [by eapply steps_ran; [|constructor]|by constructor]. }
  unfold teardown, removal. auto 10 with commands.
Qed.

(** C39: Whatever happens to a soak -- it ends, fails or crashes --, no container that was there
    before is removed, even one with a name of the run: a container is removed only after this
    run saw docker make it under a name that was free, and with it only the anonymous volumes
    that docker made for it.  Every network and volume that was there before is there after it
    too, but for the network and the volume with the names of the run: those are removed by
    name, whether this run made them or not. *)
Theorem soak_touches_own fuel args uuid (w w' : W) e x
  (Hrun : main float_repr sha256 fuel args uuid w = (e, w'))
  (Hnet : x <> (network, u "pipelens-" ++ run_id_of args uuid ++ u "-net"))
  (Hvol : x <> (volume, u "pipelens-" ++ run_id_of args uuid ++ u "-postgres")) :
  present x w -> present x w'.
Proof using Type.
  intros Hp. unfold main in Hrun. destruct (execute _ _ _ _ _ w) as [o w1] eqn:E.
  assert (w1 = w') as -> by (destruct o; injection Hrun as _ <-; done). clear Hrun.
  assert (Hread : forall A (m : M W A) w o w1, within (removes_only []) m -> m w = (o, w1) ->
    present x w -> present x w1)
    by (intros A m v o1 v1 Hm Em Hv; by eapply (within_keep [] m); [exact Hm|exact Em|intros []|]).
  unfold execute in E. unfold Mbind at 1, Mlift in E.
  destruct (dict_get _ _ _) as [p|]; [|by injection E as _ <-].
  destruct (negb _); [by injection E as _ <-|].
  unfold Mbind at 1, Mread in E. unfold Mbind at 1 in E.
  destruct (path_exists _ w); [by injection E as _ <-|]. unfold Mbind at 1 in E.
  destruct (mkdir _ w) as [[[]|err] w1] eqn:E1; apply Hread in E1 as Hp1; auto with commands;
    try apply within_mkdir; [|by injection E as _ <-].
  unfold Mbind at 1 in E. destruct (source_revision w1) as [[revision|err] w2] eqn:E2;
    apply Hread in E2 as Hp2; auto; try apply source_revision_mine; [|by injection E as _ <-].
  unfold session_and_teardown in E.
  destruct (session _ _ _ _ _ _ _ _ (w2, [])) as [o3 [w3 l] ] eqn:E3.
  set (nm := names_of (run_id_of args uuid) revision) in *.
  assert (Hs : safe x w3 l).
  { refine (safe_session x nm _ _ _ _ _ _ _ _ _ _ _ E3 _); [|by split].
    rewrite Forall_forall. intros name Hin. cbn in Hin. repeat destruct Hin as [<-|Hin]; done. }
  destruct (keep args); [injection E as _ <-; apply Hs|].
  destruct (teardown nm l w3) as [o4 w4] eqn:E4. assert (w4 = w') as -> by (destruct o4; by injection E).
  eapply (teardown_safe x nm); [| |exact E4|exact Hs]; (split; [done|]); unfold nm, names_of;
    cbn [nm_network nm_volume]; by rewrite <-app_assoc.
Qed.

(** C38: A soak that finishes was run under a safe name into a directory that was not there,
    saw a worker killed with a job that the others completed, then saw Redis cut off and back,
    then saw the coordinator end well; and the observation of this run, as it was written and
    read back, meets every criterion of the verifier under the thresholds of the profile. *)
Theorem soak_finished_sound fuel args uuid (w w' : W) result
  (Hrun : main float_repr sha256 fuel args uuid w = (Finished result, w')) :
  let id := run_id_of args uuid in
  let output := resolve (output_dir args) w in
  re_fullmatch SAFE_RUN_ID id = true /\ path_exists output w = false
  /\ exists p revision r, dict_get str_eqb PROFILES (profile args) = Some p
     /\ soaked (names_of id revision) output id p result r w w'
     /\ rp_thresholds r = thresholds p /\ events_within r /\ criteria r.
Proof using Type.
  unfold main in Hrun. destruct (execute _ _ _ _ _ w) as [[v|e] w1] eqn:E; [|by destruct (is_reported e)].
  injection Hrun as -> ->. apply Mbind_Ok in E as (p & ? & Hp & E). unfold Mlift in Hp.
  destruct (dict_get _ _ _) as [q|] eqn:Hget; [|done]. injection Hp as -> <-.
  cbv zeta in *. destruct (re_fullmatch SAFE_RUN_ID (run_id_of args uuid)) eqn:Hid; [|done]. cbn [negb] in E.
  apply Mbind_Ok in E as (output & ? & Ho & E). injection Ho as <- <-.
  apply Mbind_Ok in E as (taken & ? & Ht & E). injection Ht as Ht <-.
  destruct taken; [done|]. pass E ltac:(apply within_mkdir).
  pass E ltac:(apply (source_revision_mine [])).
  unfold session_and_teardown in E.
  destruct (session _ _ _ _ _ _ _ _ (w1, [])) as [o [w3 containers]] eqn:E3.
  assert (exists h3, steps h3 w3 w' /\ o = Ok result) as (h3 & Hs3 & ->).
  { destruct (keep args); [injection E as -> ->; exists []; split; [apply steps_none|done]|].
    destruct (teardown _ _ w3) as [[?|?] w4] eqn:E4; [|done]. injection E as -> ->.
    destruct (teardown_runs _ _ _ _ _ E4) as (h4 & Hs4 & _). by exists h4. }
  destruct (session_Ok _ _ (run_names _ _) _ _ _ _ _ _ _ _ _ E3) as (r & Hsoaked).
  split; [done|]. split; [done|]. exists p, a0, r. split; [done|].
  split; [by eapply (soaked_app _ _ _ _ _ _ (h ++ h0)); [eapply steps_app|..]|].
  destruct Hsoaked as (? & ? & ? & ? & ? & ? & ? & ? & _ & _ & _ & _ & _ & Hv & _).
  destruct Hv as (? & ? & ? & ? & d & ? & ? & _ & _ & _ & _ & _ & Hc & Hp).
  apply soak_compile_evidence_Ok in Hc as (Ho & He & _ & Hth & _).
  split_and!; [done..|by eapply soak_passed_criteria].
Qed.
End soak_facts.

(** ** A run to the end *)

(** The machine of the examples with files and a clock: what is written is there, and every
    look at the clock takes a second. *)
Record Site := { objects : list object; files : list (str * str); clock : Z }.
Definition with_objects (s : Site) (o : list object) : Site :=
  {| objects := o; files := files s; clock := clock s |}.
Definition printed (text : string) : CompletedProcess :=
  {| returncode := 0; stdout := u text ++ nl; stderr := [] |}.
Definition site_answers (command : list str) : CompletedProcess :=
  let last_word := List.last command [] in
  if among ["PING"] last_word then printed "PONG"
  else if ends_with (u ":victim_ready") last_word || ends_with (u ":first_completion") last_word
  then printed "1"
  else if str_eqb last_word POOLS_QUERY then printed "20"
  else if str_eqb last_word CONNECTIONS_QUERY then printed "20|25"
  else if among ["memory"] last_word then
    {| returncode := 0; stderr := [];
       stdout := u "# Memory" ++ [13%N; 10%N] ++ u "used_memory:1000" ++ [13%N; 10%N] ++ u "maxmemory:4000" ++ [13%N; 10%N] |}
  else if str_eqb last_word METRICS_CODE then printed "pipelens_queue_reconnections_total 1.0"
  else if str_eqb last_word AUDIT_CODE then
    {| returncode := 0; stderr := []; stdout := file_of "{
      'github': {'requests': 50, 'latency_p50_seconds': 0.01, 'latency_p95_seconds': 0.02,
                 'rate_limit_responses': 1, 'transient_failures': 1, 'retry_successes': 2},
      'llm': {'requests': 50, 'latency_p50_seconds': 0.02, 'latency_p95_seconds': 0.03,
              'rate_limit_responses': 1, 'transient_failures': 1, 'retry_successes': 2}}" |}
  else match command with
  | _ :: verb :: arguments =>
    if str_eqb verb (u "inspect")
    then printed (if among ["{{.State.Running}}"] (nth 1 arguments []) then "false" else "0")
    else if str_eqb verb (u "stats")
    then {| returncode := 0; stderr := []; stdout := file_of "{'CPUPerc': '12.50%', 'MemPerc': '3.25%'}" |}
    else if str_eqb verb (u "logs")
    then {| returncode := 0; stderr := []; stdout := file_of "{'started_at': '2026-09-01T00:00:00Z', 'completed_jobs': 25, 'throughput_jobs_per_second': 5.5, 'latency_seconds': {'start_p95': 0.5, 'completion_p95': 1.5}, 'slo_attainment_percent': {'start': 100.0, 'completion': 100.0}, 'duplicate_completions': 0, 'lost_jobs': 0, 'exactly_once': true, 'queue_drained': true}" |}
    else ended 0
  | _ => ended 0
  end.
Definition site_process (answers : list str -> CompletedProcess) (command : list str) (s : Site)
  : outcome CompletedProcess * Site :=
  if among ["git"] (hd [] command) then (Ok (printed "0123456789abcdef"), s)
  else let (r, o) := scripted_process answers command (objects s) in (r, with_objects s o).
Definition site_machine (answers : list str -> CompletedProcess) : Machine Site := {|
  subprocess := site_process answers; monotonic := fun s => (0%Q, s);
  utcnow := fun s => (clock s, {| objects := objects s; files := files s; clock := clock s + 1000000 |});
  fetch := fun _ _ s => (Raise (OtherException []), s); sleep := fun _ s => s;
  is_file := fun path s => bool_decide (path ∈ map fst (files s)); is_dir := fun _ _ => false;
  path_exists := fun path s => bool_decide (path ∈ map fst (files s));
  file_size := fun _ _ => Raise (OtherException []);
  read_bytes := fun path s => match dict_get str_eqb (files s) path with
                              | Some content => Ok content | None => Raise (OtherException []) end;
  resolve := fun path _ => u "/" ++ path;
  write_text := fun path text s =>
    (Ok tt, {| objects := objects s; files := dict_set str_eqb (files s) path text; clock := clock s |});
  mkdir := fun _ s => (Ok tt, s) |}.
Section site_laws.
Context (answers : list str -> CompletedProcess).
Abbreviation scripted := (scripted_machine answers (fun _ _ => Raise (OtherException [])) [] 0).
Lemma site_step command (s : Site) r s' : site_process answers command s = (r, s') ->
  (head command = Some (u "git") /\ s' = s)
  \/ @subprocess _ scripted command (objects s) = (r, objects s').
Proof.
  unfold site_process, among. destruct command as [|program command]; [|cbn [hd existsb]; destruct (str_eqb _ _) eqn:E].
  - destruct (scripted_process _ _ _) as [r1 o] eqn:E1. intros [= <- <-]. right. exact E1.
  - apply str_eqb_eq in E as ->. intros [= <- <-]. by left.
  - cbn [orb]. destruct (scripted_process _ _ _) as [r1 o] eqn:E1. intros [= <- <-]. right. exact E1.
Qed.
Lemma git_effect command adds removed : head command = Some (u "git") ->
  effect command = Some (adds, removed) -> adds = false /\ removed = [].
Proof.
  destruct command as [|program [|verb command]]; [done..|]. intros [= ->] E.
  change (Some (false, @nil object) = Some (adds, removed)) in E. by injection E.
Qed.
Definition site_laws : @DockerLaws Site (site_machine answers).
Proof.
  pose (L := scripted_laws answers (fun _ _ => Raise (OtherException [])) [] 0).
  refine {| present := fun x (s : Site) => In x (objects s); belongs := fun _ _ _ => False |};
    cbn [subprocess site_machine].
  - intros command adds removed s r s' x He E Hx Hn Hb.
    destruct (site_step _ _ _ _ E) as [[_ ->]|E']; [exact Hx|].
    exact (@effect_keeps _ _ L command adds removed _ _ _ x He E' Hx Hn Hb).
  - done.
  - done.
  - intros name rest s r s' E Hr. destruct (site_step _ _ _ _ E) as [[[=] _]|E'].
    exact (@run_fresh _ _ L name rest _ _ _ E' Hr).
  - intros command removed s r s' x He E Hx.
    destruct (site_step _ _ _ _ E) as [[_ ->]|E']; [exact Hx|].
    exact (@effect_adds _ _ L command removed _ _ _ x He E' Hx).
  - intros command adds removed s r s' x He E Hr Hx.
    destruct (site_step _ _ _ _ E) as [[Hg ->]|E'].
    + by destruct (git_effect _ _ _ Hg He) as [_ ->].
    + exact (@effect_removes _ _ L command adds removed _ _ _ x He E' Hr Hx).
  - intros k name s r s' E. destruct (site_step _ _ _ _ E) as [[[=] _]|E'].
    exact (@inspect_finds _ _ L k name _ _ _ E').
  - done.
  - done.
Defined.
End site_laws.
Definition cents (q : Q) : str :=
  let c := Qfloor (q * 100) in
  str_of_Z (c / 100) ++ u "." ++ str_of_Z (c mod 100 / 10) ++ str_of_Z (c mod 10).
Definition soak_args (id : string) : Args :=
  {| profile := u "smoke"; run_id := Some (u id); output_dir := u "out"; keep := false |}.
Definition before : list object := [(volume, u "pipelens_postgres")].
Definition start_site (o : list object) : Site :=
  {| objects := o; files := []; clock := 1788220801000000 |}.
Abbreviation example_soak := (
  @main ascii_db Site (site_machine site_answers) cents (fun _ => repeat 97%N 64) 5 (soak_args "night-1") []
    (start_site before)).
Example soak_finishes :
  match example_soak with (Finished _, s) => Some (objects s, length (files s)) | _ => None end
  = Some (before, 5%nat).
Proof. vm_compute. reflexivity. Qed.
Lemma soak_finished_sound_witness :
  exists result s p revision r,
    @soaked ascii_db Site (site_machine site_answers) cents (fun _ => repeat 97%N 64)
      (names_of (u "night-1") revision) (u "/out") (u "night-1") p result r (start_site before) s
    /\ events_within r /\ criteria r.
Proof.
  assert (Ho : match example_soak with (Finished _, _) => true | _ => false end = true)
    by (vm_compute; reflexivity).
  destruct example_soak as [[result|e|e] s] eqn:E; [|discriminate Ho..]. clear Ho.
  destruct (@soak_finished_sound ascii_db Site (site_machine site_answers) cents
    (fun _ => repeat 97%N 64) 5%nat (soak_args "night-1") [] (start_site before) s result E)
    as (_ & _ & p & revision & r & _ & Hs & _ & He & Hc).
  exists result, s, p, revision, r. exact (conj Hs (conj He Hc)).
Defined.

(** ** A run that fails early

    docker build fails: nothing of the run was made, and its clean-up still removes the
    network and the volume of its name, which somebody else had made. *)
Definition failing_answers (command : list str) : CompletedProcess :=
  if bool_decide (nth 1 command [] = u "build") then ended 1 else ended 0.
Definition namesakes : list object :=
  [(network, u "pipelens-night-1-net"); (volume, u "pipelens-night-1-postgres")].
Definition failed_soak : ending * Site :=
  @main ascii_db Site (site_machine failing_answers) cents (fun _ => []) 5 (soak_args "night-1") []
    (start_site (before ++ namesakes)).
Example failed_soak_removes_namesakes :
  failed_soak = (Failed (RuntimeError (u "docker build failed: ")), start_site before).
Proof. vm_compute. reflexivity. Qed.
(** Somebody else's container has the name of the first container of the run: docker refuses
    the name, the run fails, and the container is there after it. *)
Definition busy : list object := (container, u "pipelens-night-1-postgres") :: before.
Abbreviation refused_soak := (
  @main ascii_db Site (site_machine site_answers) cents (fun _ => []) 5 (soak_args "night-1") []
    (start_site busy)).
Lemma soak_touches_own_witness :
  (match refused_soak with (Failed _, _) => true | _ => false end) = true
  /\ In (container, u "pipelens-night-1-postgres") (objects (snd refused_soak)).
Proof.
  split; [vm_compute; reflexivity|]. destruct refused_soak as [e s] eqn:E.
  refine (@soak_touches_own ascii_db Site _ (site_laws site_answers) _ _ _ _ _ _ _ _
    (container, u "pipelens-night-1-postgres") E _ _ _); [discriminate|discriminate|by left].
Defined.
