(* ===== verification/ContainerRuntime.v ===== *)
(** * Inside the containers of the soak (ops/worker/container_runtime.py)

    The synthetic provider with its audit, the tracker that the workers write to, and the
    results that the coordinator computes from it; with what these numbers mean.  The tracker's
    hashes are kept as the numbers that their texts stand for. *)

From Stdlib Require Import QArith Qround Qabs Qcanon Lqa.
From stdpp Require Import base list strings numbers relations sorting.
From S2P Require Import Prelude Double Calendar Regex Json Url Evidence EvidenceFacts SoakEvidence SoakEvidenceFacts.

Set Default Proof Using "Type".

(** ** Percentiles *)

(** len(values) * percentage / 100 and its ceiling *)
Definition rank (count percentage : Z) : Z :=
  Qceiling (rounded (Qred (inject_Z (count * percentage) / 100))).
Definition ranked (values : list Q) (percentage : Z) : Q :=
  nth (Z.to_nat (rank (Z.of_nat (length values)) percentage - 1)) (py_sorted Qle_bool values) 0%Q.
Definition nearest_rank (values : list Q) (percentage : Z) : Q :=
  match values with [] => 0%Q | _ => ranked values percentage end.
(** round(x, 6) *)
Definition round6 (x : Q) : Q :=
  rounded (half_even (Qnum x * 1000000) (Zpos (Qden x)) # 1000000).

(** ** The provider *)

Definition OK : Z := 200.
Definition TOO_MANY_REQUESTS : Z := 429.
Definition SERVICE_UNAVAILABLE : Z := 503.
Definition NOT_FOUND : Z := 404.
Record ProviderState := {
  latencies : list (str * Q); request_numbers : list (str * Z);
  statuses : list (str * list Z); durations : list (str * list Q) }.
Definition provider_state (latencies : list (str * Q)) : ProviderState :=
  {| latencies := latencies; request_numbers := []; statuses := []; durations := [] |}.
(** The list or the number of a defaultdict *)
Definition entries {A} (d : list (str * list A)) (provider : str) : list A :=
  default [] (dict_get str_eqb d provider).
Definition number (d : list (str * Z)) (provider : str) : Z := default 0 (dict_get str_eqb d provider).
Definition record (provider : str) (status : Z) (duration : Q) (st : ProviderState) : ProviderState :=
  {| latencies := latencies st; request_numbers := request_numbers st;
     statuses := dict_set str_eqb (statuses st) provider (entries (statuses st) provider ++ [status]);
     durations := dict_set str_eqb (durations st) provider
                    (entries (durations st) provider ++ [duration]) |}.
Definition reserve (provider : str) (st : ProviderState) : Z * ProviderState :=
  let n := number (request_numbers st) provider + 1 in
  (n, {| latencies := latencies st;
         request_numbers := dict_set str_eqb (request_numbers st) provider n;
         statuses := statuses st; durations := durations st |}).
(** list.count *)
Definition count (status : Z) (l : list Z) : Z := Z.of_nat (length (List.filter (Z.eqb status) l)).
Definition audit_entry (statuses : list Z) (durations : list Q) : json := JObj [
  (u "requests", JInt (Z.of_nat (length statuses)));
  (u "latency_p50_seconds", JFloat (round6 (nearest_rank durations 50)));
  (u "latency_p95_seconds", JFloat (round6 (nearest_rank durations 95)));
  (u "rate_limit_responses", JInt (count TOO_MANY_REQUESTS statuses));
  (u "transient_failures", JInt (count SERVICE_UNAVAILABLE statuses));
  (u "retry_successes", JInt (Z.min 2 (count OK statuses)))].
Definition by_name {A} (a b : str * A) : bool := str_leb (fst a) (fst b).
Definition audit (st : ProviderState) : json :=
  JObj (map (fun '(provider, l) => (provider, audit_entry l (entries (durations st) provider)))
          (py_sorted by_name (statuses st))).

(** do_GET: an answer at once, a request that is answered after the provider's latency, or an
    exception of the handler *)
Inductive reception :=
| Answered (status : Z) (body : json)
| Working (provider : str) (request_number : Z) (latency : Q)
| Broken (e : exn).
Section handler.
Context {U : UnicodeDb} {NF : Nfkc} {R : Repr}.
(** urlparse(path).path.removeprefix("/"): urlsplit's path without the parameters of its last
    segment *)
Definition SCHEMES_WITH_PARAMETERS : list string :=
  [""; "ftp"; "hdl"; "prospero"; "http"; "https"; "shttp"; "rtsp"; "rtsps"; "sip"; "sips"; "mms";
   "sftp"; "tel"]%string.
Definition without_parameters (path : str) : str :=
  match rpartition 47 path with
  | (Some before, last) => before ++ [47%N] ++ fst (partition 59 last)
  | (None, last) => fst (partition 59 last)
  end.
Definition provider_of (target : str) : outcome str :=
  let! parts := urlsplit target in
  let p := if existsb (fun s => str_eqb (scheme parts) (u s)) SCHEMES_WITH_PARAMETERS
           then without_parameters (path parts) else path parts in
  Ok (if starts_with (u "/") p then drop 1 p else p).
Definition do_GET (target : str) (st : ProviderState) : reception * ProviderState :=
  if str_eqb target (u "/health") then (Answered OK (JObj [(u "status", JStr (u "ok"))]), st)
  else if str_eqb target (u "/audit") then (Answered OK (audit st), st)
  else match provider_of target with
  | Raise e => (Broken e, st)
  | Ok provider =>
    match dict_get str_eqb (latencies st) provider with
    | None => (Answered NOT_FOUND (JObj [(u "error", JStr (u "unknown provider"))]), st)
    | Some latency => let (n, st) := reserve provider st in (Working provider n latency, st)
    end
  end.
End handler.
Definition status_of (request_number : Z) : Z :=
  if request_number =? 1 then TOO_MANY_REQUESTS
  else if request_number =? 2 then SERVICE_UNAVAILABLE else OK.
(** The rest of do_GET when the latency is over: status, headers, body *)
Definition finish (provider : str) (request_number : Z) (duration : Q) (st : ProviderState)
  : (Z * list (str * str) * json) * ProviderState :=
  let status := status_of request_number in
  ((status, if status =? TOO_MANY_REQUESTS then [(u "Retry-After", u "0")] else [],
    JObj [(u "provider", JStr provider)]), record provider status duration st).
(** The threads of the server: requests come and are answered in any order. *)
Record Server := { state : ProviderState; busy : list (str * Z) }.
Definition fresh (latencies : list (str * Q)) : Server :=
  {| state := provider_state latencies; busy := [] |}.
Inductive serve `{UnicodeDb} `{Nfkc} `{Repr} : Server -> Server -> Prop :=
| serve_get s target r st :
    do_GET target (state s) = (r, st) ->
    serve s {| state := st;
               busy := busy s ++ match r with Working provider n _ => [(provider, n)] | _ => [] end |}
| serve_finish s before provider n after duration answer st :
    busy s = before ++ (provider, n) :: after ->
    finish provider n duration (state s) = (answer, st) ->
    serve s {| state := st; busy := before ++ after |}.

(** ** The tracker *)

Record Tracker := {
  enqueued : list (Z * Q); starts : list (Z * Z); first_start : list (Z * Q);
  last_start : list (Z * Q); completions : list (Z * Z); first_completion : list (Z * Q);
  worker_counts : list (str * Z) }.
Definition no_work : Tracker := {|
  enqueued := []; starts := []; first_start := []; last_start := []; completions := [];
  first_completion := []; worker_counts := [] |}.
(** HINCRBY key field 1, HSETNX and HSET *)
Definition hincrby {K} (eqb : K -> K -> bool) (h : list (K * Z)) (field : K) : list (K * Z) :=
  dict_set eqb h field (default 0 (dict_get eqb h field) + 1).
Definition hsetnx {V} (h : list (Z * V)) (field : Z) (v : V) : list (Z * V) :=
  dict_setdefault Z.eqb h field v.
Definition hset {V} (h : list (Z * V)) (field : Z) (v : V) : list (Z * V) := dict_set Z.eqb h field v.
Definition record_start (run_id : Z) (worker_id : str) (now : Q) (t : Tracker) : Tracker := {|
  enqueued := enqueued t; starts := hincrby Z.eqb (starts t) run_id;
  first_start := hsetnx (first_start t) run_id now; last_start := hset (last_start t) run_id now;
  completions := completions t; first_completion := first_completion t;
  worker_counts := hincrby str_eqb (worker_counts t) worker_id |}.
Definition record_completion (run_id : Z) (now : Q) (t : Tracker) : Tracker := {|
  enqueued := enqueued t; starts := starts t; first_start := first_start t;
  last_start := last_start t; completions := hincrby Z.eqb (completions t) run_id;
  first_completion := hsetnx (first_completion t) run_id now; worker_counts := worker_counts t |}.
Definition record_enqueued (run_id : Z) (now : Q) (t : Tracker) : Tracker := {|
  enqueued := hset (enqueued t) run_id now; starts := starts t; first_start := first_start t;
  last_start := last_start t; completions := completions t;
  first_completion := first_completion t; worker_counts := worker_counts t |}.
Inductive tracked :=
| Enqueued (run_id : Z) (now : Q)
| Started (run_id : Z) (worker_id : str) (now : Q)
| Completed (run_id : Z) (now : Q).
Definition track (t : Tracker) (e : tracked) : Tracker :=
  match e with
  | Enqueued run_id now => record_enqueued run_id now t
  | Started run_id worker_id now => record_start run_id worker_id now t
  | Completed run_id now => record_completion run_id now t
  end.

(** ** The coordinator *)

Record CoordinatorArgs := {
  jobs : Z; victim_run_id : Z; start_slo : Q; completion_slo : Q }.
Definition at_item (h : list (Z * Q)) (item : Z) : outcome Q :=
  match dict_get Z.eqb h item with Some t => Ok t | None => Raise (KeyError (str_of_Z item)) end.
(** [times[item] - enqueued[item] for item in expected] *)
Definition waits (times enqueued : list (Z * Q)) : outcome (list Q) :=
  omap_list (fun '(item, at_enqueue) =>
    let! t := at_item times item in Ok (rounded (t - at_enqueue))) enqueued.
Definition empty_sequence {A} : outcome A := Raise (ValueError (u "max() or min() of an empty sequence")).
Definition Qmin2 (a b : Q) : Q := if Qle_bool a b then a else b.
Definition Qmax2 (a b : Q) : Q := if Qle_bool b a then a else b.
Definition extreme (choose : Q -> Q -> Q) (h : list (Z * Q)) : outcome Q :=
  match map snd h with [] => empty_sequence | t :: ts => Ok (fold_left choose ts t) end.
Definition attained (slo : Q) (l : list Q) : Z :=
  Z.of_nat (length (List.filter (fun x => Qle_bool x slo) l)).
Definition ZeroDivisionError {A} : outcome A := Raise (OtherException (u "ZeroDivisionError")).
(** round(100 * attained / jobs, 6) *)
Definition attainment (slo : Q) (l : list Q) (jobs : Z) : outcome Q :=
  if jobs =? 0 then ZeroDivisionError
  else Ok (round6 (rounded (inject_Z (100 * attained slo l) / inject_Z jobs))).
Definition moment (t : Q) : outcome str :=
  let us := half_even (Qnum t * 1000000) (Zpos (Qden t)) in
  if in_datetime_range us then Ok (utc_timestamp us)
  else Raise (ValueError (u "year is out of range")).
Record CoordinatorResult := {
  cr_started_at : str; cr_completed_at : str; cr_observed : Q; cr_completed_jobs : Z;
  cr_duplicates : Z; cr_lost : Z; cr_drained : bool; cr_exactly_once : bool;
  cr_retried : Z; cr_max_starts : Z; cr_start : list Q; cr_completion : list Q;
  cr_victim_recovery : Q; cr_start_slo : Q; cr_completion_slo : Q; cr_throughput : Q }.
(** What run_coordinator returns when the queue has drained *)
Definition coordinator_result (args : CoordinatorArgs) (t : Tracker) (pending processing : Z)
  : outcome CoordinatorResult :=
  let lost := List.filter (fun e => negb (dict_has Z.eqb (first_completion t) (fst e))) (enqueued t) in
  let duplicates := fold_left Z.add (map (fun c => Z.max 0 (snd c - 1)) (completions t)) 0 in
  let! start := waits (first_start t) (enqueued t) in
  let! completion := waits (first_completion t) (enqueued t) in
  let! last := extreme Qmax2 (first_completion t) in
  let! first := extreme Qmin2 (enqueued t) in
  let observed := rounded (last - first) in
  let! started_at := moment first in
  let! completed_at := moment last in
  let! max_starts := match map snd (starts t) with
                     | [] => empty_sequence
                     | n :: ns => Ok (fold_left Z.max ns n) end in
  let! victim_last := at_item (last_start t) (victim_run_id args) in
  let! victim_first := at_item (first_start t) (victim_run_id args) in
  let! start_attained := attainment (start_slo args) start (jobs args) in
  let! completion_attained := attainment (completion_slo args) completion (jobs args) in
  if Qeq_bool observed 0 then ZeroDivisionError else
  Ok {| cr_started_at := started_at; cr_completed_at := completed_at; cr_observed := round6 observed;
        cr_completed_jobs := Z.of_nat (length (first_completion t)); cr_duplicates := duplicates;
        cr_lost := Z.of_nat (length lost); cr_drained := (pending =? 0) && (processing =? 0);
        cr_exactly_once := bool_decide (lost = []) && (duplicates =? 0);
        cr_retried := Z.of_nat (length (List.filter (fun c => 1 <? snd c) (starts t)));
        cr_max_starts := max_starts;
        cr_start := map (fun p => round6 (nearest_rank start p)) [50; 95; 99];
        cr_completion := map (fun p => round6 (nearest_rank completion p)) [50; 95; 99];
        cr_victim_recovery := round6 (rounded (victim_last - victim_first));
        cr_start_slo := start_attained; cr_completion_slo := completion_attained;
        cr_throughput := round6 (rounded (inject_Z (jobs args) / observed)) |}.
Definition percentiles_json (prefix : string) (l : list Q) : list (str * json) :=
  zip (map (fun p => u prefix ++ u p) ["_p50"; "_p95"; "_p99"]%string) (map JFloat l).
Definition result_json (args : CoordinatorArgs) (t : Tracker) (r : CoordinatorResult) : json := JObj [
  (u "schema_version", JInt 1); (u "started_at", JStr (cr_started_at r));
  (u "completed_at", JStr (cr_completed_at r)); (u "observed_duration_seconds", JFloat (cr_observed r));
  (u "jobs", JInt (jobs args)); (u "completed_jobs", JInt (cr_completed_jobs r));
  (u "duplicate_completions", JInt (cr_duplicates r)); (u "lost_jobs", JInt (cr_lost r));
  (u "queue_drained", JBool (cr_drained r)); (u "exactly_once", JBool (cr_exactly_once r));
  (u "worker_counts", JObj (map (fun c => (fst c, JInt (snd c))) (worker_counts t)));
  (u "start_counts", JObj [(u "retried_jobs", JInt (cr_retried r)); (u "maximum", JInt (cr_max_starts r))]);
  (u "latency_seconds", JObj (percentiles_json "start" (cr_start r)
     ++ percentiles_json "completion" (cr_completion r)
     ++ [(u "victim_recovery", JFloat (cr_victim_recovery r))]));
  (u "slo_attainment_percent", JObj [(u "start", JFloat (cr_start_slo r));
                                     (u "completion", JFloat (cr_completion_slo r))]);
  (u "throughput_jobs_per_second", JFloat (cr_throughput r))].
(** The exit status of the coordinator *)
Definition exit_status (r : CoordinatorResult) : Z := if cr_exactly_once r && cr_drained r then 0 else 1.

(** ** Percentiles are nearest ranks *)

Lemma Qceiling_unique (q : Q) (k : Z) : (inject_Z (k - 1) < q)%Q -> (q <= inject_Z k)%Q -> Qceiling q = k.
Proof.
  intros Hl Hu. assert (k - 1 < Qceiling q).
  { rewrite Zlt_Qlt. eapply Qlt_le_trans; [exact Hl|]. apply Qle_ceiling. }
  assert (Qceiling q <= k); [|lia].
  rewrite <-(Qceiling_Z k). by apply Qceiling_resp_le.
Qed.
Lemma rank_spec (m : Z) : 0 < m <= 2 ^ 44 ->
  Qceiling (rounded (Qred (inject_Z m / 100))) = (m + 99) / 100.
Proof.
  intros Hm. pose proof (Z.div_mod m 100 ltac:(lia)) as Hd. pose proof (Z.mod_pos_bound m 100 ltac:(lia)) as Hr.
  set (k := m / 100) in *. set (r := m mod 100) in *.
  destruct (decide (r = 0)) as [H0|H0].
  - assert (Qred (inject_Z m / 100) = inject_Z k) as ->.
    { transitivity (Qred (inject_Z k)); [|by rewrite <-(Qcanon.Qred_identity (inject_Z k)) at 2; [|apply Z.gcd_1_r]].
      apply Qred_complete. rewrite Hd, H0. unfold Qeq, Qdiv, Qmult. cbn. lia. }
    rewrite (Qceiling_comp _ _ (rounded_Z k ltac:(lia))), Qceiling_Z.
    rewrite Hd, H0. replace (100 * k + 0 + 99) with (99 + k * 100) by lia.
    by rewrite Z.div_add, Z.div_small by lia.
  - replace ((m + 99) / 100) with (k + 1).
    2:{ rewrite Hd. replace (100 * k + r + 99) with ((r - 1) + (k + 1) * 100) by lia.
        rewrite Z.div_add, Z.div_small by lia. lia. }
    set (q := Qred (inject_Z m / 100)).
    assert (Hq : (q == m # 100)%Q) by (unfold q; rewrite Qred_correct; unfold Qeq; cbn; lia).
    assert (Herr : (Qabs.Qabs (rounded q - q) <= 1 # 128)%Q).
    { eapply Qle_trans; [apply rounded_error|]. rewrite Hq.
      rewrite Qabs.Qabs_pos by (unfold Qle; cbn; lia).
      apply (Qle_trans _ ((1 # 256) + (1 # 256))); [|by vm_compute].
      apply Qplus_le_compat; [|by vm_compute].
      apply (Qle_trans _ ((2 ^ 44 # 100) * two_to (-53))); [|by vm_compute].
      apply Qmult_le_compat_r; [unfold Qle; cbn; lia|apply Qlt_le_weak, two_to_pos]. }
    apply Qabs.Qabs_Qle_condition in Herr as [Hlo Hhi].
    assert (Hl : (inject_Z k + (1 # 100) <= q)%Q) by (rewrite Hq; unfold Qle; cbn; lia).
    assert (Hu : (q <= inject_Z k + (99 # 100))%Q) by (rewrite Hq; unfold Qle; cbn; lia).
    apply Qceiling_unique.
    + replace (k + 1 - 1) with k by lia. lra.
    + rewrite inject_Z_plus. change (inject_Z 1) with 1%Q. lra.
Qed.

Definition how_many (P : Q -> bool) (l : list Q) : Z := Z.of_nat (length (List.filter P l)).
Lemma how_many_perm P l l' : l ≡ₚ l' -> how_many P l = how_many P l'.
Proof.
  intros Hl. unfold how_many. f_equal.
  induction Hl as [|x l l' _ IH|x y l|l1 l2 l3 _ IH1 _ IH2]; cbn; [done| | |congruence].
  - destruct (P x); cbn; congruence.
  - by destruct (P x), (P y).
Qed.
Lemma how_many_app P l l' : how_many P (l ++ l') = how_many P l + how_many P l'.
Proof. unfold how_many. rewrite List.filter_app, length_app. lia. Qed.
Lemma how_many_all P l : Forall (fun x => P x = true) l -> how_many P l = Z.of_nat (length l).
Proof. unfold how_many. induction 1 as [|x l Hx _ IH]; [done|]. cbn. rewrite Hx. cbn [length]. lia. Qed.
Lemma how_many_none P l : Forall (fun x => P x = false) l -> how_many P l = 0.
Proof. unfold how_many. induction 1 as [|x l Hx _ IH]; [done|]. cbn. by rewrite Hx. Qed.
Lemma how_many_bounds P l : 0 <= how_many P l <= Z.of_nat (length l).
Proof. unfold how_many. pose proof (List.filter_length_le P l). lia. Qed.

Lemma Qle_bool_total x y : Qle_bool x y = false -> Qle_bool y x = true.
Proof.
  intros H. apply Qle_bool_iff. destruct (Qlt_le_dec y x) as [Hl|Hl]; [by apply Qlt_le_weak|].
  apply Qle_bool_iff in Hl. congruence.
Qed.
Lemma Qle_bool_trans x y z : Qle_bool x y = true -> Qle_bool y z = true -> Qle_bool x z = true.
Proof. rewrite !Qle_bool_iff. apply Qle_trans. Qed.
Definition below (v x : Q) : bool := negb (Qle_bool v x).
(** The sorted values around the one of a rank *)
Lemma split_sorted (values : list Q) (i : nat) : (i < length values)%nat ->
  exists before after, py_sorted Qle_bool values = before ++ nth i (py_sorted Qle_bool values) 0%Q :: after
    /\ length before = i
    /\ Forall (fun x => Qle_bool x (nth i (py_sorted Qle_bool values) 0%Q) = true) before
    /\ Forall (fun x => below (nth i (py_sorted Qle_bool values) 0%Q) x = false) after.
Proof.
  pose proof (py_sorted_perm Qle_bool values) as Hp. apply Permutation_length in Hp as Hlen.
  pose proof (py_sorted_sorted Qle_bool Qle_bool_total Qle_bool_trans values) as Hs.
  intros Hi. destruct (nth_split (py_sorted Qle_bool values) 0%Q (n := i) ltac:(lia))
    as (before & after & He & Hb).
  set (v := nth i _ _) in *. rewrite He in Hs. exists before, after. split_and!; [done..| |].
  - apply Forall_forall. intros x Hx. eapply (StronglySorted_app_1_elem_of _ _ _ x v Hs); [done|by left].
  - apply StronglySorted_app_1_r, StronglySorted_cons in Hs as [Hs _].
    eapply Forall_impl; [exact Hs|]. intros x Hx. unfold below. by rewrite Hx.
Qed.
(** The percentile of a sample is its nearest rank, for every percentage and any sample of
    up to a billion durations, although the rank goes through a division of floats: it is one
    of the values, at least so many percent of the values do not exceed it, and fewer lie
    below it. *)
Theorem nearest_rank_spec values percentage
  (Hv : values <> []) (Hlen : Z.of_nat (length values) <= 1000000000)
  (Hp : 1 <= percentage <= 100) :
  let v := nearest_rank values percentage in
  v ∈ values
  /\ percentage * Z.of_nat (length values) <= 100 * how_many (fun x => Qle_bool x v) values
  /\ 100 * how_many (below v) values < percentage * Z.of_nat (length values).
Proof.
  assert (Hn : (0 < length values)%nat) by (destruct values; [done|cbn; lia]).
  cbv zeta. replace (nearest_rank values percentage) with (ranked values percentage) by by destruct values.
  unfold ranked, rank. rewrite rank_spec by nia.
  set (n := Z.of_nat (length values)) in *. set (r := (n * percentage + 99) / 100).
  pose proof (Z.div_mod (n * percentage + 99) 100 ltac:(lia)) as Hd.
  pose proof (Z.mod_pos_bound (n * percentage + 99) 100 ltac:(lia)) as Hm. fold r in Hd.
  assert (Hr : 1 <= r <= n) by nia.
  destruct (split_sorted values (Z.to_nat (r - 1)) ltac:(lia)) as (before & after & He & Hb & Hle & Hge).
  set (v := nth (Z.to_nat (r - 1)) _ _) in *. pose proof (py_sorted_perm Qle_bool values) as Hperm.
  split_and!.
  - rewrite <-Hperm, He. apply elem_of_app. right. by left.
  - rewrite <-(how_many_perm _ _ _ Hperm), He, how_many_app, (how_many_all _ before Hle).
    change (v :: after) with ([v] ++ after). rewrite how_many_app, (how_many_all _ [v]).
    + pose proof (how_many_bounds (fun x => Qle_bool x v) after). cbn [length]. lia.
    + repeat constructor. apply Qle_bool_iff, Qle_refl.
  - rewrite <-(how_many_perm _ _ _ Hperm), He, how_many_app.
    change (v :: after) with ([v] ++ after). rewrite how_many_app, (how_many_none _ after Hge), (how_many_none _ [v]).
    + pose proof (how_many_bounds (below v) before). lia.
    + repeat constructor. unfold below. apply negb_false_iff, Qle_bool_iff, Qle_refl.
Qed.

(** ** The audit counts the requests *)

Section provider_facts.
Context {U : UnicodeDb} {NF : Nfkc} {R : Repr}.

(** The numbers of the requests to a provider that are not answered yet *)
Definition unanswered (provider : str) (s : Server) : list Z :=
  map snd (List.filter (fun request => str_eqb (fst request) provider) (busy s)).
Definition accounted (s : Server) : Prop :=
  NoDup (map fst (statuses (state s)))
  /\ forall provider,
       0 <= number (request_numbers (state s)) provider
       /\ entries (statuses (state s)) provider ++ map status_of (unanswered provider s)
          ≡ₚ map status_of (seqZ 1 (number (request_numbers (state s)) provider)).
Lemma number_set d provider n p :
  number (dict_set str_eqb d provider n) p = if str_eqb p provider then n else number d p.
Proof. unfold number. rewrite dict_get_set by apply str_eqb_eq. by destruct (str_eqb p provider). Qed.
Lemma entries_set {A} d provider (l : list A) p :
  entries (dict_set str_eqb d provider l) p = if str_eqb p provider then l else entries d p.
Proof. unfold entries. rewrite dict_get_set by apply str_eqb_eq. by destruct (str_eqb p provider). Qed.
Lemma str_eqb_sym a b : str_eqb a b = str_eqb b a.
Proof. apply eq_true_iff_eq. rewrite !str_eqb_eq. by split. Qed.
Lemma unanswered_app provider s l l' : busy s = l ++ l' ->
  unanswered provider s = unanswered provider {| state := state s; busy := l |}
                          ++ unanswered provider {| state := state s; busy := l' |}.
Proof. unfold unanswered. intros ->. cbn. by rewrite List.filter_app, map_app. Qed.

Lemma do_GET_cases target st r st' : do_GET target st = (r, st') ->
  (st' = st /\ forall p n l, r <> Working p n l)
  \/ exists provider n latency, r = Working provider n latency /\ reserve provider st = (n, st').
Proof.
  unfold do_GET. destruct (str_eqb _ _); [intros [= <- <-]; by left|].
  destruct (str_eqb _ _); [intros [= <- <-]; by left|].
  destruct (provider_of _) as [provider|e]; [|intros [= <- <-]; by left].
  destruct (dict_get _ _ _) as [latency|]; [|intros [= <- <-]; by left].
  destruct (reserve provider st) as [n st1] eqn:E. intros [= <- <-]. right. by exists provider, n, latency.
Qed.
Lemma serve_accounted s s' : serve s s' -> accounted s -> accounted s'.
Proof.
  intros Hs [Hnd Ha]. destruct Hs as [s target r st E|s before provider n after duration answer st Hb E].
  - destruct (do_GET_cases _ _ _ _ E) as [[-> Hr]|(provider & n & latency & -> & E')].
    + assert (match r with Working provider n _ => [(provider, n)] | _ => [] end = []) as ->.
      { destruct r as [| p n l|]; [done| |done]. by destruct (Hr p n l). }
      rewrite app_nil_r. by destruct s.
    + injection E' as <- <-. split; [done|]. intros p. cbn [state request_numbers statuses].
      rewrite number_set. destruct (Ha p) as [Hn Hp]. unfold unanswered in *. cbn [busy].
      rewrite List.filter_app, !map_app. cbn [List.filter fst]. rewrite (str_eqb_sym provider p).
      destruct (str_eqb p provider) eqn:Ep; [|by rewrite app_nil_r].
      apply str_eqb_eq in Ep as ->. split; [lia|]. cbn [map snd].
      rewrite app_assoc, Hp. set (m := number _ _) in *.
      replace (m + 1) with (Z.of_nat (S (Z.to_nat m))) by lia.
      rewrite seqZ_S, map_app, Z2Nat.id by lia. cbn [map app]. by replace (Z.of_nat (S (Z.to_nat m))) with (1 + m) by lia.
  - injection E as _ <-. split; [by apply dict_set_NoDup|]. intros p. cbn [state record request_numbers statuses].
    rewrite entries_set. destruct (Ha p) as [Hn Hp]. split; [done|]. rewrite <-Hp.
    unfold unanswered. rewrite Hb. cbn [busy]. rewrite !List.filter_app, !map_app. cbn [List.filter fst].
    rewrite (str_eqb_sym provider p). destruct (str_eqb p provider) eqn:Ep; [|done].
    apply str_eqb_eq in Ep as ->. cbn [map snd]. rewrite <-app_assoc. apply Permutation_app_head.
    cbn [map app]. apply Permutation_middle.
Qed.
Lemma reached_accounted latencies s : rtc serve (fresh latencies) s -> accounted s.
Proof.
  intros H. assert (accounted (fresh latencies)) as H0 by (split; [constructor|done]).
  revert H0. induction H as [s|s1 s2 s3 Hs _ IH]; [done|]. intros H1. by apply IH, (serve_accounted s1).
Qed.

Lemma count_perm status l l' : l ≡ₚ l' -> count status l = count status l'.
Proof.
  intros H. unfold count. f_equal.
  induction H as [|x l l' _ IH|x y l|l1 l2 l3 _ IH1 _ IH2]; cbn [List.filter]; [done| | |congruence].
  - destruct (status =? x); cbn; congruence.
  - by destruct (status =? x), (status =? y).
Qed.
(** The statuses of the first n requests *)
Lemma count_statuses (n : nat) :
  let l := map status_of (seqZ 1 (Z.of_nat n)) in
  count TOO_MANY_REQUESTS l = (if (0 <? n)%nat then 1 else 0)
  /\ count SERVICE_UNAVAILABLE l = (if (1 <? n)%nat then 1 else 0)
  /\ count OK l = Z.max 0 (Z.of_nat n - 2) /\ length l = n.
Proof.
  cbv zeta. induction n as [|n (IH1 & IH2 & IH3 & IH4)]; [done|].
  rewrite seqZ_S, map_app. unfold count in *. rewrite !List.filter_app, !length_app. cbn [map List.filter].
  assert (Hs : status_of (1 + Z.of_nat n)
               = if (n =? 0)%nat then TOO_MANY_REQUESTS else if (n =? 1)%nat then SERVICE_UNAVAILABLE else OK).
  { destruct n as [|[|n]]; [reflexivity..|]. unfold status_of.
    destruct (Z.eqb_spec (1 + Z.of_nat (S (S n))) 1); [lia|].
    destruct (Z.eqb_spec (1 + Z.of_nat (S (S n))) 2); [lia|reflexivity]. }
  rewrite Hs. destruct n as [|[|n]]; [by vm_compute| |].
  - cbn [Nat.eqb]. split_and!; vm_compute; done.
  - cbn [Nat.eqb Nat.ltb Nat.leb] in *. unfold OK, TOO_MANY_REQUESTS, SERVICE_UNAVAILABLE in *.
    cbn [Z.eqb Pos.eqb length] in *. split_and!; lia.
Qed.

Lemma count_here (d : list (str * json)) k z n :
  dict_get str_eqb d k = Some (JInt z) -> count_at (JObj d) [k] n -> n = z.
Proof. intros Hd (v & Hv & Hn). cbn in Hv. rewrite Hd in Hv. injection Hv as <-. by injection Hn. Qed.

(** The audit of the synthetic provider, whatever requests came and in whatever order the
    threads answered them: when the requests to a provider have been answered, its entry has
    all of them, one rate limit and one transient failure if there were two; and the verifier
    of soak evidence takes the failures for exercised exactly when four requests were made. *)
Theorem provider_audit_spec latencies s provider
  (Hreach : rtc serve (fresh latencies) s) (Hidle : unanswered provider s = [])
  (Hsome : 0 < number (request_numbers (state s)) provider) :
  let n := number (request_numbers (state s)) provider in
  exists d entry, audit (state s) = JObj d /\ dict_get str_eqb d provider = Some entry
    /\ count_at entry [u "requests"] n
    /\ count_at entry [u "rate_limit_responses"] 1
    /\ count_at entry [u "transient_failures"] (if n =? 1 then 0 else 1)
    /\ forall label p, parse_provider entry label = Ok p ->
         provider_exercised p = true <-> 4 <= n.
Proof.
  destruct (reached_accounted _ _ Hreach) as [Hnd Ha]. destruct (Ha provider) as [_ Hp].
  rewrite Hidle, app_nil_r in Hp. cbv zeta. set (n := number _ _) in *.
  destruct (count_statuses (Z.to_nat n)) as (H1 & H2 & H3 & H4). rewrite Z2Nat.id in * by lia.
  rewrite <-!(count_perm _ _ _ Hp) in *. rewrite <-(Permutation_length Hp) in H4.
  set (l := entries (statuses (state s)) provider) in *.
  assert (Hin : (provider, l) ∈ statuses (state s)).
  { unfold l, entries in *. destruct (dict_get str_eqb (statuses (state s)) provider) as [l0|] eqn:E.
    - apply list_elem_of_In. by apply dict_get_Some_In in E; [|apply str_eqb_eq].
    - cbn in H4. lia. }
  eexists _, (audit_entry l (entries (durations (state s)) provider)). split; [reflexivity|].
  replace (0 <? Z.to_nat n)%nat with true in H1 by (symmetry; apply Nat.ltb_lt; lia).
  assert (H2' : count SERVICE_UNAVAILABLE l = if n =? 1 then 0 else 1).
  { rewrite H2. destruct (Nat.ltb_spec 1 (Z.to_nat n)), (Z.eqb_spec n 1); lia. }
  split_and!.
  - apply dict_get_NoDup.
    + rewrite map_map. replace (map _ (py_sorted by_name (statuses (state s))))
        with (map fst (py_sorted by_name (statuses (state s)))) by (apply map_ext; by intros []).
      by rewrite (Permutation_map fst (py_sorted_perm by_name (statuses (state s)))).
    + apply list_elem_of_In. apply in_map_iff. exists (provider, l). split; [done|].
      apply list_elem_of_In. by rewrite (py_sorted_perm by_name).
  - eexists. split; [reflexivity|]. by rewrite H4, Z2Nat.id by lia.
  - eexists. split; [reflexivity|]. by rewrite H1.
  - eexists. split; [reflexivity|]. by rewrite H2'.
  - intros label p Hparse. apply parse_provider_Ok in Hparse as [(_ & _ & _ & Hr & Ht & Hs) _].
    apply (count_here _ _ (count TOO_MANY_REQUESTS l)) in Hr; [|reflexivity].
    apply (count_here _ _ (count SERVICE_UNAVAILABLE l)) in Ht; [|reflexivity].
    apply (count_here _ _ (Z.min 2 (count OK l))) in Hs; [|reflexivity].
    unfold provider_exercised. rewrite Hr, Ht, Hs, H1, H2', H3.
    rewrite !andb_true_iff, !Z.leb_le, Z.eqb_eq. destruct (Z.eqb_spec n 1); lia.
Qed.
End provider_facts.

(** ** The verdict of the coordinator *)

Definition completions_of (id : Z) (events : list tracked) : Z :=
  Z.of_nat (length (List.filter (fun e => match e with Completed r _ => r =? id | _ => false end) events)).
Lemma completions_snoc id events e : completions_of id (events ++ [e])
  = completions_of id events + match e with Completed r _ => if r =? id then 1 else 0 | _ => 0 end.
Proof.
  unfold completions_of. rewrite List.filter_app, length_app. cbn [List.filter].
  destruct e as [|? ? ?|r now]; cbn [length]; [lia..|]. destruct (r =? id); cbn [length]; lia.
Qed.
Record tracks (events : list tracked) (t : Tracker) : Prop := {
  tk_completions id : default 0 (dict_get Z.eqb (completions t) id) = completions_of id events;
  tk_completed id : dict_has Z.eqb (first_completion t) id = (0 <? completions_of id events);
  tk_known : NoDup (map fst (completions t));
  tk_enqueued id now : In (Enqueued id now) events -> In id (map fst (enqueued t)) }.
Lemma dict_has_setdefault {V} (d : list (Z * V)) k v id :
  dict_has Z.eqb (dict_setdefault Z.eqb d k v) id = (dict_has Z.eqb d id || (id =? k)).
Proof.
  unfold dict_setdefault, dict_has. destruct (dict_get Z.eqb d k) as [x|] eqn:E.
  - destruct (Z.eqb_spec id k) as [->|]; [by rewrite E|by rewrite orb_false_r].
  - induction d as [|[k' v'] d IH]; cbn [app dict_get] in *; [by destruct (id =? k)|].
    destruct (k =? k') eqn:Ek; [done|]. destruct (id =? k'); [done|]. by apply IH.
Qed.
Lemma hset_keys {V} (d : list (Z * V)) k v id :
  In id (map fst (hset d k v)) <-> In id (map fst d) \/ id = k.
Proof.
  assert (Hk : forall a b : Z, (a =? b) = true <-> a = b) by apply Z.eqb_eq.
  pose proof (dict_get_None Z.eqb Hk (hset d k v) id) as H1. pose proof (dict_get_None Z.eqb Hk d id) as H2.
  unfold hset in *. rewrite (dict_get_set Z.eqb Hk) in H1.
  destruct (Z.eqb_spec id k) as [->|Hne]; [|destruct (dict_get Z.eqb d id)].
  - split; [tauto|]. intros _. destruct (in_dec Z.eq_dec k (map fst (dict_set Z.eqb d k v))) as [|Hn]; [done|].
    apply H1 in Hn. done.
  - destruct (in_dec Z.eq_dec id (map fst d)), (in_dec Z.eq_dec id (map fst (dict_set Z.eqb d k v)));
      tauto || (exfalso; intuition congruence).
  - destruct H1 as [H1 _], H2 as [H2 _]. specialize (H1 eq_refl). specialize (H2 eq_refl). tauto.
Qed.
Lemma dict_set_NoDup_Z {V} (d : list (Z * V)) k v :
  NoDup (map fst d) -> NoDup (map fst (dict_set Z.eqb d k v)).
Proof.
  induction d as [|[k' v'] d IH]; cbn; [intros _; apply NoDup_singleton|].
  intros [Hn Hd]%NoDup_cons. destruct (Z.eqb_spec k k') as [->|Hne]; cbn; apply NoDup_cons; [done|].
  split; [|by apply IH]. intros Hin. apply Hn. apply list_elem_of_In in Hin.
  apply (hset_keys d k v) in Hin as [Hin|Hin]; [by apply list_elem_of_In|congruence].
Qed.
Lemma track_tracks events t e : tracks events t -> tracks (events ++ [e]) (track t e).
Proof.
  intros [Hc Hd Hn He]. split.
  - intros id. rewrite completions_snoc.
    destruct e as [r now|r worker now|r now]; cbn [track completions record_enqueued record_start record_completion];
      [by rewrite Hc; lia..|].
    unfold hincrby. rewrite dict_get_set by apply Z.eqb_eq. rewrite (Z.eqb_sym r id).
    destruct (Z.eqb_spec id r) as [->|]; [cbn; by rewrite Hc|by rewrite Hc; lia].
  - intros id. rewrite completions_snoc.
    destruct e as [r now|r worker now|r now];
      cbn [track first_completion record_enqueued record_start record_completion];
      [by rewrite Hd, Z.add_0_r..|].
    unfold hsetnx. rewrite dict_has_setdefault, Hd, (Z.eqb_sym r id).
    assert (0 <= completions_of id events) by (unfold completions_of; lia).
    destruct (Z.eqb_spec id r), (Z.ltb_spec 0 (completions_of id events));
      symmetry; cbn [orb]; first [apply Z.ltb_lt; lia|apply Z.ltb_ge; lia].
  - destruct e; cbn [track completions record_enqueued record_start record_completion];
      [done..|by apply dict_set_NoDup_Z].
  - intros id now Hin. apply in_app_or in Hin as [Hin|[->|[]]];
      [|cbn [track enqueued record_enqueued]; apply hset_keys; by right].
    specialize (He id now Hin). destruct e; cbn [track enqueued record_enqueued record_start record_completion];
      [apply hset_keys; by left|done..].
Qed.
Lemma tracker_tracks events : tracks events (fold_left track events no_work).
Proof.
  induction events as [|e events IH] using rev_ind; [split; [done..|constructor|done]|].
  rewrite fold_left_app. by apply track_tracks.
Qed.
Lemma sum_zero (l : list (Z * Z)) acc : 0 <= acc ->
  fold_left Z.add (map (fun c => Z.max 0 (snd c - 1)) l) acc = 0 <->
  acc = 0 /\ forall c, In c l -> snd c <= 1.
Proof.
  revert acc. induction l as [|c l IH]; intros acc Ha; cbn [map fold_left].
  - split; [intros ->; split; [done|by intros ? []]|tauto].
  - rewrite IH by lia. split.
    + intros [H0 H]. split; [lia|]. intros c' [<-|Hc]; [lia|auto].
    + intros [-> H]. split; [specialize (H c (or_introl eq_refl)); lia|intros c' Hc; apply H; by right].
Qed.
Lemma waits_known times enqueued l : waits times enqueued = Ok l ->
  forall id, In id (map fst enqueued) -> dict_has Z.eqb times id = true.
Proof.
  unfold waits. intros H id Hin. apply omap_list_Ok in H.
  apply in_map_iff in Hin as ([id' t] & <- & Hin). cbn.
  apply list_elem_of_In in Hin. apply list_elem_of_lookup in Hin as (i & Hi).
  destruct (Forall2_lookup_l _ _ _ _ _ H Hi) as (x & _ & Hx). cbn in Hx.
  apply obind_Ok in Hx as (t' & Ht & _). unfold at_item in Ht. unfold dict_has.
  by destruct (dict_get Z.eqb times id').
Qed.

(** C40: What the coordinator's exit status says about what the workers did, whatever they did:
    when it has results, every job that was enqueued has been completed, none is reported
    lost, and the status is 0 exactly when no completion was recorded twice and the queue had
    been drained.  A completion is recorded each time its script is applied: a worker whose
    reply was lost applies it again (RedisTracker.retry), which counts as a second one. *)
Theorem coordinator_exactly_once args events pending processing r
  (Hresult : coordinator_result args (fold_left track events no_work) pending processing = Ok r) :
  cr_lost r = 0
  /\ (forall id now, In (Enqueued id now) events -> 1 <= completions_of id events)
  /\ (exit_status r = 0 <->
      (forall id, completions_of id events <= 1) /\ pending = 0 /\ processing = 0).
Proof.
  pose proof (tracker_tracks events) as [Hc Hd Hn He]. set (t := fold_left track events no_work) in *.
  unfold coordinator_result in Hresult.
  apply obind_Ok in Hresult as (start & _ & H). apply obind_Ok in H as (completion & Hw & H).
  pose proof (waits_known _ _ _ Hw) as Hknown.
  do 9 apply obind_Ok in H as (? & _ & H). destruct (Qeq_bool _ _); [discriminate H|]. injection H as <-.
  assert (Hlost : List.filter (fun e => negb (dict_has Z.eqb (first_completion t) (fst e))) (enqueued t) = []).
  { destruct (List.filter _ _) as [|e l] eqn:E; [done|].
    assert (In e (e :: l)) as Hin by by left. rewrite <-E in Hin. apply filter_In in Hin as [Hin Hf].
    rewrite Hknown in Hf; [done|]. by apply in_map. }
  unfold exit_status. cbn [cr_lost cr_exactly_once cr_drained]. rewrite Hlost. cbn [length].
  split; [done|]. split.
  - intros id now Hin. specialize (Hknown id (He id now Hin)). rewrite Hd in Hknown.
    apply Z.ltb_lt in Hknown. lia.
  - rewrite bool_decide_eq_true_2 by done. cbn [andb].
    transitivity (fold_left Z.add (map (fun c => Z.max 0 (snd c - 1)) (completions t)) 0 = 0
                  /\ pending = 0 /\ processing = 0).
    { set (s := fold_left _ _ 0).
      destruct (Z.eqb_spec s 0), (Z.eqb_spec pending 0), (Z.eqb_spec processing 0); cbn; lia. }
    rewrite sum_zero by lia. apply and_iff_compat_r. split.
    + intros [_ H] id. rewrite <-Hc. destruct (dict_get Z.eqb (completions t) id) as [n|] eqn:E; [|done].
      apply dict_get_Some_In in E; [|apply Z.eqb_eq]. exact (H _ E).
    + intros H. split; [done|]. intros [id n] Hin. specialize (H id). rewrite <-Hc in H.
      assert (dict_get Z.eqb (completions t) id = Some n) as E; [|by rewrite E in H].
      clear -Hn Hin. induction (completions t) as [|[k v] d IH]; [done|]. cbn in *.
      apply NoDup_cons in Hn as [Hk Hn]. destruct Hin as [[= -> ->]|Hin]; [by rewrite Z.eqb_refl|].
      destruct (Z.eqb_spec id k) as [->|]; [|by apply IH].
      destruct Hk. apply list_elem_of_In, in_map_iff. by exists (k, n).
Qed.

(** ** Examples *)

Example middle : nearest_rank [3; 1; 2; 4]%Q 50 = 2%Q /\ nearest_rank [3; 1; 2; 4]%Q 95 = 4%Q.
Proof. split; vm_compute; reflexivity. Qed.
Lemma nearest_rank_spec_witness : nearest_rank [3; 1; 2; 4]%Q 50 ∈ [3; 1; 2; 4]%Q.
Proof. refine (proj1 (nearest_rank_spec [3; 1; 2; 4]%Q 50 _ _ _)); [discriminate|done|lia]. Defined.

(** Requests to github, the third before the second is answered *)
Definition example_latencies : list (str * Q) := [(u "github", 1 # 10); (u "llm", 1 # 5)]%Q.
Definition received (s : Server) : Server :=
  let (r, st) := do_GET (U := ascii_db) (NF := plain_nfkc) (R := plain_repr) (u "/github?page=1") (state s) in
  {| state := st; busy := busy s ++ match r with Working p n _ => [(p, n)] | _ => [] end |}.
Definition answered_last (s : Server) : Server :=
  match rev (busy s) with
  | (p, n) :: rest => {| state := snd (finish p n (1 # 8) (state s)); busy := rev rest |}
  | [] => s
  end.
Abbreviation serves := (@serve ascii_db plain_nfkc plain_repr).
Lemma received_serves s : serves s (received s).
Proof.
  unfold received. destruct (do_GET _ (state s)) as [r st] eqn:E. by eapply serve_get.
Qed.
Lemma answered_serves s : rtc serves s (answered_last s).
Proof.
  unfold answered_last. destruct (rev (busy s)) as [|[p n] rest] eqn:E; [done|]. apply rtc_once.
  replace (rev rest) with (rev rest ++ []) by apply app_nil_r.
  eapply (serve_finish s (rev rest) p n []); [|reflexivity].
  by rewrite <-(rev_involutive (busy s)), E.
Qed.
Definition example_server : Server :=
  answered_last (answered_last (received (answered_last (answered_last (received
    (received (received (fresh example_latencies)))))))).
Lemma example_served : rtc serves (fresh example_latencies) example_server.
Proof.
  unfold example_server.
  repeat first [etrans; [|apply answered_serves]
               |eapply rtc_r; [|apply received_serves]].
  apply rtc_refl.
Defined.
Lemma provider_audit_spec_witness : exists entry,
  count_at entry [u "requests"] 4 /\ count_at entry [u "rate_limit_responses"] 1
  /\ forall label p, parse_provider entry label = Ok p -> provider_exercised p = true.
Proof.
  destruct (@provider_audit_spec ascii_db plain_nfkc plain_repr example_latencies example_server
    (u "github") example_served eq_refl eq_refl) as (d & entry & _ & _ & Hn & Hr & _ & Hx).
  exists entry. split; [exact Hn|]. split; [exact Hr|]. intros label p Hp. apply (Hx label p Hp).
  vm_compute. discriminate.
Defined.

Definition example_args : CoordinatorArgs :=
  {| jobs := 2; victim_run_id := 1; start_slo := 60; completion_slo := 120 |}.
Definition example_events : list tracked :=
  [Enqueued 1 1788220800; Started 1 (u "worker-1") 1788220801; Enqueued 2 1788220802;
   Started 2 (u "worker-2") 1788220803; Completed 2 1788220804;
   Started 1 (u "worker-2") 1788220805; Completed 1 1788220806]%Q.
Lemma coordinator_exactly_once_witness :
  match coordinator_result example_args (fold_left track example_events no_work) 0 0 with
  | Ok r => cr_lost r = 0 /\ exit_status r = 0
  | Raise _ => False
  end.
Proof.
  assert (Ho : match coordinator_result example_args (fold_left track example_events no_work) 0 0
               with Ok _ => true | Raise _ => false end = true) by (vm_compute; reflexivity).
  destruct (coordinator_result _ _ _ _) as [r|e] eqn:E; [|discriminate Ho].
  destruct (coordinator_exactly_once _ _ _ _ _ E) as (Hl & _ & Hx). split; [exact Hl|].
  apply Hx. split; [|split; reflexivity]. intros id. unfold completions_of, example_events.
  cbn [List.filter]. destruct (Z.eqb_spec 2 id), (Z.eqb_spec 1 id); cbn [length]; lia.
Defined.
(** A job that was lost is not reported: computing its latency fails first. *)
Example lost_job_crashes :
  coordinator_result example_args (fold_left track (take 4 example_events ++ [Completed 1 1788220804])%list no_work) 0 0
  = Raise (KeyError (u "2")).
Proof. vm_compute. reflexivity. Qed.
