(* ===== verification/ReplicaRecovery.v ===== *)
(** * The replica recovery drill (ops/worker/verify_replica_recovery.py)

    Worker replicas drain a load of synthetic jobs, one of which an abandoned worker had
    claimed: the arguments, what the jobs record while they are processed, and the verdict
    over these records. *)

From Stdlib Require Import QArith Qround.
From stdpp Require Import base list strings numbers.
From S2P Require Import Prelude Double Calendar Json Evidence Docker ContainerRuntime.

Set Default Proof Using "Type".

(** DrillError, a RuntimeError *)
Definition DrillError {A} (parts : list str) : outcome A := Raise (RuntimeError (concat parts)).

(** ** Arguments *)

Record Args := {
  jobs : Z; replicas : Z; lease_seconds : Z; heartbeat_seconds : limit;
  processing_seconds : limit; enqueue_rate_per_second : limit; burst_size : Z;
  start_slo_seconds : limit; completion_slo_seconds : limit; recovery_grace_seconds : limit;
  minimum_arrival_seconds : limit; redis_recovery_timeout_seconds : limit }.
Definition whole (z : Z) : float := inl (inject_Z z).
(** The truth of a number *)
Definition nonzero (x : float) : bool := match x with inl q => negb (Qeq_bool q 0) | inr _ => true end.
(** f"{x:.3f}" of a finite double *)
Definition pad3 (z : Z) : str := str_of_Z (z / 100) ++ str_of_Z (z / 10 mod 10) ++ str_of_Z (z mod 10).
Definition fixed3 (x : float) : str :=
  match x with
  | inl q =>
    let z := half_even (Z.abs (Qnum q) * 1000) (Zpos (Qden q)) in
    (if Qnum q <? 0 then u "-" else []) ++ str_of_Z (z / 1000) ++ u "." ++ pad3 (z mod 1000)
  | inr (Infinite negative) => if negative then u "-inf" else u "inf"
  | inr NaN => u "nan"
  end.
(** n / x *)
Definition divide (n : Z) (x : float) : float :=
  match x with
  | inl q => to_double (inject_Z n / q)
  | inr (Infinite _) => zero
  | inr NaN => inr NaN
  end.
Definition planned_arrival_seconds (args : Args) : float :=
  if negb (nonzero (limit_float (enqueue_rate_per_second args))) || (jobs args <=? 2) then zero
  else
    let burst := if burst_size args =? 0 then 1 else burst_size args in
    let shaped_jobs := jobs args - 1 in
    let batches := (shaped_jobs + burst - 1) / burst in
    let planned := divide ((batches - 1) * burst) (limit_float (enqueue_rate_per_second args)) in
    if float_ltb zero planned then planned else zero.
Definition positive_values (args : Args) : list (str * float) := [
  (u "jobs", whole (jobs args)); (u "replicas", whole (replicas args));
  (u "lease_seconds", whole (lease_seconds args)); (u "heartbeat_seconds", limit_float (heartbeat_seconds args));
  (u "processing_seconds", limit_float (processing_seconds args));
  (u "start_slo_seconds", limit_float (start_slo_seconds args));
  (u "completion_slo_seconds", limit_float (completion_slo_seconds args));
  (u "recovery_grace_seconds", limit_float (recovery_grace_seconds args))].
Definition validate_args (args : Args) : outcome unit :=
  let invalid := List.filter (fun v => float_leb (snd v) zero) (positive_values args) in
  match invalid with
  | _ :: _ => DrillError [u "arguments must be positive: "; str_join (u ", ") (map fst invalid)]
  | [] =>
    if float_leb (whole (lease_seconds args)) (limit_float (heartbeat_seconds args)) then
      DrillError [u "heartbeat must be shorter than the worker lease"]
    else if float_ltb (limit_float (completion_slo_seconds args)) (limit_float (start_slo_seconds args)) then
      DrillError [u "completion SLO must not be shorter than start SLO"]
    else if float_ltb (limit_float (enqueue_rate_per_second args)) zero then
      DrillError [u "enqueue rate must not be negative"]
    else if (burst_size args <? 0) || (jobs args <? burst_size args) then
      DrillError [u "burst size must be zero or no greater than jobs"]
    else if float_ltb (limit_float (minimum_arrival_seconds args)) zero then
      DrillError [u "minimum arrival duration must not be negative"]
    else if float_leb (limit_float (redis_recovery_timeout_seconds args)) zero then
      DrillError [u "Redis recovery timeout must be positive"]
    else
      let planned_arrival := planned_arrival_seconds args in
      if nonzero (limit_float (minimum_arrival_seconds args))
         && float_ltb planned_arrival (limit_float (minimum_arrival_seconds args)) then
        DrillError [u "planned arrival duration is shorter than the required minimum: ";
                    fixed3 planned_arrival; u "s < "; fixed3 (limit_float (minimum_arrival_seconds args)); u "s"]
      else Ok tt
  end.

(** ** What the jobs record *)

Record WorkTracker := {
  enqueued_at : list (Z * Q); started_at : list (Z * Q); completed_at : list (Z * Q);
  start_counts : list (Z * Z); completion_counts : list (Z * Z); worker_counts : list (str * Z) }.
Definition no_records : WorkTracker := {|
  enqueued_at := []; started_at := []; completed_at := []; start_counts := [];
  completion_counts := []; worker_counts := [] |}.
(** The two halves of process, around its sleep, each under the lock *)
Definition begin_process (run_id : Z) (worker_id : str) (now : Q) (t : WorkTracker) : WorkTracker := {|
  enqueued_at := enqueued_at t; started_at := hsetnx (started_at t) run_id now;
  completed_at := completed_at t; start_counts := hincrby Z.eqb (start_counts t) run_id;
  completion_counts := completion_counts t;
  worker_counts := hincrby str_eqb (worker_counts t) worker_id |}.
Definition end_process (run_id : Z) (now : Q) (t : WorkTracker) : WorkTracker := {|
  enqueued_at := enqueued_at t; started_at := started_at t;
  completed_at := hsetnx (completed_at t) run_id now; start_counts := start_counts t;
  completion_counts := hincrby Z.eqb (completion_counts t) run_id;
  worker_counts := worker_counts t |}.
(** Whether the event is set: the second half sets it when it was the last. *)
Definition all_completed (expected : Z) (t : WorkTracker) : bool :=
  Z.of_nat (length (completed_at t)) =? expected.
Definition enqueue (run_id : Z) (now : Q) (t : WorkTracker) : WorkTracker := {|
  enqueued_at := hset (enqueued_at t) run_id now; started_at := started_at t;
  completed_at := completed_at t; start_counts := start_counts t;
  completion_counts := completion_counts t; worker_counts := worker_counts t |}.
Inductive record :=
| Enqueue (run_id : Z) (now : Q)
| Begin (run_id : Z) (worker_id : str) (now : Q)
| End_ (run_id : Z) (now : Q).
Definition recorded (t : WorkTracker) (r : record) : WorkTracker :=
  match r with
  | Enqueue run_id now => enqueue run_id now t
  | Begin run_id worker_id now => begin_process run_id worker_id now t
  | End_ run_id now => end_process run_id now t
  end.

(** ** The verdict *)

Definition percentile (values : list Q) (percentage : Z) : outcome Q :=
  match values with
  | [] => DrillError [u "percentile requires samples and a percentage from 1 to 100"]
  | _ => if (1 <=? percentage) && (percentage <=? 100) then Ok (ranked values percentage)
         else DrillError [u "percentile requires samples and a percentage from 1 to 100"]
  end.
Definition counted {K} (eqb : K -> K -> bool) (counts : list (K * Z)) (k : K) : Z :=
  default 0 (dict_get eqb counts k).
(** set(a) != set(b) of the keys *)
Definition same_keys (a b : list (Z * Q)) : bool :=
  forallb (dict_has Z.eqb b) (map fst a) && forallb (dict_has Z.eqb a) (map fst b).
Definition latencies (times enqueued : list (Z * Q)) : outcome (list (Z * Q)) :=
  omap_list (fun '(run_id, at_enqueue) =>
    let! t := at_item times run_id in Ok (run_id, rounded (t - at_enqueue))) enqueued.
Definition int_list (l : list Z) : str := u "[" ++ str_join (u ", ") (map str_of_Z l) ++ u "]".
Definition name_list (l : list str) : str :=
  u "[" ++ str_join (u ", ") (map (fun s => [39%N] ++ s ++ [39%N]) l) ++ u "]".
Definition percentiles_of (values : list Q) : outcome json :=
  let! l := omap_list (fun rank =>
    let! q := percentile values rank in Ok (u "p" ++ str_of_Z rank, JFloat (round3 q))) [50; 95; 99] in
  Ok (JObj l).
(** sum(latency <= slo for latency in samples) / jobs, and that in percent *)
Definition attainment_json (slo : float) (samples : list Q) (jobs : Z) : outcome json :=
  let n := Z.of_nat (length (List.filter (fun x => float_leb (inl x) slo) samples)) in
  if jobs =? 0 then ZeroDivisionError
  else Ok (JFloat (round3 (rounded (rounded (inject_Z n / inject_Z jobs) * 100)))).
Definition float_plus (z : Z) (x : float) : float :=
  match x with inl q => to_double (inject_Z z + q) | inr f => inr f end.
(** What is known when the queue has been drained: the drill's records, the replicas, the
    metrics' count of recovered jobs and the length of the pending queue *)
Record Drained := {
  dr_checked_at : Z; dr_tracker : WorkTracker; dr_replicas : list str; dr_abandoned : Z;
  dr_recovered : Z; dr_size : Z; dr_enqueue_seconds : Q }.
Definition check_exactly_once (d : Drained) : outcome unit :=
  let t := dr_tracker d in
  if negb (same_keys (started_at t) (enqueued_at t) && same_keys (completed_at t) (enqueued_at t)) then
    DrillError [u "not every enqueued job reached start and completion"]
  else
    let duplicates := py_sorted Z.leb (List.filter (fun run_id =>
      negb ((counted Z.eqb (start_counts t) run_id =? 1)
            && (counted Z.eqb (completion_counts t) run_id =? 1))) (map fst (enqueued_at t))) in
    match duplicates with
    | _ :: _ => DrillError [u "jobs were not processed exactly once: "; int_list (take 10 duplicates)]
    | [] =>
      let idle := py_sorted str_leb (List.filter (fun id =>
        counted str_eqb (worker_counts t) id =? 0) (dr_replicas d)) in
      match idle with
      | _ :: _ => DrillError [u "replicas processed no jobs: "; name_list idle]
      | [] => Ok tt
      end
    end.
Definition maximum (l : list (Z * Q)) : outcome Q := extreme Qmax2 l.
Definition check_slo (args : Args) (d : Drained) (start completion : list (Z * Q)) : outcome (Q * Q * Q) :=
  let! max_start := maximum start in
  let! max_completion := maximum completion in
  let! recovery := at_item start (dr_abandoned d) in
  if float_ltb (limit_float (start_slo_seconds args)) (inl max_start) then
    DrillError [u "start SLO breached: "; fixed3 (inl max_start); u "s"]
  else if float_ltb (limit_float (completion_slo_seconds args)) (inl max_completion) then
    DrillError [u "completion SLO breached: "; fixed3 (inl max_completion); u "s"]
  else if float_ltb (float_plus (lease_seconds args) (limit_float (recovery_grace_seconds args))) (inl recovery) then
    DrillError [u "orphan recovery exceeded lease plus grace: "; fixed3 (inl recovery); u "s"]
  else Ok (max_start, max_completion, recovery).
Section verdict.
(** f"{count:g}" *)
Context (general : Z -> str).
Definition verdict (args : Args) (d : Drained) : outcome json :=
  let t := dr_tracker d in
  if float_ltb (inl (dr_enqueue_seconds d)) (limit_float (minimum_arrival_seconds args)) then
    DrillError [u "observed arrival duration is shorter than the required minimum: ";
                fixed3 (inl (dr_enqueue_seconds d)); u "s < "; fixed3 (limit_float (minimum_arrival_seconds args)); u "s"]
  else
  let! _ := check_exactly_once d in
  let! start := latencies (started_at t) (enqueued_at t) in
  let! completion := latencies (completed_at t) (enqueued_at t) in
  let! (max_start, max_completion, recovery) := check_slo args d start completion in
  if negb (dr_recovered d =? 1) then
    DrillError [u "expected one recovered job, observed "; general (dr_recovered d)]
  else if negb (dr_size d =? 0) then DrillError [u "pending queue was not fully drained"] else
  let! last := maximum (completed_at t) in
  let! first := extreme Qmin2 (enqueued_at t) in
  let observed := rounded (last - first) in
  let! start_attained := attainment_json (limit_float (start_slo_seconds args)) (map snd start) (jobs args) in
  let! completion_attained := attainment_json (limit_float (completion_slo_seconds args)) (map snd completion) (jobs args) in
  if Qeq_bool observed 0 then ZeroDivisionError else
  let! start_percentiles := percentiles_of (map snd start) in
  let! completion_percentiles := percentiles_of (map snd completion) in
  Ok (JObj [
    (u "schema_version", JInt 1); (u "checked_at", JStr (isoformat (dr_checked_at d)));
    (u "jobs", JInt (jobs args)); (u "replicas", JInt (replicas args));
    (u "enqueue_rate_per_second", limit_json (enqueue_rate_per_second args));
    (u "burst_size", JInt (if burst_size args =? 0
                           then if nonzero (limit_float (enqueue_rate_per_second args)) then 1 else jobs args
                           else burst_size args));
    (u "synthetic_processing_seconds", limit_json (processing_seconds args));
    (u "enqueue_seconds", JFloat (round3 (dr_enqueue_seconds d)));
    (u "planned_arrival_seconds", float_json (float_round3 (planned_arrival_seconds args)));
    (u "observed_seconds", JFloat (round3 observed));
    (u "throughput_jobs_per_second", JFloat (round3 (rounded (inject_Z (jobs args) / observed))));
    (u "processed_per_replica", JObj (map (fun c => (fst c, JInt (snd c)))
                                        (py_sorted by_name (worker_counts t))));
    (u "recovered_jobs", JInt (dr_recovered d));
    (u "max_start_seconds", JFloat (round3 max_start));
    (u "max_completion_seconds", JFloat (round3 max_completion));
    (u "orphan_recovery_seconds", JFloat (round3 recovery));
    (u "start_latency_seconds", start_percentiles);
    (u "completion_latency_seconds", completion_percentiles);
    (u "start_slo_seconds", limit_json (start_slo_seconds args));
    (u "completion_slo_seconds", limit_json (completion_slo_seconds args));
    (u "start_slo_attainment_percent", start_attained);
    (u "completion_slo_attainment_percent", completion_attained);
    (u "exactly_once", JBool true); (u "queue_drained", JBool true)]).
End verdict.

(** ** What a verdict has shown *)

Definition begins (id : Z) (records : list record) : Z :=
  Z.of_nat (length (List.filter (fun r => match r with Begin i _ _ => i =? id | _ => false end) records)).
Definition ends (id : Z) (records : list record) : Z :=
  Z.of_nat (length (List.filter (fun r => match r with End_ i _ => i =? id | _ => false end) records)).
Definition begins_by (worker : str) (records : list record) : Z :=
  Z.of_nat (length (List.filter
    (fun r => match r with Begin _ w _ => str_eqb w worker | _ => false end) records)).
Lemma tally_snoc (P : record -> bool) records r :
  Z.of_nat (length (List.filter P (records ++ [r])))
  = Z.of_nat (length (List.filter P records)) + if P r then 1 else 0.
Proof. rewrite List.filter_app, length_app. cbn [List.filter]. destruct (P r); cbn [length]; lia. Qed.
Lemma counted_hincrby {K} (eqb : K -> K -> bool) (Hk : forall a b, eqb a b = true <-> a = b) h field k :
  counted eqb (hincrby eqb h field) k = counted eqb h k + if eqb field k then 1 else 0.
Proof.
  unfold counted, hincrby. rewrite (dict_get_set eqb Hk).
  destruct (eqb k field) eqn:E; destruct (eqb field k) eqn:E2; try (apply Hk in E as ->; cbn; lia); try lia.
  - apply Hk in E as ->. assert (eqb field field = true) by by apply Hk. congruence.
  - apply Hk in E2 as ->. assert (eqb k k = true) by by apply Hk. congruence.
Qed.
Record reflects (records : list record) (t : WorkTracker) : Prop := {
  rf_starts id : counted Z.eqb (start_counts t) id = begins id records;
  rf_ends id : counted Z.eqb (completion_counts t) id = ends id records;
  rf_workers w : counted str_eqb (worker_counts t) w = begins_by w records;
  rf_begun id : dict_has Z.eqb (started_at t) id = (0 <? begins id records);
  rf_enqueued id now : In (Enqueue id now) records -> In id (map fst (enqueued_at t)) }.
Lemma has_after {V} (h : list (Z * V)) field (v : V) id n :
  0 <= n -> dict_has Z.eqb h id = (0 <? n) ->
  dict_has Z.eqb (hsetnx h field v) id = (0 <? n + if field =? id then 1 else 0).
Proof.
  intros Hn Hh. unfold hsetnx. rewrite dict_has_setdefault, Hh, (Z.eqb_sym field id).
  destruct (Z.eqb_spec id field), (Z.ltb_spec 0 n); symmetry; cbn [orb];
    first [apply Z.ltb_lt; lia|apply Z.ltb_ge; lia].
Qed.
Lemma recorded_reflects records t r : reflects records t -> reflects (records ++ [r]) (recorded t r).
Proof.
  intros [Hs He Hw Hb Hq].
  split; [intros id|intros id|intros w|intros id|intros id now].
  - unfold begins. rewrite tally_snoc. fold (begins id records). rewrite <-Hs.
    destruct r as [i now|i worker now|i now]; cbn [recorded start_counts enqueue begin_process end_process];
      [lia|by rewrite counted_hincrby by apply Z.eqb_eq|lia].
  - unfold ends. rewrite tally_snoc. fold (ends id records). rewrite <-He.
    destruct r as [i now|i worker now|i now]; cbn [recorded completion_counts enqueue begin_process end_process];
      [lia|lia|by rewrite counted_hincrby by apply Z.eqb_eq].
  - unfold begins_by. rewrite tally_snoc. fold (begins_by w records). rewrite <-Hw.
    destruct r as [i now|i worker now|i now]; cbn [recorded worker_counts enqueue begin_process end_process];
      [lia|by rewrite counted_hincrby by apply str_eqb_eq|lia].
  - unfold begins. rewrite tally_snoc. fold (begins id records).
    destruct r as [i now|i worker now|i now]; cbn [recorded started_at enqueue begin_process end_process];
      [by rewrite Hb, Z.add_0_r|apply has_after; [unfold begins; lia|done]|by rewrite Hb, Z.add_0_r].
  - intros Hin. apply in_app_or in Hin as [Hin|[->|[]]];
      [|cbn [recorded enqueued_at enqueue]; apply hset_keys; by right].
    specialize (Hq id now Hin). destruct r; cbn [recorded enqueued_at enqueue begin_process end_process];
      [apply hset_keys; by left|done..].
Qed.
Lemma tracker_reflects records : reflects records (fold_left recorded records no_records).
Proof.
  induction records as [|r records IH] using rev_ind; [by split|]. rewrite fold_left_app.
  by apply recorded_reflects.
Qed.

Lemma filter_nil {A} (P : A -> bool) l : List.filter P l = [] -> forall x, In x l -> P x = false.
Proof.
  intros H x Hx. destruct (P x) eqn:E; [|done]. assert (In x []) as []; rewrite <-H. by apply filter_In.
Qed.
Lemma sorted_nil {A} (leb : A -> A -> bool) l : py_sorted leb l = [] -> l = [].
Proof. intros H. pose proof (py_sorted_perm leb l) as Hp. rewrite H in Hp. by apply Permutation_nil_l in Hp. Qed.
(** Nobody is above the maximum. *)
Lemma Qmax2_ge l x y : In y (x :: l) -> Qle_bool y (fold_left Qmax2 l x) = true.
Proof.
  revert x y. induction l as [|z l IH]; intros x y; cbn [fold_left].
  - intros [->|[]]. apply Qle_bool_iff, Qle_refl.
  - intros [<-|[<-|Hin]]; [| |apply IH; by right];
      refine (Qle_bool_trans _ (Qmax2 x z) _ _ (IH _ _ (or_introl eq_refl)));
      unfold Qmax2; destruct (Qle_bool z x) eqn:E; try done; try (apply Qle_bool_iff, Qle_refl).
    by apply Qle_bool_total.
Qed.
Lemma maximum_ge l m : maximum l = Ok m -> forall k q, In (k, q) l -> Qle_bool q m = true.
Proof.
  unfold maximum, extreme. intros H k q Hin. apply (in_map snd) in Hin. cbn in Hin.
  destruct (map snd l) as [|x r]; [done|]. injection H as <-. by apply Qmax2_ge.
Qed.
Lemma above_le a p q : Qle_bool p q = true -> float_ltb a (inl q) = false -> float_ltb a (inl p) = false.
Proof.
  intros Hpq. destruct a as [a|f]; [|destruct f as [|negative]; [done|by destruct negative]]. cbn.
  rewrite !negb_false_iff. intros Hq. by eapply Qle_bool_trans.
Qed.
Lemma latencies_In times enqueued l : latencies times enqueued = Ok l ->
  forall id te, In (id, te) enqueued ->
  exists t, dict_get Z.eqb times id = Some t /\ In (id, rounded (t - te)) l.
Proof.
  unfold latencies. intros H id te Hin. apply omap_list_Ok in H.
  apply list_elem_of_In, list_elem_of_lookup in Hin as (i & Hi).
  destruct (Forall2_lookup_l _ _ _ _ _ H Hi) as (x & Hx & Ho). cbn in Ho.
  apply obind_Ok in Ho as (t & Ht & [= <-]). unfold at_item in Ht.
  destruct (dict_get Z.eqb times id) as [t'|]; [|done]. injection Ht as ->.
  exists t. split; [done|]. apply list_elem_of_In. by eapply list_elem_of_lookup_2.
Qed.

(** A job waited no longer than the objective, which is not a number that compares with it
    otherwise. *)
Definition in_time (slo : float) (times : list (Z * Q)) (id : Z) (at_enqueue : Q) : Prop :=
  exists t, dict_get Z.eqb times id = Some t /\ float_ltb slo (inl (rounded (t - at_enqueue))) = false.
(** The replica recovery drill passes only if every enqueued job was begun once and ended
    once, whatever the order of what was recorded; no other job was begun; every replica began
    one; every job started and completed within the objectives; one job was recovered, and the
    queue was empty. *)
Theorem recovery_verdict_sound general args d records document
  (Htracker : dr_tracker d = fold_left recorded records no_records)
  (Hverdict : verdict general args d = Ok document) :
  (forall id now, In (Enqueue id now) records -> begins id records = 1 /\ ends id records = 1)
  /\ (forall id, 1 <= begins id records -> In id (map fst (enqueued_at (dr_tracker d))))
  /\ (forall worker, In worker (dr_replicas d) -> 1 <= begins_by worker records)
  /\ (forall id te, In (id, te) (enqueued_at (dr_tracker d)) ->
        in_time (limit_float (start_slo_seconds args)) (started_at (dr_tracker d)) id te
        /\ in_time (limit_float (completion_slo_seconds args)) (completed_at (dr_tracker d)) id te)
  /\ dr_recovered d = 1 /\ dr_size d = 0.
Proof.
  pose proof (tracker_reflects records) as [Hs He Hw Hb Hq]. rewrite <-Htracker in *.
  unfold verdict in Hverdict. destruct (float_ltb _ _); [discriminate Hverdict|].
  apply obind_Ok in Hverdict as ([] & Hc & H). apply obind_Ok in H as (start & Hstart & H).
  apply obind_Ok in H as (completion & Hcompletion & H).
  apply obind_Ok in H as ([[max_start max_completion] recovery] & Hslo & H).
  destruct (Z.eqb_spec (dr_recovered d) 1) as [Hrec|]; [|discriminate H].
  destruct (Z.eqb_spec (dr_size d) 0) as [Hsize|]; [|discriminate H]. clear H.
  unfold check_exactly_once in Hc. destruct (negb _) eqn:Ek; [discriminate Hc|].
  apply negb_false_iff, andb_true_iff in Ek as [Ek _]. apply andb_true_iff in Ek as [Ek _].
  destruct (py_sorted Z.leb _) as [|? ?] eqn:Ed; [|discriminate Hc].
  destruct (py_sorted str_leb _) as [|? ?] eqn:Ei; [|discriminate Hc].
  apply sorted_nil in Ed, Ei. split_and!; [..|done|done].
  - intros id now Hin. pose proof (filter_nil _ _ Ed id (Hq id now Hin)) as H.
    apply negb_false_iff, andb_true_iff in H as [H1%Z.eqb_eq H2%Z.eqb_eq]. by rewrite <-Hs, <-He.
  - intros id Hid. rewrite forallb_forall in Ek.
    assert (dict_has Z.eqb (started_at (dr_tracker d)) id = true) as Hhas by (rewrite Hb; apply Z.ltb_lt; lia).
    unfold dict_has in Hhas. destruct (dict_get Z.eqb (started_at (dr_tracker d)) id) as [t|] eqn:E; [|done].
    apply dict_get_Some_In in E; [|apply Z.eqb_eq]. specialize (Ek id (in_map fst _ _ E)).
    unfold dict_has in Ek. destruct (dict_get Z.eqb (enqueued_at (dr_tracker d)) id) as [t'|] eqn:E'; [|done].
    apply dict_get_Some_In in E'; [|apply Z.eqb_eq]. exact (in_map fst _ _ E').
  - intros worker Hin. pose proof (filter_nil _ _ Ei worker Hin) as H. cbn in H. apply Z.eqb_neq in H.
    rewrite Hw in H. unfold begins_by in *. lia.
  - unfold check_slo in Hslo. apply obind_Ok in Hslo as (m1 & H1 & Hslo).
    apply obind_Ok in Hslo as (m2 & H2 & Hslo). apply obind_Ok in Hslo as (m3 & _ & Hslo).
    destruct (float_ltb _ (inl m1)) eqn:E1; [discriminate Hslo|].
    destruct (float_ltb _ (inl m2)) eqn:E2; [discriminate Hslo|]. intros id te Hin. split.
    + destruct (latencies_In _ _ _ Hstart _ _ Hin) as (t & Ht & Hl). exists t. split; [done|].
      eapply above_le; [|exact E1]. by eapply maximum_ge.
    + destruct (latencies_In _ _ _ Hcompletion _ _ Hin) as (t & Ht & Hl). exists t. split; [done|].
      eapply above_le; [|exact E2]. by eapply maximum_ge.
Qed.

(** ** Examples *)

Definition example_args : Args := {|
  jobs := 2; replicas := 2; lease_seconds := 2; heartbeat_seconds := Real (1 # 2);
  processing_seconds := Real (1 # 100); enqueue_rate_per_second := Whole 0; burst_size := 0;
  start_slo_seconds := Whole 60; completion_slo_seconds := Whole 120;
  recovery_grace_seconds := Whole 5; minimum_arrival_seconds := Whole 0;
  redis_recovery_timeout_seconds := Whole 60 |}.
Definition example_records : list record :=
  [Enqueue 1000000 0; Enqueue 1000001 1; Begin 1000001 (u "replica-1") 1; End_ 1000001 2;
   Begin 1000000 (u "replica-2") 3; End_ 1000000 4]%Q.
Definition drained (records : list record) : Drained := {|
  dr_checked_at := 1788220800000000; dr_tracker := fold_left recorded records no_records;
  dr_replicas := [u "replica-1"; u "replica-2"]; dr_abandoned := 1000000; dr_recovered := 1;
  dr_size := 0; dr_enqueue_seconds := 1%Q |}.
Example arguments_valid : validate_args example_args = Ok tt.
Proof. vm_compute. reflexivity. Qed.
Lemma recovery_verdict_sound_witness :
  match verdict str_of_Z example_args (drained example_records) with
  | Ok _ => begins 1000000 example_records = 1 /\ begins_by (u "replica-2") example_records >= 1
  | Raise _ => False
  end.
Proof.
  assert (Ho : match verdict str_of_Z example_args (drained example_records)
               with Ok _ => true | Raise _ => false end = true) by (vm_compute; reflexivity).
  destruct (verdict _ _ _) as [document|e] eqn:E; [|discriminate Ho].
  destruct (recovery_verdict_sound str_of_Z example_args (drained example_records) example_records
    document eq_refl E) as (Hj & _ & Hw & _).
  split.
  - exact (proj1 (Hj 1000000 0%Q (or_introl eq_refl))).
  - apply Z.le_ge, Hw. right. left. reflexivity.
Defined.
(** A job that two replicas processed is found. *)
Example processed_twice :
  verdict str_of_Z example_args (drained (example_records ++ [Begin 1000000 (u "replica-1") 5]%Q))
  = DrillError [u "jobs were not processed exactly once: [1000000]"].
Proof. vm_compute. reflexivity. Qed.
(** An objective that is not a number is accepted, and nothing exceeds it. *)
Example nan_objective :
  let args := {|
    jobs := 2; replicas := 2; lease_seconds := 2; heartbeat_seconds := Real (1 # 2);
    processing_seconds := Real (1 # 100); enqueue_rate_per_second := Whole 0; burst_size := 0;
    start_slo_seconds := NotFinite NaN; completion_slo_seconds := Whole 120;
    recovery_grace_seconds := Whole 5; minimum_arrival_seconds := Whole 0;
    redis_recovery_timeout_seconds := Whole 60 |} in
  validate_args args = Ok tt.
Proof. vm_compute. reflexivity. Qed.
