(* ===== verification/Preflight.v ===== *)
(** * The HTTPS preflight (ops/acceptance/verify_https.py)

    The public origin is asked four times, and what it answers must be what a browser is
    to see: the redirect, the security headers, the readiness and the start of the login.
    The HTTP client is a parameter; the cookie and the state are looked at and not kept. *)

From stdpp Require Import base list strings numbers.
From S2P Require Import Prelude Text Calendar Json Loads Url.

Set Default Proof Using "Type".

(** ** parse_qs *)

(** The octets of a text in ASCII, %xx decoded *)
Fixpoint unquote_to_bytes (s : str) : list N :=
  match s with
  | [] => []
  | c :: r =>
    if (c =? 37)%N then
      match r with
      | a :: b :: r' => match hex_value a, hex_value b with
                        | Some x, Some y => (16 * x + y)%N :: unquote_to_bytes r'
                        | _, _ => c :: unquote_to_bytes r
                        end
      | _ => c :: unquote_to_bytes r
      end
    else c :: unquote_to_bytes r
  end.
Definition unquote_run (run : str) : str := decode_replace (unquote_to_bytes (rev run)).
(** Other characters are kept; [run] holds the ASCII characters before, the last first. *)
Fixpoint unquote_from (run s : str) : str :=
  match s with
  | [] => unquote_run run
  | c :: r => if is_ascii c then unquote_from (c :: run) r
              else unquote_run run ++ c :: unquote_from [] r
  end.
Definition unquote_plus (s : str) : str :=
  unquote_from [] (map (fun c => if (c =? 43)%N then 32%N else c) s).
(** The values of each name, in order; fields without a value do not count. *)
Definition parse_qs (query : str) : list (str * list str) :=
  fold_left (fun d field =>
    match partition 61 field with
    | (name, Some ((_ :: _) as value)) =>
      let name := unquote_plus name in
      dict_set str_eqb d name (default [] (dict_get str_eqb d name) ++ [unquote_plus value])
    | _ => d
    end) (split_char 38 query) [].

(** ** The checks *)

Definition MINIMUM_HSTS_SECONDS : Z := 31536000.
Definition SECURITY_HEADERS : list (str * option str) := [
  (u "content-security-policy", None);
  (u "permissions-policy", Some (u "camera=(), geolocation=(), microphone=()"));
  (u "referrer-policy", Some (u "no-referrer")); (u "x-content-type-options", Some (u "nosniff"));
  (u "x-frame-options", Some (u "DENY"))].
(** AcceptanceError, a RuntimeError *)
Definition AcceptanceError {A} (parts : list str) : outcome A := Raise (RuntimeError (concat parts)).

(** A response: [header] is headers.get(name), [header_list] is headers.get_list(name), both
    without regard to case, [json] is what response.json() gives *)
Record Response := {
  status_code : Z; header : str -> option str; header_list : str -> list str; json_ : outcome json }.

Section preflight.
Context {U : UnicodeDb} {NF : Nfkc} {R : Repr}.
Definition nonempty (s : option str) : bool := match s with Some (_ :: _) => true | _ => false end.
Definition validate_origin (value scheme_ : str) : outcome str :=
  let! parsed := urlsplit value in
  if negb (str_eqb (scheme parsed) scheme_) || negb (nonempty (hostname parsed)) then
    AcceptanceError [u "origin must use "; scheme_; u " and include a hostname"]
  else if nonempty (username parsed) || nonempty (password parsed)
          || negb (str_eqb (path parsed) [] || str_eqb (path parsed) (u "/")) then
    AcceptanceError [u "origin must not contain credentials or a path"]
  else if negb (str_eqb (query parsed) [] && str_eqb (fragment parsed) []) then
    AcceptanceError [u "origin must not contain a query or fragment"]
  else Ok (rstrip_chars (u "/") value).
(** urlunsplit(("http", authority, "", "", "")) *)
Definition default_http_origin (https_origin : str) : outcome str :=
  let! parsed := urlsplit https_origin in
  let name := default [] (hostname parsed) in
  let authority := if has_char 58 name then u "[" ++ name ++ u "]" else name in
  Ok (u "http://" ++ authority).

Record Hsts := { max_age_seconds : Z; include_subdomains : bool; preload : bool }.
Definition parse_hsts (value : str) : outcome Hsts :=
  let directives := List.filter (fun part => negb (str_eqb part [])) (map strip (split_char 59 value)) in
  let max_age_values := map (fun part => default [] (snd (partition 61 part)))
    (List.filter (fun part => starts_with (u "max-age=") (lower part)) directives) in
  match max_age_values with
  | [text] =>
    match int_of_str text with
    | None => AcceptanceError [u "HSTS max-age must be an integer"]
    | Some max_age =>
      if max_age <? MINIMUM_HSTS_SECONDS then
        AcceptanceError [u "HSTS max-age must be at least "; str_of_Z MINIMUM_HSTS_SECONDS]
      else
        let lowered := map lower directives in
        Ok {| max_age_seconds := max_age;
              include_subdomains := existsb (str_eqb (u "includesubdomains")) lowered;
              preload := existsb (str_eqb (u "preload")) lowered |}
    end
  | _ => AcceptanceError [u "Strict-Transport-Security must define one max-age"]
  end.
Definition header_or_empty (r : Response) (name : string) : str := default [] (header r (u name)).
Definition check_redirect (redirect : Response) (https_origin : str) : outcome unit :=
  if negb ((status_code redirect =? 301) || (status_code redirect =? 308))
     || negb (str_eqb (rstrip_chars (u "/") (header_or_empty redirect "location")) https_origin) then
    AcceptanceError [u "HTTP origin must permanently redirect to the exact HTTPS origin"]
  else Ok tt.
Fixpoint check_headers (dashboard : Response) (expected : list (str * option str)) : outcome unit :=
  match expected with
  | [] => Ok tt
  | (name, value) :: expected =>
    let valid := match header dashboard name, value with
                 | None, _ => false
                 | Some _, None => true
                 | Some actual, Some value => str_eqb actual value
                 end in
    if valid then check_headers dashboard expected
    else AcceptanceError [u "dashboard security header is missing or invalid: "; name]
  end.
Definition check_dashboard (dashboard : Response) : outcome Hsts :=
  if negb (status_code dashboard =? 200) then
    AcceptanceError [u "dashboard returned HTTP "; str_of_Z (status_code dashboard)]
  else
    let! _ := check_headers dashboard SECURITY_HEADERS in
    parse_hsts (header_or_empty dashboard "strict-transport-security").
Definition is_text (v : json) (s : string) : bool := match v with JStr t => str_eqb t (u s) | _ => false end.
Definition check_readiness (readiness : Response) : outcome json :=
  match json_ readiness with
  | Raise e => if is_value_error e then AcceptanceError [u "readiness response is not JSON"] else Raise e
  | Ok payload =>
    let! checks := jget_default payload (u "checks") (JObj []) in
    let not_ready := AcceptanceError [u "readiness did not report healthy database and queue"] in
    if negb (status_code readiness =? 200) then not_ready else
    let! status := jget payload (u "status") in
    if negb (is_text status "ready") then not_ready else
    let! database := jget checks (u "database") in
    if negb (is_text database "ok") then not_ready else
    let! queue := jget checks (u "queue") in
    if negb (is_text queue "ok") then not_ready else Ok checks
  end.
Definition COOKIE_FLAGS : list str := map u ["; secure"; "; httponly"; "; samesite=lax"]%string.
Definition check_oauth (oauth : Response) (https_origin : str) : outcome unit :=
  let! location := urlsplit (header_or_empty oauth "location") in
  let parameters := parse_qs (query location) in
  let expected_callback := https_origin ++ u "/auth/github/callback" in
  if negb ((status_code oauth =? 302) && str_eqb (scheme location) (u "https")
           && bool_decide (hostname location = Some (u "github.com"))
           && str_eqb (path location) (u "/login/oauth/authorize")
           && bool_decide (dict_get str_eqb parameters (u "redirect_uri") = Some [expected_callback])
           && negb (bool_decide (default [[]] (dict_get str_eqb parameters (u "state")) !! 0%nat = Some []))) then
    AcceptanceError [u "OAuth start did not return the expected GitHub redirect"]
  else
    match List.filter (fun value => starts_with (u "pipelens_oauth_state=") (lower value))
            (header_list oauth (u "set-cookie")) with
    | [cookie] =>
      if forallb (fun flag => contains flag (lower cookie)) COOKIE_FLAGS then Ok tt
      else AcceptanceError [u "OAuth state cookie must use Secure, HttpOnly and SameSite=Lax"]
    | _ => AcceptanceError [u "OAuth state cookie was not set exactly once"]
    end.
Definition evidence (now : Z) (https_origin : str) (redirect dashboard readiness oauth : Response)
    (hsts : Hsts) (checks : json) : json := JObj [
  (u "schema_version", JInt 1); (u "checked_at", JStr (isoformat now)); (u "origin", JStr https_origin);
  (u "result", JStr (u "pass")); (u "tls", JObj [(u "certificate_verified", JBool true)]);
  (u "http_redirect", JObj [(u "status_code", JInt (status_code redirect)); (u "exact_origin", JBool true)]);
  (u "dashboard", JObj [
    (u "status_code", JInt (status_code dashboard));
    (u "headers", JObj (map (fun h => (fst h, JStr (u "valid"))) SECURITY_HEADERS));
    (u "hsts", JObj [(u "max_age_seconds", JInt (max_age_seconds hsts));
                     (u "include_subdomains", JBool (include_subdomains hsts));
                     (u "preload", JBool (preload hsts))])]);
  (u "readiness", JObj [(u "status_code", JInt (status_code readiness)); (u "status", JStr (u "ready"));
                        (u "checks", checks)]);
  (u "oauth_start", JObj [
    (u "status_code", JInt (status_code oauth)); (u "provider", JStr (u "github.com"));
    (u "callback_matches", JBool true); (u "state_present", JBool true);
    (u "state_cookie_flags", JObj [(u "secure", JBool true); (u "httponly", JBool true);
                                   (u "samesite", JStr (u "lax"))])])].
(** client.get, which changes the world and may fail *)
Context {W : Type} (client_get : str -> M W Response).
Definition verify_https_boundary (https_origin : str) (http_origin : option str) (now : Z) : M W json :=
  (do! https_origin := Mlift (validate_origin https_origin (u "https")) in
   do! http_origin := Mlift (match http_origin with
                             | Some ((_ :: _) as origin) => Ok origin
                             | _ => default_http_origin https_origin
                             end) in
   do! http_origin := Mlift (validate_origin http_origin (u "http")) in
   do! redirect := client_get (http_origin ++ u "/") in
   Mlift (check_redirect redirect https_origin);;;
   do! dashboard := client_get (https_origin ++ u "/") in
   do! hsts := Mlift (check_dashboard dashboard) in
   do! readiness := client_get (https_origin ++ u "/readyz") in
   do! checks := Mlift (check_readiness readiness) in
   do! oauth := client_get (https_origin ++ u "/auth/github/login") in
   Mlift (check_oauth oauth https_origin);;;
   Mret (evidence now https_origin redirect dashboard readiness oauth hsts checks))%prog.
End preflight.

(** ** What a preflight that passes has seen *)

Section sound.
Context {U : UnicodeDb} {NF : Nfkc} {R : Repr}.

Lemma acceptance_error {A} parts (a : A) : AcceptanceError parts <> Ok a.
Proof. done. Qed.
(** An origin: the scheme, a host, and nothing that a browser would not show *)
Definition plain_origin (scheme_ origin : str) : Prop :=
  exists value parsed, urlsplit value = Ok parsed /\ origin = rstrip_chars (u "/") value
    /\ scheme parsed = scheme_ /\ nonempty (hostname parsed) = true
    /\ nonempty (username parsed) = false /\ nonempty (password parsed) = false
    /\ (path parsed = [] \/ path parsed = u "/") /\ query parsed = [] /\ fragment parsed = [].
Lemma validate_origin_Ok value scheme_ origin :
  validate_origin value scheme_ = Ok origin -> plain_origin scheme_ origin.
Proof.
  intros (parsed & Hp & H)%obind_Ok.
  destruct (_ || _) eqn:E1; [by apply acceptance_error in H|].
  destruct (nonempty (username parsed) || _ || _) eqn:E2; [by apply acceptance_error in H|].
  destruct (negb (_ && _)) eqn:E3; [by apply acceptance_error in H|]. injection H as <-.
  apply orb_false_iff in E1 as [E1 E1']. apply orb_false_iff in E2 as [E2 E2''].
  apply orb_false_iff in E2 as [E2 E2']. rewrite negb_false_iff in *.
  apply orb_true_iff in E2''. apply andb_true_iff in E3 as [E3 E3'].
  exists value, parsed. rewrite !str_eqb_eq in *. tauto.
Qed.
Definition redirects (r : Response) (origin : str) : Prop :=
  (status_code r = 301 \/ status_code r = 308)
  /\ rstrip_chars (u "/") (header_or_empty r "location") = origin.
Definition protected (r : Response) (h : Hsts) : Prop :=
  status_code r = 200
  /\ (forall name expected, In (name, expected) SECURITY_HEADERS ->
        exists actual, header r name = Some actual /\ match expected with Some v => actual = v | None => True end)
  /\ parse_hsts (header_or_empty r "strict-transport-security") = Ok h
  /\ MINIMUM_HSTS_SECONDS <= max_age_seconds h.
Definition ready (r : Response) (checks : json) : Prop :=
  status_code r = 200
  /\ exists d c, json_ r = Ok (JObj d) /\ dict_get str_eqb d (u "status") = Some (JStr (u "ready"))
       /\ dict_get str_eqb d (u "checks") = Some checks /\ checks = JObj c
       /\ dict_get str_eqb c (u "database") = Some (JStr (u "ok"))
       /\ dict_get str_eqb c (u "queue") = Some (JStr (u "ok")).
Definition starts_login (r : Response) (origin : str) : Prop :=
  exists location state states cookie,
    status_code r = 302 /\ urlsplit (header_or_empty r "location") = Ok location
    /\ scheme location = u "https" /\ hostname location = Some (u "github.com")
    /\ path location = u "/login/oauth/authorize"
    /\ dict_get str_eqb (parse_qs (query location)) (u "redirect_uri")
       = Some [origin ++ u "/auth/github/callback"]
    /\ dict_get str_eqb (parse_qs (query location)) (u "state") = Some (state :: states) /\ state <> []
    /\ List.filter (fun value => starts_with (u "pipelens_oauth_state=") (lower value))
         (header_list r (u "set-cookie")) = [cookie]
    /\ Forall (fun flag => contains flag (lower cookie) = true) COOKIE_FLAGS.

Lemma check_redirect_Ok r origin : check_redirect r origin = Ok tt -> redirects r origin.
Proof.
  unfold check_redirect. destruct (_ || _) eqn:E; [by intros He%acceptance_error|]. intros _.
  apply orb_false_iff in E as [E1 E2]. rewrite negb_false_iff in *. apply str_eqb_eq in E2.
  split; [|done]. rewrite orb_true_iff, !Z.eqb_eq in E1. done.
Qed.
Lemma check_headers_Ok r expected : check_headers r expected = Ok tt ->
  forall name value, In (name, value) expected ->
  exists actual, header r name = Some actual /\ match value with Some v => actual = v | None => True end.
Proof.
  induction expected as [|[name value] expected IH]; cbn [check_headers]; [by intros _ ? ? []|].
  destruct (match header r name with Some _ => _ | None => _ end) eqn:E; [|by intros He%acceptance_error].
  intros H name' value' [[= <- <-]|Hin]; [|by apply IH].
  destruct (header r name) as [actual|]; [|done]. exists actual. split; [done|].
  destruct value as [v|]; [|done]. by apply str_eqb_eq.
Qed.
Lemma parse_hsts_age value h : parse_hsts value = Ok h -> MINIMUM_HSTS_SECONDS <= max_age_seconds h.
Proof.
  unfold parse_hsts. destruct (map _ _) as [|text [|? ?]]; try by (intros He%acceptance_error).
  destruct (int_of_str text) as [z|]; [|by intros He%acceptance_error].
  destruct (Z.ltb_spec z MINIMUM_HSTS_SECONDS) as [|Hz]; [by intros He%acceptance_error|].
  by intros [= <-].
Qed.
Lemma check_dashboard_Ok r h : check_dashboard r = Ok h -> protected r h.
Proof.
  unfold check_dashboard. destruct (Z.eqb_spec (status_code r) 200) as [Hs|]; [|by intros He%acceptance_error].
  cbn [negb]. intros ([] & Hh & Hp)%obind_Ok. split; [done|]. split; [by apply check_headers_Ok|].
  split; [done|by eapply parse_hsts_age].
Qed.
Lemma is_text_spec v s : is_text v s = true -> v = JStr (u s).
Proof. destruct v; try done. cbn. by intros ->%str_eqb_eq. Qed.
Lemma jget_text d key s : is_text (default JNull (dict_get str_eqb d key)) s = true ->
  dict_get str_eqb d key = Some (JStr (u s)).
Proof. intros H%is_text_spec. destruct (dict_get str_eqb d key); [by rewrite <-H|done]. Qed.
Lemma check_readiness_Ok r checks : check_readiness r = Ok checks -> ready r checks.
Proof.
  unfold check_readiness. destruct (json_ r) as [payload|e] eqn:Ej; [|by destruct (is_value_error e)].
  intros (c & Hc & H)%obind_Ok. destruct payload as [| | | | | | |d]; try discriminate Hc.
  injection Hc as Hc. destruct (Z.eqb_spec (status_code r) 200) as [Hs|]; [|by apply acceptance_error in H].
  apply obind_Ok in H as (status & [= <-] & H). destruct (is_text _ "ready") eqn:E1; [|by apply acceptance_error in H].
  apply obind_Ok in H as (database & Hd & H). destruct (is_text database "ok") eqn:E2; [|by apply acceptance_error in H].
  apply obind_Ok in H as (queue & Hq & H). destruct (is_text queue "ok") eqn:E3; [|by apply acceptance_error in H].
  injection H as <-. destruct c as [| | | | | | |c]; try discriminate Hd. injection Hd as <-. injection Hq as <-.
  apply jget_text in E1, E2, E3. split; [done|]. exists d, c. split_and!; try done.
  destruct (dict_get str_eqb d (u "checks")) as [x|]; [cbn in Hc; by rewrite Hc|]. cbn in Hc. injection Hc as <-. discriminate E2.
Qed.
Lemma parse_qs_nonempty query name : dict_get str_eqb (parse_qs query) name <> Some [].
Proof.
  unfold parse_qs. cut (forall d, dict_get str_eqb d name <> Some [] ->
    dict_get str_eqb (fold_left (fun d field => match partition 61 field with
      | (name, Some ((_ :: _) as value)) =>
        dict_set str_eqb d (unquote_plus name)
          (default [] (dict_get str_eqb d (unquote_plus name)) ++ [unquote_plus value])
      | _ => d end) (split_char 38 query) d) name <> Some []); [intros H; by apply H|].
  induction (split_char 38 query) as [|field fields IH]; intros d Hd; cbn [fold_left]; [done|].
  apply IH. destruct (partition 61 field) as [name' [[|c value]|]]; [done| |done].
  rewrite dict_get_set by apply str_eqb_eq. destruct (str_eqb _ _); [|done].
  intros [= H]. by apply app_eq_nil in H as [_ H].
Qed.
Lemma check_oauth_Ok r origin : check_oauth r origin = Ok tt -> starts_login r origin.
Proof.
  intros (location & Hl & H)%obind_Ok. cbv zeta in H.
  destruct (negb (_ && _)) eqn:E; [by apply acceptance_error in H|].
  apply negb_false_iff in E. rewrite !andb_true_iff, !str_eqb_eq, !bool_decide_eq_true, Z.eqb_eq, negb_true_iff,
    bool_decide_eq_false in E. destruct E as [[[[[Hs Hsch] Hh] Hp] Hu] Hstate].
  destruct (List.filter _ _) as [|cookie [|? ?]] eqn:Ec; try by apply acceptance_error in H.
  destruct (forallb _ COOKIE_FLAGS) eqn:Ef; [|by apply acceptance_error in H].
  pose proof (parse_qs_nonempty (query location) (u "state")) as Hne.
  destruct (dict_get str_eqb (parse_qs (query location)) (u "state")) as [[|state states]|] eqn:Eq; [done| |done].
  exists location, state, states, cookie. split_and!; try done; [by intros ->|].
  apply List.Forall_forall. by apply forallb_forall.
Qed.

Context {W : Type} (client_get : str -> M W Response).
(** A preflight that writes evidence has asked the two origins in this order, and each of the
    four answers is what the public boundary owes. *)
Theorem preflight_sound value http_value now w document w'
  (Hrun : verify_https_boundary client_get value http_value now w = (Ok document, w')) :
  exists origin http r1 w1 r2 w2 r3 w3 r4 hsts checks,
    plain_origin (u "https") origin /\ plain_origin (u "http") http
    /\ client_get (http ++ u "/") w = (Ok r1, w1) /\ redirects r1 origin
    /\ client_get (origin ++ u "/") w1 = (Ok r2, w2) /\ protected r2 hsts
    /\ client_get (origin ++ u "/readyz") w2 = (Ok r3, w3) /\ ready r3 checks
    /\ client_get (origin ++ u "/auth/github/login") w3 = (Ok r4, w') /\ starts_login r4 origin
    /\ document = evidence now origin r1 r2 r3 r4 hsts checks.
Proof.
  apply Mbind_Ok in Hrun as (origin & ? & Ho & H). injection Ho as Ho <-.
  apply Mbind_Ok in H as (http0 & ? & Hh0 & H). injection Hh0 as _ <-.
  apply Mbind_Ok in H as (http & ? & Hh & H). injection Hh as Hh <-.
  apply Mbind_Ok in H as (r1 & w1 & H1 & H). apply Mbind_Ok in H as ([] & ? & C1 & H). injection C1 as C1 <-.
  apply Mbind_Ok in H as (r2 & w2 & H2 & H). apply Mbind_Ok in H as (hsts & ? & C2 & H). injection C2 as C2 <-.
  apply Mbind_Ok in H as (r3 & w3 & H3 & H). apply Mbind_Ok in H as (checks & ? & C3 & H). injection C3 as C3 <-.
  apply Mbind_Ok in H as (r4 & w4 & H4 & H). apply Mbind_Ok in H as ([] & ? & C4 & H). injection C4 as C4 <-.
  injection H as <- <-. exists origin, http, r1, w1, r2, w2, r3, w3, r4, hsts, checks.
  apply validate_origin_Ok in Ho, Hh. apply check_redirect_Ok in C1. apply check_dashboard_Ok in C2.
  apply check_readiness_Ok in C3. apply check_oauth_Ok in C4. by split_and!.
Qed.
End sound.

(** ** Examples *)

Definition response (status : Z) (headers : list (str * str)) (body : string) : Response := {|
  status_code := status; header := dict_get str_eqb headers;
  header_list := fun name => map snd (List.filter (fun h => str_eqb (fst h) name) headers);
  json_ := match json_loads_str (u body) with inl v => Ok v | inr _ => Raise (ValueError []) end |}.
Definition example_site (url : str) : M unit Response := fun w =>
  if str_eqb url (u "http://pipelens.example/") then
    (Ok (response 308 [(u "location", u "https://pipelens.example/")] ""), w)
  else if str_eqb url (u "https://pipelens.example/") then
    (Ok (response 200
       ([(u "content-security-policy", u "default-src 'self'");
         (u "strict-transport-security", u "max-age=31536000; includeSubDomains")]
        ++ map (fun h => (fst h, default [] (snd h))) (tail SECURITY_HEADERS)) ""), w)
  else if str_eqb url (u "https://pipelens.example/readyz") then
    (Ok {| status_code := 200; header := fun _ => None; header_list := fun _ => [];
           json_ := Ok (JObj [(u "status", JStr (u "ready"));
             (u "checks", JObj [(u "database", JStr (u "ok")); (u "queue", JStr (u "ok"))])]) |}, w)
  else
    (Ok (response 302
       [(u "location", u "https://github.com/login/oauth/authorize?client_id=1&redirect_uri=https%3A%2F%2Fpipelens.example%2Fauth%2Fgithub%2Fcallback&state=s1");
        (u "set-cookie", u "pipelens_oauth_state=s1; Path=/; HttpOnly; SameSite=Lax; Secure")] ""), w).
Abbreviation example_preflight value :=
  (@verify_https_boundary ascii_db plain_nfkc plain_repr unit example_site (u value) None 1788220800000000 tt).
Lemma preflight_sound_witness : exists checks r, @ready r checks.
Proof.
  assert (Ho : match example_preflight "https://pipelens.example/" with (Ok _, _) => true | _ => false end = true)
    by (vm_compute; reflexivity).
  destruct (example_preflight "https://pipelens.example/") as [[document|e] w'] eqn:E; [|discriminate Ho].
  destruct (@preflight_sound ascii_db plain_nfkc plain_repr unit example_site
    (u "https://pipelens.example/") None 1788220800000000 tt document w' E)
    as (? & ? & ? & ? & ? & ? & r3 & ? & ? & ? & checks & _ & _ & _ & _ & _ & _ & _ & H & _).
  exists checks, r3. exact H.
Defined.
(** An origin may end with an empty query, which the URLs made from it then keep. *)
Example empty_query_accepted :
  @validate_origin ascii_db plain_nfkc plain_repr (u "https://pipelens.example?") (u "https")
  = Ok (u "https://pipelens.example?").
Proof. vm_compute. reflexivity. Qed.
(** A readiness document that is no object is a traceback. *)
Example readiness_list_crashes :
  check_readiness {| status_code := 503; header := fun _ => None; header_list := fun _ => [];
                     json_ := Ok (JArr []) |} = Raise (AttributeError (u "get")).
Proof. reflexivity. Qed.
